(* ===== verification/_CoqProject ===== *)
-Q . S2P
Prelude.v
CFloat.v
BitCodec.v
WireFields.v
IrSensing.v
LineDetection.v
BarcodeDecoder.v
BarcodeRecord.v
BarcodeReader.v
Navigation.v
NavigationSafety.v
NavigationCodec.v
ObstacleScan.v
ObstacleCodec.v
Avoidance.v
Motion.v
MotionController.v
MotionSafety.v
MotionPack.v
Drive.v
DriveSafety.v
DriveSnapshot.v
DriveTheorems.v
IntegrationCodec.v
Operator.v
OperatorSafety.v
Telemetry.v
TelemetryStore.v
BarcodeMap.v
Imu.v
FloatRange.v
Terrain.v
TerrainService.v
TerrainControl.v
Vehicle.v
Capture.v
Debug.v
Integration.v
DriveFrame.v
IntegrationSafety.v
IntegrationTheorems.v
MessageBuffer.v
MotionService.v
MotionCalibration.v
MotionServiceSafety.v
MotionTaskSafety.v
CalibrationMeasures.v
MotionServiceTheorems.v
CalibrationEnds.v
MotionPeriods.v
