(* ===== verification/Prelude.v ===== *)
(** * A verified model of the autonomous robotic car

    The program is the firmware of a line-following car (Raspberry Pi Pico W,
    micro T-Kernel).  Three infrared sensors are sampled every 10 ms; the frame is
    turned into a line position, a barcode stream and steering; a drive
    controller decides what the motion subsystem is asked to do; an ultrasonic
    scanner may start a detour around an obstacle; an operator with two buttons
    calibrates, starts, stops and resets the car.  This library models the
    program's own code under [src/app_program] and, of the kernel, the message
    buffer its report queue is made of; the rest of the kernel, the device drivers
    and the C library are not part of it.

    ** Parts, and the files that model them

    - [Prelude], [CFloat]: record update, machine integers (a w-bit value is a [Z],
      every wrap-around written out: [u8], [u16], [u32], [i16], [i32]), wrap-safe
      times ([elapsed], [later]), array access; IEEE binary32 and binary64
      arithmetic on the specification floats of the standard library.
    - [BitCodec], [WireFields]: the [put]/[get] bit loops every codec of the
      program repeats, as a list of fields written and a reader monad.
    - [IrSensing]: [subsystem3/ir_reflectance.c], [ir_calibration.c],
      [ir_acquisition.c] - hysteresis, calibration, three-channel acquisition.
    - [LineDetection]: [line_detection.c], [line_controller.c] - timers, events,
      proportional steering.
    - [BarcodeDecoder], [BarcodeRecord], [BarcodeReader]: [barcode_decoder.c] - the
      batch Code 39 decoder, the streaming decoder, the record-then-decide reader.
    - [Navigation], [NavigationSafety]: [line_navigation.c] - the per-frame pipeline,
      lifecycle, fault latch; its operations as a transition system.
    - [NavigationCodec]: [navigation_codec.c] - barcode, raw frame and navigation
      packets.
    - [ObstacleScan], [ObstacleCodec], [Avoidance]: [subsystem5/obstacle_scan.c],
      [obstacle_profile.c], [s5_codec.c], [avoidance_planner.c],
      [line_recovery.c], [obstacle_avoidance.c] - scan, profile, packet, planner
      and the avoidance state machine.
    - [Motion], [MotionController], [MotionSafety], [MotionPack]:
      [subsystem2/speed_pid.c], [motor_control.c], [motion_estimation.c],
      [motion_controller.c], [motion_pack.c], [motion_codec.c] - estimation,
      speed control, the motion state machine with its checks and reports, and its
      packed words.
    - [Drive], [DriveSafety], [DriveSnapshot], [DriveTheorems]:
      [controller/s3_drive.c] - the owner of all motion requests.  It calls
      [Navigation] on every frame, consumes the reports of the motion controller, and
      runs [Avoidance] when the build has subsystem 5.
    - [IntegrationCodec]: [controller/integration_codec.c], [run_timing.h] - the
      packets that cross the mutex between the sampling owner and other tasks.
    - [Operator], [OperatorSafety]: [controller/operator_logic.c] - debounced
      buttons, calibration walkthrough, countdown, start, stop, reset.
    - [Telemetry], [TelemetryStore], [BarcodeMap]: [subsystem1/telemetry_codec.c],
      [subsystem1.c], [command.c], [mqtt_bridge.c] and the map functions of
      [controller/vehicle_controller.c] - the packets of every topic, the packed
      snapshot and outbox, commands from the network and the freeze of the barcode
      map at an accepted START.
    - [Imu]: [subsystem4/imu_sensor.c], [imu_calibration.c], [tilt_estimation.c],
      [motion_events.c], [hump_detection.c] - inertial sensing and humps.
    - [FloatRange]: how far a result of binary32 arithmetic can be from zero, and
      [lroundf].
    - [Terrain], [TerrainService]: [subsystem4/terrain_monitor.c] and
      [subsystem4.c] - one sample to a terrain result and its packet; the task and
      the snapshot, event ring and reset handshake it shares, interleaved with the
      other tasks.
    - [TerrainControl]: [controller/terrain_integration.c] - the hold, the fault and
      the reports of the sampling task.
    - [Vehicle]: the rest of [controller/vehicle_controller.c] - the public state
      and what each observed cycle reports to telemetry.
    - [Capture]: [controller/barcode_capture.c] - barcode samples kept during a run
      and dumped after it.
    - [Debug]: [controller/ir_debug.c], [control_debug.c] and the snapshots that
      [s3_integration.c] fills them with - the two observation-only packets.
    - [Integration]: [controller/s3_integration.c], [course_profile.h],
      [builtin_calibration.h] - the sampling owner.  A cycle is five steps with one
      critical section each; what the outside answers in a cycle is the record
      [env], and the operations of the other tasks are functions of the state
      under the mutex.
    - [DriveFrame]: what the drive's operations leave alone.
    - [IntegrationSafety], [IntegrationTheorems]: the owner's steps interleaved with
      the other tasks as a transition system, its invariants, and the theorems.
    - [MessageBuffer]: [src/kernel/tkernel/messagebuf.c] - the byte ring of a message
      buffer with polled send and receive.
    - [MotionService], [MotionCalibration]: [subsystem2/motion.c], [subsystem2.h] -
      the motion task: requests, lease, the odometer, the report queue, the status
      and feedback it publishes, the control period; and the calibration, which runs
      in the same task with the mutex released, in a monad that interleaves the
      other tasks' calls at each of its waits.
    - [MotionServiceSafety], [MotionTaskSafety], [CalibrationMeasures]: the service as
      a transition system - what every call of the other tasks keeps, what the task
      and the steps of a calibration keep, and what a calibration measures.
    - [MotionServiceTheorems], [CalibrationEnds], [MotionPeriods]: the theorems.

    ** Conventions

    A C struct is a record with one field per member (prefixed where two structs
    share a name), an enumeration an inductive type or, where the code computes
    with it, a [Z].  A function that assigns through a pointer takes the old value
    and returns the new one; a fallible function returns a boolean with the new
    state, or an option when a failure leaves its output untouched.  Pointers are
    values: the guards against NULL are kept only where the program passes an
    optional argument, as an [option].  All NaNs are one value.  The build switch
    [APP_S5] is a boolean argument.  Calls that leave a component (motion
    requests, reports, scan requests, submitted requests) are recorded in a log
    and answered by an arbitrary function of the log, so the theorems hold for
    every behaviour of the other side.

    ** What the theorems show

    - Barcodes: any Code 39 letter printed within the tolerances is decoded to
      that letter, forwards and backwards; the streaming decoder publishes only
      what the batch decoder accepts on the recorded runs; a letter of the record
      reader was decided on the record of the readings up to some reading, from 29
      extracted widths the batch decoder accepts as they are or with their bias taken
      out, has been followed by nothing but white, and is published only when the
      trailing quiet zone of those widths is complete.
    - Navigation: reachability with an invariant; lifecycle changes only along the
      permitted edges, faults latch, no steering or action is published outside an
      active run, and an action is always the map's entry of the letter decoded.
    - Motion: in every reachable state outputs are off unless a command is active
      or a calibration has taken the motors, in which case the controller does not
      count as stopped; the reports are those of the commands started, in order,
      each under its own id, once, with the outcome it ended with (the timeout of
      the navigation lease after a completed command is the one exception, and is
      stated); faults latch until a reset at standstill.
    - Drive: at most one motion request per operation and only in a healthy cycle
      that permits it, a detour leg only on the range the scanner answered with in
      this cycle or, while it is busy, on the one kept from an earlier answer; a
      drive that is not running has stopped the motors and
      dropped the lease; permitted state changes; deadlines of every phase; every
      turn comes from a decoded barcode.
    - Operator: a start needs a press and an uninterrupted three-second countdown;
      while stop is held nothing but STOP is submitted; the walkthrough runs its
      steps in order and in range; no wait is endless; presses are real.
    - Obstacles: scans end, profiles and plans respect the measured clearances, the
      avoidance machine moves only with fresh ranges and a bounded number of times.
    - Codecs: packing and unpacking are inverse on the values each packet carries,
      and only canonical packets are accepted.
    - Telemetry: the packed store refines a record of optional sections (clearing
      bits in place is the same as encoding the snapshot without the section), and
      the message an operation queues is the packet of the value reported; the map of an accepted START can no
      longer be replaced, a refused START restores it.
    - Terrain: a level calibration and a completed hump are each justified by an
      uninterrupted stretch of the samples that were read; results carry no claim
      their flags do not make; a reading belongs to the run it names, whatever the
      interleaving; the event ring equals a bounded queue; a running car is held,
      free on a healthy result of its own run, or stopped; and the telemetry shows
      the present fault and hump although only changes are sent.
    - Vehicle and capture: the telemetry shows the present faults, state, barcode
      and obstacle although only changes are sent; the bytes of the binary dump of a
      run, read back packet by packet, are its summary, its episodes and exactly the
      stored samples in order; no text line of it is ever cut.
    - The composed system: in any interleaving of the owner's steps with the other
      tasks, motion is requested at most once a cycle and only under fresh motion
      feedback and a healthy terrain result of this very run, never in a cycle that
      took a STOP;
      the published command counter is exactly the ledger of accepted commands;
      a cycle answers every command but an awaited RESET, and that one within half
      a second; a START is accepted only when every part is ready, and a running
      car has its map frozen, its terrain run begun and each of its cycles recorded
      in the trace; the status always packs, and only finished traces are handed over.
    - The motion service: with all tasks interleaved, valid feedback that shows the
      wheels braked means they are braked; every report is delivered once, in order,
      or the next one says that some were lost; an expired lease brakes the car in
      the next period and only then is a lease command given up; a STOP ends a
      calibration at its next wait and every calibration ends within a fixed number
      of waits, with the motors braked and the encoder signs restored, and its result
      is computed from the counts and the times of its own turns and runs; the
      odometer is the true distance although the counters wrap; the kernel's message
      buffer is a first-in first-out queue of messages; and a calibration request
      that is still waiting does not keep moves from being accepted.

    ** Fuel and bounds

    Loops whose bound is a constant of the code use that constant: 8 reports per
    cycle, 320 entries of record history, 63 extrema, 12 scan angles, 12 Newton
    iterations of the square root; scans over a recording use the number of
    recorded entries.  None of them can run out before the code's own loop ends.
    The hand turning of a calibration waits for the user with a two-minute limit of
    its own; its fuel is the number of ticks the environment has left plus one, and
    the theorem that a calibration finishes bounds its waits by 13021, the constant
    that follows from the waits of the code.

    ** Not modelled

    The kernel and its drivers (vendored), Wi-Fi and MQTT (library code), hardware
    registers, PIO programs and task creation, console output and display names.
    Of the sampling owner, the report task that prints over USB and the creation of
    kernel objects.  Of the motion service, the creation of its task, mutex and cyclic
    handler; two reads of the clock with no wait between them give the same time, and
    the calls other tasks make between two waits of a calibration are counted with
    the wait before them.  Of the message buffer, the queues of waiting tasks.  Not
    modelled either: the scan task ([subsystem5.c]) and the panel task
    ([operator_panel.c]), whose logic is ([Avoidance], [Operator]).
*)

From Stdlib Require Export ZArith Lia Bool.
From stdpp Require Export base tactics numbers option list.

#[export] Set Default Goal Selector "!".
Global Open Scope bool_scope.
Global Open Scope Z_scope.

(** ** Functional record update

    The C code assigns single fields of large structs
    ([context->mode = mode]).  [r <| f := v |>] is the record [r] with the
    field read by the projection [f] replaced by [v].  A record type opts in
    with one [Settable] instance, its own eta-expansion; the updater of a
    field is computed from it during instance resolution. *)
Class Settable (R : Type) := eta_record : R -> R.
Class Updater {R A : Type} (proj : R -> A) := update_field : (A -> A) -> R -> R.
#[global] Arguments update_field {R A} proj {Updater} _ _ /.

Ltac solve_updater :=
  match goal with
  | |- @Updater ?R ?A ?proj =>
      let e := constr:(ltac:(typeclasses eauto) : Settable R) in
      let f := fresh "f" in
      let r := fresh "r" in
      intros f r;
      let t := eval hnf in (e r) in
      match eval pattern (proj r) in t with
      | ?g _ => let u := eval cbv beta in (g (f (proj r))) in exact u
      end
  end.
#[export] Hint Extern 1 (Updater _) => solve_updater : typeclass_instances.

Declare Scope car_scope.
Delimit Scope car_scope with car.
Notation "r <| f := v |>" := (@update_field _ _ f _ (fun _ => v) r)
  (at level 12, left associativity, f at level 10, v at level 200) : car_scope.

Global Open Scope car_scope.

(** ** Machine integers

    A C unsigned integer of [w] bits is a [Z] in [0, 2^w); the conversions
    below are the C conversions to the type of that width. *)
Definition wrap (w x : Z) : Z := x mod 2 ^ w.
Definition u8 (x : Z) : Z := wrap 8 x.
Definition u16 (x : Z) : Z := wrap 16 x.
Definition u32 (x : Z) : Z := wrap 32 x.
Definition u64 (x : Z) : Z := wrap 64 x.
(** Two's complement reading of the low [w] bits. *)
Definition swrap (w x : Z) : Z := (x + 2 ^ (w - 1)) mod 2 ^ w - 2 ^ (w - 1).
Definition i16 (x : Z) : Z := swrap 16 x.
Definition i32 (x : Z) : Z := swrap 32 x.

Definition UINT32_MAX : Z := 4294967295.
Definition INT32_MAX : Z := 2147483647.

(** [(uint32_t)(now - since)]: elapsed time on a wrapping microsecond clock. *)
Definition elapsed (now since : Z) : Z := u32 (now - since).
(** [(int32_t)(a - b) > 0]: wrap-safe "a is later than b". *)
Definition later (a b : Z) : bool := 0 <? i32 (a - b).

(** C boolean stored as an integer flag. *)
Definition b2z (b : bool) : Z := if b then 1 else 0.

Definition in_u (w x : Z) : Prop := 0 <= x < 2 ^ w.

(** ** Arrays

    A C array is a list.  [a @ i] reads element [i]; out of range it is the
    default element, so the files that index with a computed value prove the
    index to be in range. *)
Definition nthZ {A : Type} (d : A) (l : list A) (i : Z) : A :=
  if i <? 0 then d else List.nth (Z.to_nat i) l d.
Definition setZ {A : Type} (l : list A) (i : Z) (v : A) : list A :=
  if i <? 0 then l else <[Z.to_nat i := v]> l.
(** [0, 1, ..., n-1] *)
Definition range (n : nat) : list Z := map Z.of_nat (seq 0 n).

Fixpoint sumZ (l : list Z) : Z :=
  match l with [] => 0 | x :: l' => x + sumZ l' end.

(** ** Tactics *)
Create HintDb car.

(** Turn boolean tests into propositions, in every hypothesis. *)
Ltac unbool :=
  repeat match goal with
  | H : andb _ _ = true |- _ => apply andb_true_iff in H; destruct H
  | H : orb _ _ = false |- _ => apply orb_false_iff in H; destruct H
  | H : orb _ _ = true |- _ => apply orb_true_iff in H
  | H : andb _ _ = false |- _ => apply andb_false_iff in H
  | H : negb _ = true |- _ => apply negb_true_iff in H
  | H : negb _ = false |- _ => apply negb_false_iff in H
  | H : (_ <? _) = true |- _ => apply Z.ltb_lt in H
  | H : (_ <? _) = false |- _ => apply Z.ltb_ge in H
  | H : (_ <=? _) = true |- _ => apply Z.leb_le in H
  | H : (_ <=? _) = false |- _ => apply Z.leb_gt in H
  | H : (_ =? _) = true |- _ => apply Z.eqb_eq in H
  | H : (_ =? _) = false |- _ => apply Z.eqb_neq in H
  end.
Ltac undecide :=
  repeat (unbool; match goal with
  | H : bool_decide _ = true |- _ => apply bool_decide_eq_true in H
  | H : bool_decide _ = false |- _ => apply bool_decide_eq_false in H
  end); unbool.

Ltac splits := repeat match goal with |- _ /\ _ => split end.

(** Case analysis on the first boolean condition of the goal. *)
Ltac case_if :=
  match goal with
  | |- context [if ?b then _ else _] =>
      lazymatch type of b with bool => destruct b eqn:? end
  end.
Ltac case_if_in H :=
  match type of H with
  | context [if ?b then _ else _] =>
      lazymatch type of b with bool => destruct b eqn:? end
  end.

(** ** Lemmas on machine integers *)
Lemma wrap_range w x : 0 <= w -> 0 <= wrap w x < 2 ^ w.
Proof. intros. unfold wrap. apply Z.mod_pos_bound. lia. Qed.

Lemma wrap_id w x : in_u w x -> wrap w x = x.
Proof. intros. unfold wrap. apply Z.mod_small. exact H. Qed.

Lemma u32_range x : 0 <= u32 x < 2 ^ 32.
Proof. apply wrap_range. lia. Qed.

Lemma elapsed_range a b : 0 <= elapsed a b < 2 ^ 32.
Proof. apply u32_range. Qed.

Lemma elapsed_diff a b : 0 <= a - b < 2 ^ 32 -> elapsed a b = a - b.
Proof. intros. apply Z.mod_small. lia. Qed.

Lemma elapsed_self a : elapsed a a = 0.
Proof. unfold elapsed. rewrite Z.sub_diag. reflexivity. Qed.

(** A wrapping clock: if the source advanced by less than 2^32 the elapsed
    time is exact even when the stored stamps wrapped. *)
Lemma elapsed_wrapped t d : 0 <= d < 2 ^ 32 -> elapsed (u32 (t + d)) (u32 t) = d.
Proof.
  intros. unfold elapsed, u32, wrap.
  rewrite <- Zminus_mod. replace (t + d - t) with d by lia.
  apply Z.mod_small. lia.
Qed.

Lemma swrap_id w x : 0 < w -> - 2 ^ (w - 1) <= x < 2 ^ (w - 1) -> swrap w x = x.
Proof.
  intros Hw Hx. unfold swrap.
  assert (2 ^ w = 2 * 2 ^ (w - 1)) as Hp.
  { replace w with (Z.succ (w - 1)) at 1 by lia. apply Z.pow_succ_r. lia. }
  rewrite Z.mod_small by lia. lia.
Qed.

Lemma later_iff a b : - 2 ^ 31 <= a - b < 2 ^ 31 -> later a b = (b <? a).
Proof.
  intros. unfold later, i32. rewrite swrap_id by lia.
  destruct (Z.ltb_spec 0 (a - b)), (Z.ltb_spec b a); lia.
Qed.

(** Fields joined with [|] do not interfere. *)
Lemma lor_shift a b n : 0 <= n -> in_u n a -> Z.lor a (Z.shiftl b n) = a + b * 2 ^ n.
Proof.
  intros Hn Ha. rewrite <- Z.add_nocarry_lor; [by rewrite Z.shiftl_mul_pow2 |].
  apply Z.bits_inj'. intros i Hi. rewrite Z.land_spec, Z.bits_0, Z.shiftl_spec by done.
  destruct (Z.lt_ge_cases i n).
  - rewrite (Z.testbit_neg_r b) by lia. by rewrite andb_false_r.
  - replace a with (a mod 2 ^ n) by (apply Z.mod_small; exact Ha).
    rewrite Z.testbit_mod_pow2 by lia. by destruct (Z.ltb_spec i n); [lia |].
Qed.

(** ** Lemmas on arrays *)
Lemma nthZ_lookup {A} (d : A) l i : 0 <= i < Z.of_nat (length l) ->
  l !! Z.to_nat i = Some (nthZ d l i).
Proof.
  intros Hi. unfold nthZ. destruct (Z.ltb_spec i 0); [lia |].
  destruct (l !! Z.to_nat i) as [x |] eqn:E.
  - f_equal. symmetry. apply nth_lookup_Some. exact E.
  - apply lookup_ge_None in E. lia.
Qed.

Lemma length_setZ {A} (l : list A) i v : length (setZ l i v) = length l.
Proof. unfold setZ. case_if; [done | apply length_insert]. Qed.
Lemma take_setZ {A} (l : list A) k v : 0 <= k < Z.of_nat (length l) ->
  take (Z.to_nat (k + 1)) (setZ l k v) = take (Z.to_nat k) l ++ [v].
Proof.
  intros Hk. unfold setZ. destruct (Z.ltb_spec k 0); [lia |].
  replace (Z.to_nat (k + 1)) with (S (Z.to_nat k)) by lia.
  rewrite (take_S_r _ _ v) by (rewrite list_lookup_insert_eq; [done | lia]).
  by rewrite take_insert_ge.
Qed.

Lemma nthZ_take {A} (d : A) l n i : 0 <= i < n -> nthZ d (take (Z.to_nat n) l) i = nthZ d l i.
Proof. intros Hi. unfold nthZ. case_if; [done |]. rewrite !nth_lookup. by rewrite lookup_take_lt by lia. Qed.
Lemma length_range n : length (range n) = n.
Proof. unfold range. rewrite length_map, length_seq. done. Qed.

Lemma elem_range n i : In i (range n) <-> 0 <= i < Z.of_nat n.
Proof.
  unfold range. rewrite in_map_iff. split.
  - intros (k & <- & Hk). apply in_seq in Hk. lia.
  - intros. exists (Z.to_nat i). rewrite in_seq. lia.
Qed.

Lemma sumZ_app l1 l2 : sumZ (l1 ++ l2) = sumZ l1 + sumZ l2.
Proof. induction l1; cbn; lia. Qed.

Lemma sumZ_Permutation l1 l2 : l1 ≡ₚ l2 -> sumZ l1 = sumZ l2.
Proof. induction 1; cbn; lia. Qed.

Lemma sumZ_bounds lo hi l : Forall (fun x => lo <= x <= hi) l ->
  lo * Z.of_nat (length l) <= sumZ l <= hi * Z.of_nat (length l).
Proof. induction 1; cbn [sumZ length]; lia. Qed.

(** A decidable property of a bounded integer, by evaluation. *)
Lemma forall_range (P : Z -> bool) lo n : forallb (fun k => P (lo + k)) (range n) = true ->
  forall z, lo <= z < lo + Z.of_nat n -> P z = true.
Proof.
  intros H z Hz. apply (proj1 (forallb_forall _ _)) with (x := z - lo) in H.
  - by replace (lo + (z - lo)) with z in H by lia.
  - apply elem_range. lia.
Qed.
(** The same on [m * n] integers, as [m] blocks. *)
Lemma forall_blocks (P : Z -> bool) m n :
  forallb (fun h => forallb (fun k => P (h * Z.of_nat n + k)) (range n)) (range m) = true ->
  forall z, 0 <= z < Z.of_nat m * Z.of_nat n -> P z = true.
Proof.
  intros H z Hz. assert (0 < Z.of_nat n) by nia. pose proof (Z.div_mod z (Z.of_nat n) ltac:(lia)) as D.
  pose proof (Z.mod_pos_bound z (Z.of_nat n) ltac:(lia)) as M.
  apply (proj1 (forallb_forall _ _)) with (x := z / Z.of_nat n) in H.
  - apply (proj1 (forallb_forall _ _)) with (x := z mod Z.of_nat n) in H; [| apply elem_range; lia].
    by replace (z / Z.of_nat n * Z.of_nat n + z mod Z.of_nat n) with z in H by lia.
  - apply elem_range. split; [apply Z.div_pos; lia | apply Z.div_lt_upper_bound; lia].
Qed.

#[export] Hint Resolve u32_range elapsed_range : car.
