(* ===== verification/CFloat.v ===== *)
(** * C floating point

    [float] and [double] are IEEE-754 binary32 and binary64, given by the
    Standard Library's [SpecFloat] at the two formats.  The RP2040 has no
    floating-point unit and the build links plain software arithmetic, so
    every C operation rounds once, to nearest even, as these operations do.
    The model has a single NaN: payload bits are not represented.

    Library functions the sources call but that are not part of the
    repository ([sinf], [atan2f]) are parameters where they are used. *)
From S2P Require Import Prelude.
From Stdlib Require Export Floats.SpecFloat.

Abbreviation float := spec_float (only parsing).
Abbreviation double := spec_float (only parsing).

Declare Scope f32_scope.
Delimit Scope f32_scope with f32.
Declare Scope f64_scope.
Delimit Scope f64_scope with f64.

Definition fadd : float -> float -> float := SFadd 24 128.
Definition fsub : float -> float -> float := SFsub 24 128.
Definition fmul : float -> float -> float := SFmul 24 128.
Definition fdiv : float -> float -> float := SFdiv 24 128.
Definition fsqrt : float -> float := SFsqrt 24 128.
Definition dadd : double -> double -> double := SFadd 53 1024.
Definition dsub : double -> double -> double := SFsub 53 1024.
Definition dmul : double -> double -> double := SFmul 53 1024.
Definition ddiv : double -> double -> double := SFdiv 53 1024.

Infix "+" := fadd : f32_scope.
Infix "-" := fsub : f32_scope.
Infix "*" := fmul : f32_scope.
Infix "/" := fdiv : f32_scope.
Infix "+" := dadd : f64_scope.
Infix "-" := dsub : f64_scope.
Infix "*" := dmul : f64_scope.
Infix "/" := ddiv : f64_scope.
(** Comparisons are the same at both widths and false on NaN, as in C. *)
Notation "x <. y" := (SFltb x y) (at level 70, no associativity).
Notation "x <=. y" := (SFleb x y) (at level 70, no associativity).
Notation "x >. y" := (SFltb y x) (at level 70, no associativity, only parsing).
Notation "x >=. y" := (SFleb y x) (at level 70, no associativity, only parsing).
Notation "x ==. y" := (SFeqb x y) (at level 70, no associativity).
Notation "-. x" := (SFopp x) (at level 35, right associativity).

Definition fzero : float := S754_zero false.
(** [fabsf] *)
Definition fabs_ : float -> float := SFabs.

(** A decimal literal [n/d] with the suffix [f], rounded once to binary32;
    without the suffix, to binary64. *)
Definition flit (n d : positive) : float :=
  SFdiv 24 128 (S754_finite false n 0) (S754_finite false d 0).
Definition dlit (n d : positive) : double :=
  SFdiv 53 1024 (S754_finite false n 0) (S754_finite false d 0).

(** Conversions between integers and floats; to an integer C truncates. *)
Definition float_of_Z (z : Z) : float := binary_normalize 24 128 z 0 false.
Definition double_of_Z (z : Z) : double := binary_normalize 53 1024 z 0 false.
Definition trunc (f : spec_float) : Z :=
  match f with
  | S754_finite s m e =>
      let v := if 0 <=? e then Z.pos m * 2 ^ e else Z.pos m / 2 ^ (- e) in
      if s then - v else v
  | _ => 0
  end.
Definition float_of_double (f : double) : float :=
  match f with
  | S754_finite s m e => binary_normalize 24 128 (if s then Z.neg m else Z.pos m) e s
  | _ => f
  end.

(** [isfinite] *)
Definition isfinite (f : spec_float) : bool :=
  match f with S754_zero _ | S754_finite _ _ _ => true | _ => false end.
Definition isnan (f : spec_float) : bool :=
  match f with S754_nan => true | _ => false end.

(** ** Bit patterns *)
Definition float_bits (f : float) : Z :=
  match f with
  | S754_zero s => b2z s * 2 ^ 31
  | S754_infinity s => b2z s * 2 ^ 31 + 255 * 2 ^ 23
  | S754_nan => 511 * 2 ^ 22
  | S754_finite s m e =>
      b2z s * 2 ^ 31 +
      (if Z.pos m <? 2 ^ 23 then Z.pos m
       else (e + 150) * 2 ^ 23 + (Z.pos m - 2 ^ 23))
  end.
Definition bits_float (b : Z) : float :=
  let s := 2 ^ 31 <=? b in
  let r := b mod 2 ^ 31 in
  let x := r / 2 ^ 23 in
  let f := r mod 2 ^ 23 in
  if x =? 255 then (if f =? 0 then S754_infinity s else S754_nan)
  else if x =? 0 then
    match f with Z.pos m => S754_finite s m (-149) | _ => S754_zero s end
  else match f + 2 ^ 23 with Z.pos m => S754_finite s m (x - 150) | _ => S754_nan end.

Definition double_bits (f : double) : Z :=
  match f with
  | S754_zero s => b2z s * 2 ^ 63
  | S754_infinity s => b2z s * 2 ^ 63 + 2047 * 2 ^ 52
  | S754_nan => 4095 * 2 ^ 51
  | S754_finite s m e =>
      b2z s * 2 ^ 63 +
      (if Z.pos m <? 2 ^ 52 then Z.pos m
       else (e + 1075) * 2 ^ 52 + (Z.pos m - 2 ^ 52))
  end.
Definition bits_double (b : Z) : double :=
  let s := 2 ^ 63 <=? b in
  let r := b mod 2 ^ 63 in
  let x := r / 2 ^ 52 in
  let f := r mod 2 ^ 52 in
  if x =? 2047 then (if f =? 0 then S754_infinity s else S754_nan)
  else if x =? 0 then
    match f with Z.pos m => S754_finite s m (-1074) | _ => S754_zero s end
  else match f + 2 ^ 52 with Z.pos m => S754_finite s m (x - 1075) | _ => S754_nan end.

Definition float_ok (f : float) : Prop := valid_binary 24 128 f = true.
Definition double_ok (f : double) : Prop := valid_binary 53 1024 f = true.

(** ** Bit patterns round trip *)
Lemma digits2_bounds p :
  2 ^ (Z.pos (digits2_pos p) - 1) <= Z.pos p < 2 ^ Z.pos (digits2_pos p).
Proof.
  induction p as [p IH | p IH |]; cbn [digits2_pos]; [| | lia].
  all: rewrite Pos2Z.inj_succ, Z.pow_succ_r by lia.
  all: replace (Z.succ (Z.pos (digits2_pos p)) - 1)
    with (Z.succ (Z.pos (digits2_pos p) - 1)) by lia.
  all: rewrite Z.pow_succ_r by lia; lia.
Qed.

Section Bounded.
Variables prec emax : Z.
Hypothesis Hprec : 1 < prec.

Lemma bounded_cases m e : bounded prec emax m e = true ->
  (Z.pos m < 2 ^ (prec - 1) /\ e = emin prec emax) \/
  (2 ^ (prec - 1) <= Z.pos m < 2 ^ prec /\
   emin prec emax <= e <= emax - prec).
Proof.
  unfold bounded, canonical_mantissa, fexp. intros H. unbool.
  pose proof (digits2_bounds m) as [Hl Hu].
  set (d := Z.pos (digits2_pos m)) in *.
  destruct (Z.lt_ge_cases d prec).
  - left. split; [| lia].
    eapply Z.lt_le_trans; [exact Hu |]. apply Z.pow_le_mono_r; lia.
  - assert (d = prec) by lia. right. subst d.
    replace (Z.pos (digits2_pos m)) with prec in * by lia. lia.
Qed.
End Bounded.

Lemma float_bits_range f : float_ok f -> in_u 32 (float_bits f).
Proof.
  unfold float_ok, in_u. destruct f as [s | s | | s m e]; cbn [float_bits valid_binary];
    try (destruct s; cbn; lia); [intros; cbn; lia |].
  intros H. apply bounded_cases in H; [| lia]. unfold emin in H.
  destruct (Z.ltb_spec (Z.pos m) (2 ^ 23)); destruct s; cbn [b2z]; lia.
Qed.

Lemma bits_float_bits f : float_ok f -> bits_float (float_bits f) = f.
Proof.
  unfold float_ok. destruct f as [s | s | | s m e]; cbn [valid_binary];
    try (destruct s; reflexivity); [reflexivity |].
  intros H. apply bounded_cases in H; [| lia]. unfold emin in H.
  unfold float_bits. destruct (Z.ltb_spec (Z.pos m) (2 ^ 23)) as [Hm | Hm].
  - assert (e = -149) as -> by lia.
    unfold bits_float.
    replace (2 ^ 31 <=? b2z s * 2 ^ 31 + Z.pos m) with s
      by (destruct s; cbn [b2z]; symmetry; [apply Z.leb_le | apply Z.leb_gt]; lia).
    rewrite Z.add_comm, Z_mod_plus_full, (Z.mod_small (Z.pos m)) by lia.
    rewrite Z.div_small, Z.mod_small by lia. reflexivity.
  - unfold bits_float.
    set (r := (e + 150) * 2 ^ 23 + (Z.pos m - 2 ^ 23)).
    replace (2 ^ 31 <=? b2z s * 2 ^ 31 + r) with s
      by (subst r; destruct s; cbn [b2z]; symmetry; [apply Z.leb_le | apply Z.leb_gt]; lia).
    rewrite Z.add_comm, Z_mod_plus_full, (Z.mod_small r) by (subst r; lia).
    assert (r / 2 ^ 23 = e + 150) as ->.
    { subst r. rewrite Z.div_add_l by lia. rewrite Z.div_small by lia. lia. }
    assert (r mod 2 ^ 23 = Z.pos m - 2 ^ 23) as ->.
    { subst r. rewrite Z.add_comm, Z_mod_plus_full. apply Z.mod_small. lia. }
    destruct (Z.eqb_spec (e + 150) 255); [lia |].
    destruct (Z.eqb_spec (e + 150) 0); [lia |].
    replace (Z.pos m - 2 ^ 23 + 2 ^ 23) with (Z.pos m) by lia.
    replace (e + 150 - 150) with e by lia. reflexivity.
Qed.

Lemma double_bits_range f : double_ok f -> in_u 64 (double_bits f).
Proof.
  unfold double_ok, in_u. destruct f as [s | s | | s m e]; cbn [double_bits valid_binary];
    try (destruct s; cbn; lia); [intros; cbn; lia |].
  intros H. apply bounded_cases in H; [| lia]. unfold emin in H.
  destruct (Z.ltb_spec (Z.pos m) (2 ^ 52)); destruct s; cbn [b2z]; lia.
Qed.

Lemma bits_double_bits f : double_ok f -> bits_double (double_bits f) = f.
Proof.
  unfold double_ok. destruct f as [s | s | | s m e]; cbn [valid_binary];
    try (destruct s; reflexivity); [reflexivity |].
  intros H. apply bounded_cases in H; [| lia]. unfold emin in H.
  unfold double_bits. destruct (Z.ltb_spec (Z.pos m) (2 ^ 52)) as [Hm | Hm].
  - assert (e = -1074) as -> by lia.
    unfold bits_double.
    replace (2 ^ 63 <=? b2z s * 2 ^ 63 + Z.pos m) with s
      by (destruct s; cbn [b2z]; symmetry; [apply Z.leb_le | apply Z.leb_gt]; lia).
    rewrite Z.add_comm, Z_mod_plus_full, (Z.mod_small (Z.pos m)) by lia.
    rewrite Z.div_small, Z.mod_small by lia. reflexivity.
  - unfold bits_double.
    set (r := (e + 1075) * 2 ^ 52 + (Z.pos m - 2 ^ 52)).
    replace (2 ^ 63 <=? b2z s * 2 ^ 63 + r) with s
      by (subst r; destruct s; cbn [b2z]; symmetry; [apply Z.leb_le | apply Z.leb_gt]; lia).
    rewrite Z.add_comm, Z_mod_plus_full, (Z.mod_small r) by (subst r; lia).
    assert (r / 2 ^ 52 = e + 1075) as ->.
    { subst r. rewrite Z.div_add_l by lia. rewrite Z.div_small by lia. lia. }
    assert (r mod 2 ^ 52 = Z.pos m - 2 ^ 52) as ->.
    { subst r. rewrite Z.add_comm, Z_mod_plus_full. apply Z.mod_small. lia. }
    destruct (Z.eqb_spec (e + 1075) 2047); [lia |].
    destruct (Z.eqb_spec (e + 1075) 0); [lia |].
    replace (Z.pos m - 2 ^ 52 + 2 ^ 52) with (Z.pos m) by lia.
    replace (e + 1075 - 1075) with e by lia. reflexivity.
Qed.

(** ** Order

    On numbers (everything but NaN) the comparisons are a total order. *)
Lemma SFcompare_swap x y : SFcompare y x = option_map CompOpp (SFcompare x y).
Proof.
  destruct x as [[] | [] | | [] mx ex], y as [[] | [] | | [] my ey]; try reflexivity.
  all: cbn -[Pos.compare_cont]; rewrite (Z.compare_antisym ex ey).
  all: change (Pos.compare_cont Eq my mx) with (my ?= mx)%positive;
    rewrite (Pos.compare_antisym mx my); unfold Pos.compare.
  all: destruct (ex ?= ey), (Pos.compare_cont Eq mx my); reflexivity.
Qed.

Lemma SFcompare_number x y :
  isnan x = false -> isnan y = false -> exists c, SFcompare x y = Some c.
Proof.
  destruct x as [[] | [] | | [] mx ex], y as [[] | [] | | [] my ey]; try done.
  all: cbn; eauto.
  all: destruct (ex ?= ey); eauto.
Qed.

Lemma not_flt x y : isnan x = false -> isnan y = false ->
  (x <. y) = false -> (y <=. x) = true.
Proof.
  intros Hx Hy. destruct (SFcompare_number x y Hx Hy) as [c Hc].
  unfold SFltb, SFleb. rewrite (SFcompare_swap x y), Hc. destruct c; done.
Qed.

Lemma flt_fle x y : (x <. y) = true -> (x <=. y) = true.
Proof. unfold SFltb, SFleb. destruct (SFcompare x y) as [[] |]; done. Qed.

Lemma fle_refl x : isnan x = false -> (x <=. x) = true.
Proof.
  destruct x as [[] | [] | | [] m e]; try done; intros _; unfold SFleb; cbn.
  all: rewrite Z.compare_refl; unfold Pos.compare.
  all: rewrite (Pos.compare_cont_refl m Eq); done.
Qed.

Lemma fle_number x y : (x <=. y) = true -> isnan x = false /\ isnan y = false.
Proof. destruct x, y; done. Qed.

Lemma flt_number x y : (x <. y) = true -> isnan x = false /\ isnan y = false.
Proof. destruct x, y; done. Qed.

(** ** Operations that cannot give a NaN *)
Section NotNan.
Variables prec emax : Z.

Lemma shr_1_nonneg r : 0 <= shr_m r -> 0 <= shr_m (shr_1 r).
Proof. destruct r as [[| [] | []] ? ?]; cbn; lia. Qed.

Lemma shr_iter_nonneg p r : 0 <= shr_m r -> 0 <= shr_m (iter_pos shr_1 p r).
Proof.
  revert r. induction p as [p IH | p IH |]; intros r Hr; cbn; auto using shr_1_nonneg.
Qed.

Lemma shr_nonneg r e n : 0 <= shr_m r -> 0 <= shr_m (shr r e n).1.
Proof. destruct n; cbn; auto using shr_iter_nonneg. Qed.

Lemma shr_record_of_loc_m m l : shr_m (shr_record_of_loc m l) = m.
Proof. destruct l as [| []]; reflexivity. Qed.

Lemma shr_fexp_nonneg m e l : 0 <= m -> 0 <= shr_m (shr_fexp prec emax m e l).1.
Proof. intros. apply shr_nonneg. rewrite shr_record_of_loc_m. done. Qed.

Lemma round_nearest_even_nonneg m l : 0 <= m -> 0 <= round_nearest_even m l.
Proof. destruct l as [| []]; cbn; try case_if; lia. Qed.

Lemma round_aux_number s m e l : 0 <= m ->
  isnan (binary_round_aux prec emax s m e l) = false.
Proof.
  intros Hm. unfold binary_round_aux.
  destruct (shr_fexp prec emax m e l) as [r1 e1] eqn:E1.
  assert (0 <= shr_m r1) by (pose proof (shr_fexp_nonneg m e l Hm); rewrite E1 in *; done).
  destruct (shr_fexp prec emax (round_nearest_even (shr_m r1) (loc_of_shr_record r1)) e1 loc_Exact)
    as [r2 e2] eqn:E2.
  assert (0 <= shr_m r2).
  { pose proof (shr_fexp_nonneg _ e1 loc_Exact (round_nearest_even_nonneg _ (loc_of_shr_record r1) H)).
    rewrite E2 in *. done. }
  destruct (shr_m r2); [done | case_if; done | lia].
Qed.

Lemma round_number s m e : isnan (binary_round prec emax s m e) = false.
Proof.
  unfold binary_round. destruct (shl_align m e _).
  apply round_aux_number. lia.
Qed.

Lemma normalize_number m e s : isnan (binary_normalize prec emax m e s) = false.
Proof. destruct m; cbn; auto using round_number. Qed.

Lemma SFadd_number x y : isfinite x = true -> isnan y = false ->
  isnan (SFadd prec emax x y) = false.
Proof.
  destruct x as [[] | [] | | sx mx ex], y as [[] | [] | | sy my ey]; try done.
  all: intros; apply normalize_number.
Qed.

Lemma SFsub_number x y : isfinite x = true -> isnan y = false ->
  isnan (SFsub prec emax x y) = false.
Proof.
  destruct x as [[] | [] | | sx mx ex], y as [[] | [] | | sy my ey]; try done.
  all: intros; apply normalize_number.
Qed.

Lemma SFmul_number x y : isfinite x = true -> isfinite y = true ->
  isnan (SFmul prec emax x y) = false.
Proof.
  destruct x as [[] | [] | | sx mx ex], y as [[] | [] | | sy my ey]; try done.
  all: intros; apply round_aux_number; lia.
Qed.

(** Dividing a finite number by a finite non-zero one. *)
Lemma SFdiv_number x s m e : isfinite x = true ->
  isnan (SFdiv prec emax x (S754_finite s m e)) = false.
Proof.
  destruct x as [[] | [] | | sx mx ex]; try done. intros _.
  unfold SFdiv, SFdiv_core_binary.
  match goal with |- context [Z.div_eucl ?a ?b] =>
    pose proof (Z_div_mod a b) as Hd; destruct (Z.div_eucl a b) as [q r] end.
  apply round_aux_number.
  set (e' := Z.min _ _) in *.
  specialize (Hd ltac:(lia)). destruct Hd as [Hq Hr].
  match type of Hq with ?a = _ => assert (0 <= a) end.
  { destruct (_ - _ - e'); try lia. apply Z.shiftl_nonneg. lia. }
  nia.
Qed.

(** [x - x] is zero exactly for finite [x]: the finiteness test the
    sources spell [(x == x) && ((x - x) == 0.0f)]. *)
Lemma sub_self_zero x :
  ((x ==. x) && (SFsub prec emax x x ==. S754_zero false)) = isfinite x.
Proof.
  destruct x as [[] | [] | | s m e]; try reflexivity.
  assert ((S754_finite s m e ==. S754_finite s m e) = true) as ->.
  { unfold SFeqb. destruct s; cbn; rewrite Z.compare_refl; unfold Pos.compare;
      rewrite (Pos.compare_cont_refl m Eq); done. }
  unfold SFsub. rewrite Z.sub_diag. destruct s; reflexivity.
Qed.
End NotNan.
