(* ===== verification/BitCodec.v ===== *)
(** * Explicit-bit packets

    Every codec of the program ([navigation_codec.c], [telemetry_codec.c],
    [integration_codec.c], [s5_codec.c], [control_debug.c], [ir_debug.c])
    has its own copy of the same two loops, [put] and [get], which write and
    read a value least significant bit first at a running bit position of a
    byte array.  They are modelled once, here.  A packing function is its
    list of fields given to [put_all]; an unpacking function is a program in
    the reader monad of [get].

    The theory: a zeroed buffer filled by [put_all] [encodes] its fields, and
    a reader run on a buffer that [encodes] fields gets exactly those fields
    back.  The converse direction ([put_all_get_all]) recovers the buffer
    from the fields read. *)
From S2P Require Import Prelude.

Definition bytes := list Z.
Definition zeros (n : nat) : bytes := replicate n 0.

(** [bytes[k/8] & (1U << k%8)] *)
Definition bit_at (b : bytes) (k : Z) : bool :=
  negb (Z.land (nthZ 0 b (k / 8)) (Z.shiftl 1 (k mod 8)) =? 0).
(** [bytes[k/8] |= (uint8_t)(1U << k%8)] *)
Definition set_bit (b : bytes) (k : Z) : bytes :=
  setZ b (k / 8) (Z.lor (nthZ 0 b (k / 8)) (u8 (Z.shiftl 1 (k mod 8)))).

Definition put (b : bytes) (bit value : Z) (width : nat) : bytes :=
  let value := u32 value in
  fold_left (fun b i => if negb (Z.land value (Z.shiftl 1 i) =? 0) then set_bit b (bit + i) else b)
    (range width) b.
Definition get_at (b : bytes) (bit : Z) (width : nat) : Z :=
  fold_left (fun value i => if bit_at b (bit + i) then Z.lor value (Z.shiftl 1 i) else value)
    (range width) 0.

(** A field: a value and the number of bits it occupies. *)
Definition field : Type := Z * nat.
Fixpoint put_all (b : bytes) (bit : Z) (fields : list field) : bytes :=
  match fields with
  | [] => b
  | (value, width) :: fields => put_all (put b bit value width) (bit + Z.of_nat width) fields
  end.
Definition total_width (fields : list field) : Z :=
  sumZ (map (fun f => Z.of_nat f.2) fields).

(** ** The reader: a buffer and a bit position, with failure *)
Definition reader (A : Type) : Type := bytes -> Z -> option (A * Z).
#[export] Instance reader_ret : MRet reader := fun A x b bit => Some (x, bit).
#[export] Instance reader_bind : MBind reader := fun A B f m b bit =>
  match m b bit with Some (x, bit') => f x b bit' | None => None end.
Definition get (width : nat) : reader Z := fun b bit =>
  Some (get_at b bit width, bit + Z.of_nat width).
(** [get(...) != 0U] *)
Definition get_flag : reader bool := z ← get 1; mret (negb (z =? 0)).
Definition reject {A} : reader A := fun _ _ => None.
(** [if (!ok) return false;] *)
Definition require (ok : bool) : reader unit := if ok then mret tt else reject.
Definition lift {A} (o : option A) : reader A :=
  match o with Some x => mret x | None => reject end.
Fixpoint repeat_read {A} (n : nat) (m : reader A) : reader (list A) :=
  match n with
  | O => mret []
  | S n => x ← m; l ← repeat_read n m; mret (x :: l)
  end.
Definition run {A} (m : reader A) (b : bytes) : option A := fst <$> m b 0.

(** ** Bits of a buffer *)
Lemma land_shiftl_testbit v i : 0 <= i -> negb (Z.land v (Z.shiftl 1 i) =? 0) = Z.testbit v i.
Proof.
  intros Hi. rewrite Z.shiftl_1_l. destruct (Z.testbit v i) eqn:E.
  - destruct (Z.eqb_spec (Z.land v (2 ^ i)) 0) as [H |]; [| done].
    assert (Z.testbit (Z.land v (2 ^ i)) i = true) as H'.
    { rewrite Z.land_spec, E, Z.pow2_bits_true by lia. done. }
    rewrite H, Z.bits_0 in H'. done.
  - apply negb_false_iff, Z.eqb_eq. apply Z.bits_inj'. intros k Hk.
    rewrite Z.land_spec, Z.pow2_bits_eqb, Z.bits_0 by lia.
    destruct (Z.eqb_spec i k) as [<- |]; [by rewrite E | by rewrite andb_false_r].
Qed.

Lemma bit_at_testbit b k : bit_at b k = Z.testbit (nthZ 0 b (k / 8)) (k mod 8).
Proof. apply land_shiftl_testbit. apply Z.mod_pos_bound. lia. Qed.

Lemma nthZ_setZ {A} (d : A) l i j v : 0 <= i < Z.of_nat (length l) -> 0 <= j ->
  nthZ d (setZ l i v) j = if i =? j then v else nthZ d l j.
Proof.
  intros Hi Hj. unfold nthZ, setZ.
  destruct (Z.ltb_spec i 0); [lia |]. destruct (Z.ltb_spec j 0); [lia |].
  rewrite !nth_lookup. destruct (Z.eqb_spec i j) as [<- |].
  - rewrite list_lookup_insert_eq by lia. done.
  - rewrite list_lookup_insert_ne by lia. done.
Qed.

Lemma bit_set_bit b j k : 0 <= j < 8 * Z.of_nat (length b) -> 0 <= k ->
  bit_at (set_bit b j) k = (j =? k) || bit_at b k.
Proof.
  intros Hj Hk. rewrite !bit_at_testbit. unfold set_bit.
  pose proof (Z.mod_pos_bound j 8 ltac:(lia)) as Mj. pose proof (Z.mod_pos_bound k 8 ltac:(lia)) as Mk.
  pose proof (Z.div_mod j 8 ltac:(lia)) as Dj. pose proof (Z.div_mod k 8 ltac:(lia)) as Dk.
  assert (0 <= j / 8 < Z.of_nat (length b))
    by (split; [apply Z.div_pos | apply Z.div_lt_upper_bound]; lia).
  assert (0 <= k / 8) by (apply Z.div_pos; lia).
  rewrite nthZ_setZ by done.
  assert (u8 (Z.shiftl 1 (j mod 8)) = 2 ^ (j mod 8)) as ->.
  { rewrite Z.shiftl_1_l. apply wrap_id. split; [lia | apply Z.pow_lt_mono_r; lia]. }
  destruct (Z.eqb_spec (j / 8) (k / 8)) as [E |].
  - rewrite E, Z.lor_spec, Z.pow2_bits_eqb, orb_comm by lia. f_equal.
    destruct (Z.eqb_spec (j mod 8) (k mod 8)), (Z.eqb_spec j k); congruence || lia.
  - destruct (Z.eqb_spec j k) as [-> |]; done.
Qed.

Lemma length_set_bit b k : length (set_bit b k) = length b.
Proof. apply length_setZ. Qed.

Lemma range_S n : range (S n) = range n ++ [Z.of_nat n].
Proof. unfold range. rewrite seq_S, map_app. done. Qed.

(** What [put] does to each bit of the buffer. *)
Lemma put_spec b bit v w : 0 <= bit -> bit + Z.of_nat w <= 8 * Z.of_nat (length b) ->
  length (put b bit v w) = length b /\
  forall k, 0 <= k -> bit_at (put b bit v w) k =
    bit_at b k || ((bit <=? k) && (k <? bit + Z.of_nat w) && Z.testbit (u32 v) (k - bit)).
Proof.
  intros Hb. unfold put. generalize (u32 v) as x. intros x.
  induction w as [| w IH]; intros Hw.
  { split; [done |]. intros k Hk. cbn [range map seq fold_left].
    destruct (Z.leb_spec bit k), (Z.ltb_spec k (bit + Z.of_nat 0)); cbn; try lia; by rewrite orb_false_r. }
  rewrite range_S, fold_left_app. cbn [fold_left].
  destruct IH as [IHl IHb]; [lia |]. rewrite land_shiftl_testbit by lia.
  match goal with |- context [fold_left ?f (range w) b] => set (b' := fold_left f (range w) b) in * end.
  destruct (Z.testbit x (Z.of_nat w)) eqn:E; (split; [by rewrite ?length_set_bit |]); intros k Hk.
  - rewrite bit_set_bit by lia. rewrite IHb by done.
    destruct (Z.eqb_spec (bit + Z.of_nat w) k) as [<- |].
    + replace (bit + Z.of_nat w - bit) with (Z.of_nat w) by lia. rewrite E.
      destruct (Z.leb_spec bit (bit + Z.of_nat w)), (Z.ltb_spec (bit + Z.of_nat w) (bit + Z.of_nat (S w)));
        cbn; lia.
    + cbn. f_equal. f_equal. f_equal. destruct (Z.ltb_spec k (bit + Z.of_nat w)), (Z.ltb_spec k (bit + Z.of_nat (S w))); lia.
  - rewrite IHb by done. f_equal. destruct (Z.eqb_spec (bit + Z.of_nat w) k) as [<- |].
    + replace (bit + Z.of_nat w - bit) with (Z.of_nat w) by lia. rewrite E. by rewrite !andb_false_r.
    + f_equal. f_equal. destruct (Z.ltb_spec k (bit + Z.of_nat w)), (Z.ltb_spec k (bit + Z.of_nat (S w))); lia.
Qed.

Lemma get_at_spec b bit w i : 0 <= i ->
  Z.testbit (get_at b bit w) i = (i <? Z.of_nat w) && bit_at b (bit + i).
Proof.
  intros Hi. unfold get_at. induction w as [| w IH].
  { cbn. rewrite Z.bits_0. destruct (Z.ltb_spec i (Z.of_nat 0)); [lia | done]. }
  rewrite range_S, fold_left_app. cbn [fold_left].
  match goal with |- context [fold_left ?f (range w) 0] => set (x := fold_left f (range w) 0) in * end.
  destruct (Z.eqb_spec i (Z.of_nat w)) as [-> |].
  - destruct (bit_at b (bit + Z.of_nat w)) eqn:E.
    + rewrite Z.lor_spec, Z.shiftl_1_l, Z.pow2_bits_true, orb_true_r by lia.
      destruct (Z.ltb_spec (Z.of_nat w) (Z.of_nat (S w))); [done | lia].
    + rewrite IH, ?E. by rewrite !andb_false_r.
  - replace (i <? Z.of_nat (S w)) with (i <? Z.of_nat w)
      by (destruct (Z.ltb_spec i (Z.of_nat w)), (Z.ltb_spec i (Z.of_nat (S w))); lia).
    rewrite <- IH. destruct (bit_at b (bit + Z.of_nat w)); [| done].
    rewrite Z.lor_spec, Z.shiftl_1_l, Z.pow2_bits_false, orb_false_r by lia. done.
Qed.

Lemma get_at_nonneg b bit w : 0 <= get_at b bit w.
Proof.
  unfold get_at. induction w as [| w IH]; [done |].
  rewrite range_S, fold_left_app. cbn [fold_left]. case_if; [| done].
  apply Z.lor_nonneg. split; [done | apply Z.shiftl_nonneg; lia].
Qed.

Lemma get_at_range b bit w : in_u (Z.of_nat w) (get_at b bit w).
Proof.
  pose proof (get_at_nonneg b bit w). split; [done |].
  assert (get_at b bit w = get_at b bit w mod 2 ^ Z.of_nat w) as ->.
  { apply Z.bits_inj'. intros i Hi. rewrite Z.testbit_mod_pow2 by lia.
    rewrite get_at_spec by done. by destruct (i <? Z.of_nat w). }
  apply Z.mod_pos_bound. lia.
Qed.

Lemma bit_at_zeros n k : bit_at (zeros n) k = false.
Proof.
  rewrite bit_at_testbit. unfold zeros, nthZ. case_if; [apply Z.bits_0 |].
  rewrite nth_lookup. destruct (replicate n 0 !! _) as [x |] eqn:E; cbn; [| apply Z.bits_0].
  apply lookup_replicate in E. destruct E as [-> _]. apply Z.bits_0.
Qed.

(** ** Encoding *)
Fixpoint encodes (b : bytes) (p : Z) (fields : list field) : Prop :=
  match fields with
  | [] => True
  | (v, w) :: fields => get_at b p w = wrap (Z.of_nat w) v /\ encodes b (p + Z.of_nat w) fields
  end.
Definition widths_ok (fields : list field) : Prop := Forall (fun f : field => (f.2 <= 32)%nat) fields.

Lemma total_width_nonneg fs : 0 <= total_width fs.
Proof. unfold total_width. induction fs; cbn; lia. Qed.

Lemma total_width_cons v w fs : total_width ((v, w) :: fs) = Z.of_nat w + total_width fs.
Proof. done. Qed.

Lemma length_put_all fs : forall b p, 0 <= p -> p + total_width fs <= 8 * Z.of_nat (length b) ->
  length (put_all b p fs) = length b.
Proof.
  induction fs as [| [v w] fs IH]; intros b p Hp Hw; [done |].
  rewrite total_width_cons in Hw. pose proof (total_width_nonneg fs). cbn [put_all].
  destruct (put_spec b p v w) as [Hl _]; [lia | lia |]. rewrite IH; [done | lia | rewrite Hl; lia].
Qed.

Lemma put_all_frame fs : forall b p, 0 <= p -> p + total_width fs <= 8 * Z.of_nat (length b) ->
  forall k, 0 <= k -> k < p \/ p + total_width fs <= k ->
  bit_at (put_all b p fs) k = bit_at b k.
Proof.
  induction fs as [| [v w] fs IH]; intros b p Hp Hw k Hk Hout; [done |].
  rewrite total_width_cons in *. pose proof (total_width_nonneg fs). cbn [put_all].
  destruct (put_spec b p v w) as [Hl Hb]; [lia | lia |].
  rewrite IH by (try rewrite Hl; lia). rewrite Hb by done.
  destruct (Z.leb_spec p k), (Z.ltb_spec k (p + Z.of_nat w)); cbn; try lia; by rewrite orb_false_r.
Qed.

Lemma put_all_encodes fs : widths_ok fs -> forall b p, 0 <= p ->
  p + total_width fs <= 8 * Z.of_nat (length b) ->
  (forall k, p <= k -> bit_at b k = false) -> encodes (put_all b p fs) p fs.
Proof.
  induction 1 as [| [v w] fs Hw32 _ IH]; intros b p Hp Hw Hz; [done |].
  rewrite total_width_cons in *. pose proof (total_width_nonneg fs). cbn [put_all encodes].
  destruct (put_spec b p v w) as [Hl Hb]; [lia | lia |]. cbn in Hw32. split.
  - apply Z.bits_inj'. intros i Hi. rewrite get_at_spec by done.
    unfold wrap. rewrite Z.testbit_mod_pow2 by lia.
    destruct (Z.ltb_spec i (Z.of_nat w)) as [Hiw |]; [cbn | done].
    rewrite put_all_frame by (try rewrite Hl; lia). rewrite Hb, Hz by lia. cbn.
    destruct (Z.leb_spec p (p + i)), (Z.ltb_spec (p + i) (p + Z.of_nat w)); try lia. cbn.
    replace (p + i - p) with i by lia. unfold u32, wrap. rewrite Z.testbit_mod_pow2 by lia.
    destruct (Z.ltb_spec i 32); [done | lia].
  - apply IH; [lia | rewrite Hl; lia |]. intros k Hk. rewrite Hb, Hz by lia. cbn.
    destruct (Z.ltb_spec k (p + Z.of_nat w)); [lia | by rewrite andb_false_r].
Qed.

(** A packed buffer: zeroed, then filled from bit 0. *)
Definition pack (n : nat) (fields : list field) : bytes := put_all (zeros n) 0 fields.

Lemma length_pack n fs : total_width fs <= 8 * Z.of_nat n -> length (pack n fs) = n.
Proof. intros. unfold pack, zeros. rewrite length_put_all; rewrite ?length_replicate; try lia. Qed.

Lemma pack_encodes n fs : widths_ok fs -> total_width fs <= 8 * Z.of_nat n ->
  encodes (pack n fs) 0 fs.
Proof.
  intros Hw Ht. apply put_all_encodes; [done | lia | unfold zeros; rewrite length_replicate; lia |].
  intros. apply bit_at_zeros.
Qed.

(** The bits after the last field are zero. *)
Lemma pack_padding n fs k : total_width fs <= 8 * Z.of_nat n -> total_width fs <= k ->
  bit_at (pack n fs) k = false.
Proof.
  intros Ht Hk. pose proof (total_width_nonneg fs). unfold pack.
  rewrite put_all_frame; [apply bit_at_zeros | lia | | lia | lia].
  unfold zeros. rewrite length_replicate. lia.
Qed.

(** A mask test on one byte, as a statement on its bits. *)
Lemma byte_mask_zero b i m : 0 <= i -> 0 <= m < 256 ->
  (forall j, 0 <= j < 8 -> Z.testbit m j = true -> bit_at b (8 * i + j) = false) ->
  Z.land (nthZ 0 b i) m = 0.
Proof.
  intros Hi Hm Hb. apply Z.bits_inj'. intros j Hj. rewrite Z.land_spec, Z.bits_0.
  destruct (Z.lt_ge_cases j 8).
  - destruct (Z.testbit m j) eqn:E; [| by rewrite andb_false_r].
    specialize (Hb j ltac:(lia) E). rewrite bit_at_testbit in Hb.
    replace ((8 * i + j) / 8) with i in Hb by (rewrite Z.mul_comm, Z.div_add_l, Z.div_small; lia).
    replace ((8 * i + j) mod 8) with j in Hb
      by (rewrite Z.add_comm, Z.mul_comm, Z_mod_plus_full, Z.mod_small; lia).
    by rewrite Hb.
  - replace (Z.testbit m j) with false; [by rewrite andb_false_r |].
    symmetry. destruct (Z.eq_dec m 0) as [-> |]; [apply Z.bits_0 |].
    apply Z.bits_above_log2; [lia |]. apply Z.log2_lt_pow2; [lia |].
    eapply Z.lt_le_trans; [apply Hm |]. change 256 with (2 ^ 8). apply Z.pow_le_mono_r; lia.
Qed.

(** ** Reading back *)
Definition reads {A} (m : reader A) (fields : list field) (x : A) : Prop :=
  forall b p, encodes b p fields -> m b p = Some (x, p + total_width fields).

Lemma reads_run {A} (m : reader A) fs x n : reads m fs x -> widths_ok fs ->
  total_width fs <= 8 * Z.of_nat n -> run m (pack n fs) = Some x.
Proof. intros H Hw Ht. unfold run. rewrite (H _ _ (pack_encodes n fs Hw Ht)). done. Qed.

Lemma reads_ret {A} (x : A) : reads (mret x) [] x.
Proof. intros b p _. unfold mret, reader_ret. cbn. by rewrite Z.add_0_r. Qed.

Lemma reads_get {A} w v fs (k : Z -> reader A) y : in_u (Z.of_nat w) v ->
  reads (k v) fs y -> reads (x ← get w; k x) ((v, w) :: fs) y.
Proof.
  intros Hv Hk b p [E He]. unfold mbind, reader_bind, get. rewrite E, wrap_id by done.
  rewrite (Hk _ _ He), total_width_cons. by rewrite Z.add_assoc.
Qed.

Lemma reads_flag {A} f fs (k : bool -> reader A) y :
  reads (k f) fs y -> reads (x ← get_flag; k x) ((b2z f, 1%nat) :: fs) y.
Proof.
  intros Hk b p [E He]. unfold get_flag. unfold mbind, reader_bind, get. rewrite E.
  unfold mret, reader_ret. replace (negb (wrap (Z.of_nat 1) (b2z f) =? 0)) with f by (by destruct f).
  rewrite (Hk _ _ He), total_width_cons. by rewrite Z.add_assoc.
Qed.

Lemma reads_require {A} ok fs (k : unit -> reader A) y : ok = true ->
  reads (k tt) fs y -> reads (x ← require ok; k x) fs y.
Proof. intros -> Hk b p He. apply Hk. done. Qed.

Lemma reads_lift {A B} (o : option B) x fs (k : B -> reader A) y : o = Some x ->
  reads (k x) fs y -> reads (x ← lift o; k x) fs y.
Proof. intros -> Hk b p He. apply Hk. done. Qed.

Lemma encodes_app fs1 fs2 : forall b p, encodes b p (fs1 ++ fs2) <->
  encodes b p fs1 /\ encodes b (p + total_width fs1) fs2.
Proof.
  induction fs1 as [| [v w] fs1 IH]; intros b p; cbn [encodes app].
  - unfold total_width. cbn. rewrite Z.add_0_r. tauto.
  - rewrite IH, total_width_cons, Z.add_assoc. tauto.
Qed.

Lemma total_width_app fs1 fs2 : total_width (fs1 ++ fs2) = total_width fs1 + total_width fs2.
Proof. unfold total_width. by rewrite map_app, sumZ_app. Qed.

Lemma reads_bind {A B} (m : reader B) (k : B -> reader A) fs1 fs2 x y :
  reads m fs1 x -> reads (k x) fs2 y -> reads (x ← m; k x) (fs1 ++ fs2) y.
Proof.
  intros Hm Hk b p He. apply encodes_app in He. destruct He as [H1 H2].
  unfold mbind, reader_bind. rewrite (Hm _ _ H1), (Hk _ _ H2), total_width_app.
  by rewrite Z.add_assoc.
Qed.

Lemma reads_repeat {A} (m : reader A) (enc : A -> list field) l :
  Forall (fun x => reads m (enc x) x) l ->
  reads (repeat_read (length l) m) (concat (map enc l)) l.
Proof.
  induction 1 as [| x l Hx _ IH]; [apply reads_ret |].
  cbn [length repeat_read map concat]. apply reads_bind with (x := x); [done |].
  rewrite <- (app_nil_r (concat (map enc l))).
  apply reads_bind with (x := l); [done | apply reads_ret].
Qed.

(** ** The packet is determined by its fields *)
Definition bytes_ok (b : bytes) : Prop := Forall (fun x => 0 <= x < 256) b.

Lemma nthZ_byte b i : bytes_ok b -> 0 <= nthZ 0 b i < 256.
Proof.
  intros Hb. unfold nthZ. case_if; [lia |]. rewrite nth_lookup.
  destruct (_ !! Z.to_nat i) as [x |] eqn:E; simpl; [| lia].
  eapply Forall_lookup_1 in Hb; [| exact E]. done.
Qed.

Lemma byte_lor x y : 0 <= x < 256 -> 0 <= y < 256 -> 0 <= Z.lor x y < 256.
Proof.
  intros Hx Hy. split; [apply Z.lor_nonneg; lia |].
  assert (forall z, 0 <= z < 256 -> Z.log2 z < 8) as Hlog.
  { intros z Hz. destruct (Z.eq_dec z 0) as [-> |]; [cbn; lia |].
    apply (proj1 (Z.log2_lt_pow2 z 8 ltac:(lia))). lia. }
  apply (Z.log2_lt_cancel _ 256). rewrite Z.log2_lor by lia. change (Z.log2 256) with 8.
  apply Z.max_lub_lt; apply Hlog; lia.
Qed.

Lemma set_bit_ok b k : bytes_ok b -> bytes_ok (set_bit b k).
Proof.
  intros Hb. unfold set_bit, setZ. case_if; [done |]. apply Forall_insert; [done |].
  apply byte_lor; [by apply nthZ_byte | apply (wrap_range 8); lia].
Qed.

Lemma put_ok b p v w : bytes_ok b -> bytes_ok (put b p v w).
Proof.
  intros Hb. unfold put. revert b Hb. generalize (range w) as l.
  induction l as [| i l IH]; intros b Hb; cbn; [done |].
  apply IH. case_if; auto using set_bit_ok.
Qed.

Lemma put_all_ok fs : forall b p, bytes_ok b -> bytes_ok (put_all b p fs).
Proof. induction fs as [| [v w] fs IH]; intros b p Hb; cbn; auto using put_ok. Qed.

Lemma pack_ok n fs : bytes_ok (pack n fs).
Proof. apply put_all_ok. unfold zeros, bytes_ok. apply Forall_replicate. lia. Qed.

Lemma bytes_ext b1 b2 : bytes_ok b1 -> bytes_ok b2 -> length b1 = length b2 ->
  (forall k, 0 <= k < 8 * Z.of_nat (length b1) -> bit_at b1 k = bit_at b2 k) -> b1 = b2.
Proof.
  intros H1 H2 Hl Hb. apply list_eq_same_length with (n := length b1); [done | done |].
  intros i x y Hi E1 E2.
  assert (nthZ 0 b1 (Z.of_nat i) = x /\ nthZ 0 b2 (Z.of_nat i) = y) as [<- <-].
  { unfold nthZ. destruct (Z.ltb_spec (Z.of_nat i) 0); [lia |].
    rewrite Nat2Z.id, !nth_lookup, E1, E2. done. }
  pose proof (nthZ_byte b1 (Z.of_nat i) H1) as B1. pose proof (nthZ_byte b2 (Z.of_nat i) H2) as B2.
  apply Z.bits_inj'. intros j Hj. destruct (Z.lt_ge_cases j 8).
  - specialize (Hb (8 * Z.of_nat i + j) ltac:(lia)). rewrite !bit_at_testbit in Hb.
    replace ((8 * Z.of_nat i + j) / 8) with (Z.of_nat i) in Hb
      by (rewrite Z.mul_comm, Z.div_add_l, Z.div_small; lia).
    by replace ((8 * Z.of_nat i + j) mod 8) with j in Hb
      by (rewrite Z.add_comm, Z.mul_comm, Z_mod_plus_full, Z.mod_small; lia).
  - rewrite <- (Z.mod_small (nthZ 0 b1 _) (2 ^ 8)), <- (Z.mod_small (nthZ 0 b2 _) (2 ^ 8)) by lia.
    rewrite !Z.testbit_mod_pow2 by lia. by destruct (Z.ltb_spec j 8); [lia |].
Qed.

Lemma encodes_bits fs : forall b1 b2 p, encodes b1 p fs -> encodes b2 p fs ->
  forall k, p <= k < p + total_width fs -> bit_at b1 k = bit_at b2 k.
Proof.
  induction fs as [| [v w] fs IH]; intros b1 b2 p H1 H2 k Hk.
  { unfold total_width in Hk. cbn in Hk. lia. }
  rewrite total_width_cons in Hk. destruct H1 as [E1 H1], H2 as [E2 H2].
  destruct (Z.lt_ge_cases k (p + Z.of_nat w)); [| apply (IH _ _ _ H1 H2); lia].
  rewrite <- E2 in E1. apply (f_equal (fun z => Z.testbit z (k - p))) in E1.
  rewrite !get_at_spec in E1 by lia. destruct (Z.ltb_spec (k - p) (Z.of_nat w)); [| lia].
  by replace (p + (k - p)) with k in E1 by lia.
Qed.

(** What a buffer encodes depends only on the bits of the fields. *)
Lemma encodes_ext fs : forall b1 b2 p, encodes b1 p fs ->
  (forall k, p <= k < p + total_width fs -> bit_at b2 k = bit_at b1 k) -> encodes b2 p fs.
Proof.
  induction fs as [| [v w] fs IH]; intros b1 b2 p H Hb; [done |]. destruct H as [E H].
  rewrite total_width_cons in Hb. pose proof (total_width_nonneg fs). split.
  - rewrite <- E. apply Z.bits_inj'. intros i Hi. rewrite !get_at_spec by done.
    destruct (Z.ltb_spec i (Z.of_nat w)); [| done]. cbn [andb]. apply Hb. lia.
  - apply (IH b1); [done |]. intros k Hk. apply Hb. lia.
Qed.

(** A buffer with zero padding that encodes [fs] is the packed one. *)
Lemma pack_unique b fs : bytes_ok b -> widths_ok fs ->
  total_width fs <= 8 * Z.of_nat (length b) -> encodes b 0 fs ->
  (forall k, total_width fs <= k < 8 * Z.of_nat (length b) -> bit_at b k = false) ->
  pack (length b) fs = b.
Proof.
  intros Hb Hw Ht He Hz. apply bytes_ext; [apply pack_ok | done | by apply length_pack |].
  intros k Hk. rewrite length_pack in Hk by done.
  destruct (Z.lt_ge_cases k (total_width fs)).
  - apply (encodes_bits fs _ _ 0); [by apply pack_encodes | done | lia].
  - rewrite pack_padding by done. symmetry. apply Hz. lia.
Qed.

(** Every mask bit of a byte whose masked value is zero is clear. *)
Lemma byte_mask_clear b i m j : 0 <= i -> 0 <= j < 8 -> Z.land (nthZ 0 b i) m = 0 ->
  Z.testbit m j = true -> bit_at b (8 * i + j) = false.
Proof.
  intros Hi Hj Hz Hm. rewrite bit_at_testbit.
  replace ((8 * i + j) / 8) with i by (rewrite Z.mul_comm, Z.div_add_l, Z.div_small; lia).
  replace ((8 * i + j) mod 8) with j by (rewrite Z.add_comm, Z.mul_comm, Z_mod_plus_full, Z.mod_small; lia).
  apply (f_equal (fun z => Z.testbit z j)) in Hz.
  rewrite Z.land_spec, Hm, andb_true_r, Z.bits_0 in Hz. done.
Qed.

Lemma wrap_get b p w : get_at b p w = wrap (Z.of_nat w) (get_at b p w).
Proof. symmetry. apply wrap_id, get_at_range. Qed.

Lemma flag_get b p : get_at b p 1 = b2z (negb (get_at b p 1 =? 0)).
Proof.
  pose proof (get_at_range b p 1) as H. unfold in_u in H.
  change (2 ^ Z.of_nat 1) with 2 in H.
  destruct (Z.eqb_spec (get_at b p 1) 0); cbn [b2z negb]; lia.
Qed.

#[export] Hint Resolve get_at_range : car.

(** The converse of [reads]: whatever a reader returns, the buffer encodes fields
    that [R] relates to it, and the reader stands behind them. *)
Definition written {A} (m : reader A) (R : A -> list field -> Prop) : Prop :=
  forall b p x q, m b p = Some (x, q) -> exists fs, R x fs /\ encodes b p fs /\ widths_ok fs /\ q = p + total_width fs.

Lemma written_ret {A} (x : A) (R : A -> list field -> Prop) : R x [] -> written (mret x) R.
Proof. intros H b p y q [= <- <-]. exists []. splits; [done | done | constructor | unfold total_width; cbn; lia]. Qed.

Lemma written_get {A} w (k : Z -> reader A) (R : A -> list field -> Prop) : (w <= 32)%nat ->
  (forall v, in_u (Z.of_nat w) v -> written (k v) (fun y fs => R y ((v, w) :: fs))) -> written (x ← get w; k x) R.
Proof.
  intros Hw H b p y q E. unfold mbind, reader_bind, get in E.
  destruct (H _ (get_at_range b p w) _ _ _ _ E) as (fs & HR & He & Hf & ->).
  exists ((get_at b p w, w) :: fs). splits; [done | split; [apply wrap_get | done] | by constructor |].
  rewrite total_width_cons. lia.
Qed.

Lemma written_flag {A} (k : bool -> reader A) (R : A -> list field -> Prop) :
  (forall f, written (k f) (fun y fs => R y ((b2z f, 1%nat) :: fs))) -> written (x ← get_flag; k x) R.
Proof.
  intros H b p y q E. unfold get_flag in E. unfold mbind, reader_bind, get, mret, reader_ret in E.
  destruct (H _ _ _ _ _ E) as (fs & HR & He & Hf & ->). rewrite <- flag_get in HR.
  exists ((get_at b p 1, 1%nat) :: fs). splits; [done | split; [apply wrap_get | done] | constructor; [cbn; lia | done] |].
  rewrite total_width_cons. lia.
Qed.

Lemma written_require {A} ok (k : unit -> reader A) (R : A -> list field -> Prop) :
  (ok = true -> written (k tt) R) -> written (x ← require ok; k x) R.
Proof. intros H b p y q E. destruct ok; [exact (H eq_refl _ _ _ _ E) | done]. Qed.

Lemma written_bind {A B} (m : reader B) (k : B -> reader A) (Q : B -> list field -> Prop) (R : A -> list field -> Prop) :
  written m Q -> (forall x fs, Q x fs -> written (k x) (fun y fs' => R y (fs ++ fs'))) -> written (x ← m; k x) R.
Proof.
  intros Hm H b p y q E. unfold mbind, reader_bind in E. destruct (m b p) as [[x r] |] eqn:Em; [| done].
  destruct (Hm _ _ _ _ Em) as (fs & HQ & He & Hw & ->). destruct (H _ _ HQ _ _ _ _ E) as (fs' & HR & He' & Hw' & ->).
  exists (fs ++ fs'). rewrite encodes_app, total_width_app. splits; [done | done | done | by apply Forall_app | lia].
Qed.

Lemma written_weaken {A} (m : reader A) (Q R : A -> list field -> Prop) : written m Q ->
  (forall x fs, Q x fs -> R x fs) -> written m R.
Proof. intros H HQ b p x q E. destruct (H _ _ _ _ E) as (fs & ? & ?). exists fs. naive_solver. Qed.

(** One step of a proof of [written]. *)
Ltac written_step :=
  first
    [ apply written_flag; intros
    | apply written_get; [lia | intros]
    | apply written_require; intros
    | apply written_ret ].

(** One step of a reading proof: the next field, flag, check or the end. *)
Ltac read_step :=
  first
    [ apply reads_flag
    | apply reads_get; [try (unfold in_u in *; cbn; lia) |]
    | apply reads_require; [try done |]
    | apply reads_ret ].
Ltac check_widths := unfold widths_ok; repeat (constructor; [cbn; lia |]); constructor.
