(* ===== verification/WireFields.v ===== *)
(** * Typed packet fields

    The field types the packets share beyond plain integers and flags: binary32
    and binary64 values copied by their bits (the [union] helpers [float_bits],
    [bits_float], [write_double], [read_double] of the codecs), signed 32- and
    64-bit values, and enumerations read with a range check.  Each comes with the
    rule that reads it back.  NaN payloads are not distinguished: [S754_nan]
    stands for all of them. *)
From S2P Require Import Prelude CFloat BitCodec.

Definition float_field (f : float) : field := (float_bits f, 32%nat).
Definition get_float : reader float := z ← get 32; mret (bits_float z).

(** A 64-bit value is written as its low and its high word. *)
Definition wide_fields (z : Z) : list field := [(u32 z, 32%nat); (u32 (Z.shiftr z 32), 32%nat)].
Definition get_wide : reader Z :=
  low ← get 32; high ← get 32; mret (Z.lor low (Z.shiftl high 32)).
Definition double_fields (d : double) : list field := wide_fields (double_bits d).
Definition get_double : reader double := z ← get_wide; mret (bits_double z).

(** [x <= INT32_MAX ? (int32_t)x : -1 - (int32_t)(UINT32_MAX - x)] *)
Definition signed32 (x : Z) : Z := if x <=? INT32_MAX then x else -1 - (UINT32_MAX - x).

Lemma signed32_u32 x : - 2 ^ 31 <= x < 2 ^ 31 -> signed32 (u32 x) = x.
Proof.
  intros Hx. unfold signed32, u32, wrap, INT32_MAX, UINT32_MAX.
  destruct (Z_lt_ge_dec x 0).
  - rewrite <- (Z_mod_plus_full x 1), Z.mod_small by lia. case_if; unbool; lia.
  - rewrite Z.mod_small by lia. case_if; unbool; lia.
Qed.
Lemma signed32_range x : in_u 32 x -> - 2 ^ 31 <= signed32 x < 2 ^ 31.
Proof. unfold in_u, signed32, INT32_MAX, UINT32_MAX. intros. case_if; unbool; lia. Qed.
Lemma u32_signed32 x : in_u 32 x -> u32 (signed32 x) = x.
Proof.
  unfold in_u. intros Hx. unfold signed32, u32, wrap, INT32_MAX, UINT32_MAX. case_if; unbool.
  - apply Z.mod_small. lia.
  - replace (-1 - (4294967295 - x)) with (x + (-1) * 2 ^ 32) by lia. rewrite Z_mod_plus_full.
    apply Z.mod_small. lia.
Qed.

Lemma wide_rejoin z : in_u 64 z -> Z.lor (u32 z) (Z.shiftl (u32 (Z.shiftr z 32)) 32) = z.
Proof.
  unfold in_u. intros Hz. apply Z.bits_inj'. intros i Hi.
  rewrite Z.lor_spec, Z.shiftl_spec by lia. unfold u32, wrap. rewrite Z.testbit_mod_pow2 by lia.
  destruct (Z.ltb_spec i 32).
  - rewrite (Z.testbit_neg_r _ (i - 32)) by lia. by rewrite orb_false_r.
  - cbn [andb orb]. rewrite Z.testbit_mod_pow2 by lia. rewrite Z.shiftr_spec by lia.
    replace (i - 32 + 32) with i by lia. destruct (Z.ltb_spec (i - 32) 32); cbn [andb]; [done |].
    symmetry. destruct (Z.eq_dec z 0) as [-> |]; [apply Z.bits_0 |].
    apply Z.bits_above_log2; [lia |]. apply Z.log2_lt_pow2; [lia |].
    eapply Z.lt_le_trans; [apply Hz |]. apply Z.pow_le_mono_r; lia.
Qed.

Lemma reads_float {A} f fs (k : float -> reader A) y : float_ok f ->
  reads (k f) fs y -> reads (x ← get_float; k x) (float_field f :: fs) y.
Proof.
  intros Hf Hk b p [E He]. unfold get_float. unfold mbind, reader_bind, get. rewrite E.
  unfold mret, reader_ret. rewrite wrap_id by (by apply float_bits_range). rewrite bits_float_bits by done.
  rewrite (Hk _ _ He). unfold float_field. rewrite total_width_cons. by rewrite Z.add_assoc.
Qed.

Lemma reads_wide {A} z fs (k : Z -> reader A) y : in_u 64 z ->
  reads (k z) fs y -> reads (x ← get_wide; k x) (wide_fields z ++ fs) y.
Proof.
  intros Hz Hk b p (E1 & E2 & He). unfold get_wide. unfold mbind, reader_bind, get. rewrite E1, E2.
  unfold mret, reader_ret. change (wrap (Z.of_nat 32)) with u32.
  rewrite (wrap_id 32 (u32 z) (u32_range _) : u32 (u32 z) = u32 z).
  rewrite (wrap_id 32 (u32 (Z.shiftr z 32)) (u32_range _) : u32 (u32 (Z.shiftr z 32)) = u32 (Z.shiftr z 32)).
  rewrite wide_rejoin by done.
  rewrite (Hk _ _ He). unfold wide_fields. cbn [app]. rewrite !total_width_cons. by rewrite !Z.add_assoc.
Qed.

Lemma reads_double {A} d fs (k : double -> reader A) y : double_ok d ->
  reads (k d) fs y -> reads (x ← get_double; k x) (double_fields d ++ fs) y.
Proof.
  intros Hd Hk b p He. unfold double_fields in *.
  assert (R : reads (z ← get_wide; k (bits_double z)) (wide_fields (double_bits d) ++ fs) y).
  { apply reads_wide; [by apply double_bits_range |]. by rewrite bits_double_bits. }
  specialize (R b p He). rewrite <- R. unfold get_double. unfold mbind, reader_bind, mret, reader_ret.
  by destruct (get_wide b p) as [[z q] |].
Qed.

(** One step of a reading proof over all field types. *)
Ltac wire_step :=
  first
    [ apply reads_flag
    | apply reads_float; [first [done | eauto with car] |]
    | apply reads_double; [first [done | eauto with car] |]
    | apply reads_wide; [try (unfold in_u in *; cbn; lia) |]
    | apply reads_get; [try done; try (unfold in_u in *; cbn; lia) |]
    | apply reads_require; [try done |]
    | apply reads_ret ].
