(* ===== verification/IrSensing.v ===== *)
(** * Infrared sensing: acquisition, reflectance and calibration

    Models [subsystem3/ir_acquisition.{c,h}], [subsystem3/ir_reflectance.{c,h}]
    and [subsystem3/ir_calibration.{c,h}]: one ADC scan of the three sensors,
    the per-sensor normalisation of a raw count to a darkness of 0..1000 with
    a hysteresis classification, and the collection of labelled samples that
    produces a calibration.  Bit-field members are stored through [wrap] at
    their declared width, so a value that does not fit would be seen to be
    truncated; the theorems show that none is. *)
From S2P Require Import Prelude CFloat.

(** ** Reflectance: [ir_reflectance.c] *)
Inductive ir_surface_t := IR_SURFACE_UNKNOWN | IR_SURFACE_WHITE | IR_SURFACE_BLACK.
#[export] Instance ir_surface_eq_dec : EqDecision ir_surface_t.
Proof. solve_decision. Defined.

Definition surface_code (s : ir_surface_t) : Z :=
  match s with IR_SURFACE_UNKNOWN => 0 | IR_SURFACE_WHITE => 1 | IR_SURFACE_BLACK => 2 end.
Definition surface_of (z : Z) : option ir_surface_t :=
  if z =? 0 then Some IR_SURFACE_UNKNOWN
  else if z =? 1 then Some IR_SURFACE_WHITE
  else if z =? 2 then Some IR_SURFACE_BLACK
  else None.

Record ir_calibration_t := {
  white_raw : Z;
  black_raw : Z;
  white_limit : Z;
  black_limit : Z
}.
#[export] Instance ir_calibration_settable : Settable ir_calibration_t := fun r =>
  Build_ir_calibration_t (white_raw r) (black_raw r) (white_limit r) (black_limit r).

(** [ir_stored_calibration_t]: the same four values in 12, 12, 10 and 10 bits. *)
Definition ir_store_calibration (c : ir_calibration_t) : ir_calibration_t :=
  {| white_raw := wrap 12 (white_raw c); black_raw := wrap 12 (black_raw c);
     white_limit := wrap 10 (white_limit c); black_limit := wrap 10 (black_limit c) |}.

Record ir_reflectance_t := {
  calibration : ir_calibration_t;
  surface : ir_surface_t;
  configured : bool
}.
#[export] Instance ir_reflectance_settable : Settable ir_reflectance_t := fun r =>
  Build_ir_reflectance_t (calibration r) (surface r) (configured r).

Definition IR_ADC_MAX_COUNT : Z := 4095.
Definition IR_DARKNESS_MAX : Z := 1000.

Definition ir_reflectance_reset (s : ir_reflectance_t) : ir_reflectance_t :=
  s <| surface := IR_SURFACE_UNKNOWN |>.

(** The guards of [ir_reflectance_init] on a calibration. *)
Definition ir_calibration_rejected (c : ir_calibration_t) : bool :=
  (IR_ADC_MAX_COUNT <? white_raw c) || (IR_ADC_MAX_COUNT <? black_raw c) ||
  (white_raw c =? black_raw c) || (black_limit c <=? white_limit c) ||
  (IR_DARKNESS_MAX <? black_limit c).

Definition ir_reflectance_init (s : ir_reflectance_t) (c : option ir_calibration_t)
  : bool * ir_reflectance_t :=
  let s := ir_reflectance_reset (s <| configured := false |>) in
  match c with
  | None => (false, s)
  | Some c =>
      if ir_calibration_rejected c then (false, s)
      else (true, s <| calibration := ir_store_calibration c |> <| configured := true |>)
  end.

(** The clamped normalisation inside [ir_reflectance_update]; the division is
    C's, truncating towards zero. *)
Definition ir_darkness (c : ir_calibration_t) (raw : Z) : Z :=
  let span := black_raw c - white_raw c in
  let darkness := Z.quot ((raw - white_raw c) * IR_DARKNESS_MAX) span in
  if darkness <? 0 then 0
  else if IR_DARKNESS_MAX <? darkness then IR_DARKNESS_MAX
  else darkness.

(** Result, new sensor state and the value left in [*p_darkness]. *)
Definition ir_reflectance_update (s : ir_reflectance_t) (raw p_darkness : Z)
  : bool * ir_reflectance_t * Z :=
  if negb (configured s) || (IR_ADC_MAX_COUNT <? raw) then
    (false, ir_reflectance_reset s, p_darkness)
  else
    let darkness := u16 (ir_darkness (calibration s) raw) in
    let s' :=
      if darkness <=? white_limit (calibration s) then s <| surface := IR_SURFACE_WHITE |>
      else if black_limit (calibration s) <=? darkness then s <| surface := IR_SURFACE_BLACK |>
      else s in
    (true, s', darkness).

(** ** Calibration collection: [ir_calibration.c] *)
Record s3_calibration_range_t := { count : Z; sum : Z; minimum : Z; maximum : Z }.
#[export] Instance range_settable : Settable s3_calibration_range_t := fun r =>
  Build_s3_calibration_range_t (count r) (sum r) (minimum r) (maximum r).
Record s3_calibration_collector_t := {
  white : s3_calibration_range_t;
  black : s3_calibration_range_t
}.
#[export] Instance collector_settable : Settable s3_calibration_collector_t := fun r =>
  Build_s3_calibration_collector_t (white r) (black r).

Definition s3_calibration_begin : s3_calibration_collector_t :=
  let zero := {| count := 0; sum := 0; minimum := 0; maximum := 0 |} in
  {| white := zero <| minimum := 4095 |>; black := zero <| minimum := 4095 |> |}.

(** One accepted sample into one range; [count] is 16 bits wide, [sum] 28,
    [minimum] and [maximum] 12. *)
Definition range_add (r : s3_calibration_range_t) (raw : Z) : s3_calibration_range_t :=
  let r := r <| count := wrap 16 (count r + 1) |> in
  let r := r <| sum := wrap 28 (sum r + raw) |> in
  let r := if raw <? minimum r then r <| minimum := wrap 12 raw |> else r in
  if maximum r <? raw then r <| maximum := wrap 12 raw |> else r.

Definition s3_calibration_add (c : s3_calibration_collector_t)
    (labelled_surface : ir_surface_t) (raw : Z) : bool * s3_calibration_collector_t :=
  if 4095 <? raw then (false, c)
  else match labelled_surface with
  | IR_SURFACE_WHITE =>
      if 65535 <=? count (white c) then (false, c)
      else (true, c <| white := range_add (white c) raw |>)
  | IR_SURFACE_BLACK =>
      if 65535 <=? count (black c) then (false, c)
      else (true, c <| black := range_add (black c) raw |>)
  | IR_SURFACE_UNKNOWN => (false, c)
  end.

(** The uninitialised [check] object is an argument: [ir_reflectance_init]
    overwrites what it decides with. *)
Definition s3_calibration_finish (check : ir_reflectance_t)
    (c : s3_calibration_collector_t) (active : ir_calibration_t) : bool * ir_calibration_t :=
  if (count (white c) <? 10) || (count (black c) <? 10) then (false, active)
  else if negb ((maximum (white c) <? minimum (black c)) ||
                (maximum (black c) <? minimum (white c))) then (false, active)
  else
    let candidate := active
      <| white_raw := u16 (sum (white c) / count (white c)) |>
      <| black_raw := u16 (sum (black c) / count (black c)) |> in
    if negb (ir_reflectance_init check (Some candidate)).1 then (false, active)
    else (true, candidate).

Record s3_calibration_summary_t := {
  summary_count : Z; summary_minimum : Z; summary_maximum : Z;
  average : float; available : bool
}.

Definition s3_calibration_summary (r : s3_calibration_range_t) : s3_calibration_summary_t :=
  if 0 <? count r then
    {| summary_count := count r; summary_minimum := minimum r;
       summary_maximum := maximum r;
       average := (float_of_Z (sum r) / float_of_Z (count r))%f32;
       available := true |}
  else {| summary_count := 0; summary_minimum := 0; summary_maximum := 0;
          average := fzero; available := false |}.

(** ** Acquisition: [ir_acquisition.c]

    The ADC driver and the clock are the two function pointers of
    [s3_acquisition_capture]: here two functions on the state [W] of the
    outside world.  [read_adc w channel raw] gets the current content of
    [*raw] and returns the error code and what it left in [*raw]. *)
Record s3_acquisition_config_t := { channel : list Z; enabled_mask : Z }.
Record s3_raw_sample_t := {
  sample_timestamp_us : Z; sample_raw : Z; sample_error : Z;
  sample_enabled : bool; sample_valid : bool
}.
#[export] Instance raw_sample_settable : Settable s3_raw_sample_t := fun r =>
  Build_s3_raw_sample_t (sample_timestamp_us r) (sample_raw r) (sample_error r)
    (sample_enabled r) (sample_valid r).
Record s3_sensor_frame_t := { frame_timestamp_us : Z; sensor : list s3_raw_sample_t }.
#[export] Instance frame_settable : Settable s3_sensor_frame_t := fun r =>
  Build_s3_sensor_frame_t (frame_timestamp_us r) (sensor r).

Definition S3_SENSOR_BARCODE : Z := 0.
Definition S3_SENSOR_LEFT : Z := 1.
Definition S3_SENSOR_RIGHT : Z := 2.
Definition S3_SENSOR_COUNT : nat := 3.
Definition S3_SENSOR_BIT (id : Z) : Z := Z.shiftl 1 id.
Definition S3_ALL_SENSORS : Z := 7.
Definition zero_sample : s3_raw_sample_t :=
  {| sample_timestamp_us := 0; sample_raw := 0; sample_error := 0;
     sample_enabled := false; sample_valid := false |}.
Definition zero_frame : s3_sensor_frame_t :=
  {| frame_timestamp_us := 0; sensor := replicate S3_SENSOR_COUNT zero_sample |}.

Definition mask_has (mask id : Z) : bool := negb (Z.land mask (S3_SENSOR_BIT id) =? 0).

(** The loop of [s3_acquisition_config_valid] from sensor [i] on. *)
Fixpoint channels_valid (config : s3_acquisition_config_t) (ids : list Z) (seen : Z) : bool :=
  match ids with
  | [] => true
  | i :: ids =>
      let ch := nthZ 0 (channel config) i in
      if 2 <? ch then false
      else if mask_has (enabled_mask config) i then
        let bit := u8 (Z.shiftl 1 ch) in
        if negb (Z.land seen bit =? 0) then false
        else channels_valid config ids (Z.lor seen bit)
      else channels_valid config ids seen
  end.

Definition s3_acquisition_config_valid (config : s3_acquisition_config_t) : bool :=
  if (enabled_mask config =? 0) ||
     negb (Z.land (enabled_mask config) (Z.lnot S3_ALL_SENSORS) =? 0) then false
  else channels_valid config (range S3_SENSOR_COUNT) 0.

(** [s3_acquisition_stored_config_t] and [s3_acquisition_expand]: the retained
    configuration in 2, 2, 2 and 3 bits, and its expansion. *)
Definition s3_acquisition_store (config : s3_acquisition_config_t) : Z * Z * Z * Z :=
  (wrap 2 (nthZ 0 (channel config) 0), wrap 2 (nthZ 0 (channel config) 1),
   wrap 2 (nthZ 0 (channel config) 2), wrap 3 (enabled_mask config)).
Definition s3_acquisition_expand (stored : Z * Z * Z * Z) : s3_acquisition_config_t :=
  let '(channel0, channel1, channel2, mask) := stored in
  {| channel := [channel0; channel1; channel2]; enabled_mask := mask |}.

Section Capture.
Context {W : Type}.
Variable read_adc : W -> Z -> Z -> Z * Z * W.
Variable clock_us : W -> Z * W.

Definition capture_sensor (config : s3_acquisition_config_t) (w : W) (i : Z)
  : s3_raw_sample_t * W :=
  let sample := zero_sample <| sample_enabled := mask_has (enabled_mask config) i |> in
  if sample_enabled sample then
    let '(error, raw, w) := read_adc w (nthZ 0 (channel config) i) (sample_raw sample) in
    let '(stamp, w) := clock_us w in
    let sample := sample <| sample_error := error |> <| sample_raw := raw |>
      <| sample_timestamp_us := stamp |>
      <| sample_valid := (error =? 0) && (raw <=? 4095) |> in
    if sample_valid sample then (sample, w)
    else
      let sample := if sample_error sample =? 0 then sample <| sample_error := -1 |> else sample in
      (sample <| sample_raw := 0 |>, w)
  else (sample, w).

Fixpoint capture_all (config : s3_acquisition_config_t) (w : W) (ids : list Z)
  : list s3_raw_sample_t * W :=
  match ids with
  | [] => ([], w)
  | i :: ids =>
      let '(s, w) := capture_sensor config w i in
      let '(rest, w) := capture_all config w ids in
      (s :: rest, w)
  end.

Definition s3_acquisition_capture (config : s3_acquisition_config_t) (w : W)
  : bool * s3_sensor_frame_t * W :=
  if negb (s3_acquisition_config_valid config) then (false, zero_frame, w)
  else
    let '(samples, w) := capture_all config w (range S3_SENSOR_COUNT) in
    let '(stamp, w) := clock_us w in
    (true, {| frame_timestamp_us := stamp; sensor := samples |}, w).
End Capture.

(** ** Lemmas: reflectance *)

(** What [ir_reflectance_init] establishes and the updates keep. *)
Definition calibration_wf (c : ir_calibration_t) : Prop :=
  0 <= white_raw c <= 4095 /\ 0 <= black_raw c <= 4095 /\ white_raw c <> black_raw c /\
  0 <= white_limit c < black_limit c /\ black_limit c <= 1000.
Definition calibration_u16 (c : ir_calibration_t) : Prop :=
  in_u 16 (white_raw c) /\ in_u 16 (black_raw c) /\ in_u 16 (white_limit c) /\ in_u 16 (black_limit c).
Definition reflectance_wf (s : ir_reflectance_t) : Prop :=
  configured s = true -> calibration_wf (calibration s).

Lemma rejected_wf c : calibration_u16 c ->
  ir_calibration_rejected c = false <-> calibration_wf c.
Proof.
  unfold calibration_u16, ir_calibration_rejected, calibration_wf, in_u, IR_ADC_MAX_COUNT, IR_DARKNESS_MAX.
  intros Hc. split.
  - intros H. unbool. lia.
  - intros H. repeat (apply orb_false_iff; split); try apply Z.ltb_ge; try apply Z.eqb_neq;
      try apply Z.leb_gt; lia.
Qed.

Lemma store_lossless c : calibration_wf c -> ir_store_calibration c = c.
Proof.
  destruct c as [w b wl bl]. unfold calibration_wf, ir_store_calibration. cbn.
  intros H. f_equal; apply wrap_id; unfold in_u; lia.
Qed.

Lemma darkness_range c raw : 0 <= ir_darkness c raw <= 1000.
Proof.
  unfold ir_darkness, IR_DARKNESS_MAX. set (d := Z.quot _ _).
  destruct (Z.ltb_spec d 0); [lia |]. destruct (Z.ltb_spec 1000 d); lia.
Qed.

Lemma darkness_white c : ir_darkness c (white_raw c) = 0.
Proof. unfold ir_darkness. rewrite Z.sub_diag. cbn. destruct (black_raw c - white_raw c); reflexivity. Qed.

Lemma darkness_black c : white_raw c <> black_raw c -> ir_darkness c (black_raw c) = 1000.
Proof.
  intros. unfold ir_darkness. rewrite Z.mul_comm, Z.quot_mul by lia. reflexivity.
Qed.

(** Darkness grows as the raw count moves from the white to the black
    reference, whichever of the two is the larger. *)
Lemma darkness_mono c r1 r2 : white_raw c <> black_raw c ->
  (r1 - white_raw c) * Z.sgn (black_raw c - white_raw c)
    <= (r2 - white_raw c) * Z.sgn (black_raw c - white_raw c) ->
  ir_darkness c r1 <= ir_darkness c r2.
Proof.
  intros Hne Hr. unfold ir_darkness.
  set (n := black_raw c - white_raw c) in *.
  assert (Z.quot ((r1 - white_raw c) * IR_DARKNESS_MAX) n
          <= Z.quot ((r2 - white_raw c) * IR_DARKNESS_MAX) n).
  { assert (n <> 0) by (subst n; lia). unfold IR_DARKNESS_MAX.
    destruct (Z.lt_ge_cases n 0).
    - clearbody n. replace n with (- (- n)) by lia. set (m := - n) in *.
      rewrite !Z.quot_opp_r by lia.
      apply -> Z.opp_le_mono. apply Z.quot_le_mono; nia.
    - apply Z.quot_le_mono; nia. }
  unfold IR_DARKNESS_MAX in *. repeat case_if; unbool; lia.
Qed.

(** The intermediate products of the normalisation fit an [int32_t]. *)
Lemma darkness_no_overflow c raw : calibration_wf c -> 0 <= raw <= 4095 ->
  - 2 ^ 31 < (raw - white_raw c) * IR_DARKNESS_MAX < 2 ^ 31.
Proof. unfold calibration_wf, IR_DARKNESS_MAX. lia. Qed.

(** The classification of one reading, where it is decisive. *)
Definition classify (c : ir_calibration_t) (raw : Z) : option ir_surface_t :=
  if ir_darkness c raw <=? white_limit c then Some IR_SURFACE_WHITE
  else if black_limit c <=? ir_darkness c raw then Some IR_SURFACE_BLACK
  else None.

Definition ir_run (s : ir_reflectance_t) (raws : list Z) : ir_reflectance_t :=
  fold_left (fun s raw => (ir_reflectance_update s raw 0).1.2) raws s.

Lemma update_ok s raw d0 : configured s = true -> 0 <= raw <= 4095 ->
  ir_reflectance_update s raw d0 =
    (true, s <| surface := default (surface s) (classify (calibration s) raw) |>,
     ir_darkness (calibration s) raw).
Proof.
  intros Hs Hraw. pose proof (darkness_range (calibration s) raw) as Hd.
  unfold ir_reflectance_update, classify, IR_ADC_MAX_COUNT, u16. rewrite Hs. cbn [negb orb].
  destruct (Z.ltb_spec 4095 raw); [lia |].
  rewrite wrap_id by (unfold in_u; lia).
  destruct s. repeat case_if; reflexivity.
Qed.

(** ** Lemmas: calibration *)

(** Reference description of a range: the samples it was given. *)
Definition range_of (l : list Z) : s3_calibration_range_t :=
  {| count := Z.of_nat (length l); sum := sumZ l;
     minimum := foldr Z.min 4095 l; maximum := foldr Z.max 0 l |}.
Definition collector_of (ws bs : list Z) : s3_calibration_collector_t :=
  {| white := range_of ws; black := range_of bs |}.
Definition adc_samples (l : list Z) : Prop := Forall (fun x => 0 <= x <= 4095) l.

Definition labelled (s : ir_surface_t) (l : list (ir_surface_t * Z)) : list Z :=
  map snd (filter (fun p => p.1 = s) l).
Definition calibration_run (l : list (ir_surface_t * Z)) : s3_calibration_collector_t :=
  foldr (fun p c => (s3_calibration_add c p.1 p.2).2) s3_calibration_begin l.

Lemma minimum_bounds l : adc_samples l ->
  0 <= foldr Z.min 4095 l <= 4095 /\ Forall (fun x => foldr Z.min 4095 l <= x) l.
Proof.
  induction 1 as [| x l Hx _ [IH1 IH2]]; cbn; [split; [lia | done] |].
  split; [lia |]. constructor; [lia |].
  eapply Forall_impl; [exact IH2 |]. cbn. lia.
Qed.

Lemma maximum_bounds l : adc_samples l ->
  0 <= foldr Z.max 0 l <= 4095 /\ Forall (fun x => x <= foldr Z.max 0 l) l.
Proof.
  induction 1 as [| x l Hx _ [IH1 IH2]]; cbn; [split; [lia | done] |].
  split; [lia |]. constructor; [lia |].
  eapply Forall_impl; [exact IH2 |]. cbn. lia.
Qed.

Lemma range_add_of l x : adc_samples l -> 0 <= x <= 4095 -> Z.of_nat (length l) < 65535 ->
  range_add (range_of l) x = range_of (x :: l).
Proof.
  intros Hl Hx Hlen. destruct (minimum_bounds l Hl) as [Hmin _].
  destruct (maximum_bounds l Hl) as [Hmax _].
  pose proof (sumZ_bounds 0 4095 l Hl) as Hsum.
  unfold range_add, range_of. cbn.
  rewrite (wrap_id 16), (wrap_id 28), !(wrap_id 12) by (unfold in_u; lia).
  destruct (Z.ltb_spec x (foldr Z.min 4095 l)); cbn;
    destruct (Z.ltb_spec (foldr Z.max 0 l) x); cbn; f_equal; lia.
Qed.

(** The mean of a non-empty sample lies between its extremes. *)
Lemma mean_between l : adc_samples l -> l <> [] ->
  foldr Z.min 4095 l <= sumZ l / Z.of_nat (length l) <= foldr Z.max 0 l.
Proof.
  intros Hl Hne. destruct (minimum_bounds l Hl) as [_ Hmin].
  destruct (maximum_bounds l Hl) as [_ Hmax].
  assert (0 < Z.of_nat (length l)) by (destruct l; [done | cbn; lia]).
  assert (Forall (fun x => foldr Z.min 4095 l <= x <= foldr Z.max 0 l) l) as Hb.
  { apply Forall_and. done. }
  apply sumZ_bounds in Hb. split.
  - apply Z.div_le_lower_bound; lia.
  - apply Z.div_le_upper_bound; lia.
Qed.

Lemma labelled_cons s p l :
  labelled s (p :: l) = if decide (p.1 = s) then p.2 :: labelled s l else labelled s l.
Proof. unfold labelled. rewrite filter_cons. destruct (decide _); reflexivity. Qed.

Lemma calibration_run_of l :
  Forall (fun p => 0 <= p.2 <= 4095) l ->
  Z.of_nat (length (labelled IR_SURFACE_WHITE l)) <= 65535 ->
  Z.of_nat (length (labelled IR_SURFACE_BLACK l)) <= 65535 ->
  calibration_run l = collector_of (labelled IR_SURFACE_WHITE l) (labelled IR_SURFACE_BLACK l)
  /\ adc_samples (labelled IR_SURFACE_WHITE l) /\ adc_samples (labelled IR_SURFACE_BLACK l).
Proof.
  induction l as [| [s x] l IH]; [by repeat split; constructor |].
  rewrite !labelled_cons. intros Hl Hw Hb. inversion Hl as [| ? ? Hx Hl']; subst.
  change (calibration_run ((s, x) :: l)) with (s3_calibration_add (calibration_run l) s x).2.
  destruct s; simpl in Hw, Hb |- *.
  all: destruct IH as (-> & Aw & Ab); [done | lia | lia |].
  all: unfold s3_calibration_add; cbn [white black collector_of count range_of].
  all: destruct (Z.ltb_spec 4095 x); [cbn in Hx; lia |].
  - done.
  - destruct (Z.leb_spec 65535 (Z.of_nat (length (labelled IR_SURFACE_WHITE l)))); [lia |].
    split; [| by repeat split; try constructor].
    cbn. unfold collector_of. cbn. f_equal. apply range_add_of; [done | done | lia].
  - destruct (Z.leb_spec 65535 (Z.of_nat (length (labelled IR_SURFACE_BLACK l)))); [lia |].
    split; [| by repeat split; try constructor].
    cbn. unfold collector_of. cbn. f_equal. apply range_add_of; [done | done | lia].
Qed.

Lemma init_ok s0 c : calibration_u16 c -> (ir_reflectance_init s0 (Some c)).1 = true ->
  calibration_wf c /\
  (ir_reflectance_init s0 (Some c)).2 =
    {| calibration := c; surface := IR_SURFACE_UNKNOWN; configured := true |}.
Proof.
  intros Hc. unfold ir_reflectance_init.
  destruct (ir_calibration_rejected c) eqn:E; [done |]. intros _.
  apply rejected_wf in E; [| done]. split; [done |].
  rewrite store_lossless by done. reflexivity.
Qed.

Lemma run_last s raws : configured s = true -> Forall (fun r => 0 <= r <= 4095) raws ->
  ir_run s raws =
    s <| surface := default (surface s) (last (omap (classify (calibration s)) raws)) |>.
Proof.
  revert s. induction raws as [| r raws IH]; intros s Hs Hr.
  { destruct s. reflexivity. }
  inversion Hr; subst. cbn [ir_run fold_left]. rewrite update_ok by done.
  cbn [fst snd]. fold (ir_run (s <| surface := default (surface s) (classify (calibration s) r) |>) raws).
  rewrite IH by done. cbn. destruct (classify (calibration s) r) as [c |]; cbn.
  - f_equal. destruct (omap _ raws) as [| y l]; cbn; [done |].
    destruct (last (y :: l)) eqn:E; [done |].
    apply last_None in E. done.
  - reflexivity.
Qed.

(** ** Lemmas: acquisition *)
Definition sample_sound (s : s3_raw_sample_t) : Prop :=
  if sample_enabled s then
    if sample_valid s then sample_error s = 0 /\ sample_raw s <= 4095
    else sample_error s <> 0 /\ sample_raw s = 0
  else s = zero_sample.

Lemma capture_sensor_sound {W} read_adc clock_us config (w : W) i :
  sample_sound (capture_sensor read_adc clock_us config w i).1.
Proof.
  unfold capture_sensor, sample_sound. cbn.
  destruct (mask_has _ i); [| done].
  destruct (read_adc w _ _) as [[e raw] w1]. destruct (clock_us w1) as [t w2]. cbn.
  destruct (Z.eqb_spec e 0); cbn.
  - destruct (Z.leb_spec raw 4095); cbn; [done | lia].
  - destruct (Z.eqb_spec e 0); done.
Qed.

Lemma capture_all_sound {W} read_adc clock_us config ids : forall w : W,
  Forall sample_sound (capture_all read_adc clock_us config w ids).1 /\
  map sample_enabled (capture_all read_adc clock_us config w ids).1 =
    map (mask_has (enabled_mask config)) ids.
Proof.
  induction ids as [| i ids IH]; intros w; cbn; [done |].
  pose proof (capture_sensor_sound read_adc clock_us config w i) as Hs.
  destruct (capture_sensor _ _ _ w i) as [s w1] eqn:E.
  destruct (IH w1) as [H1 H2]. destruct (capture_all _ _ _ w1 ids) as [rest w2].
  cbn in *. split; [by constructor |]. f_equal; [| done].
  unfold capture_sensor in E. cbn in E.
  destruct (mask_has _ i) eqn:M; [| by injection E as <- <-].
  destruct (read_adc w _ _) as [[e raw] w3]. destruct (clock_us w3) as [t w4]. cbn in E.
  repeat case_if_in E; injection E as <- <-; done.
Qed.

(** ** Theorems *)

(** A sensor that accepted a calibration normalises every 12-bit count to
    0..1000 without an [int32_t] overflow: 0 at the white reference, 1000 at the
    black one, monotonically in between, for either ADC polarity; the stored
    12/12/10/10-bit copy of the calibration is exact. *)
Theorem ir_reflectance_normalises s0 c raw raw' d0 :
  calibration_u16 c -> (ir_reflectance_init s0 (Some c)).1 = true ->
  0 <= raw <= 4095 -> 0 <= raw' <= 4095 ->
  let s := (ir_reflectance_init s0 (Some c)).2 in
  let darkness r := (ir_reflectance_update s r d0).2 in
  calibration s = c /\
  (ir_reflectance_update s raw d0).1.1 = true /\
  0 <= darkness raw <= 1000 /\
  - 2 ^ 31 < (raw - white_raw c) * IR_DARKNESS_MAX < 2 ^ 31 /\
  darkness (white_raw c) = 0 /\ darkness (black_raw c) = 1000 /\
  (white_raw c < black_raw c -> raw <= raw' -> darkness raw <= darkness raw') /\
  (black_raw c < white_raw c -> raw' <= raw -> darkness raw <= darkness raw').
Proof.
  intros Hc Hi Hr Hr'. destruct (init_ok s0 c Hc Hi) as [Hwf ->]. cbv zeta.
  pose proof Hwf as (Hw & Hb & Hne & _).
  rewrite !update_ok by (try done; lia). cbn.
  split_and!; try done; try apply darkness_range.
  - apply darkness_no_overflow; done.
  - apply darkness_no_overflow; done.
  - apply darkness_white.
  - apply darkness_black; done.
  - intros. apply darkness_mono; [done |]. rewrite Z.sgn_pos by lia. lia.
  - intros. apply darkness_mono; [done |]. rewrite Z.sgn_neg by lia. lia.
Qed.

Definition bench_calibration : ir_calibration_t :=
  {| white_raw := 215; black_raw := 3550; white_limit := 400; black_limit := 600 |}.
Definition blank_sensor : ir_reflectance_t :=
  {| calibration := {| white_raw := 0; black_raw := 0; white_limit := 0; black_limit := 0 |};
     surface := IR_SURFACE_UNKNOWN; configured := false |}.

Lemma ir_reflectance_normalises_witness :
  (ir_reflectance_update (ir_reflectance_init blank_sensor (Some bench_calibration)).2 215 7).2 = 0.
Proof.
  refine (proj1 (proj2 (proj2 (proj2 (proj2
    (ir_reflectance_normalises blank_sensor bench_calibration 215 300 7 _ _ _ _)))))).
  - unfold calibration_u16, in_u; cbn; lia.
  - reflexivity.
  - lia.
  - lia.
Defined.

(** Hysteresis.  After any sequence of valid readings the surface is the
    class of the latest reading outside the band between the two limits, and
    UNKNOWN while no reading has been decisive: readings inside the band never
    change it. *)
Theorem ir_reflectance_hysteresis s0 c raws :
  calibration_u16 c -> (ir_reflectance_init s0 (Some c)).1 = true ->
  Forall (fun r => 0 <= r <= 4095) raws ->
  ir_run (ir_reflectance_init s0 (Some c)).2 raws =
    {| calibration := c; configured := true;
       surface := default IR_SURFACE_UNKNOWN (last (omap (classify c) raws)) |}.
Proof.
  intros Hc Hi Hr. destruct (init_ok s0 c Hc Hi) as [_ ->].
  rewrite run_last by done. reflexivity.
Qed.

Lemma ir_reflectance_hysteresis_witness :
  surface (ir_run (ir_reflectance_init blank_sensor (Some bench_calibration)).2
    [300; 1900; 3000; 1900]) = IR_SURFACE_BLACK.
Proof.
  rewrite ir_reflectance_hysteresis.
  - reflexivity.
  - unfold calibration_u16, in_u; cbn; lia.
  - reflexivity.
  - repeat (constructor; [lia |]). constructor.
Defined.

(** Calibration.  A collector fed any labelled 12-bit samples (up to 65535
    per surface) holds exactly the count, sum, minimum and maximum of the samples
    of each label - the 28-bit sum never wraps.  [s3_calibration_finish] commits
    only if both surfaces have 10 samples and their ranges do not overlap; it
    then sets the two references to the sample means, which lie within the two
    ranges and are accepted by [ir_reflectance_init]; otherwise the active
    calibration is unchanged. *)
Theorem s3_calibration_sound check l active :
  Forall (fun p => 0 <= p.2 <= 4095) l -> calibration_u16 active ->
  Z.of_nat (length (labelled IR_SURFACE_WHITE l)) <= 65535 ->
  Z.of_nat (length (labelled IR_SURFACE_BLACK l)) <= 65535 ->
  let ws := labelled IR_SURFACE_WHITE l in
  let bs := labelled IR_SURFACE_BLACK l in
  calibration_run l = collector_of ws bs /\
  match s3_calibration_finish check (calibration_run l) active with
  | (false, active') => active' = active
  | (true, active') =>
      (10 <= length ws)%nat /\ (10 <= length bs)%nat /\
      (maximum (range_of ws) < minimum (range_of bs) \/ maximum (range_of bs) < minimum (range_of ws)) /\
      white_raw active' = sumZ ws / Z.of_nat (length ws) /\
      black_raw active' = sumZ bs / Z.of_nat (length bs) /\
      minimum (range_of ws) <= white_raw active' <= maximum (range_of ws) /\
      minimum (range_of bs) <= black_raw active' <= maximum (range_of bs) /\
      white_limit active' = white_limit active /\ black_limit active' = black_limit active /\
      calibration_wf active'
  end.
Proof.
  intros Hl Ha Hw Hb. cbv zeta.
  destruct (calibration_run_of l Hl Hw Hb) as (-> & Aw & Ab).
  set (ws := labelled IR_SURFACE_WHITE l) in *. set (bs := labelled IR_SURFACE_BLACK l) in *.
  split; [done |]. unfold s3_calibration_finish. cbn [white black collector_of count sum].
  destruct (_ || _) eqn:E1; [done |]. cbn [count range_of] in E1. unbool.
  destruct (negb _) eqn:E2; [done |].
  pose proof (mean_between ws Aw ltac:(destruct ws; [cbn in *; lia | done])) as Mw.
  pose proof (mean_between bs Ab ltac:(destruct bs; [cbn in *; lia | done])) as Mb.
  pose proof (minimum_bounds ws Aw). pose proof (maximum_bounds ws Aw).
  pose proof (minimum_bounds bs Ab). pose proof (maximum_bounds bs Ab).
  cbn [count sum range_of]. unfold u16. rewrite !wrap_id by (unfold in_u; lia).
  set (candidate := active <| white_raw := _ |> <| black_raw := _ |>).
  destruct (ir_reflectance_init check (Some candidate)).1 eqn:E3; cbn [negb]; [| done].
  apply init_ok in E3.
  - destruct E3 as [E3 _]. cbn in E2 |- *. apply negb_false_iff in E2.
    split_and!; try done; try lia.
  - unfold calibration_u16, in_u in *. cbn. split_and!; try apply Ha; lia.
Qed.

Definition witness_samples : list (ir_surface_t * Z) :=
  replicate 12 (IR_SURFACE_WHITE, 210) ++ replicate 10 (IR_SURFACE_BLACK, 3500).

Lemma s3_calibration_sound_witness :
  white_raw (s3_calibration_finish blank_sensor (calibration_run witness_samples) bench_calibration).2 = 210.
Proof.
  destruct (s3_calibration_sound blank_sensor witness_samples bench_calibration) as [_ H].
  - repeat (constructor; [cbn; lia |]). constructor.
  - unfold calibration_u16, in_u; cbn; lia.
  - vm_compute. discriminate.
  - vm_compute. discriminate.
  - destruct (s3_calibration_finish blank_sensor (calibration_run witness_samples) bench_calibration)
      as [[] active] eqn:E; [| vm_compute in E; discriminate].
    destruct H as (_ & _ & _ & H & _). etransitivity; [exact H | reflexivity].
Defined.

(** One ADC scan.  A capture succeeds exactly when the configuration is
    valid; the frame then has one sample per sensor, enabled as the mask says;
    a disabled sensor is all zero; an enabled one is either valid with error 0 and
    a 12-bit count, or invalid with a non-zero error and raw 0, so a failed read
    is never mistaken for a healthy zero. *)
Theorem s3_acquisition_capture_sound {W} read_adc clock_us config (w : W) :
  let '(ok, frame, _) := s3_acquisition_capture read_adc clock_us config w in
  ok = s3_acquisition_config_valid config /\
  (ok = false -> frame = zero_frame) /\
  Forall sample_sound (sensor frame) /\
  (ok = true -> map sample_enabled (sensor frame) =
     [mask_has (enabled_mask config) 0; mask_has (enabled_mask config) 1; mask_has (enabled_mask config) 2]).
Proof.
  unfold s3_acquisition_capture.
  destruct (s3_acquisition_config_valid config); cbn [negb].
  - destruct (capture_all_sound read_adc clock_us config (range S3_SENSOR_COUNT) w) as [H1 H2].
    destruct (capture_all _ _ _ w _) as [samples w1]. destruct (clock_us w1) as [t w2].
    cbn [sensor fst] in *. split_and!; try done.
  - split_and!; try done. cbn. by repeat constructor.
Qed.
