(* ===== verification/LineDetection.v ===== *)
(** * Line detection and proportional steering

    Models [subsystem3/line_detection.{c,h}] (debounced line-lost, reacquired
    and junction events from two darkness readings) and
    [subsystem3/line_controller.{c,h}] (the pure wheel-speed proposal).  The
    detector is shown to refine a specification that keeps the whole history
    of accepted samples instead of four persistence timers. *)
From S2P Require Import Prelude CFloat.

Record s3_line_config_t := {
  signal_floor : Z; junction_dark : Z; lost_us : Z; reacquire_us : Z;
  junction_us : Z; rearm_us : Z; max_gap_us : Z; between : bool
}.
Record s3_persistence_t := { active : bool; since_us : Z }.
#[export] Instance persistence_settable : Settable s3_persistence_t := fun r =>
  Build_s3_persistence_t (active r) (since_us r).

Record s3_line_observation_t := {
  obs_valid : bool; obs_present : bool; junction_candidate : bool; obs_error : Z;
  lost_event : bool; reacquired_event : bool; junction_event : bool; touching : bool
}.
#[export] Instance observation_settable : Settable s3_line_observation_t := fun r =>
  Build_s3_line_observation_t (obs_valid r) (obs_present r) (junction_candidate r)
    (obs_error r) (lost_event r) (reacquired_event r) (junction_event r) (touching r).

Record s3_line_detector_t := {
  config : s3_line_config_t;
  lost : s3_persistence_t; acquired : s3_persistence_t;
  junction : s3_persistence_t; clear : s3_persistence_t;
  last_us : Z; configured : bool; seen_sample : bool; present : bool;
  junction_latched : bool; loss_reported : bool
}.
#[export] Instance detector_settable : Settable s3_line_detector_t := fun r =>
  Build_s3_line_detector_t (config r) (lost r) (acquired r) (junction r) (clear r)
    (last_us r) (configured r) (seen_sample r) (present r) (junction_latched r) (loss_reported r).

Definition zero_observation : s3_line_observation_t :=
  {| obs_valid := false; obs_present := false; junction_candidate := false; obs_error := 0;
     lost_event := false; reacquired_event := false; junction_event := false; touching := false |}.
Definition zero_line_config : s3_line_config_t :=
  {| signal_floor := 0; junction_dark := 0; lost_us := 0; reacquire_us := 0;
     junction_us := 0; rearm_us := 0; max_gap_us := 0; between := false |}.
Definition idle_timer : s3_persistence_t := {| active := false; since_us := 0 |}.
Definition zero_detector : s3_line_detector_t :=
  {| config := zero_line_config; lost := idle_timer; acquired := idle_timer;
     junction := idle_timer; clear := idle_timer; last_us := 0; configured := false;
     seen_sample := false; present := false; junction_latched := false; loss_reported := false |}.

Definition s3_line_defaults : s3_line_config_t :=
  {| signal_floor := 200; junction_dark := 600; lost_us := 100000; reacquire_us := 30000;
     junction_us := 30000; rearm_us := 100000; max_gap_us := 30000; between := false |}.

Definition s3_line_reset (d : s3_line_detector_t) : s3_line_detector_t :=
  zero_detector <| config := config d |> <| configured := configured d |>.

Definition line_config_rejected (c : s3_line_config_t) : bool :=
  (signal_floor c =? 0) || (2000 <? signal_floor c) ||
  (junction_dark c =? 0) || (1000 <? junction_dark c) ||
  (lost_us c =? 0) || (reacquire_us c =? 0) || (junction_us c =? 0) ||
  (rearm_us c =? 0) || (max_gap_us c =? 0) ||
  (0x80000000 <=? max_gap_us c) || (0x80000000 <=? lost_us c) ||
  (0x80000000 <=? reacquire_us c) || (0x80000000 <=? junction_us c) ||
  (0x80000000 <=? rearm_us c) || (between c && (1000 <? signal_floor c)).

Definition s3_line_init (c : option s3_line_config_t) : bool * s3_line_detector_t :=
  match c with
  | None => (false, zero_detector)
  | Some c =>
      if line_config_rejected c then (false, zero_detector)
      else (true, zero_detector <| config := c |> <| configured := true |>)
  end.

(** [persisted]: whether [condition] has now held for [duration]. *)
Definition persisted (timer : s3_persistence_t) (condition : bool) (now duration : Z)
  : bool * s3_persistence_t :=
  if negb condition then (false, timer <| active := false |>)
  else
    let timer := if negb (active timer) then timer <| active := true |> <| since_us := now |>
                 else timer in
    (duration <=? elapsed now (since_us timer), timer).

Definition both_black (c : s3_line_config_t) (left_dark right_dark : Z) : bool :=
  (junction_dark c <=? left_dark) && (junction_dark c <=? right_dark).

(** The edge-mode branch: line lost and reacquired. *)
Definition line_presence (d : s3_line_detector_t) (out : s3_line_observation_t)
    (now : Z) (signal : bool) : s3_line_detector_t * s3_line_observation_t :=
  let '(gone, timer) := persisted (lost d) (negb signal) now (lost_us (config d)) in
  let d := d <| lost := timer |> in
  let '(d, out) :=
    if gone && negb (loss_reported d) then
      (d <| present := false |> <| loss_reported := true |>, out <| lost_event := true |>)
    else (d, out) in
  let '(back, timer) := persisted (acquired d) signal now (reacquire_us (config d)) in
  let d := d <| acquired := timer |> in
  if back && negb (present d) then
    (d <| present := true |> <| loss_reported := false |>, out <| reacquired_event := true |>)
  else (d, out).

(** Junction latch and re-arm. *)
Definition line_junction (d : s3_line_detector_t) (out : s3_line_observation_t)
    (now : Z) (black : bool) : s3_line_detector_t * s3_line_observation_t :=
  let '(held, timer) := persisted (junction d) black now (junction_us (config d)) in
  let d := d <| junction := timer |> in
  let '(d, out) :=
    if held && negb (junction_latched d) then
      (d <| junction_latched := true |>, out <| junction_event := true |>)
    else (d, out) in
  let '(cleared, timer) := persisted (clear d) (negb black) now (rearm_us (config d)) in
  let d := d <| clear := timer |> in
  (if cleared then d <| junction_latched := false |> else d, out).

Definition s3_line_update (d : s3_line_detector_t) (timestamp_us : Z) (inputs_valid : bool)
    (left_dark right_dark : Z) : s3_line_detector_t * s3_line_observation_t :=
  let out := zero_observation in
  if negb (configured d) then (d, out)
  else
    let gap_bad := seen_sample d &&
      ((max_gap_us (config d) <? elapsed timestamp_us (last_us d)) || (timestamp_us =? last_us d)) in
    if negb inputs_valid || (1000 <? left_dark) || (1000 <? right_dark) || gap_bad then
      (s3_line_reset d, out)
    else
      let d := d <| last_us := timestamp_us |> <| seen_sample := true |> in
      let out := out <| obs_valid := true |>
        <| obs_error := i16 (Z.quot (right_dark - left_dark) 10) |> in
      let black := both_black (config d) left_dark right_dark in
      let '(d, out, signal) :=
        if between (config d) then
          (d <| present := true |>,
           out <| touching := (signal_floor (config d) <=? left_dark) ||
                              (signal_floor (config d) <=? right_dark) |>, true)
        else
          let signal := signal_floor (config d) <=? u32 (left_dark + right_dark) in
          let '(d, out) := line_presence d out timestamp_us signal in
          (d, out, signal) in
      let '(d, out) := line_junction d out timestamp_us black in
      (d, out <| obs_present := present d && signal |>
              <| junction_candidate := black || junction_latched d |>).

(** ** Steering: [line_controller.c] *)
Record s3_steering_config_t := { base_mps : float; kp_mps : float; maximum_mps : float }.
Record s3_steering_request_t := { steer_valid : bool; left_mps : float; right_mps : float }.
Definition zero_steering : s3_steering_request_t :=
  {| steer_valid := false; left_mps := fzero; right_mps := fzero |}.

Definition s3_steering_defaults : s3_steering_config_t :=
  {| base_mps := flit 10 100; kp_mps := flit 6 100; maximum_mps := flit 20 100 |}.

Definition finite_number (x : float) : bool := (x ==. x) && (fsub x x ==. fzero).

Definition s3_steering_config_valid (c : s3_steering_config_t) : bool :=
  finite_number (base_mps c) && finite_number (kp_mps c) && finite_number (maximum_mps c) &&
  (base_mps c >. fzero) && (kp_mps c >=. fzero) && (maximum_mps c >. fzero) &&
  (base_mps c <=. maximum_mps c).

Definition clamp_speed (speed maximum : float) : float :=
  if speed <. fzero then fzero else if speed >. maximum then maximum else speed.

Definition s3_steering_compute (c : s3_steering_config_t) (line : s3_line_observation_t)
  : s3_steering_request_t :=
  if negb (s3_steering_config_valid c) || negb (obs_valid line) || negb (obs_present line) ||
     junction_candidate line || (obs_error line <? -100) || (100 <? obs_error line)
  then zero_steering
  else
    let correction := (kp_mps c * (float_of_Z (obs_error line) / flit 100 1))%f32 in
    {| steer_valid := true;
       left_mps := clamp_speed (base_mps c + correction)%f32 (maximum_mps c);
       right_mps := clamp_speed (base_mps c - correction)%f32 (maximum_mps c) |}.

(** ** Specification by history

    An accepted sample is its time and two darkness values; the specification
    state is the list of the samples accepted since the last reset, newest
    first, and the three reported flags. *)
Record line_sample := { time : Z; dark_left : Z; dark_right : Z }.
Record line_spec := {
  history : list line_sample; spec_present : bool; spec_latched : bool; spec_reported : bool
}.
Definition spec_initial : line_spec :=
  {| history := []; spec_present := false; spec_latched := false; spec_reported := false |}.

(** Time of the oldest sample of the current unbroken run satisfying [P]. *)
Fixpoint streak (P : line_sample -> bool) (h : list line_sample) : option Z :=
  match h with
  | [] => None
  | s :: h => if P s then Some (default (time s) (streak P h)) else None
  end.
(** [P] has held for [duration] up to the newest sample. *)
Definition held (P : line_sample -> bool) (h : list line_sample) (duration : Z) : bool :=
  match h, streak P h with
  | s :: _, Some t0 => duration <=? elapsed (time s) t0
  | _, _ => false
  end.

Definition has_signal (c : s3_line_config_t) (s : line_sample) : bool :=
  between c || (signal_floor c <=? dark_left s + dark_right s).
Definition is_junction (c : s3_line_config_t) (s : line_sample) : bool :=
  both_black c (dark_left s) (dark_right s).

Definition spec_accepts (c : s3_line_config_t) (sp : line_spec) (ok : bool) (s : line_sample) : bool :=
  ok && (dark_left s <=? 1000) && (dark_right s <=? 1000) &&
  match history sp with
  | [] => true
  | s' :: _ => (elapsed (time s) (time s') <=? max_gap_us c) && negb (time s =? time s')
  end.

Definition spec_update (c : s3_line_config_t) (sp : line_spec) (ok : bool) (s : line_sample)
  : line_spec * s3_line_observation_t :=
  if negb (spec_accepts c sp ok s) then (spec_initial, zero_observation)
  else
    let h := s :: history sp in
    let lost := negb (between c) && held (fun x => negb (has_signal c x)) h (lost_us c)
                && negb (spec_reported sp) in
    let present := between c || (spec_present sp && negb lost) in
    let reacquired := held (has_signal c) h (reacquire_us c) && negb present in
    let junction := held (is_junction c) h (junction_us c) && negb (spec_latched sp) in
    let latched := (spec_latched sp || junction)
                   && negb (held (fun x => negb (is_junction c x)) h (rearm_us c)) in
    ({| history := h; spec_present := present || reacquired; spec_latched := latched;
        spec_reported := (spec_reported sp || lost) && negb reacquired |},
     {| obs_valid := true; obs_present := (present || reacquired) && has_signal c s;
        junction_candidate := is_junction c s || latched;
        obs_error := Z.quot (dark_right s - dark_left s) 10;
        lost_event := lost; reacquired_event := reacquired; junction_event := junction;
        touching := between c && ((signal_floor c <=? dark_left s) || (signal_floor c <=? dark_right s)) |}).

(** A timer that agrees with the history. *)
Definition timer_is (t : s3_persistence_t) (o : option Z) : Prop :=
  match o with
  | Some t0 => active t = true /\ since_us t = t0
  | None => active t = false
  end.

Record line_refines (c : s3_line_config_t) (d : s3_line_detector_t) (sp : line_spec) : Prop := {
  ref_config : config d = c;
  ref_configured : configured d = true;
  ref_seen : seen_sample d = match history sp with [] => false | _ => true end;
  ref_last : forall s, head (history sp) = Some s -> last_us d = time s;
  ref_lost : between c = false ->
    timer_is (lost d) (streak (fun x => negb (has_signal c x)) (history sp));
  ref_acquired : between c = false -> timer_is (acquired d) (streak (has_signal c) (history sp));
  ref_junction : timer_is (junction d) (streak (is_junction c) (history sp));
  ref_clear : timer_is (clear d) (streak (fun x => negb (is_junction c x)) (history sp));
  ref_present : present d = spec_present sp;
  ref_latched : junction_latched d = spec_latched sp;
  ref_reported : loss_reported d = spec_reported sp
}.

(** One call of [persisted] keeps a timer in step with the history and
    answers the question the history answers. *)
Lemma persisted_held P h s t dur : timer_is t (streak P h) ->
  (persisted t (P s) (time s) dur).1 = held P (s :: h) dur /\
  timer_is (persisted t (P s) (time s) dur).2 (streak P (s :: h)).
Proof.
  unfold held, persisted. cbn [streak]. destruct (P s); cbn; [| done].
  destruct (streak P h) as [t0 |]; cbn.
  - intros [Ht <-]. by rewrite Ht.
  - intros ->. done.
Qed.

(** The two complementary timers cannot both have persisted. *)
Lemma held_exclusive P h d1 d2 :
  held P h d1 && held (fun x => negb (P x)) h d2 = false.
Proof. unfold held. destruct h as [| s h]; [done |]. cbn. destruct (P s); cbn; [by rewrite andb_false_r | done]. Qed.

Lemma refines_reset c d sp : line_refines c d sp -> line_refines c (s3_line_reset d) spec_initial.
Proof. intros []. constructor; cbn; try done. Qed.

Lemma spec_accepts_update c d sp ok s : line_refines c d sp ->
  negb ok || (1000 <? dark_left s) || (1000 <? dark_right s) ||
  (seen_sample d && ((max_gap_us (config d) <? elapsed (time s) (last_us d)) || (time s =? last_us d)))
  = negb (spec_accepts c sp ok s).
Proof.
  intros []. unfold spec_accepts. rewrite ref_seen0, ref_config0.
  rewrite !negb_andb, <- !Z.ltb_antisym.
  destruct (history sp) as [| s' h]; [done |].
  rewrite (ref_last0 s') by done. rewrite negb_andb, negb_involutive, <- Z.ltb_antisym. done.
Qed.

(** Both halves of the update in equational form. *)
Lemma line_presence_eq d out now signal :
  line_presence d out now signal =
    let timer := persisted (lost d) (negb signal) now (lost_us (config d)) in
    let gone := timer.1 && negb (loss_reported d) in
    let still := present d && negb gone in
    let timer' := persisted (acquired d) signal now (reacquire_us (config d)) in
    let back := timer'.1 && negb still in
    (d <| lost := timer.2 |> <| acquired := timer'.2 |> <| present := still || back |>
       <| loss_reported := (loss_reported d || gone) && negb back |>,
     out <| lost_event := lost_event out || gone |>
         <| reacquired_event := reacquired_event out || back |>).
Proof.
  unfold line_presence. destruct (persisted (lost d) _ _ _) as [b1 t1]. cbv zeta. cbn [fst snd].
  destruct d as [? ? ? ? ? ? ? ? p ? r], out. cbn.
  destruct b1, r, p; cbn; destruct (persisted _ signal _ _) as [b2 t2]; cbn;
    destruct b2; cbn; by rewrite ?orb_false_r, ?orb_true_r.
Qed.

Lemma line_junction_eq d out now black :
  line_junction d out now black =
    let timer := persisted (junction d) black now (junction_us (config d)) in
    let event := timer.1 && negb (junction_latched d) in
    let timer' := persisted (clear d) (negb black) now (rearm_us (config d)) in
    (d <| junction := timer.2 |> <| clear := timer'.2 |>
       <| junction_latched := (junction_latched d || event) && negb timer'.1 |>,
     out <| junction_event := junction_event out || event |>).
Proof.
  unfold line_junction. destruct (persisted (junction d) _ _ _) as [b1 t1]. cbv zeta. cbn [fst snd].
  destruct d as [? ? ? ? ? ? ? ? ? l ?], out. cbn.
  destruct b1, l; cbn; destruct (persisted _ (negb black) _ _) as [b2 t2]; cbn;
    destruct b2; cbn; by rewrite ?orb_false_r, ?orb_true_r.
Qed.

(** In edge mode [uint32_t] addition of two darkness values is exact. *)
Lemma signal_sum c s : between c = false -> 0 <= dark_left s <= 1000 -> 0 <= dark_right s <= 1000 ->
  (signal_floor c <=? u32 (dark_left s + dark_right s)) = has_signal c s.
Proof.
  intros Hb Hl Hr. unfold has_signal. rewrite Hb. unfold u32. rewrite wrap_id; [done |].
  unfold in_u. lia.
Qed.

Lemma error_exact s : 0 <= dark_left s <= 1000 -> 0 <= dark_right s <= 1000 ->
  i16 (Z.quot (dark_right s - dark_left s) 10) = Z.quot (dark_right s - dark_left s) 10.
Proof.
  intros. assert (-100 <= Z.quot (dark_right s - dark_left s) 10 <= 100).
  { change (-100) with (Z.quot (-1000) 10). change 100 with (Z.quot 1000 10).
    split; apply Z.quot_le_mono; lia. }
  apply swrap_id; lia.
Qed.

Definition sample_u16 (s : line_sample) : Prop := in_u 16 (dark_left s) /\ in_u 16 (dark_right s).

Lemma accepted_dark c sp ok s : spec_accepts c sp ok s = true -> sample_u16 s ->
  0 <= dark_left s <= 1000 /\ 0 <= dark_right s <= 1000.
Proof. unfold spec_accepts, sample_u16, in_u. intros H ?. unbool. lia. Qed.

(** One update of the detector is one step of the specification. *)
Lemma line_update_refines c d sp ok s : line_refines c d sp -> sample_u16 s ->
  let '(d', out) := s3_line_update d (time s) ok (dark_left s) (dark_right s) in
  let '(sp', out') := spec_update c sp ok s in
  line_refines c d' sp' /\ out = out'.
Proof.
  intros R Hs. pose proof (spec_accepts_update c d sp ok s R) as Ha.
  pose proof (refines_reset c d sp R) as Hreset.
  destruct R. unfold s3_line_update, spec_update. rewrite ref_configured0. cbn [negb].
  rewrite Ha. destruct (spec_accepts c sp ok s) eqn:E; cbn [negb]; [| done].
  destruct (accepted_dark c sp ok s E Hs) as [Hl Hr].
  pose proof (persisted_held _ _ s (junction d) (junction_us c) ref_junction0) as [J1 J2].
  pose proof (persisted_held _ _ s (clear d) (rearm_us c) ref_clear0) as [K1 K2].
  rewrite error_exact by done. cbv zeta.
  change (config (d <| last_us := time s |> <| seen_sample := true |>)) with (config d).
  rewrite ref_config0.
  destruct (between c) eqn:Eb.
  - rewrite line_junction_eq. cbn. rewrite ref_config0. fold (is_junction c s).
    rewrite J1, K1, ref_latched0. split.
    + constructor; cbn; try congruence; try done.
      by rewrite !andb_false_r, orb_false_r, andb_true_r.
    + unfold has_signal. rewrite Eb. cbn. by rewrite !andb_false_r.
  - pose proof (persisted_held _ _ s (lost d) (lost_us c) (ref_lost0 eq_refl)) as [L1 L2].
    pose proof (persisted_held _ _ s (acquired d) (reacquire_us c) (ref_acquired0 eq_refl)) as [A1 A2].
    rewrite (signal_sum c s Eb Hl Hr). rewrite line_presence_eq. cbn -[persisted].
    rewrite line_junction_eq. cbn -[persisted held streak]. rewrite ref_config0. fold (is_junction c s).
    rewrite J1, K1, L1, A1, ref_latched0, ref_present0, ref_reported0. split.
    + constructor; cbn -[persisted held streak]; try done. by intros ? [= <-].
    + done.
Qed.

(** ** Runs *)
Definition line_input : Type := bool * line_sample.
Fixpoint line_run (d : s3_line_detector_t) (inputs : list line_input)
  : s3_line_detector_t * list s3_line_observation_t :=
  match inputs with
  | [] => (d, [])
  | (ok, s) :: inputs =>
      let '(d, out) := s3_line_update d (time s) ok (dark_left s) (dark_right s) in
      let '(d, outs) := line_run d inputs in
      (d, out :: outs)
  end.
Fixpoint spec_run (c : s3_line_config_t) (sp : line_spec) (inputs : list line_input)
  : line_spec * list s3_line_observation_t :=
  match inputs with
  | [] => (sp, [])
  | (ok, s) :: inputs =>
      let '(sp, out) := spec_update c sp ok s in
      let '(sp, outs) := spec_run c sp inputs in
      (sp, out :: outs)
  end.

Lemma line_run_refines c inputs : Forall (fun i => sample_u16 i.2) inputs ->
  forall d sp, line_refines c d sp ->
  line_refines c (line_run d inputs).1 (spec_run c sp inputs).1 /\
  (line_run d inputs).2 = (spec_run c sp inputs).2.
Proof.
  induction 1 as [| [ok s] inputs Hs _ IH]; intros d sp R; cbn; [done |].
  pose proof (line_update_refines c d sp ok s R Hs) as Hu.
  destruct (s3_line_update d _ ok _ _) as [d1 o1]. destruct (spec_update c sp ok s) as [sp1 o1'].
  destruct Hu as [R1 <-]. destruct (IH d1 sp1 R1) as [R2 E2].
  destruct (line_run d1 inputs) as [d2 o2]. destruct (spec_run c sp1 inputs) as [sp2 o2'].
  cbn in *. by subst.
Qed.

Lemma init_refines c : line_config_rejected c = false ->
  (s3_line_init (Some c)).1 = true /\ line_refines c (s3_line_init (Some c)).2 spec_initial.
Proof. intros H. unfold s3_line_init. rewrite H. split; [done |]. constructor; cbn; done. Qed.

(** C37: the detector with its four persistence timers and clock-wrapping
    comparisons is observationally equal, on every input sequence from a
    successful initialisation, to the specification that keeps the full sample
    history and asks whether a condition has held over it. *)
Theorem line_detector_refines_history c inputs :
  line_config_rejected c = false -> Forall (fun i => sample_u16 i.2) inputs ->
  (line_run (s3_line_init (Some c)).2 inputs).2 = (spec_run c spec_initial inputs).2.
Proof. intros Hc Hi. apply line_run_refines; [done |]. apply init_refines. done. Qed.

Definition demo_inputs : list line_input :=
  [(true, {| time := 1000; dark_left := 700; dark_right := 650 |});
   (true, {| time := 25000; dark_left := 800; dark_right := 800 |});
   (true, {| time := 45000; dark_left := 800; dark_right := 800 |})].

Lemma line_detector_refines_history_witness :
  (line_run (s3_line_init (Some s3_line_defaults)).2 demo_inputs).2
  = (spec_run s3_line_defaults spec_initial demo_inputs).2.
Proof.
  apply line_detector_refines_history.
  - reflexivity.
  - repeat (constructor; [unfold sample_u16, in_u; cbn; lia |]). constructor.
Defined.

(** Events are sound.  After any inputs, a step reports a lost line only in
    edge mode, after [lost_us] of uninterrupted missing signal, and not again
    until a reacquisition; it reports reacquisition only after [reacquire_us] of
    uninterrupted signal and never with a loss; it reports a junction only after
    both sensors were black for [junction_us], latches, and the latch is released
    only by [rearm_us] of uninterrupted not-both-black samples or by a reset; the
    reported error is within -100..100 and a rejected sample reports nothing. *)
Theorem line_events_sound c inputs ok s :
  line_config_rejected c = false -> Forall (fun i => sample_u16 i.2) inputs -> sample_u16 s ->
  let d := (line_run (s3_line_init (Some c)).2 inputs).1 in
  let past := history (spec_run c spec_initial inputs).1 in
  let d' := (s3_line_update d (time s) ok (dark_left s) (dark_right s)).1 in
  let out := (s3_line_update d (time s) ok (dark_left s) (dark_right s)).2 in
  -100 <= obs_error out <= 100 /\
  (obs_valid out = false -> out = zero_observation /\ d' = s3_line_reset d) /\
  (lost_event out = true ->
     between c = false /\ held (fun x => negb (has_signal c x)) (s :: past) (lost_us c) = true /\
     loss_reported d = false /\ loss_reported d' = true /\ obs_present out = false /\
     reacquired_event out = false) /\
  (reacquired_event out = true ->
     held (has_signal c) (s :: past) (reacquire_us c) = true /\
     present d = false /\ obs_present out = true /\ loss_reported d' = false) /\
  (junction_event out = true ->
     held (is_junction c) (s :: past) (junction_us c) = true /\
     junction_latched d = false /\ junction_latched d' = true) /\
  (junction_latched d = true -> junction_event out = false /\
     (junction_latched d' = false -> obs_valid out = false \/
        held (fun x => negb (is_junction c x)) (s :: past) (rearm_us c) = true)).
Proof.
  intros Hc Hi Hs. cbv zeta.
  destruct (init_refines c Hc) as [_ R0].
  destruct (line_run_refines c inputs Hi _ _ R0) as [R _].
  set (d := (line_run _ inputs).1) in *. set (sp := (spec_run c spec_initial inputs).1) in *.
  pose proof (line_update_refines c d sp ok s R Hs) as Hu.
  pose proof (spec_accepts_update c d sp ok s R) as Ha.
  assert (Hrej : spec_accepts c sp ok s = false ->
    s3_line_update d (time s) ok (dark_left s) (dark_right s) = (s3_line_reset d, zero_observation)).
  { intros E. unfold s3_line_update. rewrite (ref_configured _ _ _ R). cbn [negb].
    rewrite Ha, E. done. }
  destruct (s3_line_update d _ ok _ _) as [d' out]. cbn [fst snd]. unfold spec_update in Hu.
  destruct (spec_accepts c sp ok s) eqn:E; cbn [negb] in Hu; destruct Hu as [R' ->].
  - destruct R, R'. cbn -[held Z.quot] in *. rewrite ref_reported0, ref_reported1, ref_present0, ref_latched0, ref_latched1.
    pose proof (held_exclusive (has_signal c) (s :: history sp) (reacquire_us c) (lost_us c)).
    pose proof (held_exclusive (is_junction c) (s :: history sp) (junction_us c) (rearm_us c)).
    assert (Hsig : held (has_signal c) (s :: history sp) (reacquire_us c) = true -> has_signal c s = true).
    { cbn. destruct (has_signal c s); done. }
    destruct (accepted_dark c sp ok s E Hs).
    split; [split; [change (-100) with (Z.quot (-1000) 10) | change 100 with (Z.quot 1000 10)];
            apply Z.quot_le_mono; lia |].
    destruct (between c); destruct (held _ _ (lost_us c)), (held _ _ (reacquire_us c)),
      (held (is_junction c) _ _), (held _ _ (rearm_us c)); try done;
      destruct (spec_reported sp), (spec_present sp), (spec_latched sp);
      cbn; rewrite ?Hsig by done; cbn; split_and!; try done; intros; split_and!; try done; auto.
  - injection (Hrej eq_refl) as ->. cbn. split_and!; try done; try lia.
Qed.

Lemma line_events_sound_witness :
  (s3_line_update (line_run (s3_line_init (Some s3_line_defaults)).2 demo_inputs).1
     60000 true 800 800).2 = zero_observation <| obs_valid := true |> <| obs_present := true |>
       <| junction_candidate := true |>.
Proof.
  pose proof (line_events_sound s3_line_defaults demo_inputs true
    {| time := 60000; dark_left := 800; dark_right := 800 |} eq_refl
    ltac:(repeat (constructor; [unfold sample_u16, in_u; cbn; lia |]); constructor)
    ltac:(unfold sample_u16, in_u; cbn; lia)) as H.
  cbv zeta in H. destruct H as (_ & _ & _ & _ & _ & H).
  destruct (H ltac:(vm_compute; reflexivity)). vm_compute. reflexivity.
Defined.

(** ** Steering *)
Lemma finite_number_isfinite x : finite_number x = isfinite x.
Proof. apply sub_self_zero. Qed.

Lemma clamp_speed_bounds x m : isnan x = false -> (m >. fzero) = true ->
  (fzero <=. clamp_speed x m) = true /\ (clamp_speed x m <=. m) = true.
Proof.
  intros Hx Hm. unfold clamp_speed. destruct (x <. fzero) eqn:E.
  - split; [done | by apply flt_fle].
  - apply not_flt in E; [| done | done]. destruct (m <. x) eqn:E2.
    + destruct (flt_number _ _ Hm). split; [by apply flt_fle | by apply fle_refl].
    + apply not_flt in E2; [done | by destruct (flt_number _ _ Hm) | done].
Qed.

Lemma error_ratio_finite e : -100 <= e <= 100 -> isfinite (float_of_Z e / flit 100 1)%f32 = true.
Proof.
  intros. apply (forall_range (fun e => isfinite (float_of_Z e / flit 100 1)%f32) (-100) 201); [| lia].
  vm_compute. reflexivity.
Qed.

Lemma steering_bounds c line : let out := s3_steering_compute c line in
  (steer_valid out = true ->
     s3_steering_config_valid c = true /\ obs_valid line = true /\ obs_present line = true /\
     junction_candidate line = false /\ -100 <= obs_error line <= 100 /\
     (fzero <=. left_mps out) = true /\ (left_mps out <=. maximum_mps c) = true /\
     (fzero <=. right_mps out) = true /\ (right_mps out <=. maximum_mps c) = true) /\
  (steer_valid out = false -> out = zero_steering).
Proof.
  cbv zeta. unfold s3_steering_compute. destruct (_ || _) eqn:E; [done |].
  split; [intros _ | done]. cbn [steer_valid left_mps right_mps].
  apply orb_false_iff in E; destruct E as [E E6]. apply orb_false_iff in E; destruct E as [E E5].
  apply orb_false_iff in E; destruct E as [E E4]. apply orb_false_iff in E; destruct E as [E E3].
  apply orb_false_iff in E; destruct E as [E1 E2]. apply negb_false_iff in E1, E2, E3.
  apply Z.ltb_ge in E5, E6. pose proof E1 as Ev. unfold s3_steering_config_valid in E1.
  rewrite !finite_number_isfinite in E1. rewrite !andb_true_iff in E1.
  destruct E1 as ((((((Fb & Fk) & Fm) & Pb) & Pk) & Pm) & Bm).
  pose proof (error_ratio_finite (obs_error line) ltac:(lia)) as Fe.
  pose proof (SFmul_number 24 128 _ _ Fk Fe) as Nc.
  destruct (clamp_speed_bounds _ _ (SFadd_number 24 128 _ _ Fb Nc) Pm).
  destruct (clamp_speed_bounds _ _ (SFsub_number 24 128 _ _ Fb Nc) Pm).
  split_and!; try done; lia.
Qed.

Lemma steering_centred c line : steer_valid (s3_steering_compute c line) = true -> obs_error line = 0 ->
  left_mps (s3_steering_compute c line) = base_mps c /\ right_mps (s3_steering_compute c line) = base_mps c.
Proof.
  unfold s3_steering_compute. destruct (_ || _) eqn:E; [done |]. intros _ E0. unbool.
  rewrite E0. match goal with H : s3_steering_config_valid c = true |- _ => rename H into Hv end.
  unfold s3_steering_config_valid in Hv. rewrite !finite_number_isfinite in Hv. unbool. clear E0.
  destruct c as [b k m]. cbn in *.
  assert (forall x, x = b -> clamp_speed x m = b) as Hb.
  { intros x ->. unfold clamp_speed.
    assert ((b <. fzero) = false) as -> by (destruct b as [[] | [] | | [] ? ?]; done).
    destruct (m <. b) eqn:E; [| done].
    unfold SFltb, SFleb in *. rewrite (SFcompare_swap b m) in E.
    destruct (SFcompare b m) as [[] |]; done. }
  split; apply Hb; destruct b as [[] | [] | | [] ? ?], k as [[] | [] | | [] ? ?]; done.
Qed.

(** A steering proposal is made only for a valid configuration and a valid,
    present line that is no junction candidate; both wheel speeds are then
    numbers within [0, maximum] - never NaN, never a reverse command - and a
    centred line (error 0) proposes the base speed on both wheels.  In every
    other case the proposal is invalid with zero speeds. *)
Theorem s3_steering_compute_safe c line :
  let out := s3_steering_compute c line in
  (steer_valid out = true ->
     s3_steering_config_valid c = true /\ obs_valid line = true /\ obs_present line = true /\
     junction_candidate line = false /\ -100 <= obs_error line <= 100 /\
     (fzero <=. left_mps out) = true /\ (left_mps out <=. maximum_mps c) = true /\
     (fzero <=. right_mps out) = true /\ (right_mps out <=. maximum_mps c) = true /\
     (obs_error line = 0 -> left_mps out = base_mps c /\ right_mps out = base_mps c)) /\
  (steer_valid out = false -> out = zero_steering).
Proof.
  cbv zeta. pose proof (steering_bounds c line) as [H1 H2]. pose proof (steering_centred c line) as H3.
  split; [| done]. intros Hv. destruct (H1 Hv) as (? & ? & ? & ? & ? & ? & ? & ? & ?).
  split_and!; try done; try lia. auto.
Qed.
