(* ===== verification/BarcodeDecoder.v ===== *)
(** * Code 39 barcode decoder

    Models the first half of [subsystem3/barcode_decoder.c]: the width rules
    of one character, the batch decoder of 29 stripe widths
    ([s3_barcode_decode_runs]) and the streaming decoder of timed black/white
    samples ([s3_barcode_update]).

    A frame is 29 alternating stripes, black first: star, gap, letter, gap,
    star, each character nine stripes of which three are wide.  Microsecond
    durations are [uint32_t]; the sums the C code forms in [uint64_t] are
    exact integers here. *)
From stdpp Require Import sorting.
From S2P Require Import Prelude.

Definition S3_BARCODE_RUNS : Z := 29.
Definition S3_BARCODE_WIDTH_MIN_PERCENT : Z := 65.
Definition S3_BARCODE_WIDTH_MAX_PERCENT : Z := 135.
Definition S3_BARCODE_PAYLOAD_SPACE_MAX_PERCENT : Z := 150.

Record s3_barcode_config_t := {
  max_gap_us : Z; min_narrow_us : Z; max_run_us : Z; max_frame_us : Z; quiet_modules : Z
}.
(** [letter] is a character code, 0 for none. *)
Record s3_barcode_result_t := { letter : Z; reversed : bool; result_timestamp_us : Z }.
#[export] Instance barcode_result_settable : Settable s3_barcode_result_t := fun r =>
  Build_s3_barcode_result_t (letter r) (reversed r) (result_timestamp_us r).
Definition zero_result : s3_barcode_result_t :=
  {| letter := 0; reversed := false; result_timestamp_us := 0 |}.

Inductive s3_barcode_status_t :=
  S3_BARCODE_NONE | S3_BARCODE_DECODED | S3_BARCODE_REJECTED |
  S3_BARCODE_TIMING_ERROR | S3_BARCODE_OVERFLOW.
#[export] Instance barcode_status_eq_dec : EqDecision s3_barcode_status_t.
Proof. solve_decision. Defined.

Definition CHAR_A : Z := 65.
Definition CHAR_Z : Z := 90.

(** Nine bits per letter, first stripe most significant, set for a wide one. *)
Definition g_letters : list Z :=
  [0x109; 0x049; 0x148; 0x019; 0x118; 0x058; 0x00D; 0x10C; 0x04C; 0x01C;
   0x103; 0x043; 0x142; 0x013; 0x112; 0x052; 0x007; 0x106; 0x046; 0x016;
   0x181; 0x0C1; 0x1C0; 0x091; 0x190; 0x0D0].
Definition STAR : Z := 0x094.

Definition s3_barcode_defaults : s3_barcode_config_t :=
  {| max_gap_us := 30000; min_narrow_us := 30000; max_run_us := 1000000;
     max_frame_us := 15000000; quiet_modules := 10 |}.

Definition config_valid (c : s3_barcode_config_t) : bool :=
  (0 <? max_gap_us c) && (0 <? min_narrow_us c) && (min_narrow_us c <=? max_run_us c) &&
  (max_run_us c <? max_frame_us c) && (max_frame_us c <? 0x80000000) &&
  (max_gap_us c <=? max_run_us c) && (10 <=? quiet_modules c) && (quiet_modules c <=? 50) &&
  (max_run_us c * quiet_modules c <? 0x80000000).

(** [s3_barcode_stored_config_t]: 28, 28, 28, 31 and 6 bits. *)
Definition store_config (c : s3_barcode_config_t) : s3_barcode_config_t :=
  {| max_gap_us := wrap 28 (max_gap_us c); min_narrow_us := wrap 28 (min_narrow_us c);
     max_run_us := wrap 28 (max_run_us c); max_frame_us := wrap 31 (max_frame_us c);
     quiet_modules := wrap 6 (quiet_modules c) |}.

(** ** One character *)

(** The inner loop of the insertion sort: the sorted prefix, largest first,
    and the [item] moved left past every larger element. *)
Fixpoint insert_item (item : Z) (prefix : list Z) : list Z :=
  match prefix with
  | [] => [item]
  | x :: rest => if item <? x then x :: insert_item item rest else item :: prefix
  end.
Definition insertion_sort (l : list Z) : list Z :=
  rev (fold_left (fun prefix item => insert_item item prefix) l []).

(** The classification loop, from stripe [i] on. *)
Fixpoint classify_runs (narrow wide split : Z) (payload : bool)
    (runs : list Z) (i extended_spaces pattern : Z) : option Z :=
  match runs with
  | [] => Some pattern
  | r :: runs =>
      let is_wide := split <? r in
      let reference := if is_wide then wide else narrow in
      let scaled := r * 100 in
      let next extended := classify_runs narrow wide split payload runs (i + 1) extended
        (u16 (Z.lor (Z.shiftl pattern 1) (b2z is_wide))) in
      if scaled <? reference * S3_BARCODE_WIDTH_MIN_PERCENT then None
      else if reference * S3_BARCODE_WIDTH_MAX_PERCENT <? scaled then
        if negb payload || is_wide || (i mod 2 =? 0) || negb (extended_spaces =? 0) ||
           (reference * S3_BARCODE_PAYLOAD_SPACE_MAX_PERCENT <? scaled)
        then None
        else next (extended_spaces + 1)
      else next extended_spaces
  end.

(** [character_widths]: the pattern and the narrow mean, when the nine
    stripes are a plausible character. *)
Definition character_widths (runs : list Z) (gap : Z) (c : s3_barcode_config_t)
    (payload : bool) : option (Z * Z) :=
  if existsb (fun r => (r =? 0) || (max_run_us c <? r)) runs then None
  else
    let sorted := insertion_sort runs in
    let nsum := sumZ (take 6 sorted) in
    let wsum := sumZ (take 3 (drop 6 sorted)) in
    let narrow := u32 (nsum / 6) in
    let wide := u32 (wsum / 3) in
    if (narrow <? min_narrow_us c) || (narrow <? 3 * gap) ||
       (wide * 100 <? narrow * 180) || (narrow * 350 <? wide * 100)
    then None
    else
      let split := u32 ((nthZ 0 sorted 5 + nthZ 0 sorted 6) / 2) in
      match classify_runs narrow wide split payload runs 0 0 0 with
      | Some pattern => Some (pattern, narrow)
      | None => None
      end.

Definition character (runs : list Z) (gap : Z) (c : s3_barcode_config_t) : option (Z * Z) :=
  character_widths runs gap c false.

(** ** The batch decoder *)
Definition stripes (runs : list Z) (i : nat) : list Z := take 9 (drop (10 * i) runs).

Fixpoint find_letter (pattern : Z) (table : list Z) (k : Z) : option Z :=
  match table with
  | [] => None
  | x :: table => if pattern =? x then Some k else find_letter pattern table (k + 1)
  end.

Definition space_good (space n1 n2 : Z) : bool :=
  let reference := (n1 + n2) / 2 in
  negb ((space * 2 <? reference) || (reference * 3 <? space * 2)).

(** The body of the orientation loop on the runs in reading order, with the
    quiet zone before and after in that order: the letter found. *)
Definition decode_ordered (ordered : list Z) (before after gap : Z) (c : s3_barcode_config_t)
  : option Z :=
  match character_widths (stripes ordered 0) gap c false,
        character_widths (stripes ordered 1) gap c true,
        character_widths (stripes ordered 2) gap c false with
  | Some (p0, n0), Some (p1, n1), Some (p2, n2) =>
      if negb (p0 =? STAR) || negb (p2 =? STAR) then None
      else if negb (space_good (nthZ 0 ordered 9) n0 n1 && space_good (nthZ 0 ordered 19) n1 n2) then None
      else if (before <? quiet_modules c * n0) || (after <? quiet_modules c * n2) then None
      else find_letter p1 g_letters CHAR_A
  | _, _, _ => None
  end.

Definition s3_barcode_decode_runs (runs : list Z) (leading_us trailing_us observed_gap_us : Z)
    (c : s3_barcode_config_t) : option s3_barcode_result_t :=
  if negb (Z.of_nat (length runs) =? S3_BARCODE_RUNS) || negb (config_valid c) ||
     (max_gap_us c <? observed_gap_us) then None
  else if existsb (fun r => (r =? 0) || (max_run_us c <? r)) runs then None
  else if max_frame_us c <? sumZ runs then None
  else match decode_ordered runs leading_us trailing_us observed_gap_us c with
  | Some l => Some {| letter := l; reversed := false; result_timestamp_us := 0 |}
  | None =>
      match decode_ordered (rev runs) trailing_us leading_us observed_gap_us c with
      | Some l => Some {| letter := l; reversed := true; result_timestamp_us := 0 |}
      | None => None
      end
  end.

(** ** The streaming decoder *)
Record s3_barcode_decoder_t := {
  config : s3_barcode_config_t;
  runs : list Z; (** 29 entries *)
  last_us : Z; run_start_us : Z; frame_start_us : Z; leading_us : Z; observed_gap_us : Z;
  trailing_required_us : Z;
  count : Z; configured : bool; seen : bool; is_black : bool; collecting : bool; pending : bool;
  letter_code : Z; candidate_reversed : bool (** [s3_barcode_stored_result_t candidate] *)
}.
#[export] Instance decoder_settable : Settable s3_barcode_decoder_t := fun r =>
  Build_s3_barcode_decoder_t (config r) (runs r) (last_us r) (run_start_us r) (frame_start_us r)
    (leading_us r) (observed_gap_us r) (trailing_required_us r) (count r) (configured r) (seen r)
    (is_black r) (collecting r) (pending r) (letter_code r) (candidate_reversed r).

Definition zero_barcode_config : s3_barcode_config_t :=
  {| max_gap_us := 0; min_narrow_us := 0; max_run_us := 0; max_frame_us := 0; quiet_modules := 0 |}.
Definition zero_decoder : s3_barcode_decoder_t :=
  {| config := zero_barcode_config; runs := replicate 29 0; last_us := 0; run_start_us := 0;
     frame_start_us := 0; leading_us := 0; observed_gap_us := 0; trailing_required_us := 0;
     count := 0; configured := false; seen := false; is_black := false; collecting := false;
     pending := false; letter_code := 0; candidate_reversed := false |}.

Definition s3_barcode_reset (d : s3_barcode_decoder_t) : s3_barcode_decoder_t :=
  zero_decoder <| config := config d |> <| configured := configured d |>.

Definition s3_barcode_init (c : option s3_barcode_config_t) : bool * s3_barcode_decoder_t :=
  match c with
  | None => (false, zero_decoder)
  | Some c =>
      if negb (config_valid c) then (false, zero_decoder)
      else (true, zero_decoder <| config := store_config c |> <| configured := true |>)
  end.

Definition seed (d : s3_barcode_decoder_t) (now : Z) (black : bool) : s3_barcode_decoder_t :=
  s3_barcode_reset d <| seen := true |> <| is_black := black |>
    <| last_us := now |> <| run_start_us := now |>.

(** A colour change while a frame is being collected. *)
Definition collect_edge (d : s3_barcode_decoder_t) (now : Z) (black : bool) (width : Z)
  : s3_barcode_status_t * s3_barcode_decoder_t :=
  if S3_BARCODE_RUNS <=? count d then (S3_BARCODE_OVERFLOW, seed d now black)
  else
    let d := d <| runs := setZ (runs d) (count d) width |> <| count := wrap 5 (count d + 1) |> in
    let edge d := (S3_BARCODE_NONE, d <| is_black := black |> <| run_start_us := now |>) in
    if count d =? S3_BARCODE_RUNS then
      if black then (S3_BARCODE_REJECTED, seed d now black)
      else match
        s3_barcode_decode_runs (runs d) (leading_us d) 0x7FFFFFFF (observed_gap_us d) (config d),
        character (stripes (runs d) 2) (observed_gap_us d) (config d)
      with
      | Some candidate, Some (_, narrow) =>
          edge (d <| letter_code := wrap 5 (u8 (letter candidate - CHAR_A + 1)) |>
                  <| candidate_reversed := reversed candidate |>
                  <| trailing_required_us := u32 (narrow * quiet_modules (config d)) |>
                  <| pending := true |>)
      | _, _ => (S3_BARCODE_REJECTED, seed d now black)
      end
    else edge d.

Definition s3_barcode_update (d : s3_barcode_decoder_t) (timestamp_us : Z) (valid black : bool)
  : s3_barcode_status_t * s3_barcode_decoder_t * s3_barcode_result_t :=
  let fail status := (status, seed d timestamp_us black, zero_result) in
  if negb (configured d) then (S3_BARCODE_REJECTED, d, zero_result)
  else if negb valid then (S3_BARCODE_REJECTED, s3_barcode_reset d, zero_result)
  else if negb (seen d) then fail S3_BARCODE_NONE
  else
    let gap := elapsed timestamp_us (last_us d) in
    if (gap =? 0) || (max_gap_us (config d) <? gap) then fail S3_BARCODE_TIMING_ERROR
    else
      let d := d <| last_us := timestamp_us |> in
      let width := elapsed timestamp_us (run_start_us d) in
      let d := if collecting d && (observed_gap_us d <? gap) then d <| observed_gap_us := gap |> else d in
      if collecting d && (max_frame_us (config d) <? elapsed timestamp_us (frame_start_us d)) then
        fail S3_BARCODE_REJECTED
      else if pending d then
        if black then fail S3_BARCODE_REJECTED
        else if trailing_required_us d <=? width then
          (S3_BARCODE_DECODED,
           d <| collecting := false |> <| pending := false |> <| count := 0 |>,
           {| letter := if letter_code d =? 0 then 0 else CHAR_A + letter_code d - 1;
              reversed := candidate_reversed d; result_timestamp_us := timestamp_us |})
        else (S3_BARCODE_NONE, d, zero_result)
      else if negb (Bool.eqb black (is_black d)) then
        if collecting d then (collect_edge d timestamp_us black width, zero_result)
        else
          let d := if black then
              d <| leading_us := width |> <| frame_start_us := timestamp_us |>
                <| collecting := true |> <| count := 0 |> <| observed_gap_us := gap |>
            else d in
          (S3_BARCODE_NONE, d <| is_black := black |> <| run_start_us := timestamp_us |>, zero_result)
      else if collecting d && (max_run_us (config d) <? width) then fail S3_BARCODE_REJECTED
      else (S3_BARCODE_NONE, d, zero_result).

(** ** Lemmas: configuration and sorting *)
Lemma store_config_exact c : config_valid c = true -> store_config c = c.
Proof.
  unfold config_valid. intros H. unbool. destruct c as [g n r f q]. unfold store_config. cbn in *.
  f_equal; apply wrap_id; unfold in_u; nia.
Qed.

Lemma insert_item_perm x l : insert_item x l ≡ₚ x :: l.
Proof.
  induction l as [| y l IH]; cbn; [done |]. case_if; [| done].
  rewrite IH. constructor.
Qed.

Lemma insertion_sort_perm l : insertion_sort l ≡ₚ l.
Proof.
  unfold insertion_sort. rewrite <- Permutation_rev.
  assert (forall p, fold_left (fun prefix item => insert_item item prefix) l p ≡ₚ l ++ p) as H.
  { induction l as [| x l IH]; intros p; cbn; [done |].
    rewrite IH, insert_item_perm. symmetry. apply Permutation_middle. }
  rewrite H, app_nil_r. done.
Qed.

Definition desc (l : list Z) : Prop := Sorted Z.ge l.

Lemma insert_item_desc x l : desc l -> desc (insert_item x l).
Proof.
  unfold desc. induction 1 as [| y l Hs IH Hd]; cbn; [repeat constructor |].
  destruct (Z.ltb_spec x y).
  - constructor; [done |]. destruct l as [| z l]; cbn; [constructor; lia |].
    inversion Hd; subst. case_if; constructor; unbool; lia.
  - constructor; [by constructor | constructor; lia].
Qed.

Lemma insertion_sort_desc l : desc (rev (insertion_sort l)).
Proof.
  unfold insertion_sort. rewrite rev_involutive.
  assert (forall p, desc p -> desc (fold_left (fun prefix item => insert_item item prefix) l p)) as H.
  { induction l as [| x l IH]; intros p Hp; cbn; [done |]. apply IH, insert_item_desc, Hp. }
  apply H. constructor.
Qed.

(** Sorting depends only on the multiset of widths. *)
Lemma insertion_sort_permutes l1 l2 : l1 ≡ₚ l2 -> insertion_sort l1 = insertion_sort l2.
Proof.
  intros H. rewrite <- (rev_involutive (insertion_sort l1)), <- (rev_involutive (insertion_sort l2)).
  f_equal. assert (Transitive Z.ge) by (intros x y z; lia).
  assert (AntiSymm eq Z.ge) by (intros x y; lia).
  apply (Sorted_unique Z.ge); [apply insertion_sort_desc.. |].
  rewrite <- !Permutation_rev, !insertion_sort_perm. done.
Qed.

(** ** Lemmas: one character *)
Definition push_bit (p : Z) (b : bool) : Z := u16 (Z.lor (Z.shiftl p 1) (b2z b)).
Definition pattern_of (bits : list bool) : Z := fold_left push_bit bits 0.
Definition width (n w : Z) (wide : bool) : Z := if wide then w else n.
Fixpoint wides (bits : list bool) : nat :=
  match bits with [] => 0 | b :: bits => if b then S (wides bits) else wides bits end.

Lemma wides_length bits : (wides bits <= length bits)%nat.
Proof. induction bits as [| [] bits IH]; cbn; lia. Qed.

Lemma widths_permutation n w bits :
  map (width n w) bits ≡ₚ replicate (length bits - wides bits) n ++ replicate (wides bits) w.
Proof.
  induction bits as [| b bits IH]; [done |]. pose proof (wides_length bits).
  destruct b; cbn [map width wides length].
  - replace (S (length bits) - S (wides bits))%nat with (length bits - wides bits)%nat by lia.
    rewrite IH. apply Permutation_middle.
  - replace (S (length bits) - wides bits)%nat with (S (length bits - wides bits))%nat by lia.
    cbn. by rewrite IH.
Qed.

Lemma sort_two_widths n w bits : n <= w -> length bits = 9%nat -> wides bits = 3%nat ->
  insertion_sort (map (width n w) bits) = [n; n; n; n; n; n; w; w; w].
Proof.
  intros Hnw Hl Hw. rewrite <- (rev_involutive (insertion_sort _)).
  rewrite <- (rev_involutive [n; n; n; n; n; n; w; w; w]). f_equal.
  assert (Transitive Z.ge) by (intros x y z; lia).
  assert (AntiSymm eq Z.ge) by (intros x y; lia).
  apply (Sorted_unique Z.ge); [apply insertion_sort_desc | cbn; repeat constructor; lia |].
  rewrite <- !Permutation_rev, insertion_sort_perm, widths_permutation, Hl, Hw. done.
Qed.

Lemma classify_two_widths n w split payload bits : 0 <= n <= split -> split < w ->
  forall i p, classify_runs n w split payload (map (width n w) bits) i 0 p
              = Some (fold_left push_bit bits p).
Proof.
  intros Hn Hw. induction bits as [| b bits IH]; intros i p; [done |].
  cbn [map classify_runs fold_left].
  unfold S3_BARCODE_WIDTH_MIN_PERCENT, S3_BARCODE_WIDTH_MAX_PERCENT.
  assert ((split <? width n w b) = b) as ->.
  { destruct b; cbn; [apply Z.ltb_lt | apply Z.ltb_ge]; lia. }
  replace (if b then w else n) with (width n w b) by done.
  assert (0 <= width n w b) by (destruct b; cbn; lia).
  destruct (Z.ltb_spec (width n w b * 100) (width n w b * 65)); [lia |].
  destruct (Z.ltb_spec (width n w b * 135) (width n w b * 100)); [lia |].
  apply IH.
Qed.

(** Ideal stripes: narrow width [n], wide width [w]. *)
Record ideal (c : s3_barcode_config_t) (gap n w : Z) : Prop := {
  ideal_narrow : 0 < n /\ min_narrow_us c <= n /\ 3 * gap <= n;
  ideal_wide : n * 180 <= w * 100 <= n * 350;
  ideal_run : w <= max_run_us c;
  ideal_u32 : max_run_us c < 2 ^ 31
}.

Lemma character_ideal c gap n w payload bits : ideal c gap n w ->
  length bits = 9%nat -> wides bits = 3%nat ->
  character_widths (map (width n w) bits) gap c payload = Some (pattern_of bits, n).
Proof.
  intros [] Hl Hw. unfold character_widths.
  assert (existsb (fun r => (r =? 0) || (max_run_us c <? r)) (map (width n w) bits) = false) as ->.
  { apply not_true_iff_false. intros E. apply existsb_exists in E. destruct E as (r & Hr & E).
    apply in_map_iff in Hr. destruct Hr as (b & <- & _). destruct b; cbn in E; lia. }
  rewrite sort_two_widths by (done || lia).
  replace (sumZ (take 6 [n; n; n; n; n; n; w; w; w])) with (n * 6) by (cbn; lia).
  replace (sumZ (take 3 (drop 6 [n; n; n; n; n; n; w; w; w]))) with (w * 3) by (cbn; lia).
  change (nthZ 0 [n; n; n; n; n; n; w; w; w] 5) with n.
  change (nthZ 0 [n; n; n; n; n; n; w; w; w] 6) with w.
  rewrite !Z.div_mul by lia.
  assert (Hsplit : n <= (n + w) / 2 < w).
  { split; [apply Z.div_le_lower_bound | apply Z.div_lt_upper_bound]; lia. }
  unfold u32. rewrite !wrap_id by (unfold in_u; lia).
  assert ((n <? min_narrow_us c) || (n <? 3 * gap) || (w * 100 <? n * 180) || (n * 350 <? w * 100) = false) as ->.
  { repeat (apply orb_false_iff; split); apply Z.ltb_ge; lia. }
  rewrite classify_two_widths by lia. done.
Qed.

(** Without the payload allowance, classification ignores the order. *)
Definition run_ok (narrow wide split r : Z) : bool :=
  let reference := if split <? r then wide else narrow in
  (reference * S3_BARCODE_WIDTH_MIN_PERCENT <=? r * 100) &&
  (r * 100 <=? reference * S3_BARCODE_WIDTH_MAX_PERCENT).

Lemma classify_strict n w split rs : forall i p,
  classify_runs n w split false rs i 0 p =
    if forallb (run_ok n w split) rs then Some (fold_left push_bit (map (fun r => split <? r) rs) p)
    else None.
Proof.
  induction rs as [| r rs IH]; intros i p; [done |]. cbn [classify_runs forallb map fold_left].
  unfold run_ok at 1. set (reference := if split <? r then w else n).
  destruct (Z.ltb_spec (r * 100) (reference * S3_BARCODE_WIDTH_MIN_PERCENT)),
    (Z.leb_spec (reference * S3_BARCODE_WIDTH_MIN_PERCENT) (r * 100)); try lia; cbn; [done |].
  destruct (Z.ltb_spec (reference * S3_BARCODE_WIDTH_MAX_PERCENT) (r * 100)),
    (Z.leb_spec (r * 100) (reference * S3_BARCODE_WIDTH_MAX_PERCENT)); try lia; cbn; [done |].
  apply IH.
Qed.

Lemma existsb_rev {A} (f : A -> bool) l : existsb f (rev l) = existsb f l.
Proof. induction l as [| x l IH]; cbn; [done |]. rewrite existsb_app, IH. cbn. rewrite orb_false_r. apply orb_comm. Qed.
Lemma forallb_rev {A} (f : A -> bool) l : forallb f (rev l) = forallb f l.
Proof. induction l as [| x l IH]; cbn; [done |]. rewrite forallb_app, IH. cbn. rewrite andb_true_r. apply andb_comm. Qed.

(** Reading a sentinel backwards: same mean, mirrored pattern. *)
Lemma character_rev rs gap c p n : character_widths rs gap c false = Some (p, n) ->
  exists bits, p = pattern_of bits /\ length bits = length rs /\
    character_widths (rev rs) gap c false = Some (pattern_of (rev bits), n).
Proof.
  unfold character_widths. rewrite existsb_rev.
  rewrite (insertion_sort_permutes (rev rs) rs) by (symmetry; apply Permutation_rev).
  case_if; [done |]. set (nn := u32 (_ / 6)). set (ww := u32 (_ / 3)). case_if; [done |].
  set (sp := u32 (_ / 2)). rewrite !classify_strict, forallb_rev, map_rev.
  destruct (forallb _ rs); [| done]. intros [= <- <-].
  exists (map (fun r => sp <? r) rs). by rewrite length_map.
Qed.

(** The mirror image of the star is not the star. *)
Lemma star_asymmetric bits : length bits = 9%nat -> pattern_of bits = STAR ->
  pattern_of (rev bits) <> STAR.
Proof.
  intros Hl. do 9 (destruct bits as [| [] bits]; [discriminate Hl |..]).
  all: destruct bits; [| discriminate Hl]; vm_compute; intros ?; discriminate.
Qed.

(** ** Printed frames

    The Code 39 symbology, independently of the decoder's tables: five bars and
    four spaces alternate; two of the five bars are wide, in the order of the
    two-of-five code of the digits 1..9, 0; one space is wide and tells the
    group: the third for A..J, the fourth for K..T, the first for U..Z and the
    signs that follow, the last of which is the star. *)
Definition two_of_five (d : nat) : list bool :=
  let w := true in let n := false in
  nth d [[w; n; n; n; w]; [n; w; n; n; w]; [w; w; n; n; n]; [n; n; w; n; w]; [w; n; w; n; n];
         [n; w; w; n; n]; [n; n; n; w; w]; [w; n; n; w; n]; [n; w; n; w; n]; [n; n; w; w; n]] [].
Definition wide_space (group : nat) : list bool :=
  let w := true in let n := false in
  nth group [[n; n; w; n]; [n; n; n; w]; [w; n; n; n]] [].
Fixpoint weave (bars spaces : list bool) : list bool :=
  match bars, spaces with b :: bars, s :: spaces => b :: s :: weave bars spaces | bars, _ => bars end.
(** Symbol [k]: A is 0, Z is 25, the star is 29. *)
Definition code39 (k : Z) : list bool :=
  weave (two_of_five (Z.to_nat (k mod 10))) (wide_space (Z.to_nat (k / 10))).
Definition bits_of (pattern : Z) : list bool := map (fun i => Z.testbit pattern (8 - i)) (range 9).
Definition frame_of (bits : list bool) (n w g1 g2 : Z) : list Z :=
  map (width n w) (code39 29) ++ g1 :: map (width n w) bits ++ g2 :: map (width n w) (code39 29).
(** The stripes of letter number [k] with narrow width [n], wide width [w]
    and inter-character gaps [g1], [g2]. *)
Definition printed (k n w g1 g2 : Z) : list Z := frame_of (code39 k) n w g1 g2.

Lemma list9 {A} (l : list A) : length l = 9%nat ->
  exists a b c d e f g h i, l = [a; b; c; d; e; f; g; h; i].
Proof.
  intros H. do 9 (destruct l as [| ? l]; [discriminate |]). destruct l; [| discriminate].
  repeat eexists.
Qed.

Lemma stripes_frame bits n w g1 g2 : length bits = 9%nat ->
  let f := frame_of bits n w g1 g2 in
  length f = 29%nat /\ stripes f 0 = map (width n w) (bits_of STAR) /\
  stripes f 1 = map (width n w) bits /\ stripes f 2 = map (width n w) (bits_of STAR) /\
  nthZ 0 f 9 = g1 /\ nthZ 0 f 19 = g2.
Proof. intros H. destruct (list9 bits H) as (? & ? & ? & ? & ? & ? & ? & ? & ? & ->). done. Qed.

Lemma stripes_rev l i : length l = 29%nat -> (i <= 2)%nat ->
  stripes (rev l) i = rev (stripes l (2 - i)).
Proof.
  intros Hl Hi. unfold stripes.
  do 29 (destruct l as [| ? l]; [discriminate |]). destruct l; [| discriminate].
  destruct i as [| [| [| i]]]; [reflexivity.. | lia].
Qed.

(** The decoder's table is the symbology. *)
Lemma letters_table k : 0 <= k < 26 ->
  find_letter (pattern_of (code39 k)) g_letters CHAR_A = Some (CHAR_A + k) /\
  wides (code39 k) = 3%nat /\ length (code39 k) = 9%nat.
Proof.
  intros Hk.
  pose proof (forall_range (fun k =>
    match find_letter (pattern_of (code39 k)) g_letters CHAR_A with
    | Some x => x =? CHAR_A + k | None => false end &&
    Nat.eqb (wides (code39 k)) 3 && Nat.eqb (length (code39 k)) 9) 0 26 ltac:(vm_compute; reflexivity) k ltac:(lia)) as H.
  cbv beta in H. apply andb_true_iff in H as [H H3]. apply andb_true_iff in H as [H1 H2].
  apply Nat.eqb_eq in H2, H3. split; [| done].
  destruct (find_letter _ _ _); [| done]. f_equal. lia.
Qed.

Lemma decode_printed c gap n w k g1 g2 before after : ideal c gap n w -> 0 <= k < 26 ->
  n <= 2 * g1 <= 3 * n -> n <= 2 * g2 <= 3 * n ->
  quiet_modules c * n <= before -> quiet_modules c * n <= after ->
  decode_ordered (printed k n w g1 g2) before after gap c = Some (CHAR_A + k).
Proof.
  intros Hi Hk H1 H2 Hb Ha. destruct (letters_table k Hk) as (Hfind & Hw & Hl).
  destruct (stripes_frame (code39 k) n w g1 g2 Hl) as (_ & S0 & S1 & S2 & G1 & G2).
  unfold decode_ordered, printed. rewrite S0, S1, S2, G1, G2.
  rewrite !character_ideal by done.
  change (pattern_of (bits_of STAR)) with STAR. rewrite Z.eqb_refl. cbn [negb orb].
  assert (forall g, n <= 2 * g <= 3 * n -> space_good g n n = true) as Hs.
  { intros g Hg. unfold space_good. replace (n + n) with (n * 2) by lia. rewrite Z.div_mul by lia.
    apply negb_true_iff, orb_false_iff. split; apply Z.ltb_ge; lia. }
  rewrite !Hs by done. cbn [negb andb].
  destruct (Z.ltb_spec before (quiet_modules c * n)); [lia |].
  destruct (Z.ltb_spec after (quiet_modules c * n)); [lia |]. done.
Qed.

(** A frame readable in one direction is not readable in the other. *)
Lemma decode_exclusive l b a gap c x b' a' : length l = 29%nat ->
  decode_ordered l b a gap c = Some x -> decode_ordered (rev l) b' a' gap c = None.
Proof.
  intros Hl. unfold decode_ordered at 1.
  destruct (character_widths (stripes l 0) gap c false) as [[p0 n0] |]; [| done].
  destruct (character_widths (stripes l 1) gap c true) as [[p1 n1] |]; [| done].
  destruct (character_widths (stripes l 2) gap c false) as [[p2 n2] |] eqn:E; [| done].
  destruct (_ || _) eqn:Es; [done |]. intros _.
  apply orb_false_iff in Es. destruct Es as [_ Es]. apply negb_false_iff, Z.eqb_eq in Es.
  destruct (character_rev _ _ _ _ _ E) as (bits & Hp & Hlen & Hrev).
  unfold decode_ordered. rewrite stripes_rev by (done || lia). cbn [Nat.sub]. rewrite Hrev.
  assert (length bits = 9%nat) as Hb.
  { rewrite Hlen. unfold stripes. rewrite length_take, length_drop, Hl. done. }
  pose proof (star_asymmetric bits Hb ltac:(congruence)) as Hne.
  destruct (character_widths (stripes (rev l) 1) gap c true) as [[] |]; [| done].
  destruct (character_widths (stripes (rev l) 2) gap c false) as [[] |]; [| done].
  destruct (Z.eqb_spec (pattern_of (rev bits)) STAR); [done | done].
Qed.

Lemma sumZ_rev l : sumZ (rev l) = sumZ l.
Proof. apply sumZ_Permutation. symmetry. apply Permutation_rev. Qed.

(** The guards of the batch decoder do not depend on the reading direction. *)
Definition frame_guards (rs : list Z) (gap : Z) (c : s3_barcode_config_t) : bool :=
  (Z.of_nat (length rs) =? S3_BARCODE_RUNS) && config_valid c && (gap <=? max_gap_us c) &&
  negb (existsb (fun r => (r =? 0) || (max_run_us c <? r)) rs) && (sumZ rs <=? max_frame_us c).

Lemma decode_runs_eq rs lead trail gap c :
  s3_barcode_decode_runs rs lead trail gap c =
    if frame_guards rs gap c then
      match decode_ordered rs lead trail gap c with
      | Some l => Some {| letter := l; reversed := false; result_timestamp_us := 0 |}
      | None =>
          match decode_ordered (rev rs) trail lead gap c with
          | Some l => Some {| letter := l; reversed := true; result_timestamp_us := 0 |}
          | None => None
          end
      end
    else None.
Proof.
  unfold s3_barcode_decode_runs, frame_guards. rewrite !Z.ltb_antisym.
  destruct (_ =? S3_BARCODE_RUNS), (config_valid c), (gap <=? max_gap_us c); cbn; try done.
  destruct (existsb _ rs); cbn; [done |]. by destruct (sumZ rs <=? max_frame_us c).
Qed.

Lemma frame_guards_rev rs gap c : frame_guards (rev rs) gap c = frame_guards rs gap c.
Proof. unfold frame_guards. by rewrite length_rev, existsb_rev, sumZ_rev. Qed.

Lemma frame_guards_length rs gap c : frame_guards rs gap c = true -> length rs = 29%nat.
Proof. unfold frame_guards, S3_BARCODE_RUNS. intros H. unbool. lia. Qed.

Lemma find_letter_range p t : forall k l, find_letter p t k = Some l ->
  k <= l < k + Z.of_nat (length t).
Proof.
  induction t as [| x t IH]; intros k l; cbn [find_letter length]; [done |].
  case_if; [intros [= <-]; lia |]. intros H. apply IH in H. lia.
Qed.

Lemma decode_ordered_letter l b a gap c x : decode_ordered l b a gap c = Some x ->
  CHAR_A <= x <= CHAR_Z.
Proof.
  unfold decode_ordered. destruct (character_widths _ _ _ false) as [[] |]; [| done].
  destruct (character_widths _ _ _ true) as [[] |]; [| done].
  destruct (character_widths _ _ _ false) as [[] |]; [| done].
  repeat case_if; try done. intros H. apply find_letter_range in H.
  change (Z.of_nat (length g_letters)) with 26 in H. unfold CHAR_A, CHAR_Z in *. lia.
Qed.

(** C1: round trip.  A frame printed in Code 39 for any of the 26 letters, with any narrow
    width [n] and wide width [w] in the accepted 1.8..3.5 ratio, gaps of half to
    one and a half modules and sufficient quiet zones, is decoded to exactly that
    letter; scanned from the other end it is decoded to the same letter with
    [reversed] set. *)
Theorem barcode_printed_roundtrip c gap n w k g1 g2 lead trail :
  config_valid c = true -> 0 <= gap <= max_gap_us c -> ideal c gap n w -> 0 <= k < 26 ->
  n <= 2 * g1 <= 3 * n -> n <= 2 * g2 <= 3 * n -> g1 <= max_run_us c -> g2 <= max_run_us c ->
  sumZ (printed k n w g1 g2) <= max_frame_us c ->
  quiet_modules c * n <= lead -> quiet_modules c * n <= trail ->
  s3_barcode_decode_runs (printed k n w g1 g2) lead trail gap c =
    Some {| letter := CHAR_A + k; reversed := false; result_timestamp_us := 0 |} /\
  s3_barcode_decode_runs (rev (printed k n w g1 g2)) trail lead gap c =
    Some {| letter := CHAR_A + k; reversed := true; result_timestamp_us := 0 |}.
Proof.
  intros Hc Hgap Hi Hk H1 H2 Hr1 Hr2 Hsum Hl Ht.
  pose proof (decode_printed c gap n w k g1 g2 lead trail Hi Hk H1 H2 Hl Ht) as Hd.
  assert (Hlen : length (printed k n w g1 g2) = 29%nat).
  { apply (stripes_frame (code39 k) n w g1 g2). by apply letters_table. }
  assert (frame_guards (printed k n w g1 g2) gap c = true) as Hg.
  { unfold frame_guards. rewrite Hc, Hlen, !andb_true_iff. split_and!; try done; try (apply Z.leb_le; lia).
    apply negb_true_iff, not_true_iff_false. intros E. apply existsb_exists in E.
    destruct E as (r & Hr & E). destruct Hi. unfold printed, frame_of in Hr.
    assert (r = n \/ r = w \/ r = g1 \/ r = g2) as Hcase.
    { apply in_app_iff in Hr. destruct Hr as [Hr | [<- | Hr]]; [| auto |].
      - apply in_map_iff in Hr. destruct Hr as ([] & <- & _); auto.
      - apply in_app_iff in Hr. destruct Hr as [Hr | [<- | Hr]]; [| auto |];
          apply in_map_iff in Hr; destruct Hr as ([] & <- & _); auto. }
    destruct Hcase as [-> | [-> | [-> | ->]]]; lia. }
  rewrite !decode_runs_eq, frame_guards_rev, Hg, rev_involutive, Hd. split; [done |].
  rewrite (decode_exclusive _ _ _ _ _ _ _ _ Hlen Hd). done.
Qed.

Lemma barcode_printed_roundtrip_witness :
  s3_barcode_decode_runs (printed 16 40000 100000 40000 45000) 400000 400000 10000 s3_barcode_defaults =
    Some {| letter := 81; reversed := false; result_timestamp_us := 0 |}.
Proof.
  apply (barcode_printed_roundtrip s3_barcode_defaults 10000 40000 100000 16 40000 45000 400000 400000).
  - reflexivity.
  - cbn; lia.
  - constructor; cbn; lia.
  - lia.
  - lia.
  - lia.
  - cbn; lia.
  - cbn; lia.
  - vm_compute; discriminate.
  - cbn; lia.
  - cbn; lia.
Defined.

(** Direction.  On every input - printed or not - decoding the stripes in
    the opposite order with the quiet zones exchanged finds the same letter with
    the direction flag inverted, and rejects exactly the same frames: the mirrored
    star is never taken for a star. *)
Theorem barcode_decode_mirror rs lead trail gap c :
  s3_barcode_decode_runs (rev rs) trail lead gap c =
    match s3_barcode_decode_runs rs lead trail gap c with
    | Some r => Some (r <| reversed := negb (reversed r) |>)
    | None => None
    end.
Proof.
  rewrite !decode_runs_eq, frame_guards_rev, rev_involutive.
  destruct (frame_guards rs gap c) eqn:G; [| done]. apply frame_guards_length in G.
  destruct (decode_ordered rs lead trail gap c) eqn:E1.
  - rewrite (decode_exclusive _ _ _ _ _ _ _ _ G E1). done.
  - destruct (decode_ordered (rev rs) trail lead gap c); done.
Qed.

(** ** The streaming decoder *)

(** The narrow mean is bounded by the longest accepted run. *)
Lemma narrow_bound rs gap c pl p n : Forall (fun r => 0 <= r) rs -> 0 <= max_run_us c ->
  character_widths rs gap c pl = Some (p, n) -> 0 <= n <= max_run_us c.
Proof.
  intros Hpos Hmax. unfold character_widths. destruct (existsb _ rs) eqn:E; [done |].
  case_if; [done |]. destruct (classify_runs _ _ _ _ _ _ _ _); [| done]. intros [= _ <-].
  assert (Forall (fun r => 0 <= r <= max_run_us c) (take 6 (insertion_sort rs))) as Hall.
  { apply Forall_take. rewrite (insertion_sort_perm rs). apply Forall_forall. intros r Hr.
    rewrite Forall_forall in Hpos. split; [by apply Hpos |].
    apply list_elem_of_In in Hr. destruct (Z.le_gt_cases r (max_run_us c)); [done | exfalso].
    apply not_true_iff_false in E. apply E, existsb_exists. exists r. split; [done |]. lia. }
  pose proof (sumZ_bounds _ _ _ Hall) as Hs.
  assert (length (take 6 (insertion_sort rs)) <= 6)%nat by (rewrite length_take; lia).
  set (s := sumZ _) in *.
  assert (0 <= s / 6 <= max_run_us c).
  { split; [apply Z.div_pos; lia | apply Z.div_le_upper_bound; nia]. }
  unfold u32, wrap. pose proof (Z.mod_le (s / 6) (2 ^ 32) ltac:(lia) ltac:(lia)).
  pose proof (Z.mod_pos_bound (s / 6) (2 ^ 32) ltac:(lia)). lia.
Qed.

(** Only the last character's narrow mean decides how much trailing quiet is
    enough. *)
Lemma decode_trailing rs lead T T' gap c p n r : length rs = 29%nat ->
  character (stripes rs 2) gap c = Some (p, n) ->
  quiet_modules c * n <= T -> quiet_modules c * n <= T' ->
  s3_barcode_decode_runs rs lead T gap c = Some r -> s3_barcode_decode_runs rs lead T' gap c = Some r.
Proof.
  intros Hl Hch HT%Z.ltb_ge HT'%Z.ltb_ge. unfold character in Hch. rewrite !decode_runs_eq.
  destruct (frame_guards rs gap c); [| done].
  assert (decode_ordered rs lead T gap c = decode_ordered rs lead T' gap c) as ->.
  { unfold decode_ordered. rewrite Hch.
    destruct (character_widths _ _ _ false) as [[] |]; [| done].
    destruct (character_widths _ _ _ true) as [[] |]; [| done]. by rewrite HT, HT'. }
  destruct (decode_ordered rs lead T' gap c); [done |].
  destruct (character_rev _ _ _ _ _ Hch) as (bits & _ & _ & Hrev).
  assert (decode_ordered (rev rs) T lead gap c = decode_ordered (rev rs) T' lead gap c) as ->; [| done].
  unfold decode_ordered. rewrite stripes_rev by (done || lia). cbn [Nat.sub]. rewrite Hrev.
  destruct (character_widths _ _ _ true) as [[] |]; [| done].
  destruct (character_widths _ _ _ false) as [[] |]; [| done]. by rewrite HT, HT'.
Qed.

(** What a pending candidate is: a frame the batch decoder accepts given enough
    trailing quiet, and how much is enough. *)
Definition candidate_ok (d : s3_barcode_decoder_t) : Prop :=
  exists gap p n r,
    s3_barcode_decode_runs (runs d) (leading_us d) 0x7FFFFFFF gap (config d) = Some r /\
    character (stripes (runs d) 2) gap (config d) = Some (p, n) /\
    CHAR_A <= letter r <= CHAR_Z /\ letter_code d = letter r - CHAR_A + 1 /\
    candidate_reversed d = reversed r /\
    trailing_required_us d = quiet_modules (config d) * n /\
    quiet_modules (config d) * n <= 0x7FFFFFFF.

Record live_inv (d : s3_barcode_decoder_t) : Prop := {
  live_runs : length (runs d) = 29%nat /\ Forall (fun r => 0 <= r) (runs d);
  live_config : configured d = true -> config_valid (config d) = true;
  live_count : 0 <= count d <= 29;
  live_collect : collecting d = true -> pending d = false ->
    count d < 29 /\ is_black d = Z.even (count d) /\
    u32 (sumZ (take (Z.to_nat (count d)) (runs d))) = elapsed (run_start_us d) (frame_start_us d);
  live_pending : pending d = true -> collecting d = true /\ candidate_ok d
}.

Lemma live_reset d : live_inv d -> live_inv (s3_barcode_reset d).
Proof. intros []. constructor; cbn; try done. split; [done |]. repeat constructor; lia. Qed.
Lemma live_seed d now b : live_inv d -> live_inv (seed d now b).
Proof. intros []. constructor; cbn; try done. split; [done |]. repeat constructor; lia. Qed.

Lemma sum_take_setZ (l : list Z) i v : 0 <= i < Z.of_nat (length l) ->
  sumZ (take (Z.to_nat (i + 1)) (setZ l i v)) = sumZ (take (Z.to_nat i) l) + v.
Proof. intros Hi. rewrite take_setZ, sumZ_app by done. cbn. lia. Qed.

Lemma u32_sum_edge s now start frame : u32 s = elapsed start frame ->
  u32 (s + elapsed now start) = elapsed now frame.
Proof.
  unfold u32, elapsed, wrap, u32, wrap. intros H.
  rewrite Z.add_mod, H, Z.mod_mod, <- Z.add_mod by lia. f_equal. lia.
Qed.

Lemma decode_letter rs lead trail gap c r : s3_barcode_decode_runs rs lead trail gap c = Some r ->
  CHAR_A <= letter r <= CHAR_Z.
Proof.
  rewrite decode_runs_eq. case_if; [| done].
  destruct (decode_ordered rs _ _ _ _) eqn:E; [intros [= <-] | ].
  - by eapply decode_ordered_letter.
  - destruct (decode_ordered (rev rs) _ _ _ _) eqn:E'; [intros [= <-] | done].
    by eapply decode_ordered_letter.
Qed.

Lemma quiet_bound rs gap c p n : config_valid c = true -> Forall (fun r => 0 <= r) rs ->
  character rs gap c = Some (p, n) -> 0 <= quiet_modules c * n <= 0x7FFFFFFF.
Proof.
  unfold config_valid, character. intros Hc Hrs Hch. unbool.
  pose proof (narrow_bound rs gap c false p n Hrs ltac:(lia) Hch).
  pose proof (Z.mul_le_mono_nonneg_l n (max_run_us c) (quiet_modules c)). lia.
Qed.

Lemma live_collect_edge d now black : live_inv d -> configured d = true ->
  collecting d = true -> pending d = false -> black <> is_black d ->
  live_inv (collect_edge d now black (elapsed now (run_start_us d))).2 /\
  (collect_edge d now black (elapsed now (run_start_us d))).1 <> S3_BARCODE_OVERFLOW.
Proof.
  intros L Hconf Hcol Hpend Hblack. pose proof L as [[Hlen Hpos] Hc Hcount Hcollect _].
  destruct (Hcollect Hcol Hpend) as (Hlt & Hpar & Hsum). specialize (Hc Hconf).
  unfold collect_edge, S3_BARCODE_RUNS. destruct (Z.leb_spec 29 (count d)); [lia |].
  set (w := elapsed now (run_start_us d)).
  assert (0 <= w) by apply elapsed_range.
  assert (wrap 5 (count d + 1) = count d + 1) as Hw by (apply wrap_id; unfold in_u; lia).
  set (d1 := d <| runs := setZ (runs d) (count d) w |> <| count := wrap 5 (count d + 1) |>).
  assert (length (runs d1) = 29%nat) as Hlen1 by (cbn; rewrite length_setZ; done).
  assert (Forall (fun r => 0 <= r) (runs d1)) as Hpos1.
  { cbn. unfold setZ. case_if; [done |]. by apply Forall_insert. }
  assert (live_inv (seed d1 now black)) as Hseed.
  { constructor; cbn; try done. split; [done |]. repeat constructor; lia. }
  cbv zeta. destruct (Z.eqb_spec (count d1) 29) as [E |].
  - destruct black; [done |].
    destruct (s3_barcode_decode_runs _ _ _ _ _) as [r |] eqn:Ed; [| done].
    destruct (character _ _ _) as [[p n] |] eqn:Ech; [| done].
    split; [| done]. pose proof (decode_letter _ _ _ _ _ _ Ed) as Hlet.
    pose proof (quiet_bound _ _ _ _ _ Hc (Forall_take _ _ _ (Forall_drop _ _ _ Hpos1)) Ech) as Hq.
    constructor; cbn -[setZ wrap u8 u32]; rewrite ?Hw; try done; [lia |]. intros _. split; [done |].
    exists (observed_gap_us d1), p, n, r. cbn -[setZ wrap u8 u32 s3_barcode_decode_runs character].
    split_and!; try done; try (by apply Hlet); try (by apply Hq).
    + unfold u8. unfold CHAR_A, CHAR_Z in *. rewrite !wrap_id; unfold in_u; try lia.
      rewrite wrap_id; unfold in_u; lia.
    + unfold u32. cbn in Hq. rewrite wrap_id; unfold in_u; lia.
  - cbn [fst snd]. split; [| done]. subst d1. cbn [count] in *. rewrite Hw in *.
    constructor; cbn -[setZ take]; try done; try lia; try (intros; congruence). intros _ _. split_and!.
    + cbn in *. lia.
    + rewrite Z.even_add. cbn. destruct black, (is_black d); try done; rewrite <- Hpar; done.
    + rewrite sum_take_setZ by lia. apply u32_sum_edge. done.
Qed.

Lemma live_init c : live_inv (s3_barcode_init (Some c)).2.
Proof.
  unfold s3_barcode_init. destruct (config_valid c) eqn:E; cbn [negb snd].
  - rewrite store_config_exact by done.
    constructor; cbn; try done. split; [done |]. repeat constructor; lia.
  - constructor; cbn; try done. split; [done |]. repeat constructor; lia.
Qed.

(** Changing the clock and the observed gap keeps the invariant. *)
Lemma live_tick d now g : live_inv d -> live_inv (d <| last_us := now |> <| observed_gap_us := g |>).
Proof. intros []. constructor; done. Qed.
Lemma live_tick' d now : live_inv d -> live_inv (d <| last_us := now |>).
Proof. intros []. constructor; done. Qed.

(** The outcome of one update of a decoder satisfying the invariant. *)
Definition decoded_sound (d : s3_barcode_decoder_t) (now : Z) (black : bool) (r : s3_barcode_result_t) : Prop :=
  black = false /\ result_timestamp_us r = now /\ CHAR_A <= letter r <= CHAR_Z /\
  exists gap, s3_barcode_decode_runs (runs d) (leading_us d) (elapsed now (run_start_us d)) gap (config d)
    = Some (r <| result_timestamp_us := 0 |>).

Lemma live_decoded d d' now black : live_inv d -> pending d = true ->
  runs d' = runs d -> leading_us d' = leading_us d -> run_start_us d' = run_start_us d -> config d' = config d ->
  letter_code d' = letter_code d -> candidate_reversed d' = candidate_reversed d ->
  trailing_required_us d <= elapsed now (run_start_us d) -> black = false ->
  decoded_sound d now black
    {| letter := if letter_code d' =? 0 then 0 else CHAR_A + letter_code d' - 1;
       reversed := candidate_reversed d'; result_timestamp_us := now |}.
Proof.
  intros [[Hlen _] _ _ _ Hp] Hpend Er El Es Ec -> -> Ht ->.
  destruct (Hp Hpend) as [_ (gap & p & n & r & Hd & Hch & Hlet & -> & -> & Htr & Hq)].
  unfold decoded_sound. unfold CHAR_A, CHAR_Z in *. cbn [letter reversed result_timestamp_us].
  destruct (Z.eqb_spec (letter r - 65 + 1) 0); [lia |].
  replace (65 + (letter r - 65 + 1) - 1) with (letter r) by lia.
  split_and!; try done; [lia.. |]. exists gap. cbn.
  eapply decode_trailing in Hd; [| done | done | lia | rewrite <- Htr; exact Ht].
  rewrite Hd. rewrite decode_runs_eq in Hd. clear -Hd.
  case_if_in Hd; [| done]. repeat (destruct (decode_ordered _ _ _ _ _) in Hd); try done;
    injection Hd as <-; done.
Qed.

Ltac failed := cbn [fst snd]; split_and!; intros; try done; auto using live_seed, live_reset.

Lemma live_step d now valid black : live_inv d ->
  let o := s3_barcode_update d now valid black in
  live_inv o.1.2 /\ o.1.1 <> S3_BARCODE_OVERFLOW /\
  (o.1.1 = S3_BARCODE_DECODED -> pending d = true /\ decoded_sound d now black o.2) /\
  (o.1.1 <> S3_BARCODE_DECODED -> o.2 = zero_result).
Proof.
  intros L. cbv zeta. unfold s3_barcode_update.
  destruct (configured d) eqn:Hconf; cbn [negb]; [| done].
  destruct valid; cbn [negb]; [| by failed].
  destruct (seen d); cbn [negb]; [| by failed].
  destruct (_ || _); [by failed |].
  set (gap := elapsed now (last_us d)).
  set (d1 := d <| last_us := now |>).
  set (d2 := if collecting d1 && (observed_gap_us d1 <? gap) then d1 <| observed_gap_us := gap |> else d1).
  assert (L2 : live_inv d2) by (subst d2; case_if; [by apply live_tick | by apply live_tick']).
  assert (E : runs d2 = runs d /\ leading_us d2 = leading_us d /\ run_start_us d2 = run_start_us d /\
    config d2 = config d /\ letter_code d2 = letter_code d /\ candidate_reversed d2 = candidate_reversed d /\
    trailing_required_us d2 = trailing_required_us d /\ pending d2 = pending d /\
    collecting d2 = collecting d /\ configured d2 = configured d /\ is_black d2 = is_black d /\ run_start_us d1 = run_start_us d)
    by (subst d2; case_if; done).
  destruct E as (Er & El & Es & Ec & Elc & Ecr & Et & Ep & Eco & Ecf & Eb & Es1).
  clearbody d2. rewrite Es1. clear d1 Es1.
  destruct (collecting d2 && _); [by failed |].
  destruct (pending d2) eqn:Hp.
  { destruct black; [by failed |].
    destruct (Z.leb_spec (trailing_required_us d2) (elapsed now (run_start_us d))); [| by failed].
    cbn [fst snd]. split_and!; try done.
    - pose proof L2 as []. constructor; cbn; try done.
    - intros _. split; [congruence |]. eapply live_decoded; try done; congruence || lia. }
  destruct (Bool.eqb black (is_black d2)) eqn:Eq; cbn [negb].
  - destruct (collecting d2 && _); [by failed | by failed].
  - apply eqb_false_iff in Eq. destruct (collecting d2) eqn:Hc.
    + cbn [fst snd]. rewrite <- Es.
      pose proof (live_collect_edge d2 now black L2 ltac:(congruence) Hc Hp Eq) as [L3 Hov].
      split_and!; try done. intros Hdec. exfalso. revert Hdec.
      unfold collect_edge. repeat case_if; try done.
      destruct (s3_barcode_decode_runs _ _ _ _ _); [| done].
      destruct (character _ _ _) as [[] |]; done.
    + cbn [fst snd]. split_and!; try done. pose proof L2 as [].
      destruct black; constructor; cbn; try done; try lia; try congruence.
      * intros _ _. split_and!; [lia | done | rewrite elapsed_self; reflexivity].
Qed.

(** ** Runs of the streaming decoder *)
Record barcode_sample := { at_us : Z; at_valid : bool; at_black : bool }.
Definition barcode_run (d : s3_barcode_decoder_t) (inputs : list barcode_sample) : s3_barcode_decoder_t :=
  fold_left (fun d i => (s3_barcode_update d (at_us i) (at_valid i) (at_black i)).1.2) inputs d.

Lemma barcode_run_inv inputs : forall d, live_inv d -> live_inv (barcode_run d inputs).
Proof.
  induction inputs as [| i inputs IH]; intros d L; cbn; [done |].
  apply IH. apply (live_step d (at_us i) (at_valid i) (at_black i) L).
Qed.

(** C2: streaming refines batch.  After any sequence of samples, an update that
    reports DECODED does so on a white sample, stamps the result with its time,
    and the letter and direction it reports are the ones [s3_barcode_decode_runs]
    finds in the 29 recorded stripe widths with the measured leading quiet and the
    trailing quiet actually seen so far; the letter is A..Z.  Every other status
    returns the empty result.  While stripes are collected their number stays
    below 29 - so no stripe is written out of bounds and OVERFLOW is never
    reported - even-numbered stripes are the black ones, and the recorded widths
    add up to the time since the frame began. *)
Theorem barcode_stream_refines_batch c inputs now valid black :
  let d := barcode_run (s3_barcode_init (Some c)).2 inputs in
  let o := s3_barcode_update d now valid black in
  (o.1.1 = S3_BARCODE_DECODED ->
     black = false /\ result_timestamp_us o.2 = now /\ CHAR_A <= letter o.2 <= CHAR_Z /\
     exists gap, s3_barcode_decode_runs (runs d) (leading_us d) (elapsed now (run_start_us d)) gap (config d)
       = Some (o.2 <| result_timestamp_us := 0 |>)) /\
  (o.1.1 <> S3_BARCODE_DECODED -> o.2 = zero_result) /\
  o.1.1 <> S3_BARCODE_OVERFLOW /\
  length (runs d) = 29%nat /\
  (collecting d = true -> pending d = false ->
     0 <= count d < 29 /\ is_black d = Z.even (count d) /\
     u32 (sumZ (take (Z.to_nat (count d)) (runs d))) = elapsed (run_start_us d) (frame_start_us d)).
Proof.
  cbv zeta. set (d := barcode_run _ inputs).
  assert (L : live_inv d) by apply barcode_run_inv, live_init.
  destruct (live_step d now valid black L) as (_ & Hov & Hdec & Hzero).
  split_and!; try done; [intros H; by apply Hdec | apply L |].
  intros Hc Hp. destruct L as [_ _ Hcount Hcol _].
  destruct (Hcol Hc Hp) as (? & ? & ?). split_and!; try done; lia.
Qed.

(** A printed Q read sample by sample (every 10 ms) is decoded. *)
Definition play (start : Z) (widths : list Z) (black : bool) : list barcode_sample :=
  (fold_left (fun '(t, black, acc) w =>
     (t + w, negb black,
      acc ++ map (fun i => {| at_us := t + 10000 * i; at_valid := true; at_black := black |})
               (range (Z.to_nat (w / 10000))))) widths (start, black, [])).2.

Fixpoint barcode_letters (d : s3_barcode_decoder_t) (inputs : list barcode_sample) : list (Z * bool) :=
  match inputs with
  | [] => []
  | i :: inputs =>
      match s3_barcode_update d (at_us i) (at_valid i) (at_black i) with
      | (S3_BARCODE_DECODED, d, r) => (letter r, reversed r) :: barcode_letters d inputs
      | (_, d, _) => barcode_letters d inputs
      end
  end.

Example barcode_stream_reads_Q :
  barcode_letters (s3_barcode_init (Some s3_barcode_defaults)).2
    (play 0 (600000 :: printed 16 50000 100000 50000 50000 ++ [600000]) false) = [(81, false)] /\
  barcode_letters (s3_barcode_init (Some s3_barcode_defaults)).2
    (play 0 (600000 :: rev (printed 16 50000 100000 50000 50000) ++ [600000]) false) = [(81, true)].
Proof. vm_compute. split; reflexivity. Qed.
