(* ===== verification/BarcodeRecord.v ===== *)
(** * Record-then-decide barcode reader

    Models the second half of [subsystem3/barcode_decoder.c]: the reader that
    stores the darkness of a whole barcode as 16-bit samples (10-bit darkness,
    6-bit time step of 0.5 ms), then extracts 29 stripe widths from its bumps
    and dips, corrects a width bias from the two sentinel stars, and validates
    the widths with [s3_barcode_decode_runs].

    [sample] and [pre] are arrays of 2048 and 320 entries.  The local array
    [ext] of extremum indices is a list and its fill level [n] the length of
    that list; likewise the output array [runs].  Loops are folds over index
    ranges, or [Fixpoint]s whose fuel is the number of samples or ring entries
    left, which the loop counter consumes. *)
From S2P Require Import Prelude BarcodeDecoder.

Definition S3_REC_MAX : Z := 2048.
Definition S3_REC_RISE : Z := 50.
Definition S3_REC_PRE_US : Z := 1500000.
Definition S3_REC_PRE_MAX : Z := 320.
Definition S3_REC_WHITE_BAND : Z := 75.
Definition S3_REC_PROMINENCE : Z := 100.
Definition S3_REC_MIN_PROMINENCE : Z := 15.
Definition S3_REC_FAINT_BAND : Z := 5.
Definition S3_REC_FAINT_MAX_NOISE : Z := 15.
Definition S3_REC_FAINT_DIP_US : Z := 30000.
Definition S3_REC_STEP_US : Z := 500.
Definition S3_REC_STEP_MAX : Z := 63.
Definition S3_REC_EXT_MAX : Z := 63.

Inductive s3_rec_state_t := S3_REC_WAITING | S3_REC_RECORDING | S3_REC_QUIET.
#[export] Instance rec_state_eq_dec : EqDecision s3_rec_state_t.
Proof. solve_decision. Defined.

Record s3_barcode_record_t := {
  sample : list Z; pre : list Z; pre_head : Z; pre_count : Z; pre_us : Z; prefix_us : Z;
  rec_last_us : Z; white_us : Z; rec_leading_us : Z; frame_us : Z; required_us : Z;
  prev : Z; residual_us : Z; noise_q4 : Z; prominence : Z;
  rec_letter_code : Z; rec_reversed : bool;
  rec_count : Z; state : s3_rec_state_t; rec_seen : bool; paper : Z; best : Z;
  falling : bool; blocked : bool; turn_us : Z
}.
#[export] Instance record_settable : Settable s3_barcode_record_t := fun r =>
  Build_s3_barcode_record_t (sample r) (pre r) (pre_head r) (pre_count r) (pre_us r) (prefix_us r)
    (rec_last_us r) (white_us r) (rec_leading_us r) (frame_us r) (required_us r) (prev r)
    (residual_us r) (noise_q4 r) (prominence r) (rec_letter_code r) (rec_reversed r) (rec_count r)
    (state r) (rec_seen r) (paper r) (best r) (falling r) (blocked r) (turn_us r).

Definition s3_barcode_record_reset : s3_barcode_record_t :=
  {| sample := replicate 2048 0; pre := replicate 320 0; pre_head := 0; pre_count := 0;
     pre_us := 0; prefix_us := 0; rec_last_us := 0; white_us := 0; rec_leading_us := 0;
     frame_us := 0; required_us := 0; prev := 0; residual_us := 0; noise_q4 := 0; prominence := 0;
     rec_letter_code := 0; rec_reversed := false; rec_count := 0; state := S3_REC_WAITING;
     rec_seen := false; paper := 0; best := 0; falling := false; blocked := false; turn_us := 0 |}.

Definition s3_barcode_record_active (r : s3_barcode_record_t) : bool :=
  negb (bool_decide (state r = S3_REC_WAITING)).

(** Darkness and time of a packed reading. *)
Definition entry_dark (e : Z) : Z := Z.land e 0x3FF.
Definition entry_us (e : Z) : Z := u32 (Z.shiftr e 10 * S3_REC_STEP_US).
Definition REC_DARK (r : s3_barcode_record_t) (i : Z) : Z := entry_dark (nthZ 0 (sample r) i).
Definition REC_STEP_US (r : s3_barcode_record_t) (i : Z) : Z := entry_us (nthZ 0 (sample r) i).
Definition pack_entry (dark step : Z) : Z := u16 (Z.lor dark (Z.shiftl step 10)).

(** [rec_step]: the 6-bit step and the record with the remainder carried. *)
Definition rec_step (r : s3_barcode_record_t) (gap_us : Z) : option (Z * s3_barcode_record_t) :=
  let total := u32 (gap_us + residual_us r) in
  let units := total / S3_REC_STEP_US in
  if (gap_us =? 0) || (S3_REC_STEP_MAX <? units) then None
  else Some (u16 units, r <| residual_us := u16 (total - units * S3_REC_STEP_US) |>).

Definition rec_faint_eligible (r : s3_barcode_record_t) : bool :=
  (paper r <=? S3_REC_FAINT_BAND) && negb (prominence r =? 0) &&
  (prominence r <=? S3_REC_FAINT_MAX_NOISE).
Definition rec_monitor_band (r : s3_barcode_record_t) : Z :=
  if rec_faint_eligible r then S3_REC_FAINT_BAND else prominence r.
Definition rec_white (r : s3_barcode_record_t) (dark : Z) : bool :=
  let monitor := rec_monitor_band r in
  let band := if negb (monitor =? 0) && (monitor <? S3_REC_WHITE_BAND) then monitor
              else S3_REC_WHITE_BAND in
  dark <=? paper r + band.
Definition sat_add (a b : Z) : Z :=
  if u32 (0x7FFFFFFF - b) <? a then 0x7FFFFFFF else u32 (a + b).

(** ** The waiting ring *)
Definition rec_pre_drop (r : s3_barcode_record_t) : s3_barcode_record_t :=
  let was_white := entry_dark (nthZ 0 (pre r) (pre_head r)) <=? S3_REC_FAINT_BAND in
  let r := r <| pre_head := u16 ((pre_head r + 1) mod S3_REC_PRE_MAX) |>
             <| pre_count := u16 (pre_count r - 1) |> in
  let head := nthZ 0 (pre r) (pre_head r) in
  let elapsed := entry_us head in
  r <| rec_leading_us := if was_white && (entry_dark head <=? S3_REC_FAINT_BAND)
                         then sat_add (rec_leading_us r) elapsed else 0 |>
    <| pre_us := u32 (pre_us r - elapsed) |>
    <| pre := setZ (pre r) (pre_head r) (Z.land head 0x3FF) |>.

Fixpoint rec_pre_trim (fuel : nat) (r : s3_barcode_record_t) : s3_barcode_record_t :=
  match fuel with
  | O => r
  | S fuel =>
      if (1 <? pre_count r) && (S3_REC_PRE_US <? pre_us r) then rec_pre_trim fuel (rec_pre_drop r)
      else r
  end.

Definition rec_pre_push (r : s3_barcode_record_t) (dark step : Z) : s3_barcode_record_t :=
  let r := if pre_count r =? S3_REC_PRE_MAX then rec_pre_drop r else r in
  let step := if pre_count r =? 0 then 0 else step in
  let at_ := (pre_head r + pre_count r) mod S3_REC_PRE_MAX in
  let r := r <| pre := setZ (pre r) at_ (pack_entry dark step) |>
             <| pre_count := u16 (pre_count r + 1) |>
             <| pre_us := u32 (pre_us r + u32 (step * S3_REC_STEP_US)) |> in
  rec_pre_trim (Z.to_nat S3_REC_PRE_MAX) r.

Definition ring (r : s3_barcode_record_t) (i : Z) : Z :=
  nthZ 0 (pre r) ((pre_head r + i) mod S3_REC_PRE_MAX).

(** The blank-paper loop of [rec_paper_prominence] over ring positions. *)
Fixpoint paper_noise (r : s3_barcode_record_t) (floor : Z) (positions : list Z)
    (previous differences elapsed sum : Z) : Z * Z * Z :=
  match positions with
  | [] => (differences, elapsed, sum)
  | i :: positions =>
      if previous <=? floor then
        let entry := ring r i in
        let dark := entry_dark entry in
        if floor <? dark then (differences, elapsed, sum)
        else paper_noise r floor positions dark (differences + 1)
          (u32 (elapsed + entry_us entry))
          (u32 (sum + if previous <? dark then dark - previous else previous - dark))
      else (differences, elapsed, sum)
  end.

Definition rec_paper_prominence (r : s3_barcode_record_t) (c : s3_barcode_config_t) : Z :=
  let prominence := (noise_q4 r + 3) / 4 in
  let prominence :=
    if (paper r <=? S3_REC_FAINT_BAND) && (1 <? pre_count r) then
      let floor := paper r + S3_REC_FAINT_BAND in
      let '(differences, elapsed, sum) :=
        paper_noise r floor (map (fun i => i + 1) (range (Z.to_nat (pre_count r - 1))))
          (entry_dark (nthZ 0 (pre r) (pre_head r))) 0 0 0 in
      if negb (differences =? 0) && (u32 (quiet_modules c * min_narrow_us c) <=? elapsed) then
        u32 (4 * sum + differences - 1) / differences
      else prominence
    else prominence in
  let prominence := if prominence <? S3_REC_MIN_PROMINENCE then S3_REC_MIN_PROMINENCE else prominence in
  if S3_REC_PROMINENCE <? prominence then S3_REC_PROMINENCE else prominence.

(** ** Extremum search *)
Definition rec_frac (d lo hi : Z) : Z :=
  let num := d - hi in
  let den := lo - hi in
  let f := if den =? 0 then 0 else Z.quot (num * 1024) den in
  if f <? 0 then 0 else if 1024 <? f then 1024 else f.

(** [while (cursor < count && REC_DARK(cursor) <= floor) cursor++] *)
Fixpoint skip_low (fuel : nat) (r : s3_barcode_record_t) (floor cursor : Z) : Z :=
  match fuel with
  | O => cursor
  | S fuel =>
      if (cursor <? rec_count r) && (REC_DARK r cursor <=? floor) then skip_low fuel r floor (cursor + 1)
      else cursor
  end.

(** One bar: cursor, peak, dip and low time where the loop stops. *)
Fixpoint scan_bar (fuel : nat) (r : s3_barcode_record_t) (floor cursor peak dip low_us : Z)
  : Z * Z * Z * Z :=
  match fuel with
  | O => (cursor, peak, dip, low_us)
  | S fuel =>
      if cursor <? rec_count r then
        if floor <? REC_DARK r cursor then
          let peak := if REC_DARK r peak <? REC_DARK r cursor then cursor else peak in
          scan_bar fuel r floor (cursor + 1) peak dip 0
        else
          let dip := if (low_us =? 0) || (REC_DARK r cursor <? REC_DARK r dip) then cursor else dip in
          let low_us := u32 (low_us + REC_STEP_US r cursor) in
          if S3_REC_FAINT_DIP_US <? low_us then (cursor, peak, dip, low_us)
          else scan_bar fuel r floor (cursor + 1) peak dip low_us
      else (cursor, peak, dip, low_us)
  end.

(** The rest of the valley: cursor and deepest dip. *)
Fixpoint scan_valley (fuel : nat) (r : s3_barcode_record_t) (floor cursor dip : Z) : Z * Z :=
  match fuel with
  | O => (cursor, dip)
  | S fuel =>
      if (cursor <? rec_count r) && (REC_DARK r cursor <=? floor) then
        scan_valley fuel r floor (cursor + 1)
          (if REC_DARK r cursor <? REC_DARK r dip then cursor else dip)
      else (cursor, dip)
  end.

Fixpoint faint_regions (fuel : nat) (r : s3_barcode_record_t) (floor cursor : Z) (ext : list Z)
  : option (list Z) :=
  match fuel with
  | O => Some ext
  | S fuel =>
      let all := Z.to_nat (rec_count r) in
      if cursor <? rec_count r then
        let cursor := skip_low all r floor cursor in
        if cursor =? rec_count r then Some ext
        else if S3_BARCODE_RUNS + 2 <? Z.of_nat (length ext) + 2 then None
        else
          let '(cursor', peak, dip, low_us) := scan_bar all r floor (cursor + 1) cursor cursor 0 in
          if low_us <=? S3_REC_FAINT_DIP_US then None
          else
            let '(cursor'', dip) := scan_valley all r floor cursor' dip in
            faint_regions fuel r floor cursor'' (ext ++ [u16 peak; u16 dip])
      else Some ext
  end.

Definition rec_faint_extrema (r : s3_barcode_record_t) : option (list Z) :=
  match faint_regions (Z.to_nat (rec_count r)) r (paper r + S3_REC_FAINT_BAND) 0 [0] with
  | Some ext => if Z.of_nat (length ext) =? S3_BARCODE_RUNS + 2 then Some ext else None
  | None => None
  end.

(** The primary search: extrema separated by the learned prominence. *)
Record search_t := { ext : list Z; best_at : Z; rising : bool; max_step : Z }.

Definition search_step (r : s3_barcode_record_t) (s : search_t) (i : Z) : option search_t :=
  let d := REC_DARK r i in
  let b := REC_DARK r (best_at s) in
  let max_step := if max_step s <? REC_STEP_US r i then REC_STEP_US r i else max_step s in
  if (if rising s then b <? d else d <? b) then
    Some {| ext := ext s; best_at := i; rising := rising s; max_step := max_step |}
  else if (if prominence r =? 0 then S3_REC_PROMINENCE else prominence r)
          <=? (if rising s then b - d else d - b) then
    if S3_REC_EXT_MAX - 1 <=? Z.of_nat (length (ext s)) then None
    else Some {| ext := ext s ++ [u16 (best_at s)]; best_at := i; rising := negb (rising s);
                 max_step := max_step |}
  else Some {| ext := ext s; best_at := best_at s; rising := rising s; max_step := max_step |}.

Fixpoint search_all (r : s3_barcode_record_t) (s : search_t) (indices : list Z) : option search_t :=
  match indices with
  | [] => Some s
  | i :: indices =>
      match search_step r s i with
      | Some s => search_all r s indices
      | None => None
      end
  end.

(** Indices 1 .. count-1. *)
Definition later_samples (r : s3_barcode_record_t) : list Z :=
  map (fun i => i + 1) (range (Z.to_nat (rec_count r - 1))).

(** Height times time between neighbouring extrema [a] and [b]. *)
Definition pair_size (r : s3_barcode_record_t) (a b : Z) : Z :=
  let span := sumZ (map (fun m => REC_STEP_US r (a + 1 + m)) (range (Z.to_nat (b - a)))) in
  let da := REC_DARK r a in
  let db := REC_DARK r b in
  u64 ((if db <? da then da - db else db - da) * span).

Definition smallest_pair (r : s3_barcode_record_t) (ext : list Z) : Z :=
  (fold_left (fun '(small, cut) j =>
      let size := pair_size r (nthZ 0 ext j) (nthZ 0 ext (j + 1)) in
      if size <? small then (size, j) else (small, cut))
    (map (fun j => j + 1) (range (length ext - 3))) (2 ^ 64 - 1, 1)).2.

(** Drop the smallest interior pair while there are more than 31 extrema. *)
Fixpoint trim_extrema (fuel : nat) (r : s3_barcode_record_t) (ext : list Z) : list Z :=
  match fuel with
  | O => ext
  | S fuel =>
      if S3_BARCODE_RUNS + 2 <? Z.of_nat (length ext) then
        let cut := Z.to_nat (smallest_pair r ext) in
        trim_extrema fuel r (take cut ext ++ drop (cut + 2) ext)
      else ext
  end.

(** ** Edges *)

(** The crossing search between extrema: the edge, the running time and
    whether a crossing was found, after the pair of readings [j], [j+1]. *)
Definition crossing_step (r : s3_barcode_record_t) (up core : bool) (mid : Z)
    (st : Z * Z * bool) (j : Z) : Z * Z * bool :=
  let '(edge, tj, crossed) := st in
  let a := REC_DARK r j in
  let b := REC_DARK r (j + 1) in
  let sj := REC_STEP_US r (j + 1) in
  let crossing :=
    if up then (if core then (a <=? mid) && (mid <? b) else (a <? mid) && (mid <=? b))
    else (mid <? a) && (b <=? mid) in
  let '(edge, crossed) :=
    if crossing then
      let x := u32 (tj + u32 (sj * (if up then mid - a else a - mid)) / (if up then b - a else a - b)) in
      (if negb crossed || (if core then up else negb up) then x else edge, true)
    else (edge, crossed) in
  (edge, u32 (tj + sj), crossed).

(** [x_runs] are the widths written so far; [edges] the edges found. *)
Record extract_t := {
  x_runs : list Z; first_edge : Z; edge_prev : Z; edges : Z; k : Z; t : Z; t_lo : Z; at_lo : Z
}.
#[export] Instance extract_settable : Settable extract_t := fun r =>
  Build_extract_t (x_runs r) (first_edge r) (edge_prev r) (edges r) (k r) (t r) (t_lo r) (at_lo r).

Definition extract_step (r : s3_barcode_record_t) (faint : bool) (ext : list Z)
    (x : extract_t) (i : Z) : extract_t :=
  let step := REC_STEP_US r i in
  let x := x <| t := u32 (t x + step) |> in
  if k x + 1 <? Z.of_nat (length ext) then
    let lo := REC_DARK r (nthZ 0 ext (k x)) in
    let hi := REC_DARK r (nthZ 0 ext (k x + 1)) in
    let x := x <| at_lo := u32 (at_lo x +
      u32 (step * (rec_frac (REC_DARK r (i - 1)) lo hi + rec_frac (REC_DARK r i) lo hi)) / 2048) |> in
    if i =? nthZ 0 ext (k x + 1) then
      let guess := u32 (t_lo x + at_lo x) in
      let mid := (lo + hi) / 2 in
      let up := lo <? hi in
      let core := faint && (u32 ((if up then hi else lo) - paper r) <=? S3_REC_RISE) in
      let from := nthZ 0 ext (k x) in
      let '(edge, _, _) := fold_left (crossing_step r up core mid)
        (map (fun j => from + j) (range (Z.to_nat (i - from)))) (guess, t_lo x, false) in
      let x := if edges x =? 0 then x <| first_edge := edge |>
               else x <| x_runs := x_runs x ++ [u32 (edge - edge_prev x)] |> in
      x <| edge_prev := edge |> <| edges := edges x + 1 |> <| k := k x + 1 |>
        <| t_lo := t x |> <| at_lo := 0 |>
    else x
  else x.

(** What [rec_extract_runs] returns: the widths, the first and last edge, the
    total time and the longest step; [None] for its early [return 0U]. *)
Record extraction := { e_runs : list Z; e_first : Z; e_last : Z; e_end : Z; e_step : Z }.

Definition rec_extrema (r : s3_barcode_record_t) (faint : bool) : option (list Z * Z) :=
  if faint then
    match rec_faint_extrema r with
    | None => None
    | Some ext =>
        Some (ext, fold_left (fun m i => if m <? REC_STEP_US r i then REC_STEP_US r i else m)
                     (later_samples r) 0)
    end
  else
    match search_all r {| ext := [0]; best_at := 0; rising := true; max_step := 0 |} (later_samples r) with
    | None => None
    | Some s =>
        let ext := if rising s then ext s else ext s ++ [u16 (best_at s)] in
        if Z.of_nat (length ext) <? 3 then None
        else Some (trim_extrema (Z.to_nat S3_REC_EXT_MAX) r ext, max_step s)
    end.

Definition rec_extract_runs (r : s3_barcode_record_t) (faint : bool) : option extraction :=
  if (rec_count r <? 3) || (S3_REC_MAX <? rec_count r) then None
  else match rec_extrema r faint with
  | None => None
  | Some (ext, max_step) =>
      let x := fold_left (extract_step r faint ext) (later_samples r)
        {| x_runs := []; first_edge := 0; edge_prev := 0; edges := 0; k := 0; t := 0; t_lo := 0; at_lo := 0 |} in
      Some {| e_runs := x_runs x; e_first := first_edge x; e_last := edge_prev x; e_end := t x;
              e_step := max_step |}
  end.

Definition extracted (o : option extraction) : Z :=
  match o with Some x => Z.of_nat (length (e_runs x)) | None => 0 end.

Definition s3_barcode_record_runs (r : s3_barcode_record_t) : option extraction :=
  let primary := rec_extract_runs r false in
  if negb (extracted primary =? S3_BARCODE_RUNS) && rec_faint_eligible r then rec_extract_runs r true
  else primary.

(** ** Width corrections from the two stars *)
Definition rec_narrow (runs9 : list Z) : Z := u32 (sumZ (take 6 (insertion_sort runs9)) / 6).

Definition star_bit (star i : Z) : bool := Z.testbit star (8 - i).
(** Sum over the stripes that are narrow, respectively wide, in [star]. *)
Definition star_sum (star : Z) (wide : bool) (runs9 : list Z) : Z :=
  sumZ (map (fun i => if Bool.eqb (star_bit star i) wide then nthZ 0 runs9 i else 0) (range 9)).

(** [runs[i] + (i odd ? -bias : bias)], rejected outside 1..max_run. *)
Definition biased (bias i run : Z) : Z := run + (if i mod 2 =? 0 then bias else - bias).
Definition adjust (c : s3_barcode_config_t) (bias : Z) (rs : list Z) : option (list Z) :=
  let adjusted := imap (fun i run => biased bias (Z.of_nat i) run) rs in
  if existsb (fun v => (v <=? 0) || (max_run_us c <? v)) adjusted then None else Some adjusted.

(** The worst fractional error (in millionths) of one star under [bias]. *)
Definition star_score (star : Z) (rs : list Z) (gap : Z) (c : s3_barcode_config_t) (bias : Z) : option Z :=
  match adjust c bias rs with
  | None => None
  | Some adjusted =>
      match character adjusted gap c with
      | None => None
      | Some (pattern, narrow) =>
          if negb (pattern =? star) then None
          else
            let wide := u32 (star_sum star true adjusted) / 3 in
            Some (fold_left (fun score i =>
                let reference := if star_bit star i then wide else narrow in
                let a := nthZ 0 adjusted i in
                let delta := if reference <? a then a - reference else reference - a in
                let error := u32 (delta * 1000000 / reference) in
                if score <? error then error else score) (range 9) 0)
      end
  end.

Definition ticks : list Z := map (fun i => i - 64) (range 129).

(** Keep the best of the candidate biases: lowest score, then smallest
    magnitude.  The state is [best_score] ([UINT32_MAX] for none) and the bias. *)
Definition better (st : Z * Z) (score : option Z) (bias : Z) : Z * Z :=
  let '(best_score, best_bias) := st in
  match score with
  | Some score =>
      if (score <? best_score) || ((score =? best_score) && (Z.abs bias <? Z.abs best_bias))
      then (score, bias) else st
  | None => st
  end.

Definition both_scores (star : Z) (rs : list Z) (gap : Z) (c : s3_barcode_config_t) (bias : Z) : option Z :=
  match star_score star (take 9 rs) gap c bias, star_score star (take 9 (drop 20 rs)) gap c bias with
  | Some s0, Some s1 => Some (Z.max s0 s1)
  | _, _ => None
  end.

(** One orientation of the shared fit: the best bias, if any is acceptable. *)
Definition shared_fit (star : Z) (rs : list Z) (gap : Z) (c : s3_barcode_config_t) : option Z :=
  let m0 := star_sum star false (take 9 rs) / 6 in
  let minimum := if m0 <? UINT32_MAX then u32 m0 else UINT32_MAX in
  let m1 := star_sum star false (take 9 (drop 20 rs)) / 6 in
  let minimum := if m1 <? minimum then u32 m1 else minimum in
  if (minimum <? min_narrow_us c) || (max_run_us c <? minimum) then None
  else
    let bound := i32 (u32 (minimum * 3) / 4) in
    let '(best_score, best_bias) := fold_left (fun st tick =>
        let bias := i32 (Z.quot (bound * tick) 64) in
        better st (both_scores star rs gap c bias) bias) ticks (UINT32_MAX, 0) in
    if best_score =? UINT32_MAX then None else Some best_bias.

Definition MIRRORED_STAR : Z := 0x052.

(** [rec_correct_shared_runs]: whether any orientation matched, and the
    corrected widths with the bias on success. *)
Definition rec_correct_shared_runs (rs : list Z) (gap : Z) (c : s3_barcode_config_t)
  : bool * option (list Z * Z) :=
  if negb (config_valid c) || (max_gap_us c <? gap) then (false, None)
  else
    match shared_fit STAR rs gap c, shared_fit MIRRORED_STAR rs gap c with
    | None, None => (false, None)
    | Some _, Some _ => (true, None)
    | Some chosen, None | None, Some chosen =>
        (true, match adjust c chosen rs with Some rs' => Some (rs', chosen) | None => None end)
    end.

Definition s3_barcode_record_correct_runs (rs : list Z) (gap : Z) (c : s3_barcode_config_t)
  : option (list Z * Z) := (rec_correct_shared_runs rs gap c).2.

(** [rec_fit_star]: bias and uncorrected narrow mean of one star. *)
Definition rec_fit_star (rs : list Z) (star gap : Z) (c : s3_barcode_config_t) : option (Z * Z) :=
  let narrow := u32 (star_sum star false rs / 6) in
  if (narrow <? min_narrow_us c) || (max_run_us c <? narrow) then None
  else
    let bound := i32 (u32 (narrow * 3) / 4) in
    let '(best_score, bias) := fold_left (fun st tick =>
        let trial := i32 (Z.quot (bound * tick) 128) * 2 in
        better st (star_score star rs gap c trial) trial) ticks (UINT32_MAX, 0) in
    if best_score =? UINT32_MAX then None else Some (bias, narrow).

Definition varying_fit (star : Z) (rs : list Z) (gap : Z) (c : s3_barcode_config_t) : option (Z * Z) :=
  match rec_fit_star (take 9 rs) star gap c, rec_fit_star (take 9 (drop 20 rs)) star gap c with
  | Some (b0, n0), Some (b1, n1) =>
      if ((b0 <? 0) && (0 <? b1)) || ((0 <? b0) && (b1 <? 0)) then None
      else
        let minimum := if n0 <? n1 then n0 else n1 in
        if minimum / 2 <? u32 (Z.abs (b1 - b0)) then None else Some (b0, b1)
  | _, _ => None
  end.

(** The interpolation loop from stripe [i] on: elapsed time before it and the
    shift of its first edge. *)
Fixpoint vary (c : s3_barcode_config_t) (start finish c0 c1 : Z) (rs : list Z) (i t previous_shift : Z)
  : option (list Z) :=
  match rs with
  | [] => Some []
  | run :: rs =>
      let t := t + run in
      let bias :=
        if t <=? start then c0
        else if finish <=? t then c1
        else i32 (Z.quot (c0 * (finish - t) + c1 * (t - start)) (finish - start)) in
      let shift := if i mod 2 =? 0 then Z.quot bias 2 else Z.quot (- bias) 2 in
      let width := run + shift - previous_shift in
      if (width <=? 0) || (max_run_us c <? width) then None
      else match vary c start finish c0 c1 rs (i + 1) t shift with
           | Some rest => Some (width :: rest)
           | None => None
           end
  end.

Definition s3_barcode_record_correct_varying_runs (rs : list Z) (gap : Z) (c : s3_barcode_config_t)
  : option (list Z * (Z * Z)) :=
  if negb (config_valid c) || (max_gap_us c <? gap) then None
  else if existsb (fun r => (r =? 0) || (max_run_us c <? r)) rs then None
  else if max_frame_us c <? sumZ rs then None
  else
    let chosen := match varying_fit STAR rs gap c, varying_fit MIRRORED_STAR rs gap c with
      | Some b, None | None, Some b => Some b
      | _, _ => None
      end in
    match chosen with
    | None => None
    | Some (c0, c1) =>
        match vary c (sumZ (take 9 rs)) (sumZ (take 20 rs)) c0 c1 rs 0 0 (Z.quot (- c0) 2) with
        | Some rs' => Some (rs', (c0, c1))
        | None => None
        end
    end.

(** ** Candidate *)
Definition half_up (bias : Z) : Z := if 0 <? bias then Z.quot (bias + 1) 2 else Z.quot bias 2.

(** The widths finally decoded, the biases applied and the leading quiet left. *)
Definition rec_interpret (c : s3_barcode_config_t) (runs : list Z) (leading gap : Z)
  : option (list Z * Z * s3_barcode_result_t) :=
  match s3_barcode_decode_runs runs leading 0x7FFFFFFF gap c with
  | Some candidate => Some (runs, 0, candidate)
  | None =>
      let '(matched, shared) := rec_correct_shared_runs runs gap c in
      let corrected :=
        match shared with
        | Some (runs, bias) => Some (runs, bias, bias)
        | None =>
            if matched then None
            else match s3_barcode_record_correct_varying_runs runs gap c with
                 | Some (runs, (b0, b1)) => Some (runs, b0, b1)
                 | None => None
                 end
        end in
      match corrected with
      | None => None
      | Some (runs, b0, b1) =>
          if leading <? half_up b0 then None
          else
            let leading := u32 (leading - half_up b0) in
            match s3_barcode_decode_runs runs leading 0x7FFFFFFF gap c with
            | Some candidate => Some (runs, b1, candidate)
            | None => None
            end
      end
  end.

Definition rec_candidate (r : s3_barcode_record_t) (c : s3_barcode_config_t) (faint : bool)
  : option (s3_barcode_result_t * Z) :=
  match rec_extract_runs r faint with
  | None => None
  | Some x =>
      if negb (extracted (Some x) =? S3_BARCODE_RUNS) then None
      else
        let leading := sat_add (rec_leading_us r) (e_first x) in
        match rec_interpret c (e_runs x) leading (e_step x) with
        | None => None
        | Some (runs, bias1, candidate) =>
            let need := e_last x + half_up bias1 +
              quiet_modules c * rec_narrow (take 9 (drop 20 runs)) in
            Some (candidate, if 0x7FFFFFFF <? need then 0x7FFFFFFF else u32 need)
        end
  end.

(** ** The live reader *)
Definition rec_finish (r : s3_barcode_record_t) (status : s3_barcode_status_t)
  : s3_barcode_status_t * s3_barcode_record_t :=
  (status,
   s3_barcode_record_reset <| rec_seen := rec_seen r |> <| paper := paper r |>
     <| rec_last_us := rec_last_us r |> <| noise_q4 := noise_q4 r |> <| prev := paper r |>
     <| blocked := negb (bool_decide (status = S3_BARCODE_DECODED)) |>).

(** First reading, and the restart after a stall. *)
Definition rec_start (r : s3_barcode_record_t) (timestamp_us dark : Z) : s3_barcode_record_t :=
  rec_pre_push (r <| rec_seen := true |> <| paper := wrap 10 dark |> <| rec_last_us := timestamp_us |>
                  <| prev := dark |>) dark 0.

(** The start of a recording copies the ring into the sample array. *)
Definition begin_recording (r : s3_barcode_record_t) (c : s3_barcode_config_t) : s3_barcode_record_t :=
  let r := r <| state := S3_REC_RECORDING |> in
  let r := r <| prominence := u16 (rec_paper_prominence r c) |> <| prefix_us := pre_us r |> in
  let r := if negb (rec_faint_eligible r) then
      r <| rec_leading_us := if prefix_us r <=? white_us r then white_us r - prefix_us r else 0 |>
    else r in
  let r := r <| white_us := 0 |> <| frame_us := prefix_us r |> <| required_us := 0 |>
             <| rec_count := wrap 12 (pre_count r) |>
             <| sample := fold_left (fun s i => setZ s i (ring r i))
                            (range (Z.to_nat (pre_count r))) (sample r) |> in
  let r := if rec_count r =? 0 then r <| sample := setZ (sample r) 0 (prev r) |> <| rec_count := 1 |>
           else r in
  r <| best := wrap 10 (prev r) |> <| falling := false |> <| turn_us := 0 |>.

(** The waiting state: [inl r] if the reader keeps waiting, [inr r] with the
    recording begun. *)
Definition rec_waiting (r : s3_barcode_record_t) (c : s3_barcode_config_t) (dark step : Z)
  : s3_barcode_record_t + s3_barcode_record_t :=
  let r := if dark <? paper r then r <| paper := wrap 10 dark |>
           else if dark <? paper r + S3_REC_RISE then
             r <| paper := wrap 10 (u16 (paper r + Z.shiftr (dark - paper r) 5)) |>
           else r in
  if blocked r && (negb (rec_white r dark) || (paper r + S3_REC_RISE <=? dark)) then
    inl (r <| white_us := 0 |>)
  else
    let r := r <| blocked := false |> in
    if dark <? paper r + S3_REC_RISE then
      let r := if (dark <=? paper r + S3_REC_WHITE_BAND) && (prev r <=? paper r + S3_REC_WHITE_BAND) then
          let delta := if prev r <? dark then dark - prev r else prev r - dark in
          r <| noise_q4 := u16 (noise_q4 r - noise_q4 r / 16 + delta) |>
        else r in
      let r := r <| white_us := sat_add (white_us r) (u32 (step * S3_REC_STEP_US)) |>
                 <| prev := dark |> in
      inl (rec_pre_push r dark step)
    else inr (begin_recording r c).

(** The decision once the code is followed by [max_run_us] of white:
    the record in the QUIET state, or [None] if it must be rejected. *)
Definition rec_decide (r : s3_barcode_record_t) (c : s3_barcode_config_t) : option s3_barcode_record_t :=
  let accept candidate required :=
    Some (r <| required_us := required |>
            <| rec_letter_code := wrap 5 (u8 (letter candidate - CHAR_A + 1)) |>
            <| rec_reversed := reversed candidate |> <| state := S3_REC_QUIET |>) in
  let primary := rec_candidate r c false in
  let recovery := if rec_faint_eligible r then rec_candidate r c true else None in
  match primary, recovery with
  | None, None => None
  | Some (candidate, required), None => accept candidate required
  | None, Some (recovered, recovery_required) => accept recovered recovery_required
  | Some (candidate, required), Some (recovered, recovery_required) =>
      if negb (letter candidate =? letter recovered) ||
         negb (Bool.eqb (reversed candidate) (reversed recovered)) then None
      else accept recovered (if required <? recovery_required then recovery_required else required)
  end.

(** Storing a reading and following the turns, [inl] for a rejection. *)
Definition rec_store (r : s3_barcode_record_t) (c : s3_barcode_config_t) (dark step : Z)
  : s3_barcode_status_t + s3_barcode_record_t :=
  if S3_REC_MAX <=? rec_count r then inl S3_BARCODE_OVERFLOW
  else
    let r := r <| sample := setZ (sample r) (rec_count r) (pack_entry dark step) |>
               <| rec_count := wrap 12 (rec_count r + 1) |> in
    let us := u32 (step * S3_REC_STEP_US) in
    let r := r <| frame_us := sat_add (frame_us r) us |> in
    if max_frame_us c <? u32 (frame_us r - prefix_us r) then inl S3_BARCODE_REJECTED
    else
      let r := r <| turn_us := sat_add (turn_us r) us |> in
      let r :=
        if (if falling r then dark <? best r else best r <? dark) then r <| best := wrap 10 dark |>
        else if rec_monitor_band r <=? u32 (if falling r then dark - best r else best r - dark) then
          r <| best := wrap 10 dark |> <| falling := negb (falling r) |> <| turn_us := 0 |>
        else r in
      if (max_run_us c <? turn_us r) && negb (rec_white r dark) then inl S3_BARCODE_REJECTED
      else inr r.

(** What follows a stored reading: quiet tracking, decision and release. *)
Definition rec_judge (r : s3_barcode_record_t) (c : s3_barcode_config_t) (timestamp_us dark step : Z)
  : s3_barcode_status_t * s3_barcode_record_t * s3_barcode_result_t :=
  if negb (rec_white r dark) then
    if bool_decide (state r = S3_REC_QUIET) then (rec_finish r S3_BARCODE_REJECTED, zero_result)
    else (S3_BARCODE_NONE, r <| white_us := 0 |>, zero_result)
  else
    let r := r <| white_us := sat_add (white_us r) (u32 (step * S3_REC_STEP_US)) |> in
    if white_us r <? max_run_us c then (S3_BARCODE_NONE, r, zero_result)
    else
      match (if bool_decide (state r = S3_REC_RECORDING) then rec_decide r c else Some r) with
      | None => (rec_finish r S3_BARCODE_REJECTED, zero_result)
      | Some r =>
          if frame_us r <? required_us r then (S3_BARCODE_NONE, r, zero_result)
          else (rec_finish r S3_BARCODE_DECODED,
                {| letter := CHAR_A + rec_letter_code r - 1; reversed := rec_reversed r;
                   result_timestamp_us := timestamp_us |})
      end.

(** [result] is what the caller's result object holds before the call; an
    invalid configuration leaves it untouched. *)
Definition s3_barcode_record_update (r : s3_barcode_record_t) (c : s3_barcode_config_t)
    (timestamp_us : Z) (valid : bool) (darkness : Z) (result : s3_barcode_result_t)
  : s3_barcode_status_t * s3_barcode_record_t * s3_barcode_result_t :=
  let dark := if 1000 <? darkness then 1000 else darkness in
  if negb (config_valid c) then (S3_BARCODE_NONE, r, result)
  else if negb valid then (S3_BARCODE_NONE, s3_barcode_record_reset, zero_result)
  else if negb (rec_seen r) then (S3_BARCODE_NONE, rec_start r timestamp_us dark, zero_result)
  else
    let stalled r :=
      (if s3_barcode_record_active r then S3_BARCODE_TIMING_ERROR else S3_BARCODE_NONE,
       rec_start s3_barcode_record_reset timestamp_us dark, zero_result) in
    match rec_step r (elapsed timestamp_us (rec_last_us r)) with
    | None => stalled r
    | Some (step, r) =>
        if u32 (max_gap_us c + S3_REC_STEP_US) <? u32 (step * S3_REC_STEP_US) then stalled r
        else
          let r := r <| rec_last_us := timestamp_us |> in
          let recording r :=
            match rec_store r c dark step with
            | inl status => (rec_finish r status, zero_result)
            | inr r => rec_judge r c timestamp_us dark step
            end in
          if bool_decide (state r = S3_REC_WAITING) then
            match rec_waiting r c dark step with
            | inl r => (S3_BARCODE_NONE, r, zero_result)
            | inr r => recording r
            end
          else recording r
    end.

(** ** Bounds of the extraction *)
Lemma search_ext_bound r js : forall s s', (length (ext s) <= 62)%nat ->
  search_all r s js = Some s' -> (length (ext s') <= 62)%nat.
Proof.
  induction js as [| i js IH]; intros s s' Hs; cbn; [by intros [= <-] |].
  destruct (search_step r s i) as [s1 |] eqn:E; [| done]. apply IH.
  unfold search_step in E. repeat case_if_in E; try done; injection E as <-; cbn; try done.
  all: unbool; unfold S3_REC_EXT_MAX in *; rewrite length_app; cbn; lia.
Qed.

Lemma smallest_pair_bound r ext : (3 < length ext)%nat ->
  1 <= smallest_pair r ext <= Z.of_nat (length ext) - 3.
Proof.
  intros Hlen. unfold smallest_pair.
  assert (forall js st, 1 <= st.2 <= Z.of_nat (length ext) - 3 ->
    Forall (fun j => 1 <= j <= Z.of_nat (length ext) - 3) js ->
    1 <= (fold_left (fun '(small, cut) j =>
      let size := pair_size r (nthZ 0 ext j) (nthZ 0 ext (j + 1)) in
      if size <? small then (size, j) else (small, cut)) js st).2 <= Z.of_nat (length ext) - 3) as H.
  { induction js as [| j js IH]; intros [small cut] Hst Hjs; cbn; [done |].
    inversion Hjs; subst. apply IH; [| done]. by case_if. }
  apply H; [cbn; lia |]. apply List.Forall_forall. intros j Hj.
  apply in_map_iff in Hj. destruct Hj as (i & <- & Hi). apply elem_range in Hi. lia.
Qed.

Lemma trim_bound fuel r : forall ext, (length ext <= 31 + 2 * fuel)%nat ->
  (length (trim_extrema fuel r ext) <= 31)%nat.
Proof.
  induction fuel as [| fuel IH]; intros ext Hlen; cbn; [lia |].
  destruct (Z.ltb_spec (S3_BARCODE_RUNS + 2) (Z.of_nat (length ext))) as [H | H];
    unfold S3_BARCODE_RUNS in H; [| lia].
  pose proof (smallest_pair_bound r ext ltac:(lia)) as Hp.
  apply IH. rewrite length_app, length_take, length_drop. lia.
Qed.

Lemma extrema_bound r faint ext m : rec_extrema r faint = Some (ext, m) -> (length ext <= 31)%nat.
Proof.
  unfold rec_extrema. destruct faint.
  - unfold rec_faint_extrema. destruct (faint_regions _ _ _ _ _) as [e |]; [| done].
    destruct (Z.eqb_spec (Z.of_nat (length e)) (S3_BARCODE_RUNS + 2)); [| done].
    intros [= <- _]. unfold S3_BARCODE_RUNS in *. lia.
  - destruct (search_all r _ _) as [s |] eqn:E; [| done]. apply search_ext_bound in E; [| cbn; lia].
    case_if; [done |].
    remember (trim_extrema _ _ _) as e eqn:He. intros [= <- _]. rewrite He. apply trim_bound.
    change (Z.to_nat S3_REC_EXT_MAX) with 63%nat.
    destruct (rising s); [lia | rewrite length_app; cbn; lia].
Qed.

(** Edges, widths and the extremum cursor advance together. *)
Definition extract_inv (n : nat) (x : extract_t) : Prop :=
  0 <= edges x /\ k x = edges x /\ (k x + 1 <= Z.of_nat n \/ k x = 0) /\
  Z.of_nat (length (x_runs x)) = Z.max 0 (edges x - 1).

Lemma extract_step_inv r faint ext x i : extract_inv (length ext) x ->
  extract_inv (length ext) (extract_step r faint ext x i).
Proof.
  intros (H1 & H2 & H3 & H4). unfold extract_step. cbn [k t x_runs edges].
  destruct (Z.ltb_spec (k (x <| t := u32 (t x + REC_STEP_US r i) |>) + 1) (Z.of_nat (length ext))) as [Hk | ?];
    [| done].
  cbn in Hk. cbv zeta. case_if; [| done].
  destruct (fold_left _ _ _) as [[edge tj] crossed]. cbn [edges x_runs].
  destruct (Z.eqb_spec (edges x) 0) as [E | E]; cbn in *.
  - rewrite E in *. cbn. unfold extract_inv. cbn. lia.
  - destruct (Z.eqb_spec (edges x) 0); [lia |]. unfold extract_inv. cbn. rewrite length_app. cbn. lia.
Qed.

Lemma extract_bound r faint x : rec_extract_runs r faint = Some x -> (length (e_runs x) <= 29)%nat.
Proof.
  unfold rec_extract_runs. case_if; [done |].
  destruct (rec_extrema r faint) as [[ext m] |] eqn:E; [| done]. intros [= <-]. cbn [e_runs].
  apply extrema_bound in E.
  assert (forall js x0, extract_inv (length ext) x0 ->
    extract_inv (length ext) (fold_left (extract_step r faint ext) js x0)) as H.
  { induction js as [| i js IH]; intros x0 H0; cbn; [done |]. apply IH, extract_step_inv, H0. }
  destruct (H (later_samples r) {| x_runs := []; first_edge := 0; edge_prev := 0; edges := 0; k := 0; t := 0;
    t_lo := 0; at_lo := 0 |} ltac:(unfold extract_inv; cbn; lia)) as (H1 & H2 & H3 & H4). lia.
Qed.

Lemma rec_frac_range d lo hi : 0 <= rec_frac d lo hi <= 1024.
Proof. unfold rec_frac. repeat case_if; unbool; lia. Qed.

(** ** Soundness of a candidate *)
(** How 29 extracted widths are read as a letter: as they are; or, if the batch
    decoder refuses them, with the bias common to both stars taken out, and, if the
    stars agree on none, with the bias varying along the code.  A correction moves
    the leading edge by half the bias.  [rs] are the widths decoded and [b] the bias
    at the last bar. *)
Inductive read_as (c : s3_barcode_config_t) (runs : list Z) (leading gap : Z)
  : list Z -> Z -> s3_barcode_result_t -> Prop :=
| ra_plain cand : s3_barcode_decode_runs runs leading 0x7FFFFFFF gap c = Some cand -> read_as c runs leading gap runs 0 cand
| ra_shared m rs b cand : s3_barcode_decode_runs runs leading 0x7FFFFFFF gap c = None ->
    rec_correct_shared_runs runs gap c = (m, Some (rs, b)) -> half_up b <= leading ->
    s3_barcode_decode_runs rs (u32 (leading - half_up b)) 0x7FFFFFFF gap c = Some cand ->
    read_as c runs leading gap rs b cand
| ra_varying rs b0 b1 cand : s3_barcode_decode_runs runs leading 0x7FFFFFFF gap c = None ->
    rec_correct_shared_runs runs gap c = (false, None) ->
    s3_barcode_record_correct_varying_runs runs gap c = Some (rs, (b0, b1)) -> half_up b0 <= leading ->
    s3_barcode_decode_runs rs (u32 (leading - half_up b0)) 0x7FFFFFFF gap c = Some cand ->
    read_as c runs leading gap rs b1 cand.
Lemma interpret_sound c runs leading gap rs b cand :
  rec_interpret c runs leading gap = Some (rs, b, cand) -> read_as c runs leading gap rs b cand.
Proof.
  unfold rec_interpret. destruct (s3_barcode_decode_runs runs leading _ gap c) eqn:E.
  { intros [= <- <- <-]. by constructor. }
  destruct (rec_correct_shared_runs runs gap c) as [m [[rs1 b1] |]] eqn:Es.
  - destruct (Z.ltb_spec leading (half_up b1)); [done |].
    destruct (s3_barcode_decode_runs rs1 _ _ gap c) eqn:E2; [| done]. intros [= <- <- <-]. by eapply ra_shared.
  - destruct m; [done |]. destruct (s3_barcode_record_correct_varying_runs runs gap c) as [[rs1 [b0 b1]] |] eqn:Ev; [| done].
    destruct (Z.ltb_spec leading (half_up b0)); [done |].
    destruct (s3_barcode_decode_runs rs1 _ _ gap c) eqn:E2; [| done]. intros [= <- <- <-]. by eapply ra_varying.
Qed.
Lemma read_letter c runs leading gap rs b cand : read_as c runs leading gap rs b cand -> CHAR_A <= letter cand <= CHAR_Z.
Proof. intros []; by eapply decode_letter. Qed.

(** A candidate of a record: its extraction [x] has 29 widths, which are read as
    [cand], and [required] is not before the time at which the trailing quiet zone
    of the widths decoded is complete.  The faint extraction counts only where it
    is eligible; where both extractions give a candidate they agree. *)
Definition candidate_of (r : s3_barcode_record_t) (c : s3_barcode_config_t)
    (cand : s3_barcode_result_t) (required : Z) : Prop :=
  (exists (faint : bool) x rs b, (faint = true -> rec_faint_eligible r = true) /\
    rec_extract_runs r faint = Some x /\ length (e_runs x) = 29%nat /\
    read_as c (e_runs x) (sat_add (rec_leading_us r) (e_first x)) (e_step x) rs b cand /\
    Z.min (e_last x + half_up b + quiet_modules c * rec_narrow (take 9 (drop 20 rs))) 0x7FFFFFFF <= required) /\
  (forall cand' q, rec_candidate r c false = Some (cand', q) ->
     letter cand' = letter cand /\ reversed cand' = reversed cand /\ q <= required).

Lemma candidate_read r c faint cand req : rec_candidate r c faint = Some (cand, req) ->
  exists x rs b, rec_extract_runs r faint = Some x /\ length (e_runs x) = 29%nat /\
    read_as c (e_runs x) (sat_add (rec_leading_us r) (e_first x)) (e_step x) rs b cand /\
    Z.min (e_last x + half_up b + quiet_modules c * rec_narrow (take 9 (drop 20 rs))) 0x7FFFFFFF <= req.
Proof.
  unfold rec_candidate. destruct (rec_extract_runs r faint) as [x |] eqn:Ex; [| done].
  destruct (Z.eqb_spec (extracted (Some x)) S3_BARCODE_RUNS) as [En |]; [| done]. cbn [negb].
  destruct (rec_interpret _ _ _ _) as [[[rs b] cd] |] eqn:Ei; [| done].
  apply interpret_sound in Ei. intros [= <- <-]. exists x, rs, b. split_and!; try done.
  - unfold extracted, S3_BARCODE_RUNS in En. lia.
  - cbv zeta. set (need := _ + _ * _). pose proof (u32_range need) as Hu. case_if; unbool; [lia |].
    destruct (Z_lt_le_dec need 0); [lia |]. unfold u32. rewrite wrap_id; unfold in_u; lia.
Qed.

(** The letter a QUIET record holds. *)
Definition quiet_letter (r : s3_barcode_record_t) : Prop := state r = S3_REC_QUIET -> 1 <= rec_letter_code r <= 26.

Record rec_inv (c : s3_barcode_config_t) (r : s3_barcode_record_t) : Prop := {
  rec_arrays : length (sample r) = 2048%nat /\ length (pre r) = 320%nat;
  rec_ring : 0 <= pre_head r < 320 /\ 0 <= pre_count r <= 320;
  rec_dark : 0 <= paper r <= 1000 /\ 0 <= prev r <= 1000;
  rec_noise : 0 <= noise_q4 r <= 16015;
  rec_fill : 0 <= rec_count r <= 2048;
  rec_carry : 0 <= residual_us r < 500;
  rec_quiet : quiet_letter r;
  rec_unseen : rec_seen r = false -> state r = S3_REC_WAITING
}.

Lemma rec_reset_inv c : rec_inv c s3_barcode_record_reset.
Proof. constructor; cbn; try lia; try done. Qed.

Lemma pre_drop_inv c r : rec_inv c r -> 1 <= pre_count r -> rec_inv c (rec_pre_drop r).
Proof.
  intros [[Hs Hp] [Hh Hc] ? ? ? ? Hq Hu] H1. unfold rec_pre_drop.
  assert (0 <= (pre_head r + 1) mod 320 < 320) by (apply Z.mod_pos_bound; lia).
  unfold S3_REC_PRE_MAX, u16. constructor; cbn -[wrap setZ Z.modulo]; try done.
  - by rewrite length_setZ.
  - rewrite !wrap_id; unfold in_u; lia.
Qed.

Lemma pre_trim_inv c fuel : forall r, rec_inv c r -> rec_inv c (rec_pre_trim fuel r).
Proof.
  induction fuel as [| fuel IH]; intros r H; cbn; [done |].
  destruct (Z.ltb_spec 1 (pre_count r)); cbn; [| done]. case_if; [| done].
  apply IH, pre_drop_inv; [done | lia].
Qed.

Lemma pre_push_inv c r dark step : rec_inv c r -> rec_inv c (rec_pre_push r dark step).
Proof.
  intros H. unfold rec_pre_push. apply pre_trim_inv.
  assert (rec_inv c (if pre_count r =? S3_REC_PRE_MAX then rec_pre_drop r else r) /\
    pre_count (if pre_count r =? S3_REC_PRE_MAX then rec_pre_drop r else r) < 320) as [H' Hlt].
  { destruct (Z.eqb_spec (pre_count r) S3_REC_PRE_MAX) as [E |]; unfold S3_REC_PRE_MAX in *.
    - split; [apply pre_drop_inv; [done | lia] |]. unfold rec_pre_drop. cbn -[wrap].
      unfold u16. rewrite E, wrap_id; unfold in_u; lia.
    - split; [done |]. destruct H. lia. }
  destruct H' as [[Hs Hp] [Hh Hc] ? ? ? ? Hq Hu].
  set (r1 := if pre_count r =? S3_REC_PRE_MAX then rec_pre_drop r else r) in *. clearbody r1.
  constructor; cbn -[wrap setZ Z.modulo u16 u32]; try done.
  - by rewrite length_setZ.
  - unfold u16. rewrite wrap_id; unfold in_u; lia.
Qed.

Lemma rec_finish_inv c r status : rec_inv c r -> rec_inv c (rec_finish r status).2.
Proof. intros []. constructor; cbn; try done; lia. Qed.

Lemma rec_start_inv c r now dark : rec_inv c r -> 0 <= dark <= 1000 ->
  rec_inv c (rec_start r now dark).
Proof.
  intros [] Hd. apply pre_push_inv.
  assert (wrap 10 dark = dark) by (apply wrap_id; unfold in_u; lia).
  constructor; cbn -[wrap]; try done; try lia.
Qed.

Lemma rec_step_inv c r gap step r' : rec_inv c r -> rec_step r gap = Some (step, r') ->
  rec_inv c r' /\ 0 <= step <= 63 /\ state r' = state r.
Proof.
  intros []. unfold rec_step, S3_REC_STEP_US, S3_REC_STEP_MAX.
  set (total := u32 (gap + residual_us r)). pose proof (u32_range (gap + residual_us r)) as Ht.
  fold total in Ht. destruct (_ || _) eqn:E; [done |]. unbool. intros [= <- <-].
  pose proof (Z.div_pos total 500 ltac:(lia) ltac:(lia)).
  pose proof (Z.div_mod total 500 ltac:(lia)). pose proof (Z.mod_pos_bound total 500 ltac:(lia)).
  unfold u16. rewrite !wrap_id by (unfold in_u; lia). split; [| split; [lia | done]].
  constructor; cbn; try done. lia.
Qed.

Lemma paper_step r dark : 0 <= paper r <= 1000 -> 0 <= dark <= 1000 ->
  let p := paper (if dark <? paper r then r <| paper := wrap 10 dark |>
    else if dark <? paper r + S3_REC_RISE then
      r <| paper := wrap 10 (u16 (paper r + Z.shiftr (dark - paper r) 5)) |> else r) in
  0 <= p <= 1000.
Proof.
  intros Hp Hd. unfold u16. cbv zeta.
  destruct (Z.ltb_spec dark (paper r)); [cbn -[wrap]; rewrite wrap_id; unfold in_u; lia |].
  case_if; [| done]. cbn -[wrap]. rewrite Z.shiftr_div_pow2 by lia.
  assert (0 <= (dark - paper r) / 2 ^ 5 <= dark - paper r).
  { split; [apply Z.div_pos; lia | apply Z.div_le_upper_bound; lia]. }
  rewrite (wrap_id 16), wrap_id; unfold in_u; lia.
Qed.

Lemma noise_step n d : 0 <= n <= 16015 -> 0 <= d <= 1000 -> 0 <= u16 (n - n / 16 + d) <= 16015.
Proof.
  intros Hn Hd. pose proof (Z.div_mod n 16 ltac:(lia)). pose proof (Z.mod_pos_bound n 16 ltac:(lia)).
  unfold u16. rewrite wrap_id; unfold in_u; lia.
Qed.

Lemma rec_frame_change c r r' : rec_inv c r -> sample r' = sample r -> pre r' = pre r ->
  pre_head r' = pre_head r -> pre_count r' = pre_count r -> 0 <= paper r' <= 1000 -> 0 <= prev r' <= 1000 ->
  0 <= noise_q4 r' <= 16015 -> rec_count r' = rec_count r -> residual_us r' = residual_us r ->
  state r' = state r -> required_us r' = required_us r -> rec_letter_code r' = rec_letter_code r ->
  rec_reversed r' = rec_reversed r -> rec_seen r' = rec_seen r -> rec_inv c r'.
Proof.
  intros [] ? ? ? ? ? ? ? ? ? ? ? ? ? ?. constructor; unfold quiet_letter in *;
    repeat match goal with H : ?f r' = ?f r |- _ => rewrite H in *; clear H end; done.
Qed.

Lemma state_pre_trim fuel : forall r, state (rec_pre_trim fuel r) = state r.
Proof. induction fuel as [| fuel IH]; intros r; cbn; [done |]. case_if; [by rewrite IH | done]. Qed.
Lemma state_pre_push r dark step : state (rec_pre_push r dark step) = state r.
Proof. unfold rec_pre_push. rewrite state_pre_trim. cbn. by case_if. Qed.
Lemma length_fold_set (f : Z -> Z) js : forall s : list Z,
  length (fold_left (fun s i => setZ s i (f i)) js s) = length s.
Proof. induction js as [| j js IH]; intros s; cbn; [done |]. by rewrite IH, length_setZ. Qed.

Lemma begin_recording_inv c r : rec_inv c r -> rec_seen r = true ->
  rec_inv c (begin_recording r c) /\ state (begin_recording r c) = S3_REC_RECORDING /\
  1 <= rec_count (begin_recording r c).
Proof.
  intros [] Hseen. unfold begin_recording.
  set (r1 := r <| state := S3_REC_RECORDING |>). set (p := u16 _).
  set (r2 := r1 <| prominence := p |> <| prefix_us := pre_us r1 |>).
  set (r3 := if negb (rec_faint_eligible r2) then _ else r2).
  assert (H3 : sample r3 = sample r /\ pre r3 = pre r /\ pre_head r3 = pre_head r /\ pre_count r3 = pre_count r /\
    paper r3 = paper r /\ prev r3 = prev r /\ noise_q4 r3 = noise_q4 r /\ residual_us r3 = residual_us r /\
    state r3 = S3_REC_RECORDING /\ rec_seen r3 = true) by (subst r3; case_if; done).
  clearbody r3. destruct H3 as (Hs & Hp & Hh & Hc & Hpa & Hpr & Hn & Hr & Hst & Hse).
  set (smp := fold_left _ _ _). assert (Hsmp : length smp = 2048%nat).
  { subst smp. rewrite length_fold_set, Hs. by apply rec_arrays0. }
  clearbody smp. assert (wrap 12 (pre_count r3) = pre_count r) as Hw.
  { rewrite Hc. apply wrap_id. unfold in_u. lia. }
  cbn -[wrap setZ]. rewrite Hw. destruct (Z.eqb_spec (pre_count r) 0); cbn -[wrap setZ].
  all: split_and!; try done; try lia.
  all: constructor; cbn -[wrap setZ]; rewrite ?length_setZ, ?Hsmp, ?Hp, ?Hh, ?Hc, ?Hpa, ?Hpr, ?Hn, ?Hr; try done; try lia.
  all: first [unfold quiet_letter; cbn; by rewrite Hst | by rewrite Hse].
Qed.

Lemma rec_waiting_inv c r dark step : rec_inv c r -> rec_seen r = true -> state r = S3_REC_WAITING -> 0 <= dark <= 1000 ->
  match rec_waiting r c dark step with
  | inl r' => rec_inv c r' /\ state r' = S3_REC_WAITING
  | inr r' => rec_inv c r' /\ state r' = S3_REC_RECORDING /\ 1 <= rec_count r'
  end.
Proof.
  intros L Hse Hst Hd. unfold rec_waiting.
  pose proof (paper_step r dark (proj1 (rec_dark _ _ L)) Hd) as Hp. cbv zeta in Hp.
  set (r1 := if dark <? paper r then _ else _) in *.
  assert (L1 : rec_inv c r1 /\ state r1 = S3_REC_WAITING /\ rec_seen r1 = true).
  { split; [| subst r1; repeat case_if; done].
    apply (rec_frame_change c r); try done; try (subst r1; repeat case_if; done).
    - replace (prev r1) with (prev r) by (subst r1; repeat case_if; done). apply L.
    - replace (noise_q4 r1) with (noise_q4 r) by (subst r1; repeat case_if; done). apply L. }
  clearbody r1. destruct L1 as (L1 & Hst1 & Hse1). clear L Hst Hse Hp r. cbv zeta.
  destruct (blocked r1 && _).
  { split; [| done]. apply (rec_frame_change c r1); try done; apply L1. }
  set (r2 := r1 <| blocked := false |>).
  assert (L2 : rec_inv c r2) by (apply (rec_frame_change c r1); try done; apply L1).
  assert (Hst2 : state r2 = S3_REC_WAITING) by done. assert (Hse2 : rec_seen r2 = true) by done. clearbody r2. clear L1 Hst1 Hse1 r1.
  destruct (dark <? paper r2 + S3_REC_RISE); [| exact (begin_recording_inv c r2 L2 Hse2)].
  rewrite state_pre_push. pose proof (rec_dark _ _ L2) as [Hpa Hpr].
  case_if; (split; [apply pre_push_inv; apply (rec_frame_change c r2); try done | done]); cbn -[u16]; try done.
  - apply noise_step; [apply L2 | case_if; unbool; lia].
  - apply L2.
Qed.

Lemma rec_store_inv c r dark step : rec_inv c r ->
  match rec_store r c dark step with
  | inl status => status <> S3_BARCODE_DECODED
  | inr r' => rec_inv c r' /\ state r' = state r /\ rec_count r' = rec_count r + 1
  end.
Proof.
  intros [[Hs Hp] ? ? ? ? ? Hq Hu]. unfold rec_store, S3_REC_MAX.
  destruct (Z.leb_spec 2048 (rec_count r)); [done |].
  assert (wrap 12 (rec_count r + 1) = rec_count r + 1) as Hw by (apply wrap_id; unfold in_u; lia).
  cbv zeta. case_if; [done |].
  match goal with |- context [if ?b && negb (rec_white ?x dark) then _ else _] => set (r' := x) end.
  assert (H' : length (sample r') = 2048%nat /\ pre r' = pre r /\ pre_head r' = pre_head r /\
    pre_count r' = pre_count r /\ paper r' = paper r /\ prev r' = prev r /\ noise_q4 r' = noise_q4 r /\
    residual_us r' = residual_us r /\ state r' = state r /\ required_us r' = required_us r /\
    rec_letter_code r' = rec_letter_code r /\ rec_reversed r' = rec_reversed r /\ rec_count r' = rec_count r + 1 /\ rec_seen r' = rec_seen r).
  { subst r'. repeat case_if; cbn -[wrap setZ]; rewrite length_setZ, Hw; done. }
  clearbody r'. destruct H' as (H1 & H2 & H3 & H4 & H5 & H6 & H7 & H8 & H9 & H10 & H11 & H12 & H13 & H14).
  case_if; [done |]. split_and!; try done.
  constructor; unfold quiet_letter in *;
    rewrite ?H2, ?H3, ?H4, ?H5, ?H6, ?H7, ?H8, ?H9, ?H10, ?H11, ?H12, ?H13, ?H14; try done. lia.
Qed.

(** What a decision promises. *)
Lemma rec_decide_sound c r r' : rec_decide r c = Some r' -> exists cand,
  candidate_of r c cand (required_us r') /\ rec_letter_code r' = letter cand - CHAR_A + 1 /\ 1 <= rec_letter_code r' <= 26 /\
  rec_reversed r' = reversed cand /\ r' = r <| required_us := required_us r' |> <| rec_letter_code := rec_letter_code r' |>
    <| rec_reversed := rec_reversed r' |> <| state := S3_REC_QUIET |>.
Proof.
  unfold rec_decide.
  assert (A : forall cand q, candidate_of r c cand q -> Some (r <| required_us := q |>
      <| rec_letter_code := wrap 5 (u8 (letter cand - CHAR_A + 1)) |> <| rec_reversed := reversed cand |> <| state := S3_REC_QUIET |>) = Some r' ->
    exists cand, candidate_of r c cand (required_us r') /\ rec_letter_code r' = letter cand - CHAR_A + 1 /\ 1 <= rec_letter_code r' <= 26 /\
      rec_reversed r' = reversed cand /\ r' = r <| required_us := required_us r' |> <| rec_letter_code := rec_letter_code r' |>
        <| rec_reversed := rec_reversed r' |> <| state := S3_REC_QUIET |>).
  { intros cand q Hc [= <-]. exists cand. cbn -[wrap u8]. pose proof Hc as [(f & x & rs & b & _ & _ & _ & Hr & _) _].
    apply read_letter in Hr. unfold CHAR_A, CHAR_Z in *. assert (wrap 5 (u8 (letter cand - 65 + 1)) = letter cand - 65 + 1) as ->.
    { unfold u8. rewrite (wrap_id 8), wrap_id; unfold in_u; lia. }
    split_and!; try done; lia. }
  destruct (rec_candidate r c false) as [[c1 q1] |] eqn:E1;
    destruct (if rec_faint_eligible r then rec_candidate r c true else None) as [[c2 q2] |] eqn:E2; [| | | done].
  - destruct (negb _ || negb _) eqn:Eg; [done |]. apply orb_false_iff in Eg as [Eg1 Eg2].
    apply negb_false_iff, Z.eqb_eq in Eg1. apply negb_false_iff, Bool.eqb_prop in Eg2. apply A.
    destruct (rec_faint_eligible r) eqn:Ef; [| done]. apply candidate_read in E2 as (x & rs & b & H1 & H2 & H3 & H4). split.
    + exists true, x, rs, b. split_and!; try done. case_if; unbool; lia.
    + rewrite E1. intros ? ? [= <- <-]. split_and!; try done. case_if; unbool; lia.
  - apply A. split; [| rewrite E1; by intros ? ? [= <- <-]]. apply candidate_read in E1 as (x & rs & b & H). by exists false, x, rs, b.
  - apply A. split; [| by rewrite E1]. destruct (rec_faint_eligible r) eqn:Ef; [| done].
    apply candidate_read in E2 as (x & rs & b & H). by exists true, x, rs, b.
Qed.
Lemma rec_decide_inv c r r' : rec_inv c r -> state r <> S3_REC_WAITING -> rec_decide r c = Some r' -> rec_inv c r' /\ state r' = S3_REC_QUIET.
Proof.
  intros L Hst E. destruct (rec_decide_sound c r r' E) as (cand & _ & _ & Hl & _ & ->). split; [| done].
  destruct L as [? ? ? ? ? ? ? Hu]. constructor; try done; [by intros _ |]. intros Hs. by destruct (Hst (Hu Hs)).
Qed.

(** The record once a reading has been stored and its white counted, if it is
    stored at all. *)
Definition clamped (darkness : Z) : Z := if 1000 <? darkness then 1000 else darkness.
Definition stored_record (r : s3_barcode_record_t) (c : s3_barcode_config_t) (now darkness : Z)
  : option s3_barcode_record_t :=
  match rec_step r (elapsed now (rec_last_us r)) with
  | None => None
  | Some (step, r) =>
      if u32 (max_gap_us c + S3_REC_STEP_US) <? u32 (step * S3_REC_STEP_US) then None else
      let r := r <| rec_last_us := now |> in
      let store r := match rec_store r c (clamped darkness) step with
        | inl _ => None
        | inr r => Some (r <| white_us := if rec_white r (clamped darkness) then sat_add (white_us r) (u32 (step * S3_REC_STEP_US)) else 0 |>)
        end in
      if bool_decide (state r = S3_REC_WAITING) then
        match rec_waiting r c (clamped darkness) step with inl _ => None | inr r => store r end
      else store r
  end.

(** The stored record [s], white for the longest run by now, has been decided as
    [r]: at this very reading, or before. *)
Definition decided (c : s3_barcode_config_t) (s r : s3_barcode_record_t) : Prop :=
  (state s = S3_REC_RECORDING /\ max_run_us c <= white_us s /\ rec_decide s c = Some r) \/ (state s = S3_REC_QUIET /\ r = s).
(** The outcome of a reading whose record after storing it is [s]. *)
Record record_sound (c : s3_barcode_config_t) (now dark : Z) (s : option s3_barcode_record_t)
    (o : s3_barcode_status_t * s3_barcode_record_t * s3_barcode_result_t) : Prop := {
  rs_inv : rec_inv c o.1.2;
  rs_none : o.1.1 <> S3_BARCODE_DECODED -> o.2 = zero_result;
  rs_quiet : config_valid c = true -> state o.1.2 = S3_REC_QUIET ->
    exists s1, s = Some s1 /\ rec_white s1 dark = true /\ decided c s1 o.1.2;
  rs_decoded : o.1.1 = S3_BARCODE_DECODED -> exists s1 r2, s = Some s1 /\ rec_white s1 dark = true /\ decided c s1 r2 /\
    required_us r2 <= frame_us s1 /\ 1 <= rec_letter_code r2 <= 26 /\
    o.2 = {| letter := CHAR_A + rec_letter_code r2 - 1; reversed := rec_reversed r2; result_timestamp_us := now |} /\
    state o.1.2 = S3_REC_WAITING /\ blocked o.1.2 = false
}.
Lemma sound_quiet c now dark s status r : rec_inv c r -> status <> S3_BARCODE_DECODED ->
  (config_valid c = true -> state r <> S3_REC_QUIET) -> record_sound c now dark s (status, r, zero_result).
Proof. intros L Hs Hq. constructor; cbn [fst snd]; try done. intros Hc Hr. by destruct (Hq Hc). Qed.
Lemma rec_judge_sound c r now dark step : rec_inv c r -> state r <> S3_REC_WAITING ->
  record_sound c now dark
    (Some (r <| white_us := if rec_white r dark then sat_add (white_us r) (u32 (step * S3_REC_STEP_US)) else 0 |>))
    (rec_judge r c now dark step).
Proof.
  intros L Hst. unfold rec_judge. destruct (rec_white r dark) eqn:Hw; cbn [negb].
  2: { case_bool_decide as Hq.
       - apply sound_quiet; [by apply (rec_finish_inv c r S3_BARCODE_REJECTED) | done | done].
       - apply sound_quiet; [| done | done]. apply (rec_frame_change c r); try done; apply L. }
  set (r1 := r <| white_us := sat_add (white_us r) (u32 (step * S3_REC_STEP_US)) |>).
  assert (L1 : rec_inv c r1) by (apply (rec_frame_change c r); try done; apply L).
  assert (Hst1 : state r1 <> S3_REC_WAITING) by done. assert (Hw1 : rec_white r1 dark = true) by exact Hw.
  clearbody r1. clear L Hst Hw r. destruct (Z.ltb_spec (white_us r1) (max_run_us c)) as [Hlt | Hge].
  { constructor; cbn [fst snd]; try done. intros _ Hq. exists r1. split_and!; try done. by right. }
  destruct (if bool_decide (state r1 = S3_REC_RECORDING) then rec_decide r1 c else Some r1) as [r2 |] eqn:E.
  2: { apply sound_quiet; [by apply (rec_finish_inv c r1 S3_BARCODE_REJECTED) | done | done]. }
  assert (D : decided c r1 r2 /\ rec_inv c r2 /\ 1 <= rec_letter_code r2 <= 26 /\ frame_us r2 = frame_us r1).
  { case_bool_decide as Hr.
    - destruct (rec_decide_inv c r1 r2 L1 Hst1 E) as [L2 Hq]. split_and!; try done; [by left | apply (rec_quiet _ _ L2 Hq) | apply (rec_quiet _ _ L2 Hq) |].
      destruct (rec_decide_sound c r1 r2 E) as (_ & _ & _ & _ & _ & ->). done.
    - injection E as <-. assert (Hq : state r1 = S3_REC_QUIET) by (destruct (state r1); congruence).
      split_and!; try done; [by right | apply (rec_quiet _ _ L1 Hq) | apply (rec_quiet _ _ L1 Hq)]. }
  destruct D as (D & L2 & Hl & Hf). destruct (Z.ltb_spec (frame_us r2) (required_us r2)).
  { constructor; cbn [fst snd]; try done. intros _ Hq. by exists r1. }
  constructor; cbn [fst snd]; try done; [by apply (rec_finish_inv c r2 S3_BARCODE_DECODED) |].
  intros _. exists r1, r2. split_and!; try done; lia.
Qed.

Lemma record_update_sound c r now valid darkness : rec_inv c r -> 0 <= darkness ->
  record_sound c now (clamped darkness) (if (valid : bool) then stored_record r c now darkness else None)
    (s3_barcode_record_update r c now valid darkness zero_result).
Proof.
  intros L Hd0. unfold s3_barcode_record_update, stored_record. fold (clamped darkness). set (dark := clamped darkness).
  assert (Hd : 0 <= dark <= 1000) by (subst dark; unfold clamped; case_if; unbool; lia). clearbody dark.
  destruct (config_valid c) eqn:Hc; cbn [negb]; [| apply sound_quiet; [done | done | congruence]].
  destruct valid; cbn [negb]; [| apply sound_quiet; [apply rec_reset_inv | done | done]].
  destruct (rec_seen r) eqn:Hseen; cbn [negb].
  2: { apply sound_quiet; [by apply rec_start_inv | done |]. intros _. unfold rec_start. rewrite state_pre_push.
    change (state r <> S3_REC_QUIET). by rewrite (rec_unseen _ _ L Hseen). }
  assert (Hstall : forall (r' : s3_barcode_record_t) x, record_sound c now dark x
    (if s3_barcode_record_active r' then S3_BARCODE_TIMING_ERROR else S3_BARCODE_NONE,
     rec_start s3_barcode_record_reset now dark, zero_result)).
  { intros r' x. apply sound_quiet; [apply rec_start_inv; [apply rec_reset_inv | done] | by case_if |].
    intros _. unfold rec_start. by rewrite state_pre_push. }
  destruct (rec_step r _) as [[step r1] |] eqn:Es; [| apply Hstall].
  destruct (rec_step_inv c _ _ _ _ L Es) as (L1 & _ & _). assert (Hse1 : rec_seen r1 = true).
  { unfold rec_step in Es. cbv zeta in Es. destruct (_ || _); [done |]. by injection Es as _ <-. }
  destruct (_ <? u32 (step * S3_REC_STEP_US)); [apply Hstall |].
  set (r2 := r1 <| rec_last_us := now |>). assert (Hse2 : rec_seen r2 = true) by done.
  assert (L2 : rec_inv c r2) by (apply (rec_frame_change c r1); try done; apply L1). clearbody r2. clear Es Hstall.
  assert (Hrec : forall r3, rec_inv c r3 -> state r3 <> S3_REC_WAITING ->
    record_sound c now dark
      (match rec_store r3 c dark step with inl _ => None | inr r => Some (r <| white_us :=
         if rec_white r dark then sat_add (white_us r) (u32 (step * S3_REC_STEP_US)) else 0 |>) end)
      match rec_store r3 c dark step with
      | inl status => (rec_finish r3 status, zero_result)
      | inr r => rec_judge r c now dark step
      end).
  { intros r3 L3 H3. pose proof (rec_store_inv c r3 dark step L3) as Hs.
    destruct (rec_store r3 c dark step) as [status | r4].
    - apply (sound_quiet c now dark None status); [by apply rec_finish_inv | done | done].
    - destruct Hs as (L4 & Hst & _). apply rec_judge_sound; [done | congruence]. }
  case_bool_decide as Hw; [| by apply Hrec].
  pose proof (rec_waiting_inv c r2 dark step L2 Hse2 Hw Hd) as Hwait.
  destruct (rec_waiting r2 c dark step) as [r3 | r3].
  - apply sound_quiet; [apply Hwait | done |]. intros _. by rewrite (proj2 Hwait).
  - destruct Hwait as (L3 & Hst & _). apply Hrec; [done | by rewrite Hst].
Qed.
(** ** Soundness of the shared correction *)
Lemma better_fold (f : Z -> Z) (score : Z -> option Z) l : forall st,
  let st' := fold_left (fun st tick => better st (score (f tick)) (f tick)) l st in
  st' = st \/ exists tick, In tick l /\ st'.2 = f tick /\ score (f tick) = Some st'.1.
Proof.
  induction l as [| tick l IH]; intros st; cbn; [by left |].
  destruct (IH (better st (score (f tick)) (f tick))) as [E | (tk & H1 & H2 & H3)];
    [rewrite E | right; exists tk; auto].
  unfold better. destruct st as [s b]. destruct (score (f tick)) eqn:Es; [| by left].
  case_if; [right; exists tick; cbn; auto | by left].
Qed.

Lemma adjust_some c b rs rs' : adjust c b rs = Some rs' ->
  rs' = imap (fun i run => biased b (Z.of_nat i) run) rs /\ Forall (fun v => 0 < v <= max_run_us c) rs'.
Proof.
  unfold adjust. destruct (existsb _ _) eqn:E; [done |]. intros [= <-]. split; [done |].
  apply List.Forall_forall. intros v Hv. apply not_true_iff_false in E.
  destruct (Z.le_gt_cases v 0) as [? | ?]; [exfalso | destruct (Z.le_gt_cases v (max_run_us c)); [lia | exfalso]].
  all: apply E, existsb_exists; exists v; split; [done | lia].
Qed.

Lemma imap_take {A B} (f : nat -> A -> B) n l : imap f (take n l) = take n (imap f l).
Proof.
  revert f l. induction n as [| n IH]; intros f [| x l]; cbn; try done. f_equal. apply IH.
Qed.

Lemma star_score_some star rs gap c b s : star_score star rs gap c b = Some s ->
  exists adj n, adjust c b rs = Some adj /\ character adj gap c = Some (star, n).
Proof.
  unfold star_score. destruct (adjust c b rs) as [adj |]; [| done].
  destruct (character adj gap c) as [[p n] |] eqn:E; [| done].
  destruct (Z.eqb_spec p star) as [-> |]; [| done]. intros _. eauto.
Qed.

Lemma ticks_range tick : In tick ticks -> -64 <= tick <= 64.
Proof. intros H. apply in_map_iff in H. destruct H as (i & <- & Hi). apply elem_range in Hi. lia. Qed.

Lemma shared_fit_sound star rs gap c b : config_valid c = true -> Forall (fun r => 0 <= r) rs ->
  shared_fit star rs gap c = Some b ->
  4 * Z.abs b <= 3 * max_run_us c /\
  exists s0 s1, star_score star (take 9 rs) gap c b = Some s0 /\
                star_score star (take 9 (drop 20 rs)) gap c b = Some s1.
Proof.
  intros Hc Hpos. unfold shared_fit. set (minimum := if _ <? (if _ <? UINT32_MAX then _ else _) then _ else _).
  assert (Hmin : 0 <= minimum).
  { subst minimum. repeat case_if; try apply u32_range. unfold UINT32_MAX. lia. }
  destruct (_ || _) eqn:E; [done |]. unbool.
  assert (Hmax : max_run_us c < 2 ^ 28) by (unfold config_valid in Hc; unbool; nia).
  assert (Hbound : i32 (u32 (minimum * 3) / 4) = minimum * 3 / 4).
  { unfold u32. rewrite wrap_id by (unfold in_u; lia).
    unfold i32. apply swrap_id; [lia |]. pose proof (Z.div_mod (minimum * 3) 4 ltac:(lia)).
    pose proof (Z.mod_pos_bound (minimum * 3) 4 ltac:(lia)). lia. }
  rewrite Hbound. set (bound := minimum * 3 / 4).
  assert (Hb : 0 <= bound /\ 4 * bound <= 3 * minimum).
  { subst bound. pose proof (Z.div_mod (minimum * 3) 4 ltac:(lia)).
    pose proof (Z.mod_pos_bound (minimum * 3) 4 ltac:(lia)). lia. }
  pose proof (better_fold (fun tick => i32 (Z.quot (bound * tick) 64)) (both_scores star rs gap c) ticks (UINT32_MAX, 0)) as Hf.
  cbv zeta in Hf. destruct (fold_left _ ticks _) as [bs bb].
  destruct (Z.eqb_spec bs UINT32_MAX); [done |]. intros [= <-].
  destruct Hf as [[= ? ?] | (tick & Hin & Hbias & Hs)]; [done |]. cbn in Hbias, Hs.
  apply ticks_range in Hin. split.
  - assert (- bound <= Z.quot (bound * tick) 64 <= bound).
    { split; [replace (- bound) with (Z.quot (bound * -64) 64) | replace bound with (Z.quot (bound * 64) 64) at 2];
        try (apply Z.quot_le_mono; nia).
      - replace (bound * -64) with (- bound * 64) by lia. rewrite Z.quot_mul by lia. done.
      - rewrite Z.quot_mul by lia. done. }
    rewrite Hbias. unfold i32. rewrite swrap_id by lia. lia.
  - rewrite <- Hbias in Hs. unfold both_scores in Hs.
    destruct (star_score star (take 9 rs) gap c bb) as [s0 |]; [| done].
    destruct (star_score star (take 9 (drop 20 rs)) gap c bb) as [s1 |]; [| done]. eauto.
Qed.

Lemma biased_shift b i run : biased b (i + 20) run = biased b i run.
Proof. unfold biased. replace (i + 20) with (i + 10 * 2) by lia. by rewrite Z.mod_add. Qed.

Lemma biased_sum b rs : length rs = 29%nat ->
  sumZ (imap (fun i run => biased b (Z.of_nat i) run) rs) = sumZ rs + b.
Proof.
  intros H. do 29 (destruct rs as [| ? rs]; [discriminate H |]). destruct rs; [| discriminate H].
  cbn -[Z.of_nat Z.modulo]. unfold biased. simpl. lia.
Qed.

Lemma imap_drop20 b rs : (20 <= length rs)%nat ->
  drop 20 (imap (fun i run => biased b (Z.of_nat i) run) rs) =
  imap (fun i run => biased b (Z.of_nat i) run) (drop 20 rs).
Proof.
  intros H. do 20 (destruct rs as [| ? rs]; [cbn in H; lia |]). cbn [drop imap].
  apply imap_ext. intros i x _. cbn.
  replace (Z.of_nat _) with (Z.of_nat i + 20) by (cbn; lia). apply biased_shift.
Qed.

(** ** Theorems *)
Record reading := { read_us : Z; read_valid : bool; read_dark : Z }.
Definition record_run (c : s3_barcode_config_t) (r : s3_barcode_record_t) (inputs : list reading)
  : s3_barcode_record_t :=
  fold_left (fun r i =>
    (s3_barcode_record_update r c (read_us i) (read_valid i) (read_dark i) zero_result).1.2) inputs r.

Lemma record_run_inv c inputs : Forall (fun i => 0 <= read_dark i) inputs ->
  forall r, rec_inv c r -> rec_inv c (record_run c r inputs).
Proof.
  induction 1 as [| i inputs Hi _ IH]; intros r L; cbn; [done |].
  apply IH. by apply (rs_inv _ _ _ _ _ (record_update_sound c r (read_us i) (read_valid i) (read_dark i) L Hi)).
Qed.
Lemma record_run_snoc c r inputs i : record_run c r (inputs ++ [i]) =
  (s3_barcode_record_update (record_run c r inputs) c (read_us i) (read_valid i) (read_dark i) zero_result).1.2.
Proof. unfold record_run. by rewrite fold_left_app. Qed.
Lemma state_begin c r : state (begin_recording r c) = S3_REC_RECORDING.
Proof.
  unfold begin_recording. set (r1 := r <| state := S3_REC_RECORDING |>). set (p := u16 _).
  set (r2 := r1 <| prominence := p |> <| prefix_us := pre_us r1 |>). set (r3 := if negb (rec_faint_eligible r2) then _ else r2).
  assert (H3 : state r3 = S3_REC_RECORDING) by (subst r3; by case_if). clearbody r3. set (smp := fold_left _ _ _). clearbody smp.
  destruct (_ =? _); exact H3.
Qed.
(** A record that is QUIET once a reading is stored was QUIET before it, with the same promise. *)
Lemma stored_quiet c r now darkness s : stored_record r c now darkness = Some s -> state s = S3_REC_QUIET ->
  state r = S3_REC_QUIET /\ required_us s = required_us r /\ rec_letter_code s = rec_letter_code r /\
  rec_reversed s = rec_reversed r /\ paper s = paper r /\ prominence s = prominence r.
Proof.
  unfold stored_record, rec_step. cbv zeta. destruct (_ || _); [done |]. case_if; [done |].
  set (r1 := _ <| rec_last_us := now |>). set (step := u16 _). clearbody step.
  assert (R : forall r2 s', rec_store r2 c (clamped darkness) step = inr s' -> state s' = state r2 /\ required_us s' = required_us r2 /\
    rec_letter_code s' = rec_letter_code r2 /\ rec_reversed s' = rec_reversed r2 /\ paper s' = paper r2 /\ prominence s' = prominence r2).
  { intros r2 s'. unfold rec_store. case_if; [done |]. cbv zeta. case_if; [done |].
    match goal with |- context [if ?b && negb (rec_white ?x _) then _ else _] => set (r' := x);
      assert (H' : state r' = state r2 /\ required_us r' = required_us r2 /\ rec_letter_code r' = rec_letter_code r2 /\
        rec_reversed r' = rec_reversed r2 /\ paper r' = paper r2 /\ prominence r' = prominence r2) by (subst r'; repeat case_if; done) end.
    clearbody r'. case_if; [done |]. by intros [= <-]. }
  case_bool_decide as Hw.
  - destruct (rec_waiting r1 c _ step) as [r2 | r2] eqn:Ew; [done |]. destruct (rec_store r2 c _ step) as [| s'] eqn:E; [done |].
    intros [= <-] Hq. destruct (R _ _ E) as [Hs _]. assert (state r2 = S3_REC_RECORDING); [| change (state s' = S3_REC_QUIET) in Hq; congruence].
    unfold rec_waiting in Ew. cbv zeta in Ew. destruct (blocked _ && _); [done |]. destruct (_ <? _) in Ew; [done |].
    injection Ew as <-. apply state_begin.
  - destruct (rec_store r1 c _ step) as [| s'] eqn:E; [done |]. intros [= <-] Hq. destruct (R _ _ E) as (Hs & H).
    change (state s' = S3_REC_QUIET) in Hq. split; [change (state r1 = S3_REC_QUIET); congruence | exact H].
Qed.
Lemma rec_white_same r r' dark : paper r' = paper r -> prominence r' = prominence r -> rec_white r' dark = rec_white r dark.
Proof. unfold rec_white, rec_monitor_band, rec_faint_eligible. by intros -> ->. Qed.

(** The readings [hist] contain the reading [d] at which [cand] was decided, on the
    record [r0] of the readings before it and [d] itself, by then white for the
    longest run; it and all readings after it are valid and white. *)
Record announced (c : s3_barcode_config_t) (hist : list reading) (r0 : s3_barcode_record_t) (cand : s3_barcode_result_t)
    (required : Z) : Prop := {
  an_history : exists before d after, hist = before ++ d :: after /\
    stored_record (record_run c s3_barcode_record_reset before) c (read_us d) (read_dark d) = Some r0 /\
    Forall (fun i => read_valid i = true /\ rec_white r0 (clamped (read_dark i)) = true) (d :: after);
  an_recording : state r0 = S3_REC_RECORDING;
  an_white : max_run_us c <= white_us r0;
  an_candidate : candidate_of r0 c cand required
}.
(** What a record decided as [r] after the readings [hist] announces. *)
Definition promise (c : s3_barcode_config_t) (hist : list reading) (r : s3_barcode_record_t) : Prop :=
  exists r0 cand, announced c hist r0 cand (required_us r) /\ rec_letter_code r = letter cand - CHAR_A + 1 /\
    rec_reversed r = reversed cand /\ paper r = paper r0 /\ prominence r = prominence r0.
Lemma promise_step c hist i s r2 : read_valid i = true ->
  (state (record_run c s3_barcode_record_reset hist) = S3_REC_QUIET -> promise c hist (record_run c s3_barcode_record_reset hist)) ->
  stored_record (record_run c s3_barcode_record_reset hist) c (read_us i) (read_dark i) = Some s ->
  rec_white s (clamped (read_dark i)) = true -> decided c s r2 -> promise c (hist ++ [i]) r2.
Proof.
  intros Hv IH Es Hw [(Hr & Hm & E) | [Hq ->]].
  - destruct (rec_decide_sound c s r2 E) as (cand & Hc & Hl & _ & Hrev & ->). exists s, cand. split_and!; try done.
    constructor; try done. exists hist, i, []. split_and!; try done. by repeat constructor.
  - destruct (stored_quiet _ _ _ _ _ Es Hq) as (Hq0 & E1 & E2 & E3 & E4 & E5).
    destruct (IH Hq0) as (r0 & cand & [(before & d & after & -> & Eb & F) A2 A3 A4] & B1 & B2 & B3 & B4).
    exists r0, cand. rewrite E1, E2, E3, E4, E5. split_and!; try done. constructor; try done.
    exists before, d, (after ++ [i]). rewrite <- app_assoc. split_and!; try done. rewrite app_comm_cons. apply Forall_app. split; [done |].
    constructor; [| constructor]. split; [done |]. rewrite <- Hw. symmetry. apply rec_white_same; congruence.
Qed.
Lemma record_run_promise c inputs : config_valid c = true -> Forall (fun i => 0 <= read_dark i) inputs ->
  state (record_run c s3_barcode_record_reset inputs) = S3_REC_QUIET -> promise c inputs (record_run c s3_barcode_record_reset inputs).
Proof.
  intros Hc. induction inputs as [| i inputs IH] using rev_ind; [done |]. intros [F Fi]%Forall_app. apply Forall_inv in Fi.
  assert (L : rec_inv c (record_run c s3_barcode_record_reset inputs)) by (apply record_run_inv; [done | apply rec_reset_inv]).
  rewrite record_run_snoc. intros Hq. destruct (record_update_sound c _ (read_us i) (read_valid i) (read_dark i) L Fi) as [_ _ RQ _].
  destruct (RQ Hc Hq) as (s & Es & Hw & D). destruct (read_valid i) eqn:Hv; [| done]. rewrite <- Hv in D |- *.
  apply (promise_step c inputs i s); auto.
Qed.

(** C3: the record reader.  After any readings from a reset record the 2048
    sample array, the 320-entry history ring and the noise estimate stay within
    bounds.  A reading is answered DECODED only with a letter A..Z stamped with
    its time, and only for a letter decided at this or an earlier reading [d] of the
    history: on the record of the readings up to [d], which by then had been white
    for [max_run_us], 29 widths were extracted and read by the batch decoder as
    they are or after the bias common to both stars, or the one varying between
    them, was taken out, with the leading quiet zone moved by half the bias; every
    reading from [d] on is valid and white, and the recording, this reading
    included, lasts until the trailing quiet zone of the widths decoded is
    complete (saturated at 0x7FFFFFFF), so no letter is published before that.  The
    reader then waits again, unblocked.  Any other status comes with an empty result. *)
Theorem record_reader_sound c inputs now valid darkness :
  Forall (fun i => 0 <= read_dark i) inputs -> 0 <= darkness ->
  let r := record_run c s3_barcode_record_reset inputs in
  let o := s3_barcode_record_update r c now valid darkness zero_result in
  length (sample r) = 2048%nat /\ 0 <= rec_count r <= 2048 /\
  length (pre r) = 320%nat /\ 0 <= pre_head r < 320 /\ 0 <= pre_count r <= 320 /\
  0 <= noise_q4 r < 2 ^ 16 /\ 0 <= paper r <= 1000 /\
  (o.1.1 <> S3_BARCODE_DECODED -> o.2 = zero_result) /\
  (o.1.1 = S3_BARCODE_DECODED ->
     CHAR_A <= letter o.2 <= CHAR_Z /\ result_timestamp_us o.2 = now /\
     state o.1.2 = S3_REC_WAITING /\ blocked o.1.2 = false /\
     exists stored r0 cand required,
       stored_record r c now darkness = Some stored /\
       announced c (inputs ++ [{| read_us := now; read_valid := valid; read_dark := darkness |}]) r0 cand required /\
       required <= frame_us stored /\ letter cand = letter o.2 /\ reversed cand = reversed o.2).
Proof.
  intros Hi Hd. cbv zeta. pose proof (record_run_promise c inputs) as HP. pose proof (promise_step c inputs) as HS.
  assert (L : rec_inv c (record_run c s3_barcode_record_reset inputs)) by (apply record_run_inv; [done | apply rec_reset_inv]).
  set (r := record_run c s3_barcode_record_reset inputs) in *. destruct (record_update_sound c r now valid darkness L Hd) as [_ Hzero _ Hdec].
  destruct L as [[? ?] [? ?] [? ?] ? ? ? ? ?]. split_and!; try done; try lia.
  intros HD. destruct (Hdec HD) as (s & r2 & Es & Hw & D & Hf & Hl & Eo & Hst & Hb). destruct valid; [| done].
  destruct (config_valid c) eqn:Hc.
  2: { unfold s3_barcode_record_update in HD. by rewrite Hc in HD. }
  destruct (HS {| read_us := now; read_valid := true; read_dark := darkness |} s r2 eq_refl (HP eq_refl Hi) Es Hw D)
    as (r0 & cand & An & E1 & E2 & _ & _).
  rewrite Eo. cbn [letter reversed result_timestamp_us]. unfold CHAR_A, CHAR_Z in *. split_and!; try done; try lia.
  exists s, r0, cand, (required_us r2). split_and!; try done. lia.
Qed.

Definition play_dark (start : Z) (widths : list Z) : list reading :=
  map (fun s => {| read_us := at_us s; read_valid := at_valid s; read_dark := if at_black s then 800 else 50 |})
    (play start widths false).

Fixpoint record_letters (r : s3_barcode_record_t) (inputs : list reading) : list (Z * bool) :=
  match inputs with
  | [] => []
  | i :: inputs =>
      match s3_barcode_record_update r s3_barcode_defaults (read_us i) (read_valid i) (read_dark i) zero_result with
      | (S3_BARCODE_DECODED, r, x) => (letter x, reversed x) :: record_letters r inputs
      | (_, r, _) => record_letters r inputs
      end
  end.

Example record_reads_Q :
  record_letters s3_barcode_record_reset
    (play_dark 0 (700000 :: printed 16 60000 150000 60000 60000 ++ [1500000])) = [(81, false)].
Proof. vm_compute. reflexivity. Qed.

(** The readings before the one at which that letter is published. *)
Definition printed_Q : list reading := take 424 (play_dark 0 (700000 :: printed 16 60000 150000 60000 60000 ++ [1500000])).
Lemma printed_Q_dark : Forall (fun i => 0 <= read_dark i) printed_Q.
Proof. apply Forall_take, Forall_map, Forall_true. intros s. cbn. by destruct (at_black s). Qed.
Lemma record_reader_sound_witness :
  let o := s3_barcode_record_update (record_run s3_barcode_defaults s3_barcode_record_reset printed_Q) s3_barcode_defaults 4240000 true 50
    zero_result in
  o.1.1 = S3_BARCODE_DECODED /\ letter o.2 = 81 /\
  exists stored r0 cand required,
    stored_record (record_run s3_barcode_defaults s3_barcode_record_reset printed_Q) s3_barcode_defaults 4240000 50 = Some stored /\
    announced s3_barcode_defaults (printed_Q ++ [{| read_us := 4240000; read_valid := true; read_dark := 50 |}]) r0 cand required /\
    required <= frame_us stored /\ letter cand = letter o.2 /\ reversed cand = reversed o.2.
Proof.
  cbv zeta.
  assert (D : (s3_barcode_record_update (record_run s3_barcode_defaults s3_barcode_record_reset printed_Q) s3_barcode_defaults 4240000 true 50
    zero_result).1.1 = S3_BARCODE_DECODED) by (vm_compute; reflexivity).
  split; [exact D |]. split; [vm_compute; reflexivity |].
  destruct (record_reader_sound s3_barcode_defaults printed_Q 4240000 true 50 printed_Q_dark ltac:(lia))
    as (_ & _ & _ & _ & _ & _ & _ & _ & T).
  destruct (T D) as (_ & _ & _ & _ & R). exact R.
Defined.

(** Bounds of the extraction.  From any recording, the primary and the faint
    extraction write at most 29 widths (the size of the output array), retain at
    most 31 extrema of the 63 that fit, and the edge interpolation weight is
    within 0..1024. *)
Theorem record_extraction_bounds r faint d lo hi :
  (forall x, rec_extract_runs r faint = Some x -> (length (e_runs x) <= 29)%nat) /\
  (forall s, search_all r {| ext := [0]; best_at := 0; rising := true; max_step := 0 |} (later_samples r) = Some s ->
     (length (ext s) <= 62)%nat) /\
  (forall e m, rec_extrema r faint = Some (e, m) -> (length e <= 31)%nat) /\
  0 <= rec_frac d lo hi <= 1024.
Proof.
  split_and!.
  - intros x. apply extract_bound.
  - intros s. apply search_ext_bound. cbn. lia.
  - intros e m. apply extrema_bound.
  - apply rec_frac_range.
  - apply rec_frac_range.
Qed.

Lemma correction_one star rs gap c rs' b : config_valid c = true ->
  length rs = 29%nat -> Forall (fun r => 0 <= r) rs -> star = STAR \/ star = MIRRORED_STAR ->
  shared_fit star rs gap c = Some b -> adjust c b rs = Some rs' ->
  rs' = imap (fun i run => biased b (Z.of_nat i) run) rs /\ sumZ rs' = sumZ rs + b /\
  Forall (fun v => 0 < v <= max_run_us c) rs' /\ 4 * Z.abs b <= 3 * max_run_us c /\
  exists star n0 n1, (star = STAR \/ star = MIRRORED_STAR) /\
    character (stripes rs' 0) gap c = Some (star, n0) /\ character (stripes rs' 2) gap c = Some (star, n1).
Proof.
  intros Hc Hlen Hpos Hstar Hf Ea. destruct (adjust_some _ _ _ _ Ea) as [E Hrange].
  destruct (shared_fit_sound _ _ _ _ _ Hc Hpos Hf) as (Hb & s0 & s1 & H0 & H1).
  destruct (star_score_some _ _ _ _ _ _ H0) as (a0 & n0 & Ha0 & Hc0).
  destruct (star_score_some _ _ _ _ _ _ H1) as (a1 & n1 & Ha1 & Hc1).
  apply adjust_some in Ha0, Ha1. destruct Ha0 as [Ea0 _], Ha1 as [Ea1 _].
  split_and!; try done; [rewrite E; by apply biased_sum |].
  exists star, n0, n1. split_and!; [done | |].
  - unfold stripes. rewrite E. cbn [drop Nat.mul]. by rewrite drop_0, <- imap_take, <- Ea0.
  - unfold stripes. rewrite E. change (10 * 2)%nat with 20%nat.
    rewrite imap_drop20 by lia. by rewrite <- imap_take, <- Ea1.
Qed.

(** Sentinel correction.  When the shared bias correction succeeds on 29
    widths, the result is the input with one bias added to every black and
    subtracted from every white stripe (so the frame grows by exactly that bias),
    every width stays within 1..max_run, the bias is at most three quarters of a
    stripe, and both sentinels of the corrected frame pass the strict character
    rules as the same star or mirrored star. *)
Theorem record_correction_sound rs gap c rs' b :
  length rs = 29%nat -> Forall (fun r => 0 <= r) rs ->
  s3_barcode_record_correct_runs rs gap c = Some (rs', b) ->
  rs' = imap (fun i run => biased b (Z.of_nat i) run) rs /\ sumZ rs' = sumZ rs + b /\
  Forall (fun v => 0 < v <= max_run_us c) rs' /\ 4 * Z.abs b <= 3 * max_run_us c /\
  exists star n0 n1, (star = STAR \/ star = MIRRORED_STAR) /\
    character (stripes rs' 0) gap c = Some (star, n0) /\ character (stripes rs' 2) gap c = Some (star, n1).
Proof.
  intros Hlen Hpos. unfold s3_barcode_record_correct_runs, rec_correct_shared_runs.
  destruct (config_valid c) eqn:Hc; cbn [negb orb]; [| done]. case_if; [done |].
  destruct (shared_fit STAR rs gap c) as [b0 |] eqn:E0, (shared_fit MIRRORED_STAR rs gap c) as [b1 |] eqn:E1;
    cbn [snd]; try done;
    (destruct (adjust c _ rs) as [rs1 |] eqn:Ea; [| done]); intros [= <- <-].
  - apply (correction_one STAR); auto.
  - apply (correction_one MIRRORED_STAR); auto.
Qed.

(** Every black stripe 12 ms too narrow, every white one 12 ms too wide. *)
Definition thin_frame : list Z :=
  imap (fun i run => biased (-12000) (Z.of_nat i) run) (printed 4 60000 120000 60000 60000).

Lemma record_correction_sound_witness :
  exists rs' b, s3_barcode_record_correct_runs thin_frame 10000 s3_barcode_defaults = Some (rs', b) /\
    sumZ rs' = sumZ thin_frame + b.
Proof.
  eexists _, _. split; [vm_compute; reflexivity |].
  refine (proj1 (proj2 (record_correction_sound thin_frame 10000 s3_barcode_defaults _ _ _ _ _))).
  - reflexivity.
  - vm_compute. repeat (constructor; [discriminate |]). constructor.
  - vm_compute. reflexivity.
Defined.

(** C40: time going backwards.  The carried remainder is added in 32 bits before
    the range test, so a timestamp up to the remainder BEHIND the previous one is accepted as a
    zero step instead of being reported as a stall. *)
Theorem rec_step_accepts_backward_time r k : 0 < k <= residual_us r -> residual_us r < 500 ->
  rec_step r (elapsed (rec_last_us r - k) (rec_last_us r)) =
    Some (0, r <| residual_us := residual_us r - k |>).
Proof.
  intros Hk Hr. unfold rec_step, elapsed, S3_REC_STEP_US, S3_REC_STEP_MAX.
  replace (rec_last_us r - k - rec_last_us r) with (- k) by lia.
  assert (u32 (- k) = 2 ^ 32 - k) as ->.
  { unfold u32, wrap. rewrite <- (Z_mod_plus_full (- k) 1 (2 ^ 32)).
    rewrite Z.mod_small; lia. }
  assert (u32 (2 ^ 32 - k + residual_us r) = residual_us r - k) as ->.
  { unfold u32, wrap. replace (2 ^ 32 - k + residual_us r) with (residual_us r - k + 1 * 2 ^ 32) by lia.
    rewrite Z_mod_plus_full. apply Z.mod_small. lia. }
  rewrite Z.div_small by lia. destruct (Z.eqb_spec (2 ^ 32 - k) 0); [lia |].
  cbn [orb]. rewrite Z.mul_0_l, Z.sub_0_r. unfold u16. rewrite !wrap_id by (unfold in_u; lia). done.
Qed.
Definition half_step : s3_barcode_record_t := s3_barcode_record_reset <| residual_us := 300 |> <| rec_last_us := 1000 |>.
Lemma rec_step_accepts_backward_time_witness :
  elapsed 900 1000 = 4294967196 /\ rec_step half_step (elapsed 900 1000) = Some (0, half_step <| residual_us := 200 |>).
Proof.
  split; [reflexivity |].
  exact (rec_step_accepts_backward_time half_step 100 ltac:(cbn; lia) ltac:(cbn; lia)).
Defined.
