(* ===== verification/BarcodeReader.v ===== *)
(** * What a barcode reader promises

    Navigation runs two readers side by side: the streaming decoder and the
    record-then-decide reader.  All it relies on is this interface: an
    invariant kept by resets and updates, under which a DECODED status comes
    with a letter A..Z and every other status with no result. *)
From S2P Require Import Prelude BarcodeDecoder BarcodeRecord.

Class BarcodeReader (D I : Type) := {
  reader_ok : D -> Prop;
  reader_reset : D -> D;
  reader_update : D -> I -> s3_barcode_status_t * D * s3_barcode_result_t;
  reader_reset_ok d : reader_ok d -> reader_ok (reader_reset d);
  reader_update_ok d i : reader_ok d -> reader_ok (reader_update d i).1.2;
  reader_decoded d i : reader_ok d -> (reader_update d i).1.1 = S3_BARCODE_DECODED ->
    CHAR_A <= letter (reader_update d i).2 <= CHAR_Z;
  reader_undecoded d i : reader_ok d -> (reader_update d i).1.1 <> S3_BARCODE_DECODED ->
    (reader_update d i).2 = zero_result
}.

(** Input of the streaming decoder: time, validity, colour. *)
#[export, refine] Instance live_reader : BarcodeReader s3_barcode_decoder_t (Z * bool * bool) := {|
  reader_ok := live_inv;
  reader_reset := s3_barcode_reset;
  reader_update := fun d '(now, valid, black) => s3_barcode_update d now valid black
|}.
Proof.
  - intros d. apply live_reset.
  - intros d [[now valid] black] L. apply (live_step d now valid black L).
  - intros d [[now valid] black] L H.
    destruct (live_step d now valid black L) as (_ & _ & Hd & _).
    destruct (Hd H) as [_ (_ & _ & Hl & _)]. exact Hl.
  - intros d [[now valid] black] L. apply (live_step d now valid black L).
Defined.

(** Input of the record reader: time, validity, darkness (a [uint16_t]). *)
#[export, refine] Instance record_reader (c : s3_barcode_config_t)
  : BarcodeReader s3_barcode_record_t (Z * bool * N) := {|
  reader_ok := rec_inv c;
  reader_reset := fun _ => s3_barcode_record_reset;
  reader_update := fun r '(now, valid, dark) =>
    s3_barcode_record_update r c now valid (Z.of_N dark) zero_result
|}.
Proof.
  - intros. apply rec_reset_inv.
  - intros r [[now valid] dark] L. apply (rs_inv _ _ _ _ _ (record_update_sound c r now valid (Z.of_N dark) L ltac:(lia))).
  - intros r [[now valid] dark] L H.
    destruct (rs_decoded _ _ _ _ _ (record_update_sound c r now valid (Z.of_N dark) L ltac:(lia)) H) as (s & r2 & _ & _ & _ & _ & Hl & -> & _).
    cbn [letter]. unfold CHAR_A, CHAR_Z. lia.
  - intros r [[now valid] dark] L H.
    exact (rs_none _ _ _ _ _ (record_update_sound c r now valid (Z.of_N dark) L ltac:(lia)) H).
Defined.
