(* ===== verification/Navigation.v ===== *)
(** * Line navigation

    Models [subsystem3/line_navigation.{c,h}]: the owner of the three sensors,
    the line detector and the two barcode readers.  It turns one sensor frame
    and one odometry sample into steering, events and a mapped barcode action,
    and runs the lifecycle INACTIVE / ACTIVE / FAULT_LATCHED.

    [s3_nav_action_t] values, which arrive unchecked from outside, are integers;
    flag words are integers combined with [Z.land] and [Z.lor]. *)
From S2P Require Import Prelude CFloat IrSensing LineDetection BarcodeDecoder BarcodeRecord BarcodeReader.

Definition S3_NAV_NONE : Z := 0.
Definition S3_NAV_LEFT : Z := 1.
Definition S3_NAV_RIGHT : Z := 2.
Definition S3_NAV_STRAIGHT : Z := 3.
Definition S3_NAV_UTURN : Z := 4.
Definition S3_NAV_ACTION_COUNT : Z := 5.

Inductive s3_processing_mode_t := S3_MODE_TRACK | S3_MODE_SUPPRESSED.
#[export] Instance processing_mode_eq_dec : EqDecision s3_processing_mode_t.
Proof. solve_decision. Defined.
Inductive s3_run_state_t := S3_RUN_INACTIVE | S3_RUN_ACTIVE | S3_RUN_FAULT_LATCHED.
#[export] Instance run_state_eq_dec : EqDecision s3_run_state_t.
Proof. solve_decision. Defined.

Definition S3_READY_CHANNELS : Z := 1.
Definition S3_READY_CALIBRATION : Z := 2.
Definition S3_READY_SENSORS : Z := 4.
Definition S3_READY_ODOMETRY : Z := 8.
Definition S3_READY_FAULT : Z := 16.
Definition S3_FAULT_SENSOR : Z := 1.
Definition S3_FAULT_TIMING : Z := 2.
Definition S3_FAULT_ODOMETRY : Z := 4.
Definition S3_FAULT_ODOMETRY_EPOCH : Z := 8.
Definition S3_EVENT_BARCODE : Z := 1.
Definition S3_EVENT_JUNCTION : Z := 2.
Definition S3_EVENT_LINE_LOST : Z := 4.
Definition S3_EVENT_LINE_REACQUIRED : Z := 8.
Definition S3_EVENT_SENSOR_FAULT : Z := 16.

Record s3_odometry_sample_t := {
  centre_m : double; odo_timestamp_us : Z; odo_epoch : Z; odo_valid : bool
}.
Record s3_capture_distance_t := {
  start_m : double; end_m : double; cap_epoch : Z; start_valid : bool; end_valid : bool
}.
#[export] Instance capture_settable : Settable s3_capture_distance_t := fun r =>
  Build_s3_capture_distance_t (start_m r) (end_m r) (cap_epoch r) (start_valid r) (end_valid r).
Definition zero_odometry : s3_odometry_sample_t :=
  {| centre_m := S754_zero false; odo_timestamp_us := 0; odo_epoch := 0; odo_valid := false |}.
Definition zero_capture : s3_capture_distance_t :=
  {| start_m := S754_zero false; end_m := S754_zero false; cap_epoch := 0; start_valid := false; end_valid := false |}.

Record s3_navigation_config_t := {
  acquisition : s3_acquisition_config_t;
  cfg_calibration : list ir_calibration_t; (** 3 entries *)
  cfg_line : s3_line_config_t;
  cfg_steering : s3_steering_config_t;
  cfg_barcode : s3_barcode_config_t;
  cfg_map : list Z; (** 26 entries *)
  max_sample_age_us : Z; rearm_stable_us : Z; fault_clear_us : Z;
  rearm_distance_m : double
}.
#[export] Instance nav_config_settable : Settable s3_navigation_config_t := fun r =>
  Build_s3_navigation_config_t (acquisition r) (cfg_calibration r) (cfg_line r) (cfg_steering r)
    (cfg_barcode r) (cfg_map r) (max_sample_age_us r) (rearm_stable_us r) (fault_clear_us r) (rearm_distance_m r).

Record s3_processed_sensor_t := { p_valid : bool; p_darkness : Z; p_surface : ir_surface_t }.
#[export] Instance processed_settable : Settable s3_processed_sensor_t := fun r =>
  Build_s3_processed_sensor_t (p_valid r) (p_darkness r) (p_surface r).
Definition zero_processed : s3_processed_sensor_t :=
  {| p_valid := false; p_darkness := 0; p_surface := IR_SURFACE_UNKNOWN |}.

Record s3_navigation_output_t := {
  out_timestamp_us : Z; sample_gap_us : Z; events : Z; fault_mask : Z;
  out_sensor : list s3_processed_sensor_t; (** 3 entries *)
  out_line : s3_line_observation_t;
  steering : s3_steering_request_t; steering_preview : s3_steering_request_t;
  out_lifecycle : s3_run_state_t; readiness_blockers : Z; out_latched_faults : Z;
  out_accepted_calibration : Z;
  stop_requested : bool; out_odometry_available : bool; out_rearming : bool; diagnostic : bool;
  out_capture_distance : s3_capture_distance_t;
  barcode_status : s3_barcode_status_t; out_barcode : s3_barcode_result_t; action : Z
}.
#[export] Instance nav_output_settable : Settable s3_navigation_output_t := fun r =>
  Build_s3_navigation_output_t (out_timestamp_us r) (sample_gap_us r) (events r) (fault_mask r)
    (out_sensor r) (out_line r) (steering r) (steering_preview r) (out_lifecycle r)
    (readiness_blockers r) (out_latched_faults r) (out_accepted_calibration r) (stop_requested r)
    (out_odometry_available r) (out_rearming r) (diagnostic r) (out_capture_distance r)
    (barcode_status r) (out_barcode r) (action r).
Definition zero_output : s3_navigation_output_t :=
  {| out_timestamp_us := 0; sample_gap_us := 0; events := 0; fault_mask := 0;
     out_sensor := replicate 3 zero_processed; out_line := zero_observation;
     steering := zero_steering; steering_preview := zero_steering; out_lifecycle := S3_RUN_INACTIVE;
     readiness_blockers := 0; out_latched_faults := 0; out_accepted_calibration := 0;
     stop_requested := false; out_odometry_available := false; out_rearming := false;
     diagnostic := false; out_capture_distance := zero_capture;
     barcode_status := S3_BARCODE_NONE; out_barcode := zero_result; action := S3_NAV_NONE |}.

Record s3_navigation_t := {
  nav_config : s3_navigation_config_t;
  nav_sensor : list ir_reflectance_t; (** 3 entries *)
  nav_line : s3_line_detector_t;
  nav_barcode : s3_barcode_decoder_t;
  barcode_record : s3_barcode_record_t;
  nav_last_us : Z; sensor_last_us : list Z; (** 3 entries *)
  seen_sensors : Z; mode : s3_processing_mode_t; nav_configured : bool; seen_frame : bool;
  lifecycle : s3_run_state_t; accepted_calibration : Z; valid_sensors : Z;
  current_faults : Z; latched_faults : Z;
  odometry : s3_odometry_sample_t; odometry_available : bool; seen_odometry : bool;
  healthy_tracking : bool; healthy_since_us : Z;
  rearming : bool; rearm_anchor_valid : bool; rearm_stable : bool;
  barcode_held : Z; (** code of a held status, 0 for none *)
  rearm_anchor_m : double; rearm_epoch : Z; rearm_since_us : Z;
  capture_distance : s3_capture_distance_t
}.
#[export] Instance nav_settable : Settable s3_navigation_t := fun r =>
  Build_s3_navigation_t (nav_config r) (nav_sensor r) (nav_line r) (nav_barcode r) (barcode_record r)
    (nav_last_us r) (sensor_last_us r) (seen_sensors r) (mode r) (nav_configured r) (seen_frame r)
    (lifecycle r) (accepted_calibration r) (valid_sensors r) (current_faults r) (latched_faults r)
    (odometry r) (odometry_available r) (seen_odometry r) (healthy_tracking r) (healthy_since_us r)
    (rearming r) (rearm_anchor_valid r) (rearm_stable r) (barcode_held r) (rearm_anchor_m r)
    (rearm_epoch r) (rearm_since_us r) (capture_distance r).

Definition zero_calibration : ir_calibration_t :=
  {| white_raw := 0; black_raw := 0; white_limit := 0; black_limit := 0 |}.
Definition zero_nav_config : s3_navigation_config_t :=
  {| acquisition := {| channel := [0; 0; 0]; enabled_mask := 0 |};
     cfg_calibration := replicate 3 zero_calibration; cfg_line := zero_line_config;
     cfg_steering := {| base_mps := fzero; kp_mps := fzero; maximum_mps := fzero |};
     cfg_barcode := zero_barcode_config; cfg_map := replicate 26 0;
     max_sample_age_us := 0; rearm_stable_us := 0; fault_clear_us := 0;
     rearm_distance_m := S754_zero false |}.
Definition zero_navigation : s3_navigation_t :=
  {| nav_config := zero_nav_config;
     nav_sensor := replicate 3 {| calibration := zero_calibration; surface := IR_SURFACE_UNKNOWN;
                                  IrSensing.configured := false |};
     nav_line := LineDetection.zero_detector; nav_barcode := zero_decoder;
     barcode_record := s3_barcode_record_reset; nav_last_us := 0; sensor_last_us := [0; 0; 0];
     seen_sensors := 0; mode := S3_MODE_TRACK; nav_configured := false; seen_frame := false;
     lifecycle := S3_RUN_INACTIVE; accepted_calibration := 0; valid_sensors := 0;
     current_faults := 0; latched_faults := 0; odometry := zero_odometry;
     odometry_available := false; seen_odometry := false; healthy_tracking := false;
     healthy_since_us := 0; rearming := false; rearm_anchor_valid := false; rearm_stable := false;
     barcode_held := 0; rearm_anchor_m := S754_zero false; rearm_epoch := 0; rearm_since_us := 0;
     capture_distance := zero_capture |}.

(** C's encoding of the barcode status in the 3-bit [barcode_held]. *)
Definition status_code (s : s3_barcode_status_t) : Z :=
  match s with
  | S3_BARCODE_NONE => 0 | S3_BARCODE_DECODED => 1 | S3_BARCODE_REJECTED => 2
  | S3_BARCODE_TIMING_ERROR => 3 | S3_BARCODE_OVERFLOW => 4
  end.
Definition status_of (z : Z) : option s3_barcode_status_t :=
  if z =? 0 then Some S3_BARCODE_NONE else if z =? 1 then Some S3_BARCODE_DECODED
  else if z =? 2 then Some S3_BARCODE_REJECTED else if z =? 3 then Some S3_BARCODE_TIMING_ERROR
  else if z =? 4 then Some S3_BARCODE_OVERFLOW else None.
Definition held_status (z : Z) : s3_barcode_status_t := default S3_BARCODE_NONE (status_of z).

Definition s3_navigation_defaults : s3_navigation_config_t :=
  {| acquisition := {| channel := [2; 1; 0]; enabled_mask := 1 |};
     cfg_calibration := replicate 3
       {| white_raw := 150; black_raw := 280; white_limit := 400; black_limit := 600 |};
     cfg_line := s3_line_defaults; cfg_steering := s3_steering_defaults; cfg_barcode := s3_barcode_defaults;
     cfg_map := [S3_NAV_LEFT; S3_NAV_RIGHT; S3_NAV_STRAIGHT; S3_NAV_UTURN] ++ replicate 22 S3_NAV_NONE;
     max_sample_age_us := 30000; rearm_stable_us := 30000; fault_clear_us := 100000;
     rearm_distance_m := dlit 20 1000 |}.

(** ** Initialisation *)
Fixpoint init_sensors (n : s3_navigation_t) (config : s3_navigation_config_t) (ids : list Z)
  : bool * s3_navigation_t :=
  match ids with
  | [] => (true, n)
  | i :: ids =>
      let old := nthZ blank_sensor (nav_sensor n) i in
      let '(ok, s) := ir_reflectance_init old (Some (nthZ zero_calibration (cfg_calibration config) i)) in
      let n := n <| nav_sensor := setZ (nav_sensor n) i s |> in
      if ok then init_sensors n config ids else (false, n)
  end.

Definition us_range_bad (us : Z) : bool := (us =? 0) || (0x80000000 <=? us).
Definition map_bad (map : list Z) : bool := existsb (fun a => S3_NAV_ACTION_COUNT <=? u32 a) map.

Definition s3_navigation_init (config : option s3_navigation_config_t) : bool * s3_navigation_t :=
  let n := zero_navigation in
  match config with
  | None => (false, n)
  | Some config =>
      if negb (s3_acquisition_config_valid (acquisition config)) ||
         negb (s3_steering_config_valid (cfg_steering config)) then (false, n)
      else
        let '(line_ok, line) := s3_line_init (Some (cfg_line config)) in
        let n := n <| nav_line := line |> in
        if negb line_ok then (false, n)
        else
          let '(barcode_ok, barcode) := s3_barcode_init (Some (cfg_barcode config)) in
          let n := n <| nav_barcode := barcode |> in
          if negb barcode_ok || us_range_bad (max_sample_age_us config) ||
             us_range_bad (rearm_stable_us config) || us_range_bad (fault_clear_us config) ||
             negb (isfinite (rearm_distance_m config)) ||
             (rearm_distance_m config <=. S754_zero false)
          then (false, n)
          else
            let '(ok, n) := init_sensors n config (range S3_SENSOR_COUNT) in
            if negb ok || map_bad (cfg_map config) then (false, n)
            else (true, n <| nav_config := config |> <| mode := S3_MODE_TRACK |>
                          <| nav_configured := true |>)
  end.

(** ** Control operations *)
Definition reset_barcode (n : s3_navigation_t) : s3_navigation_t :=
  n <| nav_barcode := s3_barcode_reset (nav_barcode n) |>
    <| barcode_record := s3_barcode_record_reset |> <| barcode_held := 0 |>.

Definition begin_rearm (n : s3_navigation_t) : s3_navigation_t :=
  reset_barcode (n <| rearming := true |> <| rearm_stable := false |>
    <| rearm_anchor_valid := odometry_available n |>
    <| rearm_anchor_m := centre_m (odometry n) |> <| rearm_epoch := odo_epoch (odometry n) |>).

Definition s3_navigation_set_mode (n : s3_navigation_t) (m : s3_processing_mode_t)
  : bool * s3_navigation_t :=
  if negb (nav_configured n) then (false, n)
  else if bool_decide (mode n = m) then (true, n)
  else
    let n := reset_barcode (n <| nav_line := s3_line_reset (nav_line n) |>) in
    let n := n <| capture_distance := zero_capture |> in
    let n := if bool_decide (lifecycle n = S3_RUN_ACTIVE) then begin_rearm n else n in
    (true, n <| mode := m |>).

Definition sensor_bit_clear (mask id : Z) : Z := Z.land mask (Z.lnot (S3_SENSOR_BIT id)).

Definition s3_navigation_apply_calibration (n : s3_navigation_t) (id : Z)
    (collector : s3_calibration_collector_t) : bool * s3_navigation_t :=
  if negb (nav_configured n) || negb (bool_decide (lifecycle n = S3_RUN_INACTIVE)) || (3 <=? u32 id)
  then (false, n)
  else
    let '(ok, candidate) := s3_calibration_finish blank_sensor collector
      (nthZ zero_calibration (cfg_calibration (nav_config n)) id) in
    if negb ok then (false, n)
    else
      let n := n <| nav_config := nav_config n <| cfg_calibration :=
                      setZ (cfg_calibration (nav_config n)) id candidate |> |>
        <| accepted_calibration := wrap 3 (Z.lor (accepted_calibration n) (S3_SENSOR_BIT id)) |>
        <| valid_sensors := wrap 3 (sensor_bit_clear (valid_sensors n) id) |> in
      let s := (ir_reflectance_init (nthZ blank_sensor (nav_sensor n) id) (Some candidate)).2 in
      let n := n <| nav_sensor := setZ (nav_sensor n) id s |>
                 <| nav_line := s3_line_reset (nav_line n) |> in
      (true, reset_barcode n).

Definition s3_navigation_set_mapping (n : s3_navigation_t) (map : list Z) : bool * s3_navigation_t :=
  if negb (nav_configured n) || negb (bool_decide (lifecycle n = S3_RUN_INACTIVE)) then (false, n)
  else if map_bad map then (false, n)
  else (true, n <| nav_config := nav_config n <| cfg_map := map |> |>).

Definition stale (n : s3_navigation_t) (now stamp : Z) : bool :=
  max_sample_age_us (nav_config n) <? elapsed now stamp.

Definition s3_navigation_readiness (n : s3_navigation_t) (now_us : Z) : Z :=
  if negb (nav_configured n) then
    Z.lor (Z.lor (Z.lor S3_READY_CHANNELS S3_READY_CALIBRATION) S3_READY_SENSORS) S3_READY_ODOMETRY
  else
    let flag (b : bool) (f blockers : Z) := if b then Z.lor blockers f else blockers in
    let blockers := flag (negb (enabled_mask (acquisition (nav_config n)) =? S3_ALL_SENSORS)) S3_READY_CHANNELS 0 in
    let blockers := flag (negb (accepted_calibration n =? S3_ALL_SENSORS)) S3_READY_CALIBRATION blockers in
    let blockers := flag (negb (seen_frame n) || negb (valid_sensors n =? S3_ALL_SENSORS) ||
                          stale n now_us (nav_last_us n)) S3_READY_SENSORS blockers in
    let blockers := fold_left (fun blockers i =>
      flag (stale n now_us (nthZ 0 (sensor_last_us n) i)) S3_READY_SENSORS blockers)
      (range S3_SENSOR_COUNT) blockers in
    let blockers := flag (negb (odometry_available n) || stale n now_us (odo_timestamp_us (odometry n)))
      S3_READY_ODOMETRY blockers in
    flag (bool_decide (lifecycle n = S3_RUN_FAULT_LATCHED)) S3_READY_FAULT blockers.

Definition s3_navigation_start (n : s3_navigation_t) (now_us : Z) : bool * s3_navigation_t :=
  if negb (nav_configured n) || negb (bool_decide (lifecycle n = S3_RUN_INACTIVE)) ||
     negb (s3_navigation_readiness n now_us =? 0) then (false, n)
  else
    let n := n <| lifecycle := S3_RUN_ACTIVE |> <| nav_line := s3_line_reset (nav_line n) |> in
    let n := reset_barcode n in
    (true, n <| capture_distance := zero_capture |> <| rearming := false |>).

Definition s3_navigation_end_run (n : s3_navigation_t) : bool * s3_navigation_t :=
  if negb (nav_configured n) || bool_decide (lifecycle n = S3_RUN_FAULT_LATCHED) then (false, n)
  else
    let n := n <| lifecycle := S3_RUN_INACTIVE |> <| rearming := false |>
               <| nav_line := s3_line_reset (nav_line n) |> in
    (true, reset_barcode n <| capture_distance := zero_capture |>).

Definition s3_navigation_reset_fault (n : s3_navigation_t) (now_us : Z) : bool * s3_navigation_t :=
  if negb (nav_configured n) || negb (bool_decide (lifecycle n = S3_RUN_FAULT_LATCHED)) ||
     negb (Z.land (s3_navigation_readiness n now_us) (Z.lnot S3_READY_FAULT) =? 0) ||
     negb (current_faults n =? 0) || negb (healthy_tracking n) ||
     (elapsed (nav_last_us n) (healthy_since_us n) <? fault_clear_us (nav_config n))
  then (false, n)
  else s3_navigation_end_run (n <| lifecycle := S3_RUN_INACTIVE |> <| latched_faults := 0 |>).

(** ** Processing one frame *)
Definition barcode_sensor (out : s3_navigation_output_t) : s3_processed_sensor_t :=
  nthZ zero_processed (out_sensor out) S3_SENSOR_BARCODE.

Definition rearm_ready (n : s3_navigation_t) (frame : s3_sensor_frame_t) (out : s3_navigation_output_t)
  : bool * s3_navigation_t :=
  let barcode := barcode_sensor out in
  let clear := obs_valid (out_line out) && obs_present (out_line out) &&
    negb (junction_candidate (out_line out)) && p_valid barcode &&
    bool_decide (p_surface barcode = IR_SURFACE_WHITE) && odometry_available n in
  if negb clear then (false, n <| rearm_stable := false |>)
  else
    let n := if negb (rearm_anchor_valid n) then
        n <| rearm_anchor_m := centre_m (odometry n) |> <| rearm_epoch := odo_epoch (odometry n) |>
          <| rearm_anchor_valid := true |>
      else n in
    let n := if negb (rearm_stable n) then
        n <| rearm_since_us := frame_timestamp_us frame |> <| rearm_stable := true |>
      else n in
    let distance := (centre_m (odometry n) - rearm_anchor_m n)%f64 in
    let distance := if distance <. S754_zero false then -. distance else distance in
    if negb (odo_epoch (odometry n) =? rearm_epoch n) ||
       (elapsed (frame_timestamp_us frame) (rearm_since_us n) <? rearm_stable_us (nav_config n)) ||
       (distance <. rearm_distance_m (nav_config n))
    then (false, n)
    else (true, n <| rearming := false |>).

Definition frame_sample (frame : s3_sensor_frame_t) (i : Z) : s3_raw_sample_t :=
  nthZ zero_sample (sensor frame) i.

Definition barcode_busy (n : s3_navigation_t) : bool :=
  collecting (nav_barcode n) || s3_barcode_record_active (barcode_record n).

(** The two readers on one sample: which status is reported, and when a live
    failure is held back for the recorder. *)
Definition read_barcode_sample (n : s3_navigation_t) (frame : s3_sensor_frame_t)
    (out : s3_navigation_output_t) : s3_navigation_t * s3_navigation_output_t :=
  let barcode := barcode_sensor out in
  let t := sample_timestamp_us (frame_sample frame S3_SENSOR_BARCODE) in
  let '(live, d, live_result) := s3_barcode_update (nav_barcode n) t
    (p_valid barcode && negb (bool_decide (p_surface barcode = IR_SURFACE_UNKNOWN)))
    (bool_decide (p_surface barcode = IR_SURFACE_BLACK)) in
  let '(rec, r, rec_result) := s3_barcode_record_update (barcode_record n) (cfg_barcode (nav_config n)) t
    (p_valid barcode) (p_darkness barcode) zero_result in
  let n := n <| nav_barcode := d |> <| barcode_record := r |> in
  let out := out <| barcode_status := S3_BARCODE_NONE |> in
  if bool_decide (live = S3_BARCODE_DECODED) then
    (n <| barcode_record := s3_barcode_record_reset |> <| barcode_held := 0 |>,
     out <| barcode_status := live |> <| out_barcode := live_result |>)
  else if bool_decide (rec = S3_BARCODE_DECODED) then
    (n <| nav_barcode := s3_barcode_reset d |> <| barcode_held := 0 |>,
     out <| barcode_status := rec |> <| out_barcode := rec_result |>)
  else
    let '(n, out) :=
      if negb (bool_decide (live = S3_BARCODE_NONE)) then
        if s3_barcode_record_active r then (n <| barcode_held := wrap 3 (status_code live) |>, out)
        else (n, out <| barcode_status := live |>)
      else (n, out) in
    if negb (bool_decide (rec = S3_BARCODE_NONE)) && negb (collecting d) && negb (pending d) then
      (n <| barcode_held := 0 |>,
       out <| barcode_status := if negb (barcode_held n =? 0) then held_status (barcode_held n) else rec |>)
    else if negb (barcode_held n =? 0) && negb (s3_barcode_record_active r) then
      (n <| barcode_held := 0 |>, out <| barcode_status := held_status (barcode_held n) |>)
    else (n, out).

Definition process_barcode (n : s3_navigation_t) (frame : s3_sensor_frame_t) (out : s3_navigation_output_t)
  : s3_navigation_t * s3_navigation_output_t :=
  let is_active := bool_decide (lifecycle n = S3_RUN_ACTIVE) in
  if negb (bool_decide (mode n = S3_MODE_TRACK)) ||
     negb (mask_has (enabled_mask (acquisition (nav_config n))) S3_SENSOR_BARCODE) then (n, out)
  else
    let '(go, n) := if is_active && rearming n then rearm_ready n frame out else (true, n) in
    if negb go then (n, out)
    else
      let was_collecting := barcode_busy n in
      let '(n, out) := read_barcode_sample n frame out in
      let n :=
        if negb was_collecting && barcode_busy n then
          let cap := if odometry_available n then
              zero_capture <| start_valid := true |> <| start_m := centre_m (odometry n) |>
                <| cap_epoch := odo_epoch (odometry n) |>
            else zero_capture in
          n <| capture_distance := cap |>
        else n in
      let n :=
        if was_collecting && negb (bool_decide (barcode_status out = S3_BARCODE_NONE)) then
          let n :=
            if odometry_available n then
              let cap := capture_distance n <| end_valid := true |> <| end_m := centre_m (odometry n) |> in
              let cap := if start_valid cap && negb (cap_epoch cap =? odo_epoch (odometry n))
                         then cap <| start_valid := false |> else cap in
              n <| capture_distance := cap <| cap_epoch := odo_epoch (odometry n) |> |>
            else n in
          if is_active then begin_rearm n else n
        else n in
      (n, out).

(** One iteration of [process_sensors]. *)
Definition process_sensor (frame : s3_sensor_frame_t) (frame_time_bad : bool)
    (st : s3_navigation_t * s3_navigation_output_t * bool) (i : Z)
  : s3_navigation_t * s3_navigation_output_t * bool :=
  let '(n, out, sample_time_bad) := st in
  let raw := frame_sample frame i in
  let enabled := mask_has (enabled_mask (acquisition (nav_config n))) i in
  let timing_bad := stale n (frame_timestamp_us frame) (sample_timestamp_us raw) in
  let timing_bad :=
    if mask_has (seen_sensors n) i then
      let gap := elapsed (sample_timestamp_us raw) (nthZ 0 (sensor_last_us n) i) in
      timing_bad || (gap =? 0) || (max_sample_age_us (nav_config n) <? gap)
    else timing_bad in
  let sample_time_bad := if enabled && timing_bad then true else sample_time_bad in
  let s := nthZ blank_sensor (nav_sensor n) i in
  let p := nthZ zero_processed (out_sensor out) i in
  (* the && chain: the sensor is only updated when every test before holds *)
  let '(ok, s, p) :=
    if enabled && sample_enabled raw && sample_valid raw && (sample_error raw =? 0) &&
       negb timing_bad && negb frame_time_bad then
      let '(ok, s, darkness) := ir_reflectance_update s (sample_raw raw) (p_darkness p) in
      (ok, s, p <| p_darkness := darkness |>)
    else (false, s, p) in
  if ok then
    (n <| nav_sensor := setZ (nav_sensor n) i s |>
       <| valid_sensors := wrap 3 (Z.lor (valid_sensors n) (S3_SENSOR_BIT i)) |>
       <| seen_sensors := wrap 3 (Z.lor (seen_sensors n) (S3_SENSOR_BIT i)) |>
       <| sensor_last_us := setZ (sensor_last_us n) i (sample_timestamp_us raw) |>,
     out <| out_sensor := setZ (out_sensor out) i (p <| p_valid := true |> <| p_surface := surface s |>) |>,
     sample_time_bad)
  else
    (n <| nav_sensor := setZ (nav_sensor n) i (ir_reflectance_reset s) |>
       <| seen_sensors := wrap 3 (sensor_bit_clear (seen_sensors n) i) |>,
     (if enabled then out <| fault_mask := u8 (Z.lor (fault_mask out) (S3_SENSOR_BIT i)) |> else out)
       <| out_sensor := setZ (out_sensor out) i p |>,
     sample_time_bad).

Definition process_sensors (n : s3_navigation_t) (frame : s3_sensor_frame_t)
    (out : s3_navigation_output_t) (frame_time_bad : bool)
  : s3_navigation_t * s3_navigation_output_t * bool :=
  fold_left (process_sensor frame frame_time_bad) (range S3_SENSOR_COUNT)
    (n <| valid_sensors := 0 |>, out, frame_time_bad).

Definition odometry_fresh (n : s3_navigation_t) (now : Z) (odo : option s3_odometry_sample_t) : bool :=
  match odo with
  | Some o => odo_valid o && isfinite (centre_m o) &&
      (elapsed now (odo_timestamp_us o) <=? max_sample_age_us (nav_config n))
  | None => false
  end.
Definition epoch_changed (n : s3_navigation_t) (odo : option s3_odometry_sample_t) (available : bool) : bool :=
  match odo with
  | Some o => available && seen_odometry n && negb (odo_epoch o =? odo_epoch (odometry n))
  | None => false
  end.
Definition take_odometry (n : s3_navigation_t) (odo : option s3_odometry_sample_t) (available : bool)
  : s3_navigation_t :=
  let n := n <| odometry_available := available |> in
  match odo with
  | Some o => if available then n <| odometry := o |> <| seen_odometry := true |> else n
  | None => n
  end.
Definition fault_flags (mask : Z) (time_bad available epoch : bool) : Z :=
  let flag (b : bool) (f faults : Z) := if b then Z.lor faults f else faults in
  let faults := flag (negb (mask =? 0)) S3_FAULT_SENSOR 0 in
  let faults := flag time_bad S3_FAULT_TIMING faults in
  let faults := flag (negb available) S3_FAULT_ODOMETRY faults in
  flag epoch S3_FAULT_ODOMETRY_EPOCH faults.
Definition track_health (n : s3_navigation_t) (now : Z) : s3_navigation_t :=
  if (current_faults n =? 0) && (valid_sensors n =? S3_ALL_SENSORS) then
    if negb (healthy_tracking n) then
      n <| healthy_since_us := now |> <| healthy_tracking := true |>
    else n
  else n <| healthy_tracking := false |>.
Definition latch_faults (n : s3_navigation_t) (out : s3_navigation_output_t)
  : s3_navigation_t * s3_navigation_output_t :=
  if bool_decide (lifecycle n = S3_RUN_ACTIVE) && negb (current_faults n =? 0) then
    (reset_barcode (n <| lifecycle := S3_RUN_FAULT_LATCHED |> <| latched_faults := current_faults n |>)
       <| capture_distance := zero_capture |>,
     out <| events := Z.lor (events out) S3_EVENT_SENSOR_FAULT |>)
  else if bool_decide (lifecycle n = S3_RUN_FAULT_LATCHED) then
    (n <| latched_faults := wrap 4 (Z.lor (latched_faults n) (current_faults n)) |>, out)
  else (n, out).

Definition process_health (n : s3_navigation_t) (frame : s3_sensor_frame_t)
    (odo : option s3_odometry_sample_t) (out : s3_navigation_output_t) (sample_time_bad : bool)
  : s3_navigation_t * s3_navigation_output_t :=
  let now := frame_timestamp_us frame in
  let available := odometry_fresh n now odo in
  let epoch := epoch_changed n odo available in
  let n := take_odometry n odo available in
  let n := n <| current_faults := wrap 4 (fault_flags (fault_mask out) sample_time_bad available epoch) |> in
  latch_faults (track_health n now) out.

(** The actionable part of the output: steering, events and action. *)
Definition publish_actions (n : s3_navigation_t) (out : s3_navigation_output_t) : s3_navigation_output_t :=
  if bool_decide (lifecycle n = S3_RUN_ACTIVE) && bool_decide (mode n = S3_MODE_TRACK) then
    let event (b : bool) (e : Z) (out : s3_navigation_output_t) :=
      if b then out <| events := Z.lor (events out) e |> else out in
    let out := out <| steering := steering_preview out |> in
    let out := event (lost_event (out_line out)) S3_EVENT_LINE_LOST out in
    let out := event (reacquired_event (out_line out)) S3_EVENT_LINE_REACQUIRED out in
    let out := event (junction_event (out_line out)) S3_EVENT_JUNCTION out in
    if bool_decide (barcode_status out = S3_BARCODE_DECODED) then
      event true S3_EVENT_BARCODE out
        <| action := nthZ 0 (cfg_map (nav_config n)) (u32 (letter (out_barcode out) - CHAR_A)) |>
    else out
  else
    out <| out_line := out_line out <| lost_event := false |> <| reacquired_event := false |>
                         <| junction_event := false |> |>.

Definition publish_state (n : s3_navigation_t) (now_us : Z) (out : s3_navigation_output_t)
  : s3_navigation_output_t :=
  out <| out_lifecycle := lifecycle n |> <| readiness_blockers := s3_navigation_readiness n now_us |>
      <| out_accepted_calibration := accepted_calibration n |>
      <| out_latched_faults := latched_faults n |>
      <| stop_requested := bool_decide (lifecycle n = S3_RUN_FAULT_LATCHED) |>
      <| out_odometry_available := odometry_available n |> <| out_rearming := rearming n |>
      <| diagnostic := negb (bool_decide (lifecycle n = S3_RUN_ACTIVE)) ||
                       negb (bool_decide (mode n = S3_MODE_TRACK)) |>
      <| out_capture_distance := capture_distance n |>.

Definition s3_navigation_process (n : s3_navigation_t) (frame : option s3_sensor_frame_t)
    (odo : option s3_odometry_sample_t) : bool * s3_navigation_t * s3_navigation_output_t :=
  match frame with
  | None => (false, n, zero_output)
  | Some frame =>
      if negb (nav_configured n) then (false, n, zero_output)
      else
        let now := frame_timestamp_us frame in
        let gap := if seen_frame n then elapsed now (nav_last_us n) else 0 in
        let out := zero_output <| out_timestamp_us := now |> <| sample_gap_us := gap |> in
        let frame_time_bad := seen_frame n && ((gap =? 0) || (max_sample_age_us (nav_config n) <? gap)) in
        let n := n <| nav_last_us := now |> <| seen_frame := true |> in
        let '(n, out, sample_time_bad) := process_sensors n frame out frame_time_bad in
        let '(n, out) := process_health n frame odo out sample_time_bad in
        let left := nthZ zero_processed (out_sensor out) S3_SENSOR_LEFT in
        let right := nthZ zero_processed (out_sensor out) S3_SENSOR_RIGHT in
        let '(line, obs) := s3_line_update (nav_line n) now (p_valid left && p_valid right)
          (p_darkness left) (p_darkness right) in
        let n := n <| nav_line := line |> in
        let out := out <| out_line := obs |>
          <| steering_preview := s3_steering_compute (cfg_steering (nav_config n)) obs |> in
        let '(n, out) := process_barcode n frame out in
        (true, n, publish_state n now (publish_actions n out))
  end.

(** ** What each stage leaves alone *)
Definition core (n : s3_navigation_t) :=
  (nav_config n, mode n, nav_configured n, lifecycle n, latched_faults n, accepted_calibration n).
Definition readers (n : s3_navigation_t) := (nav_barcode n, barcode_record n, barcode_held n).
(** The output fields that are still zero until the last stages. *)
Definition actionable (out : s3_navigation_output_t) :=
  (steering out, steering_preview out, action out).

Lemma process_sensor_core frame bad st i :
  let st' := process_sensor frame bad st i in
  core st'.1.1 = core st.1.1 /\ readers st'.1.1 = readers st.1.1 /\
  nav_last_us st'.1.1 = nav_last_us st.1.1 /\ seen_frame st'.1.1 = seen_frame st.1.1 /\
  rearming st'.1.1 = rearming st.1.1 /\
  actionable st'.1.2 = actionable st.1.2 /\ events st'.1.2 = events st.1.2 /\
  barcode_status st'.1.2 = barcode_status st.1.2 /\ out_barcode st'.1.2 = out_barcode st.1.2.
Proof.
  destruct st as [[n out] b]. unfold process_sensor. cbv zeta.
  destruct (if _ && _ then _ else _) as [[ok s] p] eqn:E in |- *.
  destruct ok; [done |]. by destruct (mask_has _ i).
Qed.

Lemma process_sensors_core n frame out bad :
  let st' := process_sensors n frame out bad in
  core st'.1.1 = core n /\ readers st'.1.1 = readers n /\
  nav_last_us st'.1.1 = nav_last_us n /\ seen_frame st'.1.1 = seen_frame n /\
  rearming st'.1.1 = rearming n /\
  actionable st'.1.2 = actionable out /\ events st'.1.2 = events out /\
  barcode_status st'.1.2 = barcode_status out /\ out_barcode st'.1.2 = out_barcode out.
Proof.
  unfold process_sensors. generalize (range S3_SENSOR_COUNT) as ids. intros ids.
  set (st := (n <| valid_sensors := 0 |>, out, bad)).
  assert (H : forall st, let st' := fold_left (process_sensor frame bad) ids st in
    core st'.1.1 = core st.1.1 /\ readers st'.1.1 = readers st.1.1 /\
    nav_last_us st'.1.1 = nav_last_us st.1.1 /\ seen_frame st'.1.1 = seen_frame st.1.1 /\
    rearming st'.1.1 = rearming st.1.1 /\
    actionable st'.1.2 = actionable st.1.2 /\ events st'.1.2 = events st.1.2 /\
    barcode_status st'.1.2 = barcode_status st.1.2 /\ out_barcode st'.1.2 = out_barcode st.1.2).
  { induction ids as [| i ids IH]; intros st0; cbn; [done |].
    destruct (IH (process_sensor frame bad st0 i)) as (-> & -> & -> & -> & -> & -> & -> & -> & ->).
    apply process_sensor_core. }
  exact (H st).
Qed.

(** Health: faults are recomputed; an active run with a fault is latched. *)
Lemma fault_flags_spec mask bad available epoch :
  in_u 4 (fault_flags mask bad available epoch) /\
  (fault_flags mask bad available epoch = 0 <-> mask = 0 /\ bad = false /\ available = true /\ epoch = false).
Proof.
  unfold fault_flags, in_u. destruct (Z.eqb_spec mask 0), bad, available, epoch; cbn; split; try lia; split;
    try done; intros (? & ? & ? & ?); done.
Qed.

Record health_spec (n : s3_navigation_t) (odo : option s3_odometry_sample_t) (bad : bool)
    (out : s3_navigation_output_t) (n' : s3_navigation_t) (out' : s3_navigation_output_t) : Prop := {
  hs_faulted := bool_decide (lifecycle n = S3_RUN_ACTIVE) && negb (current_faults n' =? 0);
  hs_config : nav_config n' = nav_config n /\ mode n' = mode n /\ nav_configured n' = nav_configured n /\
    accepted_calibration n' = accepted_calibration n /\ valid_sensors n' = valid_sensors n /\
    rearming n' = rearming n;
  hs_lifecycle : lifecycle n' = if hs_faulted then S3_RUN_FAULT_LATCHED else lifecycle n;
  hs_latched : latched_faults n' =
    if hs_faulted then current_faults n'
    else if bool_decide (lifecycle n = S3_RUN_FAULT_LATCHED)
         then wrap 4 (Z.lor (latched_faults n) (current_faults n')) else latched_faults n;
  hs_readers : readers n' =
    if hs_faulted then (s3_barcode_reset (nav_barcode n), s3_barcode_record_reset, 0) else readers n;
  hs_out : actionable out' = actionable out /\ out_sensor out' = out_sensor out /\
    fault_mask out' = fault_mask out /\ barcode_status out' = barcode_status out /\
    out_barcode out' = out_barcode out;
  hs_events : events out' = if hs_faulted then Z.lor (events out) S3_EVENT_SENSOR_FAULT else events out;
  hs_faults : in_u 4 (current_faults n') /\
    (current_faults n' = 0 -> fault_mask out = 0 /\ bad = false /\ odometry_available n' = true)
}.

Lemma process_health_spec n frame odo out bad :
  health_spec n odo bad out (process_health n frame odo out bad).1 (process_health n frame odo out bad).2.
Proof.
  unfold process_health. set (now := frame_timestamp_us frame). cbv zeta.
  set (avail := odometry_fresh n now odo). set (ep := epoch_changed n odo avail).
  destruct (fault_flags_spec (fault_mask out) bad avail ep) as [HF HZ].
  rewrite (wrap_id 4) by done. set (faults := fault_flags (fault_mask out) bad avail ep) in *.
  set (n2 := take_odometry n odo avail).
  assert (H2 : core n2 = core n /\ readers n2 = readers n /\ rearming n2 = rearming n /\
    odometry_available n2 = avail /\ valid_sensors n2 = valid_sensors n).
  { subst n2. unfold take_odometry. destruct odo; [destruct avail |]; done. }
  clearbody n2 faults. set (n4 := track_health (n2 <| current_faults := faults |>) now).
  assert (H4 : core n4 = core n2 /\ readers n4 = readers n2 /\ rearming n4 = rearming n2 /\
    odometry_available n4 = odometry_available n2 /\ valid_sensors n4 = valid_sensors n2 /\
    current_faults n4 = faults).
  { subst n4. unfold track_health. repeat case_if; done. }
  clearbody n4. destruct H2 as (Hc & Hr & Hre & Hav & Hv), H4 as (Hc4 & Hr4 & Hre4 & Hav4 & Hv4 & Hf4).
  rewrite <- Hc4 in Hc. rewrite <- Hr4 in Hr. unfold core, readers in Hc, Hr.
  injection Hc as Hc1 Hc2 Hc3 Hc4' Hc5 Hc6. injection Hr as Hr1 Hr2 Hr3.
  assert (HZ' : faults = 0 -> fault_mask out = 0 /\ bad = false /\ avail = true) by naive_solver.
  assert (Hout : faults = 0 -> fault_mask out = 0 /\ bad = false /\ odometry_available n4 = true).
  { intros H0. destruct (HZ' H0) as (? & ? & ?). splits; congruence. }
  unfold latch_faults. rewrite Hc4', Hf4.
  destruct (bool_decide (lifecycle n = S3_RUN_ACTIVE)) eqn:EA; cbn [andb].
  - apply bool_decide_eq_true in EA. destruct (negb (faults =? 0)) eqn:EF; cbn [fst snd].
    + constructor; cbn -[Z.lor] in *; rewrite ?EA, ?Hf4, ?EF, ?bool_decide_eq_true_2 by done; cbn -[Z.lor];
        unfold readers; cbn; splits; congruence || done.
    + rewrite EA. rewrite (bool_decide_eq_false_2 (S3_RUN_ACTIVE = S3_RUN_FAULT_LATCHED)) by done.
      constructor; cbn in *; rewrite ?EA, ?Hf4, ?EF, ?bool_decide_eq_true_2, ?bool_decide_eq_false_2 by done;
        cbn; unfold readers; splits; congruence || done.
  - destruct (bool_decide (lifecycle n = S3_RUN_FAULT_LATCHED)) eqn:EL; cbn [fst snd].
    all: constructor; cbn -[wrap Z.lor] in *; rewrite ?EA, ?EL, ?Hf4, ?Hc5; cbn -[wrap Z.lor]; unfold readers;
      cbn -[wrap Z.lor]; splits; congruence || done.
Qed.

(** ** Invariant *)
Definition held_ok (h : Z) : Prop := h = 0 \/ h = 2 \/ h = 3 \/ h = 4.
Record nav_inv (n : s3_navigation_t) : Prop := {
  inv_map : length (cfg_map (nav_config n)) = 26%nat /\
            Forall (fun a => 0 <= a < S3_NAV_ACTION_COUNT) (cfg_map (nav_config n));
  inv_live : live_inv (nav_barcode n);
  inv_record : rec_inv (cfg_barcode (nav_config n)) (barcode_record n);
  inv_held : held_ok (barcode_held n);
  inv_latched : in_u 4 (latched_faults n) /\
    (lifecycle n = S3_RUN_FAULT_LATCHED <-> latched_faults n <> 0);
  inv_accepted : in_u 3 (accepted_calibration n)
}.

Lemma reset_barcode_inv n : nav_inv n -> nav_inv (reset_barcode n).
Proof.
  intros []. constructor; try done; [by apply live_reset | by left].
Qed.

Lemma begin_rearm_inv n : nav_inv n -> nav_inv (begin_rearm n).
Proof. intros []. apply reset_barcode_inv. constructor; done. Qed.

Lemma held_of_status s : s <> S3_BARCODE_DECODED -> held_ok (wrap 3 (status_code s)).
Proof. unfold held_ok. destruct s; cbn; try done; auto. Qed.

Lemma held_status_undecoded h : held_ok h -> held_status h <> S3_BARCODE_DECODED.
Proof. by intros [-> | [-> | [-> | ->]]]. Qed.


(** The barcode stage also leaves faults and odometry alone. *)
Definition settled (n : s3_navigation_t) := (core n, current_faults n, odometry_available n).

Record barcode_stage (n : s3_navigation_t) (out : s3_navigation_output_t)
    (n' : s3_navigation_t) (out' : s3_navigation_output_t) : Prop := {
  bs_inv : nav_inv n';
  bs_core : settled n' = settled n;
  bs_out : out' = out <| barcode_status := barcode_status out' |> <| out_barcode := out_barcode out' |>;
  bs_decoded : barcode_status out' = S3_BARCODE_DECODED -> CHAR_A <= letter (out_barcode out') <= CHAR_Z;
  bs_undecoded : barcode_status out' <> S3_BARCODE_DECODED -> out_barcode out' = out_barcode out
}.

Lemma read_barcode_sample_spec n frame out : nav_inv n -> 0 <= p_darkness (barcode_sensor out) ->
  barcode_stage n out (read_barcode_sample n frame out).1 (read_barcode_sample n frame out).2.
Proof.
  intros L Hd. unfold read_barcode_sample.
  set (t := sample_timestamp_us _). set (b := barcode_sensor out) in *. cbv zeta.
  set (i1 := (t, p_valid b && negb (bool_decide (p_surface b = IR_SURFACE_UNKNOWN)),
              bool_decide (p_surface b = IR_SURFACE_BLACK))).
  pose proof (reader_update_ok (nav_barcode n) i1 (inv_live _ L)) as L1.
  pose proof (reader_decoded (nav_barcode n) i1 (inv_live _ L)) as D1.
  pose proof (@reader_update_ok _ _ (record_reader (cfg_barcode (nav_config n))) (barcode_record n)
    (t, p_valid b, Z.to_N (p_darkness b)) (inv_record _ L)) as L2.
  pose proof (@reader_decoded _ _ (record_reader (cfg_barcode (nav_config n))) (barcode_record n)
    (t, p_valid b, Z.to_N (p_darkness b)) (inv_record _ L)) as D2.
  cbn -[s3_barcode_update s3_barcode_record_update] in L1, D1, L2, D2.
  rewrite Z2N.id in L2, D2 by done.
  destruct (s3_barcode_update _ _ _ _) as [[live d] lr].
  destruct (s3_barcode_record_update _ _ _ _ _ _) as [[rec r] rr]. cbn [fst snd] in L1, D1, L2, D2.
  pose proof L as [Hm _ _ Hh Hl Ha].
  case_bool_decide as E1.
  { constructor; try done; try (by auto). constructor; try done; try apply rec_reset_inv. by left. }
  case_bool_decide as E2.
  { constructor; try done; try (by auto). constructor; try done; [by apply live_reset | by left]. }
  set (n1 := n <| nav_barcode := d |> <| barcode_record := r |>).
  assert (I1 : nav_inv n1) by (constructor; done).
  set (out1 := out <| barcode_status := S3_BARCODE_NONE |>).
  assert (H2 : exists n2 out2, (if negb (bool_decide (live = S3_BARCODE_NONE)) then
      if s3_barcode_record_active r then (n1 <| barcode_held := wrap 3 (status_code live) |>, out1)
      else (n1, out1 <| barcode_status := live |>) else (n1, out1)) = (n2, out2) /\
      nav_inv n2 /\ settled n2 = settled n /\
      out2 = out <| barcode_status := barcode_status out2 |> /\ barcode_status out2 <> S3_BARCODE_DECODED).
  { repeat case_if; eexists _, _; split; try reflexivity; splits; try done.
    destruct I1. constructor; cbn -[wrap]; try done. by apply held_of_status. }
  destruct H2 as (n2 & out2 & -> & I2 & C2 & O2 & S2). clearbody n1 out1.
  pose proof (held_status_undecoded _ (inv_held _ I2)) as HU.
  assert (I3 : nav_inv (n2 <| barcode_held := 0 |>)) by (destruct I2; constructor; try done; by left).
  repeat case_if; constructor; cbn [fst snd]; try done; rewrite O2; cbn; try done.
Qed.

Lemma rearm_ready_spec n frame out : nav_inv n ->
  nav_inv (rearm_ready n frame out).2 /\ settled (rearm_ready n frame out).2 = settled n.
Proof.
  intros []. unfold rearm_ready. cbv zeta. destruct (negb (_ && _)); [by splits |].
  set (n1 := if negb (rearm_anchor_valid n) then _ else n).
  set (n2 := if negb (rearm_stable n1) then _ else n1).
  assert (H : nav_inv n2 /\ settled n2 = settled n).
  { subst n2 n1. repeat case_if; splits; done. }
  destruct H as (H1 & H2). clearbody n2. case_if; [done |].
  cbn. splits; [destruct H1; constructor; done | exact H2].
Qed.

Lemma barcode_stage_refl n out : nav_inv n -> barcode_status out <> S3_BARCODE_DECODED ->
  barcode_stage n out n out.
Proof. intros. constructor; try done. by destruct out. Qed.

Lemma barcode_stage_left n n1 n2 out out' : settled n1 = settled n ->
  barcode_stage n1 out n2 out' -> barcode_stage n out n2 out'.
Proof. intros H1 []. constructor; try done. by rewrite <- H1. Qed.

Lemma barcode_stage_right n n1 n2 out out' : settled n2 = settled n1 ->
  nav_inv n2 -> barcode_stage n out n1 out' -> barcode_stage n out n2 out'.
Proof. intros H1 H3 []. constructor; try done. by rewrite H1. Qed.

Lemma process_barcode_spec n frame out : nav_inv n -> 0 <= p_darkness (barcode_sensor out) ->
  barcode_status out = S3_BARCODE_NONE ->
  barcode_stage n out (process_barcode n frame out).1 (process_barcode n frame out).2.
Proof.
  intros L Hd Hst. unfold process_barcode. cbv zeta.
  assert (Hskip : barcode_stage n out n out) by (apply barcode_stage_refl; [done | by rewrite Hst]).
  destruct (_ || _); [done |].
  set (go := if bool_decide (lifecycle n = S3_RUN_ACTIVE) && rearming n then _ else _).
  assert (Hgo : nav_inv go.2 /\ settled go.2 = settled n).
  { subst go. case_if; [by apply rearm_ready_spec | done]. }
  destruct go as [ok n1]. cbn [fst snd] in Hgo. destruct Hgo as (L1 & C1).
  apply (barcode_stage_left n n1); [done |].
  destruct ok; cbn [negb fst snd]; [| apply barcode_stage_refl; [done | by rewrite Hst]].
  pose proof (read_barcode_sample_spec n1 frame out L1 Hd) as S2.
  destruct (read_barcode_sample n1 frame out) as [n2 out2]. cbn [fst snd] in *.
  set (n3 := if negb (barcode_busy n1) && barcode_busy n2 then _ else n2).
  assert (S3 : barcode_stage n1 out n3 out2).
  { subst n3. case_if; [| done]. apply (barcode_stage_right _ n2); try done.
    pose proof (bs_inv _ _ _ _ S2) as []. constructor; done. }
  clearbody n3. case_if; [| done].
  set (n4 := if odometry_available n3 then _ else n3).
  assert (S4 : barcode_stage n1 out n4 out2).
  { subst n4. case_if; [| done]. apply (barcode_stage_right _ n3); try done.
    pose proof (bs_inv _ _ _ _ S3) as []. constructor; done. }
  clearbody n4. case_if; [| done]. apply (barcode_stage_right _ n4); try done.
  apply begin_rearm_inv. apply S4.
Qed.

(** ** The whole step *)

(** Darkness values of the processed sensors are normalised. *)
Definition sensors_normal (out : s3_navigation_output_t) : Prop :=
  length (out_sensor out) = 3%nat /\ Forall (fun p => 0 <= p_darkness p <= 1000) (out_sensor out) /\
  in_u 3 (fault_mask out).

Lemma update_darkness s raw d0 : 0 <= d0 <= 1000 ->
  0 <= (ir_reflectance_update s raw d0).2 <= 1000.
Proof.
  intros H. unfold ir_reflectance_update. case_if; [done |]. cbn [snd].
  pose proof (darkness_range (calibration s) raw). unfold u16. rewrite wrap_id; unfold in_u; lia.
Qed.

Lemma nthZ_Forall {A} (P : A -> Prop) d l i : P d -> Forall P l -> P (nthZ d l i).
Proof.
  intros Hd Hl. unfold nthZ. case_if; [done |]. rewrite nth_lookup.
  destruct (l !! Z.to_nat i) eqn:E; cbn; [by eapply Forall_lookup_1 | done].
Qed.
Lemma setZ_Forall {A} (P : A -> Prop) l i v : P v -> Forall P l -> Forall P (setZ l i v).
Proof. intros. unfold setZ. case_if; [done |]. by apply Forall_insert. Qed.

Lemma process_sensor_normal frame bad st i : In i (range S3_SENSOR_COUNT) -> sensors_normal st.1.2 ->
  sensors_normal (process_sensor frame bad st i).1.2.
Proof.
  destruct st as [[n out] b]. cbn [fst snd]. intros Hi (Hl & Hf & Hm). unfold process_sensor. cbv zeta.
  set (p := nthZ zero_processed (out_sensor out) i).
  assert (Hp : 0 <= p_darkness p <= 1000).
  { apply (nthZ_Forall (fun p => 0 <= p_darkness p <= 1000)); [cbn; lia | done]. }
  set (s := nthZ blank_sensor _ i).
  set (r := if _ && negb bad then _ else _).
  assert (Hr : 0 <= p_darkness r.2 <= 1000).
  { subst r. case_if; [| done].
    pose proof (update_darkness s (sample_raw (frame_sample frame i)) (p_darkness p) Hp) as Hu.
    by destruct (ir_reflectance_update s _ _) as [[ok s'] d]. }
  destruct r as [[ok s'] p']. cbn [snd] in Hr.
  assert (Hbit : in_u 3 (u8 (Z.lor (fault_mask out) (S3_SENSOR_BIT i)))).
  { assert (0 <= fault_mask out < 8) as Hm' by exact Hm. clear -Hi Hm'.
    apply (forall_range (fun m => (0 <=? u8 (Z.lor m (S3_SENSOR_BIT i))) && (u8 (Z.lor m (S3_SENSOR_BIT i)) <? 8)) 0 8) in Hm'.
    - unbool. split; [done | exact H0].
    - cbn in Hi. destruct Hi as [<- | [<- | [<- | []]]]; reflexivity. }
  destruct ok; cbn [fst snd]; unfold sensors_normal; cbn -[setZ u8].
  - rewrite length_setZ. splits; try done. by apply setZ_Forall.
  - destruct (mask_has _ i); cbn -[setZ u8]; rewrite length_setZ; splits; try done; by apply setZ_Forall.
Qed.

Lemma process_sensors_normal n frame out bad : sensors_normal out ->
  sensors_normal (process_sensors n frame out bad).1.2.
Proof.
  intros H. unfold process_sensors.
  assert (Hg : forall ids st, Forall (fun i => In i (range S3_SENSOR_COUNT)) ids -> sensors_normal st.1.2 ->
    sensors_normal (fold_left (process_sensor frame bad) ids st).1.2).
  { induction ids as [| i ids IH]; intros st Hids Hst; cbn; [done |]. inversion Hids; subst.
    apply IH; [done |]. by apply process_sensor_normal. }
  apply Hg; [| done]. by apply List.Forall_forall.
Qed.

Definition running (n : s3_navigation_t) : bool :=
  bool_decide (lifecycle n = S3_RUN_ACTIVE) && bool_decide (mode n = S3_MODE_TRACK).

Definition flag_if (b : bool) (f e : Z) : Z := if b then Z.lor e f else e.
Definition decoded (out : s3_navigation_output_t) : bool :=
  bool_decide (barcode_status out = S3_BARCODE_DECODED).
Definition line_flags (line : s3_line_observation_t) (e : Z) : Z :=
  flag_if (junction_event line) S3_EVENT_JUNCTION
    (flag_if (reacquired_event line) S3_EVENT_LINE_REACQUIRED
      (flag_if (lost_event line) S3_EVENT_LINE_LOST e)).
Definition mapped_action (n : s3_navigation_t) (out : s3_navigation_output_t) : Z :=
  nthZ 0 (cfg_map (nav_config n)) (u32 (letter (out_barcode out) - CHAR_A)).

Lemma publish_actions_eq n out :
  publish_actions n out =
    if running n then
      out <| steering := steering_preview out |>
          <| events := flag_if (decoded out) S3_EVENT_BARCODE (line_flags (out_line out) (events out)) |>
          <| action := if decoded out then mapped_action n out else action out |>
    else out <| out_line := out_line out <| lost_event := false |> <| reacquired_event := false |>
                             <| junction_event := false |> |>.
Proof.
  unfold publish_actions, running. case_if; [| done]. unfold line_flags, flag_if, decoded, mapped_action.
  destruct out as [? ? ? ? ? ol ? ? ? ? ? ? ? ? ? ? ? bs ob ?]. cbn [out_line barcode_status].
  destruct ol as [? ? ? ? [] [] [] ?]; cbn; destruct (bool_decide (bs = S3_BARCODE_DECODED)); reflexivity.
Qed.

Lemma flag_if_range b f e : f = 1 \/ f = 2 \/ f = 4 \/ f = 8 \/ f = 16 -> in_u 5 e -> in_u 5 (flag_if b f e).
Proof.
  intros Hf He. destruct b; [| done]. cbn. assert (0 <= e < 32) as He' by exact He.
  apply (forall_range (fun e => (0 <=? Z.lor e f) && (Z.lor e f <? 32)) 0 32) in He'.
  - apply andb_true_iff in He'. destruct He' as [H1 H2]. split; lia.
  - destruct Hf as [-> | [-> | [-> | [-> | ->]]]]; reflexivity.
Qed.
Lemma flag_if_testbit b f e i : Z.testbit (flag_if b f e) i = Z.testbit e i || (b && Z.testbit f i).
Proof. destruct b; cbn; [apply Z.lor_spec | by rewrite orb_false_r]. Qed.
Lemma line_flags_range line e : in_u 5 e -> in_u 5 (line_flags line e).
Proof. intros. unfold line_flags. repeat (apply flag_if_range; [auto |]). done. Qed.
Lemma line_flags_testbit line e i : Z.testbit (line_flags line e) i =
  Z.testbit e i || (lost_event line && Z.testbit 4 i) || (reacquired_event line && Z.testbit 8 i)
  || (junction_event line && Z.testbit 2 i).
Proof. unfold line_flags. by rewrite !flag_if_testbit. Qed.

(** Range of the line error computed from two normalised values. *)
Lemma line_update_range d now ok l r : 0 <= l <= 1000 -> 0 <= r <= 1000 ->
  -100 <= obs_error (s3_line_update d now ok l r).2 <= 100.
Proof.
  intros Hl Hr. unfold s3_line_update. case_if; [cbn; lia |]. case_if; [cbn; lia |].
  pose proof (error_exact {| time := now; dark_left := l; dark_right := r |} Hl Hr) as He.
  cbn [dark_left dark_right] in He.
  assert (-100 <= Z.quot (r - l) 10 <= 100).
  { change (-100) with (Z.quot (-1000) 10). change 100 with (Z.quot 1000 10).
    split; apply Z.quot_le_mono; lia. }
  cbv zeta. destruct (between _).
  - rewrite line_junction_eq. cbn -[Z.quot i16]. rewrite He. done.
  - rewrite line_presence_eq. cbn -[Z.quot i16 persisted line_junction both_black].
    rewrite line_junction_eq. cbn -[Z.quot i16 persisted]. rewrite He. done.
Qed.

Definition active (n : s3_navigation_t) : bool := bool_decide (lifecycle n = S3_RUN_ACTIVE).

Record process_spec (n n' : s3_navigation_t) (now : Z) (out : s3_navigation_output_t) : Prop := {
  ps_inv : nav_inv n';
  ps_config : nav_config n' = nav_config n /\ mode n' = mode n /\ nav_configured n' = true /\
    accepted_calibration n' = accepted_calibration n;
  ps_lifecycle : lifecycle n' =
    if active n && negb (current_faults n' =? 0) then S3_RUN_FAULT_LATCHED else lifecycle n;
  ps_state : out_lifecycle out = lifecycle n' /\
    stop_requested out = bool_decide (lifecycle n' = S3_RUN_FAULT_LATCHED) /\
    out_latched_faults out = latched_faults n' /\ out_accepted_calibration out = accepted_calibration n' /\
    readiness_blockers out = s3_navigation_readiness n' now;
  ps_steering : steering out = if running n' then steering_preview out else zero_steering;
  ps_preview : exists obs, steering_preview out = s3_steering_compute (cfg_steering (nav_config n)) obs;
  ps_events : in_u 5 (events out) /\
    Z.testbit (events out) 4 = active n && negb (current_faults n' =? 0) /\
    Z.testbit (events out) 0 = running n' && decoded out;
  ps_action : action out = if running n' && decoded out then mapped_action n' out else S3_NAV_NONE;
  ps_letter : if decoded out then CHAR_A <= letter (out_barcode out) <= CHAR_Z
              else out_barcode out = zero_result;
  ps_sensors : sensors_normal out;
  ps_error : -100 <= obs_error (out_line out) <= 100;
  ps_faults : current_faults n' = 0 -> fault_mask out = 0 /\ odometry_available n' = true
}.

Lemma latched_or l f : in_u 4 l -> in_u 4 f -> l <> 0 ->
  in_u 4 (wrap 4 (Z.lor l f)) /\ wrap 4 (Z.lor l f) <> 0.
Proof.
  intros Hl Hf H0. split; [apply wrap_range; lia |].
  assert (0 <= Z.lor l f < 16).
  { assert (0 <= l < 16) as Hl' by exact Hl. assert (0 <= f < 16) as Hf' by exact Hf.
    split; [apply Z.lor_nonneg; lia |].
    assert (forall z, 0 <= z < 16 -> Z.log2 z < 4) as Hlog.
    { intros z Hz. destruct (Z.eq_dec z 0) as [-> |]; [cbn; lia |].
      apply (proj1 (Z.log2_lt_pow2 z 4 ltac:(lia))). lia. }
    apply (Z.log2_lt_cancel _ 16). rewrite Z.log2_lor by lia. change (Z.log2 16) with 4.
    apply Z.max_lub_lt; apply Hlog; lia. }
  rewrite wrap_id by exact H. intros E. apply Z.lor_eq_0_l in E. done.
Qed.

Lemma nav_inv_same n n' : core n' = core n -> readers n' = readers n -> nav_inv n -> nav_inv n'.
Proof.
  unfold core, readers. intros [= E1 E2 E3 E4 E5 E6] [= E7 E8 E9] [].
  constructor; rewrite ?E1, ?E4, ?E5, ?E6, ?E7, ?E8, ?E9; done.
Qed.

Lemma health_inv n odo bad out n' out' : nav_inv n -> health_spec n odo bad out n' out' -> nav_inv n'.
Proof.
  intros [] []. destruct hs_config0 as (Hc & Hm & Hcf & Hac & Hv & Hre).
  destruct hs_faults0 as [Hf _]. unfold readers in hs_readers0.
  constructor; rewrite ?Hc, ?Hac; try done.
  - destruct hs_faulted0; injection hs_readers0 as E1 E2 E3; rewrite E1; [by apply live_reset | done].
  - destruct hs_faulted0; injection hs_readers0 as E1 E2 E3; rewrite E2; [apply rec_reset_inv | done].
  - destruct hs_faulted0; injection hs_readers0 as E1 E2 E3; rewrite E3; [by left | done].
  - rewrite hs_latched0, hs_lifecycle0. destruct inv_latched0 as [Hl Hiff].
    destruct hs_faulted0 eqn:E.
    + split; [done |]. split; [| done]. intros _. unfold hs_faulted0 in E. unbool. done.
    + case_bool_decide as EL; [| done]. apply Hiff in EL as Hne.
      destruct (latched_or _ _ Hl Hf Hne). split; done.
Qed.

Lemma testbit_flags e : Z.testbit (flag_if e S3_EVENT_SENSOR_FAULT 0) 4 = e /\
  Z.testbit (flag_if e S3_EVENT_SENSOR_FAULT 0) 0 = false /\ in_u 5 (flag_if e S3_EVENT_SENSOR_FAULT 0).
Proof. destruct e; unfold in_u; cbn; splits; try done; lia. Qed.

Lemma publish_sound (n n' : s3_navigation_t) now (out : s3_navigation_output_t) (fl : bool) : nav_inv n' ->
  nav_config n' = nav_config n /\ mode n' = mode n /\ nav_configured n' = true /\
    accepted_calibration n' = accepted_calibration n ->
  lifecycle n' = (if fl then S3_RUN_FAULT_LATCHED else lifecycle n) ->
  fl = active n && negb (current_faults n' =? 0) ->
  steering out = zero_steering -> action out = S3_NAV_NONE ->
  events out = flag_if fl S3_EVENT_SENSOR_FAULT 0 ->
  (exists obs, steering_preview out = s3_steering_compute (cfg_steering (nav_config n)) obs) ->
  (if decoded out then CHAR_A <= letter (out_barcode out) <= CHAR_Z else out_barcode out = zero_result) ->
  sensors_normal out -> -100 <= obs_error (out_line out) <= 100 ->
  (current_faults n' = 0 -> fault_mask out = 0 /\ odometry_available n' = true) ->
  process_spec n n' now (publish_state n' now (publish_actions n' out)).
Proof.
  intros L Hc Hl Hfl Hs Ha Hev Hp Hlet Hn Herr HF.
  destruct (testbit_flags fl) as (T4 & T0 & TU). rewrite <- Hev in T4, T0, TU.
  rewrite publish_actions_eq. unfold publish_state.
  destruct (running n') eqn:Er.
  - constructor; cbn -[flag_if line_flags in_u Z.testbit]; rewrite ?Er; try done; cbn [andb].
    + by rewrite Hl, Hfl.
    + unfold decoded. cbn -[flag_if line_flags in_u Z.testbit]. fold (decoded out).
      rewrite !flag_if_testbit, !line_flags_testbit, T4, T0, Hfl. cbn.
      rewrite !andb_false_r, !orb_false_r, !andb_true_r. splits; try done.
      apply flag_if_range; [by left |]. by apply line_flags_range.
    + unfold decoded. cbn. fold (decoded out). rewrite Ha. done.
  - constructor; cbn -[in_u Z.testbit]; rewrite ?Er; try done; cbn [andb].
    + by rewrite Hl, Hfl.
    + splits; try done. congruence.
Qed.

Lemma process_sound n frame odo : nav_configured n = true -> nav_inv n ->
  let r := s3_navigation_process n (Some frame) odo in
  r.1.1 = true /\ process_spec n r.1.2 (frame_timestamp_us frame) r.2.
Proof.
  intros Hcf L. cbv zeta. unfold s3_navigation_process. rewrite Hcf. cbn [negb]. cbv zeta.
  set (now := frame_timestamp_us frame).
  set (gap := if seen_frame n then elapsed now (nav_last_us n) else 0).
  set (bad := seen_frame n && _).
  set (n0 := n <| nav_last_us := now |> <| seen_frame := true |>).
  set (out0 := zero_output <| out_timestamp_us := now |> <| sample_gap_us := gap |>).
  assert (L0 : nav_inv n0) by (apply (nav_inv_same n); done).
  destruct (process_sensors_core n0 frame out0 bad) as (C1 & R1 & _ & _ & _ & A1 & Ev1 & B1 & Br1).
  assert (N1 : sensors_normal (process_sensors n0 frame out0 bad).1.2).
  { apply process_sensors_normal. unfold sensors_normal, in_u. cbn. splits; try done; try lia.
    repeat (constructor; [cbn; lia |]). constructor. }
  destruct (process_sensors n0 frame out0 bad) as [[n1 out1] tb]. cbn [fst snd] in *.
  assert (L1 : nav_inv n1) by (apply (nav_inv_same n0); done).
  pose proof (process_health_spec n1 frame odo out1 tb) as H2.
  destruct (process_health n1 frame odo out1 tb) as [n2 out2]. cbn [fst snd] in H2.
  pose proof (health_inv _ _ _ _ _ _ L1 H2) as L2.
  destruct H2 as [fl (Hc2 & Hm2 & Hcf2 & Hac2 & _ & _) Hl2 _ _ (A2 & S2 & M2 & B2 & Br2) Ev2 (_ & HF2)].
  assert (N2 : sensors_normal out2) by (unfold sensors_normal in *; by rewrite S2, M2).
  set (lf := nthZ zero_processed (out_sensor out2) S3_SENSOR_LEFT).
  set (rt := nthZ zero_processed (out_sensor out2) S3_SENSOR_RIGHT).
  assert (Hnorm : forall i, 0 <= p_darkness (nthZ zero_processed (out_sensor out2) i) <= 1000).
  { intros i. apply (nthZ_Forall (fun p => 0 <= p_darkness p <= 1000)); [cbn; lia | apply N2]. }
  pose proof (line_update_range (nav_line n2) now (p_valid lf && p_valid rt) (p_darkness lf) (p_darkness rt)
    (Hnorm _) (Hnorm _)) as Hobs.
  destruct (s3_line_update (nav_line n2) now _ _ _) as [line obs]. cbn [snd] in Hobs.
  set (n3 := n2 <| nav_line := line |>).
  assert (L3 : nav_inv n3) by (apply (nav_inv_same n2); done).
  set (out3 := out2 <| out_line := obs |> <| steering_preview := s3_steering_compute _ obs |>).
  assert (Hst3 : barcode_status out3 = S3_BARCODE_NONE) by (cbn; rewrite B2, B1; done).
  pose proof (process_barcode_spec n3 frame out3 L3 (proj1 (Hnorm _)) Hst3) as S4.
  destruct (process_barcode n3 frame out3) as [n4 out4]. cbn [fst snd] in *.
  destruct S4 as [L4 C4 O4 D4 U4].
  unfold settled, core in C1, C4. injection C1 as C11 C12 C13 C14 C15 C16.
  injection C4 as C41 C42 C43 C44 C45 C46 F4 V4. cbn in C41, C42, C43, C44, C45, C46, F4, V4.
  unfold actionable in A1, A2. injection A1 as A11 A12 A13. injection A2 as A21 A22 A23.
  split; [done |]. apply (publish_sound n n4 now out4 fl); rewrite ?C41, ?C42, ?C43, ?C44, ?C46, ?F4; try done.
  - splits; congruence.
  - rewrite Hl2, C14. done.
  - unfold fl. by rewrite C14.
  - rewrite O4. cbn. congruence.
  - rewrite O4. cbn. congruence.
  - rewrite O4. cbn. rewrite Ev2, Ev1. by destruct fl.
  - rewrite O4. cbn. by exists obs; rewrite Hc2, C11.
  - unfold decoded. case_bool_decide as E; [by apply D4 | rewrite U4 by done; change (out_barcode out3) with (out_barcode out2); by rewrite Br2, Br1].
  - unfold sensors_normal. rewrite O4. exact N2.
  - rewrite O4. exact Hobs.
  - intros H0. rewrite O4. cbn. destruct (HF2 H0) as (H1 & _ & H3). rewrite M2, V4. done.
Qed.
