(* ===== verification/NavigationSafety.v ===== *)
(** * Navigation as a transition system

    The calls of [subsystem3/line_navigation.c] as the operations of a
    transition system: reachability from a successful initialisation, the
    permitted lifecycle changes, and what every published output guarantees. *)
From S2P Require Import Prelude CFloat IrSensing LineDetection BarcodeDecoder BarcodeRecord BarcodeReader Navigation.

Inductive nav_op :=
| OpSetMode (m : s3_processing_mode_t)
| OpCalibrate (id : Z) (collector : s3_calibration_collector_t)
| OpSetMapping (map : list Z)
| OpStart (now_us : Z)
| OpEndRun
| OpResetFault (now_us : Z)
| OpProcess (frame : option s3_sensor_frame_t) (odo : option s3_odometry_sample_t).

Definition nav_run (n : s3_navigation_t) (op : nav_op) : bool * s3_navigation_t :=
  match op with
  | OpSetMode m => s3_navigation_set_mode n m
  | OpCalibrate id collector => s3_navigation_apply_calibration n id collector
  | OpSetMapping map => s3_navigation_set_mapping n map
  | OpStart now => s3_navigation_start n now
  | OpEndRun => s3_navigation_end_run n
  | OpResetFault now => s3_navigation_reset_fault n now
  | OpProcess frame odo => (s3_navigation_process n frame odo).1
  end.

(** A map argument is a C array of 26 enumeration values. *)
Definition map_shape (map : list Z) : Prop :=
  length map = 26%nat /\ Forall (fun a => -2 ^ 31 <= a < 2 ^ 32) map.
Definition op_ok (op : nav_op) : Prop :=
  match op with OpSetMapping map => map_shape map | _ => True end.

Inductive nav_reachable : s3_navigation_t -> Prop :=
| nav_boot config n : map_shape (cfg_map config) ->
    s3_navigation_init (Some config) = (true, n) -> nav_reachable n
| nav_next n op : nav_reachable n -> op_ok op -> nav_reachable (nav_run n op).2.

(** The permitted changes of [lifecycle]: which call, and under which guard. *)
Inductive lifecycle_edge (n : s3_navigation_t) : nav_op -> s3_run_state_t -> s3_run_state_t -> Prop :=
| edge_stay op s : lifecycle_edge n op s s
| edge_start now : s3_navigation_readiness n now = 0 ->
    lifecycle_edge n (OpStart now) S3_RUN_INACTIVE S3_RUN_ACTIVE
| edge_end : lifecycle_edge n OpEndRun S3_RUN_ACTIVE S3_RUN_INACTIVE
| edge_fault frame odo : current_faults (nav_run n (OpProcess frame odo)).2 <> 0 ->
    lifecycle_edge n (OpProcess frame odo) S3_RUN_ACTIVE S3_RUN_FAULT_LATCHED
| edge_clear now : current_faults n = 0 -> healthy_tracking n = true ->
    fault_clear_us (nav_config n) <= elapsed (nav_last_us n) (healthy_since_us n) ->
    Z.land (s3_navigation_readiness n now) (Z.lnot S3_READY_FAULT) = 0 ->
    lifecycle_edge n (OpResetFault now) S3_RUN_FAULT_LATCHED S3_RUN_INACTIVE.

Lemma map_ok_of map : map_shape map -> map_bad map = false ->
  length map = 26%nat /\ Forall (fun a => 0 <= a < S3_NAV_ACTION_COUNT) map.
Proof.
  intros [Hl Hr] Hb. split; [done |]. apply Forall_forall. intros a Ha.
  rewrite Forall_forall in Hr. specialize (Hr a Ha). cbn beta in Hr.
  unfold map_bad in Hb. apply list_elem_of_In in Ha.
  assert (S3_NAV_ACTION_COUNT <=? u32 a = false) as E.
  { destruct (S3_NAV_ACTION_COUNT <=? u32 a) eqn:E; [| done].
    rewrite <- Hb. symmetry. apply existsb_exists. by exists a. }
  unfold S3_NAV_ACTION_COUNT in *. unfold u32, wrap in E. apply Z.leb_gt in E.
  destruct (Z_lt_ge_dec a 0); [| rewrite Z.mod_small in E; lia].
  rewrite <- (Z_mod_plus_full a 1), Z.mod_small in E; lia.
Qed.

Lemma init_sensors_core ids n config : let n' := (init_sensors n config ids).2 in
  core n' = core n /\ readers n' = readers n.
Proof.
  revert n. induction ids as [| i ids IH]; intros n; cbn -[ir_reflectance_init]; [done |].
  destruct (ir_reflectance_init _ _) as [[] s]; [| done].
  set (n1 := n <| nav_sensor := setZ (nav_sensor n) i s |>). exact (IH n1).
Qed.

Lemma init_inv config n : map_shape (cfg_map config) -> s3_navigation_init (Some config) = (true, n) ->
  nav_inv n /\ nav_configured n = true /\ lifecycle n = S3_RUN_INACTIVE /\ nav_config n = config.
Proof.
  intros Hm. unfold s3_navigation_init. case_if; [done |].
  destruct (s3_line_init _) as [[] line]; cbn [negb]; [| done].
  destruct (s3_barcode_init _) as [ok d] eqn:EB. case_if; [done |]. unbool.
  destruct ok; [| done].
  set (n0 := zero_navigation <| nav_line := line |> <| nav_barcode := d |>).
  destruct (init_sensors_core (range S3_SENSOR_COUNT) n0 config) as [Hc Hr].
  destruct (init_sensors n0 config _) as [ok n1]. cbn [snd] in Hc, Hr.
  case_if; [done |]. unbool. intros [= <-].
  unfold core, readers in Hc, Hr. injection Hc as C1 C2 C3 C4 C5 C6. injection Hr as R1 R2 R3.
  cbn in C1, C2, C3, C4, C5, C6, R1, R2, R3. destruct (map_ok_of _ Hm ltac:(eassumption)) as [Hl Hf].
  splits; try done; cbn; try congruence.
  constructor; cbn; rewrite ?R1, ?R2, ?R3, ?C4, ?C5, ?C6; unfold in_u; try done; try lia.
  - pose proof (live_init (cfg_barcode config)) as L. by rewrite EB in L.
  - by left.
Qed.

Lemma end_run_inv n : nav_inv n -> lifecycle n <> S3_RUN_FAULT_LATCHED ->
  nav_inv (s3_navigation_end_run n).2.
Proof.
  intros [] Hl. unfold s3_navigation_end_run. case_if; [constructor; done |]. cbn [snd].
  constructor; cbn; try done; [by apply live_reset | by left |].
  destruct inv_latched as [H1 H2]. split; [done |]. rewrite <- H2. done.
Qed.

Lemma inv_mode n m : nav_inv n -> nav_inv (n <| mode := m |>).
Proof. intros []. constructor; assumption. Qed.

Lemma set_mode_inv n m : nav_inv n -> nav_inv (s3_navigation_set_mode n m).2 /\
  lifecycle (s3_navigation_set_mode n m).2 = lifecycle n.
Proof.
  intros L. unfold s3_navigation_set_mode. case_if; [done |]. case_if; [done |]. cbv zeta. cbn [snd].
  set (n1 := reset_barcode _ <| capture_distance := _ |>).
  assert (L1 : nav_inv n1).
  { apply (nav_inv_same (reset_barcode n)); try done. by apply reset_barcode_inv. }
  destruct (bool_decide (lifecycle n1 = S3_RUN_ACTIVE)); (split; [| reflexivity]).
  - apply begin_rearm_inv in L1. by apply inv_mode.
  - by apply inv_mode.
Qed.

Lemma sensor_bit_or_range mask id : in_u 3 (wrap 3 (Z.lor mask (S3_SENSOR_BIT id))).
Proof. apply wrap_range. lia. Qed.

Lemma apply_calibration_inv n id collector : nav_inv n ->
  nav_inv (s3_navigation_apply_calibration n id collector).2 /\
  lifecycle (s3_navigation_apply_calibration n id collector).2 = lifecycle n.
Proof.
  intros L. unfold s3_navigation_apply_calibration. case_if; [done |].
  destruct (s3_calibration_finish _ _ _) as [[] cand]; cbn [negb]; [| done]. cbv zeta.
  set (n1 := n <| nav_config := _ |> <| accepted_calibration := _ |> <| valid_sensors := _ |>).
  set (s := (ir_reflectance_init _ _).2). clearbody s. cbn [snd]. split; [| done].
  apply reset_barcode_inv. destruct L. constructor; cbn -[wrap]; try done. apply sensor_bit_or_range.
Qed.

Lemma set_mapping_inv n map : nav_inv n -> map_shape map ->
  nav_inv (s3_navigation_set_mapping n map).2 /\ lifecycle (s3_navigation_set_mapping n map).2 = lifecycle n.
Proof.
  intros [] Hm. unfold s3_navigation_set_mapping. case_if; [done |]. case_if; [done |]. cbn [snd].
  split; [| done]. constructor; cbn; try done. by apply map_ok_of.
Qed.

Lemma start_edge n now : nav_inv n -> let n' := (s3_navigation_start n now).2 in
  nav_inv n' /\ lifecycle_edge n (OpStart now) (lifecycle n) (lifecycle n').
Proof.
  intros L. unfold s3_navigation_start. cbv zeta.
  destruct (_ || _) eqn:E; [split; [done | constructor] |]. undecide. cbn [snd]. split.
  - destruct L. constructor; cbn; try done; [by apply live_reset | by left |].
    destruct inv_latched as [Hu Hiff]. split; [done |]. rewrite <- Hiff. split; [done | intros; congruence].
  - cbn. replace (lifecycle n) with S3_RUN_INACTIVE by congruence. by constructor.
Qed.

Lemma end_run_edge n : nav_inv n -> let n' := (s3_navigation_end_run n).2 in
  nav_inv n' /\ lifecycle_edge n OpEndRun (lifecycle n) (lifecycle n').
Proof.
  intros L. destruct (decide (lifecycle n = S3_RUN_FAULT_LATCHED)) as [E | E].
  - unfold s3_navigation_end_run. rewrite (bool_decide_eq_true_2 _ E), orb_true_r. split; [done | constructor].
  - split; [by apply end_run_inv |]. unfold s3_navigation_end_run. case_if; [constructor |]. cbn.
    destruct (lifecycle n); done || constructor.
Qed.

Lemma reset_fault_edge n now : nav_inv n -> let n' := (s3_navigation_reset_fault n now).2 in
  nav_inv n' /\ lifecycle_edge n (OpResetFault now) (lifecycle n) (lifecycle n').
Proof.
  intros L. unfold s3_navigation_reset_fault. cbv zeta.
  destruct (_ || _) eqn:E; [split; [done | constructor] |]. undecide. split.
  - apply end_run_inv; [| done]. destruct L. constructor; try done.
  - replace (lifecycle n) with S3_RUN_FAULT_LATCHED by congruence.
    unfold s3_navigation_end_run. case_if; cbn; constructor; done.
Qed.

Lemma process_edge n frame odo : nav_inv n -> let n' := (s3_navigation_process n frame odo).1.2 in
  nav_inv n' /\ lifecycle_edge n (OpProcess frame odo) (lifecycle n) (lifecycle n').
Proof.
  intros L. cbv zeta. destruct frame as [frame |]; [| split; [done | constructor]].
  destruct (nav_configured n) eqn:Ec.
  - destruct (process_sound n frame odo Ec L) as [_ S]. split; [apply S |].
    rewrite (ps_lifecycle _ _ _ _ S). unfold active.
    destruct (negb (current_faults _ =? 0)) eqn:E; [| rewrite andb_false_r; constructor].
    case_bool_decide as E'; [| constructor]. rewrite E'. constructor. undecide. done.
  - unfold s3_navigation_process. rewrite Ec. split; [done | constructor].
Qed.

Lemma nav_run_edge n op : nav_inv n -> op_ok op ->
  nav_inv (nav_run n op).2 /\ lifecycle_edge n op (lifecycle n) (lifecycle (nav_run n op).2).
Proof.
  intros L Hop. destruct op; cbn [nav_run op_ok] in *.
  - destruct (set_mode_inv n m L) as [? ->]. split; [done | constructor].
  - destruct (apply_calibration_inv n id collector L) as [? ->]. split; [done | constructor].
  - destruct (set_mapping_inv n map L Hop) as [? ->]. split; [done | constructor].
  - by apply start_edge.
  - by apply end_run_edge.
  - by apply reset_fault_edge.
  - by apply process_edge.
Qed.

Lemma reachable_inv n : nav_reachable n -> nav_inv n /\ nav_configured n = true.
Proof.
  induction 1 as [config n Hm Hi | n op _ [L Hc] Hop].
  - destruct (init_inv _ _ Hm Hi) as (? & ? & _). done.
  - split; [by apply nav_run_edge |]. destruct op; cbn [nav_run].
    + unfold s3_navigation_set_mode. rewrite Hc. cbn [negb]. case_if; [done |]. cbv zeta. cbn [snd].
      by destruct (bool_decide (lifecycle _ = _)).
    + unfold s3_navigation_apply_calibration. case_if; [done |].
      by destruct (s3_calibration_finish _ _ _) as [[] ?].
    + unfold s3_navigation_set_mapping. by repeat case_if.
    + unfold s3_navigation_start. by case_if.
    + unfold s3_navigation_end_run. by case_if.
    + unfold s3_navigation_reset_fault. case_if; [done |]. unfold s3_navigation_end_run. by case_if.
    + destruct frame as [frame |]; [| done].
      destruct (process_sound n frame odo Hc L) as [_ [_ (_ & _ & H & _) _ _ _ _ _ _ _ _ _]]. done.
Qed.

(** ** Readiness *)
Lemma blocker_zero (b : bool) f x : f <> 0 -> (if b then Z.lor x f else x) = 0 <-> x = 0 /\ b = false.
Proof.
  intros Hf. destruct b; [| naive_solver]. rewrite Z.lor_eq_0_iff. naive_solver.
Qed.

(** Every sample the run depends on is present and no older than the limit. *)
Record ready (n : s3_navigation_t) (now : Z) : Prop := {
  rdy_channels : enabled_mask (acquisition (nav_config n)) = S3_ALL_SENSORS;
  rdy_calibration : accepted_calibration n = S3_ALL_SENSORS;
  rdy_sensors : seen_frame n = true /\ valid_sensors n = S3_ALL_SENSORS;
  rdy_frame_age : elapsed now (nav_last_us n) <= max_sample_age_us (nav_config n);
  rdy_sensor_age i : In i (range S3_SENSOR_COUNT) ->
    elapsed now (nthZ 0 (sensor_last_us n) i) <= max_sample_age_us (nav_config n);
  rdy_odometry : odometry_available n = true /\
    elapsed now (odo_timestamp_us (odometry n)) <= max_sample_age_us (nav_config n);
  rdy_fault : lifecycle n <> S3_RUN_FAULT_LATCHED
}.

Lemma readiness_zero n now : nav_configured n = true -> s3_navigation_readiness n now = 0 <-> ready n now.
Proof.
  intros Hc. unfold s3_navigation_readiness. rewrite Hc. cbn [negb]. cbn zeta. cbn [fold_left range map seq S3_SENSOR_COUNT].
  change (range S3_SENSOR_COUNT) with [0; 1; 2]. cbn [fold_left].
  rewrite !blocker_zero by done. unfold stale. rewrite !orb_false_iff, !negb_false_iff.
  rewrite bool_decide_eq_false, !Z.ltb_ge, !Z.eqb_eq. split.
  - intros. destruct_and!. constructor; try done.
    intros i Hi. change (range S3_SENSOR_COUNT) with [0; 1; 2] in Hi. cbn in Hi.
    destruct Hi as [<- | [<- | [<- | []]]]; done.
  - intros [H1 H2 [H3 H4] H5 H6 [H7 H8] H9].
    pose proof (H6 0 ltac:(cbn; auto)). pose proof (H6 1 ltac:(cbn; auto)).
    pose proof (H6 2 ltac:(cbn; auto)). splits; done.
Qed.

(** ** Theorems *)

(** C4: navigation lifecycle.  From any successful initialisation and along any
    sequence of calls (mode, calibration, map, start, end, fault reset, frame),
    the invariant holds - 26 map entries that are actions, both barcode readers
    well-formed, [latched_faults] non-zero exactly while FAULT_LATCHED - and
    the lifecycle only ever changes by: a start with no readiness blocker; an
    end of an active run; a frame with a fault during an active run; a fault
    reset after the health window with no other blocker. *)
Theorem nav_lifecycle_safe n op : nav_reachable n -> op_ok op ->
  nav_inv n /\ nav_inv (nav_run n op).2 /\
  lifecycle_edge n op (lifecycle n) (lifecycle (nav_run n op).2).
Proof. intros Hn Hop. apply reachable_inv in Hn as [L _]. split; [done |]. by apply nav_run_edge. Qed.

(** Start guard.  A start succeeds exactly when the run is INACTIVE, all three
    sensors are enabled, calibrated and valid, and the last frame, every sensor
    sample and the odometry are no older than the age limit; it then makes the
    run ACTIVE with both barcode readers idle and not re-arming.  A refused start
    changes nothing. *)
Theorem nav_start_iff_ready n now : nav_reachable n ->
  let '(ok, n') := s3_navigation_start n now in
  (ok = true <-> lifecycle n = S3_RUN_INACTIVE /\ ready n now) /\
  (ok = false -> n' = n) /\
  (ok = true -> lifecycle n' = S3_RUN_ACTIVE /\ collecting (nav_barcode n') = false /\
     s3_barcode_record_active (barcode_record n') = false /\ barcode_held n' = 0 /\
     rearming n' = false /\ nav_config n' = nav_config n).
Proof.
  intros Hn. apply reachable_inv in Hn as [L Hc]. pose proof (readiness_zero n now Hc) as HR.
  unfold s3_navigation_start. rewrite Hc. cbn [negb orb]. destruct (_ || _) eqn:E.
  - splits; try done. split; [done |]. intros [E1 E2]. apply HR in E2.
    rewrite E1, E2 in E. done.
  - undecide. splits; try done. split; [| done]. intros _. split; [done |]. by apply HR.
Qed.

(** C5: actuation safety.  On every frame, a steering command is published only
    while the run is ACTIVE in TRACK mode with no fault of this frame (every
    enabled sensor good, timing good, odometry available); its wheel speeds lie
    within [0, maximum] and it equals the preview.  A fault during an active run
    latches: the stop request is raised, the SENSOR_FAULT event is set, no
    steering and no action are published; and the stop request stands exactly
    while the lifecycle is FAULT_LATCHED. *)
Theorem nav_output_safe n frame odo : nav_reachable n ->
  let '(ok, n', out) := s3_navigation_process n (Some frame) odo in
  ok = true /\
  (steer_valid (steering out) = true ->
     lifecycle n' = S3_RUN_ACTIVE /\ mode n' = S3_MODE_TRACK /\ current_faults n' = 0 /\
     fault_mask out = 0 /\ odometry_available n' = true /\ steering out = steering_preview out /\
     (fzero <=. left_mps (steering out)) = true /\
     (left_mps (steering out) <=. maximum_mps (cfg_steering (nav_config n))) = true /\
     (fzero <=. right_mps (steering out)) = true /\
     (right_mps (steering out) <=. maximum_mps (cfg_steering (nav_config n))) = true) /\
  (lifecycle n = S3_RUN_ACTIVE -> current_faults n' <> 0 ->
     lifecycle n' = S3_RUN_FAULT_LATCHED /\ Z.testbit (events out) 4 = true /\
     steering out = zero_steering /\ action out = S3_NAV_NONE) /\
  (stop_requested out = true <-> lifecycle n' = S3_RUN_FAULT_LATCHED).
Proof.
  intros Hn. apply reachable_inv in Hn as [L Hc]. destruct (process_sound n frame odo Hc L) as [Hok S].
  destruct (s3_navigation_process n (Some frame) odo) as [[ok n'] out]. cbn [fst snd] in *.
  destruct S as [_ (Hcfg & Hm & _) Hl (_ & Hstop & _) Hst [obs Hp] (_ & Hev & _) Ha _ _ _ Hf].
  splits; [done | | |].
  - intros Hv. rewrite Hst in Hv. destruct (running n') eqn:Er; [| done].
    unfold running in Er. apply andb_true_iff in Er as [Er1 Er2].
    apply bool_decide_eq_true in Er1, Er2. rewrite Hst.
    assert (current_faults n' = 0) as HF0.
    { destruct (Z.eqb_spec (current_faults n') 0); [done |]. exfalso. rewrite Hl in Er1. unfold active in Er1.
      case_bool_decide; done. }
    destruct (Hf HF0). destruct (steering_bounds (cfg_steering (nav_config n)) obs) as [Hb _].
    rewrite Hp in Hv |- *. destruct (Hb Hv) as (? & ? & ? & ? & ? & ? & ? & ? & ?). splits; done.
  - intros Ha' Hne. unfold active in Hl, Hev. rewrite (bool_decide_eq_true_2 _ Ha') in Hl, Hev.
    apply Z.eqb_neq in Hne. rewrite Hne in Hl, Hev. cbn in Hl, Hev.
    assert (running n' = false) as Er.
    { unfold running. rewrite bool_decide_eq_false_2; [done |]. by rewrite Hl. }
    rewrite Er in Hst, Ha. done.
  - rewrite Hstop. apply bool_decide_eq_true.
Qed.

(** The BARCODE event names a letter of the alphabet and publishes its entry of the map. *)
Lemma barcode_event n frame odo : nav_reachable n ->
  let '(_, n', out) := s3_navigation_process n (Some frame) odo in
  (Z.testbit (events out) 0 = true <-> running n' = true /\ barcode_status out = S3_BARCODE_DECODED) /\
  (Z.testbit (events out) 0 = false -> action out = S3_NAV_NONE) /\
  (barcode_status out <> S3_BARCODE_DECODED -> out_barcode out = zero_result) /\
  (Z.testbit (events out) 0 = true -> exists k, 0 <= k < 26 /\ letter (out_barcode out) = CHAR_A + k /\
     cfg_map (nav_config n) !! Z.to_nat k = Some (action out) /\ 0 <= action out < S3_NAV_ACTION_COUNT).
Proof.
  intros Hn. apply reachable_inv in Hn as [L Hc]. destruct (process_sound n frame odo Hc L) as [_ S].
  destruct (s3_navigation_process n (Some frame) odo) as [[ok n'] out]. cbn [fst snd] in *.
  destruct S as [L' (Hcfg & _) _ _ _ _ (_ & _ & Hev) Ha Hlet _ _ _].
  rewrite Hev. rewrite Ha. splits.
  - rewrite andb_true_iff. unfold decoded. by rewrite bool_decide_eq_true.
  - by intros ->.
  - intros Hne. unfold decoded in Hlet. by rewrite (bool_decide_eq_false_2 _ Hne) in Hlet.
  - intros E. rewrite E. apply andb_true_iff in E as [_ E]. rewrite E in Hlet.
    exists (letter (out_barcode out) - CHAR_A). unfold CHAR_A, CHAR_Z in *.
    split; [lia |]. split; [lia |]. unfold mapped_action.
    assert (Hu : u32 (letter (out_barcode out) - CHAR_A) = letter (out_barcode out) - CHAR_A).
    { apply wrap_id. unfold in_u, CHAR_A. lia. }
    rewrite Hu. unfold CHAR_A. rewrite Hcfg. destruct (inv_map _ L) as [Hlen Hall].
    set (k := letter (out_barcode out) - 65). assert (0 <= k < 26) by lia.
    destruct (lookup_lt_is_Some_2 (cfg_map (nav_config n)) (Z.to_nat k)) as [a Hk]; [lia |].
    assert (nthZ 0 (cfg_map (nav_config n)) k = a) as ->.
    { unfold nthZ. case_if; [unbool; lia |]. rewrite nth_lookup, Hk. done. }
    split; [done |]. by apply (Forall_lookup_1 _ _ _ _ Hall Hk).
Qed.

(** C6: barcode actions.  A published action other than NONE appears only in an
    ACTIVE, TRACK frame in which a barcode was decoded; the BARCODE event is then
    set, the letter is A..Z, and the action is the configured map's entry for
    exactly that letter.  Conversely a letter decoded while running always raises
    the BARCODE event, and without a decode the barcode result is all zero. *)
Theorem nav_barcode_action n frame odo : nav_reachable n ->
  let '(_, n', out) := s3_navigation_process n (Some frame) odo in
  (Z.testbit (events out) 0 = true <-> running n' = true /\ barcode_status out = S3_BARCODE_DECODED) /\
  (Z.testbit (events out) 0 = false -> action out = S3_NAV_NONE) /\
  (barcode_status out <> S3_BARCODE_DECODED -> out_barcode out = zero_result) /\
  (Z.testbit (events out) 0 = true -> exists k, 0 <= k < 26 /\ letter (out_barcode out) = CHAR_A + k /\
     cfg_map (nav_config n) !! Z.to_nat k = Some (action out) /\ 0 <= action out < S3_NAV_ACTION_COUNT).
Proof. apply barcode_event. Qed.

(** Re-arming.  While an active run is re-arming after a code, the barcode
    stage reads nothing - the decoders, the recorder and the reported status stay
    as they were - until the line is seen without a junction, the barcode sensor
    is valid and white, the odometry epoch is the anchor's, the white has lasted
    [rearm_stable_us] and the car has moved [rearm_distance_m] from the anchor. *)
Theorem nav_rearm_blocks n frame out : lifecycle n = S3_RUN_ACTIVE -> rearming n = true ->
  let '(n', out') := process_barcode n frame out in
  let anchor := if rearm_anchor_valid n then rearm_anchor_m n else centre_m (odometry n) in
  let moved := (centre_m (odometry n) - anchor)%f64 in
  (readers n' = readers n /\ out' = out /\ rearming n' = true) \/
  (obs_valid (out_line out) = true /\ obs_present (out_line out) = true /\
   junction_candidate (out_line out) = false /\
   p_valid (barcode_sensor out) = true /\ p_surface (barcode_sensor out) = IR_SURFACE_WHITE /\
   odometry_available n = true /\ (rearm_anchor_valid n = true -> odo_epoch (odometry n) = rearm_epoch n) /\
   rearm_stable_us (nav_config n) <= elapsed (frame_timestamp_us frame)
     (if rearm_stable n then rearm_since_us n else frame_timestamp_us frame) /\
   ((if moved <. S754_zero false then -. moved else moved) <. rearm_distance_m (nav_config n)) = false).
Proof.
  intros Ha Hr. unfold process_barcode. rewrite (bool_decide_eq_true_2 _ Ha), Hr. cbv zeta. cbn [andb].
  destruct (negb _ || _); [by left |].
  destruct (rearm_ready n frame out) as [go n1] eqn:E. revert E. unfold rearm_ready. cbv zeta.
  destruct (negb (_ && _)) eqn:Eclear.
  { intros [= <- <-]. cbn [negb]. left. done. }
  undecide. set (n2 := if negb (rearm_anchor_valid n) then _ else n).
  set (n3 := if negb (rearm_stable n2) then _ else n2).
  assert (HA : readers n2 = readers n /\ rearming n2 = true /\ nav_config n2 = nav_config n /\
    odometry n2 = odometry n /\ rearm_stable n2 = rearm_stable n /\ rearm_since_us n2 = rearm_since_us n /\
    rearm_anchor_m n2 = (if rearm_anchor_valid n then rearm_anchor_m n else centre_m (odometry n)) /\
    (rearm_anchor_valid n = true -> rearm_epoch n2 = rearm_epoch n)).
  { subst n2. destruct (rearm_anchor_valid n); splits; done. }
  destruct HA as (A1 & A2 & A3 & A4 & A5 & A6 & A7 & A8). clearbody n2.
  assert (HB : readers n3 = readers n /\ rearming n3 = true /\ nav_config n3 = nav_config n /\
    odometry n3 = odometry n /\ rearm_anchor_m n3 = rearm_anchor_m n2 /\ rearm_epoch n3 = rearm_epoch n2 /\
    rearm_since_us n3 = (if rearm_stable n then rearm_since_us n else frame_timestamp_us frame)).
  { subst n3. rewrite <- A5, <- A6. destruct (rearm_stable n2); splits; done. }
  destruct HB as (B1 & B2 & B3 & B4 & B5 & B6 & B7). clearbody n3.
  rewrite B3, B4, B5, B6, B7, A7. destruct (_ || _) eqn:Eg.
  { intros [= <- <-]. cbn [negb]. left. done. }
  intros [= <- <-]. cbn [negb]. destruct (read_barcode_sample _ _ _) as [n4 out4]. right.
  undecide. splits; try done. intros Hv. rewrite <- A8 by done. done.
Qed.

(** ** Witnesses: a bench run *)

(** All three channels enabled, otherwise the defaults. *)
Definition bench_config : s3_navigation_config_t :=
  s3_navigation_defaults <| acquisition := {| channel := [2; 1; 0]; enabled_mask := 7 |} |>.
Definition bench_collector : s3_calibration_collector_t :=
  calibration_run (replicate 10 (IR_SURFACE_WHITE, 150) ++ replicate 10 (IR_SURFACE_BLACK, 280)).
Definition bench_sample (t raw : Z) : s3_raw_sample_t :=
  {| sample_timestamp_us := t; sample_raw := raw; sample_error := 0; sample_enabled := true; sample_valid := true |}.
(** Barcode sensor on white, both line sensors half dark. *)
Definition bench_frame (t : Z) : s3_sensor_frame_t :=
  {| frame_timestamp_us := t; sensor := [bench_sample t 150; bench_sample t 215; bench_sample t 215] |}.
Definition bench_odometry (t : Z) : s3_odometry_sample_t :=
  {| centre_m := dlit 5 100; odo_timestamp_us := t; odo_epoch := 3; odo_valid := true |}.
Definition bench_boot : s3_navigation_t := (s3_navigation_init (Some bench_config)).2.
Definition bench_ops : list nav_op :=
  [OpCalibrate 0 bench_collector; OpCalibrate 1 bench_collector; OpCalibrate 2 bench_collector;
   OpProcess (Some (bench_frame 1000)) (Some (bench_odometry 1000))].
Definition bench_ready : s3_navigation_t := fold_left (fun n op => (nav_run n op).2) bench_ops bench_boot.
Definition bench_active : s3_navigation_t := (nav_run bench_ready (OpStart 2000)).2.

Lemma map_shape_dec map : (Nat.eqb (length map) 26) && forallb (fun a => (- 2 ^ 31 <=? a) && (a <? 2 ^ 32)) map = true ->
  map_shape map.
Proof.
  intros H. unbool. split; [by apply Nat.eqb_eq |]. apply List.Forall_forall. intros a Ha.
  match goal with H : forallb _ _ = true |- _ => rewrite forallb_forall in H; specialize (H a Ha) end.
  unbool. lia.
Qed.
Lemma reachable_run ops : forall n, nav_reachable n -> Forall op_ok ops ->
  nav_reachable (fold_left (fun n op => (nav_run n op).2) ops n).
Proof.
  induction ops as [| op ops IH]; intros n Hn Ho; cbn [fold_left]; [done |].
  inversion Ho; subst. apply IH; [by constructor | done].
Qed.
Lemma bench_boot_reachable : nav_reachable bench_boot.
Proof. apply (nav_boot bench_config); [by apply map_shape_dec | vm_compute; reflexivity]. Qed.
Lemma bench_ready_reachable : nav_reachable bench_ready.
Proof. apply reachable_run; [apply bench_boot_reachable | repeat constructor]. Qed.
Lemma bench_active_reachable : nav_reachable bench_active.
Proof. constructor; [apply bench_ready_reachable | done]. Qed.

Lemma nav_lifecycle_safe_witness : lifecycle bench_active = S3_RUN_ACTIVE /\
  lifecycle_edge bench_ready (OpStart 2000) S3_RUN_INACTIVE S3_RUN_ACTIVE.
Proof.
  split; [vm_compute; reflexivity |].
  exact (proj2 (proj2 (nav_lifecycle_safe bench_ready (OpStart 2000) bench_ready_reachable I))).
Defined.
Lemma nav_start_iff_ready_witness : ready bench_ready 2000 /\ lifecycle bench_ready = S3_RUN_INACTIVE.
Proof.
  pose proof (nav_start_iff_ready bench_ready 2000 bench_ready_reachable) as H.
  destruct (s3_navigation_start bench_ready 2000) as [ok n'] eqn:E.
  assert (ok = true) as -> by (change ok with (ok, n').1; rewrite <- E; vm_compute; reflexivity).
  destruct H as (H & _). destruct (proj1 H eq_refl) as [H1 H2]. exact (conj H2 H1).
Defined.
(** The same frame: centred line during the run, then a frame 40 ms later (too
    late), which latches. *)
Definition bench_late : bool * s3_navigation_t * s3_navigation_output_t :=
  s3_navigation_process bench_active (Some (bench_frame 41000)) (Some (bench_odometry 41000)).
Lemma nav_output_safe_witness :
  current_faults bench_late.1.2 <> 0 /\ lifecycle bench_late.1.2 = S3_RUN_FAULT_LATCHED.
Proof.
  assert (H : current_faults bench_late.1.2 <> 0) by (vm_compute; discriminate).
  split; [exact H |]. revert H. unfold bench_late.
  pose proof (nav_output_safe bench_active (bench_frame 41000) (Some (bench_odometry 41000)) bench_active_reachable) as S.
  destruct (s3_navigation_process bench_active _ _) as [[ok n'] out]. cbn [fst snd]. intros H.
  destruct S as (_ & _ & S & _). exact (proj1 (S ltac:(vm_compute; reflexivity) H)).
Defined.
Lemma nav_barcode_action_witness :
  Z.testbit (events bench_late.2) 0 = false /\ action bench_late.2 = S3_NAV_NONE.
Proof.
  assert (H : Z.testbit (events bench_late.2) 0 = false) by (vm_compute; reflexivity).
  split; [exact H |]. revert H. unfold bench_late.
  pose proof (nav_barcode_action bench_active (bench_frame 41000) (Some (bench_odometry 41000)) bench_active_reachable) as S.
  destruct (s3_navigation_process bench_active _ _) as [[ok n'] out]. cbn [fst snd]. intros H.
  destruct S as (_ & S & _). exact (S H).
Defined.
Lemma nav_rearm_blocks_witness :
  let n := begin_rearm bench_active in
  rearming n = true /\ out_barcode (process_barcode n (bench_frame 3000) zero_output).2 = zero_result.
Proof.
  cbv zeta. split; [reflexivity |].
  pose proof (nav_rearm_blocks (begin_rearm bench_active) (bench_frame 3000) zero_output
    ltac:(vm_compute; reflexivity) eq_refl) as H.
  destruct (process_barcode _ _ _) as [n' out']. cbn [snd].
  destruct H as [(_ & -> & _) | (H & _)]; [reflexivity | discriminate H].
Defined.
