(* ===== verification/NavigationCodec.v ===== *)
(** * Navigation packets

    Models [subsystem3/navigation_codec.{c,h}]: the barcode result (38 bits),
    the raw sensor frame (266 bits) and the navigation output (479 bits) as
    explicit-bit packets of 5, 34 and 60 bytes.  A packing function returns the
    packet or [None] (the C result [false], output untouched); the order and the
    widths of the fields are those of the [put] calls.

    [line.touching] is not part of the navigation packet: unpacking leaves it at
    the [false] of the zeroed structure. *)
From S2P Require Import Prelude CFloat BitCodec WireFields IrSensing LineDetection BarcodeDecoder BarcodeRecord BarcodeReader Navigation NavigationSafety.

Definition run_state_code (s : s3_run_state_t) : Z :=
  match s with S3_RUN_INACTIVE => 0 | S3_RUN_ACTIVE => 1 | S3_RUN_FAULT_LATCHED => 2 end.
Definition run_state_of (z : Z) : option s3_run_state_t :=
  if z =? 0 then Some S3_RUN_INACTIVE else if z =? 1 then Some S3_RUN_ACTIVE
  else if z =? 2 then Some S3_RUN_FAULT_LATCHED else None.

Definition letter_valid (c : Z) : bool := (c =? 0) || ((CHAR_A <=? c) && (c <=? CHAR_Z)).

Definition write_barcode (v : s3_barcode_result_t) : list field :=
  [(if letter v =? 0 then 0 else letter v - CHAR_A + 1, 5%nat);
   (b2z (reversed v), 1%nat); (result_timestamp_us v, 32%nat)].
Definition read_barcode : reader s3_barcode_result_t :=
  code ← get 5; _ ← require (code <=? 26);
  rev ← get_flag; ts ← get 32;
  mret {| letter := if code =? 0 then 0 else CHAR_A + code - 1; reversed := rev; result_timestamp_us := ts |}.

Definition S3_BARCODE_BYTES : nat := 5.
Definition s3_barcode_pack (v : s3_barcode_result_t) : option bytes :=
  if negb (letter_valid (letter v)) then None else Some (pack S3_BARCODE_BYTES (write_barcode v)).
Definition s3_barcode_unpack (packet : bytes) : option s3_barcode_result_t :=
  if negb (Z.land (nthZ 0 packet 4) 0xc0 =? 0) then None else run read_barcode packet.

Definition sample_fields (s : s3_raw_sample_t) : list field :=
  [(sample_timestamp_us s, 32%nat); (sample_raw s, 12%nat); (u32 (sample_error s), 32%nat);
   (b2z (sample_enabled s), 1%nat); (b2z (sample_valid s), 1%nat)].
Definition read_sample : reader s3_raw_sample_t :=
  ts ← get 32; raw ← get 12; error ← get 32; enabled ← get_flag; valid ← get_flag;
  mret {| sample_timestamp_us := ts; sample_raw := raw; sample_error := signed32 error;
          sample_enabled := enabled; sample_valid := valid |}.

Definition S3_RAW_FRAME_BYTES : nat := 34.
Definition s3_raw_frame_pack (v : s3_sensor_frame_t) : option bytes :=
  if existsb (fun i => 4095 <? sample_raw (frame_sample v i)) (range S3_SENSOR_COUNT) then None
  else Some (pack S3_RAW_FRAME_BYTES
    ((frame_timestamp_us v, 32%nat) ::
     concat (map (fun i => sample_fields (frame_sample v i)) (range S3_SENSOR_COUNT)))).
Definition s3_raw_frame_unpack (packet : bytes) : option s3_sensor_frame_t :=
  if negb (Z.land (nthZ 0 packet 33) 0xfc =? 0) then None
  else run (ts ← get 32; samples ← repeat_read S3_SENSOR_COUNT read_sample;
            mret {| frame_timestamp_us := ts; sensor := samples |}) packet.

Definition processed_fields (p : s3_processed_sensor_t) : list field :=
  [(b2z (p_valid p), 1%nat); (p_darkness p, 10%nat); (surface_code (p_surface p), 2%nat)].
Definition read_processed : reader s3_processed_sensor_t :=
  valid ← get_flag; darkness ← get 10; surface ← get 2;
  _ ← require (darkness <=? 1000); surface ← lift (surface_of surface);
  mret {| p_valid := valid; p_darkness := darkness; p_surface := surface |}.

Definition steering_fields (s : s3_steering_request_t) : list field :=
  [(b2z (steer_valid s), 1%nat); float_field (left_mps s); float_field (right_mps s)].
Definition read_steering : reader s3_steering_request_t :=
  valid ← get_flag; left ← get_float; right ← get_float;
  mret {| steer_valid := valid; left_mps := left; right_mps := right |}.

Definition line_fields (l : s3_line_observation_t) : list field :=
  [(b2z (obs_valid l), 1%nat); (b2z (obs_present l), 1%nat); (b2z (junction_candidate l), 1%nat);
   (obs_error l + 100, 8%nat); (b2z (lost_event l), 1%nat); (b2z (reacquired_event l), 1%nat);
   (b2z (junction_event l), 1%nat)].
Definition read_line : reader s3_line_observation_t :=
  valid ← get_flag; present ← get_flag; junction ← get_flag;
  error ← get 8; _ ← require (error <=? 200);
  lost ← get_flag; reacquired ← get_flag; event ← get_flag;
  mret {| obs_valid := valid; obs_present := present; junction_candidate := junction;
          obs_error := i16 (error - 100); lost_event := lost; reacquired_event := reacquired;
          junction_event := event; touching := false |}.

Definition capture_fields (c : s3_capture_distance_t) : list field :=
  double_fields (start_m c) ++ double_fields (end_m c) ++
  [(cap_epoch c, 32%nat); (b2z (start_valid c), 1%nat); (b2z (end_valid c), 1%nat)].
Definition read_capture : reader s3_capture_distance_t :=
  start ← get_double; finish ← get_double; epoch ← get 32; sv ← get_flag; ev ← get_flag;
  mret {| start_m := start; end_m := finish; cap_epoch := epoch; start_valid := sv; end_valid := ev |}.

(** The refusals of [s3_navigation_pack], in the order of the source. *)
Definition navigation_packable (v : s3_navigation_output_t) : bool :=
  (Z.land (events v) 0xFFFFFFE0 =? 0) && (fault_mask v <=? 7) &&
  (u32 (action v) <? S3_NAV_ACTION_COUNT) &&
  (-100 <=? obs_error (out_line v)) && (obs_error (out_line v) <=? 100) &&
  letter_valid (letter (out_barcode v)) &&
  (readiness_blockers v <=? 31) && (out_latched_faults v <=? 15) && (out_accepted_calibration v <=? 7) &&
  forallb (fun i => p_darkness (nthZ zero_processed (out_sensor v) i) <=? 1000) (range S3_SENSOR_COUNT).

Definition navigation_fields (v : s3_navigation_output_t) : list field :=
  [(out_timestamp_us v, 32%nat); (sample_gap_us v, 32%nat); (events v, 5%nat); (fault_mask v, 3%nat)] ++
  concat (map (fun i => processed_fields (nthZ zero_processed (out_sensor v) i)) (range S3_SENSOR_COUNT)) ++
  line_fields (out_line v) ++ steering_fields (steering v) ++
  [(status_code (barcode_status v), 3%nat)] ++ write_barcode (out_barcode v) ++ [(action v, 3%nat)] ++
  steering_fields (steering_preview v) ++
  [(run_state_code (out_lifecycle v), 2%nat); (readiness_blockers v, 5%nat); (out_latched_faults v, 4%nat);
   (out_accepted_calibration v, 3%nat); (b2z (stop_requested v), 1%nat);
   (b2z (out_odometry_available v), 1%nat); (b2z (out_rearming v), 1%nat); (b2z (diagnostic v), 1%nat)] ++
  capture_fields (out_capture_distance v).

Definition S3_NAVIGATION_BYTES : nat := 60.
Definition s3_navigation_pack (v : s3_navigation_output_t) : option bytes :=
  if negb (navigation_packable v) then None else Some (pack S3_NAVIGATION_BYTES (navigation_fields v)).

Definition read_navigation : reader s3_navigation_output_t :=
  ts ← get 32; gap ← get 32; events ← get 5; faults ← get 3;
  sensors ← repeat_read S3_SENSOR_COUNT read_processed;
  line ← read_line; steer ← read_steering;
  status ← get 3; status ← lift (status_of status); barcode ← read_barcode;
  action ← get 3; _ ← require (action <? S3_NAV_ACTION_COUNT);
  preview ← read_steering;
  state ← get 2; state ← lift (run_state_of state);
  blockers ← get 5; latched ← get 4; accepted ← get 3;
  stop ← get_flag; odo ← get_flag; rearm ← get_flag; diag ← get_flag;
  capture ← read_capture;
  mret {| out_timestamp_us := ts; sample_gap_us := gap; events := events; fault_mask := faults;
          out_sensor := sensors; out_line := line; steering := steer; steering_preview := preview;
          out_lifecycle := state; readiness_blockers := blockers; out_latched_faults := latched;
          out_accepted_calibration := accepted; stop_requested := stop; out_odometry_available := odo;
          out_rearming := rearm; diagnostic := diag; out_capture_distance := capture;
          barcode_status := status; out_barcode := barcode; action := action |}.
Definition s3_navigation_unpack (packet : bytes) : option s3_navigation_output_t :=
  if negb (Z.land (nthZ 0 packet 59) 0x80 =? 0) then None else run read_navigation packet.

(** ** Values as C holds them *)
Definition barcode_typed (v : s3_barcode_result_t) : Prop := in_u 32 (result_timestamp_us v).
Definition sample_typed (s : s3_raw_sample_t) : Prop :=
  in_u 32 (sample_timestamp_us s) /\ in_u 16 (sample_raw s) /\ - 2 ^ 31 <= sample_error s < 2 ^ 31.
Definition frame_typed (f : s3_sensor_frame_t) : Prop :=
  in_u 32 (frame_timestamp_us f) /\ length (sensor f) = S3_SENSOR_COUNT /\ Forall sample_typed (sensor f).
Definition steering_typed (s : s3_steering_request_t) : Prop := float_ok (left_mps s) /\ float_ok (right_mps s).
Definition capture_typed (c : s3_capture_distance_t) : Prop :=
  double_ok (start_m c) /\ double_ok (end_m c) /\ in_u 32 (cap_epoch c).
Record output_typed (v : s3_navigation_output_t) : Prop := {
  ot_times : in_u 32 (out_timestamp_us v) /\ in_u 32 (sample_gap_us v);
  ot_masks : in_u 32 (events v) /\ in_u 8 (fault_mask v) /\ in_u 32 (readiness_blockers v) /\
    in_u 32 (out_latched_faults v) /\ in_u 8 (out_accepted_calibration v);
  ot_sensors : length (out_sensor v) = S3_SENSOR_COUNT /\
    Forall (fun p => in_u 16 (p_darkness p)) (out_sensor v);
  ot_steering : steering_typed (steering v) /\ steering_typed (steering_preview v);
  ot_barcode : barcode_typed (out_barcode v);
  ot_action : - 2 ^ 31 <= action v < 2 ^ 32;
  ot_capture : capture_typed (out_capture_distance v)
}.

(** ** Reading back the parts *)
Lemma surface_code_of s : surface_of (surface_code s) = Some s.
Proof. by destruct s. Qed.
Lemma run_state_code_of s : run_state_of (run_state_code s) = Some s.
Proof. by destruct s. Qed.
Lemma status_code_of s : status_of (status_code s) = Some s.
Proof. by destruct s. Qed.
Lemma surface_code_range s : in_u (Z.of_nat 2) (surface_code s).
Proof. destruct s; unfold in_u; cbn; lia. Qed.
Lemma run_state_code_range s : in_u (Z.of_nat 2) (run_state_code s).
Proof. destruct s; unfold in_u; cbn; lia. Qed.
Lemma status_code_range s : in_u (Z.of_nat 3) (status_code s).
Proof. destruct s; unfold in_u; cbn; lia. Qed.
#[export] Hint Resolve surface_code_of run_state_code_of status_code_of : car.
#[export] Hint Resolve surface_code_range run_state_code_range status_code_range : car.

Lemma letter_valid_cases c : letter_valid c = true -> c = 0 \/ CHAR_A <= c <= CHAR_Z.
Proof. unfold letter_valid. intros H. unbool. destruct H as [H | H]; unbool; [by left | right; lia]. Qed.

Lemma reads_barcode v : letter_valid (letter v) = true -> barcode_typed v ->
  reads read_barcode (write_barcode v) v.
Proof.
  intros Hl Ht. apply letter_valid_cases in Hl. unfold CHAR_A, CHAR_Z in Hl. unfold read_barcode, write_barcode.
  set (code := if letter v =? 0 then 0 else letter v - CHAR_A + 1).
  assert (Hc : 0 <= code <= 26 /\ (if code =? 0 then 0 else CHAR_A + code - 1) = letter v).
  { subst code. unfold CHAR_A. destruct (Z.eqb_spec (letter v) 0) as [E |]; [by rewrite E |].
    split; [lia |]. case_if; unbool; lia. }
  destruct Hc as [Hc Hr]. clearbody code.
  apply reads_get; [unfold in_u; cbn; lia |]. apply reads_require; [apply Z.leb_le; lia |].
  apply reads_flag, reads_get; [exact Ht |]. rewrite Hr. replace v with {| letter := letter v;
    reversed := reversed v; result_timestamp_us := result_timestamp_us v |} at 4 by (by destruct v).
  apply reads_ret.
Qed.

Lemma reads_sample s : sample_typed s -> sample_raw s <= 4095 -> reads read_sample (sample_fields s) s.
Proof.
  intros (H1 & H2 & H3) Hr. unfold in_u in *. unfold read_sample, sample_fields.
  apply reads_get; [exact H1 |]. apply reads_get; [unfold in_u; cbn; lia |].
  apply reads_get; [apply u32_range |]. rewrite signed32_u32 by done. do 2 apply reads_flag.
  destruct s. apply reads_ret.
Qed.

Lemma reads_processed p : 0 <= p_darkness p <= 1000 -> reads read_processed (processed_fields p) p.
Proof.
  intros Hd. unfold read_processed, processed_fields. apply reads_flag.
  apply reads_get; [unfold in_u; cbn; lia |]. apply reads_get; [auto with car |].
  apply reads_require; [apply Z.leb_le; lia |]. eapply reads_lift; [apply surface_code_of |].
  destruct p. apply reads_ret.
Qed.

Lemma reads_steering s : steering_typed s -> reads read_steering (steering_fields s) s.
Proof.
  intros [Hl Hr]. unfold read_steering, steering_fields. apply reads_flag. do 2 (apply reads_float; [done |]).
  destruct s. apply reads_ret.
Qed.

Lemma reads_line l : -100 <= obs_error l <= 100 -> reads read_line (line_fields l) (l <| touching := false |>).
Proof.
  intros He. unfold read_line, line_fields. do 3 apply reads_flag.
  apply reads_get; [unfold in_u; cbn; lia |]. apply reads_require; [apply Z.leb_le; lia |].
  do 3 apply reads_flag. unfold i16. rewrite swrap_id by lia.
  replace (obs_error l + 100 - 100) with (obs_error l) by lia. destruct l. apply reads_ret.
Qed.

Lemma reads_capture c : capture_typed c -> reads read_capture (capture_fields c) c.
Proof.
  intros (H1 & H2 & H3). unfold read_capture, capture_fields. do 2 (apply reads_double; [done |]).
  apply reads_get; [exact H3 |]. do 2 apply reads_flag. destruct c. apply reads_ret.
Qed.

Lemma nth_list3 {A} (d : A) l : length l = S3_SENSOR_COUNT -> map (nthZ d l) (range S3_SENSOR_COUNT) = l.
Proof. intros Hl. destruct l as [| a [| b [| c [| ? ?]]]]; done. Qed.

Lemma reads_list3 {A} (d : A) (m : reader A) (enc : A -> list field) l : length l = S3_SENSOR_COUNT ->
  Forall (fun x => reads m (enc x) x) l ->
  reads (repeat_read S3_SENSOR_COUNT m) (concat (map (fun i => enc (nthZ d l i)) (range S3_SENSOR_COUNT))) l.
Proof.
  intros Hl Hf. rewrite <- (map_map (nthZ d l) enc), nth_list3 by done. rewrite <- Hl. by apply reads_repeat.
Qed.

(** Everything but the field the packet does not carry. *)
Definition carried (v : s3_navigation_output_t) : s3_navigation_output_t :=
  v <| out_line := out_line v <| touching := false |> |>.

Lemma events_small e : in_u 32 e -> Z.land e 0xFFFFFFE0 = 0 -> in_u 5 e.
Proof.
  unfold in_u. intros He Hz. split; [lia |].
  assert (e = e mod 2 ^ 5) as ->; [| apply Z.mod_pos_bound; lia].
  apply Z.bits_inj'. intros i Hi. rewrite Z.testbit_mod_pow2 by lia.
  destruct (Z.ltb_spec i 5); [done |]. cbn [andb]. destruct (Z.lt_ge_cases i 32).
  - apply (f_equal (fun z => Z.testbit z i)) in Hz. rewrite Z.land_spec, Z.bits_0 in Hz.
    replace (Z.testbit 0xFFFFFFE0 i) with true in Hz; [by rewrite andb_true_r in Hz |].
    symmetry. apply (forall_range (fun i => Z.testbit 0xFFFFFFE0 i) 5 27); [reflexivity | lia].
  - destruct (Z.eq_dec e 0) as [-> |]; [apply Z.bits_0 |]. apply Z.bits_above_log2; [lia |].
    apply Z.log2_lt_pow2; [lia |]. eapply Z.lt_le_trans; [apply He |]. apply Z.pow_le_mono_r; lia.
Qed.

Lemma u32_action a : - 2 ^ 31 <= a < 2 ^ 32 -> u32 a < S3_NAV_ACTION_COUNT -> 0 <= a < S3_NAV_ACTION_COUNT.
Proof.
  unfold S3_NAV_ACTION_COUNT, u32, wrap. intros Ha Hu. destruct (Z_lt_ge_dec a 0).
  - rewrite <- (Z_mod_plus_full a 1), Z.mod_small in Hu; lia.
  - rewrite Z.mod_small in Hu; lia.
Qed.

Lemma packable_sensors v : output_typed v -> navigation_packable v = true ->
  Forall (fun p => reads read_processed (processed_fields p) p) (out_sensor v).
Proof.
  intros [_ _ [Hl Hs] _ _ _ _] Hp. unfold navigation_packable in Hp. apply andb_true_iff in Hp as [_ Hp].
  assert (Forall (fun p => p_darkness p <= 1000) (out_sensor v)) as Hd.
  { rewrite <- (nth_list3 zero_processed (out_sensor v) Hl). apply Forall_map.
    rewrite forallb_forall in Hp. apply List.Forall_forall. intros i Hi. specialize (Hp i Hi). by apply Z.leb_le. }
  eapply Forall_impl; [apply Forall_and; split; [exact Hs | exact Hd] |].
  cbn beta. unfold in_u. intros p [Hp1 Hp2]. apply reads_processed. lia.
Qed.

Lemma reads_navigation v : output_typed v -> navigation_packable v = true ->
  reads read_navigation (navigation_fields v) (carried v).
Proof.
  intros T Hp. pose proof (packable_sensors v T Hp) as Hs. destruct T as [[T1 T2] T3 [Hl _] [S1 S2] B A C].
  unfold navigation_packable in Hp. unbool. destruct T3 as (M1 & M2 & M3 & M4 & M5).
  assert (in_u 5 (events v)) by (by apply events_small). assert (0 <= action v < 5) by (by apply u32_action).
  unfold in_u in *. unfold read_navigation, navigation_fields. cbn [app].
  do 4 (apply reads_get; [unfold in_u; cbn; lia |]).
  eapply reads_bind; [apply reads_list3; done |].
  eapply reads_bind; [apply reads_line; done |]. eapply reads_bind; [apply reads_steering; done |].
  apply reads_get; [auto with car |]. eapply reads_lift; [apply status_code_of |].
  eapply reads_bind; [by apply reads_barcode |].
  apply reads_get; [unfold in_u; cbn; lia |]. apply reads_require; [apply Z.ltb_lt; unfold S3_NAV_ACTION_COUNT; lia |].
  eapply reads_bind; [apply reads_steering; done |].
  apply reads_get; [auto with car |]. eapply reads_lift; [apply run_state_code_of |].
  do 3 (apply reads_get; [unfold in_u; cbn; lia |]). do 4 apply reads_flag.
  rewrite <- (app_nil_r (capture_fields _)). eapply reads_bind; [by apply reads_capture |].
  destruct v. apply reads_ret.
Qed.

Lemma navigation_width v : total_width (navigation_fields v) = 479 /\ widths_ok (navigation_fields v).
Proof. split; [reflexivity |]. unfold navigation_fields. check_widths. Qed.
Lemma raw_frame_width v : let fs := (frame_timestamp_us v, 32%nat) ::
    concat (map (fun i => sample_fields (frame_sample v i)) (range S3_SENSOR_COUNT)) in
  total_width fs = 266 /\ widths_ok fs.
Proof. split; [reflexivity |]. check_widths. Qed.

(** The padding bits of a packed buffer pass the unpacker's mask test. *)
Lemma pack_mask n fs i m : total_width fs <= 8 * Z.of_nat n -> 0 <= i -> 0 <= m < 256 ->
  (forall j, 0 <= j < 8 -> Z.testbit m j = true -> total_width fs <= 8 * i + j) ->
  Z.land (nthZ 0 (pack n fs) i) m = 0.
Proof.
  intros Ht Hi Hm Hj. apply byte_mask_zero; [done | done |]. intros j Hj8 Hb.
  apply pack_padding; [done |]. by apply Hj.
Qed.
Lemma mask_bits m lo j : 0 <= j < 8 -> Z.testbit m j = true ->
  forallb (fun j => negb (Z.testbit m j) || (lo <=? j)) (List.map Z.of_nat (List.seq 0 8)) = true -> lo <= j.
Proof.
  intros Hj Hb Hf. rewrite forallb_forall in Hf. specialize (Hf j).
  rewrite Hb in Hf. cbn [negb orb] in Hf. apply Z.leb_le, Hf.
  rewrite in_map_iff. exists (Z.to_nat j). split; [lia |]. apply in_seq. lia.
Qed.

(** ** Theorems *)

Lemma navigation_roundtrip v : output_typed v ->
  match s3_navigation_pack v with
  | Some packet => navigation_packable v = true /\ length packet = 60%nat /\ bytes_ok packet /\
      s3_navigation_unpack packet = Some (carried v)
  | None => navigation_packable v = false
  end.
Proof.
  intros T. unfold s3_navigation_pack. destruct (navigation_packable v) eqn:E; cbn [negb]; [| done].
  destruct (navigation_width v) as [Hw Hk]. splits; [done | | apply pack_ok |].
  - rewrite length_pack; [done |]. by rewrite Hw.
  - unfold s3_navigation_unpack. rewrite pack_mask; [| by rewrite Hw | done | done |].
    + cbn [negb Z.eqb]. apply reads_run; [by apply reads_navigation | done | by rewrite Hw].
    + rewrite Hw. intros j Hj Hb. pose proof (mask_bits _ 7 j Hj Hb eq_refl). lia.
Qed.

(** Navigation packet round trip.  Packing succeeds exactly on outputs whose
    fields are in range, yields 60 bytes, and unpacking gives the output back,
    but for [line.touching], which the packet does not carry. *)
Theorem s3_navigation_roundtrip v : output_typed v ->
  match s3_navigation_pack v with
  | Some packet => navigation_packable v = true /\ length packet = 60%nat /\ bytes_ok packet /\
      s3_navigation_unpack packet = Some (carried v)
  | None => navigation_packable v = false
  end.
Proof. apply navigation_roundtrip. Qed.

Lemma readiness_range n now : 0 <= s3_navigation_readiness n now <= 31.
Proof.
  assert (Hf : forall (b : bool) f e, f = 1 \/ f = 2 \/ f = 4 \/ f = 8 \/ f = 16 -> in_u 5 e ->
    in_u 5 (if b then Z.lor e f else e)) by exact flag_if_range.
  assert (in_u 5 (s3_navigation_readiness n now)) as H; [| unfold in_u in H; lia].
  unfold s3_navigation_readiness. case_if; [split; vm_compute; congruence |]. cbv zeta.
  apply Hf; [tauto |]. apply Hf; [tauto |]. change (range S3_SENSOR_COUNT) with [0; 1; 2]. cbn [fold_left].
  do 4 (apply Hf; [tauto |]). apply Hf; [tauto |]. apply Hf; [tauto |]. unfold in_u. lia.
Qed.

(** The navigator never publishes an output that the codec refuses: after any
    sequence of calls, the output of processing any frame packs. *)
Theorem nav_output_packable n frame odo : nav_reachable n ->
  is_Some (s3_navigation_pack (s3_navigation_process n (Some frame) odo).2).
Proof.
  intros Hn. apply reachable_inv in Hn as [L Hc]. destruct (process_sound n frame odo Hc L) as [_ S].
  destruct (s3_navigation_process n (Some frame) odo) as [[ok n'] out]. cbn [fst snd] in *.
  destruct S as [L' (Hcfg & _) _ (_ & _ & Hlat & Hacc & Hrdy) _ _ (Hev & _) Ha Hlet (Hlen & Hs & Hfm) Herr _].
  unfold s3_navigation_pack. enough (navigation_packable out = true) as -> by (by eexists).
  assert (HA : 0 <= action out < S3_NAV_ACTION_COUNT).
  { rewrite Ha. case_if; [| done]. unfold mapped_action.
    apply (nthZ_Forall (fun a => 0 <= a < S3_NAV_ACTION_COUNT)); [done |]. apply (inv_map _ L'). }
  assert (HL : letter_valid (letter (out_barcode out)) = true).
  { unfold letter_valid. destruct (decoded out); [| by rewrite Hlet].
    apply orb_true_iff. right. apply andb_true_iff. split; apply Z.leb_le; lia. }
  pose proof (readiness_range n' (frame_timestamp_us frame)) as HR. pose proof (inv_latched _ L') as [HF _].
  pose proof (inv_accepted _ L') as HC. rewrite <- Hlat in HF. rewrite <- Hacc in HC. rewrite <- Hrdy in HR.
  unfold in_u in *. unfold navigation_packable, S3_NAV_ACTION_COUNT in *.
  rewrite HL. rewrite (wrap_id 32 (action out) ltac:(unfold in_u; lia) : u32 (action out) = action out).
  assert (Z.land (events out) 0xFFFFFFE0 = 0) as ->.
  { apply Z.eqb_eq. apply (forall_range (fun e => Z.land e 0xFFFFFFE0 =? 0) 0 32); [reflexivity | exact Hev]. }
  rewrite !andb_true_iff, !Z.leb_le, Z.ltb_lt. splits; try done; try lia.
  apply forallb_forall. intros i _. apply Z.leb_le.
  apply (nthZ_Forall (fun p => p_darkness p <= 1000)); [done |].
  eapply Forall_impl; [exact Hs |]. cbn beta. lia.
Qed.

Lemma nav_output_packable_witness :
  is_Some (s3_navigation_pack (s3_navigation_process bench_active (Some (bench_frame 41000)) None).2).
Proof. exact (nav_output_packable bench_active (bench_frame 41000) None bench_active_reachable). Defined.

Lemma frame_roundtrip f : frame_typed f ->
  match s3_raw_frame_pack f with
  | Some p => length p = S3_RAW_FRAME_BYTES /\ bytes_ok p /\ s3_raw_frame_unpack p = Some f
  | None => Exists (fun s => 4095 < sample_raw s) (sensor f)
  end.
Proof.
  intros (H1 & H2 & H3). unfold s3_raw_frame_pack. destruct (existsb _ _) eqn:E.
  - apply existsb_exists in E as (i & Hi & Hr). apply Z.ltb_lt in Hr. apply List.Exists_exists.
    exists (frame_sample f i). split; [| done].
    unfold frame_sample. rewrite <- (nth_list3 zero_sample (sensor f) H2) at 2. by apply in_map.
  - destruct (raw_frame_width f) as [Hw Hk]. cbv zeta in Hw, Hk. splits; [| apply pack_ok |].
    + rewrite length_pack; [done |]. by rewrite Hw.
    + unfold s3_raw_frame_unpack. rewrite pack_mask; [| by rewrite Hw | done | done |].
      * cbn [negb Z.eqb]. apply reads_run; [| done | by rewrite Hw].
        apply reads_get; [exact H1 |]. rewrite <- (app_nil_r (concat _)).
        eapply reads_bind with (x := sensor f); [| destruct f; apply reads_ret].
        apply (reads_list3 zero_sample read_sample sample_fields); [done |].
        assert (Forall (fun s => sample_raw s <= 4095) (sensor f)) as Hr.
        { rewrite <- (nth_list3 zero_sample (sensor f) H2). apply Forall_map, List.Forall_forall. intros i Hi.
          destruct (Z.le_gt_cases (sample_raw (nthZ zero_sample (sensor f) i)) 4095) as [| Hgt]; [done |].
          rewrite <- Bool.not_true_iff_false in E. exfalso. apply E, existsb_exists. exists i.
          split; [done |]. by apply Z.ltb_lt. }
        eapply Forall_impl; [apply Forall_and; split; [exact H3 | exact Hr] |].
        cbn beta. intros s [Hs1 Hs2]. by apply reads_sample.
      * rewrite Hw. intros j Hj Hb. pose proof (mask_bits _ 2 j Hj Hb eq_refl). lia.
Qed.

Lemma barcode_roundtrip v : barcode_typed v ->
  match s3_barcode_pack v with
  | Some p => length p = S3_BARCODE_BYTES /\ bytes_ok p /\ s3_barcode_unpack p = Some v
  | None => letter_valid (letter v) = false
  end.
Proof.
  intros T. unfold s3_barcode_pack. destruct (letter_valid (letter v)) eqn:E; cbn [negb]; [| done].
  assert (Hw : total_width (write_barcode v) = 38) by reflexivity. splits; [| apply pack_ok |].
  - rewrite length_pack; [done |]. by rewrite Hw.
  - unfold s3_barcode_unpack. rewrite pack_mask; [| by rewrite Hw | done | done |].
    + cbn [negb Z.eqb]. apply reads_run; [by apply reads_barcode | check_widths | by rewrite Hw].
    + rewrite Hw. intros j Hj Hb. pose proof (mask_bits _ 6 j Hj Hb eq_refl). lia.
Qed.

(** ** Canonical packets: an accepted packet is the packing of what it reads as *)
Lemma run_read_barcode b : run read_barcode b =
  let code := get_at b 0 5 in
  if code <=? 26 then
    Some {| letter := if code =? 0 then 0 else CHAR_A + code - 1;
            reversed := negb (get_at b 5 1 =? 0); result_timestamp_us := get_at b 6 32 |}
  else None.
Proof.
  unfold run, read_barcode, get_flag, require. unfold mbind, reader_bind, get, mret, reader_ret. cbv zeta.
  cbn [Z.of_nat Z.add]. by destruct (get_at b 0 5 <=? 26).
Qed.

Lemma barcode_canonical b v : bytes_ok b -> length b = S3_BARCODE_BYTES -> s3_barcode_unpack b = Some v ->
  s3_barcode_pack v = Some b.
Proof.
  intros Hb Hl. unfold s3_barcode_unpack. case_if; [done |]. rewrite run_read_barcode. cbv zeta.
  pose proof (get_at_range b 0 5) as Hc. unfold in_u in Hc. change (2 ^ Z.of_nat 5) with 32 in Hc.
  set (code := get_at b 0 5) in *. destruct (Z.leb_spec code 26) as [H26 |]; [| done]. intros [= <-].
  unfold s3_barcode_pack. cbn [letter].
  assert (Hv : letter_valid (if code =? 0 then 0 else CHAR_A + code - 1) = true).
  { unfold letter_valid, CHAR_A, CHAR_Z. destruct (Z.eqb_spec code 0); [done |].
    apply orb_true_iff. right. apply andb_true_iff. rewrite !Z.leb_le. lia. }
  rewrite Hv. cbn [negb]. f_equal. rewrite <- Hl. apply pack_unique; [done | check_widths | rewrite Hl; done | |].
  - unfold write_barcode. cbn [encodes letter reversed result_timestamp_us]. splits; try done.
    + fold code. set (c := if code =? 0 then 0 else CHAR_A + code - 1).
      replace (if c =? 0 then 0 else c - CHAR_A + 1) with code; [apply wrap_get |].
      subst c. unfold CHAR_A. destruct (Z.eqb_spec code 0) as [E |]; [by rewrite E |].
      destruct (Z.eqb_spec (65 + code - 1) 0); lia.
    + rewrite <- flag_get. apply wrap_get.
    + apply wrap_get.
  - rewrite Hl. intros k Hk. change (38 <= k < 40) in Hk. unbool.
    replace k with (8 * 4 + (k - 32)) by lia. eapply byte_mask_clear; [lia | lia | eassumption |].
    apply (forall_range (fun j => Z.testbit 0xc0 j) 6 2); [reflexivity | lia].
Qed.

Lemma read_sample_eq b p : read_sample b p = Some
  ({| sample_timestamp_us := get_at b p 32; sample_raw := get_at b (p + 32) 12;
      sample_error := signed32 (get_at b (p + 44) 32); sample_enabled := negb (get_at b (p + 76) 1 =? 0);
      sample_valid := negb (get_at b (p + 77) 1 =? 0) |}, p + 78).
Proof.
  unfold read_sample, get_flag. unfold mbind, reader_bind, get, mret, reader_ret. cbn [Z.of_nat].
  change (Pos.of_succ_nat 31) with 32%positive. change (Pos.of_succ_nat 11) with 12%positive.
  change (Pos.of_succ_nat 0) with 1%positive. by rewrite <- !Z.add_assoc.
Qed.

Lemma encodes_sample b p s : read_sample b p = Some (s, p + 78) -> encodes b p (sample_fields s) /\
  sample_raw s <= 4095.
Proof.
  rewrite read_sample_eq. intros [= <-]. unfold sample_fields. cbn [encodes sample_timestamp_us sample_raw
    sample_error sample_enabled sample_valid].
  pose proof (get_at_range b (p + 32) 12) as Hr. unfold in_u in Hr. change (2 ^ Z.of_nat 12) with 4096 in Hr.
  split; [| lia]. rewrite u32_signed32 by apply (get_at_range _ _ 32). rewrite <- !flag_get, <- !Z.add_assoc.
  splits; try done; apply wrap_get.
Qed.

Lemma frame_canonical b f : bytes_ok b -> length b = S3_RAW_FRAME_BYTES -> s3_raw_frame_unpack b = Some f ->
  s3_raw_frame_pack f = Some b.
Proof.
  intros Hb Hl. unfold s3_raw_frame_unpack. case_if; [done |]. unbool. unfold run.
  change S3_SENSOR_COUNT with 3%nat. cbn [repeat_read]. unfold mbind, reader_bind, get, mret, reader_ret.
  change (Z.of_nat 32) with 32. rewrite !Z.add_0_l.
  set (s1 := default zero_sample (fst <$> read_sample b 32)).
  set (s2 := default zero_sample (fst <$> read_sample b (32 + 78))).
  set (s3 := default zero_sample (fst <$> read_sample b (32 + 78 + 78))).
  assert (E1 : read_sample b 32 = Some (s1, 32 + 78)) by (subst s1; by rewrite read_sample_eq).
  assert (E2 : read_sample b (32 + 78) = Some (s2, 32 + 78 + 78)) by (subst s2; by rewrite read_sample_eq).
  assert (E3 : read_sample b (32 + 78 + 78) = Some (s3, 32 + 78 + 78 + 78)) by (subst s3; by rewrite read_sample_eq).
  rewrite E1, E2, E3. intros [= <-]. clearbody s1 s2 s3.
  destruct (encodes_sample _ _ _ E1) as [C1 R1], (encodes_sample _ _ _ E2) as [C2 R2],
    (encodes_sample _ _ _ E3) as [C3 R3].
  unfold s3_raw_frame_pack. change (range S3_SENSOR_COUNT) with [0; 1; 2]. cbn [existsb List.map map].
  change (frame_sample _ 0) with s1. change (frame_sample _ 1) with s2. change (frame_sample _ 2) with s3.
  rewrite (proj2 (Z.ltb_ge 4095 (sample_raw s1)) R1), (proj2 (Z.ltb_ge 4095 (sample_raw s2)) R2),
    (proj2 (Z.ltb_ge 4095 (sample_raw s3)) R3). cbn [orb]. f_equal. rewrite <- Hl.
  apply pack_unique; [done | check_widths | rewrite Hl; done | |].
  - cbn [frame_timestamp_us encodes concat]. split; [apply wrap_get |].
    rewrite !encodes_app. change (total_width (sample_fields s1)) with 78.
    change (total_width (sample_fields s2)) with 78. splits; done.
  - rewrite Hl. intros k Hk. change (266 <= k < 272) in Hk.
    replace k with (8 * 33 + (k - 264)) by lia. eapply byte_mask_clear; [lia | lia | eassumption |].
    apply (forall_range (fun j => Z.testbit 0xfc j) 2 6); [reflexivity | lia].
Qed.

(** Raw-frame and barcode packets are bijective encodings.  A sensor frame of
    C's types packs exactly when its readings are 12-bit, and reads back equal,
    error codes signed; a barcode result packs exactly when its letter is none or
    A..Z, and reads back equal; and conversely every packet that unpacks is
    byte for byte the packing of the value it unpacks to. *)
Theorem s3_raw_packets_bijective f v bf bv : frame_typed f -> barcode_typed v ->
  bytes_ok bf -> length bf = S3_RAW_FRAME_BYTES -> bytes_ok bv -> length bv = S3_BARCODE_BYTES ->
  match s3_raw_frame_pack f with
  | Some p => length p = S3_RAW_FRAME_BYTES /\ s3_raw_frame_unpack p = Some f
  | None => Exists (fun s => 4095 < sample_raw s) (sensor f)
  end /\
  match s3_barcode_pack v with
  | Some p => length p = S3_BARCODE_BYTES /\ s3_barcode_unpack p = Some v
  | None => letter_valid (letter v) = false
  end /\
  (forall f', s3_raw_frame_unpack bf = Some f' -> s3_raw_frame_pack f' = Some bf) /\
  (forall v', s3_barcode_unpack bv = Some v' -> s3_barcode_pack v' = Some bv).
Proof.
  intros Tf Tv Hf Lf Hv Lv. pose proof (frame_roundtrip f Tf) as H1. pose proof (barcode_roundtrip v Tv) as H2.
  splits.
  - destruct (s3_raw_frame_pack f); naive_solver.
  - destruct (s3_barcode_pack v); naive_solver.
  - intros f'. by apply frame_canonical.
  - intros v'. by apply barcode_canonical.
Qed.

Lemma bench_frame_typed : frame_typed (bench_frame 1000).
Proof. unfold frame_typed, sample_typed, in_u. cbn. splits; try lia; try done. repeat (constructor; [cbn; lia |]). constructor. Qed.
Lemma s3_raw_packets_bijective_witness :
  exists p, s3_raw_frame_pack (bench_frame 1000) = Some p /\ s3_raw_frame_unpack p = Some (bench_frame 1000).
Proof.
  pose proof (s3_raw_packets_bijective (bench_frame 1000) zero_result (zeros 34) (zeros 5) bench_frame_typed
    ltac:(split; vm_compute; congruence) ltac:(repeat constructor; lia) eq_refl
    ltac:(repeat constructor; lia) eq_refl) as (H & _).
  destruct (s3_raw_frame_pack (bench_frame 1000)) as [p |] eqn:E; [| vm_compute in E; discriminate].
  exists p. exact (conj eq_refl (proj2 H)).
Defined.

Lemma bench_output_typed : output_typed zero_output.
Proof.
  constructor; unfold steering_typed, barcode_typed, capture_typed, in_u; cbn; splits; try lia; try done.
  repeat (constructor; [cbn; lia |]). constructor.
Qed.
Lemma s3_navigation_roundtrip_witness :
  exists p, s3_navigation_pack zero_output = Some p /\ s3_navigation_unpack p = Some zero_output.
Proof.
  pose proof (s3_navigation_roundtrip zero_output bench_output_typed) as H.
  destruct (s3_navigation_pack zero_output) as [p |] eqn:E; [| vm_compute in E; discriminate].
  exists p. destruct H as (_ & _ & _ & H). exact (conj eq_refl H).
Defined.
