(* ===== verification/ObstacleScan.v ===== *)
(** * Ultrasonic scan and obstacle profile

    Models [subsystem5/ultrasonic_sensor.c] (echo time to millimetres),
    [obstacle_profile.c] (18-bit samples, the profile of a scan, the side peek)
    and [obstacle_scan.c] (the scan's angle sequence), with the settings of
    [s5_config.h].  The sensor's registers are not modelled.

    The scan accepts one measurement per call.  Its invariant [scan_inv] gives,
    for each point of a full scan, exactly which angles have been sampled. *)
From S2P Require Import Prelude BitCodec.

Definition S5_RANGE_MIN_MM : Z := 30.
Definition S5_RANGE_MAX_MM : Z := 4000.
Definition S5_RANGE_FRESH_US : Z := 250000.
Definition S5_SCAN_TIMEOUT_US : Z := 10000000.
Definition S5_SAMPLES_MAX : Z := 16.

(** All fields are 12-bit, [speed_mms] 9-bit. *)
Record s5_config_t := {
  detect_mm : Z; emergency_mm : Z; profile_mm : Z; half_width_mm : Z; margin_mm : Z; max_depth_mm : Z;
  recovery_gate_mm : Z; max_offset_mm : Z; sensor_axle_mm : Z; cfg_speed_mms : Z
}.
Definition s5_defaults : s5_config_t :=
  {| detect_mm := 200; emergency_mm := 80; profile_mm := 350; half_width_mm := 90; margin_mm := 30;
     max_depth_mm := 500; recovery_gate_mm := 100; max_offset_mm := 700; sensor_axle_mm := 0;
     cfg_speed_mms := 80 |}.
Definition s5_config_typed (c : s5_config_t) : Prop :=
  in_u 12 (detect_mm c) /\ in_u 12 (emergency_mm c) /\ in_u 12 (profile_mm c) /\ in_u 12 (half_width_mm c) /\
  in_u 12 (margin_mm c) /\ in_u 12 (max_depth_mm c) /\ in_u 12 (recovery_gate_mm c) /\
  in_u 12 (max_offset_mm c) /\ in_u 12 (sensor_axle_mm c) /\ in_u 9 (cfg_speed_mms c).

(** ** Echo time *)
Definition ultrasonic_pulse_mm (us : Z) : option Z :=
  if 24000 <? us then None
  else
    let value := u32 (us * 343 + 1000) / 2000 in
    if (value <? S5_RANGE_MIN_MM) || (S5_RANGE_MAX_MM <? value) then None else Some (u16 value).
(** The validity and the distance left in [*mm]. *)
Definition ultrasonic_echo_mm (us : Z) : bool * Z :=
  match ultrasonic_pulse_mm us with
  | Some mm => (true, mm)
  | None =>
      if (24000 <? us) || (S5_RANGE_MAX_MM <? u32 (us * 343 + 1000) / 2000) then (true, S5_RANGE_MAX_MM)
      else (false, 0)
  end.

(** ** Samples: 12 distance bits, 5 angle-index bits, validity *)
Definition s5_sample_pack (angle mm : Z) (valid : bool) : option bytes :=
  if (angle <? 30) || (150 <? angle) || negb (u32 (angle - 30) mod 5 =? 0) ||
     (valid && ((mm <? S5_RANGE_MIN_MM) || (S5_RANGE_MAX_MM <? mm))) then None
  else
    let word := Z.lor (Z.lor (if valid then mm else 0) (Z.shiftl (u32 (angle - 30) / 5) 12))
                      (Z.shiftl (b2z valid) 17) in
    Some (map (fun i => u8 (Z.shiftr word (8 * i))) (range 3)).
Definition s5_sample_unpack (s : bytes) : option (Z * Z * bool) :=
  let w := Z.lor (Z.lor (nthZ 0 s 0) (Z.shiftl (nthZ 0 s 1) 8)) (Z.shiftl (nthZ 0 s 2) 16) in
  if negb (Z.shiftr w 18 =? 0) || (24 <? Z.land (Z.shiftr w 12) 31) then None
  else
    let angle := 30 + 5 * Z.land (Z.shiftr w 12) 31 in
    let mm := Z.land w 4095 in
    let valid := negb (Z.land (Z.shiftr w 17) 1 =? 0) in
    if (if valid then (S5_RANGE_MIN_MM <=? mm) && (mm <=? S5_RANGE_MAX_MM) else mm =? 0)
    then Some (angle, mm, valid) else None.

(** ** Profile of a scan *)
Record s5_profile_t := {
  closest_mm : Z; width_mm : Z; left_clear_mm : Z; right_clear_mm : Z;
  left_edge_mm : Z; right_edge_mm : Z; forward_mm : Z; profile_valid : bool
}.
#[export] Instance profile_settable : Settable s5_profile_t := fun r =>
  Build_s5_profile_t (closest_mm r) (width_mm r) (left_clear_mm r) (right_clear_mm r) (left_edge_mm r)
    (right_edge_mm r) (forward_mm r) (profile_valid r).
Definition zero_profile : s5_profile_t :=
  {| closest_mm := 0; width_mm := 0; left_clear_mm := 0; right_clear_mm := 0; left_edge_mm := 0;
     right_edge_mm := 0; forward_mm := 0; profile_valid := false |}.

(** sin and cos of -60..60 degrees in 5-degree steps, times 1000. *)
Definition sx : list Z :=
  [-866; -819; -766; -707; -643; -574; -500; -423; -342; -259; -174; -87; 0;
   87; 174; 259; 342; 423; 500; 574; 643; 707; 766; 819; 866].
Definition cy : list Z :=
  [500; 574; 643; 707; 766; 819; 866; 906; 940; 966; 985; 996; 1000;
   996; 985; 966; 940; 906; 866; 819; 766; 707; 643; 574; 500].

(** The local variables of [s5_profile_build]. *)
Record profile_acc := {
  acc : s5_profile_t; found : bool; seen_left : bool; seen_right : bool; seen_centre : bool; far : Z
}.
#[export] Instance profile_acc_settable : Settable profile_acc := fun r =>
  Build_profile_acc (acc r) (found r) (seen_left r) (seen_right r) (seen_centre r) (far r).

(** Beam-width correction: up to three table steps nearer the centre. *)
Definition beam_index (index : Z) : Z :=
  if 12 <? index then (if 12 <? index - 3 then index - 3 else 12)
  else (if index + 3 <? 12 then index + 3 else 12).

Definition shape_return (p : s5_profile_t) (index mm : Z) : s5_profile_t :=
  let c := beam_index index in
  let x := Z.quot (mm * nthZ 0 sx c) 1000 in
  let y := Z.quot (mm * nthZ 0 cy c) 1000 in
  let p := if mm <? closest_mm p then p <| closest_mm := u16 mm |> else p in
  let p := if left_edge_mm p <? x then p <| left_edge_mm := i16 x |> else p in
  let p := if x <? right_edge_mm p then p <| right_edge_mm := i16 x |> else p in
  if forward_mm p <? y then p <| forward_mm := u16 y |> else p.

(** The side clearances and the coverage flags. *)
Definition side_return (a : profile_acc) (angle mm : Z) : profile_acc :=
  let a := if 135 <=? angle then
      (a <| seen_left := true |>) <| acc :=
        if mm <? left_clear_mm (acc a) then acc a <| left_clear_mm := u16 mm |> else acc a |>
    else a in
  let a := if angle <=? 45 then
      (a <| seen_right := true |>) <| acc :=
        if mm <? right_clear_mm (acc a) then acc a <| right_clear_mm := u16 mm |> else acc a |>
    else a in
  if angle =? 90 then a <| seen_centre := true |> else a.

(** One iteration of the loop over the samples; [None] is [return false]. *)
Definition profile_sample (cfg : s5_config_t) (a : profile_acc) (s : bytes) : option profile_acc :=
  match s5_sample_unpack s with
  | Some (angle, mm, true) =>
      let index := u32 (angle - 30) / 5 in
      let a := side_return a angle mm in
      Some (if (mm <? profile_mm cfg) && (45 <=? angle) && (angle <=? 135) then
              a <| found := true |> <| far := if far a <? mm then mm else far a |>
                <| acc := shape_return (acc a) index mm |>
            else a)
  | _ => None
  end.
Fixpoint profile_samples (cfg : s5_config_t) (a : profile_acc) (samples : list bytes) : option profile_acc :=
  match samples with
  | [] => Some a
  | s :: samples => a ← profile_sample cfg a s; profile_samples cfg a samples
  end.
Definition profile_start : profile_acc :=
  {| acc := zero_profile <| closest_mm := S5_RANGE_MAX_MM |> <| left_clear_mm := S5_RANGE_MAX_MM |>
              <| right_clear_mm := S5_RANGE_MAX_MM |> <| left_edge_mm := -4000 |> <| right_edge_mm := 4000 |>;
     found := false; seen_left := false; seen_right := false; seen_centre := false; far := 0 |}.
Definition profile_finish (a : profile_acc) : option s5_profile_t :=
  if negb (found a) || negb (seen_left a) || negb (seen_right a) || negb (seen_centre a) then None
  else
    let uncertainty := u32 (far a * 259 + 999) / 1000 in
    let p := acc a in
    let p := p <| left_edge_mm := i16 (left_edge_mm p + uncertainty) |> in
    let p := p <| right_edge_mm := i16 (right_edge_mm p - uncertainty) |> in
    let p := p <| width_mm := u16 (left_edge_mm p - right_edge_mm p) |> in
    Some (p <| profile_valid := true |>).
(** [count] is the length of [samples]; on failure the output is zeroed. *)
Definition s5_profile_build (samples : list bytes) (cfg : s5_config_t) : bool * s5_profile_t :=
  let count := Z.of_nat (length samples) in
  if (count <? 5) || (S5_SAMPLES_MAX <? count) then (false, zero_profile)
  else match a ← profile_samples cfg profile_start samples; profile_finish a with
       | Some p => (true, p)
       | None => (false, zero_profile)
       end.

Definition s5_peek_merge (p : s5_profile_t) (s : bytes) : bool * s5_profile_t :=
  match s5_sample_unpack s with
  | Some (angle, mm, true) =>
      if (60 <? angle) && (angle <? 120) then (false, p)
      else
        let p := if negb (profile_valid p) then
            zero_profile <| closest_mm := u16 mm |> <| left_clear_mm := S5_RANGE_MAX_MM |>
              <| right_clear_mm := S5_RANGE_MAX_MM |> <| profile_valid := true |>
          else p in
        (true, if 120 <=? angle then p <| left_clear_mm := u16 mm |> else p <| right_clear_mm := u16 mm |>)
  | _ => (false, p)
  end.

(** ** The scan *)
Record s5_scan_t := {
  sample : list bytes; (** 16 entries *)
  scan_count : Z; scan_angle : Z; fine_end : Z; nearest : Z; attempts : Z;
  fine : bool; scan_done : bool; failed : bool; single : bool; nearest_mm : Z; scan_started_us : Z
}.
#[export] Instance scan_settable : Settable s5_scan_t := fun r =>
  Build_s5_scan_t (sample r) (scan_count r) (scan_angle r) (fine_end r) (nearest r) (attempts r)
    (fine r) (scan_done r) (failed r) (single r) (nearest_mm r) (scan_started_us r).

Definition s5_scan_begin (now : Z) : s5_scan_t :=
  {| sample := replicate 16 (zeros 3); scan_count := 0; scan_angle := 30; fine_end := 0; nearest := 90;
     attempts := 0; fine := false; scan_done := false; failed := false; single := false;
     nearest_mm := S5_RANGE_MAX_MM; scan_started_us := now |}.
Definition s5_peek_angle_valid (angle : Z) : bool :=
  (angle mod 5 =? 0) && (((30 <=? angle) && (angle <=? 60)) || ((120 <=? angle) && (angle <=? 150))).
Definition s5_scan_begin_at (s : s5_scan_t) (now angle : Z) : bool * s5_scan_t :=
  if negb (s5_peek_angle_valid angle) then (false, s)
  else (true, s5_scan_begin now <| scan_angle := u8 angle |> <| single := true |>).

Definition scan_fail (s : s5_scan_t) : s5_scan_t := s <| failed := true |> <| scan_done := true |>.
(** The next angle after a stored full-scan measurement. *)
Definition scan_advance (s : s5_scan_t) (mm : Z) : s5_scan_t :=
  let s := if negb (fine s) && (mm <? nearest_mm s) then
      s <| nearest_mm := u16 mm |> <| nearest := scan_angle s |> else s in
  if negb (fine s) then
    if scan_angle s <? 150 then s <| scan_angle := wrap 8 (scan_angle s + 30) |>
    else
      s <| fine := true |>
        <| scan_angle := if 45 <? nearest s then wrap 8 (nearest s - 15) else 30 |>
        <| fine_end := if nearest s <? 135 then wrap 8 (nearest s + 15) else 150 |>
  else if scan_angle s <? fine_end s then s <| scan_angle := wrap 8 (scan_angle s + 5) |>
  else s <| scan_done := true |>.
Definition s5_scan_accept (s : s5_scan_t) (now : Z) (valid : bool) (mm : Z) : s5_scan_t :=
  if scan_done s then s
  else if S5_SCAN_TIMEOUT_US <=? elapsed now (scan_started_us s) then scan_fail s
  else if negb valid || (mm <? S5_RANGE_MIN_MM) || (S5_RANGE_MAX_MM <? mm) then
    let s := s <| attempts := wrap 2 (attempts s + 1) |> in
    if attempts s <? 3 then s else scan_fail s
  else
    let s := s <| attempts := 0 |> in
    if S5_SAMPLES_MAX <=? scan_count s then scan_fail s
    else match s5_sample_pack (scan_angle s) mm true with
    | None => scan_fail s
    | Some packed =>
        let s := s <| sample := setZ (sample s) (scan_count s) packed |>
                   <| scan_count := wrap 5 (scan_count s + 1) |> in
        if single s then s <| scan_done := true |> else scan_advance s mm
    end.
(** The samples of a finished scan. *)
Definition scan_samples (s : s5_scan_t) : list bytes := take (Z.to_nat (scan_count s)) (sample s).

(** ** Samples *)
Definition word_sample (w : Z) : bytes := map (fun i => u8 (Z.shiftr w (8 * i))) (range 3).
Definition sample_fits (angle mm : Z) (valid : bool) : Prop :=
  30 <= angle <= 150 /\ (angle - 30) mod 5 = 0 /\
  if valid then S5_RANGE_MIN_MM <= mm <= S5_RANGE_MAX_MM else mm = 0.

(** The three bytes of an 18-bit word give the word back. *)
Definition sample_word (s : bytes) : Z :=
  Z.lor (Z.lor (nthZ 0 s 0) (Z.shiftl (nthZ 0 s 1) 8)) (Z.shiftl (nthZ 0 s 2) 16).
Lemma sample_word_eq b0 b1 b2 : 0 <= b0 < 256 -> 0 <= b1 < 256 ->
  sample_word [b0; b1; b2] = b0 + b1 * 256 + b2 * 65536.
Proof.
  intros H0 H1. unfold sample_word.
  change (nthZ 0 [b0; b1; b2] 0) with b0. change (nthZ 0 [b0; b1; b2] 1) with b1.
  change (nthZ 0 [b0; b1; b2] 2) with b2.
  rewrite (lor_shift b0) by (unfold in_u; lia). change (2 ^ 8) with 256.
  rewrite lor_shift by (unfold in_u; change (2 ^ 16) with 65536; lia). lia.
Qed.
Lemma word_bytes w : 0 <= w < 2 ^ 24 ->
  word_sample w = [w mod 256; w / 256 mod 256; w / 65536] /\ sample_word (word_sample w) = w.
Proof.
  intros Hw. assert (word_sample w = [w mod 256; w / 256 mod 256; w / 65536]) as ->.
  { unfold word_sample. change (range 3) with [0; 1; 2]. cbn [map List.map].
    rewrite !Z.shiftr_div_pow2 by lia. unfold u8, wrap. change (2 ^ (8 * 0)) with 1.
    change (2 ^ (8 * 1)) with 256. change (2 ^ (8 * 2)) with 65536. change (2 ^ 8) with 256. change (2 ^ 24) with 16777216 in Hw.
    rewrite Z.div_1_r, (Z.mod_small (w / 65536)); [done |]. split; [apply Z.div_pos; lia |].
    apply Z.div_lt_upper_bound; lia. }
  split; [done |]. pose proof (Z.mod_pos_bound w 256 ltac:(lia)).
  pose proof (Z.mod_pos_bound (w / 256) 256 ltac:(lia)). rewrite sample_word_eq by done.
  replace (w / 65536) with (w / 256 / 256) by (rewrite Z.div_div by lia; done).
  pose proof (Z.div_mod w 256 ltac:(lia)). pose proof (Z.div_mod (w / 256) 256 ltac:(lia)). lia.
Qed.

(** The word of a sample, and reading its parts. *)
Definition sample_code (idx mm : Z) (valid : bool) : Z := mm + idx * 4096 + b2z valid * 131072.
Lemma sample_parts idx mm valid : 0 <= idx < 32 -> 0 <= mm < 4096 ->
  let w := sample_code idx mm valid in
  0 <= w < 262144 /\ Z.shiftr w 18 = 0 /\ Z.land (Z.shiftr w 12) 31 = idx /\ Z.land w 4095 = mm /\
  Z.land (Z.shiftr w 17) 1 = b2z valid.
Proof.
  intros Hi Hm. cbv zeta. unfold sample_code. set (w := mm + idx * 4096 + b2z valid * 131072).
  assert (Hv : 0 <= b2z valid <= 1) by (destruct valid; cbn; lia).
  assert (E12 : w / 4096 = idx + b2z valid * 32).
  { unfold w. replace (mm + idx * 4096 + b2z valid * 131072) with (mm + (idx + b2z valid * 32) * 4096) by lia.
    rewrite Z.div_add, Z.div_small by lia. lia. }
  split; [unfold w; lia |]. rewrite !Z.shiftr_div_pow2 by lia. splits.
  - apply Z.div_small. change (2 ^ 18) with 262144. unfold w. lia.
  - change (2 ^ 12) with 4096. rewrite E12. change 31 with (Z.ones 5). rewrite Z.land_ones by lia.
    change (2 ^ 5) with 32. rewrite Z_mod_plus_full. apply Z.mod_small. lia.
  - change 4095 with (Z.ones 12). rewrite Z.land_ones by lia. change (2 ^ 12) with 4096. unfold w.
    replace (mm + idx * 4096 + b2z valid * 131072) with (mm + (idx + b2z valid * 32) * 4096) by lia.
    rewrite Z_mod_plus_full. apply Z.mod_small. lia.
  - change (2 ^ 17) with (4096 * 32). rewrite <- Z.div_div by lia. rewrite E12, Z.div_add, Z.div_small by lia.
    rewrite Z.add_0_l. by destruct valid.
Qed.

Lemma sample_pack_eq angle mm valid : in_u 32 angle -> sample_fits angle mm valid ->
  s5_sample_pack angle mm valid = Some (word_sample (sample_code ((angle - 30) / 5) mm valid)).
Proof.
  intros Ha ((H1 & H2) & H3 & H4). unfold s5_sample_pack, in_u in *.
  rewrite (wrap_id 32 (angle - 30) ltac:(unfold in_u; lia) : u32 (angle - 30) = angle - 30), H3.
  assert (Hm : (if valid then mm else 0) = mm /\ 0 <= mm < 4096 /\
    valid && ((mm <? S5_RANGE_MIN_MM) || (S5_RANGE_MAX_MM <? mm)) = false).
  { unfold S5_RANGE_MIN_MM, S5_RANGE_MAX_MM in *. destruct valid; cbn [andb].
    - splits; lia.
    - subst mm. splits; done || lia. }
  destruct Hm as (-> & Hm & ->). rewrite (proj2 (Z.ltb_ge angle 30)), (proj2 (Z.ltb_ge 150 angle)) by lia.
  cbn [orb negb Z.eqb]. do 2 f_equal. unfold sample_code.
  assert (0 <= (angle - 30) / 5 < 25) by (split; [apply Z.div_pos | apply Z.div_lt_upper_bound]; lia).
  rewrite (lor_shift mm) by (unfold in_u; lia). rewrite lor_shift; [done | lia |]. unfold in_u. lia.
Qed.

Lemma sample_roundtrip angle mm valid : in_u 32 angle -> sample_fits angle mm valid ->
  exists s, s5_sample_pack angle mm valid = Some s /\ length s = 3%nat /\
    s5_sample_unpack s = Some (angle, mm, valid).
Proof.
  intros Ha Hf. rewrite sample_pack_eq by done. destruct Hf as ((H1 & H2) & H3 & H4).
  assert (0 <= (angle - 30) / 5 < 25) by (split; [apply Z.div_pos | apply Z.div_lt_upper_bound]; lia).
  assert (0 <= mm < 4096) by (unfold S5_RANGE_MIN_MM, S5_RANGE_MAX_MM in *; destruct valid; lia).
  eexists. split; [done |]. split; [done |]. unfold s5_sample_unpack. fold (sample_word (word_sample
    (sample_code ((angle - 30) / 5) mm valid))).
  destruct (sample_parts ((angle - 30) / 5) mm valid ltac:(lia) ltac:(lia)) as (Hw & E1 & E2 & E3 & E4).
  rewrite (proj2 (word_bytes (sample_code ((angle - 30) / 5) mm valid) ltac:(change (2 ^ 24) with 16777216; lia))), E1, E2, E3, E4.
  rewrite (proj2 (Z.ltb_ge 24 _)) by lia. cbn [negb orb Z.eqb].
  replace (negb (b2z valid =? 0)) with valid by (by destruct valid).
  assert ((if valid then (S5_RANGE_MIN_MM <=? mm) && (mm <=? S5_RANGE_MAX_MM) else mm =? 0) = true) as ->.
  { destruct valid; [apply andb_true_iff; rewrite !Z.leb_le; lia | by apply Z.eqb_eq]. }
  do 3 f_equal. pose proof (Z.div_mod (angle - 30) 5 ltac:(lia)). lia.
Qed.

Lemma unpack_fits s angle mm valid : s5_sample_unpack s = Some (angle, mm, valid) ->
  in_u 32 angle /\ sample_fits angle mm valid.
Proof.
  unfold s5_sample_unpack. fold (sample_word s). cbv zeta. destruct (_ || _) eqn:E; [done |].
  apply orb_false_iff in E as [_ E]. apply Z.ltb_ge in E.
  assert (0 <= Z.land (Z.shiftr (sample_word s) 12) 31) by (apply Z.land_nonneg; right; lia).
  set (idx := Z.land (Z.shiftr (sample_word s) 12) 31) in *. set (v := negb _).
  destruct (if v then _ else _) eqn:Ev; [| done]. intros [= <- <- <-]. unfold in_u, sample_fits.
  split; [lia |]. split; [lia |]. split.
  - replace (30 + 5 * idx - 30) with (idx * 5) by lia. apply Z_mod_mult.
  - destruct v; unbool; [lia | done].
Qed.

Lemma sample_word_bytes s : bytes_ok s -> length s = 3%nat -> Z.shiftr (sample_word s) 18 = 0 ->
  0 <= sample_word s < 262144 /\ word_sample (sample_word s) = s.
Proof.
  intros Hs Hl Hz. destruct s as [| b0 [| b1 [| b2 [| ? ?]]]]; try done.
  inversion Hs as [| ? ? B0 Hs1]; subst. inversion Hs1 as [| ? ? B1 Hs2]; subst.
  inversion Hs2 as [| ? ? B2 _]; subst. rewrite sample_word_eq in * by done.
  rewrite Z.shiftr_div_pow2 in Hz by lia. change (2 ^ 18) with 262144 in Hz.
  set (w := b0 + b1 * 256 + b2 * 65536) in *. assert (0 <= w < 16777216) by lia.
  pose proof (Z.div_mod w 262144 ltac:(lia)). pose proof (Z.mod_pos_bound w 262144 ltac:(lia)).
  split; [lia |]. rewrite (proj1 (word_bytes w ltac:(change (2 ^ 24) with 16777216; lia))).
  assert (E1 : w / 256 = b1 + b2 * 256).
  { replace w with (b0 + (b1 + b2 * 256) * 256) by (unfold w; lia). rewrite Z.div_add, Z.div_small by lia. lia. }
  assert (E0 : w mod 256 = b0) by (pose proof (Z.div_mod w 256 ltac:(lia)); lia).
  replace (w / 65536) with (w / 256 / 256) by (rewrite Z.div_div by lia; done).
  rewrite E0, E1, Z_mod_plus_full, Z.div_add, (Z.mod_small b1), Z.div_small by lia. done.
Qed.

Lemma sample_canonical s angle mm valid : bytes_ok s -> length s = 3%nat ->
  s5_sample_unpack s = Some (angle, mm, valid) -> s5_sample_pack angle mm valid = Some s.
Proof.
  intros Hs Hl H. destruct (unpack_fits _ _ _ _ H) as [Ha Hf]. rewrite sample_pack_eq by done.
  unfold s5_sample_unpack in H. fold (sample_word s) in H. cbv zeta in H. destruct (_ || _) eqn:E in H; [done |].
  remember (Z.land (Z.shiftr (sample_word s) 12) 31) as idx eqn:Ei. remember (Z.land (sample_word s) 4095) as m eqn:Em.
  remember (negb (Z.land (Z.shiftr (sample_word s) 17) 1 =? 0)) as v eqn:Ev.
  destruct (if v then _ else _) in H; [| done]. injection H as <- <- <-. subst. f_equal.
  apply orb_false_iff in E as [E _]. apply negb_false_iff, Z.eqb_eq in E.
  destruct (sample_word_bytes s Hs Hl E) as [Hw Hb]. set (w := sample_word s) in *.
  transitivity (word_sample w); [f_equal | exact Hb]. unfold sample_code. change 31 with (Z.ones 5). change 4095 with (Z.ones 12).
  change (Z.land (Z.shiftr w 17) 1) with (Z.land (Z.shiftr w 17) (Z.ones 1)). rewrite !Z.land_ones, !Z.shiftr_div_pow2 by lia.
  change (2 ^ 5) with 32. change (2 ^ 12) with 4096. change (2 ^ 17) with 131072. change (2 ^ 1) with 2.
  replace ((30 + 5 * (w / 4096 mod 32) - 30) / 5) with (w / 4096 mod 32)
    by (replace (30 + 5 * (w / 4096 mod 32) - 30) with (w / 4096 mod 32 * 5) by lia; by rewrite Z.div_mul).
  replace (w / 131072) with (w / 4096 / 32) by (rewrite Z.div_div by lia; done).
  pose proof (Z.div_mod w 4096 ltac:(lia)). pose proof (Z.div_mod (w / 4096) 32 ltac:(lia)).
  assert (0 <= w / 4096 / 32 < 2).
  { rewrite Z.div_div by lia. split; [apply Z.div_pos; lia | apply Z.div_lt_upper_bound; lia]. }
  assert (b2z (negb (w / 4096 / 32 mod 2 =? 0)) = w / 4096 / 32) as ->; [| lia].
  rewrite Z.mod_small by lia. destruct (Z.eqb_spec (w / 4096 / 32) 0); cbn [negb b2z]; lia.
Qed.

(** ** The scan's schedule *)
Definition coarse : list Z := [30; 60; 90; 120; 150].
Definition fine_start (n : Z) : Z := if 45 <? n then n - 15 else 30.
Definition fine_stop (n : Z) : Z := if n <? 135 then n + 15 else 150.
Definition fine_list (n : Z) : list Z :=
  map (fun k => fine_start n + 5 * k) (range (Z.to_nat ((fine_stop n - fine_start n) / 5 + 1))).
(** All angles of a full scan whose nearest coarse return was at [n]. *)
Definition schedule (n : Z) : list Z := coarse ++ fine_list n.

(** The packed samples [bs] hold the readings [rs] (angle, millimetres). *)
Definition records (rs : list (Z * Z)) (bs : list bytes) : Prop :=
  Forall2 (fun r b => s5_sample_unpack b = Some (r.1, r.2, true)) rs bs.

Record scan_inv (s : s5_scan_t) : Prop := {
  sv_full : single s = false;
  sv_room : length (sample s) = 16%nat;
  sv_nearest : In (nearest s) coarse;
  sv_attempts : failed s = false -> 0 <= attempts s < 3;
  sv_count : 0 <= scan_count s <= Z.of_nat (length (schedule (nearest s)));
  sv_next : scan_done s = false -> failed s = false /\
    schedule (nearest s) !! Z.to_nat (scan_count s) = Some (scan_angle s) /\
    fine s = (5 <=? scan_count s) /\ (fine s = true -> fine_end s = fine_stop (nearest s));
  sv_complete : scan_done s = true -> failed s = false ->
    scan_count s = Z.of_nat (length (schedule (nearest s)));
  sv_records : exists rs, records rs (scan_samples s) /\
    map fst rs = take (Z.to_nat (scan_count s)) (schedule (nearest s))
}.

Lemma schedule_length n : In n coarse -> (9 <= length (schedule n) <= 12)%nat.
Proof. intros H. repeat destruct H as [<- | H]; [..| done]; vm_compute; lia. Qed.
Lemma coarse_prefix n k : (k <= 5)%nat -> take k (schedule n) = take k coarse.
Proof. intros. unfold schedule. rewrite take_app_le; [done |]. done. Qed.

Lemma scan_begin_inv now : scan_inv (s5_scan_begin now).
Proof.
  constructor; cbn -[schedule]; try done; try lia; try tauto.
  exists []. split; [constructor | done].
Qed.

Lemma scan_fail_inv s : scan_inv s -> scan_inv (scan_fail s).
Proof. intros []. constructor; done. Qed.
Lemma scan_give_up_inv s a : scan_inv s -> scan_inv (scan_fail (s <| attempts := a |>)).
Proof. intros []. constructor; done. Qed.
Lemma scan_retry_inv s a : scan_inv s -> 0 <= a < 3 -> scan_inv (s <| attempts := a |>).
Proof. intros []. constructor; done. Qed.

Lemma take_prefix n n' k : (k <= 5)%nat -> take k (schedule n) = take k (schedule n').
Proof. intros. by rewrite !coarse_prefix. Qed.

(** Where [scan_advance] goes after the [k]-th stored reading. *)
Record advanced (s s' : s5_scan_t) (k : nat) : Prop := {
  av_frame : single s' = single s /\ sample s' = sample s /\ attempts s' = attempts s /\
    failed s' = failed s /\ scan_count s' = scan_count s;
  av_nearest : In (nearest s') coarse /\ ((k < 5)%nat \/ nearest s' = nearest s);
  av_length : (S k <= length (schedule (nearest s')))%nat;
  av_next : scan_done s' = false -> schedule (nearest s') !! S k = Some (scan_angle s') /\
    fine s' = (5 <=? k + 1)%nat /\ (fine s' = true -> fine_end s' = fine_stop (nearest s'));
  av_done : scan_done s' = true -> S k = length (schedule (nearest s'))
}.

(** One concrete point of the schedule: everything is computed. *)
Ltac concrete_point :=
  repeat match goal with
  | |- context [?a <? ?b] => let v := eval vm_compute in (a <? b) in change (a <? b) with v
  end;
  constructor;
  [ cbn; splits; congruence
  | split; [cbn; repeat (first [left; reflexivity | right]) | first [right; reflexivity | left; lia]]
  | apply Nat.leb_le; vm_compute; reflexivity
  | first [discriminate | intros _; split; [vm_compute; reflexivity | split; [reflexivity | first [discriminate | reflexivity]]]]
  | first [discriminate | intros _; vm_compute; reflexivity] ].

Lemma advance_coarse s mm k : In (nearest s) coarse -> coarse !! k = Some (scan_angle s) -> (k < 4)%nat ->
  fine s = false -> scan_done s = false -> advanced s (scan_advance s mm) k.
Proof.
  intros Hn Hk H4 Hf Hd. unfold scan_advance. rewrite Hf. cbn [negb andb].
  set (s1 := if mm <? nearest_mm s then _ else s).
  assert (H1 : single s1 = single s /\ sample s1 = sample s /\ attempts s1 = attempts s /\ failed s1 = failed s /\
    scan_count s1 = scan_count s /\ In (nearest s1) coarse /\ fine s1 = false /\ scan_done s1 = false /\
    scan_angle s1 = scan_angle s).
  { subst s1. apply list_elem_of_lookup_2, list_elem_of_In in Hk. destruct (mm <? nearest_mm s); splits; done. }
  destruct H1 as (A1 & A2 & A3 & A4 & A5 & A6 & A7 & A8 & A9). clearbody s1. rewrite A7, A9. cbn [negb].
  assert (Hs : (scan_angle s <? 150) = true /\ coarse !! S k = Some (wrap 8 (scan_angle s + 30))).
  { do 4 (destruct k as [| k]; [injection Hk as <-; done |]). lia. }
  destruct Hs as [-> Hs]. pose proof (schedule_length _ A6). constructor; cbn [single sample attempts failed
    scan_count nearest scan_done fine scan_angle fine_end update_field]; try done.
  - split; [done | left; lia].
  - cbn. lia.
  - intros _. splits; [| | cbn; congruence].
    + unfold schedule. rewrite lookup_app_l; [exact Hs | cbn; lia].
    + transitivity false; [exact A7 |]. symmetry. apply Nat.leb_gt. lia.
  - cbn. congruence.
Qed.

Lemma advance_last_coarse s mm : In (nearest s) coarse -> scan_angle s = 150 ->
  fine s = false -> scan_done s = false -> advanced s (scan_advance s mm) 4.
Proof.
  intros Hn Hk Hf Hd. unfold scan_advance. rewrite Hf. cbn [negb andb].
  set (s1 := if mm <? nearest_mm s then _ else s).
  assert (H1 : single s1 = single s /\ sample s1 = sample s /\ attempts s1 = attempts s /\ failed s1 = failed s /\
    scan_count s1 = scan_count s /\ In (nearest s1) coarse /\ fine s1 = false /\ scan_done s1 = false /\
    scan_angle s1 = 150).
  { subst s1. destruct (mm <? nearest_mm s); splits; try done. cbn. rewrite Hk. tauto. }
  destruct H1 as (A1 & A2 & A3 & A4 & A5 & A6 & A7 & A8 & A9). clearbody s1. rewrite A7, A9. cbn [negb].
  destruct s1 as [smp cnt ang fe nr att fi dn fl sg nmm st]. cbn in A1, A2, A3, A4, A5, A6, A8. subst dn.
  repeat destruct A6 as [<- | A6]; [..| done]; concrete_point.
Qed.

Lemma advance_fine s mm k : In (nearest s) coarse -> schedule (nearest s) !! k = Some (scan_angle s) ->
  (5 <= k)%nat -> fine s = true -> fine_end s = fine_stop (nearest s) -> scan_done s = false ->
  advanced s (scan_advance s mm) k.
Proof.
  intros Hn Hk H5 Hf He Hd. unfold scan_advance. rewrite Hf. cbn [negb andb]. rewrite Hf, He. cbn [negb].
  destruct s as [smp cnt ang fe nr att fi dn fl sg nmm st]. cbn [nearest scan_angle fine fine_end scan_done] in *.
  subst fi fe dn. pose proof (schedule_length nr Hn) as HL. pose proof (lookup_lt_Some _ _ _ Hk) as HK.
  do 5 (destruct k as [| k]; [lia |]). assert (H7 : (k < 7)%nat) by lia. clear H5 HL HK.
  repeat destruct Hn as [<- | Hn]; [..| done];
    do 7 (destruct k as [| k]; [vm_compute in Hk; first [discriminate Hk | injection Hk as <-; concrete_point] |]); lia.
Qed.

Lemma records_snoc rs bs angle mm b : records rs bs -> s5_sample_unpack b = Some (angle, mm, true) ->
  records (rs ++ [(angle, mm)]) (bs ++ [b]).
Proof. intros. apply Forall2_app; [done |]. constructor; [done | constructor]. Qed.

Lemma schedule_angle n a : In n coarse -> In a (schedule n) -> 30 <= a <= 150 /\ (a - 30) mod 5 = 0.
Proof.
  intros Hn Ha. assert (Hf : forallb (fun a => (30 <=? a) && (a <=? 150) && ((a - 30) mod 5 =? 0)) (schedule n) = true).
  { repeat destruct Hn as [<- | Hn]; [..| done]; vm_compute; reflexivity. }
  rewrite forallb_forall in Hf. specialize (Hf a Ha). unbool. lia.
Qed.

Lemma scan_store_inv s mm packed : scan_inv s -> scan_done s = false -> 30 <= mm <= 4000 ->
  s5_sample_pack (scan_angle s) mm true = Some packed ->
  let s1 := s <| attempts := 0 |> <| sample := setZ (sample s) (scan_count s) packed |>
              <| scan_count := wrap 5 (scan_count s + 1) |> in
  scan_inv (scan_advance s1 mm) /\ scan_count (scan_advance s1 mm) = scan_count s + 1.
Proof.
  intros [I1 I2 I3 I4 I5 I6 I7 [rs [R1 R2]]] Hd Hmm Hp. destruct (I6 Hd) as (F0 & F1 & F2 & F3).
  pose proof (schedule_length _ I3) as HL. pose proof (lookup_lt_Some _ _ _ F1) as HK.
  pose proof (schedule_angle _ _ I3 (proj1 (list_elem_of_In _ _) (list_elem_of_lookup_2 _ _ _ F1))) as HA.
  set (k := Z.to_nat (scan_count s)) in *. set (s1 := s <| attempts := 0 |> <| sample := _ |> <| scan_count := _ |>).
  assert (Hc : scan_count s1 = scan_count s + 1) by (apply wrap_id; unfold in_u; lia).
  assert (AV : advanced s1 (scan_advance s1 mm) k).
  { destruct (decide (k < 4)%nat) as [H4 |]; [apply advance_coarse; try done |].
    - unfold schedule in F1. rewrite lookup_app_l in F1; [done | cbn; lia].
    - change (fine s = false). rewrite F2. apply Z.leb_gt. lia.
    - destruct (decide (k = 4)%nat) as [E4 |]; [rewrite E4; apply advance_last_coarse; try done |].
      + unfold schedule in F1. rewrite E4, lookup_app_l in F1; [| cbn; lia]. injection F1 as E. by symmetry.
      + change (fine s = false). rewrite F2. apply Z.leb_gt. lia.
      + assert (fine s = true) by (rewrite F2; apply Z.leb_le; lia).
        apply advance_fine; try done; [lia | by apply F3]. }
  destruct AV as [(A1 & A2 & A3 & A4 & A5) [A6 A7] A8 A9 A10]. rewrite Hc in A5.
  assert (Hsm : scan_samples (scan_advance s1 mm) = scan_samples s ++ [packed]).
  { unfold scan_samples. rewrite A2, A5. cbn. apply take_setZ. lia. }
  assert (Hun : s5_sample_unpack packed = Some (scan_angle s, mm, true)).
  { destruct (sample_roundtrip (scan_angle s) mm true) as (s' & E1 & _ & E2).
    - unfold in_u. lia.
    - destruct HA. split; done.
    - rewrite Hp in E1. by injection E1 as ->. }
  split; [| done]. constructor; rewrite ?A1, ?A2, ?A3, ?A4, ?A5; try done.
  - cbn. by rewrite length_setZ.
  - lia.
  - intros Hnd. destruct (A9 Hnd) as (B1 & B2 & B3). splits; try done.
    + replace (Z.to_nat (scan_count s + 1)) with (S k) by lia. done.
    + rewrite B2. destruct (Nat.leb_spec 5 (k + 1)), (Z.leb_spec 5 (scan_count s + 1)); lia.
  - intros Hdn _. specialize (A10 Hdn). lia.
  - exists (rs ++ [(scan_angle s, mm)]). rewrite Hsm. split; [by apply records_snoc |].
    rewrite map_app, R2. replace (Z.to_nat (scan_count s + 1)) with (S k) by lia.
    assert (Hn' : schedule (nearest (scan_advance s1 mm)) !! k = Some (scan_angle s) /\
      take k (schedule (nearest (scan_advance s1 mm))) = take k (schedule (nearest s))).
    { destruct A7 as [A7 | ->]; [| done]. split; [| apply take_prefix; lia].
      unfold schedule in *. rewrite lookup_app_l in * by (cbn; lia). done. }
    destruct Hn' as [N1 N2]. rewrite (take_S_r _ _ _ N1), N2. done.
Qed.

(** Measurements a scan can still absorb: three tries at each remaining angle. *)
Definition scan_work (s : s5_scan_t) : Z := 3 * (12 - scan_count s) - attempts s.

Lemma scan_accept_step s now valid mm : scan_inv s ->
  let s' := s5_scan_accept s now valid mm in
  scan_inv s' /\ (scan_done s = false -> scan_done s' = true \/ scan_work s' <= scan_work s - 1).
Proof.
  intros I. pose proof I as [I1 I2 I3 I4 I5 I6 I7 I8]. unfold s5_scan_accept. cbv zeta.
  destruct (scan_done s) eqn:Hd; [done |]. destruct (I6 eq_refl) as (F0 & F1 & F2 & F3).
  specialize (I4 F0). pose proof (schedule_length _ I3) as HL. pose proof (lookup_lt_Some _ _ _ F1) as HK.
  case_if; [split; [by apply scan_fail_inv | by left] |]. destruct (_ || _) eqn:Er.
  - assert (Hw : wrap 2 (attempts s + 1) = attempts s + 1) by (apply wrap_id; unfold in_u; lia).
    rewrite Hw. set (s1 := s <| attempts := attempts s + 1 |>).
    change (attempts s1) with (attempts s + 1). destruct (Z.ltb_spec (attempts s + 1) 3).
    + split; [apply scan_retry_inv; [done | lia] |]. right. unfold scan_work. cbn -[Z.mul Z.sub]. lia.
    + split; [by apply scan_give_up_inv | by left].
  - unfold S5_RANGE_MIN_MM, S5_RANGE_MAX_MM in Er. unbool. change (scan_count (s <| attempts := 0 |>)) with (scan_count s).
    case_if; [split; [by apply scan_give_up_inv | by left] |].
    change (scan_angle (s <| attempts := 0 |>)) with (scan_angle s).
    destruct (s5_sample_pack (scan_angle s) mm true) as [packed |] eqn:Ep;
      [| split; [by apply scan_give_up_inv | by left]].
    destruct (scan_store_inv s mm packed I Hd ltac:(lia) Ep) as [J1 J2]. cbv zeta in J1, J2.
    set (s1 := s <| attempts := 0 |> <| sample := _ |> <| scan_count := _ |>) in *.
    change (if single s1 then s1 <| scan_done := true |> else scan_advance s1 mm) with
      (if single s then s1 <| scan_done := true |> else scan_advance s1 mm). rewrite I1.
    split; [done |]. intros _. destruct (scan_done (scan_advance s1 mm)) eqn:Hd'; [by left | right].
    unfold scan_work. rewrite J2. pose proof (sv_attempts _ J1) as Ha.
    destruct (sv_next _ J1 Hd') as (Hf & _). specialize (Ha Hf). lia.
Qed.

Definition scan_run (now : Z) (inputs : list (Z * bool * Z)) : s5_scan_t :=
  fold_left (fun s '(t, valid, mm) => s5_scan_accept s t valid mm) inputs (s5_scan_begin now).

Lemma accept_done s t v mm : scan_done s = true -> s5_scan_accept s t v mm = s.
Proof. intros H. unfold s5_scan_accept. by rewrite H. Qed.

Lemma scan_run_from inputs : forall s, scan_inv s ->
  let s' := fold_left (fun s '(t, valid, mm) => s5_scan_accept s t valid mm) inputs s in
  scan_inv s' /\ (scan_done s' = true \/ scan_work s' <= scan_work s - Z.of_nat (length inputs)).
Proof.
  induction inputs as [| [[t v] mm] inputs IH]; intros s I; cbn [fold_left length].
  { split; [done | right; lia]. }
  destruct (scan_accept_step s t v mm I) as [J1 J2]. destruct (IH _ J1) as [K1 K2]. split; [done |].
  destruct (scan_done s) eqn:Hd.
  - left. rewrite accept_done in * by done. clear -Hd.
    induction inputs as [| [[t' v'] mm'] inputs IH]; cbn [fold_left]; [done |]. by rewrite accept_done.
  - destruct K2 as [K2 | K2]; [by left |]. destruct (J2 eq_refl) as [J2' | J2']; [| right; lia].
    left. clear -J2'. revert J2'. generalize (s5_scan_accept s t v mm) as s0. intros s0 H.
    induction inputs as [| [[t' v'] mm'] inputs IH]; cbn [fold_left]; [done |]. by rewrite accept_done.
Qed.

(** ** What a profile says of its readings *)
Definition reading_ok (r : Z * Z) : Prop := 30 <= r.1 <= 150 /\ (r.1 - 30) mod 5 = 0 /\ 30 <= r.2 <= 4000.
Definition reading_x (r : Z * Z) : Z := Z.quot (r.2 * nthZ 0 sx (beam_index ((r.1 - 30) / 5))) 1000.
Definition reading_y (r : Z * Z) : Z := Z.quot (r.2 * nthZ 0 cy (beam_index ((r.1 - 30) / 5))) 1000.
(** The reading belongs to the obstacle's shape. *)
Definition shape (cfg : s5_config_t) (r : Z * Z) : bool :=
  (r.2 <? profile_mm cfg) && (45 <=? r.1) && (r.1 <=? 135).

Lemma quot_bounds m k lo hi : 0 <= m -> lo <= k <= hi -> -1000 <= lo -> hi <= 1000 ->
  Z.quot (m * lo) 1000 <= Z.quot (m * k) 1000 <= Z.quot (m * hi) 1000.
Proof. intros. split; apply Z.quot_le_mono; try lia; apply Z.mul_le_mono_nonneg_l; lia. Qed.

Lemma shape_xy cfg r : reading_ok r -> shape cfg r = true ->
  2 * Z.abs (reading_x r) <= r.2 /\ 0 < reading_y r <= r.2.
Proof.
  intros (Ha & Hm5 & Hm) Hs. unfold shape in Hs. unbool.
  assert (Hi : 3 <= (r.1 - 30) / 5 < 3 + 19).
  { split; [apply Z.div_le_lower_bound | apply Z.div_lt_upper_bound]; lia. }
  assert (Ht : -500 <= nthZ 0 sx (beam_index ((r.1 - 30) / 5)) <= 500 /\
               866 <= nthZ 0 cy (beam_index ((r.1 - 30) / 5)) <= 1000).
  { apply (forall_range (fun i => (-500 <=? nthZ 0 sx (beam_index i)) && (nthZ 0 sx (beam_index i) <=? 500) &&
      (866 <=? nthZ 0 cy (beam_index i)) && (nthZ 0 cy (beam_index i) <=? 1000)) 3 19) in Hi; [| reflexivity].
    unbool. lia. }
  unfold reading_x, reading_y. destruct Ht as [Hx Hy].
  set (kx := nthZ 0 sx _) in *. set (ky := nthZ 0 cy _) in *. clearbody kx ky. split.
  - assert (0 <= r.2 * (500 - kx) /\ 0 <= r.2 * (500 + kx)) by (split; apply Z.mul_nonneg_nonneg; lia).
    pose proof (Z.quot_rem (r.2 * kx) 1000 ltac:(lia)). 
    pose proof (Z.rem_bound_abs (r.2 * kx) 1000 ltac:(lia)).
    destruct (Z.le_gt_cases 0 (r.2 * kx)).
    + pose proof (Z.rem_nonneg (r.2 * kx) 1000 ltac:(lia) ltac:(lia)). lia.
    + pose proof (Z.rem_nonpos (r.2 * kx) 1000 ltac:(lia) ltac:(lia)). lia.
  - rewrite Z.quot_div_nonneg by (try apply Z.mul_nonneg_nonneg; lia). split.
    + apply Z.lt_le_trans with 1; [lia |]. apply Z.div_le_lower_bound; [lia |].
      apply Z.le_trans with (30 * 866); [lia |]. apply Z.mul_le_mono_nonneg; lia.
    + apply Z.div_le_upper_bound; [lia |]. rewrite Z.mul_comm. apply Z.mul_le_mono_nonneg_r; lia.
Qed.

(** The accumulator after the readings [rs]. *)
Record acc_inv (cfg : s5_config_t) (rs : list (Z * Z)) (a : profile_acc) : Prop := {
  ai_clear : 30 <= left_clear_mm (acc a) <= 4000 /\ 30 <= right_clear_mm (acc a) <= 4000;
  ai_plain : width_mm (acc a) = 0 /\ profile_valid (acc a) = false;
  ai_seen : (seen_left a = true <-> Exists (fun r => 135 <= r.1) rs) /\
    (seen_right a = true <-> Exists (fun r => r.1 <= 45) rs) /\
    (seen_centre a = true <-> Exists (fun r => r.1 = 90) rs) /\
    (found a = true <-> Exists (fun r => shape cfg r = true) rs);
  ai_sides : Forall (fun r => (135 <= r.1 -> left_clear_mm (acc a) <= r.2) /\
                              (r.1 <= 45 -> right_clear_mm (acc a) <= r.2)) rs;
  ai_shape : Forall (fun r => shape cfg r = true -> closest_mm (acc a) <= r.2 <= far a /\
      right_edge_mm (acc a) <= reading_x r <= left_edge_mm (acc a) /\ reading_y r <= forward_mm (acc a)) rs;
  ai_found : if found a then 30 <= closest_mm (acc a) <= far a /\ far a < profile_mm cfg /\ far a <= 4000 /\
      - far a <= 2 * right_edge_mm (acc a) /\ right_edge_mm (acc a) <= left_edge_mm (acc a) /\
      2 * left_edge_mm (acc a) <= far a /\ 0 < forward_mm (acc a) <= far a
    else acc a = acc profile_start <| left_clear_mm := left_clear_mm (acc a) |>
                                   <| right_clear_mm := right_clear_mm (acc a) |> /\ far a = 0
}.

Lemma profile_start_inv cfg : acc_inv cfg [] profile_start.
Proof.
  constructor; cbn; try done; try lia; try constructor; splits; try done;
    split; try done; intros H; inversion H.
Qed.

Lemma u16_small m : 0 <= m <= 4000 -> u16 m = m.
Proof. intros. apply wrap_id. unfold in_u. lia. Qed.
Lemma i16_small m : -8000 <= m <= 8000 -> i16 m = m.
Proof. intros. apply swrap_id; lia. Qed.

Lemma side_return_eq a angle mm : 0 <= mm <= 4000 ->
  side_return a angle mm =
    a <| acc := acc a <| left_clear_mm := if 135 <=? angle then Z.min mm (left_clear_mm (acc a)) else left_clear_mm (acc a) |>
                      <| right_clear_mm := if angle <=? 45 then Z.min mm (right_clear_mm (acc a)) else right_clear_mm (acc a) |> |>
      <| seen_left := (135 <=? angle) || seen_left a |> <| seen_right := (angle <=? 45) || seen_right a |>
      <| seen_centre := (angle =? 90) || seen_centre a |>.
Proof.
  intros Hm. unfold side_return. rewrite u16_small by done.
  destruct a as [[c w l r le re f v] fd sl sr sc fr]. cbn.
  destruct (135 <=? angle) eqn:E1, (angle <=? 45) eqn:E2, (angle =? 90) eqn:E3; unbool; try lia; cbn;
    try (destruct (Z.ltb_spec mm l)); try (destruct (Z.ltb_spec mm r)); cbn; repeat f_equal; lia.
Qed.

Lemma shape_return_eq p r : reading_ok r -> 2 * Z.abs (reading_x r) <= r.2 -> 0 < reading_y r <= r.2 ->
  shape_return p ((r.1 - 30) / 5) r.2 =
    p <| closest_mm := Z.min (r.2) (closest_mm p) |> <| left_edge_mm := Z.max (reading_x r) (left_edge_mm p) |>
      <| right_edge_mm := Z.min (reading_x r) (right_edge_mm p) |> <| forward_mm := Z.max (reading_y r) (forward_mm p) |>.
Proof.
  intros (Ha & _ & Hm) Hx Hy. unfold shape_return. fold (reading_x r) (reading_y r).
  set (x := reading_x r) in *. set (y := reading_y r) in *. clearbody x y.
  rewrite !u16_small, !i16_small by lia. destruct p as [c w l rc le re f v]. cbn.
  destruct (Z.ltb_spec r.2 c); cbn; destruct (Z.ltb_spec le x); cbn; destruct (Z.ltb_spec x re); cbn;
    destruct (Z.ltb_spec f y); cbn; repeat f_equal; lia.
Qed.

Lemma iff_cons (b c : bool) {A} (P : A -> Prop) x l : (c = true <-> Exists P l) -> (b = true <-> P x) ->
  (b || c = true <-> Exists P (x :: l)).
Proof. rewrite orb_true_iff, Exists_cons. tauto. Qed.

Lemma Exists_snoc {A} (P : A -> Prop) l x : Exists P (l ++ [x]) <-> Exists P (x :: l).
Proof. rewrite Exists_app, !Exists_cons, Exists_nil. tauto. Qed.

Lemma side_return_inv cfg rs a r : reading_ok r -> acc_inv cfg rs a -> shape cfg r = false ->
  acc_inv cfg (rs ++ [r]) (side_return a r.1 r.2).
Proof.
  intros (Ha & _ & Hm) [[C1 C2] P (S1 & S2 & S3 & S4) D Sh F] Hs. rewrite side_return_eq by lia. destruct r as [angle mm].
  cbn [fst snd] in *. constructor; cbn -[Z.leb Z.eqb Z.min].
  - split; case_if; lia.
  - done.
  - rewrite !Exists_snoc. splits; try (apply iff_cons; [done |]; cbn; [rewrite Z.leb_le || rewrite Z.eqb_eq; done]).
    rewrite Exists_cons, S4. split; [by right | intros [E | E]; [congruence | done]].
  - apply Forall_app. split; [| repeat constructor; cbn; intros; case_if; unbool; lia].
    eapply Forall_impl; [exact D |]. cbn. intros r [H1 H2]. split; intros; [specialize (H1 H) | specialize (H2 H)]; case_if; lia.
  - apply Forall_app. split; [exact Sh | repeat constructor; congruence].
  - destruct (found a); [done |]. destruct F as [F1 F2]. split; [| done]. rewrite F1. done.
Qed.

Lemma profile_sample_inv cfg rs a b r : s5_sample_unpack b = Some (r.1, r.2, true) -> acc_inv cfg rs a ->
  exists a', profile_sample cfg a b = Some a' /\ acc_inv cfg (rs ++ [r]) a'.
Proof.
  intros Hu I. destruct (unpack_fits _ _ _ _ Hu) as [Hw ((H1 & H2) & H3 & H4)].
  assert (Hok : reading_ok r) by (split; done). unfold profile_sample. rewrite Hu. cbv zeta.
  rewrite (wrap_id 32 (r.1 - 30) ltac:(unfold in_u in *; lia) : u32 (r.1 - 30) = r.1 - 30).
  change ((r.2 <? profile_mm cfg) && (45 <=? r.1) && (r.1 <=? 135)) with (shape cfg r).
  destruct (shape cfg r) eqn:Es; eexists; (split; [done |]); [| by apply side_return_inv].
  destruct (shape_xy cfg r Hok Es) as [Hx Hy]. rewrite shape_return_eq by done.
  destruct I as [[C1 C2] P (S1 & S2 & S3 & S4) D Sh F]. rewrite side_return_eq by (destruct Hok; lia).
  assert (Hpm : r.2 < profile_mm cfg) by (unfold shape in Es; unbool; lia). destruct Hok as (_ & _ & Hmm).
  set (x := reading_x r) in *. set (y := reading_y r) in *.
  constructor; cbn -[Z.leb Z.eqb Z.min Z.max Z.abs Z.mul].
  - split; case_if; lia.
  - done.
  - rewrite !Exists_snoc. splits; try (apply iff_cons; [done |]; cbn; [rewrite Z.leb_le || rewrite Z.eqb_eq; done]).
    rewrite Exists_cons. tauto.
  - apply Forall_app. split; [| repeat constructor; cbn; intros; case_if; unbool; lia].
    eapply Forall_impl; [exact D |]. cbn. intros q [Q1 Q2]. split; intros Q; [specialize (Q1 Q) | specialize (Q2 Q)]; case_if; lia.
  - apply Forall_app. split.
    + eapply Forall_impl; [exact Sh |]. cbn beta. intros q Hq Q. specialize (Hq Q).
      destruct (Z.ltb_spec (far a) r.2); lia.
    + repeat constructor; fold x y; destruct (Z.ltb_spec (far a) r.2); lia.
  - destruct (found a); [destruct (Z.ltb_spec (far a) r.2); lia |]. destruct F as [F1 F2]. rewrite F1, F2. cbn.
    destruct (Z.ltb_spec 0 r.2); lia.
Qed.

Lemma profile_samples_inv cfg bs : forall rs0 rs a, records rs bs -> acc_inv cfg rs0 a ->
  exists a', profile_samples cfg a bs = Some a' /\ acc_inv cfg (rs0 ++ rs) a'.
Proof.
  induction bs as [| b bs IH]; intros rs0 rs a HR I; inversion HR as [| r b' rs' bs' Hr HR']; subst.
  { exists a. by rewrite app_nil_r. }
  destruct (profile_sample_inv cfg rs0 a b r Hr I) as (a1 & E1 & I1).
  destruct (IH _ _ _ HR' I1) as (a2 & E2 & I2). exists a2. cbn [profile_samples]. rewrite E1. cbn.
  split; [exact E2 |]. by rewrite <- app_assoc in I2.
Qed.

(** A valid profile bounds every reading: no shape return is nearer, wider or
    deeper than it says, and no side reading is closer than its clearance. *)
Record profile_spec (cfg : s5_config_t) (rs : list (Z * Z)) (p : s5_profile_t) : Prop := {
  pf_valid : profile_valid p = true;
  pf_closest : 30 <= closest_mm p < profile_mm cfg;
  pf_clear : 30 <= left_clear_mm p <= 4000 /\ 30 <= right_clear_mm p <= 4000;
  pf_edges : -3037 <= right_edge_mm p /\ right_edge_mm p <= left_edge_mm p /\ left_edge_mm p <= 3037;
  pf_width : width_mm p = left_edge_mm p - right_edge_mm p /\ 1250 * width_mm p <= 1900 * profile_mm cfg + 2500;
  pf_forward : 0 < forward_mm p < profile_mm cfg /\ forward_mm p <= 4000;
  pf_shape : Forall (fun r => shape cfg r = true -> closest_mm p <= r.2 /\
    right_edge_mm p <= reading_x r <= left_edge_mm p /\ reading_y r <= forward_mm p) rs;
  pf_sides : Forall (fun r => (135 <= r.1 -> left_clear_mm p <= r.2) /\ (r.1 <= 45 -> right_clear_mm p <= r.2)) rs
}.

Lemma profile_finish_spec cfg rs a : acc_inv cfg rs a ->
  match profile_finish a with
  | Some p => profile_spec cfg rs p /\ Exists (fun r => shape cfg r = true) rs /\ Exists (fun r => 135 <= r.1) rs /\
      Exists (fun r => r.1 <= 45) rs /\ Exists (fun r => r.1 = 90) rs
  | None => ~ (Exists (fun r => shape cfg r = true) rs /\ Exists (fun r => 135 <= r.1) rs /\
      Exists (fun r => r.1 <= 45) rs /\ Exists (fun r => r.1 = 90) rs)
  end.
Proof.
  intros [[C1 C2] P (S1 & S2 & S3 & S4) D Sh F]. unfold profile_finish.
  destruct (found a), (seen_left a), (seen_right a), (seen_centre a); cbn [negb orb];
    try (intros (X1 & X2 & X3 & X4); apply S4 in X1; apply S1 in X2; apply S2 in X3; apply S3 in X4; congruence).
  split; [| splits; [by apply S4 | by apply S1 | by apply S2 | by apply S3]]. destruct F as (F1 & F2 & F3 & F4 & F5 & F6 & F7).
  rewrite (wrap_id 32 (far a * 259 + 999) ltac:(unfold in_u; lia) : u32 (far a * 259 + 999) = far a * 259 + 999).
  set (u := (far a * 259 + 999) / 1000).
  assert (Hu : far a * 259 <= 1000 * u <= far a * 259 + 999).
  { unfold u. pose proof (Z.div_mod (far a * 259 + 999) 1000 ltac:(lia)).
    pose proof (Z.mod_pos_bound (far a * 259 + 999) 1000 ltac:(lia)). lia. }
  clearbody u. destruct (acc a) as [c w l r le re f v]. cbn -[Z.mul Z.sub Z.add] in C1, C2, P, D, Sh, F1, F4, F5, F6, F7.
  cbn -[Z.mul Z.sub Z.add u16 i16].
  rewrite !i16_small by lia. rewrite (wrap_id 16 (le + u - (re - u)) ltac:(unfold in_u; lia) :
    u16 (le + u - (re - u)) = le + u - (re - u)).
  constructor; cbn -[Z.mul]; try done; try lia.
  eapply Forall_impl; [exact Sh |]. cbn beta. intros q Hq Q. specialize (Hq Q). lia.
Qed.

Lemma profile_build_spec cfg rs bs : records rs bs -> (5 <= length bs <= 16)%nat ->
  match profile_finish <$> profile_samples cfg profile_start bs with
  | Some o => s5_profile_build bs cfg = match o with Some p => (true, p) | None => (false, zero_profile) end /\
      match o with
      | Some p => profile_spec cfg rs p /\ Exists (fun r => shape cfg r = true) rs /\ Exists (fun r => 135 <= r.1) rs /\
          Exists (fun r => r.1 <= 45) rs /\ Exists (fun r => r.1 = 90) rs
      | None => ~ (Exists (fun r => shape cfg r = true) rs /\ Exists (fun r => 135 <= r.1) rs /\
          Exists (fun r => r.1 <= 45) rs /\ Exists (fun r => r.1 = 90) rs)
      end
  | None => False
  end.
Proof.
  intros HR Hl. destruct (profile_samples_inv cfg bs [] rs profile_start HR (profile_start_inv cfg)) as (a & E & I).
  rewrite E. cbn [fmap option_fmap option_map]. split; [| by apply profile_finish_spec].
  unfold s5_profile_build, S5_SAMPLES_MAX. rewrite (proj2 (Z.ltb_ge _ 5)), (proj2 (Z.ltb_ge 16 _)) by lia.
  cbn [orb]. by rewrite E.
Qed.

(** ** Theorems *)

(** Scan samples are exact.  A reading of any scan angle (30..150 in steps of
    5) and any distance in range packs to three bytes and unpacks to the same
    reading; and every three bytes that unpack are the packing of what they
    unpack to. *)
Theorem s5_sample_bijective angle mm valid s : in_u 32 angle -> bytes_ok s -> length s = 3%nat ->
  (sample_fits angle mm valid ->
     exists b, s5_sample_pack angle mm valid = Some b /\ length b = 3%nat /\
       s5_sample_unpack b = Some (angle, mm, valid)) /\
  (s5_sample_unpack s = Some (angle, mm, valid) ->
     sample_fits angle mm valid /\ s5_sample_pack angle mm valid = Some s).
Proof.
  intros Ha Hs Hl. split; [by apply sample_roundtrip |].
  intros Hu. split; [by apply (unpack_fits s) | by apply sample_canonical].
Qed.
Lemma s5_sample_bijective_witness : exists b, s5_sample_pack 45 1234 true = Some b /\ length b = 3%nat /\
  s5_sample_unpack b = Some (45, 1234, true).
Proof.
  apply (s5_sample_bijective 45 1234 true [0; 0; 0]); [split; lia | repeat (constructor; [lia |]); constructor | done |].
  split; [lia |]. split; [reflexivity | cbn; unfold S5_RANGE_MIN_MM, S5_RANGE_MAX_MM; lia].
Defined.

(** The scan terminates and is complete.  Whatever the measurements, a full
    scan is finished after 36 of them (three tries at each of at most twelve
    angles); if it did not fail, its samples are valid readings at exactly the
    scheduled angles - the five coarse ones and the fine ones around the nearest
    coarse return - nine to twelve in number, so that building a profile succeeds
    exactly when some return within 45..135 degrees is nearer than [profile_mm]. *)
Theorem s5_scan_complete now inputs cfg : let s := scan_run now inputs in
  ((36 <= length inputs)%nat -> scan_done s = true) /\
  (scan_done s = true -> failed s = false -> exists rs,
     records rs (scan_samples s) /\ map fst rs = schedule (nearest s) /\ (9 <= length rs <= 12)%nat /\
     ((s5_profile_build (scan_samples s) cfg).1 = true <-> Exists (fun r => shape cfg r = true) rs)).
Proof.
  cbv zeta. destruct (scan_run_from inputs _ (scan_begin_inv now)) as [I W]. fold (scan_run now inputs) in I, W.
  set (s := scan_run now inputs) in *. clearbody s. pose proof (schedule_length _ (sv_nearest _ I)) as HL.
  pose proof I as [_ _ Hn Ha Hc Hx Hcomp [rs [R1 R2]]]. split.
  - intros Hlen. destruct (scan_done s) eqn:Hd; [done |]. destruct W as [W | W]; [done |].
    destruct (Hx eq_refl) as (Hf & Hk & _). apply lookup_lt_Some in Hk. specialize (Ha Hf).
    unfold scan_work in W. cbn in W. lia.
  - intros Hd Hf. specialize (Hcomp Hd Hf). exists rs. rewrite Hcomp, Nat2Z.id, firstn_all in R2.
    assert (Hrl : length rs = length (schedule (nearest s))) by (by rewrite <- R2, length_map).
    split; [done |]. split; [done |]. split; [lia |].
    pose proof (profile_build_spec cfg rs (scan_samples s) R1) as HB.
    rewrite <- (Forall2_length _ _ _ R1) in HB. specialize (HB ltac:(lia)).
    destruct (profile_finish <$> _) as [o |]; [| done]. destruct HB as [-> HB].
    destruct o as [p |]; cbn [fst]; [naive_solver |]. split; [done |]. intros Hs. exfalso. apply HB.
    assert (HE : forall c, In c coarse -> Exists (fun r => r.1 = c) rs).
    { intros c Hc'. apply List.Exists_exists. assert (In c (map fst rs)) as Hin.
      { rewrite R2. unfold schedule. apply in_app_iff. by left. }
      apply in_map_iff in Hin as (r & <- & Hr). by exists r. }
    splits; [done | | |].
    + eapply Exists_impl; [apply (HE 150); cbn; tauto |]. cbn. lia.
    + eapply Exists_impl; [apply (HE 30); cbn; tauto |]. cbn. lia.
    + apply HE. cbn. tauto.
Qed.

(** The obstacle profile is sound.  Built from any 5..16 packed readings, it is
    accepted exactly when the readings include both sides, straight ahead and a
    shape return nearer than [profile_mm]; an accepted profile bounds every
    reading it was built from (closest, edges with the angular inflation,
    forward extent, side clearances), its edges and width do not overflow their
    16-bit fields, and it has a positive forward distance; a refused one is all
    zero. *)
Theorem s5_profile_sound cfg rs bs : records rs bs -> (5 <= length bs <= 16)%nat ->
  let '(ok, p) := s5_profile_build bs cfg in
  (ok = true <-> Exists (fun r => shape cfg r = true) rs /\ Exists (fun r => 135 <= r.1) rs /\
     Exists (fun r => r.1 <= 45) rs /\ Exists (fun r => r.1 = 90) rs) /\
  (ok = true -> profile_spec cfg rs p) /\ (ok = false -> p = zero_profile).
Proof.
  intros HR Hl. pose proof (profile_build_spec cfg rs bs HR Hl) as H.
  destruct (profile_finish <$> _) as [o |]; [| done]. destruct H as [-> H]. destruct o as [p |].
  - destruct H as (H1 & H2 & H3 & H4 & H5). done.
  - splits; done.
Qed.

(** Five readings: 150 mm ahead, the sides at one metre. *)
Definition bench_readings : list (Z * Z) := [(30, 1000); (60, 400); (90, 150); (120, 400); (150, 1000)].
Definition bench_samples : list bytes :=
  map (fun r : Z * Z => default [] (s5_sample_pack r.1 r.2 true)) bench_readings.
Lemma s5_profile_sound_witness : profile_spec s5_defaults bench_readings (s5_profile_build bench_samples s5_defaults).2.
Proof.
  assert (R : records bench_readings bench_samples) by (repeat constructor).
  pose proof (s5_profile_sound s5_defaults bench_readings bench_samples R ltac:(cbn; lia)) as H.
  destruct (s5_profile_build bench_samples s5_defaults) as [ok p] eqn:E.
  destruct H as (_ & H & _). apply H. change ok with (ok, p).1. rewrite <- E. vm_compute. reflexivity.
Defined.
