(* ===== verification/ObstacleCodec.v ===== *)
(** * Obstacle observation packet

    Models [subsystem5/s5_codec.{c,h}]: the 23-byte observation.  [put] and [get]
    of this file shift and mask one bit at a time, which is the loop of
    [BitCodec].  Unpacking packs the decoded value again and compares the bytes,
    so that only canonical packets are accepted. *)
From S2P Require Import Prelude BitCodec ObstacleScan.

Record s5_observation_t := {
  range_us : Z; scan_us : Z; range_mm : Z; scan_id : Z; obs_profile : s5_profile_t;
  range_valid : bool; no_echo : bool; obs_scan_done : bool
}.
Definition S5_PACKET_BYTES : nat := 23.

Definition observation_packable (v : s5_observation_t) : bool :=
  let q := obs_profile v in
  negb ((4000 <? range_mm v) || (range_valid v && (range_mm v <? 30)) ||
        (negb (range_valid v) && negb (range_mm v =? 0)) || (no_echo v && range_valid v)) &&
  negb ((4000 <? closest_mm q) || (4095 <? width_mm q) || (4000 <? left_clear_mm q) ||
        (4000 <? right_clear_mm q) || (4000 <? forward_mm q) || (left_edge_mm q <? -4000) ||
        (4000 <? left_edge_mm q) || (right_edge_mm q <? -4000) || (4000 <? right_edge_mm q) ||
        (profile_valid q && (negb (obs_scan_done v) || (closest_mm q <? 30) ||
                             (left_edge_mm q <? right_edge_mm q)))).
Definition observation_fields (v : s5_observation_t) : list field :=
  let q := obs_profile v in
  [(range_us v, 32%nat); (scan_us v, 32%nat); (scan_id v, 16%nat); (range_mm v, 12%nat);
   (b2z (range_valid v), 1%nat); (b2z (no_echo v), 1%nat); (b2z (obs_scan_done v), 1%nat);
   (b2z (profile_valid q), 1%nat); (closest_mm q, 12%nat); (width_mm q, 12%nat); (left_clear_mm q, 12%nat);
   (right_clear_mm q, 12%nat); (forward_mm q, 12%nat); (left_edge_mm q + 4000, 13%nat);
   (right_edge_mm q + 4000, 13%nat)].
Definition s5_observation_pack (v : s5_observation_t) : option bytes :=
  if negb (observation_packable v) then None else Some (pack S5_PACKET_BYTES (observation_fields v)).

Definition read_observation : reader s5_observation_t :=
  rus ← get 32; sus ← get 32; id ← get 16; mm ← get 12;
  rv ← get_flag; ne ← get_flag; sd ← get_flag; pv ← get_flag;
  cl ← get 12; wd ← get 12; lc ← get 12; rc ← get 12; fw ← get 12; le ← get 13; re ← get 13;
  mret {| range_us := rus; scan_us := sus; range_mm := mm; scan_id := id;
          obs_profile := {| closest_mm := cl; width_mm := wd; left_clear_mm := lc; right_clear_mm := rc;
                            left_edge_mm := i16 (le - 4000); right_edge_mm := i16 (re - 4000);
                            forward_mm := fw; profile_valid := pv |};
          range_valid := rv; no_echo := ne; obs_scan_done := sd |}.
Definition s5_observation_unpack (packet : bytes) : option s5_observation_t :=
  match run read_observation packet with
  | Some t => match s5_observation_pack t with
              | Some check => if bool_decide (check = packet) then Some t else None
              | None => None
              end
  | None => None
  end.

(** The value is one C's structure can hold. *)
Definition observation_typed (v : s5_observation_t) : Prop :=
  let q := obs_profile v in
  in_u 32 (range_us v) /\ in_u 32 (scan_us v) /\ in_u 16 (range_mm v) /\ in_u 16 (scan_id v) /\
  in_u 16 (closest_mm q) /\ in_u 16 (width_mm q) /\ in_u 16 (left_clear_mm q) /\ in_u 16 (right_clear_mm q) /\
  in_u 16 (forward_mm q).

Lemma reads_observation v : observation_typed v -> observation_packable v = true ->
  reads read_observation (observation_fields v) v.
Proof.
  intros T Hp. unfold observation_typed in T. unfold observation_packable in Hp. cbv zeta in T, Hp.
  apply andb_true_iff in Hp as [Hp1 Hp2]. apply negb_true_iff in Hp1, Hp2. unbool. unfold in_u in *.
  destruct v as [rus sus mm id [cl wd lc rc le re fw pv] rv ne sd]. cbn in *.
  unfold read_observation, observation_fields. cbn.
  do 4 (apply reads_get; [unfold in_u; change (Z.of_nat 12) with 12; change (Z.of_nat 16) with 16; lia |]).
  do 4 apply reads_flag.
  do 7 (apply reads_get; [unfold in_u; change (Z.of_nat 12) with 12; change (Z.of_nat 13) with 13; lia |]).
  rewrite !i16_small by lia. rewrite !Z.add_simpl_r. apply reads_ret.
Qed.

Lemma observation_width v : total_width (observation_fields v) = 182 /\ widths_ok (observation_fields v).
Proof. split; [reflexivity |]. unfold observation_fields. cbv zeta. check_widths. Qed.

(** Observation packet.  An observation packs exactly when its range and
    profile are in the documented bounds; the packet has 23 bytes and unpacks to
    the same observation; and a packet is accepted only if it is, byte for byte,
    the packing of the observation returned. *)
Theorem s5_observation_roundtrip v packet : observation_typed v ->
  (observation_packable v = true -> exists p, s5_observation_pack v = Some p /\ length p = 23%nat /\
     s5_observation_unpack p = Some v) /\
  (observation_packable v = false -> s5_observation_pack v = None) /\
  (s5_observation_unpack packet = Some v -> s5_observation_pack v = Some packet).
Proof.
  intros T. destruct (observation_width v) as [Hw Hk]. unfold s5_observation_pack. splits.
  - intros Hp. rewrite Hp. cbn [negb]. eexists. split; [done |].
    split; [rewrite length_pack; [done | by rewrite Hw] |].
    unfold s5_observation_unpack. rewrite (reads_run _ _ v); [| by apply reads_observation | done | by rewrite Hw].
    unfold s5_observation_pack. rewrite Hp. cbn [negb]. by rewrite bool_decide_eq_true_2.
  - by intros ->.
  - unfold s5_observation_unpack. destruct (run read_observation packet) as [t |]; [| done].
    destruct (s5_observation_pack t) as [check |] eqn:E; [| done]. case_bool_decide; [| done].
    intros [= ->]. subst. exact E.
Qed.

(** A profile built from a scan can be sent.  With [profile_mm] at most 2600
    (the default is 350), every accepted profile, put into an observation of a
    finished scan with a consistent range, is one the packet can carry. *)
Theorem s5_profile_packable cfg rs bs rus sus id mm (rv ne : bool) : records rs bs -> (5 <= length bs <= 16)%nat ->
  profile_mm cfg <= 2600 -> (s5_profile_build bs cfg).1 = true ->
  (if rv then 30 <= mm <= 4000 /\ ne = false else mm = 0) ->
  is_Some (s5_observation_pack {| range_us := rus; scan_us := sus; range_mm := mm; scan_id := id;
    obs_profile := (s5_profile_build bs cfg).2; range_valid := rv; no_echo := ne; obs_scan_done := true |}).
Proof.
  intros HR Hl Hpm Hok Hrv. pose proof (profile_build_spec cfg rs bs HR Hl) as H.
  destruct (profile_finish <$> _) as [o |]; [| done]. destruct H as [E H]. rewrite E in *.
  destruct o as [p |]; [| done]. destruct H as [[P1 P2 P3 P4 [P5 P5'] P6 _ _] _]. cbn [snd].
  unfold s5_observation_pack. set (v := Build_s5_observation_t _ _ _ _ _ _ _ _).
  enough (observation_packable v = true) as -> by (by eexists).
  unfold observation_packable, v. cbn -[Z.ltb Z.eqb]. rewrite P1. cbn [andb orb].
  apply andb_true_iff. rewrite !negb_true_iff, !orb_false_iff, !Z.ltb_ge.
  destruct rv; cbn [andb orb negb].
  - destruct Hrv as [Hm ->]. cbn [andb]. rewrite Z.ltb_ge. splits; done || lia.
  - subst mm. rewrite andb_false_r. splits; done || lia.
Qed.

Lemma s5_profile_packable_witness : is_Some (s5_observation_pack {| range_us := 5; scan_us := 6; range_mm := 150;
  scan_id := 1; obs_profile := (s5_profile_build bench_samples s5_defaults).2; range_valid := true;
  no_echo := false; obs_scan_done := true |}).
Proof.
  apply (s5_profile_packable s5_defaults bench_readings bench_samples).
  - repeat constructor.
  - cbn. lia.
  - cbn. lia.
  - vm_compute. reflexivity.
  - lia.
Defined.
Definition bench_observation : s5_observation_t := {| range_us := 5; scan_us := 6; range_mm := 150;
  scan_id := 1; obs_profile := zero_profile; range_valid := true; no_echo := false; obs_scan_done := false |}.
Lemma s5_observation_roundtrip_witness : exists p, s5_observation_pack bench_observation = Some p /\
  length p = 23%nat /\ s5_observation_unpack p = Some bench_observation.
Proof.
  apply (s5_observation_roundtrip bench_observation []); [| vm_compute; reflexivity].
  unfold observation_typed, in_u. cbn. lia.
Defined.
