(* ===== verification/Avoidance.v ===== *)
(** * Obstacle avoidance

    Models [subsystem5/avoidance_planner.c] (the rectangular bypass),
    [line_recovery.c] (finding the line again) and [obstacle_avoidance.c], the
    state machine that stops, scans, drives the ten legs of the bypass and hands
    back.  One call of [s5_avoidance_step] takes the latest input and returns at
    most one action; the caller executes it and reports [motion_done].

    The enumerations kept in bit fields are inductive types; the numeric bit
    fields wrap at their width. *)
From S2P Require Import Prelude CFloat BitCodec ObstacleScan ObstacleCodec.

Definition S5_PEEK_DEG : Z := 60.
Definition S5_PEEK_STEP_MM : Z := 50.
Definition S5_SONAR_AXLE_MM : Z := 100.
Definition S5_PREFER_ROUTE : Z := 1.

(** ** Planner *)
Inductive s5_route_t := S5_ROUTE_NONE | S5_ROUTE_LEFT | S5_ROUTE_RIGHT.
#[export] Instance route_eq_dec : EqDecision s5_route_t.
Proof. solve_decision. Defined.
(** [offset_mm], [plan_forward_mm], [alt_offset_mm] are 12-bit. *)
Record s5_plan_t := {
  route : s5_route_t; offset_mm : Z; plan_forward_mm : Z; alt_offset_mm : Z; alt_ok : bool
}.
#[export] Instance plan_settable : Settable s5_plan_t := fun r =>
  Build_s5_plan_t (route r) (offset_mm r) (plan_forward_mm r) (alt_offset_mm r) (alt_ok r).
Definition zero_plan : s5_plan_t :=
  {| route := S5_ROUTE_NONE; offset_mm := 0; plan_forward_mm := 0; alt_offset_mm := 0; alt_ok := false |}.
Definition is_left (r : s5_route_t) : bool := bool_decide (r = S5_ROUTE_LEFT).

Definition s5_plan (p : s5_profile_t) (c : s5_config_t) : bool * s5_plan_t :=
  if negb (profile_valid p) || (half_width_mm c =? 0) || (margin_mm c =? 0) || (max_depth_mm c =? 0)
  then (false, zero_plan)
  else
    let pad := half_width_mm c + margin_mm c in
    let left := u32 ((if 0 <? left_edge_mm p then left_edge_mm p else 0) + pad) in
    let right := u32 ((if right_edge_mm p <? 0 then - right_edge_mm p else 0) + pad) in
    let forward := forward_mm p in
    let l := left <=? max_offset_mm c in
    let r := right <=? max_offset_mm c in
    if (negb l && negb r) || (forward =? 0) || (3000 <? forward) then (false, zero_plan)
    else
      let route :=
        if S5_PREFER_ROUTE =? 1 then (if l then S5_ROUTE_LEFT else S5_ROUTE_RIGHT)
        else if S5_PREFER_ROUTE =? 2 then (if r then S5_ROUTE_RIGHT else S5_ROUTE_LEFT)
        else if l && (negb r || (right_clear_mm p <=? left_clear_mm p)) then S5_ROUTE_LEFT else S5_ROUTE_RIGHT in
      (true, {| route := route; offset_mm := wrap 12 (if is_left route then left else right);
                plan_forward_mm := wrap 12 forward;
                alt_offset_mm := wrap 12 (if is_left route then right else left);
                alt_ok := if is_left route then r else l |}).

(** ** Line recovery *)
Record s5_recovery_t := { since_us : Z; rec_touching : bool; confirmed : bool }.
#[export] Instance recovery_settable : Settable s5_recovery_t := fun r =>
  Build_s5_recovery_t (since_us r) (rec_touching r) (confirmed r).
Definition s5_recovery_reset : s5_recovery_t := {| since_us := 0; rec_touching := false; confirmed := false |}.
Definition s5_recovery_observe (r : s5_recovery_t) (now : Z) (healthy tape junction corridor : bool)
  : bool * s5_recovery_t :=
  if negb healthy || negb tape || junction || negb corridor then
    (confirmed r, r <| rec_touching := false |>)
  else
    let r := if negb (rec_touching r) then r <| rec_touching := true |> <| since_us := now |> else r in
    let r := if 30000 <=? elapsed now (since_us r) then r <| confirmed := true |> else r in
    (confirmed r, r).

(** ** The state machine *)
Inductive s5_state_t := S5_IDLE | S5_WAIT_STOP | S5_SCANNING | S5_MOVING | S5_FINISH | S5_COMPLETE | S5_FAULT.
#[export] Instance s5_state_eq_dec : EqDecision s5_state_t.
Proof. solve_decision. Defined.
Inductive s5_fault_t :=
  S5_OK | S5_BAD_RANGE | S5_NO_PATH | S5_SCAN_FAILED | S5_DEADLINE | S5_NO_LINE | S5_MOTION_ERROR | S5_INTERRUPTED.
#[export] Instance s5_fault_eq_dec : EqDecision s5_fault_t.
Proof. solve_decision. Defined.
Inductive s5_pass_t := S5_PASS_APPROACH | S5_PASS_PEEK | S5_PASS_PEEKING | S5_PASS_STEP | S5_PASS_EXTRA.
#[export] Instance s5_pass_eq_dec : EqDecision s5_pass_t.
Proof. solve_decision. Defined.
Inductive s5_action_kind_t :=
  S5_ACT_NONE | S5_ACT_STOP | S5_ACT_SCAN | S5_ACT_DRIVE | S5_ACT_TURN | S5_ACT_RESUME | S5_ACT_PEEK.
#[export] Instance s5_kind_eq_dec : EqDecision s5_action_kind_t.
Proof. solve_decision. Defined.
Record s5_action_t := { kind : s5_action_kind_t; value : Z; speed_mms : Z }.
Definition action (k : s5_action_kind_t) (v speed : Z) : s5_action_t :=
  {| kind := k; value := i16 v; speed_mms := u16 speed |}.

Record s5_input_t := {
  in_now_us : Z; in_centre_m : double;
  stopped : bool; motion_done : bool; healthy : bool; tape : bool; junction : bool; line_ready : bool;
  observation : s5_observation_t
}.
Record s5_avoidance_t := {
  av_config : s5_config_t; plan : s5_plan_t; recovery : s5_recovery_t;
  state : s5_state_t; fault : s5_fault_t; leg : Z; issued : bool; pass : s5_pass_t; swapped : bool;
  searched_mm : Z; phase_us : Z; started_us : Z; leg_start_m : double
}.
#[export] Instance avoidance_settable : Settable s5_avoidance_t := fun r =>
  Build_s5_avoidance_t (av_config r) (plan r) (recovery r) (state r) (fault r) (leg r) (issued r) (pass r)
    (swapped r) (searched_mm r) (phase_us r) (started_us r) (leg_start_m r).

Definition s5_avoidance_init (c : s5_config_t) : s5_avoidance_t :=
  {| av_config := c; plan := zero_plan; recovery := s5_recovery_reset; state := S5_IDLE; fault := S5_OK;
     leg := 0; issued := false; pass := S5_PASS_APPROACH; swapped := false; searched_mm := 0; phase_us := 0;
     started_us := 0; leg_start_m := S754_zero false |}.
Definition s5_range_ready (o : s5_observation_t) (now : Z) : bool :=
  range_valid o && negb (no_echo o) && (30 <=? range_mm o) && (range_mm o <=? 4000) &&
  (elapsed now (range_us o) <=? S5_RANGE_FRESH_US).
Definition s5_avoidance_begin (a : s5_avoidance_t) (now : Z) : s5_avoidance_t :=
  a <| state := S5_WAIT_STOP |> <| fault := S5_OK |> <| phase_us := now |> <| started_us := now |>
    <| leg := 0 |> <| issued := false |> <| plan := zero_plan |> <| recovery := s5_recovery_reset |>
    <| pass := S5_PASS_APPROACH |> <| searched_mm := 0 |> <| swapped := false |>.
Definition s5_avoidance_abort (a : s5_avoidance_t) : s5_avoidance_t :=
  a <| state := S5_IDLE |> <| issued := false |> <| recovery := s5_recovery_reset |>.

Definition none (a : s5_avoidance_t) : s5_action_t * s5_avoidance_t := (action S5_ACT_NONE 0 0, a).
Definition fail (a : s5_avoidance_t) (reason : s5_fault_t) : s5_action_t * s5_avoidance_t :=
  (action S5_ACT_STOP 0 0, a <| state := S5_FAULT |> <| fault := reason |>).

Definition pass_extra_mm (a : s5_avoidance_t) : Z :=
  u32 (u32 (offset_mm (plan a) * 577 + 999) / 1000 + S5_SONAR_AXLE_MM + half_width_mm (av_config a) +
       margin_mm (av_config a)).

Definition peek_result (a : s5_avoidance_t) (i : s5_input_t) (since : Z) : s5_action_t * s5_avoidance_t :=
  let o := observation i in
  let p := obs_profile o in
  if S5_SCAN_TIMEOUT_US <? since then fail a S5_DEADLINE
  else if negb (obs_scan_done o) || negb (later (scan_us o) (phase_us a)) then none a
  else if negb (profile_valid p) then fail a S5_SCAN_FAILED
  else
    let side := if is_left (route (plan a)) then right_clear_mm p else left_clear_mm p in
    let limit := u32 ((offset_mm (plan a) + margin_mm (av_config a)) * 1155 + 999) / 1000 in
    let a := a <| phase_us := in_now_us i |> in
    if side <=? limit then
      if max_depth_mm (av_config a) <? searched_mm a + S5_PEEK_STEP_MM then fail a S5_NO_PATH
      else none (a <| pass := S5_PASS_STEP |>)
    else none (a <| pass := S5_PASS_EXTRA |>).

Definition range_fresh_after (a : s5_avoidance_t) (i : s5_input_t) : bool :=
  s5_range_ready (observation i) (in_now_us i) && later (range_us (observation i)) (phase_us a).

(** The tape is looked for near the predicted line on leg 5, and anywhere from
    leg 7 on. *)
Definition observe_line (a : s5_avoidance_t) (i : s5_input_t) : s5_avoidance_t :=
  if issued a && (leg a =? 5) then
    let progressed := ((in_centre_m i - leg_start_m a) * double_of_Z 1000)%f64 in
    let error := (progressed + double_of_Z (sensor_axle_mm (av_config a)) - double_of_Z (offset_mm (plan a)))%f64 in
    let gate := double_of_Z (recovery_gate_mm (av_config a)) in
    let corridor := (-. gate <=. error) && (error <=. gate) in
    a <| recovery := (s5_recovery_observe (recovery a) (in_now_us i) (healthy i) (tape i) (junction i) corridor).2 |>
  else if issued a && (7 <=? leg a) then
    a <| recovery := (s5_recovery_observe (recovery a) (in_now_us i) (healthy i) (tape i) (junction i) true).2 |>
  else a.

(** A motion of the current leg is under way. *)
Definition leg_running (a : s5_avoidance_t) (i : s5_input_t) : s5_action_t * s5_avoidance_t :=
  if motion_done i then
    let a := a <| issued := false |> <| phase_us := in_now_us i |> in
    if (leg a =? 3) && negb (bool_decide (pass a = S5_PASS_EXTRA)) then none (a <| pass := S5_PASS_PEEK |>)
    else
      let a := a <| leg := wrap 4 (leg a + 1) |> in
      if (leg a =? 7) && confirmed (recovery a) then (action S5_ACT_STOP 0 0, a <| state := S5_FINISH |>)
      else if leg a =? 10 then
        if negb (confirmed (recovery a)) then fail a S5_NO_LINE
        else (action S5_ACT_STOP 0 0, a <| state := S5_FINISH |>)
      else none a
  else none a.

Definition straight_mm (a : s5_avoidance_t) : Z :=
  if leg a =? 3 then
    if bool_decide (pass a = S5_PASS_APPROACH) then plan_forward_mm (plan a)
    else if bool_decide (pass a = S5_PASS_STEP) then S5_PEEK_STEP_MM else pass_extra_mm a
  else offset_mm (plan a).
Definition straight_need (a : s5_avoidance_t) : Z :=
  let need := detect_mm (av_config a) in
  if (leg a =? 1) && (need <? offset_mm (plan a) + margin_mm (av_config a))
  then offset_mm (plan a) + margin_mm (av_config a) else need.

Definition leg_straight (a : s5_avoidance_t) (i : s5_input_t) (since : Z) : s5_action_t * s5_avoidance_t :=
  let mm := straight_mm a in
  if negb (range_fresh_after a i) then
    if 1000000 <? since then fail a S5_BAD_RANGE else none a
  else if range_mm (observation i) <=? straight_need a then
    if (leg a =? 1) && negb (swapped a) && alt_ok (plan a) then
      let other := alt_offset_mm (plan a) in
      let a := a <| swapped := true |>
        <| plan := plan a <| alt_offset_mm := offset_mm (plan a) |> <| offset_mm := other |>
                          <| route := if is_left (route (plan a)) then S5_ROUTE_RIGHT else S5_ROUTE_LEFT |> |>
        <| leg := 0 |> <| issued := true |> in
      (action S5_ACT_TURN (if is_left (route (plan a)) then 180 else -180) (cfg_speed_mms (av_config a)), a)
    else fail a S5_NO_PATH
  else
    let a := a <| issued := true |> <| leg_start_m := in_centre_m i |> in
    let a := if (leg a =? 3) && bool_decide (pass a = S5_PASS_STEP)
             then a <| searched_mm := u16 (searched_mm a + mm) |> else a in
    (action S5_ACT_DRIVE mm (cfg_speed_mms (av_config a)), a).

Definition moving_step (a : s5_avoidance_t) (i : s5_input_t) (since : Z) : s5_action_t * s5_avoidance_t :=
  let o := observation i in
  if 20000000 <? since then fail a S5_DEADLINE
  else if (leg a =? 3) && bool_decide (pass a = S5_PASS_PEEKING) then peek_result a i since
  else if issued a && (negb (s5_range_ready o (in_now_us i)) || (range_mm o <=? emergency_mm (av_config a)))
  then fail a S5_BAD_RANGE
  else
    let a := observe_line a i in
    if issued a then leg_running a i
    else if negb (stopped i) then none a
    else if negb (range_fresh_after a i) then
      if 1000000 <? since then fail a S5_BAD_RANGE else none a
    else if range_mm o <=? emergency_mm (av_config a) then fail a S5_NO_PATH
    else
      let sign := if is_left (route (plan a)) then 1 else -1 in
      let speed := cfg_speed_mms (av_config a) in
      if (leg a =? 3) && bool_decide (pass a = S5_PASS_PEEK) then
        (action S5_ACT_PEEK (if is_left (route (plan a)) then 90 - S5_PEEK_DEG else 90 + S5_PEEK_DEG) 0,
         a <| pass := S5_PASS_PEEKING |> <| phase_us := in_now_us i |>)
      else if (leg a =? 1) || (leg a =? 3) || (leg a =? 5) then leg_straight a i since
      else
        let a := a <| issued := true |> in
        if (leg a =? 0) || (leg a =? 6) then (action S5_ACT_TURN (sign * 90) speed, a)
        else if (leg a =? 2) || (leg a =? 4) then (action S5_ACT_TURN (- sign * 90) speed, a)
        else (action S5_ACT_TURN (if leg a =? 8 then -40 else 20) speed, a).

Definition s5_avoidance_step (a : s5_avoidance_t) (i : s5_input_t) : s5_action_t * s5_avoidance_t :=
  match state a with
  | S5_IDLE | S5_COMPLETE | S5_FAULT => none a
  | _ =>
    if negb (healthy i) then fail a S5_MOTION_ERROR
    else if 60000000 <? elapsed (in_now_us i) (started_us a) then fail a S5_DEADLINE
    else
      let since := elapsed (in_now_us i) (phase_us a) in
      match state a with
      | S5_WAIT_STOP =>
          if 1000000 <? since then fail a S5_DEADLINE
          else if stopped i then
            (action S5_ACT_SCAN 0 0, a <| state := S5_SCANNING |> <| phase_us := in_now_us i |>)
          else none a
      | S5_SCANNING =>
          if S5_SCAN_TIMEOUT_US <? since then fail a S5_DEADLINE
          else if obs_scan_done (observation i) && later (scan_us (observation i)) (phase_us a) then
            if negb (profile_valid (obs_profile (observation i))) then fail a S5_SCAN_FAILED
            else
              let '(ok, p) := s5_plan (obs_profile (observation i)) (av_config a) in
              let a := a <| plan := p |> in
              if negb ok then fail a S5_NO_PATH
              else none (a <| state := S5_MOVING |> <| phase_us := in_now_us i |>)
          else none a
      | S5_MOVING => moving_step a i since
      | S5_FINISH =>
          if 1000000 <? since then fail a S5_NO_LINE
          else if stopped i && line_ready i && negb (junction i) && confirmed (recovery a) then
            (action S5_ACT_RESUME 0 0, a <| state := S5_COMPLETE |>)
          else none a
      | _ => none a
      end
  end.

(** ** What a step may do *)
Definition busy (s : s5_state_t) : bool :=
  match s with S5_IDLE | S5_COMPLETE | S5_FAULT => false | _ => true end.
Definition motion (act : s5_action_t) : bool :=
  match kind act with S5_ACT_DRIVE | S5_ACT_TURN => true | _ => false end.

(** Splits a step into its branches, keeping the guards. *)
Ltac branches :=
  repeat (match goal with
    | |- context [if ?b then _ else _] => lazymatch type of b with bool => destruct b eqn:? end
    | |- context [let '(_, _) := ?p in _] => destruct p eqn:?
    end; cbn [fst snd kind state fault none fail action negb]).

(** The frame of one [moving_step]: which guards hold when it commands something. *)
Record command_guard (a : s5_avoidance_t) (i : s5_input_t) : Prop := {
  cg_stopped : stopped i = true;
  cg_idle : issued a = false;
  cg_fresh : s5_range_ready (observation i) (in_now_us i) = true;
  cg_after : later (range_us (observation i)) (phase_us a) = true;
  cg_clear : emergency_mm (av_config a) < range_mm (observation i)
}.

Lemma observe_line_frame a i : let a' := observe_line a i in
  av_config a' = av_config a /\ plan a' = plan a /\ state a' = state a /\ leg a' = leg a /\
  issued a' = issued a /\ pass a' = pass a /\ swapped a' = swapped a /\ searched_mm a' = searched_mm a /\
  phase_us a' = phase_us a /\ started_us a' = started_us a /\ fault a' = fault a.
Proof. unfold observe_line. cbv zeta. repeat case_if; splits; done. Qed.

Lemma observe_line_idle a i : issued a = false -> observe_line a i = a.
Proof. intros H. unfold observe_line. rewrite H. done. Qed.

(** Outcome of a moving step, branch by branch. *)
Inductive moved (a : s5_avoidance_t) (i : s5_input_t) : s5_action_t -> s5_avoidance_t -> Prop :=
| mv_fail reason a' : av_config a' = av_config a -> reason <> S5_OK ->
    moved a i (action S5_ACT_STOP 0 0) (a' <| state := S5_FAULT |> <| fault := reason |>)
| mv_wait rec : moved a i (action S5_ACT_NONE 0 0) (a <| recovery := rec |>)
| mv_peeked p : leg a = 3 -> pass a = S5_PASS_PEEKING ->
    (p = S5_PASS_EXTRA \/ p = S5_PASS_STEP /\ searched_mm a + S5_PEEK_STEP_MM <= max_depth_mm (av_config a)) ->
    moved a i (action S5_ACT_NONE 0 0) (a <| phase_us := in_now_us i |> <| pass := p |>)
| mv_peek_next rec : issued a = true -> leg a = 3 -> pass a <> S5_PASS_EXTRA ->
    moved a i (action S5_ACT_NONE 0 0) (a <| recovery := rec |> <| issued := false |>
      <| phase_us := in_now_us i |> <| pass := S5_PASS_PEEK |>)
| mv_next rec : issued a = true -> (leg a = 3 -> pass a = S5_PASS_EXTRA) -> wrap 4 (leg a + 1) <> 10 ->
    moved a i (action S5_ACT_NONE 0 0) (a <| recovery := rec |> <| issued := false |>
      <| phase_us := in_now_us i |> <| leg := wrap 4 (leg a + 1) |>)
| mv_finish rec : issued a = true -> confirmed rec = true -> 
    moved a i (action S5_ACT_STOP 0 0) (a <| recovery := rec |> <| issued := false |>
      <| phase_us := in_now_us i |> <| leg := wrap 4 (leg a + 1) |> <| state := S5_FINISH |>)
| mv_peek : command_guard a i -> leg a = 3 -> pass a = S5_PASS_PEEK ->
    moved a i (action S5_ACT_PEEK (if is_left (route (plan a)) then 30 else 150) 0)
      (a <| pass := S5_PASS_PEEKING |> <| phase_us := in_now_us i |>)
| mv_swap : command_guard a i -> leg a = 1 -> swapped a = false -> alt_ok (plan a) = true ->
    let left := is_left (route (plan a)) in
    moved a i (action S5_ACT_TURN (if left then -180 else 180) (cfg_speed_mms (av_config a)))
      (a <| swapped := true |>
         <| plan := plan a <| alt_offset_mm := offset_mm (plan a) |> <| offset_mm := alt_offset_mm (plan a) |>
                           <| route := if left then S5_ROUTE_RIGHT else S5_ROUTE_LEFT |> |>
         <| leg := 0 |> <| issued := true |>)
| mv_drive : command_guard a i -> leg a = 1 \/ leg a = 3 /\ pass a <> S5_PASS_PEEK /\ pass a <> S5_PASS_PEEKING \/ leg a = 5 ->
    straight_need a < range_mm (observation i) ->
    let a1 := a <| issued := true |> <| leg_start_m := in_centre_m i |> in
    moved a i (action S5_ACT_DRIVE (straight_mm a) (cfg_speed_mms (av_config a)))
      (if (leg a =? 3) && bool_decide (pass a = S5_PASS_STEP)
       then a1 <| searched_mm := u16 (searched_mm a + straight_mm a) |> else a1)
| mv_turn deg : command_guard a i -> leg a <> 1 -> leg a <> 3 -> leg a <> 5 -> Z.abs deg <= 90 ->
    moved a i (action S5_ACT_TURN deg (cfg_speed_mms (av_config a))) (a <| issued := true |>).

Lemma recovery_eta a : a = a <| recovery := recovery a |>.
Proof. by destruct a. Qed.
Lemma moved_none a i : moved a i (action S5_ACT_NONE 0 0) a.
Proof. rewrite (recovery_eta a) at 2. apply mv_wait. Qed.
Lemma observe_line_rec a i : exists rec, observe_line a i = a <| recovery := rec |>.
Proof.
  unfold observe_line. repeat case_if; eexists; [reflexivity | reflexivity |]. apply recovery_eta.
Qed.

Lemma moved_fail a i reason a' : av_config a' = av_config a -> reason <> S5_OK ->
  moved a i (fail a' reason).1 (fail a' reason).2.
Proof. intros. by apply mv_fail. Qed.

Lemma peek_moved a i since : leg a = 3 -> pass a = S5_PASS_PEEKING ->
  moved a i (peek_result a i since).1 (peek_result a i since).2.
Proof.
  intros Hl Hp. unfold peek_result. cbv zeta.
  destruct (S5_SCAN_TIMEOUT_US <? since); [by apply moved_fail |].
  destruct (_ || _); [apply moved_none |].
  destruct (negb _); [by apply moved_fail |].
  set (side := if is_left _ then _ else _). set (limit := u32 _ / 1000).
  destruct (side <=? limit).
  - destruct (Z.ltb_spec (max_depth_mm (av_config a)) (searched_mm a + S5_PEEK_STEP_MM)) as [E | E].
    + cbn [av_config searched_mm update_field]. unfold update_field. cbn [av_config searched_mm].
      rewrite (proj2 (Z.ltb_lt _ _) E). by apply moved_fail.
    + unfold update_field. cbn [av_config searched_mm]. rewrite (proj2 (Z.ltb_ge _ _) E).
      apply (mv_peeked a i S5_PASS_STEP); try done. by right.
  - apply (mv_peeked a i S5_PASS_EXTRA); try done. by left.
Qed.

Lemma running_moved a i rec : issued a = true ->
  moved a i (leg_running (a <| recovery := rec |>) i).1 (leg_running (a <| recovery := rec |>) i).2.
Proof.
  intros Hi. unfold leg_running. destruct (motion_done i); [| apply mv_wait]. cbv zeta.
  set (a1 := a <| recovery := rec |> <| issued := false |> <| phase_us := in_now_us i |>).
  change (leg a1) with (leg a). change (pass a1) with (pass a).
  destruct (Z.eqb_spec (leg a) 3) as [H3 | H3]; cbn [andb].
  - case_bool_decide as Hp; cbn [negb].
    + rewrite H3. change (wrap 4 (3 + 1)) with 4. cbn.
      change 4 with (wrap 4 (3 + 1)). rewrite <- H3. apply (mv_next a i rec); try done. by rewrite H3.
    + by apply mv_peek_next.
  - set (a2 := a1 <| leg := wrap 4 (leg a + 1) |>). change (leg a2) with (wrap 4 (leg a + 1)).
    change (recovery a2) with rec. destruct ((wrap 4 (leg a + 1) =? 7) && confirmed rec) eqn:E7.
    + apply andb_true_iff in E7 as [_ Ec]. by apply mv_finish.
    + destruct (Z.eqb_spec (wrap 4 (leg a + 1)) 10) as [E10 | E10].
      * destruct (confirmed rec) eqn:Ec; cbn [negb]; [by apply mv_finish | by apply moved_fail].
      * apply mv_next; [done | intros; lia | done].
Qed.

Lemma straight_moved a i since : command_guard a i -> leg a = 1 \/ leg a = 3 /\ pass a <> S5_PASS_PEEK /\ pass a <> S5_PASS_PEEKING \/ leg a = 5 ->
  moved a i (leg_straight a i since).1 (leg_straight a i since).2.
Proof.
  intros G Hl. unfold leg_straight, range_fresh_after. rewrite (cg_fresh _ _ G), (cg_after _ _ G). cbn [andb negb]. cbv zeta.
  destruct (Z.leb_spec (range_mm (observation i)) (straight_need a)) as [Hn | Hn].
  - destruct ((leg a =? 1) && negb (swapped a) && alt_ok (plan a)) eqn:Es; [| by apply moved_fail].
    unbool. match goal with |- moved a i (?p.1) _ => set (r := p) end.
    pose proof (mv_swap a i G ltac:(lia) ltac:(done) ltac:(done)) as M. cbv zeta in M.
    replace r.1 with (action S5_ACT_TURN (if is_left (route (plan a)) then -180 else 180) (cfg_speed_mms (av_config a))); [exact M |].
    subst r. cbn. by destruct (is_left (route (plan a))).
  - set (a1 := a <| issued := true |> <| leg_start_m := in_centre_m i |>).
    change (leg a1) with (leg a). change (pass a1) with (pass a). change (searched_mm a1) with (searched_mm a).
    pose proof (mv_drive a i G Hl Hn) as M. cbv zeta in M. fold a1 in M. cbn [fst snd].
    destruct ((leg a =? 3) && bool_decide (pass a = S5_PASS_STEP)); exact M.
Qed.

Lemma moving_moved a i since : moved a i (moving_step a i since).1 (moving_step a i since).2.
Proof.
  unfold moving_step. cbv zeta. destruct (20000000 <? since); [by apply moved_fail |].
  destruct ((leg a =? 3) && bool_decide (pass a = S5_PASS_PEEKING)) eqn:Ep.
  { undecide. by apply peek_moved. }
  destruct (issued a && _) eqn:Eb; [by apply moved_fail |].
  destruct (issued a) eqn:Ei.
  - destruct (observe_line_rec a i) as [rec ->]. change (issued (a <| recovery := rec |>)) with (issued a). rewrite Ei.
    by apply running_moved.
  - rewrite (observe_line_idle a i Ei), Ei. destruct (stopped i) eqn:Es; cbn [negb]; [| apply moved_none].
    destruct (range_fresh_after a i) eqn:Er; cbn [negb]; [| case_if; [by apply moved_fail | apply moved_none]].
    unfold range_fresh_after in Er. apply andb_true_iff in Er as [Er1 Er2].
    destruct (Z.leb_spec (range_mm (observation i)) (emergency_mm (av_config a))) as [Hr | Hr]; [by apply moved_fail |].
    assert (G : command_guard a i) by (by constructor).
    destruct ((leg a =? 3) && bool_decide (pass a = S5_PASS_PEEK)) eqn:Epk.
    { undecide. by apply mv_peek. }
    destruct ((leg a =? 1) || (leg a =? 3) || (leg a =? 5)) eqn:El.
    + apply straight_moved; [done |].
      destruct (Z.eqb_spec (leg a) 1); [by left |]. destruct (Z.eqb_spec (leg a) 3); cbn [orb andb] in El, Epk, Ep.
      * right. left. split; [done |]. by apply bool_decide_eq_false in Epk, Ep.
      * right. right. by apply Z.eqb_eq.
    + unbool. change (leg (a <| issued := true |>)) with (leg a).
      repeat case_if; apply mv_turn; try done; destruct (is_left _); cbn; lia.
Qed.

(** ** Theorems *)

(** What an action permits, and what a step promises. *)
Record step_spec (a : s5_avoidance_t) (i : s5_input_t) (act : s5_action_t) (a' : s5_avoidance_t) : Prop := {
  st_motion : motion act = true -> state a = S5_MOVING /\ state a' = S5_MOVING /\ issued a' = true /\
    healthy i = true /\ command_guard a i /\ speed_mms act = u16 (cfg_speed_mms (av_config a));
  st_drive : kind act = S5_ACT_DRIVE ->
    detect_mm (av_config a) < range_mm (observation i) /\
    (leg a = 1 -> offset_mm (plan a) + margin_mm (av_config a) < range_mm (observation i)) /\
    value act = i16 (straight_mm a);
  st_sense : kind act = S5_ACT_SCAN \/ kind act = S5_ACT_PEEK -> stopped i = true;
  st_resume : kind act = S5_ACT_RESUME -> state a = S5_FINISH /\ state a' = S5_COMPLETE /\ stopped i = true /\
    line_ready i = true /\ junction i = false /\ confirmed (recovery a) = true;
  st_fault : state a' = S5_FAULT -> state a <> S5_FAULT -> act = action S5_ACT_STOP 0 0 /\ fault a' <> S5_OK;
  st_unhealthy : busy (state a) = true -> healthy i = false ->
    act = action S5_ACT_STOP 0 0 /\ state a' = S5_FAULT /\ fault a' = S5_MOTION_ERROR;
  st_deadline : busy (state a) = true -> 60000000 < elapsed (in_now_us i) (started_us a) ->
    act = action S5_ACT_STOP 0 0 /\ state a' = S5_FAULT;
  st_rest : busy (state a) = false -> act = action S5_ACT_NONE 0 0 /\ a' = a
}.

Lemma need_detect a : detect_mm (av_config a) <= straight_need a /\
  (leg a = 1 -> offset_mm (plan a) + margin_mm (av_config a) <= straight_need a).
Proof.
  unfold straight_need. destruct (Z.eqb_spec (leg a) 1); cbn [andb]; [| lia].
  destruct (Z.ltb_spec (detect_mm (av_config a)) (offset_mm (plan a) + margin_mm (av_config a))); lia.
Qed.

(** Refutes a statement about an action of another kind. *)
Ltac off_kind := cbn; intros; repeat match goal with H : _ \/ _ |- _ => destruct H end; congruence.

(** A quiet outcome (stop or nothing, no new fault unless stopped) meets the spec. *)
Lemma step_quiet a i act a' : (kind act = S5_ACT_NONE \/ kind act = S5_ACT_STOP) -> busy (state a) = true ->
  (healthy i = false -> act = action S5_ACT_STOP 0 0 /\ state a' = S5_FAULT /\ fault a' = S5_MOTION_ERROR) ->
  (60000000 < elapsed (in_now_us i) (started_us a) -> act = action S5_ACT_STOP 0 0 /\ state a' = S5_FAULT) ->
  (state a' = S5_FAULT -> act = action S5_ACT_STOP 0 0 /\ fault a' <> S5_OK) -> step_spec a i act a'.
Proof.
  intros Hk Hb Hh Ht Hf. constructor.
  - unfold motion. destruct Hk as [-> | ->]; done.
  - off_kind.
  - off_kind.
  - off_kind.
  - intros E _. exact (Hf E).
  - intros _. exact Hh.
  - intros _. exact Ht.
  - congruence.
Qed.

Lemma moving_spec a i since : state a = S5_MOVING -> healthy i = true ->
  ~ 60000000 < elapsed (in_now_us i) (started_us a) ->
  step_spec a i (moving_step a i since).1 (moving_step a i since).2.
Proof.
  intros Hs Hh Ht. destruct (need_detect a) as [N1 N2].
  destruct (moving_moved a i since) as [reason a0 Hc Hr | rec | p H1 H2 H3 | rec H1 H2 H3 | rec H1 H2 H3 | rec H1 H2
    | G H1 H2 | G H1 H2 H3 left | G H1 H2 a1 | deg G H1 H2 H3 H4].
  all: try (apply step_quiet; [by (left + right) | by rewrite Hs | congruence | done | cbn; rewrite ?Hs; done]).
  - constructor; try off_kind; cbn; rewrite ?Hs; try done; try lia. intros _. apply G.
  - constructor; try off_kind; cbn; rewrite ?Hs; try done; try lia.
  - assert (Ha1 : forall b : bool, state (if b then a1 <| searched_mm := u16 (searched_mm a + straight_mm a) |> else a1)
      = S5_MOVING /\ issued (if b then a1 <| searched_mm := u16 (searched_mm a + straight_mm a) |> else a1) = true)
      by (intros []; done).
    destruct (Ha1 ((leg a =? 3) && bool_decide (pass a = S5_PASS_STEP))) as [E1 E2].
    constructor; try off_kind; rewrite ?E1, ?E2, ?Hs; try done; try lia.
    intros _. splits; [lia | intros HL; specialize (N2 HL); lia | done].
  - constructor; try off_kind; cbn; rewrite ?Hs; try done; try lia.
Qed.

Lemma step_safe a i : step_spec a i (s5_avoidance_step a i).1 (s5_avoidance_step a i).2.
Proof.
  unfold s5_avoidance_step. destruct (busy (state a)) eqn:Eb.
  2: { assert (s5_avoidance_step a i = none a) as E by (unfold s5_avoidance_step; by destruct (state a)).
       fold (s5_avoidance_step a i). rewrite E.
       constructor; try off_kind; done. }
  assert (Hq : forall act a', (kind act = S5_ACT_NONE \/ kind act = S5_ACT_STOP) -> healthy i = true ->
    ~ 60000000 < elapsed (in_now_us i) (started_us a) ->
    (state a' = S5_FAULT -> act = action S5_ACT_STOP 0 0 /\ fault a' <> S5_OK) -> step_spec a i act a').
  { intros. apply step_quiet; try done. congruence. }
  destruct (healthy i) eqn:Eh; cbn [negb].
  2: { assert (step_spec a i (fail a S5_MOTION_ERROR).1 (fail a S5_MOTION_ERROR).2) as S; [| by destruct (state a)].
       apply step_quiet; try done. by right. }
  destruct (Z.ltb_spec 60000000 (elapsed (in_now_us i) (started_us a))) as [Et | Et].
  { assert (step_spec a i (fail a S5_DEADLINE).1 (fail a S5_DEADLINE).2) as S; [| by destruct (state a)].
    apply step_quiet; try done; [by right | congruence]. }
  assert (Hn : ~ 60000000 < elapsed (in_now_us i) (started_us a)) by lia. cbv zeta.
  destruct (state a) eqn:Es; try done.
  - branches; try (apply Hq; [by (left + right) | done | done | cbn; rewrite ?Es; done]).
    constructor; try off_kind; cbn; rewrite ?Es; try done; try lia.
  - branches; try (apply Hq; [by (left + right) | done | done | cbn; rewrite ?Es; done]).
  - by apply moving_spec.
  - branches; try (apply Hq; [by (left + right) | done | done | cbn; rewrite ?Es; done]).
    unbool. constructor; try off_kind; cbn; rewrite ?Es; try done; try lia.
Qed.

(** A busy machine stays busy, with the same start, unless it faults or resumes. *)
Lemma step_deadline a i : busy (state a) = true -> 60000000 < elapsed (in_now_us i) (started_us a) ->
  state (s5_avoidance_step a i).2 = S5_FAULT.
Proof.
  intros Hb Ht. unfold s5_avoidance_step. destruct (negb (healthy i)); [by destruct (state a) |].
  rewrite (proj2 (Z.ltb_lt _ _) Ht). by destruct (state a).
Qed.
Lemma step_stays a i : busy (state a) = true -> let r := s5_avoidance_step a i in
  state r.2 = S5_FAULT \/ kind r.1 = S5_ACT_RESUME \/
  (busy (state r.2) = true /\ started_us r.2 = started_us a /\ av_config r.2 = av_config a).
Proof.
  intros Hb. unfold s5_avoidance_step. cbv zeta.
  assert (F : forall r, state (fail a r).2 = S5_FAULT) by done.
  destruct (negb (healthy i)); [left; by destruct (state a) |].
  destruct (60000000 <? _); [left; by destruct (state a) |].
  destruct (state a) eqn:Es; try done.
  - branches; auto; right; right; rewrite ?Es; done.
  - branches; auto; right; right; cbn; rewrite ?Es; done.
  - destruct (moving_moved a i (elapsed (in_now_us i) (phase_us a))); cbn; rewrite ?Es; auto.
    right. right. destruct (_ && _); cbn; rewrite ?Es; done.
  - branches; auto; right; right; rewrite ?Es; done.
Qed.

(** C27: avoidance safety.  A drive or turn is commanded only while MOVING, with
    the car healthy and standing still, no motion under way, and a fresh range
    reading taken after the phase began that exceeds the emergency distance; a
    drive also needs more than the detection distance ahead and, on the first
    sideways leg, more than the whole sideways offset plus margin.  Scans and
    peeks happen only standing still.  Resuming needs a stop, the line ready, no
    junction and a confirmed line.  Every new fault stops the car; a loss of
    health or 60 s since the start end any avoidance at the next step; idle,
    complete and faulted machines do nothing. *)
Theorem s5_avoidance_safe a i : step_spec a i (s5_avoidance_step a i).1 (s5_avoidance_step a i).2.
Proof. apply step_safe. Qed.

(** ** The manoeuvre is bounded *)
Definition steps_left (a : s5_avoidance_t) : Z := (max_depth_mm (av_config a) - searched_mm a) / S5_PEEK_STEP_MM.
(** Motions the machine can still command. *)
Definition pass_budget (a : s5_avoidance_t) : Z :=
  match pass a with
  | S5_PASS_APPROACH => steps_left a + 2 - b2z (issued a)
  | S5_PASS_PEEK | S5_PASS_PEEKING | S5_PASS_STEP => steps_left a + 1
  | S5_PASS_EXTRA => 1 - b2z (issued a)
  end.
Definition motion_budget (a : s5_avoidance_t) : Z :=
  match state a with
  | S5_WAIT_STOP | S5_SCANNING => steps_left a + 13
  | S5_MOVING => (if swapped a then 0 else 2) +
      (if leg a <? 3 then 3 - leg a - b2z (issued a) + (steps_left a + 2) + 6
       else if leg a =? 3 then pass_budget a + 6
       else 10 - leg a - b2z (issued a))
  | _ => 0
  end.

Record av_inv (a : s5_avoidance_t) : Prop := {
  vi_config : s5_config_typed (av_config a);
  vi_start : state a = S5_WAIT_STOP \/ state a = S5_SCANNING ->
    leg a = 0 /\ issued a = false /\ pass a = S5_PASS_APPROACH /\ searched_mm a = 0 /\ swapped a = false;
  vi_leg : state a = S5_MOVING -> 0 <= leg a <= 9;
  vi_early : state a = S5_MOVING -> leg a < 3 -> pass a = S5_PASS_APPROACH /\ searched_mm a = 0;
  vi_searched : state a = S5_MOVING -> 0 <= searched_mm a <= max_depth_mm (av_config a);
  vi_approach : state a = S5_MOVING -> leg a = 3 -> pass a = S5_PASS_APPROACH -> searched_mm a = 0;
  vi_step : state a = S5_MOVING -> leg a = 3 -> pass a = S5_PASS_STEP -> issued a = false ->
    searched_mm a + S5_PEEK_STEP_MM <= max_depth_mm (av_config a)
}.

Lemma av_inv_off a : s5_config_typed (av_config a) ->
  state a <> S5_WAIT_STOP -> state a <> S5_SCANNING -> state a <> S5_MOVING -> av_inv a.
Proof. intros. constructor; try done; intros; exfalso; naive_solver. Qed.

Lemma begin_inv a now : s5_config_typed (av_config a) -> av_inv (s5_avoidance_begin a now).
Proof. intros. constructor; cbn; done. Qed.

Lemma steps_left_nonneg a : searched_mm a <= max_depth_mm (av_config a) -> 0 <= steps_left a.
Proof. intros. unfold steps_left, S5_PEEK_STEP_MM. apply Z.div_pos; lia. Qed.

Lemma wrap4_leg l : 0 <= l <= 9 -> wrap 4 (l + 1) = l + 1.
Proof. intros. apply wrap_id. unfold in_u. lia. Qed.

(** The invariant of a state that is still MOVING, field by field. *)
Lemma moving_inv a : s5_config_typed (av_config a) -> state a = S5_MOVING -> 0 <= leg a <= 9 ->
  (leg a < 3 -> pass a = S5_PASS_APPROACH /\ searched_mm a = 0) ->
  0 <= searched_mm a <= max_depth_mm (av_config a) ->
  (leg a = 3 -> pass a = S5_PASS_APPROACH -> searched_mm a = 0) ->
  (leg a = 3 -> pass a = S5_PASS_STEP -> issued a = false ->
     searched_mm a + S5_PEEK_STEP_MM <= max_depth_mm (av_config a)) -> av_inv a.
Proof. intros. constructor; try done. rewrite H0. by intros []. Qed.

Lemma steps_left_step m s : (m - (s + 50)) / 50 = (m - s) / 50 - 1.
Proof. replace (m - (s + 50)) with (m - s + (-1) * 50) by lia. rewrite Z.div_add by lia. lia. Qed.

Ltac count_motions :=
  unfold motion_budget, pass_budget, steps_left, S5_PEEK_STEP_MM;
  cbn [state leg issued pass swapped searched_mm av_config update_field motion kind action b2z];
  unfold update_field; cbn [state leg issued pass swapped searched_mm av_config b2z];
  repeat match goal with
  | |- context [?x <? ?y] => destruct (Z.ltb_spec x y)
  | |- context [?x =? ?y] => destruct (Z.eqb_spec x y)
  end; try lia.

Lemma moved_inv a i act a' : av_inv a -> state a = S5_MOVING -> moved a i act a' ->
  av_inv a' /\ 0 <= motion_budget a' /\ motion_budget a' + b2z (motion act) <= motion_budget a.
Proof.
  intros [IC _ IL IE IS IA IP] Hs HM. specialize (IL Hs). specialize (IE Hs). specialize (IS Hs). specialize (IA Hs). specialize (IP Hs).
  pose proof (steps_left_nonneg a ltac:(lia)) as HN. unfold steps_left, S5_PEEK_STEP_MM in HN.
  assert (HB : 0 <= motion_budget a).
  { unfold motion_budget. rewrite Hs. unfold pass_budget, steps_left, S5_PEEK_STEP_MM.
    destruct (issued a), (swapped a), (pass a); cbn [b2z]; repeat case_if; unbool; lia. }
  pose proof IC as IC'. unfold s5_config_typed, in_u in IC'. unfold S5_PEEK_STEP_MM in IP.
  destruct HM as [reason a0 Hc Hr | rec | p H1 H2 H3 | rec H1 H2 H3 | rec H1 H2 H3 | rec H1 H2
    | G H1 H2 | G H1 H2 H3 left | G H1 H2 a1 | deg G H1 H2 H3 H4].
  - split; [apply av_inv_off; cbn; try done; rewrite Hc; done |]. cbn. lia.
  - split; [by apply moving_inv |]. change (motion_budget (a <| recovery := rec |>)) with (motion_budget a). cbn. lia.
  - assert (Hi : issued a = issued a) by done.
    destruct a as [cfg pl re st fa lg iss ps sw se ph sd ls]. cbn in *. subst. split.
    + apply moving_inv; cbn; try done; try lia; [destruct H3 as [-> | [-> _]]; done |].
      intros _ -> _. unfold S5_PEEK_STEP_MM in *. destruct H3 as [? | [_ ?]]; [done | lia].
    + destruct H3 as [-> | [-> ?]], iss, sw; count_motions.
  - destruct a as [cfg pl re st fa lg iss ps sw se ph sd ls]. cbn in *. subst. split.
    + apply moving_inv; cbn; try done; lia.
    + destruct ps, sw; try done; count_motions.
  - destruct a as [cfg pl re st fa lg iss ps sw se ph sd ls]. cbn in *. subst. rewrite wrap4_leg in * by lia. split.
    + apply moving_inv; cbn -[wrap]; rewrite ?wrap4_leg by lia; try done; try lia.
      * intros. apply IE. lia.
      * intros HL -> _. by destruct (IE ltac:(lia)).
    + destruct sw; destruct (Z.eq_dec lg 3) as [E3 |]; [rewrite (H2 E3) | | rewrite (H2 E3) |]; count_motions;
        destruct (IE ltac:(lia)) as [-> ->]; lia.
  - split; [apply av_inv_off; cbn; done |]. cbn. lia.
  - destruct a as [cfg pl re st fa lg iss ps sw se ph sd ls]. cbn in *. subst. split.
    + apply moving_inv; cbn; try done; lia.
    + destruct iss, sw; count_motions.
  - pose proof (cg_idle _ _ G) as Hi. clear G.
    destruct a as [cfg pl re st fa lg iss ps sw se ph sd ls]. cbn in *. subst. destruct (IE ltac:(lia)) as [-> ->]. split.
    + apply moving_inv; cbn; try done; lia.
    + count_motions.
  - pose proof (cg_idle _ _ G) as Hi. clear G. subst a1. clear H2. unfold straight_mm.
    assert (Hp : leg a = 3 -> pass a <> S5_PASS_PEEK /\ pass a <> S5_PASS_PEEKING) by (intros; destruct H1 as [|[(_ & ? & ?)|]]; [lia | done | lia]).
    destruct a as [cfg pl re st fa lg iss ps sw se ph sd ls]. cbn in *. subst.
    destruct ((lg =? 3) && bool_decide (ps = S5_PASS_STEP)) eqn:E3.
    + undecide. subst. rewrite (bool_decide_eq_false_2 (S5_PASS_STEP = S5_PASS_APPROACH)), bool_decide_eq_true_2 by done.
      cbn [Z.eqb Pos.eqb]. unfold S5_PEEK_STEP_MM. specialize (IP eq_refl eq_refl eq_refl).
      assert (Hu : u16 (se + 50) = se + 50) by (apply wrap_id; unfold in_u; lia). rewrite Hu. split.
      * apply moving_inv; cbn; try done; lia.
      * destruct sw; count_motions; rewrite steps_left_step; lia.
    + split.
      * apply moving_inv; cbn; try done; lia.
      * destruct (Z.eqb_spec lg 3) as [-> |]; [destruct (Hp eq_refl), ps, sw; try done; count_motions |].
        destruct sw; count_motions.
  - pose proof (cg_idle _ _ G) as Hi. clear G.
    destruct a as [cfg pl re st fa lg iss ps sw se ph sd ls]. cbn in *. subst. split.
    + apply moving_inv; cbn; try done; lia.
    + destruct sw; count_motions.
Qed.

Lemma budget_nonneg a : av_inv a -> 0 <= motion_budget a.
Proof.
  intros [IC I0 IL IE IS IA IP]. unfold motion_budget. destruct (state a) eqn:Es; try lia.
  1, 2: destruct (I0 ltac:(auto)) as (_ & _ & _ & H0 & _); unfold steps_left, S5_PEEK_STEP_MM; rewrite H0;
    unfold s5_config_typed, in_u in IC; assert (0 <= (max_depth_mm (av_config a) - 0) / 50) by (apply Z.div_pos; lia); lia.
  pose proof (steps_left_nonneg a ltac:(apply IS; done)). specialize (IL eq_refl). unfold pass_budget.
  destruct (issued a), (swapped a), (pass a); cbn [b2z]; repeat case_if; unbool; lia.
Qed.

Lemma step_budget a i : av_inv a -> let '(act, a') := s5_avoidance_step a i in
  av_inv a' /\ motion_budget a' + b2z (motion act) <= motion_budget a.
Proof.
  intros I. pose proof (budget_nonneg a I) as HB. pose proof I as [IC I0 _ _ _ _ _].
  assert (Hfail : forall reason a0, av_config a0 = av_config a -> av_inv (fail a0 reason).2 /\
    motion_budget (fail a0 reason).2 + b2z (motion (fail a0 reason).1) <= motion_budget a).
  { intros reason a0 Hc. split; [apply av_inv_off; cbn; try done; by rewrite Hc |]. cbn. lia. }
  unfold s5_avoidance_step. destruct (state a) eqn:Es; try (split; [exact I | cbn; lia]).
  all: destruct (negb (healthy i)); [by apply Hfail |]; destruct (_ <? elapsed _ (started_us a)); [by apply Hfail |]; cbv zeta.
  - destruct (1000000 <? _); [by apply Hfail |]. destruct (stopped i); [| split; [done | cbn; lia]].
    destruct (I0 ltac:(auto)) as (L0 & L1 & L2 & L3 & L4). unfold motion_budget. rewrite Es. cbn.
    split; [by constructor | unfold steps_left; cbn; lia].
  - destruct (_ <? _); [by apply Hfail |]. destruct (_ && _); [| split; [done | cbn; lia]].
    destruct (negb _); [by apply Hfail |]. destruct (s5_plan _ _) as [[] p]; cbn [negb]; [| by apply Hfail].
    destruct (I0 ltac:(auto)) as (L0 & L1 & L2 & L3 & L4). unfold s5_config_typed, in_u in IC.
    destruct a as [cfg pl re st fa lg iss ps sw se ph sd ls]. cbn in *. subst. split.
    + apply moving_inv; cbn; try done; lia.
    + cbn. unfold steps_left. cbn. lia.
  - pose proof (moved_inv a i _ _ I Es (moving_moved a i (elapsed (in_now_us i) (phase_us a)))) as (J1 & _ & J2).
    by destruct (moving_step a i _) as [act a'].
  - repeat (case_if; try (by apply Hfail); try (split; [done | cbn; lia])).
    split; [by apply av_inv_off | cbn; lia].
Qed.

Fixpoint avoidance_run (a : s5_avoidance_t) (inputs : list s5_input_t) : list s5_action_t * s5_avoidance_t :=
  match inputs with
  | [] => ([], a)
  | i :: inputs =>
      let '(act, a1) := s5_avoidance_step a i in
      let '(acts, a2) := avoidance_run a1 inputs in (act :: acts, a2)
  end.
Definition motions (acts : list s5_action_t) : Z := sumZ (map (fun act => b2z (motion act)) acts).

Lemma run_budget inputs : forall a, av_inv a ->
  motions (avoidance_run a inputs).1 <= motion_budget a.
Proof.
  induction inputs as [| i inputs IH]; intros a I; cbn [avoidance_run].
  { cbn. by apply budget_nonneg. }
  pose proof (step_budget a i I) as HS. destruct (s5_avoidance_step a i) as [act a1]. destruct HS as [I1 H1].
  specialize (IH a1 I1). destruct (avoidance_run a1 inputs) as [acts a2]. cbn [fst] in *.
  unfold motions in *. cbn. lia.
Qed.

(** C28: the bypass is bounded.  From the start of an avoidance, over any sequence
    of inputs whatever, at most 13 + max_depth/50 drives and turns are commanded:
    ten legs, one change of side, and side steps only while the searched depth
    stays within [max_depth_mm]. *)
Theorem s5_avoidance_bounded a now inputs : s5_config_typed (av_config a) ->
  motions (avoidance_run (s5_avoidance_begin a now) inputs).1 <=
    13 + max_depth_mm (av_config a) / S5_PEEK_STEP_MM.
Proof.
  intros Hc. pose proof (run_budget inputs _ (begin_inv a now Hc)) as H.
  change (motion_budget (s5_avoidance_begin a now)) with ((max_depth_mm (av_config a) - 0) / S5_PEEK_STEP_MM + 13) in H.
  rewrite Z.sub_0_r in H. lia.
Qed.

Lemma s5_defaults_typed : s5_config_typed s5_defaults.
Proof. unfold s5_config_typed, in_u. cbn. lia. Qed.
Definition bench_input : s5_input_t :=
  {| in_now_us := 1000; in_centre_m := S754_zero false; stopped := true; motion_done := false; healthy := true;
     tape := false; junction := false; line_ready := false; observation := bench_observation |}.
Lemma s5_avoidance_bounded_witness :
  motions (avoidance_run (s5_avoidance_begin (s5_avoidance_init s5_defaults) 0) [bench_input]).1 <= 23.
Proof. exact (s5_avoidance_bounded (s5_avoidance_init s5_defaults) 0 [bench_input] s5_defaults_typed). Defined.

(** ** Planner *)
Definition left_room (p : s5_profile_t) (c : s5_config_t) : Z :=
  Z.max 0 (left_edge_mm p) + half_width_mm c + margin_mm c.
Definition right_room (p : s5_profile_t) (c : s5_config_t) : Z :=
  Z.max 0 (- right_edge_mm p) + half_width_mm c + margin_mm c.

(** The bypass plan.  A valid profile (edges of 16 bits) has a plan exactly
    when the geometry is configured, the front face is 1..3000 mm ahead and at
    least one side fits within [max_offset_mm].  The planned sideways offset
    clears that side's edge by half the car plus the margin, exactly (the 12-bit
    fields do not truncate it), the left being preferred; the alternative is
    offered exactly when the other side fits too, with its exact offset. *)
Theorem s5_plan_sound p c : s5_config_typed c ->
  -32768 <= left_edge_mm p < 32768 -> -32768 <= right_edge_mm p < 32768 -> in_u 16 (forward_mm p) ->
  let '(ok, out) := s5_plan p c in
  (ok = true <-> profile_valid p = true /\ half_width_mm c <> 0 /\ margin_mm c <> 0 /\ max_depth_mm c <> 0 /\
     0 < forward_mm p <= 3000 /\ (left_room p c <= max_offset_mm c \/ right_room p c <= max_offset_mm c)) /\
  (ok = true -> plan_forward_mm out = forward_mm p /\
     if bool_decide (left_room p c <= max_offset_mm c) then
       route out = S5_ROUTE_LEFT /\ offset_mm out = left_room p c /\
       (alt_ok out = true <-> right_room p c <= max_offset_mm c) /\
       (alt_ok out = true -> alt_offset_mm out = right_room p c)
     else route out = S5_ROUTE_RIGHT /\ offset_mm out = right_room p c /\ alt_ok out = false) /\
  (ok = false -> out = zero_plan).
Proof.
  intros Hc Hl Hr Hf. unfold s5_config_typed, in_u in Hc, Hf. unfold s5_plan. cbv zeta.
  assert (EL : u32 ((if 0 <? left_edge_mm p then left_edge_mm p else 0) + (half_width_mm c + margin_mm c)) = left_room p c).
  { unfold left_room, u32. rewrite wrap_id; [| unfold in_u]; destruct (Z.ltb_spec 0 (left_edge_mm p)); lia. }
  assert (ER : u32 ((if right_edge_mm p <? 0 then - right_edge_mm p else 0) + (half_width_mm c + margin_mm c)) = right_room p c).
  { unfold right_room, u32. rewrite wrap_id; [| unfold in_u]; destruct (Z.ltb_spec (right_edge_mm p) 0); lia. }
  rewrite EL, ER. assert (0 <= left_room p c /\ 0 <= right_room p c) by (unfold left_room, right_room; lia).
  clear EL ER. set (L := left_room p c) in *. set (R := right_room p c) in *. clearbody L R.
  destruct (negb (profile_valid p) || (half_width_mm c =? 0) || (margin_mm c =? 0) || (max_depth_mm c =? 0)) eqn:E1.
  { splits; try done. split; [done |]. intros (V & H1 & H2 & H3 & _). rewrite V in E1. cbn in E1. unbool.
    repeat destruct E1 as [E1 | E1]; unbool; lia. }
  destruct ((negb (L <=? max_offset_mm c) && negb (R <=? max_offset_mm c)) || (forward_mm p =? 0) || (3000 <? forward_mm p)) eqn:E2.
  { splits; try done. split; [done |]. intros (_ & _ & _ & _ & H1 & H2). unbool.
    repeat destruct E2 as [E2 | E2]; unbool; lia. }
  unbool. change (S5_PREFER_ROUTE =? 1) with true. cbn iota. splits; [| | done].
  - split; [intros _ | done]. splits; try done; lia.
  - intros _. cbn [plan_forward_mm]. split; [apply wrap_id; unfold in_u; lia |].
    case_bool_decide as EL.
    + rewrite (proj2 (Z.leb_le _ _) EL). cbn -[wrap Z.leb]. splits; try done.
      * apply wrap_id. unfold in_u. lia.
      * apply Z.leb_le.
      * intros HR. apply Z.leb_le in HR. apply wrap_id. unfold in_u. lia.
    + assert (EL' : (L <=? max_offset_mm c) = false) by (apply Z.leb_gt; lia). rewrite EL' in *. cbn -[wrap Z.leb].
      splits; try done. apply wrap_id. unfold in_u. lia.
Qed.

Definition bench_profile : s5_profile_t :=
  {| closest_mm := 150; width_mm := 78; left_clear_mm := 1000; right_clear_mm := 1000;
     left_edge_mm := 39; right_edge_mm := -39; forward_mm := 150; profile_valid := true |}.
Lemma s5_plan_sound_witness : (s5_profile_build bench_samples s5_defaults).2 = bench_profile /\
  route (s5_plan bench_profile s5_defaults).2 = S5_ROUTE_LEFT.
Proof.
  split; [vm_compute; reflexivity |].
  pose proof (s5_plan_sound bench_profile s5_defaults s5_defaults_typed ltac:(cbn; lia) ltac:(cbn; lia)
    ltac:(unfold in_u; cbn; lia)) as H.
  destruct (s5_plan bench_profile s5_defaults) as [ok out] eqn:E. destruct H as (_ & H & _).
  assert (ok = true) as Hok by (injection E; done). exact (proj1 (proj2 (H Hok))).
Defined.

(** ** Line recovery against its history *)

(** An observation counts as contact: healthy, on tape, off junctions, in the
    corridor.  Histories are latest first. *)
Fixpoint contact_since (h : list (Z * bool)) : option Z :=
  match h with
  | (t, true) :: h => Some (default t (contact_since h))
  | _ => None
  end.
Fixpoint sustained (h : list (Z * bool)) : bool :=
  match h with
  | [] => false
  | (t, good) :: h' => sustained h' ||
      match contact_since h with Some s => 30000 <=? elapsed t s | None => false end
  end.
Definition observe_one (r : s5_recovery_t) (o : Z * (bool * bool * bool * bool)) : s5_recovery_t :=
  let '(t, (hl, tp, jn, co)) := o in (s5_recovery_observe r t hl tp jn co).2.
Definition contact (o : Z * (bool * bool * bool * bool)) : Z * bool :=
  let '(t, (hl, tp, jn, co)) := o in (t, hl && tp && negb jn && co).

Lemma recovery_state os : let r := fold_left observe_one os s5_recovery_reset in
  let h := rev (map contact os) in
  confirmed r = sustained h /\ rec_touching r = bool_decide (is_Some (contact_since h)) /\
  (forall s, contact_since h = Some s -> since_us r = s).
Proof.
  induction os as [| [t [[[hl tp] jn] co]] os IH] using rev_ind; [done |].
  rewrite fold_left_app, map_app, rev_app_distr. cbn [fold_left map rev app contact observe_one]. cbv zeta in IH.
  destruct IH as (IC & IT & IS). set (r := fold_left _ os _) in *. set (h := rev (map contact os)) in *. clearbody r h.
  unfold s5_recovery_observe. replace (negb hl || negb tp || jn || negb co) with (negb (hl && tp && negb jn && co))
    by (by destruct hl, tp, jn, co).
  destruct (hl && tp && negb jn && co); cbn [negb]; cbv zeta.
  - cbn [sustained]. change (contact_since ((t, true) :: h)) with (Some (default t (contact_since h))).
    set (r1 := if negb (rec_touching r) then _ else r).
    assert (Hs : since_us r1 = default t (contact_since h) /\ rec_touching r1 = true /\ confirmed r1 = confirmed r).
    { subst r1. rewrite IT. destruct (contact_since h) as [s |]; cbn; [| done]. rewrite IT. splits; try done. by apply IS. }
    destruct Hs as (S1 & S2 & S3). clearbody r1. rewrite S1.
    destruct (30000 <=? elapsed t (default t (contact_since h))); cbn; rewrite ?S2, ?S3, ?IC, ?orb_true_r, ?orb_false_r;
      splits; try done; rewrite S1; by intros s [= <-].
  - cbn. splits; try done. by rewrite IC, orb_false_r.
Qed.

(** Line recovery.  After any sequence of observations since a reset, the
    line is confirmed exactly when at some point contact (healthy, on tape, no
    junction, inside the corridor) had been uninterrupted for at least 30 ms;
    any interruption restarts the count. *)
Theorem s5_recovery_refines_history os :
  confirmed (fold_left observe_one os s5_recovery_reset) = sustained (rev (map contact os)).
Proof. apply recovery_state. Qed.
