(* ===== verification/Motion.v ===== *)
(** * Wheels: encoder counts, speed estimate, speed controller, motor output

    Models [subsystem2/wheel_encoder.c] (the arithmetic of the 20-bit counts; the
    PIO is not modelled), [motion_estimation.c], [speed_pid.c] and the output
    stage of [motor_control.c].  The compare levels written with [pwm_set_cc] are
    the fields [cc_a] and [cc_b] of the motor.

    The two-element arrays indexed by [wheel_id_t] are pairs with [sel]/[upd]. *)
From S2P Require Import Prelude CFloat.

Inductive wheel_id_t := WHEEL_LEFT | WHEEL_RIGHT.
#[export] Instance wheel_eq_dec : EqDecision wheel_id_t.
Proof. solve_decision. Defined.
Definition sel {A} (p : A * A) (w : wheel_id_t) : A := match w with WHEEL_LEFT => p.1 | WHEEL_RIGHT => p.2 end.
Definition upd {A} (p : A * A) (w : wheel_id_t) (v : A) : A * A :=
  match w with WHEEL_LEFT => (v, p.2) | WHEEL_RIGHT => (p.1, v) end.
Definition both {A B} (f : wheel_id_t -> A -> B) (p : A * A) : B * B := (f WHEEL_LEFT p.1, f WHEEL_RIGHT p.2).

(** ** Encoder counts: 20-bit two's complement fields *)
Definition WHEEL_COUNT_MASK : Z := 0xFFFFF.
Definition COUNT_SIGN_BIT : Z := 0x80000.
(** [bits | ~WHEEL_COUNT_MASK] read as a signed integer *)
Definition count_from_bits (bits : Z) : Z :=
  let bits := Z.land (u32 bits) WHEEL_COUNT_MASK in
  if negb (Z.land bits COUNT_SIGN_BIT =? 0) then i32 (Z.lor bits (u32 (Z.lnot WHEEL_COUNT_MASK))) else bits.
Definition wheel_encoder_bits (running inverted : bool) (last : Z) : Z :=
  if negb running then 0
  else
    let bits := u32 (0 - last) in
    Z.land (if inverted then u32 (0 - bits) else bits) WHEEL_COUNT_MASK.
Definition wheel_encoder_delta (now_bits then_bits : Z) : Z := count_from_bits (now_bits - then_bits).

(** ** Speed estimate *)
Definition SPEED_FILTER : float := flit 4 10.
Record wheel_estimate_t := { last_count : Z; est_speed_mps : float; est_accel_mps2 : float }.
Definition motion_estimation_start (bits : Z) : wheel_estimate_t :=
  {| last_count := bits; est_speed_mps := fzero; est_accel_mps2 := fzero |}.
Definition motion_estimation_update (m_per_count dt_s : float) (bits : Z * Z)
    (est : wheel_estimate_t * wheel_estimate_t) : wheel_estimate_t * wheel_estimate_t :=
  both (fun w e =>
    let count := sel bits w in
    let raw := (float_of_Z (wheel_encoder_delta count (last_count e)) * m_per_count / dt_s)%f32 in
    let prev := est_speed_mps e in
    let speed := (prev + (SPEED_FILTER * (raw - prev)))%f32 in
    {| last_count := wrap 20 count; est_speed_mps := speed; est_accel_mps2 := ((speed - prev) / dt_s)%f32 |}) est.

(** ** Speed controller *)
Definition DUTY_MAX : float := flit 1 1.
Record speed_pid_t := {
  kp : float; ki : float; kd : float; kff : float; pid_accel_mps2 : float;
  setpoint_mps : float; integral : float
}.
#[export] Instance pid_settable : Settable speed_pid_t := fun r =>
  Build_speed_pid_t (kp r) (ki r) (kd r) (kff r) (pid_accel_mps2 r) (setpoint_mps r) (integral r).
Definition speed_pid_reset (p : speed_pid_t) : speed_pid_t :=
  p <| setpoint_mps := fzero |> <| integral := fzero |>.
Definition speed_pid_init (p i d ff accel : float) : speed_pid_t :=
  {| kp := p; ki := i; kd := d; kff := ff; pid_accel_mps2 := accel; setpoint_mps := fzero; integral := fzero |}.
(** The setpoint moves toward the target by at most one ramp step. *)
Definition ramp (p : speed_pid_t) (target dt_s : float) : float :=
  let step := (pid_accel_mps2 p * dt_s)%f32 in
  if target >. (setpoint_mps p + step)%f32 then (setpoint_mps p + step)%f32
  else if target <. (setpoint_mps p - step)%f32 then (setpoint_mps p - step)%f32
  else target.
Definition clamp_duty (duty : float) : float :=
  let duty := if duty >. DUTY_MAX then DUTY_MAX else duty in
  if duty <. (-. DUTY_MAX) then -. DUTY_MAX else duty.
Definition speed_pid_update (p : speed_pid_t) (target speed accel dt_s : float) : float * speed_pid_t :=
  let p := p <| setpoint_mps := ramp p target dt_s |> in
  if (setpoint_mps p ==. fzero) && (target ==. fzero) then (fzero, speed_pid_reset p)
  else
    let error := (setpoint_mps p - speed)%f32 in
    let ff := (kff p * setpoint_mps p)%f32 in
    let deriv := ((-. kd p) * accel)%f32 in
    let integral' := (integral p + (ki p * error * dt_s))%f32 in
    let duty := (ff + (kp p * error) + integral' + deriv)%f32 in
    if ((duty >. DUTY_MAX) && (error >. fzero)) || ((duty <. (-. DUTY_MAX)) && (error <. fzero)) then
      (clamp_duty (ff + (kp p * error) + integral p + deriv)%f32, p)
    else (clamp_duty duty, p <| integral := integral' |>).

(** ** Motor output *)
Definition PWM_WRAP : Z := 12499. (** 125 MHz / 10 kHz - 1 *)
Record motor_t := { b_inverted : bool; duty : float; cc_a : Z; cc_b : Z }.
#[export] Instance motor_settable : Settable motor_t := fun r =>
  Build_motor_t (b_inverted r) (duty r) (cc_a r) (cc_b r).
Definition clamp_level (mag : float) : Z :=
  let level := u32 (trunc (mag * float_of_Z (PWM_WRAP + 1))%f32) in
  if PWM_WRAP + 1 <? level then PWM_WRAP + 1 else level.
Definition motor_control_set (m : motor_t) (d : float) : motor_t :=
  let d := if d >. flit 1 1 then flit 1 1 else d in
  let d := if d <. (-. flit 1 1) then -. flit 1 1 else d in
  let out := if b_inverted m then -. d else d in
  let mag := if out >=. fzero then out else -. out in
  let level := clamp_level mag in
  let m := m <| duty := d |> in
  if out >. fzero then m <| cc_b := 0 |> <| cc_a := level |>
  else if out <. fzero then m <| cc_a := 0 |> <| cc_b := level |>
  else m <| cc_a := 0 |> <| cc_b := 0 |>.
Definition motor_control_brake_all (ms : motor_t * motor_t) : motor_t * motor_t :=
  both (fun _ m => motor_control_set m fzero) ms.

(** Both driver inputs low. *)
Definition braked (m : motor_t) : Prop := cc_a m = 0 /\ cc_b m = 0 /\ duty m = fzero.

Lemma brake_braked ms : braked (motor_control_brake_all ms).1 /\ braked (motor_control_brake_all ms).2.
Proof. destruct ms as [[[] ? ? ?] [[] ? ? ?]]; split; vm_compute; splits; reflexivity. Qed.

(** ** Encoder differences across the wrap *)
Lemma count_from_bits_eq z : count_from_bits z = swrap 20 z.
Proof.
  unfold count_from_bits, WHEEL_COUNT_MASK, COUNT_SIGN_BIT. cbv zeta.
  change 0xFFFFF with (Z.ones 20). rewrite Z.land_ones by lia.
  assert (E : u32 z mod 2 ^ 20 = z mod 2 ^ 20).
  { unfold u32, wrap. change (2 ^ 32) with (2 ^ 20 * 2 ^ 12). rewrite Z.rem_mul_r by lia.
    rewrite Z.mul_comm, Z_mod_plus_full. apply Z.mod_mod. lia. }
  rewrite E. set (b := z mod 2 ^ 20). pose proof (Z.mod_pos_bound z (2 ^ 20) ltac:(lia)) as Hb. fold b in Hb.
  change (2 ^ 20) with 1048576 in Hb.
  assert (Hsw : swrap 20 z = if b <? 524288 then b else b - 1048576).
  { unfold swrap. change (2 ^ (20 - 1)) with 524288. change (2 ^ 20) with 1048576.
    replace ((z + 524288) mod 1048576) with ((b + 524288) mod 1048576)
      by (unfold b; change (2 ^ 20) with 1048576; rewrite Zplus_mod_idemp_l; done).
    destruct (Z.ltb_spec b 524288).
    - rewrite Z.mod_small by lia. lia.
    - replace (b + 524288) with (b - 524288 + 1 * 1048576) by lia. rewrite Z_mod_plus_full, Z.mod_small by lia. lia. }
  change 0x80000 with (2 ^ 19). rewrite Hsw.
  assert (Hbit : negb (Z.land b (2 ^ 19) =? 0) = negb (b <? 524288)).
  { destruct (Z.ltb_spec b 524288) as [Hl | Hl].
    - replace (Z.land b (2 ^ 19)) with 0; [done |]. symmetry. apply Z.bits_inj'. intros i Hi.
      rewrite Z.land_spec, Z.pow2_bits_eqb, Z.bits_0 by lia. destruct (Z.eqb_spec 19 i) as [<- |]; [| by rewrite andb_false_r].
      rewrite <- (Z.mod_small b (2 ^ 19)), Z.testbit_mod_pow2 by lia. done.
    - destruct (Z.eqb_spec (Z.land b (2 ^ 19)) 0) as [E0 |]; [| done].
      apply (f_equal (fun x => Z.testbit x 19)) in E0. rewrite Z.land_spec, Z.pow2_bits_true, Z.bits_0, andb_true_r in E0 by lia.
      replace b with (b - 524288 + 1 * 2 ^ 19) in E0 by lia.
      assert (Z.testbit (b - 524288 + 1 * 2 ^ 19) 19 = true) as Ht; [| congruence].
      rewrite Z.testbit_true by lia. rewrite Z.div_add, Z.div_small by lia. done. }
  rewrite Hbit. destruct (Z.ltb_spec b 524288); cbn [negb]; [done |].
  change (u32 (Z.lnot (Z.ones 20))) with (Z.shiftl 4095 20).
  assert (Hlor : Z.lor b (Z.shiftl 4095 20) = b + 4095 * 2 ^ 20).
  { rewrite <- Z.add_nocarry_lor, Z.shiftl_mul_pow2 by lia || (apply Z.bits_inj'; intros i Hi;
      rewrite Z.land_spec, Z.bits_0, Z.shiftl_spec by done; destruct (Z.lt_ge_cases i 20);
      [rewrite (Z.testbit_neg_r 4095) by lia; by rewrite andb_false_r |
       rewrite <- (Z.mod_small b (2 ^ 20)), Z.testbit_mod_pow2 by lia; by destruct (Z.ltb_spec i 20); [lia |]]). done. }
  rewrite Hlor. unfold i32, swrap. change (2 ^ (32 - 1)) with 2147483648. change (2 ^ 32) with 4294967296. change (2 ^ 20) with 1048576.
  replace (b + 4095 * 1048576 + 2147483648) with (b - 1048576 + 2147483648 + 1 * 4294967296) by lia.
  rewrite Z_mod_plus_full, Z.mod_small by lia. lia.
Qed.

Lemma delta_exact x y : - 2 ^ 19 <= x - y < 2 ^ 19 -> wheel_encoder_delta (wrap 20 x) (wrap 20 y) = x - y.
Proof.
  intros H. unfold wheel_encoder_delta. rewrite count_from_bits_eq.
  assert (E : swrap 20 (wrap 20 x - wrap 20 y) = swrap 20 (x - y)).
  { unfold swrap, wrap. f_equal. rewrite <- (Zplus_mod_idemp_l (x mod _ - y mod _)), Zminus_mod_idemp_l, Zminus_mod_idemp_r.
    apply Zplus_mod_idemp_l. }
  rewrite E. apply swrap_id; lia.
Qed.

(** ** Bounded outputs *)
Definition one : float := flit 1 1.
Lemma clamp_number d : isnan d = false -> let c := clamp_duty d in
  (-. one <=. c) = true /\ (c <=. one) = true /\ isnan c = false.
Proof.
  intros Hd. unfold clamp_duty, DUTY_MAX, one. cbv zeta. destruct (d >. flit 1 1) eqn:E1; [done |].
  apply not_flt in E1; [| done | done]. destruct (d <. (-. flit 1 1)) eqn:E2; [done |].
  apply not_flt in E2; [| done | done]. splits; done.
Qed.
Lemma clamp_zero : clamp_duty fzero = fzero.
Proof. reflexivity. Qed.

Lemma clamp_level_range mag : 0 <= clamp_level mag <= PWM_WRAP + 1.
Proof.
  unfold clamp_level. pose proof (u32_range (trunc (mag * float_of_Z (PWM_WRAP + 1))%f32)) as H. unfold in_u in H.
  destruct (Z.ltb_spec (PWM_WRAP + 1) (u32 (trunc (mag * float_of_Z (PWM_WRAP + 1))%f32))); unfold PWM_WRAP in *; lia.
Qed.

Definition zero_float (f : float) : bool := f ==. fzero.

Lemma motor_control_set_spec m d : let m' := motor_control_set m d in
  duty m' = clamp_duty d /\ b_inverted m' = b_inverted m /\
  0 <= cc_a m' <= 12500 /\ 0 <= cc_b m' <= 12500 /\ (cc_a m' = 0 \/ cc_b m' = 0) /\
  ((clamp_duty d >. fzero) = true -> if b_inverted m then cc_a m' = 0 else cc_b m' = 0) /\
  ((clamp_duty d <. fzero) = true -> if b_inverted m then cc_b m' = 0 else cc_a m' = 0) /\
  (zero_float d = true -> cc_a m' = 0 /\ cc_b m' = 0).
Proof.
  cbv zeta. set (c := clamp_duty d). set (out := if b_inverted m then -. c else c).
  set (level := clamp_level (if out >=. fzero then out else -. out)).
  pose proof (clamp_level_range (if out >=. fzero then out else -. out)) as HL. fold level in HL. unfold PWM_WRAP in HL.
  assert (HC : motor_control_set m d =
     m <| duty := c |> <| cc_a := if out >. fzero then level else 0 |>
       <| cc_b := if out >. fzero then 0 else if out <. fzero then level else 0 |>).
  { transitivity (if out >. fzero then m <| duty := c |> <| cc_b := 0 |> <| cc_a := level |>
      else if out <. fzero then m <| duty := c |> <| cc_a := 0 |> <| cc_b := level |>
      else m <| duty := c |> <| cc_a := 0 |> <| cc_b := 0 |>); [reflexivity |].
    destruct m. cbn. destruct (out >. fzero), (out <. fzero); done. }
  rewrite HC. cbn -[SFltb SFleb]. clearbody level. clear HC.
  splits; try done; try (destruct (out >. fzero), (out <. fzero); lia).
  - subst out. clearbody c. destruct (b_inverted m), c as [[] | [] | | [] ? ?]; done.
  - subst out. clearbody c. destruct (b_inverted m), c as [[] | [] | | [] ? ?]; done.
  - intros Hz. assert (c = d) as Hcd.
    { subst c. unfold zero_float in Hz. destruct d as [[] | [] | | [] ? ?]; done. }
    subst out. rewrite Hcd. unfold zero_float in Hz. destruct (b_inverted m), d as [[] | [] | | [] ? ?]; done.
Qed.

(** ** Theorems *)

(** Wheel counts across the wrap.  The difference of two stored 20-bit counts
    is the true difference of the counts whenever that is below 2^19 either way,
    wherever the counts are relative to the wrap. *)
Theorem wheel_encoder_delta_exact x y : - 2 ^ 19 <= x - y < 2 ^ 19 ->
  wheel_encoder_delta (wrap 20 x) (wrap 20 y) = x - y.
Proof. apply delta_exact. Qed.
Lemma wheel_encoder_delta_exact_witness :
  wrap 20 524290 = 524290 /\ wheel_encoder_delta (wrap 20 1048578) (wrap 20 1048570) = 8.
Proof. split; [reflexivity |]. apply (wheel_encoder_delta_exact 1048578 1048570). lia. Defined.

(** Motor output.  Whatever duty is requested, even out of range or not a
    number, at most one of a motor's two driver inputs is driven, its level is
    within the PWM period, a zero duty brakes (both low), and a positive (negative)
    duty never drives the backward (forward) input, with the wiring's inversion
    taken into account. *)
Theorem motor_control_set_safe m d : let m' := motor_control_set m d in
  duty m' = clamp_duty d /\ b_inverted m' = b_inverted m /\
  0 <= cc_a m' <= 12500 /\ 0 <= cc_b m' <= 12500 /\ (cc_a m' = 0 \/ cc_b m' = 0) /\
  ((clamp_duty d >. fzero) = true -> if b_inverted m then cc_a m' = 0 else cc_b m' = 0) /\
  ((clamp_duty d <. fzero) = true -> if b_inverted m then cc_b m' = 0 else cc_a m' = 0) /\
  (zero_float d = true -> cc_a m' = 0 /\ cc_b m' = 0).
Proof. apply motor_control_set_spec. Qed.

(** Speed controller.  The duty returned is within [-1, 1] unless it is not a
    number; the setpoint is the target or one ramp step from the old setpoint;
    with target and ramped setpoint both zero the duty is exactly zero and the
    controller is reset. *)
Theorem speed_pid_update_bounded p target speed accel dt_s :
  let '(d, p') := speed_pid_update p target speed accel dt_s in
  let step := (pid_accel_mps2 p * dt_s)%f32 in
  (isnan d = false -> (-. one <=. d) = true /\ (d <=. one) = true) /\
  (setpoint_mps p' = target \/ setpoint_mps p' = (setpoint_mps p + step)%f32 \/
   setpoint_mps p' = (setpoint_mps p - step)%f32 \/ setpoint_mps p' = fzero) /\
  ((ramp p target dt_s ==. fzero) = true -> (target ==. fzero) = true -> d = fzero /\ p' = speed_pid_reset p) /\
  (kp p' = kp p /\ ki p' = ki p /\ kd p' = kd p /\ kff p' = kff p /\ pid_accel_mps2 p' = pid_accel_mps2 p).
Proof.
  unfold speed_pid_update. cbv zeta. set (p1 := p <| setpoint_mps := ramp p target dt_s |>).
  change (setpoint_mps p1) with (ramp p target dt_s).
  assert (Hr : let r := ramp p target dt_s in r = target \/ r = (setpoint_mps p + pid_accel_mps2 p * dt_s)%f32 \/
    r = (setpoint_mps p - pid_accel_mps2 p * dt_s)%f32).
  { unfold ramp. cbv zeta. repeat case_if; tauto. }
  cbv zeta in Hr. destruct ((ramp p target dt_s ==. fzero) && (target ==. fzero)) eqn:Ez.
  - splits; try done. by right; right; right.
  - assert (Hc : forall d, isnan (clamp_duty d) = false -> (-. one <=. clamp_duty d) = true /\ (clamp_duty d <=. one) = true).
    { intros d Hd. destruct (isnan d) eqn:En; [| by destruct (clamp_number d En) as (? & ? & _)].
      destruct d; try done. }
    destruct (_ || _); splits; try apply Hc; try done; try (cbn; tauto); intros E1 E2; rewrite E1, E2 in Ez; done.
Qed.
