(* ===== verification/MotionController.v ===== *)
(** * Motion control statechart

    Models [subsystem2/motion_controller.c] and [motion_fault_first] of
    [motion_pack.c]: the states IDLE, VELOCITY, DRIVE, TURN, COMPLETE, FAULT, the
    requests, the control period with its feedback checks, and the reports.

    The file-static variables are the record [motion_t], together with the two
    motors it drives and the list of reports given to the sink.  What a control
    period reads from the encoder and estimation modules is the argument
    [sense_t].  [mv_back] is a pair of booleans instead of two bits. *)
From S2P Require Import Prelude CFloat Motion.

Inductive motion_state_t := MOTION_IDLE | MOTION_VELOCITY | MOTION_DRIVE | MOTION_TURN | MOTION_COMPLETE | MOTION_FAULT.
#[export] Instance motion_state_eq_dec : EqDecision motion_state_t.
Proof. solve_decision. Defined.
Inductive motion_fault_t :=
  MOTION_FAULT_NONE | MOTION_FAULT_STALL | MOTION_FAULT_STALE_COMMAND | MOTION_FAULT_ENCODER |
  MOTION_FAULT_DIRECTION | MOTION_FAULT_TIMEOUT.
#[export] Instance motion_fault_eq_dec : EqDecision motion_fault_t.
Proof. solve_decision. Defined.
Inductive motion_result_t :=
  MOTION_OK | MOTION_ERR_BUSY | MOTION_ERR_FAULT | MOTION_ERR_BAD_ARG | MOTION_ERR_NOT_CALIBRATED | MOTION_ERR_OBSOLETE.
#[export] Instance motion_result_eq_dec : EqDecision motion_result_t.
Proof. solve_decision. Defined.
Inductive motion_outcome_t := MOTION_OUTCOME_NONE | MOTION_OUTCOME_DONE | MOTION_OUTCOME_CANCELLED | MOTION_OUTCOME_FAULT.
#[export] Instance motion_outcome_eq_dec : EqDecision motion_outcome_t.
Proof. solve_decision. Defined.
Record motion_report_t := { command_id : Z; outcome : motion_outcome_t; report_fault : motion_fault_t; b_lost : bool }.

(** Fault code [n] is bit [n - 1]. *)
Definition MOTION_FAULT_BIT (f : motion_fault_t) : Z :=
  match f with
  | MOTION_FAULT_NONE => 0 | MOTION_FAULT_STALL => 1 | MOTION_FAULT_STALE_COMMAND => 2
  | MOTION_FAULT_ENCODER => 4 | MOTION_FAULT_DIRECTION => 8 | MOTION_FAULT_TIMEOUT => 16
  end.
Definition fault_of_index (i : Z) : motion_fault_t :=
  if i =? 0 then MOTION_FAULT_STALL else if i =? 1 then MOTION_FAULT_STALE_COMMAND
  else if i =? 2 then MOTION_FAULT_ENCODER else if i =? 3 then MOTION_FAULT_DIRECTION else MOTION_FAULT_TIMEOUT.
Definition motion_fault_first (bits : Z) : motion_fault_t :=
  match find (fun i => negb (Z.land (Z.shiftr bits i) 1 =? 0)) (range 5) with
  | Some i => fault_of_index i
  | None => MOTION_FAULT_NONE
  end.

(** ** Constants *)
Definition SPEED_KP_N : float := flit 32 10.
Definition SPEED_KI_N : float := flit 5 1.
Definition SPEED_KD_N : float := fzero.
Definition SYNC_GAIN : float := flit 4 1.
Definition ACCEL_MPS2 : float := flit 15 10.
Definition DECEL_MPS2 : float := flit 6 10.
Definition MIN_SPEED_MPS : float := flit 4 100.
Definition CRAWL_DIST_M : float := flit 8 1000.
Definition SPEED_LIMIT_FRACTION : float := flit 9 10.
Definition VELOCITY_TIMEOUT_US : Z := 250000.
Definition STALL_TIMEOUT_MS : Z := 600.
Definition STALL_MIN_PROGRESS : Z := 2.
Definition DIRECTION_FAULT_MS : Z := 300.
Definition ENCODER_GLITCH_LIMIT : Z := 25.
Definition RESET_STILL_MS : Z := 200.
Definition STOPPED_STILL_MS : Z := 100.
Definition CMD_ACTIVE_MPS : float := flit 2 100.
Definition DIRECTION_MIN_MPS : float := flit 5 100.
Definition STILL_SPEED_MPS : float := flit 1 100.
Definition STILL_MS_MAX : Z := 60000.
Definition TIMEOUT_FACTOR : float := flit 3 1.
Definition TIMEOUT_MARGIN_S : float := flit 2 1.
Definition MOVE_TIME_MAX_S : float := flit 600 1.
Definition STALL_MS_MAX : Z := 1023.
Definition WRONG_MS_MAX : Z := 511.
Definition GLITCH_SEEN_MASK : Z := 255.

(** ** State *)
Record wheel_ctrl_t := {
  pid : speed_pid_t; stall_ref : Z; stall_ms : Z; wrong_ms : Z; glitch_seen : Z; glitch_bucket : Z
}.
#[export] Instance wheel_ctrl_settable : Settable wheel_ctrl_t := fun r =>
  Build_wheel_ctrl_t (pid r) (stall_ref r) (stall_ms r) (wrong_ms r) (glitch_seen r) (glitch_bucket r).

Record motion_t := {
  wheels : wheel_ctrl_t * wheel_ctrl_t;
  m_state : motion_state_t; fault_bits : Z; cmd_id : Z; b_busy : bool; b_brake_pending : bool;
  b_mv_turn : bool; mv_back : bool * bool;
  still_ms : Z; max_speed_mps : float; lead_drive_m : float; lead_turn_m : float;
  vel_target : float * float; vel_stamp_us : Z;
  mv_start : Z * Z; mv_dist_m : float; mv_speed_mps : float; mv_deadline_us : Z;
  motors : motor_t * motor_t; has_sink : bool; reports : list motion_report_t
}.
#[export] Instance motion_settable : Settable motion_t := fun r =>
  Build_motion_t (wheels r) (m_state r) (fault_bits r) (cmd_id r) (b_busy r) (b_brake_pending r) (b_mv_turn r)
    (mv_back r) (still_ms r) (max_speed_mps r) (lead_drive_m r) (lead_turn_m r) (vel_target r) (vel_stamp_us r)
    (mv_start r) (mv_dist_m r) (mv_speed_mps r) (mv_deadline_us r) (motors r) (has_sink r) (reports r).

(** What the encoder and estimation modules return during one call. *)
Record sense_t := {
  enc_bits : Z * Z; enc_glitches : Z * Z; est_speed : float * float; est_accel : float * float; scale : float
}.

(** ** Helpers *)
Definition abs_f (x : float) : float := if x <. fzero then -. x else x.
Definition min_f (a b : float) : float := if a <. b then a else b.
Definition max_f (a b : float) : float := if a >. b then a else b.
Fixpoint newton (n : nat) (x guess : float) : float :=
  match n with
  | O => guess
  | S n => newton n x (flit 1 2 * (guess + (x / guess)))%f32
  end.
Definition sqrt_f (x : float) : float :=
  if x <=. fzero then fzero else newton 12 x (if x >. flit 1 1 then x else flit 1 1).
Definition add_ms (ms dt_ms max_ms : Z) : Z := if dt_ms <? max_ms - ms then ms + dt_ms else max_ms.
Definition time_after (now deadline : Z) : bool := later now deadline.
Definition is_active (s : motion_state_t) : bool :=
  match s with MOTION_VELOCITY | MOTION_DRIVE | MOTION_TURN => true | _ => false end.
Definition mv_sign (m : motion_t) (w : wheel_id_t) : float := if sel (mv_back m) w then -. flit 1 1 else flit 1 1.
Definition speed_cap (m : motion_t) : float := (SPEED_LIMIT_FRACTION * max_speed_mps m)%f32.

Definition set_state (m : motion_t) (s : motion_state_t) : motion_t := m <| m_state := s |>.
Definition outputs_safe (m : motion_t) : motion_t :=
  m <| motors := motor_control_brake_all (motors m) |> <| b_brake_pending := false |>
    <| wheels := both (fun _ w => w <| pid := speed_pid_reset (pid w) |>) (wheels m) |>.
Definition new_command (m : motion_t) : motion_t :=
  let id := wrap 8 (cmd_id m + 1) in m <| cmd_id := if id =? 0 then 1 else id |>.
Definition report (m : motion_t) (o : motion_outcome_t) (f : motion_fault_t) : motion_t :=
  if has_sink m then
    m <| reports := reports m ++ [{| command_id := u8 (cmd_id m); outcome := o; report_fault := f; b_lost := false |}] |>
  else m.
Definition raise_faults (m : motion_t) (bits : Z) : motion_t :=
  let m := outputs_safe m in
  let m := m <| fault_bits := wrap 5 (Z.lor (fault_bits m) bits) |> in
  report (set_state m MOTION_FAULT) MOTION_OUTCOME_FAULT (motion_fault_first (u8 bits)).
Definition raise_fault (m : motion_t) (f : motion_fault_t) : motion_t := raise_faults m (MOTION_FAULT_BIT f).
Definition complete (m : motion_t) : motion_t :=
  report (set_state m MOTION_COMPLETE) MOTION_OUTCOME_DONE MOTION_FAULT_NONE.
Definition clear_checks (m : motion_t) (bits : Z * Z) : motion_t :=
  m <| wheels := both (fun w c => c <| stall_ref := wrap 20 (sel bits w) |> <| stall_ms := 0 |> <| wrong_ms := 0 |>)
                      (wheels m) |>.
Definition wheel_drive (m : motion_t) (s : sense_t) (w : wheel_id_t) (target dt_s : float) : motion_t :=
  let c := sel (wheels m) w in
  let '(d, p) := speed_pid_update (pid c) target (sel (est_speed s) w) (sel (est_accel s) w) dt_s in
  m <| wheels := upd (wheels m) w (c <| pid := p |>) |>
    <| motors := upd (motors m) w (motor_control_set (sel (motors m) w) d) |>.

Definition check_stall (c : wheel_ctrl_t) (count : Z) (dt_ms : Z) : wheel_ctrl_t :=
  if (abs_f (setpoint_mps (pid c)) <. CMD_ACTIVE_MPS) ||
     (STALL_MIN_PROGRESS <=? Z.abs (wheel_encoder_delta count (stall_ref c))) then
    c <| stall_ref := wrap 20 count |> <| stall_ms := 0 |>
  else c <| stall_ms := add_ms (stall_ms c) dt_ms STALL_MS_MAX |>.
Definition check_direction (c : wheel_ctrl_t) (speed : float) (dt_ms : Z) : wheel_ctrl_t :=
  let cmd := setpoint_mps (pid c) in
  if (abs_f cmd >. DIRECTION_MIN_MPS) && (abs_f speed >. DIRECTION_MIN_MPS) &&
     xorb (cmd >. fzero) (speed >. fzero) then
    c <| wrong_ms := add_ms (wrong_ms c) dt_ms WRONG_MS_MAX |>
  else c <| wrong_ms := 0 |>.
Definition wheel_check (m : motion_t) (s : sense_t) (w : wheel_id_t) (dt_ms : Z) : motion_fault_t * motion_t :=
  let c := check_stall (sel (wheels m) w) (sel (enc_bits s) w) dt_ms in
  let c := check_direction c (sel (est_speed s) w) dt_ms in
  let m := m <| wheels := upd (wheels m) w c |> in
  (if STALL_TIMEOUT_MS <=? stall_ms c then MOTION_FAULT_STALL
   else if DIRECTION_FAULT_MS <=? wrong_ms c then MOTION_FAULT_DIRECTION
   else if ENCODER_GLITCH_LIMIT <? glitch_bucket c then MOTION_FAULT_ENCODER
   else MOTION_FAULT_NONE, m).

Definition track_glitches (m : motion_t) (s : sense_t) : motion_t :=
  m <| wheels := both (fun w c =>
    let seen := sel (enc_glitches s) w in
    let bucket := glitch_bucket c + Z.land (u32 (seen - glitch_seen c)) GLITCH_SEEN_MASK in
    let bucket := if 2 * ENCODER_GLITCH_LIMIT <? bucket then 2 * ENCODER_GLITCH_LIMIT else bucket in
    let bucket := if 0 <? bucket then bucket - 1 else bucket in
    c <| glitch_seen := Z.land seen GLITCH_SEEN_MASK |> <| glitch_bucket := wrap 6 bucket |>) (wheels m) |>.

Definition move_wheel_progress (m : motion_t) (s : sense_t) (w : wheel_id_t) : float :=
  (mv_sign m w * float_of_Z (wheel_encoder_delta (sel (enc_bits s) w) (sel (mv_start m) w)) * scale s)%f32.
Definition move_step (m : motion_t) (s : sense_t) (dt_s : float) : bool * motion_t :=
  let lead := if b_mv_turn m then lead_turn_m m else lead_drive_m m in
  let dl := move_wheel_progress m s WHEEL_LEFT in
  let dr := move_wheel_progress m s WHEEL_RIGHT in
  let to_brake := (mv_dist_m m - lead - (flit 1 2 * (dl + dr)))%f32 in
  let crawl := min_f (mv_speed_mps m) MIN_SPEED_MPS in
  if to_brake <=. fzero then (true, m)
  else
    let v := sqrt_f (flit 2 1 * DECEL_MPS2 * max_f (to_brake - CRAWL_DIST_M) fzero)%f32 in
    let v := max_f (min_f v (mv_speed_mps m)) crawl in
    let corr := (SYNC_GAIN * (dl - dr))%f32 in
    let corr := max_f (min_f corr v) (-. v) in
    let m := wheel_drive m s WHEEL_LEFT (mv_sign m WHEEL_LEFT * max_f (v - corr) fzero)%f32 dt_s in
    let m := wheel_drive m s WHEEL_RIGHT (mv_sign m WHEEL_RIGHT * max_f (v + corr) fzero)%f32 dt_s in
    (false, m).

(** ** Interface *)
Definition motion_controller_init (m : motion_t) (s : sense_t) (max_speed lead_drive lead_turn : float) (sink : bool)
  : motion_t :=
  let m := m <| max_speed_mps := if max_speed >. fzero then max_speed else flit 1 1 |>
             <| lead_drive_m := lead_drive |> <| lead_turn_m := lead_turn |> <| has_sink := sink |> in
  let ff := (flit 1 1 / max_speed_mps m)%f32 in
  let m := m <| wheels := both (fun w c =>
      c <| pid := speed_pid_init (SPEED_KP_N * ff)%f32 (SPEED_KI_N * ff)%f32 (SPEED_KD_N * ff)%f32 ff ACCEL_MPS2 |>
        <| glitch_seen := Z.land (sel (enc_glitches s) w) GLITCH_SEEN_MASK |> <| glitch_bucket := 0 |>) (wheels m) |>
    <| vel_target := (fzero, fzero) |> in
  let m := set_state (clear_checks m (enc_bits s)) MOTION_IDLE in
  outputs_safe (m <| fault_bits := 0 |>).

Definition track_still (m : motion_t) (s : sense_t) (dt_ms : Z) : motion_t :=
  if (abs_f (sel (est_speed s) WHEEL_LEFT) <. STILL_SPEED_MPS) &&
     (abs_f (sel (est_speed s) WHEEL_RIGHT) <. STILL_SPEED_MPS) then
    if still_ms m <? STILL_MS_MAX then m <| still_ms := u16 (still_ms m + dt_ms) |> else m
  else m <| still_ms := 0 |>.
(** The checks after an active state's drive; a fault wins over completion. *)
Definition active_checks (m : motion_t) (s : sense_t) (dt_ms : Z) (done : bool) : motion_t :=
  let '(fault_l, m) := wheel_check m s WHEEL_LEFT dt_ms in
  let '(fault_r, m) := wheel_check m s WHEEL_RIGHT dt_ms in
  if negb (bool_decide (fault_l = MOTION_FAULT_NONE)) || negb (bool_decide (fault_r = MOTION_FAULT_NONE)) then
    raise_faults m (Z.lor (MOTION_FAULT_BIT fault_l) (MOTION_FAULT_BIT fault_r))
  else if done then complete (outputs_safe m)
  else m.
Definition step_ms (dt_s : float) : Z := u32 (trunc ((dt_s * flit 1000 1) + flit 1 2)%f32).
Definition motion_controller_step (m : motion_t) (s : sense_t) (dt_s : float) (now_us : Z) : motion_t :=
  let dt_ms := step_ms dt_s in
  let m := track_still (track_glitches m s) s dt_ms in
  if b_busy m then m
  else match m_state m with
  | MOTION_VELOCITY =>
      if time_after now_us (u32 (vel_stamp_us m + VELOCITY_TIMEOUT_US)) then raise_fault m MOTION_FAULT_STALE_COMMAND
      else
        let m := wheel_drive m s WHEEL_LEFT (sel (vel_target m) WHEEL_LEFT) dt_s in
        let m := wheel_drive m s WHEEL_RIGHT (sel (vel_target m) WHEEL_RIGHT) dt_s in
        active_checks m s dt_ms false
  | MOTION_DRIVE | MOTION_TURN =>
      if time_after now_us (mv_deadline_us m) then raise_fault m MOTION_FAULT_TIMEOUT
      else let '(done, m) := move_step m s dt_s in active_checks m s dt_ms done
  | _ => outputs_safe m
  end.
Definition motion_controller_make_safe (m : motion_t) : motion_t :=
  if negb (is_active (m_state m)) && negb (b_busy m) then outputs_safe m else m.

Definition clamp_target (v cap : float) : float := max_f (min_f v cap) (-. cap).
Definition motion_controller_request_velocity (m : motion_t) (s : sense_t) (left right : float) (now_us : Z)
  : motion_result_t * motion_t :=
  let cap := speed_cap m in
  if bool_decide (m_state m = MOTION_FAULT) then (MOTION_ERR_FAULT, m)
  else if b_busy m || b_brake_pending m ||
    (negb (bool_decide (m_state m = MOTION_IDLE)) && negb (bool_decide (m_state m = MOTION_VELOCITY)))
  then (MOTION_ERR_BUSY, m)
  else
    let m := m <| vel_target := (clamp_target left cap, clamp_target right cap) |> <| vel_stamp_us := now_us |> in
    (MOTION_OK, if bool_decide (m_state m = MOTION_IDLE)
                then set_state (clear_checks (new_command m) (enc_bits s)) MOTION_VELOCITY else m).

Definition motion_controller_request_move (m : motion_t) (s : sense_t) (kind : motion_state_t)
    (sign_left sign_right : Z) (dist_m speed_mps : float) (now_us : Z) : motion_result_t * motion_t :=
  let speed := min_f speed_mps (speed_cap m) in
  let allowed_s := (((dist_m / speed) * TIMEOUT_FACTOR) + TIMEOUT_MARGIN_S)%f32 in
  if bool_decide (m_state m = MOTION_FAULT) then (MOTION_ERR_FAULT, m)
  else if b_busy m || b_brake_pending m || negb (bool_decide (m_state m = MOTION_IDLE)) then (MOTION_ERR_BUSY, m)
  else if negb (dist_m >=. fzero) || negb (speed >. fzero) || negb (allowed_s <=. MOVE_TIME_MAX_S)
  then (MOTION_ERR_BAD_ARG, m)
  else
    let m := m <| b_mv_turn := bool_decide (kind = MOTION_TURN) |>
      <| mv_back := (sign_left <? 0, sign_right <? 0) |>
      <| mv_start := (wrap 20 (sel (enc_bits s) WHEEL_LEFT), wrap 20 (sel (enc_bits s) WHEEL_RIGHT)) |>
      <| mv_dist_m := dist_m |> <| mv_speed_mps := speed |>
      <| mv_deadline_us := u32 (now_us + u32 (trunc (allowed_s * flit 1000000 1)%f32)) |> in
    let m := set_state (new_command (clear_checks m (enc_bits s))) kind in
    (MOTION_OK, if dist_m <=. fzero then complete m else m).

Definition motion_controller_navigation_timeout (m : motion_t) : motion_t := raise_fault m MOTION_FAULT_STALE_COMMAND.
Definition motion_controller_stop (m : motion_t) : motion_t :=
  let m := if is_active (m_state m) then
      report m MOTION_OUTCOME_CANCELLED MOTION_FAULT_NONE <| b_brake_pending := true |> else m in
  if bool_decide (m_state m = MOTION_FAULT) then m else set_state m MOTION_IDLE.
Definition motion_controller_cancel (m : motion_t) (id : Z) : motion_result_t * motion_t :=
  if bool_decide (m_state m = MOTION_FAULT) then (MOTION_ERR_FAULT, m)
  else if (id =? 0) || negb (id =? cmd_id m) || negb (is_active (m_state m)) then (MOTION_ERR_OBSOLETE, m)
  else (MOTION_OK, motion_controller_stop m).
Definition motion_controller_reset (m : motion_t) : bool * motion_t :=
  if negb (bool_decide (m_state m = MOTION_FAULT)) then (true, m)
  else if (RESET_STILL_MS <=? still_ms m) &&
    (glitch_bucket (sel (wheels m) WHEEL_LEFT) <=? ENCODER_GLITCH_LIMIT / 2) &&
    (glitch_bucket (sel (wheels m) WHEEL_RIGHT) <=? ENCODER_GLITCH_LIMIT / 2)
  then (true, set_state (m <| fault_bits := 0 |>) MOTION_IDLE)
  else (false, m).
Definition motion_controller_poll (m : motion_t) : motion_state_t * motion_t :=
  (m_state m, if bool_decide (m_state m = MOTION_COMPLETE) then set_state m MOTION_IDLE else m).
Definition motion_controller_ack_complete (m : motion_t) (id : Z) : motion_t :=
  if bool_decide (m_state m = MOTION_COMPLETE) && (id =? cmd_id m) then set_state m MOTION_IDLE else m.
Definition motion_controller_is_stopped (m : motion_t) : bool :=
  negb (is_active (m_state m)) && negb (b_busy m) && negb (b_brake_pending m) && (STOPPED_STILL_MS <=? still_ms m).
Definition motion_controller_fault (m : motion_t) : motion_fault_t := motion_fault_first (u8 (fault_bits m)).
Definition motion_controller_set_busy (m : motion_t) (b : bool) : motion_t := m <| b_busy := b |>.
