(* ===== verification/MotionSafety.v ===== *)
(** * Motion control: reachable states

    The calls of [motion_controller.c] as operations of a transition system, the
    invariant of its reachable states, and the accounting of commands and
    reports.  The calibration, which drives the motors itself while it holds the
    controller, is three operations of the system: it takes the controller, sets the
    motors as it likes, and gives the controller back after braking both. *)
From S2P Require Import Prelude CFloat Motion MotionController.

Inductive motion_op :=
| MoStep (s : sense_t) (dt_s : float) (now_us : Z)
| MoMakeSafe
| MoVelocity (s : sense_t) (left right : float) (now_us : Z)
| MoDrive (s : sense_t) (sign : Z) (dist speed : float) (now_us : Z)
| MoTurn (s : sense_t) (sign_left : Z) (dist speed : float) (now_us : Z)
| MoStop
| MoCancel (id : Z)
| MoReset
| MoPoll
| MoAck (id : Z)
| MoBusy
| MoMotor (w : wheel_id_t) (d : float)
| MoRelease
| MoNavigationTimeout.

Definition motion_run (m : motion_t) (op : motion_op) : motion_t :=
  match op with
  | MoStep s dt now => motion_controller_step m s dt now
  | MoMakeSafe => motion_controller_make_safe m
  | MoVelocity s l r now => (motion_controller_request_velocity m s l r now).2
  | MoDrive s sg d v now => (motion_controller_request_move m s MOTION_DRIVE sg sg d v now).2
  | MoTurn s sg d v now => (motion_controller_request_move m s MOTION_TURN sg (- sg) d v now).2
  | MoStop => motion_controller_stop m
  | MoCancel id => (motion_controller_cancel m id).2
  | MoReset => (motion_controller_reset m).2
  | MoPoll => (motion_controller_poll m).2
  | MoAck id => motion_controller_ack_complete m id
  | MoBusy => motion_controller_set_busy m true
  | MoMotor w d => if b_busy m then m <| motors := upd (motors m) w (motor_control_set (sel (motors m) w) d) |> else m
  | MoRelease => motion_controller_set_busy (m <| motors := motor_control_brake_all (motors m) |>) false
  | MoNavigationTimeout => motion_controller_navigation_timeout m
  end.
(** The operation starts a new command. *)
Definition accepts (m : motion_t) (op : motion_op) : bool :=
  match op with
  | MoVelocity s l r now => bool_decide ((motion_controller_request_velocity m s l r now).1 = MOTION_OK) &&
      bool_decide (m_state m = MOTION_IDLE)
  | MoDrive s sg d v now => bool_decide ((motion_controller_request_move m s MOTION_DRIVE sg sg d v now).1 = MOTION_OK)
  | MoTurn s sg d v now => bool_decide ((motion_controller_request_move m s MOTION_TURN sg (- sg) d v now).1 = MOTION_OK)
  | _ => false
  end.

Definition quiet (m : motion_t) : Prop := braked (motors m).1 /\ braked (motors m).2.

(** The report that a command has completed. *)
Definition done_report (m : motion_t) : motion_report_t :=
  {| command_id := cmd_id m; outcome := MOTION_OUTCOME_DONE; report_fault := MOTION_FAULT_NONE; b_lost := false |}.
Record motion_inv (m : motion_t) : Prop := {
  mi_fault : in_u 5 (fault_bits m) /\ (m_state m = MOTION_FAULT <-> fault_bits m <> 0);
  mi_quiet : is_active (m_state m) = false -> b_busy m = true \/ b_brake_pending m = true \/ quiet m;
  mi_id : in_u 8 (cmd_id m) /\ (m_state m <> MOTION_IDLE -> m_state m <> MOTION_FAULT -> cmd_id m <> 0);
  mi_sink : has_sink m = true;
  mi_done : m_state m = MOTION_COMPLETE -> exists rs, reports m = rs ++ [done_report m]
}.

(** The part of the state that decides the statechart. *)
Definition chart (m : motion_t) := (m_state m, fault_bits m, cmd_id m, b_brake_pending m, has_sink m, reports m).

Lemma track_chart m s dt : let m' := track_still (track_glitches m s) s dt in
  chart m' = chart m /\ motors m' = motors m /\ b_busy m' = b_busy m /\ vel_stamp_us m' = vel_stamp_us m /\
  mv_deadline_us m' = mv_deadline_us m.
Proof. cbv zeta. unfold track_still. repeat case_if; splits; done. Qed.

Lemma wheel_drive_chart m s w t dt : chart (wheel_drive m s w t dt) = chart m.
Proof. unfold wheel_drive. by destruct (speed_pid_update _ _ _ _ _). Qed.

Lemma outputs_safe_spec m : let m' := outputs_safe m in
  quiet m' /\ m_state m' = m_state m /\ fault_bits m' = fault_bits m /\ cmd_id m' = cmd_id m /\
  has_sink m' = has_sink m /\ reports m' = reports m.
Proof. cbv zeta. splits; try done; apply brake_braked. Qed.

Lemma fault_bit_range f : in_u 5 (MOTION_FAULT_BIT f) /\ (MOTION_FAULT_BIT f = 0 <-> f = MOTION_FAULT_NONE).
Proof. destruct f; unfold in_u; cbn; split; try lia; split; done. Qed.

Lemma or_bits a b : in_u 5 a -> in_u 5 b -> in_u 5 (Z.lor a b) /\ (Z.lor a b = 0 <-> a = 0 /\ b = 0).
Proof.
  intros Ha Hb. split; [| apply Z.lor_eq_0_iff]. assert (0 <= a < 0 + 32) as Ha' by exact Ha.
  unfold in_u in *. change (2 ^ 5) with 32 in *. split; [apply Z.lor_nonneg; lia |].
  assert (forall z, 0 <= z < 32 -> Z.log2 z < 5) as Hlog.
  { intros z Hz. destruct (Z.eq_dec z 0) as [-> |]; [cbn; lia |].
    apply (proj1 (Z.log2_lt_pow2 z 5 ltac:(lia))). lia. }
  apply (Z.log2_lt_cancel _ 32). rewrite Z.log2_lor by lia. change (Z.log2 32) with 5.
  apply Z.max_lub_lt; apply Hlog; lia.
Qed.

(** Entering FAULT: braked, latched, and exactly one report. *)
Lemma raise_faults_spec m bits : has_sink m = true -> in_u 5 (fault_bits m) -> in_u 5 bits -> bits <> 0 ->
  let m' := raise_faults m bits in
  quiet m' /\ m_state m' = MOTION_FAULT /\ in_u 5 (fault_bits m') /\ fault_bits m' <> 0 /\ cmd_id m' = cmd_id m /\
  has_sink m' = true /\ b_brake_pending m' = false /\
  reports m' = reports m ++ [{| command_id := u8 (cmd_id m); outcome := MOTION_OUTCOME_FAULT;
    report_fault := motion_fault_first (u8 bits); b_lost := false |}].
Proof.
  intros Hs Hf Hb Hn. destruct (or_bits _ _ Hf Hb) as [H1 H2]. cbv zeta. unfold raise_faults, report. cbn -[wrap Z.lor].
  rewrite Hs. cbn -[wrap Z.lor]. rewrite wrap_id by exact H1. splits; try done; try apply brake_braked.
  rewrite H2. intros [_ ?]. done.
Qed.

(** The id after [id]: 1 to 255, then 1 again. *)
Definition next_id (id : Z) : Z := if id =? 255 then 1 else id + 1.
Lemma next_id_range id : in_u 8 id -> in_u 8 (next_id id) /\ next_id id <> 0 /\
  (if wrap 8 (id + 1) =? 0 then 1 else wrap 8 (id + 1)) = next_id id.
Proof.
  unfold in_u, next_id, wrap. change (2 ^ 8) with 256. intros H. destruct (Z.eqb_spec id 255) as [-> |]; [done |].
  rewrite Z.mod_small by lia. destruct (Z.eqb_spec (id + 1) 0); lia.
Qed.
(** How a command ended, told by the state it left the controller in. *)
Definition outcome_in (s : motion_state_t) : motion_outcome_t :=
  match s with
  | MOTION_COMPLETE => MOTION_OUTCOME_DONE
  | MOTION_FAULT => MOTION_OUTCOME_FAULT
  | _ => MOTION_OUTCOME_CANCELLED
  end.
(** The command that ended in a call, if one did: [m] and [m'] are the states before
    and after, [st] whether the call started a command. *)
Definition closing (m m' : motion_t) (st : bool) : list (Z * motion_outcome_t) :=
  if (is_active (m_state m) || st) && negb (is_active (m_state m')) then [(cmd_id m', outcome_in (m_state m'))] else [].
Definition entry (r : motion_report_t) : Z * motion_outcome_t := (command_id r, outcome r).
(** A report names a fault, one of those latched, exactly when its outcome is FAULT. *)
Definition report_sound (bits : Z) (r : motion_report_t) : Prop :=
  b_lost r = false /\ (outcome r = MOTION_OUTCOME_FAULT <-> report_fault r <> MOTION_FAULT_NONE) /\
  (outcome r = MOTION_OUTCOME_FAULT -> Z.land bits (MOTION_FAULT_BIT (report_fault r)) = MOTION_FAULT_BIT (report_fault r)).

(** The call keeps the invariant and the books; [st]: it started a command. *)
Record keeps (m m' : motion_t) (st : bool) : Prop := {
  kp_inv : motion_inv m';
  kp_id : cmd_id m' = if st then next_id (cmd_id m) else cmd_id m;
  kp_idle : st = true -> is_active (m_state m) = false;
  kp_active : is_active (m_state m') = true -> is_active (m_state m) = true \/ st = true;
  kp_reports : exists l, reports m' = reports m ++ l /\ map entry l = closing m m' st /\ Forall (report_sound (fault_bits m')) l
}.
Lemma keeps_silent m m' : motion_inv m' -> cmd_id m' = cmd_id m -> is_active (m_state m') = is_active (m_state m) ->
  reports m' = reports m -> keeps m m' false.
Proof.
  intros I D A R. constructor; try done; [rewrite A; auto |]. exists []. rewrite app_nil_r. splits; [done | | constructor].
  unfold closing. rewrite A. by destruct (is_active (m_state m)).
Qed.
Lemma keeps_closed m m' r (st : bool) : motion_inv m' -> cmd_id m' = (if st then next_id (cmd_id m) else cmd_id m) ->
  (st = true -> is_active (m_state m) = false) -> is_active (m_state m) || st = true -> is_active (m_state m') = false ->
  reports m' = reports m ++ [r] -> entry r = (cmd_id m', outcome_in (m_state m')) -> report_sound (fault_bits m') r -> keeps m m' st.
Proof.
  intros I D S A A' R E F. constructor; try done; [by rewrite A' |]. exists [r]. splits; [done | | constructor; [exact F | constructor]].
  unfold closing. rewrite A, A'. cbn. by rewrite E.
Qed.

Lemma keeps_same m m' : motion_inv m -> chart m' = chart m ->
  (is_active (m_state m) = false -> b_busy m' = b_busy m /\ (quiet m -> quiet m')) -> keeps m m' false.
Proof.
  intros [I1 I2 I3 I4 I5]. unfold chart. intros [= E1 E2 E3 E4 E5 E6] HQ. apply keeps_silent; try congruence.
  constructor; unfold done_report; rewrite ?E1, ?E2, ?E3, ?E4, ?E5, ?E6; try done. intros Ha. destruct (HQ Ha) as [-> Q].
  destruct (I2 Ha) as [? | [? | ?]]; auto.
Qed.

(** The first fault of some bits is one of them. *)
Lemma first_fault bits : in_u 5 bits -> bits <> 0 -> let f := motion_fault_first (u8 bits) in
  f <> MOTION_FAULT_NONE /\ forall old, in_u 5 old -> Z.land (wrap 5 (Z.lor old bits)) (MOTION_FAULT_BIT f) = MOTION_FAULT_BIT f.
Proof.
  intros Hb Hn. unfold in_u in Hb. change (2 ^ 5) with 32 in Hb.
  assert (F : forall b, b ∈ map Z.of_nat (seq 1 31) -> let f := motion_fault_first (u8 b) in
    f <> MOTION_FAULT_NONE /\ Z.land b (MOTION_FAULT_BIT f) = MOTION_FAULT_BIT f /\ 0 <= MOTION_FAULT_BIT f < 32).
  { apply Forall_forall. apply (bool_decide_unpack _). vm_compute. exact I. }
  destruct (F bits) as (F1 & F2 & F3).
  { apply list_elem_of_In, in_map_iff. exists (Z.to_nat bits). split; [lia |]. apply in_seq. lia. }
  cbv zeta. split; [done |]. intros old Ho. set (f := MOTION_FAULT_BIT _) in *. destruct (or_bits old bits Ho Hb) as [B _].
  rewrite wrap_id by exact B. rewrite Z.land_lor_distr_l, F2. apply Z.bits_inj'. intros i Hi.
  rewrite Z.lor_spec, Z.land_spec. by destruct (Z.testbit old i), (Z.testbit f i).
Qed.
Lemma keeps_fault m m1 bits : motion_inv m -> chart m1 = chart m -> in_u 5 bits -> bits <> 0 ->
  is_active (m_state m) = true -> keeps m (raise_faults m1 bits) false.
Proof.
  intros [[I1 I1'] I2 [I3 I3'] I4 I5] HC Hb Hn Ha. unfold chart in HC. injection HC as E1 E2 E3 E4 E5 E6.
  destruct (raise_faults_spec m1 bits ltac:(congruence) ltac:(congruence) Hb Hn) as (Q & S & F1 & F2 & Id & Sk & _ & R).
  destruct (first_fault bits Hb Hn) as [N L]. apply (keeps_closed _ _ {| command_id := u8 (cmd_id m1); outcome := MOTION_OUTCOME_FAULT;
    report_fault := motion_fault_first (u8 bits); b_lost := false |}); rewrite ?Ha, ?S; try done; try congruence.
  - constructor; try done; rewrite ?S; try done; [by right; right |]. rewrite Id, E3. done.
  - rewrite Id, E3. unfold entry. cbn [command_id outcome outcome_in]. f_equal. by apply wrap_id.
  - split; [done |]. split; [by split |]. intros _. cbn [report_fault]. unfold raise_faults, report. cbn -[wrap Z.lor Z.land motion_fault_first u8 MOTION_FAULT_BIT].
    destruct (has_sink m1); cbn -[wrap Z.lor Z.land motion_fault_first u8 MOTION_FAULT_BIT]; apply L; congruence.
Qed.

Lemma complete_spec m : has_sink m = true -> in_u 8 (cmd_id m) -> let m' := complete m in
  m_state m' = MOTION_COMPLETE /\ motors m' = motors m /\ fault_bits m' = fault_bits m /\ cmd_id m' = cmd_id m /\
  has_sink m' = true /\ b_brake_pending m' = b_brake_pending m /\ b_busy m' = b_busy m /\
  reports m' = reports m ++ [done_report m'].
Proof.
  intros Hs Hi. cbv zeta. unfold complete, report, done_report. cbn. rewrite Hs. cbn. splits; try done. do 3 f_equal. by apply wrap_id.
Qed.
Lemma done_sound m bits : report_sound bits (done_report m).
Proof. by splits. Qed.

Lemma keeps_done m m1 : motion_inv m -> chart m1 = chart m -> is_active (m_state m) = true ->
  keeps m (complete (outputs_safe m1)) false.
Proof.
  intros [[I1 I1'] I2 [I3 I3'] I4 I5] HC Ha. unfold chart in HC. injection HC as E1 E2 E3 E4 E5 E6.
  destruct (outputs_safe_spec m1) as (Q & S0 & F0 & D0 & K0 & R0).
  destruct (complete_spec (outputs_safe m1) ltac:(congruence) ltac:(congruence)) as (S & M & F & D & K & _ & _ & R).
  apply (keeps_closed _ _ (done_report (complete (outputs_safe m1)))); try exact (done_sound _ _); rewrite ?Ha, ?S; try done; try congruence.
  constructor; rewrite ?S, ?F, ?D, ?K, ?F0, ?D0, ?E2, ?E3; try done.
  - split; [done |]. split; [done |]. intros H. apply I1' in H. rewrite H in Ha. done.
  - intros _. right. right. unfold quiet. rewrite M. exact Q.
  - split; [done |]. intros _ _. apply I3'; intros H; rewrite H in Ha; done.
  - intros _. by eexists.
Qed.

Lemma wheel_check_chart m s w dt : chart (wheel_check m s w dt).2 = chart m.
Proof. done. Qed.

Lemma active_checks_keeps m m1 s dt done : motion_inv m -> chart m1 = chart m -> is_active (m_state m) = true ->
  keeps m (active_checks m1 s dt done) false.
Proof.
  intros I HC Ha. unfold active_checks.
  pose proof (wheel_check_chart m1 s WHEEL_LEFT dt) as C1. destruct (wheel_check m1 s WHEEL_LEFT dt) as [fl m2]. cbn [snd] in C1.
  pose proof (wheel_check_chart m2 s WHEEL_RIGHT dt) as C2. destruct (wheel_check m2 s WHEEL_RIGHT dt) as [fr m3]. cbn [snd] in C2.
  rewrite C1, HC in C2. destruct (_ || _) eqn:E.
  - destruct (fault_bit_range fl) as [B1 Z1], (fault_bit_range fr) as [B2 Z2]. destruct (or_bits _ _ B1 B2) as [B3 Z3].
    apply keeps_fault; try done. rewrite Z3, Z1, Z2. intros [-> ->]. done.
  - destruct done; [by apply keeps_done |]. apply keeps_same; try done. by rewrite Ha.
Qed.

Lemma move_step_chart m s dt : chart (move_step m s dt).2 = chart m.
Proof.
  unfold move_step. cbv zeta. destruct (_ <=. fzero); [done |]. cbn [snd]. by rewrite !wheel_drive_chart.
Qed.

Lemma step_keeps m s dt now : motion_inv m -> keeps m (motion_controller_step m s dt now) false.
Proof.
  intros I. unfold motion_controller_step. cbv zeta.
  destruct (track_chart m s (step_ms dt)) as (C1 & M1 & B1 & _). set (m1 := track_still _ _ _) in *.
  assert (E : m_state m1 = m_state m) by (unfold chart in C1; congruence).
  destruct (b_busy m1) eqn:Eb; [apply keeps_same; try done; intros _; split; [congruence | unfold quiet; by rewrite M1] |]. rewrite E.
  assert (HF : forall f, f <> MOTION_FAULT_NONE -> is_active (m_state m) = true -> keeps m (raise_fault m1 f) false).
  { intros f Hf Ha. destruct (fault_bit_range f). apply keeps_fault; try done. by rewrite H0. }
  assert (HO : is_active (m_state m) = false -> keeps m (outputs_safe m1) false).
  { intros Ha. destruct (outputs_safe_spec m1) as (Q & S0 & F0 & D0 & K0 & R0). unfold chart in C1. injection C1 as E1 E2 E3 E4 E5 E6.
    destruct I as [I1 I2 I3 I4 I5]. apply keeps_silent; try congruence.
    constructor; unfold done_report; rewrite ?S0, ?F0, ?D0, ?K0, ?R0, ?E1, ?E2, ?E3, ?E5, ?E6; try done. by right; right. }
  destruct (m_state m) eqn:Es; try (by apply HO).
  - destruct (time_after _ _); [by apply HF |]. apply active_checks_keeps; try done; [| by rewrite Es].
    by rewrite !wheel_drive_chart.
  - destruct (time_after _ _); [by apply HF |]. pose proof (move_step_chart m1 s dt) as C2.
    destruct (move_step m1 s dt) as [dn m2]. cbn [snd] in C2. apply active_checks_keeps; [done | congruence | by rewrite Es].
  - destruct (time_after _ _); [by apply HF |]. pose proof (move_step_chart m1 s dt) as C2.
    destruct (move_step m1 s dt) as [dn m2]. cbn [snd] in C2. apply active_checks_keeps; [done | congruence | by rewrite Es].
Qed.

Lemma inactive_outputs_safe m : motion_inv m -> is_active (m_state m) = false -> keeps m (outputs_safe m) false.
Proof.
  intros [I1 I2 I3 I4 I5] Ha. destruct (outputs_safe_spec m) as (Q & S & F & D & K & R). apply keeps_silent; try congruence.
  constructor; unfold done_report; rewrite ?S, ?F, ?D, ?K, ?R; try done. by right; right.
Qed.
Lemma make_safe_keeps m : motion_inv m -> keeps m (motion_controller_make_safe m) false.
Proof.
  intros I. unfold motion_controller_make_safe. destruct (is_active (m_state m)) eqn:E, (b_busy m); cbn;
    try (by apply keeps_same). by apply inactive_outputs_safe.
Qed.

(** To IDLE from COMPLETE or, once the fault bits are cleared, from FAULT. *)
Lemma to_idle_keeps m bits : motion_inv m -> is_active (m_state m) = false ->
  (m_state m = MOTION_FAULT -> bits = 0) -> (m_state m <> MOTION_FAULT -> bits = fault_bits m) ->
  keeps m (set_state (m <| fault_bits := bits |>) MOTION_IDLE) false.
Proof.
  intros I Ha H1 H2. apply keeps_silent; try done; try (by rewrite Ha). destruct I as [[I1 I1'] I2 [I3 _] I4 I5].
  assert (bits = 0) as ->.
  { destruct (decide (m_state m = MOTION_FAULT)) as [e | e]; [auto |]. rewrite (H2 e).
    destruct (Z.eq_dec (fault_bits m) 0) as [| n]; [done |]. apply I1' in n. done. }
  constructor; cbn; try done. auto.
Qed.
Lemma complete_to_idle m : motion_inv m -> m_state m = MOTION_COMPLETE -> keeps m (set_state m MOTION_IDLE) false.
Proof.
  intros I E. replace (set_state m MOTION_IDLE) with (set_state (m <| fault_bits := fault_bits m |>) MOTION_IDLE) by done.
  apply to_idle_keeps; rewrite ?E; done.
Qed.
Lemma keeps_refl m : motion_inv m -> keeps m m false.
Proof. intros. by apply keeps_same. Qed.
#[export] Hint Resolve keeps_refl complete_to_idle : motion.

Lemma poll_keeps m : motion_inv m -> keeps m (motion_controller_poll m).2 false.
Proof. intros I. unfold motion_controller_poll. cbn [snd]. case_bool_decide; eauto with motion. Qed.
Lemma ack_keeps m id : motion_inv m -> keeps m (motion_controller_ack_complete m id) false.
Proof.
  intros I. unfold motion_controller_ack_complete. case_bool_decide; cbn; [| eauto with motion].
  case_if; eauto with motion.
Qed.
Lemma busy_keeps m : motion_inv m -> keeps m (motion_controller_set_busy m true) false.
Proof. intros [I1 I2 I3 I4 I5]. apply keeps_silent; try done. constructor; try done. by left. Qed.
Lemma motor_keeps m w d : motion_inv m -> keeps m (motion_run m (MoMotor w d)) false.
Proof.
  intros I. cbn [motion_run]. destruct (b_busy m) eqn:B; [| by apply keeps_refl]. destruct I as [I1 I2 I3 I4 I5].
  apply keeps_silent; try done. constructor; try done. by left.
Qed.
Lemma release_keeps m : motion_inv m -> keeps m (motion_run m MoRelease) false.
Proof.
  intros [I1 I2 I3 I4 I5]. apply keeps_silent; try done. constructor; try done. intros _. right. right. apply brake_braked.
Qed.
Lemma reset_keeps m : motion_inv m -> keeps m (motion_controller_reset m).2 false.
Proof.
  intros I. unfold motion_controller_reset. case_bool_decide; cbn [negb]; [| eauto with motion].
  case_if; [| eauto with motion]. cbn [snd]. apply to_idle_keeps; try done. by rewrite H.
Qed.

Lemma stop_keeps m : motion_inv m -> keeps m (motion_controller_stop m) false.
Proof.
  intros I. pose proof I as [[I1 I1'] I2 [I3 I3'] I4 I5]. unfold motion_controller_stop.
  destruct (is_active (m_state m)) eqn:Ha.
  - assert (m_state m <> MOTION_FAULT) as Hf by (intros F; rewrite F in Ha; done).
    unfold report. rewrite I4. rewrite bool_decide_false by exact Hf.
    apply (keeps_closed _ _ {| command_id := u8 (cmd_id m); outcome := MOTION_OUTCOME_CANCELLED; report_fault := MOTION_FAULT_NONE; b_lost := false |});
      rewrite ?Ha; try done.
    + constructor; try done; [| by right; left]. split; [done |]. split; [done |]. intros F. apply I1' in F. done.
    + unfold entry. cbn [command_id outcome set_state m_state cmd_id update_field outcome_in]. f_equal. by apply wrap_id.
  - case_bool_decide as Hf; [eauto with motion |].
    apply (to_idle_keeps m (fault_bits m)); done.
Qed.
Lemma cancel_keeps m id : motion_inv m -> keeps m (motion_controller_cancel m id).2 false.
Proof.
  intros I. unfold motion_controller_cancel. repeat case_if; cbn [snd]; eauto using stop_keeps with motion.
Qed.

(** A request accepted in IDLE starts an active command under the next id. *)
Lemma start_keeps m m1 s : motion_inv m -> chart m1 = chart m -> m_state m = MOTION_IDLE -> is_active s = true ->
  keeps m (set_state (new_command m1) s) true.
Proof.
  intros [[I1 I1'] I2 [I3 I3'] I4 I5] HC Hi Ha. unfold chart in HC. injection HC as E1 E2 E3 E4 E5 E6.
  destruct (next_id_range (cmd_id m1) ltac:(congruence)) as (N1 & N2 & N3).
  assert (fault_bits m = 0) as F0.
  { destruct (Z.eq_dec (fault_bits m) 0) as [| n]; [done |]. apply I1' in n. congruence. }
  assert (J : cmd_id (set_state (new_command m1) s) = next_id (cmd_id m1)) by exact N3.
  set (m2 := set_state (new_command m1) s) in *.
  assert (J' : m_state m2 = s /\ fault_bits m2 = 0 /\ has_sink m2 = true /\ reports m2 = reports m)
    by (splits; [done | exact (eq_trans E2 F0) | exact (eq_trans E5 I4) | exact E6]).
  clearbody m2. destruct J' as (S2 & F2 & K2 & R2).
  constructor; rewrite ?Hi; try done; [| by rewrite J, E3 | auto |].
  - constructor; rewrite ?S2, ?F2, ?J; try done; rewrite ?Ha; try done.
    + split; [done |]. split; [intros -> |]; done.
    + intros ->. done.
  - exists []. rewrite app_nil_r. splits; [done | | constructor]. unfold closing. by rewrite S2, Ha, andb_false_r.
Qed.
Lemma start_done_keeps m m1 s : motion_inv m -> chart m1 = chart m -> motors m1 = motors m -> b_busy m1 = false -> b_busy m = false ->
  m_state m = MOTION_IDLE -> b_brake_pending m = false -> is_active s = true -> keeps m (complete (set_state (new_command m1) s)) true.
Proof.
  intros I HC HM HB HB' Hi Hp Ha. destruct (start_keeps m m1 s I HC Hi Ha) as [[[J1 J1'] J2 [J3 J3'] J4 J5] D0 A0 A1 (l & L1 & L2 & L3)].
  assert (S0 : m_state (set_state (new_command m1) s) = s /\ motors (set_state (new_command m1) s) = motors m1) by done.
  set (m2 := set_state _ s) in *. clearbody m2. destruct S0 as [S0 M0].
  destruct (complete_spec m2 J4 J3) as (S & M & F & D & K & P & _ & R).
  assert (l = []) as ->. { destruct l; [done |]. unfold closing in L2. by rewrite S0, Ha, andb_false_r in L2. }
  rewrite app_nil_r in L1. apply (keeps_closed _ _ (done_report (complete m2))); try exact (done_sound _ _); rewrite ?S, ?Hi; try done; try congruence.
  constructor; rewrite ?S, ?F, ?D, ?K; try done.
  - split; [done |]. split; [done |]. intros n. apply J1' in n. rewrite S0 in n. by rewrite n in Ha.
  - intros _. right. right. unfold quiet. rewrite M, M0, HM.
    destruct (mi_quiet m I) as [| [|]]; [by rewrite Hi | congruence | congruence | done].
  - split; [done |]. intros _ _. apply J3'; rewrite S0; intros ->; done.
  - intros _. by eexists.
Qed.

Lemma velocity_keeps m s l r now : motion_inv m ->
  keeps m (motion_controller_request_velocity m s l r now).2 (accepts m (MoVelocity s l r now)).
Proof.
  intros I. unfold accepts, motion_controller_request_velocity. cbv zeta.
  destruct (bool_decide (m_state m = MOTION_FAULT)); [by apply keeps_refl |].
  destruct (_ || _); [by apply keeps_refl |]. cbn [fst snd]. rewrite (bool_decide_true (MOTION_OK = MOTION_OK)) by done.
  cbn [andb].
  match goal with |- context [new_command ?x] => set (m1 := x) end.
  change (m_state m1) with (m_state m). case_bool_decide as E; [| by apply keeps_same].
  change (clear_checks (new_command m1) (enc_bits s)) with (new_command (clear_checks m1 (enc_bits s))).
  by apply start_keeps.
Qed.
Lemma move_keeps m s k sl sr d v now : motion_inv m -> is_active k = true ->
  keeps m (motion_controller_request_move m s k sl sr d v now).2
    (bool_decide ((motion_controller_request_move m s k sl sr d v now).1 = MOTION_OK)).
Proof.
  intros I Ha. unfold motion_controller_request_move. cbv zeta.
  destruct (bool_decide (m_state m = MOTION_FAULT)); [by apply keeps_refl |].
  destruct (b_busy m || b_brake_pending m || _) eqn:E; [by apply keeps_refl |].
  destruct (negb (d >=. fzero) || _ || _); [by apply keeps_refl |].
  cbn [fst snd]. rewrite (bool_decide_true (MOTION_OK = MOTION_OK)) by done.
  rewrite !orb_false_iff, negb_false_iff, bool_decide_eq_true in E. destruct E as [[Eb Ep] Ei].
  destruct (d <=. fzero); [by apply start_done_keeps | by apply start_keeps].
Qed.

(** The subsystem's own timeout call: meant for a running command, it faults in any state. *)
Lemma timeout_inv m : motion_inv m -> motion_inv (motion_controller_navigation_timeout m).
Proof.
  intros [[I1 I1'] I2 [I3 I3'] I4 _].
  destruct (raise_faults_spec m (MOTION_FAULT_BIT MOTION_FAULT_STALE_COMMAND) I4 I1 ltac:(by apply fault_bit_range) ltac:(done))
    as (Q & S & F1 & F2 & Id & Sk & _ & R).
  unfold motion_controller_navigation_timeout, raise_fault. constructor; try done; rewrite ?S; try done; [by right; right |].
  rewrite Id. done.
Qed.

(** The call reports for a command that is not running. *)
Definition idle_timeout (m : motion_t) (op : motion_op) : bool :=
  match op with MoNavigationTimeout => negb (is_active (m_state m)) | _ => false end.

Lemma op_keeps m op : motion_inv m -> idle_timeout m op = false -> keeps m (motion_run m op) (accepts m op).
Proof.
  intros I Hn. destruct op; cbn [accepts];
    eauto using step_keeps, make_safe_keeps, velocity_keeps, move_keeps, stop_keeps, cancel_keeps, reset_keeps, poll_keeps, ack_keeps, busy_keeps, motor_keeps, release_keeps.
  cbn in Hn. rewrite negb_false_iff in Hn. by apply keeps_fault.
Qed.
Lemma op_inv m op : motion_inv m -> motion_inv (motion_run m op).
Proof.
  intros I. destruct (idle_timeout m op) eqn:E; [| by apply op_keeps]. destruct op; try done. by apply timeout_inv.
Qed.

(** The states a history of calls reaches after [motion_controller_init] with a report sink. *)
Inductive motion_reachable : motion_t -> Prop :=
| motion_booted m s max_speed lead_drive lead_turn : in_u 8 (cmd_id m) ->
    motion_reachable (motion_controller_init m s max_speed lead_drive lead_turn true)
| motion_called m op : motion_reachable m -> motion_reachable (motion_run m op).

Lemma motion_init_inv m s a b c : in_u 8 (cmd_id m) -> motion_inv (motion_controller_init m s a b c true).
Proof. intros Hid. constructor; try done. intros _. right. right. apply brake_braked. Qed.
Lemma motion_reachable_inv m : motion_reachable m -> motion_inv m.
Proof. induction 1; auto using motion_init_inv, op_inv. Qed.

(** A history of calls, and the commands it started. *)
Fixpoint motion_runs (m : motion_t) (ops : list motion_op) : motion_t :=
  match ops with [] => m | op :: ops => motion_runs (motion_run m op) ops end.


(** ** Concrete runs *)
Definition motor0 : motor_t := {| b_inverted := false; duty := fzero; cc_a := 0; cc_b := 0 |}.
Definition wheel0 : wheel_ctrl_t := {| pid := speed_pid_init fzero fzero fzero fzero fzero;
  stall_ref := 0; stall_ms := 0; wrong_ms := 0; glitch_seen := 0; glitch_bucket := 0 |}.
(** The static variables as the program starts. *)
Definition statics : motion_t :=
  {| wheels := (wheel0, wheel0); m_state := MOTION_IDLE; fault_bits := 0; cmd_id := 0; b_busy := false;
     b_brake_pending := false; b_mv_turn := false; mv_back := (false, false); still_ms := 0; max_speed_mps := fzero;
     lead_drive_m := fzero; lead_turn_m := fzero; vel_target := (fzero, fzero); vel_stamp_us := 0; mv_start := (0, 0);
     mv_dist_m := fzero; mv_speed_mps := fzero; mv_deadline_us := 0; motors := (motor0, motor0); has_sink := false;
     reports := [] |}.
Definition still_sense : sense_t :=
  {| enc_bits := (5, 7); enc_glitches := (0, 0); est_speed := (fzero, fzero); est_accel := (fzero, fzero); scale := flit 1 1000 |}.
Definition booted : motion_t := motion_controller_init statics still_sense (flit 5 10) (flit 1 100) (flit 1 100) true.
Definition tick : float := flit 1 100.
Definition driving_ops : list motion_op :=
  [MoVelocity still_sense (flit 3 10) (flit 3 10) 1000; MoStep still_sense tick 11000].
Definition driving : motion_t := motion_runs booted driving_ops.

Lemma booted_reachable : motion_reachable booted.
Proof. apply motion_booted. vm_compute. split; congruence. Qed.
Lemma runs_reachable m ops : motion_reachable m -> motion_reachable (motion_runs m ops).
Proof. revert m. induction ops; intros; cbn; auto using motion_called. Qed.

(** ** Stale feeds and deadlines *)
Lemma timeout_faults m s dt_ms f : motion_inv m -> f <> MOTION_FAULT_NONE ->
  let m1 := track_still (track_glitches m s) s dt_ms in
  let m' := raise_fault m1 f in
  m_state m' = MOTION_FAULT /\ quiet m' /\ b_brake_pending m' = false /\
  fault_bits m' = Z.lor (fault_bits m) (MOTION_FAULT_BIT f) /\
  reports m' = reports m ++
    [{| command_id := cmd_id m; outcome := MOTION_OUTCOME_FAULT; report_fault := f; b_lost := false |}].
Proof.
  intros [[I1 I1'] I2 [I3 I3'] I4 _] Hf. cbv zeta. destruct (track_chart m s dt_ms) as (C & _).
  set (m1 := track_still _ _ _) in *. unfold chart in C. injection C as E1 E2 E3 E4 E5 E6.
  destruct (fault_bit_range f) as [B1 B2]. destruct (or_bits _ _ I1 B1) as [B3 _].
  destruct (raise_faults_spec m1 (MOTION_FAULT_BIT f) ltac:(congruence) ltac:(congruence) B1 ltac:(tauto))
    as (Q & S & F1 & F2 & Id & Sk & P & R).
  unfold raise_fault. splits; try done.
  - unfold raise_faults, report. cbn -[wrap Z.lor]. destruct (has_sink m1); cbn -[wrap Z.lor]; rewrite E2; by apply wrap_id.
  - rewrite R, E6, E3. do 3 f_equal; [by apply wrap_id | by destruct f].
Qed.

(** ** Velocity targets *)
Lemma opp_fle x : (fzero <=. x) = true -> (-. x <=. x) = true.
Proof. destruct x as [[] | [] | | [] ? ?]; done. Qed.
Lemma clamp_target_bounds v cap : (fzero <=. cap) = true ->
  (-. cap <=. clamp_target v cap) = true /\ (clamp_target v cap <=. cap) = true.
Proof.
  intros Hc. destruct (fle_number _ _ Hc) as [_ Hn]. pose proof (opp_fle cap Hc) as Ho.
  assert (isnan (-. cap) = false) as Hno by (by destruct cap).
  unfold clamp_target, max_f, min_f. destruct (v <. cap) eqn:E1.
  - destruct (-. cap <. v) eqn:E2; split; auto using flt_fle, fle_refl.
  - destruct (-. cap <. cap) eqn:E2; split; auto using flt_fle, fle_refl.
Qed.

(** ** Theorems *)

(** C7: quiescence.  In every state the calls can reach, those included in which a
    calibration holds the controller and drives the motors itself: FAULT is exactly "a
    fault bit is latched"; outside VELOCITY, DRIVE and TURN and outside a calibration
    both motors are braked or a brake is pending for the next control period;
    [motion_controller_is_stopped] implies that no calibration holds the controller
    and both motors are braked; a command that ran has a non-zero 8-bit id. *)
Theorem motion_reachable_safe m : motion_reachable m ->
  (m_state m = MOTION_FAULT <-> fault_bits m <> 0) /\
  (is_active (m_state m) = false -> b_busy m = false -> b_brake_pending m = true \/ quiet m) /\
  (motion_controller_is_stopped m = true -> b_busy m = false /\ quiet m) /\
  0 <= cmd_id m < 256 /\ (is_active (m_state m) = true \/ m_state m = MOTION_COMPLETE -> cmd_id m <> 0).
Proof.
  intros R. destruct (motion_reachable_inv m R) as [[_ I1] I2 [I3 I3'] _ _].
  unfold in_u in I3. change (2 ^ 8) with 256 in I3. splits; try done; try lia.
  - intros Ha Hb. destruct (I2 Ha) as [| ?]; [congruence | done].
  - unfold motion_controller_is_stopped. rewrite !andb_true_iff, !negb_true_iff. intros [[[Ha Hb] Hp] _].
    split; [done |]. destruct (I2 Ha) as [| []]; congruence || done.
  - intros [Ha | Ha]; apply I3'; intros E; rewrite E in Ha; done.
Qed.
(** At rest, taken over by a calibration that runs the left motor. *)
Definition rested : motion_t :=
  motion_runs booted [MoStep still_sense (flit 5 100) 50000; MoStep still_sense (flit 5 100) 100000; MoStep still_sense (flit 5 100) 150000].
Definition calibrating : motion_t := motion_runs rested [MoBusy; MoMotor WHEEL_LEFT (flit 1 1)].
Lemma motion_reachable_safe_witness :
  (motion_controller_is_stopped rested = true /\ quiet rested) /\
  (0 < cc_a (motors calibrating).1 /\ m_state calibrating = MOTION_IDLE /\ motion_controller_is_stopped calibrating = false) /\
  m_state driving = MOTION_VELOCITY /\ cmd_id driving = 1 /\
  (is_active (m_state driving) = true \/ m_state driving = MOTION_COMPLETE -> cmd_id driving <> 0).
Proof.
  split; [split; [vm_compute; reflexivity |] |].
  { assert (R : motion_reachable rested) by (apply runs_reachable, booted_reachable).
    apply (motion_reachable_safe rested R). vm_compute. reflexivity. }
  split; [split; [vm_compute; reflexivity | split; vm_compute; reflexivity] |].
  split; [vm_compute; reflexivity |]. split; [vm_compute; reflexivity |].
  apply (motion_reachable_safe driving). apply runs_reachable, booted_reachable.
Defined.


(** C39: the timeout's second report.  A command that has completed has sent its DONE
    report, and it is the last one; the subsystem's timeout, raised then, sends a
    second outcome for the same command id: DONE, then FAULT. *)
Theorem navigation_timeout_reports_twice m : motion_reachable m -> m_state m = MOTION_COMPLETE ->
  let m' := motion_controller_navigation_timeout m in
  m_state m' = MOTION_FAULT /\
  exists earlier, reports m = earlier ++ [done_report m] /\
    reports m' = earlier ++ [{| command_id := cmd_id m; outcome := MOTION_OUTCOME_DONE; report_fault := MOTION_FAULT_NONE; b_lost := false |};
      {| command_id := cmd_id m; outcome := MOTION_OUTCOME_FAULT; report_fault := MOTION_FAULT_STALE_COMMAND; b_lost := false |}].
Proof.
  intros R C. destruct (motion_reachable_inv m R) as [[I1 I1'] I2 [I3 I3'] I4 I5]. cbv zeta. destruct (I5 C) as [rs E].
  destruct (fault_bit_range MOTION_FAULT_STALE_COMMAND) as [B _].
  destruct (raise_faults_spec m _ I4 I1 B ltac:(done)) as (_ & S & _ & _ & _ & _ & _ & Rp).
  unfold motion_controller_navigation_timeout, raise_fault. split; [done |]. exists rs. split; [done |]. rewrite Rp, E, <- app_assoc. unfold done_report.
  cbn [app]. do 3 f_equal. f_equal. by apply wrap_id.
Qed.
Definition completed : motion_t := motion_run booted (MoDrive still_sense 1 fzero (flit 2 10) 1000).
Lemma navigation_timeout_reports_twice_witness :
  reports completed = [{| command_id := 1; outcome := MOTION_OUTCOME_DONE; report_fault := MOTION_FAULT_NONE; b_lost := false |}] /\
  let m' := motion_controller_navigation_timeout completed in
  m_state m' = MOTION_FAULT /\
  exists earlier, reports completed = earlier ++ [done_report completed] /\
    reports m' = earlier ++ [{| command_id := cmd_id completed; outcome := MOTION_OUTCOME_DONE; report_fault := MOTION_FAULT_NONE; b_lost := false |};
      {| command_id := cmd_id completed; outcome := MOTION_OUTCOME_FAULT; report_fault := MOTION_FAULT_STALE_COMMAND; b_lost := false |}].
Proof.
  split; [vm_compute; reflexivity |].
  apply (navigation_timeout_reports_twice completed); [apply motion_called, booted_reachable | vm_compute; reflexivity].
Defined.

(** FAULT is latched.  From FAULT every request is refused with
    [MOTION_ERR_FAULT] and nothing changed, and the only call that leaves FAULT is
    a reset after 200 ms without movement and with both glitch counters below
    half their limit, which clears every fault bit and leads to IDLE. *)
Theorem motion_fault_latched m op : m_state m = MOTION_FAULT ->
  (match op with
   | MoVelocity s l r now => motion_controller_request_velocity m s l r now = (MOTION_ERR_FAULT, m)
   | MoDrive s sg d v now => motion_controller_request_move m s MOTION_DRIVE sg sg d v now = (MOTION_ERR_FAULT, m)
   | MoTurn s sg d v now => motion_controller_request_move m s MOTION_TURN sg (- sg) d v now = (MOTION_ERR_FAULT, m)
   | MoCancel id => motion_controller_cancel m id = (MOTION_ERR_FAULT, m)
   | _ => True
   end) /\
  (m_state (motion_run m op) = MOTION_FAULT \/
   (op = MoReset /\ (motion_controller_reset m).1 = true /\ 200 <= still_ms m /\
    (forall w, glitch_bucket (sel (wheels m) w) <= 12) /\
    m_state (motion_run m op) = MOTION_IDLE /\ fault_bits (motion_run m op) = 0)).
Proof.
  intros E. split.
  - destruct op; try done; unfold motion_controller_request_velocity, motion_controller_request_move, motion_controller_cancel;
      cbv zeta; by rewrite bool_decide_true.
  - destruct op as [s dt now | | | | | | id | | | id | | w d | |]; try (left; cbn [motion_run];
      unfold motion_controller_request_velocity, motion_controller_request_move, motion_controller_cancel, motion_controller_stop,
        motion_controller_poll, motion_controller_ack_complete; cbv zeta; rewrite ?E; done).
    + left. cbn [motion_run]. unfold motion_controller_step. cbv zeta. destruct (track_chart m s (step_ms dt)) as (C & _).
      unfold chart in C. injection C as E1 _ _ _ _ _. rewrite E1, E. case_if; [by rewrite E1 | cbn -[track_still]; by rewrite E1].
    + left. cbn [motion_run]. unfold motion_controller_make_safe. case_if; done.
    + left. cbn [motion_run]. unfold motion_controller_stop. rewrite E. cbn [is_active]. by rewrite bool_decide_true.
    + cbn [motion_run]. unfold motion_controller_reset. rewrite bool_decide_true by done. cbn [negb].
      destruct ((RESET_STILL_MS <=? still_ms m) && _ && _) eqn:Hc; [right | by left]. rewrite !andb_true_iff in Hc. destruct Hc as [[H1 H2] H3].
      change (ENCODER_GLITCH_LIMIT / 2) with 12 in *. unfold RESET_STILL_MS in *. splits; try done; [lia |]. intros []; lia.
    + left. cbn [motion_run]. case_if; done.
    + left. cbn [motion_run]. unfold motion_controller_navigation_timeout, raise_fault, raise_faults, report. case_if; done.
Qed.
Definition faulted : motion_t := motion_run driving MoNavigationTimeout.
Lemma motion_fault_latched_witness : (motion_controller_reset faulted).1 = false /\
  (m_state (motion_run faulted MoReset) = MOTION_FAULT \/
   (MoReset = MoReset /\ (motion_controller_reset faulted).1 = true /\ 200 <= still_ms faulted /\
    (forall w, glitch_bucket (sel (wheels faulted) w) <= 12) /\
    m_state (motion_run faulted MoReset) = MOTION_IDLE /\ fault_bits (motion_run faulted MoReset) = 0)).
Proof. split; [vm_compute; reflexivity |]. apply (motion_fault_latched faulted MoReset). vm_compute. reflexivity. Defined.

(** No command outlives its feed or its deadline.  In a control period, a
    velocity command not renewed for more than 250 ms, or a drive or turn past its
    deadline, ends in FAULT with both motors braked, the fault bit latched and
    exactly one FAULT report under the command's id. *)
Theorem motion_stale_command_faults m s dt_s now_us : motion_reachable m -> b_busy m = false ->
  let m' := motion_controller_step m s dt_s now_us in
  let faults f :=
    m_state m' = MOTION_FAULT /\ quiet m' /\ b_brake_pending m' = false /\
    fault_bits m' = Z.lor (fault_bits m) (MOTION_FAULT_BIT f) /\
    reports m' = reports m ++
      [{| command_id := cmd_id m; outcome := MOTION_OUTCOME_FAULT; report_fault := f; b_lost := false |}] in
  (m_state m = MOTION_VELOCITY -> time_after now_us (u32 (vel_stamp_us m + 250000)) = true ->
   faults MOTION_FAULT_STALE_COMMAND) /\
  (m_state m = MOTION_DRIVE \/ m_state m = MOTION_TURN -> time_after now_us (mv_deadline_us m) = true ->
   faults MOTION_FAULT_TIMEOUT).
Proof.
  intros R Hb. apply motion_reachable_inv in R as I. cbv zeta. unfold motion_controller_step. cbv zeta.
  destruct (track_chart m s (step_ms dt_s)) as (C & _ & B & V & D). unfold chart in C. injection C as E1 _ _ _ _ _.
  rewrite B, Hb, E1, V, D. split.
  - intros -> Ht. unfold VELOCITY_TIMEOUT_US. rewrite Ht. by apply timeout_faults.
  - intros [-> | ->] Ht; rewrite Ht; by apply timeout_faults.
Qed.
Lemma motion_stale_command_faults_witness : m_state driving = MOTION_VELOCITY /\
  time_after 300000 (u32 (vel_stamp_us driving + 250000)) = true /\
  m_state (motion_controller_step driving still_sense tick 300000) = MOTION_FAULT.
Proof.
  split; [vm_compute; reflexivity |]. split; [vm_compute; reflexivity |].
  destruct (motion_stale_command_faults driving still_sense tick 300000) as [H _];
    [apply runs_reachable, booted_reachable | vm_compute; reflexivity |].
  apply H; vm_compute; reflexivity.
Defined.

(** Velocity requests.  A request is accepted exactly when the controller is
    IDLE or already in VELOCITY, with no brake pending and no maintenance action;
    it then renews the 250 ms lease, and whatever the requested speeds are, not a
    number included, the stored targets are within the speed cap. *)
Theorem velocity_request_clamped m s left right now_us : (fzero <=. speed_cap m) = true ->
  let '(r, m') := motion_controller_request_velocity m s left right now_us in
  (r = MOTION_OK <->
   (m_state m = MOTION_IDLE \/ m_state m = MOTION_VELOCITY) /\ b_busy m = false /\ b_brake_pending m = false) /\
  (r = MOTION_OK ->
   m_state m' = MOTION_VELOCITY /\ vel_stamp_us m' = now_us /\
   (forall w, (-. speed_cap m <=. sel (vel_target m') w) = true /\ (sel (vel_target m') w <=. speed_cap m) = true)) /\
  (r <> MOTION_OK -> m' = m).
Proof.
  intros Hc. pose proof (clamp_target_bounds left _ Hc) as Hl. pose proof (clamp_target_bounds right _ Hc) as Hr.
  unfold motion_controller_request_velocity. cbv zeta. case_bool_decide as Hf.
  { rewrite Hf. splits; try done. split; [done |]. intros [[|] _]; done. }
  destruct (b_busy m || b_brake_pending m || _) eqn:E.
  { splits; try done. split; [done |]. intros (Hs & Hb & Hp). rewrite Hb, Hp in E. cbn [orb] in E.
    rewrite andb_true_iff, !negb_true_iff, !bool_decide_eq_false in E. tauto. }
  rewrite !orb_false_iff, andb_false_iff, !negb_false_iff, !bool_decide_eq_true in E. destruct E as [[Hb Hp] Hs].
  splits; try done. intros _. case_bool_decide as Hi; (splits; [| done | intros []; assumption]); [done |].
  destruct Hs; [done | assumption].
Qed.
Lemma velocity_request_clamped_witness :
  let '(r, m') := motion_controller_request_velocity booted still_sense S754_nan (flit 3 10) 1000 in
  r = MOTION_OK /\ m_state m' = MOTION_VELOCITY.
Proof.
  pose proof (velocity_request_clamped booted still_sense S754_nan (flit 3 10) 1000 ltac:(vm_compute; reflexivity)) as H.
  assert ((motion_controller_request_velocity booted still_sense S754_nan (flit 3 10) 1000).1 = MOTION_OK) as Hr
    by (vm_compute; reflexivity).
  destruct (motion_controller_request_velocity booted still_sense S754_nan (flit 3 10) 1000) as [r m'].
  cbn [fst] in Hr. split; [exact Hr | apply H; exact Hr].
Defined.
