(* ===== verification/MotionPack.v ===== *)
(** * Motion words

    Models [subsystem2/motion_pack.{c,h}]: the 64-bit status word, the 16-bit
    report word and the 32-bit command words the motion subsystem shares with the
    vehicle controller, [motion_codec.{c,h}], the 32-bit reporting snapshot, and
    [motion_lease.h].

    A word is the OR of its fields, each placed by [field_put]; the field lists
    below are in the order of the code, with its bit positions.  An enumeration
    that a word may carry out of range (the state and the fault of a status) is
    kept as its integer code. *)
From S2P Require Import Prelude CFloat BitCodec Motion MotionController.

(** ** Fields of a word *)
Definition mask_of (bits : Z) : Z := if 32 <=? bits then 0xFFFFFFFF else Z.shiftl 1 bits - 1.
Definition field_get (word lsb bits : Z) : Z := Z.land (u32 (Z.shiftr word lsb)) (mask_of bits).
Definition field_put (value lsb bits : Z) : Z := Z.shiftl (Z.land value (mask_of bits)) lsb.
(** [word |= field_put(value, lsb, bits)] for each field in turn *)
Definition word_field : Type := Z * Z * Z.
Definition put_fields (fs : list word_field) : Z :=
  fold_left (fun word '(value, lsb, bits) => Z.lor word (field_put value lsb bits)) fs 0.

(** ** Quantities *)
Definition MOTION_PACK_SPEED_STEP_MPS : float := flit 2 1000.
Definition MOTION_PACK_SPEED_MAG_BITS : Z := 9.
Definition MOTION_PACK_MOVE_SPEED_BITS : Z := 9.
Definition MOTION_PACK_DIST_STEP_M : float := flit 1 1000.
Definition MOTION_PACK_DIST_MAG_BITS : Z := 15.
Definition MOTION_PACK_DRIVE_MAG_BITS : Z := 13.
Definition MOTION_PACK_ANGLE_STEP_DEG : float := flit 1 1.
Definition MOTION_PACK_ANGLE_MAG_BITS : Z := 9.
Definition MOTION_PACK_HEADING_BITS : Z := 9.
Definition MOTION_FAULT_BITS_WIDTH : Z := 5.

Definition STATE_BITS : Z := 3.
Definition FAULT_BITS : Z := 3.
Definition FAULT_MASK_BITS : Z := MOTION_FAULT_BITS_WIDTH.
Definition ID_BITS : Z := 8.
Definition OUTCOME_BITS : Z := 2.
Definition TYPE_BITS : Z := 3.
Definition MANOEUVRE_BITS : Z := 2.
Definition MOVE_SPEED_BITS : Z := MOTION_PACK_MOVE_SPEED_BITS.
Definition SPEED_BITS : Z := MOTION_PACK_SPEED_MAG_BITS + 1.
Definition DIST_BITS : Z := MOTION_PACK_DIST_MAG_BITS + 1.
Definition DRIVE_BITS : Z := MOTION_PACK_DRIVE_MAG_BITS + 1.
Definition ANGLE_BITS : Z := MOTION_PACK_ANGLE_MAG_BITS + 1.

Definition is_finite (x : float) : bool := (x ==. x) && ((x - x)%f32 ==. fzero).
Definition to_steps (magnitude step : float) (bits : Z) : Z :=
  let max_steps := mask_of bits in
  let steps := (magnitude / step + flit 1 2)%f32 in
  if negb (steps >=. flit 1 1) then 0
  else if steps >=. float_of_Z max_steps then max_steps
  else u32 (trunc steps).
Definition sm_pack (value step : float) (mag_bits : Z) : Z :=
  let mag := to_steps (abs_f value) step mag_bits in
  let dir := if (value <. fzero) && negb (mag =? 0) then 1 else 0 in
  Z.lor (Z.shiftl dir mag_bits) mag.
Definition sm_unpack (field : Z) (step : float) (mag_bits : Z) : float :=
  let value := (float_of_Z (Z.land field (mask_of mag_bits)) * step)%f32 in
  if negb (Z.land (Z.shiftr field mag_bits) 1 =? 0) then -. value else value.
Definition HEADING_TURN_DEG : Z := 360.
Definition HEADING_LIMIT_DEG : float := flit 1000000 1.
Definition heading_pack (degrees : float) : Z :=
  if negb (degrees ==. degrees) then 0
  else
    let degrees := if degrees >. HEADING_LIMIT_DEG then HEADING_LIMIT_DEG else degrees in
    let degrees := if degrees <. (-. HEADING_LIMIT_DEG) then -. HEADING_LIMIT_DEG else degrees in
    let whole := i32 (trunc (if degrees <. fzero then degrees - flit 1 2 else degrees + flit 1 2)%f32) in
    let whole := Z.rem whole HEADING_TURN_DEG in
    u32 (if whole <? 0 then whole + HEADING_TURN_DEG else whole).

(** ** Status word *)
Record motion_status_t := {
  st_state : Z; st_fault : motion_fault_t; st_command_id : Z; speed_left_mps : float; speed_right_mps : float;
  distance_m : float; heading_deg : float; b_stopped : bool; st_busy : bool; st_valid : bool; st_fault_bits : Z
}.
Definition ST_STATE_LSB : Z := 0.
Definition ST_FAULT_LSB : Z := ST_STATE_LSB + STATE_BITS.
Definition ST_ID_LSB : Z := ST_FAULT_LSB + FAULT_MASK_BITS.
Definition ST_SPEED_L_LSB : Z := ST_ID_LSB + ID_BITS.
Definition ST_SPEED_R_LSB : Z := ST_SPEED_L_LSB + SPEED_BITS.
Definition ST_DIST_LSB : Z := ST_SPEED_R_LSB + SPEED_BITS.
Definition ST_HEADING_LSB : Z := ST_DIST_LSB + DIST_BITS.
Definition ST_STOPPED_BIT : Z := ST_HEADING_LSB + MOTION_PACK_HEADING_BITS.
Definition ST_BUSY_BIT : Z := ST_STOPPED_BIT + 1.
Definition ST_VALID_BIT : Z := ST_BUSY_BIT + 1.

Definition status_fields (s : motion_status_t) : list word_field :=
  [(st_state s, ST_STATE_LSB, STATE_BITS);
   (Z.lor (st_fault_bits s) (MOTION_FAULT_BIT (st_fault s)), ST_FAULT_LSB, FAULT_MASK_BITS);
   (st_command_id s, ST_ID_LSB, ID_BITS);
   (sm_pack (speed_left_mps s) MOTION_PACK_SPEED_STEP_MPS MOTION_PACK_SPEED_MAG_BITS, ST_SPEED_L_LSB, SPEED_BITS);
   (sm_pack (speed_right_mps s) MOTION_PACK_SPEED_STEP_MPS MOTION_PACK_SPEED_MAG_BITS, ST_SPEED_R_LSB, SPEED_BITS);
   (sm_pack (distance_m s) MOTION_PACK_DIST_STEP_M MOTION_PACK_DIST_MAG_BITS, ST_DIST_LSB, DIST_BITS);
   (heading_pack (heading_deg s), ST_HEADING_LSB, MOTION_PACK_HEADING_BITS);
   (b2z (b_stopped s), ST_STOPPED_BIT, 1); (b2z (st_busy s), ST_BUSY_BIT, 1); (b2z (st_valid s), ST_VALID_BIT, 1)].
Definition motion_pack_status (s : motion_status_t) : Z := put_fields (status_fields s).
Definition flag_get (word bit : Z) : bool := negb (field_get word bit 1 =? 0).
Definition motion_unpack_status (word : Z) : motion_status_t :=
  let bits := field_get word ST_FAULT_LSB FAULT_MASK_BITS in
  {| st_state := field_get word ST_STATE_LSB STATE_BITS;
     st_fault := motion_fault_first bits;
     st_command_id := field_get word ST_ID_LSB ID_BITS;
     speed_left_mps := sm_unpack (field_get word ST_SPEED_L_LSB SPEED_BITS) MOTION_PACK_SPEED_STEP_MPS MOTION_PACK_SPEED_MAG_BITS;
     speed_right_mps := sm_unpack (field_get word ST_SPEED_R_LSB SPEED_BITS) MOTION_PACK_SPEED_STEP_MPS MOTION_PACK_SPEED_MAG_BITS;
     distance_m := sm_unpack (field_get word ST_DIST_LSB DIST_BITS) MOTION_PACK_DIST_STEP_M MOTION_PACK_DIST_MAG_BITS;
     heading_deg := float_of_Z (field_get word ST_HEADING_LSB MOTION_PACK_HEADING_BITS);
     b_stopped := flag_get word ST_STOPPED_BIT;
     st_busy := flag_get word ST_BUSY_BIT;
     st_valid := flag_get word ST_VALID_BIT;
     st_fault_bits := u8 bits |}.

(** ** Report word *)
Definition RP_ID_LSB : Z := 0.
Definition RP_OUTCOME_LSB : Z := RP_ID_LSB + ID_BITS.
Definition RP_FAULT_LSB : Z := RP_OUTCOME_LSB + OUTCOME_BITS.
Definition RP_LOST_BIT : Z := RP_FAULT_LSB + FAULT_BITS.
Definition outcome_code (o : motion_outcome_t) : Z :=
  match o with
  | MOTION_OUTCOME_NONE => 0 | MOTION_OUTCOME_DONE => 1 | MOTION_OUTCOME_CANCELLED => 2 | MOTION_OUTCOME_FAULT => 3
  end.
Definition outcome_of (z : Z) : motion_outcome_t :=
  if z =? 0 then MOTION_OUTCOME_NONE else if z =? 1 then MOTION_OUTCOME_DONE
  else if z =? 2 then MOTION_OUTCOME_CANCELLED else MOTION_OUTCOME_FAULT.
Definition fault_code (f : motion_fault_t) : Z :=
  match f with
  | MOTION_FAULT_NONE => 0 | MOTION_FAULT_STALL => 1 | MOTION_FAULT_STALE_COMMAND => 2
  | MOTION_FAULT_ENCODER => 3 | MOTION_FAULT_DIRECTION => 4 | MOTION_FAULT_TIMEOUT => 5
  end.
(** Codes 6 and 7 are no fault of the enumeration. *)
Definition fault_of (z : Z) : option motion_fault_t :=
  if z =? 0 then Some MOTION_FAULT_NONE else if z <=? 5 then Some (fault_of_index (z - 1)) else None.
Definition motion_pack_report (r : motion_report_t) : Z :=
  u16 (put_fields [(command_id r, RP_ID_LSB, ID_BITS); (outcome_code (outcome r), RP_OUTCOME_LSB, OUTCOME_BITS);
                   (fault_code (report_fault r), RP_FAULT_LSB, FAULT_BITS); (b2z (b_lost r), RP_LOST_BIT, 1)]).
Definition motion_unpack_report (word : Z) : option motion_report_t :=
  f ← fault_of (field_get word RP_FAULT_LSB FAULT_BITS);
  Some {| command_id := field_get word RP_ID_LSB ID_BITS;
          outcome := outcome_of (field_get word RP_OUTCOME_LSB OUTCOME_BITS);
          report_fault := f; b_lost := flag_get word RP_LOST_BIT |}.

(** ** Command words *)
Inductive motion_cmd_type_t :=
  MOTION_CMD_VELOCITY | MOTION_CMD_DRIVE | MOTION_CMD_TURN | MOTION_CMD_MANOEUVRE | MOTION_CMD_STOP | MOTION_CMD_CANCEL |
  MOTION_CMD_RESET.
#[export] Instance motion_cmd_type_eq_dec : EqDecision motion_cmd_type_t.
Proof. solve_decision. Defined.
Definition cmd_code (t : motion_cmd_type_t) : Z :=
  match t with
  | MOTION_CMD_VELOCITY => 0 | MOTION_CMD_DRIVE => 1 | MOTION_CMD_TURN => 2 | MOTION_CMD_MANOEUVRE => 3
  | MOTION_CMD_STOP => 4 | MOTION_CMD_CANCEL => 5 | MOTION_CMD_RESET => 6
  end.
(** [type > MOTION_CMD_RESET] is refused *)
Definition cmd_type_of (z : Z) : option motion_cmd_type_t :=
  nth_error [MOTION_CMD_VELOCITY; MOTION_CMD_DRIVE; MOTION_CMD_TURN; MOTION_CMD_MANOEUVRE; MOTION_CMD_STOP;
             MOTION_CMD_CANCEL; MOTION_CMD_RESET] (Z.to_nat z).
Definition MANOEUVRE_LEFT : Z := 0.
Definition MANOEUVRE_RIGHT : Z := 1.
Definition MANOEUVRE_STRAIGHT : Z := 2.
Definition MANOEUVRE_U_TURN : Z := 3.
Record motion_cmd_t := {
  type : motion_cmd_type_t; left_mps : float; right_mps : float; meters : float; degrees : float; speed_mps : float;
  manoeuvre : Z; cmd_command_id : Z
}.
#[export] Instance motion_cmd_settable : Settable motion_cmd_t := fun r =>
  Build_motion_cmd_t (type r) (left_mps r) (right_mps r) (meters r) (degrees r) (speed_mps r) (manoeuvre r) (cmd_command_id r).
Definition MOTION_CMD_INVALID_WORD : Z := 7.
Definition CMD_ARG_LSB : Z := TYPE_BITS.

Definition cmd_type (t : motion_cmd_type_t) : Z := u32 (field_put (cmd_code t) 0 TYPE_BITS).
Definition fits (value step : float) (mag_bits : Z) : bool :=
  is_finite value && ((abs_f value / step + flit 1 2)%f32 <. float_of_Z (mask_of mag_bits + 1)).
Definition move_speed_ok (speed : float) : bool :=
  fits speed MOTION_PACK_SPEED_STEP_MPS MOVE_SPEED_BITS &&
  negb (to_steps speed MOTION_PACK_SPEED_STEP_MPS MOVE_SPEED_BITS =? 0).
(** [cmd_type(t) | (uint32_t)field_put(...) | ...] *)
Definition command_word (t : motion_cmd_type_t) (fs : list word_field) : Z :=
  fold_left (fun word '(value, lsb, bits) => Z.lor word (u32 (field_put value lsb bits))) fs (cmd_type t).

Definition motion_cmd_velocity (left right : float) : Z :=
  if negb (fits left MOTION_PACK_SPEED_STEP_MPS MOTION_PACK_SPEED_MAG_BITS) ||
     negb (fits right MOTION_PACK_SPEED_STEP_MPS MOTION_PACK_SPEED_MAG_BITS) then MOTION_CMD_INVALID_WORD
  else command_word MOTION_CMD_VELOCITY
    [(sm_pack left MOTION_PACK_SPEED_STEP_MPS MOTION_PACK_SPEED_MAG_BITS, CMD_ARG_LSB, SPEED_BITS);
     (sm_pack right MOTION_PACK_SPEED_STEP_MPS MOTION_PACK_SPEED_MAG_BITS, CMD_ARG_LSB + SPEED_BITS, SPEED_BITS)].
Definition motion_cmd_drive (distance speed : float) : Z :=
  if negb (fits distance MOTION_PACK_DIST_STEP_M MOTION_PACK_DRIVE_MAG_BITS) || negb (move_speed_ok speed)
  then MOTION_CMD_INVALID_WORD
  else command_word MOTION_CMD_DRIVE
    [(sm_pack distance MOTION_PACK_DIST_STEP_M MOTION_PACK_DRIVE_MAG_BITS, CMD_ARG_LSB, DRIVE_BITS);
     (to_steps speed MOTION_PACK_SPEED_STEP_MPS MOVE_SPEED_BITS, CMD_ARG_LSB + DRIVE_BITS, MOVE_SPEED_BITS)].
Definition motion_cmd_turn (angle speed : float) : Z :=
  if negb (fits angle MOTION_PACK_ANGLE_STEP_DEG MOTION_PACK_ANGLE_MAG_BITS) || negb (move_speed_ok speed)
  then MOTION_CMD_INVALID_WORD
  else command_word MOTION_CMD_TURN
    [(sm_pack angle MOTION_PACK_ANGLE_STEP_DEG MOTION_PACK_ANGLE_MAG_BITS, CMD_ARG_LSB, ANGLE_BITS);
     (to_steps speed MOTION_PACK_SPEED_STEP_MPS MOVE_SPEED_BITS, CMD_ARG_LSB + ANGLE_BITS, MOVE_SPEED_BITS)].
Definition motion_cmd_manoeuvre (m : Z) : Z :=
  if MANOEUVRE_U_TURN <? u32 m then MOTION_CMD_INVALID_WORD
  else command_word MOTION_CMD_MANOEUVRE [(u32 m, CMD_ARG_LSB, MANOEUVRE_BITS)].
Definition motion_cmd_stop : Z := cmd_type MOTION_CMD_STOP.
Definition motion_cmd_cancel (id : Z) : Z := command_word MOTION_CMD_CANCEL [(id, CMD_ARG_LSB, ID_BITS)].
Definition motion_cmd_reset : Z := cmd_type MOTION_CMD_RESET.

Definition cmd_bits (t : motion_cmd_type_t) : Z :=
  match t with
  | MOTION_CMD_VELOCITY => TYPE_BITS + 2 * SPEED_BITS
  | MOTION_CMD_DRIVE => TYPE_BITS + DRIVE_BITS + MOVE_SPEED_BITS
  | MOTION_CMD_TURN => TYPE_BITS + ANGLE_BITS + MOVE_SPEED_BITS
  | MOTION_CMD_MANOEUVRE => TYPE_BITS + MANOEUVRE_BITS
  | MOTION_CMD_CANCEL => TYPE_BITS + ID_BITS
  | _ => TYPE_BITS
  end.
Definition zero_cmd (t : motion_cmd_type_t) : motion_cmd_t :=
  {| type := t; left_mps := fzero; right_mps := fzero; meters := fzero; degrees := fzero; speed_mps := fzero;
     manoeuvre := MANOEUVRE_STRAIGHT; cmd_command_id := 0 |}.
Definition move_speed (word lsb : Z) : float :=
  (float_of_Z (field_get word lsb MOVE_SPEED_BITS) * MOTION_PACK_SPEED_STEP_MPS)%f32.
Definition motion_unpack_cmd (word : Z) : option motion_cmd_t :=
  match cmd_type_of (field_get word 0 TYPE_BITS) with
  | None => None
  | Some t =>
      if negb (Z.land word (u32 (Z.lnot (mask_of (cmd_bits t)))) =? 0) then None
      else if (bool_decide (t = MOTION_CMD_DRIVE) &&
                 (field_get word (CMD_ARG_LSB + DRIVE_BITS) MOVE_SPEED_BITS =? 0)) ||
              (bool_decide (t = MOTION_CMD_TURN) &&
                 (field_get word (CMD_ARG_LSB + ANGLE_BITS) MOVE_SPEED_BITS =? 0)) then None
      else
        let c := zero_cmd t in
        Some match t with
        | MOTION_CMD_VELOCITY =>
            c <| left_mps := sm_unpack (field_get word CMD_ARG_LSB SPEED_BITS)
                   MOTION_PACK_SPEED_STEP_MPS MOTION_PACK_SPEED_MAG_BITS |>
              <| right_mps := sm_unpack (field_get word (CMD_ARG_LSB + SPEED_BITS) SPEED_BITS)
                   MOTION_PACK_SPEED_STEP_MPS MOTION_PACK_SPEED_MAG_BITS |>
        | MOTION_CMD_DRIVE =>
            c <| meters := sm_unpack (field_get word CMD_ARG_LSB DRIVE_BITS)
                   MOTION_PACK_DIST_STEP_M MOTION_PACK_DRIVE_MAG_BITS |>
              <| speed_mps := move_speed word (CMD_ARG_LSB + DRIVE_BITS) |>
        | MOTION_CMD_TURN =>
            c <| degrees := sm_unpack (field_get word CMD_ARG_LSB ANGLE_BITS)
                   MOTION_PACK_ANGLE_STEP_DEG MOTION_PACK_ANGLE_MAG_BITS |>
              <| speed_mps := move_speed word (CMD_ARG_LSB + ANGLE_BITS) |>
        | MOTION_CMD_MANOEUVRE => c <| manoeuvre := field_get word CMD_ARG_LSB MANOEUVRE_BITS |>
        | MOTION_CMD_CANCEL => c <| cmd_command_id := field_get word CMD_ARG_LSB ID_BITS |>
        | _ => c
        end
  end.

(** ** Lease of the navigation owner *)
Definition MOTION_NAVIGATION_LEASE_US : Z := 30000.
Definition motion_lease_expired (enabled : bool) (now refreshed : Z) : bool :=
  enabled && (MOTION_NAVIGATION_LEASE_US <? elapsed now refreshed).

(** ** Reporting snapshot *)
Definition MOTION_REPORT_MAX_MMS : Z := 510.
Definition MOTION_SNAPSHOT_BYTES : nat := 4.
Definition state_code (s : motion_state_t) : Z :=
  match s with
  | MOTION_IDLE => 0 | MOTION_VELOCITY => 1 | MOTION_DRIVE => 2 | MOTION_TURN => 3 | MOTION_COMPLETE => 4 | MOTION_FAULT => 5
  end.
Definition word_of (b : bytes) : Z :=
  Z.lor (Z.lor (Z.lor (nthZ 0 b 0) (Z.shiftl (nthZ 0 b 1) 8)) (Z.shiftl (nthZ 0 b 2) 16)) (u32 (Z.shiftl (nthZ 0 b 3) 24)).
Definition speed_code (mms : Z) : Z :=
  let mag := u32 (if mms <? 0 then - mms else mms) in
  let mag := u32 (mag + 1) / 2 in
  Z.lor mag (Z.shiftl (b2z (mms <? 0)) 8).
Definition speed_value (code : Z) : Z :=
  let mag := Z.land code 255 * 2 in
  i16 (if negb (Z.land code 256 =? 0) then - mag else mag).
Definition mms_ok (mms : Z) : bool := (- MOTION_REPORT_MAX_MMS <=? mms) && (mms <=? MOTION_REPORT_MAX_MMS).
Definition motion_snapshot_pack (s : motion_state_t) (f : motion_fault_t) (busy speed_valid : bool) (left right : Z)
  : option bytes :=
  if speed_valid && (negb (mms_ok left) || negb (mms_ok right)) then None
  else
    let packed := if speed_valid then Z.lor (speed_code left) (u32 (Z.shiftl (speed_code right) 9)) else 0 in
    let packed := Z.lor packed
      (Z.lor (Z.lor (Z.lor (Z.shiftl (state_code s) 18) (Z.shiftl (fault_code f) 21)) (Z.shiftl (b2z busy) 24))
             (Z.shiftl (b2z speed_valid) 25)) in
    Some (map (fun i => u8 (Z.shiftr packed (i * 8))) (range MOTION_SNAPSHOT_BYTES)).
Definition motion_snapshot_valid (b : bytes) : bool :=
  let packed := word_of b in
  let left := Z.land packed 511 in
  let right := Z.land (Z.shiftr packed 9) 511 in
  if negb (Z.shiftr packed 26 =? 0) || (state_code MOTION_FAULT <? Z.land (Z.shiftr packed 18) 7) ||
     (fault_code MOTION_FAULT_TIMEOUT <? Z.land (Z.shiftr packed 21) 7) then false
  else if Z.land packed (Z.shiftl 1 25) =? 0 then (left =? 0) && (right =? 0)
  else negb (left =? 256) && negb (right =? 256).
Definition motion_snapshot_state (b : bytes) : Z := Z.land (Z.shiftr (word_of b) 18) 7.
Definition motion_snapshot_fault (b : bytes) : Z := Z.land (Z.shiftr (word_of b) 21) 7.
Definition motion_snapshot_busy (b : bytes) : bool := negb (Z.land (word_of b) (Z.shiftl 1 24) =? 0).
Definition motion_snapshot_speed_valid (b : bytes) : bool := negb (Z.land (word_of b) (Z.shiftl 1 25) =? 0).
Definition motion_snapshot_left_mms (b : bytes) : Z := speed_value (Z.land (word_of b) 511).
Definition motion_snapshot_right_mms (b : bytes) : Z := speed_value (Z.land (Z.shiftr (word_of b) 9) 511).

(** ** Bits of a word built from fields *)
Lemma mask_ones b : 0 <= b < 32 -> mask_of b = Z.ones b.
Proof. intros. unfold mask_of. destruct (Z.leb_spec 32 b); [lia |]. rewrite Z.ones_equiv, Z.shiftl_1_l. lia. Qed.

Lemma field_get_bits w l b i : 0 <= l -> 0 <= b < 32 -> 0 <= i ->
  Z.testbit (field_get w l b) i = (i <? b) && Z.testbit w (l + i).
Proof.
  intros. unfold field_get, u32, wrap. rewrite mask_ones by done.
  rewrite Z.land_spec, Z.testbit_mod_pow2, Z.shiftr_spec, Z.testbit_ones_nonneg by lia. rewrite (Z.add_comm i l).
  destruct (Z.ltb_spec i 32), (Z.ltb_spec i b); cbn; try lia; rewrite ?andb_true_r, ?andb_false_r; done.
Qed.
Lemma field_get_range w l b : 0 <= l -> 0 <= b < 32 -> in_u b (field_get w l b).
Proof.
  intros Hl Hb. unfold in_u, field_get. rewrite mask_ones, Z.land_ones by lia. apply Z.mod_pos_bound. lia.
Qed.

(** Bit [k] lies in a field placed at [l]. *)
Definition within (l b k : Z) : bool := (l <=? k) && (k <? l + b).
Lemma field_put_bits v l b k : 0 <= l -> 0 <= b < 32 -> 0 <= k ->
  Z.testbit (field_put v l b) k = within l b k && Z.testbit v (k - l).
Proof.
  intros. unfold field_put, within. rewrite mask_ones, Z.shiftl_spec by done. destruct (Z.leb_spec l k); cbn.
  - rewrite Z.land_spec, Z.testbit_ones_nonneg by lia.
    destruct (Z.ltb_spec (k - l) b), (Z.ltb_spec k (l + b)); try lia; cbn; by rewrite ?andb_true_r, ?andb_false_r.
  - apply Z.testbit_neg_r. lia.
Qed.

(** Fields laid out one after the other from bit [p] to bit [q]. *)
Fixpoint laid_out (fs : list word_field) (p q : Z) : Prop :=
  match fs with
  | [] => p = q
  | (v, l, b) :: fs => l = p /\ 0 <= b < 32 /\ laid_out fs (p + b) q
  end.
Definition put_from (w : Z) (fs : list word_field) : Z :=
  fold_left (fun word '(value, lsb, bits) => Z.lor word (field_put value lsb bits)) fs w.

Lemma put_from_bits fs : forall w p q, 0 <= p -> laid_out fs p q -> forall k, 0 <= k -> k < p \/ q <= k ->
  Z.testbit (put_from w fs) k = Z.testbit w k.
Proof.
  induction fs as [| [[v l] b] fs IH]; intros w p q Hp HL k Hk Ho; [done |]. destruct HL as (-> & Hb & HL).
  assert (p + b <= q) as Hq.
  { clear -Hb HL. revert HL. generalize (p + b). induction fs as [| [[v l] c] fs IH]; cbn; intros z; [lia |].
    intros (-> & ? & HL). specialize (IH _ HL). lia. }
  unfold put_from. cbn [fold_left]. fold (put_from (Z.lor w (field_put v p b)) fs).
  rewrite (IH _ (p + b) q) by (lia || done). rewrite Z.lor_spec, field_put_bits by lia. unfold within.
  destruct (Z.leb_spec p k), (Z.ltb_spec k (p + b)); cbn; try lia; by rewrite orb_false_r.
Qed.
Lemma put_from_field fs : forall w p q, 0 <= p -> laid_out fs p q -> (forall k, p <= k -> Z.testbit w k = false) ->
  forall v l b, In (v, l, b) fs -> field_get (put_from w fs) l b = wrap b v.
Proof.
  induction fs as [| [[v0 l0] b0] fs IH]; intros w p q Hp HL Hw v l b Hin; [done |]. destruct HL as (-> & Hb & HL).
  unfold put_from. cbn [fold_left]. fold (put_from (Z.lor w (field_put v0 p b0)) fs). destruct Hin as [[= <- <- <-] | Hin].
  - apply Z.bits_inj'. intros i Hi. rewrite field_get_bits by lia. unfold wrap. rewrite Z.testbit_mod_pow2 by lia.
    destruct (Z.ltb_spec i b0); [cbn | done].
    rewrite (put_from_bits fs _ (p + b0) q) by (lia || done). rewrite Z.lor_spec, Hw, field_put_bits by lia. unfold within.
    destruct (Z.leb_spec p (p + i)), (Z.ltb_spec (p + i) (p + b0)); try lia. cbn. f_equal. lia.
  - apply (IH _ (p + b0) q); try done; [lia |]. intros k Hk. rewrite Z.lor_spec, Hw, field_put_bits by lia. unfold within.
    destruct (Z.ltb_spec k (p + b0)); [lia |]. by rewrite andb_false_r.
Qed.

(** Reading a laid-out word gives its fields back, and the fields of a word rebuild it. *)
Lemma get_put fs q v l b : laid_out fs 0 q -> In (v, l, b) fs -> field_get (put_fields fs) l b = wrap b v.
Proof. intros HL Hin. apply (put_from_field fs 0 0 q); try done. intros. apply Z.bits_0. Qed.
Lemma put_fields_above fs q k : laid_out fs 0 q -> 0 <= q <= k -> Z.testbit (put_fields fs) k = false.
Proof. intros HL Hk. change (put_fields fs) with (put_from 0 fs). rewrite (put_from_bits fs 0 0 q) by (lia || done). apply Z.bits_0. Qed.
Lemma put_get fs : forall w0 w p q, 0 <= p -> laid_out fs p q -> Forall (fun '(v, l, b) => v = field_get w l b) fs ->
  (forall k, 0 <= k -> Z.testbit w0 k = (k <? p) && Z.testbit w k) ->
  forall k, 0 <= k -> Z.testbit (put_from w0 fs) k = (k <? q) && Z.testbit w k.
Proof.
  induction fs as [| [[v l] b] fs IH]; intros w0 w p q Hp HL HF Hw k Hk; [cbn in *; subst; auto |].
  destruct HL as (-> & Hb & HL). apply Forall_cons in HF as [-> HF].
  unfold put_from. cbn [fold_left]. fold (put_from (Z.lor w0 (field_put (field_get w p b) p b)) fs).
  apply (IH _ w (p + b) q); try done; [lia |]. clear k Hk. intros k Hk. rewrite Z.lor_spec, Hw, field_put_bits by lia. unfold within.
  destruct (Z.ltb_spec k p), (Z.leb_spec p k), (Z.ltb_spec k (p + b)); cbn; try lia; rewrite ?orb_false_r; try done.
  rewrite field_get_bits by lia. destruct (Z.ltb_spec (k - p) b); [| lia]. cbn. f_equal. lia.
Qed.
Lemma put_fields_get fs q w : laid_out fs 0 q -> 0 <= q -> in_u q w -> Forall (fun '(v, l, b) => v = field_get w l b) fs ->
  put_fields fs = w.
Proof.
  intros HL Hq Hw HF. apply Z.bits_inj'. intros k Hk.
  change (put_fields fs) with (put_from 0 fs). rewrite (put_get fs 0 w 0 q); try done.
  - destruct (Z.ltb_spec k q); [done |]. cbn. rewrite <- (wrap_id q w Hw). unfold wrap. rewrite Z.testbit_mod_pow2 by lia.
    destruct (Z.ltb_spec k q); [lia | done].
  - intros j Hj. rewrite Z.bits_0. by destruct (Z.ltb_spec j 0); [lia |].
Qed.

Lemma field_put_u32 v l b : 0 <= l -> 0 <= b < 32 -> l + b <= 32 -> u32 (field_put v l b) = field_put v l b.
Proof.
  intros. apply Z.bits_inj'. intros k Hk. unfold u32, wrap. rewrite Z.testbit_mod_pow2 by lia.
  destruct (Z.ltb_spec k 32); [done |]. cbn. rewrite field_put_bits by lia. unfold within.
  destruct (Z.ltb_spec k (l + b)); [lia |]. by rewrite andb_false_r.
Qed.
Lemma laid_out_le fs : forall p q, laid_out fs p q -> p <= q.
Proof. induction fs as [| [[v l] b] fs IH]; cbn; intros p q; [lia |]. intros (-> & ? & HL). apply IH in HL. lia. Qed.
Definition command_fields (t : motion_cmd_type_t) (fs : list word_field) : list word_field := (cmd_code t, 0, TYPE_BITS) :: fs.
Lemma command_word_fields t fs q : laid_out fs 3 q -> q <= 32 -> command_word t fs = put_fields (command_fields t fs).
Proof.
  unfold command_word, put_fields, command_fields. cbn [fold_left]. rewrite Z.lor_0_l.
  unfold cmd_type. rewrite field_put_u32 by (unfold TYPE_BITS; lia). generalize (field_put (cmd_code t) 0 TYPE_BITS) as w.
  assert (forall p, 0 <= p -> forall w, laid_out fs p q -> q <= 32 ->
    fold_left (fun word '(value, lsb, bits) => Z.lor word (u32 (field_put value lsb bits))) fs w =
    fold_left (fun word '(value, lsb, bits) => Z.lor word (field_put value lsb bits)) fs w) as H; [| intros; by apply (H 3)].
  induction fs as [| [[v l] b] fs IH]; intros p Hp w HL Hq; [done |]. destruct HL as (-> & Hb & HL). cbn [fold_left].
  rewrite field_put_u32 by (apply laid_out_le in HL; lia). apply (IH (p + b)); [lia | done | done].
Qed.

(** The type's own bits: nothing is set above them. *)
Lemma above_mask w b : 0 <= b < 32 -> 0 <= w -> (Z.land w (u32 (Z.lnot (mask_of b))) = 0 <-> wrap 32 w = wrap b w).
Proof.
  intros Hb Hw. rewrite mask_ones by done.
  assert (forall k, 0 <= k -> Z.testbit (u32 (Z.lnot (Z.ones b))) k = (k <? 32) && negb (k <? b)) as Hm.
  { intros k Hk. unfold u32, wrap. rewrite Z.testbit_mod_pow2, Z.lnot_spec, Z.testbit_ones_nonneg by lia. done. }
  split; intros H.
  - apply Z.bits_inj'. intros k Hk. unfold wrap. rewrite !Z.testbit_mod_pow2 by lia.
    destruct (Z.ltb_spec k b), (Z.ltb_spec k 32); cbn; try lia; try done.
    apply (f_equal (fun z => Z.testbit z k)) in H. rewrite Z.land_spec, Hm, Z.bits_0 in H by done.
    destruct (Z.ltb_spec k 32), (Z.ltb_spec k b); try lia. cbn in H. by rewrite andb_true_r in H.
  - apply Z.bits_inj'. intros k Hk. rewrite Z.land_spec, Hm, Z.bits_0 by done.
    apply (f_equal (fun z => Z.testbit z k)) in H. unfold wrap in H. rewrite !Z.testbit_mod_pow2 in H by lia.
    destruct (Z.ltb_spec k 32), (Z.ltb_spec k b); cbn in *; try lia; rewrite ?andb_false_r; try done.
    by rewrite H.
Qed.

(** ** Quantities that are exact multiples of the step *)
Definition step_check (step half one_ cap maxf : float) (max m : Z) : bool :=
  let v := (float_of_Z m * step)%f32 in
  let s := (v / step + half)%f32 in
  (trunc s =? m) && (if m =? 0 then negb (one_ <=. s) else one_ <=. s) && (s <. cap) &&
  (if maxf <=. s then m =? max else true) && isfinite v && (if m =? 0 then negb (v <. fzero) else fzero <. v).
(** Every magnitude of the field, in blocks. *)
Definition steps_check (step : float) (bits : Z) (blocks size : nat) : bool :=
  let half := flit 1 2 in
  let one_ := flit 1 1 in
  let cap := float_of_Z (mask_of bits + 1) in
  let maxf := float_of_Z (mask_of bits) in
  forallb (fun h => forallb (fun k => step_check step half one_ cap maxf (mask_of bits) (h * Z.of_nat size + k)) (range size)) (range blocks).

Lemma speed_steps : (let step := MOTION_PACK_SPEED_STEP_MPS in steps_check step 9 16 32) = true.
Proof. vm_compute. reflexivity. Qed.
Lemma angle_steps : (let step := MOTION_PACK_ANGLE_STEP_DEG in steps_check step 9 16 32) = true.
Proof. vm_compute. reflexivity. Qed.
Lemma drive_steps : (let step := MOTION_PACK_DIST_STEP_M in steps_check step 13 64 128) = true.
Proof. vm_compute. reflexivity. Qed.

Lemma finite_isfinite x : is_finite x = isfinite x.
Proof. apply sub_self_zero. Qed.
Lemma opp_opp x : (-. (-. x)) = x.
Proof. destruct x as [[] | [] | | [] ? ?]; done. Qed.
Lemma opp_pos x : (fzero <. x) = true -> ((-. x) <. fzero) = true /\ (x <. fzero) = false.
Proof. destruct x as [[] | [] | | [] ? ?]; done. Qed.
Lemma opp_finite x : isfinite (-. x) = isfinite x.
Proof. destruct x as [[] | [] | | [] ? ?]; done. Qed.

(** A checked magnitude: rounding gives it back, for either sign. *)
Record exact_step (step : float) (bits m : Z) (v : float) : Prop := {
  ex_steps : to_steps v step bits = m;
  ex_fits : fits v step bits = true;
  ex_neg : m <> 0 -> sm_pack (-. v) step bits = Z.lor (Z.shiftl 1 bits) m /\ fits (-. v) step bits = true;
  ex_pos : sm_pack v step bits = m
}.
Lemma steps_exact step bits blocks size : 0 <= bits < 32 -> Z.of_nat blocks * Z.of_nat size = 2 ^ bits ->
  steps_check step bits blocks size = true -> forall m, in_u bits m -> exact_step step bits m (float_of_Z m * step)%f32.
Proof.
  intros Hbits Hn H m Hm. unfold steps_check in H. cbv zeta in H.
  pose proof (forall_blocks _ _ _ H m ltac:(unfold in_u in Hm; lia)) as C. clear H.
  unfold step_check in C. cbv zeta in C. set (v := (float_of_Z m * step)%f32) in *.
  rewrite !andb_true_iff in C. destruct C as [[[[[C1 C2] C3] C4] C5] C6]. apply Z.eqb_eq in C1.
  assert (2 ^ bits <= 2 ^ 31) as Hp by (apply Z.pow_le_mono_r; lia).
  assert (Hst : to_steps v step bits = m).
  { unfold to_steps. cbv zeta. destruct (Z.eqb_spec m 0) as [-> |].
    - rewrite C2. done.
    - rewrite C2. cbn [negb]. destruct (float_of_Z (mask_of bits) <=. _) eqn:E; [apply Z.eqb_eq in C4; done |].
      rewrite C1. apply wrap_id. unfold in_u in *. lia. }
  assert (Hlt : (v <. fzero) = false).
  { destruct (m =? 0); [by apply negb_true_iff | by apply opp_pos]. }
  assert (Habs : abs_f v = v) by (unfold abs_f; by rewrite Hlt).
  assert (Hfit : fits v step bits = true).
  { unfold fits. rewrite finite_isfinite, C5, Habs. done. }
  constructor; [done | done | |].
  - intros Hm0. destruct (Z.eqb_spec m 0); [done |]. destruct (opp_pos v C6) as [On _].
    assert (abs_f (-. v) = v) as Hab' by (unfold abs_f; by rewrite On, opp_opp). split.
    + unfold sm_pack. cbv zeta. rewrite Hab', Hst, On. destruct (Z.eqb_spec m 0); done.
    + unfold fits. rewrite finite_isfinite, opp_finite, C5, Hab'. done.
  - unfold sm_pack. cbv zeta. by rewrite Habs, Hst, Hlt, Z.shiftl_0_l, Z.lor_0_l.
Qed.

(** A sign-and-magnitude field other than "negative zero". *)
Lemma sm_exact step bits f : 0 <= bits < 31 -> (forall m, in_u bits m -> exact_step step bits m (float_of_Z m * step)%f32) ->
  in_u (bits + 1) f -> f <> 2 ^ bits ->
  sm_pack (sm_unpack f step bits) step bits = f /\ fits (sm_unpack f step bits) step bits = true.
Proof.
  unfold in_u. intros Hb HE Hf Hn. rewrite Z.pow_add_r in Hf by lia. change (2 ^ 1) with 2 in Hf.
  unfold sm_unpack. rewrite mask_ones, Z.land_ones by lia. cbv zeta.
  assert (Z.land (Z.shiftr f bits) 1 = (f / 2 ^ bits) mod 2) as ->.
  { rewrite Z.shiftr_div_pow2 by lia. change 1 with (Z.ones 1) at 1. rewrite Z.land_ones by lia. done. }
  destruct (Z.lt_ge_cases f (2 ^ bits)) as [Hl | Hg].
  - rewrite (Z.div_small f), (Z.mod_small f) by lia. change (negb (0 mod 2 =? 0)) with false. cbv iota.
    destruct (HE f ltac:(unfold in_u; lia)) as [E1 E2 E3 E4]. done.
  - assert (f = (f - 2 ^ bits) + 1 * 2 ^ bits) as Ef by lia. set (m := f - 2 ^ bits) in *.
    assert (0 <= m < 2 ^ bits) by lia.
    replace (f / 2 ^ bits) with 1 by (rewrite Ef, Z.div_add, Z.div_small by lia; done).
    replace (f mod 2 ^ bits) with m by (rewrite Ef, Z_mod_plus_full, Z.mod_small by lia; done).
    change (negb (1 mod 2 =? 0)) with true. cbv iota.
    destruct (HE m ltac:(unfold in_u; lia)) as [E1 E2 E3 E4]. destruct (E3 ltac:(lia)) as [E5 E6]. split; [| done].
    rewrite E5. rewrite Z.shiftl_1_l. rewrite <- Z.add_nocarry_lor; [lia |].
    apply Z.bits_inj'. intros i Hi. rewrite Z.land_spec, Z.pow2_bits_eqb, Z.bits_0 by lia.
    destruct (Z.eqb_spec bits i) as [<- |]; [| done].
    rewrite <- (Z.mod_small m (2 ^ bits)), Z.testbit_mod_pow2 by lia.
    destruct (Z.ltb_spec bits bits); [lia | done].
Qed.

Lemma exact_speed m : in_u 9 m -> exact_step MOTION_PACK_SPEED_STEP_MPS 9 m (float_of_Z m * MOTION_PACK_SPEED_STEP_MPS)%f32.
Proof. apply (steps_exact _ 9 16 32); [lia | done | exact speed_steps]. Qed.
Lemma exact_angle m : in_u 9 m -> exact_step MOTION_PACK_ANGLE_STEP_DEG 9 m (float_of_Z m * MOTION_PACK_ANGLE_STEP_DEG)%f32.
Proof. apply (steps_exact _ 9 16 32); [lia | done | exact angle_steps]. Qed.
Lemma exact_drive m : in_u 13 m -> exact_step MOTION_PACK_DIST_STEP_M 13 m (float_of_Z m * MOTION_PACK_DIST_STEP_M)%f32.
Proof. apply (steps_exact _ 13 64 128); [lia | done | exact drive_steps]. Qed.

(** ** Theorems *)

(** The word that asks for a decoded command again. *)
Definition rebuild (c : motion_cmd_t) : Z :=
  match type c with
  | MOTION_CMD_VELOCITY => motion_cmd_velocity (left_mps c) (right_mps c)
  | MOTION_CMD_DRIVE => motion_cmd_drive (meters c) (speed_mps c)
  | MOTION_CMD_TURN => motion_cmd_turn (degrees c) (speed_mps c)
  | MOTION_CMD_MANOEUVRE => motion_cmd_manoeuvre (manoeuvre c)
  | MOTION_CMD_STOP => motion_cmd_stop
  | MOTION_CMD_CANCEL => motion_cmd_cancel (cmd_command_id c)
  | MOTION_CMD_RESET => motion_cmd_reset
  end.
(** No signed field of the word is a zero with the direction bit set. *)
Definition no_negative_zero (w : Z) : bool :=
  match cmd_type_of (field_get w 0 TYPE_BITS) with
  | Some MOTION_CMD_VELOCITY => negb (field_get w 3 10 =? 512) && negb (field_get w 13 10 =? 512)
  | Some MOTION_CMD_DRIVE => negb (field_get w 3 14 =? 8192)
  | Some MOTION_CMD_TURN => negb (field_get w 3 10 =? 512)
  | _ => true
  end.

Lemma cmd_type_of_code z t : 0 <= z < 8 -> cmd_type_of z = Some t -> cmd_code t = z.
Proof.
  intros Hz H. assert (z = 0 \/ z = 1 \/ z = 2 \/ z = 3 \/ z = 4 \/ z = 5 \/ z = 6 \/ z = 7) as C by lia.
  destruct C as [-> | [-> | [-> | [-> | [-> | [-> | [-> | ->]]]]]]]; vm_compute in H; try discriminate H; injection H as <-; done.
Qed.

(** The fields of a word rebuild the word. *)
Lemma command_rebuilt w t fs q : in_u 32 w -> field_get w 0 TYPE_BITS = cmd_code t -> laid_out fs 3 q -> 3 <= q < 32 ->
  Z.land w (u32 (Z.lnot (mask_of q))) = 0 -> Forall (fun '(v, l, b) => v = field_get w l b) fs -> command_word t fs = w.
Proof.
  intros Hw Ht HL Hq Hm HF. rewrite (command_word_fields t fs q) by (done || lia).
  apply above_mask in Hm; [| lia | unfold in_u in Hw; lia]. rewrite (wrap_id 32) in Hm by done.
  apply (put_fields_get _ q); [| lia | |].
  - cbn. unfold TYPE_BITS. splits; try done; lia.
  - rewrite Hm. unfold in_u. apply wrap_range. lia.
  - constructor; [by symmetry | done].
Qed.

Lemma speed_field f : in_u 10 f -> f <> 512 ->
  let v := sm_unpack f MOTION_PACK_SPEED_STEP_MPS 9 in
  sm_pack v MOTION_PACK_SPEED_STEP_MPS 9 = f /\ fits v MOTION_PACK_SPEED_STEP_MPS 9 = true.
Proof. intros. apply (sm_exact _ 9); [lia | apply exact_speed | done | done]. Qed.
Lemma angle_field f : in_u 10 f -> f <> 512 ->
  let v := sm_unpack f MOTION_PACK_ANGLE_STEP_DEG 9 in
  sm_pack v MOTION_PACK_ANGLE_STEP_DEG 9 = f /\ fits v MOTION_PACK_ANGLE_STEP_DEG 9 = true.
Proof. intros. apply (sm_exact _ 9); [lia | apply exact_angle | done | done]. Qed.
Lemma drive_field f : in_u 14 f -> f <> 8192 ->
  let v := sm_unpack f MOTION_PACK_DIST_STEP_M 13 in
  sm_pack v MOTION_PACK_DIST_STEP_M 13 = f /\ fits v MOTION_PACK_DIST_STEP_M 13 = true.
Proof. intros. apply (sm_exact _ 13); [lia | apply exact_drive | done | done]. Qed.
Lemma move_speed_field w l : 0 <= l -> field_get w l MOVE_SPEED_BITS <> 0 ->
  move_speed_ok (move_speed w l) = true /\
  to_steps (move_speed w l) MOTION_PACK_SPEED_STEP_MPS MOVE_SPEED_BITS = field_get w l MOVE_SPEED_BITS.
Proof.
  intros Hl Hn. unfold move_speed_ok, move_speed.
  pose proof (field_get_range w l 9 Hl ltac:(lia)) as Hr. destruct (exact_speed _ Hr) as [E1 E2 _ _].
  change MOVE_SPEED_BITS with 9 in *. rewrite E1, E2. split; [| done]. cbn. by destruct (Z.eqb_spec (field_get w l 9) 0).
Qed.

(** Layout constants as numbers. *)
Ltac widths :=
  change CMD_ARG_LSB with 3 in *; change SPEED_BITS with 10 in *; change DRIVE_BITS with 14 in *;
  change ANGLE_BITS with 10 in *; change MOVE_SPEED_BITS with 9 in *; change MOTION_PACK_SPEED_MAG_BITS with 9 in *;
  change MOTION_PACK_DRIVE_MAG_BITS with 13 in *; change MOTION_PACK_ANGLE_MAG_BITS with 9 in *;
  change ID_BITS with 8 in *; change MANOEUVRE_BITS with 2 in *; change TYPE_BITS with 3 in *;
  change (3 + 10) with 13 in *; change (3 + 14) with 17 in *.
(** The accepted word [w] is the word with these fields. *)
Ltac rebuilt w n := apply (command_rebuilt w _ _ n); [done | done | cbn; lia | lia | done | repeat constructor; try done].

Lemma velocity_rebuilt w : in_u 32 w -> field_get w 0 TYPE_BITS = 0 -> Z.land w (u32 (Z.lnot (mask_of 23))) = 0 ->
  field_get w 3 10 <> 512 -> field_get w 13 10 <> 512 ->
  motion_cmd_velocity (sm_unpack (field_get w 3 10) MOTION_PACK_SPEED_STEP_MPS 9)
    (sm_unpack (field_get w 13 10) MOTION_PACK_SPEED_STEP_MPS 9) = w.
Proof.
  intros Hw Ht Hm Z1 Z2.
  destruct (speed_field _ (field_get_range w 3 10 ltac:(lia) ltac:(lia)) Z1) as [P1 F1].
  destruct (speed_field _ (field_get_range w 13 10 ltac:(lia) ltac:(lia)) Z2) as [P2 F2].
  unfold motion_cmd_velocity. widths. rewrite F1, F2. cbn [negb orb]. rebuilt w 23.
Qed.
Lemma drive_rebuilt w : in_u 32 w -> field_get w 0 TYPE_BITS = 1 -> Z.land w (u32 (Z.lnot (mask_of 26))) = 0 ->
  field_get w 3 14 <> 8192 -> field_get w 17 9 <> 0 ->
  motion_cmd_drive (sm_unpack (field_get w 3 14) MOTION_PACK_DIST_STEP_M 13) (move_speed w 17) = w.
Proof.
  intros Hw Ht Hm Z1 Z2.
  destruct (drive_field _ (field_get_range w 3 14 ltac:(lia) ltac:(lia)) Z1) as [P1 F1].
  destruct (move_speed_field w 17 ltac:(lia) Z2) as [F2 P2].
  unfold motion_cmd_drive. widths. rewrite F1, F2. cbn [negb orb]. rebuilt w 26.
Qed.
Lemma turn_rebuilt w : in_u 32 w -> field_get w 0 TYPE_BITS = 2 -> Z.land w (u32 (Z.lnot (mask_of 22))) = 0 ->
  field_get w 3 10 <> 512 -> field_get w 13 9 <> 0 ->
  motion_cmd_turn (sm_unpack (field_get w 3 10) MOTION_PACK_ANGLE_STEP_DEG 9) (move_speed w 13) = w.
Proof.
  intros Hw Ht Hm Z1 Z2.
  destruct (angle_field _ (field_get_range w 3 10 ltac:(lia) ltac:(lia)) Z1) as [P1 F1].
  destruct (move_speed_field w 13 ltac:(lia) Z2) as [F2 P2].
  unfold motion_cmd_turn. widths. rewrite F1, F2. cbn [negb orb]. rebuilt w 22.
Qed.
Lemma manoeuvre_rebuilt w : in_u 32 w -> field_get w 0 TYPE_BITS = 3 -> Z.land w (u32 (Z.lnot (mask_of 5))) = 0 ->
  motion_cmd_manoeuvre (field_get w 3 2) = w.
Proof.
  intros Hw Ht Hm. pose proof (field_get_range w 3 2 ltac:(lia) ltac:(lia)) as Hr. unfold in_u in Hr.
  unfold motion_cmd_manoeuvre. rewrite (wrap_id 32) by (unfold in_u; lia). unfold MANOEUVRE_U_TURN.
  destruct (Z.ltb_spec 3 (field_get w 3 2)); [lia |]. widths. rebuilt w 5.
Qed.
Lemma cancel_rebuilt w : in_u 32 w -> field_get w 0 TYPE_BITS = 5 -> Z.land w (u32 (Z.lnot (mask_of 11))) = 0 ->
  motion_cmd_cancel (field_get w 3 8) = w.
Proof. intros Hw Ht Hm. unfold motion_cmd_cancel. widths. rebuilt w 11. Qed.
Lemma bare_rebuilt w t : in_u 32 w -> field_get w 0 TYPE_BITS = cmd_code t -> Z.land w (u32 (Z.lnot (mask_of 3))) = 0 ->
  cmd_type t = w.
Proof. intros Hw Ht Hm. change (cmd_type t) with (command_word t []). rebuilt w 3. Qed.

(** Command words round trip.  Every 32-bit word that is accepted as a motion
    command, and has no "negative zero" field, is rebuilt bit for bit by the
    command builder from the decoded command: the decoded speeds, distance and
    angle are exactly the multiples of the step the word carries. *)
Theorem motion_cmd_words_roundtrip w c : in_u 32 w -> motion_unpack_cmd w = Some c -> no_negative_zero w = true ->
  rebuild c = w.
Proof.
  intros Hw. unfold motion_unpack_cmd, no_negative_zero.
  destruct (cmd_type_of (field_get w 0 TYPE_BITS)) as [t |] eqn:Et; [| done].
  apply cmd_type_of_code in Et; [| apply (field_get_range w 0 3); lia]. symmetry in Et.
  destruct (negb (_ =? 0)) eqn:Em; [done |]. apply negb_false_iff, Z.eqb_eq in Em.
  destruct (_ || _) eqn:Es; [done |]. intros [= <-] Hz.
  unfold rebuild. destruct t; cbn [type left_mps right_mps meters degrees speed_mps manoeuvre cmd_command_id zero_cmd].
  - apply andb_true_iff in Hz as [Z1 Z2]. apply negb_true_iff, Z.eqb_neq in Z1, Z2. by apply velocity_rebuilt.
  - apply negb_true_iff, Z.eqb_neq in Hz. apply drive_rebuilt; try done. widths.
    apply orb_false_iff in Es as [Es _]. rewrite bool_decide_true in Es by done. by apply Z.eqb_neq in Es.
  - apply negb_true_iff, Z.eqb_neq in Hz. apply turn_rebuilt; try done. widths.
    apply orb_false_iff in Es as [_ Es]. rewrite bool_decide_true in Es by done. by apply Z.eqb_neq in Es.
  - by apply manoeuvre_rebuilt.
  - by apply bare_rebuilt.
  - by apply cancel_rebuilt.
  - by apply bare_rebuilt.
Qed.
Definition demo_word : Z := motion_cmd_drive (-. flit 3 10) (flit 1 10).
Lemma motion_cmd_words_roundtrip_witness : demo_word = 6621537 /\ exists c, motion_unpack_cmd demo_word = Some c /\ rebuild c = demo_word.
Proof.
  split; [vm_compute; reflexivity |]. destruct (motion_unpack_cmd demo_word) as [c |] eqn:E; [| vm_compute in E; discriminate E].
  exists c. split; [reflexivity |]. apply (motion_cmd_words_roundtrip demo_word c); [split; vm_compute; congruence | exact E | vm_compute; reflexivity].
Defined.

(** A concrete list of fields is laid out. *)
Ltac solve_layout := repeat (split; [reflexivity | split; [split; [discriminate | reflexivity] |]]); reflexivity.

(** A status as its word carries it. *)
Definition quantised (s : motion_status_t) : motion_status_t :=
  let speed v := sm_unpack (wrap 10 (sm_pack v MOTION_PACK_SPEED_STEP_MPS 9)) MOTION_PACK_SPEED_STEP_MPS 9 in
  let bits := Z.lor (st_fault_bits s) (MOTION_FAULT_BIT (st_fault s)) in
  {| st_state := st_state s; st_fault := motion_fault_first bits; st_command_id := st_command_id s;
     speed_left_mps := speed (speed_left_mps s); speed_right_mps := speed (speed_right_mps s);
     distance_m := sm_unpack (wrap 16 (sm_pack (distance_m s) MOTION_PACK_DIST_STEP_M 15)) MOTION_PACK_DIST_STEP_M 15;
     heading_deg := float_of_Z (heading_pack (heading_deg s));
     b_stopped := b_stopped s; st_busy := st_busy s; st_valid := st_valid s; st_fault_bits := bits |}.

Lemma heading_range d : 0 <= heading_pack d < 360.
Proof.
  unfold heading_pack. case_if; [lia |]. unfold HEADING_TURN_DEG.
  match goal with |- context [Z.rem ?x 360] => set (z := x); pose proof (Z.rem_bound_abs z 360 ltac:(lia)) as B end.
  unfold u32. destruct (Z.ltb_spec (Z.rem z 360) 0); rewrite wrap_id by (unfold in_u; lia); lia.
Qed.
Lemma flag_put fs q b f : laid_out fs 0 q -> In (b2z f, b, 1) fs -> flag_get (put_fields fs) b = f.
Proof. intros HL Hin. unfold flag_get. rewrite (get_put fs q _ _ _ HL Hin). by destruct f. Qed.

Lemma status_laid_out s : laid_out (status_fields s) 0 64.
Proof. solve_layout. Qed.
Lemma fault_or_range b f : in_u 5 b -> in_u 5 (Z.lor b (MOTION_FAULT_BIT f)).
Proof.
  intros Hb. assert (forallb (fun z => (Z.lor z (MOTION_FAULT_BIT f) <? 32) && (0 <=? Z.lor z (MOTION_FAULT_BIT f))) (range 32) = true) as H
    by (destruct f; vm_compute; reflexivity).
  pose proof (forall_range (fun z => (Z.lor z (MOTION_FAULT_BIT f) <? 32) && (0 <=? Z.lor z (MOTION_FAULT_BIT f))) 0 32 H b Hb) as R.
  cbv beta in R. unbool. unfold in_u. lia.
Qed.

(** Status word.  For any status (speeds, distance and heading of any value,
    not a number included) the 64-bit word decodes to the same state, command id
    and flags, to every latched fault bit with the lowest as the fault code, and
    to the values rounded to their steps; the decoded heading is a whole degree
    below 360. *)
Theorem motion_status_roundtrip s : in_u 3 (st_state s) -> in_u 8 (st_command_id s) -> in_u 5 (st_fault_bits s) ->
  motion_unpack_status (motion_pack_status s) = quantised s /\ 0 <= heading_pack (heading_deg s) < 360.
Proof.
  intros Hs Hi Hf. split; [| apply heading_range]. pose proof (status_laid_out s) as HL.
  pose proof (fault_or_range _ (st_fault s) Hf) as Hb. pose proof (heading_range (heading_deg s)) as Hh.
  assert (G : forall v l b, In (v, l, b) (status_fields s) -> field_get (motion_pack_status s) l b = wrap b v)
    by (intros; by apply (get_put (status_fields s) 64)).
  assert (F : forall b f, In (b2z f, b, 1) (status_fields s) -> flag_get (motion_pack_status s) b = f)
    by (intros; by apply (flag_put (status_fields s) 64)).
  unfold motion_unpack_status, quantised. cbv zeta.
  rewrite (G (st_state s)), (wrap_id STATE_BITS) by (done || cbn; tauto).
  rewrite (G (Z.lor (st_fault_bits s) (MOTION_FAULT_BIT (st_fault s)))), (wrap_id FAULT_MASK_BITS) by (done || cbn; tauto).
  rewrite (G (st_command_id s)), (wrap_id ID_BITS) by (done || cbn; tauto).
  rewrite (G (sm_pack (speed_left_mps s) MOTION_PACK_SPEED_STEP_MPS 9)) by (cbn; tauto).
  rewrite (G (sm_pack (speed_right_mps s) MOTION_PACK_SPEED_STEP_MPS 9)) by (cbn; tauto).
  rewrite (G (sm_pack (distance_m s) MOTION_PACK_DIST_STEP_M 15)) by (cbn; tauto).
  rewrite (G (heading_pack (heading_deg s))), (wrap_id MOTION_PACK_HEADING_BITS) by (unfold in_u, MOTION_PACK_HEADING_BITS; lia || cbn; tauto).
  rewrite (F _ (b_stopped s)), (F _ (st_busy s)), (F _ (st_valid s)) by (cbn; tauto).
  unfold u8. rewrite (wrap_id 8) by (unfold in_u in *; lia). done.
Qed.
Definition demo_status : motion_status_t :=
  {| st_state := 3; st_fault := MOTION_FAULT_NONE; st_command_id := 17; speed_left_mps := flit 1 10; speed_right_mps := -. flit 1 10;
     distance_m := flit 25 10; heading_deg := -. flit 90 1; b_stopped := false; st_busy := false; st_valid := true; st_fault_bits := 0 |}.
Lemma motion_status_roundtrip_witness : heading_pack (heading_deg demo_status) = 270 /\
  motion_unpack_status (motion_pack_status demo_status) = quantised demo_status.
Proof.
  split; [vm_compute; reflexivity |].
  apply (motion_status_roundtrip demo_status); split; vm_compute; congruence.
Defined.

(** Report word.  Every report (8-bit command id, any outcome and fault) is
    decoded from its 16-bit word unchanged. *)
Theorem motion_report_roundtrip r : in_u 8 (command_id r) -> motion_unpack_report (motion_pack_report r) = Some r.
Proof.
  intros Hi. unfold motion_pack_report.
  set (fs := [(command_id r, RP_ID_LSB, ID_BITS); (outcome_code (outcome r), RP_OUTCOME_LSB, OUTCOME_BITS);
    (fault_code (report_fault r), RP_FAULT_LSB, FAULT_BITS); (b2z (b_lost r), RP_LOST_BIT, 1)]).
  assert (HL : laid_out fs 0 14) by solve_layout.
  assert (u16 (put_fields fs) = put_fields fs) as ->.
  { apply Z.bits_inj'. intros k Hk. unfold u16, wrap. rewrite Z.testbit_mod_pow2 by lia.
    destruct (Z.ltb_spec k 16); [done |]. cbn [andb]. by rewrite (put_fields_above fs 14) by (done || lia). }
  assert (G : forall v l b, In (v, l, b) fs -> field_get (put_fields fs) l b = wrap b v) by (intros; by apply (get_put fs 14)).
  unfold motion_unpack_report.
  rewrite (G (fault_code (report_fault r)) RP_FAULT_LSB FAULT_BITS), (G (command_id r) RP_ID_LSB ID_BITS),
    (G (outcome_code (outcome r)) RP_OUTCOME_LSB OUTCOME_BITS), (flag_put fs 14 _ (b_lost r)), (wrap_id ID_BITS)
    by (done || (unfold fs; cbn; tauto)).
  by destruct r as [i [] [] l].
Qed.
Lemma motion_report_roundtrip_witness :
  let r := {| command_id := 255; outcome := MOTION_OUTCOME_FAULT; report_fault := MOTION_FAULT_TIMEOUT; b_lost := true |} in
  motion_pack_report r = 14335 /\ motion_unpack_report (motion_pack_report r) = Some r.
Proof. split; [vm_compute; reflexivity |]. apply motion_report_roundtrip. split; vm_compute; congruence. Defined.

(** ** The reporting snapshot *)
Definition code_ok (mms : Z) : bool :=
  let c := speed_code mms in
  let v := speed_value c in
  (0 <=? c) && (c <? 512) && negb (c =? 256) && (Z.abs (v - mms) <=? 1) && (Z.abs mms <=? Z.abs v) && (0 <=? v * mms).
Lemma codes_ok : forallb (fun k => code_ok (-510 + k)) (range 1021) = true.
Proof. vm_compute. reflexivity. Qed.
Lemma speed_code_ok mms : mms_ok mms = true -> let c := speed_code mms in
  0 <= c < 512 /\ c <> 256 /\ Z.abs (speed_value c - mms) <= 1 /\ Z.abs mms <= Z.abs (speed_value c) /\ 0 <= speed_value c * mms.
Proof.
  intros H. unfold mms_ok, MOTION_REPORT_MAX_MMS in H.
  pose proof (forall_range code_ok (-510) 1021 codes_ok mms ltac:(unbool; lia)) as C.
  unfold code_ok in C. cbv zeta in *. unbool. splits; lia.
Qed.

(** The snapshot's word as a sum of its fields. *)
Definition snapshot_word (cl cr st fl bu sv : Z) : Z := cl + cr * 2 ^ 9 + st * 2 ^ 18 + fl * 2 ^ 21 + bu * 2 ^ 24 + sv * 2 ^ 25.
Lemma word_of_bytes w : in_u 32 w -> word_of (map (fun i => u8 (Z.shiftr w (i * 8))) (range 4)) = w.
Proof.
  unfold in_u. intros Hw. unfold word_of. change (range 4) with [0; 1; 2; 3]. cbn [map List.map nthZ]. unfold u8, wrap.
  unfold nthZ. change (Z.to_nat 0) with 0%nat. change (Z.to_nat 1) with 1%nat. change (Z.to_nat 2) with 2%nat.
  change (Z.to_nat 3) with 3%nat. cbn [Z.ltb Z.compare List.nth].
  unfold u32. rewrite (wrap_id 32).
  2: { unfold in_u. rewrite Z.shiftl_mul_pow2 by lia. pose proof (Z.mod_pos_bound (Z.shiftr w (3 * 8)) (2 ^ 8) ltac:(lia)). lia. }
  apply Z.bits_inj'. intros i Hi. rewrite !Z.lor_spec, !Z.shiftl_spec by lia.
  assert (B : forall j s, 0 <= s -> Z.testbit (Z.shiftr w s mod 2 ^ 8) j = (0 <=? j) && (j <? 8) && Z.testbit w (j + s)).
  { intros j s Hs. destruct (Z.leb_spec 0 j); [| by rewrite Z.testbit_neg_r]. rewrite Z.testbit_mod_pow2, Z.shiftr_spec by lia. done. }
  rewrite !B by lia.
  replace (i - 8 + 1 * 8) with i by lia. replace (i - 16 + 2 * 8) with i by lia. replace (i - 24 + 3 * 8) with i by lia.
  replace (i + 0 * 8) with i by lia.
  destruct (Z.lt_ge_cases i 32) as [Hl | Hg].
  - destruct (Z.testbit w i); rewrite ?andb_true_r, ?andb_false_r; [| done].
    destruct (Z.leb_spec 0 i), (Z.ltb_spec i 8), (Z.leb_spec 0 (i - 8)), (Z.ltb_spec (i - 8) 8), (Z.leb_spec 0 (i - 16)),
      (Z.ltb_spec (i - 16) 8), (Z.leb_spec 0 (i - 24)), (Z.ltb_spec (i - 24) 8); cbn; lia.
  - assert (Z.testbit w i = false) as E.
    { rewrite <- (Z.mod_small w (2 ^ 32)), Z.testbit_mod_pow2 by lia. by destruct (Z.ltb_spec i 32); [lia |]. }
    rewrite E, !andb_false_r. done.
Qed.

Lemma snapshot_packed cl cr st fl bu sv : 0 <= cl < 512 -> 0 <= cr < 512 -> 0 <= st < 8 -> 0 <= fl < 8 -> 0 <= bu < 2 -> 0 <= sv < 2 ->
  Z.lor (Z.lor cl (u32 (Z.shiftl cr 9)))
    (Z.lor (Z.lor (Z.lor (Z.shiftl st 18) (Z.shiftl fl 21)) (Z.shiftl bu 24)) (Z.shiftl sv 25)) = snapshot_word cl cr st fl bu sv.
Proof.
  intros. unfold snapshot_word, u32. rewrite wrap_id by (unfold in_u; rewrite Z.shiftl_mul_pow2 by lia; lia).
  rewrite !Z.lor_assoc. rewrite (lor_shift cl cr 9) by (unfold in_u; lia). rewrite (lor_shift _ st 18) by (unfold in_u; lia).
  rewrite (lor_shift _ fl 21) by (unfold in_u; lia). rewrite (lor_shift _ bu 24) by (unfold in_u; lia).
  rewrite (lor_shift _ sv 25) by (unfold in_u; lia). done.
Qed.
Lemma snapshot_unpacked cl cr st fl bu sv : 0 <= cl < 512 -> 0 <= cr < 512 -> 0 <= st < 8 -> 0 <= fl < 8 -> 0 <= bu < 2 -> 0 <= sv < 2 ->
  let w := snapshot_word cl cr st fl bu sv in
  in_u 26 w /\ Z.land w 511 = cl /\ Z.land (Z.shiftr w 9) 511 = cr /\ Z.land (Z.shiftr w 18) 7 = st /\ Z.land (Z.shiftr w 21) 7 = fl /\
  negb (Z.land w (Z.shiftl 1 24) =? 0) = (bu =? 1) /\ negb (Z.land w (Z.shiftl 1 25) =? 0) = (sv =? 1) /\ Z.shiftr w 26 = 0.
Proof.
  intros ? ? ? ? ? ? w. subst w. unfold snapshot_word, in_u. rewrite !land_shiftl_testbit, !Z.testbit_eqb by lia.
  change 511 with (Z.ones 9). change 7 with (Z.ones 3). rewrite !Z.land_ones, !Z.shiftr_div_pow2 by lia.
  change (2 ^ 9) with 512. change (2 ^ 18) with 262144. change (2 ^ 21) with 2097152.
  change (2 ^ 24) with 16777216. change (2 ^ 25) with 33554432. change (2 ^ 26) with 67108864. change (2 ^ 3) with 8.
  splits; Z.to_euclidean_division_equations; lia.
Qed.

Lemma state_code_range s : 0 <= state_code s <= 5.
Proof. destruct s; cbn; lia. Qed.
Lemma fault_code_range f : 0 <= fault_code f <= 5.
Proof. destruct f; cbn; lia. Qed.
Lemma b2z_flag b : 0 <= b2z b < 2 /\ (b2z b =? 1) = b.
Proof. destruct b; cbn; lia. Qed.

(** Reporting snapshot.  A snapshot whose speeds (when valid) are within
    510 mm/s packs into four bytes that are accepted as valid and read back the
    state, the fault, both flags, and each speed to the nearest 2 mm/s away from
    zero (error at most 1 mm/s, never the opposite sign); other speeds are
    refused. *)
Theorem motion_snapshot_roundtrip s f busy sv left right :
  match motion_snapshot_pack s f busy sv left right with
  | None => sv = true /\ (mms_ok left = false \/ mms_ok right = false)
  | Some b =>
      length b = 4%nat /\ motion_snapshot_valid b = true /\ motion_snapshot_state b = state_code s /\
      motion_snapshot_fault b = fault_code f /\ motion_snapshot_busy b = busy /\ motion_snapshot_speed_valid b = sv /\
      (sv = true -> Z.abs (motion_snapshot_left_mms b - left) <= 1 /\ 0 <= motion_snapshot_left_mms b * left /\
                    Z.abs (motion_snapshot_right_mms b - right) <= 1 /\ 0 <= motion_snapshot_right_mms b * right) /\
      (sv = false -> motion_snapshot_left_mms b = 0 /\ motion_snapshot_right_mms b = 0)
  end.
Proof.
  unfold motion_snapshot_pack. destruct (sv && _) eqn:Eok.
  { apply andb_true_iff in Eok as [-> Eok]. rewrite orb_true_iff, !negb_true_iff in Eok. auto. }
  pose proof (state_code_range s) as Hs. pose proof (fault_code_range f) as Hf.
  destruct (b2z_flag busy) as [Hb Hb'], (b2z_flag sv) as [Hv Hv'].
  set (cl := if sv then speed_code left else 0). set (cr := if sv then speed_code right else 0).
  assert (C : (0 <= cl < 512 /\ 0 <= cr < 512) /\ (if sv then cl <> 256 /\ cr <> 256 /\
      Z.abs (speed_value cl - left) <= 1 /\ 0 <= speed_value cl * left /\
      Z.abs (speed_value cr - right) <= 1 /\ 0 <= speed_value cr * right else cl = 0 /\ cr = 0)).
  { subst cl cr. destruct sv; [| lia]. cbn [andb] in Eok. rewrite orb_false_iff, !negb_false_iff in Eok.
    destruct Eok as [E1 E2]. pose proof (speed_code_ok left E1) as A. pose proof (speed_code_ok right E2) as B. cbv zeta in A, B. tauto. }
  destruct C as [[Cl Cr] C].
  assert (EQ : (if sv then Z.lor (speed_code left) (u32 (Z.shiftl (speed_code right) 9)) else 0) = Z.lor cl (u32 (Z.shiftl cr 9))).
  { subst cl cr. by destruct sv. }
  cbv zeta. rewrite EQ, snapshot_packed by lia. set (w := snapshot_word _ _ _ _ _ _).
  destruct (snapshot_unpacked cl cr (state_code s) (fault_code f) (b2z busy) (b2z sv)) as (W & U1 & U2 & U3 & U4 & U5 & U6 & U7);
    try lia. fold w in W, U1, U2, U3, U4, U5, U6, U7.
  assert (in_u 32 w) as W32 by (unfold in_u in *; lia).
  unfold motion_snapshot_valid, motion_snapshot_state, motion_snapshot_fault, motion_snapshot_busy, motion_snapshot_speed_valid,
    motion_snapshot_left_mms, motion_snapshot_right_mms. unfold MOTION_SNAPSHOT_BYTES. rewrite word_of_bytes by done. cbv zeta.
  rewrite U1, U2, U3, U4, U5, U6, U7, Hb', Hv'. splits; try done.
  - cbn [negb orb Z.eqb]. change (state_code MOTION_FAULT) with 5. change (fault_code MOTION_FAULT_TIMEOUT) with 5.
    destruct (Z.ltb_spec 5 (state_code s)), (Z.ltb_spec 5 (fault_code f)); try lia. cbn [orb].
    destruct (Z.land w (Z.shiftl 1 25) =? 0) eqn:E; rewrite Hv' in U6; cbn in U6; subst sv; cbn in C; lia.
  - intros ->. tauto.
  - intros ->. destruct C as [-> ->]. done.
Qed.
