(* ===== verification/Drive.v ===== *)
(** * Drive controller

    Models [controller/s3_drive.{c,h}]: the owner of the motion requests.  Each
    cycle it drains the motion reports, runs line navigation on the sensor frame
    and moves between OFF, FOLLOW, BRAKING, MANOEUVRE, REACQUIRE, HALTED and
    FAULT; with [APP_S5] it also runs the obstacle detour.

    The function pointers of [s3_drive_port_t], the motion requests and the
    subsystem 5 calls leave this file: each is recorded in [calls], newest first,
    and its reply is an arbitrary function of the calls made so far (the record
    [port]).  The compile-time switch [APP_S5] is the boolean [app_s5]; the fields
    it guards exist in both builds and are not used when it is off. *)
From S2P Require Import Prelude CFloat BitCodec MotionController MotionPack IrSensing LineDetection.
From S2P Require Import ObstacleScan ObstacleCodec Avoidance Navigation.

Inductive s3_drive_state_t :=
  S3_DRIVE_OFF | S3_DRIVE_FOLLOW | S3_DRIVE_BRAKING | S3_DRIVE_MANOEUVRE | S3_DRIVE_REACQUIRE | S3_DRIVE_HALTED |
  S3_DRIVE_FAULT.
#[export] Instance drive_state_eq_dec : EqDecision s3_drive_state_t.
Proof. solve_decision. Defined.
Inductive s3_drive_reason_t :=
  S3_DRIVE_OK | S3_DRIVE_SENSOR_FAULT | S3_DRIVE_MOTION_FAULT | S3_DRIVE_REJECTED | S3_DRIVE_LINE_LOST |
  S3_DRIVE_NO_DIRECTION | S3_DRIVE_UNMAPPED | S3_DRIVE_TIMEOUT | S3_DRIVE_REPORT_FAULT | S3_DRIVE_BAD_INPUT |
  S3_DRIVE_TERRAIN_FAULT.
Inductive s3_reset_result_t := S3_RESET_IDLE | S3_RESET_PENDING | S3_RESET_OK | S3_RESET_FAILED.
#[export] Instance reset_result_eq_dec : EqDecision s3_reset_result_t.
Proof. solve_decision. Defined.
Definition S3_RESET_WAIT_US : Z := 500000.
Definition S3_BRAKE_WAIT_US : Z := 500000.
Definition S3_MANOEUVRE_WAIT_US : Z := 10000000.
Definition S3_REACQUIRE_WAIT_US : Z := 1000000.
Definition S3_PENDING_WAIT_US : Z := 5000000.
Definition S3_MIN_ADVANCE_M : float := flit 3 1000.
Definition MOTION_REPORT_QUEUE_LEN : nat := 8.

(** [drive] is a function pointer: whether it is set. *)
Record s3_drive_options_t := {
  cross_straight : bool; turn_advance_m : float; advance_mps : float; drive_set : bool; pending_wait_us : Z;
  turn_line_window_us : Z; search_deg : float; search_mps : float; track_m : float
}.
Definition s3_drive_default_options : s3_drive_options_t :=
  {| cross_straight := false; turn_advance_m := fzero; advance_mps := flit 10 100; drive_set := false;
     pending_wait_us := S3_PENDING_WAIT_US; turn_line_window_us := 0; search_deg := fzero; search_mps := flit 5 100;
     track_m := flit 116 1000 |}.

Record motion_feedback_t := {
  fb_centre_m : double; fb_timestamp_us : Z; fb_epoch : Z; fb_state : motion_state_t; fb_fault : motion_fault_t;
  fb_valid : bool; fb_braked : bool; fb_command_id : Z; fb_report_loss_count : Z
}.
Definition zero_feedback : motion_feedback_t :=
  {| fb_centre_m := S754_zero false; fb_timestamp_us := 0; fb_epoch := 0; fb_state := MOTION_IDLE;
     fb_fault := MOTION_FAULT_NONE; fb_valid := false; fb_braked := false; fb_command_id := 0; fb_report_loss_count := 0 |}.

(** ** Calls that leave the drive *)
Inductive call :=
| CVelocity (left right : float)
| CManoeuvre (m : Z)
| CStop
| CReport
| CCommandId
| CReset
| CHeartbeat (enabled : bool)
| COptDrive (m speed : float)
| CDrive (m speed : float)
| CTurn (deg speed : float)
| CSnapshot
| CScan (id : Z)
| CPeek (id angle : Z)
| CCancelScan
| CStatus (s : s5_state_t) (f : s5_fault_t) (r : s5_route_t).
(** A request that sets the wheels moving. *)
Definition moves (x : call) : bool :=
  match x with CVelocity _ _ | CManoeuvre _ | COptDrive _ _ | CDrive _ _ | CTurn _ _ => true | _ => false end.

Inductive s5_snapshot_result_t := S5_SNAPSHOT_OK | S5_SNAPSHOT_BUSY | S5_SNAPSHOT_UNAVAILABLE | S5_SNAPSHOT_INVALID.
(** The replies, given the calls so far (the call that is answered comes first). *)
Record port := {
  request_reply : list call -> motion_result_t;   (** velocity, manoeuvre, drive, turn *)
  report_reply : list call -> option motion_report_t;
  command_id_reply : list call -> Z;
  reset_reply : list call -> bool;
  snapshot_reply : list call -> s5_snapshot_result_t * s5_observation_t; (** observation: only with OK *)
  scan_reply : list call -> bool                  (** scan and peek requests *)
}.

Record s3_drive_t := {
  external_hold : bool; navigation : s3_navigation_t; output : s3_navigation_output_t; feedback : motion_feedback_t;
  d_state : s3_drive_state_t; reason : s3_drive_reason_t; d_pending : Z; d_phase_us : Z; pending_us : Z; reset_us : Z;
  report_loss_count : Z; d_command_id : Z; cancel_id : Z; d_configured : bool; waiting_stop : bool;
  reset_result : s3_reset_result_t; options : s3_drive_options_t; junction_m : double; touch_us : Z; turn : Z;
  advancing : bool; touched : bool; searching : bool; search_sign : Z; search_leg : Z; search_us : Z;
  obstacle : s5_avoidance_t; snapshot_bytes : bytes; snapshot_us : Z; snapshot_valid : bool; obstacle_scan_id : Z;
  obstacle_active : bool
}.
#[export] Instance drive_settable : Settable s3_drive_t := fun r =>
  Build_s3_drive_t (external_hold r) (navigation r) (output r) (feedback r) (d_state r) (reason r) (d_pending r)
    (d_phase_us r) (pending_us r) (reset_us r) (report_loss_count r) (d_command_id r) (cancel_id r) (d_configured r)
    (waiting_stop r) (reset_result r) (options r) (junction_m r) (touch_us r) (turn r) (advancing r) (touched r)
    (searching r) (search_sign r) (search_leg r) (search_us r) (obstacle r) (snapshot_bytes r) (snapshot_us r)
    (snapshot_valid r) (obstacle_scan_id r) (obstacle_active r).
Definition zero_s5_config : s5_config_t :=
  {| detect_mm := 0; emergency_mm := 0; profile_mm := 0; half_width_mm := 0; margin_mm := 0; max_depth_mm := 0;
     recovery_gate_mm := 0; max_offset_mm := 0; sensor_axle_mm := 0; cfg_speed_mms := 0 |}.
Definition zero_options : s3_drive_options_t :=
  {| cross_straight := false; turn_advance_m := fzero; advance_mps := fzero; drive_set := false; pending_wait_us := 0;
     turn_line_window_us := 0; search_deg := fzero; search_mps := fzero; track_m := fzero |}.
Definition zero_drive : s3_drive_t :=
  {| external_hold := false; navigation := zero_navigation; output := zero_output; feedback := zero_feedback;
     d_state := S3_DRIVE_OFF; reason := S3_DRIVE_OK; d_pending := 0; d_phase_us := 0; pending_us := 0; reset_us := 0;
     report_loss_count := 0; d_command_id := 0; cancel_id := 0; d_configured := false; waiting_stop := false;
     reset_result := S3_RESET_IDLE; options := zero_options; junction_m := S754_zero false; touch_us := 0; turn := 0;
     advancing := false; touched := false; searching := false; search_sign := 0; search_leg := 0; search_us := 0;
     obstacle := s5_avoidance_init zero_s5_config; snapshot_bytes := replicate S5_PACKET_BYTES 0; snapshot_us := 0;
     snapshot_valid := false; obstacle_scan_id := 0; obstacle_active := false |}.

(** The drive and the calls it has made. *)
Record ctx := { dr : s3_drive_t; calls : list call }.
#[export] Instance ctx_settable : Settable ctx := fun r => Build_ctx (dr r) (calls r).
Notation "c <|| f := v ||>" := (c <| dr := (dr c) <| f := v |> |>)
  (at level 12, left associativity, f at level 10, v at level 200) : car_scope.
Definition make (c : ctx) (x : call) : ctx := c <| calls := x :: calls c |>.

Definition running (s : s3_drive_state_t) : bool :=
  match s with S3_DRIVE_FOLLOW | S3_DRIVE_BRAKING | S3_DRIVE_MANOEUVRE | S3_DRIVE_REACQUIRE => true | _ => false end.
Definition finite_f (x : float) : bool := (x ==. x) && ((x - x)%f32 ==. fzero).
Definition feedback_fresh (d : s3_drive_t) (now : Z) : bool :=
  fb_valid (feedback d) &&
  (elapsed now (fb_timestamp_us (feedback d)) <=? max_sample_age_us (nav_config (navigation d))).
(** [(bits & flag) != 0] *)
Definition has_event (d : s3_drive_t) (e : Z) : bool := negb (Z.land (events (output d)) e =? 0).

Section Drive.
Context (app_s5 : bool) (p : port).

(** [subsystem5_set_controller_status(...)] with the state of the detour. *)
Definition publish_obstacle (c : ctx) : ctx :=
  let a := obstacle (dr c) in make c (CStatus (Avoidance.state a) (Avoidance.fault a) (route (plan a))).
Definition interrupted (a : s5_avoidance_t) (state : s3_drive_state_t) (active : bool) : s5_avoidance_t :=
  if bool_decide (state = S3_DRIVE_FAULT) then
    if active && negb (bool_decide (Avoidance.state a = S5_FAULT))
    then a <| Avoidance.state := S5_FAULT |> <| Avoidance.fault := S5_INTERRUPTED |> else a
  else s5_avoidance_abort a.
Definition halt_obstacle (c : ctx) (state : s3_drive_state_t) : ctx :=
  publish_obstacle (make c CCancelScan <|| snapshot_valid := false ||>
    <|| obstacle := interrupted (obstacle (dr c)) state (obstacle_active (dr c)) ||> <|| obstacle_active := false ||>).
(** What [halt] leaves in the drive. *)
Definition halted_output (out : s3_navigation_output_t) (l : s3_run_state_t) : s3_navigation_output_t :=
  out <| steering := {| steer_valid := false; left_mps := left_mps (steering out); right_mps := right_mps (steering out) |} |>
      <| Navigation.action := S3_NAV_NONE |>
      <| events := Z.land (events out) (Z.lor S3_EVENT_SENSOR_FAULT S3_EVENT_BARCODE) |>
      <| out_lifecycle := l |> <| diagnostic := true |>.
Definition halt_drive (d : s3_drive_t) (state : s3_drive_state_t) (why : s3_drive_reason_t) : s3_drive_t :=
  let n := (s3_navigation_end_run (navigation d)).2 in
  d <| external_hold := false |> <| navigation := n |> <| d_pending := S3_NAV_NONE |> <| turn := S3_NAV_NONE |>
    <| advancing := false |> <| touched := false |> <| searching := false |> <| d_command_id := 0 |> <| cancel_id := 0 |>
    <| waiting_stop := false |> <| output := halted_output (output d) (lifecycle n) |>
    <| d_state := state |> <| reason := why |>.
Definition halt (c : ctx) (state : s3_drive_state_t) (why : s3_drive_reason_t) : ctx :=
  let c := c <|| reset_result := if bool_decide (reset_result (dr c) = S3_RESET_PENDING) then S3_RESET_FAILED
                                 else reset_result (dr c) ||> in
  let c := if app_s5 then halt_obstacle c state else c in
  let c := make (make c CStop) (CHeartbeat false) in
  c <| dr := halt_drive (dr c) state why |>.

(** ** Lifecycle operations *)
Definition s3_drive_terrain_fault (c : ctx) : ctx :=
  if d_configured (dr c) then halt c S3_DRIVE_FAULT S3_DRIVE_TERRAIN_FAULT else c.

(** [port_set]: every function pointer of the port is set. *)
Definition s3_drive_init (port_set : bool) (cfg : option s3_navigation_config_t) : bool * s3_drive_t :=
  let d := zero_drive in
  if negb port_set then (false, d)
  else
    let '(ok, n) := s3_navigation_init cfg in
    let d := d <| navigation := n |> in
    if negb ok then (false, d)
    else
      let d := d <| options := s3_drive_default_options |> <| d_configured := true |> in
      (true, if app_s5 then d <| obstacle := s5_avoidance_init s5_defaults |> else d).

Definition disarmed (s : s3_drive_state_t) : bool :=
  match s with S3_DRIVE_OFF | S3_DRIVE_HALTED | S3_DRIVE_FAULT => true | _ => false end.
Definition options_bad (o : s3_drive_options_t) : bool :=
  negb (finite_f (turn_advance_m o)) || negb (finite_f (advance_mps o)) || (turn_advance_m o <. fzero) ||
  (turn_advance_m o >. flit 30 100) ||
  ((turn_advance_m o >. fzero) && (negb (drive_set o) || (advance_mps o <=. fzero))) ||
  (pending_wait_us o =? 0) || (0x80000000 <=? pending_wait_us o) || (0x80000000 <=? turn_line_window_us o) ||
  negb (finite_f (search_deg o)) || (search_deg o <. fzero) || (search_deg o >. flit 60 1) ||
  ((search_deg o >. fzero) &&
     ((turn_line_window_us o =? 0) || negb (finite_f (search_mps o)) || (search_mps o <=. fzero) ||
      (search_mps o >. flit 30 100) || negb (finite_f (track_m o)) || (track_m o <. flit 5 100) ||
      (track_m o >. flit 50 100))).
Definition s3_drive_set_options (c : ctx) (o : option s3_drive_options_t) : bool * ctx :=
  match o with
  | None => (false, c)
  | Some o =>
      if negb (d_configured (dr c)) || negb (disarmed (d_state (dr c))) || options_bad o then (false, c)
      else (true, c <|| options := o ||>)
  end.

(** [d->obstacle_snapshot_valid = s5_observation_pack(o, d->obstacle_snapshot)] *)
Definition store_snapshot (c : ctx) (o : s5_observation_t) (now : Z) : ctx :=
  match s5_observation_pack o with
  | Some b => c <|| snapshot_bytes := b ||> <|| snapshot_valid := true ||> <|| snapshot_us := now ||>
  | None => c <|| snapshot_valid := false ||> <|| snapshot_us := now ||>
  end.

Definition start_obstacle (c : ctx) (o : s5_observation_t) (now : Z) : ctx :=
  let c := store_snapshot c o now in
  make (c <|| obstacle := s5_avoidance_abort (obstacle (dr c)) <| Avoidance.fault := S5_OK |> ||>)
    (CStatus S5_IDLE S5_OK S5_ROUTE_NONE).
Definition motion_at_rest (d : s3_drive_t) : bool :=
  bool_decide (fb_state (feedback d) = MOTION_IDLE) && bool_decide (fb_fault (feedback d) = MOTION_FAULT_NONE) &&
  fb_braked (feedback d).
Definition snapshot_ok (r : s5_snapshot_result_t) : bool := match r with S5_SNAPSHOT_OK => true | _ => false end.
Definition s3_drive_start (c : ctx) (now : Z) : bool * ctx :=
  let c := if app_s5 then make c CSnapshot else c in
  let '(result, o) := snapshot_reply p (calls c) in
  if app_s5 && (negb (snapshot_ok result) || negb (s5_range_ready o now)) then (false, c)
  else if negb (d_configured (dr c)) ||
    (negb (bool_decide (d_state (dr c) = S3_DRIVE_OFF)) && negb (bool_decide (d_state (dr c) = S3_DRIVE_HALTED))) ||
    negb (feedback_fresh (dr c) now) || negb (motion_at_rest (dr c)) then (false, c)
  else
    let '(ok, n) := s3_navigation_start (navigation (dr c)) now in
    let c := c <|| navigation := n ||> in
    if negb ok then (false, c)
    else
      let c := c <|| navigation := (s3_navigation_set_mode n S3_MODE_TRACK).2 ||> in
      let c := if app_s5 then start_obstacle c o now else c in
      let c := c <|| d_state := S3_DRIVE_FOLLOW ||> <|| reason := S3_DRIVE_OK ||> <|| d_pending := S3_NAV_NONE ||> in
      (true, make c (CHeartbeat true)).

Definition s3_drive_stop (c : ctx) : ctx :=
  if negb (d_configured (dr c)) then c
  else if bool_decide (d_state (dr c) = S3_DRIVE_FAULT) ||
          bool_decide (lifecycle (navigation (dr c)) = S3_RUN_FAULT_LATCHED)
  then halt c S3_DRIVE_FAULT (reason (dr c))
  else halt c S3_DRIVE_OFF S3_DRIVE_OK.

Definition s3_drive_reset (c : ctx) (now : Z) : bool * ctx :=
  if negb (d_configured (dr c)) || negb (bool_decide (d_state (dr c) = S3_DRIVE_FAULT)) ||
     bool_decide (reset_result (dr c) = S3_RESET_PENDING) then (false, c)
  else
    let c := make (make c CStop) (CHeartbeat false) <|| reset_result := S3_RESET_FAILED ||> in
    let c := make c CReset in
    if negb (reset_reply p (calls c)) then (false, c)
    else (true, c <|| reset_us := now ||> <|| reset_result := S3_RESET_PENDING ||>).
Definition s3_drive_reset_result (c : ctx) : s3_reset_result_t := reset_result (dr c).

Definition finish_reset (c : ctx) (now : Z) : ctx :=
  if S3_RESET_WAIT_US <=? elapsed now (reset_us (dr c)) then c <|| reset_result := S3_RESET_FAILED ||>
  else if negb (feedback_fresh (dr c) now) || negb (later (fb_timestamp_us (feedback (dr c))) (reset_us (dr c))) ||
          negb (motion_at_rest (dr c)) then c
  else
    let '(ok, n) :=
      if bool_decide (lifecycle (navigation (dr c)) = S3_RUN_FAULT_LATCHED)
      then s3_navigation_reset_fault (navigation (dr c)) now else (true, navigation (dr c)) in
    let c := c <|| navigation := n ||> in
    if negb ok || negb (s3_navigation_readiness n now =? 0) then c
    else c <|| d_state := S3_DRIVE_OFF ||> <|| reason := S3_DRIVE_OK ||>
           <|| output := output (dr c) <| out_lifecycle := lifecycle n |> <| stop_requested := false |> ||>
           <|| reset_result := S3_RESET_OK ||>.

(** ** Manoeuvres *)
Definition manoeuvre_of (turn : Z) : option Z :=
  if turn =? S3_NAV_LEFT then Some MANOEUVRE_LEFT else if turn =? S3_NAV_RIGHT then Some MANOEUVRE_RIGHT
  else if turn =? S3_NAV_STRAIGHT then Some MANOEUVRE_STRAIGHT
  else if turn =? S3_NAV_UTURN then Some MANOEUVRE_U_TURN else None.
Definition accepted (r : motion_result_t) : bool := bool_decide (r = MOTION_OK).
(** [d->command_id = d->port.command_id(); return d->command_id != 0] *)
Definition take_command_id (c : ctx) : bool * ctx :=
  let c := make c CCommandId in
  let id := u8 (command_id_reply p (calls c)) in
  (negb (id =? 0), c <|| d_command_id := id ||>).
Definition request_turn (c : ctx) : bool * ctx :=
  match manoeuvre_of (turn (dr c)) with
  | None => (false, c)
  | Some m =>
      let c := make c (CManoeuvre m) in
      if negb (accepted (request_reply p (calls c))) then (false, c) else take_command_id c
  end.
Definition start_manoeuvre (c : ctx) : bool * ctx :=
  let travelled := (fb_centre_m (feedback (dr c)) - junction_m (dr c))%f64 in
  let o := options (dr c) in
  let advance := (turn_advance_m o - float_of_double travelled)%f32 in
  let c := c <|| touched := false ||> in
  if ((turn (dr c) =? S3_NAV_LEFT) || (turn (dr c) =? S3_NAV_RIGHT)) && (turn_advance_m o >. fzero) &&
     (advance >. S3_MIN_ADVANCE_M) then
    let c := make c (COptDrive advance (advance_mps o)) in
    if negb (accepted (request_reply p (calls c))) then (false, c)
    else take_command_id (c <|| advancing := true ||>)
  else request_turn (c <|| advancing := false ||>).
Definition straight_across (d : s3_drive_t) : bool :=
  cross_straight (options d) && obs_valid (out_line (output d)) && junction_candidate (out_line (output d)) &&
  ((d_pending d =? S3_NAV_NONE) || (d_pending d =? S3_NAV_STRAIGHT)).
Definition request_stop (c : ctx) (now : Z) : ctx :=
  if negb (waiting_stop (dr c)) then
    make (c <|| cancel_id := d_command_id (dr c) ||> <|| d_command_id := 0 ||> <|| waiting_stop := true ||>
            <|| d_phase_us := now ||>) CStop
  else c.
Definition stopped_after_request (d : s3_drive_t) : bool :=
  fb_braked (feedback d) && bool_decide (fb_state (feedback d) = MOTION_IDLE) && (cancel_id d =? 0) &&
  later (fb_timestamp_us (feedback d)) (d_phase_us d).

(** ** Reports *)
(** One report of a running cycle: is it expected, and does it complete the command. *)
Definition take_report (d : s3_drive_t) (healthy done : bool) (r : motion_report_t) : s3_drive_t * bool * bool :=
  let healthy := if b_lost r then false else healthy in
  if command_id r =? 0 then (d, false, done)
  else if command_id r =? cancel_id d then
    (d <| cancel_id := 0 |>, healthy && bool_decide (outcome r = MOTION_OUTCOME_CANCELLED), done)
  else if command_id r =? d_command_id d then
    if bool_decide (d_state d = S3_DRIVE_MANOEUVRE) && bool_decide (outcome r = MOTION_OUTCOME_DONE) && negb done &&
       bool_decide (report_fault r = MOTION_FAULT_NONE) then (d, healthy, true)
    else (d, false, done)
  else (d, healthy, done).
(** At most [fuel] reads; the loop of the code runs [MOTION_REPORT_QUEUE_LEN] times. *)
Fixpoint drain (fuel : nat) (c : ctx) (is_running healthy done : bool) : ctx * bool * bool :=
  match fuel with
  | O => (c, healthy, done)
  | S fuel =>
      let c := make c CReport in
      match report_reply p (calls c) with
      | None => (c, healthy, done)
      | Some r =>
          if negb is_running then drain fuel c is_running healthy done
          else
            let '(d, healthy, done) := take_report (dr c) healthy done r in
            drain fuel (c <| dr := d |>) is_running healthy done
      end
  end.
Definition receive_reports (c : ctx) (is_running : bool) : ctx * bool * bool :=
  drain MOTION_REPORT_QUEUE_LEN c is_running true false.

(** ** Search for the line after a turn *)
Definition search_leg_us (d : s3_drive_t) : Z :=
  let rad := (search_deg (options d) * flit 174533 10000000)%f32 in
  let s := (rad * flit 1 2 * track_m (options d) / search_mps (options d))%f32 in
  u32 (u32 (trunc (s * flit 1000000 1)%f32) + 1).
Definition start_search (c : ctx) (now : Z) : ctx :=
  let d := dr c in
  let turn_sign := if turn d =? S3_NAV_RIGHT then -1 else 1 in
  let spin_us := elapsed now (d_phase_us d) in
  let overshoot := touched d && (0 <? spin_us) && (elapsed now (touch_us d) <? spin_us / 2) in
  c <|| search_sign := if overshoot then - turn_sign else turn_sign ||> <|| search_leg := 0 ||> <|| search_us := now ||>
    <|| d_phase_us := now ||> <|| searching := true ||>.
Definition search_step (c : ctx) (now : Z) : ctx :=
  let line := out_line (output (dr c)) in
  if obs_valid line && touching line then
    let c := make (c <|| searching := false ||>) CStop in
    c <|| navigation := (s3_navigation_set_mode (navigation (dr c)) S3_MODE_TRACK).2 ||>
      <|| d_state := S3_DRIVE_REACQUIRE ||> <|| d_phase_us := now ||>
  else
    let over := u32 (search_leg_us (dr c) * (if search_leg (dr c) =? 0 then 1 else 2)) <=? elapsed now (search_us (dr c)) in
    if over && negb (search_leg (dr c) =? 0) then halt c S3_DRIVE_HALTED S3_DRIVE_LINE_LOST
    else
      let d := dr c in
      let c := c <|| search_leg := if over then 1 else search_leg d ||>
                 <|| search_sign := if over then - search_sign d else search_sign d ||>
                 <|| search_us := if over then now else search_us d ||> in
      let v := (search_mps (options (dr c)) * float_of_Z (search_sign (dr c)))%f32 in
      let c := make c (CVelocity (-. v) v) in
      if negb (accepted (request_reply p (calls c))) then halt c S3_DRIVE_FAULT S3_DRIVE_REJECTED else c.

(** ** Following the line *)
Definition send_velocity (c : ctx) (left right : float) : ctx :=
  let c := make c (CVelocity left right) in
  if negb (accepted (request_reply p (calls c))) then halt c S3_DRIVE_FAULT S3_DRIVE_REJECTED
  else
    let '(ok, c) := take_command_id c in
    if negb ok then halt c S3_DRIVE_FAULT S3_DRIVE_REPORT_FAULT else c.
Definition follow_steer (c : ctx) (now : Z) : ctx :=
  let out := output (dr c) in
  if steer_valid (steering out) then send_velocity c (left_mps (steering out)) (right_mps (steering out))
  else if straight_across (dr c) then
    let base := base_mps (cfg_steering (nav_config (navigation (dr c)))) in send_velocity c base base
  else request_stop c now.
Definition follow_wait (c : ctx) (now : Z) : ctx :=
  if waiting_stop (dr c) then
    if S3_BRAKE_WAIT_US <? elapsed now (d_phase_us (dr c)) then halt c S3_DRIVE_FAULT S3_DRIVE_TIMEOUT
    else if negb (stopped_after_request (dr c)) then c
    else if negb (steer_valid (steering (output (dr c)))) && negb (straight_across (dr c)) then c
    else follow_steer (c <|| waiting_stop := false ||>) now
  else follow_steer c now.
Definition follow_junction (c : ctx) (now : Z) : ctx :=
  let pending := d_pending (dr c) in
  if has_event (dr c) S3_EVENT_JUNCTION then
    if cross_straight (options (dr c)) && ((pending =? S3_NAV_NONE) || (pending =? S3_NAV_STRAIGHT))
    then follow_wait (c <|| d_pending := S3_NAV_NONE ||>) now
    else if pending =? S3_NAV_NONE then halt c S3_DRIVE_HALTED S3_DRIVE_NO_DIRECTION
    else
      let c := c <|| junction_m := fb_centre_m (feedback (dr c)) ||> in
      request_stop c now <|| d_state := S3_DRIVE_BRAKING ||>
  else follow_wait c now.
Definition follow_pending (c : ctx) (now : Z) : ctx :=
  if negb (d_pending (dr c) =? S3_NAV_NONE) && (pending_wait_us (options (dr c)) <? elapsed now (pending_us (dr c)))
  then halt c S3_DRIVE_HALTED S3_DRIVE_TIMEOUT
  else follow_junction c now.
Definition follow (c : ctx) (now : Z) : ctx :=
  let out := output (dr c) in
  if has_event (dr c) S3_EVENT_LINE_LOST then halt c S3_DRIVE_HALTED S3_DRIVE_LINE_LOST
  else if has_event (dr c) S3_EVENT_BARCODE then
    if Navigation.action out =? S3_NAV_NONE then halt c S3_DRIVE_HALTED S3_DRIVE_UNMAPPED
    else if negb (d_pending (dr c) =? S3_NAV_NONE) then halt c S3_DRIVE_HALTED S3_DRIVE_NO_DIRECTION
    else follow_pending (c <|| d_pending := Navigation.action out ||> <|| pending_us := now ||>) now
  else follow_pending c now.

(** ** The obstacle detour *)
Definition zero_s5_observation : s5_observation_t :=
  {| range_us := 0; scan_us := 0; range_mm := 0; scan_id := 0; obs_profile := zero_profile; range_valid := false;
     no_echo := false; obs_scan_done := false |}.
(** The result and what [*out] holds after it (it starts as zeros). *)
Definition obstacle_snapshot (c : ctx) (now : Z) : bool * s5_observation_t * ctx :=
  let c := make c CSnapshot in
  let '(result, o) := snapshot_reply p (calls c) in
  match result with
  | S5_SNAPSHOT_OK =>
      let c := store_snapshot c o now in (snapshot_valid (dr c), o, c)
  | S5_SNAPSHOT_BUSY =>
      if snapshot_valid (dr c) && (elapsed now (snapshot_us (dr c)) <=? S5_RANGE_FRESH_US) then
        match s5_observation_unpack (snapshot_bytes (dr c)) with
        | Some o => (true, o, c)
        | None => (false, zero_s5_observation, c)
        end
      else (false, zero_s5_observation, c <|| snapshot_valid := false ||>)
  | _ => (false, zero_s5_observation, c <|| snapshot_valid := false ||>)
  end.
Definition fail_obstacle (c : ctx) (f : s5_fault_t) (why : s3_drive_reason_t) : ctx :=
  halt (c <|| obstacle := obstacle (dr c) <| Avoidance.fault := f |> <| Avoidance.state := S5_FAULT |> ||>) S3_DRIVE_FAULT why.
(** [if (++d->obstacle_scan_id == 0) d->obstacle_scan_id = 1] *)
Definition next_scan_id (id : Z) : Z := let id := u16 (id + 1) in if id =? 0 then 1 else id.
(** The wheels command of a detour leg. *)
Definition detour_motion (c : ctx) (now : Z) (x : call) : bool * ctx :=
  let c := make c x in
  if negb (accepted (request_reply p (calls c))) then (false, c)
  else let '(ok, c) := take_command_id c in (ok, c <|| d_phase_us := now ||>).
(** Executes the action the avoidance machine proposes; false: it was refused. *)
Definition run_action (c : ctx) (now : Z) (request : s5_action_t) : bool * ctx :=
  let millis (v : Z) := (float_of_Z v / flit 1000 1)%f32 in
  match kind request with
  | S5_ACT_STOP => (true, make c CStop <|| d_phase_us := now ||> <|| d_command_id := 0 ||>)
  | S5_ACT_SCAN =>
      let c := c <|| waiting_stop := false ||> <|| obstacle_scan_id := next_scan_id (obstacle_scan_id (dr c)) ||> in
      let c := make c (CScan (obstacle_scan_id (dr c))) in (scan_reply p (calls c), c)
  | S5_ACT_PEEK =>
      let c := c <|| waiting_stop := false ||> <|| obstacle_scan_id := next_scan_id (obstacle_scan_id (dr c)) ||> in
      let c := make c (CPeek (obstacle_scan_id (dr c)) (u32 (value request))) in (scan_reply p (calls c), c)
  | S5_ACT_DRIVE => detour_motion c now (CDrive (millis (value request)) (millis (speed_mms request)))
  | S5_ACT_TURN => detour_motion c now (CTurn (float_of_Z (value request)) (millis (speed_mms request)))
  | S5_ACT_RESUME =>
      let c := c <|| obstacle_active := false ||> <|| waiting_stop := false ||> <|| d_command_id := 0 ||>
                 <|| cancel_id := 0 ||> in
      let c := c <|| pending_us := if negb (d_pending (dr c) =? S3_NAV_NONE)
                                   then u32 (pending_us (dr c) + elapsed now (started_us (obstacle (dr c))))
                                   else pending_us (dr c) ||> in
      (true, c <|| navigation := (s3_navigation_set_mode (navigation (dr c)) S3_MODE_TRACK).2 ||>
               <|| d_state := S3_DRIVE_FOLLOW ||>)
  | S5_ACT_NONE => (true, c)
  end.
(** The part of [obstacle_control] that runs while a detour is active. *)
Definition detour_step (c : ctx) (now : Z) (done have : bool) (o : s5_observation_t) : ctx :=
  let c := c <|| d_command_id := if done then 0 else d_command_id (dr c) ||> in
  let o := if negb (scan_id o =? obstacle_scan_id (dr c)) then
      {| range_us := range_us o; scan_us := scan_us o; range_mm := range_mm o; scan_id := scan_id o;
         obs_profile := obs_profile o; range_valid := range_valid o; no_echo := no_echo o; obs_scan_done := false |}
    else o in
  let d := dr c in
  let line := out_line (output d) in
  let input := {| in_now_us := now; in_centre_m := fb_centre_m (feedback d); stopped := stopped_after_request d;
                  motion_done := done; healthy := have && obs_valid line;
                  tape := if between (cfg_line (nav_config (navigation d))) then touching line else obs_present line;
                  Avoidance.junction := junction_candidate line; line_ready := steer_valid (steering_preview (output d));
                  observation := o |} in
  let '(request, a) := s5_avoidance_step (obstacle d) input in
  let c := c <|| obstacle := a ||> in
  if bool_decide (Avoidance.state a = S5_FAULT) then halt c S3_DRIVE_FAULT S3_DRIVE_BAD_INPUT
  else
    let '(ok, c) := run_action c now request in
    publish_obstacle (if negb ok then fail_obstacle c S5_MOTION_ERROR S3_DRIVE_REJECTED else c).
(** Starting a detour from FOLLOW. *)
Definition begin_detour (c : ctx) (now : Z) : ctx :=
  let c := c <|| obstacle := s5_avoidance_begin (obstacle (dr c)) now ||> <|| obstacle_active := true ||> in
  let c := request_stop c now <|| d_state := S3_DRIVE_MANOEUVRE ||> in
  c <|| navigation := (s3_navigation_set_mode (navigation (dr c)) S3_MODE_SUPPRESSED).2 ||>.
(** True: the cycle has been handled. *)
Definition obstacle_control (c : ctx) (now : Z) (done : bool) : bool * ctx :=
  let '(have, o, c) := obstacle_snapshot c now in
  if obstacle_active (dr c) then (true, detour_step c now done have o)
  else if negb have || negb (s5_range_ready o now) then (true, fail_obstacle c S5_BAD_RANGE S3_DRIVE_BAD_INPUT)
  else if negb (bool_decide (d_state (dr c) = S3_DRIVE_FOLLOW)) then
    if range_mm o <=? emergency_mm (av_config (obstacle (dr c)))
    then (true, fail_obstacle c S5_NO_PATH S3_DRIVE_BAD_INPUT) else (false, c)
  else if detect_mm (av_config (obstacle (dr c))) <? range_mm o then (false, c)
  else if has_event (dr c) S3_EVENT_LINE_LOST then (true, halt c S3_DRIVE_HALTED S3_DRIVE_LINE_LOST)
  else if has_event (dr c) S3_EVENT_BARCODE then
    if negb (d_pending (dr c) =? S3_NAV_NONE) || (Navigation.action (output (dr c)) =? S3_NAV_NONE)
    then (true, halt c S3_DRIVE_HALTED S3_DRIVE_UNMAPPED)
    else
      let c := c <|| d_pending := Navigation.action (output (dr c)) ||> <|| pending_us := now ||> in
      (true, detour_step (begin_detour c now) now done have o)
  else (true, detour_step (begin_detour c now) now done have o).

(** ** One cycle *)
Definition process_braking (c : ctx) (now : Z) : ctx :=
  if S3_BRAKE_WAIT_US <? elapsed now (d_phase_us (dr c)) then halt c S3_DRIVE_FAULT S3_DRIVE_TIMEOUT
  else if stopped_after_request (dr c) then
    let c := c <|| waiting_stop := false ||>
               <|| navigation := (s3_navigation_set_mode (navigation (dr c)) S3_MODE_SUPPRESSED).2 ||>
               <|| turn := d_pending (dr c) ||> in
    let '(ok, c) := start_manoeuvre c in
    if negb ok then halt c S3_DRIVE_FAULT S3_DRIVE_REJECTED
    else c <|| d_pending := S3_NAV_NONE ||> <|| d_state := S3_DRIVE_MANOEUVRE ||> <|| d_phase_us := now ||>
  else c.
Definition process_search (c : ctx) (now : Z) : ctx :=
  if S3_MANOEUVRE_WAIT_US <? elapsed now (d_phase_us (dr c)) then halt c S3_DRIVE_FAULT S3_DRIVE_TIMEOUT
  else search_step c now.
Definition turned (t : Z) : bool := (t =? S3_NAV_LEFT) || (t =? S3_NAV_RIGHT) || (t =? S3_NAV_UTURN).
(** The manoeuvre's own DONE report has arrived. *)
Definition manoeuvre_done (c : ctx) (now : Z) : ctx :=
  let c := make (c <|| d_command_id := 0 ||>) CStop in
  let d := dr c in
  let window := turn_line_window_us (options d) in
  if turned (turn d) && negb (window =? 0) && negb (touched d && (elapsed now (touch_us d) <=? window)) then
    if search_deg (options d) >. fzero then start_search c now else halt c S3_DRIVE_HALTED S3_DRIVE_LINE_LOST
  else
    c <|| navigation := (s3_navigation_set_mode (navigation d) S3_MODE_TRACK).2 ||>
      <|| d_state := S3_DRIVE_REACQUIRE ||> <|| d_phase_us := now ||>.
Definition manoeuvring (s : motion_state_t) : bool :=
  match s with MOTION_TURN | MOTION_DRIVE | MOTION_COMPLETE => true | _ => false end.
Definition process_manoeuvre (c : ctx) (now : Z) (done : bool) : ctx :=
  let line := out_line (output (dr c)) in
  let touch := negb (advancing (dr c)) && obs_valid line && touching line in
  let c := c <|| touch_us := if touch then now else touch_us (dr c) ||> <|| touched := touch || touched (dr c) ||> in
  if S3_MANOEUVRE_WAIT_US <? elapsed now (d_phase_us (dr c)) then halt c S3_DRIVE_FAULT S3_DRIVE_TIMEOUT
  else if done && advancing (dr c) then
    let '(ok, c) := request_turn (c <|| d_command_id := 0 ||> <|| advancing := false ||>) in
    if negb ok then halt c S3_DRIVE_FAULT S3_DRIVE_REJECTED else c <|| d_phase_us := now ||>
  else if done then manoeuvre_done c now
  else if negb (manoeuvring (fb_state (feedback (dr c)))) then halt c S3_DRIVE_FAULT S3_DRIVE_REJECTED
  else c.
Definition process_reacquire (c : ctx) (now : Z) : ctx :=
  let c := make c CStop in
  if S3_REACQUIRE_WAIT_US <? elapsed now (d_phase_us (dr c)) then halt c S3_DRIVE_HALTED S3_DRIVE_LINE_LOST
  else if steer_valid (steering (output (dr c))) && stopped_after_request (dr c) then c <|| d_state := S3_DRIVE_FOLLOW ||>
  else c.
(** The phases of a healthy running cycle. *)
Definition process_phase (c : ctx) (now : Z) (done : bool) : ctx :=
  match d_state (dr c) with
  | S3_DRIVE_FOLLOW => follow c now
  | S3_DRIVE_BRAKING => process_braking c now
  | S3_DRIVE_MANOEUVRE => if searching (dr c) then process_search c now else process_manoeuvre c now done
  | _ => process_reacquire c now
  end.
Definition motion_broken (d : s3_drive_t) (now : Z) : bool :=
  negb (feedback_fresh d now) || bool_decide (fb_state (feedback d) = MOTION_FAULT) ||
  negb (bool_decide (fb_fault (feedback d) = MOTION_FAULT_NONE)).
(** From the report check to the phase. *)
Definition process_running (c : ctx) (now : Z) (reports_healthy done : bool) : ctx :=
  if negb reports_healthy ||
     (negb (d_command_id (dr c) =? 0) && negb (fb_command_id (feedback (dr c)) =? d_command_id (dr c)))
  then halt c S3_DRIVE_FAULT S3_DRIVE_REPORT_FAULT
  else if external_hold (dr c) then make (request_stop c now) (CHeartbeat false)
  else
    let c := make c (CHeartbeat true) in
    let '(handled, c) := if app_s5 then obstacle_control c now done else (false, c) in
    if handled then c else process_phase c now done.

(** Reports and navigation: what a cycle does before it decides anything. *)
Definition observe_cycle (c : ctx) (frame : s3_sensor_frame_t) (fb : option motion_feedback_t)
  : bool * ctx * bool * bool :=
  let c := c <|| feedback := default zero_feedback fb ||> in
  let was_running := running (d_state (dr c)) in
  let '(c, healthy, done) := receive_reports c was_running in
  let healthy := if was_running && negb (fb_report_loss_count (feedback (dr c)) =? report_loss_count (dr c))
                 then false else healthy in
  let c := c <|| report_loss_count := fb_report_loss_count (feedback (dr c)) ||> in
  let fb := feedback (dr c) in
  let odo := {| centre_m := fb_centre_m fb; odo_timestamp_us := fb_timestamp_us fb; odo_epoch := fb_epoch fb;
                odo_valid := fb_valid fb |} in
  let '(ok, n, out) := s3_navigation_process (navigation (dr c)) (Some frame) (Some odo) in
  (ok, c <|| navigation := n ||> <|| output := out ||>, healthy, done).

Definition s3_drive_process (c : ctx) (frame : option s3_sensor_frame_t) (fb : option motion_feedback_t) : bool * ctx :=
  if negb (d_configured (dr c)) then (false, c)
  else match frame with
  | None => (false, halt c S3_DRIVE_FAULT S3_DRIVE_BAD_INPUT)
  | Some frame =>
      let now := frame_timestamp_us frame in
      let '(ok, c, healthy, done) := observe_cycle c frame fb in
      if negb ok then (false, halt c S3_DRIVE_FAULT S3_DRIVE_BAD_INPUT)
      else if bool_decide (reset_result (dr c) = S3_RESET_PENDING) then (true, finish_reset c now)
      else if stop_requested (output (dr c)) then (true, halt c S3_DRIVE_FAULT S3_DRIVE_SENSOR_FAULT)
      else if running (d_state (dr c)) && motion_broken (dr c) now then (true, halt c S3_DRIVE_FAULT S3_DRIVE_MOTION_FAULT)
      else if negb (running (d_state (dr c))) then (true, c)
      else (true, process_running c now healthy done)
  end.

End Drive.
