(* ===== verification/DriveSafety.v ===== *)
(** * The drive as a transition system

    The operations of [controller/s3_drive.c], and the writes its owner makes to
    the drive ([external_hold], calibration and map), as one transition system on
    the drive and the calls it has made: who may move the car, that a drive which
    is not running has stopped the motors, the permitted state changes, the phase
    deadlines, and the manoeuvres requested. *)
From S2P Require Import Prelude CFloat BitCodec MotionController MotionPack IrSensing LineDetection.
From S2P Require Import ObstacleScan ObstacleCodec Avoidance Navigation NavigationSafety Drive.

Inductive drive_op :=
| DOptions (o : option s3_drive_options_t)
| DStart (now : Z)
| DStop
| DReset (now : Z)
| DTerrain
| DHold (b : bool)
| DCalibrate (id : Z) (collector : s3_calibration_collector_t)
| DMapping (map : list Z)
| DCycle (frame : option s3_sensor_frame_t) (fb : option motion_feedback_t).

Section System.
Context (app_s5 : bool) (p : port).

Definition drive_run (c : ctx) (op : drive_op) : ctx :=
  match op with
  | DOptions o => (s3_drive_set_options c o).2
  | DStart now => (s3_drive_start app_s5 p c now).2
  | DStop => s3_drive_stop app_s5 c
  | DReset now => (s3_drive_reset p c now).2
  | DTerrain => s3_drive_terrain_fault app_s5 c
  | DHold b => c <|| external_hold := b ||>
  | DCalibrate id collector => c <|| navigation := (s3_navigation_apply_calibration (navigation (dr c)) id collector).2 ||>
  | DMapping map => c <|| navigation := (s3_navigation_set_mapping (navigation (dr c)) map).2 ||>
  | DCycle frame fb => (s3_drive_process app_s5 p c frame fb).2
  end.

Definition drive_op_ok (op : drive_op) : Prop := match op with DMapping map => map_shape map | _ => True end.
Inductive drive_reachable : ctx -> Prop :=
| drive_boot config d : map_shape (cfg_map config) -> s3_drive_init app_s5 true (Some config) = (true, d) ->
    drive_reachable {| dr := d; calls := [] |}
| drive_next c op : drive_reachable c -> drive_op_ok op -> drive_reachable (drive_run c op).

(** ** Reading the calls *)
(** Motion requests among the calls. *)
Fixpoint requests (l : list call) : nat :=
  match l with [] => 0 | x :: l => (if moves x then 1 else 0) + requests l end.
(** No motion request since the last stop. *)
Fixpoint still (l : list call) : bool :=
  match l with [] => true | CStop :: _ => true | x :: l => negb (moves x) && still l end.
(** The last heartbeat, if any, disabled the motion lease. *)
Fixpoint silent (l : list call) : bool :=
  match l with [] => true | CHeartbeat b :: _ => negb b | _ :: l => silent l end.
Definition parked (c : ctx) : Prop := still (calls c) = true /\ silent (calls c) = true.

Lemma requests_app a b : requests (a ++ b) = (requests a + requests b)%nat.
Proof. induction a as [| x a IH]; cbn; lia. Qed.

(** The motion requests the current cycle may make. *)
Context (P : call -> Prop).
(** Only calls were added, at most [k] of them motion requests, all permitted. *)
Definition spends (k : nat) (c c' : ctx) : Prop :=
  exists new, calls c' = new ++ calls c /\ (requests new <= k)%nat /\ Forall (fun x => moves x = true -> P x) new.
Lemma spends_refl k c c' : calls c' = calls c -> spends k c c'.
Proof. intros H. exists []. cbn. split; [done |]. split; [lia | constructor]. Qed.
Lemma spends_trans a b k c c1 c2 : spends a c c1 -> spends b c1 c2 -> (a + b <= k)%nat -> spends k c c2.
Proof.
  intros (n1 & E1 & H1 & F1) (n2 & E2 & H2 & F2) Hk. exists (n2 ++ n1). rewrite E2, E1, app_assoc.
  split; [done |]. rewrite requests_app, Forall_app. split; [lia | done].
Qed.
Lemma spends_make k c c' x : spends k c c' -> moves x = false -> spends k c (make c' x).
Proof.
  intros (n & E & H & F) Hx. exists (x :: n). cbn. rewrite E, Hx. splits; try done. constructor; [congruence | done].
Qed.
Lemma spends_move k c c' x : spends k c c' -> P x -> spends (S k) c (make c' x).
Proof.
  intros (n & E & H & F) Hx. exists (x :: n). cbn. rewrite E. splits; [done | case_if; lia | by constructor].
Qed.
Lemma spends_weak k c c' : spends 0 c c' -> spends k c c'.
Proof. intros (n & E & H & F). exists n. splits; [done | lia | done]. Qed.
Lemma no_requests new : requests new = 0%nat -> Forall (fun x => moves x = true -> P x) new.
Proof.
  induction new as [| x new IH]; cbn; intros H; constructor; [| apply IH; lia]. intros Hx. rewrite Hx in H. lia.
Qed.

(** ** Halting *)
Lemma halt_calls c s w : exists new, calls (halt app_s5 c s w) = CHeartbeat false :: CStop :: new ++ calls c /\ requests new = 0%nat.
Proof.
  unfold halt. destruct app_s5.
  - eexists [_; _]. split; reflexivity.
  - exists []. split; reflexivity.
Qed.
Lemma halt_spends k c c' s w : spends k c c' -> spends k c (halt app_s5 c' s w).
Proof.
  intros (n & E & H & F). destruct (halt_calls c' s w) as (m & Em & Hm). rewrite E in Em.
  exists (CHeartbeat false :: CStop :: m ++ n). rewrite Em. cbn. rewrite app_assoc, requests_app, Hm.
  splits; [done | lia |]. repeat (constructor; [done |]). apply Forall_app. split; [by apply no_requests | done].
Qed.
Lemma halt_parked c s w : parked (halt app_s5 c s w).
Proof. destruct (halt_calls c s w) as (m & Em & Hm). unfold parked. by rewrite Em. Qed.
Lemma halt_state c s w : d_state (dr (halt app_s5 c s w)) = s /\ d_configured (dr (halt app_s5 c s w)) = d_configured (dr c).
Proof. unfold halt. destruct app_s5; split; reflexivity. Qed.

(** ** Steps that keep the phase *)
(** Navigation moved by its own operations, with the same lifecycle. *)
Definition nav_same (n n' : s3_navigation_t) : Prop :=
  nav_reachable n -> nav_reachable n' /\ lifecycle n' = lifecycle n.
Lemma nav_same_trans n1 n2 n3 : nav_same n1 n2 -> nav_same n2 n3 -> nav_same n1 n3.
Proof. intros H1 H2 R. destruct (H1 R) as [R2 E2]. destruct (H2 R2) as [R3 E3]. split; congruence. Qed.
Lemma nav_same_mode n m : nav_same n (s3_navigation_set_mode n m).2.
Proof.
  intros R. split; [exact (nav_next n (OpSetMode m) R I) |].
  apply set_mode_inv. by apply reachable_inv.
Qed.

(** At most [k] motion requests, and the same state. *)
Record keeps (k : nat) (c c' : ctx) : Prop := {
  kp_spends : spends k c c';
  kp_state : d_state (dr c') = d_state (dr c);
  kp_configured : d_configured (dr c') = d_configured (dr c);
  kp_active : obstacle_active (dr c') = obstacle_active (dr c);
  kp_reset : reset_result (dr c') = reset_result (dr c);
  kp_nav : nav_same (navigation (dr c)) (navigation (dr c'))
}.
Lemma keeps_upd k c c' : calls c' = calls c -> d_state (dr c') = d_state (dr c) ->
  d_configured (dr c') = d_configured (dr c) -> obstacle_active (dr c') = obstacle_active (dr c) ->
  reset_result (dr c') = reset_result (dr c) -> nav_same (navigation (dr c)) (navigation (dr c')) -> keeps k c c'.
Proof. intros. constructor; [by apply spends_refl | done | done | done | done | done]. Qed.
Lemma keeps_unchanged k c c' : calls c' = calls c -> d_state (dr c') = d_state (dr c) ->
  d_configured (dr c') = d_configured (dr c) -> obstacle_active (dr c') = obstacle_active (dr c) ->
  reset_result (dr c') = reset_result (dr c) -> navigation (dr c') = navigation (dr c) -> keeps k c c'.
Proof. intros ? ? ? ? ? E. apply keeps_upd; try done. by rewrite E. Qed.
Lemma keeps_trans a b k c c1 c2 : keeps a c c1 -> keeps b c1 c2 -> (a + b <= k)%nat -> keeps k c c2.
Proof.
  intros [S1 E1 F1 A1 R1 N1] [S2 E2 F2 A2 R2 N2] Hk.
  constructor; [by eapply spends_trans | congruence | congruence | congruence | congruence | by eapply nav_same_trans].
Qed.
Lemma keeps_then k c c1 c2 : keeps k c c1 -> keeps 0 c1 c2 -> keeps k c c2.
Proof. intros. eapply (keeps_trans k 0); [done | done | lia]. Qed.
Lemma keeps_first k c c1 c2 : keeps 0 c c1 -> keeps k c1 c2 -> keeps k c c2.
Proof. intros. eapply (keeps_trans 0 k); [done | done | lia]. Qed.
Lemma keeps_make c x : moves x = false -> keeps 0 c (make c x).
Proof. intros Hx. constructor; try done. apply spends_make; [by apply spends_refl | done]. Qed.
Lemma keeps_move c x : P x -> keeps 1 c (make c x).
Proof. intros. constructor; try done. apply spends_move; [by apply spends_refl | done]. Qed.
Lemma keeps_weak k c c' : keeps 0 c c' -> keeps k c c'.
Proof. intros []. constructor; try done. by apply spends_weak. Qed.

Lemma keeps_call c c' x : keeps 0 c c' -> moves x = false -> keeps 0 c (make c' x).
Proof. intros K Hx. eapply keeps_then; [exact K | by apply keeps_make]. Qed.
Lemma take_id_keeps c : keeps 0 c (take_command_id p c).2.
Proof.
  pose proof (keeps_make c CCommandId eq_refl) as K. unfold take_command_id. cbn [snd].
  eapply keeps_then; [exact K | by apply keeps_unchanged].
Qed.
Lemma request_turn_keeps c : (forall m, manoeuvre_of (turn (dr c)) = Some m -> P (CManoeuvre m)) ->
  keeps 1 c (request_turn p c).2.
Proof.
  intros HP. unfold request_turn. destruct (manoeuvre_of _) as [m |]; [| by apply keeps_unchanged].
  pose proof (keeps_move c (CManoeuvre m) (HP m eq_refl)) as K. destruct (negb _); [exact K |].
  eapply keeps_then; [exact K | apply take_id_keeps].
Qed.
Lemma start_manoeuvre_keeps c : (forall m, manoeuvre_of (turn (dr c)) = Some m -> P (CManoeuvre m)) ->
  (forall a, turn (dr c) = S3_NAV_LEFT \/ turn (dr c) = S3_NAV_RIGHT -> P (COptDrive a (advance_mps (options (dr c))))) ->
  keeps 1 c (start_manoeuvre p c).2.
Proof.
  intros HT HA. unfold start_manoeuvre. set (advance := (_ - _)%f32). cbv zeta. case_if.
  - set (x := COptDrive _ _). set (c1 := c <|| touched := false ||>).
    assert (Px : P x). { apply HA. unbool. change (dr c1) with (dr c <| touched := false |>) in *. destruct_or!; unbool; auto. }
    assert (K : keeps 1 c (make c1 x)) by (eapply keeps_first; [by apply (keeps_unchanged 0 c c1) | by apply keeps_move]).
    destruct (negb _); [exact K |].
    eapply keeps_then; [exact K | eapply keeps_first; [| apply take_id_keeps]]. by apply keeps_unchanged.
  - eapply keeps_first; [| apply request_turn_keeps; exact HT]. by apply keeps_unchanged.
Qed.
Lemma request_stop_keeps c now : keeps 0 c (request_stop c now).
Proof.
  unfold request_stop. case_if; [| by apply keeps_unchanged].
  apply keeps_call; [by apply keeps_unchanged | done].
Qed.
Lemma take_report_frame d h dn r : exists id, (take_report d h dn r).1.1 = d <| cancel_id := id |>.
Proof. unfold take_report. exists (if negb (command_id r =? 0) && (command_id r =? cancel_id d) then 0 else cancel_id d).
  destruct d. repeat case_if; done. Qed.
Lemma drain_keeps fuel : forall c b h dn, keeps 0 c (drain p fuel c b h dn).1.1.
Proof.
  induction fuel as [| fuel IH]; intros c b h dn; [by apply keeps_unchanged |]. cbn [drain].
  pose proof (keeps_make c CReport eq_refl) as K. destruct (report_reply p _) as [r |]; [| exact K].
  destruct (negb b); [by eapply keeps_first; [exact K | apply IH] |].
  pose proof (take_report_frame (dr (make c CReport)) h dn r) as [id E].
  destruct (take_report _ h dn r) as [[d h'] dn']. cbn [fst snd] in E. subst d.
  eapply keeps_first; [exact K | eapply keeps_first; [| apply IH]]. by apply keeps_unchanged.
Qed.

(** ** The phases *)
(** Changes of state a running cycle may make. *)
Definition cycle_edge (s s' : s3_drive_state_t) : bool :=
  match s, s' with
  | (S3_DRIVE_FOLLOW | S3_DRIVE_BRAKING | S3_DRIVE_MANOEUVRE | S3_DRIVE_REACQUIRE), S3_DRIVE_FAULT => true
  | (S3_DRIVE_FOLLOW | S3_DRIVE_MANOEUVRE | S3_DRIVE_REACQUIRE), S3_DRIVE_HALTED => true
  | S3_DRIVE_FOLLOW, (S3_DRIVE_FOLLOW | S3_DRIVE_BRAKING) => true
  | S3_DRIVE_FOLLOW, S3_DRIVE_MANOEUVRE => app_s5
  | S3_DRIVE_BRAKING, (S3_DRIVE_BRAKING | S3_DRIVE_MANOEUVRE) => true
  | S3_DRIVE_MANOEUVRE, (S3_DRIVE_MANOEUVRE | S3_DRIVE_REACQUIRE) => true
  | S3_DRIVE_MANOEUVRE, S3_DRIVE_FOLLOW => app_s5
  | S3_DRIVE_REACQUIRE, (S3_DRIVE_REACQUIRE | S3_DRIVE_FOLLOW) => true
  | _, _ => false
  end.
(** The lifecycle follows the state: ACTIVE exactly while running. *)
Definition in_step (c : ctx) : Prop :=
  running (d_state (dr c)) = bool_decide (lifecycle (navigation (dr c)) = S3_RUN_ACTIVE).
(** What every way of handling a running cycle guarantees. *)
Record handled (c c' : ctx) : Prop := {
  hd_spends : spends 1 c c';
  hd_settled : running (d_state (dr c')) = true \/ parked c';
  hd_configured : d_configured (dr c') = d_configured (dr c);
  hd_edge : cycle_edge (d_state (dr c)) (d_state (dr c')) = true;
  hd_reset : reset_result (dr c) <> S3_RESET_PENDING -> reset_result (dr c') <> S3_RESET_PENDING;
  hd_nav : nav_reachable (navigation (dr c)) -> nav_reachable (navigation (dr c')) /\
    (lifecycle (navigation (dr c)) = S3_RUN_ACTIVE -> in_step c')
}.
(** A phase other than the detour. *)
Record phase_ok (c c' : ctx) : Prop := {
  ph_handled : handled c c';
  ph_detour : obstacle_active (dr c) = false -> obstacle_active (dr c') = false
}.
Lemma halt_nav c s w : navigation (dr (halt app_s5 c s w)) = (s3_navigation_end_run (navigation (dr c))).2.
Proof. unfold halt. destruct app_s5; reflexivity. Qed.
Lemma halt_active c s w : obstacle_active (dr (halt app_s5 c s w)) = negb app_s5 && obstacle_active (dr c).
Proof. unfold halt. destruct app_s5; reflexivity. Qed.
Lemma halt_reset c s w : reset_result (dr (halt app_s5 c s w)) <> S3_RESET_PENDING.
Proof.
  unfold halt. set (r := if bool_decide _ then _ else _).
  enough (r <> S3_RESET_PENDING) by (destruct app_s5; done). subst r. case_bool_decide; done.
Qed.
Lemma end_run_stops n : nav_reachable n -> nav_reachable (s3_navigation_end_run n).2 /\
  lifecycle (s3_navigation_end_run n).2 <> S3_RUN_ACTIVE.
Proof.
  intros R. split; [exact (nav_next n OpEndRun R I) |]. destruct (reachable_inv n R) as [_ Hc].
  unfold s3_navigation_end_run. rewrite Hc. cbn [negb orb]. case_if; [| done]. undecide. cbn. congruence.
Qed.
Lemma halt_in_step c s w : running s = false -> nav_reachable (navigation (dr c)) ->
  nav_reachable (navigation (dr (halt app_s5 c s w))) /\ in_step (halt app_s5 c s w).
Proof.
  intros Hs R. destruct (end_run_stops _ R) as [R' L]. destruct (halt_state c s w) as [Es _].
  unfold in_step. rewrite halt_nav, Es, Hs. split; [done |]. by rewrite bool_decide_false.
Qed.
Lemma handled_halt c c' s w : keeps 1 c c' -> cycle_edge (d_state (dr c)) s = true -> running s = false ->
  handled c (halt app_s5 c' s w).
Proof.
  intros [S E F A RR N] He Hr. destruct (halt_state c' s w) as [Es Ec]. constructor.
  - by apply halt_spends.
  - right. apply halt_parked.
  - congruence.
  - by rewrite Es.
  - intros _. apply halt_reset.
  - intros R. destruct (N R) as [R' _]. destruct (halt_in_step c' s w Hr R'). done.
Qed.
Lemma phase_halt c c' s w : keeps 1 c c' -> cycle_edge (d_state (dr c)) s && negb (running s) = true ->
  phase_ok c (halt app_s5 c' s w).
Proof.
  intros K He. apply andb_true_iff in He as [He Hr%negb_true_iff]. split; [by apply handled_halt |].
  rewrite halt_active. destruct K as [_ _ _ -> _ _]. intros ->. apply andb_false_r.
Qed.
Lemma handled_to c c' c2 : keeps 1 c c' -> running (d_state (dr c2)) = true ->
  cycle_edge (d_state (dr c)) (d_state (dr c2)) = true -> calls c2 = calls c' ->
  d_configured (dr c2) = d_configured (dr c') -> reset_result (dr c2) = reset_result (dr c') ->
  nav_same (navigation (dr c')) (navigation (dr c2)) -> handled c c2.
Proof.
  intros [S E F A RR N] Hr He Hc Hf Hrr Hn.
  constructor; [by unfold spends in *; rewrite Hc | by left | congruence | done | congruence |].
  intros R. destruct (nav_same_trans _ _ _ N Hn R) as [R' L]. split; [done |]. intros HA.
  unfold in_step. rewrite Hr, L, HA. by rewrite bool_decide_true.
Qed.
Lemma phase_to c c' s : keeps 1 c c' -> cycle_edge (d_state (dr c)) s && running s = true ->
  forall c2, calls c2 = calls c' -> d_configured (dr c2) = d_configured (dr c') -> d_state (dr c2) = s ->
  reset_result (dr c2) = reset_result (dr c') -> nav_same (navigation (dr c')) (navigation (dr c2)) ->
  obstacle_active (dr c2) = obstacle_active (dr c') -> phase_ok c c2.
Proof.
  intros K He c2 Hc Hf Hs Hrr Hn Ha. apply andb_true_iff in He as [He Hr]. subst s. split.
  - by apply (handled_to c c').
  - rewrite Ha. destruct K as [_ _ _ -> _ _]. done.
Qed.
Lemma phase_stay c c' : keeps 1 c c' -> running (d_state (dr c)) = true -> phase_ok c c'.
Proof.
  intros K Hr. apply (phase_to c c' (d_state (dr c')) K); try done. rewrite (kp_state _ _ _ K), Hr.
  by destruct (d_state (dr c)).
Qed.
Lemma handled_from c c1 c' : spends 0 c c1 -> d_configured (dr c1) = d_configured (dr c) ->
  reset_result (dr c1) = reset_result (dr c) -> nav_same (navigation (dr c)) (navigation (dr c1)) ->
  cycle_edge (d_state (dr c)) (d_state (dr c')) = true -> handled c1 c' -> handled c c'.
Proof.
  intros S1 C1 R1 N1 He [S A B E R N].
  constructor; try done; [eapply (spends_trans 0 1 1 c c1 c'); [done | done | lia] | congruence | by rewrite <- R1 |].
  intros HR. destruct (N1 HR) as [R' L1]. rewrite <- L1. auto.
Qed.
Lemma phase_after c c1 c' : keeps 0 c c1 -> phase_ok c1 c' -> phase_ok c c'.
Proof.
  intros [KS KE KC KA KR KN] [H F]. split; [| by rewrite <- KA].
  apply (handled_from c c1); try done. destruct H as [_ _ _ HE _ _]. by rewrite <- KE.
Qed.

(** Goals [keeps 0 c c'] where only fields of the drive differ, the mode of navigation included. *)
Ltac same := first [by apply keeps_unchanged
  | apply keeps_upd; [reflexivity | reflexivity | reflexivity | reflexivity | reflexivity | apply nav_same_mode]].

Lemma send_velocity_ok c l r : d_state (dr c) = S3_DRIVE_FOLLOW -> P (CVelocity l r) ->
  phase_ok c (send_velocity app_s5 p c l r).
Proof.
  intros Hs HP. unfold send_velocity. set (x := CVelocity l r) in *. pose proof (keeps_move c x HP) as K.
  destruct (negb _); [apply phase_halt; [done | by rewrite Hs] |].
  pose proof (take_id_keeps (make c x)) as K2. destruct (take_command_id p _) as [ok c2]. cbn [snd] in K2.
  pose proof (keeps_then _ _ _ _ K K2) as K3.
  destruct (negb ok); [apply phase_halt; [done | by rewrite Hs] | apply phase_stay; [done | by rewrite Hs]].
Qed.

(** The velocity requests of FOLLOW: the published steering, or straight on across a junction. *)
Record follow_calls (d : s3_drive_t) : Prop := {
  fc_steer : steer_valid (steering (output d)) = true ->
    P (CVelocity (left_mps (steering (output d))) (right_mps (steering (output d))));
  fc_cross : cross_straight (options d) = true -> junction_candidate (out_line (output d)) = true ->
    P (CVelocity (base_mps (cfg_steering (nav_config (navigation d)))) (base_mps (cfg_steering (nav_config (navigation d)))))
}.
Lemma follow_steer_ok c now : d_state (dr c) = S3_DRIVE_FOLLOW -> follow_calls (dr c) -> phase_ok c (follow_steer app_s5 p c now).
Proof.
  intros Hs [H1 H2]. unfold follow_steer. case_if; [apply send_velocity_ok; auto |]. case_if.
  - unfold straight_across in *. unbool. apply send_velocity_ok; auto.
  - apply phase_stay; [apply keeps_weak, request_stop_keeps | by rewrite Hs].
Qed.
Lemma follow_wait_ok c now : d_state (dr c) = S3_DRIVE_FOLLOW -> follow_calls (dr c) -> phase_ok c (follow_wait app_s5 p c now).
Proof.
  intros Hs [H1 H2]. unfold follow_wait. case_if; [| by apply follow_steer_ok].
  case_if; [apply phase_halt; [same | by rewrite Hs] |].
  case_if; [apply phase_stay; [same | by rewrite Hs] |]. case_if; [apply phase_stay; [same | by rewrite Hs] |].
  eapply phase_after; [| apply follow_steer_ok; [exact Hs | by constructor]]. same.
Qed.
Lemma follow_junction_ok c now : d_state (dr c) = S3_DRIVE_FOLLOW -> follow_calls (dr c) -> phase_ok c (follow_junction app_s5 p c now).
Proof.
  intros Hs HF. unfold follow_junction. cbv zeta. case_if; [| by apply follow_wait_ok].
  case_if; [eapply phase_after; [| apply follow_wait_ok; [exact Hs | destruct HF; by constructor]]; same |].
  case_if; [apply phase_halt; [same | by rewrite Hs] |].
  eapply (phase_to c (request_stop (c <|| junction_m := fb_centre_m (feedback (dr c)) ||>) now) S3_DRIVE_BRAKING); try done.
  - apply keeps_weak. eapply keeps_first; [| apply request_stop_keeps]. same.
  - by rewrite Hs.
Qed.
Lemma follow_pending_ok c now : d_state (dr c) = S3_DRIVE_FOLLOW -> follow_calls (dr c) -> phase_ok c (follow_pending app_s5 p c now).
Proof.
  intros Hs HF. unfold follow_pending. case_if; [apply phase_halt; [same | by rewrite Hs] | by apply follow_junction_ok].
Qed.
Lemma follow_ok c now : d_state (dr c) = S3_DRIVE_FOLLOW -> follow_calls (dr c) -> phase_ok c (follow app_s5 p c now).
Proof.
  intros Hs HF. unfold follow.
  repeat (case_if; [apply phase_halt; [same | by rewrite Hs] |]). case_if; [| by apply follow_pending_ok].
  repeat (case_if; [apply phase_halt; [same | by rewrite Hs] |]).
  eapply phase_after; [| apply follow_pending_ok; [exact Hs | destruct HF; by constructor]]. same.
Qed.
Lemma braking_ok c now : d_state (dr c) = S3_DRIVE_BRAKING ->
  (stopped_after_request (dr c) = true -> (forall m, manoeuvre_of (d_pending (dr c)) = Some m -> P (CManoeuvre m)) /\
    (forall a, d_pending (dr c) = S3_NAV_LEFT \/ d_pending (dr c) = S3_NAV_RIGHT -> P (COptDrive a (advance_mps (options (dr c)))))) ->
  phase_ok c (process_braking app_s5 p c now).
Proof.
  intros Hs HP. unfold process_braking. case_if; [apply phase_halt; [same | by rewrite Hs] |].
  case_if; [| apply phase_stay; [same | by rewrite Hs]]. destruct (HP eq_refl) as [HT HA].
  match goal with |- context [start_manoeuvre p ?x] => set (c1 := x) end.
  pose proof (start_manoeuvre_keeps c1 HT HA) as K. destruct (start_manoeuvre p c1) as [ok c2]. cbn [snd] in K.
  assert (K' : keeps 1 c c2) by (eapply keeps_first; [| exact K]; same).
  destruct (negb ok); [apply phase_halt; [done | by rewrite Hs] |].
  eapply (phase_to c c2 S3_DRIVE_MANOEUVRE); try done. by rewrite Hs.
Qed.
Lemma search_ok c now : d_state (dr c) = S3_DRIVE_MANOEUVRE ->
  (forall sign, sign = search_sign (dr c) \/ sign = - search_sign (dr c) ->
     let v := (search_mps (options (dr c)) * float_of_Z sign)%f32 in P (CVelocity (-. v) v)) ->
  phase_ok c (process_search app_s5 p c now).
Proof.
  intros Hs HP. unfold process_search. case_if; [apply phase_halt; [same | by rewrite Hs] |]. unfold search_step. cbv zeta.
  case_if.
  { eapply (phase_to c (make (c <|| searching := false ||>) CStop) S3_DRIVE_REACQUIRE); try done.
    - apply keeps_weak, keeps_call; [same | done].
    - by rewrite Hs.
    - apply nav_same_mode. }
  case_if; [apply phase_halt; [same | by rewrite Hs] |].
  match goal with |- context [make ?x (CVelocity ?l ?r)] => set (c1 := x); set (y := CVelocity l r) end.
  assert (Py : P y) by (apply HP; change (search_sign (dr c1)) with (if (u32 (search_leg_us (dr c) * (if search_leg (dr c) =? 0 then 1 else 2)) <=?
     elapsed now (search_us (dr c))) then - search_sign (dr c) else search_sign (dr c)); case_if; auto).
  assert (K : keeps 1 c (make c1 y)) by (eapply keeps_first; [| by apply keeps_move]; same).
  destruct (negb (accepted _)); [apply phase_halt; [done | by rewrite Hs] | apply phase_stay; [done | by rewrite Hs]].
Qed.
Lemma manoeuvre_done_ok c now : d_state (dr c) = S3_DRIVE_MANOEUVRE -> phase_ok c (manoeuvre_done app_s5 c now).
Proof.
  intros Hs. unfold manoeuvre_done. cbv zeta. set (c1 := make _ CStop).
  assert (K : keeps 1 c c1) by (apply keeps_weak, keeps_call; [same | done]).
  case_if.
  - case_if; [| apply phase_halt; [done | by rewrite Hs]].
    eapply (phase_to c c1 S3_DRIVE_MANOEUVRE); try done; by rewrite Hs.
  - eapply (phase_to c c1 S3_DRIVE_REACQUIRE); try done; [by rewrite Hs | apply nav_same_mode].
Qed.
Lemma manoeuvre_ok c now dn : d_state (dr c) = S3_DRIVE_MANOEUVRE ->
  (dn = true -> advancing (dr c) = true -> forall m, manoeuvre_of (turn (dr c)) = Some m -> P (CManoeuvre m)) ->
  phase_ok c (process_manoeuvre app_s5 p c now dn).
Proof.
  intros Hs HP. unfold process_manoeuvre. cbv zeta.
  match goal with |- context [halt app_s5 ?x S3_DRIVE_FAULT S3_DRIVE_TIMEOUT] => set (c1 := x) end.
  assert (K1 : keeps 0 c c1) by same. assert (H1 : d_state (dr c1) = S3_DRIVE_MANOEUVRE) by exact Hs.
  case_if; [apply phase_halt; [by apply keeps_weak | by rewrite Hs] |]. case_if.
  - match goal with |- context [request_turn p ?x] => set (c2 := x) end. unbool.
    pose proof (request_turn_keeps c2 ltac:(apply HP; done)) as K.
    destruct (request_turn p c2) as [ok c3]. cbn [snd] in K.
    assert (K' : keeps 1 c c3) by (eapply keeps_first; [| exact K]; same).
    destruct (negb ok); [apply phase_halt; [done | by rewrite Hs] |].
    eapply (phase_to c c3 S3_DRIVE_MANOEUVRE); try done; [by rewrite Hs |]. rewrite <- Hs. exact (kp_state _ _ _ K').
  - case_if; [by apply (phase_after c c1), manoeuvre_done_ok |].
    case_if; [apply phase_halt; [by apply keeps_weak | by rewrite Hs] |].
    apply phase_stay; [by apply keeps_weak | by rewrite Hs].
Qed.
Lemma reacquire_ok c now : d_state (dr c) = S3_DRIVE_REACQUIRE -> phase_ok c (process_reacquire app_s5 c now).
Proof.
  intros Hs. unfold process_reacquire. cbv zeta.
  assert (K : keeps 1 c (make c CStop)) by (apply keeps_weak; by apply keeps_make).
  case_if; [apply phase_halt; [done | by rewrite Hs] |].
  case_if; [| apply phase_stay; [done | by rewrite Hs]].
  eapply (phase_to c (make c CStop) S3_DRIVE_FOLLOW); try done. by rewrite Hs.
Qed.
(** The motion request a cycle may make, given the drive [d] once reports and
    navigation have been taken in, and whether the running command reported done;
    [look o]: the observation [o] is the one this cycle looked at. *)
Inductive permitted (look : s5_observation_t -> Prop) (d : s3_drive_t) (now : Z) (dn : bool) : call -> Prop :=
| pm_steer : d_state d = S3_DRIVE_FOLLOW -> steer_valid (steering (output d)) = true ->
    permitted look d now dn (CVelocity (left_mps (steering (output d))) (right_mps (steering (output d))))
| pm_cross : d_state d = S3_DRIVE_FOLLOW -> cross_straight (options d) = true ->
    junction_candidate (out_line (output d)) = true ->
    permitted look d now dn (CVelocity (base_mps (cfg_steering (nav_config (navigation d))))
                                  (base_mps (cfg_steering (nav_config (navigation d)))))
| pm_turn m : d_state d = S3_DRIVE_BRAKING -> stopped_after_request d = true -> manoeuvre_of (d_pending d) = Some m ->
    permitted look d now dn (CManoeuvre m)
| pm_advance a : d_state d = S3_DRIVE_BRAKING -> stopped_after_request d = true ->
    d_pending d = S3_NAV_LEFT \/ d_pending d = S3_NAV_RIGHT -> permitted look d now dn (COptDrive a (advance_mps (options d)))
| pm_turn_after m : d_state d = S3_DRIVE_MANOEUVRE -> advancing d = true -> dn = true -> manoeuvre_of (turn d) = Some m ->
    permitted look d now dn (CManoeuvre m)
| pm_sweep sign : d_state d = S3_DRIVE_MANOEUVRE -> searching d = true ->
    sign = search_sign d \/ sign = - search_sign d ->
    let v := (search_mps (options d) * float_of_Z sign)%f32 in permitted look d now dn (CVelocity (-. v) v)
| pm_detour x o : app_s5 = true -> d_state d = S3_DRIVE_MANOEUVRE -> obstacle_active d = true ->
    stopped_after_request d = true -> obs_valid (out_line (output d)) = true ->
    look o -> s5_range_ready o now = true -> emergency_mm (av_config (obstacle d)) < range_mm o ->
    (exists m v, x = CDrive m v /\ detect_mm (av_config (obstacle d)) < range_mm o) \/ (exists a v, x = CTurn a v) ->
    permitted look d now dn x.
(** The observation a cycle looks at: the one the scanner answers this very cycle
    with, after the calls [l], or, while the scanner is busy, the one kept in the
    drive, if that is not older than the freshness limit. *)
Definition reading (d : s3_drive_t) (l : list call) (now : Z) (o : s5_observation_t) : Prop :=
  snapshot_reply p (CSnapshot :: l) = (S5_SNAPSHOT_OK, o) \/
  (exists o', snapshot_reply p (CSnapshot :: l) = (S5_SNAPSHOT_BUSY, o')) /\ snapshot_valid d = true /\
    elapsed now (snapshot_us d) <= S5_RANGE_FRESH_US /\ s5_observation_unpack (snapshot_bytes d) = Some o.
Lemma snapshot_reading c now o c' : obstacle_snapshot p c now = (true, o, c') -> reading (dr c) (calls c) now o.
Proof.
  unfold obstacle_snapshot, reading. change (calls (make c CSnapshot)) with (CSnapshot :: calls c). cbv zeta.
  destruct (snapshot_reply p (CSnapshot :: calls c)) as [[] o1] eqn:E; try done.
  - intros H. left. congruence.
  - case_if; [| done]. change (dr (make c CSnapshot)) with (dr c) in *. undecide.
    destruct (s5_observation_unpack (snapshot_bytes (dr c))) as [o2 |] eqn:U; [| done]. intros HE. right.
    splits; [by eexists | done | done | congruence].
Qed.

Lemma process_phase_ok look c now dn : running (d_state (dr c)) = true ->
  (forall x, permitted look (dr c) now dn x -> P x) -> phase_ok c (process_phase app_s5 p c now dn).
Proof.
  intros Hr HP. unfold process_phase. destruct (d_state (dr c)) eqn:Hs; try done.
  - apply follow_ok; [done |]. constructor; intros; apply HP; by constructor.
  - apply braking_ok; [done |]. intros HT. split; intros; apply HP; by constructor.
  - case_if.
    + apply search_ok; [done |]. intros sign Hsg v. apply HP. by apply (pm_sweep look (dr c) now dn sign).
    + apply manoeuvre_ok; [done |]. intros; apply HP; by constructor.
  - by apply reacquire_ok.
Qed.

(** ** The detour *)
(** While a detour is active the state is MANOEUVRE and the avoidance machine is busy. *)
Definition detour_inv (c : ctx) : Prop :=
  obstacle_active (dr c) = true ->
  app_s5 = true /\ d_state (dr c) = S3_DRIVE_MANOEUVRE /\ busy (Avoidance.state (obstacle (dr c))) = true.
Record cycle_ok (c c' : ctx) : Prop := { cy_handled : handled c c'; cy_detour : detour_inv c' }.

Lemma store_snapshot_keeps c o now : keeps 0 c (store_snapshot c o now) /\
  obstacle (dr (store_snapshot c o now)) = obstacle (dr c).
Proof. unfold store_snapshot. destruct (s5_observation_pack o); (split; [same | done]). Qed.
Lemma snapshot_keeps c now : let r := obstacle_snapshot p c now in
  keeps 0 c r.2 /\ obstacle (dr r.2) = obstacle (dr c).
Proof.
  unfold obstacle_snapshot. cbv zeta. pose proof (keeps_make c CSnapshot eq_refl) as K.
  destruct (snapshot_reply p _) as [[] o].
  - cbn [snd]. destruct (store_snapshot_keeps (make c CSnapshot) o now) as [K2 E2].
    split; [by eapply keeps_first | by rewrite E2].
  - case_if; [destruct (s5_observation_unpack _); (split; [exact K | done]) |].
    split; [eapply keeps_first; [exact K | same] | done].
  - split; [eapply keeps_first; [exact K | same] | done].
  - split; [eapply keeps_first; [exact K | same] | done].
Qed.
Lemma handled_fail c c' f w : keeps 1 c c' -> cycle_edge (d_state (dr c)) S3_DRIVE_FAULT = true ->
  handled c (fail_obstacle app_s5 c' f w).
Proof. intros K He. apply handled_halt; [| done | done]. eapply keeps_then; [exact K | same]. Qed.
Lemma detour_halt c s w : app_s5 = true -> detour_inv (halt app_s5 c s w).
Proof. intros Ha. unfold detour_inv. rewrite halt_active, Ha. done. Qed.
Lemma detour_fail c f w : app_s5 = true -> detour_inv (fail_obstacle app_s5 c f w).
Proof. intros Ha. by apply detour_halt. Qed.
Lemma handled_publish c c' : handled c c' -> handled c (publish_obstacle c').
Proof.
  intros [S A B E N]. constructor; try done. by apply spends_make.
Qed.

(** What executing a proposed action does. *)
Lemma run_action_ok c now request :
  (kind request = S5_ACT_DRIVE -> forall m v, P (CDrive m v)) -> (kind request = S5_ACT_TURN -> forall a v, P (CTurn a v)) ->
  let r := run_action p c now request in
  (kind request <> S5_ACT_RESUME /\ keeps 1 c r.2 /\ obstacle (dr r.2) = obstacle (dr c)) \/
  (kind request = S5_ACT_RESUME /\ r.1 = true /\ calls r.2 = calls c /\ d_configured (dr r.2) = d_configured (dr c) /\
   d_state (dr r.2) = S3_DRIVE_FOLLOW /\ obstacle_active (dr r.2) = false /\
   reset_result (dr r.2) = reset_result (dr c) /\ nav_same (navigation (dr c)) (navigation (dr r.2))).
Proof.
  intros HD HT.
  assert (D : forall x, P x -> let r := detour_motion p c now x in keeps 1 c r.2 /\ obstacle (dr r.2) = obstacle (dr c)).
  { intros x Px. unfold detour_motion. cbv zeta. pose proof (keeps_move c x Px) as K.
    destruct (negb _); [by split |]. pose proof (take_id_keeps (make c x)) as K2.
    assert (E2 : obstacle (dr (take_command_id p (make c x)).2) = obstacle (dr c)) by reflexivity.
    destruct (take_command_id p _) as [ok c2]. cbn [snd] in K2, E2. cbn [snd]. split; [| done].
    eapply keeps_then; [by eapply keeps_then | same]. }
  assert (M : forall c1 x, keeps 0 c c1 -> moves x = false -> keeps 1 c (make c1 x))
    by (intros; apply keeps_weak; by apply keeps_call).
  unfold run_action. cbv zeta. destruct (kind request).
  - left. splits; [done | same | done].
  - left. splits; [done | | done]. eapply keeps_then; [apply (M c CStop); [same | done] | same].
  - left. splits; [done | apply M; [same | done] | done].
  - left. split; [done | apply D; auto].
  - left. split; [done | apply D; auto].
  - right. splits; try reflexivity. apply nav_same_mode.
  - left. splits; [done | apply M; [same | done] | done].
Qed.

Lemma detour_step_ok (look : s5_observation_t -> Prop) c now dn have o : app_s5 = true -> d_state (dr c) = S3_DRIVE_MANOEUVRE ->
  obstacle_active (dr c) = true -> busy (Avoidance.state (obstacle (dr c))) = true ->
  (Avoidance.state (obstacle (dr c)) = S5_MOVING ->
   (have = true -> look o) /\ forall x, permitted look (dr c) now dn x -> P x) ->
  let c' := detour_step app_s5 p c now dn have o in
  cycle_ok c c' /\ cycle_edge S3_DRIVE_FOLLOW (d_state (dr c')) = true.
Proof.
  intros Ha Hs Hact Hb HP. unfold detour_step. cbv zeta.
  match goal with |- context [s5_avoidance_step ?a ?x] => set (i := x);
    pose proof (step_stays a i Hb) as St; pose proof (step_safe a i) as Sf; destruct (s5_avoidance_step a i) as [request a'] end.
  cbv zeta in St. cbn [fst snd] in St, Sf.
  assert (Eo : s5_range_ready (observation i) now = s5_range_ready o now /\ range_mm (observation i) = range_mm o)
    by (subst i; cbn [observation]; by case_if).
  destruct Eo as [Eo1 Eo2].
  assert (HQ : motion request = true -> Avoidance.state (obstacle (dr c)) = S5_MOVING /\ have = true /\
    obs_valid (out_line (output (dr c))) = true /\ stopped_after_request (dr c) = true /\
    s5_range_ready o now = true /\ emergency_mm (av_config (obstacle (dr c))) < range_mm o).
  { intros HM. destruct (st_motion _ _ _ _ Sf HM) as (E1 & _ & _ & E4 & [E5 _ E6 _ E7] & _).
    apply andb_true_iff in E4 as [? ?]. change (in_now_us i) with now in E6. rewrite Eo1 in E6. rewrite Eo2 in E7. splits; done. }
  case_bool_decide as Hf.
  { match goal with |- context [halt app_s5 ?x ?st ?w] => set (c2 := x);
      assert (K : keeps 1 c c2) by same; destruct (halt_state c2 st w) as [E _] end.
    split; [split; [apply handled_halt; [done | by rewrite Hs | done] | by apply detour_halt] | by rewrite E]. }
  match goal with |- context [run_action p ?x now request] => set (c2 := x) end.
  assert (K : keeps 0 c c2) by same.
  pose proof (run_action_ok c2 now request) as R. destruct (run_action p c2 now request) as [ok c3]. cbv zeta in R. cbn [fst snd] in R.
  destruct R as [(Hk & K3 & E3) | (_ & -> & Hc & Hd & Hs3 & Hact3 & Hrr & Hn)].
  - intros Ek m v. destruct HQ as (? & ? & ? & ? & ? & ?); [unfold motion; by rewrite Ek |]. destruct HP as [HL HP]; [done |]. apply HP.
    destruct (st_drive _ _ _ _ Sf Ek) as (Hd & _). rewrite Eo2 in Hd.
    apply (pm_detour look (dr c) now dn _ o); try done; [by apply HL |]. left. eauto.
  - intros Ek m v. destruct HQ as (? & ? & ? & ? & ? & ?); [unfold motion; by rewrite Ek |]. destruct HP as [HL HP]; [done |]. apply HP.
    apply (pm_detour look (dr c) now dn _ o); try done; [by apply HL |]. right. eauto.
  - assert (K3' : keeps 1 c c3) by (by eapply keeps_first). pose proof (kp_state _ _ _ K3') as S3. rewrite Hs in S3.
    destruct ok; cbn [negb].
    + destruct St as [St | [St | (St & _)]]; [done | done |]. split; [split |].
      * apply handled_publish, (handled_to c c3); try done; by rewrite ?Hs, S3.
      * intros _. splits; [done | exact S3 |]. change (dr (publish_obstacle c3)) with (dr c3). by rewrite E3.
      * change (dr (publish_obstacle c3)) with (dr c3). by rewrite S3.
    + split; [split |].
      * apply handled_publish, handled_fail; [done | by rewrite Hs].
      * exact (detour_fail c3 S5_MOTION_ERROR S3_DRIVE_REJECTED Ha).
      * match goal with |- context [publish_obstacle ?x] => change (dr (publish_obstacle x)) with (dr x) end.
        unfold fail_obstacle. by rewrite (proj1 (halt_state _ _ _)).
  - cbn [negb]. split; [split |].
    + apply handled_publish. apply (handled_to c c2); try done; [by apply keeps_weak | by rewrite Hs3 | by rewrite Hs, Hs3].
    + intros H. change (dr (publish_obstacle c3)) with (dr c3) in H. congruence.
    + change (dr (publish_obstacle c3)) with (dr c3). by rewrite Hs3.
Qed.

Lemma begin_detour_ok c now : d_state (dr c) = S3_DRIVE_FOLLOW -> let c' := begin_detour c now in
  spends 0 c c' /\ d_configured (dr c') = d_configured (dr c) /\ reset_result (dr c') = reset_result (dr c) /\
  nav_same (navigation (dr c)) (navigation (dr c')) /\ d_state (dr c') = S3_DRIVE_MANOEUVRE /\
  obstacle_active (dr c') = true /\ Avoidance.state (obstacle (dr c')) = S5_WAIT_STOP.
Proof.
  intros Hs. unfold begin_detour. cbv zeta. set (c1 := c <|| obstacle := _ ||> <|| obstacle_active := true ||>).
  destruct (request_stop_keeps c1 now) as [S E F A R N].
  assert (B : obstacle (dr (request_stop c1 now)) = obstacle (dr c1)) by (unfold request_stop; by case_if).
  splits; try done.
  - eapply nav_same_trans; [exact N | apply nav_same_mode].
  - change (Avoidance.state (obstacle (dr (request_stop c1 now))) = S5_WAIT_STOP). by rewrite B.
Qed.

Lemma detour_from_follow c c1 now dn have o : app_s5 = true -> d_state (dr c) = S3_DRIVE_FOLLOW -> keeps 0 c c1 ->
  cycle_ok c (detour_step app_s5 p (begin_detour c1 now) now dn have o).
Proof.
  intros Ha Hs K. pose proof (kp_state _ _ _ K) as S1. rewrite Hs in S1.
  destruct (begin_detour_ok c1 now S1) as (B1 & B2 & B3 & B4 & B5 & B6 & B7).
  destruct (detour_step_ok (fun _ => False) (begin_detour c1 now) now dn have o Ha B5 B6) as [[H D] E]; [by rewrite B7 | congruence |].
  split; [| done]. destruct K as [KS _ KC _ KR KN].
  apply (handled_from c (begin_detour c1 now)); [| congruence | congruence | by eapply nav_same_trans | by rewrite Hs | done].
  by eapply (spends_trans 0 0 0 c c1).
Qed.

(** Reading the snapshot changes only its cache. *)
Lemma snapshot_frame c now : exists b u v, dr (obstacle_snapshot p c now).2 =
  dr c <| snapshot_bytes := b |> <| snapshot_us := u |> <| snapshot_valid := v |>.
Proof.
  assert (Eta : forall d, d = d <| snapshot_bytes := snapshot_bytes d |> <| snapshot_us := snapshot_us d |> <| snapshot_valid := snapshot_valid d |>)
    by (by intros []).
  unfold obstacle_snapshot. cbv zeta. destruct (snapshot_reply p _) as [[] o].
  - cbn [snd]. unfold store_snapshot. destruct (s5_observation_pack o) as [b |]; [by exists b, now, true |].
    by exists (snapshot_bytes (dr c)), now, false.
  - case_if; [| by exists (snapshot_bytes (dr c)), (snapshot_us (dr c)), false].
    destruct (s5_observation_unpack _); eexists _, _, _; apply Eta.
  - by exists (snapshot_bytes (dr c)), (snapshot_us (dr c)), false.
  - by exists (snapshot_bytes (dr c)), (snapshot_us (dr c)), false.
Qed.
Lemma permitted_frame look d b u v now dn x :
  permitted look (d <| snapshot_bytes := b |> <| snapshot_us := u |> <| snapshot_valid := v |>) now dn x -> permitted look d now dn x.
Proof.
  intros [H0 H1 | H0 H1 H2 | m H0 H1 H2 | a H0 H1 H2 | m H0 H1 H2 H3 | sign H0 H1 H2 | y o H0 H1 H2 H3 H4 H5 H6 H7 H8].
  - exact (pm_steer look d now dn H0 H1).
  - exact (pm_cross look d now dn H0 H1 H2).
  - exact (pm_turn look d now dn m H0 H1 H2).
  - exact (pm_advance look d now dn a H0 H1 H2).
  - exact (pm_turn_after look d now dn m H0 H1 H2 H3).
  - exact (pm_sweep look d now dn sign H0 H1 H2).
  - exact (pm_detour look d now dn y o H0 H1 H2 H3 H4 H5 H6 H7 H8).
Qed.

Lemma obstacle_control_ok c now dn : app_s5 = true -> running (d_state (dr c)) = true -> detour_inv c ->
  (forall x, permitted (reading (dr c) (calls c) now) (dr c) now dn x -> P x) ->
  let r := obstacle_control app_s5 p c now dn in
  (r.1 = true -> cycle_ok c r.2) /\
  (r.1 = false -> keeps 0 c r.2 /\ obstacle_active (dr c) = false /\
   forall x, permitted (reading (dr c) (calls c) now) (dr r.2) now dn x -> P x).
Proof.
  intros Ha Hr HI HP. unfold obstacle_control. cbv zeta.
  pose proof (snapshot_keeps c now) as SK. pose proof (snapshot_frame c now) as (b & u & v & Fr).
  pose proof (snapshot_reading c now) as SR.
  destruct (obstacle_snapshot p c now) as [[have o] c1]. cbv zeta in SK. cbn [snd] in SK, Fr. destruct SK as [K E].
  assert (HL : have = true -> reading (dr c) (calls c) now o) by (intros ->; by apply (SR o c1)).
  assert (HP1 : forall x, permitted (reading (dr c) (calls c) now) (dr c1) now dn x -> P x).
  { intros x Hx. rewrite Fr in Hx. apply HP. by eapply permitted_frame. }
  assert (Hf : cycle_edge (d_state (dr c)) S3_DRIVE_FAULT = true) by (by destruct (d_state (dr c))).
  assert (HF : forall f w, cycle_ok c (fail_obstacle app_s5 c1 f w)).
  { intros f w. split; [apply handled_fail; [by apply keeps_weak | done] | by apply detour_fail]. }
  destruct (obstacle_active (dr c1)) eqn:Hact.
  - rewrite (kp_active _ _ _ K) in Hact. destruct (HI Hact) as (_ & Hs & Hb). split; [intros _ | done].
    rewrite <- E in Hb. pose proof (kp_state _ _ _ K) as S1. rewrite Hs in S1.
    destruct (detour_step_ok _ c1 now dn have o Ha S1 ltac:(by rewrite (kp_active _ _ _ K)) Hb (fun _ => conj HL HP1)) as [[H D] He].
    split; [| done]. destruct K as [KS KE KC KA KR KN]. apply (handled_from c c1); try done.
    destruct H as [_ _ _ HE _ _]. by rewrite <- KE.
  - rewrite (kp_active _ _ _ K) in Hact. case_if; [split; [intros _; apply HF | done] |]. case_if.
    { case_if; [split; [intros _; apply HF | done] | split; [done | by intros _]]. }
    assert (Hs : d_state (dr c) = S3_DRIVE_FOLLOW).
    { undecide. rewrite <- (kp_state _ _ _ K). done. }
    assert (HH : forall w, cycle_ok c (halt app_s5 c1 S3_DRIVE_HALTED w)).
    { intros w. split; [| by apply detour_halt]. apply handled_halt; [by apply keeps_weak | by rewrite Hs | done]. }
    case_if; [split; [done | by intros _] |]. case_if; [split; [intros _; apply HH | done] |]. case_if.
    + case_if; [split; [intros _; apply HH | done] |]. split; [intros _ | done]. apply detour_from_follow; [done | done |].
      eapply keeps_first; [exact K | same].
    + split; [intros _ | done]. by apply detour_from_follow.
Qed.

Lemma phase_detour c c' : phase_ok c c' -> obstacle_active (dr c) = false -> detour_inv c'.
Proof. intros [_ H] Hact Hc. rewrite (H Hact) in Hc. done. Qed.

Lemma process_running_ok c now healthy dn : running (d_state (dr c)) = true -> detour_inv c ->
  (external_hold (dr c) = false -> healthy = true ->
   (d_command_id (dr c) = 0 \/ fb_command_id (feedback (dr c)) = d_command_id (dr c)) ->
   forall x, permitted (reading (dr c) (CHeartbeat true :: calls c) now) (dr c) now dn x -> P x) ->
  cycle_ok c (process_running app_s5 p c now healthy dn).
Proof.
  intros Hr HI HP. unfold process_running.
  assert (Hf : cycle_edge (d_state (dr c)) S3_DRIVE_FAULT && negb (running S3_DRIVE_FAULT) = true) by (by destruct (d_state (dr c))).
  destruct (_ || _) eqn:Er.
  { pose proof (phase_halt c c S3_DRIVE_FAULT S3_DRIVE_REPORT_FAULT ltac:(same) Hf) as [H _]. split; [done |].
    intros Hact. rewrite halt_active in Hact. apply andb_true_iff in Hact as [Hn Hact].
    destruct (HI Hact) as [Ha _]. by rewrite Ha in Hn. }
  destruct (external_hold (dr c)) eqn:Eh.
  { assert (K : keeps 0 c (make (request_stop c now) (CHeartbeat false))) by (apply keeps_call; [apply request_stop_keeps | done]).
    pose proof (phase_stay c _ (keeps_weak 1 _ _ K) Hr) as [H _]. split; [done |].
    intros Hact. change (dr (make (request_stop c now) (CHeartbeat false))) with (dr (request_stop c now)) in *.
    assert (obstacle (dr (request_stop c now)) = obstacle (dr c)) as -> by (unfold request_stop; by case_if).
    destruct K as [_ KE _ KA _ _]. change (dr (make (request_stop c now) (CHeartbeat false))) with (dr (request_stop c now)) in *.
    rewrite KE. apply HI. congruence. }
  assert (HP' : forall x, permitted (reading (dr c) (CHeartbeat true :: calls c) now) (dr c) now dn x -> P x).
  { apply orb_false_iff in Er as [Er1 Er2]. apply negb_false_iff in Er1. apply HP; [done | done |].
    apply andb_false_iff in Er2 as [Er2 | Er2]; apply negb_false_iff, Z.eqb_eq in Er2; auto. }
  set (c1 := make c (CHeartbeat true)). assert (K : keeps 0 c c1) by (by apply keeps_make).
  assert (Lift : forall c', cycle_ok c1 c' -> cycle_ok c c').
  { intros c' [H D]. split; [| done]. destruct K as [KS KE KC KA KR KN]. apply (handled_from c c1); try done.
    destruct H as [_ _ _ HE _ _]. by rewrite <- KE. }
  apply Lift. destruct app_s5 eqn:Ea.
  - destruct (obstacle_control_ok c1 now dn Ea Hr HI HP') as [H1 H2]. rewrite Ea in H1, H2.
    destruct (obstacle_control true p c1 now dn) as [[] c2]; [by apply H1 |]. destruct (H2 eq_refl) as (K2 & Hact & HP2).
    cbn [fst snd] in *. assert (Hr2 : running (d_state (dr c2)) = true) by (by rewrite (kp_state _ _ _ K2)).
    pose proof (process_phase_ok _ c2 now dn Hr2 HP2) as PH. rewrite Ea in PH. pose proof (phase_after _ _ _ K2 PH) as PA.
    split; [apply PA |]. by apply (phase_detour c1).
  - pose proof (process_phase_ok _ c1 now dn Hr HP') as PH. rewrite Ea in PH. split; [apply PH |].
    apply (phase_detour c1); [done |]. destruct (obstacle_active (dr c1)) eqn:Hact; [| done].
    destruct (HI Hact) as [? _]. congruence.
Qed.

End System.

(** ** One whole cycle *)
Section Cycle.
Context (app_s5 : bool) (p : port).

Definition odometry_of (fb : motion_feedback_t) : s3_odometry_sample_t :=
  {| centre_m := fb_centre_m fb; odo_timestamp_us := fb_timestamp_us fb; odo_epoch := fb_epoch fb; odo_valid := fb_valid fb |}.
Definition reads (k : nat) (c : ctx) : list call := replicate k CReport ++ calls c.

Lemma reads_next k c : reads k (make c CReport) = reads (S k) c.
Proof.
  unfold reads, make. cbn [calls update_field]. change (calls (c <| calls := CReport :: calls c |>)) with (CReport :: calls c).
  rewrite replicate_S_end, <- app_assoc. done.
Qed.
Lemma take_report_spec d h dn r : let t := take_report d h dn r in
  (t.1.2 = true -> h = true /\ b_lost r = false /\ command_id r <> 0) /\
  (t.2 = true -> dn = true \/ (command_id r = d_command_id d /\ command_id r <> 0 /\ outcome r = MOTION_OUTCOME_DONE /\
     report_fault r = MOTION_FAULT_NONE /\ d_state d = S3_DRIVE_MANOEUVRE)).
Proof.
  unfold take_report. cbv zeta. destruct (Z.eqb_spec (command_id r) 0) as [E0 | E0]; [split; [done | by left] |].
  set (h' := if b_lost r then false else h).
  assert (Hh : h' = true -> h = true /\ b_lost r = false /\ command_id r <> 0) by (subst h'; by destruct (b_lost r)).
  destruct (command_id r =? cancel_id d).
  { cbn [fst snd]. split; [| by left]. intros H. apply Hh. by destruct h'. }
  destruct (Z.eqb_spec (command_id r) (d_command_id d)) as [E1 | E1]; [| cbn [fst snd]; split; [done | by left]].
  destruct (_ && _) eqn:Ec; cbn [fst snd]; [| split; [done | by left]]. split; [done |]. intros _. undecide. right. done.
Qed.

(** What reading at most [fuel] reports leaves behind. *)
Record drain_spec (c c' : ctx) (b h h' dn dn' : bool) (n : nat) : Prop := {
  dp_frame : exists id, dr c' = dr c <| cancel_id := id |>;
  dp_calls : calls c' = reads n c;
  dp_healthy : b = true -> h' = true -> h = true /\ forall k r, (k < n)%nat -> report_reply p (reads (S k) c) = Some r ->
    b_lost r = false /\ command_id r <> 0;
  dp_done : b = true -> dn' = true -> dn = true \/ exists k r, (k < n)%nat /\ report_reply p (reads (S k) c) = Some r /\
    command_id r = d_command_id (dr c) /\ command_id r <> 0 /\ outcome r = MOTION_OUTCOME_DONE /\
    report_fault r = MOTION_FAULT_NONE /\ d_state (dr c) = S3_DRIVE_MANOEUVRE
}.
Lemma cancel_eta d : d = d <| cancel_id := cancel_id d |>.
Proof. by destruct d. Qed.
Lemma drain_ok fuel : forall c b h dn, exists n, (n <= fuel)%nat /\
  drain_spec c (drain p fuel c b h dn).1.1 b h (drain p fuel c b h dn).1.2 dn (drain p fuel c b h dn).2 n.
Proof.
  induction fuel as [| fuel IH]; intros c b h dn; cbn [drain].
  - cbn [fst snd]. exists 0%nat. split; [lia |]. constructor; [eexists; apply cancel_eta | done | | by left].
    intros _ ->. split; [done | lia].
  - destruct (report_reply p (calls (make c CReport))) as [r |] eqn:Er.
    2: { cbn [fst snd]. exists 1%nat. split; [lia |]. constructor; [eexists; apply (cancel_eta (dr c)) | done | | by left].
      intros _ ->. split; [done |]. intros k r Hk E. assert (k = 0%nat) as -> by lia.
      change (reads 1 c) with (calls (make c CReport)) in E. congruence. }
    destruct b; cbn [negb].
    2: { destruct (IH (make c CReport) false h dn) as (n & Hn & [F C _ _]). exists (S n). split; [lia |].
      constructor; [exact F | by rewrite C, reads_next | done | done]. }
    change (dr (make c CReport)) with (dr c).
    pose proof (take_report_spec (dr c) h dn r) as [T1 T2]. pose proof (take_report_frame (dr c) h dn r) as [id Ef].
    destruct (take_report (dr c) h dn r) as [[d h1] dn1]. cbn [fst snd] in *. subst d.
    set (c1 := make c CReport <| dr := dr c <| cancel_id := id |> |>).
    destruct (IH c1 true h1 dn1) as (n & Hn & [[id' F] C Hh Hd]). exists (S n). split; [lia |].
    assert (RN : forall k, reads k c1 = reads (S k) c) by (intros k; exact (reads_next k c)).
    constructor.
    + exists id'. rewrite F. done.
    + by rewrite C, RN.
    + intros _ H'. destruct (Hh eq_refl H') as [H1 Hk]. destruct (T1 H1) as (Hh0 & Hl & Hi). split; [done |].
      intros [| k] r' Hlt E.
      * change (reads 1 c) with (calls (make c CReport)) in E. by simplify_eq.
      * rewrite <- RN in E. apply (Hk k r'); [lia | done].
    + intros _ H'. destruct (Hd eq_refl H') as [H1 | (k & r' & Hlt & E & R)].
      * destruct (T2 H1) as [| R]; [by left |]. right. exists 0%nat, r. split; [lia |]. done.
      * right. exists (S k), r'. split; [lia |]. rewrite <- RN. done.
Qed.

Definition nav_cycle (c : ctx) (frame : s3_sensor_frame_t) (fb : motion_feedback_t) :=
  s3_navigation_process (navigation (dr c)) (Some frame) (Some (odometry_of fb)).
(** The drive once reports and navigation have been taken in. *)
Definition seen (c : ctx) (frame : s3_sensor_frame_t) (fb : motion_feedback_t) (id : Z) : s3_drive_t :=
  dr c <| feedback := fb |> <| cancel_id := id |> <| report_loss_count := fb_report_loss_count fb |>
       <| navigation := (nav_cycle c frame fb).1.2 |> <| output := (nav_cycle c frame fb).2 |>.
(** A report read in this cycle completes the running command. *)
Definition completed (c : ctx) (n : nat) : Prop :=
  exists k r, (k < n)%nat /\ report_reply p (reads (S k) c) = Some r /\ command_id r = d_command_id (dr c) /\
    command_id r <> 0 /\ outcome r = MOTION_OUTCOME_DONE /\ report_fault r = MOTION_FAULT_NONE.
Record observed (c : ctx) (frame : s3_sensor_frame_t) (fb : motion_feedback_t) (c1 : ctx) (healthy dn : bool) : Prop := {
  ob_dr : exists id, dr c1 = seen c frame fb id;
  ob_calls : exists n, (n <= MOTION_REPORT_QUEUE_LEN)%nat /\ calls c1 = reads n c /\ (running (d_state (dr c)) = true ->
    (dn = true -> d_state (dr c) = S3_DRIVE_MANOEUVRE /\ completed c n) /\
    (healthy = true -> fb_report_loss_count fb = report_loss_count (dr c) /\
       forall k r, (k < n)%nat -> report_reply p (reads (S k) c) = Some r -> b_lost r = false /\ command_id r <> 0))
}.
Lemma observe_ok c frame fb : nav_reachable (navigation (dr c)) ->
  exists c1 healthy dn, observe_cycle p c frame fb = (true, c1, healthy, dn) /\
    observed c frame (default zero_feedback fb) c1 healthy dn.
Proof.
  intros R. set (f := default zero_feedback fb). unfold observe_cycle, receive_reports. cbv zeta. fold f.
  set (c0 := c <|| feedback := f ||>). destruct (drain_ok MOTION_REPORT_QUEUE_LEN c0 (running (d_state (dr c0))) true false)
    as (n & Hn & [[id F] C Hh Hd]).
  destruct (drain p _ c0 _ true false) as [[c1 h] dn]. cbn [fst snd] in *.
  change (d_state (dr c0)) with (d_state (dr c)) in *.
  assert (N : navigation (dr c1) = navigation (dr c)) by (by rewrite F).
  assert (FB : feedback (dr c1) = f) by (by rewrite F).
  assert (L : report_loss_count (dr c1) = report_loss_count (dr c)) by (by rewrite F).
  match goal with |- context [s3_navigation_process ?a ?b ?o] =>
    replace (s3_navigation_process a b o) with (nav_cycle c frame f)
      by (unfold nav_cycle, odometry_of; change (feedback (dr (c1 <|| report_loss_count := _ ||>))) with (feedback (dr c1));
          change (navigation (dr (c1 <|| report_loss_count := _ ||>))) with (navigation (dr c1)); by rewrite FB, N) end.
  assert (Hok : (nav_cycle c frame f).1.1 = true).
  { destruct (reachable_inv _ R) as [I Hc]. by destruct (process_sound _ frame (Some (odometry_of f)) Hc I). }
  destruct (nav_cycle c frame f) as [[ok n'] out] eqn:EN2. cbn [fst] in Hok. subst ok. eexists _, _, _. split; [reflexivity |]. constructor.
  - exists id. unfold seen. rewrite EN2. cbn [fst snd].
    match goal with |- dr ?x = _ => change (dr x) with (dr c1 <| report_loss_count := fb_report_loss_count (feedback (dr c1)) |>
      <| navigation := n' |> <| output := out |>) end.
    rewrite FB, F. reflexivity.
  - exists n. split; [done |]. split; [exact C |]. intros Hr. rewrite Hr in Hh, Hd. split.
    + intros ->. destruct (Hd eq_refl eq_refl) as [| (k & r & H1 & H2 & H3 & H4 & H5 & H6 & H7)]; [done |].
      split; [exact H7 |]. exists k, r. done.
    + intros H. rewrite Hr, FB, L in H. cbn [andb] in H.
      destruct (Z.eqb_spec (fb_report_loss_count f) (report_loss_count (dr c))) as [E | E]; cbn [negb] in H; [| done].
      split; [done |]. exact (proj2 (Hh eq_refl H)).
Qed.

(** ** Invariant and permitted changes *)
Record drive_inv (c : ctx) : Prop := {
  di_configured : d_configured (dr c) = true;
  di_nav : nav_reachable (navigation (dr c));
  di_step : in_step c;
  di_parked : running (d_state (dr c)) = false -> parked c;
  di_detour : detour_inv app_s5 c;
  di_reset : reset_result (dr c) = S3_RESET_PENDING -> d_state (dr c) = S3_DRIVE_FAULT
}.

(** What must hold before a cycle may move the car: motion feedback, reports and
    navigation. *)
Record guard (c : ctx) (frame : s3_sensor_frame_t) (fb : motion_feedback_t) : Prop := {
  g_running : running (d_state (dr c)) = true;
  g_hold : external_hold (dr c) = false;
  g_fresh : fb_valid fb = true /\
    elapsed (frame_timestamp_us frame) (fb_timestamp_us fb) <= max_sample_age_us (nav_config (navigation (dr c)));
  g_healthy : fb_state fb <> MOTION_FAULT /\ fb_fault fb = MOTION_FAULT_NONE;
  g_reports : fb_report_loss_count fb = report_loss_count (dr c) /\
    (d_command_id (dr c) = 0 \/ fb_command_id fb = d_command_id (dr c));
  g_active : lifecycle (nav_cycle c frame fb).1.2 = S3_RUN_ACTIVE
}.
Definition authorised (c : ctx) (op : drive_op) (x : call) : Prop :=
  exists frame fb id dn n, op = DCycle (Some frame) (Some fb) /\ guard c frame fb /\
    (n <= MOTION_REPORT_QUEUE_LEN)%nat /\ (dn = true -> completed c n) /\
    permitted app_s5 (reading p (dr c) (CHeartbeat true :: reads n c) (frame_timestamp_us frame))
      (seen c frame fb id) (frame_timestamp_us frame) dn x.

(** The permitted changes of the state. *)
Inductive drive_edge (c : ctx) : drive_op -> s3_drive_state_t -> s3_drive_state_t -> Prop :=
| de_stay op s : drive_edge c op s s
| de_start now s : s = S3_DRIVE_OFF \/ s = S3_DRIVE_HALTED -> feedback_fresh (dr c) now = true ->
    motion_at_rest (dr c) = true -> lifecycle (navigation (dr c)) = S3_RUN_INACTIVE ->
    s3_navigation_readiness (navigation (dr c)) now = 0 -> drive_edge c (DStart now) s S3_DRIVE_FOLLOW
| de_stop s : s <> S3_DRIVE_FAULT -> lifecycle (navigation (dr c)) <> S3_RUN_FAULT_LATCHED ->
    drive_edge c DStop s S3_DRIVE_OFF
| de_stop_fault s : lifecycle (navigation (dr c)) = S3_RUN_FAULT_LATCHED -> drive_edge c DStop s S3_DRIVE_FAULT
| de_terrain s : drive_edge c DTerrain s S3_DRIVE_FAULT
| de_input fb s : drive_edge c (DCycle None fb) s S3_DRIVE_FAULT
| de_sensor frame fb s : lifecycle (nav_cycle c frame (default zero_feedback fb)).1.2 = S3_RUN_FAULT_LATCHED ->
    drive_edge c (DCycle (Some frame) fb) s S3_DRIVE_FAULT
| de_phase frame fb s s' : running s = true -> cycle_edge app_s5 s s' = true -> drive_edge c (DCycle (Some frame) fb) s s'
| de_reset frame fb : reset_result (dr c) = S3_RESET_PENDING ->
    elapsed (frame_timestamp_us frame) (reset_us (dr c)) < S3_RESET_WAIT_US ->
    fb_valid fb = true -> later (fb_timestamp_us fb) (reset_us (dr c)) = true ->
    fb_state fb = MOTION_IDLE -> fb_fault fb = MOTION_FAULT_NONE -> fb_braked fb = true ->
    drive_edge c (DCycle (Some frame) (Some fb)) S3_DRIVE_FAULT S3_DRIVE_OFF.

Record op_spec (c : ctx) (op : drive_op) (c' : ctx) : Prop := {
  os_inv : drive_inv c';
  os_calls : spends (authorised c op) 1 c c';
  os_edge : drive_edge c op (d_state (dr c)) (d_state (dr c'))
}.

Lemma halt_inv c s w : nav_reachable (navigation (dr c)) -> d_configured (dr c) = true -> running s = false ->
  (app_s5 = false -> obstacle_active (dr c) = false) -> drive_inv (halt app_s5 c s w).
Proof.
  intros R Hc Hs Ho. destruct (halt_in_step app_s5 c s w Hs R) as [R' S]. destruct (halt_state app_s5 c s w) as [Es Ec].
  constructor; [congruence | done | done | | |].
  - intros _. apply halt_parked.
  - unfold detour_inv. rewrite halt_active. destruct app_s5; [done |]. by rewrite Ho.
  - intros H. by apply halt_reset in H.
Qed.
(** Detours exist only in the build with subsystem 5. *)
Lemma inv_no_detour c : drive_inv c -> app_s5 = false -> obstacle_active (dr c) = false.
Proof. intros I Ha. destruct (obstacle_active (dr c)) eqn:E; [| done]. destruct (di_detour _ I E). congruence. Qed.
Lemma halt_op c op c1 s w : drive_inv c -> spends (authorised c op) 0 c c1 -> nav_reachable (navigation (dr c1)) ->
  d_configured (dr c1) = true -> obstacle_active (dr c1) = obstacle_active (dr c) -> running s = false ->
  drive_edge c op (d_state (dr c)) s -> op_spec c op (halt app_s5 c1 s w).
Proof.
  intros I S R Hc Ho Hs He. constructor.
  - apply halt_inv; try done. rewrite Ho. by apply inv_no_detour.
  - apply halt_spends, spends_weak. done.
  - by rewrite (proj1 (halt_state app_s5 c1 s w)).
Qed.
(** Nothing about the state of the drive changes. *)
Lemma quiet_op c op c' : drive_inv c -> keeps (authorised c op) 0 c c' -> (parked c -> parked c') ->
  obstacle (dr c') = obstacle (dr c) -> op_spec c op c'.
Proof.
  intros [I1 I2 I3 I4 I5 I6] [KS KE KC KA KR KN] HP HO. destruct (KN I2) as [R L]. constructor.
  - constructor; try congruence.
    + unfold in_step. rewrite KE, L. exact I3.
    + rewrite KE. auto.
    + unfold detour_inv. rewrite KA, KE, HO. exact I5.
    + rewrite KR, KE. exact I6.
  - by apply spends_weak.
  - rewrite KE. constructor.
Qed.
Lemma parked_make c c' x : parked c -> calls c' = x :: calls c -> moves x = false ->
  (forall b, x = CHeartbeat b -> b = false) -> parked c'.
Proof.
  intros [H1 H2] E Hx Hb. unfold parked. rewrite E. cbn. rewrite Hx, H1. split; [by destruct x |].
  destruct x; try done. by rewrite (Hb _ eq_refl).
Qed.
Lemma parked_reads c c' n : parked c -> calls c' = reads n c -> parked c'.
Proof.
  intros [H1 H2] E. unfold parked. rewrite E. clear E. unfold reads.
  induction n as [| n [IH1 IH2]]; [done |]. cbn [replicate app still silent moves negb andb]. done.
Qed.
Lemma reads_spends P c c' n : calls c' = reads n c -> spends P 0 c c'.
Proof.
  intros E. exists (replicate n CReport). split; [exact E |]. assert (requests (replicate n CReport) = 0%nat) as H.
  { clear E. induction n as [| n IH]; [done | exact IH]. }
  split; [lia | by apply no_requests].
Qed.

(** ** Each operation *)
Lemma start_ok c now : drive_inv c -> op_spec c (DStart now) (drive_run app_s5 p c (DStart now)).
Proof.
  intros I. cbn [drive_run]. unfold s3_drive_start. cbv zeta.
  set (c0 := if app_s5 then make c CSnapshot else c).
  assert (Q0 : forall x, dr x = dr c -> calls x = calls c0 -> op_spec c (DStart now) x).
  { intros x Ed Ec. apply quiet_op; [done | | | by rewrite Ed].
    - constructor; rewrite ?Ed; try done. unfold spends. rewrite Ec. subst c0. destruct app_s5.
      + exists [CSnapshot]. splits; [done | cbn; lia | by constructor].
      + exists []. splits; [done | cbn; lia | constructor].
    - intros Pk. subst c0. destruct app_s5; [by apply (parked_make c x CSnapshot) | by unfold parked; rewrite Ec]. }
  assert (Ed0 : dr c0 = dr c) by (subst c0; by destruct app_s5).
  assert (Qc : op_spec c (DStart now) c0) by (by apply Q0).
  destruct (snapshot_reply p (calls c0)) as [result o]. case_if; [exact Qc |].
  case_if; [exact Qc |]. rewrite Ed0 in *.
  destruct (s3_navigation_start (navigation (dr c)) now) as [ok n] eqn:En.
  pose proof (di_nav _ I) as R. destruct (reachable_inv _ R) as [NI Nc].
  assert (Rn : nav_reachable n).
  { pose proof (nav_next _ (OpStart now) R Logic.I) as H. cbn [nav_run] in H. by rewrite En in H. }
  unfold s3_navigation_start in En. destruct (_ || _) eqn:Es in En.
  { simplify_eq. cbn [negb snd]. apply Q0; [| done]. change (dr c <| navigation := navigation (dr c) |> = dr c). by destruct (dr c). }
  assert (ok = true) as -> by congruence. cbn [negb snd]. undecide.
  assert (Ln : lifecycle n = S3_RUN_ACTIVE) by (injection En as <-; done). clear En.
  set (m := (s3_navigation_set_mode n S3_MODE_TRACK).2).
  destruct (nav_same_mode n S3_MODE_TRACK Rn) as [Rm Lm]. fold m in Rm, Lm.
  set (d1 := dr c <| navigation := n |> <| navigation := m |>). set (c1 := c0 <| dr := d1 |>).
  match goal with |- context [make ((?x) <|| d_state := _ ||> <|| reason := _ ||> <|| d_pending := _ ||>) _] =>
    change x with (if app_s5 then start_obstacle c1 o now else c1) end.
  set (c2 := if app_s5 then start_obstacle c1 o now else c1).
  assert (F2 : d_configured (dr c2) = true /\ navigation (dr c2) = m /\ obstacle_active (dr c2) = obstacle_active (dr c) /\
    reset_result (dr c2) = reset_result (dr c) /\ spends (authorised c (DStart now)) 0 c c2).
  { pose proof (di_configured _ I) as Hc.
    assert (F1 : d_configured (dr c1) = true /\ navigation (dr c1) = m /\ obstacle_active (dr c1) = obstacle_active (dr c) /\
      reset_result (dr c1) = reset_result (dr c)) by (splits; done).
    subst c2. destruct app_s5.
    - unfold start_obstacle, store_snapshot. destruct (s5_observation_pack o); (splits; try apply F1);
        (exists [CStatus S5_IDLE S5_OK S5_ROUTE_NONE; CSnapshot]; splits; [done | cbn; lia | by repeat constructor]).
    - splits; try apply F1. exists []. splits; [done | cbn; lia | constructor]. }
  clearbody c2. clear c1. destruct F2 as (F21 & F22 & F23 & F24 & F25).
  set (c3 := make _ (CHeartbeat true)).
  assert (Hs : d_state (dr c) = S3_DRIVE_OFF \/ d_state (dr c) = S3_DRIVE_HALTED).
  { destruct_or!; undecide; auto. }
  constructor.
  - constructor; try done.
    + change (nav_reachable (navigation (dr c2))). by rewrite F22.
    + unfold in_step. change (navigation (dr c3)) with (navigation (dr c2)). rewrite F22, Lm, Ln. by rewrite bool_decide_true.
    + intros Hact. change (obstacle_active (dr c3)) with (obstacle_active (dr c2)) in Hact. rewrite F23 in Hact.
      destruct (di_detour _ I Hact) as (_ & HM & _). destruct Hs; congruence.
    + intros Hr. change (reset_result (dr c3)) with (reset_result (dr c2)) in Hr. rewrite F24 in Hr.
      pose proof (di_reset _ I Hr). destruct Hs; congruence.
  - apply spends_weak, spends_make; done.
  - change (d_state (dr c3)) with S3_DRIVE_FOLLOW. apply de_start; try done; congruence.
Qed.

Lemma reset_ok c now : drive_inv c -> op_spec c (DReset now) (drive_run app_s5 p c (DReset now)).
Proof.
  intros I. cbn [drive_run]. unfold s3_drive_reset. destruct (_ || _) eqn:Eg; [apply quiet_op; try done; by apply keeps_unchanged |].
  undecide. cbv zeta. set (c1 := make (_ <|| reset_result := S3_RESET_FAILED ||>) CReset).
  assert (Pk : forall d, parked (c1 <| dr := d |>)) by (intros; split; reflexivity).
  assert (Sp : forall d, spends (authorised c (DReset now)) 1 c (c1 <| dr := d |>)).
  { intros d. exists [CReset; CHeartbeat false; CStop]. splits; [done | cbn; lia | by repeat constructor]. }
  destruct I as [I1 I2 I3 I4 I5 I6].
  destruct (negb (reset_reply p (calls c1))); (constructor; [constructor; try done | exact (Sp (dr _)) | constructor]).
  all: intros _; apply (Pk (dr _)).
Qed.
Lemma nav_op_quiet c op nop : drive_inv c -> op_ok nop ->
  lifecycle (nav_run (navigation (dr c)) nop).2 = lifecycle (navigation (dr c)) ->
  op_spec c op (c <|| navigation := (nav_run (navigation (dr c)) nop).2 ||>).
Proof.
  intros I Hop Hl. apply quiet_op; try done. apply keeps_upd; try done. intros R. split; [by apply nav_next | done].
Qed.

(** The frame after reports and navigation, before anything is decided. *)
Lemma cycle_observed c frame fb c1 healthy dn : drive_inv c -> observed c frame fb c1 healthy dn ->
  d_configured (dr c1) = true /\ d_state (dr c1) = d_state (dr c) /\ obstacle_active (dr c1) = obstacle_active (dr c) /\
  obstacle (dr c1) = obstacle (dr c) /\ reset_result (dr c1) = reset_result (dr c) /\
  nav_reachable (navigation (dr c1)) /\ detour_inv app_s5 c1 /\
  (running (d_state (dr c)) = false -> parked c1) /\
  (stop_requested (output (dr c1)) = bool_decide (lifecycle (navigation (dr c1)) = S3_RUN_FAULT_LATCHED)) /\
  (lifecycle (navigation (dr c1)) = lifecycle (navigation (dr c)) \/
   lifecycle (navigation (dr c)) = S3_RUN_ACTIVE /\ lifecycle (navigation (dr c1)) = S3_RUN_FAULT_LATCHED) /\
  nav_config (navigation (dr c1)) = nav_config (navigation (dr c)).
Proof.
  intros I [[id Ed] (n & Hn & Ec & _)]. destruct I as [I1 I2 I3 I4 I5 I6].
  destruct (reachable_inv _ I2) as [NI Nc].
  destruct (process_sound (navigation (dr c)) frame (Some (odometry_of fb)) Nc NI) as [_ PS]. fold (nav_cycle c frame fb) in PS.
  assert (Rn : nav_reachable (nav_cycle c frame fb).1.2) by exact (nav_next _ (OpProcess (Some frame) (Some (odometry_of fb))) I2 I).
  destruct PS as [_ (Hcfg & _) Hl (_ & Hst & _) _ _ _ _ _ _ _ _].
  assert (N1 : navigation (dr c1) = (nav_cycle c frame fb).1.2) by (by rewrite Ed).
  splits; try (rewrite Ed; done).
  - unfold detour_inv. rewrite Ed. exact I5.
  - intros Hr. apply (parked_reads c c1 n); auto.
  - rewrite N1, Hl. unfold active. destruct (decide (lifecycle (navigation (dr c)) = S3_RUN_ACTIVE)) as [Ha | Ha].
    + rewrite (bool_decide_eq_true_2 _ Ha). cbn [andb]. case_if; [right; split; [exact Ha | reflexivity] | left; reflexivity].
    + rewrite (bool_decide_eq_false_2 _ Ha). left. reflexivity.
Qed.

Lemma finish_reset_ok c frame fb c1 healthy dn : drive_inv c -> observed c frame (default zero_feedback fb) c1 healthy dn ->
  reset_result (dr c1) = S3_RESET_PENDING ->
  op_spec c (DCycle (Some frame) fb) (finish_reset c1 (frame_timestamp_us frame)).
Proof.
  intros I O Hp. destruct (cycle_observed _ _ _ _ _ _ I O) as (C1 & C2 & C3 & C4 & C5 & C6 & C7 & C8 & C9 & C10 & C11).
  rewrite C5 in Hp. pose proof (di_reset _ I Hp) as Hf. rewrite Hf in *. pose proof O as [[id Ed] (n & _ & Ec & _)].
  set (now := frame_timestamp_us frame).
  assert (Hact : obstacle_active (dr c1) = false).
  { destruct (obstacle_active (dr c1)) eqn:E; [| done]. destruct (C7 E) as (_ & E2 & _). congruence. }
  assert (Hnl : lifecycle (navigation (dr c1)) <> S3_RUN_ACTIVE).
  { pose proof (di_step _ I) as S. unfold in_step in S. rewrite Hf in S. symmetry in S. apply bool_decide_eq_false in S.
    destruct C10 as [E | [E _]]; congruence. }
  assert (G : forall c2, calls c2 = calls c1 -> d_configured (dr c2) = true -> obstacle_active (dr c2) = false ->
    nav_reachable (navigation (dr c2)) -> lifecycle (navigation (dr c2)) <> S3_RUN_ACTIVE -> running (d_state (dr c2)) = false ->
    (reset_result (dr c2) = S3_RESET_PENDING -> d_state (dr c2) = S3_DRIVE_FAULT) ->
    drive_edge c (DCycle (Some frame) fb) S3_DRIVE_FAULT (d_state (dr c2)) -> op_spec c (DCycle (Some frame) fb) c2).
  { intros c2 G1 G2 G3 G4 G5 G6 G7 G8. constructor; [constructor; try done | |].
    - unfold in_step. rewrite G6. by rewrite bool_decide_false.
    - intros _. unfold parked. rewrite G1. by apply C8.
    - intros E. congruence.
    - apply spends_weak, (reads_spends _ c c2 n). congruence.
    - by rewrite Hf. }
  assert (Stay : op_spec c (DCycle (Some frame) fb) c1) by (apply G; try done; rewrite ?C2; done || constructor).
  unfold finish_reset. fold now.
  case_if; [apply G; try done; change (d_state (dr (c1 <|| reset_result := S3_RESET_FAILED ||>))) with (d_state (dr c1)); rewrite C2; done || constructor |].
  destruct (_ || _) eqn:Eg; [exact Stay |].
  set (r := if bool_decide _ then _ else _).
  assert (Hr : nav_reachable r.2 /\ lifecycle r.2 <> S3_RUN_ACTIVE).
  { subst r. case_bool_decide; [| done]. split; [exact (nav_next _ (OpResetFault now) C6 Logic.I) |].
    destruct (reset_fault_edge (navigation (dr c1)) now) as [_ E]; [by apply reachable_inv |]. by inversion E; congruence. }
  destruct r as [ok n']. destruct Hr as [R' L']. cbn [snd] in *.
  case_if.
  - apply G; try done; change (d_state (dr (c1 <|| navigation := n' ||>))) with (d_state (dr c1)); rewrite ?C2; done || constructor.
  - apply G; try done. apply orb_false_iff in Eg as [Eg Eg3]. apply orb_false_iff in Eg as [Eg1 Eg2].
    apply negb_false_iff in Eg1, Eg2, Eg3. unfold feedback_fresh in Eg1. unfold motion_at_rest in Eg3. undecide.
    assert (FB : feedback (dr c1) = default zero_feedback fb) by (by rewrite Ed).
    assert (RU : reset_us (dr c1) = reset_us (dr c)) by (by rewrite Ed). rewrite FB, ?RU in *.
    destruct fb as [f |]; [| done]. by apply de_reset.
Qed.

Lemma cycle_ok_op c frame fb : drive_inv c -> op_spec c (DCycle frame fb) (drive_run app_s5 p c (DCycle frame fb)).
Proof.
  intros I. cbn [drive_run]. unfold s3_drive_process. rewrite (di_configured _ I). cbn [negb].
  destruct frame as [frame |].
  2: { cbn [snd]. apply halt_op; try apply I; try done; [by apply spends_refl | constructor]. }
  destruct (observe_ok c frame fb (di_nav _ I)) as (c1 & healthy & dn & -> & O). set (now := frame_timestamp_us frame).
  destruct (cycle_observed _ _ _ _ _ _ I O) as (C1 & C2 & C3 & C4 & C5 & C6 & C7 & C8 & C9 & C10 & C11).
  pose proof O as [[id Ed] (n & Hn & Ec & Hrep)]. cbn [negb].
  assert (Sp : spends (authorised c (DCycle (Some frame) fb)) 0 c c1) by (by apply (reads_spends _ c c1 n)).
  destruct (bool_decide (reset_result (dr c1) = S3_RESET_PENDING)) eqn:Hp.
  { apply bool_decide_eq_true in Hp. by apply (finish_reset_ok _ _ _ _ healthy dn). }
  rewrite C9. destruct (bool_decide (lifecycle _ = _)) eqn:Hl; undecide.
  { apply halt_op; try done. apply de_sensor. rewrite <- Hl. by rewrite Ed. }
  rewrite C2. destruct (running (d_state (dr c))) eqn:Hr; cbn [andb negb snd].
  2: { apply quiet_op; try done; [| by intros; apply (parked_reads c c1 n)].
    constructor; try done; [by rewrite C1, (di_configured _ I) |]. intros _. split; [done |]. destruct C10 as [| [E _]]; [done |].
    pose proof (di_step _ I) as S. unfold in_step in S. rewrite Hr, E in S. by rewrite bool_decide_true in S. }
  assert (La : lifecycle (navigation (dr c1)) = S3_RUN_ACTIVE).
  { pose proof (di_step _ I) as S. unfold in_step in S. rewrite Hr in S. symmetry in S. apply bool_decide_eq_true in S.
    destruct C10 as [E | [_ E]]; congruence. }
  destruct (motion_broken (dr c1) now) eqn:Eb.
  { apply halt_op; try done. apply de_phase; [done |]. by destruct (d_state (dr c)). }
  pose proof (process_running_ok app_s5 p (authorised c (DCycle (Some frame) fb)) c1 now healthy dn) as PR.
  destruct PR as [H D]; [by rewrite C2 | done | |].
  { intros Hh Hhl Hid x Hx. destruct (Hrep eq_refl) as [Hd Hhe]. destruct (Hhe Hhl) as [Hloss _].
    assert (FB : feedback (dr c1) = default zero_feedback fb) by (by rewrite Ed).
    assert (Ho : external_hold (dr c1) = external_hold (dr c)) by (by rewrite Ed).
    assert (Hci : d_command_id (dr c1) = d_command_id (dr c)) by (by rewrite Ed).
    unfold motion_broken in Eb. apply orb_false_iff in Eb as [Eb Eb3]. apply orb_false_iff in Eb as [Eb1 Eb2].
    unfold feedback_fresh in Eb1. undecide. rewrite FB, C11, ?Ho, ?Hci in *.
    destruct fb as [f |]; [| done]. change (default zero_feedback (Some f)) with f in *.
    exists frame, f, id, dn, n. splits; [done | | done | intros Hdn; apply (Hd Hdn) |].
    - constructor; try done. rewrite <- La. by rewrite Ed.
    - rewrite Ec, Ed in Hx. exact Hx. }
  destruct H as [HS HT HC HE HR HN]. destruct (HN C6) as [R' Hst]. rewrite C2 in HE. cbn [snd].
  constructor; [constructor; try done | |].
  - congruence.
  - by apply Hst.
  - intros Hnr. destruct HT as [HT | HT]; [congruence | done].
  - intros Hpd. by apply HR in Hpd.
  - by eapply (spends_trans _ 0 1 1 c c1).
  - by apply de_phase.
Qed.

Lemma drive_step_ok c op : drive_inv c -> drive_op_ok op -> op_spec c op (drive_run app_s5 p c op).
Proof.
  intros I Hop. destruct op as [o | now | | now | | b | id col | map | frame fb].
  - cbn [drive_run]. unfold s3_drive_set_options. destruct o as [o |]; [| apply quiet_op; try done; by apply keeps_unchanged].
    case_if; (apply quiet_op; [done | by apply keeps_unchanged | done | done]).
  - by apply start_ok.
  - cbn [drive_run]. unfold s3_drive_stop. rewrite (di_configured _ I). cbn [negb].
    destruct (_ || _) eqn:E; (apply halt_op; try apply I; try done; [by apply spends_refl |]).
    + destruct (decide (d_state (dr c) = S3_DRIVE_FAULT)) as [-> | Hs]; [constructor |]. apply de_stop_fault. undecide.
      destruct_or!; undecide; done.
    + undecide. by apply de_stop.
  - by apply reset_ok.
  - cbn [drive_run]. unfold s3_drive_terrain_fault. rewrite (di_configured _ I).
    apply halt_op; try apply I; try done; [by apply spends_refl | constructor].
  - cbn [drive_run]. apply quiet_op; [done | by apply keeps_unchanged | done | done].
  - apply (nav_op_quiet c _ (OpCalibrate id col)); try done. apply apply_calibration_inv. by apply reachable_inv, I.
  - apply (nav_op_quiet c _ (OpSetMapping map)); try done. apply set_mapping_inv; [by apply reachable_inv, I | done].
  - by apply cycle_ok_op.
Qed.

Lemma init_inv_drive config d : map_shape (cfg_map config) -> s3_drive_init app_s5 true (Some config) = (true, d) ->
  drive_inv {| dr := d; calls := [] |}.
Proof.
  intros Hm. unfold s3_drive_init. cbn [negb]. destruct (s3_navigation_init (Some config)) as [ok n] eqn:En. cbv zeta.
  destruct ok; [| done]. cbn [negb]. intros [= <-].
  destruct (init_inv _ _ Hm En) as (_ & _ & Hl & _). pose proof (nav_boot _ _ Hm En) as R.
  destruct app_s5; (constructor; try done; unfold in_step; cbn; rewrite Hl; by rewrite bool_decide_false).
Qed.
Lemma drive_reachable_inv c : drive_reachable app_s5 p c -> drive_inv c.
Proof. induction 1 as [config d Hm Hi | c op _ IH Hop]; [by eapply init_inv_drive | by apply drive_step_ok]. Qed.

End Cycle.
