(* ===== verification/DriveSnapshot.v ===== *)
(** * Where the drive's kept observation comes from

    [controller/s3_drive.c] keeps the packed bytes of the last observation the
    scanner answered with ([store_snapshot]), for the cycles in which the scanner is
    busy.  An invariant of all operations of the drive: as long as the kept bytes
    are marked valid they are the packet of an observation the scanner answered OK
    with, to a snapshot call of the drive. *)
From S2P Require Import Prelude CFloat BitCodec MotionController MotionPack IrSensing LineDetection.
From S2P Require Import ObstacleScan ObstacleCodec Avoidance Navigation NavigationSafety Drive DriveSafety.

(** One of the calls [l] is a snapshot call, answered OK with an observation packed as [b]. *)
Definition sourced (p : port) (b : bytes) (l : list call) : Prop :=
  exists after before o, l = after ++ CSnapshot :: before /\
    snapshot_reply p (CSnapshot :: before) = (S5_SNAPSHOT_OK, o) /\ s5_observation_pack o = Some b.

Section Cache.
Context (app_s5 : bool) (p : port).

Definition cached (c : ctx) : Prop := snapshot_valid (dr c) = true -> sourced p (snapshot_bytes (dr c)) (calls c).
Lemma cached_same c c' : cached c -> snapshot_valid (dr c') = snapshot_valid (dr c) ->
  snapshot_bytes (dr c') = snapshot_bytes (dr c) -> calls c `suffix_of` calls c' -> cached c'.
Proof.
  unfold cached. intros H Hv Hb [new E] V. rewrite Hv in V. destruct (H V) as (a & l & o & El & R). exists (new ++ a), l, o.
  rewrite Hb, E, El, app_assoc. done.
Qed.
Lemma cached_off c : snapshot_valid (dr c) = false -> cached c.
Proof. unfold cached. congruence. Qed.
(** The log grew by the calls just made, and the kept observation is untouched. *)
Ltac logged := repeat first [reflexivity | apply suffix_cons_r].
Ltac untouched H := apply (cached_same _ _ H); [reflexivity | reflexivity | logged].

Lemma cached_halt c s w : cached c -> cached (halt app_s5 c s w).
Proof. intros H. unfold halt. destruct app_s5; [by apply cached_off | untouched H]. Qed.
Lemma cached_id c : cached c -> cached (take_command_id p c).2.
Proof. intros H. untouched H. Qed.
Lemma cached_velocity c l r : cached c -> cached (send_velocity app_s5 p c l r).
Proof.
  intros H. assert (H1 : cached (make c (CVelocity l r))) by untouched H. unfold send_velocity. cbv zeta.
  case_if; [by apply cached_halt |]. pose proof (cached_id _ H1) as H2.
  destruct (take_command_id p _) as [ok c']. case_if; [by apply cached_halt | done].
Qed.
Lemma cached_stop_request c now : cached c -> cached (request_stop c now).
Proof. intros H. unfold request_stop. case_if; untouched H. Qed.
Lemma cached_turn c : cached c -> cached (request_turn p c).2.
Proof. intros H. unfold request_turn. destruct (manoeuvre_of _); [| done]. cbv zeta. case_if; untouched H. Qed.
Lemma cached_manoeuvre c : cached c -> cached (start_manoeuvre p c).2.
Proof.
  intros H. unfold start_manoeuvre. cbv zeta. case_if; [case_if; untouched H | apply cached_turn; untouched H].
Qed.
Lemma cached_follow_steer c now : cached c -> cached (follow_steer app_s5 p c now).
Proof.
  intros H. unfold follow_steer. cbv zeta. case_if; [by apply cached_velocity |].
  case_if; [by apply cached_velocity | by apply cached_stop_request].
Qed.
Lemma cached_follow_wait c now : cached c -> cached (follow_wait app_s5 p c now).
Proof.
  intros H. unfold follow_wait. repeat case_if; try (by apply cached_halt); try done; apply cached_follow_steer; first [done | untouched H].
Qed.
Lemma cached_follow c now : cached c -> cached (follow app_s5 p c now).
Proof.
  intros H. assert (J : forall c, cached c -> cached (follow_pending app_s5 p c now)).
  { clear c H. intros c H. unfold follow_pending. case_if; [by apply cached_halt |]. unfold follow_junction. cbv zeta.
    case_if; [| by apply cached_follow_wait]. case_if; [apply cached_follow_wait; untouched H |]. case_if; [by apply cached_halt |].
    assert (H1 : cached (request_stop (c <|| junction_m := fb_centre_m (feedback (dr c)) ||>) now)) by (apply cached_stop_request; untouched H).
    untouched H1. }
  unfold follow. cbv zeta. case_if; [by apply cached_halt |]. case_if; [| by apply J].
  case_if; [by apply cached_halt |]. case_if; [by apply cached_halt |]. apply J. untouched H.
Qed.
Lemma cached_phase c now dn : cached c -> cached (process_phase app_s5 p c now dn).
Proof.
  intros H. unfold process_phase.
  assert (R : cached (process_reacquire app_s5 c now)).
  { unfold process_reacquire. cbv zeta. assert (H1 : cached (make c CStop)) by untouched H. case_if; [by apply cached_halt |].
    case_if; untouched H. }
  destruct (d_state (dr c)); try exact R; clear R.
  - by apply cached_follow.
  - unfold process_braking. case_if; [by apply cached_halt |]. case_if; [| done]. cbv zeta.
    match goal with |- context [start_manoeuvre p ?x] => assert (H1 : cached x) by untouched H; pose proof (cached_manoeuvre x H1) as H2;
      destruct (start_manoeuvre p x) as [ok c2] end. case_if; [by apply cached_halt | untouched H2].
  - case_if.
    + unfold process_search. case_if; [by apply cached_halt |]. unfold search_step. cbv zeta.
      case_if; [untouched H |]. case_if; [by apply cached_halt |]. case_if; [apply cached_halt |]; untouched H.
    + unfold process_manoeuvre. cbv zeta.
      match goal with |- context [c <|| touch_us := ?a ||> <|| touched := ?b ||>] => set (c1 := c <|| touch_us := a ||> <|| touched := b ||>) end.
      assert (H1 : cached c1) by untouched H. clearbody c1. clear H. case_if; [by apply cached_halt |]. case_if.
      * match goal with |- context [request_turn p ?x] => assert (H2 : cached x) by untouched H1; pose proof (cached_turn x H2) as H3;
          destruct (request_turn p x) as [ok c2] end. case_if; [by apply cached_halt | untouched H3].
      * case_if; [| by case_if; [apply cached_halt |]]. unfold manoeuvre_done. cbv zeta. case_if; [| untouched H1].
        case_if; [untouched H1 | apply cached_halt; untouched H1].
Qed.

(** ** The scanner *)
Lemma cached_store c o now : snapshot_reply p (CSnapshot :: calls c) = (S5_SNAPSHOT_OK, o) ->
  cached (store_snapshot (make c CSnapshot) o now).
Proof.
  intros E. unfold store_snapshot. destruct (s5_observation_pack o) as [b |] eqn:Eb; [| by apply cached_off].
  intros _. exists [], (calls c), o. done.
Qed.
Lemma cached_snapshot c now : cached c -> cached (obstacle_snapshot p c now).2.
Proof.
  intros H. unfold obstacle_snapshot. cbv zeta. change (calls (make c CSnapshot)) with (CSnapshot :: calls c).
  destruct (snapshot_reply p (CSnapshot :: calls c)) as [[] o] eqn:E; cbn [snd]; try (by apply cached_off).
  - by apply cached_store.
  - case_if; [| by apply cached_off]. destruct (s5_observation_unpack _); untouched H.
Qed.
Lemma cached_detour c now dn have o : cached c -> cached (detour_step app_s5 p c now dn have o).
Proof.
  intros H. unfold detour_step. cbv zeta.
  match goal with |- context [s5_avoidance_step ?a ?b] => destruct (s5_avoidance_step a b) as [r a'] end.
  match goal with |- context [?c1 <|| obstacle := a' ||>] => assert (H2 : cached (c1 <|| obstacle := a' ||>)) by untouched H;
    revert H2; generalize (c1 <|| obstacle := a' ||>); intros c2 H2 end.
  case_if; [by apply cached_halt |].
  assert (H3 : cached (run_action p c2 now r).2).
  { unfold run_action. cbv zeta. destruct (kind r); try untouched H2; unfold detour_motion; cbv zeta; case_if; untouched H2. }
  destruct (run_action p c2 now r) as [ok c3]. cbn [snd] in H3.
  case_if; [| untouched H3]. assert (H4 : cached (fail_obstacle app_s5 c3 S5_MOTION_ERROR S3_DRIVE_REJECTED)); [| untouched H4].
  apply cached_halt. untouched H3.
Qed.
Lemma cached_begin c now : cached c -> cached (begin_detour c now).
Proof.
  intros H. unfold begin_detour. cbv zeta.
  match goal with |- context [request_stop ?x now] => assert (H1 : cached (request_stop x now)) by (apply cached_stop_request; untouched H) end.
  untouched H1.
Qed.
Lemma cached_obstacle c now dn : cached c -> cached (obstacle_control app_s5 p c now dn).2.
Proof.
  intros H. unfold obstacle_control. pose proof (cached_snapshot c now H) as H1.
  destruct (obstacle_snapshot p c now) as [[have o] c1]. cbn [snd] in H1.
  assert (F : forall f w, cached (fail_obstacle app_s5 c1 f w)) by (intros; apply cached_halt; untouched H1).
  assert (B : forall c2, cached c2 -> cached (detour_step app_s5 p (begin_detour c2 now) now dn have o))
    by (intros; by apply cached_detour, cached_begin).
  case_if; [by apply cached_detour |]. case_if; [apply F |]. case_if; [case_if; [apply F | exact H1] |].
  case_if; [exact H1 |]. case_if; [by apply cached_halt |]. case_if; [case_if; [by apply cached_halt |] |]; apply B; [untouched H1 | exact H1].
Qed.

(** ** Whole operations *)
Lemma cached_cycle c frame fb : nav_reachable (navigation (dr c)) -> cached c -> cached (s3_drive_process app_s5 p c frame fb).2.
Proof.
  intros R H. unfold s3_drive_process. case_if; [done |]. destruct frame as [frame |]; [| by apply cached_halt]. cbv zeta.
  destruct (observe_ok p c frame fb R) as (c1 & healthy & dn & -> & [[id E] (n & _ & El & _)]). cbn [negb].
  assert (H1 : cached c1) by (apply (cached_same c); [done | by rewrite E | by rewrite E | rewrite El; by eexists]).
  clear E El R. case_if; cbn [snd].
  { unfold finish_reset. case_if; [untouched H1 |]. case_if; [done |].
    destruct (if bool_decide _ then _ else _) as [ok m]. cbv zeta. case_if; untouched H1. }
  case_if; [by apply cached_halt |]. case_if; [by apply cached_halt |]. case_if; [done |]. unfold process_running.
  case_if; [by apply cached_halt |]. case_if.
  { pose proof (cached_stop_request c1 (frame_timestamp_us frame) H1) as H2. untouched H2. }
  cbv zeta. assert (H2 : cached (make c1 (CHeartbeat true))) by untouched H1.
  assert (H3 : cached (if app_s5 then obstacle_control app_s5 p (make c1 (CHeartbeat true)) (frame_timestamp_us frame) dn
                       else (false, make c1 (CHeartbeat true))).2).
  { pose proof (cached_obstacle _ (frame_timestamp_us frame) dn H2) as H3. revert H3.
    generalize (obstacle_control app_s5 p (make c1 (CHeartbeat true)) (frame_timestamp_us frame) dn). intros r H3. by destruct app_s5. }
  destruct (if app_s5 then _ else _) as [handled c2]. cbn [snd] in H3. case_if; [done | by apply cached_phase].
Qed.
Lemma cached_start c now : cached c -> cached (s3_drive_start app_s5 p c now).2.
Proof.
  intros H. unfold s3_drive_start. cbv zeta. destruct app_s5.
  - assert (H0 : cached (make c CSnapshot)) by untouched H. change (calls (make c CSnapshot)) with (CSnapshot :: calls c).
    destruct (snapshot_reply p (CSnapshot :: calls c)) as [r o] eqn:E. cbn [andb]. case_if; [exact H0 |]. case_if; [exact H0 |].
    destruct (s3_navigation_start _ _) as [ok n]. case_if; [untouched H |]. cbn [snd]. assert (Hr : r = S5_SNAPSHOT_OK) by (by destruct r).
    rewrite Hr in E. pose proof (cached_store c o now E) as HS. unfold start_obstacle, store_snapshot in *.
    destruct (s5_observation_pack o); [| by apply cached_off]. untouched HS.
  - destruct (snapshot_reply p (calls c)) as [r o]. cbn [andb]. case_if; [exact H |].
    destruct (s3_navigation_start _ _) as [ok n]. case_if; untouched H.
Qed.

Lemma cached_run c op : nav_reachable (navigation (dr c)) -> cached c -> cached (drive_run app_s5 p c op).
Proof.
  intros R H. destruct op as [o | now | | now | | b | id col | map | frame fb]; cbn [drive_run].
  - unfold s3_drive_set_options. destruct o; [| done]. case_if; untouched H.
  - by apply cached_start.
  - unfold s3_drive_stop. case_if; [done |]. case_if; by apply cached_halt.
  - unfold s3_drive_reset. case_if; [done |]. cbv zeta. case_if; untouched H.
  - unfold s3_drive_terrain_fault. case_if; [by apply cached_halt | done].
  - untouched H.
  - untouched H.
  - untouched H.
  - by apply cached_cycle.
Qed.
End Cache.

Lemma init_cache app_s5 config d : s3_drive_init app_s5 true (Some config) = (true, d) -> snapshot_valid d = false.
Proof.
  unfold s3_drive_init. cbn [negb]. destruct (s3_navigation_init _) as [[] n]; cbn [negb]; [| done]. by destruct app_s5; intros [= <-].
Qed.
