(* ===== verification/DriveTheorems.v ===== *)
(** * What the drive guarantees

    Theorems on [controller/s3_drive.c] over the transition system of
    [DriveSafety]: authority over the motors, the state machine, the phase
    deadlines and the origin of every manoeuvre. *)
From S2P Require Import Prelude CFloat BitCodec MotionController MotionPack IrSensing LineDetection BarcodeDecoder BarcodeReader.
From S2P Require Import ObstacleScan ObstacleCodec Avoidance Navigation NavigationSafety Drive DriveSafety DriveSnapshot.

Section Plan.
Context (app_s5 : bool) (p : port).

(** ** Which manoeuvre is planned *)
(** The action waiting for a junction and the manoeuvre under way. *)
Definition plan_of (c : ctx) : Z * Z := (d_pending (dr c), turn (dr c)).
Lemma halt_plan c s w : plan_of (halt app_s5 c s w) = (S3_NAV_NONE, S3_NAV_NONE).
Proof. unfold halt. destruct app_s5; reflexivity. Qed.
Lemma take_id_plan c : plan_of (take_command_id p c).2 = plan_of c.
Proof. reflexivity. Qed.
Lemma request_turn_plan c : plan_of (request_turn p c).2 = plan_of c.
Proof. unfold request_turn. destruct (manoeuvre_of _); [| done]. by case_if. Qed.
Lemma start_manoeuvre_plan c : plan_of (start_manoeuvre p c).2 = plan_of c.
Proof.
  unfold start_manoeuvre. set (advance := (_ - _)%f32). cbv zeta. case_if; [by case_if |]. by rewrite request_turn_plan.
Qed.
Lemma request_stop_plan c now : plan_of (request_stop c now) = plan_of c.
Proof. unfold request_stop. by case_if. Qed.
Lemma send_velocity_plan c l r : plan_of (send_velocity app_s5 p c l r) = (S3_NAV_NONE, S3_NAV_NONE) \/
  plan_of (send_velocity app_s5 p c l r) = plan_of c.
Proof.
  unfold send_velocity. case_if; [left; apply halt_plan |].
  pose proof (take_id_plan (make c (CVelocity l r))) as E. destruct (take_command_id p _) as [ok c2]. cbn [snd] in E.
  case_if; [left; apply halt_plan | right; exact E].
Qed.

(** How a cycle may change the plan, and that braking has something to do. *)
Inductive replan (d : s3_drive_t) : Z * Z -> Prop :=
| rp_same : replan d (d_pending d, turn d)
| rp_drop : replan d (S3_NAV_NONE, S3_NAV_NONE)
| rp_cross : replan d (S3_NAV_NONE, turn d)
| rp_barcode : has_event d S3_EVENT_BARCODE = true -> Navigation.action (output d) <> S3_NAV_NONE ->
    replan d (Navigation.action (output d), turn d)
| rp_start : d_state d = S3_DRIVE_BRAKING -> replan d (S3_NAV_NONE, d_pending d).
Definition planned (d : s3_drive_t) : Prop := d_state d = S3_DRIVE_BRAKING -> d_pending d <> S3_NAV_NONE.
Definition replans (c c' : ctx) : Prop := replan (dr c) (plan_of c') /\ planned (dr c').

Lemma replans_halt c c' s w : running s = false -> replans c (halt app_s5 c' s w).
Proof.
  intros Hs. split; [rewrite halt_plan; constructor |]. unfold planned. rewrite (proj1 (halt_state app_s5 c' s w)).
  by intros ->.
Qed.

(** From FOLLOW, with the plan of [c] possibly updated by a barcode or a crossing. *)
Lemma follow_steer_replans c c1 now : d_state (dr c1) = S3_DRIVE_FOLLOW -> replan (dr c) (plan_of c1) ->
  replans c (follow_steer app_s5 p c1 now).
Proof.
  intros Hs HR.
  assert (G : forall l r, replans c (send_velocity app_s5 p c1 l r)).
  { intros l r. assert (replan (dr c) (plan_of (send_velocity app_s5 p c1 l r))) as H.
    { destruct (send_velocity_plan c1 l r) as [-> | ->]; [constructor | done]. }
    split; [exact H |]. unfold planned.
    unfold send_velocity in *. intros Hb. exfalso. revert Hb. case_if; [by rewrite (proj1 (halt_state _ _ _ _)) |].
    pose proof (take_id_keeps p (fun _ => True) (make c1 (CVelocity l r))) as K.
    destruct (take_command_id p _) as [ok c2]. cbn [snd] in K. case_if; [by rewrite (proj1 (halt_state _ _ _ _)) |].
    rewrite (kp_state _ _ _ _ K). change (d_state (dr (make c1 (CVelocity l r)))) with (d_state (dr c1)). by rewrite Hs. }
  unfold follow_steer. case_if; [apply G |]. case_if; [apply G |]. split; [by rewrite request_stop_plan |].
  unfold planned. rewrite (kp_state _ _ _ _ (request_stop_keeps (fun _ => True) c1 now)). by rewrite Hs.
Qed.

Lemma follow_wait_replans c c1 now : d_state (dr c1) = S3_DRIVE_FOLLOW -> replan (dr c) (plan_of c1) ->
  replans c (follow_wait app_s5 p c1 now).
Proof.
  intros Hs HR. assert (HS : replans c c1) by (split; [done | unfold planned; by rewrite Hs]).
  unfold follow_wait. case_if; [| by apply follow_steer_replans].
  case_if; [by apply replans_halt |]. case_if; [done |]. case_if; [done |]. by apply follow_steer_replans.
Qed.
Lemma follow_junction_replans c c1 now : d_state (dr c1) = S3_DRIVE_FOLLOW -> replan (dr c) (plan_of c1) ->
  turn (dr c1) = turn (dr c) -> replans c (follow_junction app_s5 p c1 now).
Proof.
  intros Hs HR Ht. unfold follow_junction. cbv zeta. case_if; [| by apply follow_wait_replans].
  case_if.
  { apply follow_wait_replans; [done |].
    change (replan (dr c) (S3_NAV_NONE, turn (dr c1))). rewrite Ht. constructor. }
  case_if; [by apply replans_halt |].
  set (c2 := c1 <|| junction_m := fb_centre_m (feedback (dr c1)) ||>).
  pose proof (request_stop_plan c2 now) as E. unfold plan_of in E. injection E as E1 E2.
  change (replan (dr c) (d_pending (dr (request_stop c2 now)), turn (dr (request_stop c2 now))) /\
    (S3_DRIVE_BRAKING = S3_DRIVE_BRAKING -> d_pending (dr (request_stop c2 now)) <> S3_NAV_NONE)).
  rewrite E1, E2. split; [exact HR |]. intros _. by apply Z.eqb_neq.
Qed.
Lemma follow_replans c now : d_state (dr c) = S3_DRIVE_FOLLOW -> replans c (follow app_s5 p c now).
Proof.
  intros Hs. unfold follow. cbv zeta.
  assert (G : forall c1, d_state (dr c1) = S3_DRIVE_FOLLOW -> replan (dr c) (plan_of c1) -> turn (dr c1) = turn (dr c) ->
    replans c (follow_pending app_s5 p c1 now)).
  { intros c1 ? ? ?. unfold follow_pending. case_if; [by apply replans_halt | by apply follow_junction_replans]. }
  case_if; [by apply replans_halt |]. case_if; [| apply G; try done; constructor].
  case_if; [by apply replans_halt |]. case_if; [by apply replans_halt |]. apply G; try done.
  apply (rp_barcode (dr c)); [done | by apply Z.eqb_neq].
Qed.
Lemma phase_replans c now dn : planned (dr c) -> replans c (process_phase app_s5 p c now dn).
Proof.
  intros HP. assert (HS : replans c c) by (split; [constructor | done]).
  assert (Any : forall c2 s, d_state (dr c2) = s -> s <> S3_DRIVE_BRAKING -> plan_of c2 = plan_of c -> replans c c2).
  { intros c2 s H1 H2 H3. split; [rewrite H3; constructor | intros H; congruence]. }
  assert (RA : d_state (dr c) <> S3_DRIVE_BRAKING -> replans c (process_reacquire app_s5 c now)).
  { intros Hn. unfold process_reacquire. cbv zeta. case_if; [by apply replans_halt |]. case_if; by eapply Any. }
  unfold process_phase. destruct (d_state (dr c)) eqn:Hs; try (by apply follow_replans); try (by apply RA).
  2: case_if.
  - unfold process_braking. case_if; [by apply replans_halt |]. case_if; [| done].
    match goal with |- context [start_manoeuvre p ?x] => set (c1 := x) end.
    pose proof (start_manoeuvre_plan c1) as E. destruct (start_manoeuvre p c1) as [ok c2]. cbn [snd] in E.
    case_if; [by apply replans_halt |]. split; [| by intros].
    unfold plan_of in E. injection E as _ E. unfold plan_of.
    change (replan (dr c) (S3_NAV_NONE, turn (dr c2))). rewrite E. by apply rp_start.
  - unfold process_search. case_if; [by apply replans_halt |]. unfold search_step. cbv zeta.
    case_if; [by eapply Any |]. case_if; [by apply replans_halt |]. case_if; [by apply replans_halt |]. by eapply Any.
  - unfold process_manoeuvre. cbv zeta. case_if; [by apply replans_halt |]. case_if.
    + match goal with |- context [request_turn p ?x] => set (c1 := x) end.
      pose proof (request_turn_plan c1) as E. pose proof (kp_state _ _ _ _ (request_turn_keeps p (fun _ => True) c1 (fun _ _ => I))) as K.
      destruct (request_turn p c1) as [ok c2]. cbn [snd] in E, K. case_if; [by apply replans_halt |].
      eapply (Any _ S3_DRIVE_MANOEUVRE); [exact (eq_trans K Hs) | done | exact E].
    + case_if; [| case_if; [by apply replans_halt | by eapply Any]].
      unfold manoeuvre_done, start_search. cbv zeta.
      case_if; [case_if; [by eapply Any | by apply replans_halt] | by eapply Any].
Qed.

(** The detour keeps the plan, unless it fails. *)
Lemma run_action_plan c now r : plan_of (run_action p c now r).2 = plan_of c /\
  (d_state (dr (run_action p c now r).2) = d_state (dr c) \/ d_state (dr (run_action p c now r).2) = S3_DRIVE_FOLLOW).
Proof.
  assert (D : forall x, let c' := (detour_motion p c now x).2 in plan_of c' = plan_of c /\ d_state (dr c') = d_state (dr c)).
  { intros x. unfold detour_motion. cbv zeta. by destruct (negb _). }
  unfold run_action. cbv zeta. destruct (kind r); try (split; [reflexivity | left; reflexivity]).
  - destruct (D (CDrive (float_of_Z (value r) / flit 1000 1)%f32 (float_of_Z (speed_mms r) / flit 1000 1)%f32)). auto.
  - destruct (D (CTurn (float_of_Z (value r)) (float_of_Z (speed_mms r) / flit 1000 1)%f32)). auto.
  - split; [reflexivity | right; reflexivity].
Qed.
Lemma detour_step_replans c c1 now dn have o : d_state (dr c1) = S3_DRIVE_MANOEUVRE -> replan (dr c) (plan_of c1) ->
  replans c (detour_step app_s5 p c1 now dn have o).
Proof.
  intros Hs HR. unfold detour_step. cbv zeta. destruct (s5_avoidance_step _ _) as [request a].
  case_bool_decide; [by apply replans_halt |].
  match goal with |- context [run_action p ?x now request] => set (c2 := x) end.
  destruct (run_action_plan c2 now request) as [E1 E2]. destruct (run_action p c2 now request) as [ok c3]. cbn [snd] in *.
  destruct ok; cbn [negb].
  - split; [change (plan_of (publish_obstacle c3)) with (plan_of c3); by rewrite E1 |].
    unfold planned. change (dr (publish_obstacle c3)) with (dr c3).
    change (d_state (dr c2)) with (d_state (dr c1)) in E2. destruct E2 as [-> | ->]; by rewrite ?Hs.
  - exact (replans_halt c _ S3_DRIVE_FAULT S3_DRIVE_REJECTED eq_refl).
Qed.
Lemma begin_detour_plan c now : plan_of (begin_detour c now) = plan_of c.
Proof.
  unfold begin_detour. cbv zeta. set (c1 := c <|| obstacle := _ ||> <|| obstacle_active := true ||>).
  exact (request_stop_plan c1 now).
Qed.
Lemma obstacle_control_replans c now dn : detour_inv app_s5 c ->
  let r := obstacle_control app_s5 p c now dn in
  (r.1 = true -> replans c r.2) /\ (r.1 = false -> exists b u v, dr r.2 = dr c <| snapshot_bytes := b |> <| snapshot_us := u |> <| snapshot_valid := v |>).
Proof.
  intros HI. unfold obstacle_control. cbv zeta. pose proof (snapshot_frame p c now) as (b & u & v & Fr).
  destruct (obstacle_snapshot p c now) as [[have o] c1]. cbn [snd] in Fr.
  assert (HF : forall f w, replans c (fail_obstacle app_s5 c1 f w)) by (intros; by apply replans_halt).
  assert (HD : forall c2, d_state (dr c2) = S3_DRIVE_FOLLOW -> replan (dr c) (plan_of c2) ->
    replans c (detour_step app_s5 p (begin_detour c2 now) now dn have o)).
  { intros c2 H1 H2. apply detour_step_replans; [| by rewrite begin_detour_plan].
    by apply (begin_detour_ok (fun _ => True)). }
  assert (HE : plan_of c1 = plan_of c) by (unfold plan_of; by rewrite Fr).
  destruct (obstacle_active (dr c1)) eqn:Hact.
  { split; [intros _ | done]. apply detour_step_replans; [| rewrite HE; constructor]. rewrite Fr in *. by apply HI. }
  case_if; [split; [intros _; apply HF | done] |]. case_if.
  { case_if; [split; [intros _; apply HF | done] | split; [done | eauto]]. }
  assert (Hs : d_state (dr c1) = S3_DRIVE_FOLLOW) by (by undecide).
  case_if; [split; [done | eauto] |]. case_if; [split; [intros _; by apply replans_halt | done] |].
  destruct (has_event (dr c1) S3_EVENT_BARCODE) eqn:He.
  - destruct (negb (d_pending _ =? _) || _) eqn:Ep; [split; [intros _; by apply replans_halt | done] |]. split; [intros _ | done]. apply HD; [exact Hs |].
    rewrite Fr in *. undecide. by apply (rp_barcode (dr c)).
  - split; [intros _ | done]. apply HD; [done | rewrite HE; constructor].
Qed.
Lemma replan_frame d b u v x :
  replan (d <| snapshot_bytes := b |> <| snapshot_us := u |> <| snapshot_valid := v |>) x -> replan d x.
Proof. intros [| | | H1 H2 |H1]; [apply (rp_same d) | apply (rp_drop d) | apply (rp_cross d) | exact (rp_barcode d H1 H2) | exact (rp_start d H1)]. Qed.
Lemma process_running_replans c now h dn : planned (dr c) -> detour_inv app_s5 c ->
  replans c (process_running app_s5 p c now h dn).
Proof.
  intros HP HI. unfold process_running. case_if; [by apply replans_halt |]. case_if.
  { split; [| unfold planned].
    - change (plan_of (make (request_stop c now) (CHeartbeat false))) with (plan_of (request_stop c now)).
      rewrite request_stop_plan. constructor.
    - change (dr (make (request_stop c now) (CHeartbeat false))) with (dr (request_stop c now)).
      pose proof (request_stop_plan c now) as E. unfold plan_of in E. injection E as -> _.
      by rewrite (kp_state _ _ _ _ (request_stop_keeps (fun _ => True) c now)). }
  set (c1 := make c (CHeartbeat true)). change (replans c) with (replans c1). change (dr c) with (dr c1) in HP.
  destruct app_s5 eqn:Ea; [| rewrite <- Ea; by apply phase_replans].
  pose proof (obstacle_control_replans c1 now dn) as O. rewrite Ea in O. destruct (O HI) as [O1 O2].
  destruct (obstacle_control true p c1 now dn) as [[] c2]; cbn [fst snd] in *; [by apply O1 |].
  destruct (O2 eq_refl) as (b & u & v & E). destruct (phase_replans c2 now dn) as [R Pl].
  { unfold planned. rewrite E. exact HP. }
  rewrite Ea in R, Pl. split; [| exact Pl]. rewrite E in R. by eapply replan_frame.
Qed.

(** ** Where a plan comes from *)
(** The letter decoded in this cycle, looked up in the configured map. *)
Definition barcode_of (c : ctx) (op : drive_op) (a : Z) : Prop :=
  exists frame fb k, op = DCycle (Some frame) fb /\
    let out := (nav_cycle c frame (default zero_feedback fb)).2 in
    barcode_status out = S3_BARCODE_DECODED /\ 0 <= k < 26 /\ letter (out_barcode out) = CHAR_A + k /\
    cfg_map (nav_config (navigation (dr c))) !! Z.to_nat k = Some a /\ 0 <= a < S3_NAV_ACTION_COUNT.
Definition pending_change (c : ctx) (op : drive_op) (a : Z) : Prop :=
  a = d_pending (dr c) \/ a = S3_NAV_NONE \/ barcode_of c op a.
Definition turn_change (c : ctx) (t : Z) : Prop :=
  t = turn (dr c) \/ t = S3_NAV_NONE \/ d_state (dr c) = S3_DRIVE_BRAKING /\ t = d_pending (dr c).
Definition plan_change (c : ctx) (op : drive_op) (x : Z * Z) : Prop := pending_change c op x.1 /\ turn_change c x.2.
Definition plan_inv (c : ctx) : Prop := planned (dr c) /\ 0 <= d_pending (dr c) < S3_NAV_ACTION_COUNT.

Lemma barcode_bit e : Z.land e S3_EVENT_BARCODE <> 0 -> Z.testbit e 0 = true.
Proof.
  intros H. destruct (Z.testbit e 0) eqn:E; [done |]. destruct H. change S3_EVENT_BARCODE with (Z.ones 1).
  rewrite Z.land_ones by lia. change (2 ^ 1) with 2. by rewrite <- Z.bit0_mod, E.
Qed.
Lemma seen_change c frame fb id x : nav_reachable (navigation (dr c)) ->
  replan (seen c frame (default zero_feedback fb) id) x -> plan_change c (DCycle (Some frame) fb) x.
Proof.
  intros R. pose proof (barcode_event _ frame (Some (odometry_of (default zero_feedback fb))) R) as B.
  fold (nav_cycle c frame (default zero_feedback fb)) in B. set (out := (nav_cycle c frame (default zero_feedback fb)).2).
  assert (O : output (seen c frame (default zero_feedback fb) id) = out) by reflexivity.
  destruct (nav_cycle c frame _) as [[ok n'] o] eqn:E. destruct B as (B1 & _ & _ & B4).
  intros [| | | H1 H2 | H1]; split; cbn [fst snd];
    try (left; reflexivity); try (right; left; reflexivity); try (right; right; split; [exact H1 | reflexivity]).
  right. right. unfold has_event in H1. rewrite O in H1 |- *. apply negb_true_iff, Z.eqb_neq, barcode_bit in H1.
  destruct (B4 H1) as (k & K1 & K2 & K3 & K4). exists frame, fb, k. split; [done |]. cbv zeta. rewrite E.
  exact (conj (proj2 (proj1 B1 H1)) (conj K1 (conj K2 (conj K3 K4)))).
Qed.

Lemma cycle_plan c frame fb : drive_inv app_s5 c -> planned (dr c) -> let c' := drive_run app_s5 p c (DCycle frame fb) in
  planned (dr c') /\ plan_change c (DCycle frame fb) (plan_of c').
Proof.
  intros I HP. cbn [drive_run]. cbv zeta. unfold s3_drive_process. rewrite (di_configured _ _ I). cbn [negb].
  assert (Halt : forall c1 s w, running s = false -> planned (dr (halt app_s5 c1 s w)) /\
    plan_change c (DCycle frame fb) (plan_of (halt app_s5 c1 s w))).
  { intros c1 s w Hs. split; [by apply (replans_halt c) |]. rewrite halt_plan. split; right; by left. }
  destruct frame as [frame |]; [| by apply Halt].
  destruct (observe_ok p c frame fb (di_nav _ _ I)) as (c1 & healthy & dn & -> & O). set (now := frame_timestamp_us frame).
  destruct (cycle_observed _ _ _ _ _ _ _ _ I O) as (_ & C2 & _ & _ & _ & _ & C7 & _).
  destruct O as [[id Ed] _]. cbn [negb].
  assert (HP1 : planned (dr c1)) by (rewrite Ed; exact HP).
  assert (G : forall c2, replans c1 c2 -> planned (dr c2) /\ plan_change c (DCycle (Some frame) fb) (plan_of c2)).
  { intros c2 [R Pl]. split; [done |]. rewrite Ed in R. by eapply seen_change; [apply I |]. }
  assert (HS : replans c1 c1) by (split; [constructor | done]).
  case_bool_decide as Hr.
  - apply G. cbn [snd]. unfold finish_reset. case_if; [done |]. case_if; [done |].
    destruct (if bool_decide _ then _ else _) as [ok n]. case_if; [done |]. split; [apply (rp_same (dr c1)) | done].
  - case_if; [by apply Halt |]. case_if; [by apply Halt |]. case_if; [by apply G |].
    apply G. by apply process_running_replans.
Qed.

Lemma plan_step c op : drive_inv app_s5 c -> plan_inv c -> drive_op_ok op -> let c' := drive_run app_s5 p c op in
  plan_inv c' /\ plan_change c op (plan_of c').
Proof.
  intros I [HP HA] Hop. cbv zeta.
  enough (G : planned (dr (drive_run app_s5 p c op)) /\ plan_change c op (plan_of (drive_run app_s5 p c op))).
  { destruct G as [G1 G2]. split; [split; [done |] | done]. destruct G2 as [[G2 | [G2 | (? & ? & ? & G2)]] _]; cbn in G2.
    - by rewrite G2.
    - by rewrite G2.
    - by destruct G2 as (_ & _ & _ & _ & _ & G2). }
  assert (Same : forall c1, plan_of c1 = plan_of c -> d_state (dr c1) = d_state (dr c) ->
    planned (dr c1) /\ plan_change c op (plan_of c1)).
  { intros c1 E1 E2. rewrite E1. split; [| split; by left]. unfold planned. injection E1 as -> _. by rewrite E2. }
  assert (Halt : forall s w, running s = false -> planned (dr (halt app_s5 c s w)) /\
    plan_change c op (plan_of (halt app_s5 c s w))).
  { intros s w Hs. split; [by apply (replans_halt c) |]. rewrite halt_plan. split; right; by left. }
  destruct op; cbn [drive_run]; try (by apply Same).
  - unfold s3_drive_set_options. destruct o; [| by apply Same]. case_if; by apply Same.
  - unfold s3_drive_start. cbv zeta. destruct (snapshot_reply p _) as [result o].
    assert (Snap : forall c0, c0 = c \/ c0 = make c CSnapshot -> planned (dr c0) /\ plan_change c (DStart now) (plan_of c0))
      by (intros c0 [-> | ->]; by apply Same).
    set (c0 := if app_s5 then _ else _).
    assert (E0 : c0 = c \/ c0 = make c CSnapshot) by (subst c0; destruct app_s5; auto). clearbody c0.
    case_if; [by apply Snap |]. case_if; [by apply Snap |].
    destruct (s3_navigation_start _ now) as [ok n]. case_if; [destruct E0 as [-> | ->]; by apply Same |].
    cbn [snd]. split; [done |]. split; [right; by left |]. left. destruct app_s5; [| by destruct E0 as [-> | ->]].
    unfold start_obstacle, store_snapshot. destruct (s5_observation_pack o); by destruct E0 as [-> | ->].
  - unfold s3_drive_stop. case_if; [by apply Same |]. case_if; by apply Halt.
  - unfold s3_drive_reset. case_if; [by apply Same |]. cbv zeta. case_if; by apply Same.
  - unfold s3_drive_terrain_fault. case_if; [by apply Halt | by apply Same].
  - by apply cycle_plan.
Qed.
Lemma plan_reachable c : drive_reachable app_s5 p c -> plan_inv c.
Proof.
  induction 1 as [config d Hm Hi | c op R IH Hop]; [| apply plan_step; [by eapply drive_reachable_inv | done | done]].
  unfold s3_drive_init in Hi. cbn [negb] in Hi. destruct (s3_navigation_init _) as [ok n]. cbv zeta in Hi.
  destruct (negb ok); [done |]. injection Hi as <-. destruct app_s5; split; done.
Qed.
Lemma manoeuvre_some a : 0 <= a < S3_NAV_ACTION_COUNT -> a <> S3_NAV_NONE -> exists m, manoeuvre_of a = Some m.
Proof.
  unfold S3_NAV_ACTION_COUNT, S3_NAV_NONE, manoeuvre_of, S3_NAV_LEFT, S3_NAV_RIGHT, S3_NAV_STRAIGHT, S3_NAV_UTURN.
  intros H1 H2. repeat case_match; eauto. unbool. lia.
Qed.

End Plan.

(** ** Deadlines *)
Section Deadlines.
Context (app_s5 : bool) (p : port).

(** What ends a phase that waits too long; a cycle that is not held either faults,
    is taken by the detour, or runs the phase. *)
Lemma cycle_cases c frame fb : drive_inv app_s5 c -> running (d_state (dr c)) = true -> external_hold (dr c) = false ->
  let c' := drive_run app_s5 p c (DCycle (Some frame) fb) in let now := frame_timestamp_us frame in
  d_state (dr c') = S3_DRIVE_FAULT \/
  exists id c1 dn, dr c1 = seen c frame (default zero_feedback fb) id /\
    (app_s5 = true /\ obstacle_control app_s5 p c1 now dn = (true, c') \/
     exists c2, (app_s5 = false /\ c2 = c1 \/ app_s5 = true /\ obstacle_control app_s5 p c1 now dn = (false, c2)) /\
       c' = process_phase app_s5 p c2 now dn).
Proof.
  intros I Hr Hh. cbn [drive_run]. cbv zeta. unfold s3_drive_process. rewrite (di_configured _ _ I). cbn [negb].
  destruct (observe_ok p c frame fb (di_nav _ _ I)) as (c1 & healthy & dn & -> & O). set (now := frame_timestamp_us frame).
  destruct (cycle_observed _ _ _ _ _ _ _ _ I O) as (_ & C2 & _ & _ & C5 & _). destruct O as [[id Ed] _]. cbn [negb].
  assert (Hp : reset_result (dr c) <> S3_RESET_PENDING).
  { intros E. apply (di_reset _ _ I) in E. by rewrite E in Hr. }
  rewrite C5, bool_decide_false by done.
  assert (Hw : forall c0 w, d_state (dr (halt app_s5 c0 S3_DRIVE_FAULT w)) = S3_DRIVE_FAULT) by (intros; apply halt_state).
  case_if; [left; apply Hw |]. case_if; [left; apply Hw |]. rewrite C2, Hr. cbn [negb snd].
  unfold process_running. case_if; [left; apply Hw |].
  assert (external_hold (dr c1) = false) as -> by (by rewrite Ed).
  right. exists id, (make c1 (CHeartbeat true)), dn. split; [exact Ed |].
  destruct app_s5; [| right; exists (make c1 (CHeartbeat true)); auto].
  destruct (obstacle_control true p (make c1 (CHeartbeat true)) now dn) as [[] c2]; [by left |]. right. exists c2. auto.
Qed.
(** Outside FOLLOW only an active detour survives the obstacle check. *)
Lemma obstacle_handled c now dn c' : d_state (dr c) <> S3_DRIVE_FOLLOW -> obstacle_control app_s5 p c now dn = (true, c') ->
  d_state (dr c') = S3_DRIVE_FAULT \/ obstacle_active (dr c) = true /\
    exists c1 have o, (exists b u v, dr c1 = dr c <| snapshot_bytes := b |> <| snapshot_us := u |> <| snapshot_valid := v |>) /\
      c' = detour_step app_s5 p c1 now dn have o.
Proof.
  intros Hs. unfold obstacle_control. pose proof (snapshot_frame p c now) as Fr.
  destruct (obstacle_snapshot p c now) as [[have o] c1]. cbn [snd] in Fr. pose proof Fr as (b & u & v & E).
  assert (obstacle_active (dr c1) = obstacle_active (dr c)) as -> by (by rewrite E).
  assert (d_state (dr c1) = d_state (dr c)) as -> by (by rewrite E).
  assert (HF : forall f w, d_state (dr (fail_obstacle app_s5 c1 f w)) = S3_DRIVE_FAULT) by (intros; apply halt_state).
  destruct (obstacle_active (dr c)) eqn:Ha; [intros [= <-]; right; split; [done |]; eauto 10 |].
  case_if; [intros [= <-]; by left |]. rewrite bool_decide_false by done. cbn [negb]. case_if; [intros [= <-]; by left | done].
Qed.
Lemma obstacle_passed c now dn c' : obstacle_control app_s5 p c now dn = (false, c') ->
  obstacle_active (dr c) = false /\
  exists b u v, dr c' = dr c <| snapshot_bytes := b |> <| snapshot_us := u |> <| snapshot_valid := v |>.
Proof.
  unfold obstacle_control. pose proof (snapshot_frame p c now) as Fr.
  destruct (obstacle_snapshot p c now) as [[have o] c1]. cbn [snd] in Fr. pose proof Fr as (b & u & v & E).
  assert (obstacle_active (dr c1) = obstacle_active (dr c)) as -> by (by rewrite E).
  destruct (obstacle_active (dr c)); [done |]. intros H. split; [done |]. exists b, u, v. rewrite <- E.
  repeat case_match; by simplify_eq.
Qed.
(** The phase runs on the drive as observed, whatever the snapshot. *)
Record same_phase (d d' : s3_drive_t) : Prop := {
  sp_state : d_state d' = d_state d; sp_phase : d_phase_us d' = d_phase_us d; sp_active : obstacle_active d' = obstacle_active d;
  sp_search : searching d' = searching d; sp_advance : advancing d' = advancing d;
  sp_obstacle : obstacle d' = obstacle d
}.
Lemma same_phase_frame d d' : (exists b u v, d' = d <| snapshot_bytes := b |> <| snapshot_us := u |> <| snapshot_valid := v |>) ->
  same_phase d d'.
Proof. intros (b & u & v & ->). by constructor. Qed.
Lemma same_phase_trans d1 d2 d3 : same_phase d1 d2 -> same_phase d2 d3 -> same_phase d1 d3.
Proof. intros [] []. constructor; congruence. Qed.

(** A cycle outside FOLLOW: a fault, a step of the detour, or the phase. *)
Lemma phase_cases c frame fb : drive_inv app_s5 c -> running (d_state (dr c)) = true -> external_hold (dr c) = false ->
  d_state (dr c) <> S3_DRIVE_FOLLOW ->
  let c' := drive_run app_s5 p c (DCycle (Some frame) fb) in let now := frame_timestamp_us frame in
  d_state (dr c') = S3_DRIVE_FAULT \/ exists c1 dn, same_phase (dr c) (dr c1) /\
    (obstacle_active (dr c) = true /\ (exists have o, c' = detour_step app_s5 p c1 now dn have o) \/
     obstacle_active (dr c) = false /\ c' = process_phase app_s5 p c1 now dn).
Proof.
  intros I Hr Hh Hs. destruct (cycle_cases c frame fb I Hr Hh) as [H | (id & c1 & dn & Ed & H)]; [by left |].
  assert (S1 : same_phase (dr c) (dr c1)) by (rewrite Ed; by constructor).
  assert (Hs1 : d_state (dr c1) <> S3_DRIVE_FOLLOW) by (by rewrite (sp_state _ _ S1)).
  destruct H as [[Ha H] | (c2 & [[Ha ->] | [Ha H]] & ->)].
  - apply obstacle_handled in H as [H | (Hact & c2 & have & o & F & ->)]; [by left | | done].
    right. exists c2, dn. split; [by eapply same_phase_trans, same_phase_frame |]. left. rewrite <- (sp_active _ _ S1). eauto.
  - right. exists c1, dn. split; [done |]. right. split; [by eapply inv_no_detour | done].
  - apply obstacle_passed in H as [Hact F]. right. exists c2, dn. split; [by eapply same_phase_trans, same_phase_frame |].
    right. by rewrite <- (sp_active _ _ S1).
Qed.

Lemma halt_is c s w : d_state (dr (halt app_s5 c s w)) = s.
Proof. apply halt_state. Qed.
Lemma braking_deadline c now : let c' := process_braking app_s5 p c now in
  (S3_BRAKE_WAIT_US < elapsed now (d_phase_us (dr c)) -> d_state (dr c') = S3_DRIVE_FAULT) /\
  (d_state (dr c') = S3_DRIVE_BRAKING -> d_phase_us (dr c') = d_phase_us (dr c)).
Proof.
  unfold process_braking. cbv zeta. case_if; [rewrite halt_is; done |]. unbool. split; [lia |].
  case_if; [| done]. destruct (start_manoeuvre p _) as [ok c2]. case_if; [by rewrite halt_is | done].
Qed.
Lemma reacquire_deadline c now : let c' := process_reacquire app_s5 c now in
  (S3_REACQUIRE_WAIT_US < elapsed now (d_phase_us (dr c)) -> d_state (dr c') = S3_DRIVE_HALTED) /\
  (d_state (dr c') = S3_DRIVE_REACQUIRE -> d_phase_us (dr c') = d_phase_us (dr c)).
Proof.
  unfold process_reacquire. cbv zeta. change (d_phase_us (dr (make c CStop))) with (d_phase_us (dr c)).
  case_if; [rewrite halt_is; done |]. unbool. split; [lia |]. by case_if.
Qed.
(** A manoeuvre's clock restarts only when the approach ends or the sweep begins. *)
Definition restarts (d d' : s3_drive_t) : Prop :=
  advancing d = true /\ advancing d' = false \/ searching d = false /\ searching d' = true.
Lemma request_turn_advance c : advancing (dr (request_turn p c).2) = advancing (dr c) /\
  d_phase_us (dr (request_turn p c).2) = d_phase_us (dr c).
Proof. unfold request_turn. destruct (manoeuvre_of _); [| done]. by case_if. Qed.
Lemma manoeuvre_deadline c now dn : let c' := if searching (dr c) then process_search app_s5 p c now else process_manoeuvre app_s5 p c now dn in
  (S3_MANOEUVRE_WAIT_US < elapsed now (d_phase_us (dr c)) -> d_state (dr c') = S3_DRIVE_FAULT) /\
  (d_state (dr c') = S3_DRIVE_MANOEUVRE -> d_phase_us (dr c') = d_phase_us (dr c) \/ restarts (dr c) (dr c')).
Proof.
  cbv zeta. unfold restarts. destruct (searching (dr c)) eqn:Es.
  - unfold process_search. case_if; [by rewrite halt_is |]. unbool. split; [lia |]. unfold search_step. cbv zeta.
    case_if; [done |]. case_if; [by rewrite halt_is |]. case_if; [by rewrite halt_is | by left].
  - unfold process_manoeuvre. cbv zeta. match goal with |- context [_ <? elapsed now (d_phase_us (dr ?x))] => set (c1 := x) end.
    change (d_phase_us (dr c1)) with (d_phase_us (dr c)). destruct (S3_MANOEUVRE_WAIT_US <? _) eqn:Ew; [by rewrite halt_is |]. apply Z.ltb_ge in Ew.
    split; [intros H; lia |].
    change (advancing (dr c1)) with (advancing (dr c)). destruct (dn && advancing (dr c)) eqn:Ea.
    + match goal with |- context [request_turn p ?x] => destruct (request_turn_advance x) as [A _];
        destruct (request_turn p x) as [ok c2] end. cbn [snd] in A.
      case_if; [by rewrite halt_is |]. intros _. right. left. undecide. split; [done | exact A].
    + case_if; [| case_if; [by rewrite halt_is | by left]]. unfold manoeuvre_done, start_search. cbv zeta.
      case_if; [case_if; [by right; right | by rewrite halt_is] | done].
Qed.
Lemma detour_deadline c now dn have o : app_s5 = true -> busy (Avoidance.state (obstacle (dr c))) = true ->
  let c' := detour_step app_s5 p c now dn have o in
  (60000000 < elapsed now (started_us (obstacle (dr c))) -> d_state (dr c') = S3_DRIVE_FAULT) /\
  (obstacle_active (dr c') = true -> started_us (obstacle (dr c')) = started_us (obstacle (dr c))).
Proof.
  intros Happ Hb. unfold detour_step. cbv zeta.
  match goal with |- context [s5_avoidance_step ?a ?x] => set (i := x);
    pose proof (step_stays a i Hb) as St; pose proof (step_deadline a i Hb) as Sd; destruct (s5_avoidance_step a i) as [request a'] end.
  cbv zeta in St. cbn [fst snd] in St, Sd. change (in_now_us i) with now in Sd.
  assert (HH : forall c2 w, obstacle_active (dr (halt app_s5 c2 S3_DRIVE_FAULT w)) = false)
    by (intros; rewrite halt_active; by rewrite Happ).
  case_bool_decide as Hf; [rewrite halt_is, HH; done |].
  split; [intros H; by apply Sd in H |].
  match goal with |- context [run_action p ?x now request] => set (c2 := x) end.
  pose proof (run_action_ok p (fun _ => True) c2 now request (fun _ _ _ => Logic.I) (fun _ _ _ => Logic.I)) as R.
  destruct (run_action p c2 now request) as [ok c3]. cbv zeta in R. cbn [fst snd] in R.
  destruct R as [(Hk & _ & E3) | (_ & -> & _ & _ & _ & Hact3 & _)].
  - destruct ok; cbn [negb].
    + intros _. change (dr (publish_obstacle c3)) with (dr c3). rewrite E3. destruct St as [| [| (_ & St & _)]]; done.
    + match goal with |- context [publish_obstacle ?x] => change (dr (publish_obstacle x)) with (dr x) end.
      unfold fail_obstacle. by rewrite HH.
  - cbn [negb]. change (dr (publish_obstacle c3)) with (dr c3). by rewrite Hact3.
Qed.

End Deadlines.

Lemma cached_reachable app_s5 p c : drive_reachable app_s5 p c -> cached p c.
Proof.
  intros R. induction R as [config d _ E | c op R IH Hop]; [by apply cached_off, (init_cache app_s5 config) |].
  apply cached_run; [exact (di_nav _ _ (drive_reachable_inv _ _ _ R)) | done].
Qed.

(** ** The guarantees *)

(** C9: authority over the motors.  In every reachable drive and for every
    operation of its owner, at most one motion request (velocity, manoeuvre, drive
    or turn) leaves the drive, and only in a control cycle that has fresh, healthy
    motion feedback for the command in force, no lost reports, no external hold
    and an ACTIVE navigation; the request is then one the state permits: the
    steering of this very frame (or a straight crossing at the base speed) while
    following, the turn asked for by the pending barcode once the wheels are
    braked, the turn after its approach has reported done, the line search at the
    configured sweep speed, or a detour leg.  A detour leg needs a fresh range above
    the emergency distance (above the detection distance for a straight leg) in the
    observation the scanner answers this very cycle's snapshot call with or, while
    the scanner is busy, in the observation the drive has kept, stored at most the
    freshness limit ago; and what the drive keeps is always the packet of an
    observation the scanner has answered an earlier snapshot call with. *)
Theorem drive_motion_authorised app_s5 p c op : drive_reachable app_s5 p c -> drive_op_ok op ->
  exists new, calls (drive_run app_s5 p c op) = new ++ calls c /\ (requests new <= 1)%nat /\
    Forall (fun x => moves x = true -> authorised app_s5 p c op x) new /\
    (snapshot_valid (dr c) = true -> exists after before o, calls c = after ++ CSnapshot :: before /\
       snapshot_reply p (CSnapshot :: before) = (S5_SNAPSHOT_OK, o) /\ s5_observation_pack o = Some (snapshot_bytes (dr c))).
Proof.
  intros R Hop. destruct (os_calls _ _ _ _ _ (drive_step_ok app_s5 p c op (drive_reachable_inv _ _ _ R) Hop)) as (new & E & N & F).
  exists new. splits; [done | done | done |]. exact (cached_reachable _ _ _ R).
Qed.

(** C10: the drive invariant.  In every reachable state the navigation is
    configured and itself reachable, the run is ACTIVE exactly while the drive is
    in FOLLOW, BRAKING, MANOEUVRE or REACQUIRE, a drive in any other state has
    asked for no motion since its last stop and has switched the motion lease off,
    a detour is under way only in MANOEUVRE with the avoidance machine busy, a
    reset is pending only in FAULT, and BRAKING always has a turn to make. *)
Theorem drive_invariant app_s5 p c : drive_reachable app_s5 p c ->
  nav_reachable (navigation (dr c)) /\
  (running (d_state (dr c)) = true <-> lifecycle (navigation (dr c)) = S3_RUN_ACTIVE) /\
  (running (d_state (dr c)) = false -> still (calls c) = true /\ silent (calls c) = true) /\
  (obstacle_active (dr c) = true ->
     app_s5 = true /\ d_state (dr c) = S3_DRIVE_MANOEUVRE /\ busy (Avoidance.state (obstacle (dr c))) = true) /\
  (reset_result (dr c) = S3_RESET_PENDING -> d_state (dr c) = S3_DRIVE_FAULT) /\
  (d_state (dr c) = S3_DRIVE_BRAKING -> exists m, manoeuvre_of (d_pending (dr c)) = Some m).
Proof.
  intros R. destruct (plan_reachable _ _ _ R) as [Pl Pa]. destruct (drive_reachable_inv _ _ _ R) as [_ I2 I3 I4 I5 I6].
  splits; try done.
  - rewrite I3. by rewrite bool_decide_eq_true.
  - intros H. by apply manoeuvre_some, Pl.
Qed.

(** C13: the state machine.  Whatever operation is applied to a reachable drive,
    its state changes only along the permitted edges: a start needs OFF or HALTED
    with fresh feedback, wheels at rest, braked and without fault, an INACTIVE run
    and a ready navigation; a stop leads to OFF unless a fault is latched;
    FAULT is left only by a requested reset, within its 500 ms, with feedback
    taken after the request that shows the wheels braked and fault-free; and a
    cycle moves between the running states only as the phases allow. *)
Theorem drive_edges app_s5 p c op : drive_reachable app_s5 p c -> drive_op_ok op ->
  drive_edge app_s5 c op (d_state (dr c)) (d_state (dr (drive_run app_s5 p c op))).
Proof. intros R Hop. exact (os_edge _ _ _ _ _ (drive_step_ok _ _ _ _ (drive_reachable_inv _ _ _ R) Hop)). Qed.

(** C12: no phase waits for ever.  Unless the drive is held from outside, a cycle
    later than 500 ms after the stop request ends BRAKING in FAULT, one later than
    10 s ends a manoeuvre or a line search in FAULT, one later than 1 s ends
    REACQUIRE in HALTED or FAULT, and one later than 60 s ends a detour in FAULT.
    The clocks are not pushed back while waiting: the phase time stays while the
    drive stays in BRAKING or REACQUIRE, restarts in MANOEUVRE only when the
    approach to the turn ends or the search begins, and the start of a detour is
    kept for as long as it lasts. *)
Theorem drive_deadlines app_s5 p c frame fb : drive_reachable app_s5 p c -> external_hold (dr c) = false ->
  let c' := drive_run app_s5 p c (DCycle (Some frame) fb) in
  let waited := elapsed (frame_timestamp_us frame) (d_phase_us (dr c)) in
  (d_state (dr c) = S3_DRIVE_BRAKING ->
    (S3_BRAKE_WAIT_US < waited -> d_state (dr c') = S3_DRIVE_FAULT) /\
    (d_state (dr c') = S3_DRIVE_BRAKING -> d_phase_us (dr c') = d_phase_us (dr c))) /\
  (d_state (dr c) = S3_DRIVE_MANOEUVRE -> obstacle_active (dr c) = false ->
    (S3_MANOEUVRE_WAIT_US < waited -> d_state (dr c') = S3_DRIVE_FAULT) /\
    (d_state (dr c') = S3_DRIVE_MANOEUVRE -> d_phase_us (dr c') = d_phase_us (dr c) \/ restarts (dr c) (dr c'))) /\
  (d_state (dr c) = S3_DRIVE_REACQUIRE ->
    (S3_REACQUIRE_WAIT_US < waited -> d_state (dr c') = S3_DRIVE_HALTED \/ d_state (dr c') = S3_DRIVE_FAULT) /\
    (d_state (dr c') = S3_DRIVE_REACQUIRE -> d_phase_us (dr c') = d_phase_us (dr c))) /\
  (obstacle_active (dr c) = true ->
    (60000000 < elapsed (frame_timestamp_us frame) (started_us (obstacle (dr c))) -> d_state (dr c') = S3_DRIVE_FAULT) /\
    (obstacle_active (dr c') = true -> started_us (obstacle (dr c')) = started_us (obstacle (dr c)))).
Proof.
  intros R Hh. pose proof (drive_reachable_inv _ _ _ R) as I. cbv zeta.
  pose proof (phase_cases app_s5 p c frame fb I) as PC.
  pose proof (di_detour _ _ (drive_reachable_inv _ _ _ (drive_next _ _ c (DCycle (Some frame) fb) R Logic.I))) as D'.
  unfold detour_inv in D'. set (c' := drive_run app_s5 p c (DCycle (Some frame) fb)) in *.
  splits.
  - intros Hs. rewrite Hs in PC. destruct (PC eq_refl Hh ltac:(done)) as [H | (c1 & dn & [S1 S2 _ _ _ _] & [[Ha _] | [_ E]])].
    + rewrite H. split; done.
    + destruct (di_detour _ _ I Ha) as (_ & H & _). congruence.
    + unfold process_phase in E. rewrite S1, Hs in E. rewrite E, <- S2. apply braking_deadline.
  - intros Hs Ha. rewrite Hs in PC. destruct (PC eq_refl Hh ltac:(done)) as [H | (c1 & dn & [S1 S2 _ S4 S5 _] & [[Hx _] | [_ E]])].
    + rewrite H. split; done.
    + congruence.
    + unfold process_phase in E. rewrite S1, Hs in E. unfold restarts. rewrite E, <- S2, <- S4, <- S5. apply manoeuvre_deadline.
  - intros Hs. rewrite Hs in PC. destruct (PC eq_refl Hh ltac:(done)) as [H | (c1 & dn & [S1 S2 _ _ _ _] & [[Ha _] | [_ E]])].
    + rewrite H. split; [by right | done].
    + destruct (di_detour _ _ I Ha) as (_ & H & _). congruence.
    + unfold process_phase in E. rewrite S1, Hs in E. rewrite E, <- S2.
      destruct (reacquire_deadline app_s5 c1 (frame_timestamp_us frame)). split; [by left; auto | done].
  - intros Ha. destruct (di_detour _ _ I Ha) as (Happ & Hs & Hb). rewrite Hs in PC.
    destruct (PC eq_refl Hh ltac:(done)) as [H | (c1 & dn & [_ _ _ _ _ S6] & [[_ (have & o & E)] | [Hx _]])].
    + split; [done |]. intros H1. destruct (D' H1) as (_ & H2 & _). congruence.
    + rewrite E, <- S6 in *. apply detour_deadline; [done | congruence].
    + congruence.
Qed.

(** C11: turns come from barcodes.  The action waiting for a junction changes only
    to NONE or, in the cycle that decoded a barcode, to the configured map's entry
    for exactly that letter; the turn being executed changes only to NONE or, out
    of BRAKING, to the action that was waiting. *)
Theorem drive_plan_from_barcodes app_s5 p c op : drive_reachable app_s5 p c -> drive_op_ok op ->
  let c' := drive_run app_s5 p c op in
  pending_change c op (d_pending (dr c')) /\ turn_change c (turn (dr c')).
Proof.
  intros R Hop. exact (proj2 (plan_step _ _ c op (drive_reachable_inv _ _ _ R) (plan_reachable _ _ _ R) Hop)).
Qed.

(** ** Witnesses: a bench drive with an obstacle 150 mm ahead *)
Definition bench_observation : s5_observation_t :=
  {| range_us := 1000; scan_us := 0; range_mm := 150; scan_id := 0; obs_profile := zero_profile; range_valid := true;
     no_echo := false; obs_scan_done := false |}.
Definition bench_port : port :=
  {| request_reply := fun _ => MOTION_OK; report_reply := fun _ => None; command_id_reply := fun _ => 7;
     reset_reply := fun _ => true; snapshot_reply := fun _ => (S5_SNAPSHOT_OK, bench_observation);
     scan_reply := fun _ => true |}.
Definition bench_feedback (t : Z) : motion_feedback_t :=
  {| fb_centre_m := dlit 5 100; fb_timestamp_us := t; fb_epoch := 3; fb_state := MOTION_IDLE;
     fb_fault := MOTION_FAULT_NONE; fb_valid := true; fb_braked := true; fb_command_id := 0; fb_report_loss_count := 0 |}.
Definition bench_cycle (t : Z) : drive_op := DCycle (Some (bench_frame t)) (Some (bench_feedback t)).
Definition bench_drive_boot (app_s5 : bool) : ctx := {| dr := (s3_drive_init app_s5 true (Some bench_config)).2; calls := [] |}.
Definition bench_prepare : list drive_op :=
  [DCalibrate 0 bench_collector; DCalibrate 1 bench_collector; DCalibrate 2 bench_collector; bench_cycle 1000; DStart 2000].
Definition bench_drive (app_s5 : bool) (ops : list drive_op) : ctx :=
  fold_left (drive_run app_s5 bench_port) (bench_prepare ++ ops) (bench_drive_boot app_s5).
Lemma drive_reachable_run app_s5 p ops : forall c, drive_reachable app_s5 p c -> Forall drive_op_ok ops ->
  drive_reachable app_s5 p (fold_left (drive_run app_s5 p) ops c).
Proof.
  induction ops as [| op ops IH]; intros c Hc Ho; cbn [fold_left]; [done |].
  inversion Ho; subst. apply IH; [by constructor | done].
Qed.
Lemma bench_drive_reachable app_s5 ops : Forall drive_op_ok ops -> drive_reachable app_s5 bench_port (bench_drive app_s5 ops).
Proof.
  intros H. apply drive_reachable_run; [| by repeat constructor].
  apply (drive_boot _ _ bench_config); [by apply map_shape_dec |]. destruct app_s5; vm_compute; reflexivity.
Qed.
(** Three frames without a steady line, then the steering of the fourth is sent. *)
Definition bench_waiting : ctx := bench_drive false (map bench_cycle [3000; 13000; 23000]).
Lemma bench_waiting_reachable : drive_reachable false bench_port bench_waiting.
Proof. apply bench_drive_reachable. by repeat constructor. Qed.
Lemma drive_motion_authorised_witness :
  requests (calls (drive_run false bench_port bench_waiting (bench_cycle 33000))) = 1%nat /\
  exists new, calls (drive_run false bench_port bench_waiting (bench_cycle 33000)) = new ++ calls bench_waiting /\
    (requests new <= 1)%nat /\
    Forall (fun x => moves x = true -> authorised false bench_port bench_waiting (bench_cycle 33000) x) new.
Proof.
  split; [vm_compute; reflexivity |].
  destruct (drive_motion_authorised false bench_port bench_waiting (bench_cycle 33000) bench_waiting_reachable I)
    as (new & E & N & F & _).
  exact (ex_intro _ new (conj E (conj N F))).
Defined.
Lemma drive_invariant_witness : running (d_state (dr bench_waiting)) = true /\
  lifecycle (navigation (dr bench_waiting)) = S3_RUN_ACTIVE.
Proof.
  assert (H : running (d_state (dr bench_waiting)) = true) by (vm_compute; reflexivity).
  split; [exact H |]. exact (proj1 (proj1 (proj2 (drive_invariant false bench_port bench_waiting bench_waiting_reachable))) H).
Defined.
Definition bench_stopped : ctx := drive_run false bench_port bench_waiting DStop.
Lemma drive_edges_witness : d_state (dr bench_stopped) = S3_DRIVE_OFF /\
  drive_edge false bench_waiting DStop (d_state (dr bench_waiting)) (d_state (dr bench_stopped)).
Proof.
  split; [vm_compute; reflexivity |]. exact (drive_edges false bench_port bench_waiting DStop bench_waiting_reachable I).
Defined.
(** The obstacle starts a detour, which a frame a minute later ends. *)
Definition bench_detour : ctx := bench_drive true [bench_cycle 3000].
Lemma bench_detour_reachable : drive_reachable true bench_port bench_detour.
Proof. apply bench_drive_reachable. by repeat constructor. Qed.
Lemma drive_deadlines_witness : obstacle_active (dr bench_detour) = true /\
  d_state (dr (drive_run true bench_port bench_detour (bench_cycle 63004000))) = S3_DRIVE_FAULT.
Proof.
  assert (H : obstacle_active (dr bench_detour) = true) by (vm_compute; reflexivity).
  split; [exact H |].
  exact (proj1 (proj2 (proj2 (proj2 (drive_deadlines true bench_port bench_detour (bench_frame 63004000)
    (Some (bench_feedback 63004000)) bench_detour_reachable ltac:(vm_compute; reflexivity)))) H) ltac:(vm_compute; reflexivity)).
Defined.
Lemma drive_plan_from_barcodes_witness : d_pending (dr bench_waiting) = S3_NAV_NONE /\
  pending_change bench_waiting DStop (d_pending (dr bench_stopped)) /\ turn_change bench_waiting (turn (dr bench_stopped)).
Proof.
  split; [vm_compute; reflexivity |].
  exact (drive_plan_from_barcodes false bench_port bench_waiting DStop bench_waiting_reachable I).
Defined.
