(* ===== verification/IntegrationCodec.v ===== *)
(** * Integration packets

    Models [controller/integration_codec.{c,h}], the data of
    [controller/s3_integration.h] and [controller/run_timing.h]: the operator's
    control request (83 bits, 11 bytes) and the published status (60 + 22 + 64
    bytes).  These packets are the only data that crosses the mutex between the
    sampling owner and the other tasks.  Enumerations are their constructors, so
    the checks of the code against values outside them are the reader's. *)
From S2P Require Import Prelude CFloat BitCodec WireFields IrSensing LineDetection BarcodeDecoder BarcodeReader Navigation NavigationCodec.
From S2P Require Import MotionController MotionPack Drive.

Inductive s3_control_kind_t :=
  S3_CONTROL_WHITE | S3_CONTROL_BLACK | S3_CONTROL_APPLY_CALIBRATION | S3_CONTROL_MAPPING | S3_CONTROL_START |
  S3_CONTROL_STOP | S3_CONTROL_RESET.
#[export] Instance control_kind_eq_dec : EqDecision s3_control_kind_t.
Proof. solve_decision. Defined.
Record s3_control_request_t := { req_kind : s3_control_kind_t; req_sensor : Z; req_map : list Z }.
Record s3_run_timing_t := {
  rt_started_us : Z; rt_samples : Z; rt_max_gap_us : Z; rt_above_target : Z; above_safety : Z; last_safety_us : Z
}.
#[export] Instance run_timing_settable : Settable s3_run_timing_t := fun r =>
  Build_s3_run_timing_t (rt_started_us r) (rt_samples r) (rt_max_gap_us r) (rt_above_target r) (above_safety r)
    (last_safety_us r).
Record s3_integration_status_t := {
  pub_navigation : s3_navigation_output_t; pub_motion : motion_feedback_t; pub_state : s3_drive_state_t;
  pub_reason : s3_drive_reason_t; samples : Z; max_gap_us : Z; above_target : Z; command_sequence : Z;
  run_timing : s3_run_timing_t; command_ok : bool; collecting : bool; calibration_sensor : Z;
  pub_white : s3_calibration_summary_t; pub_black : s3_calibration_summary_t; adc_status : Z
}.
#[export] Instance status_settable : Settable s3_integration_status_t := fun r =>
  Build_s3_integration_status_t (pub_navigation r) (pub_motion r) (pub_state r) (pub_reason r) (samples r)
    (max_gap_us r) (above_target r) (command_sequence r) (run_timing r) (command_ok r) (collecting r)
    (calibration_sensor r) (pub_white r) (pub_black r) (adc_status r).

(** ** Run timing *)
Definition S3_SAMPLE_PERIOD_MS : Z := 10.
Definition S3_SAMPLE_PERIOD_US : Z := S3_SAMPLE_PERIOD_MS * 1000.
Definition s3_timing_increment (value : Z) : Z := if value =? UINT32_MAX then value else u32 (value + 1).
Definition s3_run_timing_begin (now : Z) : s3_run_timing_t :=
  {| rt_started_us := now; rt_samples := 0; rt_max_gap_us := 0; rt_above_target := 0; above_safety := 0;
     last_safety_us := 0 |}.
Definition s3_run_timing_record (t : s3_run_timing_t) (gap_us stamp_us safety_limit_us : Z) : s3_run_timing_t :=
  let t := t <| rt_samples := s3_timing_increment (rt_samples t) |> in
  let t := if rt_max_gap_us t <? gap_us then t <| rt_max_gap_us := gap_us |> else t in
  let t := if S3_SAMPLE_PERIOD_US <? gap_us then t <| rt_above_target := s3_timing_increment (rt_above_target t) |> else t in
  if safety_limit_us <? gap_us
  then t <| above_safety := s3_timing_increment (above_safety t) |> <| last_safety_us := stamp_us |> else t.

(** ** Control requests *)
Definition kind_code (k : s3_control_kind_t) : Z :=
  match k with
  | S3_CONTROL_WHITE => 0 | S3_CONTROL_BLACK => 1 | S3_CONTROL_APPLY_CALIBRATION => 2 | S3_CONTROL_MAPPING => 3
  | S3_CONTROL_START => 4 | S3_CONTROL_STOP => 5 | S3_CONTROL_RESET => 6
  end.
Definition kind_of (z : Z) : option s3_control_kind_t :=
  if z =? 0 then Some S3_CONTROL_WHITE else if z =? 1 then Some S3_CONTROL_BLACK
  else if z =? 2 then Some S3_CONTROL_APPLY_CALIBRATION else if z =? 3 then Some S3_CONTROL_MAPPING
  else if z =? 4 then Some S3_CONTROL_START else if z =? 5 then Some S3_CONTROL_STOP
  else if z =? 6 then Some S3_CONTROL_RESET else None.
Definition has_sensor (k : s3_control_kind_t) : bool :=
  match k with S3_CONTROL_WHITE | S3_CONTROL_BLACK | S3_CONTROL_APPLY_CALIBRATION => true | _ => false end.
Definition is_mapping (k : s3_control_kind_t) : bool := match k with S3_CONTROL_MAPPING => true | _ => false end.
(** The action the packet carries for letter [i]. *)
Definition map_entry (v : s3_control_request_t) (i : Z) : Z :=
  if is_mapping (req_kind v) then u32 (nthZ 0 (req_map v) i) else 0.
Definition S3_CONTROL_BYTES : nat := 11.
Definition s3_control_pack (v : s3_control_request_t) : option bytes :=
  let sensor := has_sensor (req_kind v) in
  if sensor && (Z.of_nat S3_SENSOR_COUNT <=? u32 (req_sensor v)) then None
  else if existsb (fun i => S3_NAV_ACTION_COUNT <=? map_entry v i) (range 26) then None
  else Some (pack S3_CONTROL_BYTES
    ((kind_code (req_kind v), 3%nat) :: (if sensor then req_sensor v else 0, 2%nat) ::
     map (fun i => (map_entry v i, 3%nat)) (range 26))).
Definition read_control : reader s3_control_request_t :=
  k ← get 3; sensor ← get 2; entries ← repeat_read 26 (get 3);
  k ← lift (kind_of k);
  mret {| req_kind := k; req_sensor := sensor; req_map := entries |}.
Definition s3_control_unpack (packet : bytes) : option s3_control_request_t :=
  if negb (Z.land (nthZ 0 packet 10) 0xf8 =? 0) then None
  else match run read_control packet with
  | Some v => match s3_control_pack v with
              | Some canonical => if bool_decide (canonical = packet) then Some v else None
              | None => None
              end
  | None => None
  end.

(** ** Status *)
Record s3_status_packet_t := { pk_navigation : bytes; pk_feedback : bytes; pk_metadata : bytes }.
Definition drive_state_code (s : s3_drive_state_t) : Z :=
  match s with
  | S3_DRIVE_OFF => 0 | S3_DRIVE_FOLLOW => 1 | S3_DRIVE_BRAKING => 2 | S3_DRIVE_MANOEUVRE => 3 | S3_DRIVE_REACQUIRE => 4
  | S3_DRIVE_HALTED => 5 | S3_DRIVE_FAULT => 6
  end.
Definition drive_state_of (z : Z) : option s3_drive_state_t :=
  if z =? 0 then Some S3_DRIVE_OFF else if z =? 1 then Some S3_DRIVE_FOLLOW else if z =? 2 then Some S3_DRIVE_BRAKING
  else if z =? 3 then Some S3_DRIVE_MANOEUVRE else if z =? 4 then Some S3_DRIVE_REACQUIRE
  else if z =? 5 then Some S3_DRIVE_HALTED else if z =? 6 then Some S3_DRIVE_FAULT else None.
Definition reason_code (r : s3_drive_reason_t) : Z :=
  match r with
  | S3_DRIVE_OK => 0 | S3_DRIVE_SENSOR_FAULT => 1 | S3_DRIVE_MOTION_FAULT => 2 | S3_DRIVE_REJECTED => 3
  | S3_DRIVE_LINE_LOST => 4 | S3_DRIVE_NO_DIRECTION => 5 | S3_DRIVE_UNMAPPED => 6 | S3_DRIVE_TIMEOUT => 7
  | S3_DRIVE_REPORT_FAULT => 8 | S3_DRIVE_BAD_INPUT => 9 | S3_DRIVE_TERRAIN_FAULT => 10
  end.
Definition reason_of (z : Z) : option s3_drive_reason_t :=
  if z =? 0 then Some S3_DRIVE_OK else if z =? 1 then Some S3_DRIVE_SENSOR_FAULT
  else if z =? 2 then Some S3_DRIVE_MOTION_FAULT else if z =? 3 then Some S3_DRIVE_REJECTED
  else if z =? 4 then Some S3_DRIVE_LINE_LOST else if z =? 5 then Some S3_DRIVE_NO_DIRECTION
  else if z =? 6 then Some S3_DRIVE_UNMAPPED else if z =? 7 then Some S3_DRIVE_TIMEOUT
  else if z =? 8 then Some S3_DRIVE_REPORT_FAULT else if z =? 9 then Some S3_DRIVE_BAD_INPUT
  else if z =? 10 then Some S3_DRIVE_TERRAIN_FAULT else None.
Definition motion_state_of (z : Z) : option motion_state_t :=
  if z =? 0 then Some MOTION_IDLE else if z =? 1 then Some MOTION_VELOCITY else if z =? 2 then Some MOTION_DRIVE
  else if z =? 3 then Some MOTION_TURN else if z =? 4 then Some MOTION_COMPLETE else if z =? 5 then Some MOTION_FAULT
  else None.
Definition summary_valid (v : s3_calibration_summary_t) : bool :=
  (summary_count v <=? 65535) && (summary_minimum v <=? 4095) && (summary_maximum v <=? 4095).
Definition put_summary (v : s3_calibration_summary_t) : list field :=
  [(summary_count v, 16%nat); (summary_minimum v, 12%nat); (summary_maximum v, 12%nat); float_field (average v);
   (b2z (available v), 1%nat)].
Definition get_summary : reader s3_calibration_summary_t :=
  c ← get 16; lo ← get 12; hi ← get 12; a ← get_float; ok ← get_flag;
  mret {| summary_count := c; summary_minimum := lo; summary_maximum := hi; average := a; available := ok |}.
Definition feedback_fields (m : motion_feedback_t) : list field :=
  double_fields (fb_centre_m m) ++
  [(fb_timestamp_us m, 32%nat); (fb_epoch m, 32%nat); (state_code (fb_state m), 3%nat); (fault_code (fb_fault m), 3%nat);
   (b2z (fb_valid m), 1%nat); (b2z (fb_braked m), 1%nat); (fb_command_id m, 8%nat); (fb_report_loss_count m, 32%nat)].
Definition read_feedback : reader motion_feedback_t :=
  centre ← get_double; ts ← get 32; ep ← get 32; s ← get 3; f ← get 3; ok ← get_flag; br ← get_flag; id ← get 8;
  loss ← get 32; s ← lift (motion_state_of s); f ← lift (fault_of f);
  mret {| fb_centre_m := centre; fb_timestamp_us := ts; fb_epoch := ep; fb_state := s; fb_fault := f; fb_valid := ok;
          fb_braked := br; fb_command_id := id; fb_report_loss_count := loss |}.
Definition timing_fields (t : s3_run_timing_t) : list field :=
  [(rt_started_us t, 32%nat); (rt_samples t, 32%nat); (rt_max_gap_us t, 32%nat); (rt_above_target t, 32%nat);
   (above_safety t, 32%nat); (last_safety_us t, 32%nat)].
Definition read_timing : reader s3_run_timing_t :=
  st ← get 32; n ← get 32; g ← get 32; a ← get 32; s ← get 32; l ← get 32;
  mret {| rt_started_us := st; rt_samples := n; rt_max_gap_us := g; rt_above_target := a; above_safety := s;
          last_safety_us := l |}.
Definition metadata_fields (v : s3_integration_status_t) : list field :=
  [(drive_state_code (pub_state v), 3%nat); (reason_code (pub_reason v), 4%nat); (samples v, 32%nat);
   (max_gap_us v, 32%nat); (above_target v, 32%nat); (command_sequence v, 32%nat); (b2z (command_ok v), 1%nat);
   (b2z (collecting v), 1%nat); (calibration_sensor v, 2%nat)] ++
  put_summary (pub_white v) ++ put_summary (pub_black v) ++ [(u32 (adc_status v), 32%nat)] ++ timing_fields (run_timing v).
Definition S3_FEEDBACK_BYTES : nat := 22.
Definition S3_METADATA_BYTES : nat := 64.
Definition s3_status_pack (v : s3_integration_status_t) : option s3_status_packet_t :=
  if (Z.of_nat S3_SENSOR_COUNT <=? u32 (calibration_sensor v)) || negb (summary_valid (pub_white v)) ||
     negb (summary_valid (pub_black v)) then None
  else match s3_navigation_pack (pub_navigation v) with
  | None => None
  | Some nav => Some {| pk_navigation := nav; pk_feedback := pack S3_FEEDBACK_BYTES (feedback_fields (pub_motion v));
                        pk_metadata := pack S3_METADATA_BYTES (metadata_fields v) |}
  end.
(** The metadata, given the navigation output and the feedback already read. *)
Definition read_metadata (nav : s3_navigation_output_t) (fb : motion_feedback_t) : reader s3_integration_status_t :=
  s ← get 3; r ← get 4; s ← lift (drive_state_of s); r ← lift (reason_of r);
  n ← get 32; g ← get 32; a ← get 32; seq ← get 32; ok ← get_flag; col ← get_flag; cs ← get 2;
  _ ← require (negb (Z.of_nat S3_SENSOR_COUNT <=? cs));
  w ← get_summary; b ← get_summary; e ← get 32; t ← read_timing;
  mret {| pub_navigation := nav; pub_motion := fb; pub_state := s; pub_reason := r; samples := n; max_gap_us := g;
          above_target := a; command_sequence := seq; run_timing := t; command_ok := ok; collecting := col;
          calibration_sensor := cs; pub_white := w; pub_black := b; adc_status := signed32 e |}.
Definition s3_status_unpack (p : s3_status_packet_t) : option s3_integration_status_t :=
  if negb (Z.land (nthZ 0 (pk_metadata p) 63) 0xe0 =? 0) then None
  else nav ← s3_navigation_unpack (pk_navigation p);
       fb ← run read_feedback (pk_feedback p);
       run (read_metadata nav fb) (pk_metadata p).

(** ** Values as C holds them *)
Definition request_typed (v : s3_control_request_t) : Prop :=
  in_u 32 (req_sensor v) /\ length (req_map v) = 26%nat.
Definition summary_typed (v : s3_calibration_summary_t) : Prop :=
  0 <= summary_count v /\ 0 <= summary_minimum v /\ 0 <= summary_maximum v /\ float_ok (average v).
Definition timing_typed (t : s3_run_timing_t) : Prop :=
  in_u 32 (rt_started_us t) /\ in_u 32 (rt_samples t) /\ in_u 32 (rt_max_gap_us t) /\ in_u 32 (rt_above_target t) /\
  in_u 32 (above_safety t) /\ in_u 32 (last_safety_us t).
Definition feedback_typed (m : motion_feedback_t) : Prop :=
  double_ok (fb_centre_m m) /\ in_u 32 (fb_timestamp_us m) /\ in_u 32 (fb_epoch m) /\ in_u 8 (fb_command_id m) /\
  in_u 32 (fb_report_loss_count m).
Record status_typed (v : s3_integration_status_t) : Prop := {
  sy_navigation : output_typed (pub_navigation v); sy_motion : feedback_typed (pub_motion v);
  sy_counts : in_u 32 (samples v) /\ in_u 32 (max_gap_us v) /\ in_u 32 (above_target v) /\ in_u 32 (command_sequence v);
  sy_timing : timing_typed (run_timing v); sy_sensor : in_u 32 (calibration_sensor v);
  sy_white : summary_typed (pub_white v); sy_black : summary_typed (pub_black v);
  sy_adc : - 2 ^ 31 <= adc_status v < 2 ^ 31
}.

(** ** Reading back *)
Lemma kind_code_of k : kind_of (kind_code k) = Some k.
Proof. by destruct k. Qed.
Lemma drive_state_code_of s : drive_state_of (drive_state_code s) = Some s.
Proof. by destruct s. Qed.
Lemma reason_code_of r : reason_of (reason_code r) = Some r.
Proof. by destruct r. Qed.
Lemma motion_state_code_of s : motion_state_of (state_code s) = Some s.
Proof. by destruct s. Qed.
Lemma motion_fault_code_of f : fault_of (fault_code f) = Some f.
Proof. by destruct f. Qed.
Lemma kind_code_range k : in_u (Z.of_nat 3) (kind_code k).
Proof. destruct k; unfold in_u; cbn; lia. Qed.
Lemma drive_state_code_range s : in_u (Z.of_nat 3) (drive_state_code s).
Proof. destruct s; unfold in_u; cbn; lia. Qed.
Lemma reason_code_range r : in_u (Z.of_nat 4) (reason_code r).
Proof. destruct r; unfold in_u; cbn; lia. Qed.
Lemma motion_state_code_range s : in_u (Z.of_nat 3) (state_code s).
Proof. destruct s; unfold in_u; cbn; lia. Qed.
Lemma motion_fault_code_range f : in_u (Z.of_nat 3) (fault_code f).
Proof. destruct f; unfold in_u; cbn; lia. Qed.
#[export] Hint Resolve kind_code_of drive_state_code_of reason_code_of motion_state_code_of motion_fault_code_of : car.
#[export] Hint Resolve kind_code_range drive_state_code_range reason_code_range motion_state_code_range motion_fault_code_range : car.

(** The request the packet carries: fields its kind does not use are zero. *)
Definition canonical (v : s3_control_request_t) : s3_control_request_t :=
  {| req_kind := req_kind v; req_sensor := if has_sensor (req_kind v) then req_sensor v else 0;
     req_map := map (map_entry v) (range 26) |}.
Lemma map_entry_canonical v i : In i (range 26) -> map_entry (canonical v) i = map_entry v i.
Proof.
  intros Hi. unfold map_entry. cbn [canonical req_kind req_map]. case_if; [| done].
  assert (E : nthZ 0 (map (map_entry v) (range 26)) i = map_entry v i).
  { apply elem_range in Hi. unfold nthZ. destruct (Z.ltb_spec i 0); [lia |].
    rewrite (nth_indep _ 0 (map_entry v 0)) by (rewrite length_map, length_range; lia).
    rewrite map_nth. f_equal. unfold range. rewrite (nth_indep _ 0 (Z.of_nat 0)) by (rewrite length_map, length_seq; lia).
    rewrite map_nth, seq_nth by lia. lia. }
  rewrite E. unfold map_entry. rewrite Heqb. apply wrap_id, u32_range.
Qed.
Lemma existsb_cong {A} (f g : A -> bool) l : (forall x, In x l -> f x = g x) -> existsb f l = existsb g l.
Proof. induction l as [| a l IH]; intros H; cbn; [done |]. rewrite H by (by left). rewrite IH; [done |]. intros; apply H; by right. Qed.
Lemma canonical_pack v : s3_control_pack (canonical v) = s3_control_pack v.
Proof.
  unfold s3_control_pack. cbv zeta. cbn [canonical req_kind req_sensor].
  assert (E1 : existsb (fun i => S3_NAV_ACTION_COUNT <=? map_entry (canonical v) i) (range 26) =
               existsb (fun i => S3_NAV_ACTION_COUNT <=? map_entry v i) (range 26)).
  { apply existsb_cong. intros i Hi. by rewrite map_entry_canonical. }
  assert (E2 : map (fun i => (map_entry (canonical v) i, 3%nat)) (range 26) = map (fun i => (map_entry v i, 3%nat)) (range 26)).
  { apply map_ext_in. intros i Hi. by rewrite map_entry_canonical. }
  rewrite E1, E2. by destruct (has_sensor (req_kind v)).
Qed.

Lemma control_entries v : existsb (fun i => S3_NAV_ACTION_COUNT <=? map_entry v i) (range 26) = false ->
  Forall (fun a => in_u (Z.of_nat 3) a) (map (map_entry v) (range 26)).
Proof.
  intros H. apply Forall_map, List.Forall_forall. intros i Hi. cbn beta.
  assert (S3_NAV_ACTION_COUNT <=? map_entry v i = false) as Hb.
  { rewrite <- Bool.not_true_iff_false in *. intros E. apply H, existsb_exists. eauto. }
  apply Z.leb_gt in Hb. unfold S3_NAV_ACTION_COUNT in Hb. unfold in_u. cbn.
  assert (0 <= map_entry v i) by (unfold map_entry; case_if; [apply u32_range | lia]). lia.
Qed.
Definition control_fields (v : s3_control_request_t) : list field :=
  (kind_code (req_kind v), 3%nat) :: (if has_sensor (req_kind v) then req_sensor v else 0, 2%nat) ::
  map (fun i => (map_entry v i, 3%nat)) (range 26).
Lemma control_width v : total_width (control_fields v) = 83 /\ widths_ok (control_fields v).
Proof. split; [reflexivity |]. unfold control_fields. change (range 26) with (map Z.of_nat (seq 0 26)). cbn [map seq]. check_widths. Qed.
Lemma reads_control v : request_typed v -> is_Some (s3_control_pack v) -> reads read_control (control_fields v) (canonical v).
Proof.
  intros [Hs Hl] [p Hp]. unfold s3_control_pack in Hp. cbv zeta in Hp.
  destruct (has_sensor (req_kind v) && _) eqn:E1; [done |]. destruct (existsb _ _) eqn:E2; [done |]. clear Hp.
  unfold read_control, control_fields. apply reads_get; [auto with car |]. apply reads_get.
  { destruct (has_sensor (req_kind v)); [| unfold in_u; cbn; lia]. cbn [andb] in E1. apply Z.leb_gt in E1.
    unfold u32 in E1. rewrite wrap_id in E1 by done. change (Z.of_nat S3_SENSOR_COUNT) with 3 in E1.
    unfold in_u in *. cbn. lia. }
  rewrite <- (app_nil_r (map _ _)).
  apply reads_bind with (x := map (map_entry v) (range 26)).
  - replace (map (fun i => (map_entry v i, 3%nat)) (range 26)) with
      (concat (map (fun a => [(a, 3%nat)]) (map (map_entry v) (range 26)))) by reflexivity.
    replace 26%nat with (length (map (map_entry v) (range 26))) at 1 by reflexivity.
    apply reads_repeat. eapply Forall_impl; [by apply control_entries |]. intros a Ha.
    intros b q [E _]. unfold get. rewrite E, wrap_id by done. rewrite total_width_cons. done.
  - eapply reads_lift; [apply kind_code_of |]. apply reads_ret.
Qed.

Lemma reads_summary v : summary_typed v -> summary_valid v = true -> reads get_summary (put_summary v) v.
Proof.
  intros (H1 & H2 & H3 & H4) Hv. unfold summary_valid in Hv. unbool. unfold get_summary, put_summary.
  do 3 (apply reads_get; [unfold in_u; cbn; lia |]). apply reads_float; [done |]. apply reads_flag.
  destruct v. apply reads_ret.
Qed.
Lemma reads_feedback m : feedback_typed m -> reads read_feedback (feedback_fields m) m.
Proof.
  intros (H1 & H2 & H3 & H4 & H5). unfold read_feedback, feedback_fields. apply reads_double; [done |].
  do 2 (apply reads_get; [done |]). do 2 (apply reads_get; [auto with car |]). do 2 apply reads_flag.
  do 2 (apply reads_get; [done |]). do 2 (eapply reads_lift; [auto with car |]). destruct m. apply reads_ret.
Qed.
Lemma reads_timing t : timing_typed t -> reads read_timing (timing_fields t) t.
Proof.
  intros (H1 & H2 & H3 & H4 & H5 & H6). unfold read_timing, timing_fields. do 6 (apply reads_get; [done |]).
  destruct t. apply reads_ret.
Qed.
(** What [s3_status_pack] refuses. *)
Definition status_packable (v : s3_integration_status_t) : bool :=
  negb (Z.of_nat S3_SENSOR_COUNT <=? u32 (calibration_sensor v)) && summary_valid (pub_white v) &&
  summary_valid (pub_black v) && navigation_packable (pub_navigation v).
Definition with_navigation (v : s3_integration_status_t) (nav : s3_navigation_output_t) : s3_integration_status_t :=
  v <| pub_navigation := nav |>.
Lemma reads_metadata v nav : status_typed v -> status_packable v = true ->
  reads (read_metadata nav (pub_motion v)) (metadata_fields v) (with_navigation v nav).
Proof.
  intros [_ _ (C1 & C2 & C3 & C4) T S W B A] Hp. unfold status_packable in Hp. unbool.
  unfold u32 in *. rewrite wrap_id in * by done. change (Z.of_nat S3_SENSOR_COUNT) with 3 in *.
  unfold read_metadata, metadata_fields. cbn [app].
  do 2 (apply reads_get; [auto with car |]). do 2 (eapply reads_lift; [auto with car |]).
  do 4 (apply reads_get; [done |]). do 2 apply reads_flag. apply reads_get; [unfold in_u in *; cbn; lia |].
  apply reads_require; [apply negb_true_iff, Z.leb_gt; change (Z.of_nat S3_SENSOR_COUNT) with 3; lia |].
  eapply reads_bind; [by apply reads_summary |]. eapply reads_bind; [by apply reads_summary |].
  apply reads_get; [apply u32_range |]. fold (u32 (adc_status v)). rewrite signed32_u32 by done.
  rewrite <- (app_nil_r (timing_fields _)). eapply reads_bind; [by apply reads_timing |].
  destruct v. apply reads_ret.
Qed.
Lemma feedback_width m : total_width (feedback_fields m) = 176 /\ widths_ok (feedback_fields m).
Proof. split; [reflexivity |]. unfold feedback_fields, double_fields, wide_fields. cbn [app]. check_widths. Qed.
Lemma metadata_width v : total_width (metadata_fields v) = 509 /\ widths_ok (metadata_fields v).
Proof. split; [reflexivity |]. unfold metadata_fields, put_summary, timing_fields, float_field. cbn [app]. check_widths. Qed.

Lemma metadata_padding v : Z.land (nthZ 0 (pack S3_METADATA_BYTES (metadata_fields v)) 63) 0xe0 = 0.
Proof.
  destruct (metadata_width v) as [Mw Mk]. apply pack_mask; [by rewrite Mw | done | done |].
  rewrite Mw. intros j Hj Hb. pose proof (mask_bits _ 5 j Hj Hb eq_refl). lia.
Qed.
Lemma feedback_read m : feedback_typed m -> run read_feedback (pack S3_FEEDBACK_BYTES (feedback_fields m)) = Some m.
Proof. intros T. destruct (feedback_width m) as [Fw Fk]. apply reads_run; [by apply reads_feedback | done | by rewrite Fw]. Qed.
Lemma metadata_read v nav : status_typed v -> status_packable v = true ->
  run (read_metadata nav (pub_motion v)) (pack S3_METADATA_BYTES (metadata_fields v)) = Some (with_navigation v nav).
Proof.
  intros T HP. destruct (metadata_width v) as [Mw Mk]. apply reads_run; [by apply reads_metadata | done | by rewrite Mw].
Qed.
Lemma status_unpacked v b1 b2 b3 nav : Z.land (nthZ 0 b3 63) 0xe0 = 0 -> s3_navigation_unpack b1 = Some nav ->
  run read_feedback b2 = Some (pub_motion v) -> run (read_metadata nav (pub_motion v)) b3 = Some (with_navigation v nav) ->
  s3_status_unpack {| pk_navigation := b1; pk_feedback := b2; pk_metadata := b3 |} = Some (with_navigation v nav).
Proof.
  intros H1 H2 H3 H4. unfold s3_status_unpack. cbn [pk_navigation pk_feedback pk_metadata]. rewrite H1. cbn [negb Z.eqb].
  rewrite H2. cbn [mbind option_bind]. rewrite H3. cbn [mbind option_bind]. exact H4.
Qed.

(** Control packets.  A request packs exactly when the sensor (if its kind
    uses one) exists and every mapped action is known; the packet has 11 bytes
    and unpacks to the request with the fields its kind does not use cleared; a
    packet is accepted only if it is, byte for byte, the packing of the request
    returned, so a corrupted queue entry is never executed as another request. *)
Theorem s3_control_roundtrip v packet : request_typed v ->
  match s3_control_pack v with
  | Some p => length p = 11%nat /\ s3_control_unpack p = Some (canonical v)
  | None => has_sensor (req_kind v) = true /\ 3 <= req_sensor v \/
      req_kind v = S3_CONTROL_MAPPING /\ Exists (fun a => S3_NAV_ACTION_COUNT <= u32 a) (req_map v)
  end /\
  (s3_control_unpack packet = Some v -> s3_control_pack v = Some packet).
Proof.
  intros T. destruct (control_width v) as [Hw Hk]. split.
  - destruct (s3_control_pack v) as [p |] eqn:E.
    + pose proof (reads_control v T ltac:(by eexists)) as R.
      assert (Ep : p = pack S3_CONTROL_BYTES (control_fields v)).
      { unfold s3_control_pack in E. cbv zeta in E. destruct (_ && _); [done |]. destruct (existsb _ _); [done |]. by injection E as <-. }
      subst p. split; [rewrite length_pack; [done | by rewrite Hw] |].
      unfold s3_control_unpack. rewrite pack_mask; [| by rewrite Hw | done | done |].
      * cbn [negb Z.eqb]. rewrite (reads_run _ _ _ _ R Hk) by (by rewrite Hw).
        rewrite canonical_pack, E. by rewrite bool_decide_eq_true_2.
      * rewrite Hw. intros j Hj Hb. pose proof (mask_bits _ 3 j Hj Hb eq_refl). lia.
    + destruct T as [Ts Tl]. unfold s3_control_pack in E. cbv zeta in E. destruct (_ && _) eqn:E1.
      * left. unbool. unfold u32 in *. rewrite wrap_id in * by done. done.
      * right. destruct (existsb _ _) eqn:E2; [| done]. apply existsb_exists in E2 as (i & Hi & Ha). apply Z.leb_le in Ha.
        unfold map_entry in Ha. destruct (req_kind v); cbn [is_mapping] in Ha; try (unfold S3_NAV_ACTION_COUNT in Ha; lia).
        split; [done |]. apply elem_range in Hi. unfold nthZ in Ha. destruct (Z.ltb_spec i 0); [lia |].
        apply List.Exists_exists. exists (nth (Z.to_nat i) (req_map v) 0). split; [apply nth_In; lia | done].
  - unfold s3_control_unpack. case_if; [done |]. destruct (run read_control packet) as [t |]; [| done].
    destruct (s3_control_pack t) as [q |] eqn:E; [| done]. case_bool_decide; [| done]. intros [= ->]. subst. exact E.
Qed.

(** Status packets.  A status packs exactly when its calibration sensor
    exists, both summaries fit and its navigation output packs; it takes 60, 22
    and 64 bytes, and unpacking gives the whole status back, floating-point
    fields bit for bit, but for [line.touching], which is not carried. *)
Theorem s3_status_roundtrip v : status_typed v ->
  match s3_status_pack v with
  | Some p => status_packable v = true /\
      length (pk_navigation p) = 60%nat /\ length (pk_feedback p) = 22%nat /\ length (pk_metadata p) = 64%nat /\
      s3_status_unpack p = Some (v <| pub_navigation := carried (pub_navigation v) |>)
  | None => status_packable v = false
  end.
Proof.
  intros T. pose proof (navigation_roundtrip _ (sy_navigation _ T)) as N.
  destruct (feedback_width (pub_motion v)) as [Fw Fk]. destruct (metadata_width v) as [Mw Mk].
  unfold s3_status_pack. destruct (_ || _) eqn:Eg.
  { unfold status_packable. rewrite !orb_true_iff, !negb_true_iff in Eg.
    destruct Eg as [[-> | ->] | ->]; by rewrite ?andb_false_r. }
  destruct (s3_navigation_pack _) as [nav |] eqn:En.
  2: { unfold status_packable. rewrite N. by rewrite andb_false_r. }
  destruct N as (Np & Nl & _ & Nu). rewrite !orb_false_iff, !negb_false_iff in Eg. destruct Eg as [[Eg1 Eg2] Eg3].
  assert (HP : status_packable v = true) by (unfold status_packable; by rewrite Eg1, Eg2, Eg3, Np).
  cbn [pk_navigation pk_feedback pk_metadata]. split; [exact HP |]. split; [exact Nl |].
  split; [rewrite length_pack; [reflexivity | by rewrite Fw] |]. split; [rewrite length_pack; [reflexivity | by rewrite Mw] |].
  apply (status_unpacked v _ _ _ _ (metadata_padding v) Nu (feedback_read _ (sy_motion _ T)) (metadata_read v _ T HP)).
Qed.

(** ** Witnesses *)
Definition bench_request : s3_control_request_t :=
  {| req_kind := S3_CONTROL_BLACK; req_sensor := 2; req_map := replicate 26 4 |}.
Lemma s3_control_roundtrip_witness : exists p, s3_control_pack bench_request = Some p /\
  length p = 11%nat /\ s3_control_unpack p = Some (canonical bench_request).
Proof.
  destruct (s3_control_roundtrip bench_request []) as [H _]; [split; [split; cbn; lia | reflexivity] |].
  destruct (s3_control_pack bench_request) as [p |] eqn:E; [exists p; split; [reflexivity | exact H] |].
  exfalso. revert E. vm_compute. discriminate.
Defined.
Definition zero_summary : s3_calibration_summary_t :=
  {| summary_count := 0; summary_minimum := 0; summary_maximum := 0; average := fzero; available := false |}.
Definition bench_status : s3_integration_status_t :=
  {| pub_navigation := zero_output; pub_motion := zero_feedback; pub_state := S3_DRIVE_FAULT; pub_reason := S3_DRIVE_TIMEOUT;
     samples := 5; max_gap_us := 9; above_target := 1; command_sequence := 3; run_timing := s3_run_timing_begin 77;
     command_ok := true; collecting := false; calibration_sensor := 1; pub_white := zero_summary; pub_black := zero_summary;
     adc_status := -5 |}.
Lemma bench_status_typed : status_typed bench_status.
Proof.
  constructor; cbn [bench_status pub_navigation pub_motion pub_white pub_black run_timing]; unfold feedback_typed, timing_typed, summary_typed, in_u;
    cbn; try (splits; done || lia); try lia.
  constructor; unfold in_u, barcode_typed, capture_typed, steering_typed, in_u; cbn; splits; try done; try lia.
  repeat constructor; cbn; lia.
Qed.
Lemma s3_status_roundtrip_witness : exists p, s3_status_pack bench_status = Some p /\
  s3_status_unpack p = Some (bench_status <| pub_navigation := carried zero_output |>).
Proof.
  pose proof (s3_status_roundtrip bench_status bench_status_typed) as H.
  destruct (s3_status_pack bench_status) as [p |]; [exists p; split; [reflexivity | apply H] | discriminate H].
Defined.
