(* ===== verification/Operator.v ===== *)
(** * Operator controls

    Models [controller/operator_logic.{c,h}]: the two debounced buttons (GP20 next
    and start, GP21 stop) and the operator's state machine - calibration
    walkthrough, countdown, start, stop and fault reset.  Its only effect on the
    car is [submit], a request handed to the controller owner: requests are
    recorded, newest first, and the reply to a request is an arbitrary function of
    the requests so far.  Console messages are not modelled; the times that pace
    them ([due]) are. *)
From S2P Require Import Prelude BitCodec IrSensing Navigation MotionController MotionPack Drive IntegrationCodec.

Definition OP_DEBOUNCE_MS : Z := 30.
Definition OP_RELEASE_MS : Z := 100.
Definition OP_LONG_PRESS_MS : Z := 2000.
Definition OP_COUNTDOWN_MS : Z := 3000.
Definition OP_REPLY_TIMEOUT_MS : Z := 1000.
Definition OP_COLLECT_TIMEOUT_MS : Z := 3000.
Definition OP_PROMPT_REPEAT_MS : Z := 5000.
Definition OP_CAL_STEPS : Z := 2 * Z.of_nat S3_SENSOR_COUNT.

(** ** Buttons *)
Inductive op_press_t := OP_PRESS_NONE | OP_PRESS_SHORT | OP_PRESS_LONG.
#[export] Instance press_eq_dec : EqDecision op_press_t.
Proof. solve_decision. Defined.
Record op_button_t := { since_ms : Z; pressed_ms : Z; seen : bool; b_raw : bool; stable : bool; armed : bool }.
#[export] Instance button_settable : Settable op_button_t := fun r =>
  Build_op_button_t (since_ms r) (pressed_ms r) (seen r) (b_raw r) (stable r) (armed r).
Definition op_button_init : op_button_t :=
  {| since_ms := 0; pressed_ms := 0; seen := false; b_raw := false; stable := false; armed := false |}.
(** The debounced level changes: the press reported, the edge and the button. *)
Definition button_settle (b : op_button_t) : op_press_t * bool * op_button_t :=
  let b := b <| stable := b_raw b |> in
  if stable b then (OP_PRESS_NONE, armed b, b <| pressed_ms := since_ms b |>)
  else if armed b then
    (if OP_LONG_PRESS_MS <=? elapsed (since_ms b) (pressed_ms b) then OP_PRESS_LONG else OP_PRESS_SHORT, false, b)
  else (OP_PRESS_NONE, false, b).
(** Result: the press, [*edge], the button. *)
Definition op_button_update (b : op_button_t) (down : bool) (now_ms : Z) : op_press_t * bool * op_button_t :=
  if negb (seen b) || negb (eqb down (b_raw b)) then
    (OP_PRESS_NONE, false, b <| seen := true |> <| b_raw := down |> <| since_ms := now_ms |>)
  else
    let '(press, edge, b) :=
      if negb (eqb (b_raw b) (stable b)) && (OP_DEBOUNCE_MS <=? elapsed now_ms (since_ms b))
      then button_settle b else (OP_PRESS_NONE, false, b) in
    let b := if negb (armed b) && negb (b_raw b) && negb (stable b) && (OP_RELEASE_MS <=? elapsed now_ms (since_ms b))
             then b <| armed := true |> else b in
    (press, edge, b).
Definition op_button_held (b : op_button_t) : bool := stable b.

(** ** The operator *)
Inductive op_phase_t :=
  OP_PHASE_WAIT_STATUS | OP_PHASE_CAL_PROMPT | OP_PHASE_CAL_COLLECT | OP_PHASE_CAL_APPLY | OP_PHASE_READY |
  OP_PHASE_RESET | OP_PHASE_COUNTDOWN | OP_PHASE_START | OP_PHASE_RUN.
#[export] Instance phase_eq_dec : EqDecision op_phase_t.
Proof. solve_decision. Defined.
Record operator_t := {
  op_phase : op_phase_t; phase_ms : Z; prompt_ms : Z; sequence : Z; op_step : Z; countdown_shown : Z;
  awaiting_reply : bool; prompted : bool; stop_handled : bool; stop_warned : bool; inhibit : bool;
  ignore_warned : bool; reset_to_cal : bool
}.
#[export] Instance operator_settable : Settable operator_t := fun r =>
  Build_operator_t (op_phase r) (phase_ms r) (prompt_ms r) (sequence r) (op_step r) (countdown_shown r)
    (awaiting_reply r) (prompted r) (stop_handled r) (stop_warned r) (inhibit r) (ignore_warned r) (reset_to_cal r).
Definition zero_operator : operator_t :=
  {| op_phase := OP_PHASE_WAIT_STATUS; phase_ms := 0; prompt_ms := 0; sequence := 0; op_step := 0; countdown_shown := 0;
     awaiting_reply := false; prompted := false; stop_handled := false; stop_warned := false; inhibit := false;
     ignore_warned := false; reset_to_cal := false |}.
(** [port_set]: both function pointers of the port are set. *)
Definition operator_init (port_set : bool) : option operator_t := if negb port_set then None else Some zero_operator.
(** [k_order]: the order in which the sensors are calibrated. *)
Definition k_order : list Z := [S3_SENSOR_LEFT; S3_SENSOR_RIGHT; S3_SENSOR_BARCODE].
Definition order_sensor (index : Z) : Z := nthZ 0 k_order index.
(** [{.kind = kind, .sensor = sensor}]: the map is zero. *)
Definition request (kind : s3_control_kind_t) (sensor : Z) : s3_control_request_t :=
  {| req_kind := kind; req_sensor := sensor; req_map := replicate 26 0 |}.

(** The operator and the requests it has submitted. *)
Record desk := { op : operator_t; sent : list s3_control_request_t }.
#[export] Instance desk_settable : Settable desk := fun r => Build_desk (op r) (sent r).
Notation "o <<| f := v |>>" := (o <| op := (op o) <| f := v |> |>)
  (at level 12, left associativity, f at level 10, v at level 200) : car_scope.

Definition enter (o : desk) (phase : op_phase_t) (now : Z) : desk :=
  o <<| op_phase := phase |>> <<| phase_ms := now |>> <<| prompted := false |>> <<| awaiting_reply := false |>>
    <<| countdown_shown := 0 |>>.
Definition due (o : desk) (now : Z) : bool * desk :=
  if negb (prompted (op o)) || (OP_PROMPT_REPEAT_MS <=? elapsed now (prompt_ms (op o)))
  then (true, o <<| prompted := true |>> <<| prompt_ms := now |>>) else (false, o).
(** [None]: no answer yet; [Some ok]: the controller has executed the request. *)
Definition replied (o : operator_t) (st : s3_integration_status_t) : option bool :=
  if negb (awaiting_reply o) || (command_sequence st =? sequence o) then None else Some (command_ok st).
Definition drive_running (s : s3_drive_state_t) : bool := Drive.running s.

Section Operator.
Context (accept : list s3_control_request_t -> bool).

Definition send (o : desk) (kind : s3_control_kind_t) (sensor : Z) (st : s3_integration_status_t) (now : Z) : bool * desk :=
  let o := o <<| sequence := command_sequence st |>> <<| phase_ms := now |>> in
  let o := o <| sent := request kind sensor :: sent o |> in
  let ok := accept (sent o) in
  (ok, o <<| awaiting_reply := ok |>>).
Definition pressed (go : op_press_t) : bool := negb (bool_decide (go = OP_PRESS_NONE)).
Definition in_fault (st : s3_integration_status_t) : bool := bool_decide (pub_state st = S3_DRIVE_FAULT).

Definition cal_prompt (o : desk) (now : Z) (go : op_press_t) (st : s3_integration_status_t) : desk :=
  let index := op_step (op o) / 2 in
  let black := negb (op_step (op o) mod 2 =? 0) in
  let o := (due o now).2 in
  if in_fault st then
    if pressed go then
      let '(ok, o) := send o S3_CONTROL_RESET S3_SENSOR_BARCODE st now in
      if ok then o <<| reset_to_cal := true |>> <<| op_phase := OP_PHASE_RESET |>> else o
    else o
  else if pressed go then
    let '(ok, o) := send o (if black then S3_CONTROL_BLACK else S3_CONTROL_WHITE) (order_sensor index) st now in
    if ok then o <<| op_phase := OP_PHASE_CAL_COLLECT |>> else o
  else o.
Definition cal_collect (o : desk) (now : Z) (st : s3_integration_status_t) : desk :=
  let index := op_step (op o) / 2 in
  let black := negb (op_step (op o) mod 2 =? 0) in
  if awaiting_reply (op o) then
    match replied (op o) st with
    | Some ok => let o := o <<| awaiting_reply := false |>> in if negb ok then enter o OP_PHASE_CAL_PROMPT now else o
    | None => if OP_REPLY_TIMEOUT_MS <=? elapsed now (phase_ms (op o)) then enter o OP_PHASE_CAL_PROMPT now else o
    end
  else if collecting st || negb (calibration_sensor st =? order_sensor index) then
    if OP_COLLECT_TIMEOUT_MS <=? elapsed now (phase_ms (op o)) then enter o OP_PHASE_CAL_PROMPT now else o
  else if negb black then enter (o <<| op_step := wrap 3 (op_step (op o) + 1) |>>) OP_PHASE_CAL_PROMPT now
  else
    let '(ok, o) := send o S3_CONTROL_APPLY_CALIBRATION (order_sensor index) st now in
    if ok then o <<| op_phase := OP_PHASE_CAL_APPLY |>> else enter o OP_PHASE_CAL_PROMPT now.
Definition cal_apply (o : desk) (now : Z) (st : s3_integration_status_t) : desk :=
  let index := op_step (op o) / 2 in
  match replied (op o) st with
  | None => if OP_REPLY_TIMEOUT_MS <=? elapsed now (phase_ms (op o)) then enter o OP_PHASE_CAL_PROMPT now else o
  | Some ok =>
      if negb ok then enter (o <<| op_step := wrap 3 (index * 2) |>>) OP_PHASE_CAL_PROMPT now
      else
        let o := o <<| op_step := wrap 3 (op_step (op o) + 1) |>> in
        if OP_CAL_STEPS <=? op_step (op o) then enter o OP_PHASE_READY now else enter o OP_PHASE_CAL_PROMPT now
  end.
Definition ready (o : desk) (now : Z) (go : op_press_t) (st : s3_integration_status_t) : desk :=
  let o := (due o now).2 in
  if in_fault st && pressed go then
    let o := o <<| reset_to_cal := false |>> in
    let '(ok, o) := send o S3_CONTROL_RESET S3_SENSOR_BARCODE st now in
    if ok then o <<| op_phase := OP_PHASE_RESET |>> else o
  else match go with
  | OP_PRESS_LONG => enter (o <<| op_step := 0 |>>) OP_PHASE_CAL_PROMPT now
  | OP_PRESS_SHORT => enter o OP_PHASE_COUNTDOWN now
  | OP_PRESS_NONE => o
  end.
(** Where a reset returns to. *)
Definition after_reset (o : desk) : op_phase_t := if reset_to_cal (op o) then OP_PHASE_CAL_PROMPT else OP_PHASE_READY.
Definition reset_wait (o : desk) (now : Z) (st : s3_integration_status_t) : desk :=
  match replied (op o) st with
  | Some _ => enter o (after_reset o) now
  | None => if OP_REPLY_TIMEOUT_MS <=? elapsed now (phase_ms (op o)) then enter o (after_reset o) now else o
  end.
Definition countdown (o : desk) (now : Z) (st : s3_integration_status_t) : desk :=
  let t := elapsed now (phase_ms (op o)) in
  let second := t / 1000 in
  if OP_COUNTDOWN_MS <=? t then
    let '(ok, o) := send o S3_CONTROL_START S3_SENSOR_BARCODE st now in
    if ok then o <<| op_phase := OP_PHASE_START |>> else enter o OP_PHASE_READY now
  else if countdown_shown (op o) <=? second then o <<| countdown_shown := wrap 2 (second + 1) |>> else o.
Definition start_wait (o : desk) (now : Z) (st : s3_integration_status_t) : desk :=
  match replied (op o) st with
  | Some ok => if ok then enter o OP_PHASE_RUN now else enter o OP_PHASE_READY now
  | None => if OP_REPLY_TIMEOUT_MS <=? elapsed now (phase_ms (op o)) then enter o OP_PHASE_READY now else o
  end.
Definition stop_pressed (o : desk) (now_ms : Z) : desk :=
  match op_phase (op o) with
  | OP_PHASE_CAL_COLLECT => enter o OP_PHASE_CAL_PROMPT now_ms
  | OP_PHASE_CAL_APPLY => enter (o <<| op_step := wrap 3 (op_step (op o) / 2 * 2 + 1) |>>) OP_PHASE_CAL_PROMPT now_ms
  | OP_PHASE_COUNTDOWN | OP_PHASE_START => enter o OP_PHASE_READY now_ms
  | OP_PHASE_RESET => enter o (after_reset o) now_ms
  | _ => o
  end.

(** The stop button, handled before anything else. *)
Definition poll_stop (o : desk) (now_ms : Z) (stop_held : bool) : desk :=
  if stop_held then
    let o := o <<| inhibit := true |>> in
    if negb (stop_handled (op o)) then
      let o := o <| sent := request S3_CONTROL_STOP 0 :: sent o |> in
      let o := if accept (sent o) then o <<| stop_handled := true |>> else o <<| stop_warned := true |>> in
      stop_pressed o now_ms
    else o
  else o <<| stop_handled := false |>> <<| stop_warned := false |>>.
(** GP20 is discarded from a stop until both buttons are released. *)
Definition poll_inhibit (o : desk) (go : op_press_t) (stop_held go_held : bool) : op_press_t * desk :=
  if inhibit (op o) then
    let o := o <<| ignore_warned := pressed go || ignore_warned (op o) |>> in
    (OP_PRESS_NONE, if negb stop_held && negb go_held then o <<| inhibit := false |>> <<| ignore_warned := false |>> else o)
  else (go, o).
Definition poll_phase (o : desk) (now_ms : Z) (go : op_press_t) (st : s3_integration_status_t) : desk :=
  match op_phase (op o) with
  | OP_PHASE_WAIT_STATUS =>
      let o := o <<| op_step := 0 |>> in
      if out_accepted_calibration (pub_navigation st) =? S3_ALL_SENSORS then enter o OP_PHASE_READY now_ms
      else enter o OP_PHASE_CAL_PROMPT now_ms
  | OP_PHASE_CAL_PROMPT => cal_prompt o now_ms go st
  | OP_PHASE_CAL_COLLECT => cal_collect o now_ms st
  | OP_PHASE_CAL_APPLY => cal_apply o now_ms st
  | OP_PHASE_READY => ready o now_ms go st
  | OP_PHASE_RESET => reset_wait o now_ms st
  | OP_PHASE_COUNTDOWN => countdown o now_ms st
  | OP_PHASE_START => start_wait o now_ms st
  | OP_PHASE_RUN => if negb (drive_running (pub_state st)) then enter o OP_PHASE_READY now_ms else o
  end.
Definition operator_step (o : desk) (now_ms : Z) (go : op_press_t) (stop_held go_held : bool)
  (st : option s3_integration_status_t) : desk :=
  let o := poll_stop o now_ms stop_held in
  let '(go, o) := poll_inhibit o go stop_held go_held in
  match st with None => o | Some st => poll_phase o now_ms go st end.

End Operator.
