(* ===== verification/OperatorSafety.v ===== *)
(** * What the operator controls guarantee

    Theorems on [controller/operator_logic.c] over histories of polls: who may
    start the car, what the stop button does, that the calibration walkthrough
    runs its steps in order and in range, and that no wait is endless. *)
From S2P Require Import Prelude BitCodec IrSensing Navigation MotionController MotionPack Drive IntegrationCodec Operator.

(** The arguments of one call of [operator_step]. *)
Record poll := { at_ms : Z; go_press : op_press_t; stop_level : bool; go_level : bool; seen_status : option s3_integration_status_t }.
Definition boot_desk : desk := {| op := zero_operator; sent := [] |}.

Section System.
Context (accept : list s3_control_request_t -> bool).
Definition run_poll (o : desk) (p : poll) : desk :=
  operator_step accept o (at_ms p) (go_press p) (stop_level p) (go_level p) (seen_status p).
Definition desk_after (h : list poll) : desk := fold_left run_poll h boot_desk.
Lemma desk_snoc h p : desk_after (h ++ [p]) = run_poll (desk_after h) p.
Proof. unfold desk_after. by rewrite fold_left_app. Qed.

(** Phases in which nothing is under way that a stop has to end. *)
Definition resting (ph : op_phase_t) : bool :=
  match ph with OP_PHASE_WAIT_STATUS | OP_PHASE_CAL_PROMPT | OP_PHASE_READY | OP_PHASE_RUN => true | _ => false end.

(** ** One poll, part by part *)
Lemma due_frame o now : sent (due o now).2 = sent o /\ exists b t, op (due o now).2 = op o <| prompted := b |> <| prompt_ms := t |>.
Proof.
  unfold due. case_if; (split; [done |]); [by eexists _, _ |].
  exists (prompted (op o)), (prompt_ms (op o)). by destruct o as [[] ?].
Qed.
Lemma stop_pressed_rests o now : resting (op_phase (op (stop_pressed o now))) = true /\ sent (stop_pressed o now) = sent o /\
  stop_handled (op (stop_pressed o now)) = stop_handled (op o) /\ inhibit (op (stop_pressed o now)) = inhibit (op o).
Proof. unfold stop_pressed, after_reset. destruct (op_phase (op o)) eqn:E; try (by splits; rewrite ?E). by destruct (reset_to_cal (op o)). Qed.

(** Without a press, a resting phase stays resting and nothing is submitted. *)
Lemma rest_unpressed o now st : resting (op_phase (op o)) = true ->
  let o' := poll_phase accept o now OP_PRESS_NONE st in
  resting (op_phase (op o')) = true /\ sent o' = sent o /\ stop_handled (op o') = stop_handled (op o) /\
  inhibit (op o') = inhibit (op o).
Proof.
  intros Hr. unfold poll_phase. cbv zeta. destruct (op_phase (op o)) eqn:E; try done.
  - by case_if.
  - unfold cal_prompt. cbv zeta. destruct (due_frame o now) as (D1 & b & t & D2).
    change (pressed OP_PRESS_NONE) with false. destruct (in_fault st); rewrite D1, D2; cbn; by rewrite E.
  - unfold ready. cbv zeta. destruct (due_frame o now) as (D1 & b & t & D2).
    change (pressed OP_PRESS_NONE) with false. rewrite andb_false_r, D1, D2. cbn. by rewrite E.
  - by case_if; rewrite ?E.
Qed.

(** What the stop button does. *)
Lemma poll_stop_held o now : resting (op_phase (op o)) = true \/ stop_handled (op o) = false ->
  let o' := poll_stop accept o now true in
  resting (op_phase (op o')) = true /\ inhibit (op o') = true /\
  sent o' = (if stop_handled (op o) then [] else [request S3_CONTROL_STOP 0]) ++ sent o /\
  stop_handled (op o') = stop_handled (op o) || accept (request S3_CONTROL_STOP 0 :: sent o).
Proof.
  intros H. unfold poll_stop. cbv zeta. change (stop_handled (op (o <<| inhibit := true |>>))) with (stop_handled (op o)).
  destruct (stop_handled (op o)) eqn:Eh; cbn [negb].
  - destruct H as [H |]; [| done]. splits; try done.
  - change (accept (sent (o <<| inhibit := true |>> <| sent := request S3_CONTROL_STOP 0 :: sent o |>))) with
      (accept (request S3_CONTROL_STOP 0 :: sent o)).
    destruct (accept _) eqn:Ea;
      match goal with |- context [stop_pressed ?x now] => destruct (stop_pressed_rests x now) as (R1 & R2 & R3 & R4) end;
      rewrite R1, R2, R3, R4; splits; try done.
Qed.
Lemma poll_inhibited o go s g : inhibit (op o) = true ->
  (poll_inhibit o go s g).1 = OP_PRESS_NONE /\ sent (poll_inhibit o go s g).2 = sent o /\
  op_phase (op (poll_inhibit o go s g).2) = op_phase (op o) /\ stop_handled (op (poll_inhibit o go s g).2) = stop_handled (op o) /\
  inhibit (op (poll_inhibit o go s g).2) = s || g.
Proof. intros H. unfold poll_inhibit. rewrite H. cbn. destruct s, g; done. Qed.

(** A poll with the stop button held, from a state a stop has put to rest. *)
Lemma held_poll o p : stop_level p = true -> resting (op_phase (op o)) = true \/ stop_handled (op o) = false ->
  let o' := run_poll o p in
  resting (op_phase (op o')) = true /\ inhibit (op o') = true /\
  sent o' = (if stop_handled (op o) then [] else [request S3_CONTROL_STOP 0]) ++ sent o /\
  stop_handled (op o') = stop_handled (op o) || accept (request S3_CONTROL_STOP 0 :: sent o).
Proof.
  intros Hs H. unfold run_poll, operator_step. cbv zeta. rewrite Hs.
  destruct (poll_stop_held o (at_ms p) H) as (A1 & A2 & A3 & A4). set (o1 := poll_stop accept o (at_ms p) true) in *.
  destruct (poll_inhibited o1 (go_press p) true (go_level p) A2) as (B1 & B2 & B3 & B4 & B5).
  destruct (poll_inhibit o1 (go_press p) true (go_level p)) as [go o2]. cbn [fst snd] in *. subst go.
  rewrite <- B3 in A1. destruct (seen_status p) as [st |].
  - destruct (rest_unpressed o2 (at_ms p) st A1) as (C1 & C2 & C3 & C4). rewrite C2, C3, C4, B2, B4, B5. done.
  - rewrite B2, B4, B5. done.
Qed.

(** Once a stop has been handled the operator rests, and stays inhibited. *)
Definition stop_inv (o : desk) : Prop := stop_handled (op o) = true -> resting (op_phase (op o)) = true /\ inhibit (op o) = true.
Lemma stop_released o now : stop_handled (op (poll_stop accept o now false)) = false.
Proof. done. Qed.
Lemma poll_phase_handled o now go st : stop_handled (op (poll_phase accept o now go st)) = stop_handled (op o).
Proof.
  unfold poll_phase. destruct (op_phase (op o)).
  - by case_if.
  - unfold cal_prompt. cbv zeta. destruct (due_frame o now) as (_ & b & t & D). destruct (in_fault st); destruct (pressed go);
      try (by rewrite D); unfold send; cbv zeta; destruct (accept _); cbn; by rewrite D.
  - unfold cal_collect. cbv zeta. case_if; [destruct (replied _ _) as [[] |]; try done; by case_if |].
    case_if; [by case_if |]. case_if; [done |]. unfold send. cbv zeta. by destruct (accept _).
  - unfold cal_apply. cbv zeta. destruct (replied _ _) as [[] |]; cbn [negb]; try done; by case_if.
  - unfold ready. cbv zeta. destruct (due_frame o now) as (_ & b & t & D). case_if.
    + unfold send. cbv zeta. destruct (accept _); cbn; by rewrite D.
    + destruct go; cbn; by rewrite D.
  - unfold reset_wait. destruct (replied _ _); [done | by case_if].
  - unfold countdown. cbv zeta. case_if; [unfold send; cbv zeta; by destruct (accept _) | by case_if].
  - unfold start_wait. destruct (replied _ _) as [[] |]; try done. by case_if.
  - by case_if.
Qed.
Lemma poll_inhibit_handled o go s g : stop_handled (op (poll_inhibit o go s g).2) = stop_handled (op o).
Proof. unfold poll_inhibit. case_if; [| done]. by destruct s, g. Qed.
Lemma stop_inv_after h : stop_inv (desk_after h).
Proof.
  induction h as [| p h IH] using rev_ind; [done |]. rewrite desk_snoc. intros Hh. destruct (stop_level p) eqn:Hs.
  - destruct (held_poll (desk_after h) p Hs) as (A1 & A2 & _); [| done].
    destruct (stop_handled (op (desk_after h))) eqn:E; [left; by apply IH | by right].
  - exfalso. revert Hh. unfold run_poll, operator_step. cbv zeta. rewrite Hs.
    pose proof (poll_inhibit_handled (poll_stop accept (desk_after h) (at_ms p) false) (go_press p) false (go_level p)) as E.
    destruct (poll_inhibit _ _ _ _) as [go o2]. cbn [snd] in E. rewrite stop_released in E.
    destruct (seen_status p) as [st |]; [rewrite poll_phase_handled |]; congruence.
Qed.

(** ** What a poll may submit *)
Definition is_black (o : desk) : bool := negb (op_step (op o) mod 2 =? 0).
Inductive sendable (o : desk) (now : Z) (go : op_press_t) (st : s3_integration_status_t) : s3_control_kind_t -> Z -> Prop :=
| sd_reset : op_phase (op o) = OP_PHASE_CAL_PROMPT \/ op_phase (op o) = OP_PHASE_READY -> in_fault st = true ->
    pressed go = true -> sendable o now go st S3_CONTROL_RESET S3_SENSOR_BARCODE
| sd_surface : op_phase (op o) = OP_PHASE_CAL_PROMPT -> in_fault st = false -> pressed go = true ->
    sendable o now go st (if is_black o then S3_CONTROL_BLACK else S3_CONTROL_WHITE) (order_sensor (op_step (op o) / 2))
| sd_apply : op_phase (op o) = OP_PHASE_CAL_COLLECT -> is_black o = true -> awaiting_reply (op o) = false ->
    collecting st = false -> calibration_sensor st = order_sensor (op_step (op o) / 2) ->
    sendable o now go st S3_CONTROL_APPLY_CALIBRATION (order_sensor (op_step (op o) / 2))
| sd_start : op_phase (op o) = OP_PHASE_COUNTDOWN -> OP_COUNTDOWN_MS <= elapsed now (phase_ms (op o)) ->
    sendable o now go st S3_CONTROL_START S3_SENSOR_BARCODE.
Lemma send_sent o k s st now : sent (send accept o k s st now).2 = request k s :: sent o.
Proof. done. Qed.
Lemma poll_phase_sent o now go st : let o' := poll_phase accept o now go st in
  sent o' = sent o \/ exists k s, sent o' = request k s :: sent o /\ sendable o now go st k s.
Proof.
  cbv zeta. unfold poll_phase. destruct (op_phase (op o)) eqn:E.
  - left. by case_if.
  - unfold cal_prompt. cbv zeta. destruct (due_frame o now) as (D & _). destruct (in_fault st) eqn:Ef; destruct (pressed go) eqn:Eg;
      try (by left); right; unfold send; cbv zeta; eexists _, _.
    + split; [destruct (accept _); cbn; by rewrite D |]. apply sd_reset; auto.
    + split; [destruct (accept _); cbn; by rewrite D |]. by apply sd_surface.
  - unfold cal_collect. cbv zeta. destruct (awaiting_reply (op o)) eqn:Ew.
    { left. destruct (replied _ _) as [[] |]; try done. by case_if. }
    destruct (_ || _) eqn:Ec; [left; by case_if |]. fold (is_black o). destruct (is_black o) eqn:Eb; [| by left]. cbn [negb].
    right. unfold send. cbv zeta. eexists _, _. split; [by destruct (accept _) |].
    apply orb_false_iff in Ec as [Ec1 Ec2]. apply negb_false_iff, Z.eqb_eq in Ec2. by apply sd_apply.
  - left. unfold cal_apply. cbv zeta. destruct (replied _ _) as [[] |]; cbn [negb]; try done; by case_if.
  - unfold ready. cbv zeta. destruct (due_frame o now) as (D & _). destruct (in_fault st && pressed go) eqn:Ef.
    + right. apply andb_true_iff in Ef as [Ef Eg]. unfold send. cbv zeta. eexists _, _.
      split; [destruct (accept _); cbn; by rewrite D |]. apply sd_reset; auto.
    + left. by destruct go.
  - left. unfold reset_wait. destruct (replied _ _); [done | by case_if].
  - unfold countdown. cbv zeta. destruct (Z.leb_spec OP_COUNTDOWN_MS (elapsed now (phase_ms (op o)))) as [H | H].
    + right. unfold send. cbv zeta. eexists _, _. split; [by destruct (accept _) |]. by apply sd_start.
    + left. by case_if.
  - left. unfold start_wait. destruct (replied _ _) as [[] |]; try done. by case_if.
  - left. by case_if.
Qed.
Lemma poll_phase_countdown o now go st : let o' := poll_phase accept o now go st in
  op_phase (op o') = OP_PHASE_COUNTDOWN ->
  op_phase (op o) = OP_PHASE_COUNTDOWN /\ phase_ms (op o') = phase_ms (op o) \/
  op_phase (op o) = OP_PHASE_READY /\ go = OP_PRESS_SHORT /\ in_fault st = false /\ phase_ms (op o') = now.
Proof.
  cbv zeta. unfold poll_phase. destruct (op_phase (op o)) eqn:E.
  - by case_if.
  - unfold cal_prompt. cbv zeta. destruct (due_frame o now) as (_ & b & t & D). destruct (in_fault st); destruct (pressed go);
      unfold send; cbv zeta; try (destruct (accept _)); cbn; rewrite ?D; cbn; by rewrite ?E.
  - unfold cal_collect. cbv zeta. destruct (awaiting_reply (op o)).
    { destruct (replied _ _) as [[] |]; cbn; try done; [by rewrite E |]. case_if; [done | by rewrite E]. }
    destruct (_ || _); [case_if; [done | by rewrite E] |]. destruct (negb _); [done |]. cbn [negb].
    unfold send. cbv zeta. by destruct (accept _).
  - unfold cal_apply. cbv zeta. destruct (replied _ _) as [[] |]; cbn [negb]; try done; case_if; try done. by rewrite E.
  - unfold ready. cbv zeta. destruct (due_frame o now) as (_ & b & t & D). destruct (in_fault st) eqn:Ef; cbn [andb].
    + destruct (pressed go) eqn:Eg; [unfold send; cbv zeta; destruct (accept _); cbn; rewrite ?D; cbn; by rewrite ?E |].
      destruct go; [cbn; rewrite D; cbn; by rewrite E | discriminate Eg | discriminate Eg].
    + destruct go; [cbn; rewrite D; cbn; by rewrite E | | done]. intros _. by right.
  - unfold reset_wait, after_reset. destruct (replied _ _); [by destruct (reset_to_cal (op o)) |]. case_if; [by destruct (reset_to_cal (op o)) | by rewrite E].
  - intros H. left. split; [done |]. revert H. unfold countdown. cbv zeta. case_if; [unfold send; cbv zeta; by destruct (accept _) | by case_if].
  - unfold start_wait. destruct (replied _ _) as [[] |]; try done. case_if; [done | by rewrite E].
  - case_if; [done | by rewrite E].
Qed.

(** ** Starting *)
(** A poll that asks for a start. *)
Definition start_press (o : desk) (q : poll) : Prop :=
  op_phase (op o) = OP_PHASE_READY /\ inhibit (op o) = false /\ stop_level q = false /\ go_press q = OP_PRESS_SHORT /\
  exists st, seen_status q = Some st /\ pub_state st <> S3_DRIVE_FAULT.
(** The countdown under way was asked for at [at_ms q], and the stop button has not been seen since. *)
Definition counting_since (h : list poll) (q : poll) : Prop :=
  exists before after, h = before ++ q :: after /\ start_press (desk_after before) q /\
    Forall (fun r => stop_level r = false) after.
Lemma released_frame o now go g : let r := poll_inhibit (poll_stop accept o now false) go false g in
  op_phase (op r.2) = op_phase (op o) /\ phase_ms (op r.2) = phase_ms (op o) /\ sent r.2 = sent o /\
  (inhibit (op o) = true -> r.1 = OP_PRESS_NONE) /\ (inhibit (op o) = false -> r.1 = go).
Proof. unfold poll_stop, poll_inhibit. cbv zeta. cbn. destruct (inhibit (op o)); [destruct g |]; done. Qed.
Lemma countdown_origin h : op_phase (op (desk_after h)) = OP_PHASE_COUNTDOWN ->
  exists q, counting_since h q /\ phase_ms (op (desk_after h)) = at_ms q.
Proof.
  induction h as [| p h IH] using rev_ind; [done |]. rewrite desk_snoc. intros H. destruct (stop_level p) eqn:Hs.
  { exfalso. destruct (held_poll (desk_after h) p Hs) as (A1 & _); [| by rewrite H in A1].
    pose proof (stop_inv_after h) as SI. destruct (stop_handled (op (desk_after h))) eqn:E; [left; by apply SI | by right]. }
  revert H. unfold run_poll, operator_step. cbv zeta. rewrite Hs.
  destruct (released_frame (desk_after h) (at_ms p) (go_press p) (go_level p)) as (F1 & F2 & _ & F4 & F5).
  destruct (poll_inhibit _ _ _ _) as [go o2]. cbn [fst snd] in *.
  assert (Keep : op_phase (op (desk_after h)) = OP_PHASE_COUNTDOWN -> exists q, counting_since (h ++ [p]) q /\
    phase_ms (op (desk_after h)) = at_ms q).
  { intros H. destruct (IH H) as (q & (bf & af & E & S & N) & T). exists q. split; [| done]. exists bf, (af ++ [p]).
    split; [by rewrite E, <- app_assoc |]. split; [done |]. apply Forall_app. split; [done | by repeat constructor]. }
  destruct (seen_status p) as [st |] eqn:Es; [| rewrite F1, F2; exact Keep]. intros H.
  destruct (poll_phase_countdown o2 (at_ms p) go st H) as [[C1 C2] | (C1 & C2 & C3 & C4)].
  - rewrite C2, F2. apply Keep. by rewrite <- F1.
  - exists p. split; [| done]. exists h, []. split; [done |]. split; [| constructor].
    destruct (inhibit (op (desk_after h))) eqn:Ei; [rewrite F4 in C2 by done; done |].
    unfold start_press. splits; [by rewrite <- F1 | done | done | by rewrite <- F5 |]. exists st. split; [done |].
    unfold in_fault in C3. by apply bool_decide_eq_false in C3.
Qed.
Lemma start_origin h p : Exists (fun r => req_kind r = S3_CONTROL_START)
    (take (length (sent (run_poll (desk_after h) p)) - length (sent (desk_after h))) (sent (run_poll (desk_after h) p))) ->
  stop_level p = false /\ exists q, counting_since h q /\ OP_COUNTDOWN_MS <= elapsed (at_ms p) (at_ms q).
Proof.
  intros H. destruct (stop_level p) eqn:Hs.
  { exfalso. destruct (held_poll (desk_after h) p Hs) as (_ & _ & A3 & _).
    { pose proof (stop_inv_after h) as SI. destruct (stop_handled (op (desk_after h))) eqn:E; [left; by apply SI | by right]. }
    rewrite A3 in H. rewrite length_app, Nat.add_sub, take_app_length in H.
    destruct (stop_handled _); inversion H; subst; [done |]. by inversion H1. }
  split; [done |]. revert H. unfold run_poll, operator_step. cbv zeta. rewrite Hs.
  destruct (released_frame (desk_after h) (at_ms p) (go_press p) (go_level p)) as (F1 & F2 & F3 & _).
  destruct (poll_inhibit _ _ _ _) as [go o2]. cbn [fst snd] in *.
  destruct (seen_status p) as [st |]; [| rewrite F3, Nat.sub_diag; by inversion 1].
  rewrite <- F3. destruct (poll_phase_sent o2 (at_ms p) go st) as [-> | (k & s & -> & Sd)]; [rewrite Nat.sub_diag; by inversion 1 |].
  cbn [length]. rewrite Nat.sub_succ_l, Nat.sub_diag by done. cbn [take]. intros HX. inversion HX as [? ? Hk | ? ? Hk]; subst; [| by inversion Hk].
  cbn in Hk. subst k. inversion Sd as [| ? ? ? Hx | | Hp He]; subst; [by destruct (is_black o2) |].
  rewrite F1 in Hp. rewrite F2 in He. destruct (countdown_origin h Hp) as (q & C & T). exists q. split; [done |]. by rewrite <- T.
Qed.

(** ** The calibration walkthrough *)
Definition calibrating (ph : op_phase_t) (to_cal : bool) : bool :=
  match ph with OP_PHASE_CAL_PROMPT | OP_PHASE_CAL_COLLECT | OP_PHASE_CAL_APPLY => true | OP_PHASE_RESET => to_cal | _ => false end.
Definition calibrated (ph : op_phase_t) (to_cal : bool) : bool :=
  match ph with
  | OP_PHASE_READY | OP_PHASE_COUNTDOWN | OP_PHASE_START | OP_PHASE_RUN => true | OP_PHASE_RESET => negb to_cal | _ => false
  end.
(** A status with all sensors calibrated was seen: the built-in calibration. *)
Definition built_in (h : list poll) : Prop :=
  Exists (fun p => exists st, seen_status p = Some st /\ out_accepted_calibration (pub_navigation st) = S3_ALL_SENSORS) h.
Definition surface_request (step : Z) : s3_control_request_t :=
  request (if negb (step mod 2 =? 0) then S3_CONTROL_BLACK else S3_CONTROL_WHITE) (order_sensor (step / 2)).
Definition apply_request (k : Z) : s3_control_request_t := request S3_CONTROL_APPLY_CALIBRATION (order_sensor k).
Record walk (h : list poll) (ph : op_phase_t) (step : Z) (to_cal : bool) (l : list s3_control_request_t) : Prop := {
  wk_range : 0 <= step <= OP_CAL_STEPS;
  wk_calibrating : calibrating ph to_cal = true -> step < OP_CAL_STEPS;
  wk_calibrated : calibrated ph to_cal = true -> step = OP_CAL_STEPS \/ built_in h;
  wk_sampled : forall k, 0 <= k < step -> In (surface_request k) l;
  wk_applied : forall k, 0 <= k -> 2 * k + 2 <= step -> In (apply_request k) l;
  wk_collect : ph = OP_PHASE_CAL_COLLECT \/ ph = OP_PHASE_CAL_APPLY -> In (surface_request step) l;
  wk_apply : ph = OP_PHASE_CAL_APPLY -> step mod 2 = 1 /\ In (apply_request (step / 2)) l
}.
Definition walk_of (h : list poll) (o : desk) : Prop := walk h (op_phase (op o)) (op_step (op o)) (reset_to_cal (op o)) (sent o).

(** Moving to a phase with no obligations of its own. *)
Lemma walk_rest h ph ph' step to_cal to_cal' l l' : walk h ph step to_cal l -> (forall x, In x l -> In x l') ->
  (calibrating ph' to_cal' = true -> step < OP_CAL_STEPS) -> (calibrated ph' to_cal' = true -> step = OP_CAL_STEPS \/ built_in h) ->
  ph' <> OP_PHASE_CAL_COLLECT -> ph' <> OP_PHASE_CAL_APPLY -> walk h ph' step to_cal' l'.
Proof.
  intros [W1 W2 W3 W4 W5 W6 W7] Hl H1 H2 H3 H4. constructor; try done; try tauto.
  - intros k Hk. auto.
  - intros k Hk1 Hk2. auto.
Qed.
Lemma walk_start h step to_cal ph : (calibrated ph to_cal = true -> built_in h) -> ph <> OP_PHASE_CAL_COLLECT ->
  ph <> OP_PHASE_CAL_APPLY -> step = 0 -> forall l, walk h ph step to_cal l.
Proof.
  intros H1 H2 H3 -> l. constructor; try (unfold OP_CAL_STEPS; cbn; lia); try done; [auto | tauto].
Qed.
Lemma walk_stay h o o' : walk_of h o -> op_phase (op o') = op_phase (op o) -> op_step (op o') = op_step (op o) ->
  reset_to_cal (op o') = reset_to_cal (op o) -> (forall x, In x (sent o) -> In x (sent o')) -> walk_of h o'.
Proof.
  unfold walk_of. intros [W1 W2 W3 W4 W5 W6 W7] -> -> -> H. constructor; auto. intros E. destruct (W7 E). auto.
Qed.
Lemma walk_more h p ph step to_cal l : walk h ph step to_cal l -> walk (h ++ [p]) ph step to_cal l.
Proof.
  intros [W1 W2 W3 W4 W5 W6 W7]. constructor; auto. intros H. destruct (W3 H) as [| B]; [by left | right].
  unfold built_in. apply Exists_app. by left.
Qed.

Lemma walk_stop h o now : walk_of h o -> walk_of h (stop_pressed o now).
Proof.
  intros W. unfold stop_pressed, after_reset, walk_of in *. pose proof W as [W1 W2 W3 W4 W5 W6 W7].
  destruct (op_phase (op o)) eqn:E; try (rewrite E; exact W).
  - cbn. apply (walk_rest _ _ _ _ _ _ _ _ W); try done; auto.
  - destruct (W7 eq_refl) as [Hm Ha]. specialize (W2 eq_refl). change OP_CAL_STEPS with 6 in W1, W2.
    assert (Es : wrap 3 (op_step (op o) / 2 * 2 + 1) = op_step (op o)).
    { pose proof (Z.div_mod (op_step (op o)) 2 ltac:(lia)). replace (op_step (op o) / 2 * 2 + 1) with (op_step (op o)) by lia.
      apply wrap_id. unfold in_u. change (2 ^ 3) with 8. lia. }
    cbn. rewrite Es. apply (walk_rest _ _ _ _ _ _ _ _ W); done.
  - cbn. destruct (reset_to_cal (op o)) eqn:Er; apply (walk_rest _ _ _ _ _ _ _ _ W); try done; auto.
  - cbn. apply (walk_rest _ _ _ _ _ _ _ _ W); try done; auto.
  - cbn. apply (walk_rest _ _ _ _ _ _ _ _ W); try done; auto.
Qed.
(** The two ways a step is completed. *)
Lemma walk_sampled h ph step to_cal to_cal' l : walk h ph step to_cal l -> ph = OP_PHASE_CAL_COLLECT -> step mod 2 = 0 ->
  walk h OP_PHASE_CAL_PROMPT (step + 1) to_cal' l.
Proof.
  intros [W1 W2 _ W4 W5 W6 _] -> Hm. specialize (W2 eq_refl). change OP_CAL_STEPS with 6 in *.
  pose proof (Z.div_mod step 2 ltac:(lia)). constructor; try done; change OP_CAL_STEPS with 6.
  - lia.
  - intros _. lia.
  - intros k Hk. destruct (Z.eq_dec k step) as [-> |]; [auto | apply W4; lia].
  - intros k Hk1 Hk2. apply W5; lia.
  - by intros [].
Qed.
Lemma walk_applied h step to_cal l : walk h OP_PHASE_CAL_APPLY step to_cal l -> forall ph to_cal',
  ph = OP_PHASE_CAL_PROMPT /\ step + 1 < OP_CAL_STEPS \/ ph = OP_PHASE_READY /\ step + 1 = OP_CAL_STEPS ->
  walk h ph (step + 1) to_cal' l.
Proof.
  intros [W1 W2 _ W4 W5 W6 W7] ph to_cal' Hp. specialize (W2 eq_refl). destruct (W7 eq_refl) as [Hm Ha].
  change OP_CAL_STEPS with 6 in *. pose proof (Z.div_mod step 2 ltac:(lia)).
  constructor; change OP_CAL_STEPS with 6.
  - lia.
  - destruct Hp as [[-> ?] | [-> ?]]; [done | done].
  - destruct Hp as [[-> ?] | [-> ?]]; [done | by left].
  - intros k Hk. destruct (Z.eq_dec k step) as [-> |]; [auto | apply W4; lia].
  - intros k Hk1 Hk2. destruct (Z.eq_dec (2 * k + 1) step) as [E |]; [| apply W5; lia].
    assert (step / 2 = k) as <- by lia. done.
  - destruct Hp as [[-> ?] | [-> ?]]; by intros [].
  - destruct Hp as [[-> ?] | [-> ?]]; by intros.
Qed.
Lemma walk_redo h step to_cal to_cal' l : walk h OP_PHASE_CAL_APPLY step to_cal l -> walk h OP_PHASE_CAL_PROMPT (step / 2 * 2) to_cal' l.
Proof.
  intros [W1 W2 _ W4 W5 W6 W7]. specialize (W2 eq_refl). destruct (W7 eq_refl) as [Hm Ha].
  change OP_CAL_STEPS with 6 in *. pose proof (Z.div_mod step 2 ltac:(lia)).
  constructor; try done; change OP_CAL_STEPS with 6; try lia.
  - intros k Hk. apply W4. lia.
  - intros k Hk1 Hk2. apply W5; lia.
  - by intros [].
Qed.
Lemma step_wrap x : 0 <= x < 8 -> wrap 3 x = x.
Proof. intros H. apply wrap_id. unfold in_u. change (2 ^ 3) with 8. lia. Qed.

Lemma walk_poll_phase h p o now go st : seen_status p = Some st -> walk_of h o ->
  walk_of (h ++ [p]) (poll_phase accept o now go st).
Proof.
  intros Hst W0. assert (W : walk_of (h ++ [p]) o) by (by apply walk_more). clear W0. set (g := h ++ [p]) in *.
  assert (HB : out_accepted_calibration (pub_navigation st) = S3_ALL_SENSORS -> built_in g).
  { intros E. unfold built_in, g. apply Exists_app. right. constructor. eauto. }
  assert (Sub : forall (x y : s3_control_request_t) l, In x l -> In x (y :: l)) by (intros; by right).
  unfold walk_of in W. pose proof W as [W1 W2 W3 W4 W5 W6 W7].
  assert (Stay : forall o', op_phase (op o') = op_phase (op o) -> op_step (op o') = op_step (op o) ->
    reset_to_cal (op o') = reset_to_cal (op o) -> (forall x, In x (sent o) -> In x (sent o')) -> walk_of g o')
    by (intros; by eapply walk_stay).
  assert (Go : forall o', op_step (op o') = op_step (op o) -> (forall x, In x (sent o) -> In x (sent o')) ->
    (calibrating (op_phase (op o')) (reset_to_cal (op o')) = true -> op_step (op o) < OP_CAL_STEPS) ->
    (calibrated (op_phase (op o')) (reset_to_cal (op o')) = true -> op_step (op o) = OP_CAL_STEPS \/ built_in g) ->
    op_phase (op o') <> OP_PHASE_CAL_COLLECT -> op_phase (op o') <> OP_PHASE_CAL_APPLY -> walk_of g o').
  { intros o' H1 H2 H3 H4 H5 H6. unfold walk_of. rewrite H1. by eapply walk_rest. }
  unfold poll_phase. destruct (op_phase (op o)) eqn:E; cbn [calibrating calibrated] in W2, W3.
  - destruct (Z.eqb_spec (out_accepted_calibration (pub_navigation st)) S3_ALL_SENSORS) as [Ea | Ea]; apply walk_start; try done. auto.
  - unfold cal_prompt. cbv zeta. destruct (due_frame o now) as (D1 & b & t & D2).
    assert (Due : walk_of g (due o now).2) by (apply Stay; rewrite ?D1, ?D2; done).
    destruct (in_fault st); destruct (pressed go); try exact Due; unfold send; cbv zeta.
    + destruct (accept _); [apply Go | apply Stay]; cbn; rewrite ?D1, ?D2; try done; auto.
    + destruct (accept _); [| apply Stay; cbn; rewrite ?D1, ?D2; try done; auto].
      unfold walk_of. cbn. rewrite D1, D2. cbn. constructor; try done; auto.
      intros _. left. reflexivity.
  - unfold cal_collect. cbv zeta. destruct (awaiting_reply (op o)).
    { destruct (replied _ _) as [[] |]; cbn [negb]; [by apply Stay | by apply Go | case_if; [by apply Go | by apply Stay]]. }
    destruct (_ || _); [case_if; [by apply Go | by apply Stay] |].
    destruct (Z.eqb_spec (op_step (op o) mod 2) 0) as [Em | Em]; cbn [negb].
    + unfold walk_of. cbn. rewrite step_wrap by (specialize (W2 eq_refl); change OP_CAL_STEPS with 6 in *; lia).
      by eapply walk_sampled.
    + unfold send. cbv zeta. destruct (accept _); [| apply Go; cbn; auto].
      unfold walk_of. cbn. pose proof (Z.mod_pos_bound (op_step (op o)) 2 ltac:(lia)).
      constructor; try done; auto.
      intros _. split; [lia | by left].
  - unfold cal_apply. cbv zeta. specialize (W2 eq_refl). change OP_CAL_STEPS with 6 in *.
    destruct (replied _ _) as [[] |]; cbn [negb].
    + cbn. rewrite step_wrap by lia. destruct (Z.leb_spec 6 (op_step (op o) + 1)).
      * unfold walk_of. cbn. apply (walk_applied g _ _ _ W). right. split; [done |]. change OP_CAL_STEPS with 6. lia.
      * unfold walk_of. cbn. apply (walk_applied g _ _ _ W). left. split; [done |]. change OP_CAL_STEPS with 6. lia.
    + unfold walk_of. cbn. pose proof (Z.div_mod (op_step (op o)) 2 ltac:(lia)). pose proof (Z.mod_pos_bound (op_step (op o)) 2 ltac:(lia)).
      rewrite step_wrap by lia. by eapply walk_redo.
    + case_if; [by apply Go | by apply Stay].
  - unfold ready. cbv zeta. destruct (due_frame o now) as (D1 & b & t & D2). destruct (in_fault st && pressed go).
    + unfold send. cbv zeta. destruct (accept _); apply Go; cbn; rewrite ?D1, ?D2; cbn; rewrite ?E; try done; auto.
    + destruct go; [apply Stay; rewrite ?D1, ?D2; done | apply Go; cbn; rewrite ?D1, ?D2; done |].
      apply walk_start; try done.
  - unfold reset_wait, after_reset. assert (R : forall x, x = reset_to_cal (op o) ->
      walk_of g (enter o (if x then OP_PHASE_CAL_PROMPT else OP_PHASE_READY) now)).
    { intros x Ex. rewrite <- Ex in *. destruct x; apply Go; try done; cbn in *; auto. }
    destruct (replied _ _); [by apply R |]. case_if; [by apply R | by apply Stay].
  - unfold countdown. cbv zeta. case_if.
    + unfold send. cbv zeta. destruct (accept _); apply Go; cbn; try done; auto.
    + case_if; by apply Stay.
  - unfold start_wait. destruct (replied _ _) as [[] |]; [by apply Go | by apply Go |]. case_if; [by apply Go | by apply Stay].
  - case_if; [by apply Go | by apply Stay].
Qed.
Lemma walk_after h : walk_of h (desk_after h).
Proof.
  induction h as [| p h IH] using rev_ind; [by apply walk_start |]. rewrite desk_snoc.
  unfold run_poll, operator_step. cbv zeta.
  assert (W1 : walk_of h (poll_stop accept (desk_after h) (at_ms p) (stop_level p))).
  { unfold poll_stop. cbv zeta. destruct (stop_level p); [| exact IH].
    match goal with |- context [negb (stop_handled (op ?x))] => destruct (stop_handled (op x)) end; [exact IH |]. cbn [negb].
    apply walk_stop. destruct (accept _); (eapply walk_stay; [exact IH | done | done | done | intros; by right]). }
  set (o1 := poll_stop _ _ _ _) in *.
  assert (W2 : walk_of h (poll_inhibit o1 (go_press p) (stop_level p) (go_level p)).2).
  { unfold poll_inhibit. case_if; [| exact W1]. by destruct (stop_level p), (go_level p). }
  destruct (poll_inhibit _ _ _ _) as [go o2]. cbn [snd] in W2. destruct (seen_status p) as [st |] eqn:Es.
  - by apply walk_poll_phase.
  - unfold walk_of in *. by apply walk_more.
Qed.

End System.

(** ** Buttons *)
Section Buttons.
(** A sample: the level read and its time. *)
Definition level_run (l : list (bool * Z)) (level : bool) (from upto : Z) : Prop :=
  Forall (fun s => s.1 = level) l /\ (snd <$> head l) = Some from /\ (snd <$> last l) = Some upto.
(** Released for at least 100 ms at some point of the history. *)
Definition released_long (h : list (bool * Z)) : Prop :=
  exists pre seg post from upto, h = pre ++ seg ++ post /\ level_run seg false from upto /\ OP_RELEASE_MS <= elapsed upto from.
(** Then pressed, from time [t], for at least 30 ms. *)
Definition pressed_from (h : list (bool * Z)) (t : Z) : Prop :=
  exists before seg post upto, h = before ++ seg ++ post /\ released_long before /\ level_run seg true t upto /\
    OP_DEBOUNCE_MS <= elapsed upto t.
Definition button_run (b : op_button_t) (s : bool * Z) : op_button_t := (op_button_update b s.1 s.2).2.
Definition button_after (h : list (bool * Z)) : op_button_t := fold_left button_run h op_button_init.

Lemma released_app h h' : released_long h -> released_long (h ++ h').
Proof. intros (pre & seg & post & f & u & -> & R). exists pre, seg, (post ++ h'), f, u. by rewrite <- !app_assoc. Qed.
Lemma pressed_app h h' t : pressed_from h t -> pressed_from (h ++ h') t.
Proof. intros (bf & seg & post & u & -> & R). exists bf, seg, (post ++ h'), u. by rewrite <- !app_assoc. Qed.
Lemma level_run_snoc l level from upto now : level_run l level from upto -> level_run (l ++ [(level, now)]) level from now.
Proof.
  intros (H1 & H2 & H3). split; [apply Forall_app; split; [done | by repeat constructor] |]. split.
  - by destruct l.
  - by rewrite last_snoc.
Qed.
Record button_inv (h : list (bool * Z)) (b : op_button_t) (pre cur : list (bool * Z)) : Prop := {
  bi_split : h = pre ++ cur;
  bi_run : exists upto, level_run cur (b_raw b) (since_ms b) upto;
  bi_armed : armed b = true -> released_long (if b_raw b then pre else h);
  bi_pressed : armed b = true -> stable b = true -> pressed_from (if b_raw b then h else pre) (pressed_ms b)
}.
(** What one sample does to a button that has seen a level. *)
Definition press_evidence (h : list (bool * Z)) (down : bool) (now : Z) (press : op_press_t) : Prop :=
  press <> OP_PRESS_NONE -> down = false /\ exists pre cur t_press t_release, h = pre ++ cur /\ pressed_from pre t_press /\
    level_run cur false t_release now /\ OP_DEBOUNCE_MS <= elapsed now t_release /\
    (press = OP_PRESS_LONG <-> OP_LONG_PRESS_MS <= elapsed t_release t_press).
Lemma button_step h b pre cur down now : seen b = true -> button_inv h b pre cur ->
  let '(press, _, b') := op_button_update b down now in
  seen b' = true /\ press_evidence (h ++ [(down, now)]) down now press /\ exists pre' cur', button_inv (h ++ [(down, now)]) b' pre' cur'.
Proof.
  intros Hs [Hh (upto & Hr) Ha Hp]. unfold op_button_update. rewrite Hs. cbn [negb orb].
  destruct (eqb down (b_raw b)) eqn:Ed; cbn [negb].
  2: { split; [done |]. split; [done |]. exists h, [(down, now)]. apply eqb_false_iff in Ed.
    constructor; [done | exists now; split; [by repeat constructor | done] | |]; cbn.
    - intros H. specialize (Ha H). revert Ha Ed. destruct down, (b_raw b); try done. intros Ha _. rewrite Hh. by apply released_app, released_app.
    - intros H1 H2. specialize (Hp H1 H2). revert Hp Ed. destruct down, (b_raw b); try done.
      intros Hp _. rewrite Hh, <- app_assoc. by apply pressed_app. }
  apply eqb_prop in Ed. subst down.
  assert (Hr' : level_run (cur ++ [(b_raw b, now)]) (b_raw b) (since_ms b) now) by (by eapply level_run_snoc).
  assert (Hh' : h ++ [(b_raw b, now)] = pre ++ cur ++ [(b_raw b, now)]) by (by rewrite Hh, app_assoc).
  set (r := if negb (eqb (b_raw b) (stable b)) && _ then button_settle b else (OP_PRESS_NONE, false, b)).
  assert (R : seen r.2 = true /\ b_raw r.2 = b_raw b /\ since_ms r.2 = since_ms b /\ armed r.2 = armed b /\
    press_evidence (h ++ [(b_raw b, now)]) (b_raw b) now r.1.1 /\ (armed b = true -> stable r.2 = true ->
      pressed_from (if b_raw b then h ++ [(b_raw b, now)] else pre) (pressed_ms r.2))).
  { assert (Keep : armed b = true -> stable b = true -> pressed_from (if b_raw b then h ++ [(b_raw b, now)] else pre) (pressed_ms b)).
    { intros H1 H2. specialize (Hp H1 H2). destruct (b_raw b); [by apply pressed_app | done]. }
    subst r. destruct (_ && _) eqn:Es; [| by splits].
    apply andb_true_iff in Es as [Es1 Es2]. apply Z.leb_le in Es2. unfold button_settle. cbn.
    destruct (b_raw b) eqn:Eb; cbn.
    - splits; try done. intros H _. specialize (Ha H). cbn in Ha.
      exists pre, (cur ++ [(true, now)]), [], now. rewrite app_nil_r. by splits.
    - destruct (armed b) eqn:Em; cbn; splits; try done. intros Hn. split; [done |].
      exists pre, (cur ++ [(false, now)]), (pressed_ms b), (since_ms b). specialize (Hp eq_refl). cbn in Hp.
      assert (stable b = true) as Est by (by destruct (stable b)). splits; try done; [auto |].
      destruct (Z.leb_spec OP_LONG_PRESS_MS (elapsed (since_ms b) (pressed_ms b))); split; done || lia. }
  destruct r as [[press edge] b1]. cbn [fst snd] in R. destruct R as (R1 & R2 & R3 & R4 & R5 & R6).
  destruct (_ && _) eqn:Ea.
  - apply andb_true_iff in Ea as [Ea Ew]. apply Z.leb_le in Ew. undecide. split; [done |]. split; [done |].
    exists pre, (cur ++ [(b_raw b, now)]). rewrite R2 in *. rewrite R3 in *.
    assert (b_raw b = false) as Eb by done. rewrite Eb in *. constructor; cbn; rewrite ?R2, ?R3; try done; [eauto | |].
    + intros _. exists pre, (cur ++ [(false, now)]), [], (since_ms b), now. rewrite app_nil_r. by splits.
    + congruence.
  - split; [done |]. split; [done |]. exists pre, (cur ++ [(b_raw b, now)]). constructor; rewrite ?R2, ?R3, ?R4; try done; [eauto |].
    intros H. specialize (Ha H). destruct (b_raw b); [done | by apply released_app].
Qed.
Lemma button_evidence h down now : let '(press, _, b') := op_button_update (button_after h) down now in
  seen b' = true /\ press_evidence (h ++ [(down, now)]) down now press /\
  exists pre' cur', button_inv (h ++ [(down, now)]) b' pre' cur'.
Proof.
  revert down now. induction h as [| [d t] h IH] using rev_ind; intros down now.
  - unfold button_after, op_button_update. cbn. split; [done |]. split; [done |]. exists [], [(down, now)].
    constructor; cbn; try done. exists now. split; [by repeat constructor | done].
  - unfold button_after. rewrite fold_left_app. fold (button_after h). cbn [fold_left]. unfold button_run. cbn [fst snd].
    specialize (IH d t). destruct (op_button_update (button_after h) d t) as [[press edge] b]. cbn [snd].
    destruct IH as (S & _ & pre & cur & I). by apply (button_step _ b pre cur).
Qed.
End Buttons.

(** ** Waits *)
Definition reply_wait (o : operator_t) : bool :=
  match op_phase o with
  | OP_PHASE_CAL_APPLY | OP_PHASE_RESET | OP_PHASE_START => true | OP_PHASE_CAL_COLLECT => awaiting_reply o | _ => false
  end.
Definition timed_wait (o : operator_t) : bool :=
  match op_phase o with OP_PHASE_CAL_COLLECT => negb (awaiting_reply o) | OP_PHASE_COUNTDOWN => true | _ => false end.
Lemma phase_waits accept o now go st : let o' := poll_phase accept o now go st in
  (reply_wait (op o) = true -> OP_REPLY_TIMEOUT_MS <= elapsed now (phase_ms (op o)) ->
     op_phase (op o') <> op_phase (op o) \/ awaiting_reply (op o') = false) /\
  (timed_wait (op o) = true -> OP_COLLECT_TIMEOUT_MS <= elapsed now (phase_ms (op o)) -> op_phase (op o') <> op_phase (op o)) /\
  (reply_wait (op o) || timed_wait (op o) = true -> op_phase (op o') = op_phase (op o) -> phase_ms (op o') = phase_ms (op o)).
Proof.
  cbv zeta. unfold reply_wait, timed_wait, poll_phase. destruct (op_phase (op o)) eqn:E; try done.
  - unfold cal_collect. cbv zeta. destruct (awaiting_reply (op o)) eqn:Ew; cbn [negb orb]; splits; try done.
    + intros _ Ht. destruct (replied (op o) st) as [[] |]; cbn [negb]; [by right | by left |].
      rewrite (proj2 (Z.leb_le _ _) Ht). by left.
    + intros _. destruct (replied (op o) st) as [[] |]; cbn [negb]; try done. by case_if.
    + intros _ Ht. destruct (_ || _); [by rewrite (proj2 (Z.leb_le _ _) Ht) |]. destruct (negb (negb _)); [done |].
      unfold send. cbv zeta. by destruct (accept _).
    + intros _. destruct (_ || _); [by case_if |]. destruct (negb (negb _)); [done |]. unfold send. cbv zeta. by destruct (accept _).
  - unfold cal_apply. cbv zeta. cbn [orb]. splits; try done.
    + intros _ Ht. left. destruct (replied (op o) st) as [[] |]; cbn [negb]; try done; [by case_if |].
      by rewrite (proj2 (Z.leb_le _ _) Ht).
    + intros _. destruct (replied (op o) st) as [[] |]; cbn [negb]; try done; by case_if.
  - unfold reset_wait, after_reset. cbn [orb]. splits; try done.
    + intros _ Ht. left. rewrite (proj2 (Z.leb_le _ _) Ht). destruct (replied (op o) st), (reset_to_cal (op o)); done.
    + intros _. destruct (replied (op o) st); [by destruct (reset_to_cal (op o)) |]. case_if; [by destruct (reset_to_cal (op o)) | done].
  - unfold countdown. cbv zeta. cbn [orb]. splits; try done.
    + intros _ Ht. change OP_COLLECT_TIMEOUT_MS with OP_COUNTDOWN_MS in Ht. rewrite (proj2 (Z.leb_le _ _) Ht).
      unfold send. cbv zeta. by destruct (accept _).
    + intros _. case_if; [unfold send; cbv zeta; by destruct (accept _) | by case_if].
  - unfold start_wait. cbn [orb]. splits; try done.
    + intros _ Ht. left. rewrite (proj2 (Z.leb_le _ _) Ht). by destruct (replied (op o) st) as [[] |].
    + intros _. destruct (replied (op o) st) as [[] |]; try done. by case_if.
Qed.

(** ** The guarantees *)

(** C29: starting.  Whatever the buttons, the clock, the statuses and the replies
    have been, a poll submits a START only if the stop button is not held in it
    and, at least three seconds earlier, a short GP20 press was taken in READY -
    no fault shown, neither button inhibited, stop not held - and the stop button
    was not held in any poll since. *)
Theorem operator_start_authorised accept h p new :
  sent (desk_after accept (h ++ [p])) = new ++ sent (desk_after accept h) ->
  Exists (fun r => req_kind r = S3_CONTROL_START) new ->
  stop_level p = false /\ exists before q after, h = before ++ q :: after /\
    start_press (desk_after accept before) q /\ Forall (fun r => stop_level r = false) after /\
    OP_COUNTDOWN_MS <= elapsed (at_ms p) (at_ms q).
Proof.
  intros E H. rewrite desk_snoc in E. destruct (start_origin accept h p) as [S (q & (bf & af & A) & T)].
  - rewrite E, length_app, Nat.add_sub. by rewrite take_app_length.
  - split; [done |]. exists bf, q, af. tauto.
Qed.

(** C30: stopping.  While the stop button is held, the only request submitted is
    STOP: one in every poll until one is accepted, none after that for the rest of
    the hold; and after the first poll no countdown, start, reset or sampling is
    under way, and GP20 is inhibited. *)
Theorem operator_stop_exclusive accept h p : stop_level p = true ->
  let o := desk_after accept h in let o' := desk_after accept (h ++ [p]) in
  sent o' = (if stop_handled (op o) then [] else [request S3_CONTROL_STOP 0]) ++ sent o /\
  stop_handled (op o') = stop_handled (op o) || accept (request S3_CONTROL_STOP 0 :: sent o) /\
  resting (op_phase (op o')) = true /\ inhibit (op o') = true.
Proof.
  intros Hs. cbv zeta. rewrite desk_snoc. destruct (held_poll accept (desk_after accept h) p Hs) as (A1 & A2 & A3 & A4); [| done].
  pose proof (stop_inv_after accept h) as SI. destruct (stop_handled (op (desk_after accept h))) eqn:E; [left; by apply SI | by right].
Qed.

(** The calibration walkthrough.  The step stays within its six values, below
    six whenever a sensor is being prompted for, sampled or applied - so the
    sensor table is never read out of range; READY and everything after it is
    reached only with all six steps done or on a status that already had every
    sensor calibrated; and each completed step has been asked for: sampling
    requests in the order white, black for left, right, barcode, and each pair's
    APPLY. *)
Theorem operator_walkthrough accept h : let o := desk_after accept h in
  0 <= op_step (op o) <= OP_CAL_STEPS /\
  (calibrating (op_phase (op o)) (reset_to_cal (op o)) = true -> op_step (op o) / 2 < Z.of_nat (length k_order)) /\
  (calibrated (op_phase (op o)) (reset_to_cal (op o)) = true -> op_step (op o) = OP_CAL_STEPS \/ built_in h) /\
  (forall k, 0 <= k < op_step (op o) -> In (surface_request k) (sent o)) /\
  (forall k, 0 <= k -> 2 * k + 2 <= op_step (op o) -> In (apply_request k) (sent o)).
Proof.
  cbv zeta. destruct (walk_after accept h) as [W1 W2 W3 W4 W5 _ _]. splits; try done; try apply W1.
  intros H. specialize (W2 H). change OP_CAL_STEPS with 6 in *. change (Z.of_nat (length k_order)) with 3.
  apply Z.div_lt_upper_bound; lia.
Qed.

(** Button presses are real.  Whatever levels were sampled when, a press is
    reported only on a sample that reads released, after the button had been
    released for at least 100 ms, then pressed for at least 30 ms, and then
    released for at least 30 ms up to now; it is long exactly when the time from
    the start of the press to the start of the release is at least two seconds. *)
Theorem op_button_genuine h down now :
  press_evidence (h ++ [(down, now)]) down now (op_button_update (button_after h) down now).1.1.
Proof.
  pose proof (button_evidence h down now) as H. destruct (op_button_update _ down now) as [[press edge] b]. apply H.
Qed.

(** No wait is endless.  Given a status and the stop button released, a poll
    one second into waiting for a reply ends the wait, one three seconds into
    sampling or the countdown ends that phase, and no other poll moves the clock
    of the wait. *)
Theorem operator_waits_end accept o now go g st : let o' := operator_step accept o now go false g (Some st) in
  (reply_wait (op o) = true -> OP_REPLY_TIMEOUT_MS <= elapsed now (phase_ms (op o)) ->
     op_phase (op o') <> op_phase (op o) \/ awaiting_reply (op o') = false) /\
  (timed_wait (op o) = true -> OP_COLLECT_TIMEOUT_MS <= elapsed now (phase_ms (op o)) -> op_phase (op o') <> op_phase (op o)) /\
  (reply_wait (op o) || timed_wait (op o) = true -> op_phase (op o') = op_phase (op o) -> phase_ms (op o') = phase_ms (op o)).
Proof.
  cbv zeta. unfold operator_step. cbv zeta.
  destruct (released_frame accept o now go g) as (F1 & F2 & _).
  assert (F3 : awaiting_reply (op (poll_inhibit (poll_stop accept o now false) go false g).2) = awaiting_reply (op o)).
  { unfold poll_inhibit. case_if; [by destruct g | done]. }
  destruct (poll_inhibit _ go false g) as [go' o2]. cbn [fst snd] in *.
  pose proof (phase_waits accept o2 now go' st) as W. cbv zeta in W. unfold reply_wait, timed_wait in *.
  rewrite F1, F2, F3 in W. exact W.
Qed.

(** ** Witnesses: a desk that is ready at once, starts and is stopped *)
Definition desk_status (seq : Z) (state : s3_drive_state_t) : s3_integration_status_t :=
  bench_status <| pub_navigation := zero_output <| out_accepted_calibration := S3_ALL_SENSORS |> |> <| pub_state := state |>
    <| command_sequence := seq |>.
Definition quiet_poll (t : Z) : poll :=
  {| at_ms := t; go_press := OP_PRESS_NONE; stop_level := false; go_level := false; seen_status := Some (desk_status 1 S3_DRIVE_OFF) |}.
Definition bench_polls : list poll :=
  [quiet_poll 10; {| at_ms := 20; go_press := OP_PRESS_SHORT; stop_level := false; go_level := false;
                     seen_status := Some (desk_status 1 S3_DRIVE_OFF) |}; quiet_poll 1500].
Definition accept_all : list s3_control_request_t -> bool := fun _ => true.
Lemma operator_start_authorised_witness :
  sent (desk_after accept_all (bench_polls ++ [quiet_poll 3020])) = [request S3_CONTROL_START S3_SENSOR_BARCODE] ++ [] /\
  exists before q after, bench_polls = before ++ q :: after /\ start_press (desk_after accept_all before) q /\
    Forall (fun r => stop_level r = false) after /\ OP_COUNTDOWN_MS <= elapsed 3020 (at_ms q).
Proof.
  split; [vm_compute; reflexivity |].
  refine (proj2 (operator_start_authorised accept_all bench_polls (quiet_poll 3020)
    [request S3_CONTROL_START S3_SENSOR_BARCODE] _ _)).
  - vm_compute. reflexivity.
  - constructor. reflexivity.
Defined.
Definition stop_poll (t : Z) : poll :=
  {| at_ms := t; go_press := OP_PRESS_NONE; stop_level := true; go_level := false; seen_status := Some (desk_status 1 S3_DRIVE_OFF) |}.
Lemma operator_stop_exclusive_witness :
  op_phase (op (desk_after accept_all bench_polls)) = OP_PHASE_COUNTDOWN /\
  sent (desk_after accept_all (bench_polls ++ [stop_poll 1600])) = [request S3_CONTROL_STOP 0] /\
  resting (op_phase (op (desk_after accept_all (bench_polls ++ [stop_poll 1600])))) = true.
Proof.
  split; [vm_compute; reflexivity |].
  destruct (operator_stop_exclusive accept_all bench_polls (stop_poll 1600) eq_refl) as (H1 & _ & H2 & _).
  split; [rewrite H1; vm_compute; reflexivity | exact H2].
Defined.
