(* ===== verification/Telemetry.v ===== *)
(** * Telemetry packets

    Models [subsystem1/telemetry_codec.{c,h}]: the packets of each MQTT topic, the
    102-bit snapshot, the status heartbeat and the four-letter barcode map.  A
    packet is a version byte followed by the body, whose bits the file's own [put]
    and [get] number from the least significant bit of byte 1 (the loops of
    [BitCodec]).  Flags the code keeps in bytes and tests against zero are
    booleans; the enumerations, whose ranges the code checks, are integers. *)
From S2P Require Import Prelude BitCodec.

Definition BUDDY1_WIRE_VERSION : Z := 3.
Definition BUDDY1_HUMP_HEIGHT_MAX_MM : Z := 500.
Definition BUDDY1_OBSTACLE_MIN_MM : Z := 30.
Definition BUDDY1_OBSTACLE_MAX_MM : Z := 4000.
Definition BUDDY1_OBSTACLE_WIDTH_MAX_MM : Z := 4095.
Definition BUDDY1_MAP_BYTES : nat := 4.
Definition BUDDY1_SPEED_MAX_MMS : Z := 510.
Definition BUDDY1_FAULT_MASK : Z := 0x3f.
Definition BUDDY1_POSE_DISTANCE_MOD : Z := 4096.
Definition BUDDY1_TILT_LIMIT_X10 : Z := 900.
Definition BUDDY1_TERRAIN_STATES : Z := 8.
Definition BUDDY1_ACTION_UNKNOWN : Z := 0.
Definition BUDDY1_ACTION_FORWARD : Z := 1.
Definition BUDDY1_ACTION_LEFT : Z := 2.
Definition BUDDY1_ACTION_RIGHT : Z := 3.
Definition BUDDY1_ACTION_UTURN : Z := 4.
Definition BUDDY1_ROUTE_RIGHT : Z := 2.
Definition BUDDY1_STATE_STOPPED : Z := 1.
Definition BUDDY1_STATE_ERROR : Z := 8.
Definition BUDDY1_REPLY_OK : Z := 0.
Definition BUDDY1_REPLY_INVALID : Z := 1.
Definition BUDDY1_REPLY_BUSY : Z := 2.
Definition BUDDY1_REPLY_INTERNAL : Z := 3.
Definition LETTER_A : Z := 65.
Definition LETTER_Z : Z := 90.

Inductive topic_t :=
  TOPIC_MOTION | TOPIC_BARCODE | TOPIC_HUMP | TOPIC_HEADING | TOPIC_OBSTACLE | TOPIC_STATE | TOPIC_FAULTS |
  TOPIC_SNAPSHOT | TOPIC_MAP_REPLY | TOPIC_STATUS | TOPIC_POSE | TOPIC_TERRAIN.
#[export] Instance topic_eq_dec : EqDecision topic_t.
Proof. solve_decision. Defined.
(** The topics in the order of their codes. *)
Definition topics : list topic_t :=
  [TOPIC_MOTION; TOPIC_BARCODE; TOPIC_HUMP; TOPIC_HEADING; TOPIC_OBSTACLE; TOPIC_STATE; TOPIC_FAULTS;
   TOPIC_SNAPSHOT; TOPIC_MAP_REPLY; TOPIC_STATUS; TOPIC_POSE; TOPIC_TERRAIN].
Definition topic_of (topic : Z) : option topic_t := if topic <? 0 then None else topics !! Z.to_nat topic.
(** [for (i = 0; i <= BUDDY1_TOPIC_FAULTS; ++i)]: the sections of a snapshot. *)
Definition sections : list topic_t :=
  [TOPIC_MOTION; TOPIC_BARCODE; TOPIC_HUMP; TOPIC_HEADING; TOPIC_OBSTACLE; TOPIC_STATE; TOPIC_FAULTS].
Definition body_bits (t : topic_t) : nat :=
  match t with
  | TOPIC_MOTION => 18 | TOPIC_BARCODE => 8 | TOPIC_HUMP => 25 | TOPIC_HEADING => 9 | TOPIC_OBSTACLE => 26
  | TOPIC_STATE => 3 | TOPIC_FAULTS => 6 | TOPIC_SNAPSHOT => 102 | TOPIC_MAP_REPLY => 2 | TOPIC_STATUS => 8
  | TOPIC_POSE => 21 | TOPIC_TERRAIN => 46
  end.
(** The bytes of the body. *)
Definition body_size (t : topic_t) : nat := (body_bits t + 7) / 8.
Definition buddy1_payload_size (topic : Z) : nat :=
  match topic_of topic with Some t => 1 + body_size t | None => 0 end.
Definition buddy1_payload_bits (topic : Z) : nat :=
  match topic_of topic with Some t => body_bits t | None => 0 end.

Record BUDDY1_TERRAIN := {
  tilt_valid : bool; pitch_x10 : Z; roll_x10 : Z; terr_state : Z; on_hump : bool; climb_mm : Z; peak_valid : bool;
  peak_mm : Z
}.
Record BUDDY1_SNAPSHOT := {
  motion_valid : bool; left_mms : Z; right_mms : Z;
  barcode_valid : bool; barcode_letter : Z; barcode_action : Z;
  hump_valid : bool; hump_count : Z; hump_height_mm : Z;
  heading_valid : bool; heading_deg : Z;
  obstacle_valid : bool; obstacle_distance_mm : Z; obstacle_width_mm : Z; obstacle_route : Z;
  robot_state_valid : bool; robot_state : Z;
  faults_valid : bool; faults : Z;
  pose_valid : bool; pose_distance_cm : Z; pose_heading_deg : Z;
  terrain_valid : bool; terrain : BUDDY1_TERRAIN
}.
#[export] Instance snapshot_settable : Settable BUDDY1_SNAPSHOT := fun r =>
  Build_BUDDY1_SNAPSHOT (motion_valid r) (left_mms r) (right_mms r) (barcode_valid r) (barcode_letter r)
    (barcode_action r) (hump_valid r) (hump_count r) (hump_height_mm r) (heading_valid r) (heading_deg r)
    (obstacle_valid r) (obstacle_distance_mm r) (obstacle_width_mm r) (obstacle_route r) (robot_state_valid r)
    (robot_state r) (faults_valid r) (faults r) (pose_valid r) (pose_distance_cm r) (pose_heading_deg r)
    (terrain_valid r) (terrain r).
Definition zero_terrain : BUDDY1_TERRAIN :=
  {| tilt_valid := false; pitch_x10 := 0; roll_x10 := 0; terr_state := 0; on_hump := false; climb_mm := 0;
     peak_valid := false; peak_mm := 0 |}.
Definition zero_snapshot : BUDDY1_SNAPSHOT :=
  {| motion_valid := false; left_mms := 0; right_mms := 0; barcode_valid := false; barcode_letter := 0;
     barcode_action := 0; hump_valid := false; hump_count := 0; hump_height_mm := 0; heading_valid := false;
     heading_deg := 0; obstacle_valid := false; obstacle_distance_mm := 0; obstacle_width_mm := 0;
     obstacle_route := 0; robot_state_valid := false; robot_state := 0; faults_valid := false; faults := 0;
     pose_valid := false; pose_distance_cm := 0; pose_heading_deg := 0; terrain_valid := false;
     terrain := zero_terrain |}.

(** [validity]: whether the section is present, one flag per section. *)
Definition section_valid (t : topic_t) (v : BUDDY1_SNAPSHOT) : bool :=
  match t with
  | TOPIC_MOTION => motion_valid v | TOPIC_BARCODE => barcode_valid v | TOPIC_HUMP => hump_valid v
  | TOPIC_HEADING => heading_valid v | TOPIC_OBSTACLE => obstacle_valid v | TOPIC_STATE => robot_state_valid v
  | TOPIC_FAULTS => faults_valid v | _ => false
  end.
Definition validity (v : BUDDY1_SNAPSHOT) : Z :=
  Z.lor (b2z (motion_valid v)) (Z.lor (Z.shiftl (b2z (barcode_valid v)) 1) (Z.lor (Z.shiftl (b2z (hump_valid v)) 2)
    (Z.lor (Z.shiftl (b2z (heading_valid v)) 3) (Z.lor (Z.shiftl (b2z (obstacle_valid v)) 4)
      (Z.lor (Z.shiftl (b2z (robot_state_valid v)) 5) (Z.shiftl (b2z (faults_valid v)) 6)))))).

(** ** Writing *)
Definition outside (lo x hi : Z) : bool := (x <? lo) || (hi <? x).
(** A speed: magnitude in steps of 2 mm/s and sign. *)
Definition speed_fields (mms : Z) : list field :=
  [(((if mms <? 0 then - mms else mms) + 1) / 2, 8%nat); (b2z (mms <? 0), 1%nat)].
Definition terrain_rejected (t : BUDDY1_TERRAIN) : bool :=
  (BUDDY1_TERRAIN_STATES <=? terr_state t) || (BUDDY1_HUMP_HEIGHT_MAX_MM <? climb_mm t) ||
  (BUDDY1_HUMP_HEIGHT_MAX_MM <? peak_mm t) ||
  (if tilt_valid t then outside (- BUDDY1_TILT_LIMIT_X10) (pitch_x10 t) BUDDY1_TILT_LIMIT_X10 ||
                        outside (- BUDDY1_TILT_LIMIT_X10) (roll_x10 t) BUDDY1_TILT_LIMIT_X10
   else negb (pitch_x10 t =? 0) || negb (roll_x10 t =? 0)) ||
  (negb (on_hump t) && negb (climb_mm t =? 0)) || (negb (peak_valid t) && negb (peak_mm t =? 0)).
Definition terrain_fields (t : BUDDY1_TERRAIN) : list field :=
  [(b2z (tilt_valid t), 1%nat); (Z.land (u32 (pitch_x10 t)) 0x7ff, 11%nat); (Z.land (u32 (roll_x10 t)) 0x7ff, 11%nat);
   (terr_state t, 3%nat); (b2z (on_hump t), 1%nat); (climb_mm t, 9%nat); (b2z (peak_valid t), 1%nat); (peak_mm t, 9%nat)].
(** The fields put; [None]: the value is out of the topic's range. *)
Definition write_fields (t : topic_t) (v : BUDDY1_SNAPSHOT) : option (list field) :=
  match t with
  | TOPIC_MOTION =>
      if outside (- BUDDY1_SPEED_MAX_MMS) (left_mms v) BUDDY1_SPEED_MAX_MMS ||
         outside (- BUDDY1_SPEED_MAX_MMS) (right_mms v) BUDDY1_SPEED_MAX_MMS then None
      else Some (speed_fields (left_mms v) ++ speed_fields (right_mms v))
  | TOPIC_BARCODE =>
      if outside LETTER_A (barcode_letter v) LETTER_Z ||
         outside BUDDY1_ACTION_UNKNOWN (barcode_action v) BUDDY1_ACTION_UTURN then None
      else Some [(barcode_letter v - LETTER_A, 5%nat); (barcode_action v, 3%nat)]
  | TOPIC_HUMP =>
      if BUDDY1_HUMP_HEIGHT_MAX_MM <? hump_height_mm v then None
      else Some [(hump_count v, 16%nat); (hump_height_mm v, 9%nat)]
  | TOPIC_HEADING =>
      if outside 0 (heading_deg v) 359 then None else Some [(heading_deg v, 9%nat)]
  | TOPIC_OBSTACLE =>
      if outside BUDDY1_OBSTACLE_MIN_MM (obstacle_distance_mm v) BUDDY1_OBSTACLE_MAX_MM ||
         (BUDDY1_OBSTACLE_WIDTH_MAX_MM <? obstacle_width_mm v) || outside 0 (obstacle_route v) BUDDY1_ROUTE_RIGHT
      then None
      else Some [(obstacle_distance_mm v, 12%nat); (obstacle_width_mm v, 12%nat); (obstacle_route v, 2%nat)]
  | TOPIC_STATE =>
      if outside BUDDY1_STATE_STOPPED (robot_state v) BUDDY1_STATE_ERROR then None
      else Some [(robot_state v - BUDDY1_STATE_STOPPED, 3%nat)]
  | TOPIC_FAULTS =>
      if negb (Z.land (faults v) (u32 (Z.lnot BUDDY1_FAULT_MASK)) =? 0) then None else Some [(faults v, 6%nat)]
  | TOPIC_POSE =>
      if (BUDDY1_POSE_DISTANCE_MOD <=? pose_distance_cm v) || outside 0 (pose_heading_deg v) 359 then None
      else Some [(pose_distance_cm v, 12%nat); (pose_heading_deg v, 9%nat)]
  | TOPIC_TERRAIN => if terrain_rejected (terrain v) then None else Some (terrain_fields (terrain v))
  | TOPIC_SNAPSHOT | TOPIC_MAP_REPLY | TOPIC_STATUS => None
  end.
(** The sections of a snapshot: an absent one is zero bits. *)
Fixpoint write_sections (l : list topic_t) (v : BUDDY1_SNAPSHOT) : option (list field) :=
  match l with
  | [] => Some []
  | t :: l =>
      match (if section_valid t v then write_fields t v else Some [(0, body_bits t)]), write_sections l v with
      | Some fs, Some rest => Some (fs ++ rest)
      | _, _ => None
      end
  end.
Definition write_body (t : topic_t) (v : BUDDY1_SNAPSHOT) : option (list field) :=
  match t with
  | TOPIC_MAP_REPLY => None
  | TOPIC_SNAPSHOT =>
      match write_sections sections v with Some fs => Some ((validity v, 7%nat) :: fs) | None => None end
  | TOPIC_STATUS =>
      if faults_valid v && negb (Z.land (faults v) (u32 (Z.lnot BUDDY1_FAULT_MASK)) =? 0) then None
      else Some [(1, 1%nat); (b2z (faults_valid v), 1%nat); (if faults_valid v then faults v else 0, 6%nat)]
  | _ => write_fields t v
  end.
(** [None]: the code returns length zero. *)
Definition buddy1_encode (topic : Z) (v : BUDDY1_SNAPSHOT) (capacity : Z) : option bytes :=
  match topic_of topic with
  | None => None
  | Some t =>
      if capacity <? Z.of_nat (buddy1_payload_size topic) then None
      else match write_body t v with
           | Some fs => Some (BUDDY1_WIRE_VERSION :: pack (body_size t) fs)
           | None => None
           end
  end.

(** ** Reading *)
(** Magnitude and sign; there is no negative zero. *)
Definition read_speed : reader Z :=
  mag ← get 8; negative ← get 1;
  _ ← require (negb ((mag =? 0) && negb (negative =? 0)));
  mret (i16 (i32 (u32 (mag * 2)) * (if negb (negative =? 0) then -1 else 1))).
(** Two's complement in 11 bits. *)
Definition signed_tilt (x : Z) : Z := i16 (if negb (Z.land x 0x400 =? 0) then x - 0x800 else x).
Definition terrain_readable (t : BUDDY1_TERRAIN) : bool :=
  negb ((BUDDY1_HUMP_HEIGHT_MAX_MM <? climb_mm t) || (BUDDY1_HUMP_HEIGHT_MAX_MM <? peak_mm t) ||
        (negb (on_hump t) && negb (climb_mm t =? 0)) || (negb (peak_valid t) && negb (peak_mm t =? 0))) &&
  (if tilt_valid t then negb (outside (- BUDDY1_TILT_LIMIT_X10) (pitch_x10 t) BUDDY1_TILT_LIMIT_X10) &&
                        negb (outside (- BUDDY1_TILT_LIMIT_X10) (roll_x10 t) BUDDY1_TILT_LIMIT_X10)
   else (pitch_x10 t =? 0) && (roll_x10 t =? 0)).
Definition read_terrain : reader BUDDY1_TERRAIN :=
  tv ← get_flag; pitch ← get 11; roll ← get 11; s ← get 3; oh ← get_flag; cm ← get 9; pv ← get_flag; pm ← get 9;
  let t := {| tilt_valid := tv; pitch_x10 := signed_tilt pitch; roll_x10 := signed_tilt roll; terr_state := s;
              on_hump := oh; climb_mm := cm; peak_valid := pv; peak_mm := pm |} in
  _ ← require (terrain_readable t);
  mret t.
Definition read_fields (t : topic_t) (v : BUDDY1_SNAPSHOT) : reader BUDDY1_SNAPSHOT :=
  match t with
  | TOPIC_MOTION =>
      l ← read_speed; r ← read_speed;
      mret (v <| left_mms := l |> <| right_mms := r |> <| motion_valid := true |>)
  | TOPIC_BARCODE =>
      l ← get 5; a ← get 3;
      _ ← require ((u8 (LETTER_A + l) <=? LETTER_Z) && (a <=? BUDDY1_ACTION_UTURN));
      mret (v <| barcode_letter := u8 (LETTER_A + l) |> <| barcode_action := a |> <| barcode_valid := true |>)
  | TOPIC_HUMP =>
      n ← get 16; h ← get 9;
      _ ← require (h <=? BUDDY1_HUMP_HEIGHT_MAX_MM);
      mret (v <| hump_count := n |> <| hump_height_mm := h |> <| hump_valid := true |>)
  | TOPIC_HEADING =>
      d ← get 9; _ ← require (i16 d <=? 359);
      mret (v <| heading_deg := i16 d |> <| heading_valid := true |>)
  | TOPIC_OBSTACLE =>
      d ← get 12; w ← get 12; r ← get 2;
      _ ← require ((BUDDY1_OBSTACLE_MIN_MM <=? d) && (d <=? BUDDY1_OBSTACLE_MAX_MM) && (r <=? BUDDY1_ROUTE_RIGHT));
      mret (v <| obstacle_distance_mm := d |> <| obstacle_width_mm := w |> <| obstacle_route := r |>
              <| obstacle_valid := true |>)
  | TOPIC_STATE =>
      s ← get 3; mret (v <| robot_state := s + BUDDY1_STATE_STOPPED |> <| robot_state_valid := true |>)
  | TOPIC_FAULTS => f ← get 6; mret (v <| faults := f |> <| faults_valid := true |>)
  | TOPIC_POSE =>
      d ← get 12; h ← get 9; _ ← require (i16 h <=? 359);
      mret (v <| pose_distance_cm := d |> <| pose_heading_deg := i16 h |> <| pose_valid := true |>)
  | TOPIC_TERRAIN => t ← read_terrain; mret (v <| terrain := t |> <| terrain_valid := true |>)
  | TOPIC_SNAPSHOT | TOPIC_MAP_REPLY | TOPIC_STATUS => reject
  end.
(** [for (n = 0; n < body_bits[i]; ++n) if (get(packet + 1, &bit, 1) != 0U) return 0;] *)
Fixpoint skip_zero (n : nat) : reader unit :=
  match n with O => mret tt | S n => z ← get 1; _ ← require (z =? 0); skip_zero n end.
Fixpoint read_sections (l : list topic_t) (flags i : Z) (v : BUDDY1_SNAPSHOT) : reader BUDDY1_SNAPSHOT :=
  match l with
  | [] => mret v
  | t :: l =>
      if negb (Z.land flags (Z.shiftl 1 i) =? 0)
      then v ← read_fields t v; read_sections l flags (i + 1) v
      else _ ← skip_zero (body_bits t); read_sections l flags (i + 1) v
  end.
Definition read_body (t : topic_t) : reader BUDDY1_SNAPSHOT :=
  match t with
  | TOPIC_MAP_REPLY => reject
  | TOPIC_SNAPSHOT => flags ← get 7; read_sections sections flags 0 zero_snapshot
  | TOPIC_STATUS =>
      alive ← get 1; _ ← require (alive =? 1); ok ← get_flag; f ← get 6;
      _ ← require (negb (negb ok && negb (f =? 0)));
      mret (zero_snapshot <| faults_valid := ok |> <| faults := f |>)
  | _ => read_fields t zero_snapshot
  end.
Definition buddy1_decode (topic : Z) (packet : bytes) : option BUDDY1_SNAPSHOT :=
  match topic_of topic with
  | None => None
  | Some t =>
      if negb (length packet =? buddy1_payload_size topic)%nat || negb (nthZ 0 packet 0 =? BUDDY1_WIRE_VERSION)
      then None
      else
        let remainder := Z.of_nat (body_bits t) mod 8 in
        if negb (remainder =? 0) && negb (Z.shiftr (nthZ 0 packet (Z.of_nat (length packet) - 1)) remainder =? 0)
        then None
        else run (read_body t) (tail packet)
  end.
Definition buddy1_payload_valid (topic : Z) (packet : bytes) : bool :=
  match topic_of topic with
  | Some TOPIC_MAP_REPLY =>
      (length packet =? 2)%nat && (nthZ 0 packet 0 =? BUDDY1_WIRE_VERSION) && (nthZ 0 packet 1 <=? BUDDY1_REPLY_INTERNAL)
  | _ => bool_decide (is_Some (buddy1_decode topic packet))
  end.

(** ** The barcode map *)
Record BUDDY1_BARCODE_MAP := { forward : Z; left : Z; right : Z; uturn : Z }.
Definition map_letters (m : BUDDY1_BARCODE_MAP) : list Z := [forward m; left m; right m; uturn m].
Definition buddy1_map_pack (m : BUDDY1_BARCODE_MAP) : option bytes :=
  let letters := map_letters m in
  if existsb (fun i => outside LETTER_A (nthZ 0 letters i) LETTER_Z ||
                existsb (fun j => nthZ 0 letters i =? nthZ 0 letters j) (range (Z.to_nat i))) (range 4)
  then None
  else Some (BUDDY1_WIRE_VERSION :: pack 3 (map (fun l => (l - LETTER_A, 5%nat)) letters)).
Definition read_map : reader BUDDY1_BARCODE_MAP :=
  f ← get 5; l ← get 5; r ← get 5; u ← get 5;
  mret {| forward := u8 (LETTER_A + f); left := u8 (LETTER_A + l); right := u8 (LETTER_A + r);
          uturn := u8 (LETTER_A + u) |}.
Definition buddy1_map_unpack (packet : bytes) : option BUDDY1_BARCODE_MAP :=
  if negb (length packet =? BUDDY1_MAP_BYTES)%nat || negb (nthZ 0 packet 0 =? BUDDY1_WIRE_VERSION) ||
     negb (Z.land (nthZ 0 packet 3) 0xf0 =? 0) then None
  else match run read_map (tail packet) with
       | Some m => match buddy1_map_pack m with Some _ => Some m | None => None end
       | None => None
       end.

(** ** What a receiver gets *)
(** The speed on the wire: the nearest even number, half-way cases away from zero. *)
Definition nearest_even (mms : Z) : Z := (((Z.abs mms) + 1) / 2) * 2 * (if mms <? 0 then -1 else 1).
(** [v0] with the section of topic [t] taken from [v]. *)
Definition with_section (t : topic_t) (v0 v : BUDDY1_SNAPSHOT) : BUDDY1_SNAPSHOT :=
  match t with
  | TOPIC_MOTION => v0 <| left_mms := nearest_even (left_mms v) |> <| right_mms := nearest_even (right_mms v) |>
                       <| motion_valid := true |>
  | TOPIC_BARCODE => v0 <| barcode_letter := barcode_letter v |> <| barcode_action := barcode_action v |>
                        <| barcode_valid := true |>
  | TOPIC_HUMP => v0 <| hump_count := hump_count v |> <| hump_height_mm := hump_height_mm v |> <| hump_valid := true |>
  | TOPIC_HEADING => v0 <| heading_deg := heading_deg v |> <| heading_valid := true |>
  | TOPIC_OBSTACLE => v0 <| obstacle_distance_mm := obstacle_distance_mm v |> <| obstacle_width_mm := obstacle_width_mm v |>
                         <| obstacle_route := obstacle_route v |> <| obstacle_valid := true |>
  | TOPIC_STATE => v0 <| robot_state := robot_state v |> <| robot_state_valid := true |>
  | TOPIC_FAULTS => v0 <| faults := faults v |> <| faults_valid := true |>
  | TOPIC_POSE => v0 <| pose_distance_cm := pose_distance_cm v |> <| pose_heading_deg := pose_heading_deg v |>
                     <| pose_valid := true |>
  | TOPIC_TERRAIN => v0 <| terrain := terrain v |> <| terrain_valid := true |>
  | TOPIC_SNAPSHOT | TOPIC_MAP_REPLY | TOPIC_STATUS => v0
  end.
Fixpoint with_sections (l : list topic_t) (v0 v : BUDDY1_SNAPSHOT) : BUDDY1_SNAPSHOT :=
  match l with
  | [] => v0
  | t :: l => with_sections l (if section_valid t v then with_section t v0 v else v0) v
  end.
Definition received (t : topic_t) (v : BUDDY1_SNAPSHOT) : BUDDY1_SNAPSHOT :=
  match t with
  | TOPIC_SNAPSHOT => with_sections sections zero_snapshot v
  | TOPIC_STATUS => zero_snapshot <| faults_valid := faults_valid v |> <| faults := if faults_valid v then faults v else 0 |>
  | _ => with_section t zero_snapshot v
  end.
(** The value is one C's structure can hold. *)
Definition snapshot_typed (v : BUDDY1_SNAPSHOT) : Prop :=
  in_u 16 (hump_count v) /\ in_u 16 (hump_height_mm v) /\ in_u 16 (obstacle_width_mm v) /\ in_u 8 (faults v) /\
  in_u 16 (pose_distance_cm v) /\ in_u 8 (terr_state (terrain v)) /\ in_u 16 (climb_mm (terrain v)) /\
  in_u 16 (peak_mm (terrain v)).

(** ** Reading back what was written *)
Lemma outside_false lo x hi : outside lo x hi = false <-> lo <= x <= hi.
Proof. unfold outside. rewrite orb_false_iff, !Z.ltb_ge. lia. Qed.

Lemma reads_speed {A} mms fs (k : Z -> reader A) y : outside (- BUDDY1_SPEED_MAX_MMS) mms BUDDY1_SPEED_MAX_MMS = false ->
  reads (k (nearest_even mms)) fs y -> reads (x ← read_speed; k x) (speed_fields mms ++ fs) y.
Proof.
  rewrite outside_false. unfold BUDDY1_SPEED_MAX_MMS. intros Hm Hk.
  apply reads_bind with (x := nearest_even mms); [| done]. unfold read_speed, speed_fields.
  assert (E : (if mms <? 0 then - mms else mms) = Z.abs mms) by (case_if; unbool; lia). rewrite E.
  assert (0 <= (Z.abs mms + 1) / 2 < 256) by (split; [apply Z.div_pos; lia | apply Z.div_lt_upper_bound; lia]).
  apply reads_get; [done |]. apply reads_get; [destruct (mms <? 0); unfold in_u; cbn; lia |].
  apply reads_require.
  - destruct (Z.ltb_spec mms 0); cbn [b2z]; [| by rewrite andb_false_r].
    assert (1 <= (Z.abs mms + 1) / 2) by (apply Z.div_le_lower_bound; lia).
    destruct (Z.eqb_spec ((Z.abs mms + 1) / 2) 0); [lia | done].
  - unfold nearest_even, i16, i32, u32. rewrite wrap_id by (unfold in_u; lia).
    rewrite (swrap_id 32) by lia. rewrite swrap_id by (destruct (mms <? 0); cbn; lia).
    replace (negb (b2z (mms <? 0) =? 0)) with (mms <? 0) by (by destruct (mms <? 0)). apply reads_ret.
Qed.

Lemma signed_tilt_land x : -1024 <= x < 1024 -> signed_tilt (Z.land (u32 x) 0x7ff) = x.
Proof.
  intros Hx. assert (E : Z.land (u32 x) 0x7ff = x mod 2048).
  { change 0x7ff with (Z.ones 11). rewrite Z.land_ones by lia. unfold u32, wrap.
    apply Z.bits_inj'. intros i Hi. change 2048 with (2 ^ 11). rewrite !Z.testbit_mod_pow2 by lia.
    destruct (Z.ltb_spec i 11), (Z.ltb_spec i 32); try done; lia. }
  rewrite E. assert (x mod 2048 = x \/ x mod 2048 = x + 2048 /\ x < 0).
  { destruct (Z.lt_ge_cases x 0); [right | left; apply Z.mod_small; lia].
    rewrite <- (Z_mod_plus_full x 1), Z.mod_small; lia. }
  apply Z.eqb_eq. replace x with (-1024 + (x + 1024)) at 2 by lia. replace x with (-1024 + (x + 1024)) at 1 by lia.
  apply (forall_range (fun x => signed_tilt (x mod 2048) =? x) (-1024) 2048); [by vm_compute | lia].
Qed.
Lemma tilt_field_range x : in_u (Z.of_nat 11) (Z.land (u32 x) 0x7ff).
Proof.
  change 0x7ff with (Z.ones 11). rewrite Z.land_ones by lia. apply Z.mod_pos_bound. lia.
Qed.

Lemma terrain_readable_iff t : 0 <= climb_mm t -> 0 <= peak_mm t -> terr_state t < 8 ->
  terrain_readable t = negb (terrain_rejected t).
Proof.
  intros Hc Hp Hs. unfold terrain_readable, terrain_rejected, BUDDY1_TERRAIN_STATES.
  rewrite (proj2 (Z.leb_gt 8 (terr_state t)) Hs). cbn [orb].
  destruct (tilt_valid t), (on_hump t), (peak_valid t), (_ <? climb_mm t), (_ <? peak_mm t), (climb_mm t =? 0),
    (peak_mm t =? 0), (pitch_x10 t =? 0), (roll_x10 t =? 0);
    try (destruct (outside _ (pitch_x10 t) _), (outside _ (roll_x10 t) _)); done.
Qed.

Lemma reads_terrain {A} t fs (k : BUDDY1_TERRAIN -> reader A) y : terrain_rejected t = false ->
  0 <= terr_state t -> 0 <= climb_mm t -> 0 <= peak_mm t ->
  reads (k t) fs y -> reads (x ← read_terrain; k x) (terrain_fields t ++ fs) y.
Proof.
  intros Hr Hs Hc Hp Hk. apply reads_bind with (x := t); [| done].
  assert (terr_state t < 8 /\ climb_mm t <= 500 /\ peak_mm t <= 500 /\ -1024 <= pitch_x10 t < 1024 /\ -1024 <= roll_x10 t < 1024).
  { clear -Hr. unfold terrain_rejected, BUDDY1_TERRAIN_STATES, BUDDY1_HUMP_HEIGHT_MAX_MM, BUDDY1_TILT_LIMIT_X10 in Hr.
    rewrite !orb_false_iff in Hr. destruct Hr as (((((H1 & H2) & H3) & H4) & _) & _). unbool.
    assert (-1024 <= pitch_x10 t < 1024 /\ -1024 <= roll_x10 t < 1024); [| lia].
    destruct (tilt_valid t); apply orb_false_iff in H4 as [H4 H5].
    - rewrite outside_false in H4, H5. lia.
    - unbool. lia. }
  unfold read_terrain, terrain_fields. read_step. do 2 (apply reads_get; [apply tilt_field_range |]).
  apply reads_get; [unfold in_u; change (2 ^ Z.of_nat 3) with 8; lia |]. read_step.
  apply reads_get; [unfold in_u; change (2 ^ Z.of_nat 9) with 512; lia |]. read_step.
  apply reads_get; [unfold in_u; change (2 ^ Z.of_nat 9) with 512; lia |].
  rewrite !signed_tilt_land by lia.
  replace {| tilt_valid := tilt_valid t; pitch_x10 := _; roll_x10 := _; terr_state := _; on_hump := _; climb_mm := _;
             peak_valid := _; peak_mm := _ |} with t by (by destruct t).
  apply reads_require; [rewrite terrain_readable_iff, Hr by lia; done | apply reads_ret].
Qed.

Lemma fault_mask_range f : in_u 8 f -> Z.land f (u32 (Z.lnot BUDDY1_FAULT_MASK)) = 0 -> in_u (Z.of_nat 6) f.
Proof.
  intros Hf H. unfold in_u in *. apply Z.eqb_eq in H. change (2 ^ Z.of_nat 6) with 64. split; [lia |].
  apply Z.ltb_lt. revert H. replace f with (0 + f) by lia.
  assert (H : negb (Z.land (0 + f) (u32 (Z.lnot BUDDY1_FAULT_MASK)) =? 0) || (0 + f <? 64) = true).
  { apply (forall_range (fun f => negb (Z.land f (u32 (Z.lnot BUDDY1_FAULT_MASK)) =? 0) || (f <? 64)) 0 256);
      [by vm_compute | lia]. }
  intros E. rewrite E in H. done.
Qed.
Lemma letter_u8 l : LETTER_A <= l <= LETTER_Z -> u8 (LETTER_A + (l - LETTER_A)) = l.
Proof. unfold LETTER_A, LETTER_Z. intros. replace (65 + (l - 65)) with l by lia. apply wrap_id. unfold in_u. lia. Qed.

Ltac in_range := unfold in_u in *; first [lia | cbn in *; lia].
Lemma reads_fields t v0 v fs : snapshot_typed v -> write_fields t v = Some fs ->
  reads (read_fields t v0) fs (with_section t v0 v).
Proof.
  intros (T1 & T2 & T3 & T4 & T5 & T6 & T7 & T8) W.
  destruct t; cbn [write_fields read_fields with_section] in *; try done;
    match type of W with (if ?g then _ else _) = _ => destruct g eqn:G; [done |]; injection W as <- end;
    rewrite ?orb_false_iff, ?outside_false in G; unfold LETTER_A, LETTER_Z, BUDDY1_ACTION_UNKNOWN, BUDDY1_ACTION_UTURN,
      BUDDY1_HUMP_HEIGHT_MAX_MM, BUDDY1_OBSTACLE_MIN_MM, BUDDY1_OBSTACLE_MAX_MM, BUDDY1_OBSTACLE_WIDTH_MAX_MM,
      BUDDY1_ROUTE_RIGHT, BUDDY1_STATE_STOPPED, BUDDY1_STATE_ERROR, BUDDY1_POSE_DISTANCE_MOD in *; unbool.
  - rewrite <- (app_nil_r (speed_fields (right_mms v))).
    apply reads_speed; [apply outside_false; tauto |]. apply reads_speed; [apply outside_false; tauto |]. apply reads_ret.
  - do 2 (apply reads_get; [in_range |]). pose proof (letter_u8 (barcode_letter v) ltac:(unfold LETTER_A, LETTER_Z; lia)) as L.
    unfold LETTER_A in L. rewrite L. apply reads_require; [apply andb_true_iff; split; apply Z.leb_le; lia | apply reads_ret].
  - do 2 (apply reads_get; [in_range |]). apply reads_require; [apply Z.leb_le; lia | apply reads_ret].
  - apply reads_get; [in_range |]. unfold i16. rewrite swrap_id by lia. apply reads_require; [apply Z.leb_le; lia | apply reads_ret].
  - do 3 (apply reads_get; [in_range |]). apply reads_require; [rewrite !andb_true_iff, !Z.leb_le; lia | apply reads_ret].
  - apply reads_get; [in_range |]. rewrite Z.sub_add. apply reads_ret.
  - apply reads_get; [by apply fault_mask_range |]. apply reads_ret.
  - do 2 (apply reads_get; [in_range |]). unfold i16. rewrite swrap_id by lia.
    apply reads_require; [apply Z.leb_le; lia | apply reads_ret].
  - rewrite <- (app_nil_r (terrain_fields (terrain v))). unfold in_u in *.
    apply reads_terrain; [done | lia | lia | lia | apply reads_ret].
Qed.

(** An absent section: zero bits, whether written at once or read bit by bit. *)
Lemma get_bit_zero b p : get_at b p 1 = 0 <-> bit_at b p = false.
Proof.
  rewrite <- (Z.add_0_r p) at 2. pose proof (get_at_spec b p 1 0 ltac:(lia)) as S. change (0 <? Z.of_nat 1) with true in S.
  cbn [andb] in S. split.
  - intros E. rewrite E in S. by rewrite <- S.
  - intros E. apply Z.bits_inj'. intros i Hi. rewrite get_at_spec, Z.bits_0 by done.
    destruct (Z.ltb_spec i (Z.of_nat 1)); [| done]. replace i with 0 by lia. done.
Qed.
Lemma get_zero_iff b p w : get_at b p w = 0 <-> forall i, 0 <= i < Z.of_nat w -> bit_at b (p + i) = false.
Proof.
  split.
  - intros E i Hi. apply (f_equal (fun z => Z.testbit z i)) in E. rewrite get_at_spec, Z.bits_0 in E by lia.
    destruct (Z.ltb_spec i (Z.of_nat w)); [done | lia].
  - intros H. apply Z.bits_inj'. intros i Hi. rewrite get_at_spec, Z.bits_0 by done.
    destruct (Z.ltb_spec i (Z.of_nat w)); [rewrite H by lia |]; done.
Qed.
Lemma skip_zero_iff w b : forall p q, skip_zero w b p = Some (tt, q) <-> get_at b p w = 0 /\ q = p + Z.of_nat w.
Proof.
  induction w as [| w IH]; intros p q.
  - cbn. rewrite Z.add_0_r. split; [by intros [= <-] | by intros [_ ->]].
  - cbn [skip_zero]. unfold mbind at 1, reader_bind at 1, get. unfold mbind, reader_bind, require.
    rewrite get_zero_iff. destruct (Z.eqb_spec (get_at b p 1) 0) as [E | E]; unfold mret, reader_ret.
    + rewrite IH, get_zero_iff. apply get_bit_zero in E. split; intros [H ->]; (split; [| lia]); intros i Hi.
      * destruct (Z.eq_dec i 0) as [-> |]; [by rewrite Z.add_0_r |]. replace (p + i) with (p + Z.of_nat 1 + (i - 1)) by lia.
        apply H. lia.
      * replace (p + Z.of_nat 1 + i) with (p + (i + 1)) by lia. apply H. lia.
    + split; [done |]. intros [H _]. destruct E. apply get_bit_zero. rewrite <- (Z.add_0_r p). apply H. lia.
Qed.
Lemma reads_skip {A} w fs (k : unit -> reader A) y :
  reads (k tt) fs y -> reads (x ← skip_zero w; k x) ((0, w) :: fs) y.
Proof.
  intros Hk b p [E He]. unfold mbind, reader_bind. rewrite (proj2 (skip_zero_iff w b p (p + Z.of_nat w))).
  - rewrite (Hk _ _ He), total_width_cons. by rewrite Z.add_assoc.
  - split; [| done]. rewrite E. apply Z.mod_0_l. lia.
Qed.

(** [flags] has, from bit [i] on, the validity flags of the sections [l]. *)
Fixpoint flags_of (l : list topic_t) (flags i : Z) (v : BUDDY1_SNAPSHOT) : Prop :=
  match l with
  | [] => True
  | t :: l => negb (Z.land flags (Z.shiftl 1 i) =? 0) = section_valid t v /\ flags_of l flags (i + 1) v
  end.
Lemma reads_sections l : forall flags i v0 v fs, snapshot_typed v -> write_sections l v = Some fs ->
  flags_of l flags i v -> reads (read_sections l flags i v0) fs (with_sections l v0 v).
Proof.
  induction l as [| t l IH]; intros flags i v0 v fs T W F; cbn [write_sections read_sections with_sections] in *.
  { injection W as <-. apply reads_ret. }
  destruct F as [F F']. rewrite F. destruct (section_valid t v).
  - destruct (write_fields t v) as [f1 |] eqn:E1; [| done]. destruct (write_sections l v) as [f2 |] eqn:E2; [| done].
    injection W as <-. eapply reads_bind; [by apply reads_fields |]. by apply IH.
  - destruct (write_sections l v) as [f2 |] eqn:E2; [| done]. injection W as <-. cbn [app].
    apply reads_skip. by apply IH.
Qed.
Lemma validity_flags v : flags_of sections (validity v) 0 v /\ in_u (Z.of_nat 7) (validity v).
Proof.
  unfold validity. cbn [flags_of sections section_valid].
  destruct (motion_valid v), (barcode_valid v), (hump_valid v), (heading_valid v), (obstacle_valid v), (robot_state_valid v),
    (faults_valid v); (split; [splits; done | vm_compute; split; [discriminate | reflexivity]]).
Qed.

Lemma reads_body t v fs : snapshot_typed v -> write_body t v = Some fs -> reads (read_body t) fs (received t v).
Proof.
  intros T W. destruct t; try (by apply reads_fields); cbn [write_body read_body received] in *; try done.
  - destruct (write_sections sections v) as [f |] eqn:E; [| done]. injection W as <-.
    destruct (validity_flags v) as [F R]. apply reads_get; [done |]. by apply reads_sections.
  - destruct (_ && _) eqn:G; [done |]. injection W as <-. apply reads_get; [split; [lia | done] |]. apply reads_require; [done |].
    apply reads_flag. apply reads_get.
    + destruct (faults_valid v); [| split; [lia | done]]. cbn [andb] in G. unbool. apply fault_mask_range; [apply T | done].
    + apply reads_require; [by destruct (faults_valid v) | apply reads_ret].
Qed.

(** ** Writing again what was read *)
Lemma written_speed : written read_speed (fun mms fs =>
  fs = speed_fields mms /\ outside (- BUDDY1_SPEED_MAX_MMS) mms BUDDY1_SPEED_MAX_MMS = false /\ nearest_even mms = mms).
Proof.
  unfold read_speed. apply written_get; [lia |]. intros mag Hm. apply written_get; [lia |]. intros neg Hn.
  apply written_require. intros G. apply written_ret. unfold in_u in *. change (2 ^ Z.of_nat 8) with 256 in Hm.
  change (2 ^ Z.of_nat 1) with 2 in Hn. unfold i16, i32, u32. rewrite wrap_id by (unfold in_u; lia).
  rewrite (swrap_id 32), swrap_id by (try case_if; lia). rewrite outside_false. unfold BUDDY1_SPEED_MAX_MMS.
  assert (N : forall x, nearest_even (x * 2) = x * 2).
  { intros x. unfold nearest_even. rewrite <- (Z.div_unique (Z.abs (x * 2) + 1) 2 (Z.abs x) 1) by lia. case_if; unbool; lia. }
  unfold speed_fields. apply negb_true_iff, andb_false_iff in G.
  assert (neg = 0 \/ neg = 1) as [-> | ->] by lia; cbn [Z.eqb negb] in *.
  - rewrite Z.mul_1_r. destruct (Z.ltb_spec (mag * 2) 0); [lia |]. cbn [b2z]. splits; [| lia | lia | apply N].
    by rewrite <- (Z.div_unique (mag * 2 + 1) 2 mag 1) by lia.
  - destruct G as [G | G]; [| done]. unbool. destruct (Z.ltb_spec (mag * 2 * -1) 0); [| lia]. cbn [b2z].
    splits; [| lia | lia | replace (mag * 2 * -1) with (- mag * 2) by lia; apply N].
    by rewrite <- (Z.div_unique (- (mag * 2 * -1) + 1) 2 mag 1) by lia.
Qed.

Lemma tilt_land_signed x : in_u (Z.of_nat 11) x -> Z.land (u32 (signed_tilt x)) 0x7ff = x.
Proof.
  intros [H1 H2]. change (2 ^ Z.of_nat 11) with 2048 in H2. apply Z.eqb_eq. replace x with (0 + x) by lia.
  apply (forall_range (fun x => Z.land (u32 (signed_tilt x)) 0x7ff =? x) 0 2048); [by vm_compute | lia].
Qed.
Lemma written_terrain : written read_terrain (fun t fs => terrain_rejected t = false /\ fs = terrain_fields t /\
  in_u 8 (terr_state t) /\ in_u 16 (climb_mm t) /\ in_u 16 (peak_mm t)).
Proof.
  unfold read_terrain. apply written_flag. intros tv. apply written_get; [lia |]. intros pitch Hp.
  apply written_get; [lia |]. intros roll Hr. apply written_get; [lia |]. intros s Hs. apply written_flag. intros oh.
  apply written_get; [lia |]. intros cm Hc. apply written_flag. intros pv. apply written_get; [lia |]. intros pm Hpm.
  apply written_require. intros G. apply written_ret.
  unfold in_u in Hs, Hc, Hpm. change (2 ^ Z.of_nat 3) with 8 in Hs. rewrite terrain_readable_iff in G by (cbn; lia).
  apply negb_true_iff in G. change (2 ^ Z.of_nat 9) with 512 in Hc, Hpm. unfold in_u.
  cbn -[terrain_rejected Z.pow]. splits; try lia; [exact G |]. unfold terrain_fields.
  cbn [tilt_valid pitch_x10 roll_x10 terr_state on_hump climb_mm peak_valid peak_mm]. by rewrite !tilt_land_signed.
Qed.

Lemma fault_mask_clear f : in_u (Z.of_nat 6) f -> negb (Z.land f (u32 (Z.lnot BUDDY1_FAULT_MASK)) =? 0) = false.
Proof.
  intros Hf. unfold in_u in Hf. change (2 ^ Z.of_nat 6) with 64 in Hf. apply negb_false_iff.
  replace f with (0 + f) by lia.
  apply (forall_range (fun f => Z.land f (u32 (Z.lnot BUDDY1_FAULT_MASK)) =? 0) 0 64); [by vm_compute | lia].
Qed.

(** What reading topic [t] does: the value can be written again with the fields
    read, and nothing another topic writes has changed. *)
Record read_back (t : topic_t) (v0 v : BUDDY1_SNAPSHOT) (fs : list field) : Prop := {
  rb_write : write_fields t v = Some fs;
  rb_valid : In t sections -> section_valid t v = true;
  rb_frame : forall t', t' <> t -> write_fields t' v = write_fields t' v0 /\ section_valid t' v = section_valid t' v0 /\
    forall x, with_section t' x v = with_section t' x v0;
  rb_typed : snapshot_typed v0 -> snapshot_typed v;
  rb_same : v = with_section t v0 v
}.
Ltac typed_again :=
  unfold snapshot_typed, in_u in *; change (Z.of_nat 16) with 16 in *; change (Z.of_nat 9) with 9 in *;
  change (Z.of_nat 12) with 12 in *; change (Z.of_nat 6) with 6 in *; cbn -[Z.pow]; intuition lia.
Lemma written_fields t v0 : written (read_fields t v0) (read_back t v0).
Proof.
  destruct t; cbn [read_fields]; try done.
  - apply written_bind with (1 := written_speed). intros l f1 (-> & G1 & N1).
    apply written_bind with (1 := written_speed). intros r f2 (-> & G2 & N2). apply written_ret.
    split; [| done | by intros [] | done | cbn; by rewrite N1, N2]. rewrite app_nil_r. unfold write_fields. cbn. by rewrite G1, G2.
  - apply written_get; [lia |]. intros l Hl. apply written_get; [lia |]. intros a Ha. apply written_require. intros G.
    apply written_ret. apply andb_true_iff in G as [G1 G2]. unfold in_u in *. change (2 ^ Z.of_nat 5) with 32 in Hl.
    unfold u8, LETTER_A, LETTER_Z, BUDDY1_ACTION_UTURN in *. rewrite wrap_id in * by (unfold in_u; lia). unbool.
    split; [| done | by intros [] | typed_again | done]. unfold write_fields. cbn -[Z.sub Z.add outside].
    rewrite (proj2 (outside_false LETTER_A _ LETTER_Z)), (proj2 (outside_false BUDDY1_ACTION_UNKNOWN a BUDDY1_ACTION_UTURN)).
    + cbn [orb]. unfold LETTER_A. by replace (65 + l - 65) with l by lia.
    + unfold BUDDY1_ACTION_UNKNOWN, BUDDY1_ACTION_UTURN. lia.
    + unfold LETTER_A, LETTER_Z. lia.
  - apply written_get; [lia |]. intros n Hn. apply written_get; [lia |]. intros h Hh. apply written_require. intros G.
    apply written_ret. unbool. split; [| done | by intros [] | typed_again | done]. unfold write_fields. cbn.
    by rewrite (proj2 (Z.ltb_ge _ _) G).
  - apply written_get; [lia |]. intros d Hd. apply written_require. intros G. apply written_ret. unfold in_u in *.
    change (2 ^ Z.of_nat 9) with 512 in Hd. unfold i16 in *. rewrite swrap_id in * by lia. unbool.
    split; [| done | by intros [] | typed_again | done]. unfold write_fields. cbn -[outside]. by rewrite (proj2 (outside_false 0 d 359)) by lia.
  - apply written_get; [lia |]. intros d Hd. apply written_get; [lia |]. intros w Hw. apply written_get; [lia |].
    intros r Hr. apply written_require. intros G. apply written_ret. unfold in_u in *.
    change (2 ^ Z.of_nat 12) with 4096 in *. rewrite !andb_true_iff, !Z.leb_le in G.
    split; [| done | by intros [] | typed_again | done]. unfold write_fields. cbn -[outside].
    rewrite (proj2 (outside_false _ d _)) by lia. rewrite (proj2 (outside_false 0 r _)) by lia.
    rewrite (proj2 (Z.ltb_ge _ w)) by (unfold BUDDY1_OBSTACLE_WIDTH_MAX_MM; lia). done.
  - apply written_get; [lia |]. intros s Hs. apply written_ret. unfold in_u in *. change (2 ^ Z.of_nat 3) with 8 in Hs.
    split; [| done | by intros [] | typed_again | done]. unfold write_fields. cbn -[outside Z.sub Z.add].
    rewrite (proj2 (outside_false _ (s + _) _)) by (unfold BUDDY1_STATE_STOPPED, BUDDY1_STATE_ERROR; lia).
    by rewrite Z.add_simpl_r.
  - apply written_get; [lia |]. intros f Hf. apply written_ret. split; [| done | by intros [] | typed_again | done]. unfold write_fields.
    cbn -[Z.land u32 Z.lnot]. by rewrite (fault_mask_clear f Hf).
  - apply written_get; [lia |]. intros d Hd. apply written_get; [lia |]. intros h Hh. apply written_require. intros G.
    apply written_ret. unfold in_u in *. change (2 ^ Z.of_nat 9) with 512 in Hh. change (2 ^ Z.of_nat 12) with 4096 in Hd.
    unfold i16 in *. rewrite swrap_id in * by lia. unbool. split; [| cbn; intuition discriminate | by intros [] | typed_again | done]. unfold write_fields.
    cbn -[outside]. rewrite (proj2 (outside_false 0 h 359)) by lia.
    rewrite (proj2 (Z.leb_gt _ d)) by (unfold BUDDY1_POSE_DISTANCE_MOD; lia). done.
  - apply written_bind with (1 := written_terrain). intros t fs (G & -> & T1 & T2 & T3). apply written_ret. rewrite app_nil_r.
    split; [| cbn; intuition discriminate | by intros [] | typed_again | done]. unfold write_fields. cbn -[terrain_rejected terrain_fields]. by rewrite G.
Qed.

Lemma written_skip w : (w <= 32)%nat -> written (skip_zero w) (fun _ fs => fs = [(0, w)]).
Proof.
  intros Hw b p [] q E. apply skip_zero_iff in E as [E ->]. exists [(0, w)]. splits; [done | | by constructor |].
  - split; [| done]. rewrite E. symmetry. apply Z.mod_0_l. lia.
  - rewrite total_width_cons. unfold total_width. cbn. lia.
Qed.

Lemma section_bits t : In t sections -> (body_bits t <= 32)%nat.
Proof. destruct t; cbn; intros; lia || intuition discriminate. Qed.
(** What reading the sections [l] does. *)
Record sections_back (l : list topic_t) (flags i : Z) (v0 v : BUDDY1_SNAPSHOT) (fs : list field) : Prop := {
  sb_write : write_sections l v = Some fs;
  sb_flags : flags_of l flags i v;
  sb_frame : forall t, ~ In t l -> write_fields t v = write_fields t v0 /\ section_valid t v = section_valid t v0 /\
    forall x, with_section t x v = with_section t x v0;
  sb_typed : snapshot_typed v0 -> snapshot_typed v;
  sb_same : v = with_sections l v0 v
}.
Lemma written_sections l : NoDup l -> (forall t, In t l -> In t sections) -> forall flags i v0,
  (forall t, In t l -> section_valid t v0 = false) -> written (read_sections l flags i v0) (sections_back l flags i v0).
Proof.
  induction l as [| t l IH]; intros Nd Hin flags i v0 Hv.
  { apply written_ret. done. }
  apply NoDup_cons in Nd as [Hl Nd]. rewrite list_elem_of_In in Hl. cbn [read_sections].
  destruct (negb _) eqn:F.
  - apply written_bind with (1 := written_fields t v0). intros v1 f1 [W1 V1 Fr1 T1 S1].
    specialize (V1 (Hin t ltac:(by left))). eapply written_weaken.
    + apply IH; [done | intros; apply Hin; by right |]. intros t' Ht'. destruct (Fr1 t' ltac:(by intros ->)) as (_ & -> & _).
      apply Hv. by right.
    + intros v fs [W Fl Fr T S]. destruct (Fr t Hl) as (E1 & E2 & E3). split.
      * cbn [write_sections]. by rewrite E2, V1, E1, W1, W.
      * cbn [flags_of]. by rewrite F, E2, V1.
      * intros t' Ht'. destruct (Fr t' ltac:(intros ?; apply Ht'; by right)) as (-> & -> & E).
        destruct (Fr1 t' ltac:(intros ->; apply Ht'; by left)) as (-> & -> & E'). splits; [done | done |]. intros x. by rewrite E.
      * auto.
      * cbn [with_sections]. by rewrite E2, V1, E3, <- S1.
  - apply written_bind with (1 := written_skip (body_bits t) (section_bits t (Hin t ltac:(by left)))). intros _ f1 ->.
    eapply written_weaken.
    + apply IH; [done | intros; apply Hin; by right | intros; apply Hv; by right].
    + intros v fs [W Fl Fr T S]. destruct (Fr t Hl) as (E1 & E2 & E3). rewrite (Hv t ltac:(by left)) in E2. split; [| | | done |].
      * cbn [write_sections]. by rewrite E2, W.
      * cbn [flags_of]. by rewrite F, E2.
      * intros t' Ht'. apply Fr. intros ?. apply Ht'. by right.
      * cbn [with_sections]. by rewrite E2.
Qed.
Lemma validity_unique flags v : in_u (Z.of_nat 7) flags -> flags_of sections flags 0 v -> validity v = flags.
Proof.
  intros [H1 H2] F. cbn [flags_of sections section_valid] in F. rewrite !land_shiftl_testbit in F by lia.
  destruct F as (F0 & F1 & F2 & F3 & F4 & F5 & F6 & _). unfold validity. rewrite <- F0, <- F1, <- F2, <- F3, <- F4, <- F5, <- F6.
  apply Z.eqb_eq. change (2 ^ Z.of_nat 7) with 128 in H2. clear -H1 H2. replace flags with (0 + flags) by lia.
  apply (forall_range (fun flags => Z.lor (b2z (Z.testbit flags 0)) (Z.lor (Z.shiftl (b2z (Z.testbit flags (0 + 1))) 1)
    (Z.lor (Z.shiftl (b2z (Z.testbit flags (0 + 1 + 1))) 2) (Z.lor (Z.shiftl (b2z (Z.testbit flags (0 + 1 + 1 + 1))) 3)
    (Z.lor (Z.shiftl (b2z (Z.testbit flags (0 + 1 + 1 + 1 + 1))) 4)
      (Z.lor (Z.shiftl (b2z (Z.testbit flags (0 + 1 + 1 + 1 + 1 + 1))) 5)
        (Z.shiftl (b2z (Z.testbit flags (0 + 1 + 1 + 1 + 1 + 1 + 1))) 6)))))) =? flags) 0 128); [by vm_compute | lia].
Qed.

Lemma zero_typed : snapshot_typed zero_snapshot.
Proof. unfold snapshot_typed, in_u. cbn. lia. Qed.
Lemma written_body t : written (read_body t) (fun v fs =>
  write_body t v = Some fs /\ snapshot_typed v /\ v = received t v).
Proof.
  pose proof zero_typed as Zt.
  destruct t; cbn [read_body]; try (eapply written_weaken; [apply written_fields | intros v fs []; by auto]).
  - apply written_get; [lia |]. intros flags Hf. eapply written_weaken.
    + apply written_sections; [by apply (bool_decide_unpack _); vm_compute | done |].
      by intros [].
    + intros v fs [W F _ T S]. splits; [| by apply T | exact S]. cbn [write_body]. by rewrite W, (validity_unique flags).
  - done.
  - apply written_get; [lia |]. intros alive Ha. apply written_require. intros Hal. apply written_flag. intros ok.
    apply written_get; [lia |]. intros f Hf. apply written_require. intros G. apply written_ret. unbool. subst alive.
    pose proof (fault_mask_clear f Hf) as E. splits.
    2:{ unfold snapshot_typed, in_u in *. change (Z.of_nat 6) with 6 in Hf. cbn -[Z.pow]. lia. }
    2:{ cbn. destruct ok; [done |]. destruct G as [G | G]; [done |]. apply negb_false_iff, Z.eqb_eq in G. by subst f. }
    cbn -[Z.land u32 Z.lnot]. rewrite E. rewrite andb_false_r.
    destruct ok; [done |]. destruct G as [G | G]; [done |]. apply negb_false_iff, Z.eqb_eq in G. by subst f.
Qed.

Lemma written_width t v fs : write_body t v = Some fs -> total_width fs = Z.of_nat (body_bits t) /\ widths_ok fs.
Proof.
  assert (F : forall t fs, write_fields t v = Some fs -> total_width fs = Z.of_nat (body_bits t) /\ widths_ok fs).
  { clear. intros t fs W. destruct t; cbn [write_fields] in W; try done;
      (match type of W with (if ?g then _ else _) = _ => destruct g; [done |] end; injection W as <-;
       split; [reflexivity | check_widths]). }
  intros W. destruct t; try (by apply F).
  - cbn [write_body] in W. destruct (write_sections sections v) as [f |] eqn:E; [| done]. injection W as <-.
    assert (S : forall l fs, (forall t, In t l -> In t sections) -> write_sections l v = Some fs ->
      total_width fs = sumZ (map (fun t => Z.of_nat (body_bits t)) l) /\ widths_ok fs).
    { clear -F. induction l as [| t l IH]; intros fs Hin W; cbn [write_sections] in W.
      - injection W as <-. split; [done | constructor].
      - destruct (write_sections l v) as [f2 |] eqn:E2; [| by destruct (if section_valid t v then _ else _)].
        destruct (IH f2 ltac:(intros; apply Hin; by right) eq_refl) as [I1 I2].
        assert (exists f1, fs = f1 ++ f2 /\ total_width f1 = Z.of_nat (body_bits t) /\ widths_ok f1) as (f1 & -> & J1 & J2).
        { destruct (section_valid t v).
          - destruct (write_fields t v) as [f1 |] eqn:E1; [| done]. injection W as <-. exists f1. split; [done |]. by apply F.
          - injection W as <-. exists [(0, body_bits t)]. splits; [done | unfold total_width; cbn; lia |].
            constructor; [| constructor]. apply section_bits, Hin. by left. }
        rewrite total_width_app. split; [cbn [map sumZ]; lia | by apply Forall_app]. }
    destruct (S sections f (fun _ H => H) E) as [S1 S2]. rewrite total_width_cons, S1. split; [done |]. constructor; [cbn; lia | done].
  - cbn [write_body] in W. destruct (_ && _); [done |]. injection W as <-. split; [done | check_widths].
Qed.

(** ** Packets *)
Lemma encode_some topic v p : buddy1_encode topic v (Z.of_nat (buddy1_payload_size topic)) = Some p <->
  exists t fs, topic_of topic = Some t /\ write_body t v = Some fs /\ p = BUDDY1_WIRE_VERSION :: pack (body_size t) fs.
Proof.
  unfold buddy1_encode. rewrite Z.ltb_irrefl. destruct (topic_of topic) as [t |]; [| naive_solver].
  destruct (write_body t v) as [fs |] eqn:E; split; naive_solver.
Qed.
Lemma body_fits t : Z.of_nat (body_bits t) <= 8 * Z.of_nat (body_size t).
Proof. destruct t; vm_compute; discriminate. Qed.
Lemma nthZ_tail (b : bytes) x i : 0 <= i -> nthZ 0 (x :: b) (i + 1) = nthZ 0 b i.
Proof.
  intros Hi. unfold nthZ. destruct (Z.ltb_spec (i + 1) 0); [lia |]. destruct (Z.ltb_spec i 0); [lia |].
  by replace (Z.to_nat (i + 1)) with (S (Z.to_nat i)) by lia.
Qed.
(** The last byte has nothing above bit [r] exactly when those bits are clear. *)
Lemma last_byte_clear b r : bytes_ok b -> (0 < length b)%nat -> 0 < r < 8 ->
  Z.shiftr (nthZ 0 b (Z.of_nat (length b) - 1)) r = 0 <->
  forall k, 8 * (Z.of_nat (length b) - 1) + r <= k < 8 * Z.of_nat (length b) -> bit_at b k = false.
Proof.
  intros Hb Hl Hr. set (n := Z.of_nat (length b) - 1). pose proof (nthZ_byte b n Hb) as Bn.
  assert (Q : forall j, 0 <= j < 8 -> bit_at b (8 * n + j) = Z.testbit (nthZ 0 b n) j).
  { intros j Hj. rewrite bit_at_testbit. f_equal; [f_equal |]; symmetry.
    - apply (Z.div_unique _ _ _ j); lia.
    - apply (Z.mod_unique _ _ n); lia. }
  split.
  - intros E k Hk. replace k with (8 * n + (k - 8 * n)) by lia. rewrite Q by lia.
    apply (f_equal (fun z => Z.testbit z (k - 8 * n - r))) in E. rewrite Z.shiftr_spec, Z.bits_0 in E by lia.
    by replace (k - 8 * n - r + r) with (k - 8 * n) in E by lia.
  - intros H. apply Z.bits_inj'. intros i Hi. rewrite Z.shiftr_spec, Z.bits_0 by done.
    destruct (Z.lt_ge_cases (i + r) 8).
    + rewrite <- Q by lia. apply H. lia.
    + rewrite <- (Z.mod_small (nthZ 0 b n) (2 ^ 8)), Z.testbit_mod_pow2 by lia. destruct (Z.ltb_spec (i + r) 8); [lia | done].
Qed.
(** The check of the padding, on a body of the right size. *)
Lemma padding_iff t x b : bytes_ok b -> length b = body_size t ->
  negb (Z.of_nat (body_bits t) mod 8 =? 0) &&
    negb (Z.shiftr (nthZ 0 (x :: b) (Z.of_nat (length (x :: b)) - 1)) (Z.of_nat (body_bits t) mod 8) =? 0) = false <->
  forall k, Z.of_nat (body_bits t) <= k < 8 * Z.of_nat (length b) -> bit_at b k = false.
Proof.
  intros Hb Hl. assert (P : (0 < length b)%nat) by (rewrite Hl; destruct t; vm_compute; lia).
  replace (Z.of_nat (length (x :: b)) - 1) with (Z.of_nat (length b) - 1 + 1) by (cbn [length]; lia).
  rewrite nthZ_tail by lia.
  assert (C : Z.of_nat (body_bits t) mod 8 = 0 /\ Z.of_nat (body_bits t) = 8 * Z.of_nat (body_size t) \/
    0 < Z.of_nat (body_bits t) mod 8 < 8 /\
    Z.of_nat (body_bits t) = 8 * (Z.of_nat (body_size t) - 1) + Z.of_nat (body_bits t) mod 8).
  { destruct t; vm_compute; intuition congruence. }
  rewrite <- Hl in C. destruct C as [[E C] | [R C]].
  - rewrite E. cbn. split; [| done]. intros _ k Hk. lia.
  - revert R C. generalize (Z.of_nat (body_bits t) mod 8) as r. intros r R ->.
    rewrite <- last_byte_clear by done. rewrite (proj2 (Z.eqb_neq _ _)) by lia. cbn [negb andb].
    rewrite negb_false_iff. apply Z.eqb_eq.
Qed.
Lemma decode_some topic packet v : bytes_ok packet ->
  buddy1_decode topic packet = Some v <->
  exists t b, topic_of topic = Some t /\ packet = BUDDY1_WIRE_VERSION :: b /\ length b = body_size t /\
    (forall k, Z.of_nat (body_bits t) <= k < 8 * Z.of_nat (length b) -> bit_at b k = false) /\ run (read_body t) b = Some v.
Proof.
  intros Hb. unfold buddy1_decode. destruct (topic_of topic) as [t |] eqn:Et; [| naive_solver].
  unfold buddy1_payload_size. rewrite Et. destruct packet as [| x b].
  { split; [done |]. intros (? & ? & _ & [=] & _). }
  apply Forall_cons in Hb as [_ Hb]. cbn [length]. change (nthZ 0 (x :: b) 0) with x. cbn [tail].
  destruct (Nat.eqb_spec (S (length b)) (1 + body_size t)) as [El | El]; cbn [negb orb]; [| split; [done |]; intros (? & ? & [= <-] & [= -> <-] & ? & _); lia].
  destruct (Z.eqb_spec x BUDDY1_WIRE_VERSION) as [-> | Ex]; cbn [negb]; [| split; [done |]; naive_solver].
  pose proof (padding_iff t BUDDY1_WIRE_VERSION b Hb ltac:(lia)) as Hp. cbn [length] in Hp.
  destruct (_ && _).
  - split; [done |]. intros (? & ? & [= <-] & [= <-] & _ & H & _). by apply Hp in H.
  - split.
    + intros Hr. exists t, b. splits; [done | done | lia | by apply Hp | done].
    + intros (? & ? & [= <-] & [= <-] & _ & _ & H). done.
Qed.

Lemma encode_decode topic t v p : topic_of topic = Some t -> snapshot_typed v ->
  buddy1_encode topic v (Z.of_nat (buddy1_payload_size topic)) = Some p ->
  length p = buddy1_payload_size topic /\ bytes_ok p /\ buddy1_decode topic p = Some (received t v).
Proof.
  intros Et T E. apply encode_some in E as (? & fs & E & W & ->). simplify_eq.
  destruct (written_width _ _ _ W) as [Hw Hok]. pose proof (body_fits t). rewrite <- Hw in H.
  assert (B : bytes_ok (BUDDY1_WIRE_VERSION :: pack (body_size t) fs)) by (constructor; [unfold BUDDY1_WIRE_VERSION; lia | apply pack_ok]).
  splits; [| done |].
  - unfold buddy1_payload_size. rewrite Et. cbn [length]. by rewrite length_pack.
  - apply decode_some; [done |]. exists t, (pack (body_size t) fs). splits; [done | done | by apply length_pack | |].
    + rewrite length_pack by done. intros k Hk. apply pack_padding; [done | lia].
    + apply reads_run; [by apply reads_body | done | done].
Qed.
Lemma decode_encode topic packet v : bytes_ok packet -> buddy1_decode topic packet = Some v ->
  buddy1_encode topic v (Z.of_nat (buddy1_payload_size topic)) = Some packet.
Proof.
  intros Hb E. apply decode_some in E as (t & b & Et & -> & Hl & Hp & Hr); [| done]. apply encode_some.
  unfold run in Hr. destruct (read_body t b 0) as [[v' q] |] eqn:Eq; [| done]. injection Hr as ->.
  destruct (written_body t b 0 v q Eq) as (fs & (W & _) & He & Hok & _). destruct (written_width _ _ _ W) as [Hw _].
  exists t, fs. splits; [done | done |]. f_equal. symmetry. rewrite <- Hl. apply Forall_cons in Hb as [_ Hb].
  apply pack_unique; [done | done | | done | by rewrite Hw]. rewrite Hw, Hl. apply body_fits.
Qed.
Lemma decode_canonical topic t packet v : bytes_ok packet -> topic_of topic = Some t ->
  buddy1_decode topic packet = Some v -> snapshot_typed v /\ v = received t v.
Proof.
  intros Hb Et E. apply decode_some in E as (t' & b & Et' & -> & Hl & Hp & Hr); [| done]. simplify_eq.
  unfold run in Hr. destruct (read_body t b 0) as [[v' q] |] eqn:Eq; [| done]. injection Hr as ->.
  destruct (written_body t b 0 v q Eq) as (fs & (_ & T & S) & _). done.
Qed.
Lemma nearest_even_error mms : Z.abs (nearest_even mms - mms) <= 1.
Proof.
  unfold nearest_even. pose proof (Z.div_mod (Z.abs mms + 1) 2 ltac:(lia)). pose proof (Z.mod_pos_bound (Z.abs mms + 1) 2 ltac:(lia)).
  case_if; unbool; lia.
Qed.

(** C36: telemetry packets.  On every topic a packet that the code encodes has the
    topic's size and decodes to the same values, absent sections of a snapshot
    as absent and wheel speeds to the nearest even mm/s, an error of at most one;
    and a packet is accepted only if it is, byte for byte, the encoding of the
    values returned, so that no two packets mean the same. *)
Theorem buddy1_packets_roundtrip topic t v packet : topic_of topic = Some t -> snapshot_typed v -> bytes_ok packet ->
  let size := buddy1_payload_size topic in
  (forall p, buddy1_encode topic v (Z.of_nat size) = Some p ->
     length p = size /\ buddy1_decode topic p = Some (received t v) /\
     (t = TOPIC_MOTION -> Z.abs (left_mms (received t v) - left_mms v) <= 1 /\
                          Z.abs (right_mms (received t v) - right_mms v) <= 1)) /\
  (forall v', buddy1_decode topic packet = Some v' -> buddy1_encode topic v' (Z.of_nat size) = Some packet).
Proof.
  intros Et T Hb size. split.
  - intros p Hp. destruct (encode_decode _ _ _ _ Et T Hp) as (L & _ & D). splits; [done | done |].
    intros ->. split; apply nearest_even_error.
  - intros v'. by apply decode_encode.
Qed.
Definition bench_snapshot : BUDDY1_SNAPSHOT :=
  zero_snapshot <| motion_valid := true |> <| left_mms := -121 |> <| right_mms := 510 |> <| faults_valid := true |>
    <| faults := 36 |> <| barcode_valid := true |> <| barcode_letter := 89 |> <| barcode_action := BUDDY1_ACTION_LEFT |>.
Lemma buddy1_packets_roundtrip_witness : exists p,
  buddy1_encode 7 bench_snapshot 14 = Some p /\ length p = 14%nat /\
  buddy1_decode 7 p = Some (bench_snapshot <| left_mms := -122 |>) /\
  buddy1_encode 7 (bench_snapshot <| left_mms := -122 |>) 14 = Some p.
Proof.
  destruct (buddy1_encode 7 bench_snapshot 14) as [p |] eqn:E; [| by vm_compute in E].
  destruct (buddy1_packets_roundtrip 7 TOPIC_SNAPSHOT bench_snapshot p) as [H1 H2]; [done | | |].
  - unfold snapshot_typed, in_u. cbn. lia.
  - injection E as <-. apply (bool_decide_unpack _). by vm_compute.
  - destruct (H1 p E) as (L & D & _). exists p. splits; [done | done | exact D | by apply H2].
Defined.

(** ** The barcode map packet *)
Definition map_ok (m : BUDDY1_BARCODE_MAP) : Prop :=
  Forall (fun l => LETTER_A <= l <= LETTER_Z) (map_letters m) /\ NoDup (map_letters m).
#[export] Instance map_ok_dec m : Decision (map_ok m).
Proof. unfold map_ok. apply _. Defined.

Lemma map_pack_some m p : buddy1_map_pack m = Some p <->
  map_ok m /\ p = BUDDY1_WIRE_VERSION :: pack 3 (map (fun l => (l - LETTER_A, 5%nat)) (map_letters m)).
Proof.
  unfold buddy1_map_pack, map_ok. cbv zeta. destruct m as [f l r u]. unfold map_letters. cbn [forward left right uturn].
  set (P := pack 3 _). clearbody P.
  change (range 4) with [0; 1; 2; 3]. cbn [existsb]. change (range (Z.to_nat 0)) with (@nil Z).
  change (range (Z.to_nat 1)) with [0]. change (range (Z.to_nat 2)) with [0; 1]. change (range (Z.to_nat 3)) with [0; 1; 2].
  cbn [existsb].
  change (nthZ 0 [f; l; r; u] 0) with f. change (nthZ 0 [f; l; r; u] 1) with l.
  change (nthZ 0 [f; l; r; u] 2) with r. change (nthZ 0 [f; l; r; u] 3) with u.
  rewrite !NoDup_cons, !Forall_cons, !elem_of_cons, !elem_of_nil.
  destruct (_ || _) eqn:G.
  - split; [done |]. intros [[F N] _]. exfalso. revert G. apply not_true_iff_false.
    rewrite !orb_false_iff, !outside_false, !Z.eqb_neq. naive_solver.
  - rewrite !orb_false_iff, !outside_false, !Z.eqb_neq in G.
    split; [intros [= <-] | by intros [_ ->]]. split; [| done]. split; [naive_solver |]. splits; try naive_solver. apply NoDup_nil_2.
Qed.
Lemma map_letters_range m l : map_ok m -> In l (map_letters m) -> LETTER_A <= l <= LETTER_Z.
Proof. intros [F _] Hl. rewrite Forall_forall in F. apply F. by apply list_elem_of_In. Qed.

(** A map packs exactly when its letters are distinct and in A..Z, and unpacks
    to itself; a packet that unpacks is the packing of the map it gives. *)
Lemma map_unpack_pack m p : buddy1_map_pack m = Some p -> buddy1_map_unpack p = Some m /\ length p = BUDDY1_MAP_BYTES.
Proof.
  intros E. pose proof E as E'. apply map_pack_some in E as [Ok ->]. set (fs := map _ _).
  assert (W : widths_ok fs) by (subst fs; cbn; check_widths). assert (Wd : total_width fs = 20) by done.
  assert (L : length (pack 3 fs) = 3%nat) by (apply length_pack; rewrite Wd; lia).
  assert (R : run read_map (pack 3 fs) = Some m).
  { apply reads_run; [| done | rewrite Wd; lia].
    assert (Rg : forall l, In l (map_letters m) -> in_u (Z.of_nat 5) (l - LETTER_A) /\ u8 (LETTER_A + (l - LETTER_A)) = l).
    { intros l Hl. pose proof (map_letters_range m l Ok Hl). split; [| by apply letter_u8].
      unfold in_u, LETTER_A, LETTER_Z in *. change (2 ^ Z.of_nat 5) with 32. lia. }
    destruct m as [f l r u]. cbn [map_letters forward left right uturn] in Rg. subst fs. cbn [map_letters forward left right uturn map].
    destruct (Rg f ltac:(cbn; tauto)) as [F1 F2], (Rg l ltac:(cbn; tauto)) as [L1 L2], (Rg r ltac:(cbn; tauto)) as [R1 R2],
      (Rg u ltac:(cbn; tauto)) as [U1 U2].
    unfold read_map. do 4 (apply reads_get; [done |]). rewrite F2, L2, R2, U2. apply reads_ret. }
  split; [| by cbn [length]; rewrite L]. unfold buddy1_map_unpack. cbn [length tail]. rewrite L, R, E'. cbn [Nat.eqb negb orb].
  change (nthZ 0 (BUDDY1_WIRE_VERSION :: pack 3 fs) 0) with BUDDY1_WIRE_VERSION. cbn [Z.eqb].
  change 3 with (2 + 1) at 1. rewrite nthZ_tail by lia. rewrite byte_mask_zero; [done | lia | lia |].
  intros j Hj Hm. apply pack_padding; [rewrite Wd; lia |]. rewrite Wd.
  destruct (Z.lt_ge_cases j 4); [| lia]. exfalso. revert Hm. apply not_true_iff_false. apply negb_true_iff.
  replace j with (0 + j) by lia. apply (forall_range (fun j => negb (Z.testbit 0xf0 j)) 0 4); [by vm_compute | lia].
Qed.
Lemma map_unpack_some packet m : buddy1_map_unpack packet = Some m -> map_ok m.
Proof.
  unfold buddy1_map_unpack. case_if; [done |]. destruct (run _ _) as [m' |]; [| done].
  destruct (buddy1_map_pack m') as [p |] eqn:E; [| done]. intros [= ->]. apply map_pack_some in E. tauto.
Qed.
Lemma map_pack_unpack packet m : bytes_ok packet -> buddy1_map_unpack packet = Some m -> buddy1_map_pack m = Some packet.
Proof.
  intros Hb E. pose proof (map_unpack_some _ _ E) as Ok. apply map_pack_some. split; [done |]. revert E.
  unfold buddy1_map_unpack. case_if; [done |]. rewrite !orb_false_iff, !negb_false_iff, Nat.eqb_eq, !Z.eqb_eq in Heqb.
  destruct Heqb as ((L & V) & M). destruct packet as [| x b]; [by vm_compute in L |]. cbn [length] in L. change (nthZ 0 (x :: b) 0) with x in V.
  change 3 with (2 + 1) in M. rewrite nthZ_tail in M by lia. subst x. apply Forall_cons in Hb as [_ Hb]. cbn [tail].
  unfold run. destruct (read_map b 0) as [[m' q] |] eqn:Er; [| done]. cbn [fmap option_fmap option_map fst].
  destruct (buddy1_map_pack m'); [| done]. intros [= ->]. f_equal. symmetry.
  assert (Hl : length b = 3%nat) by (unfold BUDDY1_MAP_BYTES in L; lia).
  assert (Wr : written read_map (fun m fs => fs = map (fun l => (l - LETTER_A, 5%nat)) (map_letters m))).
  { unfold read_map. apply written_get; [lia |]. intros f Hf. apply written_get; [lia |]. intros l Hl'.
    apply written_get; [lia |]. intros r Hr. apply written_get; [lia |]. intros u Hu. apply written_ret.
    cbn [map_letters forward left right uturn map]. unfold in_u, LETTER_A, u8 in *. change (2 ^ Z.of_nat 5) with 32 in *.
    rewrite !wrap_id by (unfold in_u; lia). rewrite (Z.add_comm 65 f), (Z.add_comm 65 l), (Z.add_comm 65 r), (Z.add_comm 65 u).
    by rewrite !Z.add_simpl_r. }
  destruct (Wr _ _ _ _ Er) as (fs & Hfs & He & W & _). rewrite <- Hfs. rewrite <- Hl.
  assert (Wd : total_width fs = 20) by (by rewrite Hfs). apply pack_unique; try done; rewrite Wd, Hl; [lia |].
  intros k Hk. replace k with (8 * 2 + (k - 16)) by lia. eapply byte_mask_clear; [lia | lia | exact M |].
  replace (k - 16) with (4 + (k - 20)) by lia. apply (forall_range (fun j => Z.testbit 0xf0 j) 4 4); [by vm_compute | lia].
Qed.
