(* ===== verification/TelemetryStore.v ===== *)
(** * Telemetry store

    Models [subsystem1/subsystem1.c] and the outgoing half of
    [subsystem1/mqtt_bridge.c]: the packed snapshot [latest] that every reporter
    updates under the Buddy 1 mutex, and the four-message outbox to the network
    task.  [lk] is whether the [tk_loc_mtx] of the call succeeds; the kernel's
    message buffer is a queue of at most four messages whose non-blocking send
    fails with [E_TMOUT] when it is full.  [encode_into] is [buddy1_encode] with
    the buffer it leaves behind, as the store encodes in place. *)
From Stdlib Require Import Strings.String.
From S2P Require Import Prelude BitCodec Telemetry.

(** The error codes that the code returns or distinguishes; [E_LOCK] stands for
    the error of a failed [tk_loc_mtx]. *)
Inductive ER := E_OK | E_PAR | E_OBJ | E_SYS | E_TMOUT | E_LOCK.
#[export] Instance er_eq_dec : EqDecision ER.
Proof. solve_decision. Defined.
Record message := { msg_type : Z; msg_payload : bytes }.
Definition BUDDY1_PAYLOAD_MAX : nat := 14.
Definition BUDDY1_QUEUE_MESSAGES : nat := 4.
Definition TOPIC_CODE_SNAPSHOT : Z := 7.
Definition TOPIC_CODE_FAULTS : Z := 6.
Record store := { latest : bytes; outbox : list message }.
#[export] Instance store_settable : Settable store := fun r => Build_store (latest r) (outbox r).
Definition store_boot : store := {| latest := BUDDY1_WIRE_VERSION :: zeros 13; outbox := [] |}.

(** ** Encoding in place *)
(** The fields written before the first section that is out of range. *)
Fixpoint fill_sections (l : list topic_t) (v : BUDDY1_SNAPSHOT) : bool * list field :=
  match l with
  | [] => (true, [])
  | t :: l =>
      match (if section_valid t v then write_fields t v else Some [(0, body_bits t)]) with
      | None => (false, [])
      | Some fs => let '(ok, rest) := fill_sections l v in (ok, fs ++ rest)
      end
  end.
(** [buddy1_encode(BUDDY1_TOPIC_SNAPSHOT, v, latest, sizeof(latest))] *)
Definition encode_into (v : BUDDY1_SNAPSHOT) : bool * bytes :=
  let '(ok, fs) := fill_sections sections v in
  (ok, BUDDY1_WIRE_VERSION :: pack 13 ((validity v, 7%nat) :: fs)).

(** ** The outbox *)
Definition send (s : store) (m : message) : ER * store :=
  if (BUDDY1_QUEUE_MESSAGES <=? length (outbox s))%nat then (E_TMOUT, s)
  else (E_OK, s <| outbox := outbox s ++ [m] |>).
Definition buddy1_queue_publish (s : store) (type : Z) (payload : bytes) : ER * store :=
  if negb (buddy1_payload_valid type payload) then (E_PAR, s)
  else send s {| msg_type := type;
                 msg_payload := payload ++ zeros (BUDDY1_PAYLOAD_MAX - length payload) |}.
Definition buddy1_outbox_take (s : store) : option message * store :=
  match outbox s with [] => (None, s) | m :: rest => (Some m, s <| outbox := rest |>) end.
(** The topic names of the wire protocol; all are shorter than the 64 bytes of
    [T_MQTT_UTK_APP_MSG], and no payload exceeds its 14. *)
Definition topic_name (t : topic_t) : string :=
  match t with
  | TOPIC_MOTION => "car/telemetry/motion" | TOPIC_BARCODE => "car/telemetry/barcode" | TOPIC_HUMP => "car/telemetry/hump"
  | TOPIC_HEADING => "car/telemetry/heading" | TOPIC_OBSTACLE => "car/telemetry/obstacle" | TOPIC_STATE => "car/telemetry/state"
  | TOPIC_FAULTS => "car/telemetry/faults" | TOPIC_SNAPSHOT => "car/reply/snapshot" | TOPIC_MAP_REPLY => "car/reply/barcode_map"
  | TOPIC_STATUS => "car/status" | TOPIC_POSE => "car/telemetry/pose" | TOPIC_TERRAIN => "car/telemetry/terrain"
  end.
Definition buddy1_topic_name (topic : Z) : option string := topic_name <$> topic_of topic.
Definition MQTT_UTK_APP_PAYLOAD_MAX : nat := 14.
Record T_MQTT_UTK_APP_MSG := { app_topic : string; app_payload : bytes; app_qos : Z; app_retain : Z }.
(** The message handed to the network task; [None]: nothing to send, [out] is not used. *)
Definition mqtt_utk_app_take (s : store) : option T_MQTT_UTK_APP_MSG * store :=
  match buddy1_outbox_take s with
  | (None, s) => (None, s)
  | (Some m, s) =>
      match buddy1_topic_name (msg_type m) with
      | None => (None, s)
      | Some topic =>
          let n := buddy1_payload_size (msg_type m) in
          if (MQTT_UTK_APP_PAYLOAD_MAX <? n)%nat then (None, s)
          else (Some {| app_topic := topic; app_payload := take n (msg_payload m);
                        app_qos := if (msg_type m =? TOPIC_CODE_SNAPSHOT) || (msg_type m =? 8) then 1 else 0;
                        app_retain := 0 |}, s)
      end
  end.

(** ** Reports *)
Definition cached (t : topic_t) (cache v : BUDDY1_SNAPSHOT) : option BUDDY1_SNAPSHOT :=
  match t with
  | TOPIC_MOTION => Some (cache <| motion_valid := true |> <| left_mms := left_mms v |> <| right_mms := right_mms v |>)
  | TOPIC_BARCODE => Some (cache <| barcode_valid := true |> <| barcode_letter := barcode_letter v |>
                                 <| barcode_action := barcode_action v |>)
  | TOPIC_HUMP => Some (cache <| hump_valid := true |> <| hump_count := hump_count v |>
                              <| hump_height_mm := hump_height_mm v |>)
  | TOPIC_HEADING => Some (cache <| heading_valid := true |> <| heading_deg := heading_deg v |>)
  | TOPIC_OBSTACLE => Some (cache <| obstacle_valid := true |> <| obstacle_distance_mm := obstacle_distance_mm v |>
                                  <| obstacle_width_mm := obstacle_width_mm v |> <| obstacle_route := obstacle_route v |>)
  | TOPIC_STATE => Some (cache <| robot_state_valid := true |> <| robot_state := robot_state v |>)
  | _ => None
  end.
Definition store_section (s : store) (t : topic_t) (v : BUDDY1_SNAPSHOT) : ER * store :=
  match buddy1_decode TOPIC_CODE_SNAPSHOT (latest s) with
  | None => (E_SYS, s)
  | Some cache =>
      match cached t cache v with
      | None => (E_PAR, s)
      | Some cache => let '(ok, b) := encode_into cache in (if ok then E_OK else E_PAR, s <| latest := b |>)
      end
  end.
Definition live_only (t : topic_t) : bool := match t with TOPIC_POSE | TOPIC_TERRAIN => true | _ => false end.
(** The number of a topic. *)
Definition topic_code (t : topic_t) : Z :=
  match t with
  | TOPIC_MOTION => 0 | TOPIC_BARCODE => 1 | TOPIC_HUMP => 2 | TOPIC_HEADING => 3 | TOPIC_OBSTACLE => 4 | TOPIC_STATE => 5
  | TOPIC_FAULTS => 6 | TOPIC_SNAPSHOT => 7 | TOPIC_MAP_REPLY => 8 | TOPIC_STATUS => 9 | TOPIC_POSE => 10
  | TOPIC_TERRAIN => 11
  end.
Definition report (lk : bool) (s : store) (t : topic_t) (v : BUDDY1_SNAPSHOT) : ER * store :=
  match buddy1_encode (topic_code t) v (Z.of_nat BUDDY1_PAYLOAD_MAX) with
  | None => (E_PAR, s)
  | Some payload =>
      if live_only t then buddy1_queue_publish s (topic_code t) payload
      else if negb lk then (E_LOCK, s)
      else
        let '(er, s) := store_section s t v in
        if bool_decide (er = E_OK) then buddy1_queue_publish s (topic_code t) payload else (er, s)
  end.
Definition buddy1_report_motion lk s (l r : Z) := report lk s TOPIC_MOTION (zero_snapshot <| left_mms := l |> <| right_mms := r |>).
Definition buddy1_report_hump lk s (count height : Z) :=
  report lk s TOPIC_HUMP (zero_snapshot <| hump_count := count |> <| hump_height_mm := height |>).
Definition buddy1_report_heading lk s (deg : Z) := report lk s TOPIC_HEADING (zero_snapshot <| heading_deg := deg |>).
Definition buddy1_report_obstacle lk s (distance width route : Z) :=
  report lk s TOPIC_OBSTACLE (zero_snapshot <| obstacle_distance_mm := distance |> <| obstacle_width_mm := width |>
                                            <| obstacle_route := route |>).
Definition buddy1_report_pose lk s (cm deg : Z) :=
  report lk s TOPIC_POSE (zero_snapshot <| pose_distance_cm := cm |> <| pose_heading_deg := deg |>).
Definition buddy1_report_terrain lk s (t : BUDDY1_TERRAIN) := report lk s TOPIC_TERRAIN (zero_snapshot <| terrain := t |>).
Definition buddy1_report_robot_state lk s (state : Z) := report lk s TOPIC_STATE (zero_snapshot <| robot_state := state |>).
(** [action]: what [buddy1_barcode_action(letter)] returned. *)
Definition buddy1_report_barcode lk s (letter action : Z) :=
  report lk s TOPIC_BARCODE (zero_snapshot <| barcode_letter := letter |> <| barcode_action := action |>).

(** [buddy1_encode(BUDDY1_TOPIC_FAULTS, &v, packet, sizeof(packet))]; when it
    fails, the packet holds the version and a zero byte. *)
Definition faults_packet (v : BUDDY1_SNAPSHOT) : bytes :=
  default [BUDDY1_WIRE_VERSION; 0] (buddy1_encode TOPIC_CODE_FAULTS v 2).
Definition merge_faults (old changed active : Z) : Z := u8 (Z.lor (Z.land old (u8 (Z.lnot changed))) active).
Definition buddy1_update_faults (lk : bool) (s : store) (changed active : Z) : ER * store :=
  if (changed =? 0) || negb (Z.land changed (u32 (Z.lnot BUDDY1_FAULT_MASK)) =? 0) || negb (Z.land active (Z.lnot changed) =? 0)
  then (E_PAR, s)
  else if negb lk then (E_LOCK, s)
  else match buddy1_decode TOPIC_CODE_SNAPSHOT (latest s) with
  | None => (E_SYS, s)
  | Some v =>
      let v := v <| faults := merge_faults (faults v) changed active |> <| faults_valid := true |> in
      buddy1_queue_publish (s <| latest := (encode_into v).2 |>) TOPIC_CODE_FAULTS (faults_packet v)
  end.
Definition BUDDY1_FAULT_WIFI : Z := 16.
Definition mqtt_utk_app_link (lk : bool) (s : store) (up : bool) : bool * store :=
  let '(er, s) := buddy1_update_faults lk s BUDDY1_FAULT_WIFI (if up then 0 else BUDDY1_FAULT_WIFI) in
  (bool_decide (er = E_OK) || bool_decide (er = E_TMOUT), s).

(** [bytes[k/8] &= (UB)~(1U << k%8)] *)
Definition clear_bit (b : bytes) (k : Z) : bytes :=
  setZ b (k / 8) (Z.land (nthZ 0 b (k / 8)) (u8 (Z.lnot (Z.shiftl 1 (k mod 8))))).
Definition clear_bits (b : bytes) (from : Z) (n : nat) : bytes :=
  fold_left (fun b i => clear_bit b (from + i)) (range n) b.
(** [offset]: bit 0 of the body is bit 8 of the packet. *)
Definition section_offset (type : Z) : Z :=
  fold_left (fun offset i => offset + Z.of_nat (buddy1_payload_bits i)) (range (Z.to_nat type)) 7.
Definition buddy1_invalidate (lk : bool) (s : store) (type : Z) : ER * store :=
  if TOPIC_CODE_FAULTS <? type then (E_PAR, s)
  else if negb lk then (E_LOCK, s)
  else (E_OK, s <| latest := clear_bits (clear_bit (latest s) (8 + type)) (8 + section_offset type)
                              (buddy1_payload_bits type) |>).

Definition buddy1_snapshot_packet (lk : bool) (s : store) : option bytes := if lk then Some (latest s) else None.
Definition buddy1_snapshot (lk : bool) (s : store) : option BUDDY1_SNAPSHOT :=
  match buddy1_snapshot_packet lk s with Some b => buddy1_decode TOPIC_CODE_SNAPSHOT b | None => None end.
Definition buddy1_motion_snapshot (lk : bool) (s : store) : option (Z * Z) :=
  match buddy1_snapshot lk s with
  | Some v => if motion_valid v then Some (left_mms v, right_mms v) else None
  | None => None
  end.
(** The heartbeat the network task sends. *)
Definition mqtt_utk_app_status (lk : bool) (s : store) (capacity : Z) : option bytes :=
  match buddy1_snapshot lk s with Some v => buddy1_encode 9 v capacity | None => None end.

(** ** The abstract store *)
(** The snapshot that [latest] stands for. *)
Definition view (s : store) : option BUDDY1_SNAPSHOT := buddy1_decode TOPIC_CODE_SNAPSHOT (latest s).
Definition without_section (t : topic_t) (v : BUDDY1_SNAPSHOT) : BUDDY1_SNAPSHOT :=
  match t with
  | TOPIC_MOTION => v <| motion_valid := false |> <| left_mms := 0 |> <| right_mms := 0 |>
  | TOPIC_BARCODE => v <| barcode_valid := false |> <| barcode_letter := 0 |> <| barcode_action := 0 |>
  | TOPIC_HUMP => v <| hump_valid := false |> <| hump_count := 0 |> <| hump_height_mm := 0 |>
  | TOPIC_HEADING => v <| heading_valid := false |> <| heading_deg := 0 |>
  | TOPIC_OBSTACLE => v <| obstacle_valid := false |> <| obstacle_distance_mm := 0 |> <| obstacle_width_mm := 0 |>
                        <| obstacle_route := 0 |>
  | TOPIC_STATE => v <| robot_state_valid := false |> <| robot_state := 0 |>
  | TOPIC_FAULTS => v <| faults_valid := false |> <| faults := 0 |>
  | _ => v
  end.
(** A queued message is a valid packet of its topic in a slot of 14 bytes. *)
Definition message_ok (m : message) : Prop :=
  length (msg_payload m) = BUDDY1_PAYLOAD_MAX /\
  buddy1_payload_valid (msg_type m) (take (buddy1_payload_size (msg_type m)) (msg_payload m)) = true.
Record store_inv (s : store) (v : BUDDY1_SNAPSHOT) : Prop := {
  si_bytes : bytes_ok (latest s); si_view : view s = Some v;
  si_room : (length (outbox s) <= BUDDY1_QUEUE_MESSAGES)%nat; si_messages : Forall message_ok (outbox s)
}.

(** ** Replacing one section *)
(** [c'] is [c] with the section of [t] as in [v]. *)
Record updates (t : topic_t) (c v c' : BUDDY1_SNAPSHOT) : Prop := {
  up_write : write_fields t c' = write_fields t v;
  up_valid : section_valid t c' = true;
  up_with : forall x, with_section t x c' = with_section t x v;
  up_frame : forall t', t' <> t -> write_fields t' c' = write_fields t' c /\ section_valid t' c' = section_valid t' c /\
    forall x, with_section t' x c' = with_section t' x c
}.
Lemma cached_updates t c v c' : cached t c v = Some c' -> updates t c v c' /\ In t sections.
Proof. destruct t; intros [= <-]; (split; [split; [done | done | done | by intros []] | cbn; tauto]). Qed.
Lemma faults_updates c f : updates TOPIC_FAULTS c (zero_snapshot <| faults := f |>) (c <| faults := f |> <| faults_valid := true |>).
Proof. split; [done | done | done | by intros []]. Qed.

Lemma with_section_comm t t' x a b : t <> t' ->
  with_section t (with_section t' x a) b = with_section t' (with_section t x b) a.
Proof. destruct t, t'; done. Qed.
Lemma with_section_twice t x a b : with_section t (with_section t x a) b = with_section t x b.
Proof. by destruct t. Qed.
Lemma with_section_past t l v c : ~ In t l -> forall x,
  with_section t (with_sections l x c) v = with_sections l (with_section t x v) c.
Proof.
  induction l as [| t' l IH]; intros Hl x; [done |]. cbn [with_sections]. rewrite IH by (intros ?; apply Hl; by right).
  f_equal. case_if; [| done]. apply with_section_comm. intros ->. apply Hl. by left.
Qed.
Lemma with_sections_same l a b : (forall t, In t l -> section_valid t a = section_valid t b /\
  forall x, with_section t x a = with_section t x b) -> forall x, with_sections l x a = with_sections l x b.
Proof.
  induction l as [| t l IH]; intros H x; [done |]. cbn [with_sections]. destruct (H t ltac:(by left)) as [-> E].
  rewrite E. apply IH. intros. apply H. by right.
Qed.
Lemma updates_sections t c v c' l : updates t c v c' -> NoDup l -> In t l -> forall x,
  with_sections l x c' = with_section t (with_sections l x c) v.
Proof.
  intros U. induction l as [| t' l IH]; intros Nd Hin x; [done |]. apply NoDup_cons in Nd as [Hl Nd].
  rewrite list_elem_of_In in Hl. cbn [with_sections]. destruct (decide (t' = t)) as [-> | Ne].
  - rewrite (up_valid _ _ _ _ U), (up_with _ _ _ _ U).
    rewrite (with_sections_same l c' c).
    + rewrite with_section_past by done. case_if; by rewrite ?with_section_twice.
    + intros t' Ht'. destruct (up_frame _ _ _ _ U t') as (_ & E1 & E2); [by intros -> | done].
  - destruct (up_frame _ _ _ _ U t' Ne) as (_ & -> & E). rewrite E. destruct Hin as [-> | Hin]; [done |].
    by rewrite IH.
Qed.
Lemma updates_write t c v c' fs1 l : updates t c v c' -> write_fields t v = Some fs1 ->
  forall fs, write_sections l c = Some fs -> exists fs', write_sections l c' = Some fs'.
Proof.
  intros U W. induction l as [| t' l IH]; intros fs Hl; [by eexists |]. cbn [write_sections] in *.
  destruct (write_sections l c) as [f2 |]; [| by destruct (if section_valid t' c then _ else _)].
  destruct (IH f2 eq_refl) as [f2' ->]. destruct (decide (t' = t)) as [-> | Ne].
  - rewrite (up_valid _ _ _ _ U), (up_write _ _ _ _ U), W. by eexists.
  - destruct (up_frame _ _ _ _ U t' Ne) as (-> & -> & _). destruct (section_valid t' c); [| by eexists].
    destruct (write_fields t' c); [by eexists | done].
Qed.
Lemma fill_write l v fs : write_sections l v = Some fs <-> fill_sections l v = (true, fs).
Proof.
  revert fs. induction l as [| t l IH]; intros fs; cbn [write_sections fill_sections]; [naive_solver |].
  destruct (if section_valid t v then _ else _) as [f1 |]; [| naive_solver].
  destruct (fill_sections l v) as [[] f2] eqn:E.
  - rewrite (proj2 (IH f2) eq_refl). naive_solver.
  - destruct (write_sections l v) as [f3 |]; [| naive_solver]. by pose proof (proj1 (IH f3) eq_refl).
Qed.
Lemma encode_snapshot v fs : write_sections sections v = Some fs ->
  exists p, encode_into v = (true, p) /\ buddy1_encode TOPIC_CODE_SNAPSHOT v (Z.of_nat (buddy1_payload_size TOPIC_CODE_SNAPSHOT)) = Some p.
Proof.
  intros W. unfold encode_into. rewrite (proj1 (fill_write _ _ _) W). eexists. split; [done |]. apply encode_some.
  exists TOPIC_SNAPSHOT, ((validity v, 7%nat) :: fs). splits; [done | | done]. cbn [write_body]. by rewrite W.
Qed.
Lemma view_writable b v : bytes_ok b -> buddy1_decode TOPIC_CODE_SNAPSHOT b = Some v ->
  (exists fs, write_sections sections v = Some fs) /\ snapshot_typed v /\ v = with_sections sections zero_snapshot v.
Proof.
  intros Hb E. pose proof (decode_encode _ _ _ Hb E) as W. apply encode_some in W as (t & fs & [= <-] & W & _).
  cbn [write_body] in W. destruct (decode_canonical TOPIC_CODE_SNAPSHOT TOPIC_SNAPSHOT _ _ Hb eq_refl E) as [T S]. splits; [| done | exact S].
  destruct (write_sections sections v) as [f |]; [by exists f | done].
Qed.
Lemma sections_nodup : NoDup sections.
Proof. by apply (bool_decide_unpack _); vm_compute. Qed.

(** Encoding an updated snapshot in place. *)
Lemma encode_updated b c t v c' fs : bytes_ok b -> buddy1_decode TOPIC_CODE_SNAPSHOT b = Some c -> updates t c v c' ->
  In t sections -> write_fields t v = Some fs -> snapshot_typed c' ->
  exists p, encode_into c' = (true, p) /\ bytes_ok p /\ buddy1_decode TOPIC_CODE_SNAPSHOT p = Some (with_section t c v).
Proof.
  intros Hb E U Ht W T. destruct (view_writable b c Hb E) as ([f Hf] & _ & S).
  destruct (updates_write t c v c' fs sections U W f Hf) as [f' Hf']. destruct (encode_snapshot c' f' Hf') as (p & -> & Ep).
  destruct (encode_decode TOPIC_CODE_SNAPSHOT TOPIC_SNAPSHOT _ _ eq_refl T Ep) as (_ & Bp & D). exists p. splits; [done | done |].
  rewrite D. f_equal. change (received TOPIC_SNAPSHOT c') with (with_sections sections zero_snapshot c').
  rewrite (updates_sections t c v c' sections U sections_nodup Ht). by rewrite <- S.
Qed.

(** ** Clearing bits *)
Lemma bit_clear_bit b j k : 0 <= j < 8 * Z.of_nat (length b) -> 0 <= k ->
  bit_at (clear_bit b j) k = negb (j =? k) && bit_at b k.
Proof.
  intros Hj Hk. rewrite !bit_at_testbit. unfold clear_bit.
  pose proof (Z.mod_pos_bound j 8 ltac:(lia)) as Mj. pose proof (Z.mod_pos_bound k 8 ltac:(lia)) as Mk.
  pose proof (Z.div_mod j 8 ltac:(lia)) as Dj. pose proof (Z.div_mod k 8 ltac:(lia)) as Dk.
  assert (0 <= j / 8 < Z.of_nat (length b)) by (split; [apply Z.div_pos | apply Z.div_lt_upper_bound]; lia).
  assert (0 <= k / 8) by (apply Z.div_pos; lia).
  rewrite nthZ_setZ by done. destruct (Z.eqb_spec (j / 8) (k / 8)) as [E |].
  - rewrite E, Z.land_spec. unfold u8, wrap. rewrite Z.testbit_mod_pow2, Z.lnot_spec, Z.shiftl_1_l, Z.pow2_bits_eqb by lia.
    destruct (Z.ltb_spec (k mod 8) 8); [| lia]. cbn [andb]. rewrite andb_comm. f_equal. f_equal.
    destruct (Z.eqb_spec (j mod 8) (k mod 8)), (Z.eqb_spec j k); congruence || lia.
  - destruct (Z.eqb_spec j k) as [-> |]; done.
Qed.
Lemma byte_land x y : 0 <= x < 256 -> 0 <= Z.land x y < 256.
Proof.
  intros Hx. assert (Z.land x y = Z.land x y mod 2 ^ 8) as ->; [| apply Z.mod_pos_bound; lia].
  apply Z.bits_inj'. intros i Hi. rewrite Z.testbit_mod_pow2, Z.land_spec by lia.
  destruct (Z.ltb_spec i 8); [done |]. rewrite <- (Z.mod_small x (2 ^ 8)), Z.testbit_mod_pow2 by lia.
  destruct (Z.ltb_spec i 8); [lia | done].
Qed.
Lemma clear_bit_ok b k : bytes_ok b -> bytes_ok (clear_bit b k) /\ length (clear_bit b k) = length b.
Proof.
  intros Hb. split; [| apply length_setZ]. unfold clear_bit, setZ. case_if; [done |]. apply Forall_insert; [done |].
  apply byte_land, nthZ_byte, Hb.
Qed.
Lemma clear_bits_spec b from n : bytes_ok b -> 0 <= from -> from + Z.of_nat n <= 8 * Z.of_nat (length b) ->
  bytes_ok (clear_bits b from n) /\ length (clear_bits b from n) = length b /\
  forall k, 0 <= k -> bit_at (clear_bits b from n) k = negb ((from <=? k) && (k <? from + Z.of_nat n)) && bit_at b k.
Proof.
  intros Hb Hf. unfold clear_bits. induction n as [| n IH]; intros Hn.
  { splits; [done | done |]. intros k Hk. cbn [range seq List.map map fold_left]. change (Z.of_nat 0) with 0. rewrite Z.add_0_r.
    destruct (Z.leb_spec from k), (Z.ltb_spec k from); done || lia. }
  destruct IH as (I1 & I2 & I3); [lia |]. rewrite range_S, fold_left_app. cbn [fold_left].
  set (b' := fold_left _ (range n) b) in *. destruct (clear_bit_ok b' (from + Z.of_nat n) I1) as [C1 C2].
  splits; [done | by rewrite C2 |]. intros k Hk. rewrite bit_clear_bit, I3 by lia. rewrite andb_assoc. f_equal.
  destruct (Z.eqb_spec (from + Z.of_nat n) k), (Z.leb_spec from k), (Z.ltb_spec k (from + Z.of_nat n)),
    (Z.ltb_spec k (from + Z.of_nat (S n))); done || lia.
Qed.
Lemma clear_bit_body x b k : 0 <= k -> clear_bit (x :: b) (8 + k) = x :: clear_bit b k.
Proof.
  intros Hk. unfold clear_bit. assert (0 <= k / 8) by (apply Z.div_pos; lia).
  replace ((8 + k) / 8) with (k / 8 + 1) by (replace (8 + k) with (k + 1 * 8) by lia; rewrite Z.div_add; lia).
  replace ((8 + k) mod 8) with (k mod 8) by (replace (8 + k) with (k + 1 * 8) by lia; by rewrite Z_mod_plus_full).
  rewrite nthZ_tail by done. unfold setZ. destruct (Z.ltb_spec (k / 8 + 1) 0); [lia |]. destruct (Z.ltb_spec (k / 8) 0); [lia |].
  by replace (Z.to_nat (k / 8 + 1)) with (S (Z.to_nat (k / 8))) by lia.
Qed.
Lemma clear_bits_body x b from n : 0 <= from -> clear_bits (x :: b) (8 + from) n = x :: clear_bits b from n.
Proof.
  intros Hf. unfold clear_bits. induction n as [| n IH]; [done |]. rewrite range_S, !fold_left_app, IH. cbn [fold_left].
  rewrite <- Z.add_assoc. apply clear_bit_body. lia.
Qed.

(** ** Removing a section *)
Lemma without_frame t t' v : t' <> t -> write_fields t' (without_section t v) = write_fields t' v /\
  section_valid t' (without_section t v) = section_valid t' v /\
  forall x, with_section t' x (without_section t v) = with_section t' x v.
Proof. destruct t, t'; done. Qed.
Lemma without_absent t v : In t sections -> section_valid t (without_section t v) = false.
Proof. destruct t; cbn; intuition discriminate. Qed.
Lemma without_comm t t' x v : t' <> t -> without_section t (with_section t' x v) = with_section t' (without_section t x) v.
Proof. destruct t, t'; done. Qed.
Lemma without_with t x v : In t sections -> without_section t (with_section t x v) = without_section t x.
Proof. destruct t; cbn; intuition discriminate. Qed.
Lemma without_sections t l v : In t sections -> forall x,
  with_sections l (without_section t x) (without_section t v) = without_section t (with_sections l x v).
Proof.
  intros Ht. induction l as [| t' l IH]; intros x; [done |]. cbn [with_sections]. destruct (decide (t' = t)) as [-> | Ne].
  - rewrite without_absent by done. rewrite <- IH. f_equal. case_if; by rewrite ?without_with.
  - destruct (without_frame t t' v Ne) as (_ & -> & E). rewrite E. rewrite <- IH. f_equal. case_if; [by rewrite without_comm | done].
Qed.
(** Where section [t] starts among the sections [l]. *)
Fixpoint offset_in (l : list topic_t) (t : topic_t) : Z :=
  match l with [] => 0 | t' :: l => if decide (t' = t) then 0 else Z.of_nat (body_bits t') + offset_in l t end.
Lemma section_width t v fs : (if section_valid t v then write_fields t v else Some [(0, body_bits t)]) = Some fs ->
  total_width fs = Z.of_nat (body_bits t).
Proof.
  destruct (section_valid t v) eqn:E.
  - intros W. apply (written_width t v). by destruct t.
  - intros [= <-]. unfold total_width. cbn. lia.
Qed.
Lemma sections_cleared t l v : In t sections -> NoDup l -> forall b b' p fs, write_sections l v = Some fs -> encodes b p fs ->
  (forall k, p <= k < p + total_width fs -> bit_at b' k =
    negb (bool_decide (t ∈ l) && (p + offset_in l t <=? k) && (k <? p + offset_in l t + Z.of_nat (body_bits t))) && bit_at b k) ->
  exists fs', write_sections l (without_section t v) = Some fs' /\ encodes b' p fs' /\ total_width fs' = total_width fs.
Proof.
  intros Ht. induction l as [| t' l IH]; intros Nd b b' p fs W E Hb; cbn [write_sections] in *; [exists []; naive_solver |].
  apply NoDup_cons in Nd as [Hl Nd].
  destruct (if section_valid t' v then _ else _) as [f1 |] eqn:E1; [| done].
  destruct (write_sections l v) as [f2 |] eqn:E2; [| done]. injection W as <-. pose proof (section_width t' v f1 E1) as W1.
  apply encodes_app in E as [Ea Eb]. rewrite total_width_app, W1 in *. pose proof (total_width_nonneg f2). cbn [offset_in] in Hb.
  destruct (decide (t' = t)) as [-> | Ne].
  - rewrite bool_decide_true in Hb by (apply elem_of_cons; by left). cbn [andb] in Hb. rewrite !Z.add_0_r in Hb.
    destruct (IH Nd b b' (p + Z.of_nat (body_bits t)) f2 eq_refl Eb) as (f2' & -> & Ec & Wc).
    { intros k Hk. rewrite (bool_decide_false (t ∈ l)) by done. cbn [andb negb]. rewrite Hb by lia.
      destruct (Z.ltb_spec k (p + Z.of_nat (body_bits t))); [lia |]. by rewrite andb_false_r. }
    rewrite without_absent by done. eexists. split; [done |]. cbn [app encodes]. rewrite total_width_cons. splits; [| done | lia].
    unfold wrap. rewrite Z.mod_0_l by lia. apply get_zero_iff. intros i Hi. rewrite Hb by lia.
    destruct (Z.leb_spec p (p + i)), (Z.ltb_spec (p + i) (p + Z.of_nat (body_bits t))); done || lia.
  - destruct (IH Nd b b' (p + Z.of_nat (body_bits t')) f2 eq_refl Eb) as (f2' & -> & Ec & Wc).
    { intros k Hk. rewrite Hb by lia. rewrite (bool_decide_ext (t ∈ t' :: l) (t ∈ l)) by (rewrite elem_of_cons; naive_solver).
      by rewrite !Z.add_assoc. }
    destruct (without_frame t t' v Ne) as (-> & -> & _). rewrite E1. eexists. split; [done |].
    rewrite encodes_app, total_width_app, W1. splits; [| done | lia]. apply (encodes_ext f1 b); [done |]. intros k Hk.
    rewrite Hb by lia. destruct (bool_decide_reflect (t ∈ t' :: l)) as [Hin |]; [| done].
    assert (0 <= offset_in l t) by (clear; induction l as [| x l IHl]; cbn; [lia | case_decide; lia]).
    destruct (Z.leb_spec (p + (Z.of_nat (body_bits t') + offset_in l t)) k); [lia | done].
Qed.

(** ** Operations as steps *)
Inductive store_op :=
| SReport (lk : bool) (t : topic_t) (v : BUDDY1_SNAPSHOT)
| SFaults (lk : bool) (changed active : Z)
| SInvalidate (lk : bool) (type : Z)
| STake.
Definition store_run (s : store) (op : store_op) : ER * store :=
  match op with
  | SReport lk t v => report lk s t v
  | SFaults lk changed active => buddy1_update_faults lk s changed active
  | SInvalidate lk type => buddy1_invalidate lk s type
  | STake => (E_OK, (buddy1_outbox_take s).2)
  end.
(** The topics that have a [buddy1_report_*] function. *)
Definition reportable (t : topic_t) : Prop :=
  t ∈ [TOPIC_MOTION; TOPIC_BARCODE; TOPIC_HUMP; TOPIC_HEADING; TOPIC_OBSTACLE; TOPIC_STATE; TOPIC_POSE; TOPIC_TERRAIN].
Definition store_op_ok (op : store_op) : Prop :=
  match op with
  | SReport _ t v => reportable t /\ snapshot_typed v
  | SFaults _ changed active => in_u 8 changed /\ in_u 8 active
  | SInvalidate _ type => in_u 8 type
  | STake => True
  end.
Inductive store_reachable : store -> Prop :=
| store_start : store_reachable store_boot
| store_next s op : store_reachable s -> store_op_ok op -> store_reachable (store_run s op).2.

Definition sent (er : ER) : Prop := er = E_OK \/ er = E_TMOUT.
Definition faults_request_ok (changed active : Z) : Prop :=
  changed <> 0 /\ Z.land changed (u32 (Z.lnot BUDDY1_FAULT_MASK)) = 0 /\ Z.land active (Z.lnot changed) = 0.
(** What an operation promises about the snapshot [c]. *)
Inductive promise (c : BUDDY1_SNAPSHOT) : store_op -> ER -> BUDDY1_SNAPSHOT -> Prop :=
| p_report lk t v er fs : live_only t = false -> write_fields t v = Some fs -> lk = true -> sent er ->
    promise c (SReport lk t v) er (with_section t c v)
| p_live lk t v er fs : live_only t = true -> write_fields t v = Some fs -> sent er -> promise c (SReport lk t v) er c
| p_report_range lk t v : write_fields t v = None -> promise c (SReport lk t v) E_PAR c
| p_report_lock t v : live_only t = false -> promise c (SReport false t v) E_LOCK c
| p_faults changed active er : faults_request_ok changed active -> sent er ->
    promise c (SFaults true changed active) er
      (c <| faults := merge_faults (faults c) changed active |> <| faults_valid := true |>)
| p_faults_range lk changed active : ~ faults_request_ok changed active -> promise c (SFaults lk changed active) E_PAR c
| p_faults_lock changed active : promise c (SFaults false changed active) E_LOCK c
| p_invalidate t : In t sections -> promise c (SInvalidate true (topic_code t)) E_OK (without_section t c)
| p_invalidate_range lk type : TOPIC_CODE_FAULTS < type -> promise c (SInvalidate lk type) E_PAR c
| p_invalidate_lock type : promise c (SInvalidate false type) E_LOCK c
| p_take : promise c STake E_OK c.
(** The message is the packet of topic [t], and its receiver reads [v] from it. *)
Definition carries (t : topic_t) (v : BUDDY1_SNAPSHOT) (m : message) : Prop :=
  message_ok m /\ msg_type m = topic_code t /\
  buddy1_decode (msg_type m) (take (buddy1_payload_size (msg_type m)) (msg_payload m)) = Some (received t v).
(** One message of topic [t] with the value [v] sent, as [er] tells. *)
Definition outbox_sent (s : store) (t : topic_t) (v : BUDDY1_SNAPSHOT) (er : ER) (s' : store) : Prop :=
  match er with
  | E_OK => (length (outbox s) < BUDDY1_QUEUE_MESSAGES)%nat /\ exists m, carries t v m /\ outbox s' = outbox s ++ [m]
  | E_TMOUT => length (outbox s) = BUDDY1_QUEUE_MESSAGES /\ outbox s' = outbox s
  | _ => s' = s
  end.
(** What happens to the outbox; [c'] is the snapshot after the operation. *)
Definition outbox_step (s : store) (op : store_op) (er : ER) (s' : store) (c' : BUDDY1_SNAPSHOT) : Prop :=
  match op with
  | STake => outbox s' = tail (outbox s)
  | SInvalidate _ _ => outbox s' = outbox s
  | SReport _ t v => outbox_sent s t v er s'
  | SFaults _ _ _ => outbox_sent s TOPIC_FAULTS c' er s'
  end.

Lemma topic_code_of t : topic_of (topic_code t) = Some t.
Proof. by destruct t. Qed.
Lemma payload_size_le topic : (buddy1_payload_size topic <= BUDDY1_PAYLOAD_MAX)%nat.
Proof. unfold buddy1_payload_size. destruct (topic_of topic) as [[] |]; vm_compute; lia. Qed.
Lemma encode_capacity topic v capacity : Z.of_nat (buddy1_payload_size topic) <= capacity ->
  buddy1_encode topic v capacity = buddy1_encode topic v (Z.of_nat (buddy1_payload_size topic)).
Proof.
  intros H. unfold buddy1_encode. destruct (topic_of topic); [| done]. rewrite Z.ltb_irrefl.
  by rewrite (proj2 (Z.ltb_ge _ _) H).
Qed.
(** Publishing a packet that was just encoded. *)
Lemma publish_ok s v t w p : store_inv s v -> t <> TOPIC_MAP_REPLY -> snapshot_typed w ->
  buddy1_encode (topic_code t) w (Z.of_nat (buddy1_payload_size (topic_code t))) = Some p ->
  let '(er, s') := buddy1_queue_publish s (topic_code t) p in
  sent er /\ store_inv s' v /\ outbox_sent s t w er s'.
Proof.
  intros [I1 I2 I3 I4] Ne T E. pose proof (topic_code_of t) as Et. set (topic := topic_code t) in *. destruct (encode_decode _ _ _ _ Et T E) as (L & B & D).
  assert (V : buddy1_payload_valid topic p = true).
  { unfold buddy1_payload_valid. rewrite Et. destruct t; try done; apply bool_decide_true; by eexists. }
  unfold buddy1_queue_publish. rewrite V. cbn [negb]. unfold send.
  destruct (Nat.leb_spec BUDDY1_QUEUE_MESSAGES (length (outbox s))).
  - splits; [by right | done | split; [lia | done]].
  - assert (M : message_ok {| msg_type := topic; msg_payload := p ++ zeros (BUDDY1_PAYLOAD_MAX - length p) |}).
    { split; cbn [msg_type msg_payload].
      - pose proof (payload_size_le topic). rewrite length_app. unfold zeros. rewrite length_replicate. lia.
      - rewrite <- L, take_app_length. done. }
    assert (C : carries t w {| msg_type := topic; msg_payload := p ++ zeros (BUDDY1_PAYLOAD_MAX - length p) |}).
    { split; [done |]. cbn [msg_type msg_payload]. by rewrite <- L, take_app_length. }
    splits; [by left | | split; [lia | by eexists]]. split; cbn; [done | done | rewrite length_app; cbn; lia |].
    apply Forall_app. split; [done |]. by constructor.
Qed.
Lemma latest_inv s v b v' : store_inv s v -> bytes_ok b -> buddy1_decode TOPIC_CODE_SNAPSHOT b = Some v' ->
  store_inv (s <| latest := b |>) v'.
Proof. intros [I1 I2 I3 I4] Hb E. by split. Qed.

Definition step_ok (s : store) (c : BUDDY1_SNAPSHOT) (op : store_op) : Prop :=
  let '(er, s') := store_run s op in
  exists c', store_inv s' c' /\ promise c op er c' /\ outbox_step s op er s' c'.

Lemma report_ok s c lk t v : store_inv s c -> store_op_ok (SReport lk t v) -> step_ok s c (SReport lk t v).
Proof.
  intros I [Rt T]. unfold step_ok. cbn [store_run]. unfold report.
  rewrite encode_capacity by (pose proof (payload_size_le (topic_code t)); lia).
  assert (Bw : write_body t v = write_fields t v /\ t <> TOPIC_MAP_REPLY) by (revert Rt; unfold reportable; destruct t; rewrite ?elem_of_cons, ?elem_of_nil; naive_solver).
  destruct Bw as [Bw Ne].
  destruct (buddy1_encode (topic_code t) v _) as [p |] eqn:E.
  2:{ exists c. splits; [done | | done]. apply p_report_range. rewrite <- Bw. destruct (write_body t v) as [fs |] eqn:W; [| done].
      assert (buddy1_encode (topic_code t) v (Z.of_nat (buddy1_payload_size (topic_code t))) = Some (BUDDY1_WIRE_VERSION :: pack (body_size t) fs))
        by (apply encode_some; exists t, fs; by rewrite topic_code_of). congruence. }
  pose proof E as E'. apply encode_some in E' as (t' & fs & Et & W & _). rewrite topic_code_of in Et. injection Et as <-.
  rewrite Bw in W. destruct (live_only t) eqn:Lv.
  { pose proof (publish_ok s c t v p I Ne T E) as P.
    destruct (buddy1_queue_publish s (topic_code t) p) as [er s']. destruct P as (S & I' & O). exists c.
    splits; [done | by eapply p_live |]. cbn [outbox_step]. destruct S as [-> | ->]; done. }
  destruct lk; cbn [negb]; [| exists c; splits; [done | by apply p_report_lock | done]].
  assert (Hc : exists c', cached t c v = Some c') by (revert Rt Lv; unfold reportable; destruct t; rewrite ?elem_of_cons, ?elem_of_nil; naive_solver).
  destruct Hc as [c' Hc]. destruct (cached_updates t c v c' Hc) as [U Ht]. destruct (view_writable _ _ (si_bytes _ _ I) (si_view _ _ I)) as (_ & Tc & _).
  assert (T' : snapshot_typed c') by (destruct t; try discriminate Hc; injection Hc as <-; unfold snapshot_typed in *; cbn; tauto).
  destruct (encode_updated _ c t v c' fs (si_bytes _ _ I) (si_view _ _ I) U Ht W T') as (b & Eb & Bb & Db).
  unfold store_section. rewrite (si_view _ _ I : buddy1_decode TOPIC_CODE_SNAPSHOT (latest s) = Some c), Hc, Eb.
  rewrite bool_decide_true by done. pose proof (latest_inv s c b _ I Bb Db) as I2.
  pose proof (publish_ok _ _ t v p I2 Ne T E) as P.
  destruct (buddy1_queue_publish _ (topic_code t) p) as [er s']. destruct P as (S & I' & O).
  exists (with_section t c v). splits; [done | by eapply p_report |]. cbn [outbox_step]. destruct S as [-> | ->]; done.
Qed.

(** ** Faults *)
Lemma low_bits w x : 0 <= w -> 0 <= x -> (forall i, w <= i -> Z.testbit x i = false) -> 0 <= x < 2 ^ w.
Proof.
  intros Hw Hx H. assert (x = x mod 2 ^ w) as ->; [| apply Z.mod_pos_bound; lia].
  apply Z.bits_inj'. intros i Hi. rewrite Z.testbit_mod_pow2 by lia. destruct (Z.ltb_spec i w); [done | by apply H].
Qed.
Lemma high_bits w x i : 0 <= x < 2 ^ w -> 0 <= w <= i -> Z.testbit x i = false.
Proof.
  intros Hx Hi. rewrite <- (Z.mod_small x (2 ^ w)), Z.testbit_mod_pow2 by lia. by destruct (Z.ltb_spec i w); [lia |].
Qed.
(** Each bit comes from the caller when it owns it, and is kept otherwise. *)
Lemma merge_faults_spec old changed active i : in_u 6 old -> in_u 8 changed -> in_u 8 active ->
  faults_request_ok changed active -> 0 <= i -> in_u 6 (merge_faults old changed active) /\
  Z.testbit (merge_faults old changed active) i = if Z.testbit changed i then Z.testbit active i else Z.testbit old i.
Proof.
  unfold in_u. intros Ho Hc Ha (_ & R1 & R2) Hi.
  assert (Hc6 : 0 <= changed < 2 ^ 6) by (apply (fault_mask_range changed Hc R1)).
  assert (Hs : forall i, 0 <= i -> Z.testbit active i = true -> Z.testbit changed i = true).
  { intros j Hj Ej. apply (f_equal (fun z => Z.testbit z j)) in R2. rewrite Z.land_spec, Z.lnot_spec, Ej, Z.bits_0 in R2 by done.
    by destruct (Z.testbit changed j). }
  assert (Hb : forall i, 0 <= i -> Z.testbit (merge_faults old changed active) i = if Z.testbit changed i then Z.testbit active i else Z.testbit old i).
  { clear i Hi. intros i Hi. unfold merge_faults, u8, wrap. rewrite !Z.testbit_mod_pow2, Z.lor_spec, Z.land_spec, Z.testbit_mod_pow2, Z.lnot_spec by lia.
    destruct (Z.ltb_spec i 8) as [H8 | H8].
    - cbn [andb]. destruct (Z.testbit changed i) eqn:Ec; cbn [negb]; [by rewrite andb_false_r |]. rewrite andb_true_r.
      destruct (Z.testbit active i) eqn:Ea; [by rewrite (Hs i Hi Ea) in Ec | by rewrite orb_false_r].
    - cbn [andb]. rewrite (high_bits 6 changed i), (high_bits 6 old i) by lia. done. }
  split; [| by apply Hb]. apply low_bits; [lia | apply (wrap_range 8); lia |]. intros j Hj. rewrite Hb by lia.
  by rewrite (high_bits 6 changed j), (high_bits 6 old j) by lia.
Qed.
Lemma faults_request_dec changed active :
  (changed =? 0) || negb (Z.land changed (u32 (Z.lnot BUDDY1_FAULT_MASK)) =? 0) || negb (Z.land active (Z.lnot changed) =? 0) = false <->
  faults_request_ok changed active.
Proof. unfold faults_request_ok. rewrite !orb_false_iff, !negb_false_iff, Z.eqb_neq, !Z.eqb_eq. tauto. Qed.
Lemma section_written t l v fs : write_sections l v = Some fs -> In t l -> section_valid t v = true ->
  exists f, write_fields t v = Some f.
Proof.
  revert fs. induction l as [| t' l IH]; intros fs W Hin Hv; [done |]. cbn [write_sections] in W.
  destruct (if section_valid t' v then _ else _) as [f1 |] eqn:E1; [| done].
  destruct (write_sections l v) as [f2 |]; [| done]. destruct Hin as [-> | Hin]; [| by apply (IH f2)].
  rewrite Hv in E1. by exists f1.
Qed.
(** The faults of a stored snapshot fit their six bits. *)
Lemma view_faults b v : bytes_ok b -> buddy1_decode TOPIC_CODE_SNAPSHOT b = Some v -> in_u 6 (faults v).
Proof.
  intros Hb E. destruct (view_writable b v Hb E) as ([fs W] & (T1 & T2 & T3 & T4 & _) & S).
  destruct (faults_valid v) eqn:Ef.
  - assert (Wf : exists f, write_fields TOPIC_FAULTS v = Some f).
    { apply (section_written TOPIC_FAULTS sections v fs W); [cbn; tauto | done]. }
    destruct Wf as [f Wf]. cbn [write_fields] in Wf. destruct (negb _) eqn:G; [done |]. unbool. by apply fault_mask_range.
  - rewrite S. cbn [with_sections sections section_valid]. rewrite Ef.
    destruct (motion_valid v), (barcode_valid v), (hump_valid v), (heading_valid v), (obstacle_valid v), (robot_state_valid v);
      cbn; unfold in_u; lia.
Qed.
Lemma faults_ok s c lk changed active : store_inv s c -> store_op_ok (SFaults lk changed active) ->
  step_ok s c (SFaults lk changed active).
Proof.
  intros I [Tc Ta]. unfold step_ok. cbn [store_run]. unfold buddy1_update_faults.
  destruct (_ || _) eqn:G.
  { exists c. splits; [done | | done]. apply p_faults_range. intros R. apply faults_request_dec in R. congruence. }
  apply faults_request_dec in G. destruct lk; cbn [negb]; [| exists c; splits; [done | apply p_faults_lock | done]].
  rewrite (si_view _ _ I : buddy1_decode TOPIC_CODE_SNAPSHOT (latest s) = Some c).
  set (f := merge_faults (faults c) changed active).
  assert (Hf : in_u 6 f) by
    (apply (merge_faults_spec _ _ _ 0); [apply (view_faults (latest s)); apply I | done | done | done | lia]).
  set (c' := c <| faults := f |> <| faults_valid := true |>).
  assert (W : write_fields TOPIC_FAULTS (zero_snapshot <| faults := f |>) = Some [(f, 6%nat)]).
  { cbn -[Z.land u32 Z.lnot]. by rewrite (fault_mask_clear f Hf). }
  assert (Tc' : snapshot_typed c').
  { destruct (view_writable _ _ (si_bytes _ _ I) (si_view _ _ I)) as (_ & Tv & _). unfold snapshot_typed, in_u in *. cbn -[Z.pow]. subst c'. cbn -[Z.pow]. lia. }
  destruct (encode_updated _ c TOPIC_FAULTS _ c' _ (si_bytes _ _ I) (si_view _ _ I) (faults_updates c f) ltac:(cbn; tauto) W Tc')
    as (b & Eb & Bb & Db).
  change (with_section TOPIC_FAULTS c (zero_snapshot <| faults := f |>)) with c' in Db. rewrite Eb. cbn [snd].
  assert (Ep : exists p, buddy1_encode TOPIC_CODE_FAULTS c' (Z.of_nat (buddy1_payload_size TOPIC_CODE_FAULTS)) = Some p /\ faults_packet c' = p).
  { eexists. split; [apply encode_some; exists TOPIC_FAULTS, [(f, 6%nat)]; splits; [done | exact W | done] |].
    unfold faults_packet. change 2 with (Z.of_nat (buddy1_payload_size TOPIC_CODE_FAULTS)).
    assert (E : buddy1_encode TOPIC_CODE_FAULTS c' (Z.of_nat (buddy1_payload_size TOPIC_CODE_FAULTS)) = Some (BUDDY1_WIRE_VERSION :: pack (body_size TOPIC_FAULTS) [(f, 6%nat)]))
      by (apply encode_some; exists TOPIC_FAULTS, [(f, 6%nat)]; splits; [done | exact W | done]). by rewrite E. }
  destruct Ep as (p & Ep & ->). pose proof (latest_inv s c b _ I Bb Db) as I2.
  pose proof (publish_ok _ _ TOPIC_FAULTS c' p I2 ltac:(done) Tc' Ep) as P.
  change TOPIC_CODE_FAULTS with (topic_code TOPIC_FAULTS). destruct (buddy1_queue_publish _ (topic_code TOPIC_FAULTS) p) as [er s']. destruct P as (S & I' & O).
  exists c'. splits; [done | by apply p_faults |]. cbn [outbox_step]. destruct S as [-> | ->]; done.
Qed.

(** ** Invalidating *)
Lemma section_of_code type : 0 <= type <= TOPIC_CODE_FAULTS -> exists t, In t sections /\ topic_code t = type /\
  section_offset type = 7 + offset_in sections t /\ buddy1_payload_bits type = body_bits t.
Proof.
  unfold TOPIC_CODE_FAULTS. intros H.
  assert (type = 0 \/ type = 1 \/ type = 2 \/ type = 3 \/ type = 4 \/ type = 5 \/ type = 6) as Ht by lia.
  destruct Ht as [-> | [-> | [-> | [-> | [-> | [-> | ->]]]]]];
    [exists TOPIC_MOTION | exists TOPIC_BARCODE | exists TOPIC_HUMP | exists TOPIC_HEADING | exists TOPIC_OBSTACLE
    | exists TOPIC_STATE | exists TOPIC_FAULTS]; (splits; [cbn; tauto | done | by vm_compute | done]).
Qed.
Lemma section_fits t : In t sections -> 0 <= offset_in sections t /\
  7 + offset_in sections t + Z.of_nat (body_bits t) <= 102 /\ 0 <= topic_code t < 7.
Proof. destruct t; cbn -[Z.of_nat]; intros; intuition (try discriminate); vm_compute; congruence. Qed.
(** Clearing flag [t] of the validity flags. *)
Lemma flags_cleared t v flags : In t sections -> in_u (Z.of_nat 7) flags ->
  (forall i, 0 <= i < 7 -> Z.testbit flags i = negb (topic_code t =? i) && Z.testbit (validity v) i) ->
  validity (without_section t v) = flags.
Proof.
  intros Ht Hf Hb. apply validity_unique; [done |]. destruct (validity_flags v) as [F _].
  cbn [flags_of sections] in *. rewrite !land_shiftl_testbit in * by lia. rewrite !Hb by lia.
  destruct F as (F0 & F1 & F2 & F3 & F4 & F5 & F6 & _).
  destruct t; cbn [topic_code]; try (exfalso; cbn in Ht; intuition discriminate);
    cbn [Z.add Z.eqb Pos.add Pos.succ Pos.eqb negb andb] in *; splits; cbn -[validity Z.testbit]; try done.
Qed.

Lemma invalidate_ok s c lk type : store_inv s c -> store_op_ok (SInvalidate lk type) -> step_ok s c (SInvalidate lk type).
Proof.
  intros I T. unfold step_ok. cbn [store_run store_op_ok] in *. unfold buddy1_invalidate, in_u in *.
  destruct (Z.ltb_spec TOPIC_CODE_FAULTS type); [exists c; splits; [done | by apply p_invalidate_range | done] |].
  destruct lk; cbn [negb]; [| exists c; splits; [done | apply p_invalidate_lock | done]].
  destruct (section_of_code type ltac:(lia)) as (t & Ht & <- & -> & ->). destruct (section_fits t Ht) as (O1 & O2 & C1).
  exists (without_section t c). splits; [| by apply p_invalidate | done].
  pose proof (si_bytes _ _ I) as Hb. pose proof (si_view _ _ I) as Hv. unfold view in Hv.
  destruct (view_writable _ _ Hb Hv) as (_ & Tc & Sc). pose proof (proj1 (decode_some _ _ _ Hb) Hv) as (t0 & b & [= <-] & El & Hl & Hp & _).
  rewrite El in Hb. apply Forall_cons in Hb as [Hv0 Hbb].
  rewrite El. rewrite clear_bit_body by lia. rewrite clear_bits_body by lia.
  destruct (clear_bit_ok b (topic_code t) Hbb) as [B1 L1]. change (body_size TOPIC_SNAPSHOT) with 13%nat in Hl.
  destruct (clear_bits_spec _ (7 + offset_in sections t) (body_bits t) B1 ltac:(lia) ltac:(lia)) as (B2 & L2 & Bits).
  set (b' := clear_bits _ _ _) in *.
  assert (Bk : forall k, 0 <= k -> bit_at b' k = negb ((7 + offset_in sections t <=? k) && (k <? 7 + offset_in sections t + Z.of_nat (body_bits t))) &&
    (negb (topic_code t =? k) && bit_at b k)) by (intros k Hk; rewrite Bits, bit_clear_bit by lia; done).
  pose proof (decode_encode _ _ _ (si_bytes _ _ I) Hv) as En. apply encode_some in En as (t1 & fs & [= <-] & W & Eq).
  rewrite El in Eq. injection Eq as Eq. cbn [write_body] in W. destruct (write_sections sections c) as [f |] eqn:Wf; [| done].
  injection W as <-. destruct (written_width TOPIC_SNAPSHOT c ((validity c, 7%nat) :: f) ltac:(cbn [write_body]; by rewrite Wf)) as [Wd Wok].
  assert (En : encodes b 0 ((validity c, 7%nat) :: f)) by (rewrite Eq; apply pack_encodes; [done | rewrite Wd; vm_compute; discriminate]).
  destruct En as [Ef Es]. change (Z.of_nat (body_bits TOPIC_SNAPSHOT)) with 102 in *. rewrite total_width_cons in Wd.
  destruct (sections_cleared t sections c Ht sections_nodup b b' (0 + Z.of_nat 7) f Wf Es) as (f' & Wf' & Es' & Wd').
  { intros k Hk. rewrite Bk by lia. rewrite bool_decide_true by (by apply list_elem_of_In). cbn [andb]. f_equal.
    destruct (Z.eqb_spec (topic_code t) k); [lia | done]. }
  assert (Fl : validity (without_section t c) = get_at b' 0 7).
  { apply flags_cleared; [done | apply get_at_range |]. intros i Hi. rewrite get_at_spec, Bk by lia.
    destruct (Z.ltb_spec i (Z.of_nat 7)); [| lia]. cbn [andb]. destruct (Z.leb_spec (7 + offset_in sections t) (0 + i)); [lia |].
    cbn [andb negb]. f_equal. rewrite wrap_id in Ef by apply validity_flags. rewrite <- Ef, get_at_spec by lia.
    by destruct (Z.ltb_spec i (Z.of_nat 7)); [| lia]. }
  assert (E' : buddy1_encode TOPIC_CODE_SNAPSHOT (without_section t c) (Z.of_nat (buddy1_payload_size TOPIC_CODE_SNAPSHOT)) =
    Some (BUDDY1_WIRE_VERSION :: b')).
  { apply encode_some. exists TOPIC_SNAPSHOT, ((get_at b' 0 7, 7%nat) :: f'). splits; [done | |].
    - cbn [write_body]. by rewrite Wf', Fl.
    - f_equal. change (body_size TOPIC_SNAPSHOT) with 13%nat. replace 13%nat with (length b') by lia. symmetry.
      apply pack_unique; [done | | | |].
      + apply (written_width TOPIC_SNAPSHOT (without_section t c) ((get_at b' 0 7, 7%nat) :: f')).
        cbn [write_body]. by rewrite Wf', Fl.
      + rewrite total_width_cons. lia.
      + split; [apply wrap_get | done].
      + rewrite total_width_cons. intros k Hk. rewrite Bk by lia. rewrite Hp by lia. by rewrite !andb_false_r. }
  assert (Tw : snapshot_typed (without_section t c)).
  { clear -Tc. unfold snapshot_typed, in_u in *. destruct t; cbn -[Z.pow]; lia. }
  destruct (encode_decode TOPIC_CODE_SNAPSHOT TOPIC_SNAPSHOT _ _ eq_refl Tw E') as (_ & B' & D').
  apply (latest_inv s c); [done | done |]. rewrite D'. f_equal.
  change (received TOPIC_SNAPSHOT (without_section t c)) with (with_sections sections zero_snapshot (without_section t c)).
  replace zero_snapshot with (without_section t zero_snapshot) at 1 by (by destruct t).
  rewrite without_sections by done. by rewrite <- Sc.
Qed.

Lemma take_ok s c : store_inv s c -> step_ok s c STake.
Proof.
  intros [I1 I2 I3 I4]. unfold step_ok. cbn [store_run]. unfold buddy1_outbox_take. exists c.
  destruct (outbox s) as [| m rest] eqn:E; cbn [snd]; (splits; [| constructor | cbn; by rewrite ?E]).
  - split; [done | done | by rewrite E | by rewrite E].
  - apply Forall_cons in I4 as [_ I4]. split; cbn in *; [done | done | lia | done].
Qed.
Lemma store_step_ok s c op : store_inv s c -> store_op_ok op -> step_ok s c op.
Proof. intros I T. destruct op; [by apply report_ok | by apply faults_ok | by apply invalidate_ok | by apply take_ok]. Qed.
Lemma boot_inv : store_inv store_boot zero_snapshot.
Proof.
  split; [| by vm_compute | cbn; unfold BUDDY1_QUEUE_MESSAGES; lia | constructor].
  apply (bool_decide_unpack _). by vm_compute.
Qed.
Lemma store_reachable_inv s : store_reachable s -> exists c, store_inv s c.
Proof.
  induction 1 as [| s op _ [c I] T]; [exists zero_snapshot; apply boot_inv |].
  pose proof (store_step_ok s c op I T) as S. unfold step_ok in S. destruct (store_run s op) as [er s'].
  destruct S as (c' & I' & _). by exists c'.
Qed.

(** ** The effect of each call *)
(** A report replaces its section, unless it is out of range or cannot lock. *)
Lemma report_effect lk s c t v : store_inv s c -> reportable t -> snapshot_typed v ->
  let '(er, s') := report lk s t v in exists c', store_inv s' c' /\
    (sent er /\ c' = (if live_only t then c else with_section t c v) \/
     ~ sent er /\ c' = c /\ ((lk = false /\ live_only t = false) \/ write_fields t v = None)).
Proof.
  intros I Rt T. pose proof (store_step_ok s c (SReport lk t v) I (conj Rt T)) as S. unfold step_ok in S. cbn [store_run] in S.
  destruct (report lk s t v) as [er s']. destruct S as (c' & I' & P & _). exists c'. split; [done |].
  inversion P as [lk' t' v' er' fs Lv | lk' t' v' er' fs Lv | | | | | | | | |]; subst; rewrite ?Lv; try (by left);
    (right; splits; [unfold sent; intuition discriminate | done | tauto]).
Qed.
Lemma faults_effect lk s c changed active : store_inv s c -> in_u 8 changed -> in_u 8 active -> faults_request_ok changed active ->
  let '(er, s') := buddy1_update_faults lk s changed active in exists c', store_inv s' c' /\
    (sent er /\ c' = c <| faults := merge_faults (faults c) changed active |> <| faults_valid := true |> \/
     ~ sent er /\ c' = c /\ lk = false).
Proof.
  intros I Hc Ha Rq. pose proof (store_step_ok s c (SFaults lk changed active) I (conj Hc Ha)) as S. unfold step_ok in S.
  cbn [store_run] in S. destruct (buddy1_update_faults lk s changed active) as [er s']. destruct S as (c' & I' & P & _).
  exists c'. split; [done |]. inversion P; subst; [by left | done | right; splits; [unfold sent; intuition discriminate | done | done]].
Qed.
Lemma topic_code_inj t t' : topic_code t = topic_code t' -> t = t'.
Proof. by destruct t, t'. Qed.
Lemma invalidate_effect lk s c t : store_inv s c -> In t sections -> let '(er, s') := buddy1_invalidate lk s (topic_code t) in
  exists c', store_inv s' c' /\ (er = E_OK /\ c' = without_section t c \/ er <> E_OK /\ c' = c /\ lk = false).
Proof.
  intros I Ht. assert (T : in_u 8 (topic_code t) /\ topic_code t <= TOPIC_CODE_FAULTS) by (revert Ht; unfold in_u; destruct t; cbn; intuition (discriminate || lia)).
  pose proof (store_step_ok s c (SInvalidate lk (topic_code t)) I (proj1 T)) as S. unfold step_ok in S. cbn [store_run] in S.
  destruct (buddy1_invalidate lk s (topic_code t)) as [er s']. destruct S as (c' & I' & P & _). exists c'. split; [done |].
  inversion P; subst; [| lia | by right].
  left. match goal with H : topic_code _ = topic_code _ |- _ => apply topic_code_inj in H as <- end. done.
Qed.
(** [s'] is reached from [s] by operations of one kind. *)
Definition store_runs (s : store) (ops : list store_op) : store := fold_left (fun s op => (store_run s op).2) ops s.
Definition runs (P : store_op -> Prop) (s s' : store) : Prop := exists ops, s' = store_runs s ops /\ Forall P ops.
Lemma runs_refl (P : store_op -> Prop) s : runs P s s.
Proof. by exists []. Qed.
Lemma runs_one (P : store_op -> Prop) s op : P op -> runs P s (store_run s op).2.
Proof. intros H. exists [op]. split; [done | by constructor]. Qed.
Lemma runs_trans (P : store_op -> Prop) s1 s2 s3 : runs P s1 s2 -> runs P s2 s3 -> runs P s1 s3.
Proof. intros (o1 & -> & F1) (o2 & -> & F2). exists (o1 ++ o2). split; [unfold store_runs; by rewrite fold_left_app | by apply Forall_app]. Qed.

(** ** The guarantees *)

(** C31: the telemetry store keeps its promise.  Whatever reports, fault updates,
    invalidations and network reads came before, the 14 packed bytes always
    decode to a snapshot, and every operation changes that snapshot exactly as
    promised: a report in range replaces its own section only (wheel speeds to
    the nearest even mm/s), a fault update changes only the bits its caller owns,
    an invalidation - done by clearing bits of the packed bytes in place - removes
    exactly its section, and a call that is out of range or cannot lock changes
    nothing; decoding the cache never fails.  The outbox holds at most four
    messages, each a valid packet: a report that finds room is queued behind them as
    the packet of its own topic, from which the receiver decodes the reported values
    (after a fault update, the merged faults); otherwise it is dropped and the caller
    told so, with the snapshot updated. *)
Theorem telemetry_store_refines s op : store_reachable s -> store_op_ok op ->
  let '(er, s') := store_run s op in
  exists c c', view s = Some c /\ view s' = Some c' /\ promise c op er c' /\ outbox_step s op er s' c' /\
    (length (outbox s') <= BUDDY1_QUEUE_MESSAGES)%nat /\ Forall message_ok (outbox s').
Proof.
  intros R T. destruct (store_reachable_inv s R) as [c I]. pose proof (store_step_ok s c op I T) as S. unfold step_ok in S.
  destruct (store_run s op) as [er s']. destruct S as (c' & [I1 I2 I3 I4] & P & O).
  exists c, c'. splits; try done. apply I.
Qed.
Definition bench_store : store :=
  (store_run (store_run store_boot (SReport true TOPIC_MOTION (zero_snapshot <| left_mms := 101 |> <| right_mms := -40 |>))).2
     (SFaults true 36 4)).2.
Lemma telemetry_store_refines_witness :
  (let '(er, s') := store_run bench_store (SInvalidate true 0) in
   exists c c', view bench_store = Some c /\ view s' = Some c' /\ promise c (SInvalidate true 0) er c' /\
     outbox_step bench_store (SInvalidate true 0) er s' c' /\ (length (outbox s') <= 4)%nat /\ Forall message_ok (outbox s')) /\
  option_map left_mms (view bench_store) = Some 102 /\ option_map faults (view bench_store) = Some 4 /\
  view (store_run bench_store (SInvalidate true 0)).2 = Some (zero_snapshot <| faults := 4 |> <| faults_valid := true |>).
Proof.
  splits; [| by vm_compute | by vm_compute | by vm_compute].
  apply (telemetry_store_refines bench_store (SInvalidate true 0)); [| unfold store_op_ok, in_u; lia].
  apply (store_next _ (SFaults true 36 4)); [| unfold store_op_ok, in_u; lia].
  apply (store_next _ (SReport true TOPIC_MOTION _)); [apply store_start |].
  split; [by left | unfold snapshot_typed, in_u; cbn; lia].
Defined.
