(* ===== verification/BarcodeMap.v ===== *)
(** * Barcode map and its freeze

    Models [subsystem1/command.c] and the map functions of
    [controller/vehicle_controller.c].  The active map is four packed bytes under
    the Buddy 1 mutex; bit 7 of its version byte is a local latch that freezes the
    map.  The network task may replace an open map; a START attempt claims the map
    (freezing it), installs it in navigation, and gives the freeze back only if the
    attempt took it and was refused.  [lk] is whether the [tk_loc_mtx] of the call
    succeeds.  C strings are Rocq strings. *)
From Stdlib Require Import Strings.String.
From S2P Require Import Prelude CFloat BitCodec Telemetry TelemetryStore BarcodeDecoder Navigation NavigationSafety.

Definition LATCH : Z := 0x80.
Definition map_boot : bytes := [BUDDY1_WIRE_VERSION; 0x20; 0x88; 0x01].

(** ** The latch *)
Definition frozen (b : bytes) : bool := negb (Z.land (nthZ 0 b 0) 0x80 =? 0).
Definition close (b : bytes) : bytes := setZ b 0 (Z.lor (nthZ 0 b 0) 0x80).
Definition reopen (b : bytes) : bytes := setZ b 0 (Z.land (nthZ 0 b 0) 0x7f).
(** The packet without the latch. *)
Definition unlatched (b : bytes) : bytes := setZ b 0 (Z.land (nthZ 0 b 0) 0x7f).
Definition buddy1_configuration_allowed (lk : bool) (b : bytes) : bool := lk && negb (frozen b).
Definition buddy1_configuration_close (lk : bool) (b : bytes) : ER * bytes := if lk then (E_OK, close b) else (E_LOCK, b).
(** The map and whether this call froze it. *)
Definition buddy1_configuration_claim (lk : bool) (b : bytes) : (ER * option (BUDDY1_BARCODE_MAP * bool)) * bytes :=
  if negb lk then ((E_LOCK, None), b)
  else match buddy1_map_unpack (unlatched b) with
  | None => ((E_SYS, None), b)
  | Some m => ((E_OK, Some (m, negb (frozen b))), close b)
  end.
Definition buddy1_configuration_snapshot_and_close (lk : bool) (b : bytes) : (ER * option BUDDY1_BARCODE_MAP) * bytes :=
  let '((er, r), b) := buddy1_configuration_claim lk b in ((er, fst <$> r), b).
Definition buddy1_configuration_reopen (lk : bool) (b : bytes) : ER * bytes := if lk then (E_OK, reopen b) else (E_LOCK, b).

Definition buddy1_apply_barcode_map (lk : bool) (m : BUDDY1_BARCODE_MAP) (b : bytes) : ER * bytes :=
  match buddy1_map_pack m with
  | None => (E_PAR, b)
  | Some packed =>
      if negb lk then (E_LOCK, b)
      else if frozen b then (E_OBJ, b)
      else (E_OK, packed)
  end.
Definition map_action (m : BUDDY1_BARCODE_MAP) (letter : Z) : Z :=
  if letter =? forward m then BUDDY1_ACTION_FORWARD
  else if letter =? left m then BUDDY1_ACTION_LEFT
  else if letter =? right m then BUDDY1_ACTION_RIGHT
  else if letter =? uturn m then BUDDY1_ACTION_UTURN
  else BUDDY1_ACTION_UNKNOWN.
Definition buddy1_barcode_action (lk : bool) (letter : Z) (b : bytes) : Z :=
  if negb lk then BUDDY1_ACTION_UNKNOWN
  else match buddy1_map_unpack (unlatched b) with
  | None => BUDDY1_ACTION_UNKNOWN
  | Some m => map_action m letter
  end.

(** ** Commands from the network *)
Inductive BUDDY1_COMMAND_KIND := BUDDY1_COMMAND_UNKNOWN | BUDDY1_COMMAND_SNAPSHOT | BUDDY1_COMMAND_BARCODE_MAP.
Record BUDDY1_COMMAND_MSG := { cmd_kind : BUDDY1_COMMAND_KIND; cmd_payload : bytes }.
Definition buddy1_command_kind (topic : string) : BUDDY1_COMMAND_KIND :=
  if String.eqb topic "car/cmd/snapshot" then BUDDY1_COMMAND_SNAPSHOT
  else if String.eqb topic "car/cmd/barcode_map" then BUDDY1_COMMAND_BARCODE_MAP
  else BUDDY1_COMMAND_UNKNOWN.
(** The kernel's queue of commands, oldest first. *)
Definition BUDDY1_COMMAND_MESSAGES : nat := 2.
Definition send_command (q : list BUDDY1_COMMAND_MSG) (m : BUDDY1_COMMAND_MSG) : ER * list BUDDY1_COMMAND_MSG :=
  if (BUDDY1_COMMAND_MESSAGES <=? length q)%nat then (E_TMOUT, q) else (E_OK, q ++ [m]).
Definition buddy1_command_enqueue (q : list BUDDY1_COMMAND_MSG) (topic : string) (payload : bytes) : ER * list BUDDY1_COMMAND_MSG :=
  let message kind := send_command q
    {| cmd_kind := kind; cmd_payload := payload ++ zeros (BUDDY1_MAP_BYTES - length payload) |} in
  match buddy1_command_kind topic with
  | BUDDY1_COMMAND_UNKNOWN => (E_PAR, q)
  | BUDDY1_COMMAND_SNAPSHOT =>
      if negb (length payload =? 1)%nat || negb (nthZ 0 payload 0 =? BUDDY1_WIRE_VERSION) then (E_PAR, q)
      else message BUDDY1_COMMAND_SNAPSHOT
  | BUDDY1_COMMAND_BARCODE_MAP =>
      match buddy1_map_unpack payload with None => (E_PAR, q) | Some _ => message BUDDY1_COMMAND_BARCODE_MAP end
  end.
Definition has_command_prefix (topic : string) : bool := String.prefix "car/cmd/" topic.
Definition mqtt_utk_app_receive (q : list BUDDY1_COMMAND_MSG) (topic : string) (payload : bytes) : list BUDDY1_COMMAND_MSG :=
  if has_command_prefix topic then (buddy1_command_enqueue q topic payload).2 else q.
Definition TOPIC_CODE_MAP_REPLY : Z := 8.
Definition map_reply (er : ER) : Z :=
  match er with E_OK => BUDDY1_REPLY_OK | E_OBJ => BUDDY1_REPLY_BUSY | _ => BUDDY1_REPLY_INTERNAL end.
Definition buddy1_command_process (lk : bool) (c : BUDDY1_COMMAND_MSG) (b : bytes) (s : store) : ER * bytes * store :=
  match cmd_kind c with
  | BUDDY1_COMMAND_SNAPSHOT =>
      if negb (nthZ 0 (cmd_payload c) 0 =? BUDDY1_WIRE_VERSION) then (E_PAR, b, s)
      else match buddy1_snapshot_packet lk s with
           | None => (E_SYS, b, s)
           | Some reply => let '(er, s) := buddy1_queue_publish s TOPIC_CODE_SNAPSHOT reply in (er, b, s)
           end
  | BUDDY1_COMMAND_UNKNOWN => (E_PAR, b, s)
  | BUDDY1_COMMAND_BARCODE_MAP =>
      let '(reply, b) :=
        match buddy1_map_unpack (cmd_payload c) with
        | None => (BUDDY1_REPLY_INVALID, b)
        | Some m => let '(er, b) := buddy1_apply_barcode_map lk m b in (map_reply er, b)
        end in
      let '(er, s) := buddy1_queue_publish s TOPIC_CODE_MAP_REPLY [BUDDY1_WIRE_VERSION; reply] in (er, b, s)
  end.

(** One round of the command task's loop: it waits for a command and answers it. *)
Definition buddy1_command_task (lk : bool) (q : list BUDDY1_COMMAND_MSG) (b : bytes) (s : store) :
  list BUDDY1_COMMAND_MSG * bytes * store :=
  match q with
  | [] => (q, b, s)
  | c :: q => let '(_, b, s) := buddy1_command_process lk c b s in (q, b, s)
  end.

(** ** The vehicle controller's side *)
Definition action_for (action : Z) : Z :=
  if action =? S3_NAV_STRAIGHT then BUDDY1_ACTION_FORWARD
  else if action =? S3_NAV_LEFT then BUDDY1_ACTION_LEFT
  else if action =? S3_NAV_RIGHT then BUDDY1_ACTION_RIGHT
  else if action =? S3_NAV_UTURN then BUDDY1_ACTION_UTURN
  else BUDDY1_ACTION_UNKNOWN.
Definition expanded (m : BUDDY1_BARCODE_MAP) : list Z :=
  let e := replicate 26 S3_NAV_NONE in
  let e := setZ e (forward m - LETTER_A) S3_NAV_STRAIGHT in
  let e := setZ e (left m - LETTER_A) S3_NAV_LEFT in
  let e := setZ e (right m - LETTER_A) S3_NAV_RIGHT in
  setZ e (uturn m - LETTER_A) S3_NAV_UTURN.
(** The active map and the flag [start_claimed_map]. *)
Record maps := { active_map : bytes; start_claimed_map : bool }.
#[export] Instance maps_settable : Settable maps := fun r => Build_maps (active_map r) (start_claimed_map r).
Definition maps_boot : maps := {| active_map := map_boot; start_claimed_map := false |}.
(** [lk'] is the lock of the reopening. *)
Definition vehicle_controller_prepare_start (lk lk' : bool) (s : maps) (n : s3_navigation_t) : bool * maps * s3_navigation_t :=
  let s := s <| start_claimed_map := false |> in
  match buddy1_configuration_claim lk (active_map s) with
  | ((E_OK, Some (m, newly)), b) =>
      let s := s <| active_map := b |> in
      let '(ok, n) := s3_navigation_set_mapping n (expanded m) in
      if negb ok then (false, if newly then s <| active_map := (buddy1_configuration_reopen lk' b).2 |> else s, n)
      else (true, s <| start_claimed_map := newly |>, n)
  | (_, b) => (false, s <| active_map := b |>, n)
  end.
Definition vehicle_controller_cancel_start (lk : bool) (s : maps) : maps :=
  let s := if start_claimed_map s then s <| active_map := (buddy1_configuration_reopen lk (active_map s)).2 |> else s in
  s <| start_claimed_map := false |>.
Definition vehicle_controller_commit_start (s : maps) : maps := s <| start_claimed_map := false |>.

(** The four letters of a 26-entry map; [None]: an action is used twice or unknown. *)
Definition reduce_entry (i action : Z) (m : BUDDY1_BARCODE_MAP) : option BUDDY1_BARCODE_MAP :=
  let letter := u8 (LETTER_A + i) in
  if action =? S3_NAV_NONE then Some m
  else if action =? S3_NAV_STRAIGHT then
    if forward m =? 0 then Some {| forward := letter; left := left m; right := right m; uturn := uturn m |} else None
  else if action =? S3_NAV_LEFT then
    if left m =? 0 then Some {| forward := forward m; left := letter; right := right m; uturn := uturn m |} else None
  else if action =? S3_NAV_RIGHT then
    if right m =? 0 then Some {| forward := forward m; left := left m; right := letter; uturn := uturn m |} else None
  else if action =? S3_NAV_UTURN then
    if uturn m =? 0 then Some {| forward := forward m; left := left m; right := right m; uturn := letter |} else None
  else None.
Fixpoint reduce (i : Z) (l : list Z) (m : BUDDY1_BARCODE_MAP) : option BUDDY1_BARCODE_MAP :=
  match l with
  | [] => Some m
  | a :: l => match reduce_entry i a m with Some m => reduce (i + 1) l m | None => None end
  end.
Definition zero_map : BUDDY1_BARCODE_MAP := {| forward := 0; left := 0; right := 0; uturn := 0 |}.
Definition vehicle_controller_apply_mapping (lk : bool) (map : list Z) (s : maps) : bool * maps :=
  match reduce 0 map zero_map with
  | None => (false, s)
  | Some m => let '(er, b) := buddy1_apply_barcode_map lk m (active_map s) in
              (bool_decide (er = E_OK), s <| active_map := b |>)
  end.

(** ** Stored maps *)
(** The bytes that hold map [m] with the latch [f]. *)
Definition stored (m : BUDDY1_BARCODE_MAP) (f : bool) (b : bytes) : Prop :=
  exists p, buddy1_map_pack m = Some (BUDDY1_WIRE_VERSION :: p) /\
    b = (if f then Z.lor BUDDY1_WIRE_VERSION LATCH else BUDDY1_WIRE_VERSION) :: p.
Lemma pack_version m packed : buddy1_map_pack m = Some packed -> stored m false packed.
Proof. intros E. pose proof E as E'. apply map_pack_some in E' as [_ ->]. eexists. by split. Qed.
Lemma stored_ok m f b : stored m f b -> map_ok m.
Proof. intros (p & E & _). by apply map_pack_some in E as [? _]. Qed.
Lemma stored_frozen m f b : stored m f b -> frozen b = f.
Proof. intros (p & _ & ->). by destruct f. Qed.
Lemma stored_unlatched m f b : stored m f b -> buddy1_map_unpack (unlatched b) = Some m.
Proof.
  intros (p & E & ->). assert (unlatched ((if f then Z.lor BUDDY1_WIRE_VERSION LATCH else BUDDY1_WIRE_VERSION) :: p) = BUDDY1_WIRE_VERSION :: p) as ->
    by (by destruct f). by apply map_unpack_pack.
Qed.
Lemma stored_close m f b : stored m f b -> stored m true (close b).
Proof. intros (p & E & ->). exists p. split; [done |]. by destruct f. Qed.
Lemma stored_reopen m f b : stored m f b -> stored m false (reopen b).
Proof. intros (p & E & ->). exists p. split; [done |]. by destruct f. Qed.
Lemma stored_unique m f b b' : stored m f b -> stored m f b' -> b = b'.
Proof. intros (p & E & ->) (p' & E' & ->). congruence. Qed.
Lemma map_boot_stored : stored {| forward := 65; left := 66; right := 67; uturn := 68 |} false map_boot.
Proof. by apply pack_version; vm_compute. Qed.
Lemma claim_stored m f b lk : stored m f b -> buddy1_configuration_claim lk b =
  if lk then ((E_OK, Some (m, negb f)), close b) else ((E_LOCK, None), b).
Proof.
  intros S. unfold buddy1_configuration_claim. rewrite (stored_unlatched m f b S), (stored_frozen m f b S). by destruct lk.
Qed.
Lemma apply_stored m f b lk m' : stored m f b -> let '(er, b') := buddy1_apply_barcode_map lk m' b in
  (er = E_OK -> f = false /\ stored m' false b') /\ (er <> E_OK -> b' = b).
Proof.
  intros S. unfold buddy1_apply_barcode_map. destruct (buddy1_map_pack m') as [p |] eqn:E; [| done].
  destruct lk; cbn [negb]; [| done]. rewrite (stored_frozen m f b S). destruct f; [done |]. split; [| done].
  intros _. split; [done | by apply pack_version].
Qed.

(** ** Agreement of the two maps *)
Lemma nthZ_replicate {A} (d x : A) n i : 0 <= i < Z.of_nat n -> nthZ d (replicate n x) i = x.
Proof.
  intros Hi. unfold nthZ. destruct (Z.ltb_spec i 0); [lia |]. rewrite nth_lookup, lookup_replicate_2 by lia. done.
Qed.
Lemma expanded_action m l : map_ok m -> LETTER_A <= l <= LETTER_Z ->
  action_for (nthZ 0 (expanded m) (l - LETTER_A)) = map_action m l.
Proof.
  intros Ok Hl. assert (R : forall x, In x (map_letters m) -> 0 <= x - LETTER_A < 26).
  { intros x Hx. pose proof (map_letters_range m x Ok Hx). unfold LETTER_A, LETTER_Z in *. lia. }
  destruct Ok as [_ Nd]. destruct m as [f le r u]. unfold map_letters in *. cbn [forward left right uturn] in *.
  unfold expanded, map_action. cbn [forward left right uturn].
  rewrite !NoDup_cons, !elem_of_cons, !elem_of_nil in Nd.
  rewrite !nthZ_setZ by (rewrite ?length_setZ, ?length_replicate; (lia || (apply R; cbn; tauto) || (unfold LETTER_A in *; lia))).
  assert (Q : forall x, (x - LETTER_A =? l - LETTER_A) = (l =? x)) by (intros x; destruct (Z.eqb_spec (x - LETTER_A) (l - LETTER_A)), (Z.eqb_spec l x); lia).
  rewrite !Q. rewrite nthZ_replicate by (unfold LETTER_A, LETTER_Z in *; lia).
  destruct (Z.eqb_spec l u) as [? | ?], (Z.eqb_spec l r) as [? | ?], (Z.eqb_spec l le) as [? | ?], (Z.eqb_spec l f) as [? | ?];
    try done; exfalso; naive_solver.
Qed.

(** What the map says of a letter, as a navigation action. *)
Definition nav_code (m : BUDDY1_BARCODE_MAP) (l : Z) : Z :=
  if uturn m =? l then S3_NAV_UTURN else if right m =? l then S3_NAV_RIGHT
  else if left m =? l then S3_NAV_LEFT else if forward m =? l then S3_NAV_STRAIGHT else S3_NAV_NONE.
(** A slot is kept, or was empty and holds a letter of this stretch. *)
Definition slot (i n x y : Z) : Prop := y = x \/ (x = 0 /\ LETTER_A + i <= y < LETTER_A + i + n).
Definition slots (i n : Z) (m m' : BUDDY1_BARCODE_MAP) : Prop :=
  slot i n (forward m) (forward m') /\ slot i n (left m) (left m') /\ slot i n (right m) (right m') /\ slot i n (uturn m) (uturn m').
Definition before (i : Z) (m : BUDDY1_BARCODE_MAP) : Prop :=
  Forall (fun x => x = 0 \/ LETTER_A <= x < LETTER_A + i) (map_letters m).
Lemma reduce_entry_spec i a m m' : 0 <= i < 26 -> before i m -> reduce_entry i a m = Some m' ->
  before (i + 1) m' /\ slots i 1 m m' /\ nav_code m' (LETTER_A + i) = a.
Proof.
  intros Hi B E. unfold reduce_entry in E. assert (U : u8 (LETTER_A + i) = LETTER_A + i) by (apply wrap_id; unfold in_u, LETTER_A; lia).
  rewrite U in E. destruct m as [f l r u]. unfold before, map_letters in *. cbn [forward left right uturn] in *.
  rewrite !Forall_cons in B. destruct B as (B1 & B2 & B3 & B4 & _). unfold LETTER_A in *.
  repeat match type of E with (if ?c then _ else _) = _ => destruct c eqn:?; try discriminate E end; injection E as <-;
    unbool; subst; unfold slots, slot, nav_code, LETTER_A; cbn [forward left right uturn]; rewrite !Forall_cons, Forall_nil;
    (splits; try lia; try tauto); repeat case_if; unbool; try done; lia.
Qed.
Lemma slots_trans i k m m1 m' : 0 <= k -> slots i 1 m m1 -> slots (i + 1) k m1 m' -> slots i (k + 1) m m'.
Proof. intros Hk. unfold slots, slot. intuition lia. Qed.
Lemma reduce_spec l : forall i m m', 0 <= i -> i + Z.of_nat (length l) <= 26 -> before i m -> reduce i l m = Some m' ->
  slots i (Z.of_nat (length l)) m m' /\ forall k, 0 <= k < Z.of_nat (length l) -> nthZ 0 l k = nav_code m' (LETTER_A + i + k).
Proof.
  induction l as [| a l IH]; intros i m m' Hi Hl B E; cbn [reduce length] in *.
  { injection E as <-. split; [unfold slots, slot; tauto | intros k Hk; lia]. }
  destruct (reduce_entry i a m) as [m1 |] eqn:E1; [| done]. destruct (reduce_entry_spec i a m m1 ltac:(lia) B E1) as (B1 & S1 & C1).
  destruct (IH (i + 1) m1 m' ltac:(lia) ltac:(lia) B1 E) as [S2 C2]. split.
  - replace (Z.of_nat (S (length l))) with (Z.of_nat (length l) + 1) by lia. eapply slots_trans; [lia | done | done].
  - intros k Hk. destruct (Z.eq_dec k 0) as [-> |].
    + change (nthZ 0 (a :: l) 0) with a. rewrite Z.add_0_r, <- C1. clear -B1 S2 Hi. unfold before, map_letters in B1.
      rewrite !Forall_cons in B1. destruct B1 as (B1 & B2 & B3 & B4 & _). destruct S2 as (S1 & S2 & S3 & S4).
      unfold slot, nav_code, LETTER_A in *. assert (Q : forall x y, (x = 0 \/ 65 <= x < 65 + (i + 1)) ->
        y = x \/ x = 0 /\ 65 + (i + 1) <= y < 65 + (i + 1) + Z.of_nat (length l) -> (x =? 65 + i) = (y =? 65 + i)).
      { intros x y Hx Hy. destruct (Z.eqb_spec x (65 + i)), (Z.eqb_spec y (65 + i)); lia. }
      by rewrite (Q _ _ B1 S1), (Q _ _ B2 S2), (Q _ _ B3 S3), (Q _ _ B4 S4).
    + replace k with (k - 1 + 1) by lia. rewrite nthZ_tail by lia. rewrite C2 by lia. f_equal. lia.
Qed.
Lemma expanded_code m k : map_ok m -> 0 <= k < 26 -> nthZ 0 (expanded m) k = nav_code m (LETTER_A + k).
Proof.
  intros Ok Hk. assert (R : forall x, In x (map_letters m) -> 0 <= x - LETTER_A < 26).
  { intros x Hx. pose proof (map_letters_range m x Ok Hx). unfold LETTER_A, LETTER_Z in *. lia. }
  unfold map_letters in R. unfold expanded, nav_code.
  rewrite !nthZ_setZ by (rewrite ?length_setZ, ?length_replicate; (lia || (apply R; cbn; tauto))).
  rewrite nthZ_replicate by lia.
  assert (Q : forall x, (x - LETTER_A =? k) = (x =? LETTER_A + k)) by (intros x; destruct (Z.eqb_spec (x - LETTER_A) k), (Z.eqb_spec x (LETTER_A + k)); lia).
  by rewrite !Q.
Qed.
Lemma reduce_expanded l m : length l = 26%nat -> reduce 0 l zero_map = Some m -> map_ok m -> l = expanded m.
Proof.
  intros Hl E Ok. destruct (reduce_spec l 0 zero_map m ltac:(lia) ltac:(lia)) as [_ C]; [| done |].
  { unfold before, map_letters. cbn. rewrite !Forall_cons. intuition. }
  assert (Le : length (expanded m) = 26%nat) by (unfold expanded; by rewrite !length_setZ, length_replicate).
  apply list_eq_same_length with (n := 26%nat); [done | done |]. intros i x y Hi E1 E2.
  assert (nthZ 0 l (Z.of_nat i) = x /\ nthZ 0 (expanded m) (Z.of_nat i) = y) as [<- <-].
  { unfold nthZ. destruct (Z.ltb_spec (Z.of_nat i) 0); [lia |]. rewrite Nat2Z.id, !nth_lookup, E1, E2. done. }
  rewrite C by lia. rewrite expanded_code by (done || lia). f_equal.
Qed.

(** ** START attempts and the network, interleaved *)
(** [attempt]: a START has been prepared and not yet cancelled or committed;
    [accepted]: the map of the last accepted START (for the statement only). *)
Record session := { ms : maps; nav : s3_navigation_t; attempt : bool; accepted : option BUDDY1_BARCODE_MAP }.
#[export] Instance session_settable : Settable session := fun r => Build_session (ms r) (nav r) (attempt r) (accepted r).
Inductive session_op :=
| MNetwork (lk : bool) (c : BUDDY1_COMMAND_MSG) (st : store)
| MCommand (lk : bool) (map : list Z)
| MPrepare (lk lk' : bool)
| MCancel (lk : bool)
| MCommit
| MNavigate (n : s3_navigation_t).
(** The sampling owner runs one START attempt at a time; the command task's
    commands (with whatever telemetry store they meet) and navigation (which keeps
    its map) come at any moment. *)
Definition session_enabled (s : session) (op : session_op) : Prop :=
  match op with
  | MNetwork _ _ _ => True
  | MCommand _ map => attempt s = false /\ length map = 26%nat
  | MPrepare _ _ => attempt s = false
  | MCancel _ | MCommit => attempt s = true
  | MNavigate n => cfg_map (nav_config n) = cfg_map (nav_config (nav s))
  end.
Definition session_run (s : session) (op : session_op) : session :=
  match op with
  | MNetwork lk c st =>
      let '(_, b, _) := buddy1_command_process lk c (active_map (ms s)) st in s <| ms := ms s <| active_map := b |> |>
  | MCommand lk map =>
      let '(ok, m) := vehicle_controller_apply_mapping lk map (ms s) in
      s <| ms := m |> <| nav := if ok then (s3_navigation_set_mapping (nav s) map).2 else nav s |>
  | MPrepare lk lk' =>
      let '(ok, m, n) := vehicle_controller_prepare_start lk lk' (ms s) (nav s) in
      s <| ms := m |> <| nav := n |> <| attempt := ok |>
  | MCancel lk => s <| ms := vehicle_controller_cancel_start lk (ms s) |> <| attempt := false |>
  | MCommit => s <| ms := vehicle_controller_commit_start (ms s) |> <| attempt := false |>
                 <| accepted := buddy1_map_unpack (unlatched (active_map (ms s))) |>
  | MNavigate n => s <| nav := n |>
  end.
Inductive session_reachable : session -> Prop :=
| session_boot n : session_reachable {| ms := maps_boot; nav := n; attempt := false; accepted := None |}
| session_next s op : session_reachable s -> session_enabled s op -> session_reachable (session_run s op).

Record session_inv (s : session) (m : BUDDY1_BARCODE_MAP) (f : bool) : Prop := {
  mi_stored : stored m f (active_map (ms s));
  mi_attempt : attempt s = true -> f = true /\ cfg_map (nav_config (nav s)) = expanded m;
  mi_idle : attempt s = false -> start_claimed_map (ms s) = false;
  mi_accepted : forall a, accepted s = Some a ->
    m = a /\ f = true /\ cfg_map (nav_config (nav s)) = expanded a /\ start_claimed_map (ms s) = false
}.
Lemma set_mapping_map n map : let r := s3_navigation_set_mapping n map in
  if r.1 then cfg_map (nav_config r.2) = map else r.2 = n.
Proof. unfold s3_navigation_set_mapping. by repeat case_if. Qed.

(** A claim that succeeds, and how a refused attempt gives it back. *)
Lemma prepare_spec m f s n lk lk' : stored m f (active_map s) -> start_claimed_map s = false ->
  let '(ok, s', n') := vehicle_controller_prepare_start lk lk' s n in
  if ok then stored m true (active_map s') /\ start_claimed_map s' = negb f /\ cfg_map (nav_config n') = expanded m
  else n' = n /\ start_claimed_map s' = false /\
    (active_map s' = active_map s \/ (lk' = false /\ f = false /\ stored m true (active_map s'))).
Proof.
  intros S C. unfold vehicle_controller_prepare_start. cbv zeta.
  change (active_map (s <| start_claimed_map := false |>)) with (active_map s). rewrite (claim_stored m f _ lk S).
  destruct lk; [| cbn; splits; [done | done | by left]].
  pose proof (set_mapping_map n (expanded m)) as SM. destruct (s3_navigation_set_mapping n (expanded m)) as [ok n'].
  cbn [fst snd] in SM. destruct ok; cbn [negb].
  - cbn. splits; [by apply stored_close in S | done | done].
  - pose proof (stored_close m f _ S) as S'. destruct f; cbn [negb]; cbn; (splits; [done | done |]).
    + left. by apply (stored_unique m true).
    + destruct lk'; cbn; [left | right; by splits]. apply (stored_unique m false); [by apply stored_reopen in S' | done].
Qed.
Lemma cancel_spec m f s lk : stored m f (active_map s) ->
  let s' := vehicle_controller_cancel_start lk s in start_claimed_map s' = false /\
  (active_map s' = active_map s \/ (start_claimed_map s = true /\ lk = true /\ stored m false (active_map s'))).
Proof.
  intros S. unfold vehicle_controller_cancel_start. destruct (start_claimed_map s); cbn; [| split; [done | by left]].
  destruct lk; cbn; (split; [done |]); [right | by left]. splits; [done | done | by apply stored_reopen in S].
Qed.
(** A command changes the stored map only through [buddy1_apply_barcode_map]. *)
Lemma process_map lk c b s : (buddy1_command_process lk c b s).1.2 = b \/
  exists m, (buddy1_command_process lk c b s).1.2 = (buddy1_apply_barcode_map lk m b).2.
Proof.
  unfold buddy1_command_process. destruct (cmd_kind c).
  - by left.
  - left. case_if; [done |]. destruct (buddy1_snapshot_packet lk s); [| done]. by destruct (buddy1_queue_publish s _ _).
  - destruct (buddy1_map_unpack (cmd_payload c)) as [m |]; [right; exists m | left].
    + destruct (buddy1_apply_barcode_map lk m b) as [er b']. by destruct (buddy1_queue_publish s _ _).
    + by destruct (buddy1_queue_publish s _ _).
Qed.
Lemma session_step s m f op : session_inv s m f -> session_enabled s op -> exists m' f', session_inv (session_run s op) m' f'.
Proof.
  intros [I1 I2 I3 I4] En. destruct op as [lk c st | lk map | lk lk' | lk | | n]; cbn [session_run session_enabled] in *.
  - pose proof (process_map lk c (active_map (ms s)) st) as P.
    destruct (buddy1_command_process lk c (active_map (ms s)) st) as [[er0 b0] s0]. cbn [fst snd] in P.
    destruct P as [-> | [m' ->]]; [by exists m, f; split |].
    pose proof (apply_stored m f _ lk m' I1) as A. destruct (buddy1_apply_barcode_map lk m' (active_map (ms s))) as [er b].
    destruct A as [A1 A2]. cbn [snd]. destruct (decide (er = E_OK)) as [E | E].
    + destruct (A1 E) as [-> S]. exists m', false. split; cbn; [done | | done |].
      * intros Ha. by destruct (I2 Ha).
      * intros a Ha. by destruct (I4 a Ha) as (_ & ? & _).
    + exists m, f. rewrite (A2 E). by split.
  - destruct En as [En Hl]. unfold vehicle_controller_apply_mapping. destruct (reduce 0 map zero_map) as [m' |] eqn:Er; [| by exists m, f].
    pose proof (apply_stored m f _ lk m' I1) as A. destruct (buddy1_apply_barcode_map lk m' (active_map (ms s))) as [er b].
    destruct A as [A1 A2]. destruct (bool_decide_reflect (er = E_OK)) as [E | E].
    + destruct (A1 E) as [-> S]. exists m', false. split; cbn; [done | by rewrite En | done |].
      intros a Ha. by destruct (I4 a Ha) as (_ & ? & _).
    + exists m, f. rewrite (A2 E). by split.
  - pose proof (prepare_spec m f (ms s) (nav s) lk lk' I1 (I3 En)) as P.
    destruct (vehicle_controller_prepare_start lk lk' (ms s) (nav s)) as [[ok s'] n']. destruct ok.
    + destruct P as (P1 & P2 & P3). exists m, true. split; cbn; [done | done | done |].
      intros a Ha. destruct (I4 a Ha) as (-> & -> & _ & _). done.
    + destruct P as (-> & P2 & [P | (-> & -> & P)]).
      * exists m, f. split; cbn; [by rewrite P | done | done |]. intros a Ha. destruct (I4 a Ha) as (-> & -> & ? & _). done.
      * exists m, true. split; cbn; [done | done | done |]. intros a Ha. by destruct (I4 a Ha) as (_ & ? & _).
  - destruct (cancel_spec m f (ms s) lk I1) as [C1 C2]. destruct C2 as [C | (Hc & -> & C)].
    + exists m, f. split; cbn -[vehicle_controller_cancel_start]; [by rewrite C | done | done |].
      intros a Ha. destruct (I4 a Ha) as (-> & -> & ? & _). done.
    + exists m, false. split; cbn -[vehicle_controller_cancel_start]; [done | done | done |].
      intros a Ha. destruct (I4 a Ha) as (_ & _ & _ & ?). congruence.
  - destruct (I2 En) as [-> E]. exists m, true. split; cbn -[buddy1_map_unpack unlatched]; [done | done | done |].
    intros a Ha. rewrite (stored_unlatched m true _ I1) in Ha. injection Ha as <-. done.
  - exists m, f. split; cbn; [done | by rewrite En | done | by rewrite En].
Qed.
Lemma session_reachable_inv s : session_reachable s -> exists m f, session_inv s m f.
Proof.
  induction 1 as [n | s op _ (m & f & I) En]; [| by eapply session_step].
  eexists _, false. split; [apply map_boot_stored | done | done | done].
Qed.

(** ** The guarantees *)

(** C32: an accepted run keeps its map.  From the first accepted START on, whatever
    the network sends, whatever mapping commands and further START attempts are
    made and however they end, the map stays frozen with the letters of that
    START: replacing it is refused, every letter means to navigation what the
    telemetry reports for it, and no refused START reopens it. *)
Theorem barcode_map_frozen s a : session_reachable s -> accepted s = Some a ->
  frozen (active_map (ms s)) = true /\ map_ok a /\
  (forall lk m, (buddy1_apply_barcode_map lk m (active_map (ms s))).1 <> E_OK /\
                (buddy1_apply_barcode_map lk m (active_map (ms s))).2 = active_map (ms s)) /\
  (forall l, LETTER_A <= l <= LETTER_Z ->
     action_for (nthZ 0 (cfg_map (nav_config (nav s))) (l - LETTER_A)) = map_action a l /\
     buddy1_barcode_action true l (active_map (ms s)) = map_action a l).
Proof.
  intros R Ha. destruct (session_reachable_inv s R) as (m & f & [I1 I2 I3 I4]). destruct (I4 a Ha) as (-> & -> & E & _).
  splits; [by apply (stored_frozen a) | by eapply stored_ok | |].
  - intros lk m. pose proof (apply_stored a true _ lk m I1) as A.
    destruct (buddy1_apply_barcode_map lk m (active_map (ms s))) as [er b]. destruct A as [A1 A2].
    assert (er <> E_OK) by (intros Er; by destruct (A1 Er)). auto.
  - intros l Hl. rewrite E. split; [apply expanded_action; [by eapply stored_ok | done] |].
    unfold buddy1_barcode_action. by rewrite (stored_unlatched a true _ I1).
Qed.

(** A refused START leaves no trace.  When no attempt is under way, a START
    that is refused while it installs the map leaves the stored map and its freeze
    as they were; while a prepared START waits to be decided nobody can replace
    the map; cancelling it restores the bytes from before the attempt; and a
    mapping command that is accepted gives navigation and telemetry the same
    four letters. *)
Theorem refused_start_restores_map s map : session_reachable s -> attempt s = false -> length map = 26%nat ->
  let b := active_map (ms s) in
  (let '(ok, s1, n1) := vehicle_controller_prepare_start true true (ms s) (nav s) in
   if ok then (forall lk m, (buddy1_apply_barcode_map lk m (active_map s1)).2 = active_map s1) /\
              active_map (vehicle_controller_cancel_start true s1) = b
   else active_map s1 = b /\ n1 = nav s) /\
  (let '(ok, s1) := vehicle_controller_apply_mapping true map (ms s) in
   if ok then exists m, map_ok m /\ map = expanded m /\ buddy1_map_unpack (unlatched (active_map s1)) = Some m
   else active_map s1 = b).
Proof.
  intros R Ha Hl b. destruct (session_reachable_inv s R) as (m & f & [I1 I2 I3 I4]). split.
  - pose proof (prepare_spec m f (ms s) (nav s) true true I1 (I3 Ha)) as P.
    destruct (vehicle_controller_prepare_start true true (ms s) (nav s)) as [[ok s1] n1]. destruct ok.
    + destruct P as (P1 & P2 & _). split.
      * intros lk m'. pose proof (apply_stored m true _ lk m' P1) as A.
        destruct (buddy1_apply_barcode_map lk m' (active_map s1)) as [er b']. destruct A as [A1 A2].
        apply A2. intros E. by destruct (A1 E).
      * unfold vehicle_controller_cancel_start. rewrite P2. destruct f; cbn.
        -- by apply (stored_unique m true).
        -- apply (stored_unique m false); [by apply stored_reopen in P1 | done].
    + by destruct P as (-> & _ & [? | (? & _)]).
  - unfold vehicle_controller_apply_mapping. destruct (reduce 0 map zero_map) as [m' |] eqn:Er; [| done].
    pose proof (apply_stored m f _ true m' I1) as A. destruct (buddy1_apply_barcode_map true m' (active_map (ms s))) as [er b'].
    destruct A as [A1 A2]. destruct (bool_decide_reflect (er = E_OK)) as [E | E]; cbn; [| by apply A2].
    destruct (A1 E) as [_ S]. exists m'. pose proof (stored_ok _ _ _ S) as Ok. splits; [done | by apply reduce_expanded | by eapply stored_unlatched].
Qed.
Definition bench_session : session := {| ms := maps_boot; nav := bench_boot; attempt := false; accepted := None |}.
Definition bench_letters : BUDDY1_BARCODE_MAP := {| forward := 89; left := 76; right := 82; uturn := 85 |}.
Definition map_command (m : BUDDY1_BARCODE_MAP) : BUDDY1_COMMAND_MSG :=
  {| cmd_kind := BUDDY1_COMMAND_BARCODE_MAP; cmd_payload := default [] (buddy1_map_pack m) |}.
Definition bench_accepted : session :=
  session_run (session_run (session_run (session_run bench_session (MNetwork true (map_command bench_letters) store_boot)) (MPrepare true true)) MCommit)
    (MNetwork true (map_command {| forward := 65; left := 66; right := 67; uturn := 68 |}) store_boot).
Lemma barcode_map_frozen_witness : accepted bench_accepted = Some bench_letters /\
  frozen (active_map (ms bench_accepted)) = true /\
  buddy1_barcode_action true 76 (active_map (ms bench_accepted)) = BUDDY1_ACTION_LEFT.
Proof.
  assert (A : accepted bench_accepted = Some bench_letters) by (by vm_compute).
  destruct (barcode_map_frozen bench_accepted bench_letters) as (F & _ & _ & L); [| done |].
  - repeat (apply session_next; [| by vm_compute]). apply session_boot.
  - splits; [done | done |]. rewrite (proj2 (L 76 ltac:(unfold LETTER_A, LETTER_Z; lia))). done.
Defined.
Lemma refused_start_restores_map_witness :
  let '(ok, s1, _) := vehicle_controller_prepare_start true true (ms bench_session) (nav bench_session) in
  ok = true /\ frozen (active_map s1) = true /\ active_map (vehicle_controller_cancel_start true s1) = map_boot.
Proof.
  pose proof (refused_start_restores_map bench_session (replicate 26 0) (session_boot _) eq_refl eq_refl) as [H _].
  destruct (vehicle_controller_prepare_start true true (ms bench_session) (nav bench_session)) as [[ok s1] n1] eqn:E.
  assert (Ho : ok = true /\ frozen (active_map s1) = true) by (vm_compute in E; injection E as <- <- _; done).
  destruct Ho as [-> F]. destruct H as [_ H]. splits; [done | done | exact H].
Defined.
