(* ===== verification/Imu.v ===== *)
(** * Inertial sensing

    Models [subsystem4/imu_sensor.c], [imu_calibration.c], [tilt_estimation.c],
    [motion_events.c] and [hump_detection.c]: reading the accelerometer and
    magnetometer over I2C, the level calibration, tilt and heading, the
    classification of the motion and the hump detector.

    The bus is the record [imu_bus]: its replies are arbitrary functions of the
    calls made so far, newest first.  [sinf] and [atan2f] are the record [libm].
    A C array of three floats is a [vec3]; a loop over its indices is written once
    per axis. *)
From S2P Require Import Prelude CFloat BitCodec.

Record vec3 := { ax0 : float; ax1 : float; ax2 : float }.
Definition vzero : vec3 := {| ax0 := fzero; ax1 := fzero; ax2 := fzero |}.
Definition vmap2 (f : float -> float -> float) (u v : vec3) : vec3 :=
  {| ax0 := f (ax0 u) (ax0 v); ax1 := f (ax1 u) (ax1 v); ax2 := f (ax2 u) (ax2 v) |}.
(** [x[0]*x[0]+x[1]*x[1]+x[2]*x[2]] and [x[0]*y[0]+x[1]*y[1]+x[2]*y[2]] *)
Definition vdot (u v : vec3) : float := (ax0 u * ax0 v + ax1 u * ax1 v + ax2 u * ax2 v)%f32.
Record libm := { sinf : float -> float; atan2f : float -> float -> float }.

(** ** The sensor *)
Record imu_sample_t := {
  accel_g : vec3; mag_gauss : vec3; imu_timestamp_us : Z; imu_valid : bool; mag_valid : bool; overrun : bool
}.
#[export] Instance imu_sample_settable : Settable imu_sample_t := fun r =>
  Build_imu_sample_t (accel_g r) (mag_gauss r) (imu_timestamp_us r) (imu_valid r) (mag_valid r) (overrun r).
Definition zero_imu_sample : imu_sample_t :=
  {| accel_g := vzero; mag_gauss := vzero; imu_timestamp_us := 0; imu_valid := false; mag_valid := false; overrun := false |}.
Inductive bus_call := BRead (address register : Z) (n : nat) | BWrite (address register value : Z).
(** [None]: the transfer failed. *)
Record imu_bus := { bus_read : list bus_call -> option bytes; bus_write : list bus_call -> bool }.

(** [((uint32_t)hi << 8) | lo], as a signed 16-bit number *)
Definition signed16 (hi lo : Z) : Z :=
  let value := Z.lor (Z.shiftl hi 8) lo in if negb (Z.land value 0x8000 =? 0) then value - 65536 else value.
Definition vfinite (v : vec3) : bool := isfinite (ax0 v) && isfinite (ax1 v) && isfinite (ax2 v).
Definition imu_sample_is_valid (s : imu_sample_t) : bool :=
  imu_valid s && vfinite (accel_g s) && (negb (mag_valid s) || vfinite (mag_gauss s)).

(** The register writes of the set-up, in order. *)
Definition imu_setup : list bus_call :=
  [BWrite 0x19 0x20 0x47; BWrite 0x19 0x21 0x00; BWrite 0x19 0x23 0x98; BWrite 0x1e 0x00 0x14; BWrite 0x1e 0x01 0x20;
   BWrite 0x1e 0x02 0x00].
Section Sensor.
Context (bus : imu_bus).
Fixpoint write_all (l : list bus_call) (log : list bus_call) : bool * list bus_call :=
  match l with
  | [] => (true, log)
  | c :: l => let log := c :: log in if bus_write bus log then write_all l log else (false, log)
  end.
Definition imu_sensor_init (log : list bus_call) : bool * list bus_call :=
  let log := BRead 0x1e 0x0a 3 :: log in
  match bus_read bus log with
  | None => (false, log)
  | Some id =>
      if negb (nthZ 0 id 0 =? 0x48) || negb (nthZ 0 id 1 =? 0x34) || negb (nthZ 0 id 2 =? 0x33) then (false, log)
      else
        let '(ok, log) := write_all imu_setup log in
        if negb ok then (false, log)
        else
          let log := BRead 0x19 0x23 1 :: log in
          (match bus_read bus log with Some value => nthZ 0 value 0 =? 0x98 | None => false end, log)
  end.
Definition saturated (x : Z) : bool := (x <=? -2048) || (2047 <=? x).
Definition mag_in_range (x : Z) : bool := (-2048 <=? x) && (x <=? 2047).
(** The magnetometer half: big-endian X, Z, Y. *)
Definition read_mag (log : list bus_call) (out : imu_sample_t) : imu_sample_t * list bus_call :=
  let log := BRead 0x1e 0x09 1 :: log in
  match bus_read bus log with
  | None => (out, log)
  | Some status =>
      if Z.land (nthZ 0 status 0) 3 =? 0 then (out, log)
      else
        let log := BRead 0x1e 0x03 6 :: log in
        match bus_read bus log with
        | None => (out, log)
        | Some raw =>
            let x := signed16 (nthZ 0 raw 0) (nthZ 0 raw 1) in
            let z := signed16 (nthZ 0 raw 2) (nthZ 0 raw 3) in
            let y := signed16 (nthZ 0 raw 4) (nthZ 0 raw 5) in
            if mag_in_range x && mag_in_range y && mag_in_range z then
              (out <| mag_gauss := {| ax0 := (float_of_Z (- y) / flit 1100 1)%f32; ax1 := (float_of_Z x / flit 1100 1)%f32;
                                      ax2 := (float_of_Z z / flit 980 1)%f32 |} |> <| mag_valid := true |>, log)
            else (out, log)
        end
  end.
(** The result, what [*out] holds afterwards, and the calls made. *)
Definition imu_sensor_read (now : Z) (log : list bus_call) : bool * imu_sample_t * list bus_call :=
  let out := zero_imu_sample <| imu_timestamp_us := now |> in
  let log := BRead 0x19 0x27 1 :: log in
  match bus_read bus log with
  | None => (false, out, log)
  | Some status =>
      if Z.land (nthZ 0 status 0) 8 =? 0 then (false, out, log)
      else
        let out := out <| overrun := negb (Z.land (nthZ 0 status 0) 0x80 =? 0) |> in
        let log := BRead 0x19 0xa8 6 :: log in
        match bus_read bus log with
        | None => (false, out, log)
        | Some raw =>
            let x := Z.quot (signed16 (nthZ 0 raw 1) (nthZ 0 raw 0)) 16 in
            let y := Z.quot (signed16 (nthZ 0 raw 3) (nthZ 0 raw 2)) 16 in
            let z := Z.quot (signed16 (nthZ 0 raw 5) (nthZ 0 raw 4)) 16 in
            if saturated x || saturated y || saturated z then (false, out, log)
            else
              let out := out <| accel_g := {| ax0 := (float_of_Z (- y) * flit 2 1000)%f32;
                                              ax1 := (float_of_Z x * flit 2 1000)%f32;
                                              ax2 := (float_of_Z z * flit 2 1000)%f32 |} |> <| imu_valid := true |> in
              let '(out, log) := read_mag log out in (true, out, log)
        end
  end.
End Sensor.

(** ** Level calibration *)
Definition IMU_CAL_SAMPLES : Z := 100.
Record imu_calibration_t := { bias_g : vec3; cal_sum : vec3; cal_min : vec3; cal_max : vec3; cal_count : Z; cal_ready : bool }.
Definition imu_calibration_reset : imu_calibration_t :=
  {| bias_g := vzero; cal_sum := vzero; cal_min := vzero; cal_max := vzero; cal_count := 0; cal_ready := false |}.
(** Level and stationary enough to be used. *)
Definition level (s : imu_sample_t) (stationary : bool) : bool :=
  negb (negb stationary || negb (imu_sample_is_valid s) || (fabs_ (ax0 (accel_g s)) >. flit 15 100) ||
        (fabs_ (ax1 (accel_g s)) >. flit 15 100) || (fabs_ (ax2 (accel_g s) - flit 1 1)%f32 >. flit 15 100)).
(** One axis of the loop: minimum, maximum and sum; [None]: the spread is too large. *)
Definition feed_axis (first : bool) (lo hi sum a : float) : option (float * float * float) :=
  let lo := if first then a else lo in
  let hi := if first then a else hi in
  let lo := if a <. lo then a else lo in
  let hi := if a >. hi then a else hi in
  if (hi - lo)%f32 >. flit 4 100 then None else Some (lo, hi, (sum + a)%f32).
Definition feed_axes (c : imu_calibration_t) (a : vec3) : option (vec3 * vec3 * vec3) :=
  let first := cal_count c =? 0 in
  let feed i := feed_axis first (i (cal_min c)) (i (cal_max c)) (i (cal_sum c)) (i a) in
  match feed ax0, feed ax1, feed ax2 with
  | Some (l0, h0, s0), Some (l1, h1, s1), Some (l2, h2, s2) =>
      Some ({| ax0 := l0; ax1 := l1; ax2 := l2 |}, {| ax0 := h0; ax1 := h1; ax2 := h2 |}, {| ax0 := s0; ax1 := s1; ax2 := s2 |})
  | _, _, _ => None
  end.
(** The mean, less one g on the vertical axis. *)
Definition bias_of (sum : vec3) : vec3 :=
  let mean x := (x / float_of_Z IMU_CAL_SAMPLES)%f32 in
  {| ax0 := mean (ax0 sum); ax1 := mean (ax1 sum); ax2 := (mean (ax2 sum) - flit 1 1)%f32 |}.
Definition imu_calibration_feed (c : imu_calibration_t) (s : imu_sample_t) (stationary : bool) : bool * imu_calibration_t :=
  if cal_ready c then (true, c)
  else if negb (level s stationary) then (false, imu_calibration_reset)
  else match feed_axes c (accel_g s) with
  | None => (false, imu_calibration_reset)
  | Some (lo, hi, sum) =>
      let count := u32 (cal_count c + 1) in
      let full := count =? IMU_CAL_SAMPLES in
      (full, {| bias_g := if full then bias_of sum else bias_g c; cal_sum := sum; cal_min := lo; cal_max := hi;
                cal_count := count; cal_ready := full |})
  end.

(** ** Tilt and heading *)
Definition DEG : float := flit 57295779513 1000000000.
Section Tilt.
Context (m : libm).
(** Pitch and roll in degrees. *)
Definition tilt_estimation (a : vec3) : option (float * float) :=
  let n := vdot a a in
  if negb (isfinite n) || (n <. flit 81 100) || (n >. flit 121 100) || (ax2 a <=. fzero) then None
  else Some ((atan2f m (ax0 a) (fsqrt (ax1 a * ax1 a + ax2 a * ax2 a)) * DEG)%f32, (atan2f m (-. ax1 a) (ax2 a) * DEG)%f32).
Definition tilt_heading (a g : vec3) : option float :=
  let n := fsqrt (vdot a a) in
  let norm := vdot g g in
  if negb (isfinite n) || (n <. flit 9 10) || (n >. flit 11 10) || negb (isfinite norm) || (norm <. flit 1 100) ||
     (norm >. flit 64 100) then None
  else
    let u := {| ax0 := (ax0 a / n)%f32; ax1 := (ax1 a / n)%f32; ax2 := (ax2 a / n)%f32 |} in
    let f := {| ax0 := (flit 1 1 - ax0 u * ax0 u)%f32; ax1 := (fzero - ax0 u * ax1 u)%f32; ax2 := (fzero - ax0 u * ax2 u)%f32 |} in
    let fn := fsqrt (vdot f f) in
    if fn <. flit 2 10 then None
    else
      let f := {| ax0 := (ax0 f / fn)%f32; ax1 := (ax1 f / fn)%f32; ax2 := (ax2 f / fn)%f32 |} in
      let l := {| ax0 := (ax1 u * ax2 f - ax2 u * ax1 f)%f32; ax1 := (ax2 u * ax0 f - ax0 u * ax2 f)%f32;
                  ax2 := (ax0 u * ax1 f - ax1 u * ax0 f)%f32 |} in
      let x := vdot g f in
      let y := vdot g l in
      if (x * x + y * y)%f32 <. flit 25 10000 then None
      else
        let heading := (-. atan2f m y x * DEG)%f32 in
        Some (if heading <. fzero then (heading + flit 360 1)%f32 else heading).
End Tilt.
Definition tilt_angle_delta (now previous : float) : float :=
  let d := (now - previous)%f32 in
  if d >. flit 180 1 then (d - flit 360 1)%f32 else if d <. -. flit 180 1 then (d + flit 360 1)%f32 else d.

(** ** Motion events *)
Inductive terrain_state_t :=
  TERRAIN_UNKNOWN | TERRAIN_STATIONARY | TERRAIN_MOVING | TERRAIN_ACCELERATING | TERRAIN_TURNING | TERRAIN_CLIMBING |
  TERRAIN_DESCENDING | TERRAIN_IMPACT.
#[export] Instance terrain_state_eq_dec : EqDecision terrain_state_t.
Proof. solve_decision. Defined.
Definition motion_classify (pitch speed longitudinal_g turn : float) (turn_valid impact : bool) : terrain_state_t :=
  if impact then TERRAIN_IMPACT
  else if turn_valid && (fabs_ turn >. flit 15 1) then TERRAIN_TURNING
  else if (fabs_ speed >. flit 1 100) && (pitch >. flit 4 1) then TERRAIN_CLIMBING
  else if (fabs_ speed >. flit 1 100) && (pitch <. -. flit 4 1) then TERRAIN_DESCENDING
  else if fabs_ longitudinal_g >. flit 12 100 then TERRAIN_ACCELERATING
  else if fabs_ speed <. flit 1 100 then TERRAIN_STATIONARY else TERRAIN_MOVING.

(** ** Humps *)
Record hump_detector_t := {
  height_m : float; hump_peak_m : float; highest_m : float; hump_started_us : Z; level_samples : Z;
  hump_active : bool; descended : bool; highest_valid : bool; hump_completed : bool
}.
#[export] Instance hump_settable : Settable hump_detector_t := fun r =>
  Build_hump_detector_t (height_m r) (hump_peak_m r) (highest_m r) (hump_started_us r) (level_samples r) (hump_active r)
    (descended r) (highest_valid r) (hump_completed r).
Definition hump_reset : hump_detector_t :=
  {| height_m := fzero; hump_peak_m := fzero; highest_m := fzero; hump_started_us := 0; level_samples := 0;
     hump_active := false; descended := false; highest_valid := false; hump_completed := false |}.
(** The sample may be part of a crossing. *)
Definition rideable (pitch ds : float) (valid : bool) : bool :=
  negb (negb valid || negb (isfinite ds) || negb (isfinite pitch) || (ds <. fzero) || (ds >. flit 5 100) ||
        (fabs_ pitch >. flit 40 1)).
Definition HUMP_LIMIT_US : Z := 10000000.
Definition climb_starts (pitch ds : float) : bool := (pitch >. flit 4 1) && (ds >. flit 1 10000).
Definition clear_crossing (h : hump_detector_t) : hump_detector_t :=
  h <| height_m := fzero |> <| hump_peak_m := fzero |> <| descended := false |> <| level_samples := 0 |>.
Section Hump.
Context (m : libm).
Definition rise (pitch ds : float) : float := (ds * sinf m (pitch * flit 1745329252 100000000000))%f32.
(** What an active detector does with a sample. *)
Definition hump_ride (h : hump_detector_t) (pitch ds : float) : hump_detector_t :=
  let h := h <| height_m := (height_m h + rise pitch ds)%f32 |> in
  let h := if height_m h >. hump_peak_m h then h <| hump_peak_m := height_m h |> else h in
  if (hump_peak_m h >. flit 50 100) || (height_m h <. -. flit 3 100) then h <| hump_active := false |>
  else
    let h := if pitch <. -. flit 4 1 then h <| descended := true |> else h in
    let h := h <| level_samples := if descended h && (fabs_ pitch <. flit 2 1) then u32 (level_samples h + 1) else 0 |> in
    if 5 <=? level_samples h then
      let h := if (hump_peak_m h >=. flit 5 1000) && (fabs_ (height_m h) <. flit 3 100)
               then h <| highest_m := if negb (highest_valid h) || (hump_peak_m h >. highest_m h) then hump_peak_m h
                                      else highest_m h |>
                      <| highest_valid := true |> <| hump_completed := true |>
               else h in
      h <| hump_active := false |>
    else h.
Definition hump_update (h : hump_detector_t) (pitch ds : float) (valid : bool) (now : Z) : hump_detector_t :=
  let h := h <| hump_completed := false |> in
  if negb (rideable pitch ds valid) || (hump_active h && (HUMP_LIMIT_US <? elapsed now (hump_started_us h)))
  then clear_crossing h <| hump_active := false |>
  else
    let h := if negb (hump_active h) && climb_starts pitch ds
             then clear_crossing h <| hump_active := true |> <| hump_started_us := now |> else h in
    if negb (hump_active h) then h else hump_ride h pitch ds.
End Hump.

(** ** Samples *)
(** A read stamps its sample with [now] and marks it valid exactly when it succeeds. *)
Lemma imu_read_marks bus now log : let '(ok, s, _) := imu_sensor_read bus now log in
  imu_timestamp_us s = now /\ imu_valid s = ok.
Proof.
  unfold imu_sensor_read. cbv zeta. destruct (bus_read bus _) as [status |]; [| done]. case_if; [done |].
  destruct (bus_read bus _) as [raw |]; [| done]. case_if; [done |].
  match goal with |- context [read_mag bus ?log ?out] => set (o := out);
    assert (T : imu_timestamp_us (read_mag bus log o).1 = now /\ imu_valid (read_mag bus log o).1 = true) by
      (unfold read_mag; destruct (bus_read bus _); [| done]; case_if; [done |]; destruct (bus_read bus _); [| done]; by case_if);
    destruct (read_mag bus log o) as [s l] end.
  done.
Qed.

(** ** Calibration windows *)
Definition reading : Type := imu_sample_t * bool.
Definition feed_all (h : list reading) : imu_calibration_t :=
  fold_left (fun c r => (imu_calibration_feed c r.1 r.2).2) h imu_calibration_reset.
Section Window.
Context (i : vec3 -> float).
Definition axis_lo (w : list reading) : float :=
  match w with [] => fzero | r :: w => fold_left (fun m r => if i (accel_g r.1) <. m then i (accel_g r.1) else m) w (i (accel_g r.1)) end.
Definition axis_hi (w : list reading) : float :=
  match w with [] => fzero | r :: w => fold_left (fun m r => if i (accel_g r.1) >. m then i (accel_g r.1) else m) w (i (accel_g r.1)) end.
Definition axis_sum (w : list reading) : float := fold_left (fun s r => (s + i (accel_g r.1))%f32) w fzero.
Definition narrow (w : list reading) : bool := negb ((axis_hi w - axis_lo w)%f32 >. flit 4 100).
End Window.
(** Level and still throughout, with at most 0.04 g between the extremes of an axis. *)
Definition steady (w : list reading) : Prop :=
  Forall (fun r => level r.1 r.2 = true) w /\
  forall n, narrow ax0 (take n w) = true /\ narrow ax1 (take n w) = true /\ narrow ax2 (take n w) = true.
Definition window_vec (f : (vec3 -> float) -> list reading -> float) (w : list reading) : vec3 :=
  {| ax0 := f ax0 w; ax1 := f ax1 w; ax2 := f ax2 w |}.
(** The calibration while it collects the window [w]. *)
Definition collecting_state (w : list reading) : imu_calibration_t :=
  {| bias_g := vzero; cal_sum := window_vec axis_sum w; cal_min := window_vec axis_lo w; cal_max := window_vec axis_hi w;
     cal_count := Z.of_nat (length w); cal_ready := false |}.

Lemma flt_irrefl x : (x <. x) = false.
Proof.
  destruct x as [[] | [] | | [] m e]; try done; unfold SFltb; cbn; rewrite Z.compare_refl; unfold Pos.compare;
    by rewrite (Pos.compare_cont_refl m Eq).
Qed.
Lemma feed_axis_window i w r : feed_axis (Z.of_nat (length w) =? 0) (axis_lo i w) (axis_hi i w) (axis_sum i w) (i (accel_g r.1)) =
  if narrow i (w ++ [r]) then Some (axis_lo i (w ++ [r]), axis_hi i (w ++ [r]), axis_sum i (w ++ [r])) else None.
Proof.
  unfold feed_axis, narrow, axis_sum. rewrite fold_left_app. cbn [fold_left]. destruct w as [| r0 w].
  - cbn [length Z.of_nat Z.eqb axis_lo axis_hi app fold_left]. rewrite !flt_irrefl. cbv iota. by destruct (_ <. _).
  - cbn [app axis_lo axis_hi]. rewrite !fold_left_app. cbn [fold_left].
    change (Z.of_nat (length (r0 :: w)) =? 0) with false. cbv iota. by destruct (flit 4 100 <. _).
Qed.
Lemma steady_snoc w r : steady w -> level r.1 r.2 = true ->
  narrow ax0 (w ++ [r]) = true -> narrow ax1 (w ++ [r]) = true -> narrow ax2 (w ++ [r]) = true -> steady (w ++ [r]).
Proof.
  intros [F N] L N0 N1 N2. split; [apply Forall_app; split; [done | by constructor] |]. intros n.
  destruct (le_lt_dec n (length w)).
  - rewrite take_app_le by done. apply N.
  - rewrite take_ge by (rewrite length_app; cbn; lia). done.
Qed.
Lemma steady_nil : steady [].
Proof. split; [constructor |]. intros n. rewrite take_nil. by vm_compute. Qed.
Lemma feed_axes_window w r : feed_axes (collecting_state w) (accel_g r.1) =
  let w' := w ++ [r] in
  if narrow ax0 w' && narrow ax1 w' && narrow ax2 w' then
    Some (window_vec axis_lo w', window_vec axis_hi w', window_vec axis_sum w') else None.
Proof.
  pose proof (feed_axis_window ax0 w r) as E0. pose proof (feed_axis_window ax1 w r) as E1. pose proof (feed_axis_window ax2 w r) as E2.
  unfold feed_axes. cbn [cal_count cal_min cal_max cal_sum collecting_state]. unfold window_vec. cbn [ax0 ax1 ax2].
  rewrite E0, E1, E2. cbv zeta. by destruct (narrow ax0 (w ++ [r])), (narrow ax1 (w ++ [r])), (narrow ax2 (w ++ [r])).
Qed.
(** One reading fed to a window. *)
Lemma feed_window w r : (length w < 100)%nat -> steady w ->
  forall c, c = (imu_calibration_feed (collecting_state w) r.1 r.2).2 ->
  (c = imu_calibration_reset /\ ~ steady (w ++ [r])) \/
  (steady (w ++ [r]) /\ if (length (w ++ [r]) =? 100)%nat then cal_ready c = true /\ bias_g c = bias_of (window_vec axis_sum (w ++ [r]))
                       else c = collecting_state (w ++ [r])).
Proof.
  intros Hl S c ->. unfold imu_calibration_feed. cbn [cal_ready collecting_state].
  destruct (level r.1 r.2) eqn:L; cbn [negb].
  2:{ left. split; [done |]. intros [F _]. apply Forall_app in F as [_ F]. apply Forall_inv in F. congruence. }
  rewrite feed_axes_window. cbv zeta.
  assert (T : forall i, narrow i (take (length (w ++ [r])) (w ++ [r])) = narrow i (w ++ [r])) by (intros i; by rewrite take_ge).
  destruct (narrow ax0 (w ++ [r])) eqn:N0, (narrow ax1 (w ++ [r])) eqn:N1, (narrow ax2 (w ++ [r])) eqn:N2; cbn [andb];
    try (left; split; [done |]; intros [_ N]; specialize (N (length (w ++ [r]))); rewrite !T, ?N0, ?N1, ?N2 in N; naive_solver).
  right. split; [by apply steady_snoc |]. cbn [snd cal_count collecting_state].
  assert (E : u32 (Z.of_nat (length w) + 1) = Z.of_nat (length (w ++ [r]))).
  { rewrite length_app. cbn [length]. unfold u32. rewrite wrap_id by (unfold in_u; lia). lia. }
  rewrite E. unfold IMU_CAL_SAMPLES. destruct (Nat.eqb_spec (length (w ++ [r])) 100) as [H | H].
  - rewrite H. change (Z.of_nat 100 =? 100) with true. done.
  - destruct (Z.eqb_spec (Z.of_nat (length (w ++ [r]))) 100); [lia |]. done.
Qed.

(** What a history of readings has made of the calibration. *)
Inductive captured (h : list reading) (c : imu_calibration_t) : Prop :=
| cap_collecting pre w : h = pre ++ w -> (length w < 100)%nat -> steady w -> c = collecting_state w -> captured h c
| cap_ready pre w post : h = pre ++ w ++ post -> length w = 100%nat -> steady w -> cal_ready c = true ->
    bias_g c = bias_of (window_vec axis_sum w) -> captured h c.
Lemma captured_next h c r : captured h c -> captured (h ++ [r]) (imu_calibration_feed c r.1 r.2).2.
Proof.
  intros [pre w -> Hl S -> | pre w post -> Hl S R B].
  - destruct (feed_window w r Hl S _ eq_refl) as [[-> _] | [S' C]].
    + apply (cap_collecting _ _ ((pre ++ w) ++ [r]) []); [by rewrite app_nil_r | cbn; lia | apply steady_nil | done].
    + case_if_in C; [apply Nat.eqb_eq in Heqb as E | apply Nat.eqb_neq in Heqb as E].
      * destruct C as [C1 C2]. apply (cap_ready _ _ pre (w ++ [r]) []); [by rewrite app_nil_r, app_assoc | done | done | done | done].
      * rewrite C. apply (cap_collecting _ _ pre (w ++ [r])); [by rewrite app_assoc | | done | done].
        rewrite length_app in *. cbn in *. lia.
  - apply (cap_ready _ _ pre w (post ++ [r])); [by rewrite <- !app_assoc | done | done | |]; unfold imu_calibration_feed; by rewrite R.
Qed.
Lemma feed_all_captured h : captured h (feed_all h).
Proof.
  induction h as [| r h IH] using rev_ind.
  - apply (cap_collecting _ _ [] []); [done | cbn; lia | apply steady_nil | done].
  - unfold feed_all. rewrite fold_left_app. by apply captured_next.
Qed.
Lemma steady_prefix w r : steady (w ++ [r]) -> steady w.
Proof.
  intros [F N]. apply Forall_app in F as [F _]. split; [done |]. intros n. specialize (N (Nat.min n (length w))).
  rewrite take_app_le in N by lia. assert (E : take (Nat.min n (length w)) w = take n w); [| by rewrite E in N].
  destruct (le_lt_dec n (length w)); [by rewrite Nat.min_l | rewrite Nat.min_r by lia; by rewrite !take_ge by lia].
Qed.
Lemma feed_steady w : steady w -> (length w < 100)%nat -> feed_all w = collecting_state w.
Proof.
  induction w as [| r w IH] using rev_ind; intros S Hl; [done |]. rewrite length_app in Hl. cbn in Hl.
  unfold feed_all. rewrite fold_left_app. change (fold_left _ w imu_calibration_reset) with (feed_all w).
  rewrite IH by (try lia; by eapply steady_prefix). cbn [fold_left].
  destruct (feed_window w r ltac:(lia) (steady_prefix _ _ S) _ eq_refl) as [[_ N] | [_ C]]; [done |].
  case_if_in C; [| done]. apply Nat.eqb_eq in Heqb. rewrite length_app in Heqb. cbn in Heqb. lia.
Qed.

(** Level calibration.  However readings arrive, the calibration is ready only
    after 100 consecutive readings that were all valid, stationary and level
    within 0.15 g, with at most 0.04 g between the extremes of each axis, and its
    bias is then the mean of exactly those 100 readings, less one g vertically,
    for good; conversely 100 such readings from a fresh start make it ready. *)
Theorem imu_calibration_genuine h :
  (cal_ready (feed_all h) = true -> exists pre w post, h = pre ++ w ++ post /\ length w = 100%nat /\ steady w /\
     bias_g (feed_all h) = bias_of (window_vec axis_sum w)) /\
  (steady h -> length h = 100%nat -> cal_ready (feed_all h) = true /\ bias_g (feed_all h) = bias_of (window_vec axis_sum h)).
Proof.
  split.
  - intros R. destruct (feed_all_captured h) as [pre w -> Hl S E | pre w post -> Hl S _ B]; [by rewrite E in R |].
    by exists pre, w, post.
  - intros S Hl. induction h as [| r w _] using rev_ind; [done |]. rewrite length_app in Hl. cbn in Hl.
    unfold feed_all. rewrite fold_left_app. change (fold_left _ w imu_calibration_reset) with (feed_all w).
    rewrite feed_steady by (try lia; by eapply steady_prefix). cbn [fold_left].
    destruct (feed_window w r ltac:(lia) (steady_prefix _ _ S) _ eq_refl) as [[_ N] | [_ C]]; [done |].
    case_if_in C; [done |]. apply Nat.eqb_neq in Heqb. rewrite length_app in Heqb. cbn in Heqb. lia.
Qed.

(** ** Crossing a hump *)
Record ride := { rd_pitch : float; rd_ds : float; rd_valid : bool; rd_now : Z }.
Section Crossing.
Context (m : libm).
Definition hump_all (l : list ride) : hump_detector_t :=
  fold_left (fun h r => hump_update m h (rd_pitch r) (rd_ds r) (rd_valid r) (rd_now r)) l hump_reset.
(** Height and highest point of a stretch, from its samples. *)
Definition profile_step (p : float * float) (r : ride) : float * float :=
  let h := (p.1 + rise m (rd_pitch r) (rd_ds r))%f32 in (h, if h >. p.2 then h else p.2).
Definition profile (w : list ride) : float * float := fold_left profile_step w (fzero, fzero).
Definition descends (w : list ride) : bool := existsb (fun r => rd_pitch r <. -. flit 4 1) w.
(** Level samples at the end of the stretch. *)
Definition level_run (w : list ride) : Z :=
  fold_left (fun n r => if fabs_ (rd_pitch r) <. flit 2 1 then n + 1 else 0) w 0.
(** Too high or too deep to be a hump. *)
Definition rejected (w : list ride) : bool := ((profile w).2 >. flit 50 100) || ((profile w).1 <. -. flit 3 100).
Definition finished (w : list ride) : bool := descends w && (5 <=? level_run w).
(** A stretch that starts with a climb, of valid samples within 10 s. *)
Definition crossing (w : list ride) : Prop :=
  exists first rest, w = first :: rest /\ climb_starts (rd_pitch first) (rd_ds first) = true /\
    Forall (fun r => rideable (rd_pitch r) (rd_ds r) (rd_valid r) = true) w /\
    Forall (fun r => elapsed (rd_now r) (rd_now first) <= HUMP_LIMIT_US) rest.
(** Up, down and level again, between 5 mm and 50 cm high and back within 3 cm. *)
Definition complete_crossing (w : list ride) : Prop :=
  crossing w /\ finished w = true /\ (flit 5 1000 <=. (profile w).2) = true /\ ((profile w).2 <=. flit 50 100) = true /\
  (fabs_ (profile w).1 <. flit 3 100) = true.

Lemma level_not_descending p : (p <. -. flit 4 1) = true -> (fabs_ p <. flit 2 1) = false.
Proof.
  change (flit 4 1) with (S754_finite false 8388608 (-21)). change (flit 2 1) with (S754_finite false 8388608 (-22)).
  destruct p as [[] | [] | | [] k e]; try done. unfold SFltb. cbn -[Z.compare Pos.compare_cont].
  destruct (Z.compare_spec e (-21)); try done; intros _; destruct (Z.compare_spec e (-22)); try lia; done.
Qed.
Lemma level_run_nonneg w : 0 <= level_run w.
Proof.
  unfold level_run. induction w as [| r w IH] using rev_ind; [done |]. rewrite fold_left_app. cbn [fold_left]. case_if; lia.
Qed.
(** The detector on its way over [w]. *)
Record riding (h : hump_detector_t) (w : list ride) : Prop := {
  ri_active : hump_active h = true;
  ri_profile : (height_m h, hump_peak_m h) = profile w;
  ri_descended : descended h = descends w;
  ri_level : level_samples h = if descends w then level_run w else 0;
  ri_open : finished w = false
}.
Definition on_top (w : list ride) : bool := ((profile w).2 >=. flit 5 1000) && (fabs_ (profile w).1 <. flit 3 100).
(** One more sample of the crossing. *)
Lemma ride_next h w r : riding h w -> forall h', h' = hump_ride m h (rd_pitch r) (rd_ds r) -> let w' := w ++ [r] in
  hump_started_us h' = hump_started_us h /\
  (if rejected w' then hump_active h' = false
   else if finished w' then hump_active h' = false else riding h' w') /\
  (if negb (rejected w') && finished w' && on_top w' then
     hump_completed h' = true /\ highest_valid h' = true /\
     highest_m h' = if negb (highest_valid h) || ((profile w').2 >. highest_m h) then (profile w').2 else highest_m h
   else hump_completed h' = hump_completed h /\ highest_valid h' = highest_valid h /\ highest_m h' = highest_m h).
Proof.
  intros [R1 R2 R3 R4 R5] h' -> w'.
  assert (Ep : profile w' = profile_step (profile w) r) by (unfold w', profile; by rewrite fold_left_app).
  assert (Ed : descends w' = descends w || (rd_pitch r <. -. flit 4 1)) by (unfold w', descends; rewrite existsb_app; cbn; by rewrite orb_false_r).
  assert (El : level_run w' = if fabs_ (rd_pitch r) <. flit 2 1 then level_run w + 1 else 0) by (unfold w', level_run; by rewrite fold_left_app).
  unfold rejected, finished, on_top in *. rewrite Ep. rewrite <- R2. unfold profile_step. cbn [fst snd].
  assert (Lv : (if (descends w || (rd_pitch r <. -. flit 4 1)) && (fabs_ (rd_pitch r) <. flit 2 1)
    then u32 (level_samples h + 1) else 0) = if descends w' then level_run w' else 0).
  { rewrite R4, Ed, El. destruct (rd_pitch r <. -. flit 4 1) eqn:D.
    - rewrite (level_not_descending _ D), orb_true_r. done.
    - rewrite orb_false_r. destruct (descends w); cbn [andb] in *; [| done]. destruct (fabs_ _ <. _); [| done].
      pose proof (level_run_nonneg w). unbool. apply wrap_id. unfold in_u. lia. }
  destruct h as [ht pk hi st lv ac de hv co]. cbn [hump_active descended level_samples] in R1, R3, R4, Lv. subst ac de. unfold hump_ride.
  cbn -[flit fabs_ SFopp SFltb SFleb fadd rise u32 Z.leb Z.add].
  set (hh := (ht + rise m (rd_pitch r) (rd_ds r))%f32) in *.
  unfold profile_step in Ep. rewrite <- R2 in Ep. cbn [fst snd] in Ep. fold hh in Ep.
  assert (F5 : (5 <=? (if descends w' then level_run w' else 0)) = descends w' && (5 <=? level_run w')) by (by destruct (descends w')).
  destruct (pk <. hh) eqn:Pk, (rd_pitch r <. -. flit 4 1) eqn:D; rewrite ?orb_true_r, ?orb_false_r in *;
    cbn -[flit fabs_ SFopp SFltb SFleb fadd rise u32 Z.leb Z.add] in *; rewrite Lv, F5;
    (match goal with |- context [(?a || ?b)] => destruct (a || b) eqn:Rj end; [done |]);
    cbn -[flit fabs_ SFopp SFltb SFleb fadd rise u32 Z.leb Z.add finished];
    destruct (descends w' && (5 <=? level_run w')) eqn:Fn;
    cbn -[flit fabs_ SFopp SFltb SFleb fadd rise u32 Z.leb Z.add]; rewrite ?andb_true_r; (split; [| split]); try done.
  all: try match goal with |- context [(?a <=. ?b) && (?c <. ?d)] => destruct ((a <=. b) && (c <. d)) end; try done.
  all: split; [done | | cbn; by rewrite Ed | done | exact Fn].
  all: cbn [height_m hump_peak_m]; rewrite Ep; fold hh; by rewrite Pk.
Qed.
Definition starts_at (w : list ride) : Z := match w with [] => 0 | r :: _ => rd_now r end.
(** What a history of samples has made of the detector. *)
Record hump_inv (l : list ride) (h : hump_detector_t) : Prop := {
  hi_active : hump_active h = true -> exists pre w, l = pre ++ w /\ crossing w /\ riding h w /\ hump_started_us h = starts_at w;
  hi_highest : highest_valid h = true -> exists pre w post, l = pre ++ w ++ post /\ complete_crossing w /\ highest_m h = (profile w).2;
  hi_completed : hump_completed h = true -> exists pre w, l = pre ++ w /\ complete_crossing w /\ highest_valid h = true /\
    ((profile w).2 >. highest_m h) = false
}.
Lemma complete_of w : crossing w -> rejected w = false -> finished w = true -> on_top w = true -> complete_crossing w.
Proof.
  intros C R F T. unfold on_top in T. apply andb_true_iff in T as [T1 T2]. unfold rejected in R. apply orb_false_iff in R as [R _].
  unfold complete_crossing. splits; try done. apply not_flt; [done | apply (fle_number _ _ T1) | done].
Qed.
Lemma highest_extend l r w : (exists pre w' post, l = pre ++ w' ++ post /\ complete_crossing w' /\ w = (profile w').2) ->
  exists pre w' post, l ++ [r] = pre ++ w' ++ post /\ complete_crossing w' /\ w = (profile w').2.
Proof. intros (pre & w' & post & -> & C & E). exists pre, w', (post ++ [r]). by rewrite <- !app_assoc. Qed.
Lemma ride_inv l h0 h w r pre : hump_inv l h0 -> l ++ [r] = pre ++ (w ++ [r]) -> riding h w -> crossing (w ++ [r]) ->
  hump_completed h = false -> highest_valid h = highest_valid h0 -> highest_m h = highest_m h0 -> hump_started_us h = starts_at (w ++ [r]) ->
  hump_inv (l ++ [r]) (hump_ride m h (rd_pitch r) (rd_ds r)).
Proof.
  intros [_ I2 _] E R C Co Hv Hm St. destruct (ride_next h w r R _ eq_refl) as (S & A & B). cbv zeta in A, B.
  destruct (rejected (w ++ [r])) eqn:Rj; cbn [negb andb] in B.
  { destruct B as (B1 & B2 & B3). split; [by rewrite A | | by rewrite B1, Co].
    rewrite B2, B3, Hv, Hm. intros V. by apply highest_extend, I2. }
  destruct (finished (w ++ [r])) eqn:Fn; cbn [andb] in B.
  2:{ destruct B as (B1 & B2 & B3). split; [| | by rewrite B1, Co].
      - intros _. exists pre, (w ++ [r]). splits; [done | done | done | by rewrite S].
      - rewrite B2, B3, Hv, Hm. intros V. by apply highest_extend, I2. }
  destruct (on_top (w ++ [r])) eqn:Tp.
  2:{ destruct B as (B1 & B2 & B3). split; [by rewrite A | | by rewrite B1, Co].
      rewrite B2, B3, Hv, Hm. intros V. by apply highest_extend, I2. }
  pose proof (complete_of _ C Rj Fn Tp) as CC. destruct B as (B1 & B2 & B3). split; [by rewrite A | |].
  - intros _. rewrite B3. destruct (negb (highest_valid h) || (highest_m h <. (profile (w ++ [r])).2)) eqn:G.
    + exists pre, (w ++ [r]), []. by rewrite app_nil_r.
    + apply orb_false_iff in G as [G _]. apply negb_false_iff in G. rewrite Hm. apply highest_extend, I2. by rewrite <- Hv.
  - intros _. exists pre, (w ++ [r]). splits; [done | done | done |]. rewrite B3.
    destruct (negb (highest_valid h) || (highest_m h <. (profile (w ++ [r])).2)) eqn:G; [apply flt_irrefl |].
    by apply orb_false_iff in G as [_ G].
Qed.
Lemma hump_step l h r : hump_inv l h -> hump_inv (l ++ [r]) (hump_update m h (rd_pitch r) (rd_ds r) (rd_valid r) (rd_now r)).
Proof.
  intros I. pose proof I as [I1 I2 I3]. unfold hump_update. cbv zeta.
  set (h0 := h <| hump_completed := false |>). change (hump_active h0) with (hump_active h).
  change (hump_started_us h0) with (hump_started_us h).
  destruct (negb (rideable _ _ _) || _) eqn:G.
  { split; cbn; [done | | done]. intros V. by apply highest_extend, I2. }
  apply orb_false_iff in G as [Rd Tm]. apply negb_false_iff in Rd. destruct (hump_active h) eqn:Ac; cbn [negb andb].
  - change (hump_active h0) with (hump_active h). rewrite Ac. cbn [negb].
    destruct (I1 eq_refl) as (pre & w & -> & C & R & St). cbn [andb] in Tm. apply Z.ltb_ge in Tm.
    apply (ride_inv (pre ++ w) h h0 w r pre); try done; [by rewrite <- app_assoc | by destruct R; split | |].
    + destruct C as (first & rest & -> & Cs & F1 & F2). exists first, (rest ++ [r]). splits; [done | done | |].
      * apply Forall_app. split; [done | by constructor].
      * apply Forall_app. split; [done |]. constructor; [| constructor]. by rewrite St in Tm.
    + destruct C as (first & rest & -> & _). exact St.
  - destruct (climb_starts (rd_pitch r) (rd_ds r)) eqn:Cs; cbn -[clear_crossing hump_ride].
    + apply (ride_inv l h _ [] r l); try done.
      exists r, []. splits; [done | done | by constructor | constructor].
    + change (hump_active h0) with (hump_active h). rewrite Ac. cbn [negb]. split; cbn; [by rewrite Ac | | done].
      intros V. by apply highest_extend, I2.
Qed.
Lemma hump_all_inv l : hump_inv l (hump_all l).
Proof.
  induction l as [| r l IH] using rev_ind; [by split |]. unfold hump_all. rewrite fold_left_app. by apply hump_step.
Qed.
End Crossing.

(** Humps are genuine.  A hump is reported complete only at the end of a
    stretch of valid samples, all within 10 s, that begins with a climb above 4
    degrees, contains a descent below -4 degrees, ends with at least five level
    samples after it, and whose integrated height peaks between 5 mm and 50 cm and
    returns to within 3 cm of where it began; the highest hump of a run is the
    peak of one such stretch of that run and is not below the one just completed;
    and while a hump is being crossed the live height is that of a stretch under way. *)
Theorem hump_genuine m l : let h := hump_all m l in
  (hump_completed h = true -> exists pre w, l = pre ++ w /\ complete_crossing m w /\ highest_valid h = true /\
     ((profile m w).2 >. highest_m h) = false) /\
  (highest_valid h = true -> exists pre w post, l = pre ++ w ++ post /\ complete_crossing m w /\ highest_m h = (profile m w).2) /\
  (hump_active h = true -> exists pre w, l = pre ++ w /\ crossing w /\ height_m h = (profile m w).1).
Proof.
  intros h. destruct (hump_all_inv m l) as [I1 I2 I3]. splits; [exact I3 | exact I2 |].
  intros A. destruct (I1 A) as (pre & w & E & C & R & _). exists pre, w. splits; [done | done |].
  by rewrite <- (ri_profile _ _ _ R).
Qed.
