(* ===== verification/FloatRange.v ===== *)
(** * Rounding and bounds

    A rounded result never passes a number the format can represent.  The lemmas
    follow [SpecFloat]'s rounding ([shr_fexp], [round_nearest_even]) on mantissas
    and exponents; magnitudes are compared as integers scaled by [2^400], which is
    more than the exponent of any intermediate product of two binary32 numbers
    needs.  They bound what the program converts back to integers with [lroundf]. *)
From S2P Require Import Prelude CFloat.

(** [lroundf]: to the nearest integer, halves away from zero. *)
Definition lroundf (f : float) : Z :=
  match f with
  | S754_finite s m e =>
      let v := if 0 <=? e then Z.pos m * 2 ^ e else (2 * Z.pos m + 2 ^ (- e)) / 2 ^ (1 - e) in
      if s then - v else v
  | _ => 0
  end.

(** The magnitude of [m * 2^e]. *)
Definition scaled (m e : Z) : Z := m * 2 ^ (e + 400).
Lemma scaled_shift m e n : 0 <= n -> -400 <= e -> scaled m (e + n) = scaled (m * 2 ^ n) e.
Proof. intros. unfold scaled. replace (e + n + 400) with (n + (e + 400)) by lia. rewrite Z.pow_add_r by lia. ring. Qed.
Lemma scaled_le m n e : -400 <= e -> scaled m e <= scaled n e <-> m <= n.
Proof. intros. unfold scaled. assert (0 < 2 ^ (e + 400)) by (apply Z.pow_pos_nonneg; lia). nia. Qed.
Lemma scaled_pow d e : 0 <= d -> -400 <= e -> scaled (2 ^ d) e = 2 ^ (d + e + 400).
Proof. intros. unfold scaled. rewrite <- Z.pow_add_r by lia. f_equal. lia. Qed.

(** ** Shifting a mantissa right *)
(** What [k] steps of [shr_1] have made of the mantissa [m]. *)
Definition shifted (m k : Z) (r : shr_record) : Prop :=
  shr_m r = m / 2 ^ k /\ (m mod 2 ^ k = 0 -> shr_r r = false /\ shr_s r = false).
Lemma shifted_start m : shifted m 0 (shr_record_of_loc m loc_Exact).
Proof. unfold shifted. cbn. by rewrite Z.div_1_r. Qed.
Lemma mod_pow_succ m k : 0 <= m -> 0 <= k -> m mod 2 ^ (k + 1) = m mod 2 ^ k + 2 ^ k * ((m / 2 ^ k) mod 2).
Proof.
  intros. rewrite Z.pow_add_r by lia. apply Z.rem_mul_r; [| lia]. apply Z.pow_nonzero; lia.
Qed.
Lemma shifted_step m k r : 0 <= m -> 0 <= k -> shifted m k r -> shifted m (k + 1) (shr_1 r).
Proof.
  intros Hm Hk [H1 H2]. unfold shifted. pose proof (mod_pow_succ m k Hm Hk) as Em.
  assert (0 <= m / 2 ^ k) by (apply Z.div_pos; [lia | apply Z.pow_pos_nonneg; lia]).
  assert (0 <= m mod 2 ^ k < 2 ^ k) by (apply Z.mod_pos_bound, Z.pow_pos_nonneg; lia).
  assert (P : 0 < 2 ^ k) by (apply Z.pow_pos_nonneg; lia).
  assert (Ed : m / 2 ^ (k + 1) = shr_m r / 2) by (rewrite H1, Z.pow_add_r, Z.div_div by lia; done).
  rewrite Ed, Em, <- H1. rewrite <- H1 in H. destruct r as [q b t]. cbn [shr_m shr_r shr_s] in *.
  assert (B : (q mod 2 = 1 -> m mod 2 ^ k + 2 ^ k * (q mod 2) <> 0) /\ (m mod 2 ^ k + 2 ^ k * (q mod 2) = 0 -> m mod 2 ^ k = 0)) by
    (pose proof (Z.mod_pos_bound q 2); split; nia). destruct B as [B1 B2].
  rewrite Zmod_odd in *. rewrite <- Z.div2_div.
  destruct q as [| [p | p |] | p]; [| | | | by destruct (Zlt_not_le _ _ (Pos2Z.neg_is_neg p))]; (split; [reflexivity |]); intros E;
    (destruct (B1 eq_refl E) || (destruct (H2 (B2 E)) as [Hb Ht]; cbn in Hb, Ht |- *; by rewrite Hb, Ht)).
Qed.
Lemma shifted_iter p : forall m k r, 0 <= m -> 0 <= k -> shifted m k r -> shifted m (k + Z.pos p) (iter_pos shr_1 p r).
Proof.
  induction p as [p IH | p IH |]; intros m k r Hm Hk S; cbn [iter_pos].
  - replace (k + Z.pos p~1) with (k + 1 + Z.pos p + Z.pos p) by lia.
    apply IH; [lia | lia |]. apply IH; [lia | lia |]. by apply shifted_step.
  - replace (k + Z.pos p~0) with (k + Z.pos p + Z.pos p) by lia. apply IH; [lia | lia |]. by apply IH.
  - by apply shifted_step.
Qed.
Lemma shifted_shr m e n : 0 <= m -> let '(r, e') := shr (shr_record_of_loc m loc_Exact) e n in
  e' = e + Z.max 0 n /\ shifted m (Z.max 0 n) r.
Proof.
  intros Hm. destruct n as [| p | p]; cbn [shr]; (split; [lia |]).
  - apply shifted_start.
  - change (Z.max 0 (Z.pos p)) with (0 + Z.pos p). apply shifted_iter; [lia | lia | apply shifted_start].
  - apply shifted_start.
Qed.
(** Rounding moves up at most once, and not at all when nothing was shifted out. *)
Lemma shifted_round m k r c : 0 <= m -> 0 <= k -> shifted m k r -> m <= c * 2 ^ k ->
  0 <= round_nearest_even (shr_m r) (loc_of_shr_record r) <= c.
Proof.
  intros Hm Hk [S1 S2] Hc. assert (P : 0 < 2 ^ k) by (apply Z.pow_pos_nonneg; lia).
  pose proof (Z.div_mod m (2 ^ k) ltac:(lia)) as D. pose proof (Z.mod_pos_bound m (2 ^ k) P) as B.
  assert (0 <= shr_m r) by (rewrite S1; apply Z.div_pos; lia).
  split; [by apply round_nearest_even_nonneg |].
  destruct (Z.eq_dec (m mod 2 ^ k) 0) as [E | E].
  - destruct (S2 E) as [Er Es]. destruct r as [q b t]. cbn [shr_r shr_s] in *. subst b t. cbn [loc_of_shr_record round_nearest_even shr_m] in *. nia.
  - assert (round_nearest_even (shr_m r) (loc_of_shr_record r) <= shr_m r + 1) by
      (destruct (loc_of_shr_record r) as [| []]; cbn; try case_if; lia).
    assert (m / 2 ^ k < c) by nia. lia.
Qed.

(** ** Rounding to binary32 *)
(** [x] is finite, has the sign [s] unless it is zero, and [|x| <= c * 2^g]. *)
Definition within (s : bool) (c g : Z) (x : float) : Prop :=
  match x with
  | S754_zero _ => True
  | S754_finite s' m e => s' = s /\ -149 <= e /\ scaled (Z.pos m) e <= scaled c g
  | _ => False
  end.
Lemma digits2_Z m : 0 < m -> 2 ^ (Zdigits2 m - 1) <= m < 2 ^ Zdigits2 m.
Proof. destruct m as [| p | p]; [lia | | lia]. intros _. apply (digits2_bounds p). Qed.
(** Where the mantissa of a number below [c * 2^g] is cut, and what is left. *)
Lemma shr_fexp_le m e c g : 0 < m -> -400 <= e -> 0 < c < 2 ^ 24 -> -149 <= g -> scaled m e <= scaled c g ->
  let '(r, e') := shr_fexp 24 128 m e loc_Exact in
  exists n, 0 <= n /\ e' = e + n /\ -149 <= e' /\ shifted m n r /\
    (n = 0 \/ (e' <= g /\ m <= c * 2 ^ (g - e') * 2 ^ n)).
Proof.
  intros Hm He Hc Hg Hle. unfold shr_fexp. set (n := fexp 24 128 (Zdigits2 m + e) - e).
  pose proof (shifted_shr m e n ltac:(lia)) as S. destruct (shr _ e n) as [r e'] eqn:Es. destruct S as [-> S].
  exists (Z.max 0 n). splits; [lia | done | unfold n, fexp, SpecFloat.emin; lia | done |]. destruct (Z.le_gt_cases n 0); [left; lia | right].
  replace (Z.max 0 n) with n in * by lia. unfold fexp, SpecFloat.emin in n.
  assert (Hn : e + n = Z.max (Zdigits2 m + e - 24) (-149)) by (unfold n; lia).
  assert (G : e + n <= g).
  { destruct (Z.le_gt_cases (Zdigits2 m + e - 24) (-149)); [lia |].
    assert (e + n = Zdigits2 m + e - 24) as En by lia. pose proof (digits2_Z m Hm) as [D _].
    assert (1 <= Zdigits2 m) by (destruct m; cbn; lia).
    assert (L : 2 ^ (Zdigits2 m - 1 + e + 400) <= scaled m e).
    { rewrite <- scaled_pow by lia. by apply scaled_le. }
    assert (U : scaled c g < 2 ^ (24 + g + 400)).
    { rewrite <- scaled_pow by lia. unfold scaled. apply Z.mul_lt_mono_pos_r; [apply Z.pow_pos_nonneg; lia | lia]. }
    assert (Zdigits2 m - 1 + e + 400 < 24 + g + 400) by (apply (Z.pow_lt_mono_r_iff 2); lia). lia. }
  split; [lia |]. rewrite <- Z.mul_assoc, <- Z.pow_add_r by lia. replace (g - (e + n) + n) with (g - e) by lia.
  apply (scaled_le _ _ e); [lia |]. rewrite <- scaled_shift by lia. by replace (e + (g - e)) with g by lia.
Qed.
(** The first cut and its rounding stay below [c * 2^g]. *)
Lemma shr_round_le m e c g : 0 < m -> -400 <= e -> 0 < c < 2 ^ 24 -> -149 <= g -> scaled m e <= scaled c g ->
  let '(r, e') := shr_fexp 24 128 m e loc_Exact in let m' := round_nearest_even (shr_m r) (loc_of_shr_record r) in
  -149 <= e' /\ 0 <= m' /\ scaled m' e' <= scaled c g.
Proof.
  intros Hm He Hc Hg Hle. pose proof (shr_fexp_le m e c g Hm He Hc Hg Hle) as L.
  destruct (shr_fexp 24 128 m e loc_Exact) as [r e']. destruct L as (n & Hn & -> & Hlo & S & L). cbv zeta.
  destruct L as [-> | [Hg' L]].
  - destruct (shifted_round m 0 r m ltac:(lia) ltac:(lia) S ltac:(lia)) as [R1 R2]. splits; [done | done |].
    rewrite Z.add_0_r. etransitivity; [| exact Hle]. by apply scaled_le.
  - destruct (shifted_round m n r _ ltac:(lia) Hn S L) as [R1 R2]. splits; [done | done |].
    assert (Eg : scaled c g = scaled (c * 2 ^ (g - (e + n))) (e + n)) by (rewrite <- scaled_shift by lia; f_equal; lia).
    rewrite Eg. apply scaled_le; [lia | done].
Qed.
Lemma shr_fexp_down m e : 0 <= m -> let '(r, e') := shr_fexp 24 128 m e loc_Exact in
  e <= e' /\ shr_m r = m / 2 ^ (e' - e).
Proof.
  intros Hm. unfold shr_fexp. set (n := fexp 24 128 (Zdigits2 m + e) - e).
  pose proof (shifted_shr m e n Hm) as S. destruct (shr _ e n) as [r e']. destruct S as [-> [S _]].
  split; [lia |]. by replace (e + Z.max 0 n - e) with (Z.max 0 n) by lia.
Qed.
Lemma round_aux_within s m e c g : 0 < m -> -400 <= e -> 0 < c < 2 ^ 24 -> -149 <= g <= 80 -> scaled m e <= scaled c g ->
  within s c g (binary_round_aux 24 128 s m e loc_Exact).
Proof.
  intros Hm He Hc Hg Hle. unfold binary_round_aux. pose proof (shr_round_le m e c g Hm He Hc ltac:(lia) Hle) as L.
  destruct (shr_fexp 24 128 m e loc_Exact) as [r e1]. cbv zeta in L. destruct L as (L1 & L2 & L3).
  set (m1 := round_nearest_even _ _) in *. pose proof (shr_fexp_down m1 e1 L2) as D.
  destruct (shr_fexp 24 128 m1 e1 loc_Exact) as [r2 e2]. destruct D as [D1 D2].
  assert (P : 0 < 2 ^ (e2 - e1)) by (apply Z.pow_pos_nonneg; lia).
  assert (0 <= shr_m r2) by (rewrite D2; by apply Z.div_pos).
  assert (B : scaled (shr_m r2) e2 <= scaled c g).
  { assert (Es : scaled (shr_m r2) e2 = scaled (shr_m r2 * 2 ^ (e2 - e1)) e1) by (rewrite <- scaled_shift by lia; f_equal; lia).
    rewrite Es. etransitivity; [| exact L3].
    apply scaled_le; [lia |]. rewrite D2, Z.mul_comm. by apply Z.mul_div_le. }
  destruct (shr_m r2) as [| p | p]; [done | | lia].
  assert (U : scaled c g < 2 ^ (24 + g + 400)).
  { rewrite <- scaled_pow by lia. unfold scaled. apply Z.mul_lt_mono_pos_r; [apply Z.pow_pos_nonneg; lia | lia]. }
  assert (e2 <= 104).
  { destruct (Z.le_gt_cases e2 104); [done |]. exfalso.
    assert (2 ^ (0 + e2 + 400) <= scaled (Z.pos p) e2) by (rewrite <- scaled_pow by lia; apply scaled_le; lia).
    assert (0 + e2 + 400 < 24 + g + 400) by (apply (Z.pow_lt_mono_r_iff 2); lia). lia. }
  destruct (Z.leb_spec e2 (128 - 24)); [| lia]. cbn. splits; [done | lia | done].
Qed.

(** ** Products and conversions *)
Lemma scaled_mul m1 e1 m2 e2 c1 g1 c2 g2 : -149 <= e1 -> -149 <= g1 -> -149 <= e2 -> -149 <= g2 -> 0 <= m1 -> 0 <= m2 ->
  scaled m1 e1 <= scaled c1 g1 -> scaled m2 e2 <= scaled c2 g2 -> scaled (m1 * m2) (e1 + e2) <= scaled (c1 * c2) (g1 + g2).
Proof.
  intros H1 H2 H3 H4 P1 P2 L1 L2. unfold scaled in *.
  replace (e1 + e2 + 400) with (e1 + 149 + (e2 + 149) + 102) by lia.
  replace (g1 + g2 + 400) with (g1 + 149 + (g2 + 149) + 102) by lia.
  replace (e1 + 400) with (e1 + 149 + 251) in L1 by lia. replace (g1 + 400) with (g1 + 149 + 251) in L1 by lia.
  replace (e2 + 400) with (e2 + 149 + 251) in L2 by lia. replace (g2 + 400) with (g2 + 149 + 251) in L2 by lia.
  rewrite !(fun a H => Z.pow_add_r 2 a 251 H ltac:(lia)) in L1 by lia. rewrite !(fun a H => Z.pow_add_r 2 a 251 H ltac:(lia)) in L2 by lia.
  rewrite (Z.pow_add_r 2 _ 102), (Z.pow_add_r 2 (g1 + 149 + (g2 + 149)) 102) by lia. rewrite (Z.pow_add_r 2 (e1 + 149)), (Z.pow_add_r 2 (g1 + 149)) by lia.
  rewrite !Z.mul_assoc in L1, L2. apply (Z.mul_le_mono_pos_r _ _ (2 ^ 251)) in L1, L2; [| done | done].
  assert (0 < 2 ^ (e1 + 149)) by (apply Z.pow_pos_nonneg; lia). assert (0 < 2 ^ (e2 + 149)) by (apply Z.pow_pos_nonneg; lia).
  rewrite !Z.mul_assoc. apply (Z.mul_le_mono_pos_r _ _ (2 ^ 102)); [done |].
  assert (N1 : 0 <= m1 * 2 ^ (e1 + 149)) by (apply Z.mul_nonneg_nonneg; lia).
  assert (N2 : 0 <= m2 * 2 ^ (e2 + 149)) by (apply Z.mul_nonneg_nonneg; lia).
  pose proof (Z.mul_le_mono_nonneg _ _ _ _ N1 L1 N2 L2). lia.
Qed.
(** The product of two numbers below representable bounds. *)
Lemma fmul_within s1 c1 g1 s2 c2 g2 c g x y : 0 < c < 2 ^ 24 -> -149 <= g <= 80 -> -149 <= g1 -> -149 <= g2 ->
  scaled (c1 * c2) (g1 + g2) <= scaled c g -> within s1 c1 g1 x -> within s2 c2 g2 y -> within (xorb s1 s2) c g (x * y)%f32.
Proof.
  intros Hc Hg G1 G2 L X Y. destruct x as [| | | sx mx ex]; try done; destruct y as [| | | sy my ey]; try done; cbn in X, Y.
  destruct X as (-> & X1 & X2), Y as (-> & Y1 & Y2). unfold fmul, SFmul. apply round_aux_within; try lia.
  etransitivity; [| exact L]. rewrite Pos2Z.inj_mul. apply scaled_mul; try done; lia.
Qed.
(** A comparison with a normal number bounds the magnitude. *)
Lemma fle_within x c g : float_ok x -> 2 ^ 23 <= Z.pos c -> -149 <= g -> isfinite x = true ->
  (fabs_ x >. S754_finite false c g) = false -> exists s, within s (Z.pos c) g x.
Proof.
  intros Ok Hc Hg F C. destruct x as [s | | | s m e]; try done; [by exists s |]. exists s. cbn.
  unfold float_ok in Ok. cbn [valid_binary] in Ok. apply bounded_cases in Ok; [| lia]. unfold SpecFloat.emin in Ok.
  splits; [done | lia |]. unfold SFltb in C. cbn in C. destruct (Z.compare_spec g e) as [E | E | E]; [| done |].
  - subst g. apply scaled_le; [lia |]. change (Pos.compare_cont Eq c m) with (c ?= m)%positive in C.
    destruct (Pos.compare_spec c m); [| done |]; lia.
  - apply Z.lt_le_incl, Z.lt_le_trans with (2 ^ (24 + e + 400)).
    + rewrite <- scaled_pow by lia. unfold scaled. apply Z.mul_lt_mono_pos_r; [apply Z.pow_pos_nonneg; lia | lia].
    + etransitivity; [| apply (scaled_le (2 ^ 23) (Z.pos c) g); [lia | done]]. rewrite scaled_pow by lia. apply Z.pow_le_mono_r; lia.
Qed.
(** [lroundf] keeps integer bounds and the sign. *)
Lemma lroundf_within s c g b x : 0 <= b -> scaled c g <= scaled b 0 -> within s c g x ->
  if s then - b <= lroundf x <= 0 else 0 <= lroundf x <= b.
Proof.
  intros B0 Hb W. destruct x as [| | | s' m e]; try done; cbn [lroundf]; [destruct s; lia |]. destruct W as (-> & He & W).
  assert (L : scaled (Z.pos m) e <= scaled b 0) by lia. unfold scaled in L.
  set (v := if 0 <=? e then _ else _). assert (0 <= v <= b); [| destruct s; lia]. subst v.
  destruct (Z.leb_spec 0 e) as [H | H].
  - rewrite (Z.pow_add_r 2 e), (Z.add_0_l 400) in L by lia.
    assert (0 < 2 ^ e) by (apply Z.pow_pos_nonneg; lia). rewrite Z.mul_assoc in L.
    apply (Z.mul_le_mono_pos_r _ _ (2 ^ 400)) in L; [| done]. lia.
  - replace (0 + 400) with (- e + (e + 400)) in L by lia. rewrite (Z.pow_add_r 2 (- e)), Z.mul_assoc in L by lia.
    apply (Z.mul_le_mono_pos_r _ _ (2 ^ (e + 400))) in L; [| apply Z.pow_pos_nonneg; lia].
    replace (1 - e) with (1 + - e) by lia. rewrite (Z.pow_add_r 2 1) by lia. change (2 ^ 1) with 2.
    assert (0 < 2 ^ (- e)) by (apply Z.pow_pos_nonneg; lia). split; [apply Z.div_pos; lia |].
    apply Z.lt_succ_r, Z.div_lt_upper_bound; nia.
Qed.
(** What the program does with a checked value: scale it by a constant and round. *)
Lemma lroundf_bound x s c g cs gs b : float_ok x -> isfinite x = true -> 2 ^ 23 <= Z.pos c -> -149 <= g ->
  (fabs_ x >. S754_finite false c g) = false -> within false cs gs s -> -149 <= gs -> 0 < b < 2 ^ 24 ->
  scaled (Z.pos c * cs) (g + gs) <= scaled b 0 -> - b <= lroundf (x * s)%f32 <= b.
Proof.
  intros Ok F Hc Hg C Ws Gs Hb L. destruct (fle_within x c g Ok Hc Hg F C) as [sx Wx].
  pose proof (fmul_within sx (Z.pos c) g false cs gs b 0 x s ltac:(lia) ltac:(lia) Hg Gs L Wx Ws) as W.
  pose proof (lroundf_within _ b 0 b _ ltac:(lia) ltac:(lia) W) as R. destruct (xorb sx false); lia.
Qed.
Lemma within_nonneg s c g x : within s c g x -> (x <. fzero) = false -> within false c g x.
Proof. destruct x as [| | | [] m e]; try done. intros (<- & H). done. Qed.
Lemma lroundf_bound_pos x s c g cs gs b : float_ok x -> isfinite x = true -> 2 ^ 23 <= Z.pos c -> -149 <= g ->
  (x <. fzero) = false -> (fabs_ x >. S754_finite false c g) = false -> within false cs gs s -> -149 <= gs -> 0 < b < 2 ^ 24 ->
  scaled (Z.pos c * cs) (g + gs) <= scaled b 0 -> 0 <= lroundf (x * s)%f32 <= b.
Proof.
  intros Ok F Hc Hg P C Ws Gs Hb L. destruct (fle_within x c g Ok Hc Hg F C) as [sx Wx]. apply within_nonneg in Wx; [| done].
  pose proof (fmul_within false (Z.pos c) g false cs gs b 0 x s ltac:(lia) ltac:(lia) Hg Gs L Wx Ws) as W.
  exact (lroundf_within _ b 0 b _ ltac:(lia) ltac:(lia) W).
Qed.
(** A non-negative number is its own magnitude in a comparison. *)
Lemma fabs_nonneg x y : isfinite x = true -> (x <. fzero) = false -> (fabs_ x >. y) = (x >. y).
Proof. destruct x as [[] | | | [] m e]; try done; by destruct y as [[] | [] | | []]. Qed.

(** ** Sums *)
Lemma iter_xO p d : Z.pos (Pos.iter xO p d) = Z.pos p * 2 ^ Z.pos d.
Proof.
  induction d as [| d IH] using Pos.peano_ind; [cbn; lia |].
  rewrite Pos.iter_succ, Pos2Z.inj_succ, Z.pow_succ_r by lia. rewrite Pos2Z.inj_xO, IH. ring.
Qed.
Lemma shl_align_scaled m e e' : -400 <= e' -> let '(m', f) := shl_align m e e' in
  scaled (Z.pos m') f = scaled (Z.pos m) e /\ f = Z.min e e'.
Proof.
  intros He. unfold shl_align. destruct (e' - e) as [| p | p] eqn:E; (split; [| lia]); try done.
  rewrite iter_xO. rewrite <- scaled_shift by lia. f_equal. lia.
Qed.
Lemma round_within s m e c g : -400 <= e -> 0 < c < 2 ^ 24 -> -149 <= g <= 80 -> scaled (Z.pos m) e <= scaled c g ->
  within s c g (binary_round 24 128 s m e).
Proof.
  intros He Hc Hg L. unfold binary_round. pose proof (shl_align_scaled m e (fexp 24 128 (Z.pos (digits2_pos m) + e))) as S.
  destruct (shl_align m e _) as [m' e']. destruct S as [S1 S2]; [unfold fexp, SpecFloat.emin; lia |].
  apply round_aux_within; try done; unfold fexp, SpecFloat.emin in S2; lia.
Qed.
(** A sum of two numbers of the same sign. *)
Lemma fadd_within s c1 g1 c2 g2 c g x y : 0 < c < 2 ^ 24 -> -149 <= g <= 80 -> 0 <= c1 -> 0 <= c2 ->
  scaled c1 g1 + scaled c2 g2 <= scaled c g -> within s c1 g1 x -> within s c2 g2 y -> within s c g (x + y)%f32.
Proof.
  intros Hc Hg C1 C2 L X Y.
  assert (P : forall a b, 0 <= a -> 0 <= scaled a b) by (intros; unfold scaled; apply Z.mul_nonneg_nonneg; [lia | apply Z.pow_nonneg; lia]).
  pose proof (P c1 g1 C1). pose proof (P c2 g2 C2).
  destruct x as [sx | | | sx mx ex]; try done; destruct y as [sy | | | sy my ey]; try done.
  - by destruct sx, sy.
  - destruct Y as (-> & Y1 & Y2). unfold fadd, SFadd, within. splits; [done | done | lia].
  - destruct X as (-> & X1 & X2). unfold fadd, SFadd, within. splits; [done | done | lia].
  - destruct X as (-> & X1 & X2), Y as (-> & Y1 & Y2). unfold fadd, SFadd. cbv zeta.
    pose proof (shl_align_scaled mx ex (Z.min ex ey) ltac:(lia)) as A. pose proof (shl_align_scaled my ey (Z.min ex ey) ltac:(lia)) as B.
    destruct (shl_align mx ex (Z.min ex ey)) as [mx' e1], (shl_align my ey (Z.min ex ey)) as [my' e2]. cbn [fst].
    destruct A as [A1 ->], B as [B1 ->]. replace (Z.min ex (Z.min ex ey)) with (Z.min ex ey) in A1 by lia. replace (Z.min ey (Z.min ex ey)) with (Z.min ex ey) in B1 by lia.
    assert (S : scaled (Z.pos (mx' + my')) (Z.min ex ey) <= scaled c g).
    { rewrite Pos2Z.inj_add. unfold scaled in *. lia. }
    destruct s; cbn [cond_Zopp].
    + replace (- Z.pos mx' + - Z.pos my') with (Z.neg (mx' + my')) by lia. apply round_within; lia || done.
    + replace (Z.pos mx' + Z.pos my') with (Z.pos (mx' + my')) by lia. apply round_within; lia || done.
Qed.
Lemma fsub_opp x y : (x - y)%f32 = (x + -. y)%f32.
Proof.
  destruct x as [[] | [] | | sx mx ex], y as [[] | [] | | sy my ey]; try reflexivity. unfold fsub, fadd, SFsub, SFadd. cbn [SFopp]. cbv zeta.
  f_equal. destruct sy; cbn [negb cond_Zopp]; lia.
Qed.
Lemma trunc_within s c g b x : 0 <= b -> scaled c g < scaled (b + 1) 0 -> within s c g x ->
  if s then - b <= trunc x <= 0 else 0 <= trunc x <= b.
Proof.
  intros B0 Hb W. destruct x as [| | | s' m e]; try done; cbn [trunc]; [destruct s; lia |]. destruct W as (-> & He & W).
  assert (L : scaled (Z.pos m) e < scaled (b + 1) 0) by lia. unfold scaled in L.
  set (v := if 0 <=? e then _ else _). assert (0 <= v <= b); [| destruct s; lia]. subst v.
  destruct (Z.leb_spec 0 e) as [H | H].
  - rewrite (Z.pow_add_r 2 e), (Z.add_0_l 400) in L by lia.
    assert (0 < 2 ^ e) by (apply Z.pow_pos_nonneg; lia). rewrite Z.mul_assoc in L.
    apply (Z.mul_lt_mono_pos_r (2 ^ 400)) in L; [| done]. lia.
  - replace (0 + 400) with (- e + (e + 400)) in L by lia. rewrite (Z.pow_add_r 2 (- e)), Z.mul_assoc in L by lia.
    apply (Z.mul_lt_mono_pos_r (2 ^ (e + 400))) in L; [| apply Z.pow_pos_nonneg; lia].
    assert (0 < 2 ^ (- e)) by (apply Z.pow_pos_nonneg; lia). split; [apply Z.div_pos; lia |].
    apply Z.lt_succ_r, Z.div_lt_upper_bound; lia.
Qed.

(** ** Rounded results are binary32 numbers *)
Lemma digits_pos m : 0 < m -> 1 <= Zdigits2 m.
Proof. destruct m; [lia | unfold Zdigits2; lia | lia]. Qed.
Lemma digits_unique m d : 0 < m -> 2 ^ (d - 1) <= m < 2 ^ d -> Zdigits2 m = d.
Proof.
  intros Hm [L U]. destruct (digits2_Z m Hm) as [L' U'].
  assert (0 < d) by (destruct (Z.le_gt_cases d 0); [| done]; rewrite (Z.pow_neg_r 2 (d - 1)) in L by lia; destruct (Z.eq_dec d 0) as [-> |]; [change (2 ^ 0) with 1 in U; lia | rewrite Z.pow_neg_r in U by lia; lia]).
  pose proof (digits_pos m Hm).
  assert (d - 1 < Zdigits2 m) by (apply (Z.pow_lt_mono_r_iff 2); lia).
  assert (Zdigits2 m - 1 < d) by (apply (Z.pow_lt_mono_r_iff 2); lia). lia.
Qed.
Lemma digits_shift m n : 0 < m -> 0 <= n < Zdigits2 m -> Zdigits2 (m / 2 ^ n) = Zdigits2 m - n.
Proof.
  intros Hm Hn. destruct (digits2_Z m Hm) as [L U]. assert (P : 0 < 2 ^ n) by (apply Z.pow_pos_nonneg; lia).
  assert (L1 : 2 ^ (Zdigits2 m - n - 1) <= m / 2 ^ n).
  { apply Z.div_le_lower_bound; [done |]. rewrite <- Z.pow_add_r by lia. by replace (n + (Zdigits2 m - n - 1)) with (Zdigits2 m - 1) by lia. }
  apply digits_unique; [assert (0 < 2 ^ (Zdigits2 m - n - 1)) by (apply Z.pow_pos_nonneg; lia); lia |]. split; [done |].
  apply Z.div_lt_upper_bound; [done |]. rewrite <- Z.pow_add_r by lia. by replace (n + (Zdigits2 m - n)) with (Zdigits2 m) by lia.
Qed.
Lemma digits_mono m n : 0 < m -> m <= n -> Zdigits2 m <= Zdigits2 n.
Proof.
  intros Hm L. destruct (digits2_Z m Hm) as [L1 U1]. destruct (digits2_Z n ltac:(lia)) as [L2 U2]. pose proof (digits_pos m Hm).
  pose proof (digits_pos n ltac:(lia)). assert (Zdigits2 m - 1 < Zdigits2 n) by (apply (Z.pow_lt_mono_r_iff 2); lia). lia.
Qed.
Lemma digits_succ m : 0 < m -> Zdigits2 (m + 1) <= Zdigits2 m + 1.
Proof.
  intros Hm. destruct (digits2_Z m Hm) as [L U]. destruct (digits2_Z (m + 1) ltac:(lia)) as [L2 U2]. pose proof (digits_pos m Hm).
  pose proof (digits_pos (m + 1) ltac:(lia)).
  assert (Zdigits2 (m + 1) - 1 < Zdigits2 m + 1) by (apply (Z.pow_lt_mono_r_iff 2); [lia | lia |]; rewrite (Z.pow_add_r 2 (Zdigits2 m)) by lia; change (2 ^ 1) with 2; lia). lia.
Qed.
Local Notation F := (fexp 24 128).
Lemma fexp_mono a b : a <= b -> F a <= F b.
Proof. unfold fexp, SpecFloat.emin. lia. Qed.
Lemma round_up_or_same r : shr_m r <= round_nearest_even (shr_m r) (loc_of_shr_record r) <= shr_m r + 1.
Proof. destruct (loc_of_shr_record r) as [| []]; cbn; try case_if; lia. Qed.
Lemma round_aux_ok s m e : 0 < m -> e <= F (Zdigits2 m + e) -> float_ok (binary_round_aux 24 128 s m e loc_Exact).
Proof.
  intros Hm He. unfold binary_round_aux, shr_fexp. set (n := F (Zdigits2 m + e) - e).
  pose proof (shifted_shr m e n ltac:(lia)) as S. destruct (shr (shr_record_of_loc m loc_Exact) e n) as [r1 e1]. destruct S as [-> [S _]].
  replace (Z.max 0 n) with n in * by lia. set (e1 := e + n). pose proof (round_up_or_same r1) as R.
  set (m1 := round_nearest_even (shr_m r1) (loc_of_shr_record r1)) in *.
  assert (N0 : 0 <= shr_m r1) by (rewrite S; apply Z.div_pos; [lia | apply Z.pow_pos_nonneg; lia]).
  set (n2 := F (Zdigits2 m1 + e1) - e1). pose proof (shifted_shr m1 e1 n2 ltac:(lia)) as S2.
  destruct (shr (shr_record_of_loc m1 loc_Exact) e1 n2) as [r2 e2]. destruct S2 as [-> [S2 _]].
  destruct (shr_m r2) as [| p | p] eqn:Ep; [done | | exfalso; assert (0 <= m1 / 2 ^ Z.max 0 n2) by (apply Z.div_pos; [lia | apply Z.pow_pos_nonneg; lia]); lia].
  destruct (e1 + Z.max 0 n2 <=? 128 - 24) eqn:H; [| done]. unfold float_ok, valid_binary, bounded. rewrite H, andb_true_r. unfold canonical_mantissa. apply Z.eqb_eq.
  change (Z.pos (digits2_pos p)) with (Zdigits2 (Z.pos p)).
  assert (P1 : 0 < m1) by (destruct (Z.eq_dec m1 0) as [Z0 |]; [rewrite Z0, Z.div_0_l in S2 by (apply Z.pow_nonzero; lia); done | lia]).
  assert (Fe : e1 = F (Zdigits2 m + e)) by (unfold e1, n; lia).
  assert (N2 : 0 <= n2).
  { unfold n2. destruct (Z.lt_ge_cases n (Zdigits2 m)) as [Ln | Ln].
    - assert (D : Zdigits2 (shr_m r1) = Zdigits2 m - n) by (rewrite S; apply digits_shift; lia).
      assert (P0 : 0 < shr_m r1) by (destruct (shr_m r1); [cbn in D; lia | lia | lia]).
      pose proof (digits_mono (shr_m r1) m1 P0 ltac:(lia)). pose proof (fexp_mono (Zdigits2 (shr_m r1) + e1) (Zdigits2 m1 + e1) ltac:(lia)).
      replace (Zdigits2 (shr_m r1) + e1) with (Zdigits2 m + e) in * by (unfold e1; lia). lia.
    - pose proof (digits_pos m1 P1). unfold n, e1, fexp, SpecFloat.emin in *. lia. }
  replace (Z.max 0 n2) with n2 in * by lia.
  assert (L2 : n2 < Zdigits2 m1).
  { destruct (Z.lt_ge_cases n2 (Zdigits2 m1)); [done |]. exfalso. destruct (digits2_Z m1 P1) as [_ U].
    assert (2 ^ Zdigits2 m1 <= 2 ^ n2) by (apply Z.pow_le_mono_r; lia). rewrite Z.div_small in S2 by lia. done. }
  rewrite S2, digits_shift by lia. replace (Zdigits2 m1 - n2 + (e1 + n2)) with (Zdigits2 m1 + e1) by lia. unfold n2. lia.
Qed.
(** Products and sums of binary32 numbers are binary32 numbers. *)
Lemma fmul_ok x y : float_ok x -> float_ok y -> float_ok (x * y)%f32.
Proof.
  destruct x as [[] | [] | | sx mx ex]; try done; destruct y as [[] | [] | | sy my ey]; try done.
  unfold float_ok at 1 2. cbn [valid_binary]. intros X Y. apply bounded_cases in X, Y; [| lia | lia]. unfold SpecFloat.emin in X, Y.
  unfold fmul, SFmul. apply round_aux_ok; [lia |]. unfold fexp, SpecFloat.emin.
  destruct (Z.lt_ge_cases (Zdigits2 (Z.pos (mx * my))) 24) as [D | D]; [| lia].
  destruct (digits2_Z (Z.pos (mx * my)) ltac:(lia)) as [_ U]. assert (2 ^ Zdigits2 (Z.pos (mx * my)) <= 2 ^ 23) by (apply Z.pow_le_mono_r; lia).
  rewrite Pos2Z.inj_mul in *. assert (Z.pos mx < 2 ^ 23) by nia. assert (Z.pos my < 2 ^ 23) by nia. lia.
Qed.
Lemma round_ok s m e : float_ok (binary_round 24 128 s m e).
Proof.
  unfold binary_round. unfold shl_align. destruct (F (Z.pos (digits2_pos m) + e) - e) as [| q | q] eqn:E.
  - apply round_aux_ok; [lia |]. change (Zdigits2 (Z.pos m)) with (Z.pos (digits2_pos m)). lia.
  - apply round_aux_ok; [lia |]. change (Zdigits2 (Z.pos m)) with (Z.pos (digits2_pos m)). lia.
  - apply round_aux_ok; [lia |]. rewrite iter_xO.
    assert (D : Zdigits2 (Z.pos m * 2 ^ Z.pos q) = Z.pos (digits2_pos m) + Z.pos q).
    { destruct (digits2_bounds m) as [L U]. apply digits_unique; [assert (0 < 2 ^ Z.pos q) by (apply Z.pow_pos_nonneg; lia); nia |].
      replace (Z.pos (digits2_pos m) + Z.pos q - 1) with (Z.pos (digits2_pos m) - 1 + Z.pos q) by lia. rewrite !Z.pow_add_r by lia.
      assert (0 < 2 ^ Z.pos q) by (apply Z.pow_pos_nonneg; lia). nia. }
    rewrite D. replace (Z.pos (digits2_pos m) + Z.pos q + F (Z.pos (digits2_pos m) + e)) with (Z.pos (digits2_pos m) + e) by lia. lia.
Qed.
Lemma normalize_ok m e s : float_ok (binary_normalize 24 128 m e s).
Proof. destruct m; cbn; auto using round_ok. done. Qed.
Lemma fadd_ok x y : float_ok x -> float_ok y -> float_ok (x + y)%f32.
Proof.
  destruct x as [[] | [] | | sx mx ex]; try done; destruct y as [[] | [] | | sy my ey]; try done.
  all: intros; apply normalize_ok.
Qed.

(** ** Signs *)
Lemma SFcompare_opp x y : SFcompare (-. x) (-. y) = SFcompare y x.
Proof.
  destruct x as [[] | [] | | [] mx ex], y as [[] | [] | | [] my ey]; try reflexivity.
  all: cbn -[Pos.compare_cont]; rewrite (Z.compare_antisym ex ey).
  all: change (Pos.compare_cont Eq my mx) with (my ?= mx)%positive; rewrite (Pos.compare_antisym mx my); unfold Pos.compare.
  all: destruct (ex ?= ey), (Pos.compare_cont Eq mx my); reflexivity.
Qed.
Lemma fle_not_flt x y : (x <=. y) = true -> (y <. x) = false.
Proof. unfold SFleb, SFltb. rewrite (SFcompare_swap x y). by destruct (SFcompare x y) as [[] |]. Qed.
(** A number between [-y] and [y]. *)
Lemma between_within x c g : float_ok x -> 2 ^ 23 <= Z.pos c -> -149 <= g ->
  (x >=. -. S754_finite false c g) = true -> (x <=. S754_finite false c g) = true ->
  within (negb (x >=. fzero)) (Z.pos c) g x.
Proof.
  intros Ok Hc Hg L U. destruct x as [s | [] | | s m e]; try done.
  assert (A : (fabs_ (S754_finite s m e) >. S754_finite false c g) = false).
  { apply fle_not_flt. destruct s; [| done]. unfold SFleb in *. change (fabs_ (S754_finite true m e)) with (-. S754_finite true m e).
    change (S754_finite false c g) with (-. (-. S754_finite false c g)). by rewrite SFcompare_opp. }
  destruct (fle_within _ c g Ok Hc Hg eq_refl A) as [s' W]. destruct W as (-> & W). destruct s'; by split.
Qed.
