(* ===== verification/Terrain.v ===== *)
(** * Terrain monitor

    Models [subsystem4/terrain_monitor.{c,h}]: one accelerometer and magnetometer
    sample with the odometry of the moment becomes a terrain result (tilt, turn
    rate, motion state, impact, humps), and a result becomes a 93-bit packet.  The
    callers always pass an odometry record, so it is a value.  [libm] gives [sinf]
    and [atan2f]. *)
From S2P Require Import Prelude CFloat FloatRange BitCodec Imu.

Definition TERRAIN_PACKET_SIZE : nat := 12.
Definition TERRAIN_TILT_VALID : Z := 1.
Definition TERRAIN_TURN_VALID : Z := 2.
Definition TERRAIN_PEAK_VALID : Z := 4.
Definition TERRAIN_CALIBRATED : Z := 8.
Definition TERRAIN_FAULT : Z := 16.
Record terrain_result_t := {
  timestamp_us : Z; pitch_deg : float; roll_deg : float; turn_dps : float; peak_m : float; hump_height_m : float;
  state : terrain_state_t; flags : Z; impact : bool; completed : bool; active : bool
}.
#[export] Instance terrain_result_settable : Settable terrain_result_t := fun r =>
  Build_terrain_result_t (timestamp_us r) (pitch_deg r) (roll_deg r) (turn_dps r) (peak_m r) (hump_height_m r) (state r)
    (flags r) (impact r) (completed r) (active r).
Definition zero_terrain_result : terrain_result_t :=
  {| timestamp_us := 0; pitch_deg := fzero; roll_deg := fzero; turn_dps := fzero; peak_m := fzero; hump_height_m := fzero;
     state := TERRAIN_UNKNOWN; flags := 0; impact := false; completed := false; active := false |}.
Definition has (flag : Z) (r : terrain_result_t) : bool := negb (Z.land (flags r) flag =? 0).
(** [r.flags |= flag] *)
Definition raise (r : terrain_result_t) (flag : Z) : terrain_result_t := r <| flags := Z.lor (flags r) flag |>.

Record terrain_odometry_t := { distance_m : double; odo_epoch : Z; odo_valid : bool; stationary : bool }.
Record terrain_monitor_t := {
  calibration : imu_calibration_t; hump : hump_detector_t; result : terrain_result_t; previous_distance : double;
  filtered : vec3; heading : float; mag_offset : vec3; mag_scale : vec3; previous_us : Z; heading_us : Z; epoch : Z;
  stable_count : Z; candidate : terrain_state_t; seen : bool; odometry_seen : bool; heading_seen : bool;
  magnetic_calibrated : bool
}.
#[export] Instance terrain_monitor_settable : Settable terrain_monitor_t := fun r =>
  Build_terrain_monitor_t (calibration r) (hump r) (result r) (previous_distance r) (filtered r) (heading r) (mag_offset r)
    (mag_scale r) (previous_us r) (heading_us r) (epoch r) (stable_count r) (candidate r) (seen r) (odometry_seen r)
    (heading_seen r) (magnetic_calibrated r).
Definition terrain_monitor_init : terrain_monitor_t :=
  {| calibration := imu_calibration_reset; hump := hump_reset; result := zero_terrain_result; previous_distance := fzero;
     filtered := vzero; heading := fzero; mag_offset := vzero;
     mag_scale := {| ax0 := flit 1 1; ax1 := flit 1 1; ax2 := flit 1 1 |}; previous_us := 0; heading_us := 0; epoch := 0;
     stable_count := 0; candidate := TERRAIN_UNKNOWN; seen := false; odometry_seen := false; heading_seen := false;
     magnetic_calibrated := false |}.
Definition terrain_monitor_reset_run (t : terrain_monitor_t) : terrain_monitor_t :=
  t <| hump := hump_reset |> <| seen := false |> <| odometry_seen := false |> <| heading_seen := false |>
    <| stable_count := 0 |> <| result := zero_terrain_result |>.
Definition mag_axis_bad (offset scale : float) : bool :=
  negb (isfinite offset) || negb (isfinite scale) || (fabs_ offset >. flit 5 1) || (scale <. flit 1 10) || (scale >. flit 10 1).
Definition terrain_monitor_set_magnetic_calibration (t : terrain_monitor_t) (offset scale : vec3) : bool * terrain_monitor_t :=
  if mag_axis_bad (ax0 offset) (ax0 scale) || mag_axis_bad (ax1 offset) (ax1 scale) || mag_axis_bad (ax2 offset) (ax2 scale)
  then (false, t)
  else (true, t <| mag_offset := offset |> <| mag_scale := scale |> <| magnetic_calibrated := true |> <| heading_seen := false |>).

(** ** One sample *)
Section Process.
Context (m : libm).
(** [if(t->hump.highest_valid) { r.peak_m=...; r.flags|=TERRAIN_PEAK_VALID; }] *)
Definition show_peak (t : terrain_monitor_t) (r : terrain_result_t) : terrain_result_t :=
  if highest_valid (hump t) then raise (r <| peak_m := highest_m (hump t) |>) TERRAIN_PEAK_VALID else r.
(** An invalid sample or a gap. *)
Definition process_fault (t : terrain_monitor_t) (s : imu_sample_t) (r : terrain_result_t) : terrain_monitor_t :=
  let t := t <| heading_seen := false |> <| odometry_seen := false |> in
  let t := if negb (cal_ready (calibration t)) then t <| calibration := imu_calibration_reset |> else t in
  t <| hump := hump_update m (hump t) fzero fzero false (imu_timestamp_us s) |> <| seen := false |>
    <| result := raise r TERRAIN_FAULT |>.
Definition process_calibration (t : terrain_monitor_t) (s : imu_sample_t) (odo : terrain_odometry_t) (r : terrain_result_t) :
  terrain_monitor_t :=
  let t := t <| calibration := (imu_calibration_feed (calibration t) s (stationary odo)).2 |> in
  t <| previous_us := imu_timestamp_us s |> <| seen := negb (cal_ready (calibration t)) |> <| result := r |>.
(** [filtered+0.25f*(a-filtered)] *)
Definition smooth (continuity : bool) (f a : float) : float := if continuity then (f + flit 25 100 * (a - f))%f32 else a.
(** The turn rate: a new heading, a heading to forget, or the last rate kept. *)
Definition process_turn (t : terrain_monitor_t) (s : imu_sample_t) (tilt_ok : bool) (mg : vec3) (r : terrain_result_t) :
  terrain_monitor_t * terrain_result_t :=
  match (if tilt_ok && mag_valid s && magnetic_calibrated t then tilt_heading m (filtered t) mg else None) with
  | Some h =>
      let e := elapsed (imu_timestamp_us s) (heading_us t) in
      let rate := (tilt_angle_delta h (heading t) * flit 1000000 1 / float_of_Z e)%f32 in
      let r := if heading_seen t && (10000 <=? e) && (e <=? 200000) && (fabs_ rate <=. flit 360 1)
               then raise (r <| turn_dps := rate |>) TERRAIN_TURN_VALID else r in
      (t <| heading := h |> <| heading_us := imu_timestamp_us s |> <| heading_seen := true |>, r)
  | None =>
      if mag_valid s || negb tilt_ok || (100000 <? elapsed (imu_timestamp_us s) (heading_us t))
      then (t <| heading_seen := false |>, r)
      else if heading_seen t && has TERRAIN_TURN_VALID (result t)
      then (t, raise (r <| turn_dps := turn_dps (result t) |>) TERRAIN_TURN_VALID)
      else (t, r)
  end.
(** Travel since the last sample: distance, speed and whether they can be trusted. *)
Definition travel (t : terrain_monitor_t) (odo : terrain_odometry_t) (continuity : bool) (gap : Z) : float * float * bool :=
  if odometry_seen t && continuity && (odo_epoch odo =? epoch t) then
    let delta := (distance_m odo - previous_distance t)%f64 in
    let dt := (float_of_Z gap / flit 1000000 1)%f32 in
    if SFabs delta <=. dlit 5 100 then
      let ds := float_of_double delta in
      let speed := (ds / dt)%f32 in (ds, speed, fabs_ speed <=. flit 15 10)
    else (fzero, fzero, false)
  else (fzero, fzero, false).
Definition process_odometry (t : terrain_monitor_t) (odo : terrain_odometry_t) (continuity : bool) (gap : Z) :
  terrain_monitor_t * (float * float * bool) :=
  if odo_valid odo && isfinite (distance_m odo) then
    (t <| previous_distance := distance_m odo |> <| epoch := odo_epoch odo |> <| odometry_seen := true |>,
     travel t odo continuity gap)
  else (t <| odometry_seen := false |>, (fzero, fzero, false)).
Definition clamp_height (h : float) : float := if h <. fzero then fzero else if h >. flit 5 10 then flit 5 10 else h.
Definition show_hump (t : terrain_monitor_t) (r : terrain_result_t) : terrain_result_t :=
  let r := show_peak t r <| completed := hump_completed (hump t) |> <| active := hump_active (hump t) |> in
  if hump_active (hump t) then r <| hump_height_m := clamp_height (height_m (hump t)) |> else r.
(** What a sample says: travel, pitch and speed, the acceleration left after the
    filter, whether the hump detector may use it and whether it can be classified. *)
Record measurement := {
  m_pitch : float; m_ds : float; m_speed : float; m_dynamic : float; m_quiet : bool; m_ok : bool
}.
Definition measure (t : terrain_monitor_t) (s : imu_sample_t) (odo : terrain_odometry_t) (continuity : bool) (gap : Z)
  (r : terrain_result_t) : terrain_monitor_t * terrain_result_t * measurement :=
  let r := raise r TERRAIN_CALIBRATED in
  let a := vmap2 fsub (accel_g s) (bias_g (calibration t)) in
  let t := t <| filtered := vmap2 (smooth continuity) (filtered t) a |> in
  let mg := vmap2 fmul (vmap2 fsub (mag_gauss s) (mag_offset t)) (mag_scale t) in
  let n := fsqrt (vdot a a) in
  let r := r <| impact := isfinite n && ((n >. flit 2 1) || (n <. flit 3 10)) |> in
  let tilt := if (n >=. flit 9 10) && (n <=. flit 11 10) then tilt_estimation m (filtered t) else None in
  let tilt_ok := match tilt with Some _ => true | None => false end in
  let '(pitch, roll) := default (fzero, fzero) tilt in
  let r := if tilt_ok then raise (r <| pitch_deg := pitch |> <| roll_deg := roll |>) TERRAIN_TILT_VALID else r in
  let '(t, r) := process_turn t s tilt_ok mg r in
  let '(t, (ds, speed, movement_ok)) := process_odometry t odo continuity gap in
  let dynamic_g := (ax0 a - ax0 (filtered t))%f32 in
  let quiet := tilt_ok && movement_ok && negb (impact r) && (fabs_ dynamic_g <. flit 8 100) && (fabs_ roll <. flit 10 1) &&
               (negb (has TERRAIN_TURN_VALID r) || (fabs_ (turn_dps r) <. flit 15 1)) in
  (t, r, {| m_pitch := pitch; m_ds := ds; m_speed := speed; m_dynamic := dynamic_g; m_quiet := quiet;
            m_ok := tilt_ok && movement_ok |}).
Definition classify (r : terrain_result_t) (x : measurement) : terrain_state_t :=
  motion_classify (m_pitch x) (m_speed x) (m_dynamic x) (turn_dps r) (has TERRAIN_TURN_VALID r) false.
(** The state: an impact at once, anything else after three equal samples. *)
Definition process_state (t : terrain_monitor_t) (x : measurement) (r : terrain_result_t) : terrain_monitor_t * terrain_result_t :=
  if impact r then (t <| stable_count := 0 |>, r <| state := TERRAIN_IMPACT |>)
  else if m_ok x then
    let c := classify r x in
    let t := if negb (bool_decide (c = candidate t)) then t <| candidate := c |> <| stable_count := 1 |>
             else if stable_count t <? 3 then t <| stable_count := stable_count t + 1 |> else t in
    let st := if 3 <=? stable_count t then c else state (result t) in
    (t, r <| state := if bool_decide (st = TERRAIN_IMPACT) then TERRAIN_UNKNOWN else st |>)
  else (t <| stable_count := 0 |>, r <| state := TERRAIN_UNKNOWN |>).
(** A valid sample of a calibrated monitor. *)
Definition process_sample (t : terrain_monitor_t) (s : imu_sample_t) (odo : terrain_odometry_t) (continuity : bool) (gap : Z)
  (r : terrain_result_t) : terrain_monitor_t :=
  let '(t, r, x) := measure t s odo continuity gap r in
  let t := t <| hump := hump_update m (hump t) (m_pitch x) (m_ds x) (m_quiet x) (imu_timestamp_us s) |> in
  let '(t, r) := process_state t x (show_hump t r) in
  t <| previous_us := imu_timestamp_us s |> <| seen := true |> <| result := r |>.
Definition gap_of (t : terrain_monitor_t) (s : imu_sample_t) : Z :=
  if seen t then elapsed (imu_timestamp_us s) (previous_us t) else 0.
Definition continuous (t : terrain_monitor_t) (s : imu_sample_t) : bool :=
  seen t && (0 <? gap_of t s) && (gap_of t s <=? 100000).
Definition broken (t : terrain_monitor_t) (s : imu_sample_t) : bool :=
  negb (imu_sample_is_valid s) || (seen t && negb (continuous t s)).
Definition fresh_result (t : terrain_monitor_t) (s : imu_sample_t) : terrain_result_t :=
  show_peak t (zero_terrain_result <| timestamp_us := imu_timestamp_us s |>).
Definition terrain_monitor_process (t : terrain_monitor_t) (s : imu_sample_t) (odo : terrain_odometry_t) : terrain_monitor_t :=
  if broken t s then process_fault t s (fresh_result t s)
  else if negb (cal_ready (calibration t)) then process_calibration t s odo (fresh_result t s)
  else process_sample t s odo (continuous t s) (gap_of t s) (fresh_result t s).

(** ** Runs *)
(** What the samples of a run were, newest first: the ride given to the hump
    detector, and the classification of the motion where there was one. *)
Record observed := { ob_ride : option ride; ob_class : option terrain_state_t }.
Definition observe (t : terrain_monitor_t) (s : imu_sample_t) (odo : terrain_odometry_t) : observed :=
  if broken t s then
    {| ob_ride := Some {| rd_pitch := fzero; rd_ds := fzero; rd_valid := false; rd_now := imu_timestamp_us s |}; ob_class := None |}
  else if negb (cal_ready (calibration t)) then {| ob_ride := None; ob_class := None |}
  else
    let '(_, r, x) := measure t s odo (continuous t s) (gap_of t s) (fresh_result t s) in
    {| ob_ride := Some {| rd_pitch := m_pitch x; rd_ds := m_ds x; rd_valid := m_quiet x; rd_now := imu_timestamp_us s |};
       ob_class := if impact r then None else if m_ok x then Some (classify r x) else None |}.
Definition recalibrate (t : terrain_monitor_t) : terrain_monitor_t :=
  terrain_monitor_reset_run t <| calibration := imu_calibration_reset |>.
(** A monitor and the history of its current run. *)
Inductive terrain_reachable : terrain_monitor_t -> list observed -> Prop :=
| terrain_boot : terrain_reachable terrain_monitor_init []
| terrain_sample t h s odo : terrain_reachable t h ->
    terrain_reachable (terrain_monitor_process t s odo) (observe t s odo :: h)
| terrain_reset t h : terrain_reachable t h -> terrain_reachable (terrain_monitor_reset_run t) []
| terrain_recalibrate t h : terrain_reachable t h -> terrain_reachable (recalibrate t) []
| terrain_mag t h offset scale : terrain_reachable t h ->
    terrain_reachable (terrain_monitor_set_magnetic_calibration t offset scale).2 h.
End Process.

(** ** Flags *)
Definition flag_bit (f : Z) : Prop := f = 1 \/ f = 2 \/ f = 4 \/ f = 8 \/ f = 16.
Lemma has_raise r f g : has f (raise r g) = has f r || negb (Z.land g f =? 0).
Proof.
  unfold has. change (flags (raise r g)) with (Z.lor (flags r) g). rewrite Z.land_lor_distr_l. destruct (Z.eqb_spec (Z.land (flags r) f) 0) as [-> | N].
  - by rewrite Z.lor_0_l.
  - cbn. destruct (Z.eqb_spec (Z.lor (Z.land (flags r) f) (Z.land g f)) 0) as [E |]; [| done]. by apply Z.lor_eq_0_iff in E as [? _].
Qed.
Lemma flags_raise r g : in_u 5 (flags r) -> flag_bit g -> in_u 5 (flags (raise r g)).
Proof.
  unfold in_u. change (flags (raise r g)) with (Z.lor (flags r) g). intros [L U] G.
  assert (P : 0 < g < 2 ^ 5) by (unfold flag_bit in G; lia). assert (0 <= Z.lor (flags r) g) by (apply Z.lor_nonneg; lia).
  split; [done |]. destruct (Z.eq_dec (flags r) 0) as [-> | N]; [rewrite Z.lor_0_l; lia |].
  assert (Z.lor (flags r) g <> 0) by (intros E; apply Z.lor_eq_0_iff in E; lia).
  apply Z.log2_lt_pow2; [lia |]. rewrite Z.log2_lor by lia. apply Z.max_lub_lt; apply Z.log2_lt_pow2; lia.
Qed.
(** What the steps of a sample may change in the result. *)
Record grows (r r' : terrain_result_t) : Prop := {
  gr_time : timestamp_us r' = timestamp_us r;
  gr_flags : in_u 5 (flags r) -> in_u 5 (flags r');
  gr_fault : has TERRAIN_FAULT r' = has TERRAIN_FAULT r;
  gr_cal : has TERRAIN_CALIBRATED r = true -> has TERRAIN_CALIBRATED r' = true;
  gr_peak : has TERRAIN_PEAK_VALID r' = has TERRAIN_PEAK_VALID r;
  gr_peak_m : peak_m r' = peak_m r
}.
Lemma grows_refl r : grows r r.
Proof. by split. Qed.
Lemma grows_trans r1 r2 r3 : grows r1 r2 -> grows r2 r3 -> grows r1 r3.
Proof. intros [] []. split; auto; congruence. Qed.
Lemma grows_raise r g : flag_bit g -> g <> TERRAIN_FAULT -> g <> TERRAIN_PEAK_VALID -> grows r (raise r g).
Proof.
  intros G F P. split; try done; intros; rewrite ?has_raise; [by apply flags_raise | | by rewrite H |]; unfold flag_bit in G;
    repeat (destruct G as [-> | G]; [by rewrite ?orb_false_r |]); subst g; by rewrite ?orb_false_r.
Qed.

Section Sound.
Context (m : libm).
Implicit Types (t : terrain_monitor_t) (s : imu_sample_t) (r : terrain_result_t) (h : list observed).
Definition turn_bounded r : Prop := has TERRAIN_TURN_VALID r = true -> (fabs_ (turn_dps r) <=. flit 360 1) = true.
(** The parts of the monitor that measuring leaves alone. *)
Definition same_run t t' : Prop :=
  calibration t' = calibration t /\ hump t' = hump t /\ result t' = result t /\ stable_count t' = stable_count t /\
  candidate t' = candidate t.
Lemma turn_frame t s tilt mg r : let '(t', r') := process_turn m t s tilt mg r in
  same_run t t' /\ odometry_seen t' = odometry_seen t /\ grows r r' /\ impact r' = impact r /\
  (has TERRAIN_TURN_VALID r = false -> turn_bounded (result t) -> turn_bounded r').
Proof.
  unfold process_turn, same_run.
  assert (G : forall x, grows r (raise (r <| turn_dps := x |>) TERRAIN_TURN_VALID)).
  { intros x. apply (grows_trans _ (r <| turn_dps := x |>)); [by split |]. apply grows_raise; [right; by left | done | done]. }
  assert (N : has TERRAIN_TURN_VALID r = false -> turn_bounded r) by (unfold turn_bounded; congruence).
  destruct (if tilt && mag_valid s && magnetic_calibrated t then _ else None) as [hd |].
  - splits; try done; [by case_if | by case_if |]. intros H _. destruct (_ && _) eqn:C; [| auto].
    apply andb_true_iff in C as [_ C]. by intros _.
  - case_if; [splits; auto using grows_refl |].
    destruct (heading_seen t && has TERRAIN_TURN_VALID (result t)) eqn:C; [| splits; auto using grows_refl].
    splits; try done. intros _ B _. apply andb_true_iff in C as [_ C]. by apply B.
Qed.
Lemma odometry_frame t odo c g : let '(t', (_, _, ok)) := process_odometry t odo c g in
  same_run t t' /\ (ok = true -> odometry_seen t = true).
Proof.
  unfold process_odometry, travel, same_run. destruct (_ && isfinite _); cbn; [| done]. destruct (odometry_seen t); cbn; [| done].
  repeat case_if; done.
Qed.
(** Everything the later steps need of a measurement. *)
Record measured t r (c : bool) t' r' (x : measurement) : Prop := {
  me_run : same_run t t';
  me_grows : grows r r';
  me_cal : has TERRAIN_CALIBRATED r' = true;
  me_turn : has TERRAIN_TURN_VALID r = false -> turn_bounded (result t) -> turn_bounded r';
  me_ok : m_ok x = true -> odometry_seen t = true;
  me_quiet : m_quiet x = true -> m_ok x = true /\ impact r' = false
}.
Lemma measure_measured t s odo c g r : let '(t', r', x) := measure m t s odo c g r in measured t r c t' r' x.
Proof.
  unfold measure. cbv zeta. set (a := vmap2 fsub _ _). set (t1 := t <| filtered := _ |>). set (n := fsqrt _).
  set (tilt := if _ && _ then _ else None). destruct (default (fzero, fzero) tilt) as [pitch roll].
  set (ok := match tilt with Some _ => true | None => false end). set (r0 := raise r TERRAIN_CALIBRATED).
  set (r1 := r0 <| impact := _ |>). set (r2 := if ok then _ else r1).
  assert (G0 : grows r r0) by (apply grows_raise; [do 3 right; by left | done | done]).
  assert (G1 : grows r r1) by (eapply grows_trans; [exact G0 | by split]).
  assert (G2 : grows r r2).
  { unfold r2. destruct ok; [| done]. eapply grows_trans; [exact G1 |].
    apply (grows_trans _ (r1 <| pitch_deg := pitch |> <| roll_deg := roll |>)); [by split |]. apply grows_raise; [by left | done | done]. }
  assert (C2 : has TERRAIN_CALIBRATED r2 = true).
  { assert (has TERRAIN_CALIBRATED r1 = true) by (change (has TERRAIN_CALIBRATED r0 = true); unfold r0; by rewrite has_raise, orb_true_r).
    unfold r2. destruct ok; [| done]. rewrite has_raise. by apply orb_true_iff; left. }
  assert (T2 : has TERRAIN_TURN_VALID r2 = has TERRAIN_TURN_VALID r).
  { assert (has TERRAIN_TURN_VALID r1 = has TERRAIN_TURN_VALID r) by (change (has TERRAIN_TURN_VALID r0 = has TERRAIN_TURN_VALID r); unfold r0; by rewrite has_raise, orb_false_r).
    unfold r2. destruct ok; [| done]. by rewrite has_raise, orb_false_r. }
  pose proof (turn_frame t1 s ok (vmap2 fmul (vmap2 fsub (mag_gauss s) (mag_offset t1)) (mag_scale t1)) r2) as T.
  destruct (process_turn _ _ _ _ _ _) as [t2 r3]. destruct T as ((T1 & T3 & T4 & T5 & T6) & T7 & T8 & T9 & T10).
  pose proof (odometry_frame t2 odo c g) as O. destruct (process_odometry t2 odo c g) as [t3 [[ds speed] mv]]. destruct O as [(O1 & O2 & O3 & O4 & O5) O6].
  split; cbn [m_ok m_quiet].
  - unfold same_run. by rewrite O1, O2, O3, O4, O5, T1, T3, T4, T5, T6.
  - by eapply grows_trans.
  - by apply (gr_cal _ _ T8).
  - rewrite <- T2. intros H1 H2. by apply T10.
  - intros H. apply andb_true_iff in H as [_ H]. rewrite <- (O6 H), T7. done.
  - intros H. repeat (apply andb_true_iff in H as [H ?]). apply negb_true_iff in H3. split; [by rewrite H, H4 | done].
Qed.

Lemma fresh_facts t s : let r := fresh_result t s in
  timestamp_us r = imu_timestamp_us s /\ in_u 5 (flags r) /\ has TERRAIN_FAULT r = false /\ has TERRAIN_CALIBRATED r = false /\
  has TERRAIN_TILT_VALID r = false /\ has TERRAIN_TURN_VALID r = false /\ has TERRAIN_PEAK_VALID r = highest_valid (hump t) /\
  (highest_valid (hump t) = true -> peak_m r = highest_m (hump t)) /\
  state r = TERRAIN_UNKNOWN /\ impact r = false /\ completed r = false /\ active r = false.
Proof. unfold fresh_result, show_peak. by destruct (highest_valid (hump t)). Qed.
(** The hump part of a result, after the detector has seen the sample. *)
Record shows t r r' : Prop := {
  sh_time : timestamp_us r' = timestamp_us r;
  sh_flags : in_u 5 (flags r) -> in_u 5 (flags r');
  sh_has f : f <> TERRAIN_PEAK_VALID -> flag_bit f -> has f r' = has f r;
  sh_turn : turn_dps r' = turn_dps r;
  sh_impact : impact r' = impact r;
  sh_peak : has TERRAIN_PEAK_VALID r' = has TERRAIN_PEAK_VALID r || highest_valid (hump t);
  sh_peak_m : highest_valid (hump t) = true -> peak_m r' = highest_m (hump t)
}.
Lemma show_peak_shows t r : shows t r (show_peak t r).
Proof.
  unfold show_peak. destruct (highest_valid (hump t)) eqn:V.
  - split; try done; [| | by rewrite V, has_raise].
    + intros U. apply flags_raise; [done | right; right; by left].
    + intros f N F. rewrite has_raise. unfold flag_bit in F.
      repeat (destruct F as [-> | F]; [by rewrite ?orb_false_r |]). subst f. by rewrite orb_false_r.
  - split; try done; [| by rewrite V]. by rewrite V, orb_false_r.
Qed.
Lemma show_hump_shows t r : let r' := show_hump t r in
  shows t r r' /\ completed r' = hump_completed (hump t) /\ active r' = hump_active (hump t).
Proof.
  destruct (show_peak_shows t r) as [S1 S2 S3 S4 S5 S6 S7]. unfold show_hump. cbv zeta.
  destruct (hump_active (hump t)) eqn:A; (splits; [by split | done | done]).
Qed.
(** Choosing the state. *)
Lemma state_facts t x r : let '(t', r') := process_state t x r in
  grows r r' /\ flags r' = flags r /\ turn_dps r' = turn_dps r /\ impact r' = impact r /\ completed r' = completed r /\ active r' = active r /\
  calibration t' = calibration t /\ hump t' = hump t /\ odometry_seen t' = odometry_seen t /\
  (state r' = TERRAIN_IMPACT <-> impact r = true).
Proof.
  unfold process_state. destruct (impact r) eqn:I; [by splits; try split |].
  destruct (m_ok x); [| by splits; try split]. cbv zeta.
  splits; try done; try (by repeat case_if); try (by split).
  split; [| done]. cbn [state update_field]. intros E. exfalso. revert E. by case_if; undecide.
Qed.

(** ** One sample *)
Definition ridden (d : hump_detector_t) (o : observed) : hump_detector_t :=
  match ob_ride o with Some x => hump_update m d (rd_pitch x) (rd_ds x) (rd_valid x) (rd_now x) | None => d end.
(** The result [r] of a sample, for the monitor before and the detector after it. *)
Record sound t s (d : hump_detector_t) r : Prop := {
  so_time : timestamp_us r = imu_timestamp_us s;
  so_flags : in_u 5 (flags r);
  so_fault : has TERRAIN_FAULT r = broken t s;
  so_cal : has TERRAIN_CALIBRATED r = negb (broken t s) && cal_ready (calibration t);
  so_idle : has TERRAIN_CALIBRATED r = false -> has TERRAIN_TILT_VALID r = false /\ has TERRAIN_TURN_VALID r = false /\
    state r = TERRAIN_UNKNOWN /\ impact r = false /\ completed r = false /\ active r = false;
  so_impact : state r = TERRAIN_IMPACT <-> impact r = true;
  so_turn : turn_bounded (result t) -> turn_bounded r;
  so_peak : has TERRAIN_PEAK_VALID r = highest_valid d;
  so_peak_m : has TERRAIN_PEAK_VALID r = true -> peak_m r = highest_m d;
  so_hump : has TERRAIN_CALIBRATED r = true -> completed r = hump_completed d /\ active r = hump_active d
}.
(** The highest hump is never forgotten within a run. *)
Lemma highest_kept d pitch ds v now : highest_valid d = true -> highest_valid (hump_update m d pitch ds v now) = true.
Proof.
  intros H. unfold hump_update. cbv zeta. case_if; [done |]. set (d1 := if _ && climb_starts _ _ then _ else _).
  assert (highest_valid d1 = true) by (unfold d1; by case_if). case_if; [done |]. unfold hump_ride. cbv zeta. repeat case_if; done.
Qed.
Lemma fault_sound t s : broken t s = true ->
  sound t s (hump (process_fault m t s (fresh_result t s))) (result (process_fault m t s (fresh_result t s))).
Proof.
  destruct (fresh_facts t s) as (F1 & F2 & F3 & F4 & F5 & F6 & F7 & F8 & F9 & F10 & F11 & F12). intros B.
  set (r := fresh_result t s) in *.
  assert (E : result (process_fault m t s r) = raise r TERRAIN_FAULT) by (unfold process_fault; cbv zeta; by case_if).
  assert (H : hump (process_fault m t s r) = hump_update m (hump t) fzero fzero false (imu_timestamp_us s))
    by (unfold process_fault; cbv zeta; by case_if).
  rewrite E, H. set (r' := raise r TERRAIN_FAULT) in *.
  assert (V : highest_valid (hump_update m (hump t) fzero fzero false (imu_timestamp_us s)) = highest_valid (hump t)) by done.
  assert (K : has TERRAIN_CALIBRATED r' = false) by (unfold r'; by rewrite has_raise, F4).
  assert (T : has TERRAIN_TURN_VALID r' = false) by (unfold r'; by rewrite has_raise, F6).
  split; try done.
  - apply flags_raise; [done | by repeat right].
  - unfold r'. by rewrite has_raise, B, orb_true_r.
  - by rewrite K, B.
  - intros _. splits; try done. unfold r'. by rewrite has_raise, F5.
  - change (state r') with (state r). change (impact r') with (impact r). rewrite F9, F10. done.
  - unfold turn_bounded. by rewrite T.
  - unfold r'. by rewrite has_raise, orb_false_r, V.
  - unfold r'. rewrite has_raise, orb_false_r, F7. exact F8.
Qed.
Lemma calibration_sound t s : broken t s = false -> cal_ready (calibration t) = false ->
  sound t s (hump t) (fresh_result t s).
Proof.
  destruct (fresh_facts t s) as (F1 & F2 & F3 & F4 & F5 & F6 & F7 & F8 & F9 & F10 & F11 & F12). intros B C.
  split; try done; try congruence.
  - by rewrite F4, B, C.
  - by rewrite F9, F10.
  - rewrite F7. done.
Qed.
Lemma sample_sound t s odo : broken t s = false -> cal_ready (calibration t) = true ->
  let t' := process_sample m t s odo (continuous t s) (gap_of t s) (fresh_result t s) in
  sound t s (hump t') (result t') /\ hump t' = ridden (hump t) (observe m t s odo).
Proof.
  destruct (fresh_facts t s) as (F1 & F2 & F3 & F4 & F5 & F6 & F7 & F8 & F9 & F10 & F11 & F12). intros B C. cbv zeta.
  unfold process_sample, ridden, observe. rewrite B, C. cbn [negb]. set (r := fresh_result t s) in *.
  pose proof (measure_measured t s odo (continuous t s) (gap_of t s) r) as M.
  destruct (measure m t s odo (continuous t s) (gap_of t s) r) as [[t1 r1] x]. destruct M as [(M1 & M2 & M3 & M4 & M5) [G1 G2 G3 G4 G5 G6] K T O Q].
  set (d := hump_update m (hump t1) (m_pitch x) (m_ds x) (m_quiet x) (imu_timestamp_us s)).
  set (t2 := t1 <| hump := d |>). destruct (show_hump_shows t2 r1) as (S & Sc & Sa). cbv zeta in Sc, Sa. set (r2 := show_hump t2 r1) in *.
  pose proof (state_facts t2 x r2) as P. destruct (process_state t2 x r2) as [t3 r3].
  destruct P as ([P1 P2 P3 P4 P5 P6] & Pf & Pt & Pi & Pc & Pa & P7 & P8 & P9 & P10).
  destruct S as [S1 S2 S3 S4 S5 S6 S7]. change (hump t2) with d in *. cbn [hump result ob_ride update_field rd_pitch rd_ds rd_valid rd_now].
  split; [| change (hump t3 = hump_update m (hump t) (m_pitch x) (m_ds x) (m_quiet x) (imu_timestamp_us s)); rewrite P8; change (hump t2) with d; unfold d; by rewrite M2].
  match goal with |- sound _ _ ?a ?b => change a with (hump t3); change b with r3 end. rewrite P8. change (hump t2) with d.
  assert (H3 : forall f, has f r3 = has f r2) by (intros f; unfold has; by rewrite Pf).
  assert (HV : has TERRAIN_PEAK_VALID r3 = highest_valid d).
  { rewrite H3, S6, G5, F7. destruct (highest_valid (hump t)) eqn:V; [| done]. unfold d. rewrite highest_kept; [done |]. by rewrite M2. }
  assert (HC : has TERRAIN_CALIBRATED r3 = true) by (rewrite H3, S3; [done | done | do 3 right; by left]).
  split; try done.
  - by rewrite P1, S1, G1.
  - rewrite Pf. by apply S2, G2.
  - rewrite H3, S3, G3, F3; [by rewrite B | done | by repeat right].
  - by rewrite HC, B, C.
  - by rewrite HC.
  - by rewrite P10, Pi.
  - intros Bd. unfold turn_bounded. rewrite H3, S3, Pt, S4; [| done | right; by left]. by apply T.
  - intros HP. rewrite P6. apply S7. by rewrite <- HV.
  - intros _. by rewrite Pc, Pa, Sc, Sa.
Qed.

(** ** Runs *)
Definition rides h : list ride := rev (omap ob_ride h).
Definition classes h : list (option terrain_state_t) := map ob_class h.
(** A motion state was the class of three samples in a row, and every sample since was classified. *)
Definition debounced (st : terrain_state_t) (cs : list (option terrain_state_t)) : Prop :=
  exists pre post, cs = pre ++ replicate 3 (Some st) ++ post /\ Forall is_Some pre.
Definition justified (st : terrain_state_t) (cs : list (option terrain_state_t)) : Prop :=
  st <> TERRAIN_UNKNOWN -> st <> TERRAIN_IMPACT -> debounced st cs.
Lemma justified_impact cs : justified TERRAIN_IMPACT cs.
Proof. by intros _ []. Qed.
Lemma justified_unknown cs : justified TERRAIN_UNKNOWN cs.
Proof. by intros []. Qed.
Definition steady_for (t : terrain_monitor_t) (cs : list (option terrain_state_t)) : Prop :=
  exists post, cs = replicate (Z.to_nat (stable_count t)) (Some (candidate t)) ++ post.
Record terrain_inv t h : Prop := {
  ti_hump : hump t = hump_all m (rides h);
  ti_uncal : cal_ready (calibration t) = false -> odometry_seen t = false;
  ti_count : 0 <= stable_count t <= 3;
  ti_steady : odometry_seen t = true -> steady_for t (classes h);
  ti_state : justified (state (result t)) (classes h);
  ti_turn : turn_bounded (result t)
}.
Lemma ridden_run h o : ridden (hump_all m (rides h)) o = hump_all m (rides (o :: h)).
Proof.
  unfold ridden, rides. cbn [omap list_omap]. destruct (ob_ride o) as [x |]; [| done]. cbn [rev].
  unfold hump_all. by rewrite fold_left_app.
Qed.
Lemma state_run t x r cs : 0 <= stable_count t <= 3 -> (m_ok x = true -> steady_for t cs) -> justified (state (result t)) cs ->
  let o := if impact r then None else if m_ok x then Some (classify r x) else None in
  let '(t', r') := process_state t x r in
  0 <= stable_count t' <= 3 /\ steady_for t' (o :: cs) /\ justified (state r') (o :: cs).
Proof.
  intros Hc Hs Hj. unfold process_state. cbv zeta. destruct (impact r).
  { splits; [done | done | by exists (None :: cs) | apply justified_impact]. }
  destruct (m_ok x); [| splits; [done | done | by exists (None :: cs) | apply justified_unknown]]. destruct (Hs eq_refl) as [post Hp]. set (c := classify r x).
  set (t1 := if negb _ then _ else _).
  assert (T : 0 <= stable_count t1 <= 3 /\ candidate t1 = c /\ state (result t1) = state (result t) /\ steady_for t1 (Some c :: cs)).
  { unfold t1. destruct (bool_decide_reflect (c = candidate t)) as [E | E]; cbn [negb].
    - destruct (Z.ltb_spec (stable_count t) 3) as [L | L].
      + cbn. splits; [lia | lia | done | done |]. exists post. cbn. replace (Z.to_nat (stable_count t + 1)) with (S (Z.to_nat (stable_count t))) by lia.
        change (candidate (t <| stable_count := stable_count t + 1 |>)) with (candidate t). rewrite <- E. cbn. by rewrite Hp, <- E.
      + splits; [lia | lia | done | done |]. assert (stable_count t = 3) as S3 by lia. exists (Some c :: post). rewrite Hp, S3, <- E. done.
    - cbn. splits; [lia | lia | done | done |]. by exists cs. }
  destruct T as (T1 & T2 & T3 & [post' T4]). splits; [lia | lia | by exists post' |]. 
  match goal with |- justified ?a _ => let b := eval cbn [state update_field] in a in change a with b end. destruct (Z.leb_spec 3 (stable_count t1)) as [L | L].
  - case_if; [apply justified_unknown |]. intros _ _. exists [], post'. assert (stable_count t1 = 3) as S3 by lia. by rewrite T4, S3, T2.
  - rewrite T3. case_if; [apply justified_unknown |]. intros N1 N2. destruct (Hj N1 N2) as (pre & post0 & -> & F). exists (Some c :: pre), post0. split; [done | by constructor].
Qed.
Lemma fault_inv t h s : terrain_inv t h -> broken t s = true ->
  terrain_inv (process_fault m t s (fresh_result t s)) ({| ob_ride := Some {| rd_pitch := fzero; rd_ds := fzero; rd_valid := false;
    rd_now := imu_timestamp_us s |}; ob_class := None |} :: h).
Proof.
  intros [I1 I2 I3 I4 I5 I6] B. destruct (fault_sound t s B) as [_ _ _ K So _ ST _ _ _]. rewrite B in K. destruct (So K) as (_ & _ & U & _).
  split; [| | | | by rewrite U; apply justified_unknown | by apply ST].
  - rewrite <- ridden_run, <- I1. unfold process_fault. cbv zeta. by case_if.
  - unfold process_fault. cbv zeta. by case_if.
  - unfold process_fault. cbv zeta. by case_if.
  - unfold process_fault. cbv zeta. by case_if.
Qed.
Lemma calibration_inv t h s odo : terrain_inv t h -> broken t s = false -> cal_ready (calibration t) = false ->
  terrain_inv (process_calibration t s odo (fresh_result t s)) ({| ob_ride := None; ob_class := None |} :: h).
Proof.
  intros [I1 I2 I3 I4 I5 I6] B C. destruct (calibration_sound t s B C) as [_ _ _ K So _ ST _ _ _]. rewrite B, C in K. destruct (So K) as (_ & _ & U & _).
  unfold process_calibration. cbv zeta. split; cbn -[fresh_result hump_all].
  - done.
  - intros _. by apply I2.
  - done.
  - rewrite (I2 C). done.
  - rewrite U. apply justified_unknown.
  - by apply ST.
Qed.
Lemma sample_inv t h s odo : terrain_inv t h -> broken t s = false -> cal_ready (calibration t) = true ->
  terrain_inv (process_sample m t s odo (continuous t s) (gap_of t s) (fresh_result t s)) (observe m t s odo :: h).
Proof.
  intros [I1 I2 I3 I4 I5 I6] B C. destruct (sample_sound t s odo B C) as [[_ _ _ _ _ _ ST _ _ _] H]. cbv zeta in ST, H.
  assert (R : hump (process_sample m t s odo (continuous t s) (gap_of t s) (fresh_result t s)) = hump_all m (rides (observe m t s odo :: h)))
    by (by rewrite H, I1, ridden_run). clear H. specialize (ST I6). revert R ST.
  unfold process_sample, observe. rewrite B, C. cbn [negb]. set (r := fresh_result t s) in *.
  pose proof (measure_measured t s odo (continuous t s) (gap_of t s) r) as M.
  destruct (measure m t s odo (continuous t s) (gap_of t s) r) as [[t1 r1] x]. destruct M as [(M1 & M2 & M3 & M4 & M5) _ K T O Q].
  set (t2 := t1 <| hump := _ |>). destruct (show_hump_shows t2 r1) as ([_ _ Sh St Si _ _] & _ & _). cbv zeta in *. set (r2 := show_hump t2 r1) in *.
  assert (Ec : classify r2 x = classify r1 x) by (unfold classify; rewrite St, Sh; [done | done | right; by left]).
  assert (P0 : 0 <= stable_count t2 <= 3) by (change (stable_count t2) with (stable_count t1); by rewrite M4).
  assert (P1 : m_ok x = true -> steady_for t2 (classes h)).
  { intros Ok. unfold steady_for. change (stable_count t2) with (stable_count t1). change (candidate t2) with (candidate t1).
    rewrite M4, M5. by apply I4, O. }
  assert (P2 : justified (state (result t2)) (classes h)) by (change (result t2) with (result t1); by rewrite M3).
  pose proof (state_run t2 x r2 (classes h) P0 P1 P2) as S. pose proof (state_facts t2 x r2) as F. cbv zeta in S. rewrite Si, Ec in S.
  destruct (process_state t2 x r2) as [t3 r3]. destruct S as (S1 & S2 & S3), F as (_ & _ & _ & _ & _ & _ & F7 & _).
  intros R ST. split; [exact R | | exact S1 | | exact S3 | exact ST].
  - cbn. rewrite F7. change (calibration t2) with (calibration t1). by rewrite M1, C.
  - intros _. exact S2.
Qed.
Lemma terrain_reachable_inv t h : terrain_reachable m t h -> terrain_inv t h.
Proof.
  induction 1 as [| t h s odo _ I | t h _ I | t h _ I | t h offset scale _ I].
  - split; try done; apply justified_unknown.
  - unfold terrain_monitor_process. destruct (broken t s) eqn:B; [unfold observe; rewrite B; by apply fault_inv |].
    destruct (cal_ready (calibration t)) eqn:C; cbn [negb].
    + by apply sample_inv.
    + unfold observe. rewrite B, C. by apply calibration_inv.
  - split; try done; apply justified_unknown.
  - split; try done; apply justified_unknown.
  - unfold terrain_monitor_set_magnetic_calibration. case_if; [done |]. by destruct I.
Qed.
End Sound.

(** ** Packets *)
Definition state_code (st : terrain_state_t) : Z :=
  match st with
  | TERRAIN_UNKNOWN => 0 | TERRAIN_STATIONARY => 1 | TERRAIN_MOVING => 2 | TERRAIN_ACCELERATING => 3 | TERRAIN_TURNING => 4
  | TERRAIN_CLIMBING => 5 | TERRAIN_DESCENDING => 6 | TERRAIN_IMPACT => 7
  end.
Definition state_of (c : Z) : terrain_state_t :=
  nthZ TERRAIN_UNKNOWN [TERRAIN_UNKNOWN; TERRAIN_STATIONARY; TERRAIN_MOVING; TERRAIN_ACCELERATING; TERRAIN_TURNING;
    TERRAIN_CLIMBING; TERRAIN_DESCENDING; TERRAIN_IMPACT] c.
(** [flags&=(uint8_t)~flag] *)
Definition drop (bad : bool) (flag fl : Z) : Z := if bad then Z.land fl (u8 (Z.lnot flag)) else fl.
Definition tilt_bad (r : terrain_result_t) : bool :=
  negb (isfinite (pitch_deg r)) || negb (isfinite (roll_deg r)) || (fabs_ (pitch_deg r) >. flit 90 1) || (fabs_ (roll_deg r) >. flit 90 1).
Definition turn_bad (r : terrain_result_t) : bool := negb (isfinite (turn_dps r)) || (fabs_ (turn_dps r) >. flit 360 1).
Definition peak_bad (r : terrain_result_t) : bool :=
  negb (isfinite (peak_m r)) || (peak_m r <. fzero) || (peak_m r >. flit 5 10).
Definition packed_flags (r : terrain_result_t) : Z :=
  drop (peak_bad r) TERRAIN_PEAK_VALID (drop (turn_bad r) TERRAIN_TURN_VALID (drop (tilt_bad r) TERRAIN_TILT_VALID (flags r))).
Definition is_set (fl flag : Z) : bool := negb (Z.land fl flag =? 0).
Definition packed_active (r : terrain_result_t) : bool :=
  active r && isfinite (hump_height_m r) && (hump_height_m r >=. fzero) && (hump_height_m r <=. flit 5 10).
Definition tilt_code (r : terrain_result_t) (x : float) : Z :=
  if is_set (packed_flags r) TERRAIN_TILT_VALID then lroundf (x * flit 10 1)%f32 else 0.
Definition rate_code (r : terrain_result_t) : Z := if is_set (packed_flags r) TERRAIN_TURN_VALID then lroundf (turn_dps r) else 0.
Definition height_code (r : terrain_result_t) : Z :=
  if is_set (packed_flags r) TERRAIN_PEAK_VALID then lroundf (peak_m r * flit 1000 1)%f32 else 0.
Definition climb_code (r : terrain_result_t) : Z :=
  if packed_active r then lroundf (hump_height_m r * flit 1000 1)%f32 else 0.
Definition terrain_fields (r : terrain_result_t) : list field :=
  [(timestamp_us r, 32%nat); (state_code (state r), 3%nat); (packed_flags r, 5%nat); (u32 (tilt_code r (pitch_deg r)), 11%nat);
   (u32 (tilt_code r (roll_deg r)), 11%nat); (u32 (rate_code r), 10%nat); (u32 (height_code r), 9%nat); (b2z (completed r), 1%nat);
   (b2z (impact r), 1%nat); (b2z (packed_active r), 1%nat); (u32 (climb_code r), 9%nat)].
Definition terrain_pack (r : terrain_result_t) : bytes := pack TERRAIN_PACKET_SIZE (terrain_fields r).
Definition signed_value (v : Z) (width : Z) : Z :=
  if negb (Z.land v (2 ^ (width - 1)) =? 0) then v - 2 ^ width else v.
Definition read_terrain_result : reader terrain_result_t :=
  ts ← get 32; st ← get 3; fl ← get 5; pitch ← get 11; roll ← get 11; rate ← get 10; peak ← get 9;
  completed ← get_flag; impact ← get_flag; active ← get_flag; climb ← get 9;
  mret {| timestamp_us := ts; pitch_deg := (float_of_Z (signed_value pitch 11) / flit 10 1)%f32;
          roll_deg := (float_of_Z (signed_value roll 11) / flit 10 1)%f32; turn_dps := float_of_Z (signed_value rate 10);
          peak_m := (float_of_Z peak / flit 1000 1)%f32; hump_height_m := (float_of_Z climb / flit 1000 1)%f32;
          state := state_of st; flags := fl; impact := impact; completed := completed; active := active |}.
(** The reader takes fixed widths and never fails. *)
Definition terrain_unpack (p : bytes) : terrain_result_t := default zero_terrain_result (run read_terrain_result p).

(** What a packet carries of a result. *)
Definition carried (r : terrain_result_t) : terrain_result_t :=
  {| timestamp_us := timestamp_us r; pitch_deg := (float_of_Z (tilt_code r (pitch_deg r)) / flit 10 1)%f32;
     roll_deg := (float_of_Z (tilt_code r (roll_deg r)) / flit 10 1)%f32; turn_dps := float_of_Z (rate_code r);
     peak_m := (float_of_Z (height_code r) / flit 1000 1)%f32; hump_height_m := (float_of_Z (climb_code r) / flit 1000 1)%f32;
     state := state r; flags := packed_flags r; impact := impact r; completed := completed r; active := packed_active r |}.
Record result_typed (r : terrain_result_t) : Prop := {
  ty_time : in_u 32 (timestamp_us r); ty_flags : in_u 5 (flags r); ty_pitch : float_ok (pitch_deg r); ty_roll : float_ok (roll_deg r);
  ty_turn : float_ok (turn_dps r); ty_peak : float_ok (peak_m r); ty_height : float_ok (hump_height_m r)
}.
Lemma drop_range bad flag fl : in_u 5 fl -> in_u 5 (drop bad flag fl).
Proof.
  unfold drop, in_u. intros H. destruct bad; [| done]. pose proof (wrap_range 8 (Z.lnot flag) ltac:(lia)). fold (u8 (Z.lnot flag)) in *.
  assert (0 <= Z.land fl (u8 (Z.lnot flag))) by (apply Z.land_nonneg; lia).
  split; [done |]. destruct (Z.eq_dec (Z.land fl (u8 (Z.lnot flag))) 0) as [-> |]; [lia |].
  apply Z.log2_lt_pow2; [lia |]. eapply Z.le_lt_trans; [apply Z.log2_land; lia |]. apply Z.min_lt_iff. left.
  destruct (Z.eq_dec fl 0) as [-> |]; [done |]. apply Z.log2_lt_pow2; lia.
Qed.
Lemma flag_dropped flag g fl : flag_bit flag -> flag_bit g -> is_set (Z.land fl (u8 (Z.lnot flag))) g = if flag =? g then false else is_set fl g.
Proof.
  intros F G. unfold is_set. rewrite <- Z.land_assoc.
  assert (E : Z.land (u8 (Z.lnot flag)) g = if flag =? g then 0 else g).
  { unfold flag_bit in F, G. repeat (destruct F as [-> | F]; [repeat (destruct G as [-> | G]; [done |]); by subst g |]). subst flag.
    repeat (destruct G as [-> | G]; [done |]). by subst g. }
  rewrite E. destruct (flag =? g); [by rewrite Z.land_0_r | done].
Qed.
Lemma is_set_drop bad flag g fl : flag_bit flag -> flag_bit g -> is_set (drop bad flag fl) g = if (flag =? g) && bad then false else is_set fl g.
Proof. intros F G. unfold drop. destruct bad; [rewrite flag_dropped by done; by rewrite andb_true_r | by rewrite andb_false_r]. Qed.
Lemma tilt_flag r : is_set (packed_flags r) TERRAIN_TILT_VALID = negb (tilt_bad r) && is_set (flags r) TERRAIN_TILT_VALID.
Proof. unfold packed_flags. rewrite !is_set_drop by (unfold flag_bit; vm_compute; tauto). cbn. by destruct (tilt_bad r). Qed.
Lemma turn_flag r : is_set (packed_flags r) TERRAIN_TURN_VALID = negb (turn_bad r) && is_set (flags r) TERRAIN_TURN_VALID.
Proof. unfold packed_flags. rewrite !is_set_drop by (unfold flag_bit; vm_compute; tauto). cbn. by destruct (turn_bad r). Qed.
Lemma peak_flag r : is_set (packed_flags r) TERRAIN_PEAK_VALID = negb (peak_bad r) && is_set (flags r) TERRAIN_PEAK_VALID.
Proof. unfold packed_flags. rewrite !is_set_drop by (unfold flag_bit; vm_compute; tauto). cbn. by destruct (peak_bad r). Qed.
Lemma drop_idle flag fl : flag_bit flag -> in_u 5 fl -> is_set fl flag = false -> Z.land fl (u8 (Z.lnot flag)) = fl.
Proof.
  intros F U S. unfold is_set in S. apply negb_false_iff, Z.eqb_eq in S. apply Z.bits_inj'. intros i Hi. rewrite Z.land_spec.
  destruct (Z.testbit fl i) eqn:T; [| done]. cbn.
  assert (i < 5). { destruct (Z.lt_ge_cases i 5) as [| L]; [done |]. rewrite Z.bits_above_log2 in T; [done | apply U |].
    destruct (Z.eq_dec fl 0) as [-> | N]; [cbn; lia |]. apply Z.lt_le_trans with 5; [| lia]. apply Z.log2_lt_pow2; unfold in_u in U; lia. }
  assert (Fi : Z.testbit flag i = false) by (pose proof (f_equal (fun z => Z.testbit z i) S) as Q; cbv beta in Q; rewrite Z.land_spec, T, Z.bits_0 in Q; done).
  unfold u8, wrap. rewrite Z.mod_pow2_bits_low by lia. rewrite Z.lnot_spec by lia. by rewrite Fi.
Qed.

(** ** The codes *)
Lemma flit_90 : flit 90 1 = S754_finite false 11796480 (-17). Proof. reflexivity. Qed.
Lemma flit_360 : flit 360 1 = S754_finite false 11796480 (-15). Proof. reflexivity. Qed.
Lemma flit_half : flit 5 10 = S754_finite false 8388608 (-24). Proof. reflexivity. Qed.
Lemma scale_10 : within false 10485760 (-20) (flit 10 1). Proof. by vm_compute. Qed.
Lemma scale_1000 : within false 16384000 (-14) (flit 1000 1). Proof. by vm_compute. Qed.
Lemma tilt_code_bound r x : float_ok x -> (tilt_bad r = false -> isfinite x = true /\ (fabs_ x >. flit 90 1) = false) ->
  -900 <= tilt_code r x <= 900.
Proof.
  intros Ok H. unfold tilt_code. rewrite tilt_flag. destruct (tilt_bad r); [cbn; lia |]. destruct (H eq_refl) as [F C]. cbn [negb andb].
  case_if; [| lia]. rewrite flit_90 in C.
  apply (lroundf_bound x _ 11796480 (-17) 10485760 (-20) 900 Ok F ltac:(lia) ltac:(lia) C scale_10 ltac:(lia) ltac:(lia)). by vm_compute.
Qed.
Lemma tilt_good r : tilt_bad r = false ->
  (isfinite (pitch_deg r) = true /\ (fabs_ (pitch_deg r) >. flit 90 1) = false) /\
  (isfinite (roll_deg r) = true /\ (fabs_ (roll_deg r) >. flit 90 1) = false).
Proof. unfold tilt_bad. intros H. repeat (apply orb_false_iff in H as [H ?]). apply negb_false_iff in H, H2. done. Qed.
Lemma rate_code_bound r : float_ok (turn_dps r) -> -360 <= rate_code r <= 360.
Proof.
  intros Ok. unfold rate_code. rewrite turn_flag. unfold turn_bad. destruct (isfinite _) eqn:F; [| cbn; lia].
  destruct (fabs_ (turn_dps r) >. flit 360 1) eqn:C; [cbn; lia |]. cbn [negb orb andb]. case_if; [| lia]. rewrite flit_360 in C.
  destruct (fle_within _ 11796480 (-15) Ok ltac:(lia) ltac:(lia) F C) as [s W].
  pose proof (lroundf_within s 11796480 (-15) 360 _ ltac:(lia) ltac:(by vm_compute) W). destruct s; lia.
Qed.
Lemma metres_bound x : float_ok x -> isfinite x = true -> (x <. fzero) = false -> (x >. flit 5 10) = false ->
  0 <= lroundf (x * flit 1000 1)%f32 <= 500.
Proof.
  intros Ok F P C. rewrite flit_half in C. rewrite <- (fabs_nonneg x _ F P) in C.
  apply (lroundf_bound_pos x _ 8388608 (-24) 16384000 (-14) 500 Ok F ltac:(lia) ltac:(lia) P C scale_1000 ltac:(lia) ltac:(lia)). by vm_compute.
Qed.
Lemma height_code_bound r : float_ok (peak_m r) -> 0 <= height_code r <= 500.
Proof.
  intros Ok. unfold height_code. rewrite peak_flag. unfold peak_bad. destruct (isfinite _) eqn:F; [| cbn; lia].
  destruct (peak_m r <. fzero) eqn:P; [cbn; lia |]. destruct (peak_m r >. flit 5 10) eqn:C; [cbn; lia |]. cbn [negb orb andb].
  case_if; [| lia]. by apply metres_bound.
Qed.
Lemma climb_code_bound r : float_ok (hump_height_m r) -> 0 <= climb_code r <= 500.
Proof.
  intros Ok. unfold climb_code. destruct (packed_active r) eqn:A; [| lia]. unfold packed_active in A.
  repeat (apply andb_true_iff in A as [A ?]). apply metres_bound; [done | done | by apply fle_not_flt | by apply fle_not_flt].
Qed.
(** ** Reading a packet back *)
Lemma signed_u32 k w : 1 <= w <= 32 -> - 2 ^ (w - 1) <= k < 2 ^ (w - 1) -> signed_value (wrap w (u32 k)) w = k.
Proof.
  intros Hw Hk. assert (Ew : wrap w (u32 k) = k mod 2 ^ w).
  { unfold u32, wrap. apply Z.mod_mod_divide.
    exists (2 ^ (32 - w)). rewrite <- Z.pow_add_r by lia. f_equal. lia. }
  rewrite Ew. assert (Ep : 2 ^ w = 2 * 2 ^ (w - 1)) by (rewrite <- Z.pow_succ_r by lia; f_equal; lia).
  assert (P : 0 < 2 ^ (w - 1)) by (apply Z.pow_pos_nonneg; lia). unfold signed_value.
  rewrite <- (Z.shiftl_1_l (w - 1)), land_shiftl_testbit by lia. rewrite Z.testbit_eqb by lia. destruct (Z.le_gt_cases 0 k).
  - rewrite (Z.mod_small k (2 ^ w)) by lia. rewrite Z.div_small by lia. done.
  - assert (E : k mod 2 ^ w = k + 2 ^ w) by (symmetry; apply (Z.mod_unique _ _ (-1)); lia). rewrite E.
    assert (D : (k + 2 ^ w) / 2 ^ (w - 1) = 1) by (symmetry; apply (Z.div_unique_pos _ _ _ (k + 2 ^ (w - 1))); lia).
    rewrite D. change (1 mod 2 =? 1) with true. cbv iota. lia.
Qed.
Lemma reads_wrapped {A} w v fs (k : Z -> reader A) y : reads (k (wrap (Z.of_nat w) v)) fs y -> reads (x ← get w; k x) ((v, w) :: fs) y.
Proof.
  intros Hk b p [E He]. unfold mbind, reader_bind, get. rewrite E, (Hk _ _ He), total_width_cons. by rewrite Z.add_assoc.
Qed.
Lemma state_of_code st : state_of (state_code st) = st.
Proof. by destruct st. Qed.
Lemma terrain_unpack_pack r : result_typed r -> terrain_unpack (terrain_pack r) = carried r.
Proof.
  intros [T1 T2 T3 T4 T5 T6 T7]. unfold terrain_unpack, terrain_pack. rewrite (reads_run _ _ (carried r)); [done | | check_widths | by vm_compute].
  pose proof (tilt_code_bound r _ T3 (fun H => proj1 (tilt_good r H))) as P. pose proof (tilt_code_bound r _ T4 (fun H => proj2 (tilt_good r H))) as R.
  pose proof (rate_code_bound r T5). pose proof (height_code_bound r T6). pose proof (climb_code_bound r T7).
  assert (F : in_u 5 (packed_flags r)) by (by repeat apply drop_range).
  unfold read_terrain_result, terrain_fields.
  do 7 (apply reads_wrapped; cbv beta). do 3 apply reads_flag. apply reads_wrapped. cbv beta.
  change (Z.of_nat 11) with 11. change (Z.of_nat 10) with 10. rewrite !signed_u32 by lia.
  rewrite (wrap_id (Z.of_nat 32)), (wrap_id (Z.of_nat 5)) by done.
  rewrite (wrap_id (Z.of_nat 3)) by (unfold in_u; by destruct (state r)). rewrite state_of_code.
  unfold u32. rewrite !(wrap_id 32), !(wrap_id (Z.of_nat 9)) by (unfold in_u; lia).
  apply reads_ret.
Qed.
(** ** Packing what was read *)
Definition tilt_back (k : Z) : bool := let x := (float_of_Z k / flit 10 1)%f32 in
  (lroundf (x * flit 10 1)%f32 =? k) && isfinite x && negb (fabs_ x >. flit 90 1).
Definition height_back (k : Z) : bool := let x := (float_of_Z k / flit 1000 1)%f32 in
  (lroundf (x * flit 1000 1)%f32 =? k) && isfinite x && (x >=. fzero) && (x <=. flit 5 10).
Definition rate_back (k : Z) : bool := let x := float_of_Z k in
  (lroundf x =? k) && isfinite x && negb (fabs_ x >. flit 360 1).
Lemma tilt_backs k : -900 <= k <= 900 -> tilt_back k = true.
Proof. intros H. apply (forall_range tilt_back (-900) 1801); [by vm_compute | lia]. Qed.
Lemma rate_backs k : -360 <= k <= 360 -> rate_back k = true.
Proof. intros H. apply (forall_range rate_back (-360) 721); [by vm_compute | lia]. Qed.
Lemma height_backs k : 0 <= k <= 500 -> height_back k = true.
Proof. intros H. apply (forall_range height_back 0 501); [by vm_compute | lia]. Qed.
Section Carried.
Context (r : terrain_result_t) (T : result_typed r).
Let P : -900 <= tilt_code r (pitch_deg r) <= 900 := tilt_code_bound r _ (ty_pitch r T) (fun H => proj1 (tilt_good r H)).
Let R : -900 <= tilt_code r (roll_deg r) <= 900 := tilt_code_bound r _ (ty_roll r T) (fun H => proj2 (tilt_good r H)).
Lemma carried_good : tilt_bad (carried r) = false /\ turn_bad (carried r) = false /\ peak_bad (carried r) = false.
Proof.
  pose proof (tilt_backs _ P) as B1. pose proof (tilt_backs _ R) as B2. pose proof (rate_backs _ (rate_code_bound r (ty_turn r T))) as B3.
  pose proof (height_backs _ (height_code_bound r (ty_peak r T))) as B4. unfold tilt_back, rate_back, height_back in *. cbv zeta in *.
  repeat match goal with H : _ && _ = true |- _ => apply andb_true_iff in H as [H ?] end.
  unfold tilt_bad, turn_bad, peak_bad. cbn [carried pitch_deg roll_deg turn_dps peak_m].
  repeat match goal with H : negb _ = true |- _ => apply negb_true_iff in H; rewrite H | H : isfinite _ = true |- _ => rewrite H | H : (_ <=. _) = true |- _ => rewrite (fle_not_flt _ _ H); clear H end.
  done.
Qed.
Lemma carried_flags : packed_flags (carried r) = packed_flags r.
Proof. destruct carried_good as (G1 & G2 & G3). unfold packed_flags at 1. by rewrite G1, G2, G3. Qed.
Lemma carried_active : packed_active (carried r) = packed_active r.
Proof.
  pose proof (height_backs _ (climb_code_bound r (ty_height r T))) as B. unfold height_back in B. cbv zeta in B.
  repeat (apply andb_true_iff in B as [B ?]). unfold packed_active at 1. cbn [carried active hump_height_m]. rewrite H, H0, H1. by rewrite !andb_true_r.
Qed.
Lemma carried_fields : terrain_fields (carried r) = terrain_fields r.
Proof.
  pose proof (tilt_backs _ P) as B1. pose proof (tilt_backs _ R) as B2. pose proof (rate_backs _ (rate_code_bound r (ty_turn r T))) as B3.
  pose proof (height_backs _ (height_code_bound r (ty_peak r T))) as B4. pose proof (height_backs _ (climb_code_bound r (ty_height r T))) as B5.
  unfold tilt_back, rate_back, height_back in *. cbv zeta in *.
  repeat match goal with H : _ && _ = true |- _ => apply andb_true_iff in H as [H _] end. apply Z.eqb_eq in B1, B2, B3, B4, B5.
  assert (E1 : tilt_code (carried r) (pitch_deg (carried r)) = tilt_code r (pitch_deg r)).
  { unfold tilt_code at 1. rewrite carried_flags. cbn [carried pitch_deg]. rewrite B1. unfold tilt_code. by case_if. }
  assert (E2 : tilt_code (carried r) (roll_deg (carried r)) = tilt_code r (roll_deg r)).
  { unfold tilt_code at 1. rewrite carried_flags. cbn [carried roll_deg]. rewrite B2. unfold tilt_code. by case_if. }
  assert (E3 : rate_code (carried r) = rate_code r).
  { unfold rate_code at 1. rewrite carried_flags. cbn [carried turn_dps]. rewrite B3. unfold rate_code. by case_if. }
  assert (E4 : height_code (carried r) = height_code r).
  { unfold height_code at 1. rewrite carried_flags. cbn [carried peak_m]. rewrite B4. unfold height_code. by case_if. }
  assert (E5 : climb_code (carried r) = climb_code r).
  { unfold climb_code at 1. rewrite carried_active. cbn [carried hump_height_m]. rewrite B5. unfold climb_code. by case_if. }
  unfold terrain_fields. rewrite E1, E2, E3, E4, E5, carried_flags, carried_active. done.
Qed.
End Carried.
Lemma terrain_repack r : result_typed r -> terrain_pack (terrain_unpack (terrain_pack r)) = terrain_pack r.
Proof. intros T. rewrite terrain_unpack_pack by done. unfold terrain_pack. by rewrite carried_fields. Qed.

(** ** The guarantees *)

(** C35: terrain results are sound.  Whatever samples came before, the result of a
    sample carries its timestamp; it is marked FAULT exactly when the sample was
    invalid or, while samples are followed, came with the time of the last one or
    more than 100 ms after it, and CALIBRATED exactly
    when it was not and the level calibration is finished; without that mark it
    claims no tilt, no turn rate, no state, no impact and no hump; the state is
    IMPACT exactly when the impact flag is set; a valid turn rate is at most 360
    degrees per second; a valid peak is the height of a complete hump of this run,
    and a hump is reported complete only at the end of such a crossing. *)
Theorem terrain_result_sound m t h s odo : terrain_reachable m t h ->
  let r := result (terrain_monitor_process m t s odo) in let l := rides (observe m t s odo :: h) in
  timestamp_us r = imu_timestamp_us s /\ in_u 5 (flags r) /\ has TERRAIN_FAULT r = broken t s /\
  has TERRAIN_CALIBRATED r = negb (broken t s) && cal_ready (calibration t) /\
  (has TERRAIN_CALIBRATED r = false -> has TERRAIN_TILT_VALID r = false /\ has TERRAIN_TURN_VALID r = false /\
     state r = TERRAIN_UNKNOWN /\ impact r = false /\ completed r = false /\ active r = false) /\
  (state r = TERRAIN_IMPACT <-> impact r = true) /\
  (has TERRAIN_TURN_VALID r = true -> (fabs_ (turn_dps r) <=. flit 360 1) = true) /\
  (has TERRAIN_PEAK_VALID r = true -> exists pre w post, l = pre ++ w ++ post /\ complete_crossing m w /\ peak_m r = (profile m w).2) /\
  (completed r = true -> has TERRAIN_PEAK_VALID r = true /\ exists pre w, l = pre ++ w /\ complete_crossing m w).
Proof.
  intros R r l. pose proof (terrain_reachable_inv m t h R) as I.
  pose proof (terrain_reachable_inv m _ _ (terrain_sample m t h s odo R)) as I'.
  assert (S : sound t s (hump (terrain_monitor_process m t s odo)) r).
  { unfold r, terrain_monitor_process. destruct (broken t s) eqn:B; [by apply fault_sound |].
    destruct (cal_ready (calibration t)) eqn:C; cbn [negb]; [by apply sample_sound |]. exact (calibration_sound t s B C). }
  destruct (hump_all_inv m l) as [_ H2 H3]. rewrite (ti_hump _ _ _ I') in S. fold l in S. destruct S as [S1 S2 S3 S4 S5 S6 S7 S8 S9 S10].
  splits; try done; [by apply S7, (ti_turn _ _ _ I) | |].
  - intros V. destruct (H2 ltac:(by rewrite <- S8)) as (pre & w & post & E & W & Hm). exists pre, w, post. splits; [done | done |]. by rewrite S9.
  - intros K. destruct (has TERRAIN_CALIBRATED r) eqn:Ec; [| by destruct (S5 eq_refl) as (_ & _ & _ & _ & F & _); rewrite F in K].
    destruct (S10 eq_refl) as [S11 _]. rewrite S11 in K. destruct (H3 K) as (pre & w & E & W & V & _). split; [by rewrite S8 |]. by exists pre, w.
Qed.

(** Motion states are debounced.  The state a monitor reports is UNKNOWN,
    IMPACT, or the class of three consecutive samples of the current run since
    when every sample could be classified. *)
Theorem terrain_state_debounced m t h : terrain_reachable m t h -> state (result t) <> TERRAIN_UNKNOWN ->
  state (result t) <> TERRAIN_IMPACT -> debounced (state (result t)) (classes h).
Proof. intros R. apply (ti_state _ _ _ (terrain_reachable_inv m t h R)). Qed.

(** Terrain packets round trip.  Every result fits its twelve bytes: reading
    the packet gives the timestamp, state, flags and booleans back, the tilt in
    tenths of a degree within +-90, the turn rate in whole degrees per second
    within +-360 and heights in millimetres within 500; a value out of range loses
    its validity flag; and packing what was read gives the same bytes. *)
Theorem terrain_packet_roundtrip r : result_typed r ->
  length (terrain_pack r) = TERRAIN_PACKET_SIZE /\ terrain_unpack (terrain_pack r) = carried r /\
  terrain_pack (terrain_unpack (terrain_pack r)) = terrain_pack r /\
  -900 <= tilt_code r (pitch_deg r) <= 900 /\ -900 <= tilt_code r (roll_deg r) <= 900 /\ -360 <= rate_code r <= 360 /\
  0 <= height_code r <= 500 /\ 0 <= climb_code r <= 500 /\
  is_set (packed_flags r) TERRAIN_TILT_VALID = negb (tilt_bad r) && is_set (flags r) TERRAIN_TILT_VALID /\
  is_set (packed_flags r) TERRAIN_TURN_VALID = negb (turn_bad r) && is_set (flags r) TERRAIN_TURN_VALID /\
  is_set (packed_flags r) TERRAIN_PEAK_VALID = negb (peak_bad r) && is_set (flags r) TERRAIN_PEAK_VALID.
Proof.
  intros T. split; [by apply length_pack |]. split; [by apply terrain_unpack_pack |]. split; [by apply terrain_repack |].
  split; [apply tilt_code_bound; [apply T | apply tilt_good] |]. split; [apply tilt_code_bound; [apply T | apply tilt_good] |].
  split; [apply rate_code_bound, T |]. split; [apply height_code_bound, T |]. split; [apply climb_code_bound, T |].
  splits; [apply tilt_flag | apply turn_flag | apply peak_flag].
Qed.

(** A still, level car: a hundred readings calibrate it, three more settle its state. *)
Definition bench_libm : libm := {| sinf := fun _ => fzero; atan2f := fun _ _ => fzero |}.
Definition bench_reading (k : Z) : imu_sample_t :=
  zero_imu_sample <| accel_g := {| ax0 := fzero; ax1 := fzero; ax2 := flit 1 1 |} |> <| imu_timestamp_us := 20000 * k |> <| imu_valid := true |>.
Definition bench_still : terrain_odometry_t := {| distance_m := fzero; odo_epoch := 1; odo_valid := true; stationary := true |}.
Fixpoint bench_run (n : nat) : terrain_monitor_t * list observed :=
  match n with
  | O => (terrain_monitor_init, [])
  | S n => let '(t, h) := bench_run n in let s := bench_reading (Z.of_nat n) in
           (terrain_monitor_process bench_libm t s bench_still, observe bench_libm t s bench_still :: h)
  end.
Lemma bench_reachable n : terrain_reachable bench_libm (bench_run n).1 (bench_run n).2.
Proof. induction n as [| n IH]; [constructor |]. cbn [bench_run]. destruct (bench_run n) as [t h]. by apply terrain_sample. Qed.
Lemma terrain_result_sound_witness :
  let t := (bench_run 3).1 in let r := result (terrain_monitor_process bench_libm t (bench_reading 9) bench_still) in
  has TERRAIN_FAULT r = true /\ has TERRAIN_CALIBRATED r = false.
Proof.
  cbv zeta. pose proof (terrain_result_sound bench_libm _ _ (bench_reading 9) bench_still (bench_reachable 3)) as (_ & _ & F & C & _).
  split; [rewrite F | rewrite C]; vm_compute; reflexivity.
Defined.
Lemma terrain_state_debounced_witness : state (result (bench_run 104).1) = TERRAIN_STATIONARY /\
  debounced TERRAIN_STATIONARY (classes (bench_run 104).2).
Proof.
  assert (E : state (result (bench_run 104).1) = TERRAIN_STATIONARY) by (by vm_compute).
  pose proof (terrain_state_debounced bench_libm _ _ (bench_reachable 104)) as D. rewrite E in D. split; [exact E |]. by apply D.
Defined.
Definition bench_terrain : terrain_result_t :=
  {| timestamp_us := 123456; pitch_deg := flit 25 2; roll_deg := -. flit 7 3; turn_dps := flit 400 1; peak_m := flit 4 100;
     hump_height_m := flit 3 100; state := TERRAIN_CLIMBING; flags := 15; impact := false; completed := false; active := true |}.
Lemma terrain_packet_roundtrip_witness : tilt_code bench_terrain (pitch_deg bench_terrain) = 125 /\ packed_flags bench_terrain = 13 /\
  terrain_pack (terrain_unpack (terrain_pack bench_terrain)) = terrain_pack bench_terrain.
Proof.
  destruct (terrain_packet_roundtrip bench_terrain) as (_ & _ & H & _); [split; vm_compute; done |]. splits; [by vm_compute | by vm_compute | exact H].
Defined.
