(* ===== verification/TerrainService.v ===== *)
(** * Terrain task and its shared state

    Models [subsystem4/subsystem4.c] in the build with subsystem 4 and without the
    bench option: the task that reads the sensor, runs the monitor and publishes
    packets, and the operations other tasks call.  Each operation takes the mutex
    once, so it is one atomic step; [lk] is whether that lock succeeds.  The task's
    loop is three steps - its head, where it takes up a requested reset; its work,
    which touches only its own variables; and the publication - and the other tasks'
    steps come in between in any order.  Clock readings, bus replies and the motion
    feedback are inputs of the work step. *)
From S2P Require Import Prelude CFloat BitCodec Motion MotionController Drive Imu Terrain.

#[local] Arguments terrain_pack _ : simpl never.
#[local] Arguments terrain_unpack _ : simpl never.
#[local] Arguments terrain_monitor_process _ _ _ _ : simpl never.

Definition S4_QUEUE_LEN : Z := 8.
Definition UINT16_MAX : Z := 65535.

(** ** The event ring *)
Record ring := { g_events : list bytes; g_head : Z; g_count : Z; g_lost : bool }.
#[export] Instance ring_settable : Settable ring := fun r => Build_ring (g_events r) (g_head r) (g_count r) (g_lost r).
Definition ring_boot : ring := {| g_events := replicate 8 (zeros TERRAIN_PACKET_SIZE); g_head := 0; g_count := 0; g_lost := false |}.
(** The oldest entry is forgotten; a packet is written behind the newest. *)
Definition ring_drop (q : ring) (lost : bool) : ring :=
  q <| g_head := (g_head q + 1) mod S4_QUEUE_LEN |> <| g_count := g_count q - 1 |> <| g_lost := lost |>.
Definition ring_add (q : ring) (p : bytes) : ring :=
  q <| g_events := setZ (g_events q) ((g_head q + g_count q) mod S4_QUEUE_LEN) p |> <| g_count := g_count q + 1 |>.
Definition ring_push (q : ring) (p : bytes) : ring := ring_add (if g_count q =? S4_QUEUE_LEN then ring_drop q true else q) p.
Definition ring_pop (q : ring) : option (bytes * bool) * ring :=
  if g_count q =? 0 then (None, q) else (Some (nthZ [] (g_events q) (g_head q), g_lost q), ring_drop q false).
Definition ring_clear (q : ring) : ring := q <| g_head := 0 |> <| g_count := 0 |> <| g_lost := false |>.

(** ** Shared state *)
Record shared := {
  g_snapshot : bytes; g_ring : ring; g_run : Z; g_published_run : Z; g_humps : Z; g_published : bool; g_reset : bool;
  g_recalibrate : bool; g_mag_pending : bool; g_offset : vec3; g_scale : vec3
}.
#[export] Instance shared_settable : Settable shared := fun r =>
  Build_shared (g_snapshot r) (g_ring r) (g_run r) (g_published_run r) (g_humps r) (g_published r) (g_reset r) (g_recalibrate r)
    (g_mag_pending r) (g_offset r) (g_scale r).
Definition shared_boot : shared :=
  {| g_snapshot := zeros TERRAIN_PACKET_SIZE; g_ring := ring_boot; g_run := 0; g_published_run := 0; g_humps := 0; g_published := false;
     g_reset := false; g_recalibrate := false; g_mag_pending := false; g_offset := vzero; g_scale := vzero |}.

(** ** Other tasks *)
(** [(uint32_t)(now_us()-out->timestamp_us)>150000U]: an old result keeps only its
    peak and calibration flags. *)
Definition stale_result (now : Z) (r : terrain_result_t) : terrain_result_t :=
  if 150000 <? elapsed now (timestamp_us r)
  then r <| flags := Z.lor (Z.land (flags r) (Z.lor TERRAIN_PEAK_VALID TERRAIN_CALIBRATED)) TERRAIN_FAULT |>
         <| state := TERRAIN_UNKNOWN |> <| impact := false |> <| completed := false |>
  else r.
Definition subsystem4_read (lk : bool) (now : Z) (s : shared) : option (terrain_result_t * Z * Z) :=
  if negb lk then None
  else if negb (g_published s) || g_reset s || negb (g_published_run s =? g_run s) then None
  else Some (stale_result now (terrain_unpack (g_snapshot s)), g_published_run s, g_humps s).
Definition subsystem4_snapshot (lk : bool) (now : Z) (s : shared) : option terrain_result_t :=
  match subsystem4_read lk now s with Some (out, _, _) => Some out | None => None end.
Definition subsystem4_event (lk : bool) (s : shared) : option (terrain_result_t * bool) * shared :=
  if negb lk then (None, s)
  else let '(e, q) := ring_pop (g_ring s) in
       (match e with Some (p, lost) => Some (terrain_unpack p, lost) | None => None end, s <| g_ring := q |>).
(** The token of the new run. *)
Definition request_reset (lk : bool) (recalibrate : bool) (s : shared) : option Z * shared :=
  if negb lk then (None, s)
  else if g_reset s then (None, s)
  else let run := u16 (g_run s + 1) in
       (Some run, s <| g_run := run |> <| g_reset := true |> <| g_recalibrate := recalibrate |> <| g_published := false |>
                    <| g_ring := ring_clear (g_ring s) |>).
Definition subsystem4_reset_run (lk recalibrate : bool) (s : shared) : bool * shared :=
  let '(token, s) := request_reset lk recalibrate s in (match token with Some _ => true | None => false end, s).
Definition subsystem4_begin_run (lk : bool) (s : shared) : option Z * shared := request_reset lk false s.
Definition subsystem4_set_magnetic_calibration (lk : bool) (offset scale : vec3) (s : shared) : bool * shared :=
  if negb (terrain_monitor_set_magnetic_calibration terrain_monitor_init offset scale).1 || negb lk then (false, s)
  else (true, s <| g_offset := offset |> <| g_scale := scale |> <| g_mag_pending := true |>).

(** ** The task *)
(** [report r]: the state, flags or an event of [r] is news after the packet [previous]. *)
Definition newsworthy (previous : bytes) (r : terrain_result_t) : bool :=
  let p := terrain_unpack previous in
  negb (bool_decide (state r = state p)) || negb (flags r =? flags p) || completed r || impact r.
Definition publish (lk : bool) (r : terrain_result_t) (s : shared) : shared :=
  if negb lk then s
  else if g_reset s then s
  else
    let s := if newsworthy (g_snapshot s) r then s <| g_ring := ring_push (g_ring s) (terrain_pack r) |> else s in
    let s := if completed r && has TERRAIN_PEAK_VALID r && (g_humps s <? UINT16_MAX) then s <| g_humps := g_humps s + 1 |> else s in
    s <| g_snapshot := terrain_pack r |> <| g_published_run := g_run s |> <| g_published := true |>.
Record s4_task := { monitor : terrain_monitor_t; last_good : Z; retry_at : Z; connected : bool; bus_log : list bus_call }.
#[export] Instance s4_task_settable : Settable s4_task := fun r =>
  Build_s4_task (monitor r) (last_good r) (retry_at r) (connected r) (bus_log r).
Definition task_boot : s4_task :=
  {| monitor := terrain_monitor_init; last_good := 0; retry_at := 0; connected := false; bus_log := [] |}.
(** The head of the loop. *)
Definition task_head (lk : bool) (s : shared) (k : s4_task) : shared * s4_task :=
  if negb lk then (s, k)
  else
    let '(s, k) :=
      if g_reset s then
        let mon := terrain_monitor_reset_run (monitor k) in
        let mon := if g_recalibrate s then mon <| calibration := imu_calibration_reset |> else mon in
        (s <| g_reset := false |> <| g_recalibrate := false |> <| g_ring := ring_clear (g_ring s) |> <| g_humps := 0 |>,
         k <| monitor := mon |>)
      else (s, k) in
    if g_mag_pending s
    then (s <| g_mag_pending := false |>,
          k <| monitor := (terrain_monitor_set_magnetic_calibration (monitor k) (g_offset s) (g_scale s)).2 |>)
    else (s, k).
Section Work.
Context (m : libm) (bus : imu_bus).
(** The inputs of one round: [now_us()] at the head, after the sensor was set up,
    at the read, at the check of the last good sample and at its replacement; the
    motion feedback and whether the motors are calibrated. *)
Record round := {
  now : Z; now_ready : Z; now_read : Z; now_check : Z; now_lost : Z; feedback : option motion_feedback_t; motors_calibrated : bool
}.
Definition zero_odometry : terrain_odometry_t := {| distance_m := fzero; odo_epoch := 0; odo_valid := false; stationary := false |}.
Definition round_odometry (i : round) : terrain_odometry_t :=
  match feedback i with
  | Some f =>
      if fb_valid f && motors_calibrated i && bool_decide (fb_fault f = MOTION_FAULT_NONE) &&
         (elapsed (now i) (fb_timestamp_us f) <=? 50000)
      then {| distance_m := fb_centre_m f; odo_epoch := fb_epoch f; odo_valid := true; stationary := fb_braked f |}
      else zero_odometry
  | None => zero_odometry
  end.
Definition process (k : s4_task) (s : imu_sample_t) (odo : terrain_odometry_t) : s4_task :=
  k <| monitor := terrain_monitor_process m (monitor k) s odo |>.
(** Connecting; [true]: a result is to be published. *)
Definition task_connect (i : round) (k : s4_task) : bool * s4_task :=
  if negb (connected k) && ((retry_at k =? 0) || (1000000 <=? elapsed (now i) (retry_at k))) then
    let '(ok, log) := imu_sensor_init bus (bus_log k) in
    let k := k <| retry_at := now i |> <| connected := ok |> <| bus_log := log |> in
    if ok then (false, k <| last_good := now_ready i |>)
    else (true, process k (zero_imu_sample <| imu_timestamp_us := now i |>) zero_odometry)
  else (false, k).
Definition task_read (i : round) (k : s4_task) : bool * s4_task :=
  let odo := round_odometry i in
  let '(ok, sample, log) := imu_sensor_read bus (now_read i) (bus_log k) in
  let k := k <| bus_log := log |> in
  if ok then (true, process (k <| last_good := imu_timestamp_us sample |>) sample odo)
  else if 100000 <? elapsed (now_check i) (last_good k)
  then (true, process k (sample <| imu_valid := false |> <| imu_timestamp_us := now_lost i |>) odo <| connected := false |>)
  else (false, k).
(** The work of one round; [true]: [monitor.result] is published next.  A failed
    set-up leaves the sensor unconnected, so at most one result is published. *)
Definition task_work (i : round) (k : s4_task) : bool * s4_task :=
  let '(out, k) := task_connect i k in
  if connected k then task_read i k else (out, k).
End Work.

(** ** The ring is a bounded queue *)
Inductive ring_op := RPush (p : bytes) | RPop | RClear.
Definition ring_step (q : ring) (op : ring_op) : option (bytes * bool) * ring :=
  match op with RPush p => (None, ring_push q p) | RPop => ring_pop q | RClear => (None, ring_clear q) end.
(** The reference: a list, oldest first, that drops its oldest entry when a ninth
    arrives and says so at the next entry taken. *)
Definition queue : Type := list bytes * bool.
Definition queue_push (q : queue) (p : bytes) : queue :=
  if (length q.1 =? 8)%nat then (tail q.1 ++ [p], true) else (q.1 ++ [p], q.2).
Definition queue_step (q : queue) (op : ring_op) : option (bytes * bool) * queue :=
  match op with
  | RPush p => (None, queue_push q p)
  | RPop => match q.1 with [] => (None, q) | p :: rest => (Some (p, q.2), (rest, false)) end
  | RClear => (None, ([], false))
  end.
Fixpoint run_ops {S : Type} (step : S -> ring_op -> option (bytes * bool) * S) (q : S) (ops : list ring_op) :
  list (option (bytes * bool)) * S :=
  match ops with
  | [] => ([], q)
  | op :: ops => let '(o, q) := step q op in let '(os, q) := run_ops step q ops in (o :: os, q)
  end.
Definition contents (q : ring) : list bytes :=
  map (fun i => nthZ [] (g_events q) ((g_head q + i) mod S4_QUEUE_LEN)) (range (Z.to_nat (g_count q))).
Record ring_ok (q : ring) : Prop := {
  rk_size : length (g_events q) = 8%nat; rk_head : 0 <= g_head q < 8; rk_count : 0 <= g_count q <= 8
}.
Definition represents (q : ring) (a : queue) : Prop := ring_ok q /\ contents q = a.1 /\ g_lost q = a.2.
Lemma contents_length q : length (contents q) = Z.to_nat (g_count q).
Proof. unfold contents. by rewrite length_map, length_range. Qed.
Lemma range_cons n : range (S n) = 0 :: map (fun i => i + 1) (range n).
Proof. unfold range. cbn [seq map]. f_equal. rewrite <- seq_shift, !map_map. apply map_ext. intros. lia. Qed.
Lemma drop_ok q l : ring_ok q -> g_count q <> 0 -> ring_ok (ring_drop q l).
Proof.
  intros [K1 K2 K3] N. split; [done | apply Z.mod_pos_bound; done |].
  change (g_count (ring_drop q l)) with (g_count q - 1). lia.
Qed.
Lemma contents_drop q l : ring_ok q -> g_count q <> 0 ->
  contents q = nthZ [] (g_events q) (g_head q) :: contents (ring_drop q l).
Proof.
  intros [K1 K2 K3] N. unfold contents. change (g_count (ring_drop q l)) with (g_count q - 1).
  change (g_events (ring_drop q l)) with (g_events q). change (g_head (ring_drop q l)) with ((g_head q + 1) mod S4_QUEUE_LEN).
  replace (Z.to_nat (g_count q)) with (S (Z.to_nat (g_count q - 1))) by lia. rewrite range_cons. cbn [map]. f_equal.
  - f_equal. rewrite Z.add_0_r. by apply Z.mod_small.
  - rewrite map_map. apply map_ext. intros i. f_equal. rewrite Z.add_mod_idemp_l by done. f_equal. lia.
Qed.
Lemma add_ok q p : ring_ok q -> g_count q < 8 -> ring_ok (ring_add q p).
Proof.
  intros [K1 K2 K3] N. split; [| done |]; unfold ring_add.
  - cbn. by rewrite length_setZ.
  - change (g_count _) with (g_count q + 1). lia.
Qed.
Lemma contents_add q p : ring_ok q -> g_count q < 8 -> contents (ring_add q p) = contents q ++ [p].
Proof.
  intros [K1 K2 K3] N. unfold contents. change (g_count (ring_add q p)) with (g_count q + 1).
  change (g_events (ring_add q p)) with (setZ (g_events q) ((g_head q + g_count q) mod S4_QUEUE_LEN) p).
  change (g_head (ring_add q p)) with (g_head q).
  replace (Z.to_nat (g_count q + 1)) with (S (Z.to_nat (g_count q))) by lia. rewrite range_S, map_app. cbn [map].
  unfold S4_QUEUE_LEN. assert (M : forall x, 0 <= x mod 8 < 8) by (intros; apply Z.mod_pos_bound; done).
  assert (NS : forall x j, 0 <= j < 8 -> nthZ [] (setZ (g_events q) (x mod 8) p) j = if x mod 8 =? j then p else nthZ [] (g_events q) j).
  { intros x j Hj. pose proof (M x). apply (nthZ_setZ (A := bytes)); [rewrite K1; done | lia]. }
  f_equal.
  - apply map_ext_in. intros i Hi. apply elem_range in Hi. rewrite NS by apply M.
    case_if; [| done]. unbool. exfalso. Z.div_mod_to_equations. lia.
  - rewrite Z2Nat.id by lia. rewrite NS by apply M. by rewrite Z.eqb_refl.
Qed.
Lemma ring_step_represents q a op : represents q a ->
  let '(o, q') := ring_step q op in let '(o', a') := queue_step a op in o = o' /\ represents q' a'.
Proof.
  intros (K & C & L). pose proof K as [K1 K2 K3]. pose proof (contents_length q) as Len. rewrite C in Len.
  destruct op as [p | |]; cbn [ring_step queue_step].
  - split; [done |]. unfold ring_push, queue_push, represents. rewrite Len. destruct (Z.eqb_spec (g_count q) S4_QUEUE_LEN) as [E | E].
    + rewrite E. cbn [Nat.eqb Z.to_nat S4_QUEUE_LEN Pos.to_nat]. assert (N : g_count q <> 0) by (rewrite E; done).
      assert (B : g_count (ring_drop q true) < 8) by (change (g_count q - 1 < 8); rewrite E; done).
      pose proof (drop_ok q true K N) as K'. splits; [by apply add_ok | | done]. rewrite contents_add by done. cbn [fst].
      f_equal. by rewrite <- C, (contents_drop q true).
    + unfold S4_QUEUE_LEN in E. destruct (Nat.eqb_spec (Z.to_nat (g_count q)) 8); [lia |].
      splits; [apply add_ok; [done | lia] | | done]. rewrite contents_add by (done || lia). cbn [fst]. by rewrite C.
  - unfold ring_pop. destruct (Z.eqb_spec (g_count q) 0) as [E | E].
    + destruct a as [[| x l] b]; [done |]. cbn in Len. rewrite E in Len. done.
    + pose proof (contents_drop q false K E) as D. rewrite C in D. destruct a as [[| x l] b]; [done |]. cbn [fst snd] in *.
      injection D as -> D. subst b. split; [done |]. unfold represents. splits; [by apply drop_ok | done | done].
  - split; [done |]. unfold represents. splits; [by split | done | done].
Qed.
Lemma ring_runs_represent ops : forall q a, represents q a ->
  let '(o, q') := run_ops ring_step q ops in let '(o', a') := run_ops queue_step a ops in o = o' /\ represents q' a'.
Proof.
  induction ops as [| op ops IH]; intros q a R; [done |]. cbn [run_ops]. pose proof (ring_step_represents q a op R) as S.
  destruct (ring_step q op) as [o q'], (queue_step a op) as [o' a']. destruct S as [-> R']. specialize (IH q' a' R').
  destruct (run_ops ring_step q' ops) as [os q2], (run_ops queue_step a' ops) as [os' a2]. destruct IH as [-> R2]. done.
Qed.
Lemma ring_boot_represents : represents ring_boot ([], false).
Proof. unfold represents. splits; [by split | done | done]. Qed.

(** The event ring is a bounded queue.  Over any sequence of events added,
    events taken and resets, the eight-slot ring with its head, count and loss flag
    gives out the same packets with the same loss marks as a list that drops its
    oldest entry when a ninth arrives, and holds the same packets in between. *)
Theorem event_ring_is_queue ops : let '(o, q) := run_ops ring_step ring_boot ops in
  let '(o', a) := run_ops queue_step ([], false) ops in
  o = o' /\ contents q = a.1 /\ g_lost q = a.2 /\ (length a.1 <= 8)%nat.
Proof.
  pose proof (ring_runs_represent ops _ _ ring_boot_represents) as R.
  destruct (run_ops ring_step ring_boot ops) as [o q], (run_ops queue_step ([], false) ops) as [o' a].
  destruct R as (-> & [_ _ K] & <- & ->). splits; [done | done | done |]. rewrite contents_length. lia.
Qed.

(** ** All tasks interleaved *)
Inductive phase := AtHead | AtWork | AtPublish.
(** The shared state, the task and where it is; for the statements, the results the
    task computed and those it published since it took up the last reset, newest
    first, and the events waiting in the ring, oldest first. *)
Record s4_state := {
  sh : shared; tk : s4_task; ph : phase; computed : list terrain_result_t; published : list terrain_result_t;
  waiting : list terrain_result_t
}.
#[export] Instance s4_state_settable : Settable s4_state := fun r =>
  Build_s4_state (sh r) (tk r) (ph r) (computed r) (published r) (waiting r).
Definition s4_boot : s4_state :=
  {| sh := shared_boot; tk := task_boot; ph := AtHead; computed := []; published := []; waiting := [] |}.
Inductive s4_op :=
| SHead (lk : bool) | SWork (bus : imu_bus) (i : round) | SPublish (lk : bool)
| SEvent (lk : bool) | SReset (lk recalibrate : bool) | SMag (lk : bool) (offset scale : vec3).
Definition s4_enabled (s : s4_state) (op : s4_op) : Prop :=
  match op with SHead _ => ph s = AtHead | SWork _ _ => ph s = AtWork | SPublish _ => ph s = AtPublish | _ => True end.
Definition wait_for (w : list terrain_result_t) (r : terrain_result_t) : list terrain_result_t :=
  (if (length w =? 8)%nat then tail w else w) ++ [r].
Section Service.
Context (m : libm).
Definition s4_run (s : s4_state) (op : s4_op) : s4_state :=
  match op with
  | SHead lk =>
      let '(c, k) := task_head lk (sh s) (tk s) in
      let s' := if lk && g_reset (sh s) then s <| computed := [] |> <| published := [] |> <| waiting := [] |> else s in
      s' <| sh := c |> <| tk := k |> <| ph := AtWork |>
  | SWork bus i =>
      let '(out, k) := task_work m bus i (tk s) in
      let s := s <| tk := k |> in
      if out then s <| computed := result (monitor k) :: computed s |> <| ph := AtPublish |> else s <| ph := AtHead |>
  | SPublish lk =>
      let r := result (monitor (tk s)) in
      let s' := if lk && negb (g_reset (sh s))
                then s <| published := r :: published s |>
                       <| waiting := if newsworthy (g_snapshot (sh s)) r then wait_for (waiting s) r else waiting s |>
                else s in
      s' <| sh := publish lk r (sh s) |> <| ph := AtHead |>
  | SEvent lk => s <| sh := (subsystem4_event lk (sh s)).2 |> <| waiting := if lk then tail (waiting s) else waiting s |>
  | SReset lk recalibrate =>
      let '(token, c) := request_reset lk recalibrate (sh s) in
      s <| sh := c |> <| waiting := match token with Some _ => [] | None => waiting s end |>
  | SMag lk offset scale => s <| sh := (subsystem4_set_magnetic_calibration lk offset scale (sh s)).2 |>
  end.
Inductive s4_reachable : s4_state -> Prop :=
| s4_start : s4_reachable s4_boot
| s4_next s op : s4_reachable s -> s4_enabled s op -> s4_reachable (s4_run s op).

(** A result the monitor gave for a sample. *)
Definition genuine (r : terrain_result_t) : Prop :=
  exists t h s odo, terrain_reachable m t h /\ r = result (terrain_monitor_process m t s odo).
Definition hump_done (r : terrain_result_t) : bool := completed r && has TERRAIN_PEAK_VALID r.
Definition humps_of (l : list terrain_result_t) : Z := Z.of_nat (length (List.filter hump_done l)).
Record s4_inv (s : s4_state) : Prop := {
  si_monitor : exists h, terrain_reachable m (monitor (tk s)) h;
  si_genuine : Forall genuine (computed s);
  si_publish : ph s = AtPublish -> exists c, computed s = result (monitor (tk s)) :: c /\ published s `sublist_of` c;
  si_sub : published s `sublist_of` computed s;
  si_snapshot : g_published (sh s) = true -> g_reset (sh s) = false /\ g_published_run (sh s) = g_run (sh s) /\
    exists r rest, published s = r :: rest /\ g_snapshot (sh s) = terrain_pack r;
  si_humps : g_reset (sh s) = false -> g_humps (sh s) = Z.min UINT16_MAX (humps_of (published s));
  si_ring : exists lost, represents (g_ring (sh s)) (map terrain_pack (waiting s), lost)
}.
Lemma s4_boot_inv : s4_inv s4_boot.
Proof.
  split; try done; [exists []; exact (terrain_boot m) | exists false; apply ring_boot_represents].
Qed.
Lemma ring_step_after q a op : represents q a -> represents (ring_step q op).2 (queue_step a op).2.
Proof.
  intros R. pose proof (ring_step_represents q a op R) as S. destruct (ring_step q op), (queue_step a op). by destruct S.
Qed.
(** The head of the loop keeps the monitor on a run; a reset starts a new one. *)
Lemma head_facts lk c k h : terrain_reachable m (monitor k) h -> let '(c', k') := task_head lk c k in
  (exists h', terrain_reachable m (monitor k') h') /\ g_snapshot c' = g_snapshot c /\ g_run c' = g_run c /\
  g_published_run c' = g_published_run c /\ g_published c' = g_published c /\
  (if lk && g_reset c then g_reset c' = false /\ g_humps c' = 0 /\ g_ring c' = ring_clear (g_ring c)
   else g_reset c' = g_reset c /\ g_humps c' = g_humps c /\ g_ring c' = g_ring c).
Proof.
  intros R. unfold task_head. destruct lk; cbn [negb andb]; [| splits; eauto].
  assert (R1 : exists h1, terrain_reachable m (if g_recalibrate c then terrain_monitor_reset_run (monitor k) <| calibration := imu_calibration_reset |>
    else terrain_monitor_reset_run (monitor k)) h1).
  { case_if; exists []; [by eapply terrain_recalibrate | by eapply terrain_reset]. }
  destruct (g_reset c) eqn:E; cbn -[terrain_monitor_reset_run terrain_monitor_set_magnetic_calibration imu_calibration_reset].
  - destruct R1 as [h1 R1]. destruct (g_mag_pending c); cbn -[terrain_monitor_reset_run terrain_monitor_set_magnetic_calibration];
      (splits; [| done ..]); eexists; [by apply terrain_mag | exact R1].
  - destruct (g_mag_pending c); cbn -[terrain_monitor_set_magnetic_calibration]; (splits; try done); eexists; [by apply terrain_mag | exact R].
Qed.
Lemma process_genuine k s odo h : terrain_reachable m (monitor k) h ->
  genuine (result (monitor (process m k s odo))) /\ exists h', terrain_reachable m (monitor (process m k s odo)) h'.
Proof. intros R. split; [by exists (monitor k), h, s, odo | eexists; by apply terrain_sample]. Qed.
Lemma work_facts bus i k h : terrain_reachable m (monitor k) h -> let '(out, k') := task_work m bus i k in
  (exists h', terrain_reachable m (monitor k') h') /\ (out = true -> genuine (result (monitor k'))).
Proof.
  intros R. unfold task_work.
  assert (C : let '(out, k') := task_connect m bus i k in (exists h', terrain_reachable m (monitor k') h') /\ (out = true -> genuine (result (monitor k')))).
  { unfold task_connect. case_if; [| split; eauto; done]. destruct (imu_sensor_init bus (bus_log k)) as [ok log]. destruct ok; [split; eauto; done |].
    match goal with |- context [process m ?k0 ?s0 ?o0] => destruct (process_genuine k0 s0 o0 h R) as [G [h' R']] end. split; eauto. }
  destruct (task_connect m bus i k) as [out k1]. destruct C as [[h1 R1] G1]. destruct (connected k1); [| split; eauto].
  unfold task_read. destruct (imu_sensor_read bus (now_read i) (bus_log k1)) as [[ok smp] log]. destruct ok; [| case_if].
  - match goal with |- context [process m ?k0 ?s0 ?o0] => destruct (process_genuine k0 s0 o0 h1 R1) as [G [h' R']] end. split; eauto.
  - match goal with |- context [process m ?k0 ?s0 ?o0] => destruct (process_genuine k0 s0 o0 h1 R1) as [G [h' R']] end. split; eauto.
  - split; [by exists h1 | done].
Qed.
Lemma publish_facts lk r c : let c' := publish lk r c in
  if lk && negb (g_reset c) then
    g_reset c' = false /\ g_run c' = g_run c /\ g_published_run c' = g_run c /\ g_published c' = true /\ g_snapshot c' = terrain_pack r /\
    g_humps c' = (if hump_done r && (g_humps c <? UINT16_MAX) then g_humps c + 1 else g_humps c) /\
    g_ring c' = (if newsworthy (g_snapshot c) r then ring_push (g_ring c) (terrain_pack r) else g_ring c)
  else c' = c.
Proof.
  unfold publish, hump_done. destruct lk; [| done]. destruct (g_reset c) eqn:E; [done |]. cbn [negb andb].
  destruct (newsworthy (g_snapshot c) r), (completed r && has TERRAIN_PEAK_VALID r); cbn -[ring_push terrain_pack];
    try destruct (g_humps c <? UINT16_MAX); cbn -[ring_push terrain_pack]; by splits.
Qed.
Lemma wait_represents q w lost r : represents q (map terrain_pack w, lost) ->
  exists lost', represents (ring_push q (terrain_pack r)) (map terrain_pack (wait_for w r), lost').
Proof.
  intros R. pose proof (ring_step_after _ _ (RPush (terrain_pack r)) R) as S. cbn [ring_step queue_step snd] in S.
  unfold queue_push in S. cbn [fst snd] in S. rewrite length_map in S. unfold wait_for.
  destruct (length w =? 8)%nat; eexists; rewrite map_app; [replace (map terrain_pack (tail w)) with (tail (map terrain_pack w)) by (by destruct w) |]; exact S.
Qed.
Lemma clear_represents q a : represents q a -> represents (ring_clear q) ([], false).
Proof. intros R. exact (ring_step_after _ _ RClear R). Qed.
Lemma humps_cons r l : humps_of (r :: l) = humps_of l + b2z (hump_done r).
Proof. unfold humps_of. cbn. destruct (hump_done r); cbn; lia. Qed.
Lemma s4_step s op : s4_inv s -> s4_enabled s op -> s4_inv (s4_run s op).
Proof.
  intros [[h I1] I2 I3 I4 I5 I6 [lost I7]] En. destruct op as [lk | bus i | lk | lk | lk rc | lk o sc]; cbn [s4_run s4_enabled] in *.
  - pose proof (head_facts lk (sh s) (tk s) h I1) as H. destruct (task_head lk (sh s) (tk s)) as [c k].
    destruct H as (H1 & H2 & H3 & H4 & H5 & H6). destruct (lk && g_reset (sh s)) eqn:E.
    + destruct H6 as (H6 & H7 & H8). split; cbn -[humps_of]; [done | by constructor | done | done | | | ].
      * intros P. rewrite H5 in P. destruct (I5 P) as [F _]. apply andb_true_iff in E as [_ E]. congruence.
      * intros _. by rewrite H7.
      * exists false. rewrite H8. by eapply clear_represents.
    + destruct H6 as (H6 & H7 & H8). split; cbn -[humps_of]; [done | done | done | done | | | ].
      * rewrite H5, H6, H4, H3, H2. exact I5.
      * rewrite H6, H7. exact I6.
      * exists lost. by rewrite H8.
  - pose proof (work_facts bus i (tk s) h I1) as W. destruct (task_work m bus i (tk s)) as [out k]. destruct W as [W1 W2].
    destruct out; split; cbn; try done; try (by exists lost); eauto. by apply sublist_cons.
  - destruct (I3 En) as (c & Ec & Sc). pose proof (publish_facts lk (result (monitor (tk s))) (sh s)) as P. cbv zeta in P.
    set (r := result (monitor (tk s))) in *. destruct (lk && negb (g_reset (sh s))) eqn:E.
    + destruct P as (P1 & P2 & P3 & P4 & P5 & P6 & P7). apply andb_true_iff in E as [_ E]. apply negb_true_iff in E.
      split; cbn -[publish]; eauto; try done.
      * rewrite Ec. by apply sublist_skip.
      * intros _. rewrite P1, P2, P3, P5. splits; eauto.
      * intros _. rewrite P6, (I6 E), humps_cons. unfold UINT16_MAX. destruct (hump_done r); cbn; [| lia]. destruct (Z.ltb_spec (Z.min 65535 (humps_of (published s))) 65535); lia.
      * rewrite P7. case_if; [by eapply wait_represents | eauto].
    + rewrite P. split; cbn; eauto; done.
  - unfold subsystem4_event. destruct lk; cbn [negb snd]; [| by split; cbn; eauto].
    pose proof (ring_step_after _ _ RPop I7) as S. cbn [ring_step] in S. destruct (ring_pop (g_ring (sh s))) as [e q]. cbn [snd] in S.
    split; cbn -[terrain_unpack]; eauto. destruct (waiting s); cbn in S |- *; eauto.
  - unfold request_reset. destruct lk; cbn [negb]; [| by split; cbn; eauto]. destruct (g_reset (sh s)) eqn:E; [by split; cbn; rewrite ?E; eauto |].
    split; cbn; eauto; try done. exists false. by eapply clear_represents.
  - unfold subsystem4_set_magnetic_calibration. case_if; split; cbn; eauto.
Qed.
Lemma s4_reachable_inv s : s4_reachable s -> s4_inv s.
Proof. induction 1 as [| s op _ IH En]; [apply s4_boot_inv | by apply s4_step]. Qed.
End Service.

(** A terrain reading belongs to the run it names.  However the task, the
    sensor and the other tasks interleave, a reading that succeeds names the last
    run requested, is the packet of the newest result the task published after it
    took up that run's reset (marked as a fault when it is more than 150 ms old),
    and its hump count is the number of completed humps published in that run, up to
    65535; everything published was computed by the monitor in that run. *)
Theorem terrain_read_current m s lk now out token humps : s4_reachable m s ->
  subsystem4_read lk now (sh s) = Some (out, token, humps) ->
  token = g_run (sh s) /\ g_reset (sh s) = false /\ humps = Z.min UINT16_MAX (humps_of (published s)) /\
  published s `sublist_of` computed s /\ Forall (genuine m) (computed s) /\
  exists r rest, published s = r :: rest /\ out = stale_result now (terrain_unpack (terrain_pack r)) /\
    (150000 < elapsed now (timestamp_us (terrain_unpack (terrain_pack r))) ->
     has TERRAIN_FAULT out = true /\ has TERRAIN_TILT_VALID out = false /\ state out = TERRAIN_UNKNOWN).
Proof.
  intros R. destruct (s4_reachable_inv m s R) as [I1 I2 I3 I4 I5 I6 I7]. unfold subsystem4_read. destruct lk; [| done]. cbn [negb].
  destruct (g_published (sh s)) eqn:P; [| done]. cbn [negb orb]. destruct (I5 eq_refl) as (F & E & r & rest & E1 & E2).
  rewrite F, E, Z.eqb_refl, E2. cbn [orb negb]. intros [= <- <- <-]. splits; [done | done | by apply I6 | done | done |].
  exists r, rest. splits; [done | done |]. intros L. unfold stale_result. destruct (Z.ltb_spec 150000 (elapsed now (timestamp_us (terrain_unpack (terrain_pack r))))); [| lia].
  set (u := terrain_unpack (terrain_pack r)). splits; [| | done].
  - unfold has. change (flags _) with (Z.lor (Z.land (flags u) 12) 16). rewrite Z.land_lor_distr_l, <- Z.land_assoc. cbn. by rewrite Z.land_0_r.
  - unfold has. change (flags _) with (Z.lor (Z.land (flags u) 12) 16). rewrite Z.land_lor_distr_l, <- Z.land_assoc. cbn. by rewrite Z.land_0_r.
Qed.

(** No sensor on the bus: each attempt to connect publishes a fault; a reset in between starts run 1. *)
Definition bench_bus : imu_bus := {| bus_read := fun _ => None; bus_write := fun _ => false |}.
Definition bench_round (t : Z) : round :=
  {| now := t; now_ready := t; now_read := t; now_check := t; now_lost := t; feedback := None; motors_calibrated := false |}.
Definition bench_ops : list s4_op :=
  [SHead true; SWork bench_bus (bench_round 1000); SPublish true; SReset true false; SHead true; SWork bench_bus (bench_round 2000000);
   SPublish true; SHead true].
Definition bench_service : s4_state := fold_left (s4_run bench_libm) bench_ops s4_boot.
Lemma bench_service_reachable : s4_reachable bench_libm bench_service.
Proof. unfold bench_service, bench_ops. cbn [fold_left]. repeat (apply s4_next; [| vm_compute; exact eq_refl || exact I]). apply s4_start. Qed.
Lemma terrain_read_current_witness : exists out, subsystem4_read true 2000100 (sh bench_service) = Some (out, 1, 0) /\
  g_run (sh bench_service) = 1 /\ timestamp_us out = 2000000 /\ has TERRAIN_FAULT out = true.
Proof.
  eexists. assert (E : subsystem4_read true 2000100 (sh bench_service) = Some (terrain_unpack (g_snapshot (sh bench_service)), 1, 0))
    by (vm_compute; reflexivity).
  split; [exact E |]. destruct (terrain_read_current bench_libm _ _ _ _ _ _ bench_service_reachable E) as (T & _).
  split; [exact (eq_sym T) |]. split; vm_compute; reflexivity.
Defined.
