(* ===== verification/TerrainControl.v ===== *)
(** * Terrain supervision

    Models [controller/terrain_integration.c] in the build with subsystem 4: the
    sampling owner's view of the terrain task.  A START begins a terrain run and
    holds the drive until the first result of that run; while the car runs, every
    cycle must have a fresh, calibrated result without fault or impact, or the drive
    is faulted; results go to the telemetry store.

    What [subsystem4_read], [subsystem4_event] and [subsystem4_begin_run] return are
    arguments ([TerrainService] says what they may be), and so is whether each lock
    of the telemetry mutex succeeds. *)
From S2P Require Import Prelude CFloat FloatRange BitCodec Navigation Motion MotionController Avoidance Drive DriveSafety Telemetry TelemetryStore Imu Terrain.

Definition TERRAIN_MAX_AGE_US : Z := 150000.
Definition TERRAIN_RESET_WAIT_US : Z := 500000.
Definition TERRAIN_EVENT_BUDGET : nat := 8.
Definition TERRAIN_LIVE_PERIOD : Z := 20.
Definition BUDDY1_FAULT_IMU : Z := 4.
Definition BUDDY1_TOPIC_HUMP : Z := 2.
(** [control], with the file's [impact_seen] and the live report's [divider]. *)
Record terrain_control_t := {
  tc_sample : terrain_result_t; tc_now : Z; tc_reset_us : Z; tc_run : Z; expected_run : Z; tc_humps : Z; sent_humps : Z;
  sent_height : Z; sent_run : Z; have : bool; waiting : bool; latched : bool; run_owned : bool; fault_sent : bool;
  hump_sent : bool; hump_invalidated : bool; sent_fault : bool; impact_seen : bool; divider : Z
}.
#[export] Instance terrain_control_settable : Settable terrain_control_t := fun r =>
  Build_terrain_control_t (tc_sample r) (tc_now r) (tc_reset_us r) (tc_run r) (expected_run r) (tc_humps r) (sent_humps r)
    (sent_height r) (sent_run r) (have r) (waiting r) (latched r) (run_owned r) (fault_sent r) (hump_sent r) (hump_invalidated r)
    (sent_fault r) (impact_seen r) (divider r).
Definition terrain_control_init : terrain_control_t :=
  {| tc_sample := zero_terrain_result; tc_now := 0; tc_reset_us := 0; tc_run := 0; expected_run := 0; tc_humps := 0;
     sent_humps := 0; sent_height := 0; sent_run := 0; have := false; waiting := false; latched := false; run_owned := false;
     fault_sent := false; hump_sent := false; hump_invalidated := false; sent_fault := false; impact_seen := false;
     divider := TERRAIN_LIVE_PERIOD / 2 |}.

(** ** Health *)
Definition is_impact (r : terrain_result_t) : bool := impact r || bool_decide (state r = TERRAIN_IMPACT).
Definition fresh (k : terrain_control_t) (now : Z) : bool :=
  have k && (elapsed now (timestamp_us (tc_sample k)) <=? TERRAIN_MAX_AGE_US).
Definition healthy (k : terrain_control_t) (now : Z) : bool :=
  fresh k now && has TERRAIN_CALIBRATED (tc_sample k) && negb (has TERRAIN_FAULT (tc_sample k)) && negb (is_impact (tc_sample k)).
Definition terrain_control_ready (k : terrain_control_t) (now : Z) : bool := negb (latched k) && negb (waiting k) && healthy k now.
Definition terrain_control_reset_ready (k : terrain_control_t) (now : Z) : bool := negb (waiting k) && healthy k now.
Definition terrain_control_clear_fault (k : terrain_control_t) : terrain_control_t := k <| latched := false |>.
(** [token]: what [subsystem4_begin_run] gives; [lk]: the lock of [buddy1_invalidate]. *)
Definition terrain_control_begin (lk : bool) (token : option Z) (now : Z) (k : terrain_control_t) (s : store) :
  bool * terrain_control_t * store :=
  match (if terrain_control_ready k now then token else None) with
  | None => (false, k, s)
  | Some t =>
      let '(er, s) := buddy1_invalidate lk s BUDDY1_TOPIC_HUMP in
      (true, k <| expected_run := t |> <| tc_reset_us := now |> <| waiting := true |> <| have := false |> <| run_owned := true |>
               <| hump_sent := false |> <| hump_invalidated := bool_decide (er = E_OK) |>, s)
  end.

(** ** One cycle *)
(** A reading accepted by the cycle; [true]: it is of the wrong run. *)
Definition take_reading (run_now : bool) (reading : option (terrain_result_t * Z * Z)) (k : terrain_control_t) :
  bool * terrain_control_t :=
  match reading with
  | None => (false, k)
  | Some (sample, run, humps) =>
      if run_now && run_owned k && negb (run =? expected_run k) then (true, k)
      else
        let k := k <| tc_sample := sample |> <| tc_run := run |> <| tc_humps := humps |> <| have := true |>
                   <| impact_seen := impact_seen k || is_impact sample |> in
        (false, if waiting k && (run =? expected_run k) then k <| waiting := false |> else k)
  end.
Definition event_bad (e : terrain_result_t * bool) : bool := e.2 || is_impact e.1 || has TERRAIN_FAULT e.1.
(** The loop over the events, at most eight a cycle. *)
Fixpoint take_events (events : list (terrain_result_t * bool)) (bad : bool) (k : terrain_control_t) : bool * terrain_control_t :=
  match events with
  | [] => (bad, k)
  | e :: events => take_events events (bad || event_bad e) (k <| impact_seen := impact_seen k || is_impact e.1 |>)
  end.
Section Poll.
Context (app_s5 : bool).
(** [events]: what the successive calls of [subsystem4_event] would give. *)
Definition terrain_control_poll (now : Z) (reading : option (terrain_result_t * Z * Z)) (events : list (terrain_result_t * bool))
  (k : terrain_control_t) (c : ctx) : terrain_control_t * ctx :=
  let run_now := running (d_state (dr c)) in
  let k := k <| tc_now := now |> in
  let c := c <|| external_hold := false ||> in
  let k := if negb run_now then k <| waiting := false |> else k in
  let '(bad, k) := take_reading run_now reading k in
  let '(bad, k) := take_events (take TERRAIN_EVENT_BUDGET events) bad k in
  if negb run_now then (k, c)
  else if waiting k && (elapsed now (tc_reset_us k) <=? TERRAIN_RESET_WAIT_US) && negb bad
  then (k, c <|| external_hold := true ||>)
  else if bad || waiting k || negb (healthy k now)
  then (k <| latched := true |> <| waiting := false |>, s3_drive_terrain_fault app_s5 c)
  else (k, c).
End Poll.

(** ** Reports *)
(** [(int16_t)(x>=0.0f ? x+0.5f : x-0.5f)]; [None]: out of range. *)
Definition half_away (x : float) : Z := trunc (if x >=. fzero then x + flit 5 10 else x - flit 5 10)%f32.
Definition tilt_x10 (deg : float) : option Z :=
  let x := (deg * flit 10 1)%f32 in
  if negb ((x >=. -. flit 900 1) && (x <=. flit 900 1)) then None else Some (i16 (half_away x)).
Definition millimetres (m : float) : Z := u16 (trunc (m * flit 1000 1 + flit 5 10)%f32).
Definition height_mm (m : float) : option Z := if negb ((m >=. fzero) && (m <=. flit 5 10)) then None else Some (millimetres m).
Definition live_tilt (k : terrain_control_t) : option (Z * Z) :=
  let s := tc_sample k in
  if fresh k (tc_now k) && has TERRAIN_TILT_VALID s && negb (has TERRAIN_FAULT s) then
    match tilt_x10 (pitch_deg s), tilt_x10 (roll_deg s) with Some p, Some r => Some (p, r) | _, _ => None end
  else None.
Definition live_terrain (k : terrain_control_t) : BUDDY1_TERRAIN :=
  let s := tc_sample k in
  let tilt := live_tilt k in
  let climb := if fresh k (tc_now k) && active s then height_mm (hump_height_m s) else None in
  let peak := if have k && has TERRAIN_PEAK_VALID s then height_mm (peak_m s) else None in
  {| tilt_valid := match tilt with Some _ => true | None => false end;
     pitch_x10 := match tilt with Some (p, _) => p | None => 0 end;
     roll_x10 := match tilt with Some (_, r) => r | None => 0 end;
     terr_state := if impact_seen k then state_code TERRAIN_IMPACT else if fresh k (tc_now k) then state_code (state s) else 0;
     on_hump := match climb with Some _ => true | None => false end; climb_mm := default 0 climb;
     peak_valid := match peak with Some _ => true | None => false end; peak_mm := default 0 peak |}.
Definition terrain_live_report (lk : bool) (k : terrain_control_t) (s : store) : terrain_control_t * store :=
  let d := u8 (divider k + 1) in
  if d <? TERRAIN_LIVE_PERIOD then (k <| divider := d |>, s)
  else
    let '(er, s) := buddy1_report_terrain lk s (live_terrain k) in
    (k <| divider := 0 |> <| impact_seen := if bool_decide (er = E_OK) then false else impact_seen k |>, s).
Definition delivered (er : ER) : bool := bool_decide (er = E_OK) || bool_decide (er = E_TMOUT).
Definition imu_bad (k : terrain_control_t) : bool :=
  latched k || (negb (waiting k) && (negb (fresh k (tc_now k)) || has TERRAIN_FAULT (tc_sample k) || impact (tc_sample k))).
Definition report_fault (lk : bool) (k : terrain_control_t) (s : store) : terrain_control_t * store :=
  if negb (fault_sent k) || negb (eqb (sent_fault k) (imu_bad k)) then
    let '(er, s) := buddy1_update_faults lk s BUDDY1_FAULT_IMU (if imu_bad k then BUDDY1_FAULT_IMU else 0) in
    (if delivered er then k <| fault_sent := true |> <| sent_fault := imu_bad k |> else k, s)
  else (k, s).
Definition peak_known (k : terrain_control_t) : bool :=
  have k && run_owned k && (tc_run k =? expected_run k) && has TERRAIN_PEAK_VALID (tc_sample k) &&
  (peak_m (tc_sample k) >=. fzero) && (peak_m (tc_sample k) <=. flit 5 10).
Definition report_hump (lk : bool) (k : terrain_control_t) (s : store) : terrain_control_t * store :=
  if peak_known k then
    let height := millimetres (peak_m (tc_sample k)) in
    if negb (hump_sent k) || negb (sent_run k =? tc_run k) || negb (sent_humps k =? tc_humps k) || negb (sent_height k =? height) then
      let '(er, s) := buddy1_report_hump lk s (tc_humps k) height in
      (if delivered er then k <| hump_sent := true |> <| hump_invalidated := false |> <| sent_humps := tc_humps k |>
                         <| sent_height := height |> <| sent_run := tc_run k |> else k, s)
    else (k, s)
  else
    let '(inv, s) := if negb (hump_invalidated k)
                     then let '(er, s) := buddy1_invalidate lk s BUDDY1_TOPIC_HUMP in (bool_decide (er = E_OK), s)
                     else (hump_invalidated k, s) in
    (k <| hump_invalidated := inv |> <| hump_sent := false |>, s).
(** One lock result for each of the three calls. *)
Definition terrain_control_report (lk1 lk2 lk3 : bool) (k : terrain_control_t) (s : store) : terrain_control_t * store :=
  let '(k, s) := report_fault lk1 k s in
  let '(k, s) := report_hump lk2 k s in
  terrain_live_report lk3 k s.

(** ** Reports fit their packets *)
Lemma half_within : within false 8388608 (-24) (flit 5 10). Proof. by vm_compute. Qed.
Lemma half_away_bound x c g b cb gb : within (negb (x >=. fzero)) c g x -> 0 <= c -> 0 < cb < 2 ^ 24 -> -149 <= gb <= 80 -> 0 <= b ->
  scaled c g + scaled 8388608 (-24) <= scaled cb gb -> scaled cb gb < scaled (b + 1) 0 -> - b <= half_away x <= b.
Proof.
  intros W Hc Hb Hg B0 L U. unfold half_away. destruct (x >=. fzero); cbn [negb] in W.
  - pose proof (fadd_within false c g 8388608 (-24) cb gb x _ Hb Hg Hc ltac:(lia) L W half_within) as A. pose proof (trunc_within _ _ _ b _ B0 U A) as T. cbv iota in T. lia.
  - rewrite fsub_opp. assert (H : within true 8388608 (-24) (-. flit 5 10)) by (by vm_compute).
    pose proof (fadd_within true c g 8388608 (-24) cb gb x _ Hb Hg Hc ltac:(lia) L W H) as A. pose proof (trunc_within _ _ _ b _ B0 U A) as T. cbv iota in T. lia.
Qed.
Lemma flit_900 : flit 900 1 = S754_finite false 14745600 (-14). Proof. reflexivity. Qed.
Lemma tilt_x10_bound deg v : float_ok deg -> tilt_x10 deg = Some v -> -900 <= v <= 900.
Proof.
  intros Ok. unfold tilt_x10. cbv zeta. set (x := (deg * flit 10 1)%f32). assert (Okx : float_ok x) by (apply fmul_ok; [done | by vm_compute]).
  destruct (_ && _) eqn:E; cbn [negb]; [| done]. intros [= <-]. apply andb_true_iff in E as [L U]. rewrite flit_900 in L, U.
  pose proof (between_within x 14745600 (-14) Okx ltac:(lia) ltac:(lia) L U) as W.
  pose proof (half_away_bound x _ _ 900 1801 (-1) W ltac:(lia) ltac:(lia) ltac:(lia) ltac:(lia) ltac:(by vm_compute) ltac:(by vm_compute)) as B.
  unfold i16. rewrite swrap_id; lia.
Qed.
Lemma millimetres_bound m : float_ok m -> (m >=. fzero) = true -> (m <=. flit 5 10) = true -> 0 <= millimetres m <= 500.
Proof.
  intros Ok P U. destruct (fle_number _ _ P) as [_ N]. assert (F : isfinite m = true) by (by destruct m as [| [] | |]).
  assert (A : (fabs_ m >. S754_finite false 8388608 (-24)) = false).
  { rewrite fabs_nonneg; [| done | by apply fle_not_flt]. by apply fle_not_flt. }
  destruct (fle_within m 8388608 (-24) Ok ltac:(lia) ltac:(lia) F A) as [s W].
  apply within_nonneg in W; [| by apply fle_not_flt].
  pose proof (fmul_within false 8388608 (-24) false 16384000 (-14) 500 0 m _ ltac:(lia) ltac:(lia) ltac:(lia) ltac:(lia) ltac:(by vm_compute) W scale_1000) as M.
  pose proof (fadd_within false 500 0 8388608 (-24) 1001 (-1) _ _ ltac:(lia) ltac:(lia) ltac:(lia) ltac:(lia) ltac:(by vm_compute) M half_within) as S.
  pose proof (trunc_within false 1001 (-1) 500 _ ltac:(lia) ltac:(by vm_compute) S) as T. cbv iota in T.
  unfold millimetres, u16. rewrite wrap_id; [done | unfold in_u; lia].
Qed.
Lemma height_mm_bound (b : bool) m : float_ok m -> 0 <= default 0 (if b then height_mm m else None) <= 500.
Proof.
  intros Ok. destruct b; [| cbn; lia]. unfold height_mm. destruct (_ && _) eqn:E; cbn [negb default from_option]; [| lia].
  apply andb_true_iff in E as [P U]. by apply millimetres_bound.
Qed.
Lemma terrain_code_range st : 0 <= state_code st < 8.
Proof. destruct st; cbn; lia. Qed.
Lemma live_terrain_ok k : result_typed (tc_sample k) -> terrain_rejected (live_terrain k) = false /\
  snapshot_typed (zero_snapshot <| terrain := live_terrain k |>).
Proof.
  intros [_ _ Tp Tr _ Tk Th].
  assert (St : 0 <= terr_state (live_terrain k) < 8) by (cbn; pose proof (terrain_code_range (state (tc_sample k))); repeat case_if; cbn; lia).
  assert (Ti : match live_tilt k with Some (p, r) => -900 <= p <= 900 /\ -900 <= r <= 900 | None => True end).
  { unfold live_tilt. cbv zeta. case_if; [| done]. destruct (tilt_x10 (pitch_deg _)) as [p |] eqn:Ep; [| done]. destruct (tilt_x10 (roll_deg _)) as [r |] eqn:Er; [| done].
    split; [apply (tilt_x10_bound _ _ Tp Ep) | apply (tilt_x10_bound _ _ Tr Er)]. }
  set (climb := if fresh k (tc_now k) && active (tc_sample k) then height_mm (hump_height_m (tc_sample k)) else None).
  set (peak := if have k && has TERRAIN_PEAK_VALID (tc_sample k) then height_mm (peak_m (tc_sample k)) else None).
  assert (Cl : 0 <= default 0 climb <= 500) by apply (height_mm_bound _ _ Th).
  assert (Pk : 0 <= default 0 peak <= 500) by apply (height_mm_bound _ _ Tk).
  split.
  - unfold terrain_rejected. revert St. unfold live_terrain. cbv zeta. fold climb peak.
    cbn [terr_state climb_mm peak_mm tilt_valid pitch_x10 roll_x10 on_hump peak_valid]. intros St.
    unfold BUDDY1_TERRAIN_STATES, BUDDY1_HUMP_HEIGHT_MAX_MM, BUDDY1_TILT_LIMIT_X10.
    destruct (Z.leb_spec 8 (if impact_seen k then state_code TERRAIN_IMPACT else if fresh k (tc_now k) then state_code (state (tc_sample k)) else 0)); [lia |].
    destruct climb as [cv |], peak as [pv |]; cbn [default from_option negb andb Z.eqb] in Cl, Pk |- *;
      repeat match goal with |- context [500 <? ?z] => destruct (Z.ltb_spec 500 z); [lia |] end;
      (destruct (live_tilt k) as [[p r] |]; [rewrite (proj2 (outside_false (- (900)) p 900)), (proj2 (outside_false (- (900)) r 900)) by lia |]); done.
  - unfold snapshot_typed. cbn -[live_terrain]. splits; try (unfold in_u; lia).
    + unfold live_terrain. cbv zeta. fold climb. cbn -[default Z.pow]. unfold in_u. lia.
    + unfold live_terrain. cbv zeta. fold peak. cbn -[default Z.pow]. unfold in_u. lia.
Qed.

(** ** Supervision *)
Lemma take_events_bad events bad k : (take_events events bad k).1 = bad || existsb event_bad events.
Proof. revert bad k. induction events as [| e events IH]; intros bad k; cbn; [by rewrite orb_false_r |]. by rewrite IH, orb_assoc. Qed.
(** What a cycle leaves alone: everything a report remembers. *)
Definition memory (k : terrain_control_t) := (sent_humps k, sent_height k, sent_run k, fault_sent k, hump_sent k, hump_invalidated k, sent_fault k).
Lemma take_events_rest events bad k :
  let k' := (take_events events bad k).2 in
  memory k' = memory k /\ tc_sample k' = tc_sample k /\ tc_humps k' = tc_humps k /\ waiting k' = waiting k /\ have k' = have k /\
  tc_run k' = tc_run k /\ expected_run k' = expected_run k /\ run_owned k' = run_owned k /\ tc_reset_us k' = tc_reset_us k.
Proof. revert bad k. induction events as [| e events IH]; intros bad k; cbn [take_events]; [done |].
  exact (IH (bad || event_bad e) (k <| impact_seen := impact_seen k || is_impact e.1 |>)).
Qed.
Definition reading_wrong (run_now : bool) (reading : option (terrain_result_t * Z * Z)) (k : terrain_control_t) : bool :=
  match reading with Some (_, run, _) => run_now && run_owned k && negb (run =? expected_run k) | None => false end.
Lemma take_reading_wrong run_now reading k : (take_reading run_now reading k).1 = reading_wrong run_now reading k.
Proof. destruct reading as [[[sample run] humps] |]; [| done]. cbn. by case_if. Qed.
Lemma take_reading_rest run_now reading k :
  let k' := (take_reading run_now reading k).2 in
  memory k' = memory k /\ (tc_sample k' = tc_sample k /\ tc_humps k' = tc_humps k \/
    exists run, reading = Some (tc_sample k', run, tc_humps k') /\ tc_run k' = run /\ have k' = true) /\
  expected_run k' = expected_run k /\ run_owned k' = run_owned k /\ tc_reset_us k' = tc_reset_us k.
Proof.
  destruct reading as [[[sample run] humps] |]; [| cbn; splits; try done; by left].
  cbn. case_if; [cbn; splits; try done; by left |]. cbv zeta. case_if; cbn; splits; try done; right; by exists run.
Qed.

Section Supervision.
Context (app_s5 : bool).
(** The three outcomes of a cycle while the car runs. *)
Definition supervised (now : Z) (k : terrain_control_t) (c : ctx) (wrong : bool) (k' : terrain_control_t) (c' : ctx) : Prop :=
  (** held: the run's first result is awaited, for half a second at most *)
  (wrong = false /\ waiting k' = true /\ elapsed now (tc_reset_us k') <= 500000 /\ c' = c <|| external_hold := true ||>) \/
  (** free: the result of this run is fresh, calibrated and without fault or impact *)
  (wrong = false /\ waiting k' = false /\ have k' = true /\ elapsed now (timestamp_us (tc_sample k')) <= 150000 /\
   has TERRAIN_CALIBRATED (tc_sample k') = true /\ has TERRAIN_FAULT (tc_sample k') = false /\ impact (tc_sample k') = false /\
   state (tc_sample k') <> TERRAIN_IMPACT /\ c' = c <|| external_hold := false ||>) \/
  (** stopped: the fault is latched until it is cleared *)
  (latched k' = true /\ d_state (dr c') = S3_DRIVE_FAULT /\ reason (dr c') = S3_DRIVE_TERRAIN_FAULT /\
   (exists new, calls c' = CHeartbeat false :: CStop :: new ++ calls c /\ requests new  = 0%nat) /\
   forall t, terrain_control_ready k' t = false).
Lemma healthy_facts k now : healthy k now = true -> have k = true /\ elapsed now (timestamp_us (tc_sample k)) <= 150000 /\
  has TERRAIN_CALIBRATED (tc_sample k) = true /\ has TERRAIN_FAULT (tc_sample k) = false /\ impact (tc_sample k) = false /\
  state (tc_sample k) <> TERRAIN_IMPACT.
Proof.
  unfold healthy, fresh, is_impact, TERRAIN_MAX_AGE_US. rewrite !andb_true_iff, !negb_true_iff, orb_false_iff, bool_decide_eq_false. rewrite Z.leb_le. tauto.
Qed.
Lemma poll_cases now reading events k c : running (d_state (dr c)) = true -> d_configured (dr c) = true ->
  let '(k', c') := terrain_control_poll app_s5 now reading events k c in
  supervised now k c (reading_wrong true reading k || existsb event_bad (take TERRAIN_EVENT_BUDGET events)) k' c'.
Proof.
  intros Hr Hc. unfold terrain_control_poll. cbv zeta. rewrite Hr. cbn [negb].
  pose proof (take_reading_wrong true reading (k <| tc_now := now |>)) as Er. destruct (take_reading _ _ _) as [bad1 k1]. cbn [fst] in Er.
  pose proof (take_events_bad (take TERRAIN_EVENT_BUDGET events) bad1 k1) as Ee. destruct (take_events _ _ _) as [bad k2]. cbn [fst] in Ee.
  assert (Eb : bad = reading_wrong true reading k || existsb event_bad (take TERRAIN_EVENT_BUDGET events)) by (by rewrite Ee, Er).
  rewrite <- Eb. clear Er Ee Eb. destruct (waiting k2 && _ && negb bad) eqn:Hold.
  { apply andb_true_iff in Hold as [Hold Hb]. apply andb_true_iff in Hold as [Hw Ht]. apply negb_true_iff in Hb. left. unbool. done. }
  destruct (bad || waiting k2 || negb (healthy k2 now)) eqn:F; right.
  - right. unfold s3_drive_terrain_fault. change (d_configured (dr (c <|| external_hold := false ||>))) with (d_configured (dr c)).
    rewrite Hc. destruct (halt_state app_s5 (c <|| external_hold := false ||>) S3_DRIVE_FAULT S3_DRIVE_TERRAIN_FAULT) as [Hs _].
    destruct (halt_calls app_s5 (c <|| external_hold := false ||>) S3_DRIVE_FAULT S3_DRIVE_TERRAIN_FAULT) as (new & Hn & R).
    splits; [done | exact Hs | done | by exists new | done].
  - left. rewrite !orb_false_iff, negb_false_iff in F. destruct F as [[-> ->] Hh]. apply healthy_facts in Hh. tauto.
Qed.
End Supervision.

(** ** Telemetry shows the terrain *)
(** The cache holds what the module remembers having sent. *)
Record shows (k : terrain_control_t) (c : BUDDY1_SNAPSHOT) : Prop := {
  sh_hump : hump_sent k = true -> hump_valid c = true /\ hump_count c = sent_humps k /\ hump_height_mm c = sent_height k;
  sh_gone : hump_invalidated k = true -> hump_valid c = false;
  sh_fault : fault_sent k = true -> faults_valid c = true /\ Z.testbit (faults c) 2 = sent_fault k
}.
Record tied (k : terrain_control_t) (s : store) : Prop := {
  ti_sample : result_typed (tc_sample k); ti_humps : in_u 16 (tc_humps k); ti_store : exists c, store_inv s c /\ shows k c
}.
(** An operation of the store by another module: it leaves the hump section and
    the IMU bit alone. *)
Definition foreign (op : store_op) : Prop :=
  store_op_ok op /\
  match op with
  | SReport _ t _ => t <> TOPIC_HUMP
  | SFaults _ changed _ => Z.testbit changed 2 = false
  | SInvalidate _ type => type <> BUDDY1_TOPIC_HUMP /\ type <> TOPIC_CODE_FAULTS
  | STake => True
  end.
Definition reading_ok (reading : option (terrain_result_t * Z * Z)) : Prop :=
  match reading with Some (sample, run, humps) => result_typed sample /\ in_u 16 humps | None => True end.
Inductive terrain_step (app_s5 : bool) : terrain_control_t -> store -> terrain_control_t -> store -> Prop :=
| ts_begin k s lk token now b k' s' : terrain_control_begin lk token now k s = (b, k', s') -> terrain_step app_s5 k s k' s'
| ts_poll k s now reading events c : reading_ok reading ->
    terrain_step app_s5 k s (terrain_control_poll app_s5 now reading events k c).1 s
| ts_clear k s : terrain_step app_s5 k s (terrain_control_clear_fault k) s
| ts_report k s lk1 lk2 lk3 k' s' : terrain_control_report lk1 lk2 lk3 k s = (k', s') -> terrain_step app_s5 k s k' s'
| ts_foreign k s op : foreign op -> terrain_step app_s5 k s k (store_run s op).2.
Inductive terrain_reached (app_s5 : bool) : terrain_control_t -> store -> Prop :=
| tr_boot : terrain_reached app_s5 terrain_control_init store_boot
| tr_next k s k' s' : terrain_reached app_s5 k s -> terrain_step app_s5 k s k' s' -> terrain_reached app_s5 k' s'.

Lemma sent_delivered er : sent er <-> delivered er = true.
Proof. unfold sent, delivered. rewrite orb_true_iff, !bool_decide_eq_true. done. Qed.
Lemma invalidate_hump lk s c : store_inv s c -> let '(er, s') := buddy1_invalidate lk s BUDDY1_TOPIC_HUMP in
  exists c', store_inv s' c' /\ (er = E_OK -> c' = without_section TOPIC_HUMP c) /\ (er <> E_OK -> c' = c) /\ (lk = true -> er = E_OK).
Proof.
  intros I. pose proof (invalidate_effect lk s c TOPIC_HUMP I ltac:(cbn; tauto)) as E. change (topic_code TOPIC_HUMP) with BUDDY1_TOPIC_HUMP in E.
  destruct (buddy1_invalidate _ _ _) as [er s']. destruct E as (c' & I' & [[-> ->] | (N & -> & ->)]); eexists; splits; try done; exact I'.
Qed.
Lemma report_hump_ok lk s c count height : store_inv s c -> in_u 16 count -> 0 <= height <= 500 ->
  let '(er, s') := buddy1_report_hump lk s count height in
  exists c', store_inv s' c' /\ (delivered er = true -> c' = c <| hump_count := count |> <| hump_height_mm := height |> <| hump_valid := true |>) /\
    (delivered er = false -> c' = c) /\ (lk = true -> delivered er = true).
Proof.
  intros I Hc Hh. unfold buddy1_report_hump. set (v := zero_snapshot <| hump_count := count |> <| hump_height_mm := height |>).
  assert (W : write_fields TOPIC_HUMP v <> None).
  { cbn. unfold BUDDY1_HUMP_HEIGHT_MAX_MM. by destruct (Z.ltb_spec 500 height); [lia |]. }
  assert (T : snapshot_typed v) by (unfold snapshot_typed, in_u in *; cbn -[Z.pow]; lia).
  pose proof (report_effect lk s c TOPIC_HUMP v I ltac:(unfold reportable; rewrite !elem_of_cons; tauto) T) as E.
  destruct (report lk s TOPIC_HUMP v) as [er s']. destruct E as (c' & I' & [[D ->] | (D & -> & [[-> _] | N])]); [| | done];
    rewrite sent_delivered in D; eexists; (splits; [exact I' | | |]); try done; by destruct (delivered er).
Qed.
Lemma imu_request (b : bool) : faults_request_ok BUDDY1_FAULT_IMU (if b then BUDDY1_FAULT_IMU else 0).
Proof. by destruct b. Qed.
Lemma merge_imu old (b : bool) : Z.testbit (merge_faults old BUDDY1_FAULT_IMU (if b then BUDDY1_FAULT_IMU else 0)) 2 = b.
Proof.
  unfold merge_faults, u8, wrap. rewrite Z.mod_pow2_bits_low by lia. rewrite Z.lor_spec, Z.land_spec.
  replace (Z.testbit (_ mod _) 2) with false by done. rewrite andb_false_r. by destruct b.
Qed.
Lemma merge_foreign old changed active : Z.testbit changed 2 = false -> Z.land active (Z.lnot changed) = 0 ->
  Z.testbit (merge_faults old changed active) 2 = Z.testbit old 2.
Proof.
  intros Hc Ha. unfold merge_faults, u8, wrap. rewrite Z.mod_pow2_bits_low by lia. rewrite Z.lor_spec, Z.land_spec.
  rewrite Z.mod_pow2_bits_low, Z.lnot_spec, Hc by lia. cbn [negb]. rewrite andb_true_r.
  assert (A : Z.testbit (Z.land active (Z.lnot changed)) 2 = false) by (by rewrite Ha).
  rewrite Z.land_spec, Z.lnot_spec, Hc in A by lia. cbn [negb] in A. rewrite andb_true_r in A. by rewrite A, orb_false_r.
Qed.
Lemma update_imu_ok lk s c b : store_inv s c ->
  let '(er, s') := buddy1_update_faults lk s BUDDY1_FAULT_IMU (if b : bool then BUDDY1_FAULT_IMU else 0) in
  exists c', store_inv s' c' /\ (delivered er = false -> c' = c) /\ (lk = true -> delivered er = true) /\
    (delivered er = true -> exists f, c' = c <| faults := f |> <| faults_valid := true |> /\ Z.testbit f 2 = b).
Proof.
  intros I. pose proof (faults_effect lk s c BUDDY1_FAULT_IMU (if b then BUDDY1_FAULT_IMU else 0) I ltac:(unfold in_u, BUDDY1_FAULT_IMU; lia)
    ltac:(destruct b; unfold in_u, BUDDY1_FAULT_IMU; lia) (imu_request b)) as E.
  destruct (buddy1_update_faults _ _ _ _) as [er s'].
  destruct E as (c' & I' & [[D ->] | (D & -> & ->)]); rewrite sent_delivered in D; eexists; (split; [exact I' |]).
  - rewrite D. splits; try done. intros _. eexists. split; [reflexivity | apply merge_imu].
  - by destruct (delivered er).
Qed.
Lemma terrain_report_ok lk s c k : store_inv s c -> result_typed (tc_sample k) ->
  let '(er, s') := buddy1_report_terrain lk s (live_terrain k) in sent er /\ store_inv s' c.
Proof.
  intros I T. destruct (live_terrain_ok k T) as [Hr Ht]. set (v := zero_snapshot <| terrain := live_terrain k |>) in *.
  pose proof (report_effect lk s c TOPIC_TERRAIN v I ltac:(unfold reportable; rewrite !elem_of_cons; tauto) Ht) as E.
  assert (W : write_fields TOPIC_TERRAIN v <> None) by (unfold write_fields; change (terrain v) with (live_terrain k); by rewrite Hr).
  unfold buddy1_report_terrain. fold v. destruct (report lk s TOPIC_TERRAIN v) as [er s'].
  by destruct E as (c' & I' & [[D ->] | (D & -> & [[_ L] | N])]).
Qed.
(** What the module knows of the run, which a report does not change. *)
Definition knowledge (k : terrain_control_t) :=
  (tc_sample k, tc_now k, tc_run k, expected_run k, tc_humps k, (have k, waiting k, latched k, run_owned k)).
Lemma knowledge_same k k' : knowledge k' = knowledge k -> imu_bad k' = imu_bad k /\ peak_known k' = peak_known k /\
  tc_sample k' = tc_sample k /\ tc_humps k' = tc_humps k.
Proof. intros [= E1 E2 E3 E4 E5 E6 E7 E8 E9]. unfold imu_bad, peak_known, fresh. rewrite E1, E2, E3, E4, E6, E7, E8, E9. done. Qed.
Lemma report_fault_ok lk k s c : store_inv s c -> shows k c -> let '(k', s') := report_fault lk k s in
  knowledge k' = knowledge k /\ exists c', store_inv s' c' /\ shows k' c' /\
    (lk = true -> faults_valid c' = true /\ Z.testbit (faults c') 2 = imu_bad k).
Proof.
  intros I [S1 S2 S3]. unfold report_fault. destruct (negb (fault_sent k) || _) eqn:E.
  - pose proof (update_imu_ok lk s c (imu_bad k) I) as U. destruct (buddy1_update_faults _ _ _ _) as [er s'].
    destruct U as (c' & I' & Un & Ul & Us). destruct (delivered er) eqn:D.
    + destruct (Us eq_refl) as (f & -> & Hf). split; [done |]. eexists. split; [exact I' |]. by split; [split |].
    + rewrite (Un eq_refl) in *. split; [done |]. exists c. splits; [done | done |]. intros L. by specialize (Ul L).
  - apply orb_false_iff in E as [E1 E2]. apply negb_false_iff in E1, E2. apply eqb_prop in E2. split; [done |].
    exists c. splits; [done | done |]. intros _. rewrite <- E2. by apply S3.
Qed.
Lemma report_hump_tied lk k s c : result_typed (tc_sample k) -> in_u 16 (tc_humps k) -> store_inv s c -> shows k c ->
  let '(k', s') := report_hump lk k s in
  knowledge k' = knowledge k /\ exists c', store_inv s' c' /\ shows k' c' /\ faults c' = faults c /\ faults_valid c' = faults_valid c /\
    (lk = true -> hump_valid c' = peak_known k /\
      (peak_known k = true -> hump_count c' = tc_humps k /\ hump_height_mm c' = millimetres (peak_m (tc_sample k)))).
Proof.
  intros T Hu I [S1 S2 S3]. unfold report_hump. destruct (peak_known k) eqn:Pk.
  - assert (M : 0 <= millimetres (peak_m (tc_sample k)) <= 500).
    { unfold peak_known in Pk. rewrite !andb_true_iff in Pk. apply millimetres_bound; [apply T | apply Pk | apply Pk]. }
    cbv zeta. set (h := millimetres (peak_m (tc_sample k))) in *. destruct (negb (hump_sent k) || _ || _ || _) eqn:E.
    + pose proof (report_hump_ok lk s c (tc_humps k) h I Hu M) as R. destruct (buddy1_report_hump _ _ _ _) as [er s'].
      destruct R as (c' & I' & Rs & Rn & Rl). destruct (delivered er) eqn:D.
      * rewrite (Rs eq_refl) in *. split; [done |]. eexists. split; [exact I' |]. by splits; [split | | |].
      * rewrite (Rn eq_refl) in *. split; [done |]. exists c. splits; try done. intros L. by specialize (Rl L).
    + rewrite !orb_false_iff, !negb_false_iff, !Z.eqb_eq in E. destruct E as [[[E1 E2] E3] E4]. split; [done |]. exists c.
      splits; try done. intros _. destruct (S1 E1) as (V & C & H). rewrite V, C, H. done.
  - destruct (negb (hump_invalidated k)) eqn:E.
    + pose proof (invalidate_hump lk s c I) as R. destruct (buddy1_invalidate _ _ _) as [er s']. destruct R as (c' & I' & Ro & Rn & Rl).
      split; [done |]. exists c'. destruct (decide (er = E_OK)) as [-> | Hn].
      * rewrite (Ro eq_refl) in *. by splits.
      * rewrite (Rn Hn) in *. splits; try done; try (intros L; by specialize (Rl L)). split; cbn; try done. by rewrite bool_decide_false.
    + apply negb_false_iff in E. split; [done |]. exists c. splits; try done. intros _. by rewrite S2.
Qed.

Lemma control_report_ok lk1 lk2 lk3 k s c : result_typed (tc_sample k) -> in_u 16 (tc_humps k) -> store_inv s c -> shows k c ->
  let '(k', s') := terrain_control_report lk1 lk2 lk3 k s in
  tc_sample k' = tc_sample k /\ tc_humps k' = tc_humps k /\ exists c', store_inv s' c' /\ shows k' c' /\
    (lk1 = true -> faults_valid c' = true /\ Z.testbit (faults c') 2 = imu_bad k) /\
    (lk2 = true -> hump_valid c' = peak_known k /\
      (peak_known k = true -> hump_count c' = tc_humps k /\ hump_height_mm c' = millimetres (peak_m (tc_sample k)))).
Proof.
  intros T Hu I S. unfold terrain_control_report. pose proof (report_fault_ok lk1 k s c I S) as R1. destruct (report_fault lk1 k s) as [k1 s1].
  destruct R1 as (K1 & c1 & I1 & S1 & P1). destruct (knowledge_same _ _ K1) as (B1 & Q1 & T1 & H1).
  pose proof (report_hump_tied lk2 k1 s1 c1 ltac:(by rewrite T1) ltac:(by rewrite H1) I1 S1) as R2. destruct (report_hump lk2 k1 s1) as [k2 s2].
  destruct R2 as (K2 & c2 & I2 & S2 & F2 & V2 & P2). destruct (knowledge_same _ _ K2) as (_ & _ & T2 & H2). rewrite Q1, H1, T1 in P2.
  unfold terrain_live_report. cbv zeta. case_if.
  - rewrite <- F2, <- V2 in P1. splits; cbn; [congruence | congruence |]. exists c2. splits; try done. by destruct S2.
  - pose proof (terrain_report_ok lk3 s2 c2 k2 I2 ltac:(by rewrite T2, T1)) as R3. destruct (buddy1_report_terrain _ _ _) as [er s3].
    destruct R3 as [_ I3]. rewrite <- F2, <- V2 in P1. splits; cbn; [congruence | congruence |]. exists c2. splits; try done. by destruct S2.
Qed.
(** The store operations of a report: its own sections and fault bit only. *)
Definition terrain_op (op : store_op) : Prop :=
  store_op_ok op /\
  match op with
  | SReport _ t _ => t = TOPIC_HUMP \/ t = TOPIC_TERRAIN
  | SFaults _ changed _ => changed = BUDDY1_FAULT_IMU
  | SInvalidate _ type => type = BUDDY1_TOPIC_HUMP
  | STake => False
  end.
Lemma invalidate_own lk s : runs terrain_op s (buddy1_invalidate lk s BUDDY1_TOPIC_HUMP).2.
Proof. apply (runs_one terrain_op s (SInvalidate lk BUDDY1_TOPIC_HUMP)). split; [unfold store_op_ok, BUDDY1_TOPIC_HUMP, in_u; lia | done]. Qed.
Lemma report_fault_own lk k s : runs terrain_op s (report_fault lk k s).2.
Proof.
  unfold report_fault. case_if; [| apply runs_refl].
  assert (H : terrain_op (SFaults lk BUDDY1_FAULT_IMU (if imu_bad k then BUDDY1_FAULT_IMU else 0)))
    by (split; [unfold store_op_ok, BUDDY1_FAULT_IMU, in_u; destruct (imu_bad k); lia | done]).
  apply (runs_one terrain_op s) in H. cbn [store_run] in H. by destruct (buddy1_update_faults _ _ _ _).
Qed.
Lemma report_hump_own lk k s : in_u 16 (tc_humps k) -> runs terrain_op s (report_hump lk k s).2.
Proof.
  intros Hu. unfold report_hump. cbv zeta. repeat case_if; try apply runs_refl.
  - assert (H : terrain_op (SReport lk TOPIC_HUMP (zero_snapshot <| hump_count := tc_humps k |> <| hump_height_mm := millimetres (peak_m (tc_sample k)) |>))).
    { split; [split; [unfold reportable; rewrite !elem_of_cons; tauto |] | by left]. unfold snapshot_typed.
      pose proof (wrap_range 16 (trunc (peak_m (tc_sample k) * flit 1000 1 + flit 5 10)%f32) ltac:(lia)) as W. fold (u16 (trunc (peak_m (tc_sample k) * flit 1000 1 + flit 5 10)%f32)) in W.
      fold (millimetres (peak_m (tc_sample k))) in W. cbn -[millimetres Z.pow]. unfold in_u in *. lia. }
    apply (runs_one terrain_op s) in H. cbn [store_run] in H. unfold buddy1_report_hump. by destruct (report lk s TOPIC_HUMP _).
  - pose proof (invalidate_own lk s) as H. by destruct (buddy1_invalidate _ _ _).
Qed.
Lemma live_report_own lk k s : result_typed (tc_sample k) -> runs terrain_op s (terrain_live_report lk k s).2.
Proof.
  intros T. unfold terrain_live_report. cbv zeta. case_if; [apply runs_refl |].
  assert (H : terrain_op (SReport lk TOPIC_TERRAIN (zero_snapshot <| terrain := live_terrain k |>))).
  { split; [split; [unfold reportable; rewrite !elem_of_cons; tauto | by apply live_terrain_ok] | by right]. }
  apply (runs_one terrain_op s) in H. cbn [store_run] in H. unfold buddy1_report_terrain. by destruct (report lk s TOPIC_TERRAIN _).
Qed.
Lemma control_report_own lk1 lk2 lk3 k s c : tied k s -> store_inv s c -> shows k c -> runs terrain_op s (terrain_control_report lk1 lk2 lk3 k s).2.
Proof.
  intros [T Hu _] I S. unfold terrain_control_report. pose proof (report_fault_own lk1 k s) as R1.
  pose proof (report_fault_ok lk1 k s c I S) as K1. destruct (report_fault lk1 k s) as [k1 s1].
  destruct K1 as (K1 & c1 & I1 & S1 & _). destruct (knowledge_same _ _ K1) as (_ & _ & T1 & H1).
  pose proof (report_hump_own lk2 k1 s1 ltac:(by rewrite H1)) as R2. pose proof (report_hump_tied lk2 k1 s1 c1 ltac:(by rewrite T1) ltac:(by rewrite H1) I1 S1) as K2.
  destruct (report_hump lk2 k1 s1) as [k2 s2]. destruct K2 as (K2 & _). destruct (knowledge_same _ _ K2) as (_ & _ & T2 & _).
  eapply runs_trans; [exact R1 |]. eapply runs_trans; [exact R2 |]. apply live_report_own. by rewrite T2, T1.
Qed.
Lemma foreign_ok k s c op : store_inv s c -> shows k c -> foreign op -> exists c', store_inv (store_run s op).2 c' /\ shows k c'.
Proof.
  intros I [S1 S2 S3] [Ok F]. pose proof (store_step_ok s c op I Ok) as S. unfold step_ok in S. destruct (store_run s op) as [er s'].
  destruct S as (c' & I' & P & _). exists c'. split; [exact I' |].
  inversion P as [lk t v e fs Lv W L Sn | lk t v e fs Lv W Sn | lk t v W | t v Lv | ch ac e Rq Sn | lk ch ac Rq | ch ac | t Ht | lk ty Hy | ty |]; subst; try done.
  - assert (t <> TOPIC_FAULTS) by (destruct Ok as [Rp _]; intros ->; unfold reportable in Rp; rewrite !elem_of_cons, elem_of_nil in Rp; intuition discriminate).
    clear P I I' W. destruct t; try done; split; done.
  - split; [done | done |]. intros E. split; [done |]. cbn [faults]. etransitivity; [apply merge_foreign; [exact F | apply Rq] | by apply S3].
  - clear P I I'. destruct F as [F1 F2], t; try done; split; done.
Qed.
Lemma poll_memory app_s5 now reading events k c : reading_ok reading -> result_typed (tc_sample k) -> in_u 16 (tc_humps k) ->
  let k' := (terrain_control_poll app_s5 now reading events k c).1 in
  memory k' = memory k /\ result_typed (tc_sample k') /\ in_u 16 (tc_humps k').
Proof.
  intros Ok T Hu. cbv zeta. unfold terrain_control_poll. cbv zeta.
  set (k0 := if negb _ then k <| tc_now := now |> <| waiting := false |> else k <| tc_now := now |>).
  assert (E0 : memory k0 = memory k /\ tc_sample k0 = tc_sample k /\ tc_humps k0 = tc_humps k) by (subst k0; by case_if).
  destruct E0 as (M0 & T0 & H0). pose proof (take_reading_rest (running (d_state (dr c))) reading k0) as R.
  destruct (take_reading _ _ k0) as [bad1 k1]. cbn [snd] in R. cbv zeta in R. destruct R as (M1 & R & _).
  assert (V1 : result_typed (tc_sample k1) /\ in_u 16 (tc_humps k1)).
  { destruct R as [[-> ->] | (run & -> & _)]; [by rewrite T0, H0 | exact Ok]. }
  pose proof (take_events_rest (take TERRAIN_EVENT_BUDGET events) bad1 k1) as R2. destruct (take_events _ _ _) as [bad k2]. cbn [snd] in R2. cbv zeta in R2.
  destruct R2 as (M2 & T2 & H2 & _). rewrite <- T2, <- H2 in V1. rewrite <- M0, <- M1, <- M2. by repeat case_if.
Qed.
Lemma shows_memory k k' c : memory k' = memory k -> shows k c -> shows k' c.
Proof. intros [= E1 E2 E3 E4 E5 E6 E7] [S1 S2 S3]. split; rewrite ?E1, ?E2, ?E4, ?E5, ?E6, ?E7; done. Qed.
Lemma begin_tied lk token now k s b k' s' : terrain_control_begin lk token now k s = (b, k', s') -> tied k s -> tied k' s'.
Proof.
  unfold terrain_control_begin. destruct (if terrain_control_ready k now then token else None) as [t |]; [| by intros [= _ <- <-]].
  intros E [T Hu (c & I & S)]. pose proof (invalidate_hump lk s c I) as R. destruct (buddy1_invalidate _ _ _) as [er s1].
  destruct R as (c' & I' & Ro & Rn & _). injection E as _ <- <-. split; [done | done |]. exists c'. split; [done |]. destruct S as [S1 S2 S3].
  destruct (decide (er = E_OK)) as [-> | Hn]; [rewrite (Ro eq_refl) | rewrite (Rn Hn)]; split; cbn; try done. by rewrite bool_decide_false.
Qed.
Lemma reached_tied app_s5 k s : terrain_reached app_s5 k s -> tied k s.
Proof.
  induction 1 as [| k s k' s' _ Ti St].
  - split; [by repeat split | by vm_compute |]. exists zero_snapshot. split; [apply boot_inv | by split].
  - destruct St as [k s lk token now b k' s' E | k s now reading events c Ok | k s | k s lk1 lk2 lk3 k' s' E | k s op F].
    + by eapply begin_tied.
    + destruct Ti as [T Hu (v & I & S)]. destruct (poll_memory app_s5 now reading events k c Ok T Hu) as (M & T' & Hu').
      split; [done | done |]. exists v. split; [done | by eapply shows_memory].
    + destruct Ti as [T Hu (v & I & S)]. split; [done | done |]. exists v. split; [done |]. by apply (shows_memory k).
    + destruct Ti as [T Hu (v & I & S)]. pose proof (control_report_ok lk1 lk2 lk3 k s v T Hu I S) as R. rewrite E in R.
      destruct R as (Et & Eh & c' & I' & S' & _). split; [by rewrite Et | by rewrite Eh | by exists c'].
    + destruct Ti as [T Hu (v & I & S)]. split; [done | done |]. by eapply foreign_ok.
Qed.

(** ** The guarantees *)
Section Guarantees.
Context (app_s5 : bool).
(** C33: the supervision of one control cycle.  While the car runs, a cycle of the
    terrain supervision ends in one of three ways: the car is held because the
    first result of the run is still awaited, at most half a second after START
    and with nothing wrong seen; or it is free to drive because the latest result
    is at most 150 ms old, calibrated, without fault and without impact, no result
    came from another run and none of the events drained in this cycle was lost,
    an impact or a fault; or the drive is stopped in its terrain fault, stop and
    heartbeat-off being its last calls, and no START is accepted until the fault
    is cleared.  While the car does not run, nothing is held or stopped. *)
Theorem terrain_poll_supervises now reading events k c : d_configured (dr c) = true ->
  let '(k', c') := terrain_control_poll app_s5 now reading events k c in
  if running (d_state (dr c))
  then supervised now k c (reading_wrong true reading k || existsb event_bad (take TERRAIN_EVENT_BUDGET events)) k' c'
  else waiting k' = false /\ c' = c <|| external_hold := false ||>.
Proof.
  intros Hc. destruct (running _) eqn:Hr; [exact (poll_cases app_s5 now reading events k c Hr Hc) |].
  unfold terrain_control_poll. cbv zeta. rewrite Hr. cbn [negb].
  set (k0 := k <| tc_now := now |> <| waiting := false |>).
  assert (W : waiting (take_reading false reading k0).2 = false) by (destruct reading as [[[sample run] humps] |]; [| done]; by cbn).
  destruct (take_reading false reading k0) as [bad1 k1].
  destruct (take_events_rest (take TERRAIN_EVENT_BUDGET events) bad1 k1) as (_ & _ & _ & W2 & _). destruct (take_events _ _ _) as [bad k2].
  cbn [snd] in W, W2. split; [by rewrite W2 | done].
Qed.
(** The telemetry shows the terrain as the supervision knows it.  The module
    sends only what changed and remembers what it sent; still, after any sequence
    of STARTs, cycles, cleared faults, reports - each lock granted or not, the
    outbox full or not - and other modules' reports, one report with its locks
    granted leaves a cache whose IMU fault bit is exactly the current fault
    condition and whose hump section is present exactly when the peak of the
    present run is known, with its count and its height in mm; and the live terrain
    report is always in range of its packet, so it is sent or dropped for a full
    outbox, never refused. *)
Theorem telemetry_shows_terrain k s lk3 : terrain_reached app_s5 k s ->
  (exists c, view (terrain_control_report true true lk3 k s).2 = Some c /\
     faults_valid c = true /\ Z.testbit (faults c) 2 = imu_bad k /\ hump_valid c = peak_known k /\
     (peak_known k = true -> hump_count c = tc_humps k /\ hump_height_mm c = millimetres (peak_m (tc_sample k)))) /\
  sent (buddy1_report_terrain lk3 s (live_terrain k)).1.
Proof.
  intros R. destruct (reached_tied _ _ _ R) as [T Hu (c & I & S)]. split.
  - pose proof (control_report_ok true true lk3 k s c T Hu I S) as Q. destruct (terrain_control_report _ _ _ _ _) as [k' s'].
    destruct Q as (_ & _ & c' & I' & _ & P1 & P2). exists c'. destruct (P1 eq_refl), (P2 eq_refl). splits; try done. apply I'.
  - pose proof (terrain_report_ok lk3 s c k I T) as Q. destruct (buddy1_report_terrain _ _ _) as [er s']. apply Q.
Qed.
End Guarantees.

(** A calibrated result of run 3 with a 12 mm peak, and an impact. *)
Definition sample_ok : terrain_result_t :=
  zero_terrain_result <| flags := 13 |> <| timestamp_us := 1000 |> <| peak_m := flit 12 1000 |>.
Definition sample_impact : terrain_result_t := sample_ok <| impact := true |>.
Definition bench_ctx (st : s3_drive_state_t) : ctx := {| dr := zero_drive <| d_configured := true |> <| d_state := st |>; calls := [] |}.
Definition bench_control : terrain_control_t :=
  terrain_control_init <| waiting := true |> <| expected_run := 3 |> <| run_owned := true |> <| tc_reset_us := 1000 |>.
Lemma terrain_poll_supervises_witness :
  (let '(k', c') := terrain_control_poll true 2000 (Some (sample_ok, 3, 1)) [(sample_ok, false)] bench_control (bench_ctx S3_DRIVE_FOLLOW) in
   supervised 2000 bench_control (bench_ctx S3_DRIVE_FOLLOW)
     (reading_wrong true (Some (sample_ok, 3, 1)) bench_control || existsb event_bad (take TERRAIN_EVENT_BUDGET [(sample_ok, false)])) k' c') /\
  reading_wrong true (Some (sample_ok, 3, 1)) bench_control || existsb event_bad [(sample_ok, false)] = false /\
  external_hold (dr (terrain_control_poll true 2000 None [] bench_control (bench_ctx S3_DRIVE_FOLLOW)).2) = true /\
  d_state (dr (terrain_control_poll true 2000 (Some (sample_impact, 3, 1)) [] bench_control (bench_ctx S3_DRIVE_FOLLOW)).2) = S3_DRIVE_FAULT /\
  d_state (dr (terrain_control_poll true 2000 (Some (sample_ok, 4, 1)) [] bench_control (bench_ctx S3_DRIVE_FOLLOW)).2) = S3_DRIVE_FAULT /\
  d_state (dr (terrain_control_poll true 501001 None [] bench_control (bench_ctx S3_DRIVE_FOLLOW)).2) = S3_DRIVE_FAULT.
Proof.
  split; [| splits; vm_compute; reflexivity].
  pose proof (terrain_poll_supervises true 2000 (Some (sample_ok, 3, 1)) [(sample_ok, false)] bench_control (bench_ctx S3_DRIVE_FOLLOW) eq_refl) as P.
  change (running (d_state (dr (bench_ctx S3_DRIVE_FOLLOW)))) with true in P. exact P.
Defined.
(** A bench result, a START of run 3, then the first result of that run. *)
Definition idle_control : terrain_control_t :=
  (terrain_control_poll true 2000 (Some (sample_ok, 0, 7)) [] terrain_control_init (bench_ctx S3_DRIVE_OFF)).1.
Definition started := terrain_control_begin true (Some 3) 2000 idle_control store_boot.
Definition first_result : terrain_control_t :=
  (terrain_control_poll true 3000 (Some (sample_ok, 3, 7)) [] started.1.2 (bench_ctx S3_DRIVE_FOLLOW)).1.
Lemma telemetry_shows_terrain_witness :
  ((exists c, view (terrain_control_report true true true first_result started.2).2 = Some c /\
      faults_valid c = true /\ Z.testbit (faults c) 2 = imu_bad first_result /\ hump_valid c = peak_known first_result /\
      (peak_known first_result = true ->
       hump_count c = tc_humps first_result /\ hump_height_mm c = millimetres (peak_m (tc_sample first_result)))) /\
   sent (buddy1_report_terrain true started.2 (live_terrain first_result)).1) /\
  peak_known first_result = true /\ imu_bad first_result = false /\ millimetres (peak_m (tc_sample first_result)) = 12.
Proof.
  split; [| splits; vm_compute; reflexivity]. apply (telemetry_shows_terrain true).
  assert (Ok : reading_ok (Some (sample_ok, 0, 7)) /\ reading_ok (Some (sample_ok, 3, 7))).
  { assert (T : result_typed sample_ok) by (split; try (vm_compute; reflexivity); by apply (bool_decide_unpack _); vm_compute).
    split; (split; [exact T | unfold in_u; lia]). }
  assert (E : started = (true, started.1.2, started.2)) by (vm_compute; reflexivity).
  apply (tr_next true started.1.2 started.2); [| exact (ts_poll true _ _ 3000 _ [] _ (proj2 Ok))].
  apply (tr_next true idle_control store_boot); [| exact (ts_begin true _ _ true (Some 3) 2000 true _ _ E)].
  exact (tr_next true _ _ _ _ (tr_boot true) (ts_poll true _ _ 2000 _ [] _ (proj1 Ok))).
Defined.
