(* ===== verification/Vehicle.v ===== *)
(** * Vehicle controller: the telemetry mirror

    Models the rest of [controller/vehicle_controller.c]: what the sampling owner
    shows of the car after each cycle (robot state, fault bits, wheel speeds, route
    pose, obstacle, barcode) in the telemetry store, sending only what changed and
    remembering what was sent, and the facade other tasks use.  Whether each lock of
    the telemetry mutex succeeds is an input, and so are the answers of the motion
    and scan subsystems. *)
From S2P Require Import Prelude CFloat FloatRange BitCodec Motion MotionController MotionPack ObstacleScan ObstacleCodec Avoidance Navigation.
From S2P Require Import BarcodeDecoder Drive DriveSafety IntegrationCodec Telemetry TelemetryStore BarcodeMap Imu Terrain TerrainControl.

Definition BUDDY1_FAULT_STALL : Z := 1.
Definition BUDDY1_FAULT_ENCODER : Z := 2.
Definition BUDDY1_FAULT_NO_ECHO : Z := 8.
Definition BUDDY1_FAULT_IR : Z := 32.
Definition BUDDY1_STATE_UNKNOWN : Z := 0.
Definition BUDDY1_STATE_LINE_FOLLOWING : Z := 2.
Definition BUDDY1_STATE_TURNING_LEFT : Z := 3.
Definition BUDDY1_STATE_TURNING_RIGHT : Z := 4.
Definition BUDDY1_STATE_UTURN : Z := 5.
Definition BUDDY1_STATE_AVOIDING_OBSTACLE : Z := 6.
Definition BUDDY1_TOPIC_MOTION : Z := 0.
Definition BUDDY1_TOPIC_OBSTACLE : Z := 4.
Definition POSE_PERIOD_CYCLES : Z := 20.

(** ** State *)
Record vehicle := {
  v_divider : Z; pose_running : bool; pose_divider : Z; start_distance_m : float; start_heading_deg : float;
  last_state : Z; last_action : Z; last_faults : Z; faults_seen : bool;
  shown_scan : Z; shown_route : Z; shown_echo : Z; (** -1 unknown, 0 healthy, 1 no echo *) obstacle_gone : bool
}.
#[export] Instance vehicle_settable : Settable vehicle := fun r =>
  Build_vehicle (v_divider r) (pose_running r) (pose_divider r) (start_distance_m r) (start_heading_deg r) (last_state r)
    (last_action r) (last_faults r) (faults_seen r) (shown_scan r) (shown_route r) (shown_echo r) (obstacle_gone r).
Definition vehicle_boot : vehicle :=
  {| v_divider := 0; pose_running := false; pose_divider := 0; start_distance_m := fzero; start_heading_deg := fzero;
     last_state := BUDDY1_STATE_UNKNOWN; last_action := BUDDY1_ACTION_UNKNOWN; last_faults := 0; faults_seen := false;
     shown_scan := 0; shown_route := 0; shown_echo := -1; obstacle_gone := false |}.

(** ** Views of the drive state *)
Inductive VEHICLE_CONTROLLER_STATE := VC_WAITING | VC_LINE_FOLLOW | VC_TURNING | VC_STOPPED | VC_FAULT.
Definition public_state (s : s3_drive_state_t) : VEHICLE_CONTROLLER_STATE :=
  match s with
  | S3_DRIVE_FOLLOW => VC_LINE_FOLLOW
  | S3_DRIVE_BRAKING | S3_DRIVE_MANOEUVRE | S3_DRIVE_REACQUIRE => VC_TURNING
  | S3_DRIVE_HALTED => VC_STOPPED
  | S3_DRIVE_FAULT => VC_FAULT
  | S3_DRIVE_OFF => VC_WAITING
  end.
(** [status]: what [s3_integration_status] gives. *)
Definition vehicle_controller_state (status : option s3_integration_status_t) : VEHICLE_CONTROLLER_STATE :=
  match status with Some copy => public_state (pub_state copy) | None => VC_WAITING end.
Definition wire_state (v : vehicle) (s : s3_drive_state_t) : Z :=
  match s with
  | S3_DRIVE_FAULT => BUDDY1_STATE_ERROR
  | S3_DRIVE_OFF | S3_DRIVE_HALTED => BUDDY1_STATE_STOPPED
  | S3_DRIVE_MANOEUVRE =>
      if last_action v =? BUDDY1_ACTION_LEFT then BUDDY1_STATE_TURNING_LEFT
      else if last_action v =? BUDDY1_ACTION_RIGHT then BUDDY1_STATE_TURNING_RIGHT
      else if last_action v =? BUDDY1_ACTION_UTURN then BUDDY1_STATE_UTURN
      else BUDDY1_STATE_LINE_FOLLOWING
  | _ => BUDDY1_STATE_LINE_FOLLOWING
  end.
Definition run_active (s : s3_drive_state_t) : bool :=
  match s with S3_DRIVE_FOLLOW | S3_DRIVE_BRAKING | S3_DRIVE_MANOEUVRE | S3_DRIVE_REACQUIRE => true | _ => false end.

(** ** The route pose *)
Definition round_to_int (x : float) : Z := trunc (if x >=. fzero then x + flit 5 10 else x - flit 5 10)%f32.
(** [x %= n; if (x < 0) x += n;] *)
Definition wrap_mod (x n : Z) : Z := let r := Z.rem x n in if r <? 0 then r + n else r.
Definition pose_cm (v : vehicle) (m : motion_status_t) : Z :=
  wrap_mod (round_to_int ((MotionPack.distance_m m - start_distance_m v) * flit 100 1)%f32) BUDDY1_POSE_DISTANCE_MOD.
Definition pose_deg (v : vehicle) (m : motion_status_t) : Z :=
  wrap_mod (round_to_int (MotionPack.heading_deg m - start_heading_deg v)%f32) 360.
Definition send_pose (v : vehicle) (m : motion_status_t) (s : store) : store :=
  (buddy1_report_pose true s (u16 (pose_cm v m)) (i16 (pose_deg v m))).2.
Definition pose_usable (motion : option motion_status_t) : option motion_status_t :=
  match motion with
  | Some m => if st_valid m && negb (st_busy m) && (MotionPack.distance_m m ==. MotionPack.distance_m m) &&
                 (MotionPack.heading_deg m ==. MotionPack.heading_deg m) then Some m else None
  | None => None
  end.
Definition pose_report (state : s3_drive_state_t) (motion : option motion_status_t) (v : vehicle) (s : store) : vehicle * store :=
  let send v s := match pose_usable motion with Some m => send_pose v m s | None => s end in
  if run_active state && negb (pose_running v) then
    match pose_usable motion with
    | None => (v, s)
    | Some m =>
        let v := v <| pose_running := true |> <| pose_divider := 0 |> <| start_distance_m := MotionPack.distance_m m |>
                   <| start_heading_deg := MotionPack.heading_deg m |> in
        (v, send_pose v m s)
    end
  else if run_active state then
    let d := wrap 5 (pose_divider v + 1) in
    if POSE_PERIOD_CYCLES <=? d then (v <| pose_divider := 0 |>, send v s) else (v <| pose_divider := d |>, s)
  else if pose_running v then (v <| pose_running := false |>, send v s)
  else (v, s).

(** ** One cycle *)
(** What the cycle reads: the status just published, the motion status, the state of
    the detour and the scan observation (used with subsystem 5), and the active
    barcode map. *)
Record observed_cycle := {
  oc_status : s3_integration_status_t; oc_motion : option motion_status_t; oc_control : Z;
  oc_obstacle : option s5_observation_t; oc_map : bytes
}.
(** The locks of the telemetry mutex, in the order they are tried. *)
Record locks := {
  lk_imu : bool; lk_hump : bool; lk_live : bool; lk_action : bool; lk_barcode : bool; lk_faults : bool; lk_echo : bool;
  lk_obstacle : bool; lk_state : bool; lk_motion : bool
}.
Definition all_locks : locks :=
  {| lk_imu := true; lk_hump := true; lk_live := true; lk_action := true; lk_barcode := true; lk_faults := true; lk_echo := true;
     lk_obstacle := true; lk_state := true; lk_motion := true |}.
Definition report_barcode (l : locks) (i : observed_cycle) (v : vehicle) (s : store) : vehicle * store :=
  let nav := pub_navigation (oc_status i) in
  if negb (Z.land (events nav) S3_EVENT_BARCODE =? 0) then
    let code := u8 (letter (out_barcode nav)) in
    (v <| last_action := action_for (Navigation.action nav) |>,
     (buddy1_report_barcode (lk_barcode l) s code (buddy1_barcode_action (lk_action l) code (oc_map i))).2)
  else (v, s).
Definition bit_if (b : bool) (bit : Z) : Z := if b then bit else 0.
(** The faults this module owns, and those of them known in this cycle. *)
Definition active_faults (i : observed_cycle) (v : vehicle) : Z :=
  let nav := pub_navigation (oc_status i) in
  Z.lor match oc_motion i with
        | Some m => Z.lor (bit_if (negb (Z.land (st_fault_bits m) (MOTION_FAULT_BIT MOTION_FAULT_STALL) =? 0)) BUDDY1_FAULT_STALL)
                          (bit_if (negb (Z.land (st_fault_bits m) (MOTION_FAULT_BIT MOTION_FAULT_ENCODER) =? 0)) BUDDY1_FAULT_ENCODER)
        | None => Z.land (last_faults v) (Z.lor BUDDY1_FAULT_STALL BUDDY1_FAULT_ENCODER)
        end
        (bit_if (negb (fault_mask nav =? 0) || negb (Z.land (out_latched_faults nav) S3_FAULT_SENSOR =? 0)) BUDDY1_FAULT_IR).
Definition changed_faults (i : observed_cycle) : Z :=
  match oc_motion i with
  | Some _ => Z.lor BUDDY1_FAULT_IR (Z.lor BUDDY1_FAULT_STALL BUDDY1_FAULT_ENCODER)
  | None => BUDDY1_FAULT_IR
  end.
Definition report_faults (l : locks) (i : observed_cycle) (v : vehicle) (s : store) : vehicle * store :=
  let active := active_faults i v in
  if negb (faults_seen v) || negb (active =? last_faults v) then
    let '(er, s) := buddy1_update_faults (lk_faults l) s (u8 (changed_faults i)) (u8 (Z.land active (changed_faults i))) in
    (if delivered er then v <| last_faults := active |> <| faults_seen := true |> else v, s)
  else (v, s).
Definition report_echo (l : locks) (o : s5_observation_t) (v : vehicle) (s : store) : vehicle * store :=
  if negb (shown_echo v =? b2z (no_echo o)) then
    let '(er, s) := buddy1_update_faults (lk_echo l) s BUDDY1_FAULT_NO_ECHO (bit_if (no_echo o) BUDDY1_FAULT_NO_ECHO) in
    (if delivered er then v <| shown_echo := b2z (no_echo o) |> else v, s)
  else (v, s).
Definition report_scan (l : locks) (route : Z) (o : s5_observation_t) (v : vehicle) (s : store) : vehicle * store :=
  let p := obs_profile o in
  if obs_scan_done o && profile_valid p && (negb (shown_scan v =? scan_id o) || negb (shown_route v =? route)) then
    let '(er, s) := buddy1_report_obstacle (lk_obstacle l) s (closest_mm p) (width_mm p) route in
    (if delivered er then v <| shown_scan := scan_id o |> <| shown_route := wrap 2 route |> <| obstacle_gone := false |> else v, s)
  else if negb (profile_valid p) && negb (obstacle_gone v) then
    let '(er, s) := buddy1_invalidate (lk_obstacle l) s BUDDY1_TOPIC_OBSTACLE in
    (if bool_decide (er = E_OK) then v <| obstacle_gone := true |> else v, s)
  else (v, s).
(** [obstacle_state>=S5_WAIT_STOP && obstacle_state<=S5_FINISH], while a manoeuvre runs. *)
Definition avoiding (i : observed_cycle) : bool :=
  let st := Z.land (oc_control i) 7 in
  bool_decide (pub_state (oc_status i) = S3_DRIVE_MANOEUVRE) && (1 <=? st) && (st <=? 4).
Definition report_obstacle (app_s5 : bool) (l : locks) (i : observed_cycle) (v : vehicle) (s : store) : vehicle * store :=
  match (if app_s5 then oc_obstacle i else None) with
  | Some o => let '(v, s) := report_echo l o v s in report_scan l (Z.shiftr (oc_control i) 6) o v s
  | None => (v, s)
  end.
Definition shown_state (app_s5 : bool) (i : observed_cycle) (v : vehicle) : Z :=
  if app_s5 && avoiding i then BUDDY1_STATE_AVOIDING_OBSTACLE else wire_state v (pub_state (oc_status i)).
Definition report_state (l : locks) (state : Z) (v : vehicle) (s : store) : vehicle * store :=
  if negb (state =? last_state v) then
    let '(er, s) := buddy1_report_robot_state (lk_state l) s state in
    (if delivered er then v <| last_state := state |> else v, s)
  else (v, s).
(** The wheel speeds in mm/s, where the packet can carry them. *)
Definition wheel_mms (x : float) : float := (x * flit 1000 1)%f32.
Definition mms_bad (x : float) : bool :=
  negb (x ==. x) || (x <. float_of_Z (- BUDDY1_SPEED_MAX_MMS)) || (x >. float_of_Z BUDDY1_SPEED_MAX_MMS).
(** [true]: the function returned here. *)
Definition report_speeds (l : locks) (i : observed_cycle) (v : vehicle) (s : store) : bool * vehicle * store :=
  let d := wrap 5 (v_divider v + 1) in
  if 20 <=? d then
    let v := v <| v_divider := 0 |> in
    match oc_motion i with
    | Some m =>
        if negb (st_valid m) || st_busy m then (true, v, (buddy1_invalidate (lk_motion l) s BUDDY1_TOPIC_MOTION).2)
        else
          let left := wheel_mms (speed_left_mps m) in
          let right := wheel_mms (speed_right_mps m) in
          if mms_bad left || mms_bad right then (false, v, (buddy1_invalidate (lk_motion l) s BUDDY1_TOPIC_MOTION).2)
          else (false, v, (buddy1_report_motion (lk_motion l) s (i16 (trunc left)) (i16 (trunc right))).2)
    | None => (true, v, (buddy1_invalidate (lk_motion l) s BUDDY1_TOPIC_MOTION).2)
    end
  else (false, v <| v_divider := d |>, s).
Definition vehicle_controller_observe (app_s5 : bool) (l : locks) (i : observed_cycle) (v : vehicle) (k : terrain_control_t) (s : store) :
  vehicle * terrain_control_t * store :=
  let '(k, s) := terrain_control_report (lk_imu l) (lk_hump l) (lk_live l) k s in
  let '(v, s) := report_barcode l i v s in
  let '(v, s) := report_faults l i v s in
  let state := shown_state app_s5 i v in
  let '(v, s) := pose_report (pub_state (oc_status i)) (oc_motion i) v s in
  let '(v, s) := report_obstacle app_s5 l i v s in
  let '(v, s) := report_state l state v s in
  let '(returned, v, s) := report_speeds l i v s in
  (if negb returned && bool_decide (pub_state (oc_status i) = S3_DRIVE_OFF) then v <| last_action := BUDDY1_ACTION_UNKNOWN |> else v, k, s).

(** ** The store shows what the module remembers *)
Definition OWNED : Z := 35. (** the stall, encoder and IR bits *)
Record mirrors (v : vehicle) (c : BUDDY1_SNAPSHOT) : Prop := {
  mi_faults : Z.land (faults c) OWNED = last_faults v;
  mi_seen : faults_seen v = true -> faults_valid c = true;
  mi_echo : shown_echo v <> -1 -> Z.testbit (faults c) 3 = (shown_echo v =? 1);
  mi_state : last_state v <> BUDDY1_STATE_UNKNOWN -> robot_state_valid c = true /\ robot_state c = last_state v;
  mi_gone : obstacle_gone v = true -> obstacle_valid c = false
}.
(** The part of a snapshot the invariant looks at. *)
Definition glance (c : BUDDY1_SNAPSHOT) :=
  (Z.land (faults c) OWNED, Z.testbit (faults c) 3, robot_state_valid c, robot_state c, obstacle_valid c).
Lemma mirrors_glance v c c' : glance c' = glance c -> (faults_valid c = true -> faults_valid c' = true) -> mirrors v c -> mirrors v c'.
Proof.
  unfold glance. intros E F [M1 M2 M3 M4 M5].
  assert (Ec : Z.land (faults c') OWNED = Z.land (faults c) OWNED /\ Z.testbit (faults c') 3 = Z.testbit (faults c) 3 /\
    robot_state_valid c' = robot_state_valid c /\ robot_state c' = robot_state c /\ obstacle_valid c' = obstacle_valid c) by (splits; congruence).
  destruct Ec as (E1 & E2 & E3 & E4 & E5). split; rewrite ?E1, ?E2, ?E3, ?E4, ?E5; tauto.
Qed.
(** An operation that belongs to another module. *)
Definition elsewhere (op : store_op) : Prop :=
  store_op_ok op /\
  match op with
  | SReport _ t _ => t <> TOPIC_MOTION /\ t <> TOPIC_BARCODE /\ t <> TOPIC_OBSTACLE /\ t <> TOPIC_STATE
  | SFaults _ changed _ => Z.land changed 43 = 0
  | SInvalidate _ type => type = BUDDY1_TOPIC_HUMP
  | STake => True
  end.
Lemma merge_bit old changed active b : 0 <= b < 8 -> in_u 8 active -> Z.testbit (merge_faults old changed active) b =
  (Z.testbit old b && negb (Z.testbit changed b)) || Z.testbit active b.
Proof.
  intros Hb Ha. unfold merge_faults, u8, wrap. rewrite Z.mod_pow2_bits_low by lia. rewrite Z.lor_spec, Z.land_spec.
  by rewrite Z.mod_pow2_bits_low, Z.lnot_spec by lia.
Qed.
Lemma merge_range old changed active : in_u 8 (merge_faults old changed active).
Proof. apply wrap_range. lia. Qed.
Lemma owned_bits x y : in_u 8 x -> in_u 8 y -> Z.land x OWNED = Z.land y OWNED <->
  (Z.testbit x 0 = Z.testbit y 0 /\ Z.testbit x 1 = Z.testbit y 1 /\ Z.testbit x 5 = Z.testbit y 5).
Proof.
  intros Hx Hy. assert (B : forall z k, 0 <= k -> Z.testbit (Z.land z OWNED) k = Z.testbit z k && ((k =? 0) || (k =? 1) || (k =? 5))).
  { intros z k Hk. rewrite Z.land_spec. f_equal. destruct (Z.ltb_spec k 6).
    - assert (K : k = 0 \/ k = 1 \/ k = 2 \/ k = 3 \/ k = 4 \/ k = 5) by lia.
      by repeat destruct K as [-> | K]; [.. | subst].
    - rewrite (Z.bits_above_log2 OWNED k) by (unfold OWNED; cbn; lia). symmetry. rewrite !orb_false_iff, !Z.eqb_neq. lia. }
  split.
  - intros E. assert (Q : forall k, Z.testbit (Z.land x OWNED) k = Z.testbit (Z.land y OWNED) k) by (intros; by rewrite E).
    pose proof (Q 0) as Q0. pose proof (Q 1) as Q1. pose proof (Q 5) as Q5. rewrite !B in Q0, Q1, Q5 by lia. cbn in Q0, Q1, Q5.
    by rewrite !andb_true_r in Q0, Q1, Q5.
  - intros (E0 & E1 & E5). apply Z.bits_inj'. intros k Hk. rewrite !B by lia.
    destruct (Z.eqb_spec k 0) as [-> |]; [by rewrite E0 |]. destruct (Z.eqb_spec k 1) as [-> |]; [by rewrite E1 |].
    destruct (Z.eqb_spec k 5) as [-> |]; [by rewrite E5 | by rewrite !andb_false_r].
Qed.
Lemma inv_faults s c : store_inv s c -> in_u 8 (faults c).
Proof. intros I. destruct (view_writable _ _ (si_bytes _ _ I) (si_view _ _ I)) as (_ & T & _). apply T. Qed.
Lemma land_bits x y k : Z.land x y = 0 -> Z.testbit y k = true -> Z.testbit x k = false.
Proof. intros E H. assert (Q : Z.testbit (Z.land x y) k = false) by (rewrite E; apply Z.bits_0). by rewrite Z.land_spec, H, andb_true_r in Q. Qed.
Lemma subset_bits active changed k : 0 <= k -> Z.land active (Z.lnot changed) = 0 -> Z.testbit changed k = false -> Z.testbit active k = false.
Proof. intros Hk E H. apply (land_bits active (Z.lnot changed)); [done |]. by rewrite Z.lnot_spec, H. Qed.
Lemma elsewhere_ok v s c op : store_inv s c -> mirrors v c -> elsewhere op -> exists c', store_inv (store_run s op).2 c' /\ mirrors v c'.
Proof.
  intros I M [Ok F]. pose proof (store_step_ok s c op I Ok) as S. unfold step_ok in S. destruct (store_run s op) as [er s'].
  destruct S as (c' & I' & P & _). exists c'. split; [exact I' |]. pose proof (inv_faults s c I) as Hf.
  inversion P as [lk t v' e fs Lv W L Sn | | | | ch ac e Rq Sn | | | t Ht | | |]; subst; try done.
  - assert (t <> TOPIC_FAULTS) by (destruct Ok as [Rp _]; intros ->; unfold reportable in Rp; rewrite !elem_of_cons, elem_of_nil in Rp; intuition discriminate).
    destruct F as (F1 & F2 & F3 & F4). by apply (mirrors_glance v c); [destruct t | destruct t |].
  - destruct Ok as [Hc Ha]. destruct Rq as (_ & _ & Sub).
    assert (B : forall k, 0 <= k < 8 -> Z.testbit 43 k = true -> Z.testbit (merge_faults (faults c) ch ac) k = Z.testbit (faults c) k).
    { intros k Hk H. rewrite merge_bit by done. pose proof (land_bits ch 43 k F H) as Hn. rewrite Hn, (subset_bits ac ch k) by (lia || done).
      by rewrite andb_true_r, orb_false_r. }
    assert (E : Z.land (merge_faults (faults c) ch ac) OWNED = Z.land (faults c) OWNED)
      by (apply owned_bits; [apply merge_range | done |]; by rewrite !B by (lia || done)).
    apply (mirrors_glance v c); [| done | done]. unfold glance. cbn -[Z.testbit Z.land merge_faults]. by rewrite E, (B 3) by (lia || done).
  - destruct t; try discriminate F. by apply (mirrors_glance v c).
Qed.
Lemma runs_mirror v ops : forall s c, store_inv s c -> mirrors v c -> Forall elsewhere ops ->
  exists c', store_inv (store_runs s ops) c' /\ mirrors v c'.
Proof.
  induction ops as [| op ops IH]; intros s c I M F; [by exists c |]. apply Forall_cons in F as [F1 F2].
  destruct (elsewhere_ok v s c op I M F1) as (c' & I' & M'). exact (IH _ c' I' M' F2).
Qed.
Lemma terrain_elsewhere op : terrain_op op -> elsewhere op.
Proof.
  intros [Ok T]. split; [done |]. destruct op as [lk t x | lk ch ac | lk ty |]; [by destruct T as [-> | ->] | by subst | done | done].
Qed.

(** ** Faults *)
Lemma owned_range x : in_u 8 (Z.land x OWNED).
Proof.
  assert (E : Z.land x OWNED = Z.land x OWNED mod 2 ^ 8) by (rewrite <- Z.land_ones by lia; by rewrite <- Z.land_assoc).
  rewrite E. apply Z.mod_pos_bound. lia.
Qed.
Lemma active_owned i v : Z.land (active_faults i v) OWNED = active_faults i v.
Proof.
  unfold active_faults. cbv zeta. set (b := bit_if _ BUDDY1_FAULT_IR). assert (Eb : Z.land b OWNED = b) by (subst b; unfold bit_if; by case_if).
  rewrite Z.land_lor_distr_l, Eb. f_equal. destruct (oc_motion i) as [m |]; [unfold bit_if; by repeat case_if |].
  by rewrite <- Z.land_assoc.
Qed.
Lemma changed_range i : in_u 8 (changed_faults i) /\ u8 (changed_faults i) = changed_faults i.
Proof. unfold changed_faults, in_u. by destruct (oc_motion i). Qed.
Lemma faults_request i a : faults_request_ok (changed_faults i) (Z.land a (changed_faults i)).
Proof.
  unfold faults_request_ok. splits; [by unfold changed_faults; destruct (oc_motion i) | by unfold changed_faults; destruct (oc_motion i) |].
  by rewrite <- Z.land_assoc, Z.land_lnot_diag, Z.land_0_r.
Qed.
(** Merging the known faults into a cache that shows the last ones shows the new ones. *)
Lemma merge_active i v old : in_u 8 old -> Z.land old OWNED = last_faults v ->
  let new := merge_faults old (changed_faults i) (Z.land (active_faults i v) (changed_faults i)) in
  Z.land new OWNED = active_faults i v /\ Z.testbit new 3 = Z.testbit old 3.
Proof.
  intros Ho Hl. cbv zeta. set (a := active_faults i v). assert (Ra : in_u 8 a) by (subst a; rewrite <- active_owned; apply owned_range).
  assert (Rc : in_u 8 (Z.land a (changed_faults i))).
  { assert (E : Z.land a (changed_faults i) = Z.land a (changed_faults i) mod 2 ^ 8).
    { rewrite <- Z.land_ones by lia. rewrite <- Z.land_assoc. unfold changed_faults. by destruct (oc_motion i). }
    rewrite E. apply Z.mod_pos_bound. lia. }
  assert (N3 : Z.testbit (changed_faults i) 3 = false) by (unfold changed_faults; by destruct (oc_motion i)).
  split.
  - transitivity (Z.land a OWNED); [| exact (active_owned i v)]. apply owned_bits; [apply merge_range | done |]. rewrite !merge_bit by (lia || done).
    rewrite !Z.land_spec. destruct (oc_motion i) as [m |] eqn:Em.
    + assert (C : changed_faults i = 35) by (unfold changed_faults; by rewrite Em). rewrite C.
      change (Z.testbit 35 0) with true. change (Z.testbit 35 1) with true. change (Z.testbit 35 5) with true.
      cbn [negb]. by rewrite !andb_false_r, !andb_true_r.
    + assert (C : changed_faults i = 32) by (unfold changed_faults; by rewrite Em). rewrite C.
      change (Z.testbit 32 0) with false. change (Z.testbit 32 1) with false. change (Z.testbit 32 5) with true.
      cbn [negb]. rewrite !andb_false_r, !andb_true_r, !orb_false_r.
      assert (K : forall k, k = 0 \/ k = 1 -> Z.testbit old k = Z.testbit a k); [| splits; [apply K; by left | apply K; by right | done]].
      intros k Hk. subst a. unfold active_faults. rewrite Em, <- Hl. rewrite Z.lor_spec, !Z.land_spec.
      assert (B : Z.testbit (bit_if (negb (fault_mask (pub_navigation (oc_status i)) =? 0) ||
         negb (Z.land (out_latched_faults (pub_navigation (oc_status i))) S3_FAULT_SENSOR =? 0)) BUDDY1_FAULT_IR) k = false)
        by (unfold bit_if; case_if; by destruct Hk as [-> | ->]).
      rewrite B. rewrite orb_false_r.
      destruct Hk as [-> | ->]; change (Z.testbit OWNED _) with true; change (Z.testbit (Z.lor _ _) _) with true; by rewrite !andb_true_r.
  - rewrite merge_bit by (lia || done). by rewrite Z.land_spec, N3, !andb_false_r, andb_true_r, orb_false_r.
Qed.

(** ** Each report keeps the mirror *)
Definition mirrored (v : vehicle) (s : store) : Prop := exists c, store_inv s c /\ mirrors v c.
Record cycle_typed (i : observed_cycle) : Prop := {
  ct_control : in_u 8 (oc_control i);
  ct_speeds m : oc_motion i = Some m -> float_ok (speed_left_mps m) /\ float_ok (speed_right_mps m);
  ct_obstacle o : oc_obstacle i = Some o -> in_u 16 (width_mm (obs_profile o))
}.
(** The barcode seen in this cycle names the turn. *)
Definition named (i : observed_cycle) (v : vehicle) : vehicle :=
  let nav := pub_navigation (oc_status i) in
  if negb (Z.land (events nav) S3_EVENT_BARCODE =? 0) then v <| last_action := action_for (Navigation.action nav) |> else v.
Ltac reportable_topic := unfold reportable; rewrite !elem_of_cons; tauto.
Ltac zero_typed := unfold snapshot_typed, in_u in *; cbn -[Z.pow]; lia.
(** Name the value reported in the goal. *)
Ltac reported x := match goal with |- context [report _ _ _ ?y] => set (x := y) end.
Lemma barcode_mirror l i v s : mirrored v s -> let '(v', s') := report_barcode l i v s in v' = named i v /\ mirrored v' s'.
Proof.
  intros (c & I & M). unfold report_barcode, named. cbv zeta. case_if; [| split; [done | by exists c]]. split; [done |].
  unfold buddy1_report_barcode. reported x.
  pose proof (report_effect (lk_barcode l) s c TOPIC_BARCODE x I ltac:(reportable_topic) ltac:(zero_typed)) as E.
  destruct (report _ s TOPIC_BARCODE x) as [er s'].
  destruct E as (c' & I' & [[_ ->] | (_ & -> & _)]); eexists; (split; [exact I' |]); [| by destruct M].
  assert (M' : mirrors v (with_section TOPIC_BARCODE c x)) by (by apply (mirrors_glance v c)). by destruct M'.
Qed.
Lemma faults_mirror l i v s : mirrored v s -> let '(v', s') := report_faults l i v s in
  mirrored v' s' /\ v' = v <| last_faults := last_faults v' |> <| faults_seen := faults_seen v' |> /\
  (lk_faults l = true -> last_faults v' = active_faults i v /\ faults_seen v' = true).
Proof.
  intros (c & I & M). unfold report_faults. cbv zeta. destruct (negb (faults_seen v) || _) eqn:E.
  2:{ apply orb_false_iff in E as [E1 E2]. rewrite negb_false_iff in E1. apply negb_false_iff, Z.eqb_eq in E2.
      splits; [by exists c | by destruct v |]. by rewrite E1, E2. }
  destruct (changed_range i) as [Rc ->]. set (a := active_faults i v).
  assert (Ra : in_u 8 (Z.land a (changed_faults i))).
  { assert (Ez : Z.land a (changed_faults i) = Z.land a (changed_faults i) mod 2 ^ 8).
    { rewrite <- Z.land_ones by lia. rewrite <- Z.land_assoc. unfold changed_faults. by destruct (oc_motion i). }
    rewrite Ez. apply Z.mod_pos_bound. lia. }
  unfold u8 at 1. rewrite (wrap_id 8) by done.
  pose proof (faults_effect (lk_faults l) s c (changed_faults i) _ I Rc Ra (faults_request i a)) as F.
  destruct (buddy1_update_faults _ _ _ _) as [er s']. destruct F as (c' & I' & [[D ->] | (D & -> & ->)]); rewrite sent_delivered in D.
  - rewrite D. pose proof (merge_active i v (faults c) (inv_faults s c I) (mi_faults _ _ M)) as [E1 E2]. splits; [| by destruct v | done].
    eexists. split; [exact I' |]. destruct M as [M1 M2 M3 M4 M5]. split; try done. cbn -[Z.testbit merge_faults]. intros N. rewrite <- (M3 N). exact E2.
  - destruct (delivered er); [done |]. splits; [by exists c | by destruct v | done].
Qed.
Lemma pose_mirror st m v s : mirrored v s -> let '(v', s') := pose_report st m v s in
  mirrored v' s' /\ last_faults v' = last_faults v /\ faults_seen v' = faults_seen v /\ last_state v' = last_state v /\
  last_action v' = last_action v /\ v_divider v' = v_divider v /\ shown_echo v' = shown_echo v.
Proof.
  intros (c & I & M).
  assert (S : forall w y, exists c', store_inv (send_pose w y s) c' /\ mirrors v c').
  { intros w y. unfold send_pose, buddy1_report_pose. reported x.
    assert (T : snapshot_typed x) by (pose proof (wrap_range 16 (pose_cm w y) ltac:(lia)); unfold snapshot_typed, x, u16, in_u in *; cbn -[Z.pow wrap]; lia).
    pose proof (report_effect true s c TOPIC_POSE x I ltac:(reportable_topic) T) as E. destruct (report true s TOPIC_POSE x) as [er s'].
    destruct E as (c' & I' & [[_ ->] | (_ & -> & _)]); by exists c. }
  assert (Q : forall w y, (forall c', mirrors v c' -> mirrors w c') -> mirrored w (match y with Some (w', y) => send_pose w' y s | None => s end)).
  { intros w [[w' y] |] K; [destruct (S w' y) as (c' & I' & M'); exists c'; auto | exists c; auto]. }
  unfold pose_report. cbv zeta. destruct (pose_usable m) as [y |]; repeat case_if;
    (splits; [| done | done | done | done | done | done]); try (by exists c);
    first [apply (Q _ (Some (_, _))) | apply (Q _ None)]; by intros c' [].
Qed.
Lemma echo_request b : faults_request_ok BUDDY1_FAULT_NO_ECHO (bit_if b BUDDY1_FAULT_NO_ECHO).
Proof. by destruct b. Qed.
Lemma merge_echo old b : in_u 8 old -> let new := merge_faults old BUDDY1_FAULT_NO_ECHO (bit_if b BUDDY1_FAULT_NO_ECHO) in
  Z.land new OWNED = Z.land old OWNED /\ Z.testbit new 3 = b.
Proof.
  intros Ho. cbv zeta. assert (R : in_u 8 (bit_if b BUDDY1_FAULT_NO_ECHO)) by (unfold in_u; destruct b; unfold bit_if, BUDDY1_FAULT_NO_ECHO; lia). split.
  - apply owned_bits; [apply merge_range | done |]. rewrite !merge_bit by (lia || done).
    change (Z.testbit BUDDY1_FAULT_NO_ECHO 0) with false. change (Z.testbit BUDDY1_FAULT_NO_ECHO 1) with false.
    change (Z.testbit BUDDY1_FAULT_NO_ECHO 5) with false. cbn [negb]. rewrite !andb_true_r. by destruct b; rewrite ?orb_false_r.
  - rewrite merge_bit by (lia || done). change (Z.testbit BUDDY1_FAULT_NO_ECHO 3) with true. cbn [negb]. rewrite andb_false_r. by destruct b.
Qed.
Definition same_rest (v v' : vehicle) : Prop :=
  last_faults v' = last_faults v /\ faults_seen v' = faults_seen v /\ last_state v' = last_state v /\ last_action v' = last_action v /\
  v_divider v' = v_divider v.
Lemma echo_mirror l o v s : mirrored v s -> let '(v', s') := report_echo l o v s in
  mirrored v' s' /\ same_rest v v' /\ (lk_echo l = true -> shown_echo v' = b2z (no_echo o)).
Proof.
  intros (c & I & M). unfold report_echo. destruct (Z.eqb_spec (shown_echo v) (b2z (no_echo o))) as [E | E]; cbn [negb].
  { splits; [by exists c | done | done]. }
  pose proof (faults_effect (lk_echo l) s c BUDDY1_FAULT_NO_ECHO (bit_if (no_echo o) BUDDY1_FAULT_NO_ECHO) I ltac:(unfold in_u, BUDDY1_FAULT_NO_ECHO; lia)
    ltac:(unfold in_u, bit_if, BUDDY1_FAULT_NO_ECHO; destruct (no_echo o); lia) (echo_request _)) as F.
  destruct (buddy1_update_faults _ _ _ _) as [er s']. destruct F as (c' & I' & [[D ->] | (D & -> & ->)]); rewrite sent_delivered in D.
  - rewrite D. destruct (merge_echo (faults c) (no_echo o) (inv_faults s c I)) as [E1 E2]. splits; [| done | done]. eexists. split; [exact I' |].
    destruct M as [M1 M2 M3 M4 M5]. split; try done; cbn -[Z.testbit merge_faults Z.land]; [by rewrite E1 |]. intros _. rewrite E2. by destruct (no_echo o).
  - destruct (delivered er); [done |]. splits; [by exists c | done | done].
Qed.
Lemma scan_mirror l route o v s : in_u 16 (width_mm (obs_profile o)) -> mirrored v s -> let '(v', s') := report_scan l route o v s in
  mirrored v' s' /\ same_rest v v' /\ shown_echo v' = shown_echo v /\
  (lk_obstacle l = true -> profile_valid (obs_profile o) = false -> obstacle_gone v' = true).
Proof.
  intros Tw (c & I & M). unfold report_scan. cbv zeta. destruct (obs_scan_done o && profile_valid (obs_profile o) && _) eqn:E.
  - unfold buddy1_report_obstacle. reported x.
    pose proof (report_effect (lk_obstacle l) s c TOPIC_OBSTACLE x I ltac:(reportable_topic) ltac:(zero_typed)) as F.
    apply andb_true_iff in E as [E _]. apply andb_true_iff in E as [_ E]. rewrite E.
    destruct (report _ s TOPIC_OBSTACLE x) as [er s']. destruct F as (c' & I' & [[D ->] | (D & -> & _)]); rewrite sent_delivered in D.
    + rewrite D. splits; try done. eexists. split; [exact I' |]. destruct M as [M1 M2 M3 M4 M5]. by split.
    + destruct (delivered er); [done |]. splits; try done. by exists c.
  - destruct (negb (profile_valid (obs_profile o)) && negb (obstacle_gone v)) eqn:G.
    + pose proof (invalidate_effect (lk_obstacle l) s c TOPIC_OBSTACLE I ltac:(cbn; tauto)) as F.
      change (topic_code TOPIC_OBSTACLE) with BUDDY1_TOPIC_OBSTACLE in F. destruct (buddy1_invalidate _ _ _) as [er s'].
      destruct F as (c' & I' & [[-> ->] | (D & -> & ->)]).
      * splits; try done. eexists. split; [exact I' |]. destruct M as [M1 M2 M3 M4 M5]. by split.
      * rewrite bool_decide_false by done. splits; try done. by exists c.
    + splits; try done; [by exists c |]. intros _ N. rewrite N in G. cbn in G. by apply negb_false_iff in G.
Qed.
Lemma state_mirror l st v s : BUDDY1_STATE_STOPPED <= st <= BUDDY1_STATE_ERROR -> mirrored v s -> let '(v', s') := report_state l st v s in
  mirrored v' s' /\ v' = v <| last_state := last_state v' |> /\ (lk_state l = true -> last_state v' = st).
Proof.
  intros Hst (c & I & M). unfold report_state. destruct (Z.eqb_spec st (last_state v)) as [E | E]; cbn [negb].
  { splits; [by exists c | by destruct v | done]. }
  unfold buddy1_report_robot_state. reported x.
  pose proof (report_effect (lk_state l) s c TOPIC_STATE x I ltac:(reportable_topic) ltac:(zero_typed)) as F.
  destruct (report _ s TOPIC_STATE x) as [er s']. destruct F as (c' & I' & [[D ->] | (D & -> & W)]); rewrite sent_delivered in D.
  - rewrite D. splits; [| by destruct v | done]. eexists. split; [exact I' |]. destruct M as [M1 M2 M3 M4 M5]. by split.
  - destruct (delivered er); [done |]. splits; [by exists c | by destruct v |]. intros L. destruct W as [[W _] | W]; [congruence |].
    cbn in W. by rewrite (proj2 (outside_false _ st _)) in W.
Qed.
Lemma shown_state_range app_s5 i v : BUDDY1_STATE_STOPPED <= shown_state app_s5 i v <= BUDDY1_STATE_ERROR.
Proof.
  unfold shown_state, BUDDY1_STATE_STOPPED, BUDDY1_STATE_ERROR. case_if; [unfold BUDDY1_STATE_AVOIDING_OBSTACLE; lia |].
  unfold wire_state. destruct (pub_state _); repeat case_if; vm_compute; split; discriminate.
Qed.
Definition speeds (i : observed_cycle) : option (Z * Z) :=
  match oc_motion i with
  | Some m =>
      if st_valid m && negb (st_busy m) && negb (mms_bad (wheel_mms (speed_left_mps m))) && negb (mms_bad (wheel_mms (speed_right_mps m)))
      then Some (trunc (wheel_mms (speed_left_mps m)), trunc (wheel_mms (speed_right_mps m))) else None
  | None => None
  end.
Lemma mms_limits : float_of_Z BUDDY1_SPEED_MAX_MMS = S754_finite false 16711680 (-15) /\
  float_of_Z (- BUDDY1_SPEED_MAX_MMS) = -. S754_finite false 16711680 (-15).
Proof. by vm_compute. Qed.
Lemma mms_bound x : float_ok x -> mms_bad (wheel_mms x) = false -> -510 <= trunc (wheel_mms x) <= 510.
Proof.
  intros Ok. unfold mms_bad. destruct mms_limits as [-> ->]. set (y := wheel_mms x).
  assert (Oy : float_ok y) by (apply fmul_ok; [done | by vm_compute]). rewrite !orb_false_iff, negb_false_iff. intros [[N L] U].
  assert (F : isnan y = false) by (by destruct y).
  assert (L' : (y >=. -. S754_finite false 16711680 (-15)) = true) by (by apply not_flt).
  assert (U' : (y <=. S754_finite false 16711680 (-15)) = true) by (by apply not_flt).
  pose proof (between_within y 16711680 (-15) Oy ltac:(lia) ltac:(lia) L' U') as W.
  pose proof (trunc_within (negb (y >=. fzero)) 16711680 (-15) 510 y ltac:(lia) ltac:(by vm_compute) W) as T. by destruct (negb _); lia.
Qed.
Lemma speeds_mirror l i v s : cycle_typed i -> mirrored v s -> let '(_, v', s') := report_speeds l i v s in
  exists c, store_inv s' c /\ mirrors v' c /\ v' = v <| v_divider := v_divider v' |> /\
    (20 <= wrap 5 (v_divider v + 1) -> lk_motion l = true ->
     match speeds i with
     | Some (a, b) => motion_valid c = true /\ left_mms c = nearest_even a /\ right_mms c = nearest_even b
     | None => motion_valid c = false
     end).
Proof.
  intros T (c & I & M). unfold report_speeds. cbv zeta. destruct (Z.leb_spec 20 (wrap 5 (v_divider v + 1))) as [D | D].
  2:{ exists c. splits; [done | by destruct M | by destruct v | lia]. }
  assert (G : let s' := (buddy1_invalidate (lk_motion l) s BUDDY1_TOPIC_MOTION).2 in exists c', store_inv s' c' /\
    mirrors (v <| v_divider := 0 |>) c' /\ (lk_motion l = true -> motion_valid c' = false)).
  { pose proof (invalidate_effect (lk_motion l) s c TOPIC_MOTION I ltac:(cbn; tauto)) as F.
    change (topic_code TOPIC_MOTION) with BUDDY1_TOPIC_MOTION in F. cbv zeta. destruct (buddy1_invalidate _ _ _) as [er s'].
    destruct F as (c' & I' & [[-> ->] | (N & -> & ->)]); eexists; (splits; [exact I' | by destruct M | done]). }
  cbv zeta in G. unfold speeds. destruct (oc_motion i) as [m |] eqn:Em.
  2:{ destruct G as (c' & I' & M' & Q). exists c'. splits; [done | done | by destruct v | auto]. }
  destruct (st_valid m) eqn:V, (st_busy m) eqn:Bz; cbn [negb orb andb];
    try (destruct G as (c' & I' & M' & Q); exists c'; splits; [done | done | by destruct v | auto]).
  destruct (ct_speeds i T m Em) as [Ol Or]. set (x := wheel_mms (speed_left_mps m)). set (y := wheel_mms (speed_right_mps m)).
  destruct (mms_bad x) eqn:Bx; cbn [orb negb andb]; [destruct G as (c' & I' & M' & Q); exists c'; splits; [done | done | by destruct v | auto] |].
  destruct (mms_bad y) eqn:By; cbn [orb negb andb]; [destruct G as (c' & I' & M' & Q); exists c'; splits; [done | done | by destruct v | auto] |].
  pose proof (mms_bound _ Ol Bx) as Hx. pose proof (mms_bound _ Or By) as Hy. fold x in Hx. fold y in Hy.
  rewrite !(swrap_id 16) by lia. unfold buddy1_report_motion. reported z.
  pose proof (report_effect (lk_motion l) s c TOPIC_MOTION z I ltac:(reportable_topic) ltac:(zero_typed)) as F.
  destruct (report _ s TOPIC_MOTION z) as [er s']. destruct F as (c' & I' & [[_ ->] | (_ & -> & W)]); eexists; (split; [exact I' |]).
  - splits; [by destruct M | by destruct v | done].
  - splits; [by destruct M | by destruct v |]. intros _ L. destruct W as [[W _] | W]; [congruence |]. exfalso. revert W. cbn [write_fields].
    change (left_mms z) with (trunc x). change (right_mms z) with (trunc y). unfold BUDDY1_SPEED_MAX_MMS.
    by rewrite (proj2 (outside_false _ (trunc x) _)), (proj2 (outside_false _ (trunc y) _)) by lia.
Qed.

(** ** All steps that reach the store *)
(** The network task takes messages and owns the Wi-Fi bit. *)
Definition network_op (op : store_op) : Prop :=
  match op with STake => True | SFaults _ changed active => changed = BUDDY1_FAULT_WIFI /\ in_u 8 active | _ => False end.
(** The store operations of the mirror itself. *)
Definition vehicle_op (op : store_op) : Prop :=
  store_op_ok op /\
  match op with
  | SReport _ t _ => t <> TOPIC_HUMP
  | SFaults _ changed _ => Z.testbit changed 2 = false
  | SInvalidate _ type => type = BUDDY1_TOPIC_MOTION \/ type = BUDDY1_TOPIC_OBSTACLE
  | STake => False
  end.
Lemma vehicle_foreign op : vehicle_op op -> foreign op.
Proof. intros [Ok V]. split; [done |]. destruct op; try done. by destruct V as [-> | ->]. Qed.
Lemma report_one lk s t x : reportable t -> t <> TOPIC_HUMP -> snapshot_typed x -> runs vehicle_op s (report lk s t x).2.
Proof. intros R N T. by apply (runs_one vehicle_op s (SReport lk t x)). Qed.
Lemma update_one lk s changed active : in_u 8 changed -> in_u 8 active -> Z.testbit changed 2 = false ->
  runs vehicle_op s (buddy1_update_faults lk s changed active).2.
Proof. intros Rc Ra N. by apply (runs_one vehicle_op s (SFaults lk changed active)). Qed.
Lemma invalidate_one lk s type : type = BUDDY1_TOPIC_MOTION \/ type = BUDDY1_TOPIC_OBSTACLE -> runs vehicle_op s (buddy1_invalidate lk s type).2.
Proof.
  intros H. apply (runs_one vehicle_op s (SInvalidate lk type)). split; [| done].
  unfold store_op_ok, in_u. destruct H as [-> | ->]; [unfold BUDDY1_TOPIC_MOTION | unfold BUDDY1_TOPIC_OBSTACLE]; lia.
Qed.
Lemma barcode_runs l i v s : runs vehicle_op s (report_barcode l i v s).2.
Proof. unfold report_barcode. cbv zeta. case_if; [| apply runs_refl]. apply report_one; [reportable_topic | done | zero_typed]. Qed.
Lemma faults_runs l i v s : runs vehicle_op s (report_faults l i v s).2.
Proof.
  unfold report_faults. cbv zeta. case_if; [| apply runs_refl]. destruct (changed_range i) as [Rc ->].
  assert (N : Z.testbit (changed_faults i) 2 = false) by (unfold changed_faults; by destruct (oc_motion i)).
  pose proof (update_one (lk_faults l) s (changed_faults i) (u8 (Z.land (active_faults i v) (changed_faults i))) Rc (wrap_range 8 _ ltac:(lia)) N) as U.
  by destruct (buddy1_update_faults _ _ _ _).
Qed.
Lemma send_runs v m s : runs vehicle_op s (send_pose v m s).
Proof.
  apply report_one; [reportable_topic | done |]. pose proof (wrap_range 16 (pose_cm v m) ltac:(lia)).
  unfold snapshot_typed, u16, in_u in *. cbn -[Z.pow wrap]. lia.
Qed.
Lemma pose_runs st m v s : runs vehicle_op s (pose_report st m v s).2.
Proof. unfold pose_report. cbv zeta. destruct (pose_usable m); repeat case_if; cbn [snd]; auto using runs_refl, send_runs. Qed.
Lemma echo_runs l o v s : runs vehicle_op s (report_echo l o v s).2.
Proof.
  unfold report_echo. case_if; [| apply runs_refl].
  pose proof (update_one (lk_echo l) s BUDDY1_FAULT_NO_ECHO (bit_if (no_echo o) BUDDY1_FAULT_NO_ECHO) ltac:(unfold in_u, BUDDY1_FAULT_NO_ECHO; lia)
    ltac:(unfold in_u, bit_if, BUDDY1_FAULT_NO_ECHO; destruct (no_echo o); lia) eq_refl) as U. by destruct (buddy1_update_faults _ _ _ _).
Qed.
Lemma scan_runs l route o v s : in_u 16 (width_mm (obs_profile o)) -> runs vehicle_op s (report_scan l route o v s).2.
Proof.
  intros Tw. unfold report_scan. cbv zeta. case_if; [| case_if; [| apply runs_refl]].
  - unfold buddy1_report_obstacle. reported x. pose proof (report_one (lk_obstacle l) s TOPIC_OBSTACLE x ltac:(reportable_topic) ltac:(done) ltac:(zero_typed)) as U.
    by destruct (report _ s TOPIC_OBSTACLE x).
  - pose proof (invalidate_one (lk_obstacle l) s BUDDY1_TOPIC_OBSTACLE ltac:(by right)) as U. by destruct (buddy1_invalidate _ _ _).
Qed.
Lemma state_runs l st v s : runs vehicle_op s (report_state l st v s).2.
Proof.
  unfold report_state. case_if; [| apply runs_refl]. unfold buddy1_report_robot_state. reported x.
  pose proof (report_one (lk_state l) s TOPIC_STATE x ltac:(reportable_topic) ltac:(done) ltac:(zero_typed)) as U. by destruct (report _ s TOPIC_STATE x).
Qed.
Lemma speeds_runs l i v s : runs vehicle_op s (report_speeds l i v s).2.
Proof.
  unfold report_speeds. cbv zeta. case_if; [| apply runs_refl]. destruct (oc_motion i) as [m |]; [| apply invalidate_one; by left].
  repeat case_if; try (apply invalidate_one; by left). apply report_one; [reportable_topic | done | zero_typed].
Qed.

Section System.
Context (app_s5 : bool).
Inductive vehicle_reached : vehicle -> terrain_control_t -> store -> Prop :=
| vr_boot : vehicle_reached vehicle_boot terrain_control_init store_boot
| vr_observe v k s l i v' k' s' : vehicle_reached v k s -> cycle_typed i ->
    vehicle_controller_observe app_s5 l i v k s = (v', k', s') -> vehicle_reached v' k' s'
| vr_begin v k s lk token now b k' s' : vehicle_reached v k s -> terrain_control_begin lk token now k s = (b, k', s') ->
    vehicle_reached v k' s'
| vr_poll v k s now reading events c : vehicle_reached v k s -> reading_ok reading ->
    vehicle_reached v (terrain_control_poll app_s5 now reading events k c).1 s
| vr_clear v k s : vehicle_reached v k s -> vehicle_reached v (terrain_control_clear_fault k) s
| vr_network v k s op : vehicle_reached v k s -> network_op op -> vehicle_reached v k (store_run s op).2.

Lemma observe_mirror l i v k s : cycle_typed i -> tied k s -> mirrored v s ->
  let '(v', k', s') := vehicle_controller_observe app_s5 l i v k s in
  exists c, store_inv s' c /\ mirrors v' c /\
    (lk_faults l = true -> last_faults v' = active_faults i v /\ faults_seen v' = true) /\
    (lk_state l = true -> last_state v' = shown_state app_s5 i (named i v)) /\
    (app_s5 = true -> forall o, oc_obstacle i = Some o ->
       (lk_echo l = true -> shown_echo v' = b2z (no_echo o)) /\
       (lk_obstacle l = true -> profile_valid (obs_profile o) = false -> obstacle_gone v' = true)) /\
    (20 <= wrap 5 (v_divider v + 1) -> lk_motion l = true ->
     match speeds i with
     | Some (a, b) => motion_valid c = true /\ left_mms c = nearest_even a /\ right_mms c = nearest_even b
     | None => motion_valid c = false
     end).
Proof.
  intros T Ti (c & I & M). unfold vehicle_controller_observe.
  assert (M0 : mirrored v (terrain_control_report (lk_imu l) (lk_hump l) (lk_live l) k s).2).
  { destruct (ti_store _ _ Ti) as (c0 & I0 & S0). assert (c0 = c) as -> by (pose proof (si_view _ _ I); pose proof (si_view _ _ I0); congruence).
    destruct (control_report_own (lk_imu l) (lk_hump l) (lk_live l) k s c Ti I S0) as (ops & -> & F).
    apply (runs_mirror v ops s c I M). eapply Forall_impl; [exact F |]. apply terrain_elsewhere. }
  destruct (terrain_control_report _ _ _ k s) as [k' s0]. cbn [snd] in M0.
  pose proof (barcode_mirror l i v s0 M0) as R1. destruct (report_barcode l i v s0) as [v1 s1]. destruct R1 as [-> M1].
  pose proof (faults_mirror l i (named i v) s1 M1) as R2. destruct (report_faults l i (named i v) s1) as [v2 s2]. destruct R2 as (M2 & E2 & A2).
  pose proof (pose_mirror (pub_state (oc_status i)) (oc_motion i) v2 s2 M2) as R3. destruct (pose_report _ _ v2 s2) as [v3 s3].
  destruct R3 as (M3 & F3 & G3 & S3 & L3 & D3 & H3).
  assert (R4 : let '(v', s') := report_obstacle app_s5 l i v3 s3 in mirrored v' s' /\ same_rest v3 v' /\
    (app_s5 = true -> forall o, oc_obstacle i = Some o -> (lk_echo l = true -> shown_echo v' = b2z (no_echo o)) /\
       (lk_obstacle l = true -> profile_valid (obs_profile o) = false -> obstacle_gone v' = true))).
  { unfold report_obstacle. destruct app_s5; [| splits; done]. destruct (oc_obstacle i) as [o |] eqn:Eo; [| splits; done].
    pose proof (echo_mirror l o v3 s3 M3) as Q1. destruct (report_echo l o v3 s3) as [va sa]. destruct Q1 as (Ma & Sa & Ea).
    pose proof (scan_mirror l (Z.shiftr (oc_control i) 6) o va sa (ct_obstacle i T o Eo) Ma) as Q2. destruct (report_scan _ _ _ _ _) as [vb sb].
    destruct Q2 as (Mb & Sb & Eb & Gb). splits; [done | unfold same_rest in *; intuition congruence |].
    intros _ o' [= <-]. split; [intros L; rewrite Eb; by apply Ea | done]. }
  destruct (report_obstacle app_s5 l i v3 s3) as [v4 s4]. destruct R4 as (M4 & (Q1 & Q2 & Q3 & Q4 & Q5) & O4).
  pose proof (state_mirror l (shown_state app_s5 i v2) v4 s4 (shown_state_range app_s5 i v2) M4) as R5.
  destruct (report_state _ _ v4 s4) as [v5 s5]. destruct R5 as (M5 & E5 & A5).
  pose proof (speeds_mirror l i v5 s5 T M5) as R6. destruct (report_speeds l i v5 s5) as [[ret v6] s6].
  destruct R6 as (c6 & I6 & M6 & E6 & A6). set (v7 := if negb ret && _ then _ else v6).
  assert (E7 : last_faults v7 = last_faults v6 /\ faults_seen v7 = faults_seen v6 /\ last_state v7 = last_state v6 /\ shown_echo v7 = shown_echo v6 /\
    obstacle_gone v7 = obstacle_gone v6 /\ mirrors v7 c6) by (subst v7; destruct M6; by case_if).
  destruct E7 as (X1 & X2 & X3 & X4 & X5 & M7). rewrite E6, E5 in X1, X2, X3, X4, X5. cbn in X1, X2, X3, X4, X5.
  assert (An : active_faults i (named i v) = active_faults i v) by (unfold named; by case_if).
  assert (Sn : shown_state app_s5 i v2 = shown_state app_s5 i (named i v)).
  { unfold shown_state, wire_state. assert (last_action v2 = last_action (named i v)) as -> by (rewrite E2; done). done. }
  assert (Dn : v_divider v5 = v_divider v).
  { rewrite E5. cbn. rewrite Q5, D3, E2. cbn. unfold named. by case_if. }
  exists c6. rewrite X1, X2, X3, X4, X5. splits; [done | done | | | | by rewrite <- Dn].
  - intros L. rewrite Q1, Q2, F3, G3, <- An. by apply A2.
  - intros L. rewrite <- Sn. by apply A5.
  - exact O4.
Qed.

Lemma runs_foreign k ops : forall s c, store_inv s c -> shows k c -> Forall vehicle_op ops -> exists c', store_inv (store_runs s ops) c' /\ shows k c'.
Proof.
  induction ops as [| op ops IH]; intros s c I S F; [by exists c |]. apply Forall_cons in F as [F1 F2].
  destruct (foreign_ok k s c op I S (vehicle_foreign op F1)) as (c' & I' & S'). exact (IH _ c' I' S' F2).
Qed.
Lemma observe_tied l i v k s : cycle_typed i -> tied k s -> let '(_, k', s') := vehicle_controller_observe app_s5 l i v k s in tied k' s'.
Proof.
  intros T [Ts Hu (c & I & S)]. unfold vehicle_controller_observe.
  pose proof (control_report_ok (lk_imu l) (lk_hump l) (lk_live l) k s c Ts Hu I S) as R. destruct (terrain_control_report _ _ _ k s) as [k' s0].
  destruct R as (Et & Eh & c0 & I0 & S0 & _).
  pose proof (barcode_runs l i v s0) as R1. destruct (report_barcode l i v s0) as [v1 s1].
  pose proof (faults_runs l i v1 s1) as R2. destruct (report_faults l i v1 s1) as [v2 s2].
  pose proof (pose_runs (pub_state (oc_status i)) (oc_motion i) v2 s2) as R3. destruct (pose_report _ _ v2 s2) as [v3 s3].
  assert (R4 : runs vehicle_op s3 (report_obstacle app_s5 l i v3 s3).2).
  { unfold report_obstacle. destruct app_s5; [| apply runs_refl]. destruct (oc_obstacle i) as [o |] eqn:Eo; [| apply runs_refl].
    pose proof (echo_runs l o v3 s3) as Q. destruct (report_echo l o v3 s3) as [va sa]. eapply runs_trans; [exact Q |].
    apply scan_runs. by apply (ct_obstacle i T). }
  destruct (report_obstacle app_s5 l i v3 s3) as [v4 s4]. pose proof (state_runs l (shown_state app_s5 i v2) v4 s4) as R5.
  destruct (report_state _ _ v4 s4) as [v5 s5]. pose proof (speeds_runs l i v5 s5) as R6. destruct (report_speeds l i v5 s5) as [[ret v6] s6].
  cbn [snd] in *. assert (Q : runs vehicle_op s0 s6) by (do 5 (eapply runs_trans; [eassumption |]); done). destruct Q as (ops & -> & F).
  split; [by rewrite Et | by rewrite Eh | by apply (runs_foreign k' ops s0 c0)].
Qed.
Lemma network_effects v k s op : network_op op -> tied k s -> mirrored v s -> tied k (store_run s op).2 /\ mirrored v (store_run s op).2.
Proof.
  intros N [T Hu (c & I & S)] (c' & I' & M). assert (Ok : store_op_ok op) by (destruct op; try done; destruct N as [-> Ha]; split; [unfold in_u, BUDDY1_FAULT_WIFI; lia | done]).
  split.
  - split; [done | done |]. apply (foreign_ok k s c op I S). split; [done |]. destruct op; try done. by destruct N as [-> _].
  - apply (elsewhere_ok v s c' op I' M). split; [done |]. destruct op; try done. by destruct N as [-> _].
Qed.
Lemma begin_mirror lk token now v k s b k' s' : terrain_control_begin lk token now k s = (b, k', s') -> mirrored v s -> mirrored v s'.
Proof.
  unfold terrain_control_begin. destruct (if terrain_control_ready k now then token else None) as [t |]; [| by intros [= _ _ <-]].
  intros E (c & I & M). assert (s' = (store_run s (SInvalidate lk BUDDY1_TOPIC_HUMP)).2) as ->.
  { cbn [store_run]. destruct (buddy1_invalidate _ _ _). by injection E as _ _ <-. }
  apply (elsewhere_ok v s c _ I M). split; [unfold store_op_ok, in_u, BUDDY1_TOPIC_HUMP; lia | done].
Qed.
Lemma vehicle_reached_inv v k s : vehicle_reached v k s -> tied k s /\ mirrored v s.
Proof.
  induction 1 as [| v k s l i v' k' s' _ [Ti M] T E | v k s lk token now b k' s' _ [Ti M] E | v k s now reading events c _ [Ti M] Ok | v k s _ [Ti M] | v k s op _ [Ti M] N].
  - split; [exact (reached_tied app_s5 _ _ (tr_boot app_s5)) |]. exists zero_snapshot. split; [apply boot_inv | by split].
  - pose proof (observe_tied l i v k s T Ti) as A. pose proof (observe_mirror l i v k s T Ti M) as B. rewrite E in A, B.
    split; [done |]. destruct B as (c & I & M' & _). by exists c.
  - split; [by eapply begin_tied | by eapply begin_mirror].
  - split; [| done]. destruct Ti as [T Hu (y & I & S)]. destruct (poll_memory app_s5 now reading events k c Ok T Hu) as (Me & T' & Hu').
    split; [done | done |]. exists y. split; [done | by eapply shows_memory].
  - split; [| done]. destruct Ti as [T Hu (y & I & S)]. split; [done | done |]. exists y. split; [done |]. by apply (shows_memory k).
  - by apply network_effects.
Qed.

(** ** The guarantee *)

(** The telemetry shows the car as the cycle saw it.  Although the mirror sends
    only what changed and remembers what it sent, after any sequence of cycles -
    locks granted or not, outbox full or not - and of other tasks' operations, one
    cycle with its locks granted leaves a cache in which the stall, encoder and IR
    bits are exactly the active faults, the robot state is the state of this cycle
    (with the turn named by the last barcode, or the detour), with subsystem 5 the
    no-echo bit is the sensor's and an invalid profile has no obstacle section, and
    every twentieth cycle the wheel speeds are those measured, to 2 mm/s, or absent
    when they are unknown or beyond 510 mm/s; nothing the car does makes a report
    that is out of range. *)
Theorem telemetry_shows_vehicle v k s i : vehicle_reached v k s -> cycle_typed i ->
  let '(v', k', s') := vehicle_controller_observe app_s5 all_locks i v k s in
  exists c, view s' = Some c /\ faults_valid c = true /\ Z.land (faults c) OWNED = active_faults i v /\
    robot_state_valid c = true /\ robot_state c = shown_state app_s5 i (named i v) /\
    (app_s5 = true -> forall o, oc_obstacle i = Some o -> Z.testbit (faults c) 3 = no_echo o /\
       (profile_valid (obs_profile o) = false -> obstacle_valid c = false)) /\
    (20 <= wrap 5 (v_divider v + 1) ->
     match speeds i with
     | Some (a, b) => motion_valid c = true /\ left_mms c = nearest_even a /\ right_mms c = nearest_even b
     | None => motion_valid c = false
     end).
Proof.
  intros R T. destruct (vehicle_reached_inv v k s R) as [Ti M]. pose proof (observe_mirror all_locks i v k s T Ti M) as Q.
  destruct (vehicle_controller_observe app_s5 all_locks i v k s) as [[v' k'] s']. destruct Q as (c & I & [M1 M2 M3 M4 M5] & Qf & Qs & Qo & Qm).
  destruct (Qf eq_refl) as [F1 F2]. specialize (Qs eq_refl). pose proof (shown_state_range app_s5 i (named i v)) as Hs.
  destruct M4 as [V4 E4]; [rewrite Qs; unfold BUDDY1_STATE_STOPPED, BUDDY1_STATE_UNKNOWN in *; lia |].
  exists c. splits; [apply I | by apply M2 | by rewrite M1 | done | by rewrite E4 | | by intros D; apply Qm].
  intros A o Eo. destruct (Qo A o Eo) as [Qe Qg]. specialize (Qe eq_refl). split; [| intros P; apply M5; by apply Qg].
  rewrite M3, Qe; [by destruct (no_echo o) | rewrite Qe; by destruct (no_echo o)].
Qed.
End System.

(** A line-following cycle with a stalled wheel and 200 mm/s on both wheels. *)
Definition bench_motion : motion_status_t :=
  Build_motion_status_t 0 MOTION_FAULT_NONE 0 (flit 2 10) (flit 2 10) fzero fzero false false true 1.
Definition bench_cycle (st : s3_drive_state_t) : observed_cycle :=
  {| oc_status := bench_status <| pub_state := st |>; oc_motion := Some bench_motion; oc_control := 0; oc_obstacle := None; oc_map := map_boot |}.
Lemma telemetry_shows_vehicle_witness :
  let i := bench_cycle S3_DRIVE_FOLLOW in
  (let '(v', k', s') := vehicle_controller_observe true all_locks i vehicle_boot terrain_control_init store_boot in
   exists c, view s' = Some c /\ faults_valid c = true /\ Z.land (faults c) OWNED = active_faults i vehicle_boot /\
     robot_state_valid c = true /\ robot_state c = shown_state true i (named i vehicle_boot) /\
     (true = true -> forall o, oc_obstacle i = Some o -> Z.testbit (faults c) 3 = no_echo o /\
        (profile_valid (obs_profile o) = false -> obstacle_valid c = false)) /\
     (20 <= wrap 5 (v_divider vehicle_boot + 1) ->
      match speeds i with
      | Some (a, b) => motion_valid c = true /\ left_mms c = nearest_even a /\ right_mms c = nearest_even b
      | None => motion_valid c = false
      end)) /\
  active_faults i vehicle_boot = 1 /\ shown_state true i vehicle_boot = BUDDY1_STATE_LINE_FOLLOWING /\ speeds i = Some (200, 200).
Proof.
  split; [| splits; vm_compute; reflexivity]. apply (telemetry_shows_vehicle true); [apply vr_boot |].
  split; [split; vm_compute; congruence | | done]. intros m [= <-]. split; vm_compute; reflexivity.
Defined.
