(* ===== verification/Capture.v ===== *)
(** * Barcode capture

    Models [controller/barcode_capture.{c,h}]: during a run, stretches of barcode
    samples (episodes) are copied to a fixed pool, each with the samples of the last
    1.5 s before it; after the run the capture is dumped as text lines or as binary
    packets, one per call of a cursor.  Characters are their codes. *)
From Stdlib Require Import Strings.String Strings.Ascii.
From S2P Require Import Prelude CFloat BitCodec IntegrationCodec.

Definition BCAP_GAP_FLAG_US : Z := 30000.
Definition BCAP_POOL : Z := 2400.
Definition BCAP_MAX_EPISODES : Z := 12.
Definition S3_REC_PRE_US : Z := 1500000.
Definition BCAP_PRE : Z := S3_REC_PRE_US / S3_SAMPLE_PERIOD_US.
Definition BCAP_END_QUIET : Z := 400 / S3_SAMPLE_PERIOD_MS.
Definition BCAP_PER_LINE : Z := 6.
Definition BCAP_WIRE_VERSION : Z := 1.
Definition BCAP_WIRE_MAX : Z := 47.

(** ** State *)
Record bcap_sample_t := { raw : Z; mm : Z; dark4 : Z; sflags : Z; dt_ms : Z }.
Definition zero_bsample : bcap_sample_t := {| raw := 0; mm := 0; dark4 := 0; sflags := 0; dt_ms := 0 |}.
Record bcap_episode_t := { first : Z; ecount : Z; start_ms : Z; origin_m : double }.
#[export] Instance episode_settable : Settable bcap_episode_t := fun r => Build_bcap_episode_t (first r) (ecount r) (start_ms r) (origin_m r).
Definition zero_episode : bcap_episode_t := {| first := 0; ecount := 0; start_ms := 0; origin_m := fzero |}.
Record bcap_t := {
  pool : list bcap_sample_t; pre : list bcap_sample_t; pre_m : list double; episode : list bcap_episode_t;
  run_start_us : Z; last_us : Z; used : Z; pre_head : Z; pre_count : Z; quiet : Z; episodes : Z; dropped : Z;
  cap_active : bool; have_last : bool; decoded : Z; rejected : Z; timing : Z; overflow : Z; letters : list Z; letter_count : Z
}.
#[export] Instance bcap_settable : Settable bcap_t := fun r =>
  Build_bcap_t (pool r) (pre r) (pre_m r) (episode r) (run_start_us r) (last_us r) (used r) (pre_head r) (pre_count r) (quiet r)
    (episodes r) (dropped r) (cap_active r) (have_last r) (decoded r) (rejected r) (timing r) (overflow r) (letters r) (letter_count r).
Record bcap_input_t := {
  t_us : Z; in_raw : Z; darkness : Z; surface : Z; status : Z; in_letter : Z; in_collecting : bool; in_rearming : bool; centre_m : double
}.
Definition zero_bcap : bcap_t :=
  {| pool := replicate (Z.to_nat BCAP_POOL) zero_bsample; pre := replicate (Z.to_nat BCAP_PRE) zero_bsample;
     pre_m := replicate (Z.to_nat BCAP_PRE) fzero; episode := replicate (Z.to_nat BCAP_MAX_EPISODES) zero_episode;
     run_start_us := 0; last_us := 0; used := 0; pre_head := 0; pre_count := 0; quiet := 0; episodes := 0; dropped := 0;
     cap_active := false; have_last := false; decoded := 0; rejected := 0; timing := 0; overflow := 0;
     letters := replicate 9 0; letter_count := 0 |}.

(** ** Recording *)
Definition bcap_begin_run (now : Z) : bcap_t := zero_bcap <| run_start_us := now |>.
Definition make_sample (c : bcap_t) (i : bcap_input_t) : bcap_sample_t * bcap_t :=
  let dt := if have_last c then elapsed (t_us i) (last_us c) else 0 in
  ({| raw := in_raw i; mm := 0; dark4 := u8 ((if 1000 <? darkness i then 1000 else darkness i) / 4);
      sflags := u8 (Z.lor (Z.lor (Z.lor (Z.lor (Z.land (surface i) 3) (Z.shiftl (Z.land (status i) 7) 2))
                     (if in_collecting i then 0x20 else 0)) (if in_rearming i then 0x40 else 0))
                     (if BCAP_GAP_FLAG_US <? dt then 0x80 else 0));
      dt_ms := u8 (if 255 <? dt / 1000 then 255 else dt / 1000) |},
   c <| last_us := t_us i |> <| have_last := true |>).
Definition rel_mm (origin now : double) : Z :=
  let d := ((now - origin) * dlit 1000 1)%f64 in
  if negb (d >. fzero) then 0 else u16 (trunc (if d >. dlit 65535 1 then dlit 65535 1 else (d + dlit 5 10)%f64)).
Definition close_episode (c : bcap_t) : bcap_t :=
  if cap_active c then c <| cap_active := false |> <| episodes := u8 (episodes c + 1) |> else c.
Definition count_status (i : bcap_input_t) (c : bcap_t) : bcap_t :=
  if status i =? 1 then
    let c := c <| decoded := u16 (decoded c + 1) |> in
    if letter_count c <? 8 then
      let c := c <| letters := setZ (letters c) (letter_count c) (in_letter i) |> <| letter_count := u8 (letter_count c + 1) |> in
      c <| letters := setZ (letters c) (letter_count c) 0 |>
    else c
  else if status i =? 2 then c <| rejected := u16 (rejected c + 1) |>
  else if status i =? 3 then c <| timing := u16 (timing c + 1) |>
  else if status i =? 4 then c <| overflow := u16 (overflow c + 1) |>
  else c.
(** [c->pool[c->used++] = p; e->count++;] for the episode in progress. *)
Definition append_sample (c : bcap_t) (p : bcap_sample_t) : bcap_t :=
  let e := nthZ zero_episode (episode c) (episodes c) in
  c <| pool := setZ (pool c) (used c) p |> <| used := u16 (used c + 1) |>
    <| episode := setZ (episode c) (episodes c) (e <| ecount := u16 (ecount e + 1) |>) |>.
Definition with_mm (p : bcap_sample_t) (m : Z) : bcap_sample_t :=
  {| raw := raw p; mm := m; dark4 := dark4 p; sflags := sflags p; dt_ms := dt_ms p |}.
Definition oldest (c : bcap_t) : Z := (pre_head c + BCAP_PRE - pre_count c) mod BCAP_PRE.
(** The loop over the samples before the trigger. *)
Fixpoint copy_pre (n : nat) (k : Z) (origin : double) (c : bcap_t) : bcap_t :=
  match n with
  | O => c
  | S n => copy_pre n ((k + 1) mod BCAP_PRE) origin
             (append_sample c (with_mm (nthZ zero_bsample (pre c) k) (rel_mm origin (nthZ fzero (pre_m c) k))))
  end.
Definition open_episode (i : bcap_input_t) (c : bcap_t) : bcap_t :=
  if (BCAP_MAX_EPISODES <=? episodes c) || (BCAP_POOL <? used c + pre_count c + 1)
  then if dropped c <? 255 then c <| dropped := u8 (dropped c + 1) |> else c
  else
    let origin := if negb (pre_count c =? 0) then nthZ fzero (pre_m c) (oldest c) else centre_m i in
    let now_ms := elapsed (t_us i) (run_start_us c) / 1000 in
    let back_ms := u32 (pre_count c * S3_SAMPLE_PERIOD_MS) in
    let e := {| first := used c; ecount := 0; start_ms := if back_ms <? now_ms then u32 (now_ms - back_ms) else 0; origin_m := origin |} in
    let c := c <| episode := setZ (episode c) (episodes c) e |> in
    copy_pre (Z.to_nat (pre_count c)) (oldest c) origin c <| cap_active := true |> <| quiet := 0 |>.
Definition record_active (i : bcap_input_t) (s : bcap_sample_t) (c : bcap_t) : bcap_t :=
  let e := nthZ zero_episode (episode c) (episodes c) in
  let c := if used c <? BCAP_POOL then append_sample c (with_mm s (rel_mm (origin_m e) (centre_m i))) else c in
  let c := c <| quiet := if surface i =? 1 then u16 (quiet c + 1) else 0 |> in
  if ((BCAP_END_QUIET <=? quiet c) && negb (in_collecting i)) || (BCAP_POOL <=? used c)
  then close_episode c <| pre_count := 0 |> else c.
Definition record_pre (i : bcap_input_t) (s : bcap_sample_t) (c : bcap_t) : bcap_t :=
  let c := c <| pre := setZ (pre c) (pre_head c) s |> <| pre_m := setZ (pre_m c) (pre_head c) (centre_m i) |>
             <| pre_head := u16 ((pre_head c + 1) mod BCAP_PRE) |> in
  if pre_count c <? BCAP_PRE then c <| pre_count := u16 (pre_count c + 1) |> else c.
Definition bcap_record (c : bcap_t) (i : bcap_input_t) : bcap_t :=
  let '(s, c) := make_sample c i in
  let c := count_status i c in
  let c := if negb (cap_active c) && ((surface i =? 2) || in_collecting i) then open_episode i c else c in
  if cap_active c then record_active i s c else record_pre i s c.
Definition bcap_end_run (c : bcap_t) : bcap_t := close_episode c.

(** ** Binary packets *)
Record bcap_cursor_t := { cu_episode : Z; cu_sample : Z; header_done : bool; summary_done : bool; end_done : bool }.
#[export] Instance cursor_settable : Settable bcap_cursor_t := fun r =>
  Build_bcap_cursor_t (cu_episode r) (cu_sample r) (header_done r) (summary_done r) (end_done r).
Definition zero_cursor : bcap_cursor_t :=
  {| cu_episode := 0; cu_sample := 0; header_done := false; summary_done := false; end_done := false |}.
Definition episode_bad (c : bcap_t) (e : bcap_episode_t) : bool :=
  (BCAP_POOL <? ecount e) || (used c <? first e + ecount e) || (BCAP_POOL <? used c) || (4294967 <? start_ms e).
Definition sample_bad (s : bcap_sample_t) : bool :=
  (4095 <? raw s) || (250 <? dark4 s) || (2 <? Z.land (sflags s) 3) || (4 <? Z.land (Z.shiftr (sflags s) 2) 7).
(** The loop over finished episodes; it runs at most [episodes] times. *)
Fixpoint next_episode (fuel : nat) (c : bcap_t) (n : bcap_cursor_t) : option bcap_cursor_t :=
  match fuel with
  | O => None
  | S fuel =>
      if cu_episode n <? episodes c then
        let e := nthZ zero_episode (episode c) (cu_episode n) in
        if episode_bad c e then None
        else if negb (header_done n) || (cu_sample n <? ecount e) then Some n
        else next_episode fuel c (n <| cu_episode := wrap 4 (cu_episode n + 1) |> <| header_done := false |>)
      else Some n
  end.
Definition header_fields (c : bcap_t) (kind : Z) : list field := [(BCAP_WIRE_VERSION, 8%nat); (run_start_us c, 32%nat); (kind, 2%nat)].
Definition summary_fields (c : bcap_t) : list field :=
  header_fields c 0 ++ [(episodes c, 4%nat); (dropped c, 8%nat); (decoded c, 16%nat); (rejected c, 16%nat); (timing c, 16%nat);
    (overflow c, 16%nat); (letter_count c, 4%nat)] ++ map (fun i => (nthZ 0 (letters c) i - 65, 5%nat)) (range (Z.to_nat (letter_count c))).
Definition episode_fields (c : bcap_t) (n : bcap_cursor_t) (e : bcap_episode_t) : list field :=
  header_fields c 1 ++ [(cu_episode n, 4%nat); (start_ms e, 23%nat); (ecount e, 12%nat)].
Definition bsample_fields (s : bcap_sample_t) : list field := [(raw s, 12%nat); (dark4 s, 8%nat); (sflags s, 8%nat); (mm s, 16%nat); (dt_ms s, 8%nat)].
(** The [n] samples of the pool from [k]. *)
Definition slice (c : bcap_t) (k n : Z) : list bcap_sample_t := map (fun i => nthZ zero_bsample (pool c) (k + i)) (range (Z.to_nat n)).
Definition samples_fields (c : bcap_t) (n : bcap_cursor_t) (e : bcap_episode_t) (count : Z) : list field :=
  header_fields c 2 ++ [(cu_episode n, 4%nat); (cu_sample n, 12%nat); (count - 1, 3%nat)] ++
  concat (map bsample_fields (slice c (first e + cu_sample n) count)).
(** Number of bits, the fields and the new cursor of the next packet. *)
Definition next_packet (c : bcap_t) (cur : bcap_cursor_t) : option (Z * list field * bcap_cursor_t) :=
  if negb (summary_done cur) then
    if forallb (fun i => negb ((nthZ 0 (letters c) i <? 65) || (90 <? nthZ 0 (letters c) i))) (range (Z.to_nat (letter_count c)))
    then Some (122 + 5 * letter_count c, summary_fields c, cur <| summary_done := true |>) else None
  else
    match next_episode (Z.to_nat (episodes c) + 1) c cur with
    | None => None
    | Some n =>
        if cu_episode n <? episodes c then
          let e := nthZ zero_episode (episode c) (cu_episode n) in
          if negb (header_done n) then Some (81, episode_fields c n e, n <| header_done := true |> <| cu_sample := 0 |>)
          else
            let count := ecount e - cu_sample n in
            let count := if BCAP_PER_LINE <? count then BCAP_PER_LINE else count in
            if existsb sample_bad (slice c (first e + cu_sample n) count) then None
            else Some (61 + 52 * count, samples_fields c n e count, n <| cu_sample := wrap 12 (cu_sample n + count) |>)
        else if end_done n then None
        else Some (42, header_fields c 3, n <| end_done := true |>)
    end.
(** [None]: the function returns 0 and leaves the cursor alone. *)
Definition bcap_binary_next (c : bcap_t) (cur : bcap_cursor_t) (size : Z) : option (bytes * bcap_cursor_t) :=
  if (BCAP_MAX_EPISODES <? episodes c) || (8 <? letter_count c) || (episodes c <? cu_episode cur) then None
  else match next_packet c cur with
  | None => None
  | Some (bits, fields, next) =>
      let length := (bits + 7) / 8 in
      if size <? length then None else Some (pack (Z.to_nat length) fields, next)
  end.

(** ** Text lines *)
Definition codes (s : string) : list Z := map (fun a => Z.of_nat (nat_of_ascii a)) (list_ascii_of_string s).
(** [put]: appended as far as the buffer of [size] characters has room. *)
Definition put_text (size : Z) (out s : list Z) : list Z := out ++ take (Z.to_nat (size - 1) - length out)%nat s.
(** [put_u]: the decimal digits, least significant first, at most 11. *)
Fixpoint digits (fuel : nat) (v : Z) : list Z :=
  match fuel with
  | O => []
  | S fuel => (48 + v mod 10) :: (if v / 10 =? 0 then [] else digits fuel (v / 10))
  end.
Definition decimal (v : Z) : list Z := rev (digits 11 v).
Definition line_of (size : Z) (parts : list (list Z)) : list Z := fold_left (put_text size) parts [].
(** The characters up to the terminating zero. *)
Fixpoint c_string (l : list Z) : list Z := match l with [] => [] | x :: l => if x =? 0 then [] else x :: c_string l end.
Definition summary_parts (c : bcap_t) : list (list Z) :=
  [codes "[BCAP] run summary: episodes="; decimal (episodes c); codes " not_stored="; decimal (dropped c); codes " decoded=";
   decimal (decoded c); codes " letters="; (if letter_count c =? 0 then codes "-" else c_string (letters c)); codes " rejected=";
   decimal (rejected c); codes " timing_error="; decimal (timing c); codes " overflow="; decimal (overflow c);
   codes " | raw:dark4:flags:mm:dt"].
Definition episode_parts (cur : bcap_cursor_t) (e : bcap_episode_t) : list (list Z) :=
  [codes "[BCAP] episode "; decimal (cu_episode cur + 1); codes " t="; decimal (start_ms e); codes "ms samples="; decimal (ecount e)].
Definition sample_parts (s : bcap_sample_t) : list (list Z) :=
  [codes " "; decimal (raw s); codes ":"; decimal (dark4 s); codes ":"; decimal (sflags s); codes ":"; decimal (mm s); codes ":"; decimal (dt_ms s)].
Definition samples_parts (c : bcap_t) (cur : bcap_cursor_t) (e : bcap_episode_t) (count : Z) : list (list Z) :=
  [codes "BC"; decimal (cu_episode cur + 1); codes " "; decimal (cu_sample cur); codes ":"] ++
  concat (map sample_parts (slice c (first e + cu_sample cur) count)).
(** The loop over the episodes; [None]: it ended. *)
Fixpoint format_episodes (fuel : nat) (c : bcap_t) (cur : bcap_cursor_t) : option (list (list Z)) * bcap_cursor_t :=
  match fuel with
  | O => (None, cur)
  | S fuel =>
      if cu_episode cur <? episodes c then
        let e := nthZ zero_episode (episode c) (cu_episode cur) in
        if negb (header_done cur) then
          let cur := cur <| header_done := true |> <| cu_sample := 0 |> in (Some (episode_parts cur e), cur)
        else if ecount e <=? cu_sample cur
        then format_episodes fuel c (cur <| cu_episode := wrap 4 (cu_episode cur + 1) |> <| header_done := false |>)
        else
          let count := Z.min BCAP_PER_LINE (ecount e - cu_sample cur) in
          (Some (samples_parts c cur e count), cur <| cu_sample := wrap 12 (cu_sample cur + count) |>)
      else (None, cur)
  end.
(** What a call writes, before it is cut to the buffer. *)
Definition next_line (c : bcap_t) (cur : bcap_cursor_t) : option (list (list Z)) * bcap_cursor_t :=
  if negb (summary_done cur) then (Some (summary_parts c), cur <| summary_done := true |>)
  else match format_episodes (Z.to_nat (episodes c) + 1) c cur with
  | (Some parts, cur) => (Some parts, cur)
  | (None, cur) => if negb (end_done cur) then (Some [codes "[BCAP] end"], cur <| end_done := true |>) else (None, cur)
  end.
Definition bcap_format_next (c : bcap_t) (cur : bcap_cursor_t) (size : Z) : bool * bcap_cursor_t * list Z :=
  let '(parts, cur) := next_line c cur in
  match parts with Some parts => (true, cur, line_of size parts) | None => (false, cur, []) end.

(** ** Invariant *)
Definition sample_fine (s : bcap_sample_t) : Prop :=
  sample_bad s = false /\ 0 <= raw s /\ 0 <= dark4 s /\ in_u 8 (sflags s) /\ in_u 16 (mm s) /\ in_u 8 (dt_ms s).
(** Consecutive slices of the pool. *)
Fixpoint tiles (l : list bcap_episode_t) (from to : Z) : Prop :=
  match l with [] => from = to | e :: l => first e = from /\ 0 <= ecount e /\ 0 <= start_ms e <= 4294967 /\ tiles l (from + ecount e) to end.
Definition opened (c : bcap_t) : Z := episodes c + if cap_active c then 1 else 0.
(** The capture with [n] episodes begun. *)
Record bcap_with (n : Z) (c : bcap_t) : Prop := {
  bk_pool : length (pool c) = 2400%nat; bk_pre : length (pre c) = 150%nat; bk_pre_m : length (pre_m c) = 150%nat;
  bk_episode : length (episode c) = 12%nat; bk_letters : length (letters c) = 9%nat;
  bk_used : 0 <= used c <= 2400; bk_head : 0 <= pre_head c < 150; bk_count : 0 <= pre_count c <= 150;
  bk_episodes : 0 <= episodes c <= n /\ n <= 12; bk_tiles : tiles (take (Z.to_nat n) (episode c)) 0 (used c);
  bk_samples : Forall sample_fine (pool c) /\ Forall sample_fine (pre c);
  bk_letter : 0 <= letter_count c <= 8 /\ forall i, 0 <= i < letter_count c -> 65 <= nthZ 0 (letters c) i <= 90;
  bk_zero : nthZ 0 (letters c) (letter_count c) = 0;
  bk_counters : in_u 8 (dropped c) /\ in_u 16 (decoded c) /\ in_u 16 (rejected c) /\ in_u 16 (timing c) /\ in_u 16 (overflow c) /\ in_u 32 (run_start_us c)
}.
Definition bcap_ok (c : bcap_t) : Prop := bcap_with (opened c) c.
Record input_ok (i : bcap_input_t) : Prop := {
  io_raw : 0 <= in_raw i <= 4095; io_dark : in_u 16 (darkness i); io_surface : 0 <= surface i <= 2; io_status : 0 <= status i <= 4;
  io_letter : status i = 1 -> 65 <= in_letter i <= 90
}.
Inductive bcap_reachable : bcap_t -> Prop :=
| bcap_start now : in_u 32 now -> bcap_reachable (bcap_begin_run now)
| bcap_step c i : bcap_reachable c -> input_ok i -> bcap_reachable (bcap_record c i)
| bcap_stop c : bcap_reachable c -> bcap_reachable (bcap_end_run c).

Lemma tiles_snoc l e from to : tiles (l ++ [e]) from to <->
  exists m, tiles l from m /\ first e = m /\ 0 <= ecount e /\ 0 <= start_ms e <= 4294967 /\ to = m + ecount e.
Proof.
  revert from. induction l as [| x l IH]; intros from; cbn [tiles app].
  - split; [intros (H1 & H2 & H3 & H4); exists from; splits; lia |].
    intros (m & H0 & H1 & H2 & H3 & H4). lia.
  - rewrite IH. split.
    + intros (H1 & H2 & H3 & m & H4). exists m. tauto.
    + intros (m & (H1 & H2 & H3 & H4) & H5). splits; try tauto. by exists m.
Qed.
Lemma tiles_bound l : forall from to, tiles l from to -> from <= to.
Proof. induction l as [| e l IH]; intros from to; cbn; [lia |]. intros (_ & H & _ & T). apply IH in T. lia. Qed.
Lemma take_next {A} (d : A) (l : list A) n : 0 <= n < Z.of_nat (length l) -> take (Z.to_nat (n + 1)) l = take (Z.to_nat n) l ++ [nthZ d l n].
Proof.
  intros Hn. replace (Z.to_nat (n + 1)) with (S (Z.to_nat n)) by lia. apply take_S_r. rewrite (nthZ_lookup d) by lia. done.
Qed.
Lemma Forall_setZ {A} (P : A -> Prop) l i v : Forall P l -> P v -> Forall P (setZ l i v).
Proof. intros F Pv. unfold setZ. case_if; [done |]. by apply Forall_insert. Qed.

Lemma flags_fine sf st (co re gap : bool) : 0 <= sf <= 2 -> 0 <= st <= 4 ->
  let f := u8 (Z.lor (Z.lor (Z.lor (Z.lor (Z.land sf 3) (Z.shiftl (Z.land st 7) 2)) (if co then 0x20 else 0)) (if re then 0x40 else 0))
                 (if gap then 0x80 else 0)) in
  Z.land f 3 <= 2 /\ Z.land (Z.shiftr f 2) 7 <= 4 /\ in_u 8 f.
Proof.
  intros Hs Ht. assert (Cs : sf = 0 \/ sf = 1 \/ sf = 2) by lia. assert (Ct : st = 0 \/ st = 1 \/ st = 2 \/ st = 3 \/ st = 4) by lia.
  unfold in_u. destruct Cs as [-> | [-> | ->]], Ct as [-> | [-> | [-> | [-> | ->]]]], co, re, gap; vm_compute; intuition discriminate.
Qed.
Lemma make_sample_fine c i : input_ok i -> sample_fine (make_sample c i).1.
Proof.
  intros [R D S T _]. unfold make_sample. cbv zeta. cbn [fst]. set (dt := if have_last c then _ else 0).
  pose proof (flags_fine (surface i) (status i) (in_collecting i) (in_rearming i) (BCAP_GAP_FLAG_US <? dt) S T) as F. cbv zeta in F.
  unfold sample_fine, sample_bad. cbn [raw mm dark4 sflags dt_ms]. set (f := u8 (Z.lor _ _)) in *. destruct F as (F1 & F2 & F3).
  assert (H : 0 <= (if 1000 <? darkness i then 1000 else darkness i) / 4 <= 250).
  { unfold in_u in D. destruct (Z.ltb_spec 1000 (darkness i)); [done |]. split; [apply Z.div_pos; lia | apply Z.div_le_upper_bound; lia]. }
  unfold u8 at 1 2. rewrite !(wrap_id 8) by (unfold in_u; lia). splits; try done; try lia.
  - apply wrap_range. lia.
Qed.
Lemma with_mm_fine s m : sample_fine s -> in_u 16 m -> sample_fine (with_mm s m).
Proof. intros (H1 & H2 & H3 & H4 & H5 & H6) Hm. by splits. Qed.
Lemma rel_mm_range a b : in_u 16 (rel_mm a b).
Proof. unfold rel_mm. case_if; [unfold in_u; lia | apply wrap_range; lia]. Qed.
Lemma u16_range x : in_u 16 (u16 x).
Proof. apply wrap_range. lia. Qed.
Lemma make_sample_with n c i : bcap_with n c -> bcap_with n (make_sample c i).2 /\ opened (make_sample c i).2 = opened c.
Proof. intros []. split; [by split | done]. Qed.
Lemma count_status_with n c i : input_ok i -> bcap_with n c -> bcap_with n (count_status i c) /\ opened (count_status i c) = opened c.
Proof.
  intros Hi K. pose proof K as [K1 K2 K3 K4 K5 K6 K7 K8 K9 K10 K11 [L1 L2] Lz (C1 & C2 & C3 & C4 & C5 & C6)]. unfold count_status.
  destruct (Z.eqb_spec (status i) 1) as [E |].
  2:{ repeat case_if; split; try done; split; try done; cbn; splits; auto using u16_range. }
  cbv zeta. cbn [letter_count letters]. change (letter_count (c <| decoded := u16 (decoded c + 1) |>)) with (letter_count c).
  destruct (Z.ltb_spec (letter_count c) 8) as [Hl | Hl]; (split; [| done]).
  2:{ split; try done. cbn. splits; auto using u16_range. }
  pose proof (io_letter i Hi E) as HL. assert (U : u8 (letter_count c + 1) = letter_count c + 1) by (apply wrap_id; unfold in_u; lia).
  split; try done; cbn -[setZ Z.pow].
  - by rewrite !length_setZ.
  - rewrite U. split; [lia |]. intros j Hj. rewrite !nthZ_setZ by (rewrite ?length_setZ, ?K5; lia).
    destruct (Z.eqb_spec (letter_count c + 1) j); [lia |]. destruct (Z.eqb_spec (letter_count c) j); [lia | apply L2; lia].
  - rewrite U. rewrite nthZ_setZ by (rewrite ?length_setZ, ?K5; lia). by rewrite Z.eqb_refl.
  - splits; auto using u16_range.
Qed.
Lemma append_with c p : bcap_with (episodes c + 1) c -> used c < 2400 -> sample_fine p ->
  bcap_with (episodes c + 1) (append_sample c p) /\ used (append_sample c p) = used c + 1.
Proof.
  intros [K1 K2 K3 K4 K5 K6 K7 K8 [K9 K9'] K10 [K11 K12] K13 K14 K15] Hu Hp. unfold append_sample. cbv zeta.
  assert (U : u16 (used c + 1) = used c + 1) by (apply wrap_id; unfold in_u; lia). split; [| exact U].
  rewrite (take_next zero_episode) in K10 by lia. apply tiles_snoc in K10 as (m & T & F & Hc & Hs & Eu). set (e := nthZ zero_episode (episode c) (episodes c)) in *.
  pose proof (tiles_bound _ _ _ T).
  assert (V : u16 (ecount e + 1) = ecount e + 1) by (apply wrap_id; unfold in_u; lia).
  split; try done; cbn -[setZ u16]; rewrite ?length_setZ; try done; try (rewrite U; lia).
  - rewrite U, take_setZ by lia. apply tiles_snoc. exists m. cbn -[u16]. rewrite V. splits; try done; lia.
  - split; [by apply Forall_setZ | done].
Qed.
Lemma nthZ_every {A} (P : A -> Prop) d l k : Forall P l -> 0 <= k < Z.of_nat (length l) -> P (nthZ d l k).
Proof. intros F Hk. eapply Forall_lookup_1; [exact F | by apply nthZ_lookup]. Qed.
Lemma copy_pre_with n : forall k origin c, bcap_with (episodes c + 1) c -> used c + Z.of_nat n <= 2400 -> 0 <= k < 150 ->
  let c' := copy_pre n k origin c in bcap_with (episodes c + 1) c' /\ used c' = used c + Z.of_nat n /\ episodes c' = episodes c.
Proof.
  induction n as [| n IH]; intros k origin c K Hu Hk; cbn [copy_pre]; [splits; [done | lia | done] |].
  set (p := with_mm _ _). assert (Hp : sample_fine p).
  { apply with_mm_fine; [| apply rel_mm_range]. apply nthZ_every; [apply K | rewrite (bk_pre _ _ K); lia]. }
  destruct (append_with c p K ltac:(lia) Hp) as [K' U]. change (episodes c) with (episodes (append_sample c p)) in K'.
  assert (Hk' : 0 <= (k + 1) mod BCAP_PRE < 150) by (apply Z.mod_pos_bound; done).
  destruct (IH ((k + 1) mod BCAP_PRE) origin (append_sample c p) K' ltac:(lia) Hk') as (R1 & R2 & R3).
  splits; [exact R1 | lia | exact R3].
Qed.
Lemma open_with i c : bcap_ok c -> cap_active c = false -> bcap_ok (open_episode i c) /\
  (cap_active (open_episode i c) = true -> used (open_episode i c) < 2400).
Proof.
  intros K A. pose proof K as [K1 K2 K3 K4 K5 K6 K7 K8 [K9 K9'] K10 K11 K12 K13 K14]. unfold opened in *. rewrite A, ?Z.add_0_r in *.
  unfold open_episode. destruct (_ || _) eqn:G.
  { case_if; (split; [| cbn; congruence]); [| done]. unfold bcap_ok, opened. cbn. rewrite A, Z.add_0_r. split; try done.
    cbn. splits; try tauto. apply wrap_range. lia. }
  apply orb_false_iff in G as [G1 G2]. apply Z.leb_gt in G1. apply Z.ltb_ge in G2. unfold BCAP_MAX_EPISODES, BCAP_POOL in *. cbv zeta.
  set (e := {| first := used c; ecount := 0; start_ms := _; origin_m := _ |}).
  assert (He : 0 <= start_ms e <= 4294967).
  { cbn [start_ms e]. pose proof (elapsed_range (t_us i) (run_start_us c)) as El. set (ms := elapsed _ _ / 1000).
    assert (0 <= ms < 4294968) by (unfold ms; split; [apply Z.div_pos; lia | apply Z.div_lt_upper_bound; lia]).
    assert (B : u32 (pre_count c * S3_SAMPLE_PERIOD_MS) = pre_count c * 10) by (apply wrap_id; unfold in_u, S3_SAMPLE_PERIOD_MS; lia). rewrite B.
    destruct (Z.ltb_spec (pre_count c * 10) ms); [| lia]. unfold u32. rewrite wrap_id by (unfold in_u; lia). lia. }
  set (c0 := c <| episode := setZ (episode c) (episodes c) e |>).
  assert (K0 : bcap_with (episodes c0 + 1) c0).
  { split; try done; cbn -[setZ]; rewrite ?length_setZ; try done; try lia. rewrite take_setZ by lia. apply tiles_snoc.
    exists (used c). splits; [exact K10 | done | done | apply He | apply He | cbn; lia]. }
  assert (Ho : 0 <= oldest c0 < 150) by (apply Z.mod_pos_bound; done).
  assert (Hp : used c0 + Z.of_nat (Z.to_nat (pre_count c0)) < 2400) by (change (used c0) with (used c); change (pre_count c0) with (pre_count c); lia).
  match goal with |- context [copy_pre ?n ?k ?o c0] => set (cc := copy_pre n k o c0);
    destruct (copy_pre_with n k o c0 K0 ltac:(lia) Ho) as ([R1 R2 R3 R4 R5 R6 R7 R8 R9 R10 R11 R12 R13 R14] & U & E); fold cc in R1, R2, R3, R4, R5, R6, R7, R8, R9, R10, R11, R12, R13, R14, U, E end.
  split; [| intros _; change (used cc < 2400); lia].
  unfold bcap_ok, opened. change (cap_active (cc <| cap_active := true |> <| quiet := 0 |>)) with true.
  change (episodes (cc <| cap_active := true |> <| quiet := 0 |>)) with (episodes cc). rewrite E. by split.
Qed.
Lemma close_with c : bcap_ok c -> bcap_ok (close_episode c) /\ cap_active (close_episode c) = false.
Proof.
  intros K. unfold close_episode. destruct (cap_active c) eqn:A; [| done]. split; [| done].
  destruct K as [K1 K2 K3 K4 K5 K6 K7 K8 [K9 K9'] K10 K11 K12 K13 K14]. unfold bcap_ok, opened in *. cbn [cap_active episodes]. rewrite A in *.
  assert (U : u8 (episodes c + 1) = episodes c + 1) by (apply wrap_id; unfold in_u; lia).
  change (episodes (c <| cap_active := false |> <| episodes := u8 (episodes c + 1) |>)) with (u8 (episodes c + 1)).
  change (cap_active (c <| cap_active := false |> <| episodes := u8 (episodes c + 1) |>)) with false. cbv iota. rewrite U, Z.add_0_r.
  split; try done. cbn. lia.
Qed.
Lemma with_pre_count c k : 0 <= k <= 150 -> bcap_ok c -> bcap_ok (c <| pre_count := k |>).
Proof. intros Hk []. by split. Qed.
Lemma record_active_with i s c : sample_fine s -> bcap_ok c -> cap_active c = true -> bcap_ok (record_active i s c).
Proof.
  intros Hs K A. unfold record_active. cbv zeta. set (p := with_mm s _). assert (Hp : sample_fine p) by (apply with_mm_fine; [done | apply rel_mm_range]).
  set (c1 := if used c <? BCAP_POOL then append_sample c p else c).
  assert (K1 : bcap_ok c1 /\ cap_active c1 = true).
  { subst c1. destruct (Z.ltb_spec (used c) BCAP_POOL) as [L |]; [| done]. split; [| exact A]. unfold bcap_ok, opened in *. rewrite A in K.
    change (cap_active (append_sample c p)) with (cap_active c). change (episodes (append_sample c p)) with (episodes c). rewrite A.
    by apply append_with. }
  destruct K1 as [K1 A1]. set (c2 := c1 <| quiet := _ |>). assert (K2 : bcap_ok c2) by (destruct K1; by split).
  case_if; [| done]. apply with_pre_count; [lia |]. by apply close_with.
Qed.
Lemma record_pre_with i s c : sample_fine s -> bcap_ok c -> bcap_ok (record_pre i s c).
Proof.
  intros Hs K. unfold record_pre. cbv zeta.
  set (c1 := c <| pre := _ |> <| pre_m := _ |> <| pre_head := _ |>).
  assert (K1 : bcap_ok c1).
  { destruct K as [K1 K2 K3 K4 K5 K6 K7 K8 K9 K10 [K11 K11'] K12 K13 K14]. subst c1.
    assert (U : u16 ((pre_head c + 1) mod BCAP_PRE) = (pre_head c + 1) mod 150).
    { pose proof (Z.mod_pos_bound (pre_head c + 1) 150 ltac:(lia)). apply wrap_id. change BCAP_PRE with 150. unfold in_u. lia. }
    pose proof (Z.mod_pos_bound (pre_head c + 1) 150 ltac:(lia)).
    split; try done; cbn -[setZ u16 Z.modulo]; rewrite ?length_setZ; try done; [by rewrite U | split; [done | by apply Forall_setZ]]. }
  case_if; [| done]. unbool. apply with_pre_count; [| done]. pose proof (bk_count _ _ K1). change BCAP_PRE with 150 in *.
  unfold u16. rewrite wrap_id by (unfold in_u; lia). lia.
Qed.
Lemma record_ok c i : input_ok i -> bcap_ok c -> bcap_ok (bcap_record c i).
Proof.
  intros Hi K. unfold bcap_record. pose proof (make_sample_fine c i Hi) as Hs. pose proof (make_sample_with (opened c) c i K) as [K1 O1].
  destruct (make_sample c i) as [s c1]. cbn [fst snd] in *. rewrite <- O1 in K1. destruct (count_status_with (opened c1) c1 i Hi K1) as [K2 O2].
  rewrite <- O2 in K2. set (c2 := count_status i c1) in *. set (c3 := if negb (cap_active c2) && _ then _ else c2).
  assert (K3 : bcap_ok c3).
  { subst c3. destruct (cap_active c2) eqn:A; cbn [negb andb]; [exact K2 |]. case_if; [| exact K2]. by apply open_with. }
  case_if; [by apply record_active_with | by apply record_pre_with].
Qed.
Lemma bcap_reachable_ok c : bcap_reachable c -> bcap_ok c.
Proof.
  induction 1 as [now Hn | c i _ IH Hi | c _ IH]; [| by apply record_ok | by apply close_with].
  assert (Z0 : sample_fine zero_bsample) by (split; [reflexivity |]; unfold in_u; cbn; lia).
  split.
  - exact (length_replicate (Z.to_nat BCAP_POOL) zero_bsample).
  - exact (length_replicate (Z.to_nat BCAP_PRE) zero_bsample).
  - exact (length_replicate (Z.to_nat BCAP_PRE) fzero).
  - done.
  - done.
  - change (0 <= 0 <= 2400). lia.
  - change (0 <= 0 < 150). lia.
  - change (0 <= 0 <= 150). lia.
  - change (0 <= 0 <= 0 /\ 0 <= 12). lia.
  - done.
  - split; [exact (Forall_replicate _ _ _ Z0) | exact (Forall_replicate _ _ _ Z0)].
  - split; [change (0 <= 0 <= 8); lia |]. intros j. change (0 <= j < 0 -> 65 <= nthZ 0 (replicate 9 0) j <= 90). lia.
  - done.
  - splits; try exact Hn; change (in_u 8 0) || change (in_u 16 0); unfold in_u; lia.
Qed.

(** ** The dump *)
(** The packets of a dump, in order. *)
Inductive packet := PSummary | PHeader (i : Z) | PSamples (i off n : Z) | PEnd.
Definition episode_at (c : bcap_t) (i : Z) : bcap_episode_t := nthZ zero_episode (episode c) i.
Fixpoint chunks (fuel : nat) (i off rest : Z) : list packet :=
  match fuel with
  | O => []
  | S fuel => if rest <=? 0 then [] else PSamples i off (Z.min 6 rest) :: chunks fuel i (off + Z.min 6 rest) (rest - Z.min 6 rest)
  end.
Definition plan_episode (c : bcap_t) (i : Z) : list packet :=
  PHeader i :: chunks (Z.to_nat (ecount (episode_at c i))) i 0 (ecount (episode_at c i)).
(** The episodes from [i], [k] of them. *)
Fixpoint plan_from (c : bcap_t) (i : Z) (k : nat) : list packet :=
  match k with O => [PEnd] | S k => plan_episode c i ++ plan_from c (i + 1) k end.
Definition plan (c : bcap_t) : list packet := PSummary :: plan_from c 0 (Z.to_nat (episodes c)).
Definition at_sample (i off : Z) : bcap_cursor_t :=
  {| cu_episode := i; cu_sample := off; header_done := true; summary_done := true; end_done := false |}.
Definition packet_fields (c : bcap_t) (p : packet) : list field :=
  match p with
  | PSummary => summary_fields c
  | PHeader i => episode_fields c (at_sample i 0) (episode_at c i)
  | PSamples i off n => samples_fields c (at_sample i off) (episode_at c i) n
  | PEnd => header_fields c 3
  end.
Definition packet_bytes (c : bcap_t) (p : packet) : bytes :=
  pack (Z.to_nat ((total_width (packet_fields c p) + 7) / 8)) (packet_fields c p).
(** Calling [bcap_binary_next] until it returns 0. *)
Fixpoint drain (fuel : nat) (c : bcap_t) (cur : bcap_cursor_t) : list bytes :=
  match fuel with
  | O => []
  | S fuel => match bcap_binary_next c cur BCAP_WIRE_MAX with None => [] | Some (p, cur) => p :: drain fuel c cur end
  end.

Lemma tiles_nth l : forall from to i, tiles l from to -> 0 <= i < Z.of_nat (length l) ->
  let e := nthZ zero_episode l i in from <= first e /\ 0 <= ecount e /\ first e + ecount e <= to /\ 0 <= start_ms e <= 4294967.
Proof.
  induction l as [| x l IH]; intros from to i T Hi; cbn [length] in Hi; [lia |]. destruct T as (F & C & St & T).
  pose proof (tiles_bound _ _ _ T). destruct (Z.eq_dec i 0) as [-> |]; [change (nthZ zero_episode (x :: l) 0) with x; cbv zeta; lia |].
  destruct (IH _ _ (i - 1) T ltac:(lia)) as (H1 & H2 & H3 & H4). cbv zeta in *.
  assert (E : nthZ zero_episode (x :: l) i = nthZ zero_episode l (i - 1)).
  { unfold nthZ. destruct (Z.ltb_spec i 0), (Z.ltb_spec (i - 1) 0); try lia. by replace (Z.to_nat i) with (S (Z.to_nat (i - 1))) by lia. }
  rewrite E. lia.
Qed.
Section Dump.
Context (c : bcap_t) (K : bcap_ok c).
Lemma episode_facts i : 0 <= i < episodes c -> let e := episode_at c i in
  0 <= first e /\ 0 <= ecount e /\ first e + ecount e <= used c /\ 0 <= start_ms e <= 4294967 /\ episode_bad c e = false.
Proof.
  intros Hi. pose proof (bk_episodes _ _ K) as [Ho Ho']. pose proof (bk_used _ _ K) as Hu.
  assert (L : 0 <= i < Z.of_nat (length (take (Z.to_nat (opened c)) (episode c)))) by (rewrite length_take, (bk_episode _ _ K); lia).
  pose proof (tiles_nth _ _ _ i (bk_tiles _ _ K) L) as T. cbv zeta in T.
  rewrite nthZ_take in T by lia. fold (episode_at c i) in T. cbv zeta. destruct T as (T1 & T2 & T3 & T4). splits; try lia.
  unfold episode_bad, BCAP_POOL. rewrite !orb_false_iff, !Z.ltb_ge. lia.
Qed.
Lemma small_ok : (BCAP_MAX_EPISODES <? episodes c) || (8 <? letter_count c) = false.
Proof.
  pose proof (bk_episodes _ _ K). pose proof (bk_letter _ _ K) as [Hl _]. unfold BCAP_MAX_EPISODES.
  rewrite orb_false_iff, !Z.ltb_ge. lia.
Qed.
Lemma stays fuel n : header_done n = false -> cu_episode n <= episodes c -> 0 <= cu_episode n -> next_episode (S fuel) c n = Some n.
Proof.
  intros H L P. cbn [next_episode]. destruct (Z.ltb_spec (cu_episode n) (episodes c)); [| done]. rewrite H. cbn [negb orb].
  destruct (episode_facts (cu_episode n) ltac:(lia)) as (_ & _ & _ & _ & B). unfold episode_at in B. by rewrite B.
Qed.
Lemma next_header i s : 0 <= i < episodes c ->
  bcap_binary_next c {| cu_episode := i; cu_sample := s; header_done := false; summary_done := true; end_done := false |} BCAP_WIRE_MAX =
  Some (packet_bytes c (PHeader i), at_sample i 0).
Proof.
  intros Hi. unfold bcap_binary_next. rewrite small_ok. cbn [cu_episode orb]. destruct (Z.ltb_spec (episodes c) i); [lia |].
  unfold next_packet. cbn [summary_done negb]. rewrite Nat.add_1_r. rewrite stays by (cbn; (done || lia)). cbn [cu_episode header_done negb].
  destruct (Z.ltb_spec i (episodes c)); [| lia]. done.
Qed.
Lemma next_samples i off : 0 <= i < episodes c -> 0 <= off < ecount (episode_at c i) ->
  bcap_binary_next c (at_sample i off) BCAP_WIRE_MAX =
  Some (packet_bytes c (PSamples i off (Z.min 6 (ecount (episode_at c i) - off))), at_sample i (off + Z.min 6 (ecount (episode_at c i) - off))).
Proof.
  intros Hi Ho. destruct (episode_facts i Hi) as (F1 & F2 & F3 & F4 & B). pose proof (bk_used _ _ K) as Hu.
  unfold bcap_binary_next. rewrite small_ok. cbn [cu_episode at_sample orb]. destruct (Z.ltb_spec (episodes c) i); [lia |].
  assert (Nx : next_episode (S (Z.to_nat (episodes c))) c (at_sample i off) = Some (at_sample i off)).
  { unfold episode_at in B, Ho. cbn [next_episode at_sample cu_episode cu_sample header_done]. destruct (Z.ltb_spec i (episodes c)); [| lia]. rewrite B.
    cbn [negb orb]. by destruct (Z.ltb_spec off (ecount (nthZ zero_episode (episode c) i))); [| lia]. }
  unfold next_packet. rewrite Nat.add_1_r. change (summary_done (at_sample i off)) with true. cbn [negb]. fold (at_sample i off). rewrite Nx.
  change (cu_episode (at_sample i off)) with i. change (cu_sample (at_sample i off)) with off. change (header_done (at_sample i off)) with true. cbn [negb].
  destruct (Z.ltb_spec i (episodes c)); [| lia]. fold (episode_at c i). cbv zeta.
  set (n := if BCAP_PER_LINE <? _ then _ else _). assert (En : n = Z.min 6 (ecount (episode_at c i) - off)).
  { unfold n, BCAP_PER_LINE. destruct (Z.ltb_spec 6 (ecount (episode_at c i) - off)); lia. }
  assert (Fine : existsb sample_bad (slice c (first (episode_at c i) + off) n) = false).
  { apply not_true_iff_false. rewrite existsb_exists. intros (s & Hs & Bs). unfold slice in Hs. apply in_map_iff in Hs as (j & <- & Hj).
    apply elem_range in Hj. pose proof (bk_samples _ _ K) as [Fp _].
    pose proof (nthZ_every sample_fine zero_bsample (pool c) (first (episode_at c i) + off + j) Fp ltac:(rewrite (bk_pool _ _ K); lia)) as [Fb _]. congruence. }
  rewrite Fine, En. assert (W : total_width (packet_fields c (PSamples i off (Z.min 6 (ecount (episode_at c i) - off)))) = 61 + 52 * Z.min 6 (ecount (episode_at c i) - off)).
  { cbn [packet_fields]. unfold samples_fields. rewrite !total_width_app.
    assert (Q : forall l, total_width (concat (map bsample_fields l)) = 52 * Z.of_nat (length l)).
    { induction l as [| x l IH]; [done |]. cbn [map concat length]. rewrite total_width_app, IH. cbn. lia. }
    rewrite Q. unfold slice. rewrite length_map, length_range. cbn. lia. }
  unfold packet_bytes. rewrite W. destruct (Z.ltb_spec BCAP_WIRE_MAX ((61 + 52 * Z.min 6 (ecount (episode_at c i) - off) + 7) / 8)) as [L |].
  { exfalso. unfold BCAP_WIRE_MAX in L. assert ((61 + 52 * Z.min 6 (ecount (episode_at c i) - off) + 7) / 8 < 48) by (apply Z.div_lt_upper_bound; lia). lia. }
  f_equal. f_equal. unfold at_sample. cbn. f_equal. apply wrap_id. unfold in_u. lia.
Qed.
Definition at_header (i s : Z) : bcap_cursor_t :=
  {| cu_episode := i; cu_sample := s; header_done := false; summary_done := true; end_done := false |}.
Lemma next_after i off : 0 <= i < episodes c -> ecount (episode_at c i) <= off ->
  bcap_binary_next c (at_sample i off) BCAP_WIRE_MAX = bcap_binary_next c (at_header (i + 1) off) BCAP_WIRE_MAX.
Proof.
  intros Hi Ho. destruct (episode_facts i Hi) as (_ & _ & _ & _ & B). pose proof (bk_episodes _ _ K) as [He He'].
  assert (N1 : next_episode (S (Z.to_nat (episodes c))) c (at_header (i + 1) off) = Some (at_header (i + 1) off)) by (apply stays; cbn; lia).
  assert (N2 : next_episode (S (Z.to_nat (episodes c))) c (at_sample i off) = Some (at_header (i + 1) off)).
  { unfold episode_at in B, Ho. cbn [next_episode at_sample cu_episode cu_sample header_done]. destruct (Z.ltb_spec i (episodes c)); [| lia]. rewrite B.
    cbn [negb orb]. destruct (Z.ltb_spec off (ecount (nthZ zero_episode (episode c) i))); [lia |].
    assert (W : wrap 4 (i + 1) = i + 1) by (apply wrap_id; unfold in_u; lia).
    change (at_sample i off <| cu_episode := wrap 4 (i + 1) |> <| header_done := false |>) with (at_header (wrap 4 (i + 1)) off). rewrite W.
    replace (Z.to_nat (episodes c)) with (S (Z.to_nat (episodes c - 1))) by lia. apply stays; cbn; lia. }
  unfold bcap_binary_next. rewrite small_ok. cbn [orb]. change (cu_episode (at_sample i off)) with i. change (cu_episode (at_header (i + 1) off)) with (i + 1).
  destruct (Z.ltb_spec (episodes c) i); [lia |]. destruct (Z.ltb_spec (episodes c) (i + 1)); [lia |]. unfold next_packet. rewrite Nat.add_1_r.
  change (summary_done (at_sample i off)) with true. change (summary_done (at_header (i + 1) off)) with true. cbn [negb]. by rewrite N1, N2.
Qed.
Lemma next_end s : bcap_binary_next c (at_header (episodes c) s) BCAP_WIRE_MAX = Some (packet_bytes c PEnd, at_header (episodes c) s <| end_done := true |>).
Proof.
  pose proof (bk_episodes _ _ K) as [He He']. unfold bcap_binary_next. rewrite small_ok. cbn [orb]. change (cu_episode (at_header (episodes c) s)) with (episodes c).
  rewrite Z.ltb_irrefl. unfold next_packet. change (summary_done (at_header (episodes c) s)) with true. cbn [negb]. rewrite Nat.add_1_r, stays by (cbn; lia).
  change (cu_episode (at_header (episodes c) s)) with (episodes c). rewrite Z.ltb_irrefl.
  unfold packet_bytes. assert (W : total_width (packet_fields c PEnd) = 42) by reflexivity. rewrite W.
  change (end_done (at_header (episodes c) s)) with false. cbv iota. change (BCAP_WIRE_MAX <? (42 + 7) / 8) with false. cbv iota zeta. reflexivity.
Qed.
Lemma next_none s : bcap_binary_next c (at_header (episodes c) s <| end_done := true |>) BCAP_WIRE_MAX = None.
Proof.
  pose proof (bk_episodes _ _ K) as [He He']. unfold bcap_binary_next. rewrite small_ok. cbn [orb].
  set (n := at_header (episodes c) s <| end_done := true |>). change (cu_episode n) with (episodes c).
  rewrite Z.ltb_irrefl. unfold next_packet. change (summary_done n) with true. cbn [negb]. rewrite Nat.add_1_r, stays by (cbn; lia).
  change (cu_episode n) with (episodes c). by rewrite Z.ltb_irrefl.
Qed.
Lemma next_summary : bcap_binary_next c zero_cursor BCAP_WIRE_MAX = Some (packet_bytes c PSummary, at_header 0 0).
Proof.
  pose proof (bk_episodes _ _ K) as [He He']. pose proof (bk_letter _ _ K) as [Hl L]. unfold bcap_binary_next. rewrite small_ok. cbn [orb].
  change (cu_episode zero_cursor) with 0. destruct (Z.ltb_spec (episodes c) 0); [lia |]. unfold next_packet. cbn [summary_done zero_cursor negb].
  rewrite (proj2 (forallb_forall _ _)).
  2:{ intros i Hi. apply elem_range in Hi. apply negb_true_iff, orb_false_iff. specialize (L i ltac:(lia)). rewrite !Z.ltb_ge. lia. }
  assert (W : total_width (packet_fields c PSummary) = 122 + 5 * letter_count c).
  { cbn [packet_fields]. unfold summary_fields. rewrite !total_width_app.
    assert (Q : forall f l, total_width (map (fun i : Z => (f i, 5%nat)) l) = 5 * Z.of_nat (length l)).
    { intros f. induction l as [| x l IH]; [done |]. cbn [map length]. rewrite total_width_cons, IH. lia. }
    rewrite Q, length_range. cbn. lia. }
  unfold packet_bytes. rewrite W. destruct (Z.ltb_spec BCAP_WIRE_MAX ((122 + 5 * letter_count c + 7) / 8)) as [B |]; [| done].
  exfalso. unfold BCAP_WIRE_MAX in B. assert ((122 + 5 * letter_count c + 7) / 8 < 47) by (apply Z.div_lt_upper_bound; lia). lia.
Qed.
Lemma drain_chunks i : 0 <= i < episodes c -> forall n off fuel, 0 <= off <= ecount (episode_at c i) ->
  (Z.to_nat (ecount (episode_at c i) - off) <= n)%nat -> let l := chunks n i off (ecount (episode_at c i) - off) in (length l < fuel)%nat ->
  drain fuel c (at_sample i off) = map (packet_bytes c) l ++ drain (fuel - length l) c (at_header (i + 1) (ecount (episode_at c i))).
Proof.
  intros Hi. induction n as [| n IH]; intros off fuel Ho Hn.
  { cbn [chunks length map app]. intros Hf. replace off with (ecount (episode_at c i)) by lia. rewrite Nat.sub_0_r.
    destruct fuel as [| fuel]; [lia |]. cbn [drain]. by rewrite next_after by lia. }
  cbn [chunks]. destruct (Z.leb_spec (ecount (episode_at c i) - off) 0) as [L | L].
  { cbn [length map app]. intros Hf. replace off with (ecount (episode_at c i)) by lia. rewrite Nat.sub_0_r.
    destruct fuel as [| fuel]; [lia |]. cbn [drain]. by rewrite next_after by lia. }
  set (m := Z.min 6 (ecount (episode_at c i) - off)). cbn [length map app]. intros Hf. destruct fuel as [| fuel]; [lia |]. cbn [drain].
  rewrite next_samples by lia. fold m. cbn [Nat.sub]. f_equal.
  replace (ecount (episode_at c i) - off - m) with (ecount (episode_at c i) - (off + m)) by lia. apply IH; [lia | lia |].
  replace (ecount (episode_at c i) - (off + m)) with (ecount (episode_at c i) - off - m) by lia. lia.
Qed.
Lemma drain_from k : forall i s fuel, 0 <= i -> i + Z.of_nat k = episodes c -> (length (plan_from c i k) < fuel)%nat ->
  drain fuel c (at_header i s) = map (packet_bytes c) (plan_from c i k).
Proof.
  induction k as [| k IH]; intros i s fuel Hi Hk; cbn [plan_from].
  - cbn [length map]. intros Hf. replace i with (episodes c) by lia. destruct fuel as [| [| fuel]]; [lia | lia |]. cbn [drain].
    rewrite next_end. by rewrite next_none.
  - unfold plan_episode. cbn [app length map]. rewrite length_app, map_app. intros Hf. destruct fuel as [| fuel]; [lia |]. cbn [drain].
    destruct (episode_facts i ltac:(lia)) as (F1 & F2 & _). unfold at_header at 1. rewrite next_header by lia. f_equal.
    set (l := chunks _ i 0 _) in *. pose proof (drain_chunks i ltac:(lia) (Z.to_nat (ecount (episode_at c i))) 0 fuel ltac:(lia) ltac:(lia)) as D.
    rewrite Z.sub_0_r in D. fold l in D. cbv zeta in D. rewrite D by lia. f_equal. apply IH; lia.
Qed.
Lemma drain_plan : drain (S (length (plan c))) c zero_cursor = map (packet_bytes c) (plan c).
Proof.
  pose proof (bk_episodes _ _ K) as [He He']. unfold plan. cbn [length map]. set (l := plan_from c 0 (Z.to_nat (episodes c))).
  change (drain (S (S (length l))) c zero_cursor) with
    (match bcap_binary_next c zero_cursor BCAP_WIRE_MAX with None => [] | Some (p, cur) => p :: drain (S (length l)) c cur end).
  rewrite next_summary. f_equal. apply drain_from; [lia | lia | fold l; lia].
Qed.
End Dump.

(** *** Every field fits *)
Definition fits (f : field) : Prop := in_u (Z.of_nat f.2) f.1.
(** *** What the receiver reads from a packet *)
Inductive dump_item :=
| DSummary (start n_episodes not_stored n_decoded n_rejected n_timing n_overflow : Z) (found : list Z)
| DEpisode (start i at_ms count : Z)
| DSamples (start i off : Z) (l : list bcap_sample_t)
| DEnd (start : Z).
Definition read_bsample : reader bcap_sample_t :=
  r ← get 12; d ← get 8; f ← get 8; m ← get 16; t ← get 8;
  mret {| raw := r; mm := m; dark4 := d; sflags := f; dt_ms := t |}.
Definition read_summary (start : Z) : reader dump_item :=
  e ← get 4; n ← get 8; d ← get 16; r ← get 16; t ← get 16; o ← get 16; k ← get 4;
  l ← repeat_read (Z.to_nat k) (x ← get 5; mret (x + 65)); mret (DSummary start e n d r t o l).
Definition read_packet : reader dump_item :=
  version ← get 8; _ ← require (version =? BCAP_WIRE_VERSION); start ← get 32; kind ← get 2;
  if kind =? 0 then read_summary start
  else if kind =? 1 then i ← get 4; t ← get 23; n ← get 12; mret (DEpisode start i t n)
  else if kind =? 2 then
    i ← get 4; off ← get 12; n ← get 3; l ← repeat_read (Z.to_nat (n + 1)) read_bsample; mret (DSamples start i off l)
  else mret (DEnd start).
Definition item_samples (d : dump_item) : list bcap_sample_t := match d with DSamples _ _ _ l => l | _ => [] end.
(** What the capture has for each packet of the dump. *)
Definition packet_item (c : bcap_t) (p : packet) : dump_item :=
  match p with
  | PSummary => DSummary (run_start_us c) (episodes c) (dropped c) (decoded c) (rejected c) (timing c) (overflow c)
                  (take (Z.to_nat (letter_count c)) (letters c))
  | PHeader i => DEpisode (run_start_us c) i (start_ms (episode_at c i)) (ecount (episode_at c i))
  | PSamples i off n => DSamples (run_start_us c) i off (slice c (first (episode_at c i) + off) n)
  | PEnd => DEnd (run_start_us c)
  end.
Definition dump (c : bcap_t) : list dump_item := map (packet_item c) (plan c).
Lemma reads_first {A} v w fs (k : Z -> reader A) y : Forall fits ((v, w) :: fs) -> (Forall fits fs -> reads (k v) fs y) ->
  reads (x ← get w; k x) ((v, w) :: fs) y.
Proof. intros F H. apply Forall_cons in F as [F1 F2]. apply reads_get; [exact F1 | by apply H]. Qed.
Definition in_plan (c : bcap_t) (p : packet) : Prop :=
  match p with
  | PSummary | PEnd => True
  | PHeader i => 0 <= i < episodes c
  | PSamples i off n => 0 <= i < episodes c /\ 0 <= off /\ 1 <= n <= 6 /\ off + n <= ecount (episode_at c i)
  end.
Lemma chunks_in c i n : 0 <= i < episodes c -> forall off rest, 0 <= off -> off + rest = ecount (episode_at c i) -> Forall (in_plan c) (chunks n i off rest).
Proof.
  intros Hi. induction n as [| n IH]; intros off rest Ho Hr; cbn [chunks]; [constructor |].
  destruct (Z.leb_spec rest 0); [constructor |]. constructor; [cbn; lia | apply IH; lia].
Qed.
Lemma plan_in c : 0 <= episodes c -> Forall (in_plan c) (plan c).
Proof.
  intros He. constructor; [done |].
  assert (H : forall k i, 0 <= i -> i + Z.of_nat k = episodes c -> Forall (in_plan c) (plan_from c i k)).
  { induction k as [| k IH]; intros i Hi Hk; cbn [plan_from]; [by repeat constructor |]. apply Forall_app. split; [| apply IH; lia].
    constructor; [cbn; lia | apply chunks_in; lia]. }
  apply H; lia.
Qed.
Lemma sample_fits s : sample_fine s -> Forall fits (bsample_fields s).
Proof.
  intros (B & H1 & H2 & H3 & H4 & H5). unfold sample_bad in B. rewrite !orb_false_iff, !Z.ltb_ge in B. destruct B as [[[B1 B2] _] _].
  unfold fits, in_u in *. repeat constructor; cbn -[Z.pow]; lia.
Qed.
Lemma fields_fit c p : bcap_ok c -> in_plan c p -> Forall fits (packet_fields c p).
Proof.
  intros K P. pose proof (bk_episodes _ _ K) as [He He']. pose proof (bk_letter _ _ K) as [Hl L]. pose proof (bk_used _ _ K) as Hu.
  destruct (bk_counters _ _ K) as (C1 & C2 & C3 & C4 & C5 & C6).
  assert (Hf : forall v w, in_u (Z.of_nat w) v -> fits (v, w)) by done.
  assert (Hd : forall k, 0 <= k < 4 -> Forall fits (header_fields c k)).
  { intros k Hk. unfold header_fields, BCAP_WIRE_VERSION. repeat (constructor; [apply Hf; unfold in_u in *; lia |]). constructor. }
  destruct p as [| i | i off n |]; cbn [packet_fields in_plan] in P |- *.
  - unfold summary_fields. rewrite !Forall_app. splits; [apply Hd; lia | |].
    + repeat (constructor; [apply Hf; unfold in_u in *; lia |]). constructor.
    + apply Forall_map, Forall_forall. intros j Hj. apply list_elem_of_In, elem_range in Hj. specialize (L j ltac:(lia)). unfold fits, in_u. cbn -[Z.pow]. lia.
  - destruct (episode_facts c K i P) as (F1 & F2 & F3 & F4 & _). unfold episode_fields. rewrite Forall_app. split; [apply Hd; lia |].
    repeat (constructor; [apply Hf; unfold in_u; cbn -[Z.pow]; lia |]). constructor.
  - destruct P as (Pi & Po & Pn & Pc). destruct (episode_facts c K i Pi) as (F1 & F2 & F3 & F4 & _). unfold samples_fields. rewrite !Forall_app. splits; [apply Hd; lia | |].
    + repeat (constructor; [apply Hf; unfold in_u; cbn -[Z.pow]; lia |]). constructor.
    + apply Forall_concat, Forall_map, Forall_forall. intros s Hs. apply sample_fits. unfold slice in Hs. apply list_elem_of_In, in_map_iff in Hs as (j & <- & Hj).
      apply elem_range in Hj. apply nthZ_every; [apply K | rewrite (bk_pool _ _ K); cbn; lia].
  - apply Hd. lia.
Qed.

(** *** Lines of text *)
Lemma digits_length n : forall fuel v, 0 <= v < 10 ^ Z.of_nat n -> (0 < n)%nat -> (length (digits fuel v) <= n)%nat.
Proof.
  induction n as [| n IH]; intros fuel v Hv Hn; [lia |]. destruct fuel as [| fuel]; cbn [digits length]; [lia |].
  destruct (Z.eqb_spec (v / 10) 0) as [E | E]; cbn [length]; [lia |]. apply le_n_S.
  assert (B : 0 <= v / 10 < 10 ^ Z.of_nat n).
  { split; [apply Z.div_pos; lia |]. apply Z.div_lt_upper_bound; [lia |]. rewrite Nat2Z.inj_succ, Z.pow_succ_r in Hv by lia. lia. }
  destruct n as [| n]; [cbn in B; lia |]. apply IH; [exact B | lia].
Qed.
Lemma decimal_length n v : 0 <= v < 10 ^ Z.of_nat n -> (0 < n)%nat -> (length (decimal v) <= n)%nat.
Proof. intros Hv Hn. unfold decimal. rewrite length_rev. by apply digits_length. Qed.
Lemma c_string_length l : forall k, 0 <= k -> nthZ 1 l k = 0 -> (length (c_string l) <= Z.to_nat k)%nat.
Proof.
  induction l as [| x l IH]; intros k Hk E; cbn [c_string length]; [lia |]. destruct (Z.eqb_spec x 0) as [-> | N]; cbn [length]; [lia |].
  destruct (Z.eq_dec k 0) as [-> |]; [done |]. assert (E' : nthZ 1 l (k - 1) = 0).
  { revert E. unfold nthZ. destruct (Z.ltb_spec k 0), (Z.ltb_spec (k - 1) 0); try lia. by replace (Z.to_nat k) with (S (Z.to_nat (k - 1))) by lia. }
  specialize (IH (k - 1) ltac:(lia) E'). lia.
Qed.
Lemma line_whole size parts : forall out, (length out + length (concat parts) < Z.to_nat size)%nat ->
  fold_left (put_text size) parts out = out ++ concat parts.
Proof.
  induction parts as [| p parts IH]; intros out H; cbn [fold_left concat] in *; [by rewrite app_nil_r |]. rewrite length_app in H.
  assert (E : put_text size out p = out ++ p) by (unfold put_text; rewrite take_ge by lia; done).
  rewrite E, IH by (rewrite length_app; lia). by rewrite app_assoc.
Qed.
Definition cursor_typed (cur : bcap_cursor_t) : Prop := in_u 4 (cu_episode cur) /\ in_u 12 (cu_sample cur).
Lemma nthZ_default {A} (d d' : A) l k : 0 <= k < Z.of_nat (length l) -> nthZ d l k = nthZ d' l k.
Proof. intros Hk. pose proof (nthZ_lookup d l k Hk) as E. rewrite (nthZ_lookup d' l k Hk) in E. congruence. Qed.
Section Lines.
Context (c : bcap_t) (K : bcap_ok c).
Lemma summary_short : (length (concat (summary_parts c)) <= 160)%nat.
Proof.
  pose proof (bk_episodes _ _ K) as [He He']. pose proof (bk_letter _ _ K) as [Hl _]. destruct (bk_counters _ _ K) as (C1 & C2 & C3 & C4 & C5 & _). unfold in_u in *.
  pose proof (decimal_length 2 (episodes c) ltac:(cbn; lia) ltac:(lia)). pose proof (decimal_length 3 (dropped c) ltac:(cbn; lia) ltac:(lia)).
  pose proof (decimal_length 5 (decoded c) ltac:(cbn; lia) ltac:(lia)). pose proof (decimal_length 5 (rejected c) ltac:(cbn; lia) ltac:(lia)).
  pose proof (decimal_length 5 (timing c) ltac:(cbn; lia) ltac:(lia)). pose proof (decimal_length 5 (overflow c) ltac:(cbn; lia) ltac:(lia)).
  assert (Lt : (length (if (letter_count c =? 0)%Z then codes "-" else c_string (letters c)) <= 8)%nat).
  { case_if; [cbn; lia |]. pose proof (bk_zero _ _ K) as E. rewrite (nthZ_default 0 1) in E by (rewrite (bk_letters _ _ K); lia).
    pose proof (c_string_length _ _ (proj1 Hl) E). lia. }
  unfold summary_parts. set (lt := if (letter_count c =? 0)%Z then _ else _) in *. cbn [concat]. rewrite !length_app. cbn [codes list_ascii_of_string map length]. lia.
Qed.
Lemma sample_short s : sample_fine s -> (length (concat (sample_parts s)) <= 23)%nat.
Proof.
  intros (B & H1 & H2 & H3 & H4 & H5). unfold sample_bad in B. rewrite !orb_false_iff, !Z.ltb_ge in B. destruct B as [[[B1 B2] _] _]. unfold in_u in *.
  pose proof (decimal_length 4 (raw s) ltac:(cbn; lia) ltac:(lia)). pose proof (decimal_length 3 (dark4 s) ltac:(cbn; lia) ltac:(lia)).
  pose proof (decimal_length 3 (sflags s) ltac:(cbn; lia) ltac:(lia)). pose proof (decimal_length 5 (mm s) ltac:(cbn; lia) ltac:(lia)).
  pose proof (decimal_length 3 (dt_ms s) ltac:(cbn; lia) ltac:(lia)).
  unfold sample_parts. cbn [concat]. rewrite !length_app. cbn [codes list_ascii_of_string map length]. lia.
Qed.
Lemma samples_short cur e n : cursor_typed cur -> 0 <= n <= 6 -> 0 <= first e -> first e + cu_sample cur + n <= 2400 ->
  (length (concat (samples_parts c cur e n)) <= 160)%nat.
Proof.
  intros [T1 T2] Hn Hf Hp. unfold in_u in *. unfold samples_parts. rewrite concat_app, length_app.
  pose proof (decimal_length 2 (cu_episode cur + 1) ltac:(cbn; lia) ltac:(lia)). pose proof (decimal_length 4 (cu_sample cur) ltac:(cbn; lia) ltac:(lia)).
  assert (S : (length (concat (concat (map sample_parts (slice c (first e + cu_sample cur) n)))) <= 23 * Z.to_nat n)%nat).
  { assert (F : Forall sample_fine (slice c (first e + cu_sample cur) n)).
    { apply Forall_forall. intros s Hs. unfold slice in Hs. apply list_elem_of_In, in_map_iff in Hs as (j & <- & Hj). apply elem_range in Hj.
      apply nthZ_every; [apply K | rewrite (bk_pool _ _ K); lia]. }
    assert (L : length (slice c (first e + cu_sample cur) n) = Z.to_nat n) by (unfold slice; by rewrite length_map, length_range). rewrite <- L.
    clear L. induction F as [| s l Fs _ IH]; [cbn; lia |]. cbn [map concat length]. rewrite concat_app, length_app.
    pose proof (sample_short s Fs). lia. }
  cbn [concat]. rewrite !length_app. cbn [codes list_ascii_of_string map length]. lia.
Qed.
Lemma episodes_short fuel : forall cur, cursor_typed cur -> match (format_episodes fuel c cur).1 with Some parts => (length (concat parts) <= 160)%nat | None => True end.
Proof.
  induction fuel as [| fuel IH]; intros cur T; cbn [format_episodes]; [done |]. destruct (Z.ltb_spec (cu_episode cur) (episodes c)) as [L | L]; [| done].
  destruct T as [T1 T2]. pose proof T1 as T1'. unfold in_u in T1'. destruct (episode_facts c K (cu_episode cur) ltac:(lia)) as (F1 & F2 & F3 & F4 & _).
  fold (episode_at c (cu_episode cur)). pose proof (bk_used _ _ K). case_if.
  - cbn [fst]. pose proof (decimal_length 2 (cu_episode cur + 1) ltac:(cbn; lia) ltac:(lia)).
    pose proof (decimal_length 7 (start_ms (episode_at c (cu_episode cur))) ltac:(cbn; lia) ltac:(lia)).
    pose proof (decimal_length 4 (ecount (episode_at c (cu_episode cur))) ltac:(cbn; lia) ltac:(lia)).
    unfold episode_parts. cbn [concat]. rewrite !length_app. cbn [codes list_ascii_of_string map length].
    change (cu_episode (cur <| header_done := true |> <| cu_sample := 0 |>)) with (cu_episode cur). lia.
  - case_if; [apply IH; split; [apply wrap_range; lia | exact T2] |]. unbool. cbn [fst]. apply samples_short; [done | unfold BCAP_PER_LINE; lia | done |].
    unfold BCAP_PER_LINE. lia.
Qed.
End Lines.
Lemma line_short c cur parts cur' : bcap_ok c -> cursor_typed cur -> next_line c cur = (Some parts, cur') -> (length (concat parts) <= 160)%nat.
Proof.
  intros K T. unfold next_line. case_if; [intros [= <- _]; by apply summary_short |].
  pose proof (episodes_short c K (Z.to_nat (episodes c) + 1) cur T) as S. destruct (format_episodes _ c cur) as [[q |] cur1]; cbn [fst] in S.
  - by intros [= <- _].
  - case_if; intros [= <- _]. cbn. lia.
Qed.
Lemma fields_small c p : bcap_ok c -> in_plan c p -> 0 <= total_width (packet_fields c p) <= 373 /\ widths_ok (packet_fields c p).
Proof.
  intros K P. assert (Q : forall f l, total_width (map (fun i : Z => (f i, 5%nat)) l) = 5 * Z.of_nat (length l)).
  { intros f. induction l as [| x l IH]; [done |]. cbn [map length]. rewrite total_width_cons, IH. lia. }
  assert (Q' : forall l, total_width (concat (map bsample_fields l)) = 52 * Z.of_nat (length l)).
  { induction l as [| x l IH]; [done |]. cbn [map concat length]. rewrite total_width_app, IH. cbn. lia. }
  pose proof (bk_letter _ _ K) as [Hl _]. unfold widths_ok.
  destruct p as [| i | i off n |]; cbn [packet_fields in_plan] in *; unfold summary_fields, episode_fields, samples_fields; rewrite ?total_width_app, ?Forall_app.
  - rewrite Q, length_range. split; [cbn; lia |]. splits; [repeat (constructor; [cbn; lia |]); constructor .. |].
    apply Forall_map, Forall_forall. intros j _. cbn. lia.
  - split; [cbn; lia |]. split; repeat (constructor; [cbn; lia |]); constructor.
  - rewrite Q'. unfold slice. rewrite length_map, length_range. split; [cbn; lia |]. splits; [repeat (constructor; [cbn; lia |]); constructor .. |].
    apply Forall_concat, Forall_map, Forall_forall. intros s _. repeat (constructor; [cbn; lia |]). constructor.
  - split; [cbn; lia |]. repeat (constructor; [cbn; lia |]). constructor.
Qed.

(** *** Every stored sample is in the dump *)
Lemma slice_app c k a b : 0 <= a -> 0 <= b -> slice c k (a + b) = slice c k a ++ slice c (k + a) b.
Proof.
  intros Ha Hb. unfold slice. rewrite Z2Nat.inj_add by done. unfold range. rewrite seq_app, !map_app. f_equal.
  rewrite Nat.add_0_l, <- (Nat.add_0_r (Z.to_nat a)), <- fmap_add_seq. rewrite !map_map. apply map_ext. intros n. f_equal. lia.
Qed.
Lemma chunks_samples c i n : forall off rest, 0 <= rest -> (Z.to_nat rest <= n)%nat ->
  concat (map (fun p => item_samples (packet_item c p)) (chunks n i off rest)) = slice c (first (episode_at c i) + off) rest.
Proof.
  induction n as [| n IH]; intros off rest Hr Hn; cbn [chunks]; [by replace rest with 0 by lia |].
  destruct (Z.leb_spec rest 0); [by replace rest with 0 by lia |]. cbn [map concat packet_item item_samples]. rewrite IH by lia.
  rewrite Z.add_assoc, <- slice_app by lia. f_equal. lia.
Qed.
Lemma plan_samples c l : forall i from to, 0 <= from -> (forall j, 0 <= j < Z.of_nat (length l) -> episode_at c (i + j) = nthZ zero_episode l j) ->
  tiles l from to -> concat (map (fun p => item_samples (packet_item c p)) (plan_from c i (length l))) = slice c from (to - from).
Proof.
  induction l as [| e l IH]; intros i from to H0 He T; cbn [length plan_from].
  { cbn in T. subst to. by rewrite Z.sub_diag. }
  destruct T as (F & C & St & T). pose proof (tiles_bound _ _ _ T). unfold plan_episode. rewrite map_app, concat_app. cbn [map concat packet_item item_samples app].
  assert (E : episode_at c i = e) by (specialize (He 0 ltac:(cbn [length]; lia)); by rewrite Z.add_0_r in He).
  rewrite chunks_samples, E by (rewrite ?E; lia). rewrite (IH (i + 1) (from + ecount e) to); [| lia | | done].
  - rewrite F, Z.add_0_r, <- slice_app by lia. f_equal. lia.
  - intros j Hj. specialize (He (1 + j) ltac:(cbn [length]; lia)). rewrite Z.add_assoc in He. rewrite He.
    unfold nthZ. destruct (Z.ltb_spec (1 + j) 0), (Z.ltb_spec j 0); try lia. by replace (Z.to_nat (1 + j)) with (S (Z.to_nat j)) by lia.
Qed.
Lemma slice_all c : bcap_ok c -> slice c 0 (used c) = take (Z.to_nat (used c)) (pool c).
Proof.
  intros K. pose proof (bk_used _ _ K) as Hu. pose proof (bk_pool _ _ K) as Hp. apply list_eq. intros j. unfold slice.
  destruct (decide (j < Z.to_nat (used c))%nat) as [L | L].
  - rewrite lookup_take_lt by lia. rewrite list_lookup_fmap. unfold range. rewrite list_lookup_fmap, lookup_seq_lt by lia. cbn.
    rewrite <- (nthZ_lookup zero_bsample) by lia. f_equal. lia.
  - rewrite lookup_ge_None_2 by (rewrite length_map, length_range; lia). symmetry. apply lookup_ge_None_2. rewrite length_take. lia.
Qed.

(** *** Reading a packet back *)
Lemma reads_bsample s : sample_fine s -> reads read_bsample (bsample_fields s) s.
Proof.
  intros F%sample_fits. unfold read_bsample, bsample_fields in *. destruct s.
  repeat (apply reads_first; [exact F || assumption | intros ?]). apply reads_ret.
Qed.
Lemma slice_fine c k n : bcap_ok c -> 0 <= k -> k + n <= used c -> Forall sample_fine (slice c k n).
Proof.
  intros K Hk Hn. pose proof (bk_used _ _ K). apply Forall_forall. intros s Hs. unfold slice in Hs. apply list_elem_of_In, in_map_iff in Hs as (j & <- & Hj).
  apply elem_range in Hj. apply nthZ_every; [apply K | rewrite (bk_pool _ _ K); lia].
Qed.
Lemma letters_read c : bcap_ok c -> let n := Z.to_nat (letter_count c) in
  reads (repeat_read n (x ← get 5; mret (x + 65))) (map (fun i => (nthZ 0 (letters c) i - 65, 5%nat)) (range n)) (take n (letters c)).
Proof.
  intros K. cbv zeta. pose proof (bk_letter _ _ K) as [Hl L]. set (n := Z.to_nat (letter_count c)).
  assert (E : take n (letters c) = map (fun i => nthZ 0 (letters c) i) (range n)).
  { apply list_eq. intros j. destruct (decide (j < n)%nat) as [J | J].
    - rewrite lookup_take_lt by lia. rewrite list_lookup_fmap. unfold range. rewrite list_lookup_fmap, lookup_seq_lt by lia. cbn.
      rewrite <- (nthZ_lookup 0) by (rewrite (bk_letters _ _ K); lia). f_equal. lia.
    - symmetry. rewrite !lookup_ge_None_2; rewrite ?length_take, ?length_map, ?length_range; (done || lia). }
  rewrite E. pose proof (reads_repeat (x ← get 5; mret (x + 65)) (fun x => [(x - 65, 5%nat)]) (map (fun i => nthZ 0 (letters c) i) (range n))) as R.
  rewrite length_map, length_range, map_map in R.
  assert (C : forall l : list Z, concat (map (fun i => [(nthZ 0 (letters c) i - 65, 5%nat)]) l) = map (fun i => (nthZ 0 (letters c) i - 65, 5%nat)) l)
    by (induction l as [| x l IH]; [done |]; cbn [map concat app]; by rewrite IH).
  rewrite C in R. apply R. apply Forall_map, Forall_forall. intros j Hj. apply list_elem_of_In, elem_range in Hj. specialize (L j ltac:(lia)).
  apply reads_get; [unfold in_u; lia |]. replace (nthZ 0 (letters c) j) with (nthZ 0 (letters c) j - 65 + 65) at 2 by lia. apply reads_ret.
Qed.
Lemma packet_read c p : bcap_ok c -> in_plan c p -> reads read_packet (packet_fields c p) (packet_item c p).
Proof.
  intros K P. pose proof (fields_fit c p K P) as F. unfold read_packet.
  assert (Hd : forall kind fs y (k : Z -> Z -> reader dump_item), Forall fits (header_fields c kind ++ fs) ->
    (Forall fits fs -> reads (k (run_start_us c) kind) fs y) ->
    reads (version ← get 8; _ ← require (version =? BCAP_WIRE_VERSION); start ← get 32; kind ← get 2; k start kind) (header_fields c kind ++ fs) y).
  { intros kind fs y k Fk Hk. apply reads_first; [exact Fk | intros F1]. apply reads_require; [done |].
    apply reads_first; [exact F1 | intros F2]. apply reads_first; [exact F2 | exact Hk]. }
  destruct p as [| i | i off n |]; cbn [packet_fields packet_item] in *.
  - unfold summary_fields in *. apply Hd; [exact F |]. clear F. intros F. cbn [Z.eqb]. unfold read_summary.
    cbn [app] in *. repeat (apply reads_first; [exact F || assumption | intros ?]).
    rewrite <- (app_nil_r (map _ _)). eapply reads_bind; [by apply letters_read | apply reads_ret].
  - unfold episode_fields in *. apply Hd; [exact F |]. clear F. intros F. cbn [Z.eqb Pos.eqb].
    repeat (apply reads_first; [exact F || assumption | intros ?]). apply reads_ret.
  - destruct P as (Pi & Po & Pn & Pc). destruct (episode_facts c K i Pi) as (F1 & F2 & F3 & _).
    unfold samples_fields in *. apply Hd; [exact F |]. clear F. intros F. cbn [Z.eqb Pos.eqb]. cbn [app cu_episode cu_sample at_sample] in *.
    repeat (apply reads_first; [exact F || assumption | intros ?]). rewrite <- (app_nil_r (concat _)).
    eapply reads_bind; [| apply reads_ret]. set (l := slice c _ n).
    replace (Z.to_nat (n - 1 + 1)) with (length l) by (unfold l, slice; rewrite length_map, length_range; lia).
    apply (reads_repeat read_bsample bsample_fields). eapply Forall_impl; [apply slice_fine; [exact K | lia | lia] |]. intros s. apply reads_bsample.
  - rewrite <- (app_nil_r (header_fields c 3)) in *. apply Hd; [exact F |]. intros _. apply reads_ret.
Qed.

(** C34: the binary dump of a finished run.  For a capture built by recording any
    samples (twelve-bit levels, letters A to Z) and ended, calling
    [bcap_binary_next] from a fresh cursor until it returns nothing yields packets of
    at most 47 bytes.  Decoded from those bytes, field by field as the wire format
    lays them out, they are the summary with the run's counters and letters, then for
    each episode its header and its samples, at most six a packet and each packet with
    the samples of the position it names, then the end packet; the samples decoded,
    concatenated, are exactly the stored ones, in order. *)
Theorem bcap_dump_complete c : bcap_reachable c -> cap_active c = false ->
  let packets := drain (S (length (plan c))) c zero_cursor in
  map (run read_packet) packets = map Some (dump c) /\
  concat (map item_samples (dump c)) = take (Z.to_nat (used c)) (pool c) /\
  Forall (fun p => (length p <= 47)%nat) packets.
Proof.
  intros R A. pose proof (bcap_reachable_ok c R) as K. pose proof (bk_episodes _ _ K) as [He He']. cbv zeta. rewrite (drain_plan c K).
  assert (P : Forall (fun p => run read_packet (packet_bytes c p) = Some (packet_item c p) /\ (length (packet_bytes c p) <= 47)%nat) (plan c)).
  { eapply Forall_impl; [apply plan_in; lia |]. intros p P. destruct (fields_small c p K P) as [W Wo].
    assert (B : total_width (packet_fields c p) <= 8 * Z.of_nat (Z.to_nat ((total_width (packet_fields c p) + 7) / 8))).
    { pose proof (Z.mul_div_le (total_width (packet_fields c p) + 7) 8 ltac:(lia)).
      pose proof (Z.mod_pos_bound (total_width (packet_fields c p) + 7) 8 ltac:(lia)). pose proof (Z.div_mod (total_width (packet_fields c p) + 7) 8 ltac:(lia)).
      pose proof (Z.div_pos (total_width (packet_fields c p) + 7) 8 ltac:(lia) ltac:(lia)). lia. }
    unfold packet_bytes. split; [apply reads_run; [by apply packet_read | done | exact B] |].
    rewrite length_pack by exact B. assert ((total_width (packet_fields c p) + 7) / 8 < 48) by (apply Z.div_lt_upper_bound; lia). lia. }
  splits.
  - unfold dump. rewrite !map_map. apply map_ext_Forall. eapply Forall_impl; [exact P |]. by intros p [H _].
  - rewrite <- slice_all by done. unfold dump. rewrite map_map. unfold plan. cbn [map concat packet_item item_samples app].
    pose proof (bk_tiles _ _ K) as T. unfold opened in T. rewrite A, Z.add_0_r in T. set (l := take (Z.to_nat (episodes c)) (episode c)) in *.
    assert (L : length l = Z.to_nat (episodes c)) by (unfold l; rewrite length_take, (bk_episode _ _ K); lia).
    rewrite <- L, (plan_samples c l 0 0 (used c)); [by rewrite Z.sub_0_r | lia | | done].
    intros j Hj. rewrite Z.add_0_l. unfold episode_at, l. rewrite nthZ_take by lia. done.
  - apply Forall_map. eapply Forall_impl; [exact P |]. by intros p [_ H].
Qed.
(** A text line of the dump is never cut.  With a buffer of more than 160
    characters, the line [bcap_format_next] writes for a capture of a run, from any
    cursor, is the whole line, of at most 160 characters. *)
Theorem bcap_lines_whole c cur size parts cur' : bcap_reachable c -> cursor_typed cur -> 160 < size ->
  next_line c cur = (Some parts, cur') ->
  bcap_format_next c cur size = (true, cur', concat parts) /\ (length (concat parts) <= 160)%nat.
Proof.
  intros R T Hs E. pose proof (line_short c cur parts cur' (bcap_reachable_ok c R) T E) as L. split; [| exact L].
  unfold bcap_format_next. rewrite E. unfold line_of. rewrite line_whole by (cbn [length]; lia). done.
Qed.

(** *** Witnesses *)
Definition bench_input (t level dark surf st : Z) : bcap_input_t :=
  {| t_us := t; in_raw := level; darkness := dark; surface := surf; status := st; in_letter := 75; in_collecting := false; in_rearming := false; centre_m := fzero |}.
Definition bench_run : bcap_t :=
  bcap_end_run (bcap_record (bcap_record (bcap_begin_run 1000) (bench_input 11000 800 100 1 0)) (bench_input 21000 3000 900 2 1)).
Lemma bench_capture_reachable : bcap_reachable bench_run.
Proof.
  apply bcap_stop. apply bcap_step; [apply bcap_step; [apply bcap_start; unfold in_u; lia |] |];
    (split; cbn; unfold in_u; intros; lia).
Qed.
Lemma bcap_dump_complete_witness :
  used bench_run = 2 /\ length (plan bench_run) = 4%nat /\
  map (fun s => (raw s, dark4 s)) (concat (map item_samples (dump bench_run))) = [(800, 25); (3000, 225)] /\
  map (run read_packet) (drain (S (length (plan bench_run))) bench_run zero_cursor) = map Some (dump bench_run).
Proof.
  split; [vm_compute; reflexivity |]. split; [vm_compute; reflexivity |]. split; [vm_compute; reflexivity |].
  apply (bcap_dump_complete bench_run bench_capture_reachable). vm_compute. reflexivity.
Defined.
Lemma bcap_lines_whole_witness :
  (bcap_format_next bench_run (zero_cursor <| summary_done := true |>) 161).2 = codes "[BCAP] episode 1 t=10ms samples=2".
Proof.
  destruct (next_line bench_run (zero_cursor <| summary_done := true |>)) as [[parts |] cur'] eqn:E; [| revert E; vm_compute; discriminate].
  destruct (bcap_lines_whole bench_run (zero_cursor <| summary_done := true |>) 161 parts cur' bench_capture_reachable) as [H _];
    [split; unfold in_u; cbn; lia | lia | exact E |].
  rewrite H. cbn [snd]. revert E. vm_compute. intros [= <- _]. reflexivity.
Defined.
