(* ===== verification/Debug.v ===== *)
(** * Debug packets

    Models [controller/ir_debug.{c,h}], [controller/control_debug.{c,h}] and the
    part of [controller/s3_integration.c] that fills them: the infrared preview and
    the controller snapshot, built with [APP_IR_DEBUG].  A packet is a version byte
    followed by bit fields. *)
From S2P Require Import Prelude CFloat BitCodec MotionController MotionPack IrSensing LineDetection BarcodeDecoder.
From S2P Require Import Navigation NavigationCodec Drive IntegrationCodec.

(** ** Infrared preview *)
Definition IR_DEBUG_VERSION : Z := 1.
Definition IR_DEBUG_PACKET_SIZE : nat := 16.
Definition IR_DEBUG_PERIOD_US : Z := 50000.
Record ir_debug_sample_t := {
  id_timestamp_us : Z; id_raw : list Z; id_darkness : list Z; id_raw_valid : Z; id_normalised_valid : Z; id_surface : list Z; id_sequence : Z
}.
#[export] Instance ir_sample_settable : Settable ir_debug_sample_t := fun r =>
  Build_ir_debug_sample_t (id_timestamp_us r) (id_raw r) (id_darkness r) (id_raw_valid r) (id_normalised_valid r) (id_surface r) (id_sequence r).
(** [(mask >> i) & 1U] *)
Definition has_channel (mask i : Z) : bool := negb (Z.land (Z.shiftr mask i) 1 =? 0).
Definition channel_bad (s : ir_debug_sample_t) (i : Z) : bool :=
  (has_channel (id_raw_valid s) i && (4095 <? nthZ 0 (id_raw s) i)) ||
  (has_channel (id_normalised_valid s) i && ((1000 <? nthZ 0 (id_darkness s) i) || (2 <? nthZ 0 (id_surface s) i))).
Definition ir_debug_bad (s : ir_debug_sample_t) : bool :=
  (7 <? id_raw_valid s) || (7 <? id_normalised_valid s) ||
  negb (Z.land (id_normalised_valid s) (u8 (Z.lnot (id_raw_valid s))) =? 0) || existsb (channel_bad s) (range 3).
(** The fields in the order of their bit offsets; an absent value stays zero. *)
Definition ir_debug_fields (s : ir_debug_sample_t) : list field :=
  let shown mask (l : list Z) i := if has_channel mask i then nthZ 0 l i else 0 in
  [(IR_DEBUG_VERSION, 8%nat); (id_timestamp_us s, 32%nat)] ++
  map (fun i => (shown (id_raw_valid s) (id_raw s) i, 12%nat)) (range 3) ++
  map (fun i => (shown (id_normalised_valid s) (id_darkness s) i, 10%nat)) (range 3) ++
  [(id_raw_valid s, 3%nat); (id_normalised_valid s, 3%nat)] ++
  map (fun i => (shown (id_normalised_valid s) (id_surface s) i, 2%nat)) (range 3) ++ [(id_sequence s, 8%nat)].
Definition ir_debug_pack (s : ir_debug_sample_t) : option bytes :=
  if ir_debug_bad s then None else Some (pack IR_DEBUG_PACKET_SIZE (ir_debug_fields s)).
Definition read_ir : reader ir_debug_sample_t :=
  _ ← get 8; t ← get 32; raw ← repeat_read 3 (get 12); dark ← repeat_read 3 (get 10); rv ← get 3; nv ← get 3;
  sf ← repeat_read 3 (get 2); n ← get 8;
  mret {| id_timestamp_us := t; id_raw := raw; id_darkness := dark; id_raw_valid := rv; id_normalised_valid := nv; id_surface := sf; id_sequence := n |}.
Definition ir_debug_unpack (p : bytes) : option ir_debug_sample_t :=
  if negb (nthZ 0 p 0 =? IR_DEBUG_VERSION) || negb (Z.land (nthZ 0 p 15) 0xc0 =? 0) then None
  else match run read_ir p with
  | Some s => match ir_debug_pack s with
              | Some canonical => if bool_decide (canonical = p) then Some s else None
              | None => None
              end
  | None => None
  end.
(** [last] and [seen] in, the answer and both out. *)
Definition ir_debug_due (now last : Z) (seen : bool) : bool * (Z * bool) :=
  if seen && (elapsed now last <? IR_DEBUG_PERIOD_US) then (false, (last, seen)) else (true, (now, true)).

(** ** Controller snapshot *)
(** [CONTROL_DEBUG_FIELDS]: one field per entry of the table. *)
Record control_debug_sample_t := {
  cd_timestamp_us : Z; cd_motion_timestamp_us : Z; cd_sequence : Z; cd_motion_available : Z; cd_motion_valid : Z; cd_braked : Z;
  cd_busy : Z; cd_motion_state : Z; cd_motion_fault : Z; cd_setpoint_left : Z; cd_setpoint_right : Z; cd_measured_left : Z;
  cd_measured_right : Z; cd_duty_left : Z; cd_duty_right : Z; cd_encoder_left : Z; cd_encoder_right : Z; cd_drive_state : Z;
  cd_reason : Z; cd_pending : Z; cd_line_error : Z; cd_line_flags : Z; cd_barcode_status : Z; cd_accepted_calibration : Z;
  cd_readiness : Z; cd_barcode_events : Z; cd_junction_events : Z; cd_lost_events : Z; cd_sample_gap_us : Z;
  cd_run_max_gap_us : Z; cd_left_white : Z; cd_left_black : Z; cd_left_white_limit : Z; cd_left_black_limit : Z;
  cd_right_white : Z; cd_right_black : Z; cd_right_white_limit : Z; cd_right_black_limit : Z; cd_barcode_white : Z;
  cd_barcode_black : Z; cd_barcode_white_limit : Z; cd_barcode_black_limit : Z; cd_cal_sensor : Z; cd_collecting : Z;
  cd_white_min : Z; cd_white_max : Z; cd_black_min : Z; cd_black_max : Z; cd_white_count : Z; cd_black_count : Z
}.
#[export] Instance control_sample_settable : Settable control_debug_sample_t := fun r => Build_control_debug_sample_t
  (cd_timestamp_us r) (cd_motion_timestamp_us r) (cd_sequence r) (cd_motion_available r) (cd_motion_valid r) (cd_braked r)
  (cd_busy r) (cd_motion_state r) (cd_motion_fault r) (cd_setpoint_left r) (cd_setpoint_right r) (cd_measured_left r)
  (cd_measured_right r) (cd_duty_left r) (cd_duty_right r) (cd_encoder_left r) (cd_encoder_right r) (cd_drive_state r)
  (cd_reason r) (cd_pending r) (cd_line_error r) (cd_line_flags r) (cd_barcode_status r) (cd_accepted_calibration r)
  (cd_readiness r) (cd_barcode_events r) (cd_junction_events r) (cd_lost_events r) (cd_sample_gap_us r) (cd_run_max_gap_us r)
  (cd_left_white r) (cd_left_black r) (cd_left_white_limit r) (cd_left_black_limit r) (cd_right_white r) (cd_right_black r)
  (cd_right_white_limit r) (cd_right_black_limit r) (cd_barcode_white r) (cd_barcode_black r) (cd_barcode_white_limit r)
  (cd_barcode_black_limit r) (cd_cal_sensor r) (cd_collecting r) (cd_white_min r) (cd_white_max r) (cd_black_min r)
  (cd_black_max r) (cd_white_count r) (cd_black_count r).
(** A row of the table: signed ([S]) or not ([U]), and the width. *)
Definition CD_U (w : nat) : bool * nat := (false, w).
Definition CD_S (w : nat) : bool * nat := (true, w).
Definition CONTROL_DEBUG_FIELDS : list (bool * nat) := [
  CD_U 32; CD_U 32; CD_U 8; CD_U 1; CD_U 1; CD_U 1; CD_U 1; CD_U 3; CD_U 3; CD_S 13; CD_S 13; CD_S 13; CD_S 13; CD_S 8; CD_S 8; CD_S 20; CD_S 20; CD_U 3; CD_U 4; CD_U 3; CD_S 8; CD_U 5;
  CD_U 3; CD_U 3; CD_U 5; CD_U 16; CD_U 16; CD_U 16; CD_U 32; CD_U 32; CD_U 12; CD_U 12; CD_U 10; CD_U 10; CD_U 12; CD_U 12; CD_U 10; CD_U 10; CD_U 12; CD_U 12; CD_U 10; CD_U 10; CD_U 2; CD_U 1;
  CD_U 12; CD_U 12; CD_U 12; CD_U 12; CD_U 16; CD_U 16].
Definition sample_values (s : control_debug_sample_t) : list Z := [
  cd_timestamp_us s; cd_motion_timestamp_us s; cd_sequence s; cd_motion_available s; cd_motion_valid s; cd_braked s; cd_busy s;
  cd_motion_state s; cd_motion_fault s; cd_setpoint_left s; cd_setpoint_right s; cd_measured_left s; cd_measured_right s;
  cd_duty_left s; cd_duty_right s; cd_encoder_left s; cd_encoder_right s; cd_drive_state s; cd_reason s; cd_pending s;
  cd_line_error s; cd_line_flags s; cd_barcode_status s; cd_accepted_calibration s; cd_readiness s; cd_barcode_events s;
  cd_junction_events s; cd_lost_events s; cd_sample_gap_us s; cd_run_max_gap_us s; cd_left_white s; cd_left_black s;
  cd_left_white_limit s; cd_left_black_limit s; cd_right_white s; cd_right_black s; cd_right_white_limit s;
  cd_right_black_limit s; cd_barcode_white s; cd_barcode_black s; cd_barcode_white_limit s; cd_barcode_black_limit s;
  cd_cal_sensor s; cd_collecting s; cd_white_min s; cd_white_max s; cd_black_min s; cd_black_max s; cd_white_count s;
  cd_black_count s].
Definition sample_of (l : list Z) : option control_debug_sample_t :=
  match l with
  | [x0; x1; x2; x3; x4; x5; x6; x7; x8; x9; x10; x11; x12; x13; x14; x15; x16; x17; x18; x19; x20; x21; x22; x23; x24; x25;
     x26; x27; x28; x29; x30; x31; x32; x33; x34; x35; x36; x37; x38; x39; x40; x41; x42; x43; x44; x45; x46; x47; x48; x49] => Some (Build_control_debug_sample_t
      x0 x1 x2 x3 x4 x5 x6 x7 x8 x9 x10 x11 x12 x13 x14 x15 x16 x17 x18 x19 x20 x21 x22 x23 x24 x25 x26 x27 x28 x29 x30 x31 x32
      x33 x34 x35 x36 x37 x38 x39 x40 x41 x42 x43 x44 x45 x46 x47 x48 x49)
  | _ => None
  end.
Definition zero_control_sample : control_debug_sample_t := Build_control_debug_sample_t
  0 0 0 0 0 0 0 0 0 0 0 0 0 0 0 0 0 0 0 0 0 0 0 0 0 0 0 0 0 0 0 0 0 0 0 0 0 0 0 0 0 0 0 0 0 0 0 0 0 0.
Definition CONTROL_DEBUG_BITS : Z := sumZ (map (fun f : bool * nat => Z.of_nat f.2) CONTROL_DEBUG_FIELDS).
Definition CONTROL_DEBUG_PACKET_SIZE : nat := Z.to_nat (1 + (CONTROL_DEBUG_BITS + 7) / 8).
Definition control_debug_bad (s : control_debug_sample_t) : bool :=
  (5 <? cd_motion_state s) || (5 <? cd_motion_fault s) || (6 <? cd_drive_state s) || (10 <? cd_reason s) || (4 <? cd_pending s) ||
  (4 <? cd_barcode_status s) || (2 <? cd_cal_sensor s) || (cd_line_error s <? -100) || (100 <? cd_line_error s) ||
  (cd_duty_left s <? -100) || (100 <? cd_duty_left s) || (cd_duty_right s <? -100) || (100 <? cd_duty_right s) ||
  (1000 <? cd_left_white_limit s) || (1000 <? cd_left_black_limit s) || (1000 <? cd_right_white_limit s) || (1000 <? cd_right_black_limit s) ||
  (1000 <? cd_barcode_white_limit s) || (1000 <? cd_barcode_black_limit s) ||
  (negb (cd_motion_valid s =? 0) && (cd_motion_available s =? 0)).
(** The checks [CD_U] and [CD_S] of one field. *)
Definition out_of_field (v : Z) (f : bool * nat) : bool :=
  let w := Z.of_nat f.2 in
  if f.1 then (v <? - 2 ^ (w - 1)) || (2 ^ (w - 1) <=? v) else 2 ^ w <=? v.
Definition debug_fields (l : list Z) : list field := (1, 8%nat) :: zip_with (fun v (f : bool * nat) => (u32 v, f.2)) l CONTROL_DEBUG_FIELDS.
Definition control_debug_pack (s : control_debug_sample_t) : option bytes :=
  if control_debug_bad s || existsb id (zip_with out_of_field (sample_values s) CONTROL_DEBUG_FIELDS) then None
  else Some (pack CONTROL_DEBUG_PACKET_SIZE (debug_fields (sample_values s))).
(** [CD_S]: the value of the low bits less the weight of the sign bit. *)
Definition field_value (f : bool * nat) (v : Z) : Z :=
  let w := Z.of_nat f.2 in
  if f.1 then Z.land v (Z.shiftl 1 (w - 1) - 1) - Z.land v (Z.shiftl 1 (w - 1)) else v.
Fixpoint read_table (fs : list (bool * nat)) : reader (list Z) :=
  match fs with [] => mret [] | f :: fs => v ← get f.2; l ← read_table fs; mret (field_value f v :: l) end.
Definition read_control_debug : reader (list Z) := _ ← get 8; read_table CONTROL_DEBUG_FIELDS.
Definition control_debug_unpack (p : bytes) : option control_debug_sample_t :=
  if negb (nthZ 0 p 0 =? 1) then None
  else s ← run read_control_debug p ≫= sample_of;
  match control_debug_pack s with
  | Some canonical => if bool_decide (canonical = p) then Some s else None
  | None => None
  end.

(** ** Filling the packets *)
Record motion_debug_snapshot_t := {
  md_timestamp_us : Z; md_setpoint_mps : float * float; md_measured_mps : float * float; md_duty : float * float; md_encoder : Z * Z;
  md_state : motion_state_t; md_fault : motion_fault_t; md_valid : bool; md_braked : bool; md_busy : bool
}.
Definition debug_scaled (value scale : float) (limit : Z) : option Z :=
  let v := (value * scale)%f32 in
  if negb ((v >=. -. float_of_Z limit) && (v <=. float_of_Z limit)) then None
  else Some (trunc (if v >=. fzero then v + flit 5 10 else v - flit 5 10)%f32).
(** Setpoints, measured speeds, duties and encoders, when all of them fit. *)
Definition debug_motion (m : motion_debug_snapshot_t) : option (list Z) :=
  a ← debug_scaled (md_setpoint_mps m).1 (flit 1000 1) 4095; b ← debug_scaled (md_setpoint_mps m).2 (flit 1000 1) 4095;
  c ← debug_scaled (md_measured_mps m).1 (flit 1000 1) 4095; d ← debug_scaled (md_measured_mps m).2 (flit 1000 1) 4095;
  e ← debug_scaled (md_duty m).1 (flit 100 1) 100; f ← debug_scaled (md_duty m).2 (flit 100 1) 100;
  let '(l, r) := md_encoder m in
  if (-524288 <=? l) && (l <=? 524287) && (-524288 <=? r) && (r <=? 524287) then Some [a; b; c; d; e; f; l; r] else None.
Definition with_motion (d : control_debug_sample_t) (m : motion_debug_snapshot_t) (now : Z) : control_debug_sample_t :=
  let d := d <| cd_motion_available := 1 |> <| cd_motion_timestamp_us := md_timestamp_us m |> <| cd_motion_state := state_code (md_state m) |>
             <| cd_motion_fault := fault_code (md_fault m) |> <| cd_braked := b2z (md_braked m) |> <| cd_busy := b2z (md_busy m) |> in
  match (if md_valid m && (elapsed now (md_timestamp_us m) <=? 50000) then debug_motion m else None) with
  | Some [a; b; c; e; f; g; l; r] =>
      d <| cd_motion_valid := 1 |> <| cd_setpoint_left := a |> <| cd_setpoint_right := b |> <| cd_measured_left := c |> <| cd_measured_right := e |>
        <| cd_duty_left := f |> <| cd_duty_right := g |> <| cd_encoder_left := l |> <| cd_encoder_right := r |>
  | _ => d
  end.
(** The variables of the sampling owner that the packets need. *)
Record debug_t := {
  control_seen : bool; control_last : Z; control_sequence : Z; last_barcode_status : Z; debug_events : list Z;
  ir_seen : bool; ir_last : Z; ir_sequence : Z
}.
#[export] Instance debug_settable : Settable debug_t := fun r =>
  Build_debug_t (control_seen r) (control_last r) (control_sequence r) (last_barcode_status r) (debug_events r) (ir_seen r) (ir_last r) (ir_sequence r).
Definition debug_boot : debug_t :=
  {| control_seen := false; control_last := 0; control_sequence := 0; last_barcode_status := 0; debug_events := [0; 0; 0];
     ir_seen := false; ir_last := 0; ir_sequence := 0 |}.
Definition event_bits : list Z := [S3_EVENT_BARCODE; S3_EVENT_JUNCTION; S3_EVENT_LINE_LOST].
Definition count_events (events : Z) (l : list Z) : list Z :=
  zip_with (fun bit n => if negb (Z.land events bit =? 0) && negb (n =? 65535) then u16 (n + 1) else n) event_bits l.
Definition with_status (d : control_debug_sample_t) (st : s3_integration_status_t) (dr : s3_drive_t) (g : debug_t) : control_debug_sample_t :=
  let nav := pub_navigation st in
  let line := out_line nav in
  let cal i := nthZ zero_calibration (cfg_calibration (nav_config (navigation dr))) i in
  let some s x := if negb (summary_count s =? 0) then x else 0 in
  d <| cd_drive_state := drive_state_code (pub_state st) |> <| cd_reason := reason_code (pub_reason st) |> <| cd_pending := d_pending dr |>
    <| cd_line_error := if obs_valid line then obs_error line else 0 |>
    <| cd_line_flags := Z.lor (Z.lor (Z.lor (Z.lor (b2z (obs_valid line)) (Z.shiftl (b2z (obs_present line)) 1))
         (Z.shiftl (b2z (junction_candidate line)) 2)) (Z.shiftl (b2z (touching line)) 3)) (Z.shiftl (b2z (out_rearming nav)) 4) |>
    <| cd_barcode_status := last_barcode_status g |> <| cd_accepted_calibration := out_accepted_calibration nav |>
    <| cd_readiness := readiness_blockers nav |> <| cd_barcode_events := nthZ 0 (debug_events g) 0 |>
    <| cd_junction_events := nthZ 0 (debug_events g) 1 |> <| cd_lost_events := nthZ 0 (debug_events g) 2 |>
    <| cd_sample_gap_us := sample_gap_us nav |> <| cd_run_max_gap_us := rt_max_gap_us (run_timing st) |>
    <| cd_left_white := white_raw (cal S3_SENSOR_LEFT) |> <| cd_left_black := black_raw (cal S3_SENSOR_LEFT) |>
    <| cd_left_white_limit := white_limit (cal S3_SENSOR_LEFT) |> <| cd_left_black_limit := black_limit (cal S3_SENSOR_LEFT) |>
    <| cd_right_white := white_raw (cal S3_SENSOR_RIGHT) |> <| cd_right_black := black_raw (cal S3_SENSOR_RIGHT) |>
    <| cd_right_white_limit := white_limit (cal S3_SENSOR_RIGHT) |> <| cd_right_black_limit := black_limit (cal S3_SENSOR_RIGHT) |>
    <| cd_barcode_white := white_raw (cal S3_SENSOR_BARCODE) |> <| cd_barcode_black := black_raw (cal S3_SENSOR_BARCODE) |>
    <| cd_barcode_white_limit := white_limit (cal S3_SENSOR_BARCODE) |> <| cd_barcode_black_limit := black_limit (cal S3_SENSOR_BARCODE) |>
    <| cd_cal_sensor := calibration_sensor st |> <| cd_collecting := b2z (collecting st) |>
    <| cd_white_min := some (pub_white st) (summary_minimum (pub_white st)) |> <| cd_white_max := some (pub_white st) (summary_maximum (pub_white st)) |>
    <| cd_black_min := some (pub_black st) (summary_minimum (pub_black st)) |> <| cd_black_max := some (pub_black st) (summary_maximum (pub_black st)) |>
    <| cd_white_count := summary_count (pub_white st) |> <| cd_black_count := summary_count (pub_black st) |>.
(** [motion]: what [motion_try_debug_snapshot] gives; [now]: the clock when it is judged. *)
Definition capture_control_debug (st : s3_integration_status_t) (dr : s3_drive_t) (motion : option motion_debug_snapshot_t) (now : Z) (g : debug_t) :
  option bytes * debug_t :=
  let nav := pub_navigation st in
  let g := g <| debug_events := count_events (events nav) (debug_events g) |> in
  let g := if negb (status_code (barcode_status nav) =? 0) then g <| last_barcode_status := status_code (barcode_status nav) |> else g in
  if control_seen g && (elapsed (out_timestamp_us nav) (control_last g) <? 200000) then (None, g)
  else
    let d := zero_control_sample <| cd_timestamp_us := out_timestamp_us nav |> <| cd_sequence := control_sequence g |> in
    let g := g <| control_seen := true |> <| control_last := out_timestamp_us nav |> <| control_sequence := u8 (control_sequence g + 1) |> in
    let d := match motion with Some m => with_motion d m now | None => d end in
    (control_debug_pack (with_status d st dr g), g).
(** [order]: the channels of the preview are left, right, barcode. *)
Definition preview_order : list Z := [S3_SENSOR_LEFT; S3_SENSOR_RIGHT; S3_SENSOR_BARCODE].
Definition preview_channel (frame : s3_sensor_frame_t) (nav : s3_navigation_output_t) (s : ir_debug_sample_t) (i : Z) : ir_debug_sample_t :=
  let id := nthZ 0 preview_order i in
  let raw := nthZ zero_sample (sensor frame) id in
  if sample_enabled raw && sample_valid raw && (sample_error raw =? 0) then
    let s := s <| id_raw_valid := u8 (Z.lor (id_raw_valid s) (Z.shiftl 1 i)) |> <| id_raw := setZ (id_raw s) i (sample_raw raw) |> in
    let p := nthZ zero_processed (out_sensor nav) id in
    if p_valid p then
      s <| id_normalised_valid := u8 (Z.lor (id_normalised_valid s) (Z.shiftl 1 i)) |> <| id_darkness := setZ (id_darkness s) i (p_darkness p) |>
        <| id_surface := setZ (id_surface s) i (surface_code (p_surface p)) |>
    else s
  else s.
Definition preview (frame : s3_sensor_frame_t) (nav : s3_navigation_output_t) (sequence : Z) : ir_debug_sample_t :=
  fold_left (preview_channel frame nav) (range 3)
    {| id_timestamp_us := frame_timestamp_us frame; id_raw := [0; 0; 0]; id_darkness := [0; 0; 0]; id_raw_valid := 0; id_normalised_valid := 0;
       id_surface := [0; 0; 0]; id_sequence := sequence |}.
Definition capture_ir_debug (frame : s3_sensor_frame_t) (nav : s3_navigation_output_t) (g : debug_t) : option bytes * debug_t :=
  let '(due, (last, seen)) := ir_debug_due (frame_timestamp_us frame) (ir_last g) (ir_seen g) in
  let g := g <| ir_last := last |> <| ir_seen := seen |> in
  if due then (ir_debug_pack (preview frame nav (ir_sequence g)), g <| ir_sequence := u8 (ir_sequence g + 1) |>) else (None, g).

(** ** Round trips *)
Lemma get_byte b : bytes_ok b -> get_at b 0 8 = nthZ 0 b 0.
Proof.
  intros Hb. pose proof (nthZ_byte b 0 Hb) as R. apply Z.bits_inj'. intros i Hi. rewrite get_at_spec by done.
  destruct (Z.ltb_spec i (Z.of_nat 8)) as [L | L].
  - rewrite Z.add_0_l, bit_at_testbit, Z.div_small, Z.mod_small by lia. done.
  - symmetry. cbn [andb]. destruct (Z.eq_dec (nthZ 0 b 0) 0) as [-> |]; [apply Z.bits_0 |]. apply Z.bits_above_log2; [lia |].
    apply Z.log2_lt_pow2; [lia |]. eapply Z.lt_le_trans; [apply R |]. change 256 with (2 ^ 8). apply Z.pow_le_mono_r; lia.
Qed.
Lemma first_byte n v fs : widths_ok ((v, 8%nat) :: fs) -> total_width ((v, 8%nat) :: fs) <= 8 * Z.of_nat n -> in_u 8 v ->
  nthZ 0 (pack n ((v, 8%nat) :: fs)) 0 = v.
Proof.
  intros W T Hv. rewrite <- get_byte by apply pack_ok. destruct (pack_encodes n _ W T) as [-> _]. by apply wrap_id.
Qed.

(** What the preview carries: values of absent channels are zero. *)
Definition masked (mask : Z) (l : list Z) : list Z := map (fun i => if has_channel mask i then nthZ 0 l i else 0) (range 3).
Definition ir_shown (s : ir_debug_sample_t) : ir_debug_sample_t :=
  s <| id_raw := masked (id_raw_valid s) (id_raw s) |> <| id_darkness := masked (id_normalised_valid s) (id_darkness s) |>
    <| id_surface := masked (id_normalised_valid s) (id_surface s) |>.
Record ir_typed (s : ir_debug_sample_t) : Prop := {
  it_time : in_u 32 (id_timestamp_us s); it_sequence : in_u 8 (id_sequence s); it_masks : 0 <= id_raw_valid s /\ 0 <= id_normalised_valid s;
  it_values : Forall (fun x => 0 <= x) (id_raw s) /\ Forall (fun x => 0 <= x) (id_darkness s) /\ Forall (fun x => 0 <= x) (id_surface s)
}.
Lemma masked_nth mask l i : 0 <= i < 3 -> nthZ 0 (masked mask l) i = if has_channel mask i then nthZ 0 l i else 0.
Proof. intros Hi. assert (C : i = 0 \/ i = 1 \/ i = 2) by lia. by destruct C as [-> | [-> | ->]]. Qed.
Lemma ir_shown_fields s : ir_debug_fields (ir_shown s) = ir_debug_fields s.
Proof. unfold ir_debug_fields, ir_shown, masked. cbn. by repeat case_if. Qed.
Lemma ir_shown_bad s : ir_debug_bad (ir_shown s) = ir_debug_bad s.
Proof.
  unfold ir_debug_bad. cbn [ir_shown]. change (id_raw_valid (ir_shown s)) with (id_raw_valid s).
  change (id_normalised_valid (ir_shown s)) with (id_normalised_valid s). f_equal.
  assert (E : forall i, 0 <= i < 3 -> channel_bad (ir_shown s) i = channel_bad s i).
  { intros i Hi. unfold channel_bad. change (id_raw_valid (ir_shown s)) with (id_raw_valid s).
    change (id_normalised_valid (ir_shown s)) with (id_normalised_valid s). cbn [ir_shown id_raw id_darkness id_surface].
    change (id_raw (ir_shown s)) with (masked (id_raw_valid s) (id_raw s)).
    change (id_darkness (ir_shown s)) with (masked (id_normalised_valid s) (id_darkness s)).
    change (id_surface (ir_shown s)) with (masked (id_normalised_valid s) (id_surface s)). rewrite !masked_nth by done.
    by repeat destruct (has_channel _ i). }
  change (range 3) with [0; 1; 2]. cbn [existsb]. by rewrite !E by lia.
Qed.
Lemma nthZ_nonneg l i : Forall (fun x => 0 <= x) l -> 0 <= nthZ 0 l i.
Proof.
  intros F. unfold nthZ. case_if; [lia |]. rewrite nth_lookup. destruct (_ !! Z.to_nat i) as [x |] eqn:E; [| done].
  eapply Forall_lookup_1 in F; [| exact E]. done.
Qed.
(** Three equal-width values in a row. *)
Lemma reads_three {A} w (l : list Z) fs (k : list Z -> reader A) y : length l = 3%nat -> Forall (in_u (Z.of_nat w)) l ->
  reads (k l) fs y -> reads (x ← repeat_read 3 (get w); k x) (map (fun v => (v, w)) l ++ fs) y.
Proof.
  intros L F H. eapply reads_bind; [| exact H]. rewrite <- L. replace (map (fun v => (v, w)) l) with (concat (map (fun v => [(v, w)]) l)).
  2:{ clear. induction l as [| a l IH]; [done |]. cbn. by rewrite IH. }
  apply reads_repeat. eapply Forall_impl; [exact F |]. cbn beta. intros v Hv b p [E _]. unfold get. rewrite E, wrap_id by done. unfold total_width. cbn. by rewrite Z.add_0_r.
Qed.
Lemma channel_fits s : ir_typed s -> ir_debug_bad s = false ->
  Forall (in_u 12) (masked (id_raw_valid s) (id_raw s)) /\ Forall (in_u 10) (masked (id_normalised_valid s) (id_darkness s)) /\
  Forall (in_u 2) (masked (id_normalised_valid s) (id_surface s)).
Proof.
  intros [_ _ _ (R & D & S)] B. unfold ir_debug_bad in B. rewrite !orb_false_iff in B. destruct B as [_ B].
  assert (C : forall i, In i (range 3) -> channel_bad s i = false).
  { intros i Hi. apply not_true_iff_false. intros T. apply not_true_iff_false in B. apply B, existsb_exists. by exists i. }
  splits; apply Forall_map, Forall_forall; intros i Hi; apply list_elem_of_In in Hi; specialize (C i Hi); unfold channel_bad in C;
    pose proof (nthZ_nonneg _ i R); pose proof (nthZ_nonneg _ i D); pose proof (nthZ_nonneg _ i S); unfold in_u; cbn beta;
    destruct (has_channel (id_raw_valid s) i), (has_channel (id_normalised_valid s) i); cbn [andb orb] in C;
    rewrite ?orb_false_r, ?orb_false_iff, ?Z.ltb_ge in C; cbn -[nthZ]; lia.
Qed.
Lemma ir_roundtrip s : ir_typed s -> ir_debug_bad s = false ->
  exists p, ir_debug_pack s = Some p /\ length p = IR_DEBUG_PACKET_SIZE /\ ir_debug_unpack p = Some (ir_shown s).
Proof.
  intros T B. pose proof (channel_fits s T B) as (F1 & F2 & F3). destruct T as [T1 T2 T3 _].
  assert (M : in_u 3 (id_raw_valid s) /\ in_u 3 (id_normalised_valid s)).
  { pose proof B as B'. unfold ir_debug_bad in B'. rewrite !orb_false_iff, !Z.ltb_ge in B'. unfold in_u. lia. }
  unfold ir_debug_pack. rewrite B. eexists. split; [reflexivity |].
  assert (W : total_width (ir_debug_fields s) = 126) by reflexivity.
  assert (K : widths_ok (ir_debug_fields s)) by (repeat constructor).
  split; [apply length_pack; rewrite W; done |]. unfold ir_debug_unpack.
  unfold ir_debug_fields at 1. cbn [app]. rewrite first_byte by (exact K || (change (total_width (ir_debug_fields s) <= 128); lia) || done).
  rewrite pack_mask; [| rewrite W; done | lia | lia |].
  2:{ intros j Hj. rewrite W. assert (C : j = 0 \/ j = 1 \/ j = 2 \/ j = 3 \/ j = 4 \/ j = 5 \/ 6 <= j) by lia.
      destruct C as [-> | [-> | [-> | [-> | [-> | [-> | ?]]]]]]; try done. lia. }
  cbn [negb Z.eqb orb IR_DEBUG_VERSION Pos.eqb].
  rewrite (reads_run read_ir (ir_debug_fields s) (ir_shown s)); [| | exact K | rewrite W; done].
  - unfold ir_debug_pack. rewrite ir_shown_bad, B, ir_shown_fields. by rewrite bool_decide_eq_true_2.
  - unfold read_ir, ir_debug_fields. apply reads_get; [done |]. apply reads_get; [done |].
    apply (reads_three 12 (masked (id_raw_valid s) (id_raw s))); [done | done |].
    apply (reads_three 10 (masked (id_normalised_valid s) (id_darkness s))); [done | done |].
    apply reads_get; [apply M |]. apply reads_get; [apply M |].
    apply (reads_three 2 (masked (id_normalised_valid s) (id_surface s))); [done | done |]. apply reads_get; [done |]. apply reads_ret.
Qed.

(** Values as C holds them. *)
Definition held (v : Z) (f : bool * nat) : Prop := if f.1 then - 2 ^ 31 <= v < 2 ^ 31 else in_u 32 v.
Definition control_typed (s : control_debug_sample_t) : Prop := Forall2 held (sample_values s) CONTROL_DEBUG_FIELDS.
Lemma signed_value w v : 0 < w <= 32 -> - 2 ^ (w - 1) <= v < 2 ^ (w - 1) ->
  let x := v mod 2 ^ w in Z.land x (Z.shiftl 1 (w - 1) - 1) - Z.land x (Z.shiftl 1 (w - 1)) = v.
Proof.
  intros Hw Hv x. assert (P : 2 ^ w = 2 * 2 ^ (w - 1)) by (rewrite <- Z.pow_succ_r by lia; f_equal; lia).
  pose proof (Z.pow_pos_nonneg 2 (w - 1) ltac:(lia) ltac:(lia)) as Q. rewrite !Z.shiftl_1_l.
  replace (2 ^ (w - 1) - 1) with (Z.ones (w - 1)) by (rewrite Z.ones_equiv; lia). rewrite Z.land_ones by lia.
  assert (B : Z.land x (2 ^ (w - 1)) = if v <? 0 then 2 ^ (w - 1) else 0).
  { assert (Hx : x = v + if v <? 0 then 2 ^ w else 0).
    { unfold x. destruct (Z.ltb_spec v 0); [| rewrite Z.mod_small; lia]. rewrite <- (Z.mod_small (v + 2 ^ w) (2 ^ w)) by lia.
      replace (v + 2 ^ w) with (v + 1 * 2 ^ w) by lia. by rewrite Z_mod_plus_full. }
    assert (D : x / 2 ^ (w - 1) = if v <? 0 then 1 else 0).
    { rewrite Hx. destruct (Z.ltb_spec v 0); [| apply Z.div_small; lia]. symmetry. apply (Z.div_unique_pos _ _ _ (v + 2 ^ w - 2 ^ (w - 1))); lia. }
    apply Z.bits_inj'. intros k Hk. rewrite Z.land_spec, Z.pow2_bits_eqb by lia. destruct (Z.eqb_spec (w - 1) k) as [<- |].
    - rewrite Z.testbit_odd, Z.shiftr_div_pow2, D by lia. destruct (v <? 0); [| by rewrite Z.bits_0].
      by rewrite Z.pow2_bits_true by lia.
    - rewrite andb_false_r. destruct (v <? 0); [| by rewrite Z.bits_0]. by rewrite Z.pow2_bits_false by lia. }
  rewrite B. unfold x. rewrite P, (Z.mul_comm 2), Z.rem_mul_r by lia.
  rewrite Z.mul_comm, Z_mod_plus_full, Zmod_mod. destruct (Z.ltb_spec v 0).
  - assert (E : v mod 2 ^ (w - 1) = v + 2 ^ (w - 1)); [| lia]. symmetry. apply (Z.mod_unique_pos _ _ (-1)); lia.
  - rewrite Z.mod_small by lia. lia.
Qed.
Lemma field_back (f : bool * nat) v : (0 < f.2 <= 32)%nat -> held v f -> out_of_field v f = false ->
  field_value f (wrap (Z.of_nat f.2) (u32 v)) = v.
Proof.
  destruct f as [s w]. cbn [fst snd]. intros Hw H O. unfold out_of_field, field_value, held in *. cbn [fst snd] in *.
  assert (E : wrap (Z.of_nat w) (u32 v) = v mod 2 ^ Z.of_nat w).
  { unfold u32, wrap. rewrite <- Znumtheory.Zmod_div_mod; [done | apply Z.pow_pos_nonneg; lia | lia |].
    exists (2 ^ (32 - Z.of_nat w)). rewrite <- Z.pow_add_r by lia. f_equal. lia. }
  rewrite E. destruct s.
  - rewrite orb_false_iff, Z.ltb_ge, Z.leb_gt in O. apply signed_value; lia.
  - rewrite Z.leb_gt in O. unfold in_u in H. apply Z.mod_small. lia.
Qed.
Lemma reads_table fs : Forall (fun f : bool * nat => (0 < f.2 <= 32)%nat) fs -> forall l, Forall2 held l fs ->
  existsb id (zip_with out_of_field l fs) = false -> reads (read_table fs) (zip_with (fun v (f : bool * nat) => (u32 v, f.2)) l fs) l.
Proof.
  induction 1 as [| f fs Hf _ IH]; intros l H; inversion H as [| v f' l' fs' Hv Hl]; subst; [intros _; apply reads_ret |].
  cbn [zip_with existsb]. unfold id at 1. rewrite orb_false_iff. intros [O1 O2] b p [E He]. cbn [read_table]. unfold mbind, reader_bind, get. cbn [fst snd] in E. rewrite E.
  rewrite (IH l' Hl O2 _ _ He). unfold mret, reader_ret. rewrite field_back by done. rewrite total_width_cons. f_equal. f_equal. lia.
Qed.
Lemma sample_of_values s : sample_of (sample_values s) = Some s.
Proof. by destruct s. Qed.
Lemma control_roundtrip s p : control_typed s -> control_debug_pack s = Some p ->
  length p = CONTROL_DEBUG_PACKET_SIZE /\ control_debug_unpack p = Some s.
Proof.
  intros T E. pose proof E as E'. unfold control_debug_pack in E. destruct (_ || _) eqn:B; [done |]. injection E as <-. apply orb_false_iff in B as [_ B].
  assert (W : total_width (debug_fields (sample_values s)) = 559) by reflexivity.
  assert (K : widths_ok (debug_fields (sample_values s))) by (unfold widths_ok; repeat (constructor; [cbn; lia |]); constructor).
  change (8 * Z.of_nat CONTROL_DEBUG_PACKET_SIZE) with 560 in *.
  split; [apply length_pack; rewrite W; vm_compute; congruence |]. unfold control_debug_unpack.
  unfold debug_fields at 1. rewrite first_byte; [| exact K | change (total_width (debug_fields (sample_values s)) <= 560); rewrite W; lia | done].
  cbn [Z.eqb Pos.eqb negb]. rewrite (reads_run read_control_debug (debug_fields (sample_values s)) (sample_values s)); [| | exact K | rewrite W; vm_compute; congruence].
  - cbn [mbind option_bind]. rewrite sample_of_values. cbn [mbind option_bind]. rewrite E'. by rewrite bool_decide_eq_true_2.
  - unfold read_control_debug, debug_fields. apply reads_get; [done |]. apply reads_table; [| exact T | exact B].
    repeat (constructor; [cbn; lia |]). constructor.
Qed.

(** ** The guarantee *)
(** Debug packets.  An infrared preview packs exactly when its masks and values
    are in range, takes 16 bytes and reads back as the sample with the values of its
    absent channels zeroed; a controller snapshot that packs takes 70 bytes and
    reads back unchanged, signed fields included; and a packet that is accepted is
    the one the sender would produce for the sample it gives. *)
Theorem debug_packets_roundtrip s c : ir_typed s -> control_typed c ->
  (if ir_debug_bad s then ir_debug_pack s = None
   else exists p, ir_debug_pack s = Some p /\ length p = 16%nat /\ ir_debug_unpack p = Some (ir_shown s)) /\
  (forall p, control_debug_pack c = Some p -> length p = 70%nat /\ control_debug_unpack p = Some c) /\
  (forall p v, ir_debug_unpack p = Some v -> ir_debug_pack v = Some p) /\
  (forall p v, control_debug_unpack p = Some v -> control_debug_pack v = Some p).
Proof.
  intros T T'. splits.
  - destruct (ir_debug_bad s) eqn:B; [unfold ir_debug_pack; by rewrite B | by apply ir_roundtrip].
  - intros p E. by apply control_roundtrip.
  - intros p v. unfold ir_debug_unpack. case_if; [done |]. destruct (run read_ir p) as [s' |]; [| done].
    destruct (ir_debug_pack s') as [q |] eqn:E; [| done]. case_bool_decide; [| done]. intros [= <-]. by subst q.
  - intros p v. unfold control_debug_unpack. case_if; [done |]. destruct (run read_control_debug p ≫= sample_of) as [s' |]; cbn; [| done].
    destruct (control_debug_pack s') as [q |] eqn:E; [| done]. case_bool_decide; [| done]. intros [= <-]. by subst q.
Qed.
Definition bench_preview : ir_debug_sample_t :=
  {| id_timestamp_us := 70000; id_raw := [200; 9; 3000]; id_darkness := [10; 20; 900]; id_raw_valid := 5; id_normalised_valid := 4;
     id_surface := [1; 1; 2]; id_sequence := 3 |}.
Definition bench_control_sample : control_debug_sample_t :=
  zero_control_sample <| cd_timestamp_us := 70000 |> <| cd_motion_available := 1 |> <| cd_motion_valid := 1 |> <| cd_measured_left := -120 |>
    <| cd_line_error := -7 |> <| cd_drive_state := 1 |>.
Lemma debug_packets_roundtrip_witness :
  (exists p, ir_debug_pack bench_preview = Some p /\ length p = 16%nat /\ ir_debug_unpack p = Some (ir_shown bench_preview)) /\
  exists p, control_debug_pack bench_control_sample = Some p /\ control_debug_unpack p = Some bench_control_sample.
Proof.
  destruct (debug_packets_roundtrip bench_preview bench_control_sample) as (H1 & H2 & _).
  - split; cbn; [unfold in_u; lia .. | lia |]. splits; repeat constructor; lia.
  - unfold control_typed. repeat (constructor; [vm_compute; split; congruence |]). constructor.
  - split; [exact H1 |]. assert (E : is_Some (control_debug_pack bench_control_sample)) by (vm_compute; eauto).
    destruct E as [p E]. exists p. split; [exact E |]. by apply H2.
Defined.
