(* ===== verification/Integration.v ===== *)
(** * Sampling owner

    Models [controller/s3_integration.c] with [course_profile.h] and
    [builtin_calibration.h]: the one task that runs the drive.  Every 10 ms it takes
    at most one command from the mailbox (STOP before anything else), reads the
    sensors and the motion feedback, supervises the terrain, runs the drive, records
    the barcode trace, executes the command and publishes a packed status.

    The state under [g_mutex] is [shared_t]; a cycle is five steps, each with exactly
    one critical section, so the other tasks (commands submitted by the panel and
    the network, packets taken by the network task, map commands) come between
    them.  What the outside answers in a cycle is the record [env]; a lock of
    [g_mutex] may fail, as the code allows. *)
From S2P Require Import Prelude CFloat BitCodec MotionController MotionPack IrSensing LineDetection BarcodeDecoder BarcodeRecord.
From S2P Require Import ObstacleCodec Navigation NavigationSafety NavigationCodec Drive DriveSafety.
From S2P Require Import Telemetry TelemetryStore BarcodeMap Terrain TerrainControl Vehicle Capture Debug IntegrationCodec.

(** ** Course profile and start-up *)
Definition S3_BARCODE_WHITE_LIMIT : Z := 400.
Definition S3_BARCODE_BLACK_LIMIT : Z := 600.
Definition S3_COURSE_STEERING_KP : float := flit 10 100.
Definition S3_COURSE_BASE_MPS : float := flit 4 100.
Definition S3_COURSE_PENDING_WAIT_US : Z := 40000000.
Definition S3_TURN_LINE_WINDOW_US : Z := 300000.
Definition S3_TURN_SEARCH_DEG : float := flit 35 1.
Definition S3_TURN_SEARCH_MPS : float := flit 5 100.
Definition S3_TRACK_M : float := flit 116 1000.
Definition S3_ADVANCE_MPS : float := flit 10 100.
Definition S3_SENSOR_TO_AXLE_MM : Z := 135.
Definition S3_CROSSING_CENTRE_MM : Z := 5.
Definition s3_course_navigation (cfg : s3_navigation_config_t) : s3_navigation_config_t :=
  let cal := nthZ zero_calibration (cfg_calibration cfg) S3_SENSOR_BARCODE in
  cfg <| cfg_calibration := setZ (cfg_calibration cfg) S3_SENSOR_BARCODE
           (cal <| white_limit := S3_BARCODE_WHITE_LIMIT |> <| black_limit := S3_BARCODE_BLACK_LIMIT |>) |>
      <| cfg_line := {| signal_floor := signal_floor (cfg_line cfg); junction_dark := junction_dark (cfg_line cfg); lost_us := lost_us (cfg_line cfg);
           reacquire_us := reacquire_us (cfg_line cfg); junction_us := junction_us (cfg_line cfg); rearm_us := rearm_us (cfg_line cfg);
           LineDetection.max_gap_us := LineDetection.max_gap_us (cfg_line cfg); between := true |} |>
      <| cfg_steering := {| base_mps := S3_COURSE_BASE_MPS; kp_mps := S3_COURSE_STEERING_KP; maximum_mps := maximum_mps (cfg_steering cfg) |} |>.
Definition s3_course_options : s3_drive_options_t :=
  {| cross_straight := true; turn_advance_m := (float_of_Z (S3_SENSOR_TO_AXLE_MM + S3_CROSSING_CENTRE_MM) / flit 1000 1)%f32;
     advance_mps := S3_ADVANCE_MPS; drive_set := true; pending_wait_us := S3_COURSE_PENDING_WAIT_US;
     turn_line_window_us := S3_TURN_LINE_WINDOW_US; search_deg := S3_TURN_SEARCH_DEG; search_mps := S3_TURN_SEARCH_MPS; track_m := S3_TRACK_M |}.
(** White minimum and maximum, black minimum and maximum, by sensor. *)
Definition S3_BUILTIN_CAL : list (Z * Z * Z * Z) := [(170, 260, 3250, 3850); (115, 174, 1242, 1761); (146, 218, 2960, 3176)].
Definition add_both (c : s3_calibration_collector_t) (w b : Z) : s3_calibration_collector_t :=
  (s3_calibration_add (s3_calibration_add c IR_SURFACE_WHITE w).2 IR_SURFACE_BLACK b).2.
Definition builtin_collector (r : Z * Z * Z * Z) : s3_calibration_collector_t :=
  let '(w0, w1, b0, b1) := r in
  let c := add_both s3_calibration_begin w0 b0 in
  let c := fold_left (fun c _ => add_both c (u16 ((w0 + w1) / 2)) (u16 ((b0 + b1) / 2))) (range 10) c in
  add_both c w1 b1.
Definition apply_builtin_calibration (n : s3_navigation_t) : s3_navigation_t :=
  fold_left (fun n i => (s3_navigation_apply_calibration n i (builtin_collector (nthZ (0, 0, 0, 0) S3_BUILTIN_CAL i))).2) (range S3_SENSOR_COUNT) n.
Definition course_config : s3_navigation_config_t :=
  s3_course_navigation (s3_navigation_defaults <| acquisition := {| channel := channel (acquisition s3_navigation_defaults); enabled_mask := S3_ALL_SENSORS |} |>).
(** [None]: [E_PAR]. *)
Definition integration_drive (app_s5 : bool) : option ctx :=
  let '(ok, d) := s3_drive_init app_s5 true (Some course_config) in
  if negb ok then None
  else
    let '(ok, c) := s3_drive_set_options {| dr := d; calls := [] |} (Some s3_course_options) in
    if negb ok then None else Some (c <|| navigation := apply_builtin_calibration (navigation (dr c)) ||>).

(** What the motors are asked for when the drive asks for a velocity. *)
Definition S3_MIN_WHEEL_MPS : float := flit 1 100.
Definition floor_wheel (mps : float) : float := if (mps >. fzero) && (mps <. S3_MIN_WHEEL_MPS) then S3_MIN_WHEEL_MPS else mps.
Definition velocity_with_floor (left right : float) : float * float := (floor_wheel left, floor_wheel right).

(** ** State *)
Definition S3_COLLECTION_US : Z := 1000000.
Definition S3_EMPTY_RANGE_MINIMUM : Z := 4095.
(** Everything under [g_mutex]; [net_pending] is [g_bcap_net_pending]. *)
Record shared_t := {
  sh_pending : bool; sh_stop : bool; sh_status_ready : bool; sh_reset_pending : bool; sh_command : bytes; sh_status : s3_status_packet_t;
  g_bcap : bcap_t; bcap_valid : bool; net_pending : bool; net_cursor : bcap_cursor_t;
  ir_packet : bytes; ir_ready : bool; control_packet : bytes; control_ready : bool
}.
#[export] Instance shared_settable : Settable shared_t := fun r =>
  Build_shared_t (sh_pending r) (sh_stop r) (sh_status_ready r) (sh_reset_pending r) (sh_command r) (sh_status r) (g_bcap r) (bcap_valid r)
    (net_pending r) (net_cursor r) (ir_packet r) (ir_ready r) (control_packet r) (control_ready r).
(** The variables of the sampling owner, and its locals within a cycle: the command
    taken and not yet executed, the frame and the feedback.  [l_taken] repeats the
    command the cycle took. *)
Record owner_t := {
  drv : ctx; reset_waiting : bool; collectors : list s3_calibration_collector_t; is_collecting : bool; cal_sensor : Z; cal_label : ir_surface_t;
  collect_since : Z; working : s3_integration_status_t; dbg : debug_t;
  l_was_running : bool; l_taken : option s3_control_request_t; l_pending : option s3_control_request_t; l_frame : s3_sensor_frame_t;
  l_feedback : motion_feedback_t
}.
#[export] Instance owner_settable : Settable owner_t := fun r =>
  Build_owner_t (drv r) (reset_waiting r) (collectors r) (is_collecting r) (cal_sensor r) (cal_label r) (collect_since r) (working r) (dbg r)
    (l_was_running r) (l_taken r) (l_pending r) (l_frame r) (l_feedback r).
(** With the other modules' state: terrain supervision, barcode map, telemetry mirror and store. *)
Record world := { sh : shared_t; ow : owner_t; terr : terrain_control_t; mps : maps; veh : vehicle; tel : store }.
#[export] Instance world_settable : Settable world := fun r => Build_world (sh r) (ow r) (terr r) (mps r) (veh r) (tel r).
Notation "w <|o f := v |o>" := (w <| ow := (ow w) <| f := v |> |>) (at level 12, left associativity, f at level 10, v at level 200) : car_scope.
Notation "w <|s f := v |s>" := (w <| sh := (sh w) <| f := v |> |>) (at level 12, left associativity, f at level 10, v at level 200) : car_scope.

(** What the outside answers in one cycle. *)
Record env := {
  e_lk_take : bool; e_stop_now : Z; e_feedback : motion_feedback_t; e_adc : Z; e_read : Z * s3_sensor_frame_t; e_frame_now : Z;
  e_poll_now : Z; e_reading : option (terrain_result_t * Z * Z); e_events : list (terrain_result_t * bool); e_lk_reset : bool;
  e_lk_record : bool; e_exec_now : Z; e_lk_map : bool; e_lk_map2 : bool; e_token : option Z; e_lk_begin : bool; e_timing_now : Z;
  e_bcap_now : Z; e_lk_execute : bool; e_ready_now : Z; e_motion_debug : option motion_debug_snapshot_t; e_debug_now : Z; e_lk_publish : bool;
  e_locks : locks; e_motion : option motion_status_t; e_control : Z; e_obstacle : option s5_observation_t
}.

(** ** Other tasks *)
Definition s3_integration_submit (lk : bool) (r : s3_control_request_t) (s : shared_t) : bool * shared_t :=
  match s3_control_pack r with
  | None => (false, s)
  | Some packet =>
      if negb lk then (false, s)
      else if bool_decide (req_kind r = S3_CONTROL_STOP) then (true, s <| sh_stop := true |> <| sh_pending := false |> <| sh_reset_pending := false |>)
      else if negb (sh_pending s) && negb (sh_stop s) && negb (sh_reset_pending s) then
        (true, s <| sh_command := packet |> <| sh_pending := true |> <| sh_reset_pending := bool_decide (req_kind r = S3_CONTROL_RESET) |>)
      else (false, s)
  end.
Definition s3_integration_status (lk : bool) (s : shared_t) : option s3_integration_status_t :=
  if lk && sh_status_ready s then s3_status_unpack (sh_status s) else None.
Definition stamp_of (p : bytes) : Z :=
  Z.lor (Z.lor (Z.lor (nthZ 0 p 1) (Z.shiftl (nthZ 0 p 2) 8)) (Z.shiftl (nthZ 0 p 3) 16)) (Z.shiftl (nthZ 0 p 4) 24).
Definition mqtt_utk_control_debug_take (lk : bool) (size now : Z) (s : shared_t) : bytes * shared_t :=
  if (size <? Z.of_nat CONTROL_DEBUG_PACKET_SIZE) || negb lk then ([], s)
  else if control_ready s then (if elapsed now (stamp_of (control_packet s)) <=? 400000 then control_packet s else [], s <| control_ready := false |>)
  else ([], s).
Definition mqtt_utk_ir_debug_take (lk : bool) (size now : Z) (s : shared_t) : bytes * shared_t :=
  if (size <? Z.of_nat IR_DEBUG_PACKET_SIZE) || negb lk then ([], s)
  else if ir_ready s then (if elapsed now (stamp_of (ir_packet s)) <=? 100000 then ir_packet s else [], s <| ir_ready := false |>)
  else ([], s).
Definition mqtt_utk_debug_take (lk : bool) (size : Z) (s : shared_t) : bytes * shared_t :=
  if (size <? BCAP_WIRE_MAX) || negb (net_pending s) || negb lk then ([], s)
  else match bcap_binary_next (g_bcap s) (net_cursor s) size with
       | Some (p, cursor) => (p, s <| net_cursor := cursor |>)
       | None => ([], s <| net_pending := false |>)
       end.

(** ** The sampling owner *)
Section Owner.
Context (app_s5 app_ir_debug : bool) (p : port).

Definition drive_of (w : world) : s3_drive_t := dr (drv (ow w)).
Definition with_nav (w : world) (n : s3_navigation_t) : world := w <|o drv := (drv (ow w)) <|| navigation := n ||> |o>.
Definition execute_stop (w : world) : world := w <|o drv := s3_drive_stop app_s5 (drv (ow w)) |o> <|o is_collecting := false |o>.
Definition execute_reset (now : Z) (w : world) : bool * world :=
  if negb (terrain_control_reset_ready (terr w) now) then (false, w)
  else
    let '(ok, c) := s3_drive_reset p (drv (ow w)) now in
    let w := w <|o drv := c |o> in
    if negb ok then (false, w) else (true, w <| terr := terrain_control_clear_fault (terr w) |>).
(** The conditions checked before the barcode map is touched. *)
Definition start_refused (now : Z) (w : world) : bool :=
  negb (terrain_control_ready (terr w) now) || is_collecting (ow w) ||
  (negb (bool_decide (d_state (drive_of w) = S3_DRIVE_OFF)) && negb (bool_decide (d_state (drive_of w) = S3_DRIVE_HALTED))) ||
  negb (bool_decide (lifecycle (navigation (drive_of w)) = S3_RUN_INACTIVE)) ||
  negb (s3_navigation_readiness (navigation (drive_of w)) now =? 0).
Definition execute_start (e : env) (now : Z) (w : world) : bool * world :=
  if start_refused now w then (false, w)
  else
    let '(ok, m, n) := vehicle_controller_prepare_start (e_lk_map e) (e_lk_map2 e) (mps w) (navigation (drive_of w)) in
    let w := with_nav (w <| mps := m |>) n in
    if negb ok then (false, w)
    else
      let '(ok, c) := s3_drive_start app_s5 p (drv (ow w)) now in
      let w := w <|o drv := c |o> in
      if negb ok then (false, w <| mps := vehicle_controller_cancel_start (e_lk_map2 e) (mps w) |>)
      else
        let '(ok, k, s) := terrain_control_begin (e_lk_begin e) (e_token e) now (terr w) (tel w) in
        let w := w <| terr := k |> <| tel := s |> in
        if negb ok
        then (false, w <|o drv := s3_drive_stop app_s5 (drv (ow w)) |o> <| mps := vehicle_controller_cancel_start (e_lk_map2 e) (mps w) |>)
        else (true, w <| mps := vehicle_controller_commit_start (mps w) |>).
Definition execute_mapping (e : env) (map : list Z) (w : world) : bool * world :=
  let '(ok, m) := vehicle_controller_apply_mapping (e_lk_map e) map (mps w) in
  let w := w <| mps := m |> in
  if negb ok then (false, w)
  else let '(ok, n) := s3_navigation_set_mapping (navigation (drive_of w)) map in (ok, with_nav w n).
Definition empty_range : s3_calibration_range_t := {| IrSensing.count := 0; sum := 0; minimum := S3_EMPTY_RANGE_MINIMUM; maximum := 0 |}.
Definition zero_collector : s3_calibration_collector_t :=
  let z := {| IrSensing.count := 0; sum := 0; minimum := 0; maximum := 0 |} in {| white := z; black := z |}.
(** WHITE and BLACK: one second of samples of one sensor begins. *)
Definition begin_collecting (r : s3_control_request_t) (now : Z) (w : world) : world :=
  let label := if bool_decide (req_kind r = S3_CONTROL_WHITE) then IR_SURFACE_WHITE else IR_SURFACE_BLACK in
  let c := nthZ zero_collector (collectors (ow w)) (req_sensor r) in
  let c := if bool_decide (req_kind r = S3_CONTROL_WHITE) then c <| white := empty_range |> else c <| black := empty_range |> in
  w <|o cal_sensor := req_sensor r |o> <|o is_collecting := true |o> <|o collect_since := now |o> <|o cal_label := label |o>
    <|o collectors := setZ (collectors (ow w)) (req_sensor r) c |o>.
Definition execute (e : env) (r : s3_control_request_t) (now : Z) (w : world) : bool * world :=
  match req_kind r with
  | S3_CONTROL_STOP => (true, execute_stop w)
  | S3_CONTROL_RESET => execute_reset now w
  | S3_CONTROL_START => execute_start e now w
  | kind =>
      if negb (bool_decide (lifecycle (navigation (drive_of w)) = S3_RUN_INACTIVE)) || is_collecting (ow w) ||
         bool_decide (d_state (drive_of w) = S3_DRIVE_FAULT) then (false, w)
      else if bool_decide (kind = S3_CONTROL_MAPPING) then execute_mapping e (req_map r) w
      else if 3 <=? u32 (req_sensor r) then (false, w)
      else if bool_decide (kind = S3_CONTROL_APPLY_CALIBRATION) then
        let '(ok, n) := s3_navigation_apply_calibration (navigation (drive_of w)) (req_sensor r)
          (nthZ zero_collector (collectors (ow w)) (req_sensor r)) in (ok, with_nav w n)
      else (true, begin_collecting r now w)
  end.
(** [working.command_ok = ok; working.command_sequence++;] *)
Definition answer (ok : bool) (w : world) : world :=
  w <|o working := (working (ow w)) <| command_ok := ok |> <| command_sequence := u32 (command_sequence (working (ow w)) + 1) |> |o>.
Definition reset_completed (lk : bool) (w : world) : world := if lk then w <|s sh_reset_pending := false |s> else w.

(** *** Step 1: take a command; STOP is executed at once *)
Definition stop_request : s3_control_request_t := {| req_kind := S3_CONTROL_STOP; req_sensor := 0; req_map := replicate 26 0 |}.
Definition take_command (lk : bool) (s : shared_t) : option s3_control_request_t * shared_t :=
  if lk then
    (if sh_stop s then Some stop_request else if sh_pending s then s3_control_unpack (sh_command s) else None,
     s <| sh_stop := false |> <| sh_pending := false |>)
  else (None, s).
Definition is_stop (r : option s3_control_request_t) : bool :=
  match r with Some r => bool_decide (req_kind r = S3_CONTROL_STOP) | None => false end.
Definition step_take (e : env) (w : world) : world :=
  let w := w <|o l_was_running := running (d_state (drive_of w)) |o> in
  let '(c, s) := take_command (e_lk_take e) (sh w) in
  let w := w <| sh := s |> <|o l_taken := c |o> <|o l_pending := c |o> in
  if is_stop c then answer true (execute_stop (w <|o reset_waiting := false |o>)) <|o l_pending := None |o> else w.

(** *** Step 2: sensors, terrain, drive, and the end of a reset *)
Definition sense (e : env) (w : world) : world :=
  let status := if e_adc e =? 0 then (e_read e).1 else e_adc e in
  let frame := if status =? 0 then (e_read e).2 else zero_frame <| frame_timestamp_us := e_frame_now e |> in
  w <|o l_feedback := e_feedback e |o> <|o working := (working (ow w)) <| adc_status := status |> |o> <|o l_frame := frame |o>.
Definition drive_cycle (e : env) (w : world) : world :=
  let '(k, c) := terrain_control_poll app_s5 (e_poll_now e) (e_reading e) (e_events e) (terr w) (drv (ow w)) in
  let w := w <| terr := k |> in
  w <|o drv := (s3_drive_process app_s5 p c (Some (l_frame (ow w))) (Some (l_feedback (ow w)))).2 |o>.
Definition step_sense (e : env) (w : world) : world :=
  let w := drive_cycle e (sense e w) in
  if reset_waiting (ow w) && negb (bool_decide (reset_result (drive_of w) = S3_RESET_PENDING))
  then reset_completed (e_lk_reset e) (answer (bool_decide (reset_result (drive_of w) = S3_RESET_OK)) w <|o reset_waiting := false |o>)
  else w.

(** *** Step 3: the barcode trace *)
Definition trace_input (w : world) : bcap_input_t :=
  let d := drive_of w in
  let s := nthZ zero_processed (out_sensor (output d)) S3_SENSOR_BARCODE in
  {| t_us := frame_timestamp_us (l_frame (ow w)); in_raw := sample_raw (nthZ zero_sample (sensor (l_frame (ow w))) S3_SENSOR_BARCODE);
     darkness := p_darkness s; Capture.surface := surface_code (p_surface s); Capture.status := status_code (barcode_status (output d));
     in_letter := letter (out_barcode (output d));
     in_collecting := BarcodeDecoder.collecting (nav_barcode (navigation d)) || s3_barcode_record_active (barcode_record (navigation d));
     in_rearming := rearming (navigation d); Capture.centre_m := if fb_valid (l_feedback (ow w)) then fb_centre_m (l_feedback (ow w)) else fzero |}.
Definition step_record (e : env) (w : world) : world :=
  if l_was_running (ow w) && e_lk_record e then
    let w := w <|s g_bcap := bcap_record (g_bcap (sh w)) (trace_input w) |s> in
    if negb (running (d_state (drive_of w)))
    then w <|s g_bcap := bcap_end_run (g_bcap (sh w)) |s> <|s net_cursor := zero_cursor |s> <|s net_pending := true |s> else w
  else w.

(** *** Step 4: timing, calibration samples, and the command *)
Definition record_timing (w : world) : world :=
  if l_was_running (ow w) then
    w <|o working := (working (ow w)) <| run_timing := s3_run_timing_record (run_timing (working (ow w))) (sample_gap_us (output (drive_of w)))
             (frame_timestamp_us (l_frame (ow w))) (max_sample_age_us (nav_config (navigation (drive_of w)))) |> |o>
  else w.
Definition collect_sample (w : world) : world :=
  if is_collecting (ow w) then
    let raw := nthZ zero_sample (sensor (l_frame (ow w))) (cal_sensor (ow w)) in
    let c := nthZ zero_collector (collectors (ow w)) (cal_sensor (ow w)) in
    let w := if sample_valid raw && (sample_error raw =? 0)
             then w <|o collectors := setZ (collectors (ow w)) (cal_sensor (ow w)) (s3_calibration_add c (cal_label (ow w)) (sample_raw raw)).2 |o> else w in
    if S3_COLLECTION_US <=? elapsed (frame_timestamp_us (l_frame (ow w))) (collect_since (ow w)) then w <|o is_collecting := false |o> else w
  else w.
Definition begin_trace (e : env) (w : world) : world :=
  let w := w <|o working := (working (ow w)) <| run_timing := s3_run_timing_begin (e_timing_now e) |> |o> in
  if e_lk_execute e then w <|s g_bcap := bcap_begin_run (e_bcap_now e) |s> <|s bcap_valid := true |s> <|s net_pending := false |s> else w.
Definition run_command (e : env) (r : s3_control_request_t) (w : world) : world :=
  let '(ok, w) := execute e r (e_exec_now e) w in
  let kind_is k := bool_decide (req_kind r = k) in
  let w := if kind_is S3_CONTROL_RESET && ok && bool_decide (reset_result (drive_of w) = S3_RESET_PENDING)
           then w <|o reset_waiting := true |o>
           else let w := answer ok w in if kind_is S3_CONTROL_RESET then reset_completed (e_lk_execute e) w else w in
  if kind_is S3_CONTROL_START && ok then begin_trace e w else w.
Definition step_execute (e : env) (w : world) : world :=
  let w := collect_sample (record_timing w) in
  match l_pending (ow w) with Some r => run_command e r w <|o l_pending := None |o> | None => w end.

(** *** Step 5: publish *)
Definition new_status (e : env) (w : world) : s3_integration_status_t :=
  let v := working (ow w) in
  let d := drive_of w in
  let c := nthZ zero_collector (collectors (ow w)) (cal_sensor (ow w)) in
  let gap := sample_gap_us (output d) in
  v <| pub_navigation := output d <| out_lifecycle := lifecycle (navigation d) |> <| out_accepted_calibration := accepted_calibration (navigation d) |>
         <| readiness_blockers := s3_navigation_readiness (navigation d) (e_ready_now e) |> |>
    <| pub_motion := l_feedback (ow w) |> <| pub_state := d_state d |> <| pub_reason := reason d |>
    <| samples := s3_timing_increment (samples v) |> <| max_gap_us := if max_gap_us v <? gap then gap else max_gap_us v |>
    <| above_target := if S3_SAMPLE_PERIOD_US <? gap then s3_timing_increment (above_target v) else above_target v |>
    <| collecting := is_collecting (ow w) |> <| calibration_sensor := cal_sensor (ow w) |>
    <| pub_white := s3_calibration_summary (white c) |> <| pub_black := s3_calibration_summary (black c) |>.
Definition publish_debug (e : env) (v : s3_integration_status_t) (w : world) : option bytes * option bytes * world :=
  if app_ir_debug then
    let '(control, g) := capture_control_debug v (drive_of w) (e_motion_debug e) (e_debug_now e) (dbg (ow w)) in
    let '(ir, g) := capture_ir_debug (l_frame (ow w)) (pub_navigation v) g in
    (control, ir, w <|o dbg := g |o>)
  else (None, None, w).
Definition post (packet : option s3_status_packet_t) (control ir : option bytes) (s : shared_t) : shared_t :=
  let s := match packet with Some b => s <| sh_status := b |> | None => s end in
  let s := s <| sh_status_ready := match packet with Some _ => true | None => false end |> in
  let s := match ir with Some b => s <| ir_packet := b |> <| ir_ready := true |> | None => s end in
  match control with Some b => s <| control_packet := b |> <| control_ready := true |> | None => s end.
Definition step_publish (e : env) (w : world) : world :=
  let v := new_status e w in
  let w := w <|o working := v |o> in
  let packet := s3_status_pack v in
  let w := match packet with Some _ => w | None => w <|o drv := s3_drive_stop app_s5 (drv (ow w)) |o> end in
  let '(control, ir, w) := publish_debug e v w in
  let w := if e_lk_publish e then w <| sh := post packet control ir (sh w) |> else w in
  match packet with
  | Some _ =>
      let i := {| oc_status := v; oc_motion := e_motion e; oc_control := e_control e; oc_obstacle := e_obstacle e; oc_map := active_map (mps w) |} in
      let '(u, k, s) := vehicle_controller_observe app_s5 (e_locks e) i (veh w) (terr w) (tel w) in
      w <| veh := u |> <| terr := k |> <| tel := s |>
  | None => w
  end.
Definition sample_cycle (e : env) (w : world) : world := step_publish e (step_execute e (step_record e (step_sense e (step_take e w)))).
End Owner.
