(* ===== verification/DriveFrame.v ===== *)
(** * What the drive leaves alone

    A frame for [controller/s3_drive.c]: no operation of the drive but a mapping
    command changes the barcode map of navigation, and the drive publishes only
    outputs of navigation, of which it clears the steering, the action and events. *)
From S2P Require Import Prelude CFloat BitCodec MotionController MotionPack IrSensing LineDetection.
From S2P Require Import ObstacleScan ObstacleCodec Avoidance Navigation NavigationSafety Drive DriveSafety.

Definition map_of (d : s3_drive_t) : list Z := cfg_map (nav_config (navigation d)).
Lemma mode_map n m : cfg_map (nav_config (s3_navigation_set_mode n m).2) = cfg_map (nav_config n).
Proof. unfold s3_navigation_set_mode. case_if; [done |]. case_if; [done |]. cbn [snd]. by repeat case_if. Qed.
Lemma end_run_map n : cfg_map (nav_config (s3_navigation_end_run n).2) = cfg_map (nav_config n).
Proof. unfold s3_navigation_end_run. by case_if. Qed.
Lemma start_map n now : cfg_map (nav_config (s3_navigation_start n now).2) = cfg_map (nav_config n).
Proof. unfold s3_navigation_start. by case_if. Qed.
Lemma reset_fault_map n now : cfg_map (nav_config (s3_navigation_reset_fault n now).2) = cfg_map (nav_config n).
Proof. unfold s3_navigation_reset_fault. case_if; [done |]. by rewrite end_run_map. Qed.
Lemma calibrate_map n id c : cfg_map (nav_config (s3_navigation_apply_calibration n id c).2) = cfg_map (nav_config n).
Proof. unfold s3_navigation_apply_calibration. case_if; [done |]. destruct (s3_calibration_finish _ _ _) as [[] cand]; done. Qed.

Section Frame.
Context (app_s5 : bool) (p : port).
(** A property of outputs that clearing keeps. *)
Context (Q : s3_navigation_output_t -> Prop).
Hypothesis Qhalt : forall o l, Q o -> Q (halted_output o l).
Hypothesis Qreset : forall o l, Q o -> Q (o <| out_lifecycle := l |> <| stop_requested := false |>).

Definition kept (d d' : s3_drive_t) : Prop := map_of d' = map_of d /\ (Q (output d) -> Q (output d')).
Lemma kept_same d d1 d2 : kept d d1 -> navigation d2 = navigation d1 -> output d2 = output d1 -> kept d d2.
Proof. unfold kept, map_of. intros [E H] En Eo. by rewrite En, Eo. Qed.
Lemma kept_refl d : kept d d.
Proof. by split. Qed.
Lemma kept_nav d d1 d2 : kept d d1 -> map_of d2 = map_of d1 -> output d2 = output d1 -> kept d d2.
Proof. unfold kept. intros [E H] En Eo. rewrite Eo. split; [congruence | done]. Qed.
Lemma kept_halt d c s w : kept d (dr c) -> kept d (dr (halt app_s5 c s w)).
Proof.
  intros [H1 H2]. unfold halt. destruct app_s5; (split; [unfold map_of; cbn -[s3_navigation_end_run]; rewrite end_run_map; exact H1 | intros q; apply Qhalt; by apply H2]).
Qed.
Lemma kept_id d c : kept d (dr c) -> kept d (dr (take_command_id p c).2).
Proof. intros K. apply (kept_same _ _ _ K); reflexivity. Qed.
Lemma kept_velocity d c l r : kept d (dr c) -> kept d (dr (send_velocity app_s5 p c l r)).
Proof.
  intros K. unfold send_velocity. cbv zeta. case_if; [by apply kept_halt |]. pose proof (kept_id d (make c (CVelocity l r)) K) as K'.
  destruct (take_command_id p (make c (CVelocity l r))) as [ok c']. cbn [snd] in K'. case_if; [by apply kept_halt | done].
Qed.
Lemma kept_stop_request d c now : kept d (dr c) -> kept d (dr (request_stop c now)).
Proof. intros K. unfold request_stop. case_if; [| done]. by apply (kept_same _ _ _ K). Qed.
Lemma kept_turn d c : kept d (dr c) -> kept d (dr (request_turn p c).2).
Proof. intros K. unfold request_turn. destruct (manoeuvre_of _); [| done]. cbv zeta. case_if; [done |]. by apply kept_id. Qed.
Lemma kept_manoeuvre d c : kept d (dr c) -> kept d (dr (start_manoeuvre p c).2).
Proof.
  intros K. unfold start_manoeuvre. cbv zeta. case_if; [case_if |].
  - by apply (kept_same _ _ _ K).
  - apply kept_id. by apply (kept_same _ _ _ K).
  - apply kept_turn. by apply (kept_same _ _ _ K).
Qed.
Lemma kept_steer d c now : kept d (dr c) -> kept d (dr (follow_steer app_s5 p c now)).
Proof. intros K. unfold follow_steer. cbv zeta. case_if; [by apply kept_velocity |]. case_if; [by apply kept_velocity | by apply kept_stop_request]. Qed.
Lemma kept_wait d c now : kept d (dr c) -> kept d (dr (follow_wait app_s5 p c now)).
Proof.
  intros K. unfold follow_wait. repeat (case_if; [first [by apply kept_halt | done | idtac] |]); repeat case_if; try (by apply kept_halt); try done; apply kept_steer; try done.
  all: by apply (kept_same _ _ _ K).
Qed.
Lemma kept_junction d c now : kept d (dr c) -> kept d (dr (follow_junction app_s5 p c now)).
Proof.
  intros K. unfold follow_junction. cbv zeta. case_if; [| by apply kept_wait]. case_if; [apply kept_wait; by apply (kept_same _ _ _ K) |].
  case_if; [by apply kept_halt |]. eapply kept_same; [apply (kept_stop_request d (c <|| junction_m := fb_centre_m (feedback (dr c)) ||>) now) | reflexivity | reflexivity].
  by apply (kept_same _ _ _ K).
Qed.
Lemma kept_pending d c now : kept d (dr c) -> kept d (dr (follow_pending app_s5 p c now)).
Proof. intros K. unfold follow_pending. case_if; [by apply kept_halt | by apply kept_junction]. Qed.
Lemma kept_follow d c now : kept d (dr c) -> kept d (dr (follow app_s5 p c now)).
Proof.
  intros K. unfold follow. cbv zeta. case_if; [by apply kept_halt |]. case_if; [| by apply kept_pending].
  case_if; [by apply kept_halt |]. case_if; [by apply kept_halt |]. apply kept_pending. by apply (kept_same _ _ _ K).
Qed.
Lemma kept_search_step d c now : kept d (dr c) -> kept d (dr (search_step app_s5 p c now)).
Proof.
  intros K. unfold search_step. cbv zeta. case_if.
  - eapply kept_nav; [exact K | apply mode_map | reflexivity].
  - case_if; [by apply kept_halt |]. case_if; [apply kept_halt |]; by apply (kept_same _ _ _ K).
Qed.
Lemma kept_braking d c now : kept d (dr c) -> kept d (dr (process_braking app_s5 p c now)).
Proof.
  intros K. unfold process_braking. case_if; [by apply kept_halt |]. case_if; [| done]. cbv zeta.
  match goal with |- context [start_manoeuvre p ?x] => set (c1 := x) end.
  assert (K1 : kept d (dr c1)) by (eapply kept_nav; [exact K | apply mode_map | reflexivity]).
  pose proof (kept_manoeuvre d c1 K1) as K2. destruct (start_manoeuvre p c1) as [ok c2]. cbn [snd] in K2. case_if; [by apply kept_halt |].
  by apply (kept_same _ _ _ K2).
Qed.
Lemma kept_done d c now : kept d (dr c) -> kept d (dr (manoeuvre_done app_s5 c now)).
Proof.
  intros K. unfold manoeuvre_done. cbv zeta. case_if.
  - case_if; [by apply (kept_same _ _ _ K) |]. apply kept_halt. by apply (kept_same _ _ _ K).
  - eapply kept_nav; [exact K | apply mode_map | reflexivity].
Qed.
Lemma kept_process_manoeuvre d c now dn : kept d (dr c) -> kept d (dr (process_manoeuvre app_s5 p c now dn)).
Proof.
  intros K. unfold process_manoeuvre. cbv zeta. match goal with |- context [c <|| touch_us := ?a ||> <|| touched := ?b ||>] => set (c1 := c <|| touch_us := a ||> <|| touched := b ||>) end.
  assert (K1 : kept d (dr c1)) by (by apply (kept_same _ _ _ K)). clearbody c1. case_if; [by apply kept_halt |]. case_if.
  - pose proof (kept_turn d (c1 <|| d_command_id := 0 ||> <|| advancing := false ||>)) as K2. destruct (request_turn p _) as [ok c2]. cbn [snd] in K2.
    assert (K3 : kept d (dr c2)) by (apply K2; by apply (kept_same _ _ _ K1)). case_if; [by apply kept_halt | by apply (kept_same _ _ _ K3)].
  - case_if; [by apply kept_done |]. case_if; [by apply kept_halt | done].
Qed.
Lemma kept_phase d c now dn : kept d (dr c) -> kept d (dr (process_phase app_s5 p c now dn)).
Proof.
  intros K. assert (R : kept d (dr (process_reacquire app_s5 c now))).
  { unfold process_reacquire. cbv zeta. case_if; [by apply kept_halt |]. case_if; by apply (kept_same _ _ _ K). }
  unfold process_phase. destruct (d_state (dr c)); try exact R.
  - by apply kept_follow.
  - by apply kept_braking.
  - case_if; [| by apply kept_process_manoeuvre]. unfold process_search. case_if; [by apply kept_halt | by apply kept_search_step].
Qed.
Lemma kept_snapshot d c o now : kept d (dr c) -> kept d (dr (store_snapshot c o now)).
Proof. intros K. unfold store_snapshot. destruct (s5_observation_pack o); by apply (kept_same _ _ _ K). Qed.
Lemma kept_detour_motion d c now x : kept d (dr c) -> kept d (dr (detour_motion p c now x).2).
Proof.
  intros K. unfold detour_motion. cbv zeta. case_if; [done |]. pose proof (kept_id d (make c x) K) as K'.
  destruct (take_command_id p (make c x)) as [ok c']. by apply (kept_same _ _ _ K').
Qed.
Lemma kept_action d c now r : kept d (dr c) -> kept d (dr (run_action p c now r).2).
Proof.
  intros K. unfold run_action. cbv zeta. destruct (kind r); try (by apply kept_detour_motion); try (by apply (kept_same _ _ _ K)).
  eapply kept_nav; [exact K | apply mode_map | reflexivity].
Qed.
Lemma kept_detour d c now dn have o : kept d (dr c) -> kept d (dr (detour_step app_s5 p c now dn have o)).
Proof.
  intros K. unfold detour_step. cbv zeta. match goal with |- context [s5_avoidance_step ?a ?b] => destruct (s5_avoidance_step a b) as [r a'] end.
  match goal with |- context [?c1 <|| obstacle := a' ||>] => set (c2 := c1 <|| obstacle := a' ||>) end.
  assert (K2 : kept d (dr c2)) by (by apply (kept_same _ _ _ K)). clearbody c2. case_if; [by apply kept_halt |].
  pose proof (kept_action d c2 now r K2) as K3. destruct (run_action p c2 now r) as [ok c3]. cbn [snd] in K3. case_if.
  - change (kept d (dr (fail_obstacle app_s5 c3 S5_MOTION_ERROR S3_DRIVE_REJECTED))). apply kept_halt. by apply (kept_same _ _ _ K3).
  - exact K3.
Qed.
Lemma kept_begin d c now : kept d (dr c) -> kept d (dr (begin_detour c now)).
Proof.
  intros K. unfold begin_detour. cbv zeta. match goal with |- context [request_stop ?x now] => set (c1 := x) end.
  assert (K1 : kept d (dr (request_stop c1 now))) by (apply kept_stop_request; by apply (kept_same _ _ _ K)).
  eapply kept_nav; [exact K1 | apply mode_map | reflexivity].
Qed.
Lemma kept_obstacle d c now dn : kept d (dr c) -> kept d (dr (obstacle_control app_s5 p c now dn).2).
Proof.
  intros K. unfold obstacle_control. assert (K1 : kept d (dr (obstacle_snapshot p c now).2)).
  { unfold obstacle_snapshot. cbv zeta. destruct (snapshot_reply p _) as [[] o]; cbn [snd]; try (by apply (kept_same _ _ _ K)).
    - by apply (kept_snapshot d (make c CSnapshot)).
    - case_if; [| by apply (kept_same _ _ _ K)]. by destruct (s5_observation_unpack _). }
  destruct (obstacle_snapshot p c now) as [[have o] c1]. cbn [snd] in K1.
  assert (F : forall f w, kept d (dr (fail_obstacle app_s5 c1 f w))) by (intros; apply kept_halt; by apply (kept_same _ _ _ K1)).
  assert (B : forall c2, kept d (dr c2) -> kept d (dr (detour_step app_s5 p (begin_detour c2 now) now dn have o))) by (intros; by apply kept_detour, kept_begin).
  case_if; [by apply kept_detour |]. case_if; [apply F |]. case_if; [case_if; [apply F | exact K1] |].
  case_if; [exact K1 |]. case_if; [by apply kept_halt |]. case_if; [case_if; [by apply kept_halt |] |]; apply B; [| exact K1].
  by apply (kept_same _ _ _ K1).
Qed.
Lemma kept_running d c now h dn : kept d (dr c) -> kept d (dr (process_running app_s5 p c now h dn)).
Proof.
  intros K. unfold process_running. case_if; [by apply kept_halt |]. case_if; [by apply (kept_stop_request d c) |]. cbv zeta.
  pose proof (kept_obstacle d (make c (CHeartbeat true)) now dn K) as KO.
  assert (K1 : kept d (dr (if app_s5 then obstacle_control app_s5 p (make c (CHeartbeat true)) now dn else (false, make c (CHeartbeat true))).2)).
  { revert KO. generalize (obstacle_control app_s5 p (make c (CHeartbeat true)) now dn). intros r KO. by destruct app_s5. }
  destruct (if app_s5 then _ else _) as [handled c1]. cbn [snd] in K1. case_if; [exact K1 | by apply kept_phase].
Qed.

(** ** Whole operations *)
(** A cycle keeps the map, and its output is navigation's or one of these cleared. *)
Lemma kept_cycle c frame fb : nav_reachable (navigation (dr c)) -> Q (nav_cycle c frame (default zero_feedback fb)).2 ->
  let d' := dr (s3_drive_process app_s5 p c (Some frame) fb).2 in map_of d' = map_of (dr c) /\ (d_configured (dr c) = true -> Q (output d')).
Proof.
  intros R q. unfold s3_drive_process. destruct (d_configured (dr c)); cbn [negb]; [| done]. cbv zeta.
  destruct (observe_ok p c frame fb R) as (c1 & healthy & dn & -> & [[id E] _]). cbn [negb].
  assert (M : map_of (dr c1) = map_of (dr c)).
  { rewrite E. unfold map_of, seen, nav_cycle. cbn -[s3_navigation_process]. destruct (reachable_inv _ R) as [I Hc].
    destruct (process_sound _ frame (Some (odometry_of (default zero_feedback fb))) Hc I) as [_ S]. by destruct (ps_config _ _ _ _ S) as [-> _]. }
  assert (O : Q (output (dr c1))) by (by rewrite E). clear E.
  assert (D : forall c2, kept (dr c1) (dr c2) -> map_of (dr c2) = map_of (dr c) /\ (true = true -> Q (output (dr c2)))).
  { intros c2 [H1 H2]. split; [congruence |]. intros _. by apply H2. }
  assert (K : kept (dr c1) (dr c1)) by apply kept_refl.
  case_if; cbn [snd].
  - unfold finish_reset. case_if; [by apply D |]. case_if; [by apply D |].
    assert (N : cfg_map (nav_config (if bool_decide (lifecycle (navigation (dr c1)) = S3_RUN_FAULT_LATCHED)
      then s3_navigation_reset_fault (navigation (dr c1)) (frame_timestamp_us frame) else (true, navigation (dr c1))).2) = map_of (dr c1)).
    { case_if; [apply reset_fault_map | done]. }
    destruct (if bool_decide (lifecycle (navigation (dr c1)) = S3_RUN_FAULT_LATCHED) then _ else _) as [ok n]. cbn [snd] in N. cbv zeta.
    case_if; (split; [unfold map_of in *; cbn; congruence | intros _]); [exact O |]. by apply Qreset.
  - case_if; [apply D; by apply kept_halt |]. case_if; [apply D; by apply kept_halt |]. case_if; [by apply D |]. apply D. by apply kept_running.
Qed.
Lemma kept_stop c : kept (dr c) (dr (s3_drive_stop app_s5 c)).
Proof. unfold s3_drive_stop. case_if; [apply kept_refl |]. case_if; apply kept_halt, kept_refl. Qed.
Lemma kept_terrain c : kept (dr c) (dr (s3_drive_terrain_fault app_s5 c)).
Proof. unfold s3_drive_terrain_fault. case_if; [apply kept_halt |]; apply kept_refl. Qed.
Lemma kept_start c now : kept (dr c) (dr (s3_drive_start app_s5 p c now).2).
Proof.
  unfold s3_drive_start. cbv zeta. set (c0 := if app_s5 then make c CSnapshot else c).
  assert (K : kept (dr c) (dr c0)) by (subst c0; destruct app_s5; apply kept_refl). clearbody c0. destruct (snapshot_reply p (calls c0)) as [r o].
  case_if; [exact K |]. case_if; [exact K |]. pose proof (start_map (navigation (dr c0)) now) as M. destruct (s3_navigation_start (navigation (dr c0)) now) as [ok n].
  cbn [snd] in M. case_if; [eapply kept_nav; [exact K | exact M | reflexivity] |].
  assert (K1 : kept (dr c) (dr (c0 <|| navigation := n ||> <|| navigation := (s3_navigation_set_mode n S3_MODE_TRACK).2 ||>))).
  { eapply kept_nav; [exact K | | reflexivity]. unfold map_of. cbn -[s3_navigation_set_mode]. rewrite mode_map. exact M. }
  cbn [snd]. set (c1 := c0 <|| navigation := n ||> <|| navigation := _ ||>) in *. clearbody c1.
  assert (K2 : kept (dr c) (dr (if app_s5 then start_obstacle c1 o now else c1))).
  { destruct app_s5; [| exact K1]. unfold start_obstacle. cbv zeta. pose proof (kept_snapshot (dr c) c1 o now K1) as K2. by apply (kept_same _ _ _ K2). }
  by apply (kept_same _ _ _ K2).
Qed.
Lemma kept_reset c now : kept (dr c) (dr (s3_drive_reset p c now).2).
Proof. unfold s3_drive_reset. case_if; [apply kept_refl |]. cbv zeta. case_if; by apply (kept_same _ _ _ (kept_refl (dr c))). Qed.
End Frame.
