(* ===== verification/IntegrationSafety.v ===== *)
(** * The sampling owner as a transition system

    The five steps of a cycle of [controller/s3_integration.c], interleaved with the
    tasks that share its state: the drive it runs stays within the drive's own
    transition system, every motion request of the whole car is made under
    supervision, STOP takes effect in the cycle that takes it, commands are answered
    exactly once, and a START is accepted only when every part is ready. *)
From S2P Require Import Prelude CFloat BitCodec MotionController MotionPack IrSensing LineDetection BarcodeDecoder BarcodeRecord.
From S2P Require Import ObstacleCodec Navigation NavigationSafety NavigationCodec Drive DriveSafety DriveFrame.
From S2P Require Import Telemetry TelemetryStore BarcodeMap Terrain TerrainControl Vehicle Capture Debug IntegrationCodec Integration.

(** Where the owner is in its cycle. *)
Inductive place := AtTake | AtSense | AtRecord | AtExecute | AtPublish.
#[export] Instance place_eq_dec : EqDecision place.
Proof. solve_decision. Defined.
Definition next_place (x : place) : place :=
  match x with AtTake => AtSense | AtSense => AtRecord | AtRecord => AtExecute | AtExecute => AtPublish | AtPublish => AtTake end.
(** What the other tasks do to the shared state. *)
Inductive other_op :=
| OSubmit (lk : bool) (r : s3_control_request_t)
| OControlTake (lk : bool) (size now : Z)
| OIrTake (lk : bool) (size now : Z)
| OTraceTake (lk : bool) (size : Z)
| OMap (lk : bool) (c : BUDDY1_COMMAND_MSG)
| OStore (op : store_op).
Definition other_run (o : other_op) (w : world) : world :=
  match o with
  | OSubmit lk r => w <| sh := (s3_integration_submit lk r (sh w)).2 |>
  | OControlTake lk size now => w <| sh := (mqtt_utk_control_debug_take lk size now (sh w)).2 |>
  | OIrTake lk size now => w <| sh := (mqtt_utk_ir_debug_take lk size now (sh w)).2 |>
  | OTraceTake lk size => w <| sh := (mqtt_utk_debug_take lk size (sh w)).2 |>
  | OMap lk c => let '(_, b, s) := buddy1_command_process lk c (active_map (mps w)) (tel w) in w <| mps := mps w <| active_map := b |> |> <| tel := s |>
  | OStore op => w <| tel := (store_run (tel w) op).2 |>
  end.
Definition other_ok (o : other_op) : Prop := match o with OSubmit _ r => request_typed r | _ => True end.

Definition zero_status : s3_integration_status_t :=
  {| pub_navigation := zero_output; pub_motion := zero_feedback; pub_state := S3_DRIVE_OFF; pub_reason := S3_DRIVE_OK; samples := 0; max_gap_us := 0;
     above_target := 0; command_sequence := 0; run_timing := s3_run_timing_begin 0; command_ok := false; collecting := false; calibration_sensor := 0;
     pub_white := zero_summary; pub_black := zero_summary; adc_status := 0 |}.
Definition boot_shared : shared_t :=
  {| sh_pending := false; sh_stop := false; sh_status_ready := false; sh_reset_pending := false; sh_command := replicate S3_CONTROL_BYTES 0;
     sh_status := {| pk_navigation := []; pk_feedback := []; pk_metadata := [] |}; g_bcap := zero_bcap; bcap_valid := false; net_pending := false;
     net_cursor := zero_cursor; ir_packet := []; ir_ready := false; control_packet := []; control_ready := false |}.
Definition boot_owner (c : ctx) : owner_t :=
  {| drv := c; reset_waiting := false; collectors := replicate 3 zero_collector; is_collecting := false; cal_sensor := 0; cal_label := IR_SURFACE_UNKNOWN;
     collect_since := 0; working := zero_status; dbg := debug_boot; l_was_running := false; l_taken := None; l_pending := None; l_frame := zero_frame;
     l_feedback := zero_feedback |}.
Definition boot_world (c : ctx) : world :=
  {| sh := boot_shared; ow := boot_owner c; terr := terrain_control_init; mps := maps_boot; veh := vehicle_boot; tel := store_boot |}.

Section System.
Context (app_s5 app_ir_debug : bool) (p : port).
Notation drive_run := (drive_run app_s5 p).

Definition step_at (x : place) (e : env) (w : world) : world :=
  match x with
  | AtTake => step_take app_s5 e w
  | AtSense => step_sense app_s5 p e w
  | AtRecord => step_record e w
  | AtExecute => step_execute app_s5 p e w
  | AtPublish => step_publish app_s5 app_ir_debug e w
  end.
Lemma sample_cycle_steps e w : sample_cycle app_s5 app_ir_debug p e w =
  step_at AtPublish e (step_at AtExecute e (step_at AtRecord e (step_at AtSense e (step_at AtTake e w)))).
Proof. unfold sample_cycle, step_at; reflexivity. Qed.

(** ** The drive moves by its own operations, all but one of them no cycle *)
Definition no_cycle (op : drive_op) : Prop := match op with DCycle _ _ => False | _ => True end.
Definition drives (c c' : ctx) : Prop := exists ops, Forall (fun op => drive_op_ok op /\ no_cycle op) ops /\ c' = fold_left drive_run ops c.
Lemma drives_refl c : drives c c.
Proof. by exists []. Qed.
Lemma drives_one c op : drive_op_ok op /\ no_cycle op -> drives c (drive_run c op).
Proof. intros H. exists [op]. split; [by constructor | done]. Qed.
Lemma drives_trans c1 c2 c3 : drives c1 c2 -> drives c2 c3 -> drives c1 c3.
Proof. intros (l & F & ->) (l' & F' & ->). exists (l ++ l'). rewrite fold_left_app. split; [by apply Forall_app | done]. Qed.
Lemma drives_reachable c c' : drives c c' -> drive_reachable app_s5 p c -> drive_reachable app_s5 p c'.
Proof.
  intros (l & F & ->). revert c. induction F as [| op l [Hop _] _ IH]; intros c R; [done |]. cbn. apply IH. by constructor.
Qed.
Lemma expanded_shape m : map_shape (expanded m).
Proof.
  unfold expanded. assert (S : forall l i x, map_shape l -> 0 <= x <= 4 -> map_shape (setZ l i x)).
  { intros l i x [L F] Hx. split; [by rewrite length_setZ |]. apply Forall_setZ; [done | lia]. }
  repeat (apply S; [| vm_compute; split; congruence]). by apply map_shape_dec.
Qed.
Lemma drives_nav c map : map_shape map -> drives c (c <|| navigation := (s3_navigation_set_mapping (navigation (dr c)) map).2 ||>).
Proof. intros H. by apply (drives_one c (DMapping map)). Qed.
Lemma nav_eta c : c <|| navigation := navigation (dr c) ||> = c.
Proof. by destruct c as [[] ?]. Qed.
Lemma poll_drives now reading evs k c : drives c (terrain_control_poll app_s5 now reading evs k c).2.
Proof.
  unfold terrain_control_poll. cbv zeta. destruct (take_reading _ _ _) as [b1 k1]. destruct (take_events _ _ _) as [b2 k2].
  repeat case_if; cbn [snd].
  - apply (drives_one c (DHold false)). done.
  - apply (drives_one c (DHold true)). done.
  - eapply drives_trans; [apply (drives_one c (DHold false)); done |]. by apply (drives_one _ DTerrain).
  - apply (drives_one c (DHold false)). done.
Qed.
Lemma prepare_nav lk lk' m n : exists map, map_shape map /\
  ((vehicle_controller_prepare_start lk lk' m n).2 = n \/ (vehicle_controller_prepare_start lk lk' m n).2 = (s3_navigation_set_mapping n map).2).
Proof.
  unfold vehicle_controller_prepare_start. destruct (buddy1_configuration_claim _ _) as [[er [[mm newly] |]] b].
  - exists (expanded mm). split; [apply expanded_shape |]. destruct er; try (by left). right.
    destruct (s3_navigation_set_mapping n (expanded mm)) as [[] ?]; done.
  - exists (replicate 26 0). split; [by apply map_shape_dec |]. destruct er; by left.
Qed.

(** A command taken from the mailbox carries a well-shaped map. *)
Lemma repeat_get_shape n w : forall b k l k', repeat_read n (get w) b k = Some (l, k') -> length l = n /\ Forall (fun x => 0 <= x < 2 ^ Z.of_nat w) l.
Proof.
  induction n as [| n IH]; intros b k l k'; cbn [repeat_read].
  - unfold mret, reader_ret. intros [= <- _]. by split.
  - unfold mbind, reader_bind, get. destruct (repeat_read n _ b _) as [[l1 k1] |] eqn:E; [| done]. unfold mret, reader_ret. intros [= <- _].
    destruct (IH _ _ _ _ E) as [L F]. split; [cbn; lia |]. constructor; [| exact F]. rewrite wrap_get. apply wrap_range. lia.
Qed.
Lemma unpack_shape b r : s3_control_unpack b = Some r -> map_shape (req_map r).
Proof.
  unfold s3_control_unpack. case_if; [done |]. destruct (run read_control b) as [v |] eqn:E; [| done].
  destruct (s3_control_pack v) as [q |]; [| done]. case_bool_decide; [| done]. intros [= <-].
  unfold run, read_control, mbind, reader_bind in E. unfold get at 1 2 in E.
  destruct (repeat_read 26 (get 3) b _) as [[l k'] |] eqn:El; [| done]. destruct (repeat_get_shape _ _ _ _ _ _ El) as [L F].
  unfold lift in E. destruct (kind_of _); [| done]. unfold mret, reader_ret in E. cbn in E. injection E as <-. cbn [req_map]. split; [exact L |].
  eapply Forall_impl; [exact F |]. cbn. lia.
Qed.

(** ** Each step *)
Lemma stop_drives c : drives c (s3_drive_stop app_s5 c).
Proof. by apply (drives_one c DStop). Qed.
Lemma take_drives e w : drives (drv (ow w)) (drv (ow (step_take app_s5 e w))).
Proof.
  unfold step_take. cbv zeta. destruct (take_command _ _) as [c s]. case_if; [apply stop_drives | apply drives_refl].
Qed.
Lemma cycle_split e w : exists c, drives (drv (ow w)) c /\ drv (ow (drive_cycle app_s5 p e w)) = drive_run c (DCycle (Some (l_frame (ow w))) (Some (l_feedback (ow w)))).
Proof.
  unfold drive_cycle. pose proof (poll_drives (e_poll_now e) (e_reading e) (e_events e) (terr w) (drv (ow w))) as H.
  destruct (terrain_control_poll _ _ _ _ _ _) as [k c]. by exists c.
Qed.
Lemma sense_drv e w : drv (ow (step_sense app_s5 p e w)) = drv (ow (drive_cycle app_s5 p e (sense e w))).
Proof. unfold step_sense. cbv zeta. case_if; [| done]. unfold reset_completed. by destruct (e_lk_reset e). Qed.
Lemma record_drv e w : drv (ow (step_record e w)) = drv (ow w).
Proof. unfold step_record. case_if; [| done]. cbv zeta. by case_if. Qed.
Lemma collect_drv w : drv (ow (collect_sample (record_timing w))) = drv (ow w).
Proof. unfold collect_sample, record_timing. cbv zeta. by repeat case_if. Qed.
Lemma start_drives e now w : drives (drv (ow w)) (drv (ow (execute_start app_s5 p e now w).2)).
Proof.
  unfold execute_start. case_if; [apply drives_refl |]. destruct (prepare_nav (e_lk_map e) (e_lk_map2 e) (mps w) (navigation (drive_of w))) as (map & Hm & N).
  destruct (vehicle_controller_prepare_start _ _ _ _) as [[ok m] n]. cbn [snd] in N. cbv zeta.
  assert (D : drives (drv (ow w)) (drv (ow (with_nav (w <| mps := m |>) n)))).
  { unfold with_nav. destruct N as [-> | ->]; [| by apply drives_nav].
    change (drives (drv (ow w)) ((drv (ow w)) <|| navigation := navigation (dr (drv (ow w))) ||>)). rewrite nav_eta. apply drives_refl. }
  destruct ok; cbn [negb]; [| exact D]. set (w1 := with_nav _ n) in *.
  assert (D2 : drives (drv (ow w1)) (s3_drive_start app_s5 p (drv (ow w1)) now).2) by (by apply (drives_one _ (DStart now))).
  destruct (s3_drive_start _ _ _ _) as [ok c]. cbn [snd] in D2. destruct ok; cbn [negb].
  2: { eapply drives_trans; [exact D | exact D2]. }
  destruct (terrain_control_begin _ _ _ _ _) as [[ok k] s]. destruct ok; cbn [negb]; eapply drives_trans; [exact D | exact D2 | exact D |].
  eapply drives_trans; [exact D2 | apply stop_drives].
Qed.
Lemma execute_drives e r now w : map_shape (req_map r) -> drives (drv (ow w)) (drv (ow (execute app_s5 p e r now w).2)).
Proof.
  intros Hm. unfold execute. assert (R : drives (drv (ow w)) (drv (ow w))) by apply drives_refl.
  destruct (req_kind r) eqn:Ek; try apply start_drives; try apply stop_drives.
  all: try (destruct (negb _ || _ || _); [exact R |]; rewrite ?bool_decide_eq_true_2, ?bool_decide_eq_false_2 by done).
  all: try (destruct (3 <=? _); [exact R |]).
  - exact R.
  - exact R.
  - pose proof (drives_one (drv (ow w)) (DCalibrate (req_sensor r) (nthZ zero_collector (collectors (ow w)) (req_sensor r))) (conj I I)) as D.
    cbn [DriveSafety.drive_run] in D. change (navigation (dr (drv (ow w)))) with (navigation (drive_of w)) in D.
    destruct (s3_navigation_apply_calibration _ _ _) as [ok n]. exact D.
  - unfold execute_mapping. destruct (vehicle_controller_apply_mapping _ _ _) as [ok m]. cbv zeta. destruct ok; cbn [negb]; [| apply drives_refl].
    pose proof (drives_nav (drv (ow w)) (req_map r) Hm) as D. change (navigation (drive_of (w <| mps := m |>))) with (navigation (dr (drv (ow w)))).
    destruct (s3_navigation_set_mapping _ _) as [ok n]. exact D.
  - unfold execute_reset. case_if; [apply drives_refl |].
    pose proof (drives_one (drv (ow w)) (DReset now) (conj I I)) as D. cbn [DriveSafety.drive_run] in D. destruct (s3_drive_reset _ _ _) as [ok c].
    destruct ok; exact D.
Qed.
Lemma command_drv e r w : drv (ow (run_command app_s5 p e r w)) = drv (ow (execute app_s5 p e r (e_exec_now e) w).2).
Proof.
  unfold run_command. destruct (execute _ _ _ _ _ _) as [ok w1]. cbv zeta. cbn [snd].
  unfold begin_trace, reset_completed. destruct (e_lk_execute e); by repeat case_if.
Qed.
Lemma execute_step_drives e w : (forall r, l_pending (ow w) = Some r -> map_shape (req_map r)) -> drives (drv (ow w)) (drv (ow (step_execute app_s5 p e w))).
Proof.
  intros H. unfold step_execute. cbv zeta. assert (E : l_pending (ow (collect_sample (record_timing w))) = l_pending (ow w)).
  { unfold collect_sample, record_timing. cbv zeta. by repeat case_if. }
  rewrite E. pose proof (collect_drv w) as Ed. destruct (l_pending (ow w)) as [r |]; [| rewrite Ed; apply drives_refl].
  change (drv (ow (run_command app_s5 p e r (collect_sample (record_timing w)) <|o l_pending := None |o>))) with (drv (ow (run_command app_s5 p e r (collect_sample (record_timing w))))).
  rewrite command_drv, <- Ed. apply execute_drives. by apply H.
Qed.
Lemma publish_drv e w : drv (ow (step_publish app_s5 app_ir_debug e w)) =
  match s3_status_pack (new_status e w) with Some _ => drv (ow w) | None => s3_drive_stop app_s5 (drv (ow w)) end.
Proof.
  unfold step_publish. cbv zeta. unfold publish_debug. destruct (s3_status_pack (new_status e w)) as [packet |]; destruct app_ir_debug.
  all: try (destruct (capture_control_debug _ _ _ _ _) as [c g]; destruct (capture_ir_debug _ _ _) as [i g']).
  all: destruct (e_lk_publish e); try (destruct (vehicle_controller_observe _ _ _ _ _ _) as [[u k] s]); reflexivity.
Qed.
Lemma publish_drives e w : drives (drv (ow w)) (drv (ow (step_publish app_s5 app_ir_debug e w))).
Proof. rewrite publish_drv. destruct (s3_status_pack _); [apply drives_refl | apply stop_drives]. Qed.

(** ** The whole system *)
(** What the outside may answer: values in their C types, twelve-bit readings; the
    mutex exists while the tasks run, so waiting for it without a limit succeeds
    where an answer depends on it. *)
Record env_ok (e : env) : Prop := {
  en_locked : e_lk_reset e = true /\ e_lk_execute e = true;
  en_feedback : feedback_typed (e_feedback e);
  en_frame : in_u 32 (frame_timestamp_us (e_read e).2) /\ length (sensor (e_read e).2) = 3%nat /\
    Forall (fun s => 0 <= sample_raw s <= 4095) (sensor (e_read e).2) /\ in_u 32 (e_frame_now e);
  en_status : - 2 ^ 31 <= e_adc e < 2 ^ 31 /\ - 2 ^ 31 <= (e_read e).1 < 2 ^ 31;
  en_clock : in_u 32 (e_timing_now e) /\ in_u 32 (e_bcap_now e)
}.
(** The ledger: commands accepted, and commands cancelled by a STOP. *)
Definition accepted_by (o : other_op) (w : world) : Z :=
  match o with OSubmit lk r => b2z (s3_integration_submit lk r (sh w)).1 | _ => 0 end.
Definition cancelled_by_other (o : other_op) (w : world) : Z :=
  match o with
  | OSubmit lk r => if (s3_integration_submit lk r (sh w)).1 && bool_decide (req_kind r = S3_CONTROL_STOP)
                    then b2z (sh_pending (sh w)) + b2z (sh_stop (sh w)) else 0
  | _ => 0
  end.
Definition cancelled_by_owner (x : place) (e : env) (w : world) : Z :=
  if bool_decide (x = AtTake) && e_lk_take e && sh_stop (sh w) then b2z (reset_waiting (ow w)) else 0.
Inductive reachable : place -> world -> Z -> Z -> Prop :=
| reach_boot c : integration_drive app_s5 = Some c -> reachable AtTake (boot_world c) 0 0
| reach_owner x w a d e : reachable x w a d -> env_ok e ->
    reachable (next_place x) (step_at x e w) a (d + cancelled_by_owner x e w)
| reach_other x w a d o : reachable x w a d -> other_ok o -> reachable x (other_run o w) (a + accepted_by o w) (d + cancelled_by_other o w).
(** Accepted commands that are neither answered nor cancelled. *)
Definition outstanding (w : world) : Z :=
  b2z (sh_stop (sh w)) + b2z (sh_pending (sh w)) + match l_pending (ow w) with Some _ => 1 | None => 0 end + b2z (reset_waiting (ow w)).
Definition reset_in_flight (w : world) : Prop :=
  (sh_pending (sh w) = true /\ exists r, s3_control_unpack (sh_command (sh w)) = Some r /\ req_kind r = S3_CONTROL_RESET) \/
  (exists r, l_pending (ow w) = Some r /\ req_kind r = S3_CONTROL_RESET) \/ reset_waiting (ow w) = true.
Record mailbox_inv (x : place) (w : world) (a d : Z) : Prop := {
  mb_count : command_sequence (working (ow w)) = u32 (a - d - outstanding w);
  mb_stop : sh_stop (sh w) = true -> sh_pending (sh w) = false /\ sh_reset_pending (sh w) = false;
  mb_pending : sh_pending (sh w) = true -> exists r, s3_control_unpack (sh_command (sh w)) = Some r /\ req_kind r <> S3_CONTROL_STOP /\
    sh_reset_pending (sh w) = bool_decide (req_kind r = S3_CONTROL_RESET);
  mb_waiting : reset_waiting (ow w) = true ->
    (sh_reset_pending (sh w) = true \/ sh_stop (sh w) = true) /\ sh_pending (sh w) = false /\ l_pending (ow w) = None;
  mb_taken : forall r, l_pending (ow w) = Some r -> req_kind r <> S3_CONTROL_STOP /\ map_shape (req_map r) /\
    (req_kind r = S3_CONTROL_RESET -> (sh_reset_pending (sh w) = true \/ sh_stop (sh w) = true) /\ sh_pending (sh w) = false);
  mb_place : x = AtTake \/ x = AtPublish -> l_pending (ow w) = None;
  mb_reset : sh_reset_pending (sh w) = true -> reset_in_flight w
}.

(** *** The mailbox, whatever the rest does *)
Definition mbox (w : world) :=
  (command_sequence (working (ow w)), sh_stop (sh w), sh_pending (sh w), sh_reset_pending (sh w), sh_command (sh w), reset_waiting (ow w), l_pending (ow w)).
Lemma mailbox_same x w w' a d : mbox w' = mbox w -> mailbox_inv x w a d -> mailbox_inv x w' a d.
Proof.
  unfold mbox. intros [= E1 E2 E3 E4 E5 E6 E7] [H1 H2 H3 H4 H5 H6 H7].
  constructor; unfold outstanding, reset_in_flight in *; rewrite ?E1, ?E2, ?E3, ?E4, ?E5, ?E6, ?E7; assumption.
Qed.
Lemma mailbox_next x w a d : (x = AtRecord \/ (x = AtExecute /\ l_pending (ow w) = None) \/ x = AtPublish) -> mailbox_inv x w a d -> mailbox_inv (next_place x) w a d.
Proof. intros Hx [H1 H2 H3 H4 H5 H6 H7]. constructor; try assumption. destruct Hx as [-> | [[-> Hx] | ->]]; cbn; [intros [? | ?]; done | done | intros _; by apply H6; right]. Qed.
Lemma submit_mbox lk r w a d x : request_typed r -> mailbox_inv x w a d ->
  mailbox_inv x (other_run (OSubmit lk r) w) (a + accepted_by (OSubmit lk r) w) (d + cancelled_by_other (OSubmit lk r) w).
Proof.
  intros T [H1 H2 H3 H4 H5 H6 H7]. cbn [other_run accepted_by cancelled_by_other].
  assert (N : mailbox_inv x w (a + 0) (d + 0)) by (rewrite !Z.add_0_r; by constructor).
  assert (We : w <| sh := sh w |> = w) by (by destruct w).
  unfold s3_integration_submit. destruct (s3_control_pack r) as [packet |] eqn:Ep; [| cbn [fst snd andb b2z]; rewrite We; exact N].
  destruct lk; cbn [negb]; [| cbn [fst snd andb b2z]; rewrite We; exact N].
  case_bool_decide as Ek; cbn [fst snd].
  - cbn [andb b2z]. constructor; unfold outstanding, reset_in_flight in *; cbn -[u32]; try done.
    + rewrite H1. f_equal. destruct (sh_stop (sh w)), (sh_pending (sh w)); cbn; lia.
    + intros W. destruct (H4 W) as (_ & _ & Hl). splits; [by right | done | done].
    + intros r' El. destruct (H5 r' El) as (K1 & K2 & K3). splits; [done | done |]. intros _. split; [by right | done].
  - destruct (sh_pending (sh w)) eqn:P, (sh_stop (sh w)) eqn:S, (sh_reset_pending (sh w)) eqn:R; cbn [negb andb fst snd b2z]; try (rewrite We; exact N).
    pose proof (s3_control_roundtrip r [] T) as [Q _]. rewrite Ep in Q. 
    assert (Uc : s3_control_unpack packet = Some (canonical r)) by (by apply Q).
    assert (W : reset_waiting (ow w) = false) by (destruct (reset_waiting (ow w)); [by destruct (H4 eq_refl) as [[? | ?] _] | done]).
    constructor; unfold outstanding, reset_in_flight in *; cbn -[u32]; rewrite ?S; try done.
    + rewrite H1. f_equal. rewrite S, P. cbn. lia.
    + intros _. exists (canonical r). splits; [exact Uc | done | done].
    + rewrite W. done.
    + intros r' El. destruct (H5 r' El) as (K1 & K2 & K3). splits; [done | done |]. intros Hr. destruct (K3 Hr) as [[? | ?] _]; congruence.
    + intros Hr. undecide. left. split; [done |]. exists (canonical r). done.
Qed.
Lemma other_mbox o w a d x : other_ok o -> mailbox_inv x w a d -> mailbox_inv x (other_run o w) (a + accepted_by o w) (d + cancelled_by_other o w).
Proof.
  intros Ho M. destruct o as [lk r | lk size now | lk size now | lk size | lk c | op]; [by apply submit_mbox | ..]; cbn [accepted_by cancelled_by_other];
    rewrite !Z.add_0_r; (eapply mailbox_same; [| exact M]); cbn [other_run].
  - unfold mqtt_utk_control_debug_take. by repeat case_if.
  - unfold mqtt_utk_ir_debug_take. by repeat case_if.
  - unfold mqtt_utk_debug_take. case_if; [done |]. by destruct (bcap_binary_next _ _ _) as [[? ?] |].
  - destruct (buddy1_command_process _ _ _ _) as [[? ?] ?]. done.
  - done.
Qed.
Lemma u32_next n : u32 (u32 n + 1) = u32 (n + 1).
Proof. unfold u32, wrap. apply Zplus_mod_idemp_l. Qed.
Ltac mailbox_fields := cbn -[u32]; try done; try (intros [? | ?]; discriminate).
Lemma take_mbox e w a d : mailbox_inv AtTake w a d -> mailbox_inv AtSense (step_take app_s5 e w) a (d + cancelled_by_owner AtTake e w).
Proof.
  intros [H1 H2 H3 H4 H5 H6 H7]. specialize (H6 (or_introl eq_refl)). unfold cancelled_by_owner. rewrite bool_decide_eq_true_2 by done. cbn [andb].
  unfold step_take, take_command. cbv zeta. destruct (e_lk_take e); cbn [andb].
  2: { cbn [is_stop]. rewrite Z.add_0_r. constructor; unfold outstanding, reset_in_flight in *; mailbox_fields.
    - rewrite H1, H6. done.
    - intros W. destruct (H4 W) as (? & ? & _). done.
    - rewrite H6 in H7. exact H7. }
  change (sh (w <|o l_was_running := running (d_state (drive_of w)) |o>)) with (sh w). destruct (sh_stop (sh w)) eqn:S.
  - destruct (H2 eq_refl) as [P R]. change (is_stop (Some stop_request)) with true. cbv iota. constructor; unfold outstanding, reset_in_flight in *; mailbox_fields.
    + rewrite H1, H6, u32_next, P, S. f_equal. cbn. lia.
    + congruence.
  - rewrite Z.add_0_r. destruct (sh_pending (sh w)) eqn:P.
    + destruct (H3 eq_refl) as (r & Eu & Kr & Er). rewrite Eu. cbn [is_stop]. rewrite bool_decide_eq_false_2 by done.
      assert (W : reset_waiting (ow w) = false) by (destruct (reset_waiting (ow w)); [by destruct (H4 eq_refl) as (_ & ? & _) | done]).
      constructor; unfold outstanding, reset_in_flight in *; mailbox_fields.
      * rewrite H1, S, P, H6. f_equal.
      * congruence.
      * intros r' [= <-]. splits; [done | by eapply unpack_shape |]. intros Hr. split; [| done]. left. rewrite Er. by rewrite bool_decide_eq_true_2.
      * intros Hp. right. left. exists r. rewrite Er in Hp. undecide. done.
    + cbn [is_stop]. constructor; unfold outstanding, reset_in_flight in *; mailbox_fields.
      * rewrite H1, S, P, H6. done.
      * intros W. destruct (H4 W) as (? & ? & _). rewrite S in *. done.
      * intros Hp. destruct (H7 Hp) as [[? _] | [(r & ? & _) | ?]]; [congruence | congruence | by right; right].
Qed.
Lemma sense_mbox e w a d : e_lk_reset e = true -> mailbox_inv AtSense w a d -> mailbox_inv AtRecord (step_sense app_s5 p e w) a d.
Proof.
  intros L M. assert (M' : mailbox_inv AtSense (drive_cycle app_s5 p e (sense e w)) a d).
  { eapply mailbox_same; [| exact M]. unfold drive_cycle. by destruct (terrain_control_poll _ _ _ _ _ _). }
  unfold step_sense. cbv zeta. set (w1 := drive_cycle _ _ _ _) in *. clearbody w1. destruct (reset_waiting (ow w1)) eqn:W; cbn [andb].
  2: { destruct M'. constructor; try assumption. intros [? | ?]; done. }
  case_if. 2: { destruct M'. constructor; try assumption. intros [? | ?]; done. }
  rewrite L. destruct M' as [H1 H2 H3 H4 H5 H6 H7]. destruct (H4 W) as (Hr & P & El).
  constructor; unfold outstanding, reset_in_flight in *; mailbox_fields.
  - rewrite H1, u32_next, W. f_equal. cbn. lia.
  - congruence.
  - intros r E. congruence.
Qed.
(** What no command touches. *)
Definition untouched (w : world) :=
  (sh w, (reset_waiting (ow w), working (ow w), dbg (ow w)), (l_was_running (ow w), l_taken (ow w), l_pending (ow w)), (l_frame (ow w), l_feedback (ow w))).
Lemma start_untouched e now w : untouched (execute_start app_s5 p e now w).2 = untouched w.
Proof.
  unfold execute_start. case_if; [done |]. destruct (vehicle_controller_prepare_start _ _ _ _) as [[[] m] n]; [| done]. cbv zeta. cbn [negb].
  destruct (s3_drive_start _ _ _ _) as [[] c]; [| done]. cbn [negb]. by destruct (terrain_control_begin _ _ _ _ _) as [[[] k] s].
Qed.
Lemma execute_untouched e r now w : untouched (execute app_s5 p e r now w).2 = untouched w.
Proof.
  unfold execute. destruct (req_kind r); try apply start_untouched; try done.
  all: try (destruct (negb _ || _ || _); [done |]; rewrite ?bool_decide_eq_true_2, ?bool_decide_eq_false_2 by done).
  all: try (destruct (3 <=? _); [done |]).
  - done.
  - done.
  - by destruct (s3_navigation_apply_calibration _ _ _).
  - unfold execute_mapping. destruct (vehicle_controller_apply_mapping _ _ _) as [[] ?]; [| done]. cbv zeta. cbn [negb]. by destruct (s3_navigation_set_mapping _ _).
  - unfold execute_reset. case_if; [done |]. by destruct (s3_drive_reset _ _ _) as [[] c].
Qed.
Lemma execute_mbox e r now w : mbox (execute app_s5 p e r now w).2 = mbox w.
Proof. pose proof (execute_untouched e r now w) as U. unfold untouched in U. unfold mbox. congruence. Qed.
Lemma execute_step_mbox e w a d : e_lk_execute e = true -> mailbox_inv AtExecute w a d -> mailbox_inv AtPublish (step_execute app_s5 p e w) a d.
Proof.
  intros L M. unfold step_execute. cbv zeta. assert (M' : mailbox_inv AtExecute (collect_sample (record_timing w)) a d).
  { eapply mailbox_same; [| exact M]. unfold collect_sample, record_timing. cbv zeta. by repeat case_if. }
  set (w0 := collect_sample _) in *. clearbody w0. destruct (l_pending (ow w0)) as [r |] eqn:El.
  2: { apply (mailbox_next AtExecute); [by right; left | exact M']. }
  unfold run_command. pose proof (execute_mbox e r (e_exec_now e) w0) as Eb. destruct (execute _ _ _ _ _ _) as [ok w1]. cbn [snd] in Eb. cbv zeta.
  assert (M1 : mailbox_inv AtExecute w1 a d) by (by eapply mailbox_same). assert (El1 : l_pending (ow w1) = Some r) by (unfold mbox in Eb; congruence).
  clear M M' El Eb. destruct M1 as [H1 H2 H3 H4 H5 H6 H7]. destruct (H5 r El1) as (Ks & _ & Kr).
  assert (W : reset_waiting (ow w1) = false) by (destruct (reset_waiting (ow w1)); [destruct (H4 eq_refl) as (_ & _ & ?); congruence | done]).
  assert (B : forall w2, mailbox_inv AtPublish (w2 <|o l_pending := None |o>) a d ->
    mailbox_inv AtPublish ((if bool_decide (req_kind r = S3_CONTROL_START) && ok then begin_trace e w2 else w2) <|o l_pending := None |o>) a d).
  { intros w2 M2. case_if; [| done]. eapply mailbox_same; [| exact M2]. unfold begin_trace. by destruct (e_lk_execute e). }
  apply B. rewrite L. destruct (bool_decide (req_kind r = S3_CONTROL_RESET)) eqn:Er; cbn [andb].
  - undecide. destruct (Kr Er) as [Kr1 Kr2]. destruct (ok && _).
    + constructor; unfold outstanding, reset_in_flight in *; mailbox_fields.
      * rewrite H1, El1, W. f_equal. cbn. lia.
      * intros _. by right; right.
    + constructor; unfold outstanding, reset_in_flight in *; mailbox_fields.
      * rewrite H1, u32_next, El1, W. f_equal. cbn. lia.
      * congruence.
      * congruence.
  - constructor; unfold outstanding, reset_in_flight in *; mailbox_fields.
    + rewrite H1, u32_next, El1, W. f_equal. cbn. lia.
    + rewrite W. done.
    + intros Hp. undecide. destruct (H7 Hp) as [? | [(r' & E' & ?) | ?]]; [by left | congruence | by right; right].
Qed.
Lemma record_mbox e w : mbox (step_record e w) = mbox w.
Proof. unfold step_record. case_if; [| done]. cbv zeta. by case_if. Qed.
Lemma publish_mbox e w : mbox (step_publish app_s5 app_ir_debug e w) = mbox w.
Proof.
  unfold step_publish. cbv zeta. unfold publish_debug. destruct (s3_status_pack (new_status e w)) as [packet |] eqn:Ep; destruct app_ir_debug.
  all: try (destruct (capture_control_debug _ _ _ _ _) as [[c |] g]; destruct (capture_ir_debug _ _ _) as [[i |] g']).
  all: destruct (e_lk_publish e); try (destruct (vehicle_controller_observe _ _ _ _ _ _) as [[u k] s]); try reflexivity.
Qed.
Lemma owner_cancels x e w d : x <> AtTake -> d + cancelled_by_owner x e w = d.
Proof. intros H. unfold cancelled_by_owner. rewrite bool_decide_eq_false_2 by done. apply Z.add_0_r. Qed.
Lemma mailbox_reachable x w a d : reachable x w a d -> mailbox_inv x w a d.
Proof.
  induction 1 as [c _ | x w a d e _ IH [[L1 L2] _ _ _ _] | x w a d o _ IH Ho]; [| | by apply other_mbox].
  - constructor; unfold outstanding; cbn; try done.
  - destruct x; cbn [step_at next_place]; [by apply take_mbox | ..]; rewrite owner_cancels by done.
    + by apply sense_mbox.
    + apply (mailbox_next AtRecord); [by left |]. eapply mailbox_same; [apply record_mbox | exact IH].
    + by apply execute_step_mbox.
    + apply (mailbox_next AtPublish); [by right; right |]. eapply mailbox_same; [apply publish_mbox | exact IH].
Qed.

(** ** The drive *)
Lemma boot_drive c : integration_drive app_s5 = Some c -> drive_reachable app_s5 p c /\ d_state (dr c) = S3_DRIVE_OFF.
Proof.
  unfold integration_drive. destruct (s3_drive_init app_s5 true (Some course_config)) as [[] d] eqn:E; [| done]. cbn [negb].
  assert (R : drive_reachable app_s5 p {| dr := d; calls := [] |}) by (apply (drive_boot _ _ course_config); [by apply map_shape_dec | exact E]).
  pose proof (drive_next app_s5 p _ (DOptions (Some s3_course_options)) R I) as R2. cbn [DriveSafety.drive_run] in R2.
  assert (S : d_state d = S3_DRIVE_OFF) by (revert E; destruct app_s5; vm_compute; by intros [= <-]).
  assert (S2 : d_state (dr (s3_drive_set_options {| dr := d; calls := [] |} (Some s3_course_options)).2) = S3_DRIVE_OFF).
  { unfold s3_drive_set_options. by case_if. }
  destruct (s3_drive_set_options _ _) as [[] c1]; [| done]. cbn [negb snd] in *. intros [= <-]. split; [| exact S2].
  unfold apply_builtin_calibration. change (range S3_SENSOR_COUNT) with [0; 1; 2]. cbn [fold_left].
  set (k i := builtin_collector (nthZ (0, 0, 0, 0) S3_BUILTIN_CAL i)).
  pose proof (drive_next app_s5 p _ (DCalibrate 0 (k 0)) R2 I) as R3. pose proof (drive_next app_s5 p _ (DCalibrate 1 (k 1)) R3 I) as R4.
  exact (drive_next app_s5 p _ (DCalibrate 2 (k 2)) R4 I).
Qed.
Lemma step_drives x e w : x <> AtSense -> (forall r, l_pending (ow w) = Some r -> map_shape (req_map r)) -> drives (drv (ow w)) (drv (ow (step_at x e w))).
Proof.
  intros Hx H. destruct x; cbn [step_at]; [apply take_drives | done | rewrite record_drv; apply drives_refl | by apply execute_step_drives | apply publish_drives].
Qed.
Lemma other_ow o w : ow (other_run o w) = ow w.
Proof. destruct o; try done. cbn [other_run]. by destruct (buddy1_command_process _ _ _ _) as [[? ?] ?]. Qed.
Lemma other_terr o w : terr (other_run o w) = terr w.
Proof. destruct o; try done. cbn [other_run]. by destruct (buddy1_command_process _ _ _ _) as [[? ?] ?]. Qed.
Lemma system_drive x w a d : reachable x w a d -> drive_reachable app_s5 p (drv (ow w)).
Proof.
  induction 1 as [c E | x w a d e R IH _ | x w a d o _ IH _].
  - by apply boot_drive.
  - destruct (decide (x = AtSense)) as [-> | Hx].
    + cbn [step_at]. rewrite sense_drv. destruct (cycle_split e (sense e w)) as (c & D & ->). apply drive_next; [| done]. by eapply drives_reachable.
    + eapply drives_reachable; [| exact IH]. apply step_drives; [done |]. intros r Er. by destruct (mb_taken _ _ _ _ (mailbox_reachable _ _ _ _ R) r Er) as (_ & ? & _).
  - by rewrite other_ow.
Qed.

(** A drive that does not run stays so without a START. *)
Lemma idle_stop c : drive_inv app_s5 c -> running (d_state (dr (s3_drive_stop app_s5 c))) = false.
Proof.
  intros I. unfold s3_drive_stop. rewrite (di_configured _ _ I). cbn [negb].
  case_if; (match goal with |- context [halt app_s5 c ?s ?r] => destruct (halt_state app_s5 c s r) as [-> _] end; done).
Qed.
Lemma idle_cycle c frame fb : drive_inv app_s5 c -> running (d_state (dr c)) = false ->
  running (d_state (dr (s3_drive_process app_s5 p c (Some frame) fb).2)) = false.
Proof.
  intros I R. pose proof (os_edge _ _ _ _ _ (drive_step_ok app_s5 p c (DCycle (Some frame) fb) I Logic.I)) as E. cbn [DriveSafety.drive_run] in E.
  set (s' := d_state (dr (s3_drive_process app_s5 p c (Some frame) fb).2)) in *. clearbody s'. revert R. set (s := d_state (dr c)) in *. clearbody s. intros R.
  inversion E; subst; first [done | congruence].
Qed.
Lemma idle_poll now reading evs k c : running (d_state (dr c)) = false ->
  exists k', terrain_control_poll app_s5 now reading evs k c = (k', c <|| external_hold := false ||>).
Proof.
  intros R. unfold terrain_control_poll. cbv zeta. rewrite R. cbn [negb]. destruct (take_reading _ _ _) as [b1 k1]. destruct (take_events _ _ _) as [b2 k2]. by exists k2.
Qed.
Lemma system_inv x w a d : reachable x w a d -> drive_inv app_s5 (drv (ow w)).
Proof. intros R. eapply drive_reachable_inv, system_drive, R. Qed.

(** ** What the steps keep *)
(** An output that packs, with readings in range and a letter when one was decoded. *)
Definition fine (o : s3_navigation_output_t) : Prop :=
  navigation_packable o = true /\ Forall (fun s => 0 <= p_darkness s <= 1000) (out_sensor o) /\
  (barcode_status o = S3_BARCODE_DECODED -> 65 <= letter (out_barcode o) <= 90).
Lemma packable_upd o o' : navigation_packable o = true -> events o' = events o \/ events o' = Z.land (events o) (Z.lor S3_EVENT_SENSOR_FAULT S3_EVENT_BARCODE) ->
  fault_mask o' = fault_mask o -> Navigation.action o' = Navigation.action o \/ Navigation.action o' = S3_NAV_NONE -> out_line o' = out_line o -> out_barcode o' = out_barcode o ->
  readiness_blockers o' <= 31 -> out_latched_faults o' = out_latched_faults o -> out_accepted_calibration o' <= 7 -> out_sensor o' = out_sensor o ->
  navigation_packable o' = true.
Proof.
  unfold navigation_packable. rewrite !andb_true_iff. intros (((((((((H1 & H2) & H3) & H4) & H5) & H6) & H7) & H8) & H9) & H10) E1 -> E3 -> -> E7 -> E9 ->.
  splits; try done; try (by apply Z.leb_le).
  - apply Z.eqb_eq in H1. apply Z.eqb_eq. destruct E1 as [-> | ->]; [done |]. rewrite <- Z.land_assoc, (Z.land_comm (Z.lor _ _)), Z.land_assoc, H1. done.
  - destruct E3 as [-> | ->]; done.
Qed.
Lemma packable_bounds o : navigation_packable o = true -> readiness_blockers o <= 31 /\ out_accepted_calibration o <= 7.
Proof. unfold navigation_packable. rewrite !andb_true_iff, !Z.leb_le. tauto. Qed.
Lemma fine_halted o l : fine o -> fine (halted_output o l).
Proof.
  intros (H1 & H2 & H3). split; [| by split]. destruct (packable_bounds o H1). apply (packable_upd o); try done; try (by right). 
Qed.
Lemma fine_reset o l : fine o -> fine (o <| out_lifecycle := l |> <| stop_requested := false |>).
Proof. intros (H1 & H2 & H3). split; [| by split]. destruct (packable_bounds o H1). apply (packable_upd o); try done; by left. Qed.
Lemma fine_zero : fine zero_output.
Proof. split; [reflexivity |]. split; [repeat (constructor; [cbn; lia |]); constructor | done]. Qed.
Lemma fine_cycle c frame fb : nav_reachable (navigation (dr c)) -> fine (nav_cycle c frame fb).2.
Proof.
  intros R. pose proof (nav_output_packable (navigation (dr c)) frame (Some (odometry_of fb)) R) as [b P]. fold (nav_cycle c frame fb) in P.
  unfold s3_navigation_pack in P. destruct (navigation_packable (nav_cycle c frame fb).2) eqn:E; [| done]. split; [exact E |].
  destruct (reachable_inv _ R) as [I Hc]. destruct (process_sound _ frame (Some (odometry_of fb)) Hc I) as [_ S]. fold (nav_cycle c frame fb) in S.
  destruct (ps_sensors _ _ _ _ S) as (_ & F & _). split; [exact F |]. pose proof (ps_letter _ _ _ _ S) as L. unfold Navigation.decoded in L.
  intros D. rewrite bool_decide_eq_true_2 in L by exact D. exact L.
Qed.
(** A drive after some of its operations: same map, fine output. *)
Definition steady (c c' : ctx) : Prop := map_of (dr c') = map_of (dr c) /\ (fine (output (dr c)) -> fine (output (dr c'))).
Lemma steady_kept c c' : kept fine (dr c) (dr c') -> steady c c'.
Proof. done. Qed.
Lemma steady_stop c : steady c (s3_drive_stop app_s5 c).
Proof. apply (kept_stop app_s5 fine fine_halted). Qed.
Lemma steady_poll now reading evs k c : steady c (terrain_control_poll app_s5 now reading evs k c).2.
Proof.
  unfold terrain_control_poll. cbv zeta. destruct (take_reading _ _ _) as [b1 k1]. destruct (take_events _ _ _) as [b2 k2].
  repeat case_if; cbn [snd]; try done. destruct (kept_terrain app_s5 fine fine_halted (c <|| external_hold := false ||>)) as [H1 H2]. split; [exact H1 | exact H2].
Qed.
Lemma steady_cycle c frame fb : drive_inv app_s5 c -> let c' := (s3_drive_process app_s5 p c (Some frame) fb).2 in
  map_of (dr c') = map_of (dr c) /\ fine (output (dr c')).
Proof.
  intros I. pose proof (kept_cycle app_s5 p fine fine_halted fine_reset c frame fb (di_nav _ _ I) (fine_cycle c frame (default zero_feedback fb) (di_nav _ _ I))) as [H1 H2].
  split; [exact H1 | apply H2, (di_configured _ _ I)].
Qed.

(** *** The barcode map *)
Definition sess (w : world) (att : bool) (acc : option BUDDY1_BARCODE_MAP) : Prop :=
  exists s, session_reachable s /\ ms s = mps w /\ nav s = navigation (drive_of w) /\ attempt s = att /\ accepted s = acc.
Lemma sess_steady w w' att acc : sess w att acc -> mps w' = mps w -> map_of (drive_of w') = map_of (drive_of w) -> sess w' att acc.
Proof.
  intros (s & R & E1 & E2 & E3 & E4) M N. exists (session_run s (MNavigate (navigation (drive_of w')))).
  split; [| cbn; by rewrite M]. constructor; [exact R |]. cbn. rewrite E2. exact N.
Qed.
Lemma sess_other o w acc : sess w false acc -> sess (other_run o w) false acc.
Proof.
  intros (s & R & E1 & E2 & E3 & E4). destruct o as [| | | | lk c |]; try (by exists s). cbn [other_run].
  exists (session_run s (MNetwork lk c (tel w))). pose proof (session_next s (MNetwork lk c (tel w)) R I) as R'. cbn [session_run] in *. rewrite E1 in *.
  destruct (buddy1_command_process lk c (active_map (mps w)) (tel w)) as [[er b] st]. split; [exact R' |]. cbn. done.
Qed.
Lemma sess_start e now w acc : sess w false acc -> let r := execute_start app_s5 p e now w in
  exists acc', sess r.2 false acc' /\ (acc <> None -> acc' <> None) /\ (r.1 = true -> acc' <> None).
Proof.
  intros S. cbv zeta. unfold execute_start. case_if; [by exists acc |]. destruct S as (s & R & E1 & E2 & E3 & E4).
  pose proof (session_next s (MPrepare (e_lk_map e) (e_lk_map2 e)) R E3) as R1. cbn [session_run] in R1. rewrite E1, E2 in R1.
  destruct (vehicle_controller_prepare_start _ _ _ _) as [[ok m] n]. cbv zeta.
  set (s1 := s <| ms := m |> <| nav := n |> <| attempt := ok |>) in *. set (w1 := with_nav (w <| mps := m |>) n).
  assert (S1 : sess w1 ok acc) by (exists s1; done). clearbody s1. clear R E1 E2 E3 E4 s. 
  destruct ok; cbn [negb]; [| by exists acc].
  pose proof (kept_start app_s5 p fine (drv (ow w1)) now) as [K _]. destruct (s3_drive_start app_s5 p (drv (ow w1)) now) as [ok c]. cbn [snd] in K.
  set (w2 := w1 <|o drv := c |o>). assert (S2 : sess w2 true acc) by (apply (sess_steady w1); done). clearbody w2. clear S1 R1 s1.
  assert (C : forall w3 w4, sess w3 true acc -> mps w4 = vehicle_controller_cancel_start (e_lk_map2 e) (mps w3) -> navigation (drive_of w4) = navigation (drive_of w3) -> sess w4 false acc).
  { intros w3 w4 (s & R & E1 & E2 & E3 & E4) Em En. exists (session_run s (MCancel (e_lk_map2 e))). split; [by constructor |]. cbn -[vehicle_controller_cancel_start].
    rewrite E1, Em, En. done. }
  destruct ok; cbn [negb]. 2: { exists acc. split; [by apply (C w2) | done]. }
  destruct (terrain_control_begin _ _ _ _ _) as [[ok k] st]. cbv zeta. destruct ok; cbn [negb].
  - destruct S2 as (s & R & E1 & E2 & E3 & E4). destruct (session_reachable_inv s R) as (m0 & f & [I1 I2 _ _]). destruct (I2 E3) as [-> _].
    exists (Some m0). split; [| done]. exists (session_run s MCommit). split; [by constructor |]. cbn -[buddy1_map_unpack unlatched].
    rewrite (stored_unlatched m0 true _ I1), E1. done.
  - exists acc. split; [| done]. destruct (kept_stop app_s5 fine fine_halted (drv (ow w2))) as [K2 _].
    apply (C (w2 <|o drv := s3_drive_stop app_s5 (drv (ow w2)) |o>)); [| done | done]. apply (sess_steady w2); done.
Qed.
Lemma sess_mapping e map w acc : length map = 26%nat -> sess w false acc -> sess (execute_mapping e map w).2 false acc.
Proof.
  intros L (s & R & E1 & E2 & E3 & E4). pose proof (session_next s (MCommand (e_lk_map e) map) R (conj E3 L)) as R1. cbn [session_run] in R1.
  unfold execute_mapping. rewrite E1, E2 in R1. destruct (vehicle_controller_apply_mapping (e_lk_map e) map (mps w)) as [ok m]. cbv zeta.
  eexists. split; [exact R1 |]. destruct ok; cbn [negb].
  - change (navigation (drive_of (w <| mps := m |>))) with (navigation (drive_of w)). destruct (s3_navigation_set_mapping (navigation (drive_of w)) map) as [ok n]. done.
  - done.
Qed.

(** *** Whether the car runs *)
Definition moving (w : world) : bool := running (d_state (drive_of w)).
Lemma drives_inv c c' : drives c c' -> drive_inv app_s5 c -> drive_inv app_s5 c'.
Proof.
  intros (l & F & ->). revert c. induction F as [| op l [Hop _] _ IH]; intros c I; [done |]. cbn. apply IH. exact (os_inv _ _ _ _ _ (drive_step_ok app_s5 p c op I Hop)).
Qed.
(** Without a cycle nothing moves. *)
Lemma drives_still c c' : drives c c' -> drive_inv app_s5 c -> exists new, calls c' = new ++ calls c /\ Forall (fun m => moves m = false) new.
Proof.
  intros (l & F & ->). revert c. induction F as [| op l [Hop Hn] _ IH]; intros c I; [by exists [] |]. cbn.
  destruct (drive_step_ok app_s5 p c op I Hop) as [I1 (n1 & E1 & _ & F1) _]. destruct (IH _ I1) as (n2 & E2 & F2). exists (n2 ++ n1). rewrite E2, E1, app_assoc.
  split; [done |]. apply Forall_app. split; [exact F2 |]. eapply Forall_impl; [exact F1 |]. intros m Hm. cbv beta in Hm. destruct (moves m); [| done].
  destruct (Hm eq_refl) as (frame & fb & id & dn & n0 & -> & _). done.
Qed.
Lemma hold_drives c : drives c (c <|| external_hold := false ||>).
Proof. by apply (drives_one c (DHold false)). Qed.
Lemma step_idle x e w : drive_inv app_s5 (drv (ow w)) -> x <> AtExecute -> moving w = false -> moving (step_at x e w) = false.
Proof.
  intros I Hx R. unfold moving, drive_of in *. destruct x; cbn [step_at]; [| | | done |].
  - unfold step_take. cbv zeta. destruct (take_command _ _) as [c s]. case_if; [| exact R]. by apply idle_stop.
  - rewrite sense_drv. unfold drive_cycle. destruct (idle_poll (e_poll_now e) (e_reading e) (e_events e) (terr (sense e w)) (drv (ow (sense e w))) R) as [k ->].
    cbv zeta. apply (idle_cycle _ (l_frame (ow (sense e w))) (Some (l_feedback (ow (sense e w))))); [| exact R]. eapply drives_inv; [apply hold_drives | exact I].
  - by rewrite record_drv.
  - rewrite publish_drv. destruct (s3_status_pack _); [exact R | by apply idle_stop].
Qed.
Lemma step_moving x e w : drive_inv app_s5 (drv (ow w)) -> x <> AtExecute -> moving (step_at x e w) = true -> moving w = true.
Proof. intros I Hx M. destruct (moving w) eqn:E; [done |]. by rewrite (step_idle x e w I Hx E) in M. Qed.
Lemma moving_active w : drive_inv app_s5 (drv (ow w)) -> moving w = true -> lifecycle (navigation (drive_of w)) = S3_RUN_ACTIVE.
Proof. intros I M. pose proof (di_step _ _ I) as S. unfold in_step in S. unfold moving, drive_of in *. rewrite M in S. symmetry in S. by apply bool_decide_eq_true in S. Qed.

(** *** Starting *)
Lemma drive_start_state c now : let r := s3_drive_start app_s5 p c now in d_state (dr r.2) = if r.1 then S3_DRIVE_FOLLOW else d_state (dr c).
Proof.
  cbv zeta. unfold s3_drive_start. cbv zeta. set (c0 := if app_s5 then make c CSnapshot else c).
  assert (E : d_state (dr c0) = d_state (dr c)) by (subst c0; by destruct app_s5). clearbody c0. destruct (snapshot_reply p (calls c0)) as [r o].
  case_if; [exact E |]. case_if; [exact E |]. destruct (s3_navigation_start (navigation (dr c0)) now) as [ok n]. case_if; [exact E |]. done.
Qed.
(** What the supervision knows of the run: the run it owns and the run of its result. *)
Definition run_facts (k : terrain_control_t) := (run_owned k, have k, tc_run k, expected_run k).
(** What has to hold for a START to be accepted, and what it leaves. *)
Record start_gate (e : env) (now : Z) (w w' : world) : Prop := {
  sg_terrain : latched (terr w) = false /\ waiting (terr w) = false /\ healthy (terr w) now = true;
  sg_collect : is_collecting (ow w) = false;
  sg_drive : d_state (drive_of w) = S3_DRIVE_OFF \/ d_state (drive_of w) = S3_DRIVE_HALTED;
  sg_ready : lifecycle (navigation (drive_of w)) = S3_RUN_INACTIVE /\ s3_navigation_readiness (navigation (drive_of w)) now = 0;
  sg_feedback : feedback_fresh (drive_of w) now = true /\ motion_at_rest (drive_of w) = true;
  sg_token : e_token e = Some (expected_run (terr w'));
  sg_waiting : waiting (terr w') = true /\ have (terr w') = false /\ tc_reset_us (terr w') = now /\ run_owned (terr w') = true;
  sg_follow : d_state (drive_of w') = S3_DRIVE_FOLLOW;
  sg_owner : is_collecting (ow w') = false;
  sg_shared : sh w' = sh w
}.
Lemma start_spec e now w : drive_inv app_s5 (drv (ow w)) -> let r := execute_start app_s5 p e now w in
  if r.1 then start_gate e now w r.2
  else moving r.2 = moving w /\ is_collecting (ow r.2) = is_collecting (ow w) /\ terr r.2 = terr w /\ sh r.2 = sh w.
Proof.
  intros I. cbv zeta. unfold execute_start. destruct (start_refused now w) eqn:F; [done |]. unfold start_refused in F.
  rewrite !orb_false_iff, !negb_false_iff, andb_false_iff, !negb_false_iff, !bool_decide_eq_true, Z.eqb_eq in F. destruct F as [[[[F1 F2] F3'] F4] F5].
  assert (Mw : moving w = false) by (unfold moving; destruct F3' as [-> | ->]; done).
  destruct (prepare_nav (e_lk_map e) (e_lk_map2 e) (mps w) (navigation (drive_of w))) as (map & Hm & N).
  destruct (vehicle_controller_prepare_start _ _ _ _) as [[ok m] n]. cbn [snd] in N. cbv zeta. set (w1 := with_nav _ n).
  assert (D : drives (drv (ow w)) (drv (ow w1))).
  { destruct N as [-> | ->]; [| exact (drives_nav (drv (ow w)) map Hm)].
    change (drives (drv (ow w)) ((drv (ow w)) <|| navigation := navigation (dr (drv (ow w))) ||>)). rewrite nav_eta. apply drives_refl. }
  assert (I1 : drive_inv app_s5 (drv (ow w1))) by (by eapply drives_inv).
  assert (Fb : feedback_fresh (drive_of w1) now = feedback_fresh (drive_of w) now).
  { destruct N as [-> | ->]; [done |]. unfold feedback_fresh. change (feedback (drive_of w1)) with (feedback (drive_of w)). do 2 f_equal.
    change (navigation (drive_of w1)) with ((s3_navigation_set_mapping (navigation (drive_of w)) map).2). unfold s3_navigation_set_mapping. by repeat case_if. }
  destruct ok; cbn [negb]; [| done].
  pose proof (os_edge _ _ _ _ _ (drive_step_ok app_s5 p (drv (ow w1)) (DStart now) I1 Logic.I)) as Ed.
  pose proof (os_inv _ _ _ _ _ (drive_step_ok app_s5 p (drv (ow w1)) (DStart now) I1 Logic.I)) as I2. cbn [DriveSafety.drive_run] in Ed, I2.
  pose proof (drive_start_state (drv (ow w1)) now) as S. cbv zeta in S. destruct (s3_drive_start app_s5 p (drv (ow w1)) now) as [ok c]. cbn [fst snd] in *.
  destruct ok; cbn [negb]; [| unfold moving; cbn [fst snd]; splits; try done; unfold drive_of; cbn; by rewrite S].
  unfold terrain_control_begin. change (terrain_control_ready (terr (w1 <|o drv := c |o>)) now) with (terrain_control_ready (terr w) now). rewrite F1.
  destruct (e_token e) as [t |] eqn:Et; cbn [negb fst snd].
  2: { splits; try done. rewrite Mw. exact (idle_stop c I2). }
  destruct (buddy1_invalidate _ _ _) as [er s]. cbn [negb fst snd]. unfold terrain_control_ready in F1. rewrite !andb_true_iff, !negb_true_iff in F1. destruct F1 as [[F11 F12] F13].
  assert (K : feedback_fresh (drive_of w1) now = true /\ motion_at_rest (drive_of w1) = true).
  { change (d_state (dr (drv (ow w1)))) with (d_state (drive_of w)) in Ed. rewrite S in Ed. 
    inversion Ed; subst; try done. destruct F3' as [Q | Q]; congruence. }
  rewrite Fb in K. constructor; try done.
Qed.
Lemma reset_state c now : d_state (dr (s3_drive_reset p c now).2) = d_state (dr c).
Proof. unfold s3_drive_reset. case_if; [done |]. cbv zeta. by case_if. Qed.
(** A command leaves a running drive only if it ran already, or by an accepted START. *)
Lemma execute_spec e r now w : drive_inv app_s5 (drv (ow w)) -> let x := execute app_s5 p e r now w in
  sh x.2 = sh w /\
  (moving x.2 = true ->
   (req_kind r = S3_CONTROL_START /\ x.1 = true /\ start_gate e now w x.2) \/
   (moving w = true /\ is_collecting (ow x.2) = is_collecting (ow w) /\ run_facts (terr x.2) = run_facts (terr w) /\
    (req_kind r = S3_CONTROL_START -> x.1 = false))).
Proof.
  intros I. cbv zeta. unfold execute.
  assert (B : forall x : bool * world, sh x.2 = sh w -> (moving x.2 = moving w) -> lifecycle (navigation (drive_of w)) = S3_RUN_INACTIVE -> forall P : Prop, sh x.2 = sh w /\ (moving x.2 = true -> P)).
  { intros x E M L P. split; [exact E |]. rewrite M. intros M'. rewrite (moving_active w I M') in L. done. }
  assert (R : forall k : s3_control_kind_t, k <> S3_CONTROL_START -> sh w = sh w /\ (moving w = true -> (k = S3_CONTROL_START /\ false = true /\ start_gate e now w w) \/
    (moving w = true /\ is_collecting (ow w) = is_collecting (ow w) /\ run_facts (terr w) = run_facts (terr w) /\ (k = S3_CONTROL_START -> false = false)))).
  { intros k Hk. split; [done |]. intros M. by right. }
  destruct (req_kind r) eqn:Ek.
  all: try (destruct (negb (bool_decide (lifecycle (navigation (drive_of w)) = S3_RUN_INACTIVE)) || _ || _) eqn:G; [by apply R |];
    rewrite !orb_false_iff, negb_false_iff, bool_decide_eq_true in G; destruct G as [[GL _] _]; rewrite ?bool_decide_eq_true_2, ?bool_decide_eq_false_2 by done).
  all: try (destruct (3 <=? _); [by apply R |]).
  - by apply B.
  - by apply B.
  - apply B; [..| done]; destruct (s3_navigation_apply_calibration _ _ _); done.
  - apply B; [..| done]; unfold execute_mapping; destruct (vehicle_controller_apply_mapping _ _ _) as [[] ?]; try done; cbv zeta; cbn [negb]; destruct (s3_navigation_set_mapping _ _); done.
  - pose proof (start_spec e now w I) as S. cbv zeta in S. destruct (execute_start app_s5 p e now w) as [[] w']; cbn [fst snd] in *.
    + split; [apply (sg_shared _ _ _ _ S) |]. intros _. by left.
    + destruct S as (-> & -> & -> & ->). split; [done |]. intros M. by right.
  - cbn [fst snd]. split; [done |]. intros M. exfalso. pose proof (idle_stop (drv (ow w)) I) as Q. unfold moving, drive_of, execute_stop in M. cbn in M. congruence.
  - unfold execute_reset. case_if; [by apply R |]. pose proof (reset_state (drv (ow w)) now) as S. destruct (s3_drive_reset p (drv (ow w)) now) as [ok c]. cbn [snd] in S.
    destruct ok; cbn [negb fst snd]; (split; [done |]); unfold moving, drive_of; cbn; rewrite S; intros M; by right.
Qed.
Lemma sess_execute e r now w acc : drive_inv app_s5 (drv (ow w)) -> map_shape (req_map r) -> sess w false acc -> let x := execute app_s5 p e r now w in
  exists acc', sess x.2 false acc' /\ (acc <> None -> acc' <> None) /\ (req_kind r = S3_CONTROL_START -> x.1 = true -> acc' <> None).
Proof.
  intros I Hm S. cbv zeta. unfold execute.
  assert (B : forall (x : bool * world) (k : s3_control_kind_t), mps x.2 = mps w -> map_of (drive_of x.2) = map_of (drive_of w) -> k <> S3_CONTROL_START ->
    exists acc', sess x.2 false acc' /\ (acc <> None -> acc' <> None) /\ (k = S3_CONTROL_START -> x.1 = true -> acc' <> None)).
  { intros x k E M Hk. exists acc. split; [by apply (sess_steady w) |]. done. }
  destruct (req_kind r) eqn:Ek.
  all: try (destruct (negb (bool_decide (lifecycle (navigation (drive_of w)) = S3_RUN_INACTIVE)) || _ || _); [by apply B |]; rewrite ?bool_decide_eq_true_2, ?bool_decide_eq_false_2 by done).
  all: try (destruct (3 <=? _); [by apply B |]).
  - by apply B.
  - by apply B.
  - pose proof (calibrate_map (navigation (drive_of w)) (req_sensor r) (nthZ zero_collector (collectors (ow w)) (req_sensor r))) as K.
    destruct (s3_navigation_apply_calibration _ _ _) as [ok n]. by apply B.
  - exists acc. split; [| done]. apply sess_mapping; [apply Hm | exact S].
  - destruct (sess_start e now w acc S) as (acc' & H1 & H2 & H3). by exists acc'.
  - apply B; [done | | done]. destruct (kept_stop app_s5 fine fine_halted (drv (ow w))) as [K _]. exact K.
  - unfold execute_reset. case_if; [by apply B |]. pose proof (kept_reset p fine (drv (ow w)) now) as [K _].
    destruct (s3_drive_reset p (drv (ow w)) now) as [ok c]. destruct ok; by apply B.
Qed.

(** *** The invariant of the owner *)
Definition range_ok (r : s3_calibration_range_t) : Prop :=
  0 <= IrSensing.count r <= 65535 /\ 0 <= minimum r <= 4095 /\ 0 <= maximum r <= 4095.
Definition collector_ok (c : s3_calibration_collector_t) : Prop := range_ok (white c) /\ range_ok (black c).
Definition frame_ok (f : s3_sensor_frame_t) : Prop :=
  in_u 32 (frame_timestamp_us f) /\ Forall (fun s => 0 <= sample_raw s <= 4095) (sensor f).
(** The supervision owns a run, and the result it holds, if any, is of that run. *)
Definition this_run (k : terrain_control_t) : Prop := run_owned k = true /\ (have k = true -> tc_run k = expected_run k).
Lemma this_run_same k k' : run_facts k' = run_facts k -> this_run k -> this_run k'.
Proof. unfold this_run. intros [= -> -> -> ->]. done. Qed.
(** The run: what a running drive, a taken STOP and a finished trace imply. *)
Record run_inv (x : place) (w : world) : Prop := {
  ri_stop : x <> AtTake -> is_stop (l_taken (ow w)) = true -> moving w = false /\ l_pending (ow w) = None /\ reset_waiting (ow w) = false;
  ri_collect : moving w = true -> is_collecting (ow w) = false;
  ri_terrain : moving w = true -> this_run (terr w);
  ri_net : moving w = true -> net_pending (sh w) = false;
  ri_was : x = AtSense \/ x = AtRecord -> l_was_running (ow w) = true -> net_pending (sh w) = false;
  ri_trace : net_pending (sh w) = true -> Capture.cap_active (g_bcap (sh w)) = false;
  ri_recorded : x = AtSense \/ x = AtRecord -> moving w = true -> l_was_running (ow w) = true;
  ri_valid : moving w || l_was_running (ow w) || net_pending (sh w) = true -> bcap_valid (sh w) = true;
  ri_map : exists acc, sess w false acc /\ (moving w = true -> acc <> None)
}.
(** The data: what the published status and the trace are made of. *)
Record data_inv (w : world) : Prop := {
  da_fine : fine (output (drive_of w));
  da_frame : frame_ok (l_frame (ow w));
  da_sensor : u32 (cal_sensor (ow w)) < 3;
  da_ranges : Forall collector_ok (collectors (ow w));
  da_trace : bcap_valid (sh w) = true -> bcap_reachable (g_bcap (sh w));
  da_request : forall r, l_pending (ow w) = Some r -> 0 <= req_sensor r < 4
}.
Definition stays (w w' : world) : Prop :=
  (moving w' = true -> moving w = true) /\ (moving w' = true -> is_collecting (ow w) = false -> is_collecting (ow w') = false) /\
  (moving w' = true -> this_run (terr w) -> this_run (terr w')).
Definition trace_of (s : shared_t) := (net_pending s, g_bcap s, bcap_valid s).
Lemma run_same x x' w w' : run_inv x w -> stays w w' -> trace_of (sh w') = trace_of (sh w) -> l_was_running (ow w') = l_was_running (ow w) ->
  (x' <> AtTake -> is_stop (l_taken (ow w')) = true -> moving w' = false /\ l_pending (ow w') = None /\ reset_waiting (ow w') = false) ->
  (x' = AtSense \/ x' = AtRecord -> x = AtSense \/ x = AtRecord) -> mps w' = mps w -> map_of (drive_of w') = map_of (drive_of w) -> run_inv x' w'.
Proof.
  intros [H1 H2 H3 H4 H5 H6 Hrec H7 (acc & S & A)] (M & C & T) [= E1 E2 E3] El St Hx Em En. constructor; rewrite ?E1, ?E2, ?E3, ?El; auto.
  - intros B. apply H7. destruct (moving w') eqn:Q; [by rewrite (M eq_refl) |]. destruct (moving w); [done |]. exact B.
  - exists acc. split; [by apply (sess_steady w) | auto].
Qed.
Lemma run_take e w : drive_inv app_s5 (drv (ow w)) -> run_inv AtTake w -> run_inv AtSense (step_take app_s5 e w).
Proof.
  intros I [H1 H2 H3 H4 H5 H6 Hrec H7 (acc & S & A)]. pose proof (step_moving AtTake e w I ltac:(done)) as M. cbn [step_at] in M.
  assert (E : trace_of (sh (step_take app_s5 e w)) = trace_of (sh w) /\ l_was_running (ow (step_take app_s5 e w)) = moving w /\ terr (step_take app_s5 e w) = terr w /\
    mps (step_take app_s5 e w) = mps w /\ map_of (drive_of (step_take app_s5 e w)) = map_of (drive_of w) /\
    (is_collecting (ow w) = false -> is_collecting (ow (step_take app_s5 e w)) = false) /\
    (is_stop (l_taken (ow (step_take app_s5 e w))) = true -> moving (step_take app_s5 e w) = false /\ l_pending (ow (step_take app_s5 e w)) = None /\
      reset_waiting (ow (step_take app_s5 e w)) = false)).
  { unfold step_take. cbv zeta. set (w0 := w <|o l_was_running := _ |o>). assert (Q : trace_of (take_command (e_lk_take e) (sh w0)).2 = trace_of (sh w)) by (unfold take_command; by destruct (e_lk_take e)).
    destruct (take_command _ _) as [c s']. cbn [snd] in Q. destruct (is_stop c) eqn:Hs; splits; try done.
    - destruct (steady_stop (drv (ow w))) as [K _]. exact K.
    - intros _. splits; try done. exact (idle_stop _ I).
    - intros Hc. change (is_stop c = true) in Hc. congruence. }
  set (w' := step_take app_s5 e w) in *. clearbody w'. destruct E as ([= E1 E2 E3] & El & Et & Em & En & Ec & St).
  constructor; rewrite ?E1, ?E2, ?E3, ?El, ?Et; auto.
  - intros B. apply H7. destruct (moving w) eqn:Q; [done |]. destruct (moving w'); [by specialize (M eq_refl) |]. cbn [orb] in *. rewrite B. apply orb_true_r.
  - exists acc. split; [by apply (sess_steady w) | auto].
Qed.
Lemma take_reading_run reading k : run_owned k = true -> let k' := (take_reading true reading k).2 in
  run_owned k' = true /\ expected_run k' = expected_run k /\ ((have k = true -> tc_run k = expected_run k) -> have k' = true -> tc_run k' = expected_run k').
Proof.
  intros O. destruct reading as [[[sample run] humps] |]; [| done]. cbn. rewrite O. cbn [andb].
  destruct (Z.eqb_spec run (expected_run k)) as [E | E]; cbn [negb]; [| done]. cbv zeta. case_if; by cbn.
Qed.
Lemma take_events_run evs : forall bad k, run_facts (take_events evs bad k).2 = run_facts k.
Proof. induction evs as [| ev evs IH]; intros bad k; [done |]. cbn [take_events]. by rewrite IH. Qed.
(** A poll while the car runs keeps to the run. *)
Lemma poll_run now reading evs k c : running (d_state (dr c)) = true -> this_run k ->
  this_run (terrain_control_poll app_s5 now reading evs k c).1.
Proof.
  intros Hr [O T]. unfold terrain_control_poll. cbv zeta. rewrite Hr. cbn [negb].
  set (k0 := k <| tc_now := now |>). pose proof (take_reading_run reading k0 O) as (O1 & E1 & T1).
  destruct (take_reading true reading k0) as [b1 k1]. cbn [snd] in O1, E1, T1. pose proof (take_events_run (take TERRAIN_EVENT_BUDGET evs) b1 k1) as R2.
  destruct (take_events _ _ _) as [b2 k2]. cbn [snd] in R2.
  assert (K : this_run k2) by (apply (this_run_same k1); [done |]; split; [done | by apply T1]).
  repeat case_if; cbn [fst]; exact K.
Qed.
Lemma sense_steady e w : drive_inv app_s5 (drv (ow w)) -> let w' := drive_cycle app_s5 p e (sense e w) in
  map_of (drive_of w') = map_of (drive_of w) /\ fine (output (drive_of w')) /\ (moving w = true -> this_run (terr w) -> this_run (terr w')).
Proof.
  intros I. cbv zeta. unfold drive_cycle. set (w0 := sense e w). change (drv (ow w)) with (drv (ow w0)) in I. change (terr w) with (terr w0).
  change (drive_of w) with (drive_of w0). change (moving w) with (moving w0). clearbody w0.
  pose proof (poll_drives (e_poll_now e) (e_reading e) (e_events e) (terr w0) (drv (ow w0))) as D. pose proof (steady_poll (e_poll_now e) (e_reading e) (e_events e) (terr w0) (drv (ow w0))) as [P _].
  pose proof (poll_run (e_poll_now e) (e_reading e) (e_events e) (terr w0) (drv (ow w0))) as O. destruct (terrain_control_poll _ _ _ _ _ _) as [k c]. cbn [fst snd] in *. cbv zeta.
  destruct (steady_cycle c (l_frame (ow w0)) (Some (l_feedback (ow w0))) (drives_inv _ _ D I)) as [M F].
  change (drive_of (w0 <| terr := k |> <|o drv := (s3_drive_process app_s5 p c (Some (l_frame (ow w0))) (Some (l_feedback (ow w0)))).2 |o>))
    with (dr (s3_drive_process app_s5 p c (Some (l_frame (ow w0))) (Some (l_feedback (ow w0)))).2). splits; [etransitivity; [exact M | exact P] | exact F | exact O].
Qed.
(** What the end of a reset leaves alone. *)
Lemma sense_rest e w : let w1 := drive_cycle app_s5 p e (sense e w) in let w' := step_sense app_s5 p e w in
  drive_of w' = drive_of w1 /\ terr w' = terr w1 /\ mps w' = mps w /\ trace_of (sh w') = trace_of (sh w) /\
  l_was_running (ow w') = l_was_running (ow w) /\ is_collecting (ow w') = is_collecting (ow w) /\ l_taken (ow w') = l_taken (ow w) /\
  l_pending (ow w') = l_pending (ow w) /\ (reset_waiting (ow w) = false -> reset_waiting (ow w') = false) /\
  l_frame (ow w') = l_frame (ow (sense e w)) /\ l_feedback (ow w') = e_feedback e /\ cal_sensor (ow w') = cal_sensor (ow w) /\ collectors (ow w') = collectors (ow w).
Proof.
  cbv zeta. assert (E : let w1 := drive_cycle app_s5 p e (sense e w) in mps w1 = mps w /\ trace_of (sh w1) = trace_of (sh w) /\
  l_was_running (ow w1) = l_was_running (ow w) /\ is_collecting (ow w1) = is_collecting (ow w) /\ l_taken (ow w1) = l_taken (ow w) /\
  l_pending (ow w1) = l_pending (ow w) /\ (reset_waiting (ow w) = false -> reset_waiting (ow w1) = false) /\
  l_frame (ow w1) = l_frame (ow (sense e w)) /\ l_feedback (ow w1) = e_feedback e /\ cal_sensor (ow w1) = cal_sensor (ow w) /\ collectors (ow w1) = collectors (ow w)).
  { unfold drive_cycle. destruct (terrain_control_poll _ _ _ _ _ _) as [k c]. cbv zeta. done. }
  unfold step_sense. cbv zeta. set (w1 := drive_cycle app_s5 p e (sense e w)) in *. clearbody w1. cbv zeta in E. case_if; [| tauto].
  unfold reset_completed. destruct (e_lk_reset e); repeat (split; [first [reflexivity | tauto] |]); tauto.
Qed.
Lemma run_sense e w : drive_inv app_s5 (drv (ow w)) -> run_inv AtSense w -> run_inv AtRecord (step_sense app_s5 p e w).
Proof.
  intros I R. pose proof (step_moving AtSense e w I ltac:(done)) as M. cbn [step_at] in M. destruct (sense_steady e w I) as (S1 & _ & S3).
  destruct (sense_rest e w) as (E1 & E2 & E3 & E4 & E5 & E6 & E7 & E8 & E9 & _). rewrite <- E1 in S1. rewrite <- E2 in S3.
  apply (run_same AtSense _ w); try done.
  - split; [exact M |]. split; [intros; congruence | auto].
  - intros _. rewrite E7, E8. intros Hs. destruct (ri_stop _ _ R ltac:(done) Hs) as (N1 & N2 & N3). splits; [| exact N2 | by apply E9].
    apply (step_idle AtSense e w I); done.
  - intros _. by left.
Qed.
Lemma run_record e w : run_inv AtRecord w -> run_inv AtExecute (step_record e w).
Proof.
  intros R. pose proof (record_drv e w) as Ed. assert (Em : moving (step_record e w) = moving w) by (unfold moving, drive_of; by rewrite Ed).
  assert (K : run_inv AtExecute w).
  { destruct R as [H1 H2 H3 H4 H5 H6 Hrec H7 H8]. constructor; auto; by intros [? | ?]. }
  unfold step_record in *. destruct (l_was_running (ow w) && e_lk_record e) eqn:G; [| exact K]. apply andb_true_iff in G as [G _]. cbv zeta in *.
  pose proof (ri_was _ _ R (or_intror eq_refl) G) as N. destruct K as [H1 H2 H3 H4 H5 H6 Hrec H7 (acc & S & A)].
  assert (V : bcap_valid (sh w) = true) by (apply H7; rewrite G; by destruct (moving w)).
  change (running (d_state (drive_of (w <|s g_bcap := bcap_record (g_bcap (sh w)) (trace_input w) |s>)))) with (moving w) in *.
  destruct (moving w) eqn:Q; cbn [negb] in *; (constructor; rewrite ?Em; [exact H1 | exact H2 | exact H3 | | by intros [? | ?] | | by intros [? | ?] | intros _; exact V | exists acc; split; [exact S | exact A]]).
  - intros _. exact N.
  - intros Hn. cbn in Hn. congruence.
  - done.
  - intros _. cbn. unfold bcap_end_run, close_episode. by case_if.
Qed.
Lemma collect_rest w : let w' := collect_sample (record_timing w) in
  drv (ow w') = drv (ow w) /\ terr w' = terr w /\ mps w' = mps w /\ sh w' = sh w /\ l_was_running (ow w') = l_was_running (ow w) /\
  l_taken (ow w') = l_taken (ow w) /\ l_pending (ow w') = l_pending (ow w) /\ reset_waiting (ow w') = reset_waiting (ow w) /\
  l_frame (ow w') = l_frame (ow w) /\ l_feedback (ow w') = l_feedback (ow w) /\ cal_sensor (ow w') = cal_sensor (ow w) /\
  (is_collecting (ow w) = false -> is_collecting (ow w') = false).
Proof.
  cbv zeta. unfold collect_sample. assert (E : let w' := record_timing w in
    drv (ow w') = drv (ow w) /\ terr w' = terr w /\ mps w' = mps w /\ sh w' = sh w /\ l_was_running (ow w') = l_was_running (ow w) /\
    l_taken (ow w') = l_taken (ow w) /\ l_pending (ow w') = l_pending (ow w) /\ reset_waiting (ow w') = reset_waiting (ow w) /\
    l_frame (ow w') = l_frame (ow w) /\ l_feedback (ow w') = l_feedback (ow w) /\ cal_sensor (ow w') = cal_sensor (ow w) /\
    is_collecting (ow w') = is_collecting (ow w)) by (unfold record_timing; by case_if).
  set (w1 := record_timing w) in *. clearbody w1. cbv zeta in E. destruct E as (E1 & E2 & E3 & E4 & E5 & E6 & E7 & E8 & E9 & E10 & E11 & E12).
  destruct (is_collecting (ow w1)) eqn:C; [| splits; try assumption; intros _; exact C].
  cbv zeta. destruct (sample_valid _ && _); destruct (S3_COLLECTION_US <=? _); splits; try assumption; cbn; congruence.
Qed.
(** What the answer and the trace add to a command. *)
Lemma command_rest e r w : let x := execute app_s5 p e r (e_exec_now e) w in let w' := run_command app_s5 p e r w in
  drv (ow w') = drv (ow x.2) /\ terr w' = terr x.2 /\ mps w' = mps x.2 /\ is_collecting (ow w') = is_collecting (ow x.2) /\
  l_was_running (ow w') = l_was_running (ow x.2) /\ cal_sensor (ow w') = cal_sensor (ow x.2) /\ collectors (ow w') = collectors (ow x.2) /\
  l_frame (ow w') = l_frame (ow x.2) /\ l_taken (ow w') = l_taken (ow x.2) /\
  (e_lk_execute e = true -> if bool_decide (req_kind r = S3_CONTROL_START) && x.1
   then trace_of (sh w') = (false, bcap_begin_run (e_bcap_now e), true) else trace_of (sh w') = trace_of (sh x.2)).
Proof.
  cbv zeta. unfold run_command. destruct (execute app_s5 p e r (e_exec_now e) w) as [ok w1]. cbv zeta. cbn [fst snd].
  set (w2 := if _ && _ && _ then _ else _).
  assert (E : drv (ow w2) = drv (ow w1) /\ terr w2 = terr w1 /\ mps w2 = mps w1 /\ is_collecting (ow w2) = is_collecting (ow w1) /\
    l_was_running (ow w2) = l_was_running (ow w1) /\ cal_sensor (ow w2) = cal_sensor (ow w1) /\ collectors (ow w2) = collectors (ow w1) /\
    l_frame (ow w2) = l_frame (ow w1) /\ l_taken (ow w2) = l_taken (ow w1) /\ trace_of (sh w2) = trace_of (sh w1)).
  { subst w2. unfold reset_completed. destruct (e_lk_execute e); by repeat case_if. }
  clearbody w2. destruct E as (E1 & E2 & E3 & E4 & E5 & E6 & E7 & E8 & E9 & E10). destruct (bool_decide (req_kind r = S3_CONTROL_START) && ok).
  - unfold begin_trace. cbv zeta. splits; try (destruct (e_lk_execute e); assumption). by intros ->.
  - splits; try assumption. done.
Qed.
Lemma execute_frame e r now w : let w' := (execute app_s5 p e r now w).2 in
  l_was_running (ow w') = l_was_running (ow w) /\ l_frame (ow w') = l_frame (ow w) /\ l_taken (ow w') = l_taken (ow w) /\ sh w' = sh w.
Proof. cbv zeta. pose proof (execute_untouched e r now w) as U. unfold untouched in U. splits; congruence. Qed.
Lemma run_collected w : run_inv AtExecute w -> run_inv AtExecute (collect_sample (record_timing w)).
Proof.
  intros R. destruct (collect_rest w) as (E1 & E2 & E3 & E4 & E5 & E6 & E7 & E8 & E9 & E10 & E11 & E12).
  set (w' := collect_sample (record_timing w)) in *. clearbody w'.
  assert (M : moving w' = moving w) by (unfold moving, drive_of; by rewrite E1).
  apply (run_same AtExecute _ w); try done.
  - split; [by rewrite M |]. split; [intros _; exact E12 |]. by rewrite E2.
  - by rewrite E4.
  - rewrite E6, E7, E8, M. apply (ri_stop _ _ R).
  - unfold drive_of. by rewrite E1.
Qed.
Lemma run_execute e w : e_lk_execute e = true -> drive_inv app_s5 (drv (ow w)) -> (forall r, l_pending (ow w) = Some r -> map_shape (req_map r)) ->
  run_inv AtExecute w -> run_inv AtPublish (step_execute app_s5 p e w).
Proof.
  intros L I Hm R0. pose proof (run_collected w R0) as R. destruct (collect_rest w) as (E1 & _ & _ & _ & _ & _ & E7 & _).
  unfold step_execute. cbv zeta. set (w0 := collect_sample (record_timing w)) in *. clearbody w0. rewrite <- E1 in I. rewrite <- E7 in Hm. clear E1 E7 R0 w.
  destruct (l_pending (ow w0)) as [r |] eqn:El.
  2: { destruct R as [H1 H2 H3 H4 H5 H6 Hrec H7 H8]. constructor; auto; by intros [? | ?]. }
  specialize (Hm r eq_refl). destruct (execute_spec e r (e_exec_now e) w0 I) as [Xs X]. destruct (execute_frame e r (e_exec_now e) w0) as (X1 & _ & X3 & _).
  destruct (command_rest e r w0) as (C1 & C2 & C3 & C4 & C5 & _ & _ & _ & C9 & C10). specialize (C10 L). rewrite Xs in C10.
  destruct R as [H1 H2 H3 H4 H5 H6 Hrec H7 (acc & S & A)]. destruct (sess_execute e r (e_exec_now e) w0 acc I Hm S) as (acc' & S' & A1 & A2).
  destruct (execute app_s5 p e r (e_exec_now e) w0) as [ok w1]. cbn [fst snd] in *. rewrite X1 in C5. rewrite X3 in C9.
  set (w2 := run_command app_s5 p e r w0) in *. clearbody w2. 
  assert (M : moving (w2 <|o l_pending := None |o>) = moving w1) by (unfold moving, drive_of; cbn; by rewrite C1).
  assert (Sm : sess (w2 <|o l_pending := None |o>) false acc') by (apply (sess_steady w1); [exact S' | exact C3 | unfold drive_of; cbn; by rewrite C1]).
  assert (Ns : is_stop (l_taken (ow w0)) = true -> False) by (intros Hs; destruct (H1 ltac:(done) Hs) as (_ & Q & _); congruence).
  destruct (bool_decide (req_kind r = S3_CONTROL_START) && ok) eqn:G0.
  - assert (A3 : moving w1 = true -> acc' <> None) by (intros _; apply andb_true_iff in G0 as [Es ->]; undecide; by apply A2).
    injection C10 as T1 T2 T3. constructor; [.. | exists acc'; split; [exact Sm | rewrite M; exact A3]]; rewrite ?M; cbn; rewrite ?T1, ?T2, ?T3, ?C2, ?C4, ?C5, ?C9; try done; try (by intros [? | ?]).
    + intros Q. destruct (X Q) as [(_ & _ & G) | (_ & _ & _ & F)]; [apply (sg_owner _ _ _ _ G) | exfalso; apply andb_true_iff in G0 as [Es ->]; undecide; by specialize (F Es)].
    + intros Q. destruct (X Q) as [(_ & _ & G) | (_ & _ & _ & F)]; [destruct (sg_waiting _ _ _ _ G) as (_ & Gh & _ & Go); split; [exact Go | congruence] | exfalso; apply andb_true_iff in G0 as [Es ->]; undecide; by specialize (F Es)].
  - assert (X' : moving w1 = true -> moving w0 = true /\ is_collecting (ow w1) = is_collecting (ow w0) /\ run_facts (terr w1) = run_facts (terr w0)).
    { intros Q. destruct (X Q) as [(Hs & -> & _) | (? & ? & ? & _)]; [| done]. rewrite Hs, bool_decide_eq_true_2 in G0 by done. done. }
    assert (A3 : moving w1 = true -> acc' <> None) by (intros Q; destruct (X' Q) as (? & _); auto).
    injection C10 as T1 T2 T3. constructor; [.. | exists acc'; split; [exact Sm | rewrite M; exact A3]]; rewrite ?M; cbn; rewrite ?T1, ?T2, ?T3, ?C2, ?C4, ?C5, ?C9; try done; try (by intros [? | ?]).
    + intros Q. destruct (X' Q) as (? & -> & _). auto.
    + intros Q. destruct (X' Q) as (? & _ & Hk). apply (this_run_same _ _ Hk). auto.
    + intros Q. destruct (X' Q) as (? & _). auto.
    + intros B. apply H7. destruct (moving w1); [by destruct (X' eq_refl) as (-> & _) |]. destruct (moving w0); [done | exact B].
Qed.
Lemma report_run lk1 lk2 lk3 k s : run_facts (terrain_control_report lk1 lk2 lk3 k s).1 = run_facts k.
Proof.
  assert (F : run_facts (report_fault lk1 k s).1 = run_facts k).
  { unfold report_fault. case_if; [| done]. destruct (buddy1_update_faults _ _ _ _) as [er s1]. cbn [fst]. by case_if. }
  unfold terrain_control_report. destruct (report_fault lk1 k s) as [k1 s1]. cbn [fst] in F. rewrite <- F. clear F k s.
  assert (H : run_facts (report_hump lk2 k1 s1).1 = run_facts k1).
  { unfold report_hump. cbv zeta. repeat case_if; cbn [fst]; try done.
    - destruct (buddy1_report_hump _ _ _ _) as [er s2]. by case_if.
    - by destruct (buddy1_invalidate _ _ _). }
  destruct (report_hump lk2 k1 s1) as [k2 s2]. cbn [fst] in H. rewrite <- H. unfold terrain_live_report. cbv zeta. case_if; [done |].
  by destruct (buddy1_report_terrain _ _ _).
Qed.
Lemma observe_run l i v k s : run_facts (vehicle_controller_observe app_s5 l i v k s).1.2 = run_facts k.
Proof.
  unfold vehicle_controller_observe. pose proof (report_run (lk_imu l) (lk_hump l) (lk_live l) k s) as R. destruct (terrain_control_report _ _ _ _ _) as [k1 s1].
  cbn [fst] in R. destruct (report_barcode _ _ _ _) as [v1 s2]. destruct (report_faults _ _ _ _) as [v2 s3]. cbv zeta. destruct (pose_report _ _ _ _) as [v3 s4].
  destruct (report_obstacle _ _ _ _ _) as [v4 s5]. destruct (report_state _ _ _ _) as [v5 s6]. destruct (report_speeds _ _ _ _) as [[b v6] s7]. exact R.
Qed.
Lemma publish_rest e w : let w' := step_publish app_s5 app_ir_debug e w in
  mps w' = mps w /\ trace_of (sh w') = trace_of (sh w) /\ run_facts (terr w') = run_facts (terr w) /\ l_was_running (ow w') = l_was_running (ow w) /\
  is_collecting (ow w') = is_collecting (ow w) /\ cal_sensor (ow w') = cal_sensor (ow w) /\ collectors (ow w') = collectors (ow w) /\
  l_frame (ow w') = l_frame (ow w) /\ l_pending (ow w') = l_pending (ow w).
Proof.
  cbv zeta. unfold step_publish. cbv zeta. unfold publish_debug. destruct (s3_status_pack (new_status e w)) as [packet |] eqn:Ep; destruct app_ir_debug.
  all: try (destruct (capture_control_debug _ _ _ _ _) as [[c |] g]; destruct (capture_ir_debug _ _ _) as [[i |] g']).
  all: destruct (e_lk_publish e); try done.
  all: match goal with |- context [vehicle_controller_observe ?a ?l ?i ?v ?k ?s] => pose proof (observe_run l i v k s) as O; destruct (vehicle_controller_observe a l i v k s) as [[u k'] s'] end.
  all: cbn [fst snd] in O; splits; try done; exact O.
Qed.
Lemma run_publish e w : drive_inv app_s5 (drv (ow w)) -> run_inv AtPublish w -> run_inv AtTake (step_publish app_s5 app_ir_debug e w).
Proof.
  intros I R. pose proof (step_moving AtPublish e w I ltac:(done)) as M. cbn [step_at] in M. pose proof (publish_drv e w) as D.
  destruct (publish_rest e w) as (E1 & E2 & E3 & E4 & E5 & _). set (w' := step_publish app_s5 app_ir_debug e w) in *. clearbody w'.
  apply (run_same AtPublish _ w); try done.
  - split; [exact M |]. split; [intros; congruence |]. intros _. by apply this_run_same.
  - by intros [? | ?].
  - unfold drive_of. rewrite D. destruct (s3_status_pack _); [done |]. destruct (steady_stop (drv (ow w))) as [K _]. exact K.
Qed.
Lemma other_trace o w : exists b, trace_of (sh (other_run o w)) = (b, g_bcap (sh w), bcap_valid (sh w)) /\ (b = true -> net_pending (sh w) = true).
Proof.
  destruct o as [lk r | lk size now | lk size now | lk size | lk c | op]; try (by exists (net_pending (sh w))); cbn [other_run].
  - exists (net_pending (sh w)). unfold s3_integration_submit. destruct (s3_control_pack r); [| done]. by repeat case_if.
  - exists (net_pending (sh w)). unfold mqtt_utk_control_debug_take. by repeat case_if.
  - exists (net_pending (sh w)). unfold mqtt_utk_ir_debug_take. by repeat case_if.
  - unfold mqtt_utk_debug_take. case_if; [by exists (net_pending (sh w)) |]. destruct (bcap_binary_next _ _ _) as [[q cur] |]; [by exists (net_pending (sh w)) | by exists false].
  - exists (net_pending (sh w)). by destruct (buddy1_command_process _ _ _ _) as [[? ?] ?].
Qed.
Lemma run_other o x w : run_inv x w -> run_inv x (other_run o w).
Proof.
  intros [H1 H2 H3 H4 H5 H6 Hrec H7 (acc & S & A)]. pose proof (other_trace o w) as T.
  destruct T as (b & [= T1 T2 T3] & B). pose proof (sess_other o w acc S) as S'. pose proof (other_ow o w) as Eo. pose proof (other_terr o w) as Et.
  set (w' := other_run o w) in *. clearbody w'. assert (M : moving w' = moving w) by (unfold moving, drive_of; by rewrite Eo).
  constructor; rewrite ?M, ?T1, ?T2, ?T3, ?Eo, ?Et; auto.
  - intros Q. destruct b; [| done]. rewrite (H4 Q) in B. by specialize (B eq_refl).
  - intros Q1 Q2. destruct b; [| done]. rewrite (H5 Q1 Q2) in B. by specialize (B eq_refl).
  - intros Q. apply H7. destruct (moving w); [done |]. destruct (l_was_running (ow w)); [done |]. destruct b; [| done]. by rewrite (B eq_refl).
  - by exists acc.
Qed.
Lemma run_reachable x w a d : reachable x w a d -> run_inv x w.
Proof.
  induction 1 as [c E | x w a d e R IH [[L1 L2] _ _ _ _] | x w a d o R IH Ho]; [| | by apply run_other].
  - destruct (boot_drive c E) as [_ S]. constructor; unfold moving, drive_of; cbn; rewrite ?S; try done.
    exists None. split; [| done]. eexists. split; [apply (session_boot (navigation (dr c))) | done].
  - pose proof (system_inv _ _ _ _ R) as I. pose proof (mailbox_reachable _ _ _ _ R) as Mb. destruct x; cbn [step_at next_place].
    + by apply run_take.
    + by apply run_sense.
    + by apply run_record.
    + apply run_execute; try done. intros r Er. by destruct (mb_taken _ _ _ _ Mb r Er) as (_ & ? & _).
    + by apply run_publish.
Qed.

(** While the car runs its trace grows by the sample of the cycle, in the cycle's
    record step, and by nothing else. *)
Lemma trace_step x w a d e : reachable x w a d -> env_ok e -> moving w = true ->
  g_bcap (sh (step_at x e w)) = match x with
    | AtRecord => if e_lk_record e then bcap_record (g_bcap (sh w)) (trace_input w) else g_bcap (sh w)
    | _ => g_bcap (sh w) end.
Proof.
  intros R [[L1 L2] _ _ _ _] M. pose proof (system_inv _ _ _ _ R) as I. pose proof (run_reachable _ _ _ _ R) as V. destruct x; cbn [step_at].
  - unfold step_take. cbv zeta. set (w0 := w <|o l_was_running := _ |o>).
    assert (Q : trace_of (take_command (e_lk_take e) (sh w0)).2 = trace_of (sh w)) by (unfold take_command; by destruct (e_lk_take e)).
    destruct (take_command _ _) as [c s']. injection Q as _ Q _. by case_if.
  - destruct (sense_rest e w) as (_ & _ & _ & [= _ T _] & _). exact T.
  - unfold step_record. rewrite (ri_recorded _ _ V (or_intror eq_refl) M). cbn [andb]. destruct (e_lk_record e); [| done]. cbv zeta.
    change (running (d_state (drive_of (w <|s g_bcap := bcap_record (g_bcap (sh w)) (trace_input w) |s>)))) with (moving w). by rewrite M.
  - destruct (collect_rest w) as (E1 & _ & _ & E4 & _). unfold step_execute. cbv zeta. set (w0 := collect_sample (record_timing w)) in *. clearbody w0.
    rewrite <- E4. assert (M0 : moving w0 = true) by (unfold moving, drive_of in *; by rewrite E1). rewrite <- E1 in I. clear E1 E4 M R V w.
    destruct (l_pending (ow w0)) as [r |]; [| done]. destruct (command_rest e r w0) as (_ & _ & _ & _ & _ & _ & _ & _ & _ & C). specialize (C L2).
    destruct (execute_spec e r (e_exec_now e) w0 I) as [Xs _]. pose proof (start_spec e (e_exec_now e) w0 I) as S. rewrite Xs in C.
    destruct (bool_decide (req_kind r = S3_CONTROL_START)) eqn:Ek; cbn [andb] in C; [| by injection C as _ C _]. undecide.
    unfold execute in C. rewrite Ek in C. cbv zeta in S. destruct ((execute_start app_s5 p e (e_exec_now e) w0).1); [| by injection C as _ C _].
    exfalso. unfold moving in M0. destruct (sg_drive _ _ _ _ S) as [Q | Q]; by rewrite Q in M0.
  - destruct (publish_rest e w) as (_ & [= _ T _] & _). exact T.
Qed.

(** *** The data *)
Lemma unpack_sensor b r : s3_control_unpack b = Some r -> 0 <= req_sensor r < 4.
Proof.
  unfold s3_control_unpack. case_if; [done |]. destruct (run read_control b) as [v |] eqn:E; [| done].
  destruct (s3_control_pack v) as [q |]; [| done]. case_bool_decide; [| done]. intros [= <-].
  unfold run, read_control, mbind, reader_bind in E. unfold get at 1 2 in E. destruct (repeat_read 26 (get 3) b _) as [[l k'] |]; [| done].
  unfold lift in E. destruct (kind_of _); [| done]. unfold mret, reader_ret in E. cbn in E. injection E as <-. cbn [req_sensor].
  repeat case_if; vm_compute; split; congruence.
Qed.
Lemma add_range r raw : range_ok r -> range_ok (range_add r raw).
Proof.
  intros (H1 & H2 & H3). pose proof (wrap_range 16 (IrSensing.count r + 1) ltac:(lia)). pose proof (wrap_range 12 raw ltac:(lia)).
  unfold range_add, range_ok, in_u in *. cbv zeta. repeat case_if; cbn -[wrap]; lia.
Qed.
Lemma add_collector c s raw : collector_ok c -> collector_ok (s3_calibration_add c s raw).2.
Proof.
  intros [W B]. unfold s3_calibration_add. case_if; [done |]. destruct s; try done; (case_if; [done |]); first [split; [exact W | by apply add_range] | split; [by apply add_range | exact B]].
Qed.
Lemma zero_collector_ok : collector_ok zero_collector.
Proof. unfold collector_ok, range_ok, zero_collector. cbn. lia. Qed.
Lemma collector_nth l i : Forall collector_ok l -> collector_ok (nthZ zero_collector l i).
Proof. intros F. unfold nthZ. case_if; [apply zero_collector_ok |]. destruct (nth_in_or_default (Z.to_nat i) l zero_collector) as [H | ->]; [| apply zero_collector_ok]. rewrite Forall_forall in F. apply F. by apply list_elem_of_In. Qed.
Lemma collectors_set l i c : Forall collector_ok l -> collector_ok c -> Forall collector_ok (setZ l i c).
Proof. apply Forall_setZ. Qed.
Lemma boot_fine c : integration_drive app_s5 = Some c -> fine (output (dr c)).
Proof.
  unfold integration_drive. destruct (s3_drive_init app_s5 true (Some course_config)) as [[] d] eqn:E; [| done]. cbn [negb].
  assert (O : output d = zero_output) by (revert E; destruct app_s5; vm_compute; by intros [= <-]).
  assert (O2 : output (dr (s3_drive_set_options {| dr := d; calls := [] |} (Some s3_course_options)).2) = zero_output).
  { unfold s3_drive_set_options. by case_if. }
  destruct (s3_drive_set_options _ _) as [[] c1]; [| done]. cbn [negb snd] in *. intros [= <-]. cbn. rewrite O2. apply fine_zero.
Qed.
Lemma execute_data e r now w : 0 <= req_sensor r < 4 -> let w' := (execute app_s5 p e r now w).2 in
  (fine (output (drive_of w)) -> fine (output (drive_of w'))) /\
  (u32 (cal_sensor (ow w)) < 3 -> Forall collector_ok (collectors (ow w)) -> u32 (cal_sensor (ow w')) < 3 /\ Forall collector_ok (collectors (ow w'))).
Proof.
  intros Hr. cbv zeta. unfold execute.
  destruct (req_kind r) eqn:Ek.
  all: try (destruct (negb (bool_decide (lifecycle (navigation (drive_of w)) = S3_RUN_INACTIVE)) || _ || _); [done |]; rewrite ?bool_decide_eq_true_2, ?bool_decide_eq_false_2 by done).
  all: try (destruct (3 <=? u32 (req_sensor r)) eqn:Es; [done |]; apply Z.leb_gt in Es).
  - split; [done |]. intros _ F. split; [exact Es |]. unfold begin_collecting. rewrite !bool_decide_eq_true_2 by done. cbn -[setZ nthZ empty_range].
    apply collectors_set; [exact F |]. destruct (collector_nth _ (req_sensor r) F) as [W B]. split; [| exact B]. unfold range_ok, empty_range, S3_EMPTY_RANGE_MINIMUM. cbn. lia.
  - split; [done |]. intros _ F. split; [exact Es |]. unfold begin_collecting. rewrite !bool_decide_eq_false_2 by congruence. cbn -[setZ nthZ empty_range].
    apply collectors_set; [exact F |]. destruct (collector_nth _ (req_sensor r) F) as [W B]. split; [exact W |]. unfold range_ok, empty_range, S3_EMPTY_RANGE_MINIMUM. cbn. lia.
  - destruct (s3_navigation_apply_calibration _ _ _) as [ok n]. done.
  - unfold execute_mapping. destruct (vehicle_controller_apply_mapping _ _ _) as [[] ?]; [| done]. cbv zeta. cbn [negb]. by destruct (s3_navigation_set_mapping _ _).
  - unfold execute_start. case_if; [done |]. destruct (vehicle_controller_prepare_start _ _ _ _) as [[[] m] n]; [| done]. cbv zeta. cbn [negb].
    set (w1 := with_nav _ n). pose proof (kept_start app_s5 p fine (drv (ow w1)) now) as [_ K]. destruct (s3_drive_start _ _ _ _) as [[] c]; cbn [negb snd] in *; [| by split].
    destruct (terrain_control_begin _ _ _ _ _) as [[[] k] s]; cbn [negb snd] in *; (split; [| done]); [exact K |].
    intros F. destruct (steady_stop c) as [_ K2]. apply K2, K. exact F.
  - split; [| done]. apply steady_stop.
  - unfold execute_reset. case_if; [done |]. pose proof (kept_reset p fine (drv (ow w)) now) as [_ K]. destruct (s3_drive_reset _ _ _) as [[] c]; (split; [exact K | done]).
Qed.
Lemma trace_input_ok w : data_inv w -> input_ok (trace_input w).
Proof.
  intros [[_ [F L]] [_ Fr] _ _ _ _]. unfold trace_input.
  assert (Dk : 0 <= p_darkness (nthZ zero_processed (out_sensor (output (drive_of w))) S3_SENSOR_BARCODE) <= 1000).
  { unfold nthZ. case_if; [cbn; lia |]. destruct (nth_in_or_default (Z.to_nat S3_SENSOR_BARCODE) (out_sensor (output (drive_of w))) zero_processed) as [H | ->]; [| cbn; lia].
    rewrite Forall_forall in F. apply F. by apply list_elem_of_In. }
  constructor; cbn -[nthZ].
  - unfold nthZ. case_if; [cbn; lia |]. destruct (nth_in_or_default (Z.to_nat S3_SENSOR_BARCODE) (sensor (l_frame (ow w))) zero_sample) as [H | ->]; [| cbn; lia].
    rewrite Forall_forall in Fr. apply Fr. by apply list_elem_of_In.
  - unfold in_u. lia.
  - destruct (p_surface _); vm_compute; split; congruence.
  - destruct (barcode_status _); vm_compute; split; congruence.
  - destruct (barcode_status (output (drive_of w))) eqn:E; try (intros Q; discriminate Q). intros _. by apply L.
Qed.
Lemma status_published e w : data_inv w -> nav_reachable (navigation (drive_of w)) -> exists b, s3_status_pack (new_status e w) = Some b.
Proof.
  intros [[P _] _ S F _ _] R. destruct (reachable_inv _ R) as [I _]. pose proof (inv_accepted _ I) as A.
  assert (V : forall r, range_ok r -> summary_valid (s3_calibration_summary r) = true).
  { intros r (H1 & H2 & H3). unfold s3_calibration_summary, summary_valid. case_if; [| done]. cbn. rewrite !andb_true_iff, !Z.leb_le. lia. }
  unfold s3_status_pack. change (calibration_sensor (new_status e w)) with (cal_sensor (ow w)).
  change (pub_white (new_status e w)) with (s3_calibration_summary (white (nthZ zero_collector (collectors (ow w)) (cal_sensor (ow w))))).
  change (pub_black (new_status e w)) with (s3_calibration_summary (black (nthZ zero_collector (collectors (ow w)) (cal_sensor (ow w))))).
  destruct (collector_nth _ (cal_sensor (ow w)) F) as [W B]. rewrite (V _ W), (V _ B). change (Z.of_nat S3_SENSOR_COUNT) with 3.
  destruct (Z.leb_spec 3 (u32 (cal_sensor (ow w)))); [lia |]. cbn [orb negb]. unfold s3_navigation_pack.
  assert (Q : navigation_packable (pub_navigation (new_status e w)) = true).
  { apply (packable_upd (output (drive_of w))); try done; try (by left); [apply readiness_range | unfold in_u in A; cbn; lia]. }
  rewrite Q. by eexists.
Qed.
Lemma data_same w w' : data_inv w -> (fine (output (drive_of w)) -> fine (output (drive_of w'))) -> l_frame (ow w') = l_frame (ow w) ->
  (u32 (cal_sensor (ow w)) < 3 -> Forall collector_ok (collectors (ow w)) -> u32 (cal_sensor (ow w')) < 3 /\ Forall collector_ok (collectors (ow w'))) ->
  (bcap_valid (sh w') = true -> bcap_valid (sh w) = true /\ g_bcap (sh w') = g_bcap (sh w)) ->
  (l_pending (ow w') = None \/ l_pending (ow w') = l_pending (ow w)) -> data_inv w'.
Proof.
  intros [H1 H2 H3 H4 H5 H6] F Ef C T L. destruct (C H3 H4) as [C1 C2]. constructor; try done.
  - by apply F.
  - by rewrite Ef.
  - intros V. destruct (T V) as [V' ->]. by apply H5.
  - intros r Er. apply H6. destruct L as [L | L]; congruence.
Qed.
Lemma data_take e w : data_inv w -> data_inv (step_take app_s5 e w).
Proof.
  intros D. assert (T : trace_of (take_command (e_lk_take e) (sh w)).2 = trace_of (sh w) /\ forall r, (take_command (e_lk_take e) (sh w)).1 = Some r -> 0 <= req_sensor r < 4).
  { unfold take_command. destruct (e_lk_take e); [| done]. split; [done |]. intros r. cbn [fst]. case_if; [by intros [= <-] |]. case_if; [apply unpack_sensor | done]. }
  unfold step_take. cbv zeta. change (sh (w <|o l_was_running := running (d_state (drive_of w)) |o>)) with (sh w).
  destruct (take_command (e_lk_take e) (sh w)) as [c s]. cbn [fst snd] in T. destruct T as ([= E1 E2 E3] & Hc).
  set (w1 := w <|o l_was_running := _ |o> <| sh := s |> <|o l_taken := c |o> <|o l_pending := c |o>).
  assert (D' : data_inv w1) by (destruct D as [H1 H2 H3 H4 H5 H6]; constructor; try done; cbn; by rewrite E2, E3). clearbody w1.
  destruct (is_stop c); [| exact D']. apply (data_same _ _ D'); [apply steady_stop | done | done | done | by left].
Qed.
Lemma data_collected w : data_inv w -> data_inv (collect_sample (record_timing w)).
Proof.
  intros D. destruct (collect_rest w) as (E1 & _ & _ & E4 & _ & _ & E7 & _ & E9 & _ & E11 & _).
  apply (data_same _ _ D); [unfold drive_of; by rewrite E1 | exact E9 | | by rewrite E4 | by right].
  intros S F. split; [by rewrite E11 |]. unfold collect_sample. assert (F' : Forall collector_ok (collectors (ow (record_timing w)))) by (unfold record_timing; by case_if).
  set (w1 := record_timing w) in *. clearbody w1. destruct (is_collecting (ow w1)); [| exact F']. cbv zeta.
  destruct (sample_valid _ && _); destruct (S3_COLLECTION_US <=? _); try exact F'; cbn -[setZ nthZ s3_calibration_add];
    (apply collectors_set; [exact F' |]); apply add_collector; by apply collector_nth.
Qed.
Lemma data_execute e w : e_lk_execute e = true -> in_u 32 (e_bcap_now e) -> data_inv w -> data_inv (step_execute app_s5 p e w).
Proof.
  intros L Ck D0. pose proof (data_collected w D0) as D. unfold step_execute. cbv zeta. set (w0 := collect_sample (record_timing w)) in *. clearbody w0. clear D0 w.
  destruct (l_pending (ow w0)) as [r |] eqn:El; [| exact D]. pose proof (da_request _ D r El) as Hr.
  destruct (execute_frame e r (e_exec_now e) w0) as (_ & X2 & _ & Xs). destruct (execute_data e r (e_exec_now e) w0 Hr) as [X3 X4].
  destruct (command_rest e r w0) as (C1 & _ & _ & _ & _ & C6 & C7 & C8 & _ & C10). specialize (C10 L).
  rewrite Xs in C10. destruct (execute app_s5 p e r (e_exec_now e) w0) as [ok w1]. cbn [fst snd] in *.
  set (w2 := run_command app_s5 p e r w0) in *. clearbody w2. destruct D as [H1 H2 H3 H4 H5 H6]. destruct (X4 H3 H4) as [N1 N2].
  constructor; cbn.
  - change (fine (output (dr (drv (ow w2))))). rewrite C1. by apply X3.
  - by rewrite C8, X2.
  - by rewrite C6.
  - by rewrite C7.
  - destruct (_ && _); injection C10 as T1 T2 T3; rewrite T2, T3; [intros _; by apply bcap_start | exact H5].
  - done.
Qed.
Lemma data_other o w : data_inv w -> data_inv (other_run o w).
Proof.
  intros D. assert (T : g_bcap (sh (other_run o w)) = g_bcap (sh w) /\ bcap_valid (sh (other_run o w)) = bcap_valid (sh w)).
  { destruct o as [lk r | lk size now | lk size now | lk size | lk c | op]; try done; cbn [other_run].
    - unfold s3_integration_submit. destruct (s3_control_pack r); [| done]. by repeat case_if.
    - unfold mqtt_utk_control_debug_take. by repeat case_if.
    - unfold mqtt_utk_ir_debug_take. by repeat case_if.
    - unfold mqtt_utk_debug_take. case_if; [done |]. by destruct (bcap_binary_next _ _ _) as [[q cur] |].
    - by destruct (buddy1_command_process _ _ _ _) as [[? ?] ?]. }
  destruct T as [T1 T2]. destruct D as [H1 H2 H3 H4 H5 H6]. pose proof (other_ow o w) as E. constructor; unfold drive_of; rewrite ?E, ?T1, ?T2; done.
Qed.
Lemma data_reachable x w a d : reachable x w a d -> data_inv w.
Proof.
  induction 1 as [c E | x w a d e R IH [[L1 L2] _ [Fr1 [_ [Fr2 Fr3]]] _ [_ Ck]] | x w a d o R IH Ho].
  - constructor; try done; [exact (boot_fine c E) | split; [done | repeat (constructor; [cbn; lia |]); constructor] | repeat (constructor; [apply zero_collector_ok |]); constructor].
  - pose proof (system_inv _ _ _ _ R) as I. destruct x; cbn [step_at next_place].
    + by apply data_take.
    + destruct (sense_steady e w I) as (_ & F & _). destruct (sense_rest e w) as (E1 & _ & _ & [= T1 T2 T3] & _ & _ & _ & E8 & _ & Ef & _ & Ec & El). rewrite <- E1 in F.
      destruct IH as [H1 H2 H3 H4 H5 H6]. constructor; [exact F | | by rewrite Ec | by rewrite El | by rewrite T2, T3 | by rewrite E8].
      rewrite Ef. unfold sense. cbn. destruct (_ =? 0); [split; assumption |]. split; [exact Fr3 |]. repeat (constructor; [cbn; lia |]); constructor.
    + unfold step_record. case_if; [| exact IH]. cbv zeta. pose proof (trace_input_ok w IH) as Io. destruct IH as [H1 H2 H3 H4 H5 H6].
      case_if; constructor; try done; cbn; intros V; [apply bcap_stop |]; apply bcap_step; auto.
    + by apply data_execute.
    + destruct (publish_rest e w) as (_ & [= T1 T2 T3] & _ & _ & _ & Ec & El & Ef & Ep). apply (data_same _ _ IH); [| done | by rewrite Ec, El | by rewrite T2, T3 | by right].
      unfold drive_of. rewrite publish_drv. destruct (s3_status_pack _); [done |]. apply steady_stop.
  - by apply data_other.
Qed.
End System.
