(* ===== verification/IntegrationTheorems.v ===== *)
(** * What the sampling owner guarantees

    Theorems on [controller/s3_integration.c] over the transition system of
    [IntegrationSafety]: every cycle of the owner, split at its critical sections, with
    the other tasks' operations between any two of its steps. *)
From S2P Require Import Prelude CFloat BitCodec MotionController MotionPack IrSensing LineDetection BarcodeDecoder BarcodeRecord.
From S2P Require Import ObstacleScan ObstacleCodec Navigation NavigationSafety NavigationCodec Drive DriveSafety DriveFrame.
From S2P Require Import Telemetry TelemetryStore BarcodeMap Imu Terrain TerrainControl Vehicle Capture Debug IntegrationCodec Integration IntegrationSafety.

Section Owner.
Context (app_s5 app_ir_debug : bool) (p : port).
Notation reachable := (reachable app_s5 app_ir_debug p).
Notation step_at := (step_at app_s5 app_ir_debug p).

(** ** Motion *)
(** What a motion request needs, at the step that makes it. *)
Definition supervised_motion (x : place) (e : env) (w w' : world) : Prop :=
  let d := drive_of w in let fb := e_feedback e in let s := tc_sample (terr w') in
  x = AtSense /\ is_stop (l_taken (ow w)) = false /\ running (d_state d) = true /\
  (fb_valid fb = true /\ elapsed (frame_timestamp_us (l_frame (ow w'))) (fb_timestamp_us fb) <= max_sample_age_us (nav_config (navigation d)) /\
   fb_state fb <> MOTION_FAULT /\ fb_fault fb = MOTION_FAULT_NONE /\ fb_report_loss_count fb = report_loss_count d /\
   (d_command_id d = 0 \/ fb_command_id fb = d_command_id d)) /\
  (waiting (terr w') = false /\ have (terr w') = true /\ elapsed (e_poll_now e) (timestamp_us s) <= 150000 /\ has TERRAIN_CALIBRATED s = true /\
   has TERRAIN_FAULT s = false /\ impact s = false /\ state s <> TERRAIN_IMPACT) /\
  (run_owned (terr w') = true /\ tc_run (terr w') = expected_run (terr w') /\ expected_run (terr w') = expected_run (terr w) /\
   forall sample run humps, e_reading e = Some (sample, run, humps) -> run = expected_run (terr w) /\ s = sample).
(** A result that is not of the wrong run is the one the poll keeps. *)
Lemma poll_sample now reading evs k c : running (d_state (dr c)) = true -> reading_wrong true reading k = false -> run_owned k = true ->
  let k' := (terrain_control_poll app_s5 now reading evs k c).1 in expected_run k' = expected_run k /\
  forall sample run humps, reading = Some (sample, run, humps) -> run = expected_run k /\ tc_sample k' = sample.
Proof.
  intros Hr Hw O. unfold terrain_control_poll. cbv zeta. rewrite Hr. cbn [negb]. set (k0 := k <| tc_now := now |>).
  assert (T : let k1 := (take_reading true reading k0).2 in expected_run k1 = expected_run k /\
    forall sample run humps, reading = Some (sample, run, humps) -> run = expected_run k /\ tc_sample k1 = sample).
  { cbv zeta. destruct reading as [[[sample run] humps] |]; [| done]. cbn in Hw |- *. rewrite O in Hw |- *. cbn [andb] in *. rewrite Hw.
    apply negb_false_iff, Z.eqb_eq in Hw. cbv zeta. case_if; (split; [done |]); by intros ? ? ? [= <- <- <-]. }
  cbv zeta in T. destruct (take_reading true reading k0) as [b1 k1]. cbn [snd] in T.
  assert (V : forall evs bad k, tc_sample (take_events evs bad k).2 = tc_sample k /\ expected_run (take_events evs bad k).2 = expected_run k).
  { clear. induction evs as [| ev evs IH]; intros bad k; [done |]. cbn [take_events]. destruct (IH (bad || event_bad ev) (k <| impact_seen := impact_seen k || is_impact ev.1 |>)) as [-> ->]. done. }
  destruct (V (take TERRAIN_EVENT_BUDGET evs) b1 k1) as [V1 V2]. destruct (take_events _ _ _) as [b2 k2]. cbn [snd] in V1, V2.
  rewrite <- V1, <- V2 in T. repeat case_if; cbn [fst]; exact T.
Qed.
Lemma cycle_calls c frame fb (P : call -> Prop) : drive_inv app_s5 c -> (guard c frame fb -> forall m, P m) ->
  exists new, calls (drive_run app_s5 p c (DCycle (Some frame) (Some fb))) = new ++ calls c /\ (requests new <= 1)%nat /\ Forall (fun m => moves m = true -> P m) new.
Proof.
  intros I G. destruct (drive_step_ok app_s5 p c (DCycle (Some frame) (Some fb)) I Logic.I) as [_ (new & E & R & F) _]. exists new. splits; [done | done |].
  eapply Forall_impl; [exact F |]. intros m Hm M. destruct (Hm M) as (f & b & id & dn & n0 & [= -> ->] & Gd & _). by apply G.
Qed.
Lemma sense_calls e w : drive_inv app_s5 (drv (ow w)) -> (moving w = true -> is_stop (l_taken (ow w)) = false) ->
  (moving w = true -> this_run (terr w)) ->
  let w' := step_sense app_s5 p e w in exists new, calls (drv (ow w')) = new ++ calls (drv (ow w)) /\ (requests new <= 1)%nat /\
    Forall (fun m => moves m = true -> supervised_motion AtSense e w w') new.
Proof.
  intros I St Rw. cbv zeta. destruct (sense_rest app_s5 p e w) as (Ed & Et & _ & _ & _ & _ & _ & _ & _ & Ef & _). unfold supervised_motion. cbv zeta.
  rewrite sense_drv, Et, Ef. clear Ed Et Ef. unfold drive_cycle. set (w0 := sense e w). change (drv (ow w)) with (drv (ow w0)) in *. change (terr w) with (terr w0) in *.
  change (drive_of w) with (drive_of w0). change (l_taken (ow w)) with (l_taken (ow w0)) in *. change (moving w) with (running (d_state (drive_of w0))) in St, Rw. change (e_feedback e) with (l_feedback (ow w0)). clearbody w0.
  destruct (running (d_state (drive_of w0))) eqn:Hr.
  2: { destruct (idle_poll app_s5 (e_poll_now e) (e_reading e) (e_events e) (terr w0) (drv (ow w0)) Hr) as [k ->]. cbv zeta.
    refine (cycle_calls (drv (ow w0) <|| external_hold := false ||>) (l_frame (ow w0)) (l_feedback (ow w0)) (fun _ => _) (drives_inv _ _ _ _ (hold_drives app_s5 p _) I) _).
    intros [G _ _ _ _ _]. change (running (d_state (drive_of w0)) = true) in G. congruence. }
  pose proof (poll_cases app_s5 (e_poll_now e) (e_reading e) (e_events e) (terr w0) (drv (ow w0)) Hr (di_configured _ _ I)) as C.
  pose proof (drives_inv _ _ _ _ (poll_drives app_s5 p (e_poll_now e) (e_reading e) (e_events e) (terr w0) (drv (ow w0))) I) as I1.
  pose proof (poll_run app_s5 (e_poll_now e) (e_reading e) (e_events e) (terr w0) (drv (ow w0)) Hr (Rw eq_refl)) as PR.
  pose proof (fun H => poll_sample (e_poll_now e) (e_reading e) (e_events e) (terr w0) (drv (ow w0)) Hr H (proj1 (Rw eq_refl))) as PS.
  destruct (terrain_control_poll _ _ _ _ _ _) as [k c]. cbn [fst snd] in I1, PR, PS. cbv zeta.
  destruct C as [(_ & _ & _ & ->) | [(K0 & K1 & K2 & K3 & K4 & K5 & K6 & K7 & ->) | (_ & S & _ & (new & En & Rn) & _)]].
  - refine (cycle_calls _ (l_frame (ow w0)) (l_feedback (ow w0)) (fun _ => _) I1 _). intros [_ G _ _ _ _]. done.
  - refine (cycle_calls (drv (ow w0) <|| external_hold := false ||>) (l_frame (ow w0)) (l_feedback (ow w0)) (fun _ => _) I1 _). intros [_ _ [G1 G2] [G3 G4] [G5 G6] _] m.
    apply orb_false_iff in K0 as [K0 _]. destruct (PS K0) as [PE PS']. destruct PR as [PO PT]. splits; try done; [by apply St | by apply PT].
  - destruct (cycle_calls c (l_frame (ow w0)) (l_feedback (ow w0)) (fun _ => False) I1) as (n2 & E2 & R2 & F2).
    { intros [G _ _ _ _ _]. by rewrite S in G. }
    exists (n2 ++ CHeartbeat false :: CStop :: new).
    split; [etransitivity; [exact E2 |]; by rewrite En, <- app_assoc |]. split; [rewrite requests_app; cbn; lia |].
    apply Forall_app. split; [eapply Forall_impl; [exact F2 |]; intros m Hm M; by destruct (Hm M) |].
    do 2 (constructor; [done |]). exact (no_requests _ _ Rn).
Qed.
(** C14: every motion request of the car is supervised.  Whatever the commands, the
    sensors, the clocks and the other tasks do and in whatever order they come, a
    step of the owner asks for motion at most once, and only in the sensing step of
    a cycle that did not take a STOP, while the drive runs, on valid and recent
    motion feedback that shows no fault, no lost report and the command the drive
    gave, and on a terrain result that is at most 150 ms old, calibrated, without
    fault and without impact, and is of the run the supervision owns: its run number
    is the one the START obtained, and so is that of any result read in this very
    step, which is then the one used.  No other step asks for motion. *)
Theorem integration_motion_safe x w a d e : reachable x w a d -> let w' := step_at x e w in
  exists new, calls (drv (ow w')) = new ++ calls (drv (ow w)) /\ (requests new <= 1)%nat /\
    Forall (fun m => moves m = true ->
      let dv := drive_of w in let fb := e_feedback e in let s := tc_sample (terr w') in
      x = AtSense /\ is_stop (l_taken (ow w)) = false /\ running (d_state dv) = true /\
      (fb_valid fb = true /\ elapsed (frame_timestamp_us (l_frame (ow w'))) (fb_timestamp_us fb) <= max_sample_age_us (nav_config (navigation dv)) /\
       fb_state fb <> MOTION_FAULT /\ fb_fault fb = MOTION_FAULT_NONE /\ fb_report_loss_count fb = report_loss_count dv /\
       (d_command_id dv = 0 \/ fb_command_id fb = d_command_id dv)) /\
      (waiting (terr w') = false /\ have (terr w') = true /\ elapsed (e_poll_now e) (timestamp_us s) <= 150000 /\ has TERRAIN_CALIBRATED s = true /\
       has TERRAIN_FAULT s = false /\ impact s = false /\ state s <> TERRAIN_IMPACT) /\
      (run_owned (terr w') = true /\ tc_run (terr w') = expected_run (terr w') /\ expected_run (terr w') = expected_run (terr w) /\
       forall sample run humps, e_reading e = Some (sample, run, humps) -> run = expected_run (terr w) /\ s = sample)) new.
Proof.
  intros R. pose proof (system_inv _ _ _ _ _ _ _ R) as I. pose proof (run_reachable _ _ _ _ _ _ _ R) as V. cbv zeta. destruct (decide (x = AtSense)) as [-> | Hx].
  - apply (sense_calls e w I); [| apply (ri_terrain _ _ V)]. intros M. destruct (is_stop (l_taken (ow w))) eqn:Hs; [| done]. destruct (ri_stop _ _ V ltac:(done) Hs) as [Q _]. congruence.
  - assert (D : drives app_s5 p (drv (ow w)) (drv (ow (step_at x e w)))).
    { apply step_drives; [done |]. intros r Er. by destruct (mb_taken _ _ _ _ (mailbox_reachable _ _ _ _ _ _ _ R) r Er) as (_ & ? & _). }
    destruct (drives_still _ _ _ _ D I) as (new & E & F). exists new. split; [exact E |]. clear E.
    split; [| eapply Forall_impl; [exact F |]; intros m Hm M; cbv beta in Hm; congruence].
    induction F as [| m l Hm _ IH]; [cbn; lia |]. cbn. rewrite Hm. exact IH.
Qed.

(** ** Commands *)
Lemma reset_deadline c frame fb : drive_inv app_s5 c ->
  (reset_result (dr c) = S3_RESET_PENDING -> S3_RESET_WAIT_US <= elapsed (frame_timestamp_us frame) (reset_us (dr c))) ->
  reset_result (dr (s3_drive_process app_s5 p c (Some frame) fb).2) <> S3_RESET_PENDING.
Proof.
  intros I Hd. unfold s3_drive_process. rewrite (di_configured _ _ I). cbn [negb].
  destruct (observe_ok p c frame fb (di_nav _ _ I)) as (c1 & healthy & dn & -> & O). cbv zeta. cbn [negb].
  destruct (cycle_observed app_s5 p _ _ _ _ _ _ I O) as (_ & C2 & _ & _ & C5 & _ & C7 & _). destruct O as [[id Ed] _].
  assert (RU : reset_us (dr c1) = reset_us (dr c)) by (by rewrite Ed). rewrite <- C5, <- RU in Hd.
  destruct (bool_decide_reflect (reset_result (dr c1) = S3_RESET_PENDING)) as [E | E]; cbn [snd].
  { unfold finish_reset. rewrite (proj2 (Z.leb_le _ _) (Hd E)). done. }
  case_if; [apply halt_reset |]. case_if; [apply halt_reset |]. destruct (running (d_state (dr c1))) eqn:Hr; cbn [negb snd]; [| exact E].
  destruct (process_running_ok app_s5 p (fun _ => True) c1 (frame_timestamp_us frame) healthy dn Hr C7 ltac:(done)) as [[_ _ _ _ HR _] _]. by apply HR.
Qed.
Lemma poll_reset now reading evs k c : let c' := (terrain_control_poll app_s5 now reading evs k c).2 in
  reset_result (dr c') = S3_RESET_PENDING -> reset_us (dr c') = reset_us (dr c).
Proof.
  cbv zeta. unfold terrain_control_poll. cbv zeta. destruct (take_reading _ _ _) as [b1 k1]. destruct (take_events _ _ _) as [b2 k2].
  repeat case_if; cbn [snd]; try done. unfold s3_drive_terrain_fault. case_if; [intros Q; by apply halt_reset in Q | done].
Qed.
(** The two cells of the mailbox, after the step that empties them. *)
Definition cells (w : world) : bool * bool := (sh_stop (sh w), sh_pending (sh w)).
Lemma cells_kept x e w : x <> AtTake -> cells (step_at x e w) = cells w.
Proof.
  intros Hx. destruct x; cbn [IntegrationSafety.step_at]; [done | | | |].
  - unfold step_sense. cbv zeta. assert (E : cells (drive_cycle app_s5 p e (sense e w)) = cells w) by (unfold drive_cycle; by destruct (terrain_control_poll _ _ _ _ _ _)).
    case_if; [| exact E]. rewrite <- E. unfold reset_completed. by destruct (e_lk_reset e).
  - pose proof (record_mbox e w) as M. unfold mbox in M. unfold cells. congruence.
  - unfold step_execute. cbv zeta. destruct (collect_rest w) as (_ & _ & _ & Es & _). set (w0 := collect_sample (record_timing w)) in *. clearbody w0.
    unfold cells. rewrite <- Es. destruct (l_pending (ow w0)) as [r |]; [| done]. pose proof (execute_mbox app_s5 p e r (e_exec_now e) w0) as M. unfold mbox in M.
    cbn -[run_command]. unfold run_command. destruct (execute app_s5 p e r (e_exec_now e) w0) as [ok w1]. cbn [snd] in M. cbv zeta.
    injection M as _ M1 M2 _. rewrite <- M1, <- M2. unfold begin_trace, reset_completed. destruct (e_lk_execute e); by repeat case_if.
  - pose proof (publish_mbox app_s5 app_ir_debug e w) as M. unfold mbox in M. unfold cells. congruence.
Qed.
Lemma step_reachable x e w a d : reachable x w a d -> env_ok e -> exists d', reachable (next_place x) (step_at x e w) a d'.
Proof. intros R E. eexists. by apply reach_owner. Qed.
Lemma frame_kept x e w : x <> AtSense -> l_frame (ow (step_at x e w)) = l_frame (ow w).
Proof.
  intros Hx. destruct x; cbn [IntegrationSafety.step_at]; [| done | | |].
  - unfold step_take. cbv zeta. destruct (take_command _ _). by case_if.
  - unfold step_record. case_if; [| done]. cbv zeta. by case_if.
  - unfold step_execute. cbv zeta. destruct (collect_rest w) as (_ & _ & _ & _ & _ & _ & _ & _ & Ef & _). set (w0 := collect_sample (record_timing w)) in *. clearbody w0.
    destruct (l_pending (ow w0)) as [r |]; [| exact Ef]. destruct (command_rest app_s5 p e r w0) as (_ & _ & _ & _ & _ & _ & _ & C8 & _).
    destruct (execute_frame app_s5 p e r (e_exec_now e) w0) as (_ & X2 & _). cbn -[run_command]. congruence.
  - by destruct (publish_rest app_s5 app_ir_debug e w) as (_ & _ & _ & _ & _ & _ & _ & Ef & _).
Qed.
Lemma sense_answers e w : drive_inv app_s5 (drv (ow w)) ->
  S3_RESET_WAIT_US <= elapsed (frame_timestamp_us (l_frame (ow (step_sense app_s5 p e w)))) (reset_us (drive_of w)) -> reset_waiting (ow (step_sense app_s5 p e w)) = false.
Proof.
  intros I Hd. destruct (sense_rest app_s5 p e w) as (_ & _ & _ & _ & _ & _ & _ & _ & _ & Ef & _). rewrite Ef in Hd. clear Ef.
  assert (N : reset_result (drive_of (drive_cycle app_s5 p e (sense e w))) <> S3_RESET_PENDING).
  { unfold drive_cycle. set (w0 := sense e w) in *. change (drive_of w) with (drive_of w0) in Hd. change (drv (ow w)) with (drv (ow w0)) in I. clearbody w0.
    pose proof (poll_reset (e_poll_now e) (e_reading e) (e_events e) (terr w0) (drv (ow w0))) as R. 
    pose proof (drives_inv _ _ _ _ (poll_drives app_s5 p (e_poll_now e) (e_reading e) (e_events e) (terr w0) (drv (ow w0))) I) as I1.
    destruct (terrain_control_poll _ _ _ _ _ _) as [k c]. cbv zeta in *. cbn [snd] in *.
    apply (reset_deadline c (l_frame (ow w0)) (Some (l_feedback (ow w0))) I1). intros Q. by rewrite (R Q). }
  unfold step_sense. cbv zeta. set (w1 := drive_cycle app_s5 p e (sense e w)) in *. clearbody w1. rewrite (bool_decide_eq_false_2 _ N). cbn [negb]. rewrite andb_true_r.
  destruct (reset_waiting (ow w1)) eqn:W; [| exact W]. unfold reset_completed. by destruct (e_lk_reset e).
Qed.
Lemma waiting_kept x e w : x <> AtTake -> x <> AtSense -> (x = AtExecute -> l_pending (ow w) = None) ->
  reset_waiting (ow (step_at x e w)) = reset_waiting (ow w) /\ l_pending (ow (step_at x e w)) = l_pending (ow w).
Proof.
  intros H1 H2 Hl. destruct x; try done; cbn [IntegrationSafety.step_at].
  - pose proof (record_mbox e w) as M. unfold mbox in M. split; congruence.
  - specialize (Hl eq_refl). unfold step_execute. cbv zeta. destruct (collect_rest w) as (_ & _ & _ & _ & _ & _ & El & Ew & _). rewrite El, Hl. split; [exact Ew | congruence].
  - pose proof (publish_mbox app_s5 app_ir_debug e w) as M. unfold mbox in M. split; congruence.
Qed.
(** Every accepted command is answered within a cycle.  A cycle of the owner that
    gets the mutex when it takes its command, and that no other task interrupts,
    leaves nothing in the mailbox and nothing taken: every command accepted before
    it is answered, but for a RESET whose outcome is still awaited; and that one is
    answered at the latest in the first cycle whose sample is half a second
    younger than the RESET. *)
Theorem integration_cycle_answers w a d e : reachable AtTake w a d -> env_ok e -> e_lk_take e = true ->
  let w' := sample_cycle app_s5 app_ir_debug p e w in
  (sh_stop (sh w') = false /\ sh_pending (sh w') = false /\ l_pending (ow w') = None) /\
  (reset_waiting (ow w) = true -> 500000 <= elapsed (frame_timestamp_us (l_frame (ow w'))) (reset_us (drive_of w)) -> reset_waiting (ow w') = false).
Proof.
  intros R Ok L. cbv zeta. rewrite sample_cycle_steps.
  destruct (step_reachable _ e w a d R Ok) as (d1 & R1); cbn [next_place] in R1. set (w1 := step_at AtTake e w) in *.
  assert (T : cells w1 = (false, false) /\ (reset_waiting (ow w) = true -> l_pending (ow w1) = None /\ (reset_waiting (ow w1) = true -> drv (ow w1) = drv (ow w)))).
  { pose proof (mailbox_reachable _ _ _ _ _ _ _ R) as M. subst w1. cbn [IntegrationSafety.step_at]. unfold step_take, take_command. rewrite L. cbv zeta.
    set (w0 := w <|o l_was_running := _ |o>). change (sh w0) with (sh w). split; [by case_if |]. intros W. destruct (mb_waiting _ _ _ _ M W) as (_ & Hp & _).
    rewrite Hp. by destruct (sh_stop (sh w)). }
  clearbody w1. destruct T as [T1 T2].
  destruct (step_reachable _ e w1 a d1 R1 Ok) as (d2 & R2); cbn [next_place] in R2. pose proof (cells_kept AtSense e w1 ltac:(done)) as Q2.
  pose proof (sense_answers e w1 (system_inv _ _ _ _ _ _ _ R1)) as S2. destruct (sense_rest app_s5 p e w1) as (_ & _ & _ & _ & _ & _ & _ & L2 & W2 & _).
  change (step_sense app_s5 p e w1) with (step_at AtSense e w1) in *. set (w2 := step_at AtSense e w1) in *. clearbody w2.
  destruct (step_reachable _ e w2 a d2 R2 Ok) as (d3 & R3); cbn [next_place] in R3. pose proof (cells_kept AtRecord e w2 ltac:(done)) as Q3. pose proof (frame_kept AtRecord e w2 ltac:(done)) as F3.
  pose proof (waiting_kept AtRecord e w2 ltac:(done) ltac:(done) ltac:(done)) as K3. set (w3 := step_at AtRecord e w2) in *. clearbody w3.
  destruct (step_reachable _ e w3 a d3 R3 Ok) as (d4 & R4); cbn [next_place] in R4. pose proof (cells_kept AtExecute e w3 ltac:(done)) as Q4. pose proof (frame_kept AtExecute e w3 ltac:(done)) as F4.
  pose proof (waiting_kept AtExecute e w3 ltac:(done) ltac:(done)) as K4. set (w4 := step_at AtExecute e w3) in *. clearbody w4.
  destruct (step_reachable _ e w4 a d4 R4 Ok) as (d5 & R5); cbn [next_place] in R5. pose proof (cells_kept AtPublish e w4 ltac:(done)) as Q5. pose proof (frame_kept AtPublish e w4 ltac:(done)) as F5.
  pose proof (waiting_kept AtPublish e w4 ltac:(done) ltac:(done) ltac:(done)) as K5. set (w5 := step_at AtPublish e w4) in *. clearbody w5.
  cbn [next_place] in *. split.
  - assert (E : cells w5 = (false, false)) by congruence. injection E as -> ->. splits; try done. apply (mb_place _ _ _ _ (mailbox_reachable _ _ _ _ _ _ _ R5)). by left.
  - intros W Hd. destruct (T2 W) as [P1 D1]. destruct K3 as [K3 K3']. destruct K5 as [K5 K5']. destruct K4 as [K4 K4']; [intros _; congruence |].
    rewrite K5, K4, K3. destruct (reset_waiting (ow w1)) eqn:W1; [| by apply W2]. apply S2. unfold drive_of in *. rewrite (D1 eq_refl), <- F3, <- F4, <- F5. exact Hd.
Qed.
(** C18: the command counter is the ledger of commands.  In every reachable state the
    counter the status publishes is, modulo 2^32, the number of commands accepted,
    less those a STOP cancelled and less those still in the mailbox, taken, or
    waiting for a reset: no command is answered twice, and none is lost but by a
    STOP.  At most two commands are outstanding, nothing is queued behind a STOP,
    and the mailbox refuses commands for a pending RESET only while that RESET is
    really in flight. *)
Theorem integration_commands_answered x w a d : reachable x w a d ->
  let queued := b2z (sh_stop (sh w)) + b2z (sh_pending (sh w)) in
  let taken := match l_pending (ow w) with Some _ => 1 | None => 0 end + b2z (reset_waiting (ow w)) in
  command_sequence (working (ow w)) = (a - d - (queued + taken)) mod 2 ^ 32 /\ queued <= 1 /\ taken <= 1 /\
  (sh_reset_pending (sh w) = true ->
   (sh_pending (sh w) = true /\ exists r, s3_control_unpack (sh_command (sh w)) = Some r /\ req_kind r = S3_CONTROL_RESET) \/
   (exists r, l_pending (ow w) = Some r /\ req_kind r = S3_CONTROL_RESET) \/ reset_waiting (ow w) = true).
Proof.
  intros R. destruct (mailbox_reachable _ _ _ _ _ _ _ R) as [H1 H2 H3 H4 H5 H6 H7]. cbv zeta. splits.
  - rewrite H1. unfold outstanding, u32, wrap. f_equal. lia.
  - destruct (sh_stop (sh w)); [destruct (H2 eq_refl) as [-> _]; cbn; lia |]. by destruct (sh_pending (sh w)).
  - destruct (reset_waiting (ow w)); [destruct (H4 eq_refl) as (_ & _ & ->); cbn; lia |]. by destruct (l_pending (ow w)).
  - exact H7.
Qed.

(** C15: STOP wins.  A STOP is accepted whatever is queued and throws it away; the
    step that takes it stops the drive, its last calls being stop and heartbeat off,
    ends any calibration, forgets a RESET under way and reports success; and from
    there to the end of that cycle, whatever the other tasks do, the drive stays
    stopped and no command is executed. *)
Theorem integration_stop_wins x w a d : reachable x w a d ->
  (let r := s3_integration_submit true stop_request (sh w) in
   r.1 = true /\ sh_stop r.2 = true /\ sh_pending r.2 = false /\ sh_reset_pending r.2 = false) /\
  (forall e, x = AtTake -> sh_stop (sh w) = true -> e_lk_take e = true -> let w' := step_take app_s5 e w in
   is_stop (l_taken (ow w')) = true /\ running (d_state (drive_of w')) = false /\ is_collecting (ow w') = false /\
   command_ok (working (ow w')) = true /\ command_sequence (working (ow w')) = (command_sequence (working (ow w)) + 1) mod 2 ^ 32 /\
   exists new, calls (drv (ow w')) = CHeartbeat false :: CStop :: new ++ calls (drv (ow w)) /\ requests new = 0%nat) /\
  (x <> AtTake -> is_stop (l_taken (ow w)) = true ->
   running (d_state (drive_of w)) = false /\ l_pending (ow w) = None /\ reset_waiting (ow w) = false /\
   still (calls (drv (ow w))) = true /\ silent (calls (drv (ow w))) = true).
Proof.
  intros R. pose proof (system_inv _ _ _ _ _ _ _ R) as I. splits.
  - cbv zeta. unfold s3_integration_submit. replace (s3_control_pack stop_request) with (Some (default [] (s3_control_pack stop_request))) by (by vm_compute).
    rewrite bool_decide_eq_true_2 by done. done.
  - intros e -> S L. cbv zeta. unfold step_take, take_command. rewrite L. cbv zeta. set (w0 := w <|o l_was_running := _ |o>). change (sh w0) with (sh w). rewrite S.
    change (is_stop (Some stop_request)) with true. cbv iota. splits; try done; [exact (idle_stop app_s5 _ I) |].
    change (drv (ow (answer true (execute_stop app_s5 (w0 <| sh := sh w <| sh_stop := false |> <| sh_pending := false |> |> <|o l_taken := Some stop_request |o>
      <|o l_pending := Some stop_request |o> <|o reset_waiting := false |o>)) <|o l_pending := None |o>))) with (s3_drive_stop app_s5 (drv (ow w))).
    unfold s3_drive_stop. rewrite (di_configured _ _ I). cbn [negb]. case_if; apply halt_calls.
  - intros Hx Hs. destruct (ri_stop _ _ (run_reachable _ _ _ _ _ _ _ R) Hx Hs) as (M & P & W). destruct (di_parked _ _ I M) as [P1 P2]. done.
Qed.

(** C16: a START is accepted only when every part is ready.  The car starts to run only
    in the step that executes commands and by a taken START: terrain healthy, its
    fault latch clear and no result awaited; the drive off or halted, its motors
    braked and without fault by recent feedback; navigation inactive and without
    readiness blocker; no calibration under way.  It leaves the drive following,
    the terrain run begun with the terrain task's token and its first result
    awaited, a new trace and a new timing record begun, and success reported. *)
Theorem integration_start_gated x w a d e : reachable x w a d -> env_ok e -> let w' := step_at x e w in
  running (d_state (drive_of w)) = false -> running (d_state (drive_of w')) = true ->
  x = AtExecute /\ (exists r, l_pending (ow w) = Some r /\ req_kind r = S3_CONTROL_START) /\
  (latched (terr w) = false /\ waiting (terr w) = false /\ healthy (terr w) (e_exec_now e) = true) /\
  (d_state (drive_of w) = S3_DRIVE_OFF \/ d_state (drive_of w) = S3_DRIVE_HALTED) /\
  (feedback_fresh (drive_of w) (e_exec_now e) = true /\ motion_at_rest (drive_of w) = true) /\
  (lifecycle (navigation (drive_of w)) = S3_RUN_INACTIVE /\ s3_navigation_readiness (navigation (drive_of w)) (e_exec_now e) = 0) /\
  is_collecting (ow w') = false /\ d_state (drive_of w') = S3_DRIVE_FOLLOW /\
  (e_token e = Some (expected_run (terr w')) /\ waiting (terr w') = true /\ have (terr w') = false /\ tc_reset_us (terr w') = e_exec_now e) /\
  (g_bcap (sh w') = bcap_begin_run (e_bcap_now e) /\ net_pending (sh w') = false /\ run_timing (working (ow w')) = s3_run_timing_begin (e_timing_now e)) /\
  command_ok (working (ow w')) = true.
Proof.
  intros R [[_ L] _ _ _ _]. cbv zeta. intros M M'. pose proof (system_inv _ _ _ _ _ _ _ R) as I.
  destruct (decide (x = AtExecute)) as [-> | Hx].
  2: { pose proof (step_idle app_s5 app_ir_debug p x e w I Hx M) as Q. unfold moving in Q. congruence. }
  split; [done |]. destruct (collect_rest w) as (E1 & E2 & _ & _ & _ & _ & E7 & _). revert M'. cbn [IntegrationSafety.step_at]. unfold step_execute. cbv zeta.
  set (w0 := collect_sample (record_timing w)) in *. clearbody w0. rewrite <- E7, <- E2. unfold drive_of in M |- *. rewrite <- E1 in *. clear E1 E2 E7.
  destruct (l_pending (ow w0)) as [r |]; [| intros Q; congruence]. intros M'. destruct (execute_spec app_s5 p e r (e_exec_now e) w0 I) as [_ X].
  assert (G : req_kind r = S3_CONTROL_START /\ (execute app_s5 p e r (e_exec_now e) w0).1 = true /\ start_gate e (e_exec_now e) w0 (execute app_s5 p e r (e_exec_now e) w0).2).
  { destruct X as [G | (Q & _)]; [| exact G | unfold moving, drive_of in Q; congruence].
    unfold moving, drive_of. rewrite <- command_drv. exact M'. }
  destruct G as (Er & Eo & G). unfold run_command in *. clear M' X. destruct (execute app_s5 p e r (e_exec_now e) w0) as [ok w1]. cbn [fst snd] in *. subst ok.
  rewrite !(bool_decide_eq_true_2 _ Er), !(bool_decide_eq_false_2 (req_kind r = S3_CONTROL_RESET)) by congruence. cbv zeta. cbn [andb]. unfold begin_trace. rewrite L. cbv zeta.
  destruct G as [G1 G2 G3 G4 G5 G6 G7 G8 G9 G10]. unfold drive_of in *. splits; try done; try apply G1; try apply G5; try apply G4; try apply G7. by exists r.
Qed.

(** C17: a running car is a consistent one.  While the drive runs, between any two steps
    of any tasks: navigation's run is active, no calibration is being collected, the
    terrain supervision owns a run; the trace of the run is valid and is not being
    sent, and it is being recorded: the record step of the cycle, once it has the
    lock, adds the sample of this cycle to it and no other step of any task changes
    it; the barcode map is frozen, valid, and is the map navigation
    uses; and no started attempt is left to be cancelled. *)
Theorem integration_running_sound x w a d : reachable x w a d -> running (d_state (drive_of w)) = true ->
  lifecycle (navigation (drive_of w)) = S3_RUN_ACTIVE /\ is_collecting (ow w) = false /\ run_owned (terr w) = true /\
  (bcap_valid (sh w) = true /\ net_pending (sh w) = false) /\
  ((forall e, env_ok e -> g_bcap (sh (step_at x e w)) = match x with
      | AtRecord => if e_lk_record e then bcap_record (g_bcap (sh w)) (trace_input w) else g_bcap (sh w)
      | _ => g_bcap (sh w) end) /\
   forall o, g_bcap (sh (other_run o w)) = g_bcap (sh w)) /\
  exists m, map_ok m /\ frozen (active_map (mps w)) = true /\ buddy1_map_unpack (unlatched (active_map (mps w))) = Some m /\
    cfg_map (nav_config (navigation (drive_of w))) = expanded m /\ start_claimed_map (mps w) = false.
Proof.
  intros R M. pose proof (system_inv _ _ _ _ _ _ _ R) as I. destruct (run_reachable _ _ _ _ _ _ _ R) as [H1 H2 H3 H4 H5 H6 _ H7 (acc & (s & Rs & E1 & E2 & E3 & E4) & A)].
  change (moving w = true) in M. splits; try (by auto); [by apply (moving_active app_s5) | by apply H3 | by rewrite M in H7; auto | | |].
  { intros e Ok. exact (trace_step _ _ _ _ _ _ _ e R Ok M). }
  { intros o. destruct (other_trace o w) as (b & [= _ T _] & _). exact T. }
  destruct (session_reachable_inv s Rs) as (m & f & [I1 I2 I3 I4]). destruct acc as [m' |]; [| by destruct (A M)].
  destruct (I4 m' E4) as (-> & -> & Em & Ec). rewrite E1 in *. rewrite E2 in Em. exists m'.
  splits; [by eapply stored_ok | by apply (stored_frozen m') | by eapply stored_unlatched | exact Em | exact Ec].
Qed.

(** What the owner hands over is well formed.  In every reachable state the status
    of the cycle packs, so publishing it never stops the drive, and what the panel
    reads is that packet; and a trace is only sent when its run has ended and it was
    built by recording samples in range. *)
Theorem integration_publishes x w a d e : reachable x w a d ->
  (exists b, s3_status_pack (new_status e w) = Some b /\ drv (ow (step_publish app_s5 app_ir_debug e w)) = drv (ow w) /\
     (e_lk_publish e = true -> s3_integration_status true (sh (step_publish app_s5 app_ir_debug e w)) = s3_status_unpack b)) /\
  (net_pending (sh w) = true -> bcap_reachable (g_bcap (sh w)) /\ Capture.cap_active (g_bcap (sh w)) = false).
Proof.
  intros R. pose proof (system_inv _ _ _ _ _ _ _ R) as I. pose proof (data_reachable _ _ _ _ _ _ _ R) as D. split.
  - destruct (status_published e w D (di_nav _ _ I)) as [b E]. exists b. split; [exact E |]. split; [by rewrite publish_drv, E |].
    intros L. unfold step_publish. cbv zeta. rewrite E. unfold publish_debug, s3_integration_status. 
    destruct app_ir_debug; [destruct (capture_control_debug _ _ _ _ _) as [[c |] g]; destruct (capture_ir_debug _ _ _) as [[i |] g'] |];
      rewrite L; destruct (vehicle_controller_observe _ _ _ _ _ _) as [[u k] s]; done.
  - intros N. destruct (run_reachable _ _ _ _ _ _ _ R) as [_ _ _ _ _ H6 _ H7 _]. split; [| by apply H6]. apply (da_trace _ D). apply H7. rewrite N. by rewrite !orb_true_r.
Qed.
End Owner.

(** ** Witnesses: a bench car is started and steers *)
Definition bench_port : port :=
  {| request_reply := fun _ => MOTION_OK; report_reply := fun _ => None; command_id_reply := fun _ => 7; reset_reply := fun _ => true;
     snapshot_reply := fun _ => (S5_SNAPSHOT_BUSY, {| range_us := 0; scan_us := 0; range_mm := 0; scan_id := 0; obs_profile := zero_profile;
       range_valid := false; no_echo := false; obs_scan_done := false |}); scan_reply := fun _ => true |}.
Definition bench_sample (t raw : Z) : s3_raw_sample_t :=
  {| sample_timestamp_us := t; sample_raw := raw; sample_error := 0; sample_enabled := true; sample_valid := true |}.
Definition bench_frame (t : Z) : s3_sensor_frame_t :=
  {| frame_timestamp_us := t; sensor := [bench_sample t 200; bench_sample t 700; bench_sample t 1500] |}.
Definition bench_feedback (t : Z) : motion_feedback_t :=
  {| fb_centre_m := dlit 5 100; fb_timestamp_us := t; fb_epoch := 3; fb_state := MOTION_IDLE;
     fb_fault := MOTION_FAULT_NONE; fb_valid := true; fb_braked := true; fb_command_id := 0; fb_report_loss_count := 0 |}.
Definition bench_env (t run : Z) : env :=
  {| e_lk_take := true; e_stop_now := t; e_feedback := bench_feedback t; e_adc := 0; e_read := (0, bench_frame t); e_frame_now := t;
     e_poll_now := t; e_reading := Some (sample_ok <| timestamp_us := t |>, run, 0); e_events := []; e_lk_reset := true; e_lk_record := true; e_exec_now := t;
     e_lk_map := true; e_lk_map2 := true; e_token := Some 1; e_lk_begin := true; e_timing_now := t; e_bcap_now := t; e_lk_execute := true; e_ready_now := t;
     e_motion_debug := None; e_debug_now := t; e_lk_publish := true; e_locks := all_locks; e_motion := None; e_control := 0; e_obstacle := None |}.
Lemma bench_env_ok t run : in_u 32 t -> env_ok (bench_env t run).
Proof.
  intros T. assert (D : double_ok (dlit 5 100)) by (by vm_compute). constructor; cbn; try done.
  - splits; try done. repeat (constructor; [cbn; lia |]). constructor.
Qed.
Definition command (k : s3_control_kind_t) : s3_control_request_t := {| req_kind := k; req_sensor := 0; req_map := replicate 26 0 |}.
Lemma command_typed k : request_typed (command k).
Proof. unfold request_typed, command. cbn. split; [unfold in_u; lia | by repeat constructor]. Qed.
Notation bench_cycle := (sample_cycle false false bench_port).
Notation bench_reachable := (reachable false false bench_port).
Definition bench_boot : ctx := default {| dr := zero_drive; calls := [] |} (integration_drive false).
(** A cycle, a START from the panel, the cycle that takes it. *)
Definition bench_ready : world := bench_cycle (bench_env 10000 0) (boot_world bench_boot).
Definition bench_asked : world := other_run (OSubmit true (command S3_CONTROL_START)) bench_ready.
Definition bench_started : world := bench_cycle (bench_env 20000 0) bench_asked.
Lemma cycle_reachable e w a d : bench_reachable AtTake w a d -> env_ok e -> exists d', bench_reachable AtTake (bench_cycle e w) a d'.
Proof. intros R Ok. eexists. rewrite sample_cycle_steps.
  apply (reach_owner _ _ _ AtPublish); [| exact Ok]. apply (reach_owner _ _ _ AtExecute); [| exact Ok]. apply (reach_owner _ _ _ AtRecord); [| exact Ok].
  apply (reach_owner _ _ _ AtSense); [| exact Ok]. apply (reach_owner _ _ _ AtTake); [exact R | exact Ok]. Qed.
Lemma started_reachable : exists a d, bench_reachable AtTake bench_started a d.
Proof.
  destruct (cycle_reachable (bench_env 10000 0) (boot_world bench_boot) 0 0) as (d1 & R1).
  - apply reach_boot. unfold bench_boot. destruct (integration_drive false) eqn:E; [done |]. exfalso. revert E. by vm_compute.
  - apply bench_env_ok. unfold in_u. lia.
  - destruct (cycle_reachable (bench_env 20000 0) bench_asked (0 + accepted_by (OSubmit true (command S3_CONTROL_START)) bench_ready)
      (d1 + cancelled_by_other (OSubmit true (command S3_CONTROL_START)) bench_ready)) as (d2 & R2).
    + apply reach_other; [exact R1 | apply command_typed].
    + apply bench_env_ok. unfold in_u. lia.
    + by eexists _, _.
Qed.
Definition bench_sensing : world := step_at false false bench_port AtTake (bench_env 30000 1) bench_started.
Lemma sensing_reachable : exists a d, bench_reachable AtSense bench_sensing a d.
Proof. destruct started_reachable as (a & d & R). eexists _, _. apply (reach_owner _ _ _ AtTake); [exact R | apply bench_env_ok; unfold in_u; lia]. Qed.
Lemma integration_motion_safe_witness :
  requests (calls (drv (ow (step_at false false bench_port AtSense (bench_env 30000 1) bench_sensing)))) = 1%nat /\ requests (calls (drv (ow bench_sensing))) = 0%nat /\
  exists new, calls (drv (ow (step_at false false bench_port AtSense (bench_env 30000 1) bench_sensing))) = new ++ calls (drv (ow bench_sensing)) /\
    (requests new <= 1)%nat /\ Forall (fun m => moves m = true -> tc_run (terr (step_at false false bench_port AtSense (bench_env 30000 1) bench_sensing)) =
      expected_run (terr (step_at false false bench_port AtSense (bench_env 30000 1) bench_sensing))) new.
Proof.
  split; [vm_compute; reflexivity |]. split; [vm_compute; reflexivity |]. destruct sensing_reachable as (a & d & R).
  destruct (integration_motion_safe false false bench_port AtSense bench_sensing a d (bench_env 30000 1) R) as (new & E & N & F).
  exists new. split; [exact E |]. split; [exact N |]. eapply Forall_impl; [exact F |]. intros m H M. cbv zeta in H. destruct (H M) as (_ & _ & _ & _ & _ & _ & T & _). exact T.
Defined.
Definition bench_recording : world := step_at false false bench_port AtSense (bench_env 30000 1) bench_sensing.
Lemma recording_reachable : exists a d, bench_reachable AtRecord bench_recording a d.
Proof. destruct sensing_reachable as (a & d & R). eexists _, _. apply (reach_owner _ _ _ AtSense); [exact R | apply bench_env_ok; unfold in_u; lia]. Qed.
Lemma bench_recorded w :
  (forall e, env_ok e -> g_bcap (sh (step_at false false bench_port AtRecord e w)) = match AtRecord with
     | AtRecord => if e_lk_record e then bcap_record (g_bcap (sh w)) (trace_input w) else g_bcap (sh w)
     | _ => g_bcap (sh w) end) ->
  g_bcap (sh (step_at false false bench_port AtRecord (bench_env 30000 1) w)) = bcap_record (g_bcap (sh w)) (trace_input w).
Proof. intros T. exact (T (bench_env 30000 1) (bench_env_ok 30000 1 ltac:(unfold in_u; lia))). Qed.
Lemma integration_running_sound_witness : running (d_state (drive_of bench_recording)) = true /\
  lifecycle (navigation (drive_of bench_recording)) = S3_RUN_ACTIVE /\ frozen (active_map (mps bench_recording)) = true /\
  g_bcap (sh (step_at false false bench_port AtRecord (bench_env 30000 1) bench_recording)) =
    bcap_record (g_bcap (sh bench_recording)) (trace_input bench_recording).
Proof.
  assert (M : running (d_state (drive_of bench_recording)) = true) by (vm_compute; reflexivity). split; [exact M |]. destruct recording_reachable as (a & d & R).
  destruct (integration_running_sound false false bench_port AtRecord bench_recording a d R M) as (L & _ & _ & _ & [T _] & m & _ & F & _).
  split; [exact L |]. split; [exact F |]. exact (bench_recorded bench_recording T).
Defined.
Lemma integration_publishes_witness : exists b, s3_status_pack (new_status (bench_env 30000 1) bench_started) = Some b /\
  drv (ow (step_publish false false (bench_env 30000 1) bench_started)) = drv (ow bench_started).
Proof.
  destruct started_reachable as (a & d & R). destruct (integration_publishes false false bench_port AtTake bench_started a d (bench_env 30000 1) R) as [(b & E & D & _) _].
  exists b. split; [exact E | exact D].
Defined.
(** The state just before the START is executed. *)
Definition bench_executing : world := let e := bench_env 20000 0 in
  step_at false false bench_port AtRecord e (step_at false false bench_port AtSense e (step_at false false bench_port AtTake e bench_asked)).
Lemma executing_reachable : exists a d, bench_reachable AtExecute bench_executing a d.
Proof.
  destruct (cycle_reachable (bench_env 10000 0) (boot_world bench_boot) 0 0) as (d1 & R1).
  - apply reach_boot. unfold bench_boot. destruct (integration_drive false) eqn:E; [done |]. exfalso. revert E. by vm_compute.
  - apply bench_env_ok. unfold in_u. lia.
  - pose proof (reach_other _ _ _ _ _ _ _ (OSubmit true (command S3_CONTROL_START)) R1 (command_typed _)) as R2. eexists _, _. unfold bench_executing.
    apply (reach_owner _ _ _ AtRecord); [| apply bench_env_ok; unfold in_u; lia]. apply (reach_owner _ _ _ AtSense); [| apply bench_env_ok; unfold in_u; lia].
    apply (reach_owner _ _ _ AtTake); [exact R2 | apply bench_env_ok; unfold in_u; lia].
Qed.
Lemma integration_start_gated_witness : let w' := step_at false false bench_port AtExecute (bench_env 20000 0) bench_executing in
  running (d_state (drive_of bench_executing)) = false /\ running (d_state (drive_of w')) = true /\
  s3_navigation_readiness (navigation (drive_of bench_executing)) 20000 = 0 /\ waiting (terr w') = true /\ command_ok (working (ow w')) = true.
Proof.
  cbv zeta. assert (M : running (d_state (drive_of bench_executing)) = false) by (vm_compute; reflexivity).
  assert (M' : running (d_state (drive_of (step_at false false bench_port AtExecute (bench_env 20000 0) bench_executing))) = true) by (vm_compute; reflexivity).
  split; [exact M |]. split; [exact M' |]. destruct executing_reachable as (a & d & R).
  destruct (integration_start_gated false false bench_port AtExecute bench_executing a d (bench_env 20000 0) R (bench_env_ok 20000 0 ltac:(unfold in_u; lia)) M M')
    as (_ & _ & _ & _ & _ & (_ & Q) & _ & _ & (_ & W & _) & _ & K). split; [exact Q |]. split; [exact W | exact K].
Defined.
(** The panel asks the running car to stop. *)
Definition bench_stopping : world := other_run (OSubmit true stop_request) bench_started.
Lemma stopping_reachable : exists a d, bench_reachable AtTake bench_stopping a d.
Proof. destruct started_reachable as (a & d & R). eexists _, _. exact (reach_other _ _ _ _ _ _ _ (OSubmit true stop_request) R (command_typed S3_CONTROL_STOP)). Qed.
Lemma integration_stop_wins_witness : running (d_state (drive_of bench_stopping)) = true /\
  let w' := step_take false (bench_env 30000 1) bench_stopping in
  is_stop (l_taken (ow w')) = true /\ running (d_state (drive_of w')) = false /\ command_ok (working (ow w')) = true.
Proof.
  split; [vm_compute; reflexivity |]. cbv zeta. destruct stopping_reachable as (a & d & R).
  destruct (integration_stop_wins false false bench_port AtTake bench_stopping a d R) as (_ & S & _).
  destruct (S (bench_env 30000 1) eq_refl ltac:(vm_compute; reflexivity) eq_refl) as (S1 & S2 & _ & S4 & _). split; [exact S1 |]. split; [exact S2 | exact S4].
Defined.
Lemma integration_commands_answered_witness : command_sequence (working (ow bench_stopping)) = 1 /\ sh_stop (sh bench_stopping) = true /\
  exists a d, bench_reachable AtTake bench_stopping a d /\ 1 = (a - d - 1) mod 2 ^ 32.
Proof.
  split; [vm_compute; reflexivity |]. split; [vm_compute; reflexivity |]. destruct stopping_reachable as (a & d & R). exists a, d. split; [exact R |].
  destruct (integration_commands_answered false false bench_port AtTake bench_stopping a d R) as (Q & _).
  assert (E1 : command_sequence (working (ow bench_stopping)) = 1) by (vm_compute; reflexivity).
  assert (E2 : b2z (sh_stop (sh bench_stopping)) + b2z (sh_pending (sh bench_stopping)) +
    (match l_pending (ow bench_stopping) with Some _ => 1 | None => 0 end + b2z (reset_waiting (ow bench_stopping))) = 1) by (vm_compute; reflexivity).
  cbv zeta in Q. revert Q. rewrite E1, E2. exact (fun q => q).
Defined.
Lemma integration_cycle_answers_witness : sh_stop (sh bench_stopping) = true /\
  let w' := bench_cycle (bench_env 30000 1) bench_stopping in sh_stop (sh w') = false /\ sh_pending (sh w') = false /\ l_pending (ow w') = None.
Proof.
  split; [vm_compute; reflexivity |]. cbv zeta. destruct stopping_reachable as (a & d & R).
  destruct (integration_cycle_answers false false bench_port bench_stopping a d (bench_env 30000 1) R (bench_env_ok 30000 1 ltac:(unfold in_u; lia)) eq_refl) as [Q _]. exact Q.
Defined.
