(* ===== verification/MessageBuffer.v ===== *)
(** * Kernel message buffer

    Models the part of [kernel/tkernel/messagebuf.{c,h}] that the report queue of
    the motion subsystem stands on: a ring of bytes in which a message is a 4-byte
    header with its size followed by the message, rounded up to 4 bytes.  Both the
    message and the ring may wrap.

    The control block is the record [mbfcb]; [buffer] is the byte array, the header
    is stored little-endian as on the RP2040.  Every send of the program polls, so
    no task ever waits to send; a message handed directly to a task that waits to
    receive is a send followed at once by its receive, and the kernel's task queues
    are not modelled. *)
From S2P Require Import Prelude BitCodec.

Definition E_OK : Z := 0.
Definition E_PAR : Z := -17.
Definition E_TMOUT : Z := -50.
Definition HEADERSZ : Z := 4.
Definition ROUNDSIZE : Z := 4.
Definition ROUNDSZ (sz : Z) : Z := Z.land (u32 (u32 sz + (ROUNDSIZE - 1))) (u32 (Z.lnot (ROUNDSIZE - 1))).

Record mbfcb := {
  buffer : list Z; bufsz : Z; frbufsz : Z; maxmsz : Z; head : Z; tail : Z
}.
#[export] Instance mbfcb_settable : Settable mbfcb := fun r =>
  Build_mbfcb (buffer r) (bufsz r) (frbufsz r) (maxmsz r) (head r) (tail r).

(** Bytes copied into and out of the array. *)
Fixpoint copy_in (b : list Z) (at_ : Z) (src : list Z) : list Z :=
  match src with [] => b | x :: src => copy_in (setZ b at_ x) (at_ + 1) src end.
Fixpoint copy_out (b : list Z) (at_ : Z) (n : nat) : list Z :=
  match n with O => [] | S n => nthZ 0 b at_ :: copy_out b (at_ + 1) n end.
Definition header_bytes (sz : Z) : list Z := map (fun i => u8 (Z.shiftr sz (8 * i))) (range 4).
Definition header_of (bs : list Z) : Z := i32 (fold_right (fun x acc => x + 256 * acc) 0 bs).

Definition knl_mbf_free (cb : mbfcb) (msgsz : Z) : bool := HEADERSZ + u32 msgsz <=? u32 (frbufsz cb).
Definition knl_mbf_empty (cb : mbfcb) : bool := frbufsz cb =? bufsz cb.
(** [if ( x >= mbfcb->bufsz ) x = 0] *)
Definition ring_end (cb : mbfcb) (x : Z) : Z := if bufsz cb <=? x then 0 else x.

Definition knl_msg_to_mbf (cb : mbfcb) (msg : list Z) : mbfcb :=
  let msgsz := Z.of_nat (length msg) in
  let frbufsz' := i32 (frbufsz cb - i32 (HEADERSZ + ROUNDSZ msgsz)) in
  let b := copy_in (buffer cb) (tail cb) (header_bytes msgsz) in
  let t := ring_end cb (tail cb + HEADERSZ) in
  let remsz := bufsz cb - t in
  let '(b, msg, t) :=
    if remsz <? msgsz then (copy_in b t (take (Z.to_nat remsz) msg), drop (Z.to_nat remsz) msg, 0) else (b, msg, t) in
  let msgsz := Z.of_nat (length msg) in
  let b := copy_in b t msg in
  cb <| buffer := b |> <| frbufsz := frbufsz' |> <| tail := ring_end cb (t + ROUNDSZ msgsz) |>.

Definition knl_mbf_to_msg (cb : mbfcb) : list Z * mbfcb :=
  let msgsz := header_of (copy_out (buffer cb) (head cb) 4) in
  let frbufsz' := i32 (frbufsz cb + i32 (HEADERSZ + ROUNDSZ msgsz)) in
  let h := ring_end cb (head cb + HEADERSZ) in
  let remsz := bufsz cb - h in
  let '(first, msgsz, h) :=
    if remsz <? msgsz then (copy_out (buffer cb) h (Z.to_nat remsz), msgsz - remsz, 0) else ([], msgsz, h) in
  let msg := first ++ copy_out (buffer cb) h (Z.to_nat msgsz) in
  (msg, cb <| frbufsz := frbufsz' |> <| head := ring_end cb (h + ROUNDSZ msgsz) |>).

Definition tk_cre_mbf (bufsz maxmsz : Z) : mbfcb :=
  let bufsz := ROUNDSZ bufsz in
  {| buffer := repeat 0 (Z.to_nat bufsz); bufsz := bufsz; frbufsz := bufsz; maxmsz := maxmsz; head := 0; tail := 0 |}.
(** [tmout = TMO_POL] *)
Definition tk_snd_mbf (cb : mbfcb) (msg : list Z) : Z * mbfcb :=
  let msgsz := Z.of_nat (length msg) in
  if negb (0 <? msgsz) || (maxmsz cb <? msgsz) then (E_PAR, cb)
  else if knl_mbf_free cb msgsz then (E_OK, knl_msg_to_mbf cb msg)
  else (E_TMOUT, cb).
(** The size received, or the error, with the message. *)
Definition tk_rcv_mbf (cb : mbfcb) : Z * list Z * mbfcb :=
  if negb (knl_mbf_empty cb) then
    let '(msg, cb) := knl_mbf_to_msg cb in (Z.of_nat (length msg), msg, cb)
  else (E_TMOUT, [], cb).

(** ** Arrays and sizes *)
Lemma length_copy_in src : forall b p, length (copy_in b p src) = length b.
Proof. induction src; intros; cbn; [done |]. by rewrite IHsrc, length_setZ. Qed.
Lemma nthZ_cons {A} (d x : A) l i : nthZ d (x :: l) i = if i =? 0 then x else nthZ d l (i - 1).
Proof.
  unfold nthZ. destruct (Z.ltb_spec i 0), (Z.eqb_spec i 0), (Z.ltb_spec (i - 1) 0); try lia; try done.
  - by subst.
  - replace (Z.to_nat i) with (S (Z.to_nat (i - 1))) by lia. done.
Qed.
Lemma nthZ_copy_in src : forall b p i, 0 <= i -> 0 <= p -> p + Z.of_nat (length src) <= Z.of_nat (length b) ->
  nthZ 0 (copy_in b p src) i = if (p <=? i) && (i <? p + Z.of_nat (length src)) then nthZ 0 src (i - p) else nthZ 0 b i.
Proof.
  induction src as [| x src IH]; intros b p i Hi Hp Hl; cbn [copy_in length] in *.
  - destruct (Z.leb_spec p i), (Z.ltb_spec i (p + Z.of_nat 0)); try done. lia.
  - rewrite IH, nthZ_setZ, nthZ_cons by (rewrite ?length_setZ; lia).
    replace (i - (p + 1)) with (i - p - 1) by lia.
    destruct (Z.leb_spec (p + 1) i), (Z.ltb_spec i (p + 1 + Z.of_nat (length src))), (Z.leb_spec p i),
      (Z.ltb_spec i (p + Z.of_nat (S (length src)))), (Z.eqb_spec (i - p) 0), (Z.eqb_spec p i); try lia; done.
Qed.
Lemma copy_out_map n : forall b p, copy_out b p n = map (fun i => nthZ 0 b (p + i)) (range n).
Proof.
  induction n as [| n IH]; intros b p; cbn; [done |]. rewrite Z.add_0_r, IH. f_equal. unfold range.
  rewrite <- seq_shift, !map_map. apply map_ext. intros k. f_equal. lia.
Qed.

(** Size of a message in the ring. *)
Definition rounded (n : Z) : Z := 4 * ((n + 3) / 4).
Lemma rounded_bounds n : n <= rounded n < n + 4.
Proof. unfold rounded. pose proof (Z.div_mod (n + 3) 4). pose proof (Z.mod_pos_bound (n + 3) 4). lia. Qed.
Lemma ROUNDSZ_rounded n : 0 <= n < 2 ^ 31 -> ROUNDSZ n = rounded n.
Proof.
  intros Hn. unfold ROUNDSZ, ROUNDSIZE, rounded. change (4 - 1) with 3. change (2 ^ 31) with 2147483648 in Hn.
  assert (Hu : forall z, 0 <= z < 4294967296 -> u32 z = z).
  { intros z Hz. apply wrap_id. unfold in_u. change (2 ^ 32) with 4294967296. lia. }
  rewrite (Hu n), (Hu (n + 3)) by lia.
  change (u32 (Z.lnot 3)) with (Z.shiftl (Z.ones 30) 2).
  set (x := n + 3). assert (0 <= x < 4294967296) as Hx by (unfold x; lia).
  rewrite Z.mul_comm. change 4 with (2 ^ 2). rewrite <- Z.shiftr_div_pow2, <- Z.shiftl_mul_pow2 by lia.
  apply Z.bits_inj'. intros i Hi. rewrite Z.land_spec, !Z.shiftl_spec by lia.
  destruct (Z.lt_ge_cases i 2).
  - rewrite (Z.testbit_neg_r (Z.ones 30)), (Z.testbit_neg_r (Z.shiftr x 2)) by lia. by rewrite andb_false_r.
  - rewrite Z.shiftr_spec, Z.testbit_ones_nonneg by lia. replace (i - 2 + 2) with i by lia.
    destruct (Z.ltb_spec (i - 2) 30); [by rewrite andb_true_r |]. rewrite andb_false_r.
    symmetry. rewrite <- (Z.mod_small x (2 ^ 32)) by (change (2 ^ 32) with 4294967296; lia).
    apply Z.mod_pow2_bits_high. lia.
Qed.
Lemma header_roundtrip sz : 0 <= sz < 2 ^ 31 -> header_of (header_bytes sz) = sz.
Proof.
  intros H. unfold header_bytes, header_of. cbn -[Z.shiftr Z.mul].
  unfold u8, wrap. rewrite !Z.shiftr_div_pow2 by lia. change (2 ^ (8 * 0)) with 1. change (2 ^ (8 * 1)) with 256.
  change (2 ^ (8 * 2)) with 65536. change (2 ^ (8 * 3)) with 16777216. change (2 ^ 8) with 256. change (2 ^ 31) with 2147483648 in H.
  match goal with |- i32 ?e = _ => assert (e = sz) as -> end.
  - rewrite Z.div_1_r. Z.to_euclidean_division_equations. lia.
  - apply swrap_id; [lia |]. change (2 ^ (32 - 1)) with 2147483648. lia.
Qed.

(** ** The ring *)
Lemma nthZ_drop {A} (d : A) (l : list A) n i : 0 <= i -> nthZ d (drop n l) i = nthZ d l (Z.of_nat n + i).
Proof.
  intros Hi. unfold nthZ. destruct (Z.ltb_spec i 0), (Z.ltb_spec (Z.of_nat n + i) 0); try lia.
  rewrite !nth_lookup, lookup_drop. do 2 f_equal. lia.
Qed.
Lemma mod_wrap a N : 0 <= a < 2 * N -> a mod N = if a <? N then a else a - N.
Proof.
  intros H. destruct (Z.ltb_spec a N); [apply Z.mod_small; lia |].
  replace a with (a - N + 1 * N) at 1 by lia. rewrite Z_mod_plus_full. apply Z.mod_small. lia.
Qed.
Lemma mod_wrap_neg a N : 0 < N -> - N <= a < N -> a mod N = if a <? 0 then a + N else a.
Proof.
  intros HN H. destruct (Z.ltb_spec a 0); [| apply Z.mod_small; lia].
  replace a with (a + N + (-1) * N) at 1 by lia. rewrite Z_mod_plus_full. apply Z.mod_small. lia.
Qed.

(** A copy that wraps writes the message at consecutive ring positions. *)
Lemma ring_copy_in b N t msg i : Z.of_nat (length b) = N -> 0 <= t < N -> Z.of_nat (length msg) <= N -> 0 <= i < N ->
  let rem := N - t in
  nthZ 0 (if rem <? Z.of_nat (length msg)
          then copy_in (copy_in b t (take (Z.to_nat rem) msg)) 0 (drop (Z.to_nat rem) msg) else copy_in b t msg) i =
  (if (i - t) mod N <? Z.of_nat (length msg) then nthZ 0 msg ((i - t) mod N) else nthZ 0 b i).
Proof.
  intros Hb Ht Hm Hi. cbv zeta. rewrite mod_wrap_neg by lia. destruct (Z.ltb_spec (N - t) (Z.of_nat (length msg))).
  - rewrite !nthZ_copy_in; rewrite ?length_copy_in, ?length_take, ?length_drop; try lia.
    destruct (Z.ltb_spec (i - t) 0).
    + rewrite nthZ_drop by lia. replace (Z.of_nat (Z.to_nat (N - t)) + (i - 0)) with (i - t + N) by lia.
      destruct (Z.leb_spec 0 i), (Z.ltb_spec i (0 + Z.of_nat (length msg - Z.to_nat (N - t)))),
        (Z.leb_spec t i), (Z.ltb_spec (i - t + N) (Z.of_nat (length msg))); try lia; done.
    + rewrite nthZ_take by lia.
      destruct (Z.leb_spec 0 i), (Z.ltb_spec i (0 + Z.of_nat (length msg - Z.to_nat (N - t)))),
        (Z.leb_spec t i), (Z.ltb_spec i (t + Z.of_nat (Z.to_nat (N - t) `min` length msg))),
        (Z.ltb_spec (i - t) (Z.of_nat (length msg))); try lia; cbn [andb]; try done.
      all: rewrite ?nthZ_drop by lia; f_equal; lia.
  - rewrite nthZ_copy_in by lia. destruct (Z.ltb_spec (i - t) 0).
    + destruct (Z.leb_spec t i), (Z.ltb_spec (i - t + N) (Z.of_nat (length msg))); try lia; done.
    + destruct (Z.leb_spec t i), (Z.ltb_spec i (t + Z.of_nat (length msg))), (Z.ltb_spec (i - t) (Z.of_nat (length msg)));
        try lia; done.
Qed.
Lemma copy_out_length b p n : length (copy_out b p n) = n.
Proof. by rewrite copy_out_map, length_map, length_range. Qed.
Lemma ring_copy_out b N h n : 0 <= h < N -> 0 <= n <= N ->
  let rem := N - h in
  (if rem <? n then copy_out b h (Z.to_nat rem) ++ copy_out b 0 (Z.to_nat (n - rem)) else copy_out b h (Z.to_nat n)) =
  map (fun i => nthZ 0 b ((h + i) mod N)) (range (Z.to_nat n)).
Proof.
  intros Hh Hn. cbv zeta. destruct (Z.ltb_spec (N - h) n).
  - replace (Z.to_nat n) with (Z.to_nat (N - h) + Z.to_nat (n - (N - h)))%nat by lia.
    unfold range at 1. rewrite seq_app, !map_app, !copy_out_map. f_equal.
    + apply map_ext_in. intros i Hi. apply elem_range in Hi. f_equal. rewrite mod_wrap by lia.
      destruct (Z.ltb_spec (h + i) N); lia.
    + unfold range. cbn [Nat.add].
      pose proof (fmap_add_seq (Z.to_nat (N - h)) 0 (Z.to_nat (n - (N - h)))) as E. rewrite Nat.add_0_r in E.
      rewrite <- E. change (Nat.add (Z.to_nat (N - h)) <$> seq 0 (Z.to_nat (n - (N - h)))) with
        (map (Nat.add (Z.to_nat (N - h))) (seq 0 (Z.to_nat (n - (N - h))))). rewrite !map_map.
      apply map_ext_in. intros k Hk. apply in_seq in Hk. f_equal.
      rewrite mod_wrap by lia. destruct (Z.ltb_spec (h + Z.of_nat (Z.to_nat (N - h) + k)) N); lia.
  - rewrite copy_out_map. apply map_ext_in. intros i Hi. apply elem_range in Hi. f_equal. rewrite Z.mod_small by lia. done.
Qed.

(** ** The buffer as a queue of messages *)
Notation size m := (Z.of_nat (length m)).
Fixpoint used (q : list (list Z)) : Z := match q with [] => 0 | m :: q => HEADERSZ + rounded (size m) + used q end.
(** Ring position [k] bytes after the head. *)
Definition cell (b : list Z) (N h k : Z) : Z := nthZ 0 b ((h + k) mod N).
Definition stored_at (c : Z -> Z) (o : Z) (m : list Z) : Prop :=
  header_of (map (fun i => c (o + i)) (range 4)) = size m /\
  (forall i, 0 <= i < size m -> c (o + HEADERSZ + i) = nthZ 0 m i).
Fixpoint stored (c : Z -> Z) (o : Z) (q : list (list Z)) : Prop :=
  match q with [] => True | m :: q => stored_at c o m /\ stored c (o + HEADERSZ + rounded (size m)) q end.
(** The control block holds exactly the messages [q], oldest first. *)
Record holds (cb : mbfcb) (q : list (list Z)) : Prop := {
  h_size : size (buffer cb) = bufsz cb /\ 0 < bufsz cb < 2 ^ 31 /\ bufsz cb mod 4 = 0;
  h_head : 0 <= head cb < bufsz cb /\ head cb mod 4 = 0;
  h_tail : tail cb = (head cb + used q) mod bufsz cb;
  h_free : frbufsz cb = bufsz cb - used q /\ used q <= bufsz cb;
  h_stored : stored (cell (buffer cb) (bufsz cb) (head cb)) 0 q
}.

Lemma used_nonneg q : 0 <= used q /\ used q mod 4 = 0.
Proof.
  induction q as [| m q [IH1 IH2]]; cbn [used]; [done |]. unfold HEADERSZ, rounded. split.
  - pose proof (rounded_bounds (size m)) as H. unfold rounded in H. lia.
  - Z.to_euclidean_division_equations. lia.
Qed.
Lemma used_app q q' : used (q ++ q') = used q + used q'.
Proof. induction q; cbn [app used]; lia. Qed.
Lemma stored_ext c c' q : forall o, (forall k, o <= k < o + used q -> c k = c' k) -> stored c o q -> stored c' o q.
Proof.
  induction q as [| m q IH]; intros o H; cbn [stored used] in *; [done |]. intros [[S1 S2] S3].
  pose proof (rounded_bounds (size m)). pose proof (used_nonneg q) as [? _]. unfold stored_at, HEADERSZ in *. splits.
  - rewrite <- S1. f_equal. apply map_ext_in. intros i Hi. apply elem_range in Hi. symmetry. apply H. lia.
  - intros i Hi. rewrite <- S2 by done. symmetry. apply H. lia.
  - apply IH; [| done]. intros k Hk. apply H. lia.
Qed.
Lemma stored_app c q m : forall o, stored c o q -> stored_at c (o + used q) m -> stored c o (q ++ [m]).
Proof.
  induction q as [| m' q IH]; intros o; cbn [stored used app].
  - rewrite Z.add_0_r. done.
  - intros [S1 S2] S3. split; [done |]. apply IH; [done |].
    replace (o + HEADERSZ + rounded (size m') + used q) with (o + (HEADERSZ + rounded (size m') + used q)) by lia. done.
Qed.
Lemma stored_shift c c' q : forall o d, (forall k, c' k = c (k + d)) -> stored c (o + d) q -> stored c' o q.
Proof.
  induction q as [| m q IH]; intros o d H; cbn [stored]; [done |]. intros [[S1 S2] S3]. unfold stored_at. splits.
  - rewrite <- S1. f_equal. apply map_ext. intros i. rewrite H. f_equal. lia.
  - intros i Hi. rewrite H, <- S2 by done. f_equal. lia.
  - apply (IH _ d); [done |]. replace (o + HEADERSZ + rounded (size m) + d) with (o + d + HEADERSZ + rounded (size m)) by lia. done.
Qed.

Lemma ring_end_mod cb x : 0 < bufsz cb -> 0 <= x <= bufsz cb -> ring_end cb x = x mod bufsz cb.
Proof.
  intros HN Hx. unfold ring_end. rewrite mod_wrap by lia.
  destruct (Z.leb_spec (bufsz cb) x), (Z.ltb_spec x (bufsz cb)); lia.
Qed.
(** Where the code's cursor stands after a message of [n] bytes from [t]. *)
Lemma cursor_mod cb t n : 0 < bufsz cb -> bufsz cb mod 4 = 0 -> 0 <= t < bufsz cb -> t mod 4 = 0 -> 0 <= n -> rounded n <= bufsz cb ->
  let rem := bufsz cb - t in
  ring_end cb (if rem <? n then 0 + rounded (n - rem) else t + rounded n) = (t + rounded n) mod bufsz cb.
Proof.
  intros HN H4 Ht Ht4 Hn Hr. cbv zeta. pose proof (rounded_bounds n). destruct (Z.ltb_spec (bufsz cb - t) n).
  - assert (rounded (n - (bufsz cb - t)) = rounded n - (bufsz cb - t)) as ->.
    { unfold rounded in *. Z.to_euclidean_division_equations. lia. }
    rewrite ring_end_mod by lia. rewrite !mod_wrap by lia.
    destruct (Z.ltb_spec (0 + (rounded n - (bufsz cb - t))) (bufsz cb)), (Z.ltb_spec (t + rounded n) (bufsz cb)); lia.
  - assert (t + rounded n <= bufsz cb).
    { unfold rounded in *. Z.to_euclidean_division_equations. lia. }
    apply ring_end_mod; lia.
Qed.

Definition ring_copy (b : list Z) (N t : Z) (src : list Z) : list Z :=
  let rem := N - t in
  if rem <? size src then copy_in (copy_in b t (take (Z.to_nat rem) src)) 0 (drop (Z.to_nat rem) src) else copy_in b t src.
Lemma length_ring_copy b N t src : length (ring_copy b N t src) = length b.
Proof. unfold ring_copy. case_if; by rewrite !length_copy_in. Qed.
Lemma cell_ring_copy b N h o src k : size b = N -> 0 < N -> 0 <= h -> 0 <= o -> o + size src <= N -> 0 <= k < N ->
  cell (ring_copy b N ((h + o) mod N) src) N h k =
  if (o <=? k) && (k <? o + size src) then nthZ 0 src (k - o) else cell b N h k.
Proof.
  intros Hb HN Hh Ho Hs Hk. unfold cell, ring_copy. rewrite ring_copy_in by (try apply Z.mod_pos_bound; lia).
  rewrite <- Zminus_mod. replace (h + k - (h + o)) with (k - o) by lia. rewrite mod_wrap_neg by lia.
  destruct (Z.ltb_spec (k - o) 0), (Z.leb_spec o k), (Z.ltb_spec k (o + size src)); cbn [andb]; try lia.
  - destruct (Z.ltb_spec (k - o + N) (size src)); [lia | done].
  - destruct (Z.ltb_spec (k - o) (size src)); [done | lia].
  - destruct (Z.ltb_spec (k - o) (size src)); [lia | done].
Qed.

Lemma mod4_step h u N : 0 < N -> N mod 4 = 0 -> h mod 4 = 0 -> u mod 4 = 0 -> ((h + u) mod N) mod 4 = 0.
Proof.
  intros HN H1 H2 H3. assert (exists n, N = 4 * n) as [n ->] by (exists (N / 4); Z.to_euclidean_division_equations; lia).
  assert (exists a, h + u = 4 * a) as [a ->] by (exists ((h + u) / 4); Z.to_euclidean_division_equations; lia).
  rewrite Z.mul_mod_distr_l by lia. rewrite Z.mul_comm. apply Z.mod_mul. lia.
Qed.
Lemma i32_small z : - 2 ^ 31 <= z < 2 ^ 31 -> i32 z = z.
Proof. intros. apply swrap_id; lia. Qed.

(** What storing a message does, for any message that fits. *)
Lemma msg_to_mbf_spec cb q m : holds cb q -> 0 < size m -> HEADERSZ + rounded (size m) <= frbufsz cb ->
  let cb' := knl_msg_to_mbf cb m in
  let N := bufsz cb in
  buffer cb' = ring_copy (ring_copy (buffer cb) N ((head cb + used q) mod N) (header_bytes (size m))) N
                 ((head cb + (used q + HEADERSZ)) mod N) m /\
  frbufsz cb' = frbufsz cb - (HEADERSZ + rounded (size m)) /\
  tail cb' = (head cb + (used q + HEADERSZ + rounded (size m))) mod N /\
  bufsz cb' = N /\ head cb' = head cb /\ maxmsz cb' = maxmsz cb.
Proof.
  intros [[S1 [S2 S3]] [Hh Hh4] Ht [Hf Hu] _] Hm Hr. cbv zeta. pose proof (rounded_bounds (size m)) as Hb.
  pose proof (used_nonneg q) as [U1 U2]. unfold HEADERSZ in *. set (N := bufsz cb) in *.
  assert (T4 : tail cb mod 4 = 0) by (rewrite Ht; by apply mod4_step; try lia).
  assert (Ht' : 0 <= tail cb < N) by (rewrite Ht; apply Z.mod_pos_bound; lia).
  set (t1 := (head cb + (used q + 4)) mod N).
  assert (T1 : ring_end cb (tail cb + 4) = t1).
  { rewrite ring_end_mod by (fold N; Z.to_euclidean_division_equations; lia). fold N. unfold t1. rewrite Ht.
    rewrite Zplus_mod_idemp_l. f_equal. lia. }
  assert (T1' : 0 <= t1 < N) by (apply Z.mod_pos_bound; lia).
  assert (T14 : t1 mod 4 = 0).
  { apply mod4_step; try done; try lia. Z.to_euclidean_division_equations. lia. }
  assert (E1 : ring_copy (buffer cb) N ((head cb + used q) mod N) (header_bytes (size m)) = copy_in (buffer cb) (tail cb) (header_bytes (size m))).
  { rewrite <- Ht. unfold ring_copy. change (size (header_bytes (size m))) with 4.
    destruct (Z.ltb_spec (N - tail cb) 4); [| done]. Z.to_euclidean_division_equations. lia. }
  assert (EC := cursor_mod cb t1 (size m) ltac:(lia) S3 ltac:(lia) T14 ltac:(lia) ltac:(lia)). cbv zeta in EC.
  fold N in EC. unfold t1 in EC at 4. rewrite Zplus_mod_idemp_l in EC.
  replace (head cb + (used q + 4) + rounded (size m)) with (head cb + (used q + 4 + rounded (size m))) in EC by lia.
  rewrite E1. unfold ring_copy, knl_msg_to_mbf. cbv zeta. unfold HEADERSZ. rewrite T1. fold N.
  change (2 ^ 31) with 2147483648 in *.
  rewrite (ROUNDSZ_rounded (size m)) by (change (2 ^ 31) with 2147483648; lia).
  rewrite !(i32_small (_ + _)) by (change (2 ^ 31) with 2147483648; lia).
  rewrite i32_small by (change (2 ^ 31) with 2147483648; lia).
  rewrite <- EC. destruct (Z.ltb_spec (N - t1) (size m)) as [Hw | Hw]; cbn -[ring_end rounded ROUNDSZ]; splits; try done.
  - f_equal. rewrite length_drop. f_equal. rewrite ROUNDSZ_rounded by (change (2 ^ 31) with 2147483648; lia). f_equal. lia.
  - f_equal. f_equal. rewrite ROUNDSZ_rounded by (change (2 ^ 31) with 2147483648; lia). done.
Qed.

Lemma msg_to_mbf_holds cb q m : holds cb q -> 0 < size m -> HEADERSZ + rounded (size m) <= frbufsz cb ->
  holds (knl_msg_to_mbf cb m) (q ++ [m]).
Proof.
  intros H Hm Hr. destruct (msg_to_mbf_spec cb q m H Hm Hr) as (B & F & T & N' & H' & _).
  destruct H as [(S1 & S2 & S3) (Hh & Hh4) Ht (Hf & Hu) Hs]. pose proof (rounded_bounds (size m)) as Hb.
  pose proof (used_nonneg q) as [U1 U2]. assert (Ua : used (q ++ [m]) = used q + HEADERSZ + rounded (size m))
    by (rewrite used_app; cbn [used]; lia). unfold HEADERSZ in *.
  constructor; rewrite ?N', ?H', ?Ua.
  - by rewrite B, !length_ring_copy.
  - done.
  - done.
  - lia.
  - rewrite B. set (N := bufsz cb) in *. set (h := head cb) in *. set (b1 := ring_copy (buffer cb) N _ _).
    assert (Lb : size b1 = N) by (unfold b1; by rewrite length_ring_copy).
    assert (C : forall k, 0 <= k < N -> cell (ring_copy b1 N ((h + (used q + 4)) mod N) m) N h k =
      if (used q + 4 <=? k) && (k <? used q + 4 + size m) then nthZ 0 m (k - (used q + 4))
      else if (used q <=? k) && (k <? used q + 4) then nthZ 0 (header_bytes (size m)) (k - used q)
      else cell (buffer cb) N h k).
    { intros k Hk. rewrite (cell_ring_copy b1) by lia. unfold b1. rewrite cell_ring_copy by (cbn [length header_bytes range seq map]; lia). done. }
    apply stored_app.
    + eapply stored_ext; [| exact Hs]. intros k Hk. rewrite C by lia.
      destruct (Z.leb_spec (used q + 4) k), (Z.leb_spec (used q) k); try lia; done.
    + rewrite Z.add_0_l. split.
      * transitivity (header_of (header_bytes (size m))); [| apply header_roundtrip; change (2 ^ 31) with 2147483648 in *; lia].
        f_equal. transitivity (map (fun i => nthZ 0 (header_bytes (size m)) i) (range 4)); [| done].
        apply map_ext_in. intros i Hi. apply elem_range in Hi. rewrite C by lia.
        destruct (Z.leb_spec (used q + 4) (used q + i)), (Z.leb_spec (used q) (used q + i)), (Z.ltb_spec (used q + i) (used q + 4));
          try lia. cbn [andb]. f_equal. lia.
      * intros i Hi. unfold HEADERSZ. rewrite C by lia.
        destruct (Z.leb_spec (used q + 4) (used q + 4 + i)), (Z.ltb_spec (used q + 4 + i) (used q + 4 + size m)); try lia.
        cbn [andb]. f_equal. lia.
Qed.

Lemma mbf_to_msg_spec cb q m : holds cb (m :: q) -> 0 < size m ->
  let '(msg, cb') := knl_mbf_to_msg cb in msg = m /\ holds cb' q /\ maxmsz cb' = maxmsz cb /\ bufsz cb' = bufsz cb.
Proof.
  intros [(S1 & S2 & S3) (Hh & Hh4) Ht (Hf & Hu) [[Hd Hc] Hs]] Hm. pose proof (rounded_bounds (size m)) as Hb.
  pose proof (used_nonneg q) as [U1 U2]. cbn [used] in *. unfold HEADERSZ in *. change (2 ^ 31) with 2147483648 in *.
  set (N := bufsz cb) in *. set (h := head cb) in *. unfold knl_mbf_to_msg. fold N h.
  assert (E0 : header_of (copy_out (buffer cb) h 4) = size m).
  { rewrite <- Hd. f_equal. rewrite copy_out_map. apply map_ext_in. intros i Hi. apply elem_range in Hi. unfold cell.
    f_equal. rewrite Z.mod_small; [lia |]. Z.to_euclidean_division_equations. lia. }
  rewrite E0. cbv zeta. unfold HEADERSZ.
  set (h1 := (h + 4) mod N). assert (H1 : ring_end cb (h + 4) = h1).
  { apply ring_end_mod; fold N; Z.to_euclidean_division_equations; lia. }
  rewrite H1. assert (H1' : 0 <= h1 < N) by (apply Z.mod_pos_bound; lia).
  assert (H14 : h1 mod 4 = 0) by (apply mod4_step; done || lia).
  pose proof (cursor_mod cb h1 (size m) ltac:(fold N; lia) S3 ltac:(fold N; lia) H14 ltac:(lia) ltac:(fold N; lia)) as EC.
  cbv zeta in EC. fold N in EC. unfold h1 in EC at 4. rewrite Zplus_mod_idemp_l in EC.
  pose proof (ring_copy_out (buffer cb) N h1 (size m) H1' ltac:(lia)) as EO. cbv zeta in EO.
  assert (EM : map (fun i => nthZ 0 (buffer cb) ((h1 + i) mod N)) (range (Z.to_nat (size m))) = m).
  { apply nth_ext with (d := 0) (d' := 0); rewrite length_map, length_range; [lia |]. intros i Hi.
    transitivity (nthZ 0 (buffer cb) ((h1 + Z.of_nat i) mod N)).
    { rewrite nth_indep with (d' := (fun i => nthZ 0 (buffer cb) ((h1 + i) mod N)) 0) by (rewrite length_map, length_range; lia).
      rewrite (map_nth (fun i => nthZ 0 (buffer cb) ((h1 + i) mod N))). do 3 f_equal. unfold range.
      change 0 with (Z.of_nat 0) at 1. rewrite map_nth, seq_nth by lia. done. }
    specialize (Hc (Z.of_nat i) ltac:(lia)). unfold cell in Hc. unfold h1. rewrite Zplus_mod_idemp_l.
    replace (h + 4 + Z.of_nat i) with (h + (0 + 4 + Z.of_nat i)) by lia. rewrite Hc. unfold nthZ.
    destruct (Z.ltb_spec (Z.of_nat i) 0); [lia |]. by rewrite Nat2Z.id. }
  rewrite EM in EO.
  assert (HH : forall msg h', msg = m -> h' = (h + 4 + rounded (size m)) mod N ->
    msg = m /\ holds (cb <| frbufsz := i32 (frbufsz cb + i32 (4 + ROUNDSZ (size m))) |> <| head := h' |>) q /\
    maxmsz cb = maxmsz cb /\ N = N).
  { intros msg h' -> ->. splits; try done.
    rewrite (ROUNDSZ_rounded (size m)), !i32_small by (rewrite ?i32_small by (change (2 ^ 31) with 2147483648; lia); change (2 ^ 31) with 2147483648; lia).
    constructor; cbn -[rounded Z.modulo Z.add]; fold N h; change (2 ^ 31) with 2147483648.
    - done.
    - split; [apply Z.mod_pos_bound; lia |]. replace (h + 4 + rounded (size m)) with (h + (4 + rounded (size m))) by lia.
      apply mod4_step; try done; try lia. unfold rounded. Z.to_euclidean_division_equations. lia.
    - rewrite Ht, Zplus_mod_idemp_l. f_equal. lia.
    - lia.
    - eapply (stored_shift (cell (buffer cb) N h) _ q 0 (4 + rounded (size m))); [| by rewrite !Z.add_0_l in *].
      intros k. unfold cell. rewrite Zplus_mod_idemp_l. do 2 f_equal. lia. }
  destruct (Z.ltb_spec (N - h1) (size m)); cbn [app]; apply HH; try done.
  - rewrite <- EC. f_equal. rewrite Z.add_0_l. apply ROUNDSZ_rounded. change (2 ^ 31) with 2147483648. lia.
  - rewrite <- EC. f_equal. f_equal. apply ROUNDSZ_rounded. change (2 ^ 31) with 2147483648. lia.
Qed.

(** ** The queue it implements *)
Record mbf_ok (cb : mbfcb) (q : list (list Z)) : Prop := {
  mo_holds : holds cb q;
  mo_sizes : Forall (fun m => 0 < size m <= maxmsz cb) q
}.
Lemma mbf_new bufsz maxmsz : 0 < bufsz -> rounded bufsz < 2 ^ 31 -> mbf_ok (tk_cre_mbf bufsz maxmsz) [].
Proof.
  intros H1 H2. pose proof (rounded_bounds bufsz). assert (E : ROUNDSZ bufsz = rounded bufsz) by (apply ROUNDSZ_rounded; lia).
  unfold tk_cre_mbf. rewrite E. assert (rounded bufsz mod 4 = 0) by (unfold rounded; Z.to_euclidean_division_equations; lia).
  constructor; [| constructor]. constructor; cbn [buffer MessageBuffer.bufsz frbufsz head tail used stored]; rewrite ?repeat_length; splits; try done; lia.
Qed.
Lemma free_fits cb q n : holds cb q -> 0 < n < 2 ^ 31 -> knl_mbf_free cb n = (used q + HEADERSZ + rounded n <=? bufsz cb).
Proof.
  intros [(S1 & S2 & S3) _ _ (Hf & Hu) _] Hn. pose proof (used_nonneg q) as [U1 U2]. pose proof (rounded_bounds n).
  unfold knl_mbf_free, HEADERSZ, u32. change (2 ^ 31) with 2147483648 in *.
  rewrite !wrap_id by (unfold in_u; change (2 ^ 32) with 4294967296; lia).
  assert (rounded n mod 4 = 0) by (unfold rounded; Z.to_euclidean_division_equations; lia).
  destruct (Z.leb_spec (4 + n) (frbufsz cb)), (Z.leb_spec (used q + 4 + rounded n) (bufsz cb)); try done;
    unfold rounded in *; Z.to_euclidean_division_equations; lia.
Qed.
(** [E_OK] exactly when the rounded message fits beside what waits; otherwise nothing changes. *)
Lemma snd_spec cb q m : mbf_ok cb q -> 0 < size m <= maxmsz cb -> size m < 2 ^ 31 ->
  let '(er, cb') := tk_snd_mbf cb m in
  (bufsz cb' = bufsz cb /\ maxmsz cb' = maxmsz cb) /\
  if used q + HEADERSZ + rounded (size m) <=? bufsz cb then er = E_OK /\ mbf_ok cb' (q ++ [m]) else er = E_TMOUT /\ cb' = cb.
Proof.
  intros [H1 H2] Hm Hn. unfold tk_snd_mbf. cbv zeta.
  destruct (Z.ltb_spec 0 (size m)); [| lia]. destruct (Z.ltb_spec (maxmsz cb) (size m)); [lia |]. cbn [negb orb].
  rewrite (free_fits cb q) by (done || lia).
  destruct (Z.leb_spec (used q + HEADERSZ + rounded (size m)) (bufsz cb)) as [Hl |]; [| done].
  destruct H1 as [S Hh Ht [Hf Hu] Hs]. assert (H1 : holds cb q) by (by constructor).
  assert (HEADERSZ + rounded (size m) <= frbufsz cb) as Hr by lia.
  destruct (msg_to_mbf_spec cb q m H1 (proj1 Hm) Hr) as (_ & _ & _ & B & _ & M).
  split; [by rewrite B, M |]. split; [done |]. constructor; [by apply msg_to_mbf_holds |].
  rewrite M. apply Forall_app. split; [done |]. by constructor.
Qed.
Lemma rcv_empty cb : mbf_ok cb [] -> tk_rcv_mbf cb = (E_TMOUT, [], cb).
Proof.
  intros [[_ _ _ [Hf _] _] _]. unfold tk_rcv_mbf, knl_mbf_empty. cbn [used] in Hf. rewrite Hf, Z.sub_0_r, Z.eqb_refl. done.
Qed.
Lemma rcv_spec cb m q : mbf_ok cb (m :: q) ->
  let '(r, msg, cb') := tk_rcv_mbf cb in
  r = size m /\ msg = m /\ mbf_ok cb' q /\ bufsz cb' = bufsz cb /\ maxmsz cb' = maxmsz cb.
Proof.
  intros [H1 H2]. inversion H2; subst. pose proof (mbf_to_msg_spec cb q m H1 (proj1 H3)) as R.
  destruct H1 as [_ _ _ [Hf _] _]. unfold tk_rcv_mbf, knl_mbf_empty. cbn [used] in Hf.
  pose proof (rounded_bounds (size m)). pose proof (used_nonneg q). unfold HEADERSZ in *.
  destruct (Z.eqb_spec (frbufsz cb) (bufsz cb)); [lia |]. cbn [negb]. destruct (knl_mbf_to_msg cb) as [msg cb'].
  destruct R as (-> & R1 & R2 & R3). splits; try done. constructor; [done |]. by rewrite R2.
Qed.

(** The calls, on the control block and on the abstract queue of [cap] bytes. *)
Inductive mbf_call := MbfSend (m : list Z) | MbfReceive.
Definition mbf_step (cb : mbfcb) (c : mbf_call) : Z * list Z * mbfcb :=
  match c with MbfSend m => let '(er, cb) := tk_snd_mbf cb m in (er, [], cb) | MbfReceive => tk_rcv_mbf cb end.
Definition queue_step (cap max : Z) (q : list (list Z)) (c : mbf_call) : Z * list Z * list (list Z) :=
  match c with
  | MbfSend m =>
      if negb (0 <? size m) || (max <? size m) then (E_PAR, [], q)
      else if used q + HEADERSZ + rounded (size m) <=? cap then (E_OK, [], q ++ [m]) else (E_TMOUT, [], q)
  | MbfReceive => match q with m :: q => (size m, m, q) | [] => (E_TMOUT, [], []) end
  end.
Fixpoint runs {S} (step : S -> mbf_call -> Z * list Z * S) (s : S) (cs : list mbf_call) : list (Z * list Z) :=
  match cs with [] => [] | c :: cs => let '(r, m, s) := step s c in (r, m) :: runs step s cs end.

Lemma runs_refine cs : forall cb q cap max, mbf_ok cb q -> bufsz cb = cap -> maxmsz cb = max -> max < 2 ^ 31 ->
  runs mbf_step cb cs = runs (queue_step cap max) q cs.
Proof.
  induction cs as [| c cs IH]; intros cb q cap max H HB HM Hn; cbn [runs]; [done |].
  destruct c as [m |]; cbn [mbf_step queue_step].
  - destruct (negb (0 <? size m) || (max <? size m)) eqn:E.
    + unfold tk_snd_mbf. cbv zeta. rewrite HM, E. f_equal. by apply IH.
    + pose proof (snd_spec cb q m H ltac:(unbool; lia) ltac:(unbool; lia)) as R. destruct (tk_snd_mbf cb m) as [er cb'].
      destruct R as [[B M] R]. rewrite HB in R. destruct (_ <=? _); destruct R as [-> R]; f_equal; [apply IH; congruence |].
      subst cb'. by apply IH.
  - destruct q as [| m q].
    + rewrite rcv_empty by done. f_equal. by apply IH.
    + pose proof (rcv_spec cb m q H) as R. destruct (tk_rcv_mbf cb) as [[r msg] cb'].
      destruct R as (-> & -> & R & B & M). f_equal. apply IH; congruence.
Qed.

(** C26: the kernel's message buffer is a queue.  A buffer of any size, driven by any
    sequence of polled sends and receives, answers exactly as a first-in first-out
    queue of whole messages that holds [bufsz] bytes at a header of four bytes and a
    message rounded up to four each: a send is refused only when its message does not
    fit beside what waits, messages and ring wrap without mixing, and a refused
    call changes nothing. *)
Theorem message_buffer_is_queue bufsz maxmsz calls : 0 < bufsz -> rounded bufsz < 2 ^ 31 -> maxmsz < 2 ^ 31 ->
  runs mbf_step (tk_cre_mbf bufsz maxmsz) calls = runs (queue_step (rounded bufsz) maxmsz) [] calls.
Proof.
  intros H1 H2 H3. pose proof (rounded_bounds bufsz). apply runs_refine; try done; [by apply mbf_new |].
  apply ROUNDSZ_rounded. lia.
Qed.
(** A ring of 12 bytes: the second message wraps, the third does not fit. *)
Definition ring_calls : list mbf_call :=
  [MbfSend [1; 2; 3]; MbfReceive; MbfSend [4; 5; 6; 7; 8]; MbfSend [9]; MbfReceive; MbfReceive].
Lemma message_buffer_is_queue_witness :
  runs (queue_step (rounded 12) 8) [] ring_calls =
    [(0, []); (3, [1; 2; 3]); (0, []); (-50, []); (5, [4; 5; 6; 7; 8]); (-50, [])] /\
  runs mbf_step (tk_cre_mbf 12 8) ring_calls = runs (queue_step (rounded 12) 8) [] ring_calls.
Proof. split; [vm_compute; reflexivity |]. apply (message_buffer_is_queue 12 8 ring_calls); vm_compute; reflexivity. Defined.
