(* ===== verification/MotionService.v ===== *)
(** * Motion service

    Models [subsystem2/motion.c], the front end the other tasks call, with the
    parts of [wheel_encoder.c] and [motion_estimation.c] it reads: the requests, the
    report queue, the shared feedback, the lease of the navigation owner and the
    motion task's control period.  The calibration the same task runs is in
    [MotionCalibration].

    The file-static variables are the record [service_t]: [ctl] is the statechart
    with its motors, [report_mbf] the kernel's message buffer.  Each function that
    takes the Buddy 2 mutex is one step on that record, with the clock it reads as an
    argument; [report_receive], which takes a word from the buffer before it takes
    the mutex, is two steps, [report_take] and [report_ack].  The controller appends
    its reports to [reports]; [with_ctl] hands the new ones to [report_post], in order
    and within the call.  [taken] are the reports that a task has taken and not yet
    acknowledged; [received] is every word taken since the start, kept for the
    statements only. *)
From S2P Require Import Prelude CFloat BitCodec Motion MotionController MotionSafety MotionPack Drive MessageBuffer Debug.

(** ** Robot setup *)
Definition WHEEL_DIAMETER_M : float := flit 654 10000.
Definition TRACK_WIDTH_M : float := flit 116 1000.
Definition ENCODER_COUNTS_PER_REV : float := flit 2534 1.
Definition MOTOR_MAX_SPEED_MPS : float := flit 884 1000.
Definition M1_INVERTED : bool := false.
Definition M2_INVERTED : bool := false.
Definition ENC_L_INVERTED : bool := false.
Definition ENC_R_INVERTED : bool := false.
Definition STOP_LEAD_DRIVE_M : float := fzero.
Definition STOP_LEAD_TURN_M : float := fzero.
Definition DEFAULT_DRIVE_SPEED_MPS : float := flit 20 100.
Definition DEFAULT_TURN_SPEED_MPS : float := flit 15 100.
Definition MANOEUVRE_STRAIGHT_M : float := flit 5 100.

Definition PI_F : float := flit 314159265 100000000.
Definition DEG_PER_TURN : float := flit 360 1.
Definition US_PER_S : float := flit 1000000 1.
Definition S2_PERIOD_MS : Z := 10.
Definition PERIOD_US : Z := S2_PERIOD_MS * 1000.
Definition DT_MIN_S : float := flit 2 1000.
Definition DT_MAX_S : float := flit 50 1000.
Definition RAD_TO_DEG : float := flit 572957795 10000000.

Definition MOTION_REPORT_QUEUE_LEN : Z := 8.
Definition REPORT_MSG_SZ : Z := 2.
Definition REPORT_SLOT_SZ : Z := 4 + 4.
Definition REPORT_BUF_SZ : Z := MOTION_REPORT_QUEUE_LEN * REPORT_SLOT_SZ.
Definition REPORT_COUNT_BITS : Z := 4.

(** ** State *)
Record motion_calibration_t := {
  cal_valid : bool; counts_per_rev : float; cal_max_speed_mps : float; b_m1_inverted : bool; b_m2_inverted : bool;
  b_enc_l_inverted : bool; b_enc_r_inverted : bool; counts_per_rev_l : float; counts_per_rev_r : float;
  top_speed_l_mps : float; top_speed_r_mps : float; b_enc_l_ok : bool; b_enc_r_ok : bool; b_encoders_swapped : bool;
  b_aborted : bool
}.
#[export] Instance calibration_settable : Settable motion_calibration_t := fun r =>
  Build_motion_calibration_t (cal_valid r) (counts_per_rev r) (cal_max_speed_mps r) (b_m1_inverted r) (b_m2_inverted r)
    (b_enc_l_inverted r) (b_enc_r_inverted r) (counts_per_rev_l r) (counts_per_rev_r r) (top_speed_l_mps r)
    (top_speed_r_mps r) (b_enc_l_ok r) (b_enc_r_ok r) (b_encoders_swapped r) (b_aborted r).
Definition zero_calibration : motion_calibration_t :=
  Build_motion_calibration_t false fzero fzero false false false false fzero fzero fzero fzero false false false false.

Record motion_flags_t := {
  b_cal_request : bool; b_cal_running : bool; b_cal_done : bool; b_cal_abort : bool; b_report_lost : bool;
  report_queued : Z; report_peak : Z
}.
#[export] Instance flags_settable : Settable motion_flags_t := fun r =>
  Build_motion_flags_t (b_cal_request r) (b_cal_running r) (b_cal_done r) (b_cal_abort r) (b_report_lost r)
    (report_queued r) (report_peak r).

Record encoder_t := { enc_inverted : bool; enc_last : Z }.
#[export] Instance encoder_settable : Settable encoder_t := fun r => Build_encoder_t (enc_inverted r) (enc_last r).

#[export] Instance feedback_settable : Settable motion_feedback_t := fun r =>
  Build_motion_feedback_t (fb_centre_m r) (fb_timestamp_us r) (fb_epoch r) (fb_state r) (fb_fault r) (fb_valid r)
    (fb_braked r) (fb_command_id r) (fb_report_loss_count r).

Record service_t := {
  ctl : motion_t; g_flags : motion_flags_t; g_last_step_us : Z; g_cal_result : motion_calibration_t;
  report_mbf : mbfcb; taken : list motion_report_t; received : list Z;
  g_feedback : motion_feedback_t; g_feedback_ready : bool; g_feedback_count : Z * Z; g_report_loss_count : Z;
  g_navigation_lease : bool; g_navigation_refresh_us : Z;
  g_encoder : encoder_t * encoder_t; g_b_running : bool;
  g_wheel : wheel_estimate_t * wheel_estimate_t; g_m_per_count : float; g_track_width_m : float
}.
#[export] Instance service_settable : Settable service_t := fun r =>
  Build_service_t (ctl r) (g_flags r) (g_last_step_us r) (g_cal_result r) (report_mbf r) (taken r) (received r)
    (g_feedback r) (g_feedback_ready r) (g_feedback_count r) (g_report_loss_count r) (g_navigation_lease r)
    (g_navigation_refresh_us r) (g_encoder r) (g_b_running r) (g_wheel r) (g_m_per_count r) (g_track_width_m r).
Notation "s <|| f := v ||>" := (s <| g_flags := g_flags s <| f := v |> |>)
  (at level 12, left associativity, f at level 10, v at level 200).

(** ** Wheel encoders and estimates *)
Definition encoder_read (e : encoder_t) (fifo : list Z) : encoder_t :=
  e <| enc_last := fold_left (fun _ word => Z.land word WHEEL_COUNT_MASK) fifo (enc_last e) |>.
(** [fifo]: the words each state machine has pushed, in the order they are read *)
Definition wheel_encoder_sample (s : service_t) (fifo : list Z * list Z) : service_t :=
  if g_b_running s then
    s <| g_encoder := both (fun w e => encoder_read e (sel fifo w)) (g_encoder s) |>
  else s.
Definition encoder_bits (s : service_t) (w : wheel_id_t) : Z :=
  wheel_encoder_bits (g_b_running s) (enc_inverted (sel (g_encoder s) w)) (enc_last (sel (g_encoder s) w)).
Definition wheel_encoder_count (s : service_t) (w : wheel_id_t) : Z := count_from_bits (encoder_bits s w).
Definition wheel_encoder_set_inverted (s : service_t) (w : wheel_id_t) (b : bool) : service_t :=
  s <| g_encoder := upd (g_encoder s) w (sel (g_encoder s) w <| enc_inverted := b |>) |>.
(** [ok]: PIO0 has no state machine running yet; otherwise the encoders stay unavailable *)
Definition wheel_encoder_init (s : service_t) (left_inverted right_inverted ok : bool) : bool * service_t :=
  let s := wheel_encoder_set_inverted (wheel_encoder_set_inverted s WHEEL_LEFT left_inverted) WHEEL_RIGHT right_inverted in
  if ok then (true, s <| g_b_running := true |>) else (false, s).

Definition m_per_count (counts_per_rev : float) : float :=
  if counts_per_rev >. fzero then (PI_F * WHEEL_DIAMETER_M / counts_per_rev)%f32 else fzero.
Definition counts (s : service_t) : Z * Z := (encoder_bits s WHEEL_LEFT, encoder_bits s WHEEL_RIGHT).
Definition motion_estimation_init (s : service_t) (scale track_width_m : float) : service_t :=
  s <| g_m_per_count := scale |> <| g_track_width_m := track_width_m |>
    <| g_wheel := both (fun w _ => motion_estimation_start (encoder_bits s w)) (g_wheel s) |>.
Definition estimation_update (s : service_t) (dt_s : float) : service_t :=
  s <| g_wheel := motion_estimation_update (g_m_per_count s) dt_s (counts s) (g_wheel s) |>.
Definition wheel_speed (s : service_t) (w : wheel_id_t) : float := est_speed_mps (sel (g_wheel s) w).
Definition wheel_distance (s : service_t) (w : wheel_id_t) : float :=
  (float_of_Z (wheel_encoder_count s w) * g_m_per_count s)%f32.
Definition robot_speed_mps (s : service_t) : float := (flit 5 10 * (wheel_speed s WHEEL_LEFT + wheel_speed s WHEEL_RIGHT))%f32.
Definition robot_distance_m (s : service_t) : float :=
  (flit 5 10 * (wheel_distance s WHEEL_LEFT + wheel_distance s WHEEL_RIGHT))%f32.
Definition robot_heading_deg (s : service_t) : float :=
  if g_track_width_m s <=. fzero then fzero
  else ((wheel_distance s WHEEL_RIGHT - wheel_distance s WHEEL_LEFT) / g_track_width_m s * RAD_TO_DEG)%f32.
(** What the controller reads of the two modules. *)
Definition sense (s : service_t) : sense_t :=
  {| enc_bits := counts s; enc_glitches := (0, 0); est_speed := both (fun _ => est_speed_mps) (g_wheel s);
     est_accel := both (fun _ => est_accel_mps2) (g_wheel s); scale := g_m_per_count s |}.

(** ** Report queue *)
Definition word_bytes (w : Z) : list Z := [Z.land w 255; Z.shiftr w 8].
Definition bytes_word (b : list Z) : Z := nthZ 0 b 0 + 256 * nthZ 0 b 1.
Definition report_post (s : service_t) (report : motion_report_t) : service_t :=
  let r := {| command_id := command_id report; outcome := outcome report; report_fault := report_fault report;
              b_lost := b_report_lost (g_flags s) |} in
  let '(er, mbf) := tk_snd_mbf (report_mbf s) (word_bytes (motion_pack_report r)) in
  let s := s <| report_mbf := mbf |> in
  if er =? E_OK then
    let s := s <|| b_report_lost := false ||> in
    let s := if report_queued (g_flags s) <? MOTION_REPORT_QUEUE_LEN
             then s <|| report_queued := wrap REPORT_COUNT_BITS (report_queued (g_flags s) + 1) ||> else s in
    if report_peak (g_flags s) <? report_queued (g_flags s) then s <|| report_peak := report_queued (g_flags s) ||> else s
  else s <|| b_report_lost := true ||> <| g_report_loss_count := u32 (g_report_loss_count s + 1) |>.
(** The controller's state after a call, with the reports it sent on the way. *)
Definition with_ctl (s : service_t) (m : motion_t) : service_t :=
  fold_left report_post (drop (length (reports (ctl s))) (reports m)) (s <| ctl := m |>).

(** [report_receive] up to the mutex: false when the buffer holds no report *)
Definition report_take (s : service_t) : option motion_report_t * service_t :=
  let '(size, msg, mbf) := tk_rcv_mbf (report_mbf s) in
  let s := s <| report_mbf := mbf |> in
  if negb (size =? REPORT_MSG_SZ) then (None, s)
  else
    let word := bytes_word msg in
    let s := s <| received := received s ++ [word] |> in
    match motion_unpack_report word with
    | Some r => (Some r, s <| taken := taken s ++ [r] |>)
    | None => (None, s)
    end.
(** [report_receive] with the mutex, for the report the task has taken as its [i]-th *)
Definition report_ack (s : service_t) (i : nat) : service_t :=
  match taken s !! i with
  | None => s
  | Some r =>
      let s := s <| taken := delete i (taken s) |> in
      let s := if 0 <? report_queued (g_flags s) then s <|| report_queued := report_queued (g_flags s) - 1 ||> else s in
      if bool_decide (outcome r = MOTION_OUTCOME_DONE)
      then with_ctl s (motion_controller_ack_complete (ctl s) (command_id r)) else s
  end.

(** ** Lifecycle *)
Definition motion_create (s : service_t) : service_t :=
  s <| report_mbf := tk_cre_mbf REPORT_BUF_SZ REPORT_MSG_SZ |>.
Definition motor_control_init (m1_inverted m2_inverted : bool) (ms : motor_t * motor_t) : motor_t * motor_t :=
  motor_control_brake_all (both (fun w m => m <| b_inverted := sel (m1_inverted, m2_inverted) w |>) ms).
(** [g_feedback] restarted under a new epoch, as motion_init and the end of a calibration do *)
Definition new_epoch (s : service_t) : service_t :=
  s <| g_feedback := g_feedback s <| fb_epoch := u32 (fb_epoch (g_feedback s) + 1) |> <| fb_centre_m := S754_zero false |>
                                  <| fb_valid := false |> |>
    <| g_feedback_count := counts s |>.
Definition motors_start (s : service_t) : service_t :=
  s <| ctl := ctl s <| motors := motor_control_init M1_INVERTED M2_INVERTED (motors (ctl s)) |> |>.
Definition feedback_start (s : service_t) (ready : bool) : service_t :=
  new_epoch s <| g_feedback_ready := ready |> <| g_navigation_lease := false |>.
Definition controller_start (s : service_t) : service_t :=
  with_ctl s (motion_controller_init (ctl s) (sense s) MOTOR_MAX_SPEED_MPS STOP_LEAD_DRIVE_M STOP_LEAD_TURN_M true).
Definition set_busy (s : service_t) (b : bool) : service_t := s <| ctl := motion_controller_set_busy (ctl s) b |>.
Definition stamp (s : service_t) (now : Z) : service_t := s <| g_last_step_us := now |>.
(** Without the encoders the robot must not move: every request is refused as busy. *)
Definition motion_init (s : service_t) (pio_free : bool) (fifo : list Z * list Z) (now : Z) : service_t :=
  let '(ok, s) := wheel_encoder_init (motors_start s) ENC_L_INVERTED ENC_R_INVERTED pio_free in
  let s := motion_estimation_init (wheel_encoder_sample s fifo) (m_per_count ENCODER_COUNTS_PER_REV) TRACK_WIDTH_M in
  let s := controller_start (feedback_start s ok) in
  stamp (if ok then s else set_busy s true) now.

Definition motion_is_calibrated : bool := ENCODER_COUNTS_PER_REV >. fzero.

(** ** Control period *)
Definition clamp_dt (elapsed_us : Z) : float :=
  let dt_s := (float_of_Z elapsed_us / US_PER_S)%f32 in
  let dt_s := if dt_s <. DT_MIN_S then DT_MIN_S else dt_s in
  if dt_s >. DT_MAX_S then DT_MAX_S else dt_s.
Definition double_of_float (f : float) : double :=
  match f with
  | S754_finite s m e => binary_normalize 53 1024 (if s then - Zpos m else Zpos m) e s
  | _ => f
  end.
(** The distance of one wheel since the last period, in 20-bit counts. *)
Definition odometer (s : service_t) (w : wheel_id_t) : service_t :=
  let bits := encoder_bits s w in
  let delta := wheel_encoder_delta bits (sel (g_feedback_count s) w) in
  s <| g_feedback := g_feedback s <| fb_centre_m :=
         dadd (fb_centre_m (g_feedback s)) (dmul (dmul (dlit 5 10) (double_of_Z delta)) (double_of_float (g_m_per_count s))) |> |>
    <| g_feedback_count := upd (g_feedback_count s) w bits |>.
Definition lease_check (s : service_t) (now : Z) : service_t :=
  if motion_lease_expired (g_navigation_lease s) now (g_navigation_refresh_us s)
  then with_ctl s (motion_controller_navigation_timeout (ctl s)) <| g_navigation_lease := false |> else s.
Definition drive_motors (s : service_t) (dt_s : float) (now : Z) : service_t :=
  with_ctl s (motion_controller_step (ctl s) (sense s) dt_s now).
Definition publish_feedback (s : service_t) (now : Z) : service_t :=
  s <| g_feedback := g_feedback s <| fb_timestamp_us := now |>
         <| fb_valid := g_feedback_ready s && g_b_running s && motion_is_calibrated
                        && negb (b_cal_running (g_flags s)) && negb (b_cal_request (g_flags s)) |> |>.
Definition control_period (s : service_t) (fifo : list Z * list Z) (now : Z) : service_t :=
  let dt_s := clamp_dt (elapsed now (g_last_step_us s)) in
  let s := wheel_encoder_sample (stamp s now) fifo in
  let s := lease_check (estimation_update s dt_s) now in
  let s := drive_motors s dt_s now in
  publish_feedback (odometer (odometer s WHEEL_LEFT) WHEEL_RIGHT) now.
(** A wake-up of [stop] between two periods: brake now, control on the next tick. *)
Definition early_wakeup (s : service_t) : service_t := with_ctl s (motion_controller_make_safe (ctl s)).

(** ** Requests *)
Definition is_number (x : float) : bool := (x ==. x) && ((x - x)%f32 ==. fzero).
Definition motion_request_velocity (s : service_t) (left_mps right_mps : float) (now : Z) : motion_result_t * service_t :=
  if negb motion_is_calibrated then (MOTION_ERR_NOT_CALIBRATED, s)
  else if negb (is_number left_mps) || negb (is_number right_mps) then (MOTION_ERR_BAD_ARG, s)
  else
    let '(res, m) := motion_controller_request_velocity (ctl s) (sense s) left_mps right_mps now in (res, with_ctl s m).
Definition request_move (s : service_t) (kind : motion_state_t) (sign_left sign_right : Z) (dist_m speed_mps : float) (now : Z)
  : motion_result_t * service_t :=
  let '(res, m) := motion_controller_request_move (ctl s) (sense s) kind sign_left sign_right dist_m speed_mps now in
  (res, with_ctl s m).
Definition motion_request_drive (s : service_t) (meters speed_mps : float) (now : Z) : motion_result_t * service_t :=
  if negb motion_is_calibrated then (MOTION_ERR_NOT_CALIBRATED, s)
  else if negb (is_number meters) || negb (is_number speed_mps) || (speed_mps <=. fzero) then (MOTION_ERR_BAD_ARG, s)
  else
    let sign := if meters >=. fzero then 1 else -1 in
    request_move s MOTION_DRIVE sign sign (abs_f meters) speed_mps now.
Definition motion_request_turn (s : service_t) (degrees speed_mps : float) (now : Z) : motion_result_t * service_t :=
  if negb motion_is_calibrated then (MOTION_ERR_NOT_CALIBRATED, s)
  else if negb (is_number degrees) || negb (is_number speed_mps) || (speed_mps <=. fzero) then (MOTION_ERR_BAD_ARG, s)
  else
    let arc_m := (abs_f degrees / DEG_PER_TURN * PI_F * TRACK_WIDTH_M)%f32 in
    let sign_left := if degrees >. fzero then -1 else 1 in
    request_move s MOTION_TURN sign_left (- sign_left) arc_m speed_mps now.
Definition motion_request_u_turn (s : service_t) (speed_mps : float) (now : Z) : motion_result_t * service_t :=
  motion_request_turn s (flit 180 1) speed_mps now.
Definition motion_request_manoeuvre (s : service_t) (m : Z) (now : Z) : motion_result_t * service_t :=
  if m =? MANOEUVRE_LEFT then motion_request_turn s (flit 90 1) DEFAULT_TURN_SPEED_MPS now
  else if m =? MANOEUVRE_RIGHT then motion_request_turn s (-. flit 90 1) DEFAULT_TURN_SPEED_MPS now
  else if m =? MANOEUVRE_STRAIGHT then motion_request_drive s MANOEUVRE_STRAIGHT_M DEFAULT_DRIVE_SPEED_MPS now
  else if m =? MANOEUVRE_U_TURN then motion_request_turn s (flit 180 1) DEFAULT_TURN_SPEED_MPS now
  else (MOTION_ERR_BAD_ARG, s).
Definition moveForward (s : service_t) (distance : float) (now : Z) : motion_result_t * service_t :=
  if negb (is_number distance) || (distance <. fzero) then (MOTION_ERR_BAD_ARG, s)
  else motion_request_drive s distance DEFAULT_DRIVE_SPEED_MPS now.
Definition moveBackward (s : service_t) (distance : float) (now : Z) : motion_result_t * service_t :=
  if negb (is_number distance) || (distance <. fzero) then (MOTION_ERR_BAD_ARG, s)
  else motion_request_drive s (-. distance) DEFAULT_DRIVE_SPEED_MPS now.
Definition turnLeft (s : service_t) (angle : float) (now : Z) : motion_result_t * service_t :=
  if negb (is_number angle) || (angle <. fzero) then (MOTION_ERR_BAD_ARG, s)
  else motion_request_turn s angle DEFAULT_TURN_SPEED_MPS now.
Definition turnRight (s : service_t) (angle : float) (now : Z) : motion_result_t * service_t :=
  if negb (is_number angle) || (angle <. fzero) then (MOTION_ERR_BAD_ARG, s)
  else motion_request_turn s (-. angle) DEFAULT_TURN_SPEED_MPS now.

Definition stop (s : service_t) : service_t :=
  let s := with_ctl s (motion_controller_stop (ctl s)) in
  if b_cal_request (g_flags s) || b_cal_running (g_flags s) then
    s <|| b_cal_request := false ||> <|| b_cal_abort := b_cal_running (g_flags s) ||>
  else s.
Definition motion_cancel (s : service_t) (id : Z) : motion_result_t * service_t :=
  let '(res, m) := motion_controller_cancel (ctl s) id in (res, with_ctl s m).
Definition motion_reset (s : service_t) : bool * service_t :=
  let '(idle, m) := motion_controller_reset (ctl s) in (idle, with_ctl s m).
Definition motion_request_packed (s : service_t) (command : Z) (now : Z) : motion_result_t * service_t :=
  match motion_unpack_cmd command with
  | None => (MOTION_ERR_BAD_ARG, s)
  | Some cmd =>
      match type cmd with
      | MOTION_CMD_VELOCITY => motion_request_velocity s (left_mps cmd) (right_mps cmd) now
      | MOTION_CMD_DRIVE => motion_request_drive s (meters cmd) (speed_mps cmd) now
      | MOTION_CMD_TURN => motion_request_turn s (degrees cmd) (speed_mps cmd) now
      | MOTION_CMD_MANOEUVRE => motion_request_manoeuvre s (manoeuvre cmd) now
      | MOTION_CMD_STOP => (MOTION_OK, stop s)
      | MOTION_CMD_CANCEL => motion_cancel s (cmd_command_id cmd)
      | MOTION_CMD_RESET =>
          let '(idle, s) := motion_reset s in (if idle then MOTION_OK else MOTION_ERR_FAULT, s)
      end
  end.

Definition motion_navigation_heartbeat (s : service_t) (enabled : bool) (now : Z) : service_t :=
  let s := s <| g_navigation_lease := enabled |> in
  if enabled then s <| g_navigation_refresh_us := now |> else s.
Definition motion_request_calibration (s : service_t) : motion_result_t * service_t :=
  if g_navigation_lease s then (MOTION_ERR_BUSY, s)
  else if bool_decide (m_state (ctl s) = MOTION_FAULT) then (MOTION_ERR_FAULT, s)
  else if negb (bool_decide (m_state (ctl s) = MOTION_IDLE)) || b_cal_request (g_flags s) || b_busy (ctl s)
  then (MOTION_ERR_BUSY, s)
  else (MOTION_OK, s <|| b_cal_done := false ||> <|| b_cal_request := true ||>).

(** ** Status *)
Definition motion_poll (s : service_t) : motion_state_t * service_t :=
  let '(state, m) := motion_controller_poll (ctl s) in (state, with_ctl s m).
Definition motion_command_id (s : service_t) : Z := cmd_id (ctl s).
Definition motion_report_peak (s : service_t) : Z := report_peak (g_flags s).
Definition motion_is_stopped (s : service_t) : bool := motion_controller_is_stopped (ctl s).
Definition motion_get_status (s : service_t) : motion_status_t :=
  {| st_state := state_code (m_state (ctl s)); st_fault := motion_controller_fault (ctl s); st_command_id := cmd_id (ctl s);
     speed_left_mps := wheel_speed s WHEEL_LEFT; speed_right_mps := wheel_speed s WHEEL_RIGHT;
     distance_m := robot_distance_m s; heading_deg := robot_heading_deg s; b_stopped := motion_is_stopped s;
     st_busy := b_busy (ctl s); st_valid := g_b_running s; st_fault_bits := u8 (fault_bits (ctl s)) |}.
Definition motion_get_status_packed (s : service_t) : Z := motion_pack_status (motion_get_status s).
(** The setpoints are those the wheel controllers ramp, the counts those of the encoders. *)
Definition motion_try_debug_snapshot (s : service_t) : motion_debug_snapshot_t :=
  let each {A} (f : wheel_id_t -> A) := (f WHEEL_LEFT, f WHEEL_RIGHT) in
  {| md_timestamp_us := fb_timestamp_us (g_feedback s);
     md_setpoint_mps := each (fun w => setpoint_mps (pid (sel (wheels (ctl s)) w)));
     md_measured_mps := each (wheel_speed s); md_duty := each (fun w => duty (sel (motors (ctl s)) w));
     md_encoder := each (wheel_encoder_count s); md_state := m_state (ctl s); md_fault := motion_controller_fault (ctl s);
     md_valid := g_feedback_ready s && fb_valid (g_feedback s) && negb (b_busy (ctl s));
     md_braked := motion_is_stopped s; md_busy := b_busy (ctl s) |}.
Definition motion_get_fault (s : service_t) : motion_fault_t := motion_controller_fault (ctl s).
Definition motion_get_fault_bits (s : service_t) : Z := u8 (fault_bits (ctl s)).
Definition motion_get_feedback (s : service_t) : motion_feedback_t :=
  g_feedback s <| fb_state := m_state (ctl s) |> <| fb_fault := motion_controller_fault (ctl s) |>
    <| fb_command_id := cmd_id (ctl s) |> <| fb_report_loss_count := g_report_loss_count s |>
    <| fb_braked := motion_is_stopped s |>
    <| fb_valid := fb_valid (g_feedback s) && g_b_running s && negb (b_cal_request (g_flags s))
                   && negb (b_cal_running (g_flags s)) && negb (b_busy (ctl s)) |>.
Definition motion_is_calibrating (s : service_t) : bool := b_cal_request (g_flags s) || b_cal_running (g_flags s).
Definition motion_get_calibration (s : service_t) : option motion_calibration_t :=
  if b_cal_done (g_flags s) then Some (g_cal_result s) else None.

(** [motion_snapshot_adapter.c]: the status as the 32-bit reporting snapshot *)
Definition motion_read_snapshot (s : service_t) : option bytes :=
  let status := motion_get_status s in
  let left := (speed_left_mps status * flit 1000 1)%f32 in
  let right := (speed_right_mps status * flit 1000 1)%f32 in
  let max := float_of_Z MOTION_REPORT_MAX_MMS in
  let valid := st_valid status && negb (st_busy status) && (left ==. left) && (right ==. right)
    && (left >=. -. max) && (left <=. max) && (right >=. -. max) && (right <=. max) in
  motion_snapshot_pack (m_state (ctl s)) (st_fault status) (st_busy status) valid
    (if valid then i32 (trunc left) else 0) (if valid then i32 (trunc right) else 0).

(** ** Calls of the other tasks *)
Inductive client_call :=
| CoVelocity (left right : float) (now : Z)
| CoDrive (meters speed : float) (now : Z)
| CoTurn (degrees speed : float) (now : Z)
| CoManoeuvre (m : Z) (now : Z)
| CoPacked (command : Z) (now : Z)
| CoStop
| CoCancel (id : Z)
| CoReset
| CoPoll
| CoTake
| CoAck (i : nat)
| CoHeartbeat (enabled : bool) (now : Z)
| CoCalibrate.
Definition client (s : service_t) (c : client_call) : service_t :=
  match c with
  | CoVelocity l r now => (motion_request_velocity s l r now).2
  | CoDrive d v now => (motion_request_drive s d v now).2
  | CoTurn d v now => (motion_request_turn s d v now).2
  | CoManoeuvre m now => (motion_request_manoeuvre s m now).2
  | CoPacked w now => (motion_request_packed s w now).2
  | CoStop => stop s
  | CoCancel id => (motion_cancel s id).2
  | CoReset => (motion_reset s).2
  | CoPoll => (motion_poll s).2
  | CoTake => (report_take s).2
  | CoAck i => report_ack s i
  | CoHeartbeat e now => motion_navigation_heartbeat s e now
  | CoCalibrate => (motion_request_calibration s).2
  end.
Definition clients (s : service_t) (cs : list client_call) : service_t := fold_left client cs s.
