(* ===== verification/MotionCalibration.v ===== *)
(** * Motion calibration and the motion task

    Models the calibration of [subsystem2/motion.c] ([cal_wait], [cal_spin],
    [run_calibration]) and [motion_process].

    The calibration runs in the motion task for minutes and sleeps
    [CAL_POLL_MS] at a time; meanwhile the other tasks call the motion service.  A
    [cal_tick] is what happens during one such wait: the calls before the encoders
    are sampled, the words the encoders have pushed, the calls before the abort flag
    is read, and the clock afterwards.  Calls made while the calibration code runs
    between two waits touch nothing it reads or writes before its next wait and are
    counted with that wait.  A computation of type [cal A] runs on a list of ticks:
    it is [Finished] with the ticks left over, or [Suspended], asleep in the state
    shown, where the list ends.  The loop of step 1 has as fuel the number of ticks
    left and one more; every round waits once, so the fuel is never what stops it. *)
From S2P Require Import Prelude CFloat Motion MotionController MotionSafety MotionPack Drive MessageBuffer MotionService.

Definition CAL_TURNS : Z := 10.
Definition CAL_MIN_COUNTS : Z := 40.
Definition CAL_MOVE_COUNTS : Z := 2.
Definition CAL_STILL_US : Z := 3000000.
Definition CAL_STEP1_TIMEOUT_US : Z := 120000000.
Definition CAL_POLL_MS : Z := 10.
Definition CAL_LIFT_MS : Z := 5000.
Definition CAL_SPINUP_MS : Z := 600.
Definition CAL_MEASURE_MS : Z := 1000.
Definition CAL_SETTLE_MS : Z := 1000.
Definition CAL_CPR_TOLERANCE : float := flit 5 100.
Definition CAL_MIN_SPEED_MPS : float := flit 2 100.

(** ** Computations that sleep *)
Record cal_tick := {
  ct_delay : list client_call; ct_fifo : list Z * list Z; ct_between : list client_call; ct_now : Z
}.
Inductive cal_out (A : Type) :=
| Suspended (s : service_t)
| Finished (a : A) (s : service_t) (now : Z) (rest : list cal_tick).
Arguments Suspended {A}. Arguments Finished {A}.
Definition cal (A : Type) : Type := service_t -> Z -> list cal_tick -> cal_out A.
Definition ret {A} (a : A) : cal A := fun s now ticks => Finished a s now ticks.
Definition bind {A B} (c : cal A) (k : A -> cal B) : cal B := fun s now ticks =>
  match c s now ticks with
  | Suspended s => Suspended s
  | Finished a s now ticks => k a s now ticks
  end.
Definition reads {A} (f : service_t -> A) : cal A := fun s now ticks => Finished (f s) s now ticks.
Definition modify (f : service_t -> service_t) : cal unit := fun s now ticks => Finished tt (f s) now ticks.
Definition time_now_us : cal Z := fun s now ticks => Finished now s now ticks.
Notation "'let*' x ':=' c 'in' k" := (bind c (fun x => k)) (at level 200, x name, c at level 100, k at level 200).
Notation "c >> k" := (bind c (fun _ => k)) (at level 100, k at level 200, right associativity).

(** ** Calibration *)
Fixpoint cal_wait (ms : Z) (s : service_t) (now : Z) (ticks : list cal_tick) : cal_out bool :=
  match ticks with
  | [] => Suspended s
  | t :: ticks =>
      let s := wheel_encoder_sample (clients s (ct_delay t)) (ct_fifo t) in
      let s := clients s (ct_between t) in
      let ms := ms - CAL_POLL_MS in
      if b_cal_abort (g_flags s) then Finished false s (ct_now t) ticks
      else if 0 <? ms then cal_wait ms s (ct_now t) ticks
      else Finished true s (ct_now t) ticks
  end.

Definition set_motors (f : motor_t * motor_t -> motor_t * motor_t) (s : service_t) : service_t :=
  s <| ctl := ctl s <| motors := f (motors (ctl s)) |> |>.
Definition brake_all : service_t -> service_t := set_motors motor_control_brake_all.
Definition motor_on (w : wheel_id_t) (d : float) : service_t -> service_t :=
  set_motors (fun ms => upd ms w (motor_control_set (sel ms w) d)).
Definition seconds (now since : Z) : float := (float_of_Z (elapsed now since) / US_PER_S)%f32.

(** One motor alone at full power: success, the counts of both encoders, the time. *)
Definition cal_spin (motor : wheel_id_t) : cal (bool * Z * Z * float) :=
  modify (motor_on motor (flit 1 1)) >>
  let* ok := cal_wait CAL_SPINUP_MS in
  let* b0 := reads counts in
  let* t0 := time_now_us in
  let* ok := if ok then cal_wait CAL_MEASURE_MS else ret false in
  let* b1 := reads counts in
  let d_l := wheel_encoder_delta b1.1 b0.1 in
  let d_r := wheel_encoder_delta b1.2 b0.2 in
  let* t1 := time_now_us in
  modify brake_all >>
  let* ok := if ok then cal_wait CAL_SETTLE_MS else ret false in
  ret (ok, d_l, d_r, seconds t1 t0).

Inductive step1_result := Step1Done | Step1Timeout (enc_l_ok enc_r_ok : bool) | Step1Aborted.
Definition moved (count ref : Z) : bool := CAL_MOVE_COUNTS <? Z.abs (wheel_encoder_delta count ref).
Definition counted (count ref : Z) : bool := CAL_MIN_COUNTS <? Z.abs (wheel_encoder_delta count ref).
(** Hand turning: both encoders counted and still for 3 s, or 2 minutes over *)
Fixpoint cal_step1 (fuel : nat) (start : Z) (b0 ref : Z * Z) (last_move : Z) : cal step1_result :=
  match fuel with
  | O => fun s _ _ => Suspended s
  | S fuel =>
      let* b := reads counts in
      let* now := time_now_us in
      let l_ok := counted b.1 b0.1 in
      let r_ok := counted b.2 b0.2 in
      let mv := moved b.1 ref.1 || moved b.2 ref.2 in
      let ref := if mv then b else ref in
      let last_move := if mv then now else last_move in
      if l_ok && r_ok && (CAL_STILL_US <? elapsed now last_move) then ret Step1Done
      else if CAL_STEP1_TIMEOUT_US <? elapsed now start then ret (Step1Timeout l_ok r_ok)
      else
        let* ok := cal_wait CAL_POLL_MS in
        if ok then cal_step1 fuel start b0 ref last_move else ret Step1Aborted
  end.
Definition step1_fuel : cal nat := fun s now ticks => Finished (S (length ticks)) s now ticks.

Definition set_encoders (left right : bool) (s : service_t) : service_t :=
  wheel_encoder_set_inverted (wheel_encoder_set_inverted s WHEEL_LEFT left) WHEEL_RIGHT right.
(** The encoder signs as configured, motors braked: how step 2 always ends. *)
Definition step2_end (s : service_t) : service_t := brake_all (set_encoders ENC_L_INVERTED ENC_R_INVERTED s).

(** The result of the measurements: counts of ten hand turns, counts while each motor ran, times. *)
Definition calibration_result (tl tr m1_l m1_r m2_l m2_r : Z) (s1 s2 : float) : motion_calibration_t :=
  let cpr_l := (float_of_Z (Z.abs tl) / float_of_Z CAL_TURNS)%f32 in
  let cpr_r := (float_of_Z (Z.abs tr) / float_of_Z CAL_TURNS)%f32 in
  let cpr := (flit 5 10 * (cpr_l + cpr_r))%f32 in
  let scale := m_per_count cpr in
  let swapped := (Z.abs m1_l <? Z.abs m1_r) && (Z.abs m2_r <? Z.abs m2_l) in
  let vl := (float_of_Z m1_l * scale / s1)%f32 in
  let vr := (float_of_Z m2_r * scale / s2)%f32 in
  {| cal_valid := negb swapped && (abs_f (cpr_l - cpr_r)%f32 <=. (CAL_CPR_TOLERANCE * cpr)%f32)
                  && (abs_f vl >=. CAL_MIN_SPEED_MPS) && (abs_f vr >=. CAL_MIN_SPEED_MPS);
     counts_per_rev := cpr;
     cal_max_speed_mps := if abs_f vl <. abs_f vr then abs_f vl else abs_f vr;
     b_m1_inverted := xorb M1_INVERTED (vl <. fzero); b_m2_inverted := xorb M2_INVERTED (vr <. fzero);
     b_enc_l_inverted := xorb ENC_L_INVERTED (tl <? 0); b_enc_r_inverted := xorb ENC_R_INVERTED (tr <? 0);
     counts_per_rev_l := cpr_l; counts_per_rev_r := cpr_r; top_speed_l_mps := abs_f vl; top_speed_r_mps := abs_f vr;
     b_enc_l_ok := true; b_enc_r_ok := true; b_encoders_swapped := swapped; b_aborted := false |}.
Definition aborted (enc_ok : bool) : motion_calibration_t :=
  zero_calibration <| b_enc_l_ok := enc_ok |> <| b_enc_r_ok := enc_ok |> <| b_aborted := true |>.

(** The two runs of step 2; [None] when [stop] ended one of its waits *)
Definition cal_step2 : cal (option (Z * Z * float * (Z * Z * float))) :=
  let* ok := cal_wait CAL_LIFT_MS in
  if negb ok then ret None
  else
    let* r1 := cal_spin WHEEL_LEFT in
    let '(ok, m1_l, m1_r, s1) := r1 in
    if negb ok then ret None
    else
      let* r2 := cal_spin WHEEL_RIGHT in
      let '(ok, m2_l, m2_r, s2) := r2 in
      ret (if negb ok then None else Some (m1_l, m1_r, s1, (m2_l, m2_r, s2))).

Definition run_calibration (fifo : list Z * list Z) : cal motion_calibration_t :=
  let* start := time_now_us in
  modify (fun s => wheel_encoder_sample (brake_all s) fifo) >>
  let* b0 := reads counts in
  let* fuel := step1_fuel in
  let* r := cal_step1 fuel start b0 b0 start in
  match r with
  | Step1Timeout l r => ret (zero_calibration <| b_enc_l_ok := l |> <| b_enc_r_ok := r |>)
  | Step1Aborted => ret (zero_calibration <| b_aborted := true |>)
  | Step1Done =>
      let* b := reads counts in
      let tl := wheel_encoder_delta b.1 b0.1 in
      let tr := wheel_encoder_delta b.2 b0.2 in
      modify (set_encoders (xorb ENC_L_INVERTED (tl <? 0)) (xorb ENC_R_INVERTED (tr <? 0))) >>
      let* r := cal_step2 in
      modify step2_end >>
      ret match r with
          | None => aborted true
          | Some (m1_l, m1_r, s1, (m2_l, m2_r, s2)) => calibration_result tl tr m1_l m1_r m2_l m2_r s1 s2
          end
  end.

(** ** The motion task *)
Record process_env := {
  pe_now : Z; pe_fifo : list Z * list Z; pe_ticks : list cal_tick; pe_late : list client_call;
  pe_end_fifo : list Z * list Z; pe_end_now : Z
}.
Definition calibration_begin (s : service_t) : service_t :=
  s <|| b_cal_request := false ||> <|| b_cal_running := true ||>
    <| g_feedback := g_feedback s <| fb_valid := false |> |>
    <| ctl := motion_controller_set_busy (ctl s) true |>.
Definition record_result (s : service_t) (result : motion_calibration_t) : service_t :=
  s <| g_cal_result := result |> <|| b_cal_done := true ||> <|| b_cal_running := false ||> <|| b_cal_abort := false ||>.
(** [late]: the calls of other tasks since the last wait *)
Definition calibration_end (s : service_t) (result : motion_calibration_t) (late : list client_call)
    (fifo : list Z * list Z) (now : Z) : service_t :=
  let s := wheel_encoder_sample (brake_all s) fifo in
  let s := motion_estimation_init s (m_per_count ENCODER_COUNTS_PER_REV) TRACK_WIDTH_M in
  let s := record_result (new_epoch (clients s late)) result in
  stamp (set_busy s false) now.
Definition motion_process (s : service_t) (e : process_env) : cal_out unit :=
  if b_cal_request (g_flags s) then
    match run_calibration (pe_fifo e) (calibration_begin s) (pe_now e) (pe_ticks e) with
    | Suspended s => Suspended s
    | Finished result s _ rest =>
        Finished tt (calibration_end s result (pe_late e) (pe_end_fifo e) (pe_end_now e)) (pe_end_now e) rest
    end
  else if elapsed (pe_now e) (g_last_step_us s) <? PERIOD_US / 2 then Finished tt (early_wakeup s) (pe_now e) []
  else Finished tt (control_period s (pe_fifo e) (pe_now e)) (pe_now e) [].
