(* ===== verification/MotionServiceSafety.v ===== *)
(** * Motion service: the report queue

    What the service adds to the statechart: every report the statechart sends is
    posted once, in order, to a queue of eight, and a report that finds the queue
    full is dropped, counted and announced by the next one. *)
From S2P Require Import Prelude CFloat Motion MotionController MotionSafety MotionPack Drive MessageBuffer MotionService MotionCalibration.

(** ** Reports of a call *)
Definition report_ok (r : motion_report_t) : Prop := in_u 8 (command_id r).
(** The call only appends reports, with 8-bit ids. *)
Definition extends (m m' : motion_t) : Prop := exists l, reports m' = reports m ++ l /\ Forall report_ok l.

Lemma extends_same m m' : reports m' = reports m -> extends m m'.
Proof. intros E. exists []. by rewrite app_nil_r. Qed.
Lemma extends_trans m1 m2 m3 : extends m1 m2 -> extends m2 m3 -> extends m1 m3.
Proof.
  intros (l1 & E1 & F1) (l2 & E2 & F2). exists (l1 ++ l2). rewrite E2, E1, app_assoc. split; [done |].
  apply Forall_app. done.
Qed.
Lemma extends_report m o f : extends m (report m o f).
Proof.
  unfold report. destruct (has_sink m); [| by apply extends_same]. eexists. split; [done |].
  constructor; [| constructor]. unfold report_ok. cbn. apply wrap_range. lia.
Qed.
Lemma chart_extends m m' : chart m' = chart m -> extends m m'.
Proof. intros E. apply extends_same. unfold chart in E. by injection E. Qed.
Lemma extends_via m m1 m' : reports m1 = reports m -> extends m1 m' -> extends m m'.
Proof. intros E. apply extends_trans. by apply extends_same. Qed.
#[export] Hint Resolve extends_same extends_report chart_extends : service.

Lemma raise_extends m bits : extends m (raise_faults m bits).
Proof. unfold raise_faults. eapply extends_via; [| apply extends_report]. done. Qed.
Lemma complete_extends m : extends m (complete m).
Proof. unfold complete. eapply extends_via; [| apply extends_report]. done. Qed.
Lemma active_checks_extends m s dt done : extends m (active_checks m s dt done).
Proof.
  unfold active_checks. pose proof (wheel_check_chart m s WHEEL_LEFT dt) as C1.
  destruct (wheel_check m s WHEEL_LEFT dt) as [fl m2]. cbn [snd] in C1.
  pose proof (wheel_check_chart m2 s WHEEL_RIGHT dt) as C2. destruct (wheel_check m2 s WHEEL_RIGHT dt) as [fr m3].
  cbn [snd] in C2. rewrite C1 in C2. eapply extends_trans; [by apply chart_extends |].
  destruct (_ || _); [apply raise_extends |]. destruct done; [| by apply extends_same].
  eapply extends_via; [| apply complete_extends]. done.
Qed.
Lemma step_extends m s dt now : extends m (motion_controller_step m s dt now).
Proof.
  unfold motion_controller_step. cbv zeta. destruct (track_chart m s (step_ms dt)) as (C1 & _).
  set (m1 := track_still _ _ _) in *. eapply extends_trans; [by apply (chart_extends m m1) |].
  destruct (b_busy m1); [by apply extends_same |].
  destruct (m_state m1); try (by apply extends_same); case_if; try apply raise_extends.
  - eapply extends_trans; [| apply active_checks_extends]. apply chart_extends. by rewrite !wheel_drive_chart.
  - pose proof (move_step_chart m1 s dt) as C2. destruct (move_step m1 s dt) as [dn m2].
    eapply extends_trans; [by apply chart_extends | apply active_checks_extends].
  - pose proof (move_step_chart m1 s dt) as C2. destruct (move_step m1 s dt) as [dn m2].
    eapply extends_trans; [by apply chart_extends | apply active_checks_extends].
Qed.
Lemma stop_extends m : extends m (motion_controller_stop m).
Proof.
  unfold motion_controller_stop. destruct (is_active (m_state m)).
  - pose proof (extends_report m MOTION_OUTCOME_CANCELLED MOTION_FAULT_NONE) as E.
    eapply extends_trans; [exact E |]. case_if; by apply extends_same.
  - case_if; by apply extends_same.
Qed.
Lemma run_extends m op : extends m (motion_run m op).
Proof.
  destruct op; cbn [motion_run]; unfold motion_controller_make_safe, motion_controller_request_velocity,
    motion_controller_request_move, motion_controller_cancel, motion_controller_reset, motion_controller_poll,
    motion_controller_ack_complete; cbv zeta; eauto using step_extends, stop_extends, raise_extends with service;
    repeat case_if; cbn [snd]; eauto using stop_extends with service.
  all: eapply extends_via; [| apply complete_extends]; done.
Qed.

(** ** The log of posted reports *)
Definition mark (lost : bool) (r : motion_report_t) : motion_report_t :=
  {| command_id := command_id r; outcome := outcome r; report_fault := report_fault r; b_lost := lost |}.
(** What is delivered of the reports [rs], of which [vs] says which found room: each
    is marked when the one before it was dropped. *)
Fixpoint deliver (lost : bool) (rs : list motion_report_t) (vs : list bool) : list motion_report_t :=
  match rs, vs with
  | r :: rs, true :: vs => mark lost r :: deliver false rs vs
  | _ :: rs, false :: vs => deliver true rs vs
  | _, _ => []
  end.
Definition lost_after (lost : bool) (vs : list bool) : bool := fold_left (fun _ v => negb v) vs lost.
Fixpoint dropped (vs : list bool) : Z := match vs with [] => 0 | v :: vs => b2z (negb v) + dropped vs end.

Lemma deliver_snoc rs : forall lost vs r v, length vs = length rs ->
  deliver lost (rs ++ [r]) (vs ++ [v]) = deliver lost rs vs ++ (if v then [mark (lost_after lost vs) r] else []).
Proof.
  induction rs as [| x rs IH]; intros lost [| [] vs] r v E; cbn in *; try done; try (by destruct v);
    rewrite IH by lia; done.
Qed.
Lemma lost_after_snoc lost vs v : lost_after lost (vs ++ [v]) = negb v.
Proof. unfold lost_after. by rewrite fold_left_app. Qed.
Lemma dropped_snoc vs v : dropped (vs ++ [v]) = dropped vs + b2z (negb v).
Proof. induction vs; cbn [app dropped]; lia. Qed.
Lemma dropped_nonneg vs : 0 <= dropped vs.
Proof. induction vs as [| [] vs IH]; cbn [dropped b2z negb]; lia. Qed.

(** The words [q] wait in the buffer; [rs] are the reports posted so far. *)
Record log_rel (s : service_t) (q : list Z) (vs : list bool) (rs : list motion_report_t) : Prop := {
  lg_mbf : mbf_ok (report_mbf s) (map word_bytes q) /\ bufsz (report_mbf s) = 64 /\ maxmsz (report_mbf s) = 2;
  lg_words : received s ++ q = map motion_pack_report (deliver false rs vs);
  lg_verdicts : length vs = length rs;
  lg_lost : b_report_lost (g_flags s) = lost_after false vs /\ g_report_loss_count s = u32 (dropped vs);
  lg_ids : Forall report_ok rs;
  lg_peak : (0 <= report_queued (g_flags s) <= report_peak (g_flags s) /\ report_peak (g_flags s) <= 8) /\
    (report_peak (g_flags s) = 8 \/
     dropped vs = 0 /\ report_queued (g_flags s) = Z.of_nat (length q) + Z.of_nat (length (taken s)))
}.
Definition log_inv (s : service_t) : Prop := exists q vs, log_rel s q vs (reports (ctl s)).

Lemma pack_range r : 0 <= motion_pack_report r < 2 ^ 16.
Proof. apply wrap_range. lia. Qed.
Lemma word_bytes_word w : 0 <= w < 2 ^ 16 -> bytes_word (word_bytes w) = w.
Proof.
  intros Hw. transitivity (Z.land w (Z.ones 8) + 256 * Z.shiftr w 8); [done |].
  rewrite Z.land_ones, Z.shiftr_div_pow2 by lia. change (2 ^ 8) with 256. rewrite (Z.div_mod w 256) at 3 by lia. lia.
Qed.
Lemma used_words q : used (map word_bytes q) = 8 * Z.of_nat (length q).
Proof. induction q as [| w q IH]; [done |]. cbn [map used]. rewrite IH. change (rounded (Z.of_nat (length (word_bytes w)))) with 4. unfold HEADERSZ. cbn [length]. lia. Qed.
Lemma unpack_packed r : report_ok r -> motion_unpack_report (motion_pack_report r) = Some r.
Proof. apply motion_report_roundtrip. Qed.
Lemma deliver_ok rs : forall lost vs, Forall report_ok rs -> Forall report_ok (deliver lost rs vs).
Proof. induction rs as [| r rs IH]; intros lost [| [] vs] H; cbn; inversion H; subst; eauto. Qed.
Lemma queue_bound s q vs rs : log_rel s q vs rs -> Z.of_nat (length q) <= 8.
Proof.
  intros [([[_ _ _ [_ U] _] _] & B & _) _ _ _ _ _]. rewrite used_words, B in U. lia.
Qed.

(** Everything of the service but the statechart, the queue and its counters. *)
Definition frame (s : service_t) :=
  (g_last_step_us s, g_cal_result s, taken s, received s, g_feedback s, g_feedback_ready s, g_feedback_count s,
   (g_navigation_lease s, g_navigation_refresh_us s), (g_encoder s, g_b_running s), (g_wheel s, g_m_per_count s, g_track_width_m s),
   (b_cal_request (g_flags s), b_cal_running (g_flags s), b_cal_done (g_flags s), b_cal_abort (g_flags s))).

Lemma post_frame s r : frame (report_post s r) = frame s /\ ctl (report_post s r) = ctl s.
Proof. unfold report_post. destruct (tk_snd_mbf _ _) as [er mbf]. repeat case_if; done. Qed.
Lemma posts_frame l : forall s, frame (fold_left report_post l s) = frame s /\ ctl (fold_left report_post l s) = ctl s.
Proof.
  induction l as [| r l IH]; intros s; cbn [fold_left]; [done |]. destruct (IH (report_post s r)) as [-> ->]. apply post_frame.
Qed.
Lemma with_ctl_frame s m : frame (with_ctl s m) = frame s /\ ctl (with_ctl s m) = m.
Proof. unfold with_ctl. destruct (posts_frame (drop (length (reports (ctl s))) (reports m)) (s <| ctl := m |>)) as [-> ->]. done. Qed.

Lemma post_log s q vs rs r : log_rel s q vs rs -> report_ok r ->
  exists q' v, log_rel (report_post s r) q' (vs ++ [v]) (rs ++ [r]) /\
    v = (Z.of_nat (length q) <? 8) /\ q' = if v then q ++ [motion_pack_report (mark (lost_after false vs) r)] else q.
Proof.
  intros L Hr. pose proof (queue_bound s q vs rs L) as Hq. destruct L as [(M & B & X) W V [L1 L2] I [P1 P2]].
  exists (if Z.of_nat (length q) <? 8 then q ++ [motion_pack_report (mark (lost_after false vs) r)] else q), (Z.of_nat (length q) <? 8).
  split; [| done]. unfold report_post. rewrite L1. fold (mark (lost_after false vs) r).
  set (w := motion_pack_report (mark (lost_after false vs) r)).
  pose proof (snd_spec (report_mbf s) (map word_bytes q) (word_bytes w) M) as S.
  change (Z.of_nat (length (word_bytes w))) with 2 in S. rewrite X in S. specialize (S ltac:(lia) ltac:(lia)).
  destruct (tk_snd_mbf _ _) as [er mbf]. rewrite used_words, B in S. change (rounded 2) with 4 in S. unfold HEADERSZ in S.
  destruct S as [[B' X'] S].
  destruct (Z.ltb_spec (Z.of_nat (length q)) 8), (Z.leb_spec (8 * Z.of_nat (length q) + 4 + 4) 64); try lia; destruct S as [-> S].
  - change (E_OK =? E_OK) with true. cbv iota.
    assert (Hw : forall k, 0 <= k < 8 -> wrap REPORT_COUNT_BITS (k + 1) = k + 1).
    { intros k Hk. apply wrap_id. unfold in_u. change (2 ^ REPORT_COUNT_BITS) with 16. lia. }
    constructor; rewrite ?length_app; cbn [length].
    + split; [| split]; repeat case_if; cbn; rewrite ?map_app; done.
    + rewrite deliver_snoc, map_app, <- W, <- app_assoc by done. repeat case_if; done.
    + lia.
    + rewrite lost_after_snoc, dropped_snoc. cbn [negb b2z]. rewrite Z.add_0_r. repeat case_if; done.
    + apply Forall_app. split; [done |]. by constructor.
    + rewrite dropped_snoc. cbn [negb b2z]. unfold MOTION_REPORT_QUEUE_LEN.
      cbn [g_flags update_field report_queued report_peak].
      destruct (Z.ltb_spec (report_queued (g_flags s)) 8) as [Hl | Hl]; cbn -[wrap Z.of_nat Z.add Z.ltb];
        rewrite ?Hw by lia; case_if; unbool; cbn -[wrap Z.of_nat Z.add]; rewrite ?Hw by lia; (split; [lia |]); lia.
  - subst mbf. change (E_TMOUT =? E_OK) with false. cbv iota. constructor; rewrite ?length_app; cbn [length].
    + done.
    + rewrite deliver_snoc, app_nil_r by done. done.
    + lia.
    + rewrite lost_after_snoc, dropped_snoc. split; [done |]. cbn -[u32 dropped]. rewrite L2. unfold u32, wrap.
      rewrite Zplus_mod_idemp_l. done.
    + apply Forall_app. split; [done |]. by constructor.
    + cbn -[Z.of_nat]. split; [lia |]. left. destruct P2; lia.
Qed.

Lemma posts_log l : forall s q vs rs, log_rel s q vs rs -> Forall report_ok l ->
  exists q' vs', log_rel (fold_left report_post l s) q' vs' (rs ++ l).
Proof.
  induction l as [| r l IH]; intros s q vs rs L F; cbn [fold_left]; [rewrite app_nil_r; eauto |].
  inversion F; subst. destruct (post_log s q vs rs r L) as (q' & v & L' & _); [done |].
  destruct (IH _ _ _ _ L') as (q2 & vs2 & L2); [done |]. rewrite <- app_assoc in L2. eauto.
Qed.
(** What [log_inv] depends on. *)
Definition log_view (s : service_t) :=
  (report_mbf s, received s, taken s, g_report_loss_count s, reports (ctl s),
   (b_report_lost (g_flags s), report_queued (g_flags s), report_peak (g_flags s))).
Lemma log_same s s' : log_view s' = log_view s -> log_inv s -> log_inv s'.
Proof.
  unfold log_view. intros [= E1 E2 E3 E4 E5 E6 E7 E8] (q & vs & [L1 L2 L3 L4 L5 L6]). exists q, vs.
  constructor; rewrite ?E1, ?E2, ?E3, ?E4, ?E5, ?E6, ?E7, ?E8; done.
Qed.
Lemma with_ctl_log s m : log_inv s -> extends (ctl s) m -> log_inv (with_ctl s m).
Proof.
  intros (q & vs & L) (l & E & F). assert (L1 : log_rel (s <| ctl := m |>) q vs (reports (ctl s))) by (by destruct L).
  destruct (posts_log l _ q vs _ L1 F) as (q' & vs' & L'). exists q', vs'.
  destruct (with_ctl_frame s m) as [_ ->]. rewrite E. unfold with_ctl. rewrite E, drop_app_length. done.
Qed.
Lemma with_ctl_same_reports s m : log_inv s -> reports m = reports (ctl s) -> log_inv (with_ctl s m).
Proof. intros L E. apply with_ctl_log; [done |]. by apply extends_same. Qed.

(** Taking a word: the oldest waiting one, unless none waits. *)
Lemma take_spec s q vs rs : log_rel s q vs rs ->
  match q with
  | [] => report_take s = (None, s)
  | w :: q' => exists r s', report_take s = (Some r, s') /\ w = motion_pack_report r /\ In r (deliver false rs vs) /\
      log_rel s' q' vs rs /\ received s' = received s ++ [w] /\ taken s' = taken s ++ [r] /\ ctl s' = ctl s /\
      frame (s' <| taken := taken s |> <| received := received s |>) = frame s
  end.
Proof.
  intros [(M & B & X) W V L I [P1 P2]]. destruct q as [| w q]; unfold report_take.
  - rewrite rcv_empty by exact M. change (E_TMOUT =? REPORT_MSG_SZ) with false. cbn [negb]. by destruct s.
  - cbn [map] in M. pose proof (rcv_spec (report_mbf s) (word_bytes w) (map word_bytes q) M) as R.
    destruct (tk_rcv_mbf (report_mbf s)) as [[n msg] mbf]. destruct R as (-> & -> & M' & B' & X').
    change (Z.of_nat (length (word_bytes w)) =? REPORT_MSG_SZ) with true. cbn [negb].
    assert (exists r, In r (deliver false rs vs) /\ w = motion_pack_report r) as (r & Hin & ->).
    { assert (In w (received s ++ w :: q)) as Hw by (apply in_app_iff; right; left; done).
      rewrite W in Hw. apply in_map_iff in Hw as (r & <- & Hr). eauto. }
    rewrite word_bytes_word by apply pack_range.
    assert (report_ok r) as Ok by (pose proof (deliver_ok rs false vs I) as D; rewrite List.Forall_forall in D; by apply D).
    rewrite (unpack_packed r Ok). exists r. eexists. split; [reflexivity |]. splits; try done.
    constructor; cbn -[Z.of_nat]; try done.
    + rewrite B', X'. done.
    + by rewrite <- app_assoc.
    + split; [done |]. destruct P2 as [| [? P2]]; [by left | right; split; [done |]]. rewrite length_app. cbn [length] in *. lia.
Qed.
Lemma take_log s : log_inv s -> log_inv (report_take s).2.
Proof.
  intros (q & vs & L). pose proof (take_spec s q vs _ L) as T. destruct q as [| w q]; [rewrite T; by exists [], vs |].
  destruct T as (r & s' & -> & _ & _ & L' & _ & _ & E & _). exists q, vs. cbn [snd]. by rewrite E.
Qed.
Lemma ack_extends m id : extends m (motion_controller_ack_complete m id).
Proof. unfold motion_controller_ack_complete. case_if; by apply extends_same. Qed.
Lemma ack_log s i : log_inv s -> log_inv (report_ack s i).
Proof.
  intros L. unfold report_ack. destruct (taken s !! i) as [r |] eqn:E; [| done].
  assert (L1 : log_inv (if 0 <? report_queued (g_flags s)
      then s <| taken := delete i (taken s) |> <|| report_queued := report_queued (g_flags s) - 1 ||>
      else s <| taken := delete i (taken s) |>)).
  { destruct L as (q & vs & [L1 L2 L3 L4 L5 [P1 P2]]). exists q, vs. pose proof (length_delete (taken s) i (mk_is_Some _ _ E)) as D.
    pose proof (lookup_lt_Some _ _ _ E) as D'.
    destruct (Z.ltb_spec 0 (report_queued (g_flags s))); constructor; cbn -[Z.of_nat]; try done;
      (split; [lia |]); destruct P2 as [| [? P2]]; try (by left); right; (split; [done |]); lia. }
  cbn zeta. change (g_flags (s <| taken := delete i (taken s) |>)) with (g_flags s).
  match goal with |- log_inv (if _ then with_ctl ?a ?b else ?c) => set (s1 := a) in * end.
  assert (log_inv s1) as L2 by (subst s1; destruct (0 <? _); exact L1).
  case_bool_decide; [| exact L2]. apply with_ctl_log; [done | apply ack_extends].
Qed.

(** ** Calls of the other tasks *)
(** The statechart calls that the other tasks make. *)
Definition client_op (op : motion_op) : bool :=
  match op with MoStep _ _ _ | MoMakeSafe | MoBusy | MoMotor _ _ | MoRelease | MoNavigationTimeout => false | _ => true end.
Inductive client_effect (s : service_t) : service_t -> Prop :=
| ce_none : client_effect s s
| ce_ctl op : client_op op = true -> client_effect s (with_ctl s (motion_run (ctl s) op))
| ce_stop : client_effect s (stop s)
| ce_take : client_effect s (report_take s).2
| ce_ack i : client_effect s (report_ack s i)
| ce_beat e now : client_effect s (motion_navigation_heartbeat s e now)
| ce_calibrate : client_effect s (motion_request_calibration s).2.
#[export] Hint Constructors client_effect : service.

Lemma velocity_effect s l r now : client_effect s (motion_request_velocity s l r now).2.
Proof.
  unfold motion_request_velocity. repeat case_if; cbn [snd]; auto with service.
  destruct (motion_controller_request_velocity (ctl s) (sense s) l r now) as [res m] eqn:E. cbn [snd].
  replace m with (motion_run (ctl s) (MoVelocity (sense s) l r now)) by (cbn [motion_run]; by rewrite E). by apply ce_ctl.
Qed.
Lemma drive_effect s d v now : client_effect s (motion_request_drive s d v now).2.
Proof.
  unfold motion_request_drive, request_move. repeat case_if; cbn [snd]; auto with service.
  all: match goal with |- context [motion_controller_request_move ?m ?se ?k ?a ?b ?d ?v ?n] =>
    destruct (motion_controller_request_move m se k a b d v n) as [res m'] eqn:E end; cbn [snd].
  - replace m' with (motion_run (ctl s) (MoDrive (sense s) 1 (abs_f d) v now)) by (cbn [motion_run]; by rewrite E). by apply ce_ctl.
  - replace m' with (motion_run (ctl s) (MoDrive (sense s) (-1) (abs_f d) v now)) by (cbn [motion_run]; by rewrite E). by apply ce_ctl.
Qed.
Lemma turn_effect s d v now : client_effect s (motion_request_turn s d v now).2.
Proof.
  unfold motion_request_turn, request_move. cbv zeta. case_if; cbn [snd]; auto with service. case_if; cbn [snd]; auto with service.
  set (sg := if d >. fzero then -1 else 1). set (arc := (abs_f d / _ * _ * _)%f32).
  destruct (motion_controller_request_move (ctl s) (sense s) MOTION_TURN sg (- sg) arc v now) as [res m'] eqn:E. cbn [snd].
  replace m' with (motion_run (ctl s) (MoTurn (sense s) sg arc v now)) by (cbn [motion_run]; by rewrite E). by apply ce_ctl.
Qed.
#[export] Hint Resolve velocity_effect drive_effect turn_effect : service.
Lemma manoeuvre_effect s m now : client_effect s (motion_request_manoeuvre s m now).2.
Proof. unfold motion_request_manoeuvre. repeat case_if; auto with service. Qed.
Lemma cancel_effect s id : client_effect s (motion_cancel s id).2.
Proof.
  unfold motion_cancel. destruct (motion_controller_cancel (ctl s) id) as [res m] eqn:E. cbn [snd].
  replace m with (motion_run (ctl s) (MoCancel id)) by (cbn [motion_run]; by rewrite E). by apply ce_ctl.
Qed.
Lemma reset_effect s : client_effect s (motion_reset s).2.
Proof.
  unfold motion_reset. destruct (motion_controller_reset (ctl s)) as [res m] eqn:E. cbn [snd].
  replace m with (motion_run (ctl s) MoReset) by (cbn [motion_run]; by rewrite E). by apply ce_ctl.
Qed.
Lemma poll_effect s : client_effect s (motion_poll s).2.
Proof.
  unfold motion_poll. destruct (motion_controller_poll (ctl s)) as [res m] eqn:E. cbn [snd].
  replace m with (motion_run (ctl s) MoPoll) by (cbn [motion_run]; by rewrite E). by apply ce_ctl.
Qed.
#[export] Hint Resolve manoeuvre_effect cancel_effect reset_effect poll_effect : service.
Lemma packed_effect s w now : client_effect s (motion_request_packed s w now).2.
Proof.
  unfold motion_request_packed. destruct (motion_unpack_cmd w) as [c |]; [| constructor].
  destruct (type c); auto with service. pose proof (reset_effect s). by destruct (motion_reset s).
Qed.
Lemma client_effects s c : client_effect s (client s c).
Proof. destruct c; cbn [client]; auto using packed_effect with service. Qed.

Lemma client_log s c : log_inv s -> log_inv (client s c).
Proof.
  intros L. destruct (client_effects s c); eauto using take_log, ack_log, with_ctl_log, run_extends.
  - unfold stop. pose proof (with_ctl_log s _ L (stop_extends (ctl s))) as L1. case_if; [| done].
    by eapply log_same; [| exact L1].
  - unfold motion_navigation_heartbeat. case_if; by eapply log_same; [| exact L].
  - unfold motion_request_calibration. repeat case_if; try done. by eapply log_same; [| exact L].
Qed.

(** ** Computations that sleep: a Hoare logic

    [I] holds whenever the computation sleeps and when the other tasks call. *)
Section Hoare.
Context (I : service_t -> Prop).
Definition triple {A} (P : service_t -> Prop) (c : cal A) (Q : A -> service_t -> Prop) : Prop :=
  forall s now ticks, P s -> match c s now ticks with Suspended s' => I s' | Finished a s' _ _ => Q a s' end.
Lemma triple_ret {A} (a : A) (Q : A -> service_t -> Prop) : triple (Q a) (ret a) Q.
Proof. intros s now ticks H. exact H. Qed.
Lemma triple_bind {A B} P (c : cal A) Q (k : A -> cal B) R :
  triple P c Q -> (forall a, triple (Q a) (k a) R) -> triple P (bind c k) R.
Proof.
  intros H1 H2 s now ticks HP. specialize (H1 s now ticks HP). unfold bind. destruct (c s now ticks); [done |]. by apply H2.
Qed.
Lemma triple_pre {A} (P P' : service_t -> Prop) (c : cal A) Q : (forall s, P s -> P' s) -> triple P' c Q -> triple P c Q.
Proof. intros H T s now ticks HP. apply T. auto. Qed.
Lemma triple_post {A} P (c : cal A) (Q Q' : A -> service_t -> Prop) :
  triple P c Q -> (forall a s, Q a s -> Q' a s) -> triple P c Q'.
Proof. intros T H s now ticks HP. specialize (T s now ticks HP). destruct (c s now ticks); auto. Qed.
Lemma triple_reads {A} (f : service_t -> A) P : triple P (reads f) (fun a s => P s /\ a = f s).
Proof. intros s now ticks H. by split. Qed.
Lemma triple_time P : triple P time_now_us (fun _ => P).
Proof. intros s now ticks H. exact H. Qed.
Lemma triple_fuel P : triple P step1_fuel (fun _ => P).
Proof. intros s now ticks H. exact H. Qed.
Lemma triple_modify f P (Q : service_t -> Prop) : (forall s, P s -> Q (f s)) -> triple P (modify f) (fun _ => Q).
Proof. intros H s now ticks HP. by apply H. Qed.

(** [J]: what a wait keeps; it may say more than [I]. *)
Lemma clients_keep (J : service_t -> Prop) cs : (forall s c, J s -> J (client s c)) -> forall s, J s -> J (clients s cs).
Proof. intros H. unfold clients. induction cs as [| c cs IH]; intros s Hs; cbn [fold_left]; [done |]. apply IH. by apply H. Qed.
Lemma triple_wait (J : service_t -> Prop) ms : (forall s c, J s -> J (client s c)) ->
  (forall s fifo, J s -> J (wheel_encoder_sample s fifo)) -> (forall s, J s -> I s) ->
  triple J (cal_wait ms) (fun ok s => J s /\ b_cal_abort (g_flags s) = negb ok).
Proof.
  intros HC HS HI s now ticks. revert ms s now. induction ticks as [| t ticks IH]; intros ms s now HJ; cbn [cal_wait]; [auto |].
  cbv zeta. set (s' := clients _ (ct_between t)).
  assert (J s') as HJ' by (apply clients_keep; [done |]; apply HS; by apply clients_keep).
  destruct (b_cal_abort (g_flags s')) eqn:E; [done |]. case_if; [by apply IH | done].
Qed.
End Hoare.

(** A property of the whole calibration that its every action keeps. *)
Section Keeps.
Context (J : service_t -> Prop).
Context (HC : forall s c, J s -> J (client s c)).
Context (HS : forall s fifo, J s -> J (wheel_encoder_sample s fifo)).
Context (HM : forall s f, J s -> J (set_motors f s)).
Context (HE : forall s l r, J s -> J (set_encoders l r s)).
Definition keeps {A} (c : cal A) : Prop := triple J J c (fun _ => J).

Lemma keeps_bind {A B} (c : cal A) (k : A -> cal B) : keeps c -> (forall a, keeps (k a)) -> keeps (bind c k).
Proof. intros H1 H2. eapply triple_bind; eauto. Qed.
Lemma keeps_ret {A} (a : A) : keeps (ret a).
Proof. apply (triple_ret J a (fun _ => J)). Qed.
Lemma keeps_reads {A} (f : service_t -> A) : keeps (reads f).
Proof. eapply triple_post; [apply triple_reads |]. by intros a s [? _]. Qed.
Lemma keeps_wait ms : keeps (cal_wait ms).
Proof. eapply triple_post; [by apply triple_wait |]. by intros a s [? _]. Qed.
Lemma keeps_modify f : (forall s, J s -> J (f s)) -> keeps (modify f).
Proof. apply triple_modify. Qed.
Lemma keeps_time : keeps time_now_us.
Proof. apply triple_time. Qed.
Lemma keeps_fuel : keeps step1_fuel.
Proof. apply triple_fuel. Qed.
Lemma keeps_if {A} (b : bool) (c1 c2 : cal A) : keeps c1 -> keeps c2 -> keeps (if b then c1 else c2).
Proof. by destruct b. Qed.
Ltac keep :=
  repeat lazymatch goal with
  | |- keeps (bind _ _) => apply keeps_bind; [| intros ?]
  | |- keeps (if _ then _ else _) => apply keeps_if
  | |- keeps (ret _) => apply keeps_ret
  | |- keeps (reads _) => apply keeps_reads
  | |- keeps (cal_wait _) => apply keeps_wait
  | |- keeps (modify _) => apply keeps_modify; intros
  | |- keeps time_now_us => apply keeps_time
  | |- keeps step1_fuel => apply keeps_fuel
  end.
Lemma keeps_spin w : keeps (cal_spin w).
Proof. unfold cal_spin. cbv zeta. keep; by apply HM. Qed.
Lemma keeps_step1 fuel : forall start b0 ref lm, keeps (cal_step1 fuel start b0 ref lm).
Proof.
  induction fuel as [| fuel IH]; intros; cbn [cal_step1]; [intros s now ticks H; exact H |]. cbv zeta.
  keep. apply IH.
Qed.
Lemma keeps_step2 : keeps cal_step2.
Proof.
  unfold cal_step2. keep; [apply keeps_spin |]. destruct a0 as [[[ok ?] ?] ?]. keep; [apply keeps_spin |].
  destruct a0 as [[[ok' ?] ?] ?]. keep.
Qed.
Lemma keeps_calibration fifo : keeps (run_calibration fifo).
Proof.
  unfold run_calibration. keep; [apply HS; by apply HM | apply keeps_step1 |]. destruct a3; keep; cbv zeta.
  - by apply HE.
  - apply keeps_step2.
  - apply HM. by apply HE.
Qed.
End Keeps.

(** ** The motion task keeps the log *)
Ltac log_by L := eapply log_same; [| exact L]; done.
Lemma sample_view s fifo : log_view (wheel_encoder_sample s fifo) = log_view s /\ ctl (wheel_encoder_sample s fifo) = ctl s /\
  g_flags (wheel_encoder_sample s fifo) = g_flags s.
Proof. unfold wheel_encoder_sample. case_if; done. Qed.
Lemma calibration_log s fifo now ticks : log_inv s ->
  match run_calibration fifo s now ticks with Suspended s' => log_inv s' | Finished _ s' _ _ => log_inv s' end.
Proof.
  intros L. apply (keeps_calibration log_inv); try done; [apply client_log | | | ]; intros s1; intros.
  - eapply log_same; [apply sample_view | done].
  - log_by H.
  - log_by H.
Qed.
Lemma lease_log s now : log_inv s -> log_inv (lease_check s now).
Proof.
  intros L. unfold lease_check. case_if; [| done].
  pose proof (with_ctl_log s (motion_controller_navigation_timeout (ctl s)) L (raise_extends _ _)) as L1. log_by L1.
Qed.
Lemma odometer_log s w : log_inv s -> log_inv (odometer s w).
Proof. intros L. log_by L. Qed.
Lemma publish_log s now : log_inv s -> log_inv (publish_feedback s now).
Proof. intros L. log_by L. Qed.
Lemma measure_log s fifo dt now : log_inv s -> log_inv (estimation_update (wheel_encoder_sample (stamp s now) fifo) dt).
Proof.
  intros L. apply (log_same (wheel_encoder_sample (stamp s now) fifo)); [done |].
  eapply log_same; [apply sample_view |]. log_by L.
Qed.
Lemma control_log s fifo now : log_inv s -> log_inv (control_period s fifo now).
Proof.
  intros L. apply publish_log, odometer_log, odometer_log. apply with_ctl_log; [| apply step_extends].
  by apply lease_log, measure_log.
Qed.
Lemma end_log s r late fifo now : log_inv s -> log_inv (calibration_end s r late fifo now).
Proof.
  intros L. unfold calibration_end. cbv zeta.
  assert (L1 : log_inv (wheel_encoder_sample (brake_all s) fifo)) by (eapply log_same; [apply sample_view |]; log_by L).
  revert L1. generalize (wheel_encoder_sample (brake_all s) fifo). intros s1 L1.
  assert (L2 : log_inv (clients (motion_estimation_init s1 (m_per_count ENCODER_COUNTS_PER_REV) TRACK_WIDTH_M) late))
    by (apply clients_keep; [apply client_log | log_by L1]).
  revert L2. generalize (clients (motion_estimation_init s1 (m_per_count ENCODER_COUNTS_PER_REV) TRACK_WIDTH_M) late).
  intros s2 L2. log_by L2.
Qed.
Lemma process_log s e : log_inv s ->
  match motion_process s e with Suspended s' => log_inv s' | Finished _ s' _ _ => log_inv s' end.
Proof.
  intros L. unfold motion_process. case_if.
  - assert (L1 : log_inv (calibration_begin s)) by log_by L.
    pose proof (calibration_log _ (pe_fifo e) (pe_now e) (pe_ticks e) L1) as C. destruct (run_calibration _ _ _ _); [done | by apply end_log].
  - case_if; [| by apply control_log]. unfold early_wakeup. apply with_ctl_log; [done |]. apply (run_extends _ MoMakeSafe).
Qed.
