(* ===== verification/MotionTaskSafety.v ===== *)
(** * Motion service: invariants of the motion task

    The states the service can reach, asleep in a calibration or not, and what holds
    in them: who drives the motors, what the encoder signs are, and which calls
    are refused. *)
From S2P Require Import Prelude CFloat Motion MotionController MotionSafety MotionPack Drive MessageBuffer MotionService MotionCalibration MotionServiceSafety.

(** [motion_run] is unfolded before the calls it stands for. *)
#[local] Strategy expand [motion_run].

(** ** Calls of the statechart *)
Lemma wheel_drive_busy m s w t dt : b_busy (wheel_drive m s w t dt) = b_busy m.
Proof. unfold wheel_drive. by destruct (speed_pid_update _ _ _ _ _). Qed.
Lemma raise_busy m bits : b_busy (raise_faults m bits) = b_busy m.
Proof. unfold raise_faults, report. case_if; done. Qed.
Lemma active_checks_busy m s dt done : b_busy (active_checks m s dt done) = b_busy m.
Proof.
  unfold active_checks, wheel_check. cbv zeta. case_if; [by rewrite raise_busy |]. case_if; [| done].
  unfold complete, report. case_if; done.
Qed.
Lemma move_step_busy m s dt : b_busy (move_step m s dt).2 = b_busy m.
Proof. unfold move_step. cbv zeta. case_if; [done |]. cbn [snd]. by rewrite !wheel_drive_busy. Qed.
Lemma step_busy m s dt now : b_busy (motion_controller_step m s dt now) = b_busy m.
Proof.
  unfold motion_controller_step. cbv zeta. destruct (track_chart m s (step_ms dt)) as (_ & _ & B & _).
  set (m1 := track_still _ _ _) in *. rewrite <- B. destruct (b_busy m1) eqn:E; [done |].
  destruct (m_state m1); try exact E; (case_if; [unfold raise_fault; by rewrite raise_busy |]).
  - by rewrite active_checks_busy, !wheel_drive_busy.
  - pose proof (move_step_busy m1 s dt). destruct (move_step m1 s dt). rewrite active_checks_busy. by rewrite <- E.
  - pose proof (move_step_busy m1 s dt). destruct (move_step m1 s dt). rewrite active_checks_busy. by rewrite <- E.
Qed.

Definition set_m (ms : motor_t * motor_t) (m : motion_t) : motion_t := m <| motors := ms |>.
Definition parked (m : motion_t) : motion_t := set_m (motor_control_brake_all (motors m)) m.
(** The other tasks' calls neither read nor write the motors, and leave [b_busy]. *)
Lemma set_m_report ms m o f : report (set_m ms m) o f = set_m ms (report m o f).
Proof. unfold report. change (has_sink (set_m ms m)) with (has_sink m). by destruct (has_sink m). Qed.
Lemma set_m_complete ms m : complete (set_m ms m) = set_m ms (complete m).
Proof. unfold complete. by rewrite <- set_m_report. Qed.
Ltac see_through ms m :=
  change (m_state (set_m ms m)) with (m_state m); change (b_busy (set_m ms m)) with (b_busy m);
  change (b_brake_pending (set_m ms m)) with (b_brake_pending m); change (speed_cap (set_m ms m)) with (speed_cap m);
  change (cmd_id (set_m ms m)) with (cmd_id m); change (still_ms (set_m ms m)) with (still_ms m);
  change (wheels (set_m ms m)) with (wheels m).
Lemma set_m_velocity ms m s l r now :
  motion_controller_request_velocity (set_m ms m) s l r now =
  ((motion_controller_request_velocity m s l r now).1, set_m ms (motion_controller_request_velocity m s l r now).2).
Proof.
  unfold motion_controller_request_velocity. cbv zeta. see_through ms m.
  destruct (bool_decide (m_state m = MOTION_FAULT)); [done |]. destruct (_ || _); [done |]. cbn [fst snd]. f_equal.
  match goal with |- (if ?b then _ else _) = set_m ms (if ?c then _ else _) =>
    change c with (bool_decide (m_state m = MOTION_IDLE)); change b with (bool_decide (m_state m = MOTION_IDLE)) end.
  by destruct (bool_decide (m_state m = MOTION_IDLE)).
Qed.
Lemma set_m_move ms m s k sl sr d v now :
  motion_controller_request_move (set_m ms m) s k sl sr d v now =
  ((motion_controller_request_move m s k sl sr d v now).1, set_m ms (motion_controller_request_move m s k sl sr d v now).2).
Proof.
  unfold motion_controller_request_move. cbv zeta. see_through ms m.
  destruct (bool_decide (m_state m = MOTION_FAULT)); [done |]. destruct (_ || _); [done |].
  destruct (_ || _); [done |]. cbn [fst snd]. f_equal. destruct (d <=. fzero); [| done]. by rewrite <- set_m_complete.
Qed.
Lemma set_m_stop ms m : motion_controller_stop (set_m ms m) = set_m ms (motion_controller_stop m).
Proof.
  unfold motion_controller_stop. see_through ms m. rewrite set_m_report. destruct (is_active (m_state m)).
  - cbv zeta. match goal with |- (if ?b then _ else _) = set_m ms (if ?c then _ else _) => change b with c; by destruct c end.
  - cbv zeta. see_through ms m. by destruct (bool_decide (m_state m = MOTION_FAULT)).
Qed.
Lemma set_m_cancel ms m id :
  motion_controller_cancel (set_m ms m) id = ((motion_controller_cancel m id).1, set_m ms (motion_controller_cancel m id).2).
Proof.
  unfold motion_controller_cancel. see_through ms m. rewrite set_m_stop.
  destruct (bool_decide (m_state m = MOTION_FAULT)); [done |]. by destruct (_ || _).
Qed.
Lemma client_op_motors m op ms : client_op op = true -> motion_run (set_m ms m) op = set_m ms (motion_run m op).
Proof.
  destruct op; try done; intros _; cbn [motion_run].
  - by rewrite set_m_velocity.
  - by rewrite set_m_move.
  - by rewrite set_m_move.
  - apply set_m_stop.
  - by rewrite set_m_cancel.
  - unfold motion_controller_reset. see_through ms m. destruct (negb _); [done |]. by destruct (_ && _).
  - unfold motion_controller_poll. see_through ms m. cbn [snd]. by destruct (bool_decide (m_state m = MOTION_COMPLETE)).
  - unfold motion_controller_ack_complete. see_through ms m. by destruct (_ && _).
Qed.
Lemma motors_kept m op : client_op op = true -> motors (motion_run m op) = motors m.
Proof.
  intros H. pose proof (client_op_motors m op (motors m) H) as E. unfold set_m in E. destruct m. cbn in E. rewrite E. done.
Qed.
Lemma client_op_parked m op : client_op op = true -> parked (motion_run m op) = motion_run (parked m) op.
Proof. intros H. unfold parked. by rewrite client_op_motors, motors_kept. Qed.
Lemma client_op_busy m op : client_op op = true -> b_busy (motion_run m op) = b_busy m.
Proof.
  destruct op; try done; intros _; cbn [motion_run]; unfold motion_controller_request_velocity, motion_controller_request_move,
    motion_controller_cancel, motion_controller_reset, motion_controller_poll, motion_controller_ack_complete; cbv zeta.
  - destruct (bool_decide _); [done |]. destruct (_ || _); [done |]. cbn [snd]. by destruct (bool_decide _).
  - destruct (bool_decide _); [done |]. destruct (_ || _); [done |]. destruct (_ || _); [done |]. cbn [snd].
    destruct (_ <=. fzero); [| done]. unfold complete, report. case_if; done.
  - destruct (bool_decide _); [done |]. destruct (_ || _); [done |]. destruct (_ || _); [done |]. cbn [snd].
    destruct (_ <=. fzero); [| done]. unfold complete, report. case_if; done.
  - unfold motion_controller_stop, report. repeat case_if; done.
  - unfold motion_controller_stop, report. repeat case_if; done.
  - repeat case_if; done.
  - cbn [snd]. case_if; done.
  - case_if; done.
Qed.

(** ** Who drives the motors *)
Definition both_off (ms : motor_t * motor_t) : Prop := braked ms.1 /\ braked ms.2.
Definition one_on (ms : motor_t * motor_t) : Prop := braked ms.1 \/ braked ms.2.
Definition others_off (w : wheel_id_t) (ms : motor_t * motor_t) : Prop :=
  match w with WHEEL_LEFT => braked ms.2 | WHEEL_RIGHT => braked ms.1 end.
Definition signs (s : service_t) : Prop :=
  enc_inverted (g_encoder s).1 = ENC_L_INVERTED /\ enc_inverted (g_encoder s).2 = ENC_R_INVERTED.

(** The motion task asleep in its own loop. *)
Record idle_inv (s : service_t) : Prop := {
  ii_chart : motion_inv (ctl s);
  ii_flags : b_cal_running (g_flags s) = false /\ b_cal_abort (g_flags s) = false;
  ii_busy : b_busy (ctl s) = negb (g_b_running s) /\ (b_cal_request (g_flags s) = true -> g_b_running s = true);
  ii_ready : g_feedback_ready s = g_b_running s;
  ii_signs : signs s;
  ii_still : g_b_running s = false -> both_off (motors (ctl s))
}.
(** The motion task in a calibration, the motors as [M] says. *)
Record cal_inv (M : motor_t * motor_t -> Prop) (s : service_t) : Prop := {
  ci_chart : motion_inv (parked (ctl s));
  ci_flags : b_cal_running (g_flags s) = true /\ b_cal_request (g_flags s) = false;
  ci_busy : b_busy (ctl s) = true /\ g_b_running s = true;
  ci_ready : g_feedback_ready s = true;
  ci_valid : fb_valid (g_feedback s) = false;
  ci_motors : M (motors (ctl s))
}.

(** What the invariants read besides the statechart. *)
Definition task_view (s : service_t) :=
  (b_cal_running (g_flags s), b_cal_request (g_flags s), b_cal_abort (g_flags s), g_b_running s, g_feedback_ready s,
   fb_valid (g_feedback s), (enc_inverted (g_encoder s).1, enc_inverted (g_encoder s).2)).
Lemma frame_view s s' : frame s' = frame s -> task_view s' = task_view s.
Proof. unfold frame, task_view. intros [= E1 E2 E3 E4 E5 E6 E7 E8 E9 E10 E11 E12 E13 E14 E15 E16 E17 E18]. congruence. Qed.
Lemma idle_same s s' : task_view s' = task_view s -> motion_inv (ctl s') -> b_busy (ctl s') = b_busy (ctl s) ->
  (b_busy (ctl s) = true -> both_off (motors (ctl s)) -> both_off (motors (ctl s'))) -> idle_inv s -> idle_inv s'.
Proof.
  unfold task_view. intros [= E1 E2 E3 E4 E5 E6 E7 E8] HM HB HO [I1 I2 [I3 I3'] I4 [I5 I6] I7].
  constructor; unfold signs; rewrite ?E1, ?E2, ?E3, ?E4, ?E5, ?E7, ?E8, ?HB; try done.
  intros R. apply HO; [by rewrite I3, R | auto].
Qed.
(** While the controller is held, only the calibration switches a motor on. *)
Lemma busy_op_off m op : b_busy m = true -> (forall w d, op <> MoMotor w d) -> both_off (motors m) -> both_off (motors (motion_run m op)).
Proof.
  intros B N O. destruct (client_op op) eqn:C; [by rewrite motors_kept |]. destruct op as [s dt now | | | | | | id | | | id | | w d | |]; try done; cbn [motion_run].
  - unfold motion_controller_step. cbv zeta. destruct (track_chart m s (step_ms dt)) as (_ & M & E & _). rewrite E, B, M. exact O.
  - unfold motion_controller_make_safe. rewrite B, andb_false_r. exact O.
  - by destruct (N w d).
  - apply brake_braked.
  - unfold motion_controller_navigation_timeout, raise_fault, raise_faults, report. case_if; apply brake_braked.
Qed.
Lemma cal_same M s s' : task_view s' = task_view s -> motion_inv (parked (ctl s')) -> b_busy (ctl s') = b_busy (ctl s) ->
  motors (ctl s') = motors (ctl s) -> cal_inv M s -> cal_inv M s'.
Proof.
  unfold task_view. intros [= E1 E2 E3 E4 E5 E6 E7 E8] HM HB HT [I1 I2 I3 I4 I5 I6].
  constructor; rewrite ?E1, ?E2, ?E4, ?E5, ?E6, ?HB, ?HT; done.
Qed.
Lemma cal_weaken (M M' : motor_t * motor_t -> Prop) s : (forall ms, M ms -> M' ms) -> cal_inv M s -> cal_inv M' s.
Proof. intros H [I1 I2 I3 I4 I5 I6]. constructor; auto. Qed.

Lemma view_with_ctl s m : task_view (with_ctl s m) = task_view s.
Proof. apply frame_view, with_ctl_frame. Qed.
Lemma ctl_with_ctl s m : ctl (with_ctl s m) = m.
Proof. apply with_ctl_frame. Qed.
Lemma idle_ctl s op : idle_inv s -> (forall w d, op <> MoMotor w d) -> b_busy (motion_run (ctl s) op) = b_busy (ctl s) ->
  idle_inv (with_ctl s (motion_run (ctl s) op)).
Proof.
  intros I N B. eapply idle_same; [apply view_with_ctl | | | | exact I]; rewrite ctl_with_ctl; [apply op_inv; apply I | done |].
  intros. by apply busy_op_off.
Qed.
Lemma client_no_motor op : client_op op = true -> forall w d, op <> MoMotor w d.
Proof. by intros H w d ->. Qed.
Lemma take_view s : task_view (report_take s).2 = task_view s /\ ctl (report_take s).2 = ctl s.
Proof.
  unfold report_take. destruct (tk_rcv_mbf _) as [[n msg] mbf]. case_if; [done |]. by destruct (motion_unpack_report _).
Qed.
(** An acknowledgement is the statechart's own, or nothing to it. *)
Lemma ack_view s i : task_view (report_ack s i) = task_view s /\
  (ctl (report_ack s i) = ctl s \/ exists id, ctl (report_ack s i) = motion_run (ctl s) (MoAck id)).
Proof.
  unfold report_ack. destruct (taken s !! i) as [r |]; [| by split; [| left]]. cbv zeta.
  match goal with |- context [with_ctl ?a (motion_controller_ack_complete (ctl ?a) _)] => set (s1 := a) end.
  assert (E : task_view s1 = task_view s /\ ctl s1 = ctl s) by (subst s1; case_if; done). destruct E as [E1 E2].
  case_bool_decide; [| by split; [| left]]. rewrite view_with_ctl, ctl_with_ctl, E2. split; [done |]. right. by exists (command_id r).
Qed.
Lemma beat_view s e now : task_view (motion_navigation_heartbeat s e now) = task_view s /\ ctl (motion_navigation_heartbeat s e now) = ctl s.
Proof. unfold motion_navigation_heartbeat. case_if; done. Qed.
Lemma stop_ctl s : ctl (stop s) = motion_run (ctl s) MoStop.
Proof. unfold stop. case_if; cbn [ctl update_field]; apply ctl_with_ctl. Qed.
Lemma stop_busy m : b_busy (motion_controller_stop m) = b_busy m.
Proof. by apply (client_op_busy m MoStop). Qed.

Lemma idle_client s c : idle_inv s -> idle_inv (client s c).
Proof.
  intros I. destruct (client_effects s c); [done | | | | | |].
  - apply idle_ctl; [done | by apply client_no_motor |]. by apply client_op_busy.
  - pose proof (view_with_ctl s (motion_controller_stop (ctl s))) as V. unfold task_view in V.
    injection V as V1 V2 V3 V4 V5 V6 V7 V8. destruct I as [I1 [I2 I2'] [I3 I3'] I4 [I5 I5'] I6].
    constructor; rewrite ?stop_ctl, ?motors_kept by done; cbn [motion_run]; rewrite ?stop_busy; [by apply (op_inv _ MoStop) | | | | |];
      unfold stop, signs; case_if; cbn; rewrite ?V1, ?V3, ?V4, ?V5, ?V7, ?V8; try done. rewrite V2. done.
  - destruct (take_view s) as [V E]. eapply idle_same; [exact V | rewrite E; apply I | by rewrite E | by rewrite E | exact I].
  - destruct (ack_view s i) as [V [E | [id E]]]; apply (idle_same s); try done; rewrite E; try done; [apply I | | |].
    + apply op_inv. apply I.
    + by apply client_op_busy.
    + by rewrite motors_kept.
  - destruct (beat_view s e now) as [V E]. eapply idle_same; [exact V | rewrite E; apply I | by rewrite E | by rewrite E | exact I].
  - unfold motion_request_calibration. case_if; [done |]. case_if; [done |]. case_if; [done |]. unbool.
    destruct I as [I1 I2 [I3 I3'] I4 I5 I6]. assert (R : g_b_running s = true) by (rewrite H0 in I3; by destruct (g_b_running s)).
    by constructor.
Qed.
Lemma cal_client M s c : cal_inv M s -> cal_inv M (client s c).
Proof.
  intros I. destruct (client_effects s c); [done | | | | | |].
  - eapply cal_same; [apply view_with_ctl | | | | exact I]; rewrite ctl_with_ctl.
    + rewrite client_op_parked by done. apply op_inv. apply I.
    + by apply client_op_busy.
    + by apply motors_kept.
  - pose proof (view_with_ctl s (motion_controller_stop (ctl s))) as V. unfold task_view in V.
    injection V as V1 V2 V3 V4 V5 V6 V7 V8. destruct I as [I1 [I2 I2'] [I3 I3'] I4 I5 I6].
    constructor; rewrite ?stop_ctl, ?(client_op_busy _ MoStop) by done.
    + rewrite client_op_parked by done. by apply op_inv.
    + unfold stop. cbv zeta. rewrite V1, V2, I2, I2'. cbn. by rewrite V1, I2.
    + unfold stop. case_if; cbn; rewrite ?V4; done.
    + unfold stop. case_if; cbn; rewrite ?V5; done.
    + unfold stop. case_if; cbn; rewrite ?V6; done.
    + by rewrite motors_kept.
  - destruct (take_view s) as [V E]. eapply cal_same; [exact V | rewrite E; apply I | by rewrite E | by rewrite E | exact I].
  - destruct (ack_view s i) as [V [E | [id E]]]; apply (cal_same M s); try done; rewrite E; try done; [apply I | | | ].
    + rewrite client_op_parked by done. apply op_inv. apply I.
    + by apply client_op_busy.
    + by apply motors_kept.
  - destruct (beat_view s e now) as [V E]. eapply cal_same; [exact V | rewrite E; apply I | by rewrite E | by rewrite E | exact I].
  - unfold motion_request_calibration. destruct I as [I1 I2 [I3 I3'] I4 I5 I6]. rewrite I3, orb_true_r.
    repeat case_if; by constructor.
Qed.

(** ** The calibration *)
Lemma sample_signs s fifo : task_view (wheel_encoder_sample s fifo) = task_view s.
Proof. unfold wheel_encoder_sample. case_if; done. Qed.
Lemma signs_view s s' : task_view s' = task_view s -> signs s -> signs s'.
Proof. unfold task_view, signs. intros [= _ _ _ _ _ _ E7 E8]. by rewrite E7, E8. Qed.
Lemma client_signs s c : signs s -> signs (client s c).
Proof.
  intros I. destruct (client_effects s c); [done | | | | | |].
  - eapply signs_view; [apply view_with_ctl | done].
  - assert (signs (with_ctl s (motion_controller_stop (ctl s)))) by (eapply signs_view; [apply view_with_ctl | done]).
    unfold stop. case_if; done.
  - eapply signs_view; [apply take_view | done].
  - eapply signs_view; [apply ack_view | done].
  - eapply signs_view; [apply beat_view | done].
  - unfold motion_request_calibration. repeat case_if; done.
Qed.
Lemma cal_sample M s fifo : cal_inv M s -> cal_inv M (wheel_encoder_sample s fifo).
Proof.
  intros I. destruct (sample_view s fifo) as (_ & E & _). apply (cal_same M s); try done; rewrite ?E; try done; [apply sample_signs | apply I].
Qed.
Lemma parked_any m ms : motion_inv (parked m) -> motion_inv (parked (set_m ms m)).
Proof. intros [I1 I2 I3 I4 I5]. constructor; try done. intros _. right. right. apply brake_braked. Qed.
Lemma cal_motors (M M' : motor_t * motor_t -> Prop) f s : cal_inv M s -> (M (motors (ctl s)) -> M' (f (motors (ctl s)))) ->
  cal_inv M' (set_motors f s).
Proof. intros [I1 I2 I3 I4 I5 I6] H. constructor; try done; [by apply parked_any | by apply H]. Qed.
Lemma cal_brake M s : cal_inv M s -> cal_inv both_off (brake_all s).
Proof. intros I. apply (cal_motors M); [done |]. intros _. apply brake_braked. Qed.
Lemma cal_encoders M s l r : cal_inv M s -> cal_inv M (set_encoders l r s).
Proof. intros [I1 I2 I3 I4 I5 I6]. by constructor. Qed.

Definition asleep (s : service_t) : Prop := cal_inv one_on s.
Lemma off_asleep s : cal_inv both_off s -> asleep s.
Proof. apply cal_weaken. intros ms [H _]. by left. Qed.
Lemma others_asleep w s : cal_inv (others_off w) s -> asleep s.
Proof. apply cal_weaken. intros ms H. destruct w; [by right | by left]. Qed.
Lemma wait_motors (M : motor_t * motor_t -> Prop) ms : (forall s, cal_inv M s -> asleep s) ->
  triple asleep (cal_inv M) (cal_wait ms) (fun ok s => cal_inv M s /\ b_cal_abort (g_flags s) = negb ok).
Proof. intros H. apply triple_wait; [intros; by apply cal_client | intros; by apply cal_sample | done]. Qed.

Lemma triple_frame {A} (I P : service_t -> Prop) (c : cal A) Q (F : Prop) :
  triple I P c Q -> triple I (fun s => P s /\ F) c (fun a s => Q a s /\ F).
Proof. intros T s now ticks [HP HF]. specialize (T s now ticks HP). destruct (c s now ticks); done. Qed.

(** Each run has one motor on, and brakes it before it waits for the wheels to settle. *)
Lemma spin_safe w : triple asleep (cal_inv both_off) (cal_spin w)
  (fun '(ok, _, _, _) s => cal_inv both_off s /\ (ok = true -> b_cal_abort (g_flags s) = false)).
Proof.
  unfold cal_spin. set (on := cal_inv (others_off w)).
  assert (Hw : forall ms, triple asleep on (cal_wait ms) (fun _ => on)).
  { intros ms. eapply triple_post; [apply wait_motors, others_asleep |]. by intros a s [? _]. }
  assert (Hm : forall (b : bool) ms, triple asleep on (if b then cal_wait ms else ret false) (fun _ => on)).
  { intros [] ms; [apply Hw | apply (triple_ret _ false (fun _ => on))]. }
  assert (Hr : forall A (f : service_t -> A), triple asleep on (reads f) (fun _ => on)).
  { intros A f. eapply triple_post; [apply triple_reads |]. by intros a s [? _]. }
  eapply triple_bind with (Q := fun _ => on).
  { apply triple_modify. intros s I. apply (cal_motors both_off); [done |]. intros [B1 B2]. by destruct w. }
  intros _. eapply triple_bind; [apply Hw | intros ok]. eapply triple_bind; [apply Hr | intros b0].
  eapply triple_bind; [apply triple_time | intros t0]. eapply triple_bind; [apply Hm | intros ok1].
  eapply triple_bind; [apply Hr | intros b1]. cbv zeta. eapply triple_bind; [apply triple_time | intros t1].
  eapply triple_bind with (Q := fun _ => cal_inv both_off).
  { apply triple_modify. intros s I. by apply (cal_brake (others_off w)). }
  intros _. eapply triple_bind with (Q := fun ok s => cal_inv both_off s /\ (ok = true -> b_cal_abort (g_flags s) = false)).
  - destruct ok1; [| intros s now ticks I; by split].
    eapply triple_post; [apply wait_motors, off_asleep |]. intros ok2 s [I E]. split; [done |]. by intros ->.
  - intros ok2 s now ticks I. exact I.
Qed.

Definition configured (s : service_t) : Prop := cal_inv both_off s /\ signs s.
Lemma step1_safe fuel b0 : forall start ref lm, triple asleep configured (cal_step1 fuel start b0 ref lm) (fun _ => configured).
Proof.
  induction fuel as [| fuel IH]; intros start ref lm; cbn [cal_step1]; [intros s now ticks [H _]; by apply off_asleep |]. cbv zeta.
  eapply triple_bind; [apply triple_reads | intros b]. eapply triple_bind; [apply triple_time | intros now].
  case_if; [intros s n ticks [H _]; exact H |]. case_if; [intros s n ticks [H _]; exact H |].
  eapply triple_bind with (Q := fun ok s => configured s).
  - eapply triple_pre; [by intros s [H _]; exact H |]. eapply triple_post.
    + apply (triple_wait asleep configured).
      * intros s c [H1 H2]. split; [by apply cal_client | by apply client_signs].
      * intros s fifo [H1 H2]. split; [by apply cal_sample |]. eapply signs_view; [apply sample_signs | done].
      * intros s [H _]. by apply off_asleep.
    + by intros a s [H _].
  - intros ok. destruct ok; [apply IH |]. intros s n ticks H. exact H.
Qed.
Lemma step2_safe : triple asleep (cal_inv both_off) cal_step2
  (fun r s => cal_inv both_off s /\ (r <> None -> b_cal_abort (g_flags s) = false)).
Proof.
  unfold cal_step2. eapply triple_bind; [apply wait_motors, off_asleep | intros ok].
  destruct ok; cbn [negb]; [| intros s now ticks [H _]; by split].
  eapply triple_bind; [eapply triple_pre; [| apply spin_safe]; by intros s [H _] | intros [[[ok m1_l] m1_r] s1]].
  destruct ok; cbn [negb]; [| intros s now ticks [H _]; by split].
  eapply triple_bind; [eapply triple_pre; [| apply spin_safe]; by intros s [H _] | intros [[[ok m2_l] m2_r] s2]].
  intros s now ticks [H1 H2]. split; [done |]. by destruct ok; auto.
Qed.

Lemma calibration_safe M fifo : triple asleep (fun s => cal_inv M s /\ signs s) (run_calibration fifo)
  (fun r s => configured s /\ (cal_valid r = true -> b_cal_abort (g_flags s) = false /\ b_aborted r = false)).
Proof.
  unfold run_calibration. eapply triple_bind; [apply triple_time | intros start].
  eapply triple_bind with (Q := fun _ => configured).
  { apply triple_modify. intros s [H1 H2]. split; [apply cal_sample; by apply (cal_brake M) |].
    eapply signs_view; [apply sample_signs | done]. }
  intros _. eapply triple_bind; [eapply triple_post; [apply triple_reads | by intros a s [H _]; exact H] | intros b0].
  eapply triple_bind; [apply triple_fuel | intros fuel]. eapply triple_bind; [apply step1_safe | intros r].
  destruct r; [| intros s now ticks H; by split ..].
  eapply triple_bind; [apply triple_reads | intros b]. cbv zeta.
  set (tl := wheel_encoder_delta b.1 b0.1). set (tr := wheel_encoder_delta b.2 b0.2).
  eapply triple_bind with (Q := fun _ => cal_inv both_off).
  { apply triple_modify. intros s [[H1 H2] _]. by apply cal_encoders. }
  intros _. eapply triple_bind; [apply step2_safe | intros r].
  eapply triple_bind with (Q := fun _ s => configured s /\ (r <> None -> b_cal_abort (g_flags s) = false)).
  { apply triple_modify. intros s [H1 H2]. split; [| done]. split; [| done]. apply (cal_brake both_off). by apply cal_encoders. }
  intros _ s now ticks (H1 & H2). split; [done |].
  destruct r as [[[[m1_l m1_r] s1] [[m2_l m2_r] s2]] |]; [| done]. intros V. split; [by apply H2 | done].
Qed.

(** ** The motion task *)
Lemma begin_cal s : idle_inv s -> b_cal_request (g_flags s) = true ->
  cal_inv (fun _ => True) (calibration_begin s) /\ signs (calibration_begin s).
Proof.
  intros [I1 I2 [I3 I3'] I4 I5 _] R. specialize (I3' R). split; [| done]. constructor; try done.
  - apply (parked_any (motion_controller_set_busy (ctl s) true)).
    destruct (op_inv (ctl s) MoBusy I1) as [J1 J2 J3 J4 J5]. constructor; try done. intros _. right. right. apply brake_braked.
  - change (g_feedback_ready s = true). congruence.
Qed.
Lemma unpark m : motion_inv (parked m) -> both_off (motors m) -> motion_inv m.
Proof. intros [I1 I2 I3 I4 I5] H. constructor; try done. intros _. by right; right. Qed.
Lemma unbusy m : motion_inv m -> both_off (motors m) -> motion_inv (motion_controller_set_busy m false).
Proof. intros [I1 I2 I3 I4 I5] H. constructor; try done. intros _. by right; right. Qed.
Lemma release_idle s r now : cal_inv both_off s -> signs s ->
  let s' := stamp (set_busy (record_result (new_epoch s) r) false) now in
  idle_inv s' /\ both_off (motors (ctl s')) /\ fb_valid (g_feedback s') = false /\
  g_cal_result s' = r /\ b_cal_done (g_flags s') = true /\ b_busy (ctl s') = false.
Proof.
  intros [J1 [J2 J2'] [J3 J3'] J4 J5 J6] S. cbv zeta. splits; try done; try apply J6. constructor; try done.
  - apply unbusy; [by apply unpark | done].
  - change (false = negb (g_b_running s) /\ (b_cal_request (g_flags s) = true -> g_b_running s = true)). by rewrite J3'.
  - change (g_feedback_ready s = g_b_running s). congruence.
Qed.
Lemma end_idle s r late fifo now : configured s ->
  let s' := calibration_end s r late fifo now in
  idle_inv s' /\ both_off (motors (ctl s')) /\ fb_valid (g_feedback s') = false /\
  g_cal_result s' = r /\ b_cal_done (g_flags s') = true /\ b_busy (ctl s') = false.
Proof.
  intros [H1 H2]. cbv zeta. unfold calibration_end. cbv zeta.
  assert (C1 : configured (wheel_encoder_sample (brake_all s) fifo)).
  { split; [apply cal_sample; by apply (cal_brake both_off) |].
    eapply signs_view; [apply (sample_signs (brake_all s) fifo) | done]. }
  revert C1. generalize (wheel_encoder_sample (brake_all s) fifo). intros s1 [[J1 J2 J3 J4 J5 J6] S1].
  set (s2 := motion_estimation_init s1 _ _).
  assert (C2 : configured (clients s2 late)).
  { apply clients_keep; [| by split; [constructor |]].
    intros s0 c [D1 D2]. split; [by apply cal_client | by apply client_signs]. }
  revert C2. generalize (clients s2 late). intros s3 [D1 D2]. by apply release_idle.
Qed.
(** The calls made while a calibration ends cannot ask for another. *)
Lemma end_request s r late fifo now : configured s ->
  let s' := calibration_end s r late fifo now in b_cal_request (g_flags s') = false /\ b_cal_running (g_flags s') = false.
Proof.
  intros [H1 H2]. cbv zeta. unfold calibration_end. cbv zeta.
  assert (C1 : cal_inv both_off (wheel_encoder_sample (brake_all s) fifo)) by (apply cal_sample; by apply (cal_brake both_off)).
  revert C1. generalize (wheel_encoder_sample (brake_all s) fifo). intros s1 [J1 J2 J3 J4 J5 J6]. set (s2 := motion_estimation_init s1 _ _).
  assert (C2 : cal_inv both_off (clients s2 late)) by (apply clients_keep; [intros; by apply cal_client | by constructor]).
  revert C2. generalize (clients s2 late). intros s3 [_ [_ D] _ _ _ _]. by split.
Qed.
Lemma timeout_busy m : b_busy (motion_run m MoNavigationTimeout) = b_busy m.
Proof. unfold motion_run, motion_controller_navigation_timeout, raise_fault. apply raise_busy. Qed.
Lemma unlease_idle s : idle_inv s -> idle_inv (s <| g_navigation_lease := false |>).
Proof. intros [J1 J2 J3 J4 J5 J6]. by constructor. Qed.
Lemma lease_idle s now : idle_inv s -> idle_inv (lease_check s now).
Proof.
  intros I. unfold lease_check. case_if; [| done].
  apply unlease_idle. apply (idle_ctl s MoNavigationTimeout I ltac:(done) (timeout_busy _)).
Qed.
Lemma drive_idle s dt now : idle_inv s -> idle_inv (drive_motors s dt now).
Proof. intros I. apply (idle_ctl s (MoStep (sense s) dt now) I ltac:(done) (step_busy _ _ _ _)). Qed.
Lemma odometer_idle s w : idle_inv s -> idle_inv (odometer s w).
Proof. intros [J1 J2 J3 J4 J5 J6]. by constructor. Qed.
Lemma publish_idle s now : idle_inv s -> idle_inv (publish_feedback s now).
Proof. intros [J1 J2 J3 J4 J5 J6]. by constructor. Qed.
Lemma update_idle s dt : idle_inv s -> idle_inv (estimation_update s dt).
Proof. intros [J1 J2 J3 J4 J5 J6]. by constructor. Qed.
Lemma stamp_idle s now : idle_inv s -> idle_inv (stamp s now).
Proof. intros [J1 J2 J3 J4 J5 J6]. by constructor. Qed.
Lemma sample_idle s fifo : idle_inv s -> idle_inv (wheel_encoder_sample s fifo).
Proof.
  intros I. destruct (sample_view s fifo) as (_ & E & _).
  apply (idle_same s); [apply sample_signs | rewrite E; apply I | by rewrite E | by rewrite E | done].
Qed.
Lemma control_idle s fifo now : idle_inv s -> idle_inv (control_period s fifo now).
Proof.
  intros I. by apply publish_idle, odometer_idle, odometer_idle, drive_idle, lease_idle, update_idle, sample_idle, stamp_idle.
Qed.
Lemma early_idle s : idle_inv s -> idle_inv (early_wakeup s).
Proof.
  intros I. apply (idle_ctl s MoMakeSafe I ltac:(done)). cbn [motion_run]. unfold motion_controller_make_safe. case_if; done.
Qed.

(** What a run of the motion task leaves, and shows while it sleeps. *)
Lemma process_safe s e : idle_inv s ->
  match motion_process s e with Suspended s' => asleep s' | Finished _ s' _ _ => idle_inv s' end.
Proof.
  intros I. unfold motion_process. case_if; [| case_if; [by apply early_idle | by apply control_idle]].
  pose proof (calibration_safe (fun _ => True) (pe_fifo e) (calibration_begin s) (pe_now e) (pe_ticks e) (begin_cal s I Heqb)) as C.
  destruct (run_calibration _ _ _ _) as [| r s' n rest]; [done |]. apply (end_idle s' r (pe_late e) (pe_end_fifo e) (pe_end_now e) (proj1 C)).
Qed.

(** The statics as the program starts. *)
Definition service0 : service_t :=
  {| ctl := statics; g_flags := Build_motion_flags_t false false false false false 0 0; g_last_step_us := 0;
     g_cal_result := zero_calibration; report_mbf := tk_cre_mbf 4 1; taken := []; received := []; g_feedback := zero_feedback;
     g_feedback_ready := false; g_feedback_count := (0, 0); g_report_loss_count := 0; g_navigation_lease := false;
     g_navigation_refresh_us := 0; g_encoder := (Build_encoder_t false 0, Build_encoder_t false 0); g_b_running := false;
     g_wheel := (motion_estimation_start 0, motion_estimation_start 0); g_m_per_count := fzero; g_track_width_m := fzero |}.
Definition started_up (pio_free : bool) (fifo : list Z * list Z) (now : Z) : service_t :=
  motion_init (motion_create service0) pio_free fifo now.

(** The states between two runs of the motion task. *)
Inductive service_reachable : service_t -> Prop :=
| sr_start pio_free fifo now : service_reachable (started_up pio_free fifo now)
| sr_client s c : service_reachable s -> service_reachable (client s c)
| sr_process s e s' now rest : service_reachable s -> motion_process s e = Finished tt s' now rest -> service_reachable s'.
(** Those, and the states in which another task finds a calibration asleep. *)
Inductive observed : service_t -> Prop :=
| ob_idle s : service_reachable s -> observed s
| ob_asleep s e s' : service_reachable s -> motion_process s e = Suspended s' -> observed s'
| ob_client s c : observed s -> observed (client s c).
