(* ===== verification/CalibrationMeasures.v ===== *)
(** * Motion calibration: what a result was measured from

    The waits of a calibration are counted: the hand turning takes some number [n] of
    them, the rest a fixed number.  So the counts and times of a valid result are
    those of the encoders and of the clock at fixed waits, described here by the words
    the encoders have pushed until then, independently of the calibration code. *)
From S2P Require Import Prelude CFloat Motion MotionController MotionSafety MotionPack Drive MessageBuffer MotionService MotionCalibration MotionServiceSafety MotionTaskSafety.

(** ** What the other tasks' calls leave as it is *)
Definition sensor_view (s : service_t) :=
  (g_feedback s, g_feedback_count s, g_feedback_ready s, g_encoder s, g_b_running s, g_m_per_count s).
Lemma with_ctl_sensors s m : sensor_view (with_ctl s m) = sensor_view s.
Proof.
  destruct (with_ctl_frame s m) as [F _]. unfold frame in F. unfold sensor_view.
  injection F as F1 F2 F3 F4 F5 F6 F7 F8 F9 F10 F11 F12 F13 F14 F15 F16 F17 F18. congruence.
Qed.
Lemma client_sensors s c : sensor_view (client s c) = sensor_view s.
Proof.
  pose proof with_ctl_sensors as W. destruct (client_effects s c); [done | by rewrite W | | | | |].
  - pose proof (W s (motion_controller_stop (ctl s))) as E. unfold stop. cbv zeta. revert E.
    generalize (with_ctl s (motion_controller_stop (ctl s))). intros w E. case_if; exact E.
  - unfold report_take. destruct (tk_rcv_mbf _) as [[n msg] mbf]. case_if; [done |]. by destruct (motion_unpack_report _).
  - unfold report_ack. destruct (taken s !! i) as [r |]; [| done]. cbv zeta.
    match goal with |- context [with_ctl ?a (motion_controller_ack_complete (ctl ?a) _)] => set (s1 := a) end.
    assert (E1 : sensor_view s1 = sensor_view s) by (subst s1; case_if; done).
    case_bool_decide; [by rewrite W | done].
  - unfold motion_navigation_heartbeat. case_if; done.
  - unfold motion_request_calibration. repeat case_if; done.
Qed.
Lemma clients_sensors cs s : sensor_view (clients s cs) = sensor_view s.
Proof. apply (clients_keep (fun x => sensor_view x = sensor_view s)); [| done]. intros s1 c E. by rewrite client_sensors. Qed.

(** ** Waits *)
Definition wait_once (s : service_t) (t : cal_tick) : service_t :=
  clients (wheel_encoder_sample (clients s (ct_delay t)) (ct_fifo t)) (ct_between t).
Definition waited (s : service_t) (used : list cal_tick) : service_t := fold_left wait_once used s.
Definition clock (now : Z) (used : list cal_tick) : Z := default now (ct_now <$> last used).

Lemma clock_cons now t used : clock (ct_now t) used = clock now (t :: used).
Proof. unfold clock. destruct used as [| x used]; [done |]. change (last (t :: x :: used)) with (last (x :: used)). by destruct (last (x :: used)) eqn:E; [| apply last_None in E]. Qed.
Lemma clock_app now a b : clock (clock now a) b = clock now (a ++ b).
Proof. revert now. induction a as [| t a IH]; intros now; [done |]. rewrite <- clock_cons, IH. cbn [app]. apply clock_cons. Qed.
(** A wait of [10 n] ms that was not stopped took [n] ticks. *)
Lemma wait_true n : forall s now ticks s' now' rest, cal_wait (10 * Z.of_nat (S n)) s now ticks = Finished true s' now' rest ->
  exists used, ticks = used ++ rest /\ length used = S n /\ s' = waited s used /\ now' = clock now used.
Proof.
  induction n as [| n IH]; intros s now [| t ticks] s' now' rest; cbn [cal_wait]; try done; cbv zeta; fold (wait_once s t).
  - case_if; [done |]. cbn. intros [= <- <- <-]. by exists [t].
  - case_if; [done |]. unfold CAL_POLL_MS. replace (10 * Z.of_nat (S (S n)) - 10) with (10 * Z.of_nat (S n)) by lia.
    destruct (Z.ltb_spec 0 (10 * Z.of_nat (S n))); [| lia]. intros E. destruct (IH _ _ _ _ _ _ E) as (used & -> & L & -> & ->).
    exists (t :: used). splits; [done | cbn; lia | done | apply clock_cons].
Qed.
Lemma step1_done fuel start b0 : forall s now ticks ref lm s' now' rest,
  cal_step1 fuel start b0 ref lm s now ticks = Finished Step1Done s' now' rest ->
  exists used, ticks = used ++ rest /\ s' = waited s used /\ now' = clock now used /\
    counted (counts s').1 b0.1 = true /\ counted (counts s').2 b0.2 = true.
Proof.
  induction fuel as [| fuel IH]; intros s now ticks ref lm s' now' rest; cbn [cal_step1]; [done |].
  unfold bind at 1 2, reads, time_now_us. cbv zeta. destruct (counted (counts s).1 b0.1 && _ && _) eqn:E.
  { intros [= <- <- <-]. exists []. apply andb_true_iff in E as [E _]. apply andb_true_iff in E as [E1 E2]. by splits. }
  case_if; [done |]. unfold bind. destruct (cal_wait CAL_POLL_MS s now ticks) as [| [] s1 n1 t1] eqn:W; try done.
  destruct (wait_true 0 _ _ _ _ _ _ W) as (u1 & -> & _ & -> & ->). intros F.
  destruct (IH _ _ _ _ _ _ _ _ F) as (u2 & -> & -> & -> & C). exists (u1 ++ u2). rewrite app_assoc. unfold waited. rewrite fold_left_app.
  splits; [done | done | apply clock_app | apply C | apply C].
Qed.
Lemma spin_true w s now ticks dl dr sec s' now' rest : cal_spin w s now ticks = Finished (true, dl, dr, sec) s' now' rest ->
  exists a b c, ticks = a ++ b ++ c ++ rest /\ length a = 60%nat /\ length b = 100%nat /\ length c = 100%nat /\
    let s1 := waited (motor_on w (flit 1 1) s) a in let s2 := waited s1 b in
    dl = wheel_encoder_delta (counts s2).1 (counts s1).1 /\ dr = wheel_encoder_delta (counts s2).2 (counts s1).2 /\
    sec = seconds (clock now (a ++ b)) (clock now a) /\ s' = waited (brake_all s2) c /\ now' = clock now (a ++ b ++ c).
Proof.
  unfold cal_spin, bind, modify, reads, time_now_us. destruct (cal_wait CAL_SPINUP_MS _ now ticks) as [| [] s1 n1 t1] eqn:W1; try done.
  destruct (wait_true 59 _ _ _ _ _ _ W1) as (a & -> & La & -> & ->). destruct (cal_wait CAL_MEASURE_MS _ _ t1) as [| [] s2 n2 t2] eqn:W2; try done.
  destruct (wait_true 99 _ _ _ _ _ _ W2) as (b & -> & Lb & -> & ->). destruct (cal_wait CAL_SETTLE_MS _ _ t2) as [| [] s3 n3 t3] eqn:W3; try done.
  destruct (wait_true 99 _ _ _ _ _ _ W3) as (c & -> & Lc & -> & ->). unfold ret. intros [= <- <- <- <- <- <-].
  exists a, b, c. cbv zeta. rewrite !clock_app. splits; try done. by rewrite <- app_assoc.
Qed.

(** ** The encoders over waits *)
(** The newest word pushed, and the 20-bit count it stands for: the state machines count down. *)
Definition newest (old : Z) (words : list Z) : Z := default old (last words).
Definition tally (inverted : bool) (word : Z) : Z := wrap 20 (if inverted then word else - word).
Definition pushed (used : list cal_tick) (w : wheel_id_t) : list Z := concat (map (fun t => sel (ct_fifo t) w) used).

Lemma land_mask z : Z.land z WHEEL_COUNT_MASK = wrap 20 z.
Proof. unfold WHEEL_COUNT_MASK. change 0xFFFFF with (Z.ones 20). by rewrite Z.land_ones by lia. Qed.
Lemma wrap_u32 z : wrap 20 (u32 z) = wrap 20 z.
Proof.
  unfold u32, wrap. change (2 ^ 32) with (2 ^ 20 * 2 ^ 12). rewrite Z.rem_mul_r by lia. rewrite Z.mul_comm, Z_mod_plus_full. apply Z.mod_mod. lia.
Qed.
Lemma wrap_opp z : wrap 20 (- wrap 20 z) = wrap 20 (- z).
Proof. unfold wrap. rewrite <- (Z.sub_0_l (z mod _)), Zminus_mod_idemp_r. f_equal. Qed.
Lemma bits_tally inverted word : wheel_encoder_bits true inverted word = tally inverted word.
Proof.
  unfold wheel_encoder_bits, tally. cbn [negb]. cbv zeta. rewrite land_mask. destruct inverted; rewrite wrap_u32; [| f_equal].
  rewrite Z.sub_0_l, <- wrap_opp, wrap_u32, wrap_opp. f_equal. lia.
Qed.
Lemma tally_mask inverted word : tally inverted (Z.land word WHEEL_COUNT_MASK) = tally inverted word.
Proof. rewrite land_mask. unfold tally. destruct inverted; [| apply wrap_opp]. unfold wrap. apply Z.mod_mod. lia. Qed.
Lemma read_tally inverted words : forall old, tally inverted (fold_left (fun _ word => Z.land word WHEEL_COUNT_MASK) words old) =
  tally inverted (newest old words).
Proof.
  unfold newest. induction words as [| x words IH]; intros old; [done |]. cbn [fold_left]. rewrite IH.
  destruct words as [| y words]; [cbn; apply tally_mask |]. change (last (x :: y :: words)) with (last (y :: words)).
  by destruct (last (y :: words)) eqn:E; [| apply last_None in E].
Qed.
(** The encoders after words were read. *)
Definition read_all (ws : wheel_id_t -> list Z) (es : encoder_t * encoder_t) : encoder_t * encoder_t :=
  both (fun w e => encoder_read e (ws w)) es.
Lemma read_again ws ws' es : read_all ws' (read_all ws es) = read_all (fun w => ws w ++ ws' w) es.
Proof. unfold read_all, both, encoder_read. cbn. by rewrite !fold_left_app. Qed.
Definition encoders (s : service_t) := (g_encoder s, g_b_running s).
Lemma clients_encoders cs s : encoders (clients s cs) = encoders s.
Proof. pose proof (clients_sensors cs s) as E. unfold sensor_view in E. injection E as _ _ _ E1 E2 _. unfold encoders. by rewrite E1, E2. Qed.
Lemma sample_encoders s es fifo : encoders s = (es, true) -> encoders (wheel_encoder_sample s fifo) = (read_all (sel fifo) es, true).
Proof. unfold encoders. intros [= E1 E2]. unfold wheel_encoder_sample. rewrite E2. cbn [g_encoder g_b_running update_field]. by rewrite E1, E2. Qed.
Lemma waited_encoders used : forall s es, encoders s = (es, true) -> encoders (waited s used) = (read_all (pushed used) es, true).
Proof.
  induction used as [| t used IH]; intros s es E.
  - unfold waited. cbn [fold_left]. rewrite E. by destruct es as [[] []].
  - change (waited s (t :: used)) with (waited (wait_once s t) used). rewrite (IH _ (read_all (sel (ct_fifo t)) es)); [by rewrite read_again |].
    unfold wait_once. rewrite clients_encoders. apply sample_encoders. by rewrite clients_encoders.
Qed.
Lemma encoders_counts s es : encoders s = (es, true) ->
  counts s = (tally (enc_inverted es.1) (enc_last es.1), tally (enc_inverted es.2) (enc_last es.2)).
Proof. unfold encoders. intros [= E1 E2]. unfold counts, encoder_bits. by rewrite E1, E2, !bits_tally. Qed.
(** The counts once the words [ws] were read, the encoders' signs being [inv]. *)
Lemma counts_after s ws inv old : encoders s = (read_all ws (Build_encoder_t inv.1 old.1, Build_encoder_t inv.2 old.2), true) ->
  counts s = (tally inv.1 (newest old.1 (ws WHEEL_LEFT)), tally inv.2 (newest old.2 (ws WHEEL_RIGHT))).
Proof. intros E. rewrite (encoders_counts s _ E). cbn. unfold encoder_read. cbn. by rewrite !read_tally. Qed.

(** ** The measurement *)
Section Measured.
(** The encoders' last words at the start, the words pushed until the first sample, the
    clock then, and the waits. *)
Context (old : Z * Z) (fifo : list Z * list Z) (now : Z) (ticks : list cal_tick).
Definition word_after (k : nat) (w : wheel_id_t) : Z := newest (sel old w) (sel fifo w ++ pushed (take k ticks) w).
Definition clock_after (k : nat) : Z := clock now (take k ticks).
(** The counts of a wheel between two waits, the encoders' signs being [inv]. *)
Definition turned (inv : bool * bool) (i j : nat) (w : wheel_id_t) : Z :=
  wheel_encoder_delta (tally (sel inv w) (word_after j w)) (tally (sel inv w) (word_after i w)).
(** After [n] waits of hand turning: 500 to lift the robot, then for each motor 60 to
    spin up, 100 of measurement and 100 to settle. *)
Definition measured (r : motion_calibration_t) : Prop := exists n, (n + 1020 <= length ticks)%nat /\
  let t := turned (ENC_L_INVERTED, ENC_R_INVERTED) 0 n in
  let inv := (xorb ENC_L_INVERTED (t WHEEL_LEFT <? 0), xorb ENC_R_INVERTED (t WHEEL_RIGHT <? 0)) in
  let m1 := turned inv (n + 560) (n + 660) in
  let m2 := turned inv (n + 820) (n + 920) in
  let cpr_l := (float_of_Z (Z.abs (t WHEEL_LEFT)) / float_of_Z 10)%f32 in
  let cpr_r := (float_of_Z (Z.abs (t WHEEL_RIGHT)) / float_of_Z 10)%f32 in
  let cpr := (flit 5 10 * (cpr_l + cpr_r))%f32 in
  let vl := (float_of_Z (m1 WHEEL_LEFT) * m_per_count cpr / seconds (clock_after (n + 660)) (clock_after (n + 560)))%f32 in
  let vr := (float_of_Z (m2 WHEEL_RIGHT) * m_per_count cpr / seconds (clock_after (n + 920)) (clock_after (n + 820)))%f32 in
  40 < Z.abs (t WHEEL_LEFT) /\ 40 < Z.abs (t WHEEL_RIGHT) /\
  counts_per_rev_l r = cpr_l /\ counts_per_rev_r r = cpr_r /\ counts_per_rev r = cpr /\
  (abs_f (cpr_l - cpr_r)%f32 <=. (flit 5 100 * cpr)%f32) = true /\
  top_speed_l_mps r = abs_f vl /\ top_speed_r_mps r = abs_f vr /\
  cal_max_speed_mps r = (if abs_f vl <. abs_f vr then abs_f vl else abs_f vr) /\
  (abs_f vl >=. flit 2 100) = true /\ (abs_f vr >=. flit 2 100) = true /\
  b_m1_inverted r = xorb M1_INVERTED (vl <. fzero) /\ b_m2_inverted r = xorb M2_INVERTED (vr <. fzero) /\
  b_enc_l_inverted r = inv.1 /\ b_enc_r_inverted r = inv.2 /\
  (Z.abs (m1 WHEEL_RIGHT) <= Z.abs (m1 WHEEL_LEFT) \/ Z.abs (m2 WHEEL_LEFT) <= Z.abs (m2 WHEEL_RIGHT)).
End Measured.

(** A second step that was not stopped: its 1020 waits, and the two runs. *)
Lemma step2_some s now ticks m1_l m1_r s1 m2_l m2_r s2 s' now' rest inv old ws :
  encoders s = (read_all ws (Build_encoder_t inv.1 old.1, Build_encoder_t inv.2 old.2), true) ->
  cal_step2 s now ticks = Finished (Some (m1_l, m1_r, s1, (m2_l, m2_r, s2))) s' now' rest ->
  exists used, ticks = used ++ rest /\ length used = 1020%nat /\
    let at_ k w := tally (sel inv w) (newest (sel old w) (ws w ++ pushed (take k used) w)) in
    let d i j w := wheel_encoder_delta (at_ j w) (at_ i w) in
    m1_l = d 560%nat 660%nat WHEEL_LEFT /\ m1_r = d 560%nat 660%nat WHEEL_RIGHT /\
    m2_l = d 820%nat 920%nat WHEEL_LEFT /\ m2_r = d 820%nat 920%nat WHEEL_RIGHT /\
    s1 = seconds (clock now (take 660 used)) (clock now (take 560 used)) /\
    s2 = seconds (clock now (take 920 used)) (clock now (take 820 used)).
Proof.
  intros E. unfold cal_step2, bind. destruct (cal_wait CAL_LIFT_MS s now ticks) as [| [] w1 n1 t1] eqn:W; try done.
  destruct (wait_true 499 _ _ _ _ _ _ W) as (u0 & -> & L0 & -> & ->). cbn [negb].
  destruct (cal_spin WHEEL_LEFT _ _ t1) as [| [[[[] d1] d2] x1] w2 n2 t2] eqn:S1; try done. cbn [negb].
  destruct (cal_spin WHEEL_RIGHT _ _ t2) as [| [[[[] d3] d4] x2] w3 n3 t3] eqn:S2; try done. unfold ret. cbn [negb].
  intros [= <- <- <- <- <- <- <- <- <-].
  destruct (spin_true _ _ _ _ _ _ _ _ _ _ S1) as (a1 & b1 & c1 & -> & La1 & Lb1 & Lc1 & -> & -> & -> & -> & ->).
  destruct (spin_true _ _ _ _ _ _ _ _ _ _ S2) as (a2 & b2 & c2 & -> & La2 & Lb2 & Lc2 & -> & -> & -> & -> & ->).
  exists (u0 ++ a1 ++ b1 ++ c1 ++ a2 ++ b2 ++ c2). rewrite <- !app_assoc. split; [done |]. split; [rewrite !length_app; lia |].
  cbv zeta.
  assert (M : forall z es w d, encoders z = (es, true) -> encoders (motor_on w d z) = (es, true)) by done.
  assert (B : forall z es, encoders z = (es, true) -> encoders (brake_all z) = (es, true)) by done.
  assert (G : forall z (g : wheel_id_t -> list Z) used, encoders z = (read_all g (Build_encoder_t inv.1 old.1, Build_encoder_t inv.2 old.2), true) ->
    encoders (waited z used) = (read_all (fun w => g w ++ pushed used w) (Build_encoder_t inv.1 old.1, Build_encoder_t inv.2 old.2), true)).
  { intros z g used Ez. rewrite (waited_encoders used _ _ Ez). by rewrite read_again. }
  set (e0 := (Build_encoder_t inv.1 old.1, Build_encoder_t inv.2 old.2)) in *.
  pose proof (G _ _ u0 E) as E0. pose proof (G _ _ a1 (M _ _ WHEEL_LEFT (flit 1 1) E0)) as E1. pose proof (G _ _ b1 E1) as E2.
  pose proof (G _ _ c1 (B _ _ E2)) as E3. pose proof (G _ _ a2 (M _ _ WHEEL_RIGHT (flit 1 1) E3)) as E4. pose proof (G _ _ b2 E4) as E5.
  rewrite (counts_after _ _ inv old E1), (counts_after _ _ inv old E2), (counts_after _ _ inv old E4), (counts_after _ _ inv old E5).
  cbn [fst snd]. clear E E0 E1 E2 E3 E4 E5 M B G S1 S2 W.
  assert (T1 : take 560 (u0 ++ a1 ++ b1 ++ c1 ++ a2 ++ b2 ++ c2) = u0 ++ a1) by (rewrite app_assoc; apply take_app_length'; rewrite length_app; lia).
  assert (T2 : take 660 (u0 ++ a1 ++ b1 ++ c1 ++ a2 ++ b2 ++ c2) = u0 ++ a1 ++ b1).
  { replace (u0 ++ a1 ++ b1 ++ c1 ++ a2 ++ b2 ++ c2) with ((u0 ++ a1 ++ b1) ++ c1 ++ a2 ++ b2 ++ c2) by (by rewrite <- !app_assoc).
    apply take_app_length'. rewrite !length_app. lia. }
  assert (T3 : take 820 (u0 ++ a1 ++ b1 ++ c1 ++ a2 ++ b2 ++ c2) = u0 ++ a1 ++ b1 ++ c1 ++ a2).
  { replace (u0 ++ a1 ++ b1 ++ c1 ++ a2 ++ b2 ++ c2) with ((u0 ++ a1 ++ b1 ++ c1 ++ a2) ++ b2 ++ c2) by (by rewrite <- !app_assoc).
    apply take_app_length'. rewrite !length_app. lia. }
  assert (T4 : take 920 (u0 ++ a1 ++ b1 ++ c1 ++ a2 ++ b2 ++ c2) = u0 ++ a1 ++ b1 ++ c1 ++ a2 ++ b2).
  { replace (u0 ++ a1 ++ b1 ++ c1 ++ a2 ++ b2 ++ c2) with ((u0 ++ a1 ++ b1 ++ c1 ++ a2 ++ b2) ++ c2) by (by rewrite <- !app_assoc).
    apply take_app_length'. rewrite !length_app. lia. }
  rewrite T1, T2, T3, T4, !clock_app. cbn [sel].
  assert (P : forall a b w, pushed (a ++ b) w = pushed a w ++ pushed b w) by (intros a b w; unfold pushed; by rewrite map_app, concat_app).
  rewrite !P, <- !app_assoc. by splits.
Qed.

(** A valid result was measured as described. *)
Lemma calibration_measured fifo s now ticks r s' now' rest : g_b_running s = true -> signs s ->
  run_calibration fifo s now ticks = Finished r s' now' rest -> cal_valid r = true ->
  measured (enc_last (g_encoder s).1, enc_last (g_encoder s).2) fifo now ticks r.
Proof.
  intros R [S1 S2]. unfold run_calibration, bind, modify, reads, time_now_us, step1_fuel.
  set (inv := (ENC_L_INVERTED, ENC_R_INVERTED)). set (old := (enc_last (g_encoder s).1, enc_last (g_encoder s).2)).
  assert (E0 : encoders (brake_all s) = ((Build_encoder_t inv.1 old.1, Build_encoder_t inv.2 old.2), true)).
  { unfold encoders. change (g_encoder (brake_all s)) with (g_encoder s). change (g_b_running (brake_all s)) with (g_b_running s). rewrite R. f_equal.
    unfold inv, old. cbn [fst snd]. rewrite <- S1, <- S2. by destruct (g_encoder s) as [[] []]. }
  apply (sample_encoders _ _ fifo) in E0. pose proof (counts_after _ _ inv old E0) as C0. revert E0 C0.
  generalize (wheel_encoder_sample (brake_all s) fifo). intros z E0 C0.
  destruct (cal_step1 _ now _ _ now z now ticks) as [| [] z1 n1 t1] eqn:W; try by (unfold ret; intros [= <- _ _ _]).
  destruct (step1_done _ _ _ _ _ _ _ _ _ _ _ W) as (u & -> & -> & -> & K1 & K2). clear W.
  pose proof (waited_encoders u _ _ E0) as E1. rewrite read_again in E1. pose proof (counts_after _ _ inv old E1) as C1.
  set (tl := wheel_encoder_delta _ _). set (tr := wheel_encoder_delta (counts (waited z u)).2 _).
  set (inv2 := (xorb ENC_L_INVERTED (tl <? 0), xorb ENC_R_INVERTED (tr <? 0))).
  assert (E2 : encoders (set_encoders inv2.1 inv2.2 (waited z u)) =
    (read_all (fun w => sel fifo w ++ pushed u w) (Build_encoder_t inv2.1 old.1, Build_encoder_t inv2.2 old.2), true)).
  { unfold encoders in *. injection E1 as E1 E1'. change (g_b_running (set_encoders inv2.1 inv2.2 (waited z u))) with (g_b_running (waited z u)). rewrite E1'.
    f_equal. unfold set_encoders, wheel_encoder_set_inverted. cbn [g_encoder update_field]. by rewrite E1. }
  change (xorb ENC_L_INVERTED (tl <? 0)) with inv2.1. change (xorb ENC_R_INVERTED (tr <? 0)) with inv2.2.
  revert E2. generalize (set_encoders inv2.1 inv2.2 (waited z u)). intros z2 E2.
  destruct (cal_step2 z2 (clock now u) t1) as [| [[[[m1_l m1_r] s1] [[m2_l m2_r] s2]] |] z3 n3 t3] eqn:W2; try by (unfold ret; intros [= <- _ _ _]).
  destruct (step2_some _ _ _ _ _ _ _ _ _ _ _ _ _ _ _ E2 W2) as (v & -> & Lv & -> & -> & -> & -> & -> & ->).
  unfold ret. intros [= <- _ _ _] V. exists (length u). split; [rewrite !length_app; lia |]. cbv zeta.
  assert (T0 : forall w, word_after old fifo (u ++ v ++ t3) 0 w = newest (sel old w) (sel fifo w)) by (intros w; unfold word_after; by rewrite take_0, app_nil_r).
  assert (Tn : forall w, word_after old fifo (u ++ v ++ t3) (length u) w = newest (sel old w) (sel fifo w ++ pushed u w))
    by (intros w; unfold word_after; by rewrite take_app_length).
  assert (Pv : forall k, (k <= 1020)%nat -> take (length u + k) (u ++ v ++ t3) = u ++ take k v).
  { intros k Hk. rewrite take_app_add, take_app_le by lia. done. }
  assert (Tk : forall k w, (k <= 1020)%nat -> word_after old fifo (u ++ v ++ t3) (length u + k) w =
    newest (sel old w) ((sel fifo w ++ pushed u w) ++ pushed (take k v) w)).
  { intros k w Hk. unfold word_after. rewrite Pv by done. unfold pushed. by rewrite map_app, concat_app, app_assoc. }
  assert (Ck : forall k, (k <= 1020)%nat -> clock_after now (u ++ v ++ t3) (length u + k) = clock (clock now u) (take k v)).
  { intros k Hk. unfold clock_after. rewrite Pv by done. by rewrite clock_app. }
  assert (TL : turned old fifo (u ++ v ++ t3) inv 0 (length u) WHEEL_LEFT = tl) by (unfold turned, tl; rewrite T0, Tn, C0, C1; done).
  assert (TR : turned old fifo (u ++ v ++ t3) inv 0 (length u) WHEEL_RIGHT = tr) by (unfold turned, tr; rewrite T0, Tn, C0, C1; done).
  fold inv. rewrite TL, TR. fold inv2. unfold counted in K1, K2. apply Z.ltb_lt in K1, K2. fold tl in K1. fold tr in K2.
  unfold turned. rewrite !Tk, !Ck by lia. cbn [sel].
  unfold calibration_result in V. cbv zeta in V. cbn [cal_valid] in V. rewrite !andb_true_iff, negb_true_iff, andb_false_iff, !Z.ltb_ge in V.
  destruct V as (((V1 & V2) & V3) & V4). splits; try done.
Qed.
