(* ===== verification/MotionServiceTheorems.v ===== *)
(** * Motion service: theorems

    The properties of [subsystem2/motion.c] over every interleaving of the other
    tasks' calls with the motion task. *)
From S2P Require Import Prelude CFloat Motion MotionController MotionSafety MotionPack Drive MessageBuffer MotionService MotionCalibration MotionServiceSafety MotionTaskSafety CalibrationMeasures.

(** ** Start *)
(** A service that is starting: nothing asked for, nothing reported. *)
Record fresh (s : service_t) : Prop := {
  fr_id : cmd_id (ctl s) = 0 /\ b_busy (ctl s) = false /\ reports (ctl s) = [];
  fr_flags : g_flags s = g_flags service0;
  fr_signs : signs s;
  fr_log : log_inv s
}.
Lemma fresh_same s s' : log_view s' = log_view s -> task_view s' = task_view s -> g_flags s' = g_flags s ->
  cmd_id (ctl s') = cmd_id (ctl s) -> b_busy (ctl s') = b_busy (ctl s) -> fresh s -> fresh s'.
Proof.
  intros V1 V2 F C B [(I1 & I2 & I3) I4 I5 I6]. constructor; [| congruence | by eapply signs_view | by eapply log_same].
  splits; [congruence | congruence |]. unfold log_view in V1. injection V1. congruence.
Qed.
Lemma create_fresh : fresh (motors_start (motion_create service0)).
Proof.
  constructor; try done. exists [], []. constructor; try done. split; [cbn; lia | by right].
Qed.
Lemma sample_fresh s fifo : fresh s -> fresh (wheel_encoder_sample s fifo).
Proof.
  intros I. destruct (sample_view s fifo) as (V & C & F). apply (fresh_same s); try done; [apply sample_signs | by rewrite C | by rewrite C].
Qed.
Lemma estimation_fresh s a b : fresh s -> fresh (motion_estimation_init s a b).
Proof. intros [I1 I2 I3 I4]. constructor; try done. log_by I4. Qed.
Lemma feedback_fresh s ready : fresh s -> fresh (feedback_start s ready).
Proof. intros [I1 I2 I3 I4]. constructor; try done. log_by I4. Qed.
Lemma controller_fresh s : fresh s -> fresh (controller_start s) /\ motion_inv (ctl (controller_start s)) /\ both_off (motors (ctl (controller_start s))).
Proof.
  intros [(I1 & I2 & I3) I4 I5 I6]. unfold controller_start.
  set (m := motion_controller_init _ _ _ _ _ _). assert (R : reports m = reports (ctl s)) by done.
  assert (M : motion_inv m) by (apply motion_init_inv; rewrite I1; split; cbn; lia).
  assert (E : with_ctl s m = s <| ctl := m |>) by (unfold with_ctl; by rewrite R, I3).
  split; [| rewrite ctl_with_ctl; split; [done | apply brake_braked]]. constructor.
  - rewrite ctl_with_ctl. splits; [exact I1 | exact I2 | by rewrite R].
  - by rewrite E.
  - eapply signs_view; [apply view_with_ctl | done].
  - by apply with_ctl_same_reports.
Qed.

Lemma stamp_log s now : log_inv s -> log_inv (stamp s now).
Proof. intros L. log_by L. Qed.
Lemma busy_log s b : log_inv s -> log_inv (set_busy s b).
Proof. intros L. log_by L. Qed.
Lemma sample_running s fifo : g_b_running (wheel_encoder_sample s fifo) = g_b_running s.
Proof. unfold wheel_encoder_sample. destruct (g_b_running s) eqn:E; exact E. Qed.
(** The encoders available or not: the service is ready, or busy for good. *)
Lemma controller_idle s ok : fresh s -> g_b_running s = ok ->
  let s' := controller_start (feedback_start s ok) in idle_inv (if ok then s' else set_busy s' true).
Proof.
  intros F R. cbv zeta. pose proof (feedback_fresh s ok F) as F1. destruct (controller_fresh _ F1) as [[(I1 & I2 & I3) I4 I5 I6] [M O]].
  assert (V : g_b_running (controller_start (feedback_start s ok)) = ok /\ g_feedback_ready (controller_start (feedback_start s ok)) = ok).
  { pose proof (view_with_ctl (feedback_start s ok) (motion_controller_init (ctl (feedback_start s ok)) (sense (feedback_start s ok))
      MOTOR_MAX_SPEED_MPS STOP_LEAD_DRIVE_M STOP_LEAD_TURN_M true)) as V. fold (controller_start (feedback_start s ok)) in V.
    unfold task_view in V. injection V as V1 V2 V3 V4 V5 V6 V7 V8. rewrite V4, V5. done. }
  revert I1 I2 I3 I4 I5 I6 M O V. generalize (controller_start (feedback_start s ok)). intros s' I1 I2 I3 I4 I5 I6 M O [V1 V2].
  destruct ok; constructor; try done; try (rewrite I4; done); try (cbn; rewrite ?I2, ?V1, ?V2, ?I4; done).
  by apply (op_inv (ctl s') MoBusy).
Qed.
Lemma started_ok pio_free fifo now : let s := started_up pio_free fifo now in idle_inv s /\ log_inv s.
Proof.
  cbv zeta. unfold started_up, motion_init, wheel_encoder_init. pose proof create_fresh as F0.
  assert (R0 : g_b_running (motors_start (motion_create service0)) = false) by done. revert F0 R0.
  generalize (motors_start (motion_create service0)). intros s0 F0 R0.
  assert (F1 : fresh (set_encoders ENC_L_INVERTED ENC_R_INVERTED s0)).
  { destruct F0 as [I1 I2 I3 I4]. constructor; try done. log_by I4. }
  unfold set_encoders in F1. assert (R1 : g_b_running (wheel_encoder_set_inverted (wheel_encoder_set_inverted s0 WHEEL_LEFT ENC_L_INVERTED)
    WHEEL_RIGHT ENC_R_INVERTED) = false) by exact R0. revert F1 R1.
  generalize (wheel_encoder_set_inverted (wheel_encoder_set_inverted s0 WHEEL_LEFT ENC_L_INVERTED) WHEEL_RIGHT ENC_R_INVERTED).
  intros s1 F1 R1.
  assert (H : forall ok s2, fresh s2 -> g_b_running s2 = ok ->
    let s3 := controller_start (feedback_start (motion_estimation_init (wheel_encoder_sample s2 fifo)
                (m_per_count ENCODER_COUNTS_PER_REV) TRACK_WIDTH_M) ok) in
    let s4 := stamp (if ok then s3 else set_busy s3 true) now in idle_inv s4 /\ log_inv s4).
  { intros ok s2 F2 R2. cbv zeta. pose proof (sample_fresh s2 fifo F2) as F3.
    assert (R3 : g_b_running (wheel_encoder_sample s2 fifo) = ok) by (by rewrite sample_running).
    revert F3 R3. generalize (wheel_encoder_sample s2 fifo). intros s3 F3 R3.
    pose proof (estimation_fresh s3 (m_per_count ENCODER_COUNTS_PER_REV) TRACK_WIDTH_M F3) as F4.
    assert (R4 : g_b_running (motion_estimation_init s3 (m_per_count ENCODER_COUNTS_PER_REV) TRACK_WIDTH_M) = ok) by exact R3.
    revert F4 R4. generalize (motion_estimation_init s3 (m_per_count ENCODER_COUNTS_PER_REV) TRACK_WIDTH_M). intros s4 F4 R4.
    pose proof (controller_idle s4 ok F4 R4) as I. cbv zeta in I.
    destruct (controller_fresh _ (feedback_fresh s4 ok F4)) as [[_ _ _ L] _]. split; [by apply stamp_idle |].
    apply stamp_log. destruct ok; [exact L | by apply busy_log]. }
  destruct pio_free.
  - apply (H true); [| done]. destruct F1 as [I1 I2 I3 I4]. constructor; try done. log_by I4.
  - by apply (H false).
Qed.

(** ** Reachable states *)
Lemma service_reachable_inv s : service_reachable s -> idle_inv s /\ log_inv s.
Proof.
  induction 1 as [pio_free fifo now | s c _ [I L] | s e s' now rest _ [I L] E].
  - apply started_ok.
  - split; [by apply idle_client | by apply client_log].
  - pose proof (process_safe s e I) as P. pose proof (process_log s e L) as Q. rewrite E in P, Q. done.
Qed.
Lemma observed_inv s : observed s -> (idle_inv s \/ asleep s) /\ log_inv s.
Proof.
  induction 1 as [s R | s e s' R E | s c _ [[I | I] L]].
  - apply service_reachable_inv in R as [I L]. split; [by left | done].
  - apply service_reachable_inv in R as [I L]. pose proof (process_safe s e I) as P. pose proof (process_log s e L) as Q.
    rewrite E in P, Q. split; [by right | done].
  - split; [left; by apply idle_client | by apply client_log].
  - split; [right; by apply cal_client | by apply client_log].
Qed.
(** The statechart's invariant holds throughout, but for the motors a calibration drives. *)
Lemma observed_chart s : observed s -> motion_inv (parked (ctl s)).
Proof.
  intros O. destruct (observed_inv s O) as [[I | I] _]; [| apply I].
  destruct (ii_chart s I) as [I1 I2 I3 I4 I5]. constructor; try done. intros _. right. right. apply brake_braked.
Qed.

(** ** Reports *)
Lemma deliver_length rs : forall lost vs, length vs = length rs ->
  Z.of_nat (length (deliver lost rs vs)) + dropped vs = Z.of_nat (length rs).
Proof. induction rs as [| r rs IH]; intros lost [| [] vs] E; cbn [deliver dropped length negb b2z] in *; try lia; [specialize (IH false vs) | specialize (IH true vs)]; lia. Qed.
Lemma unpack_words rs : Forall report_ok rs -> map motion_unpack_report (map motion_pack_report rs) = map Some rs.
Proof. induction 1; cbn [map]; [done |]. rewrite unpack_packed by done. by f_equal. Qed.

(** C20: reports arrive.  At every moment, the words the tasks have taken from the
    queue, followed by those that wait in it, are exactly the reports of the
    statechart that found room, in the order sent, each decoded as it was sent and
    marked [b_lost] when the report before it was dropped; the others are counted.  At
    most eight wait, a report is dropped only when eight do, and once one was dropped
    [motion_report_peak] is eight. *)
Theorem motion_reports_delivered s : observed s ->
  exists waiting room,
    mbf_ok (report_mbf s) (map word_bytes waiting) /\ Z.of_nat (length waiting) <= 8 /\
    length room = length (reports (ctl s)) /\
    map motion_unpack_report (received s ++ waiting) = map Some (deliver false (reports (ctl s)) room) /\
    Z.of_nat (length (received s)) + Z.of_nat (length waiting) + dropped room = Z.of_nat (length (reports (ctl s))) /\
    g_report_loss_count s = u32 (dropped room) /\ (0 < dropped room -> motion_report_peak s = 8) /\
    forall r, in_u 8 (command_id r) ->
      mbf_ok (report_mbf (report_post s r)) (map word_bytes
        (if Z.of_nat (length waiting) <? 8 then waiting ++ [motion_pack_report (mark (lost_after false room) r)] else waiting)).
Proof.
  intros O. destruct (observed_inv s O) as [_ (q & vs & L)]. exists q, vs. pose proof (queue_bound _ _ _ _ L) as B.
  pose proof (fun r => post_log s q vs _ r L) as P. destruct L as [(M & _) W V [L1 L2] I [P1 P2]].
  pose proof (deliver_length _ false vs V) as D.
  splits; try done.
  - rewrite W. by apply unpack_words, deliver_ok.
  - rewrite <- (length_map motion_pack_report), <- W, length_app in D. lia.
  - intros H. unfold motion_report_peak. destruct P2; lia.
  - intros r Hr. destruct (P r Hr) as (q' & v & [(M' & _) _ _ _ _ _] & -> & ->). done.
Qed.

(** A history of the service, for the examples: calls, and whole runs of the motion task. *)
Inductive event := Call (c : client_call) | Run (e : process_env).
Fixpoint history (s : service_t) (evs : list event) : option service_t :=
  match evs with
  | [] => Some s
  | Call c :: evs => history (client s c) evs
  | Run e :: evs => match motion_process s e with Finished _ s _ _ => history s evs | Suspended _ => None end
  end.
Lemma history_reachable evs : forall s s', service_reachable s -> history s evs = Some s' -> service_reachable s'.
Proof.
  induction evs as [| [c | e] evs IH]; intros s s' R H; cbn in H; [by simplify_eq | by eapply IH; [apply sr_client |] |].
  destruct (motion_process s e) as [| [] s1 n rest] eqn:E; [done |]. eapply IH; [by eapply sr_process | done].
Qed.
Definition at_ (now : Z) : process_env :=
  {| pe_now := now; pe_fifo := ([5], [7]); pe_ticks := []; pe_late := []; pe_end_fifo := ([], []); pe_end_now := now |}.
Definition ready : service_t := started_up true ([5], [7]) 1000.
Lemma ready_reachable : service_reachable ready.
Proof. exact (sr_start true ([5], [7]) 1000). Qed.
(** Ten drives, each stopped and braked at once, and nobody reads the queue. *)
Definition unread : list event :=
  concat (repeat [Call (CoDrive (flit 1 10) (flit 2 10) 2000); Call CoStop; Run (at_ 2000)] 10).
Definition overflown : service_t := default service0 (history ready unread).
Lemma reached evs s0 : service_reachable s0 -> bool_decide (is_Some (history s0 evs)) = true ->
  service_reachable (default service0 (history s0 evs)).
Proof.
  intros R H. apply bool_decide_eq_true in H as [s E]. rewrite E. by eapply history_reachable.
Qed.
Lemma motion_reports_delivered_witness :
  g_report_loss_count overflown = 2 /\ motion_report_peak overflown = 8 /\
  exists (waiting : list Z) (room : list bool), Z.of_nat (length waiting) <= 8 /\
    Z.of_nat (length (received overflown)) + Z.of_nat (length waiting) + dropped room = Z.of_nat (length (reports (ctl overflown))).
Proof.
  split; [vm_compute; reflexivity |]. split; [vm_compute; reflexivity |].
  assert (O : observed overflown).
  { apply ob_idle. refine (reached unread ready ready_reachable _). vm_compute. reflexivity. }
  destruct (motion_reports_delivered overflown O) as (waiting & room & _ & H1 & _ & _ & H2 & _). exists waiting, room. split; [exact H1 | exact H2].
Defined.

(** ** Safety *)
Lemma with_ctl_id s : with_ctl s (ctl s) = s.
Proof. unfold with_ctl. rewrite drop_all. by destruct s. Qed.
(** The requests that would move the robot or start a calibration: refused, and nothing changed. *)
Definition refused (s : service_t) : Prop :=
  (forall l r now, (motion_request_velocity s l r now).1 <> MOTION_OK /\ (motion_request_velocity s l r now).2 = s) /\
  (forall d v now, (motion_request_drive s d v now).1 <> MOTION_OK /\ (motion_request_drive s d v now).2 = s) /\
  (forall d v now, (motion_request_turn s d v now).1 <> MOTION_OK /\ (motion_request_turn s d v now).2 = s) /\
  (motion_request_calibration s).1 <> MOTION_OK /\ (motion_request_calibration s).2 = s.
Lemma move_busy m se k a b d v now : b_busy m = true ->
  exists r, motion_controller_request_move m se k a b d v now = (r, m) /\ r <> MOTION_OK.
Proof.
  intros B. unfold motion_controller_request_move. cbv zeta. destruct (bool_decide (m_state m = MOTION_FAULT)); [by eexists |].
  rewrite B. cbn [orb]. by eexists.
Qed.
Lemma busy_refused s : b_busy (ctl s) = true -> refused s.
Proof.
  intros B. unfold refused. splits; intros.
  - unfold motion_request_velocity. case_if; [done |]. case_if; [done |]. unfold motion_controller_request_velocity. cbv zeta.
    destruct (bool_decide (m_state (ctl s) = MOTION_FAULT)); [by rewrite with_ctl_id |]. rewrite B. cbn [orb]. by rewrite with_ctl_id.
  - unfold motion_request_drive, request_move. case_if; [done |]. case_if; [done |]. cbv zeta.
    match goal with |- context [motion_controller_request_move ?m ?se ?k ?a ?b ?d ?v ?n] =>
      destruct (move_busy m se k a b d v n B) as (res & -> & H) end. cbn [fst snd]. by rewrite with_ctl_id.
  - unfold motion_request_turn, request_move. case_if; [done |]. case_if; [done |]. cbv zeta.
    match goal with |- context [motion_controller_request_move ?m ?se ?k ?a ?b ?d ?v ?n] =>
      destruct (move_busy m se k a b d v n B) as (res & -> & H) end. cbn [fst snd]. by rewrite with_ctl_id.
  - unfold motion_request_calibration. rewrite B, orb_true_r. repeat case_if; done.
  - unfold motion_request_calibration. rewrite B, orb_true_r. repeat case_if; done.
Qed.
Lemma fault_shown bits : in_u 5 bits -> (motion_fault_first (u8 bits) <> MOTION_FAULT_NONE <-> bits <> 0).
Proof.
  intros H. set (P := fun b : Z => eqb (bool_decide (motion_fault_first (u8 b) = MOTION_FAULT_NONE)) (b =? 0)).
  assert (HP : forallb (fun k => P (0 + k)) (range 32) = true) by (vm_compute; reflexivity).
  pose proof (forall_range P 0 32 HP bits) as E. unfold in_u in H. change (2 ^ 5) with 32 in H. specialize (E ltac:(lia)).
  unfold P in E. apply eqb_prop in E.
  destruct (Z.eqb_spec bits 0); [apply bool_decide_eq_true in E | apply bool_decide_eq_false in E]; tauto.
Qed.

(** C19: what the feedback promises.  At every moment another task can look: feedback
    shown [braked] means both motors are braked, no command runs and no calibration;
    [valid] means the encoders run, no calibration runs or is asked for and the
    service takes requests; a fault is shown exactly in FAULT.  Outside a calibration
    an inactive statechart has its motors braked or a brake pending; during one the
    robot is never shown braked or valid, at most one motor is driven, and every
    request to move or to calibrate is refused with nothing changed. *)
Theorem motion_feedback_sound s : observed s ->
  let f := motion_get_feedback s in
  (fb_braked f = true -> quiet (ctl s) /\ is_active (m_state (ctl s)) = false /\ b_cal_running (g_flags s) = false) /\
  (fb_valid f = true -> g_b_running s = true /\ motion_is_calibrating s = false /\ b_busy (ctl s) = false) /\
  (fb_fault f <> MOTION_FAULT_NONE <-> fb_state f = MOTION_FAULT) /\
  (b_cal_running (g_flags s) = false -> is_active (m_state (ctl s)) = false -> b_brake_pending (ctl s) = true \/ quiet (ctl s)) /\
  (b_cal_running (g_flags s) = true ->
   fb_braked f = false /\ fb_valid f = false /\ (braked (motors (ctl s)).1 \/ braked (motors (ctl s)).2) /\ refused s).
Proof.
  intros O. cbv zeta. pose proof (observed_chart s O) as C. destruct (observed_inv s O) as [I _].
  change (fb_braked (motion_get_feedback s)) with (motion_controller_is_stopped (ctl s)).
  change (fb_valid (motion_get_feedback s)) with
    (fb_valid (g_feedback s) && g_b_running s && negb (b_cal_request (g_flags s)) && negb (b_cal_running (g_flags s)) && negb (b_busy (ctl s))).
  change (fb_fault (motion_get_feedback s)) with (motion_fault_first (u8 (fault_bits (ctl s)))).
  change (fb_state (motion_get_feedback s)) with (m_state (ctl s)).
  assert (B : b_cal_running (g_flags s) = true -> b_busy (ctl s) = true).
  { intros H. destruct I as [I | I]; [destruct (ii_flags s I); congruence | apply (ci_busy _ s I)]. }
  assert (S : motion_controller_is_stopped (ctl s) = true -> is_active (m_state (ctl s)) = false /\ b_busy (ctl s) = false /\ b_brake_pending (ctl s) = false).
  { unfold motion_controller_is_stopped. rewrite !andb_true_iff, !negb_true_iff. tauto. }
  assert (Q : b_cal_running (g_flags s) = false -> is_active (m_state (ctl s)) = false -> b_brake_pending (ctl s) = true \/ quiet (ctl s)).
  { intros R A. destruct I as [I | I]; [| destruct (ci_flags _ s I); congruence]. destruct (mi_quiet _ (ii_chart s I) A) as [H | H]; [| done].
    right. apply (ii_still s I). destruct (ii_busy s I) as [E _]. rewrite H in E. by destruct (g_b_running s). }
  splits.
  - intros H. destruct (S H) as (S1 & S2 & S3). assert (b_cal_running (g_flags s) = false) as R
      by (destruct (b_cal_running (g_flags s)); [by rewrite B in S2 | done]).
    splits; try done; destruct (Q R S1) as [? | [? ?]]; congruence || done.
  - rewrite !andb_true_iff, !negb_true_iff. intros [[[[_ H1] H2] H3] H4]. unfold motion_is_calibrating. rewrite H2, H3. done.
  - destruct (mi_fault _ C) as [F1 F2]. change (m_state (parked (ctl s))) with (m_state (ctl s)) in F2.
    change (fault_bits (parked (ctl s))) with (fault_bits (ctl s)) in *. rewrite fault_shown by done. tauto.
  - exact Q.
  - intros R. splits.
    + unfold motion_controller_is_stopped. rewrite (B R), andb_false_r. done.
    + rewrite (B R), andb_false_r. done.
    + destruct I as [I | I]; [destruct (ii_flags s I); congruence | apply (ci_motors _ s I)].
    + apply busy_refused. auto.
Qed.
(** Ten forward turns of the left wheel by hand, ten backward ones of the right; then
    the wheels are left alone, and each motor turns its own. *)
Definition hand (l r now : Z) : cal_tick :=
  {| ct_delay := []; ct_fifo := ([u32 (0 - l)], [u32 (0 - r)]); ct_between := []; ct_now := now |}.
Definition turning : list cal_tick :=
  [hand 25340 (-25400) 20000; hand 25340 (-25400) 3200000] ++
  map (fun k => hand 25340 (-25400) (3200000 + 10000 * k)) (range 500).
Definition spinning : list cal_tick :=
  map (fun k => hand (25340 + 100 * k) (-25400) (8200000 + 10000 * k)) (range 160) ++
  map (fun k => hand 41340 (-25400) (9800000 + 10000 * k)) (range 100) ++
  map (fun k => hand 41340 (-25400 - 100 * k) (10800000 + 10000 * k)) (range 160) ++
  map (fun k => hand 41340 (-41400) (12400000 + 10000 * k)) (range 100).
Definition calibrating (ticks : list cal_tick) : process_env :=
  {| pe_now := 12000; pe_fifo := ([0], [0]); pe_ticks := ticks; pe_late := []; pe_end_fifo := ([], []); pe_end_now := 13500000 |}.
Definition asked : service_t := client ready CoCalibrate.
Definition sleeping (o : cal_out unit) : service_t := match o with Suspended s => s | Finished _ s _ _ => s end.
Definition is_suspended (o : cal_out unit) : bool := match o with Suspended _ => true | _ => false end.
Lemma asked_reachable : service_reachable asked.
Proof. exact (sr_client ready CoCalibrate ready_reachable). Qed.
Lemma sleeping_observed s e : service_reachable s -> is_suspended (motion_process s e) = true -> observed (sleeping (motion_process s e)).
Proof. intros R H. destruct (motion_process s e) eqn:E; [by eapply ob_asleep | done]. Qed.
(** Asleep while the left motor runs. *)
Definition mid : service_t := sleeping (motion_process asked (calibrating (turning ++ take 40 spinning))).
Lemma mid_observed : observed mid.
Proof.
  refine (sleeping_observed asked (calibrating (turning ++ take 40 spinning)) asked_reachable _). vm_compute. reflexivity.
Qed.
Lemma motion_feedback_sound_witness :
  b_cal_running (g_flags mid) = true /\ cc_a (motors (ctl mid)).1 = 12500 /\
  fb_braked (motion_get_feedback mid) = false /\ (motion_request_drive mid (flit 1 10) (flit 1 10) 9000000).1 <> MOTION_OK.
Proof.
  assert (R : b_cal_running (g_flags mid) = true) by (vm_compute; reflexivity).
  split; [exact R |]. split; [vm_compute; reflexivity |].
  destruct (motion_feedback_sound mid mid_observed) as (_ & _ & _ & _ & H). destruct (H R) as (H1 & _ & _ & _ & H2 & _).
  split; [exact H1 | apply (H2 (flit 1 10) (flit 1 10) 9000000)].
Defined.

(** ** A calibration that ends *)
Lemma client_epoch k s c : fb_epoch (g_feedback s) = k -> fb_epoch (g_feedback (client s c)) = k.
Proof. pose proof (client_sensors s c) as E. unfold sensor_view in E. injection E as E _ _ _ _ _. by rewrite E. Qed.
Lemma calibration_epoch k fifo s now ticks : fb_epoch (g_feedback s) = k ->
  match run_calibration fifo s now ticks with Suspended _ => True | Finished _ s' _ _ => fb_epoch (g_feedback s') = k end.
Proof.
  intros E. pose proof (keeps_calibration (fun s => fb_epoch (g_feedback s) = k)) as H.
  specialize (H (client_epoch k)). assert (HS : forall s fifo, fb_epoch (g_feedback s) = k -> fb_epoch (g_feedback (wheel_encoder_sample s fifo)) = k)
    by (intros s1 f; unfold wheel_encoder_sample; case_if; done).
  specialize (H HS ltac:(done) ltac:(done) fifo s now ticks E). by destruct (run_calibration fifo s now ticks).
Qed.

(** C24: a calibration leaves the robot as it should be.  Whenever a calibration the
    motion task has started comes to its end - done, timed out or stopped, and
    whatever the other tasks called meanwhile - both motors are braked, the encoder
    signs are the configured ones again, requests are taken again, and the
    feedback is invalid under the next epoch.  Its result is there to be read; a result
    that says it is valid was not stopped, and is computed from what the encoders
    pushed: the counts per turn from the counts of ten turns over the [n] waits of hand
    turning, more than forty on each wheel and within five percent of each other; the
    top speed of the left wheel from its counts and the clock between waits [n]+560 and
    [n]+660, that of the right wheel between [n]+820 and [n]+920, with the signs that
    the hand turning showed; the signs of the motors from the signs of the speeds. *)
Theorem calibration_ends_safe s e s' now rest : service_reachable s -> b_cal_request (g_flags s) = true ->
  motion_process s e = Finished tt s' now rest ->
  quiet (ctl s') /\ signs s' /\ b_cal_running (g_flags s') = false /\ b_cal_abort (g_flags s') = false /\ b_busy (ctl s') = false /\
  fb_valid (motion_get_feedback s') = false /\ fb_epoch (g_feedback s') = u32 (fb_epoch (g_feedback s) + 1) /\
  exists r, motion_get_calibration s' = Some r /\
    (cal_valid r = true -> b_aborted r = false /\
      measured (enc_last (g_encoder s).1, enc_last (g_encoder s).2) (pe_fifo e) (pe_now e) (pe_ticks e) r).
Proof.
  intros R Q E. destruct (service_reachable_inv s R) as [I _]. unfold motion_process in E. rewrite Q in E.
  pose proof (begin_cal s I Q) as B. pose proof (calibration_safe (fun _ => True) (pe_fifo e) _ (pe_now e) (pe_ticks e) B) as C.
  pose proof (calibration_epoch (fb_epoch (g_feedback s)) (pe_fifo e) (calibration_begin s) (pe_now e) (pe_ticks e) eq_refl) as K.
  pose proof (calibration_measured (pe_fifo e) (calibration_begin s) (pe_now e) (pe_ticks e)) as M.
  destruct (run_calibration _ _ _ _) as [| r s1 n rest1]; [done |]. injection E as <- _ _. destruct C as [C V].
  specialize (M r s1 n rest1 (proj2 (ci_busy _ _ (proj1 B))) (proj2 B) eq_refl).
  destruct (end_idle s1 r (pe_late e) (pe_end_fifo e) (pe_end_now e) C) as (J & O & F & G & D & BB).
  assert (EP : fb_epoch (g_feedback (calibration_end s1 r (pe_late e) (pe_end_fifo e) (pe_end_now e))) = u32 (fb_epoch (g_feedback s) + 1)).
  { unfold calibration_end. cbv zeta. change (u32 (fb_epoch (g_feedback (clients (motion_estimation_init
      (wheel_encoder_sample (brake_all s1) (pe_end_fifo e)) (m_per_count ENCODER_COUNTS_PER_REV) TRACK_WIDTH_M) (pe_late e))) + 1) = u32 (fb_epoch (g_feedback s) + 1)).
    do 2 f_equal. apply (clients_keep (fun x => fb_epoch (g_feedback x) = fb_epoch (g_feedback s))); [apply client_epoch |].
    unfold motion_estimation_init, wheel_encoder_sample. case_if; exact K. }
  revert J O F G D EP BB. generalize (calibration_end s1 r (pe_late e) (pe_end_fifo e) (pe_end_now e)). intros w [J1 [J2 J2'] _ J4 J5 _] O F G D EP BB.
  splits; try done; try apply J5; try apply O.
  - unfold motion_get_feedback. cbn. by rewrite F.
  - exists r. unfold motion_get_calibration. rewrite D, G. split; [done |]. intros H. destruct (V H) as [_ V2]. split; [done |]. exact (M H).
Qed.
Definition whole : process_env := calibrating (turning ++ spinning).
Lemma asked_requested : b_cal_request (g_flags asked) = true.
Proof. vm_compute. reflexivity. Qed.
Definition calibrated : service_t := sleeping (motion_process asked whole).
Lemma calibrated_finished : motion_process asked whole = Finished tt calibrated 13500000 [].
Proof.
  assert (E : is_suspended (motion_process asked whole) = false) by (vm_compute; reflexivity).
  assert (T : match motion_process asked whole with Finished _ _ n rest => (n, rest) = (13500000, []) | _ => True end) by (vm_compute; reflexivity).
  unfold calibrated. destruct (motion_process asked whole) as [| [] s n rest]; [done |]. by injection T as -> ->.
Qed.
Lemma calibration_ends_safe_witness :
  option_map (fun r => (cal_valid r, b_enc_r_inverted r)) (motion_get_calibration calibrated) = Some (true, true) /\
  quiet (ctl calibrated) /\ b_busy (ctl calibrated) = false /\
  fb_epoch (g_feedback calibrated) = u32 (fb_epoch (g_feedback asked) + 1) /\
  exists r, motion_get_calibration calibrated = Some r /\
    measured (enc_last (g_encoder asked).1, enc_last (g_encoder asked).2) (pe_fifo whole) (pe_now whole) (pe_ticks whole) r.
Proof.
  assert (V : option_map (fun r => (cal_valid r, b_enc_r_inverted r)) (motion_get_calibration calibrated) = Some (true, true)) by (vm_compute; reflexivity).
  destruct (calibration_ends_safe asked whole calibrated 13500000 [] asked_reachable asked_requested calibrated_finished)
    as (H1 & _ & _ & _ & H2 & _ & H3 & r & H4 & H5).
  split; [exact V |]. split; [exact H1 |]. split; [exact H2 |]. split; [exact H3 |]. exists r. split; [exact H4 |].
  apply H5. rewrite H4 in V. cbn [option_map] in V. injection V as V _. exact V.
Defined.
