(* ===== verification/CalibrationEnds.v ===== *)
(** * Motion service: a calibration ends

    [stop] ends a calibration at the wait it is called in; and a calibration that
    nobody stops ends by itself, whatever the wheels do, because the hand turning is
    limited to two minutes of the clock and the rest is a fixed number of waits. *)
From S2P Require Import Prelude CFloat Motion MotionController MotionSafety MotionPack Drive MessageBuffer MotionService MotionCalibration MotionServiceSafety MotionTaskSafety CalibrationMeasures MotionServiceTheorems.

(** ** Stop *)
Definition in_calibration (s : service_t) : Prop := cal_inv (fun _ => True) s.
Definition stops (t : cal_tick) : Prop := In CoStop (ct_delay t ++ ct_between t).

Lemma abort_view s s' : task_view s' = task_view s -> b_cal_abort (g_flags s') = b_cal_abort (g_flags s).
Proof. unfold task_view. by intros [= _ _ E _ _ _ _ _]. Qed.
Lemma stop_aborts s : in_calibration s -> b_cal_abort (g_flags (stop s)) = true.
Proof.
  intros I. destruct (ci_flags _ s I) as [R Q]. pose proof (view_with_ctl s (motion_controller_stop (ctl s))) as V.
  unfold task_view in V. injection V as V1 V2 V3 V4 V5 V6 V7 V8. unfold stop. cbv zeta.
  revert V1. clear V2 V3 V4 V5 V6 V7 V8. generalize (with_ctl s (motion_controller_stop (ctl s))). intros w V1.
  by rewrite V1, R, orb_true_r.
Qed.
Lemma abort_kept s c : in_calibration s -> b_cal_abort (g_flags s) = true -> b_cal_abort (g_flags (client s c)) = true.
Proof.
  intros I A. destruct (client_effects s c); [done | | | | | |].
  - by rewrite (abort_view _ _ (view_with_ctl s _)).
  - by apply stop_aborts.
  - by rewrite (abort_view _ _ (proj1 (take_view s))).
  - by rewrite (abort_view _ _ (proj1 (ack_view s i))).
  - by rewrite (abort_view _ _ (proj1 (beat_view s e now))).
  - destruct (busy_refused s (proj1 (ci_busy _ s I))) as (_ & _ & _ & _ & ->). exact A.
Qed.
Lemma clients_in_calibration cs s : in_calibration s -> in_calibration (clients s cs).
Proof. apply clients_keep. intros. by apply cal_client. Qed.
Lemma clients_abort cs : forall s, in_calibration s -> b_cal_abort (g_flags s) = true \/ In CoStop cs ->
  b_cal_abort (g_flags (clients s cs)) = true.
Proof.
  induction cs as [| c cs IH]; intros s I H; [by destruct H |]. change (clients s (c :: cs)) with (clients (client s c) cs).
  apply IH; [by apply cal_client |]. destruct H as [H | [-> | H]]; [left; by apply abort_kept | left; by apply stop_aborts | by right].
Qed.
Lemma sample_abort s fifo : b_cal_abort (g_flags (wheel_encoder_sample s fifo)) = b_cal_abort (g_flags s).
Proof. apply abort_view, sample_signs. Qed.
Lemma wait_once_in s t : in_calibration s -> in_calibration (wait_once s t).
Proof. intros I. apply clients_in_calibration, cal_sample. by apply clients_in_calibration. Qed.
Lemma wait_once_stops s t : in_calibration s -> stops t -> b_cal_abort (g_flags (wait_once s t)) = true.
Proof.
  intros I S. apply in_app_iff in S. apply clients_abort; [apply cal_sample; by apply clients_in_calibration |].
  destruct S as [S | S]; [left | by right]. rewrite sample_abort. apply clients_abort; auto.
Qed.

(** The computation ends at the tick [t] in which [stop] is called, with an answer in
    [S], unless it ended before it. *)
Definition responsive_at {A} (c : cal A) (S : A -> Prop) (pre : list cal_tick) : Prop := forall t post s now,
  in_calibration s -> stops t ->
  match c s now (pre ++ t :: post) with
  | Suspended _ => False
  | Finished a s' _ rest => in_calibration s' /\
      ((exists pre', rest = pre' ++ t :: post /\ (length pre' <= length pre)%nat) \/ rest = post /\ S a)
  end.
Definition responsive {A} (c : cal A) (S : A -> Prop) : Prop := forall pre, responsive_at c S pre.
(** The computation does not wait. *)
Definition instant {A} (c : cal A) (S : A -> Prop) : Prop := forall s now ticks, in_calibration s ->
  match c s now ticks with Suspended _ => False | Finished a s' _ rest => rest = ticks /\ in_calibration s' /\ S a end.

Lemma instant_responsive {A} (c : cal A) S T : instant c S -> responsive c T.
Proof.
  intros H pre t post s now I _. specialize (H s now (pre ++ t :: post) I). destruct (c s now _); [done |].
  destruct H as (-> & I' & _). split; [done |]. left. by exists pre.
Qed.
Lemma responsive_bind {A B} (c : cal A) (k : A -> cal B) S T :
  responsive c S -> (forall a, responsive (k a) T) -> (forall a, S a -> instant (k a) T) -> responsive (bind c k) T.
Proof.
  intros H1 H2 H3 pre t post s now I St. specialize (H1 pre t post s now I St). unfold bind.
  destruct (c s now (pre ++ t :: post)) as [| a s1 n rest]; [done |]. destruct H1 as [I1 [(pre' & -> & L) | [-> HS]]].
  - specialize (H2 a pre' t post s1 n I1 St). destruct (k a s1 n _); [done |].
    destruct H2 as [I2 [(pre2 & -> & L2) | H2]]; (split; [done |]); [left; exists pre2; split; [done | lia] | by right].
  - specialize (H3 a HS s1 n post I1). destruct (k a s1 n post); [done |]. destruct H3 as (-> & I2 & HT). split; [done |]. by right.
Qed.
Lemma instant_bind {A B} (c : cal A) (k : A -> cal B) S T : instant c S -> (forall a, S a -> instant (k a) T) -> instant (bind c k) T.
Proof.
  intros H1 H2 s now ticks I. specialize (H1 s now ticks I). unfold bind. destruct (c s now ticks); [done |].
  destruct H1 as (-> & I1 & HS). by apply H2.
Qed.
Lemma instant_ret {A} (a : A) (S : A -> Prop) : S a -> instant (ret a) S.
Proof. intros H s now ticks I. done. Qed.
Lemma instant_reads {A} (f : service_t -> A) : instant (reads f) (fun _ => True).
Proof. intros s now ticks I. done. Qed.
Lemma instant_time : instant time_now_us (fun _ => True).
Proof. intros s now ticks I. done. Qed.
Lemma instant_modify f : (forall s, in_calibration s -> in_calibration (f s)) -> instant (modify f) (fun _ => True).
Proof. intros H s now ticks I. split; [done | split; [by apply H | done]]. Qed.
Lemma brake_in s : in_calibration s -> in_calibration (brake_all s).
Proof. intros I. eapply cal_weaken; [| by apply (cal_brake (fun _ => True))]. done. Qed.
Lemma motor_on_in w d s : in_calibration s -> in_calibration (motor_on w d s).
Proof. intros I. by apply (cal_motors (fun _ => True)). Qed.

Lemma wait_responsive ms : responsive (cal_wait ms) (fun ok => ok = false).
Proof.
  intros pre. revert ms. induction pre as [| t0 pre IH]; intros ms t post s now I St; cbn [app cal_wait]; cbv zeta.
  - change (clients (wheel_encoder_sample (clients s (ct_delay t)) (ct_fifo t)) (ct_between t)) with (wait_once s t).
    rewrite (wait_once_stops s t I St). split; [by apply wait_once_in |]. by right.
  - change (clients (wheel_encoder_sample (clients s (ct_delay t0)) (ct_fifo t0)) (ct_between t0)) with (wait_once s t0).
    pose proof (wait_once_in s t0 I) as I1. case_if; [split; [done |]; left; exists pre; split; [done | cbn; lia] |].
    case_if; [| split; [done |]; left; exists pre; split; [done | cbn; lia]].
    specialize (IH (ms - CAL_POLL_MS) t post (wait_once s t0) (ct_now t0) I1 St). destruct (cal_wait _ _ _ _); [done |].
    destruct IH as [I2 [(pre' & -> & L) | H]]; (split; [done |]); [left; exists pre'; split; [done | cbn; lia] | by right].
Qed.

(** What follows a wait that [stop] ended: no further wait, and failure. *)
Ltac at_once :=
  intros s now ticks I; cbv beta iota zeta delta [bind ret reads modify time_now_us];
  split; [done | split; [repeat apply brake_in; exact I | done]].
Lemma settle_responsive (ok : bool) ms : responsive (if ok then cal_wait ms else ret false) (fun ok => ok = false).
Proof. destruct ok; [apply wait_responsive |]. eapply instant_responsive. by apply (instant_ret false (fun _ => True)). Qed.
Lemma spin_responsive w : responsive (cal_spin w) (fun '(ok, _, _, _) => ok = false).
Proof.
  unfold cal_spin. eapply responsive_bind with (S := fun _ => False);
    [eapply instant_responsive, instant_modify, motor_on_in | intros _ | done].
  eapply responsive_bind; [apply wait_responsive | | intros ok ->; at_once].
  intros ok. eapply responsive_bind with (S := fun _ => False); [eapply instant_responsive, instant_reads | intros b0 | done].
  eapply responsive_bind with (S := fun _ => False); [eapply instant_responsive, instant_time | intros t0 | done].
  eapply responsive_bind; [apply settle_responsive | | intros ok1 ->; at_once].
  intros ok1. eapply responsive_bind with (S := fun _ => False); [eapply instant_responsive, instant_reads | intros b1 | done]. cbv zeta.
  eapply responsive_bind with (S := fun _ => False); [eapply instant_responsive, instant_time | intros t1 | done].
  eapply responsive_bind with (S := fun _ => False); [eapply instant_responsive, instant_modify, brake_in | intros _ | done].
  eapply responsive_bind; [apply settle_responsive | | intros ok2 ->; at_once].
  intros ok2. eapply instant_responsive, (instant_ret _ (fun _ => True)). done.
Qed.
Lemma step2_responsive : responsive cal_step2 (fun r => r = None).
Proof.
  unfold cal_step2. eapply responsive_bind; [apply wait_responsive | | intros ok ->; by apply instant_ret].
  intros ok. destruct (negb ok); [eapply instant_responsive, (instant_ret _ (fun _ => True)); done |].
  eapply responsive_bind; [apply spin_responsive | | intros [[[ok1 ?] ?] ?] ->; by apply instant_ret].
  intros [[[ok1 m1_l] m1_r] s1]. destruct (negb ok1); [eapply instant_responsive, (instant_ret _ (fun _ => True)); done |].
  eapply responsive_bind; [apply spin_responsive | | intros [[[ok2 ?] ?] ?] ->; by apply instant_ret].
  intros [[[ok2 m2_l] m2_r] s2]. eapply instant_responsive, (instant_ret _ (fun _ => True)). done.
Qed.
(** One round of step 1 waits once. *)
Lemma wait_one s now t ticks : cal_wait CAL_POLL_MS s now (t :: ticks) =
  Finished (negb (b_cal_abort (g_flags (wait_once s t)))) (wait_once s t) (ct_now t) ticks.
Proof. cbn [cal_wait]. cbv zeta. fold (wait_once s t). by destruct (b_cal_abort (g_flags (wait_once s t))). Qed.
Lemma step1_responsive fuel b0 : forall start ref lm pre, (length pre < fuel)%nat ->
  responsive_at (cal_step1 fuel start b0 ref lm) (fun r => r = Step1Aborted) pre.
Proof.
  induction fuel as [| fuel IH]; intros start ref lm pre L t post s now I St; [lia |].
  cbn [cal_step1]. unfold bind, reads, time_now_us. cbv zeta.
  assert (Now : forall r, match ret r s now (pre ++ t :: post) with
    | Suspended _ => False
    | Finished a s' _ rest => in_calibration s' /\ ((exists pre', rest = pre' ++ t :: post /\ (length pre' <= length pre)%nat) \/ rest = post /\ a = Step1Aborted)
    end) by (intros r; split; [done |]; left; by exists pre).
  case_if; [apply Now |]. case_if; [apply Now |]. destruct pre as [| t0 pre]; cbn [app]; rewrite wait_one.
  - rewrite (wait_once_stops s t I St). cbn [negb]. split; [by apply wait_once_in |]. by right.
  - pose proof (wait_once_in s t0 I) as I1. cbn [length] in L.
    destruct (b_cal_abort (g_flags (wait_once s t0))); cbn [negb]; [split; [done |]; left; exists pre; split; [done | cbn; lia] |].
    match goal with |- context [cal_step1 fuel start b0 ?r ?l (wait_once s t0) (ct_now t0) _] =>
      specialize (IH start r l pre ltac:(lia) t post (wait_once s t0) (ct_now t0) I1 St);
      destruct (cal_step1 fuel start b0 r l (wait_once s t0) (ct_now t0) (pre ++ t :: post)); [done |] end.
    destruct IH as [I2 [(pre' & -> & L') | H]]; (split; [done |]); [left; exists pre'; split; [done | cbn; lia] | by right].
Qed.
Lemma encoders_in l r s : in_calibration s -> in_calibration (set_encoders l r s).
Proof. apply cal_encoders. Qed.
Lemma calibration_responsive fifo : responsive (run_calibration fifo) (fun r => b_aborted r = true /\ cal_valid r = false).
Proof.
  unfold run_calibration. eapply responsive_bind with (S := fun _ => False); [eapply instant_responsive, instant_time | intros start | done].
  eapply responsive_bind with (S := fun _ => False); [| intros _ | done].
  { eapply instant_responsive, instant_modify. intros s I. by apply cal_sample, brake_in. }
  eapply responsive_bind with (S := fun _ => False); [eapply instant_responsive, instant_reads | intros b0 | done].
  assert (H : responsive (let* fuel := step1_fuel in cal_step1 fuel start b0 b0 start) (fun r => r = Step1Aborted)).
  { intros pre t post s now I St. unfold bind, step1_fuel. apply step1_responsive; [| done | done]. rewrite length_app. cbn. lia. }
  assert (A : forall (k : step1_result -> cal motion_calibration_t) T, (forall r, responsive (k r) T) -> instant (k Step1Aborted) T ->
    responsive (let* fuel := step1_fuel in let* r := cal_step1 fuel start b0 b0 start in k r) T).
  { intros k T H1 H2 pre t post s now I St.
    apply (responsive_bind _ k _ T H H1 (fun r E => eq_ind_r (fun r => instant (k r) T) H2 E) pre t post s now I St). }
  apply A; [| by apply instant_ret]. intros [| l r |]; try (eapply instant_responsive, (instant_ret _ (fun _ => True)); done).
  eapply responsive_bind with (S := fun _ => False); [eapply instant_responsive, instant_reads | intros b | done]. cbv zeta.
  eapply responsive_bind with (S := fun _ => False); [eapply instant_responsive, instant_modify, encoders_in | intros _ | done].
  eapply responsive_bind; [apply step2_responsive | |].
  - intros r. eapply responsive_bind with (S := fun _ => False); [| intros _ | done].
    + eapply instant_responsive, instant_modify. intros s I. by apply brake_in, encoders_in.
    + destruct r as [[[[? ?] ?] [[? ?] ?]] |]; eapply instant_responsive, (instant_ret _ (fun _ => True)); done.
  - intros r ->. eapply instant_bind; [apply instant_modify; intros s I; by apply brake_in, encoders_in | intros _ _]. by apply instant_ret.
Qed.

(** ** Time *)
(** Each wait moves the wrapping clock on by ten milliseconds or more, and by less than 2^31. *)
Fixpoint clocked (now : Z) (ticks : list cal_tick) : Prop :=
  match ticks with
  | [] => True
  | t :: ticks => CAL_POLL_MS * 1000 <= elapsed (ct_now t) now < 2 ^ 31 /\ clocked (ct_now t) ticks
  end.
(** On [n] or more ticks the computation ends, with at most [n] of them used. *)
Definition within_at {A} (c : cal A) (n : nat) (s : service_t) (now : Z) (ticks : list cal_tick) : Prop :=
  match c s now ticks with
  | Suspended _ => False
  | Finished _ _ now' rest => clocked now' rest /\ (length ticks <= length rest + n)%nat
  end.
Definition within {A} (c : cal A) (n : nat) : Prop := forall s now ticks,
  clocked now ticks -> (n <= length ticks)%nat -> within_at c n s now ticks.
Lemma within_bind {A B} (c : cal A) (k : A -> cal B) n m :
  within c n -> (forall a, within (k a) m) -> within (bind c k) (n + m).
Proof.
  intros H1 H2 s now ticks C L. specialize (H1 s now ticks C ltac:(lia)). unfold within_at, bind in *.
  destruct (c s now ticks) as [| a s1 now1 rest]; [done |]. destruct H1 as [C1 L1].
  specialize (H2 a s1 now1 rest C1 ltac:(lia)). unfold within_at in H2. destruct (k a s1 now1 rest); [done |].
  split; [tauto | lia].
Qed.
Lemma within_more {A} (c : cal A) n m : within c n -> (n <= m)%nat -> within c m.
Proof.
  intros H L s now ticks C Lt. specialize (H s now ticks C ltac:(lia)). unfold within_at in *. destruct (c s now ticks); [done |].
  split; [tauto | lia].
Qed.
Lemma within_ret {A} (a : A) n : within (ret a) n.
Proof. intros s now ticks C L. split; [done | lia]. Qed.
Lemma within_reads {A} (f : service_t -> A) : within (reads f) 0.
Proof. intros s now ticks C L. split; [done | lia]. Qed.
Lemma within_time : within time_now_us 0.
Proof. intros s now ticks C L. split; [done | lia]. Qed.
Lemma within_modify f : within (modify f) 0.
Proof. intros s now ticks C L. split; [done | lia]. Qed.
Lemma within_wait n : forall ms, ms <= CAL_POLL_MS * Z.of_nat (S n) -> within (cal_wait ms) (S n).
Proof.
  induction n as [| n IH]; intros ms Hm s now [| t ticks] C L; cbn [length] in L; try lia; unfold within_at; cbn [cal_wait]; cbv zeta;
    destruct C as [_ C]; fold (wait_once s t); (case_if; [split; [done | cbn; lia] |]); unfold CAL_POLL_MS in *.
  - destruct (Z.ltb_spec 0 (ms - 10)); [lia | split; [done | cbn; lia]].
  - destruct (Z.ltb_spec 0 (ms - 10)); [| split; [done | cbn; lia]].
    specialize (IH (ms - 10) ltac:(lia) (wait_once s t) (ct_now t) ticks C ltac:(lia)). unfold within_at in IH.
    destruct (cal_wait (ms - 10) _ _ _); [done |]. cbn [length]. split; [tauto | lia].
Qed.
Lemma within_settle (ok : bool) n : within (if ok then cal_wait (CAL_POLL_MS * Z.of_nat (S n)) else ret false) (S n).
Proof. destruct ok; [apply within_wait; lia | apply within_ret]. Qed.
Lemma within_spin w : within (cal_spin w) 260.
Proof.
  unfold cal_spin. change 260%nat with (0 + (60 + (0 + (0 + (100 + (0 + (0 + (0 + (100 + 0)))))))))%nat.
  repeat (apply within_bind; [| intros ?]).
  - apply within_modify.
  - apply (within_wait 59). done.
  - apply within_reads.
  - apply within_time.
  - apply (within_settle a0 99).
  - apply within_reads.
  - apply within_time.
  - apply within_modify.
  - apply (within_settle a3 99).
  - apply within_ret.
Qed.
Lemma within_step2 : within cal_step2 1020.
Proof.
  unfold cal_step2. change 1020%nat with (500 + (260 + (260 + 0)))%nat.
  apply within_bind; [apply (within_wait 499); done | intros ok]. destruct (negb ok); [apply within_ret |].
  apply within_bind; [apply within_spin | intros [[[ok1 ?] ?] ?]]. destruct (negb ok1); [apply within_ret |].
  apply within_bind; [apply within_spin | intros [[[ok2 ?] ?] ?]]. apply within_ret.
Qed.
(** The hand turning is over once the clock shows two minutes. *)
Lemma within_step1 k b0 : forall fuel start ref lm s now ticks, (k < fuel)%nat -> clocked now ticks -> (k <= length ticks)%nat ->
  elapsed now start <= CAL_STEP1_TIMEOUT_US + 2 ^ 31 -> CAL_STEP1_TIMEOUT_US < elapsed now start + 10000 * Z.of_nat k ->
  within_at (cal_step1 fuel start b0 ref lm) k s now ticks.
Proof.
  induction k as [| k IH]; intros [| fuel] start ref lm s now ticks Hf C L Hm Hk; try lia; unfold within_at;
    cbn [cal_step1]; unfold bind, reads, time_now_us; cbv zeta; (case_if; [split; [done | cbn; lia] |]).
  - destruct (Z.ltb_spec CAL_STEP1_TIMEOUT_US (elapsed now start)); [split; [done | cbn; lia] | lia].
  - destruct (Z.ltb_spec CAL_STEP1_TIMEOUT_US (elapsed now start)); [split; [done | cbn; lia] |].
    destruct ticks as [| t ticks]; cbn [length] in L; [lia |]. destruct C as [Ht C]. rewrite wait_one.
    destruct (b_cal_abort _); cbn [negb]; [split; [done | cbn; lia] |].
    assert (E : elapsed (ct_now t) start = elapsed now start + elapsed (ct_now t) now).
    { unfold CAL_STEP1_TIMEOUT_US, CAL_POLL_MS in *. pose proof (elapsed_range now start) as P. revert Ht H P. unfold elapsed, u32, wrap.
      change (2 ^ 31) with 2147483648. change (2 ^ 32) with 4294967296. intros Ht H P.
      rewrite <- (Z.mod_small ((now - start) mod 4294967296 + (ct_now t - now) mod 4294967296) 4294967296) by lia.
      rewrite <- Zplus_mod. f_equal. lia. }
    match goal with |- match cal_step1 fuel start b0 ?r ?l (wait_once s t) (ct_now t) ticks with _ => _ end =>
      specialize (IH fuel start r l (wait_once s t) (ct_now t) ticks ltac:(lia) C ltac:(lia)) end.
    rewrite E in IH. unfold CAL_STEP1_TIMEOUT_US, CAL_POLL_MS in *. specialize (IH ltac:(lia) ltac:(lia)). unfold within_at in IH.
    destruct (cal_step1 _ _ _ _ _ _ _ _); [done |]. cbn [length]. split; [tauto | lia].
Qed.
(** Step 1's 12001 waits, and the 500 + 2 * (60 + 100 + 100) of step 2. *)
Definition CAL_MAX_WAITS : Z := 13021.
Lemma within_calibration fifo s now ticks : clocked now ticks -> CAL_MAX_WAITS <= Z.of_nat (length ticks) ->
  match run_calibration fifo s now ticks with
  | Suspended _ => False
  | Finished _ _ now' rest => Z.of_nat (length ticks) <= Z.of_nat (length rest) + CAL_MAX_WAITS
  end.
Proof.
  intros C L. unfold CAL_MAX_WAITS in *. set (s1 := wheel_encoder_sample (brake_all s) fifo).
  pose proof (within_step1 (Z.to_nat 12001) (counts s1) (S (length ticks)) now (counts s1) now s1 now ticks
    ltac:(lia) C ltac:(lia)) as H. rewrite elapsed_self in H. specialize (H ltac:(done) ltac:(unfold CAL_STEP1_TIMEOUT_US; lia)). unfold within_at in H.
  unfold run_calibration. unfold bind at 1, time_now_us. unfold bind at 1, modify. unfold bind at 1, reads. unfold bind at 1, step1_fuel.
  unfold bind at 1. fold s1. destruct (cal_step1 _ _ _ _ _ _ _ _) as [| r s2 now2 rest]; [done |]. destruct H as [C2 L2].
  destruct r as [| l r |]; [| unfold ret; lia | unfold ret; lia].
  unfold bind at 1. cbv zeta. unfold bind at 1. set (s3 := set_encoders _ _ s2).
  pose proof (within_step2 s3 now2 rest C2 ltac:(lia)) as H. unfold within_at in H. unfold bind at 1.
  destruct (cal_step2 s3 now2 rest) as [| r2 s4 now4 rest4]; [done |]. unfold bind, ret. lia.
Qed.

(** ** Theorems *)

(** C22: stop ends a calibration.  Whatever a calibration is doing, if [stop] is called
    during a wait of it - or it ends before - the motion task is through with it at the
    end of that wait, ten milliseconds at most: it does not wait again.  A
    calibration that used that wait gives the result "aborted", which is not valid. *)
Theorem calibration_stop_ends s e before t : service_reachable s -> b_cal_request (g_flags s) = true ->
  pe_ticks e = before ++ [t] -> In CoStop (ct_delay t ++ ct_between t) ->
  exists s' now rest, motion_process s e = Finished tt s' now rest /\
    (rest = [] -> b_aborted (g_cal_result s') = true /\ cal_valid (g_cal_result s') = false).
Proof.
  intros R Q E St. destruct (service_reachable_inv s R) as [I _]. destruct (begin_cal s I Q) as [B _].
  unfold motion_process. rewrite Q, E.
  pose proof (calibration_responsive (pe_fifo e) before t [] (calibration_begin s) (pe_now e) B St) as H.
  pose proof (calibration_safe (fun _ => True) (pe_fifo e) _ (pe_now e) (before ++ [t]) (begin_cal s I Q)) as C.
  destruct (run_calibration _ _ _ _) as [| r s1 n rest]; [done |]. do 3 eexists. split; [done |]. intros ->.
  destruct (end_idle s1 r (pe_late e) (pe_end_fifo e) (pe_end_now e) (proj1 C)) as (_ & _ & _ & -> & _).
  destruct H as [_ [(pre' & H & _) | [_ H]]]; [by destruct pre' | done].
Qed.
Definition stopped_tick : cal_tick := {| ct_delay := []; ct_fifo := ([], []); ct_between := [CoStop]; ct_now := 9000000 |}.
Lemma calibration_stop_ends_witness :
  is_suspended (motion_process asked (calibrating (turning ++ take 40 spinning))) = true /\
    exists s' now rest, motion_process asked (calibrating ((turning ++ take 40 spinning) ++ [stopped_tick])) = Finished tt s' now rest /\
    (rest = [] -> b_aborted (g_cal_result s') = true /\ cal_valid (g_cal_result s') = false).
Proof.
  split; [vm_compute; reflexivity |].
  refine (calibration_stop_ends asked (calibrating ((turning ++ take 40 spinning) ++ [stopped_tick]))
    (turning ++ take 40 spinning) stopped_tick asked_reachable asked_requested eq_refl _).
  left. reflexivity.
Defined.

(** C23: a calibration ends by itself.  Whatever the wheels, the encoders and the other
    tasks do, a calibration that may wait 13021 times - 130 seconds of waits - has
    ended: the two minutes of step 1 are measured on the wrapping clock, which only has
    to move on by the ten milliseconds slept, and by less than 2^31, per wait. *)
Theorem calibration_finishes s e : service_reachable s -> b_cal_request (g_flags s) = true ->
  clocked (pe_now e) (pe_ticks e) -> CAL_MAX_WAITS <= Z.of_nat (length (pe_ticks e)) ->
  exists s' now rest, motion_process s e = Finished tt s' now rest /\ b_cal_running (g_flags s') = false /\
    Z.of_nat (length (pe_ticks e)) <= Z.of_nat (length rest) + 13021.
Proof.
  intros R Q C L. destruct (service_reachable_inv s R) as [I _]. pose proof (process_safe s e I) as P. unfold motion_process in *. rewrite Q in *.
  pose proof (within_calibration (pe_fifo e) (calibration_begin s) (pe_now e) (pe_ticks e) C L) as H.
  destruct (run_calibration _ _ _ _) as [| r s1 n rest]; [done |]. do 3 eexists. split; [done |]. split; [| exact H].
  apply (ii_flags _ P).
Qed.
(** Nobody touches the wheels: two minutes of waits. *)
Definition idle_wait (k : nat) : cal_tick :=
  {| ct_delay := []; ct_fifo := ([], []); ct_between := []; ct_now := 12000 + 10000 * (Z.of_nat k + 1) |}.
Definition idle_waits (n : nat) : list cal_tick := map idle_wait (seq 0 n).
Lemma idle_clocked n : forall k, clocked (12000 + 10000 * Z.of_nat k) (map idle_wait (seq k n)).
Proof.
  induction n as [| n IH]; intros k; cbn [seq map clocked]; [done |]. unfold CAL_POLL_MS. split.
  - cbn [ct_now idle_wait]. rewrite elapsed_diff by (change (2 ^ 32) with 4294967296; lia). change (2 ^ 31) with 2147483648. lia.
  - specialize (IH (S k)). replace (12000 + 10000 * Z.of_nat (S k)) with (ct_now (idle_wait k)) in IH by (cbn [ct_now idle_wait]; lia). exact IH.
Qed.
Lemma calibration_finishes_witness :
  exists s' now rest, motion_process asked (calibrating (idle_waits (Z.to_nat 13021))) = Finished tt s' now rest /\
    b_cal_running (g_flags s') = false.
Proof.
  destruct (calibration_finishes asked (calibrating (idle_waits (Z.to_nat 13021))) asked_reachable asked_requested)
    as (s' & n & rest & H1 & H2 & _).
  - exact (idle_clocked (Z.to_nat 13021) 0).
  - unfold calibrating, idle_waits, CAL_MAX_WAITS. cbn [pe_ticks]. rewrite length_map, length_seq. lia.
  - exists s', n, rest. split; [exact H1 | exact H2].
Defined.
