(* ===== verification/MotionPeriods.v ===== *)
(** * Motion service: control periods

    The lease of the navigation owner, the distance of the robot's centre over any
    number of periods, and a request accepted while a calibration is asked for. *)
From S2P Require Import Prelude CFloat Motion MotionController MotionSafety MotionPack Drive MessageBuffer MotionService MotionCalibration MotionServiceSafety MotionTaskSafety CalibrationMeasures MotionServiceTheorems.

(** ** The lease *)
Lemma fault_step m se dt now : m_state m = MOTION_FAULT -> quiet m ->
  let m' := motion_controller_step m se dt now in
  m_state m' = MOTION_FAULT /\ quiet m' /\ fault_bits m' = fault_bits m /\ reports m' = reports m.
Proof.
  intros F Q. cbv zeta. unfold motion_controller_step. cbv zeta. destruct (track_chart m se (step_ms dt)) as (C & M & _).
  set (m1 := track_still _ _ _) in *. clearbody m1. unfold chart in C. injection C as C1 C2 C3 C4 C5 C6.
  destruct (b_busy m1); [splits; try congruence; unfold quiet; rewrite M; apply Q |]. rewrite C1, F.
  destruct (outputs_safe_spec m1) as (Q1 & S1 & F1 & _ & _ & R1). splits; try congruence; apply Q1.
Qed.
Lemma timeout_spec m : motion_inv m -> let m' := motion_controller_navigation_timeout m in
  m_state m' = MOTION_FAULT /\ quiet m' /\ fault_bits m' = Z.lor (fault_bits m) 2 /\
  reports m' = reports m ++ [{| command_id := cmd_id m; outcome := MOTION_OUTCOME_FAULT;
    report_fault := MOTION_FAULT_STALE_COMMAND; b_lost := false |}].
Proof.
  intros [[I1 I1'] I2 [I3 I3'] I4 _]. cbv zeta. destruct (fault_bit_range MOTION_FAULT_STALE_COMMAND) as [B _].
  destruct (raise_faults_spec m _ I4 I1 B ltac:(done)) as (Q & S & _ & _ & _ & _ & _ & Rp).
  unfold motion_controller_navigation_timeout, raise_fault. splits; try done; try apply Q.
  - unfold raise_faults, report. destruct (or_bits _ _ I1 B) as [B3 _]. case_if; cbn -[wrap Z.lor]; by apply wrap_id.
  - rewrite Rp. do 3 f_equal. by apply wrap_id.
Qed.
Lemma control_ctl s fifo now :
  let s1 := estimation_update (wheel_encoder_sample (stamp s now) fifo) (clamp_dt (elapsed now (g_last_step_us s))) in
  let s2 := lease_check s1 now in
  ctl (control_period s fifo now) = motion_controller_step (ctl s2) (sense s2) (clamp_dt (elapsed now (g_last_step_us s))) now /\
  g_navigation_lease (control_period s fifo now) = g_navigation_lease s2.
Proof.
  cbv zeta. set (s1 := estimation_update _ _). set (s2 := lease_check s1 now).
  change (ctl (control_period s fifo now)) with (ctl (drive_motors s2 (clamp_dt (elapsed now (g_last_step_us s))) now)).
  change (g_navigation_lease (control_period s fifo now)) with
    (g_navigation_lease (drive_motors s2 (clamp_dt (elapsed now (g_last_step_us s))) now)).
  unfold drive_motors. set (m := motion_controller_step _ _ _ _). destruct (with_ctl_frame s2 m) as [F ->]. split; [done |].
  unfold frame in F. injection F as F1 F2 F3 F4 F5 F6 F7 F8 F9 F10 F11 F12 F13 F14 F15 F16 F17 F18. congruence.
Qed.
Lemma measured_same s fifo now dt : let s1 := estimation_update (wheel_encoder_sample (stamp s now) fifo) dt in
  ctl s1 = ctl s /\ g_navigation_lease s1 = g_navigation_lease s /\ g_navigation_refresh_us s1 = g_navigation_refresh_us s.
Proof. cbv zeta. unfold wheel_encoder_sample. case_if; done. Qed.

(** *** A period that finds the lease fresh *)
(** Going from [m] to [m'] latches and reports no stale command unless [C]. *)
Definition no_stale (C : Prop) (m m' : motion_t) : Prop :=
  (exists l, reports m' = reports m ++ l /\ Forall (fun r => report_fault r = MOTION_FAULT_STALE_COMMAND -> C) l) /\
  (Z.testbit (fault_bits m') 1 = true -> Z.testbit (fault_bits m) 1 = true \/ C).
Lemma no_stale_same C m m' : reports m' = reports m -> fault_bits m' = fault_bits m -> no_stale C m m'.
Proof. intros R F. split; [exists []; by rewrite app_nil_r |]. rewrite F. by left. Qed.
Lemma no_stale_via C m m1 m' : chart m1 = chart m -> no_stale C m1 m' -> no_stale C m m'.
Proof. unfold chart, no_stale. intros [= _ E2 _ _ _ E6]. by rewrite E2, E6. Qed.
Lemma first_not_stale bits : in_u 5 bits -> Z.testbit bits 1 = false -> motion_fault_first (u8 bits) <> MOTION_FAULT_STALE_COMMAND.
Proof.
  intros H. set (P := fun b : Z => Z.testbit b 1 || negb (bool_decide (motion_fault_first (u8 b) = MOTION_FAULT_STALE_COMMAND))).
  assert (HP : forallb P (range 32) = true) by (vm_compute; reflexivity). rewrite forallb_forall in HP.
  intros T E. assert (B : In bits (range 32)) by (apply elem_range; exact H). specialize (HP bits B). unfold P in HP. by rewrite T, E in HP.
Qed.
Lemma raise_no_stale C m bits : in_u 5 bits -> (Z.testbit bits 1 = true -> C) -> no_stale C m (raise_faults m bits).
Proof.
  intros Hb HC. split.
  - assert (R : reports (raise_faults m bits) = reports m \/ exists r, reports (raise_faults m bits) = reports m ++ [r] /\ report_fault r = motion_fault_first (u8 bits))
      by (unfold raise_faults, report; cbn [has_sink]; case_if; [right; by eexists | by left]).
    destruct R as [-> | (r & -> & F)]; [exists []; by rewrite app_nil_r |]. exists [r]. split; [done |]. constructor; [| constructor].
    rewrite F. intros S. apply HC. destruct (Z.testbit bits 1) eqn:T; [done |]. by destruct (first_not_stale bits Hb T).
  - assert (F : fault_bits (raise_faults m bits) = wrap 5 (Z.lor (fault_bits m) bits)) by (unfold raise_faults, report; case_if; done).
    rewrite F. unfold wrap. rewrite Z.mod_pow2_bits_low, Z.lor_spec by lia. rewrite orb_true_iff. tauto.
Qed.
Lemma wheel_check_fault m se w dt : Z.testbit (MOTION_FAULT_BIT (wheel_check m se w dt).1) 1 = false.
Proof. unfold wheel_check. cbv zeta. cbn [fst]. repeat case_if; reflexivity. Qed.
Lemma active_checks_no_stale C m se dt dn : no_stale C m (active_checks m se dt dn).
Proof.
  unfold active_checks. pose proof (wheel_check_fault m se WHEEL_LEFT dt) as F1. pose proof (wheel_check_chart m se WHEEL_LEFT dt) as C1.
  destruct (wheel_check m se WHEEL_LEFT dt) as [fl m1]. cbn [fst snd] in F1, C1. pose proof (wheel_check_fault m1 se WHEEL_RIGHT dt) as F2.
  pose proof (wheel_check_chart m1 se WHEEL_RIGHT dt) as C2. destruct (wheel_check m1 se WHEEL_RIGHT dt) as [fr m2]. cbn [fst snd] in F2, C2.
  rewrite C1 in C2. apply (no_stale_via C m m2); [done |]. case_if; [| case_if; [| by apply no_stale_same]].
  - apply raise_no_stale; [apply or_bits; apply fault_bit_range |]. rewrite Z.lor_spec, F1, F2. done.
  - split; [| unfold complete, report; case_if; by left]. unfold complete, report. case_if; [| exists []; by rewrite app_nil_r].
    eexists. split; [done |]. by constructor; [| constructor].
Qed.
Definition velocity_stale (m : motion_t) (now : Z) : Prop :=
  m_state m = MOTION_VELOCITY /\ time_after now (u32 (vel_stamp_us m + 250000)) = true.
Lemma step_no_stale m se dt now : no_stale (velocity_stale m now) m (motion_controller_step m se dt now).
Proof.
  unfold motion_controller_step. cbv zeta. destruct (track_chart m se (step_ms dt)) as (C & _ & _ & V & _). set (m1 := track_still _ _ _) in *. clearbody m1.
  apply (no_stale_via _ m m1 _ C). assert (E : m_state m1 = m_state m) by (unfold chart in C; congruence).
  destruct (b_busy m1); [by apply no_stale_same |]. destruct (m_state m1) eqn:S; try (by apply no_stale_same).
  - rewrite V. destruct (time_after _ _) eqn:T.
    + apply raise_no_stale; [by apply fault_bit_range |]. intros _. by split.
    + eapply no_stale_via; [| apply active_checks_no_stale]. by rewrite !wheel_drive_chart.
  - case_if; [apply raise_no_stale; [by apply fault_bit_range | done] |]. pose proof (move_step_chart m1 se dt) as C2.
    destruct (move_step m1 se dt) as [dn m2]. apply (no_stale_via _ m1 m2 _ C2), active_checks_no_stale.
  - case_if; [apply raise_no_stale; [by apply fault_bit_range | done] |]. pose proof (move_step_chart m1 se dt) as C2.
    destruct (move_step m1 se dt) as [dn m2]. apply (no_stale_via _ m1 m2 _ C2), active_checks_no_stale.
Qed.
Definition lease_over (s : service_t) (now : Z) : Prop :=
  g_navigation_lease s = true /\ 30000 < elapsed now (g_navigation_refresh_us s).
Lemma lease_expired_iff s now : motion_lease_expired (g_navigation_lease s) now (g_navigation_refresh_us s) = true <-> lease_over s now.
Proof. unfold motion_lease_expired, lease_over, MOTION_NAVIGATION_LEASE_US. rewrite andb_true_iff, Z.ltb_lt. done. Qed.
(** The statechart after a period, told apart by the lease. *)
Lemma period_lease s fifo now : idle_inv s -> let s' := control_period s fifo now in
  (lease_over s now ->
   quiet (ctl s') /\ m_state (ctl s') = MOTION_FAULT /\ fault_bits (ctl s') = Z.lor (fault_bits (ctl s)) 2 /\ g_navigation_lease s' = false /\
   reports (ctl s') = reports (ctl s) ++ [{| command_id := cmd_id (ctl s); outcome := MOTION_OUTCOME_FAULT;
     report_fault := MOTION_FAULT_STALE_COMMAND; b_lost := false |}]) /\
  (~ lease_over s now -> g_navigation_lease s' = g_navigation_lease s /\
   exists se dt, ctl s' = motion_controller_step (ctl s) se dt now).
Proof.
  intros I. cbv zeta. destruct (control_ctl s fifo now) as [-> ->].
  destruct (measured_same s fifo now (clamp_dt (elapsed now (g_last_step_us s)))) as (C & GL & GR). revert C GL GR.
  generalize (estimation_update (wheel_encoder_sample (stamp s now) fifo) (clamp_dt (elapsed now (g_last_step_us s)))). intros s1 C GL GR.
  unfold lease_check. rewrite GL, GR. pose proof (lease_expired_iff s now) as X.
  destruct (motion_lease_expired (g_navigation_lease s) now (g_navigation_refresh_us s)).
  - split; [intros _ | intros N; destruct N; by apply X]. rewrite C.
    destruct (timeout_spec (ctl s) (ii_chart s I)) as (S1 & Q1 & F1 & R1).
    set (m := motion_controller_navigation_timeout (ctl s)) in *. clearbody m. pose proof (ctl_with_ctl s1 m) as W.
    revert W. generalize (with_ctl s1 m). intros w W. set (s2 := w <| g_navigation_lease := false |>).
    assert (W2 : ctl s2 = m) by exact W. assert (L2 : g_navigation_lease s2 = false) by done. clearbody s2. rewrite W2.
    destruct (fault_step m (sense s2) (clamp_dt (elapsed now (g_last_step_us s))) now S1 Q1) as (S2 & Q2 & F2 & R2).
    splits; try congruence; apply Q2.
  - split; [intros N; apply X in N; done | intros _]. rewrite C, GL. split; [done |]. by eexists _, _.
Qed.
Lemma process_period s e : b_cal_request (g_flags s) = false -> 5000 <= elapsed (pe_now e) (g_last_step_us s) ->
  motion_process s e = Finished tt (control_period s (pe_fifo e) (pe_now e)) (pe_now e) [].
Proof.
  intros Q T. unfold motion_process. rewrite Q. unfold PERIOD_US, S2_PERIOD_MS. change (10 * 1000 / 2) with 5000.
  by destruct (Z.ltb_spec (elapsed (pe_now e) (g_last_step_us s)) 5000); [lia |].
Qed.

(** C21: the lease.  When the navigation owner holds the lease and has not refreshed
    it for more than 30 ms, the next control period - in a drive or a turn as well -
    brakes both motors, latches FAULT with the stale-command bit, reports it under the
    current id and takes the lease away, whatever else the period finds.  While the
    lease is refreshed within 30 ms or not held, the period leaves it alone, and it
    neither latches nor reports a stale command unless a velocity request was not
    renewed for 250 ms. *)
Theorem lease_expiry_brakes s e : service_reachable s -> b_cal_request (g_flags s) = false ->
  5000 <= elapsed (pe_now e) (g_last_step_us s) ->
  exists s', motion_process s e = Finished tt s' (pe_now e) [] /\
    (g_navigation_lease s = true -> 30000 < elapsed (pe_now e) (g_navigation_refresh_us s) ->
     quiet (ctl s') /\ m_state (ctl s') = MOTION_FAULT /\ fault_bits (ctl s') = Z.lor (fault_bits (ctl s)) 2 /\
     g_navigation_lease s' = false /\
     reports (ctl s') = reports (ctl s) ++ [{| command_id := cmd_id (ctl s); outcome := MOTION_OUTCOME_FAULT;
       report_fault := MOTION_FAULT_STALE_COMMAND; b_lost := false |}]) /\
    (g_navigation_lease s = false \/ elapsed (pe_now e) (g_navigation_refresh_us s) <= 30000 ->
     let stale := m_state (ctl s) = MOTION_VELOCITY /\ time_after (pe_now e) (u32 (vel_stamp_us (ctl s) + 250000)) = true in
     g_navigation_lease s' = g_navigation_lease s /\
     (Z.testbit (fault_bits (ctl s')) 1 = true -> Z.testbit (fault_bits (ctl s)) 1 = true \/ stale) /\
     exists l, reports (ctl s') = reports (ctl s) ++ l /\
       Forall (fun r => report_fault r = MOTION_FAULT_STALE_COMMAND -> stale) l).
Proof.
  intros R Q T. destruct (service_reachable_inv s R) as [I _]. eexists. split; [by apply process_period |].
  destruct (period_lease s (pe_fifo e) (pe_now e) I) as [H1 H2]. split; [intros L X; by apply H1 |].
  intros N. destruct H2 as [L (se & dt & C)]; [intros [L X]; destruct N; [congruence | lia] |]. rewrite C.
  destruct (step_no_stale (ctl s) se dt (pe_now e)) as [N1 N2]. by splits.
Qed.
(** Driving under a lease taken at 2 ms and not refreshed. *)
Definition leased : list event := [Call (CoHeartbeat true 2000); Call (CoDrive (flit 1 1) (flit 2 10) 2000); Run (at_ 12000); Run (at_ 22000)].
Definition unattended : service_t := default service0 (history ready leased).
Lemma unattended_reachable : service_reachable unattended.
Proof. refine (reached leased ready ready_reachable _). vm_compute. reflexivity. Qed.
Lemma lease_expiry_brakes_witness :
  m_state (ctl unattended) = MOTION_DRIVE /\ 0 < cc_a (motors (ctl unattended)).1 /\
  (exists s', motion_process unattended (at_ 32001) = Finished tt s' 32001 [] /\ quiet (ctl s') /\ m_state (ctl s') = MOTION_FAULT) /\
  (exists s', motion_process unattended (at_ 32000) = Finished tt s' 32000 [] /\ g_navigation_lease s' = true).
Proof.
  split; [vm_compute; reflexivity |]. split; [vm_compute; reflexivity |].
  assert (E1 : b_cal_request (g_flags unattended) = false) by (vm_compute; reflexivity).
  assert (E3 : g_navigation_lease unattended = true) by (vm_compute; reflexivity). split.
  - assert (E2 : 5000 <= elapsed 32001 (g_last_step_us unattended)) by (vm_compute; discriminate).
    assert (E4 : 30000 < elapsed 32001 (g_navigation_refresh_us unattended)) by (vm_compute; reflexivity).
    destruct (lease_expiry_brakes unattended (at_ 32001) unattended_reachable E1 E2) as (s' & H1 & H2 & _).
    destruct (H2 E3 E4) as (H3 & H4 & _). exists s'. split; [exact H1 | split; [exact H3 | exact H4]].
  - assert (E2 : 5000 <= elapsed 32000 (g_last_step_us unattended)) by (vm_compute; discriminate).
    assert (E4 : elapsed 32000 (g_navigation_refresh_us unattended) <= 30000) by (vm_compute; discriminate).
    destruct (lease_expiry_brakes unattended (at_ 32000) unattended_reachable E1 E2) as (s' & H1 & _ & H2).
    destruct (H2 (or_intror E4)) as (H3 & _). exists s'. split; [exact H1 |]. rewrite H3. exact E3.
Defined.

(** ** Distance of the centre *)
(** A control period, after calls of the other tasks, with the wheels at the given
    counts since power-up; the state machines push the negated count. *)
Record period := { p_calls : list client_call; p_left : Z; p_right : Z; p_now : Z }.
Definition run_period (s : service_t) (p : period) : service_t :=
  control_period (clients s (p_calls p)) ([u32 (- p_left p)], [u32 (- p_right p)]) (p_now p).
(** The distance as the counts would give it if they never wrapped. *)
Definition half_turn (scale : float) (d : Z) : double := dmul (dmul (dlit 5 10) (double_of_Z d)) (double_of_float scale).
Fixpoint unwrapped (scale : float) (centre : double) (l r : Z) (ps : list period) : double :=
  match ps with
  | [] => centre
  | p :: ps => unwrapped scale (dadd (dadd centre (half_turn scale (p_left p - l))) (half_turn scale (p_right p - r))) (p_left p) (p_right p) ps
  end.
(** No wheel moves by 2^19 counts, two hundred turns, within one period. *)
Fixpoint gentle (l r : Z) (ps : list period) : Prop :=
  match ps with
  | [] => True
  | p :: ps => - 2 ^ 19 <= p_left p - l < 2 ^ 19 /\ - 2 ^ 19 <= p_right p - r < 2 ^ 19 /\ gentle (p_left p) (p_right p) ps
  end.

Lemma pushed_bits p : wheel_encoder_bits true false (Z.land (u32 (- p)) WHEEL_COUNT_MASK) = wrap 20 p.
Proof.
  unfold wheel_encoder_bits, WHEEL_COUNT_MASK. cbn [negb]. cbv zeta. change 0xFFFFF with (Z.ones 20).
  rewrite !Z.land_ones by lia. unfold u32, wrap. change (2 ^ 32) with (2 ^ 20 * 2 ^ 12).
  assert (E : forall z, (z mod (2 ^ 20 * 2 ^ 12)) mod 2 ^ 20 = z mod 2 ^ 20).
  { intros z. rewrite Z.rem_mul_r by lia. rewrite Z.mul_comm, Z_mod_plus_full. apply Z.mod_mod. lia. }
  rewrite !E. rewrite Zminus_mod_idemp_r. f_equal. lia.
Qed.
Lemma sampled_counts s l r : g_b_running s = true -> signs s ->
  counts (wheel_encoder_sample s ([u32 (- l)], [u32 (- r)])) = (wrap 20 l, wrap 20 r).
Proof.
  intros R [S1 S2]. unfold wheel_encoder_sample. rewrite R. unfold counts, encoder_bits. cbn [g_b_running g_encoder update_field both sel fst snd].
  unfold encoder_read. cbn [enc_inverted enc_last update_field fold_left sel fst snd]. rewrite S1, S2, R. by rewrite !pushed_bits.
Qed.
Lemma drive_sensors s dt now : sensor_view (drive_motors s dt now) = sensor_view s.
Proof. apply with_ctl_sensors. Qed.
Lemma lease_sensors s now : sensor_view (lease_check s now) = sensor_view s.
Proof.
  unfold lease_check. case_if; [| done]. pose proof (with_ctl_sensors s (motion_controller_navigation_timeout (ctl s))) as E.
  revert E. generalize (with_ctl s (motion_controller_navigation_timeout (ctl s))). intros w E. exact E.
Qed.
Lemma odometer_spec s w : let s' := odometer s w in
  fb_centre_m (g_feedback s') =
    dadd (fb_centre_m (g_feedback s)) (half_turn (g_m_per_count s) (wheel_encoder_delta (encoder_bits s w) (sel (g_feedback_count s) w))) /\
  g_feedback_count s' = upd (g_feedback_count s) w (encoder_bits s w) /\ (forall w', encoder_bits s' w' = encoder_bits s w') /\
  g_b_running s' = g_b_running s /\ g_m_per_count s' = g_m_per_count s.
Proof. cbv zeta. splits; done. Qed.
(** What a period adds to the distance. *)
Lemma period_centre s fifo now : let b := counts (wheel_encoder_sample s fifo) in let s' := control_period s fifo now in
  let add d c := dadd c (half_turn (g_m_per_count s) d) in
  fb_centre_m (g_feedback s') = add (wheel_encoder_delta b.2 (g_feedback_count s).2)
    (add (wheel_encoder_delta b.1 (g_feedback_count s).1) (fb_centre_m (g_feedback s))) /\
  g_feedback_count s' = b /\ g_b_running s' = g_b_running s /\ g_m_per_count s' = g_m_per_count s.
Proof.
  cbv zeta. unfold control_period. cbv zeta. set (dt := clamp_dt _).
  assert (E0 : sensor_view (wheel_encoder_sample (stamp s now) fifo) = sensor_view (wheel_encoder_sample s fifo))
    by (unfold wheel_encoder_sample; change (g_b_running (stamp s now)) with (g_b_running s); destruct (g_b_running s); done).
  assert (E1 : g_feedback (wheel_encoder_sample s fifo) = g_feedback s /\ g_feedback_count (wheel_encoder_sample s fifo) = g_feedback_count s /\
    g_b_running (wheel_encoder_sample s fifo) = g_b_running s /\ g_m_per_count (wheel_encoder_sample s fifo) = g_m_per_count s)
    by (unfold wheel_encoder_sample; destruct (g_b_running s) eqn:R; rewrite <- ?R; done).
  assert (E2 : sensor_view (estimation_update (wheel_encoder_sample (stamp s now) fifo) dt) = sensor_view (wheel_encoder_sample s fifo)) by exact E0.
  revert E0 E1 E2. generalize (estimation_update (wheel_encoder_sample (stamp s now) fifo) dt), (wheel_encoder_sample s fifo).
  intros s1 s0 _ (E1 & E3 & E4 & E5) E2.
  pose proof (eq_trans (drive_sensors (lease_check s1 now) dt now) (eq_trans (lease_sensors s1 now) E2)) as E.
  revert E. generalize (drive_motors (lease_check s1 now) dt now). intros w E. unfold sensor_view in E. injection E as F1 F2 F3 F4 F5 F6.
  assert (B : counts w = counts s0) by (unfold counts, encoder_bits; by rewrite F4, F5).
  destruct (odometer_spec w WHEEL_LEFT) as (L1 & L2 & L3 & L4 & L5).
  destruct (odometer_spec (odometer w WHEEL_LEFT) WHEEL_RIGHT) as (R1 & R2 & R3 & R4 & R5).
  revert L1 L2 L3 L4 L5 R1 R2 R3 R4 R5. generalize (odometer w WHEEL_LEFT).
  intros w1. generalize (odometer w1 WHEEL_RIGHT). intros w2 L1 L2 L3 L4 L5 R1 R2 R3 R4 R5.
  change (fb_centre_m (g_feedback (publish_feedback w2 now))) with (fb_centre_m (g_feedback w2)).
  change (g_feedback_count (publish_feedback w2 now)) with (g_feedback_count w2).
  change (g_b_running (publish_feedback w2 now)) with (g_b_running w2).
  change (g_m_per_count (publish_feedback w2 now)) with (g_m_per_count w2).
  assert (B1 : encoder_bits w WHEEL_LEFT = (counts s0).1) by (by rewrite <- B).
  assert (B2 : encoder_bits w WHEEL_RIGHT = (counts s0).2) by (by rewrite <- B).
  rewrite R1, R2, R4, R5, L1, L2, L3, L4, L5, B1, B2, F1, F2, F5, F6, E1, E3, E4, E5. cbn [sel upd fst snd].
  splits; try done; by destruct (counts s0).
Qed.
Lemma clients_idle cs s : idle_inv s -> idle_inv (clients s cs).
Proof. apply clients_keep. intros. by apply idle_client. Qed.
Lemma periods_centre ps : forall s l r, idle_inv s -> g_b_running s = true -> g_feedback_count s = (wrap 20 l, wrap 20 r) -> gentle l r ps ->
  fb_centre_m (g_feedback (fold_left run_period ps s)) = unwrapped (g_m_per_count s) (fb_centre_m (g_feedback s)) l r ps.
Proof.
  induction ps as [| p ps IH]; intros s l r I R C G; cbn [fold_left unwrapped]; [done |]. destruct G as (G1 & G2 & G).
  pose proof (clients_sensors (p_calls p) s) as E. pose proof (clients_idle (p_calls p) s I) as I1. unfold run_period at 2.
  revert E I1. generalize (clients s (p_calls p)). intros s1 E I1. unfold sensor_view in E. injection E as F1 F2 F3 F4 F5 F6.
  destruct (period_centre s1 ([u32 (- p_left p)], [u32 (- p_right p)]) (p_now p)) as (P1 & P2 & P3 & P4).
  rewrite sampled_counts in P1, P2 by (first [exact (ii_signs _ I1) | congruence]). cbn [fst snd] in P1.
  pose proof (control_idle s1 ([u32 (- p_left p)], [u32 (- p_right p)]) (p_now p) I1) as I2.
  revert P1 P2 P3 P4 I2. generalize (control_period s1 ([u32 (- p_left p)], [u32 (- p_right p)]) (p_now p)). intros s2 P1 P2 P3 P4 I2.
  rewrite (IH s2 (p_left p) (p_right p) I2 ltac:(congruence) P2 G), P4, P1, F2, C, F1, F6. cbn [fst snd]. by rewrite !delta_exact.
Qed.

(** C25: the odometer does not see the wrap.  From any reachable state, over any
    number of control periods with any calls of the other tasks between them, the
    distance of the robot's centre is what the true counts of the wheels give, added up
    in the same floating-point order, although the encoders keep 20 bits of them and
    wrap: it suffices that no wheel moves by 2^19 counts in one period. *)
Theorem odometer_unwrapped s ps l r : service_reachable s -> g_b_running s = true ->
  g_feedback_count s = (wrap 20 l, wrap 20 r) -> gentle l r ps ->
  fb_centre_m (g_feedback (fold_left run_period ps s)) = unwrapped (g_m_per_count s) (fb_centre_m (g_feedback s)) l r ps.
Proof. intros R. apply periods_centre, service_reachable_inv, R. Qed.
(** Both wheels across the wrap at 2^20, with a drive asked for on the way. *)
Definition across : list period :=
  [{| p_calls := []; p_left := 300000; p_right := 300000; p_now := 12000 |};
   {| p_calls := [CoDrive (flit 1 10) (flit 2 10) 15000]; p_left := 700000; p_right := 700007; p_now := 22000 |};
   {| p_calls := [CoStop]; p_left := 1100000; p_right := 1100010; p_now := 32000 |}].
Lemma odometer_unwrapped_witness :
  g_feedback_count (fold_left run_period across ready) = (wrap 20 1100000, wrap 20 1100010) /\
  fb_centre_m (g_feedback (fold_left run_period across ready)) =
    unwrapped (g_m_per_count ready) (fb_centre_m (g_feedback ready)) (-5) (-7) across.
Proof.
  split; [vm_compute; reflexivity |].
  apply (odometer_unwrapped ready across (-5) (-7) ready_reachable); [vm_compute; reflexivity | vm_compute; reflexivity |].
  cbn [gentle across p_left p_right]. change (2 ^ 19) with 524288. splits; lia || exact I.
Defined.

(** ** A command that was accepted before a calibration starts *)
(** The command that ran in [m0] waits in [m], or was called off and reported so. *)
Definition waiting (m0 m : motion_t) : Prop :=
  m_state m = m_state m0 /\ cmd_id m = cmd_id m0 /\ mv_deadline_us m = mv_deadline_us m0 /\ reports m = reports m0.
Definition called_off (m0 m : motion_t) : Prop :=
  m_state m = MOTION_IDLE /\ reports m = reports m0 ++ [{| command_id := cmd_id m0; outcome := MOTION_OUTCOME_CANCELLED;
    report_fault := MOTION_FAULT_NONE; b_lost := false |}].
Definition held (m0 m : motion_t) : Prop := b_busy m = true /\ has_sink m = true /\ (waiting m0 m \/ called_off m0 m).

Lemma held_stop m0 m : in_u 8 (cmd_id m0) -> is_active (m_state m0) = true -> held m0 m -> held m0 (motion_controller_stop m).
Proof.
  intros U A (B & K & [(W1 & W2 & W3 & W4) | (C1 & C2)]); unfold motion_controller_stop.
  - rewrite W1, A. unfold report. rewrite K. rewrite bool_decide_false by (cbn; rewrite W1; by destruct (m_state m0)).
    split; [exact B |]. split; [exact K |]. right. split; [done |]. cbn. rewrite W4, W2. do 3 f_equal. by apply wrap_id.
  - rewrite C1. cbn [is_active]. rewrite bool_decide_false by (by rewrite C1). split; [exact B |]. split; [exact K |]. right. by split.
Qed.
(** While the calibration holds the controller, a call of another task refuses or calls off. *)
Lemma held_op m0 m op : in_u 8 (cmd_id m0) -> is_active (m_state m0) = true -> client_op op = true -> held m0 m -> held m0 (motion_run m op).
Proof.
  intros U A C H. pose proof H as (B & K & S).
  assert (S1 : m_state m <> MOTION_FAULT /\ m_state m <> MOTION_COMPLETE)
    by (destruct S as [(-> & _) | (-> & _)]; [| done]; by destruct (m_state m0)).
  destruct S1 as [S1 S2]. destruct op; try done; cbn [motion_run].
  - unfold motion_controller_request_velocity. cbv zeta. rewrite bool_decide_false by done. by rewrite B.
  - unfold motion_controller_request_move. cbv zeta. rewrite bool_decide_false by done. by rewrite B.
  - unfold motion_controller_request_move. cbv zeta. rewrite bool_decide_false by done. by rewrite B.
  - by apply held_stop.
  - unfold motion_controller_cancel. rewrite bool_decide_false by done. case_if; [done | by apply held_stop].
  - unfold motion_controller_reset. by rewrite bool_decide_false.
  - unfold motion_controller_poll. by rewrite bool_decide_false.
  - unfold motion_controller_ack_complete. by rewrite bool_decide_false.
Qed.
Lemma held_client m0 s c : in_u 8 (cmd_id m0) -> is_active (m_state m0) = true -> held m0 (ctl s) -> held m0 (ctl (client s c)).
Proof.
  intros U A H. destruct (client_effects s c); [done | | | | | |].
  - rewrite ctl_with_ctl. by apply held_op.
  - rewrite stop_ctl. by apply held_stop.
  - by rewrite (proj2 (take_view s)).
  - destruct (ack_view s i) as [_ [-> | [id ->]]]; [done | by apply held_op].
  - by rewrite (proj2 (beat_view s e now)).
  - by rewrite (proj2 (proj2 (proj2 (proj2 (busy_refused s (proj1 H)))))).
Qed.
Lemma held_calibration m0 fifo s now ticks : in_u 8 (cmd_id m0) -> is_active (m_state m0) = true -> held m0 (ctl s) ->
  match run_calibration fifo s now ticks with Suspended z => held m0 (ctl z) | Finished _ z _ _ => held m0 (ctl z) end.
Proof.
  intros U A H. apply (keeps_calibration (fun z => held m0 (ctl z))); try done.
  - intros z c. by apply held_client.
  - intros z f Hz. by rewrite (proj1 (proj2 (sample_view z f))).
Qed.
Lemma held_end m0 s r late fifo now : in_u 8 (cmd_id m0) -> is_active (m_state m0) = true -> held m0 (ctl s) ->
  waiting m0 (ctl (calibration_end s r late fifo now)) \/ called_off m0 (ctl (calibration_end s r late fifo now)).
Proof.
  intros U A H. unfold calibration_end. cbv zeta.
  assert (H1 : held m0 (ctl (wheel_encoder_sample (brake_all s) fifo))) by (by rewrite (proj1 (proj2 (sample_view (brake_all s) fifo)))).
  revert H1. generalize (wheel_encoder_sample (brake_all s) fifo). intros s1 H1. set (s2 := motion_estimation_init s1 _ _).
  assert (H2 : held m0 (ctl (clients s2 late))).
  { apply (clients_keep (fun z => held m0 (ctl z))); [intros z c; by apply held_client | exact H1]. }
  revert H2. generalize (clients s2 late). intros s3 (_ & _ & H3). exact H3.
Qed.

(** The calibration of a task that [s] asks for: asleep or ended, the command is held. *)
Lemma process_held s e : idle_inv s -> b_cal_request (g_flags s) = true -> is_active (m_state (ctl s)) = true ->
  match motion_process s e with
  | Suspended z => waiting (ctl s) (ctl z) \/ called_off (ctl s) (ctl z)
  | Finished _ z _ _ => waiting (ctl s) (ctl z) \/ called_off (ctl s) (ctl z)
  end.
Proof.
  intros I Q A. destruct (ii_chart s I) as [_ _ [U _] K _]. unfold motion_process. rewrite Q.
  assert (H : held (ctl s) (ctl (calibration_begin s))) by (split; [done |]; split; [exact K |]; by left).
  pose proof (held_calibration (ctl s) (pe_fifo e) (calibration_begin s) (pe_now e) (pe_ticks e) U A H) as C.
  destruct (run_calibration _ _ _ _) as [z | r z n rest]; [apply C | by apply held_end].
Qed.
(** The first period past the deadline. *)
Lemma deadline_period s fifo now : idle_inv s -> b_busy (ctl s) = false -> ~ lease_over s now ->
  m_state (ctl s) = MOTION_DRIVE -> time_after now (mv_deadline_us (ctl s)) = true ->
  let s' := control_period s fifo now in
  m_state (ctl s') = MOTION_FAULT /\ quiet (ctl s') /\
  reports (ctl s') = reports (ctl s) ++ [{| command_id := cmd_id (ctl s); outcome := MOTION_OUTCOME_FAULT;
    report_fault := MOTION_FAULT_TIMEOUT; b_lost := false |}].
Proof.
  intros I B N D T. cbv zeta. destruct (period_lease s fifo now I) as [_ H]. destruct (H N) as [_ (se & dt & C)]. rewrite C.
  unfold motion_controller_step. cbv zeta. destruct (track_chart (ctl s) se (step_ms dt)) as (E & _ & Eb & _ & Ed).
  assert (E1 : m_state (track_still (track_glitches (ctl s) se) se (step_ms dt)) = MOTION_DRIVE) by (unfold chart in E; congruence).
  rewrite Eb, B, E1, Ed, T. destruct (timeout_faults (ctl s) se (step_ms dt) MOTION_FAULT_TIMEOUT (ii_chart s I) ltac:(done)) as (F1 & F2 & _ & _ & F3).
  by splits.
Qed.

(** An accepted drive is a new command of an idle controller. *)
Lemma move_accepted m se k a b d v now : in_u 8 (cmd_id m) ->
  let '(res, m') := motion_controller_request_move m se k a b d v now in
  res = MOTION_OK -> m_state m = MOTION_IDLE /\ cmd_id m' = next_id (cmd_id m).
Proof.
  intros U. unfold motion_controller_request_move. cbv zeta. case_if; [done |]. destruct (_ || _ || negb _) eqn:E; [done |]. case_if; [done |].
  intros _. rewrite !orb_false_iff, negb_false_iff, bool_decide_eq_true in E. destruct E as [_ E]. split; [done |].
  destruct (next_id_range _ U) as (_ & _ & N). case_if; [| exact N]. unfold complete, report. case_if; exact N.
Qed.
Lemma drive_accepted s d v now : in_u 8 (cmd_id (ctl s)) -> (motion_request_drive s d v now).1 = MOTION_OK ->
  m_state (ctl s) = MOTION_IDLE /\ cmd_id (ctl (motion_request_drive s d v now).2) = next_id (cmd_id (ctl s)).
Proof.
  intros U. unfold motion_request_drive, request_move. case_if; [done |]. case_if; [done |]. cbv zeta.
  match goal with |- context [motion_controller_request_move ?m ?se ?k ?a ?b ?d ?v ?n] =>
    pose proof (move_accepted m se k a b d v n U) as H; destruct (motion_controller_request_move m se k a b d v n) as [res m'] end.
  cbn [fst snd]. rewrite ctl_with_ctl. exact H.
Qed.

(** C38: a drive can slip in before a calibration.  [motion_request_calibration] sets a
    flag that the requests do not look at: until the motion task starts the
    calibration, a drive can still be accepted, as a new command of an idle controller,
    although [motion_is_calibrating] is already true.  The next run of the motion task
    is the calibration all the same: asleep in it and when it ends, the drive has made
    no step - it waits in DRIVE under its old deadline, with nothing reported, or a call
    of another task has called it off.  A drive that still waits when the calibration ends past its deadline is ended
    by the next control period with a TIMEOUT fault, unless the lease has run out. *)
Theorem calibration_request_race s d v now : service_reachable s -> b_cal_request (g_flags s) = true ->
  (motion_request_drive s d v now).1 = MOTION_OK -> m_state (ctl (motion_request_drive s d v now).2) = MOTION_DRIVE ->
  let s1 := (motion_request_drive s d v now).2 in
  motion_is_calibrating s = true /\ m_state (ctl s) = MOTION_IDLE /\ cmd_id (ctl s1) = next_id (cmd_id (ctl s)) /\
  forall e, match motion_process s1 e with
  | Suspended z => b_cal_running (g_flags z) = true /\ (waiting (ctl s1) (ctl z) \/ called_off (ctl s1) (ctl z))
  | Finished _ z _ _ =>
      quiet (ctl z) /\ b_cal_request (g_flags z) = false /\
      (waiting (ctl s1) (ctl z) \/ called_off (ctl s1) (ctl z)) /\
      forall e2, waiting (ctl s1) (ctl z) -> time_after (pe_now e2) (mv_deadline_us (ctl s1)) = true ->
        5000 <= elapsed (pe_now e2) (g_last_step_us z) ->
        g_navigation_lease z = false \/ elapsed (pe_now e2) (g_navigation_refresh_us z) <= 30000 ->
        exists z2, motion_process z e2 = Finished tt z2 (pe_now e2) [] /\ m_state (ctl z2) = MOTION_FAULT /\ quiet (ctl z2) /\
          reports (ctl z2) = reports (ctl s1) ++ [{| command_id := cmd_id (ctl s1); outcome := MOTION_OUTCOME_FAULT;
            report_fault := MOTION_FAULT_TIMEOUT; b_lost := false |}]
  end.
Proof.
  intros R Q K D. cbv zeta. split; [unfold motion_is_calibrating; by rewrite Q |].
  destruct (drive_accepted s d v now (proj1 (mi_id _ (ii_chart s (proj1 (service_reachable_inv s R))))) K) as [K1 K2].
  split; [done |]. split; [done |]. intros e.
  pose proof (idle_client s (CoDrive d v now) (proj1 (service_reachable_inv s R))) as I. cbn [client] in I.
  assert (Q1 : b_cal_request (g_flags (motion_request_drive s d v now).2) = true).
  { unfold motion_request_drive, request_move. repeat case_if; try exact Q; cbv zeta;
      destruct (motion_controller_request_move _ _ _ _ _ _ _ _) as [res m]; cbn [snd];
      pose proof (view_with_ctl s m) as V; unfold task_view in V; injection V as _ V _ _ _ _ _ _; by rewrite V. }
  revert I Q1 D. generalize ((motion_request_drive s d v now).2). intros s1 I Q1 D.
  pose proof (process_held s1 e I Q1 ltac:(by rewrite D)) as H. pose proof (process_safe s1 e I) as P.
  unfold motion_process in *. rewrite Q1 in *.
  pose proof (calibration_safe (fun _ => True) (pe_fifo e) (calibration_begin s1) (pe_now e) (pe_ticks e) (begin_cal s1 I Q1)) as C.
  destruct (run_calibration _ _ _ _) as [z | r z0 n rest]; [split; [apply (ci_flags _ z P) | done] |].
  destruct (end_idle z0 r (pe_late e) (pe_end_fifo e) (pe_end_now e) (proj1 C)) as (J & O & _ & _ & _ & BB).
  assert (F : b_cal_request (g_flags (calibration_end z0 r (pe_late e) (pe_end_fifo e) (pe_end_now e))) = false).
  { destruct (end_request z0 r (pe_late e) (pe_end_fifo e) (pe_end_now e) (proj1 C)) as [F _]. exact F. }
  revert H J O BB F. generalize (calibration_end z0 r (pe_late e) (pe_end_fifo e) (pe_end_now e)). intros z H J O BB F.
  split; [apply O |]. split; [done |]. split; [done |]. intros e2 (W1 & W2 & W3 & W4) T2 T3 L.
  eexists. split; [by apply (process_period z e2) |]. rewrite <- W4, <- W2.
  apply deadline_period; try done; [| congruence | congruence]. intros [L1 L2]. destruct L; [congruence | lia].
Qed.
(** A drive accepted 3 ms after the calibration was asked for; nobody turns the wheels,
    and it gives up after two minutes. *)
Definition gives_up : process_env :=
  {| pe_now := 12000; pe_fifo := ([5], [7]); pe_ticks := [hand 0 0 120100000]; pe_late := []; pe_end_fifo := ([5], [7]); pe_end_now := 120100000 |}.
#[local] Notation slipped := ((motion_request_drive asked (flit 1 10) (flit 2 10) 3000).2).
Definition resumed : service_t := sleeping (motion_process slipped gives_up).
Lemma resumed_finished : motion_process slipped gives_up = Finished tt resumed 120100000 [].
Proof.
  assert (E : is_suspended (motion_process slipped gives_up) = false) by (vm_compute; reflexivity).
  assert (T : match motion_process slipped gives_up with Finished _ _ n rest => (n, rest) = (120100000, []) | _ => True end) by (vm_compute; reflexivity).
  unfold resumed. destruct (motion_process slipped gives_up) as [| [] s n rest]; [done |]. by injection T as -> ->.
Qed.
Lemma resumed_facts : (motion_request_drive asked (flit 1 10) (flit 2 10) 3000).1 = MOTION_OK /\ m_state (ctl slipped) = MOTION_DRIVE /\
  waiting (ctl slipped) (ctl resumed) /\ time_after 120110000 (mv_deadline_us (ctl slipped)) = true /\
  5000 <= elapsed 120110000 (g_last_step_us resumed) /\ g_navigation_lease resumed = false.
Proof.
  split; [vm_compute; reflexivity |]. split; [vm_compute; reflexivity |].
  split; [split; [| split; [| split]]; vm_compute; reflexivity |].
  split; [vm_compute; reflexivity |]. split; [vm_compute; discriminate | vm_compute; reflexivity].
Qed.
Lemma calibration_request_race_witness :
  (motion_request_drive asked (flit 1 10) (flit 2 10) 3000).1 = MOTION_OK /\ waiting (ctl slipped) (ctl resumed) /\
  exists z2, motion_process resumed (at_ 120110000) = Finished tt z2 120110000 [] /\ m_state (ctl z2) = MOTION_FAULT.
Proof.
  destruct resumed_facts as (E0 & E1 & W & E2 & E3 & E4). split; [exact E0 |]. split; [exact W |].
  destruct (calibration_request_race asked (flit 1 10) (flit 2 10) 3000 asked_reachable asked_requested E0 E1) as (_ & _ & _ & H).
  specialize (H gives_up). rewrite resumed_finished in H. destruct H as (_ & _ & _ & H).
  destruct (H (at_ 120110000) W E2 E3 (or_introl E4)) as (z2 & H1 & H2 & _). exists z2. split; [exact H1 | exact H2].
Defined.
